(* ===== verification/_CoqProject ===== *)
-Q . S2P
Prelude.v
Bitmap.v
DList.v
Pmm.v
PmmInv.v
PmmSpec.v
PmmCount.v
PmmBoot.v
PmmReclaim.v
Dma.v
PmmThms.v
ObjAlloc.v
Vma.v
VmaTree.v
VmaSpec.v
VmaThms.v
Slab.v
SlabList.v
SlabSpec.v
SlabOps.v
SlabThms.v
CString.v
CStringThms.v
UserRange.v
Signal.v
SignalThms.v
SignalSend.v
Ramfs.v
RamfsFile.v
RamfsDir.v
RamfsRename.v
RamfsThms.v
Vfs.v
VfsThms.v
RamfsVfs.v
Paging.v
AddrSpace.v
PagingInv.v
PagingSpec.v
ForkInv.v
KernelHalf.v
ForkSpec.v
Fork.v
PmmFrames.v
PagingThms.v
ForkThms.v
PageFault.v
PageFaultSpec.v
PageFaultThms.v
SysMm.v
ProcMem.v
SysMmSpec.v
Mprotect.v
ProcFault.v
ProcThms.v
MmLimits.v
MmWitness.v
Heap.v
HeapSpec.v
HeapOps.v
HeapBlocks.v
HeapThms.v
NetBase.v
NetSum.v
NetState.v
NetApps.v
Tcp.v
Ipv4.v
TcpApi.v
NetLink.v
NetIp.v
NetThms.v
NetAppThms.v
TcpThms.v
TcpData.v
TcpTimeout.v
Sched.v
SchedThms.v
ThreadTree.v
Futex.v
