(* ===== verification/Prelude.v ===== *)
(** * AscentOS kernel: verification development

    This library models parts of the AscentOS kernel (C, x86_64) as executable
    definitions and proves what they do.  Paths below are relative to [src/].

    ** The program

    The kernel manages physical memory with a buddy allocator (kernel/src/mm/pmm.c).
    On top of it are page tables and page faults (kernel/src/mm/vmm.c), DMA buffers
    (kernel/src/mm/dma_alloc.c), object caches (kernel/src/mm/slab_cache.c) and the
    heap (kernel/src/mm/heap.c).  The regions of a process (kernel/src/mm/vma.c) take
    their nodes from an object cache; the memory system calls
    (kernel/src/syscalls/sys_mm.c) change regions and page tables together, and fork
    shares them copy-on-write.  Signals (kernel/src/syscalls/sys_signal.c) check user
    memory against the regions before they build or read a frame on the user stack.
    The virtual file system (kernel/src/fs/vfs.c) resolves paths over file systems
    such as the one in memory (kernel/src/fs/ramfs.c).  The network stack
    (kernel/src/net) receives frames into a ring and handles them in a polling loop,
    from Ethernet and ARP over IP to ICMP, UDP, DNS, DHCP and TCP.  Threads take turns
    on the run queue of their processor (kernel/src/sched/sched.c) and block on wait
    queues (kernel/src/sched/wait.c) and futexes (kernel/src/syscalls/sys_futex.c),
    which find the word by the page tables of the caller.  Most parts use the
    intrusive lists of kernel/src/lib/list.h and the routines of
    kernel/src/lib/string.c.

    ** How code becomes definitions

    A C function is a Rocq function on the state it uses; static variables and the
    structures reachable from them are a record.  Integers are [Z] with the wrap at
    their width written out ([u8] to [u64], [s32]).  Arrays are lists; structures in
    memory are maps keyed by address, with the fields that link them in one store, so
    that list operations perform the pointer writes of the source.  An operation that
    would follow a bad pointer or never end has the result [None], or [Oob] and [Deep]
    in the network stack.  A loop takes as fuel a bound that its theorems show to be
    enough.  Code of other components is used through a type class that states what it
    promises; where both sides are modelled an instance discharges it.  Operations
    that run under a spinlock are single steps, and log output is left out.

    ** Files

    - Prelude: integers, arrays, the tactics [b2p] and others, the hint database
      [ascent], and lemmas that all components share.
    - Bitmap, DList: the bitmaps of pmm.c, and lib/list.h down to its pointer writes.
    - Pmm, PmmBoot, PmmReclaim: the allocator, [pmm_init] and
      [pmm_reclaim_bootloader]; PmmInv, PmmSpec, PmmCount: the invariant and the
      effect of each operation; Dma: dma_alloc.c; PmmThms: the properties.
    - ObjAlloc: the interface of object allocators.  Slab, SlabList, SlabSpec,
      SlabOps, SlabThms: slab_cache.c, its invariant, and a cache as an
      instance of [ObjAlloc].
    - Vma, VmaTree, VmaSpec, VmaThms: vma.c, the AVL tree of regions, over [ObjAlloc].
    - CString, CStringThms: lib/string.c on a byte-addressed memory.
    - UserRange: the check of user address ranges in vmm.c.
    - Signal, SignalThms, SignalSend: sys_signal.c.
    - Ramfs, RamfsFile, RamfsDir, RamfsRename, RamfsThms: ramfs.c; Vfs, VfsThms:
      vfs.c over the interface [FileSystems]; RamfsVfs: its instance for ramfs.c.
    - Paging, AddrSpace, PageFault: vmm.c over the interface [Frames], for which
      PmmFrames is the instance of the physical memory manager; PagingInv, PagingSpec,
      KernelHalf, ForkInv, ForkSpec, Fork, PageFaultSpec: tables
      as a tree and the effect of each operation; PagingThms, ForkThms,
      PageFaultThms: the properties.
    - SysMm: sys_mm.c; ProcMem: the invariant of a process; SysMmSpec, Mprotect,
      ProcFault: its preservation; ProcThms, MmLimits, MmWitness: the properties, the
      limits and a small process.
    - Heap, HeapSpec, HeapOps, HeapBlocks, HeapThms: heap.c, whose lists are those of
      SlabList.
    - NetBase: byteorder.h and checksum.h, packets as bytes, and the monad [res] of
      computations on them; NetState: net.c, ethernet.c and arp.c over the interface
      [Device] of a card; NetApps: udp.c and the packets of dns.c and dhcp.c; Tcp:
      tcp.c; Ipv4: ipv4.c, icmp.c, the receive loop and the senders; TcpApi: the
      blocking calls of tcp.c.  NetSum, NetLink, NetIp, NetThms, NetAppThms, TcpThms,
      TcpData, TcpTimeout: their properties.
    - Sched: the run queues, the list of threads and the hierarchy of sched.c, and
      wait.c; SchedThms: turns, run queues and wait queues; ThreadTree: the list and
      the hierarchy; Futex: sys_futex.c, with the steps of threads that use it at the
      same time.

    ** What is proved

    - Physical memory: in every state that the operations reach from boot, with blocks
      freed only when no later page of them has a second reference, free blocks
      are disjoint, aligned and agree with the bitmaps ([pmm_reachable_wf]); what
      allocation and freeing do to the set of free pages and the reference counts;
      [pmm_init] builds exactly the usable pages of the memory map; allocation of a
      page succeeds as long as one is free.
    - Page tables: mapping and unmapping implement a map from addresses to pages of three
      sizes, as long as no page is mapped inside a larger one ([vmm_refines_map]); after fork neither process sees the
      writes of the other ([fork_write_isolated]); what fork, copy-on-write faults and
      demand faults do.
    - Memory of a process: the tables stay a tree, every user page lies in a region
      and private pages share no frame, however the system calls and faults follow
      each other, with arguments in the ranges the theorem names
      ([process_memory_sound]); munmap and mmap do exactly what they say;
      the limits are errors that the calls do not check for.
    - Object caches, heap and regions: invariants of every reachable state, when regions
      are not empty and a cache with slabs is not destroyed ([vma_add_empty_leaks] and
      [slab_destroy_leaves_slabs] show why); heap
      blocks never overlap; allocation, release and reallocation; regions kept in a
      real object cache behave as over any allocator ([vma_on_slab_cache]).
    - Strings: the word-at-a-time routines agree with their byte-wise meaning.
    - Signals: sending marks exactly the threads addressed; delivery follows the action of
      the lowest signal and saves the context for a handler; returning restores it after
      a system call, and all but two registers after an interrupt
      ([interrupt_return_loses]).
    - Files: the directory tree stays well formed for names of up to 127 bytes, as long as
      no directory is renamed from inside ([ramfs_rename_dot]); what is written is read back, path
      resolution ends, uses only live nodes and follows the tree.
    - Network: the ring is a bounded queue; the checksum is the one's complement sum;
      packets that are built are accepted, and echo requests are answered when the next
      hop is known; TCP hands out a prefix of the peer's stream whatever arrives, and
      delivers and acknowledges data that are in order; ports are unique; DNS answers are read within bounds; the blocking
      calls return when nothing answers.  The receive loop can recurse without end
      ([net_poll_recurses]), and lengths in headers are trusted.
    - Threads: run queues are disjoint rings and stay so ([runqueues_sound]); a thread
      that can run gets its turn after those before it and those created meanwhile
      ([sched_no_starvation]); wait queues wake the threads of
      their entries; numbers of threads are unique and orphans go to thread 1, but
      a creation without memory for the stack spoils the list ([create_thread_listed]);
      no wake-up of a futex is lost once the table is initialised
      ([futex_no_lost_wakeup]), though the first calls can race ([futex_init_race]), and a wake wakes as many
      waiters of the word as it returns.

    Theorems named after an error or a limit state what the code does where it differs
    from its intention.

    ** Bounds and fuel

    Free lists are walked with as many steps as there are pages in the managed range,
    which no list of disjoint blocks exceeds; orders are below [MAX_ORDER], and the
    loops over them have one step for each.  [entry_fuel] is the number of pages of a
    memory map entry and four more, and each round of its loop takes a page at least.
    Loops over regions have the number of regions of the tree as fuel, since each
    round removes or passes one.  Loops of string.c to a terminator return [None] when
    the fuel is less than the string, and their theorems give the fuel that is enough.
    Paging recurses over the four levels of the tables.  Checksum folding needs two
    rounds and has three.  [skip_labels] has the length of the packet and the DHCP
    option loop its 308 bytes as fuel.  [ipv4_send_packet] has a depth of recursion:
    depth one is enough when the next hop is known, and [net_poll_recurses] shows that
    no depth is enough in general.  Walks along the queues and lists of threads have the
    number of threads as fuel, and those along wait queues the number of entries: in a
    ring or a list without repetition that is enough, as their theorems show.  Blocking
    calls take the list of timer readings, and the theorem asks for one beyond the
    timeout.

    ** Not modelled

    Context switches and the contents of stacks, the address spaces of new threads and
    the reaping of dead ones, program loading and the process system calls: they are assembly code, or
    join parts modelled here with descriptors and user stacks.  System V shared memory,
    which combines regions, page tables and counts in a table of its own.  Sockets and
    epoll, and the file and descriptor system calls: they connect modelled parts with
    wait queues and terminals.  File systems on disk, drivers, consoles, interrupt and
    processor setup: their behaviour is that of devices or of assembly code.  Locks,
    the TLB and log output inside the modelled parts.  Concurrency: operations are
    steps that do not interleave, except that the receive loop re-enters itself and
    that futexes are used by threads whose steps interleave between lock operations;
    both are modelled. *)

From Stdlib Require Export ZArith Lia Bool.
From stdpp Require Export gmap functions prelude.
#[export] Set Default Goal Selector "!".
Open Scope Z_scope.

(** ** Fixed-width unsigned and signed integers *)

Definition u8 (x : Z) : Z := x mod 2 ^ 8.
Definition u16 (x : Z) : Z := x mod 2 ^ 16.
Definition u32 (x : Z) : Z := x mod 2 ^ 32.
Definition u64 (x : Z) : Z := x mod 2 ^ 64.

(** Reinterpretation of the low 32 bits as a two's complement [int32_t]. *)
Definition s32 (x : Z) : Z :=
  let y := u32 x in if y <? 2 ^ 31 then y else y - 2 ^ 32.

Definition U8_MAX : Z := 2 ^ 8 - 1.
Definition PAGE_SIZE : Z := 4096.

(** ** C arrays of machine integers as lists indexed by [Z]

    A read outside the array yields 0 and a write outside leaves the array
    unchanged; the theorems of the components establish that the accesses they
    are about are in range. *)

Definition rd (l : list Z) (i : Z) : Z :=
  if 0 <=? i then default 0 (l !! Z.to_nat i) else 0.

Definition wr (l : list Z) (i v : Z) : list Z :=
  if 0 <=? i then <[Z.to_nat i := v]> l else l.

(** [memset] of [n] cells starting at index [i]. *)
Definition fill (l : list Z) (i n v : Z) : list Z :=
  if 0 <=? i then list_inserts (Z.to_nat i) (replicate (Z.to_nat n) v) l else l.

Definition zlen {A} (l : list A) : Z := Z.of_nat (length l).

(** [for (i = start; n iterations; i++) a = f(i, a)] *)
Fixpoint for_n {A} (n : nat) (i : Z) (f : Z -> A -> A) (a : A) : A :=
  match n with
  | O => a
  | S n' => for_n n' (i + 1) f (f i a)
  end.

(** ** Automation *)

(** Turn boolean comparisons in the context and goal into propositions. *)
Ltac b2p :=
  repeat match goal with
  | H : (_ && _)%bool = true |- _ => apply andb_true_iff in H as [? ?]
  | H : (_ || _)%bool = false |- _ => apply orb_false_iff in H as [? ?]
  | H : (_ && _)%bool = false |- _ => apply andb_false_iff in H
  | H : (_ || _)%bool = true |- _ => apply orb_true_iff in H
  | H : negb _ = true |- _ => apply negb_true_iff in H
  | H : negb _ = false |- _ => apply negb_false_iff in H
  | H : (_ <? _) = true |- _ => apply Z.ltb_lt in H
  | H : (_ <? _) = false |- _ => apply Z.ltb_ge in H
  | H : (_ <=? _) = true |- _ => apply Z.leb_le in H
  | H : (_ <=? _) = false |- _ => apply Z.leb_gt in H
  | H : (_ >? _) = true |- _ => rewrite Z.gtb_ltb in H; apply Z.ltb_lt in H
  | H : (_ >? _) = false |- _ => rewrite Z.gtb_ltb in H; apply Z.ltb_ge in H
  | H : (_ >=? _) = true |- _ => rewrite Z.geb_leb in H; apply Z.leb_le in H
  | H : (_ >=? _) = false |- _ => rewrite Z.geb_leb in H; apply Z.leb_gt in H
  | H : (_ =? _) = true |- _ => apply Z.eqb_eq in H
  | H : (_ =? _) = false |- _ => apply Z.eqb_neq in H
  | H : bool_decide _ = true |- _ => apply bool_decide_eq_true in H
  | H : bool_decide _ = false |- _ => apply bool_decide_eq_false in H
  end.

(** Case analysis on the scrutinee of the first boolean test of the goal. *)
Ltac case_if :=
  match goal with
  | |- context [if ?b then _ else _] =>
      lazymatch b with
      | context [if _ then _ else _] => fail
      | _ => destruct b eqn:?
      end
  end.

Ltac case_if_in H :=
  match type of H with
  | context [if ?b then _ else _] =>
      lazymatch b with
      | context [if _ then _ else _] => fail
      | _ => destruct b eqn:?
      end
  end.

Create HintDb ascent.
Create Rewrite HintDb ascent.

(** ** Integer lemmas *)

Lemma u64_small x : 0 <= x < 2 ^ 64 -> u64 x = x.
Proof. apply Z.mod_small. Qed.

Lemma u64_range x : 0 <= u64 x < 2 ^ 64.
Proof. apply Z.mod_pos_bound. lia. Qed.

Lemma u32_small x : 0 <= x < 2 ^ 32 -> u32 x = x.
Proof. apply Z.mod_small. Qed.

Lemma u32_range x : 0 <= u32 x < 2 ^ 32.
Proof. apply Z.mod_pos_bound. lia. Qed.

Lemma u16_small x : 0 <= x < 2 ^ 16 -> u16 x = x.
Proof. apply Z.mod_small. Qed.

Lemma u16_range x : 0 <= u16 x < 2 ^ 16.
Proof. apply Z.mod_pos_bound. lia. Qed.

Lemma u8_small x : 0 <= x < 2 ^ 8 -> u8 x = x.
Proof. apply Z.mod_small. Qed.

Lemma u8_range x : 0 <= u8 x < 2 ^ 8.
Proof. apply Z.mod_pos_bound. lia. Qed.

#[export] Hint Resolve u64_range u32_range u16_range u8_range : ascent.

Lemma pow2_pos k : 0 <= k -> 0 < 2 ^ k.
Proof. intros. apply Z.pow_pos_nonneg; lia. Qed.

Lemma pow2_succ k : 0 <= k -> 2 ^ (k + 1) = 2 * 2 ^ k.
Proof. intros. rewrite Z.pow_add_r; lia. Qed.

Lemma pow2_le a b : 0 <= a <= b -> 2 ^ a <= 2 ^ b.
Proof. intros. apply Z.pow_le_mono_r; lia. Qed.

#[export] Hint Resolve pow2_pos : ascent.

(** A number below [2^n] has no bit at or above [n]. *)
Lemma testbit_high x n i : 0 <= x < 2 ^ n -> n <= i -> Z.testbit x i = false.
Proof.
  intros Hx Hi. destruct (Z.eq_dec x 0) as [->|Hx0]; [apply Z.bits_0|].
  apply Z.bits_above_log2; [lia|].
  apply Z.log2_lt_pow2; [lia|].
  destruct (Z_lt_le_dec n 0) as [Hn|Hn].
  - rewrite Z.pow_neg_r in Hx by lia. lia.
  - pose proof (Z.pow_le_mono_r 2 n i). lia.
Qed.

(** A nonnegative number with no bit at or above [n] is below [2^n]. *)
Lemma testbit_bound x n :
  0 <= x -> 0 <= n -> (forall i, n <= i -> Z.testbit x i = false) -> x < 2 ^ n.
Proof.
  intros Hx Hn Hb. destruct (Z_lt_le_dec x (2 ^ n)) as [|Hge]; [done|exfalso].
  pose proof (pow2_pos n Hn).
  assert (n <= Z.log2 x) as Hl by (apply Z.log2_le_pow2; lia).
  specialize (Hb _ Hl). rewrite Z.bit_log2 in Hb by lia. done.
Qed.

(** ** Array lemmas *)

Lemma rd_wr l i j v :
  rd (wr l i v) j =
    if (i =? j) && (0 <=? i) && (i <? zlen l) then v else rd l j.
Proof.
  unfold rd, wr, zlen. destruct (0 <=? i) eqn:Hi; b2p.
  2: { by rewrite andb_false_r. }
  destruct (Z.eqb_spec i j) as [<-|Hne]; simpl.
  - rewrite (proj2 (Z.leb_le 0 i)) by lia.
    destruct (Z.ltb_spec i (Z.of_nat (length l))).
    + rewrite list_lookup_insert_eq by lia. done.
    + rewrite list_insert_ge by lia. done.
  - destruct (0 <=? j) eqn:Hj; b2p; [|done].
    rewrite list_lookup_insert_ne by lia. done.
Qed.

Lemma rd_wr_in l i j v : 0 <= i < zlen l -> rd (wr l i v) j = if i =? j then v else rd l j.
Proof.
  intros Hi. rewrite rd_wr, (proj2 (Z.leb_le 0 i)), (proj2 (Z.ltb_lt i _)) by lia. by rewrite !andb_true_r.
Qed.

Lemma zlen_wr l i v : zlen (wr l i v) = zlen l.
Proof. unfold zlen, wr. case_if; [by rewrite length_insert|done]. Qed.

Lemma zlen_fill l i n v : zlen (fill l i n v) = zlen l.
Proof. unfold zlen, fill. case_if; [by rewrite length_inserts|done]. Qed.

Lemma zlen_nonneg {A} (l : list A) : 0 <= zlen l.
Proof. unfold zlen. lia. Qed.
#[export] Hint Resolve zlen_nonneg : ascent.

Lemma rd_fill l i n v j :
  0 <= i -> 0 <= n ->
  rd (fill l i n v) j =
    if (i <=? j) && (j <? i + n) && (j <? zlen l) then v else rd l j.
Proof.
  intros Hi Hn. unfold rd, fill, zlen.
  rewrite (proj2 (Z.leb_le 0 i)) by lia.
  destruct (0 <=? j) eqn:Hj; b2p.
  2: { destruct (Z.leb_spec i j); [lia|done]. }
  destruct (Z.leb_spec i j); simpl.
  2: { rewrite list_lookup_inserts_lt by lia. done. }
  destruct (Z.ltb_spec j (i + n)); simpl.
  2: { rewrite list_lookup_inserts_ge by (rewrite length_replicate; lia). done. }
  destruct (Z.ltb_spec j (Z.of_nat (length l))).
  - rewrite list_lookup_inserts by (rewrite ?length_replicate; lia).
    rewrite lookup_replicate_2 by lia. done.
  - rewrite !lookup_ge_None_2; [done|lia|rewrite length_inserts; lia].
Qed.

Lemma rd_out l i : zlen l <= i -> rd l i = 0.
Proof.
  unfold rd, zlen. intros. case_if; [|done].
  rewrite lookup_ge_None_2 by lia. done.
Qed.

Lemma Forall_wr (P : Z -> Prop) l i v : Forall P l -> P v -> Forall P (wr l i v).
Proof. unfold wr. intros. case_if; [by apply Forall_insert|done]. Qed.

Lemma Forall_rd (P : Z -> Prop) l i : Forall P l -> P 0 -> P (rd l i).
Proof.
  unfold rd. intros Hl H0. case_if; [|done].
  destruct (l !! Z.to_nat i) eqn:Hx; [|done]. simpl.
  by eapply Forall_lookup_1.
Qed.

Lemma Forall_fill (P : Z -> Prop) l i n v : Forall P l -> P v -> Forall P (fill l i n v).
Proof.
  unfold fill. intros Hl Hv. case_if; [|done].
  generalize (Z.to_nat i). induction (Z.to_nat n) as [|k IH]; intros m; [done|].
  simpl. apply Forall_insert; auto.
Qed.

#[export] Hint Resolve Forall_wr Forall_fill : ascent.

Lemma rd_replicate n v i : 0 <= i < Z.of_nat n -> rd (replicate n v) i = v.
Proof.
  intros Hi. unfold rd. rewrite (proj2 (Z.leb_le 0 i)) by lia.
  rewrite lookup_replicate_2 by lia. done.
Qed.

Lemma zlen_replicate {A} n (v : A) : zlen (replicate n v) = Z.of_nat n.
Proof. unfold zlen. by rewrite length_replicate. Qed.

(** Masking out the offset within a page, [x & ~(PAGE_SIZE - 1)] on 64 bits. *)
Lemma land_page_mask x :
  0 <= x < 2 ^ 64 -> Z.land x (u64 (Z.lnot (PAGE_SIZE - 1))) = x / PAGE_SIZE * PAGE_SIZE.
Proof.
  intros Hx. change (u64 (Z.lnot (PAGE_SIZE - 1))) with (Z.shiftl (Z.ones 52) 12).
  change PAGE_SIZE with (2 ^ 12). rewrite <- Z.shiftr_div_pow2, <- Z.shiftl_mul_pow2 by lia.
  apply Z.bits_inj'. intros n Hn. rewrite Z.land_spec, !Z.shiftl_spec by lia.
  destruct (Z.ltb_spec n 12).
  - rewrite !(Z.testbit_neg_r _ (n - 12)) by lia. apply andb_false_r.
  - rewrite Z.shiftr_spec, Z.sub_add by lia. destruct (Z.ltb_spec n 64).
    + rewrite Z.ones_spec_low by lia. apply andb_true_r.
    + rewrite (testbit_high x 64) by lia. done.
Qed.

(** Rule for counted loops. *)
Lemma for_n_ind {A} (I : Z -> A -> Prop) n i (f : Z -> A -> A) a :
  I i a -> (forall j b, i <= j < i + Z.of_nat n -> I j b -> I (j + 1) (f j b)) ->
  I (i + Z.of_nat n) (for_n n i f a).
Proof.
  revert i a. induction n as [|n IH]; intros i a H0 Hs; simpl for_n; [by rewrite Z.add_0_r|].
  replace (i + Z.of_nat (S n)) with ((i + 1) + Z.of_nat n) by lia.
  apply IH; [apply Hs; [lia|done]|]. intros j b Hj. apply Hs. lia.
Qed.

Lemma for_n_id {A} n i (f : Z -> A -> A) a :
  (forall j, i <= j < i + Z.of_nat n -> f j a = a) -> for_n n i f a = a.
Proof.
  intros Hf. apply (for_n_ind (fun _ b => b = a)); [done|]. intros j b Hj ->. by apply Hf.
Qed.
