(* ===== verification/Bitmap.v ===== *)
(** * Page bitmaps of the physical memory manager

    Models the bitmap primitives of [kernel/src/mm/pmm.c]: single-bit test, set
    and clear on an array of bytes, and the two range operations, which set the
    leading bits one by one, the whole bytes with [memset] and the trailing bits
    one by one.  The main lemma relates a range operation to its bit-by-bit
    meaning ([range_op_spec]). *)

From S2P Require Import Prelude.

(** ** Single bits *)

Definition bitmap_clear (bm : list Z) (bit : Z) : list Z :=
  wr bm (bit / 8) (Z.land (rd bm (bit / 8)) (Z.lnot (Z.shiftl 1 (bit mod 8)))).

Definition bitmap_test (bm : list Z) (bit : Z) : bool :=
  negb (Z.land (rd bm (bit / 8)) (Z.shiftl 1 (bit mod 8)) =? 0).

Definition bitmap_set (bm : list Z) (bit : Z) : list Z :=
  wr bm (bit / 8) (Z.lor (rd bm (bit / 8)) (Z.shiftl 1 (bit mod 8))).

(** ** Ranges

    [lead_loop] is [while (idx < end_idx && idx % 8 != 0)], [tail_loop] is
    [while (idx < end_idx)]; both advance [idx] by one, so [end_idx - idx]
    iterations are enough. *)

Fixpoint lead_loop (f : list Z -> Z -> list Z) (fuel : nat) (bm : list Z)
    (idx end_idx : Z) : list Z * Z :=
  match fuel with
  | O => (bm, idx)
  | S n =>
      if (idx <? end_idx) && negb (idx mod 8 =? 0)
      then lead_loop f n (f bm idx) (idx + 1) end_idx
      else (bm, idx)
  end.

Fixpoint tail_loop (f : list Z -> Z -> list Z) (fuel : nat) (bm : list Z)
    (idx end_idx : Z) : list Z :=
  match fuel with
  | O => bm
  | S n => if idx <? end_idx then tail_loop f n (f bm idx) (idx + 1) end_idx else bm
  end.

Definition range_op (f : list Z -> Z -> list Z) (byte : Z)
    (lowest_page highest_page : Z) (bm : list Z) (start_bit count : Z) : list Z :=
  if start_bit <? lowest_page then bm
  else if start_bit >=? highest_page then bm
  else
    let count :=
      if u64 (start_bit + count) >? highest_page then highest_page - start_bit else count in
    let idx := start_bit - lowest_page in
    let end_idx := u64 (idx + count) in
    let '(bm, idx) := lead_loop f (Z.to_nat (end_idx - idx)) bm idx end_idx in
    let '(bm, idx) :=
      if end_idx >? idx then
        let full_bytes := (end_idx - idx) / 8 in
        if full_bytes >? 0
        then (fill bm (idx / 8) full_bytes byte, idx + full_bytes * 8)
        else (bm, idx)
      else (bm, idx) in
    tail_loop f (Z.to_nat (end_idx - idx)) bm idx end_idx.

Definition bitmap_set_range : Z -> Z -> list Z -> Z -> Z -> list Z :=
  range_op bitmap_set 0xFF.

Definition bitmap_clear_range : Z -> Z -> list Z -> Z -> Z -> list Z :=
  range_op bitmap_clear 0.

(** ** Meaning of the operations *)

(** Every cell of the array is a byte. *)
Definition bytes (bm : list Z) : Prop := Forall (fun b => 0 <= b < 256) bm.

(** The bit selected by [bitmap_test]. *)
Lemma bitmap_test_bit bm bit :
  0 <= bit -> bitmap_test bm bit = Z.testbit (rd bm (bit / 8)) (bit mod 8).
Proof.
  intros Hb. unfold bitmap_test.
  pose proof (Z.mod_pos_bound bit 8 ltac:(lia)) as Hm.
  destruct (Z.testbit (rd bm (bit / 8)) (bit mod 8)) eqn:Ht.
  - apply negb_true_iff, Z.eqb_neq. intros H0.
    assert (Z.testbit (Z.land (rd bm (bit / 8)) (Z.shiftl 1 (bit mod 8))) (bit mod 8) = true) as H1.
    { rewrite Z.land_spec, Ht, Z.shiftl_spec by lia.
      by rewrite Z.sub_diag. }
    rewrite H0, Z.bits_0 in H1. done.
  - apply negb_false_iff, Z.eqb_eq, Z.bits_inj'. intros i Hi.
    rewrite Z.land_spec, Z.bits_0, Z.shiftl_spec by lia.
    destruct (Z.eq_dec i (bit mod 8)) as [->|Hne]; [by rewrite Ht|].
    rewrite andb_comm. destruct (Z_lt_le_dec (i - bit mod 8) 0).
    + by rewrite Z.testbit_neg_r by lia.
    + rewrite (testbit_high 1 1) by lia. done.
Qed.

Lemma shiftl1_testbit k i : 0 <= k -> Z.testbit (Z.shiftl 1 k) i = (i =? k).
Proof.
  intros Hk. destruct (Z_lt_le_dec i 0) as [Hi|Hi].
  - rewrite Z.testbit_neg_r by lia. symmetry. apply Z.eqb_neq. lia.
  - rewrite Z.shiftl_spec by lia. destruct (Z.eqb_spec i k) as [->|Hne].
    + by rewrite Z.sub_diag.
    + destruct (Z_lt_le_dec (i - k) 0).
      * by rewrite Z.testbit_neg_r by lia.
      * by apply (testbit_high 1 1); lia.
Qed.

Lemma div_mod_eq_iff i j : 0 <= i -> 0 <= j -> i / 8 = j / 8 -> i mod 8 = j mod 8 -> i = j.
Proof. intros. rewrite (Z.div_mod i 8), (Z.div_mod j 8) by lia. congruence. Qed.

Lemma bitmap_set_test bm i j :
  0 <= i < 8 * zlen bm -> 0 <= j ->
  bitmap_test (bitmap_set bm i) j = (i =? j) || bitmap_test bm j.
Proof.
  intros Hi Hj. rewrite !bitmap_test_bit by lia.
  pose proof (Z.mod_pos_bound i 8 ltac:(lia)). pose proof (Z.mod_pos_bound j 8 ltac:(lia)).
  unfold bitmap_set.
  assert (0 <= i / 8) by (apply Z.div_pos; lia).
  assert (i / 8 < zlen bm) by (apply Z.div_lt_upper_bound; lia).
  rewrite rd_wr. rewrite (proj2 (Z.leb_le 0 (i / 8))) by lia.
  rewrite (proj2 (Z.ltb_lt (i / 8) _)) by lia. rewrite !andb_true_r.
  destruct (Z.eqb_spec (i / 8) (j / 8)) as [E|E].
  - rewrite E, Z.lor_spec, shiftl1_testbit by lia.
    rewrite orb_comm. f_equal. destruct (Z.eqb_spec i j) as [->|N].
    + apply Z.eqb_refl.
    + apply Z.eqb_neq. intros F. apply N. apply div_mod_eq_iff; lia.
  - destruct (Z.eqb_spec i j) as [->|]; done.
Qed.

Lemma bitmap_clear_test bm i j :
  0 <= i < 8 * zlen bm -> 0 <= j ->
  bitmap_test (bitmap_clear bm i) j = negb (i =? j) && bitmap_test bm j.
Proof.
  intros Hi Hj. rewrite !bitmap_test_bit by lia.
  pose proof (Z.mod_pos_bound i 8 ltac:(lia)). pose proof (Z.mod_pos_bound j 8 ltac:(lia)).
  unfold bitmap_clear.
  assert (0 <= i / 8) by (apply Z.div_pos; lia).
  assert (i / 8 < zlen bm) by (apply Z.div_lt_upper_bound; lia).
  rewrite rd_wr. rewrite (proj2 (Z.leb_le 0 (i / 8))) by lia.
  rewrite (proj2 (Z.ltb_lt (i / 8) _)) by lia. rewrite !andb_true_r.
  destruct (Z.eqb_spec (i / 8) (j / 8)) as [E|E].
  - rewrite E, Z.land_spec, Z.lnot_spec, shiftl1_testbit by lia.
    rewrite andb_comm. f_equal. f_equal. destruct (Z.eqb_spec i j) as [->|N].
    + apply Z.eqb_refl.
    + apply Z.eqb_neq. intros F. apply N. apply div_mod_eq_iff; lia.
  - destruct (Z.eqb_spec i j) as [->|]; done.
Qed.

Lemma zlen_bitmap_set bm i : zlen (bitmap_set bm i) = zlen bm.
Proof. apply zlen_wr. Qed.
Lemma zlen_bitmap_clear bm i : zlen (bitmap_clear bm i) = zlen bm.
Proof. apply zlen_wr. Qed.
#[export] Hint Rewrite zlen_bitmap_set zlen_bitmap_clear zlen_fill zlen_wr : ascent.

Lemma bytes_set bm i : bytes bm -> bytes (bitmap_set bm i).
Proof.
  intros Hb. apply Forall_wr; [done|].
  pose proof (Z.mod_pos_bound i 8 ltac:(lia)).
  assert (0 <= rd bm (i / 8) < 256) as Hr by (apply (Forall_rd (fun b => 0 <= b < 256)); [done|lia]).
  assert (0 <= Z.shiftl 1 (i mod 8)) by (apply Z.shiftl_nonneg; lia).
  split; [apply Z.lor_nonneg; lia|].
  apply (testbit_bound _ 8); [apply Z.lor_nonneg; lia|lia|].
  intros k Hk. rewrite Z.lor_spec, (testbit_high _ 8), shiftl1_testbit by lia.
  apply Z.eqb_neq. lia.
Qed.

Lemma bytes_clear bm i : bytes bm -> bytes (bitmap_clear bm i).
Proof.
  intros Hb. apply Forall_wr; [done|].
  assert (0 <= rd bm (i / 8) < 256) as Hr by (apply (Forall_rd (fun b => 0 <= b < 256)); [done|lia]).
  assert (0 <= Z.land (rd bm (i / 8)) (Z.lnot (Z.shiftl 1 (i mod 8)))) by (apply Z.land_nonneg; lia).
  split; [done|]. apply (testbit_bound _ 8); [done|lia|].
  intros k Hk. rewrite Z.land_spec, (testbit_high _ 8) by lia. done.
Qed.
#[export] Hint Resolve bytes_set bytes_clear : ascent.

(** What a single-bit operation must satisfy for the range loops to be
    meaningful: [v] is the value the operation stores. *)
Record bit_op (f : list Z -> Z -> list Z) (v : bool) (byte : Z) : Prop := {
  bop_len : forall bm i, zlen (f bm i) = zlen bm;
  bop_test : forall bm i j, 0 <= i < 8 * zlen bm -> 0 <= j ->
    bitmap_test (f bm i) j = if i =? j then v else bitmap_test bm j;
  bop_byte : forall k, 0 <= k < 8 -> Z.testbit byte k = v;
  bop_bytes : forall bm i, bytes bm -> bytes (f bm i);
  bop_range : 0 <= byte < 256;
}.

Lemma set_bit_op : bit_op bitmap_set true 0xFF.
Proof.
  split; [apply zlen_bitmap_set| | |apply bytes_set|lia].
  - intros. rewrite bitmap_set_test by done. by destruct (i =? j).
  - intros k Hk. assert (k = 0 \/ k = 1 \/ k = 2 \/ k = 3 \/ k = 4 \/ k = 5 \/ k = 6 \/ k = 7) as Hc by lia.
    by destruct Hc as [->|[->|[->|[->|[->|[->|[->| ->]]]]]]].
Qed.

Lemma clear_bit_op : bit_op bitmap_clear false 0.
Proof.
  split; [apply zlen_bitmap_clear| | |apply bytes_clear|lia].
  - intros. rewrite bitmap_clear_test by done. by destruct (i =? j).
  - intros. apply Z.bits_0.
Qed.

Section Range.
Context (f : list Z -> Z -> list Z) (v : bool) (byte : Z) (Hop : bit_op f v byte).

(** [bm'] is [bm] with the bits of [a, b) replaced by [v]. *)
Definition upd_range (bm bm' : list Z) (a b : Z) : Prop :=
  zlen bm' = zlen bm /\ (bytes bm -> bytes bm') /\
  forall j, 0 <= j -> bitmap_test bm' j = if (a <=? j) && (j <? b) then v else bitmap_test bm j.

Lemma upd_range_refl bm a : upd_range bm bm a a.
Proof.
  split_and!; [done|done|]. intros j Hj.
  destruct ((a <=? j) && (j <? a)) eqn:E; [|done]. b2p. lia.
Qed.

Lemma upd_range_trans bm1 bm2 bm3 a b c :
  a <= b <= c -> upd_range bm1 bm2 a b -> upd_range bm2 bm3 b c -> upd_range bm1 bm3 a c.
Proof.
  intros Habc (L1 & B1 & T1) (L2 & B2 & T2). split_and!; [congruence|auto|].
  intros j Hj. rewrite T2, T1 by done.
  destruct (Z.leb_spec b j), (Z.ltb_spec j c), (Z.leb_spec a j), (Z.ltb_spec j b); simpl; lia || done.
Qed.

Lemma upd_range_one bm a : 0 <= a < 8 * zlen bm -> upd_range bm (f bm a) a (a + 1).
Proof.
  intros Ha. split_and!; [apply Hop|apply Hop|]. intros j Hj.
  rewrite (bop_test _ _ _ Hop) by done.
  destruct (Z.eqb_spec a j), (Z.leb_spec a j), (Z.ltb_spec j (a + 1)); simpl; lia || done.
Qed.

Lemma lead_loop_spec fuel bm idx end_idx :
  0 <= idx -> end_idx <= 8 * zlen bm -> (Z.to_nat (end_idx - idx) <= fuel)%nat ->
  let '(bm', idx') := lead_loop f fuel bm idx end_idx in
  upd_range bm bm' idx idx' /\ idx <= idx' /\ (idx <= end_idx -> idx' <= end_idx) /\
  (idx' mod 8 = 0 \/ end_idx <= idx').
Proof.
  revert bm idx. induction fuel as [|n IH]; intros bm idx H0 He Hf; simpl.
  { split; [apply upd_range_refl|]. lia. }
  destruct ((idx <? end_idx) && negb (idx mod 8 =? 0)) eqn:E.
  - b2p. specialize (IH (f bm idx) (idx + 1)).
    rewrite (bop_len _ _ _ Hop) in IH. specialize (IH ltac:(lia) He ltac:(lia)).
    destruct (lead_loop f n (f bm idx) (idx + 1) end_idx) as [bm' idx'].
    destruct IH as (U & Hle & Hle2 & Hd). split_and!; [|lia|lia|done].
    eapply (upd_range_trans _ _ _ _ (idx + 1)); [lia| |exact U].
    apply upd_range_one. lia.
  - split; [apply upd_range_refl|]. b2p. destruct E; b2p; lia.
Qed.

Lemma tail_loop_spec fuel bm idx end_idx :
  0 <= idx <= end_idx -> end_idx <= 8 * zlen bm -> (Z.to_nat (end_idx - idx) <= fuel)%nat ->
  upd_range bm (tail_loop f fuel bm idx end_idx) idx end_idx.
Proof.
  revert bm idx. induction fuel as [|n IH]; intros bm idx H0 He Hf; simpl.
  { replace end_idx with idx by lia. apply upd_range_refl. }
  destruct (idx <? end_idx) eqn:E; b2p.
  - eapply (upd_range_trans _ _ _ _ (idx + 1)); [lia|apply upd_range_one; lia|].
    apply IH; [lia| |lia]. rewrite (bop_len _ _ _ Hop). done.
  - replace end_idx with idx by lia. apply upd_range_refl.
Qed.

Lemma fill_spec bm idx n :
  0 <= idx -> idx mod 8 = 0 -> 0 <= n -> idx + n * 8 <= 8 * zlen bm ->
  upd_range bm (fill bm (idx / 8) n byte) idx (idx + n * 8).
Proof.
  intros Hi Hm Hn Hl.
  assert (0 <= idx / 8) by (apply Z.div_pos; lia).
  split_and!; [apply zlen_fill| |].
  { intros Hb. apply Forall_fill; [done|]. apply Hop. }
  intros j Hj. rewrite !bitmap_test_bit by done. rewrite rd_fill by lia.
  pose proof (Z.div_mod idx 8 ltac:(lia)). pose proof (Z.div_mod j 8 ltac:(lia)).
  pose proof (Z.mod_pos_bound j 8 ltac:(lia)).
  destruct (Z.leb_spec idx j), (Z.ltb_spec j (idx + n * 8)),
    (Z.leb_spec (idx / 8) (j / 8)), (Z.ltb_spec (j / 8) (idx / 8 + n)),
    (Z.ltb_spec (j / 8) (zlen bm)); simpl; try lia; try done.
  apply Hop. lia.
Qed.

(** A range operation stores [v] in exactly the bits of the clipped range. *)
Lemma range_op_spec lo hi bm s c :
  0 <= lo -> hi - lo <= 8 * zlen bm -> hi < 2 ^ 63 -> lo <= s < hi -> 0 <= c < 2 ^ 63 ->
  upd_range bm (range_op f byte lo hi bm s c) (s - lo) (Z.min (s + c) hi - lo).
Proof.
  intros Hlo Hsz Hhi Hs Hc. unfold range_op.
  rewrite (proj2 (Z.ltb_ge s lo)) by lia.
  rewrite Z.geb_leb, (proj2 (Z.leb_gt hi s)) by lia.
  rewrite (u64_small (s + c)) by lia.
  set (cnt := if s + c >? hi then hi - s else c).
  assert (cnt = Z.min (s + c) hi - s) as Hcnt.
  { unfold cnt. destruct (s + c >? hi) eqn:E; b2p; lia. }
  rewrite (u64_small (s - lo + cnt)) by lia.
  set (idx := s - lo). set (e := idx + cnt).
  replace (Z.min (s + c) hi - lo) with e by lia.
  pose proof (lead_loop_spec (Z.to_nat (e - idx)) bm idx e ltac:(lia) ltac:(lia) ltac:(lia)) as HL.
  destruct (lead_loop f (Z.to_nat (e - idx)) bm idx e) as [bm1 i1].
  destruct HL as (U1 & Hle & Hle2 & Hd). specialize (Hle2 ltac:(lia)).
  destruct (e >? i1) eqn:E1; b2p.
  2: { replace i1 with e in U1 |- * by lia. rewrite Z.sub_diag. exact U1. }
  assert (i1 mod 8 = 0) as Hmod by lia.
  pose proof (Z.div_mod (e - i1) 8 ltac:(lia)). pose proof (Z.mod_pos_bound (e - i1) 8 ltac:(lia)).
  destruct U1 as (L1 & U1).
  destruct ((e - i1) / 8 >? 0) eqn:E2; b2p.
  - eapply (upd_range_trans _ bm1 _ _ i1); [lia|done|].
    eapply (upd_range_trans _ _ _ _ (i1 + (e - i1) / 8 * 8)); [lia|apply fill_spec; lia|].
    apply tail_loop_spec; [lia| |lia]. rewrite zlen_fill. lia.
  - eapply (upd_range_trans _ bm1 _ _ i1); [lia|done|].
    apply tail_loop_spec; lia.
Qed.

Lemma range_op_out lo hi bm s c : s < lo \/ hi <= s -> range_op f byte lo hi bm s c = bm.
Proof.
  intros H. unfold range_op. destruct (s <? lo) eqn:E; [done|]. b2p.
  by rewrite Z.geb_leb, (proj2 (Z.leb_le hi s)) by lia.
Qed.

End Range.
