(* ===== verification/DList.v ===== *)
(** * Intrusive circular doubly-linked lists

    Models [kernel/src/lib/list.h] at the level of pointers: the [next] and
    [prev] fields of every [struct list_head] are two maps from the address of
    the structure to the stored pointer, and every operation performs the same
    field writes as the C code, in the same order.  [dlist m h l] says that the
    list headed at [h] holds exactly the nodes [l]; the lemmas show that the
    pointer operations implement the corresponding operations on [l] and leave
    every list that shares no node alone. *)

From S2P Require Import Prelude.

Record lmem := Lmem { lnext : gmap Z Z; lprev : gmap Z Z }.

Definition get_next (m : lmem) (p : Z) : Z := default 0 (lnext m !! p).
Definition get_prev (m : lmem) (p : Z) : Z := default 0 (lprev m !! p).
Definition set_next (m : lmem) (p v : Z) : lmem := Lmem (<[p := v]> (lnext m)) (lprev m).
Definition set_prev (m : lmem) (p v : Z) : lmem := Lmem (lnext m) (<[p := v]> (lprev m)).

Definition INIT_LIST_HEAD (m : lmem) (list : Z) : lmem :=
  let m := set_next m list list in
  set_prev m list list.

Definition __list_add (m : lmem) (newNode prev next : Z) : lmem :=
  let m := set_prev m next newNode in
  let m := set_next m newNode next in
  let m := set_prev m newNode prev in
  set_next m prev newNode.

Definition list_add (m : lmem) (newNode head : Z) : lmem :=
  __list_add m newNode head (get_next m head).

Definition list_add_tail (m : lmem) (newNode head : Z) : lmem :=
  __list_add m newNode (get_prev m head) head.

Definition __list_del (m : lmem) (prev next : Z) : lmem :=
  let m := set_prev m next prev in
  set_next m prev next.

(** Start of the kernel half of the address space, the bound [list_del] checks
    both links against. *)
Definition KERNEL_HALF : Z := 0xFFFF800000000000.

Definition list_del (m : lmem) (entry : Z) : lmem :=
  if (entry =? 0) || (get_next m entry =? 0) || (get_prev m entry =? 0) then m
  else if (get_next m entry <? KERNEL_HALF) || (get_prev m entry <? KERNEL_HALF) then m
  else
    let m := __list_del m (get_prev m entry) (get_next m entry) in
    let m := set_next m entry 0 in
    set_prev m entry 0.

Definition list_empty (m : lmem) (head : Z) : bool := get_next m head =? head.

(** [list_for_each]: the nodes visited from [pos] until [head] is reached, at
    most [fuel] of them; [None] when the traversal has not come back to [head]
    within the fuel. *)
Fixpoint list_for_each_from (fuel : nat) (m : lmem) (pos head : Z) : option (list Z) :=
  if pos =? head then Some []
  else match fuel with
       | O => None
       | S n => (fun l => pos :: l) <$> list_for_each_from n m (get_next m pos) head
       end.

Definition list_for_each (fuel : nat) (m : lmem) (head : Z) : option (list Z) :=
  list_for_each_from fuel m (get_next m head) head.

(** ** Representation *)

(** Consecutive nodes point at each other. *)
Definition linked (m : lmem) (a b : Z) : Prop :=
  get_next m a = b /\ get_prev m b = a.

Fixpoint seg (m : lmem) (a : Z) (l : list Z) (b : Z) : Prop :=
  match l with
  | [] => linked m a b
  | x :: l' => linked m a x /\ seg m x l' b
  end.

Definition dlist (m : lmem) (h : Z) (l : list Z) : Prop :=
  NoDup (h :: l) /\ seg m h l h.

(** ** Field access *)

Lemma get_next_set m p q v : get_next (set_next m p v) q = if p =? q then v else get_next m q.
Proof.
  unfold get_next, set_next; simpl. destruct (Z.eqb_spec p q) as [->|].
  - by rewrite lookup_insert_eq.
  - by rewrite lookup_insert_ne.
Qed.
Lemma get_prev_set m p q v : get_prev (set_prev m p v) q = if p =? q then v else get_prev m q.
Proof.
  unfold get_prev, set_prev; simpl. destruct (Z.eqb_spec p q) as [->|].
  - by rewrite lookup_insert_eq.
  - by rewrite lookup_insert_ne.
Qed.
Lemma get_next_set_prev m p q v : get_next (set_prev m p v) q = get_next m q.
Proof. done. Qed.
Lemma get_prev_set_next m p q v : get_prev (set_next m p v) q = get_prev m q.
Proof. done. Qed.

Create Rewrite HintDb links.
#[export] Hint Rewrite get_next_set get_prev_set get_next_set_prev get_prev_set_next : links.

(** Decide the pointer comparisons left by [autorewrite with links]. *)
Ltac ptr_eq :=
  repeat match goal with
  | |- context [?a =? ?a] => rewrite (Z.eqb_refl a)
  | H : ?a <> ?b |- context [?a =? ?b] => rewrite (proj2 (Z.eqb_neq a b) H)
  | H : ?b <> ?a |- context [?a =? ?b] => rewrite (proj2 (Z.eqb_neq a b) (not_eq_sym H))
  end.

(** ** Segments *)

Lemma seg_app m a l1 x l2 b : seg m a (l1 ++ x :: l2) b <-> seg m a l1 x /\ seg m x l2 b.
Proof.
  revert a. induction l1 as [|y l1 IH]; intros a; simpl; [done|].
  rewrite IH. tauto.
Qed.

(** A segment reads [next] of [a :: l] and [prev] of [l ++ [b]] only. *)
Lemma seg_frame m m' a l b :
  (forall x, x = a \/ x ∈ l -> get_next m' x = get_next m x) ->
  (forall x, x = b \/ x ∈ l -> get_prev m' x = get_prev m x) ->
  seg m a l b -> seg m' a l b.
Proof.
  revert a. induction l as [|x l IH]; intros a Hn Hp; simpl; unfold linked.
  - rewrite Hn, Hp by (by left). done.
  - intros [[H1 H2] Hs]. split.
    + rewrite Hn by (by left). rewrite Hp by (right; left). done.
    + apply IH; [| |done].
      * intros y [->|Hy]; apply Hn; right; [left|by right].
      * intros y [->|Hy]; apply Hp; [by left|right; by right].
Qed.

Lemma seg_last m a l b : seg m a l b -> get_prev m b = List.last l a.
Proof.
  revert a. induction l as [|x l IH]; intros a; simpl.
  - by intros [_ ?].
  - intros [_ Hs]. rewrite (IH _ Hs). destruct l; [done|]. simpl.
    clear. revert z. induction l as [|y l IH]; intros z; [done|]. simpl. apply IH.
Qed.

Lemma seg_head m a l b : seg m a l b -> get_next m a = hd b l.
Proof. destruct l; [by intros [? _]|by intros [[? _] _]]. Qed.

(** ** The list operations on represented lists *)

Lemma dlist_INIT m h : dlist (INIT_LIST_HEAD m h) h [].
Proof.
  split; [apply NoDup_singleton|]. unfold INIT_LIST_HEAD, seg, linked.
  autorewrite with links. by ptr_eq.
Qed.

Lemma dlist_list_empty m h l : dlist m h l -> list_empty m h = bool_decide (l = []).
Proof.
  intros [Hnd Hs]. unfold list_empty. rewrite (seg_head _ _ _ _ Hs).
  destruct l as [|x l]; simpl.
  - by rewrite Z.eqb_refl.
  - apply Z.eqb_neq.
    apply NoDup_cons in Hnd as [Hh _]. set_solver.
Qed.

(** Splitting a segment at an arbitrary point: the links inside [a :: l1], the
    one that crosses, and the links from the first node of [l2] on. *)
Fixpoint open_seg (m : lmem) (a : Z) (l : list Z) : Prop :=
  match l with
  | [] => True
  | x :: l' => linked m a x /\ open_seg m x l'
  end.

Definition tail_seg (m : lmem) (l : list Z) (b : Z) : Prop :=
  match l with
  | [] => True
  | x :: l' => seg m x l' b
  end.

Lemma last_cons_default {A} (x : A) l d e : List.last (x :: l) d = List.last (x :: l) e.
Proof. revert x. induction l as [|y l IH]; intros x; [done|]. apply (IH y). Qed.

Lemma last_cons {A} (x : A) l d : List.last (x :: l) d = List.last l x.
Proof. destruct l as [|y l]; [done|]. apply (last_cons_default y l d x). Qed.

Lemma last_in {A} (l : list A) a : List.last l a ∈ a :: l.
Proof.
  destruct l as [|y l _] using rev_ind; [left|]. rewrite List.last_last. set_solver.
Qed.

Lemma hd_in {A} (l : list A) a : hd a l ∈ a :: l.
Proof. destruct l; simpl; set_solver. Qed.

Lemma seg_split m a l1 l2 b :
  seg m a (l1 ++ l2) b <->
  open_seg m a l1 /\ linked m (List.last l1 a) (hd b l2) /\ tail_seg m l2 b.
Proof.
  revert a. induction l1 as [|x l1 IH]; intros a.
  - destruct l2; simpl; tauto.
  - cbn [app seg open_seg]. rewrite IH, last_cons. tauto.
Qed.

Lemma open_seg_frame m m' a l :
  NoDup (a :: l) ->
  (forall x, x ∈ a :: l -> x <> List.last l a -> get_next m' x = get_next m x) ->
  (forall x, x ∈ l -> get_prev m' x = get_prev m x) ->
  open_seg m a l -> open_seg m' a l.
Proof.
  revert a. induction l as [|x l IH]; intros a Hnd Hn Hp; [done|].
  intros [[H1 H2] Ho]. rewrite last_cons in Hn. apply NoDup_cons in Hnd as [Ha Hnd].
  split.
  - split; [rewrite Hn|rewrite Hp]; [done|left| |done|left].
    pose proof (last_in l x). intros ->. done.
  - apply IH; [done| | |done]; intros y Hy; [apply Hn|apply Hp]; by right.
Qed.

Lemma tail_seg_frame m m' l b :
  NoDup l -> b ∉ l ->
  (forall x, x ∈ l -> get_next m' x = get_next m x) ->
  (forall x, x ∈ b :: l -> x <> hd b l -> get_prev m' x = get_prev m x) ->
  tail_seg m l b -> tail_seg m' l b.
Proof.
  destruct l as [|z l]; [done|]. intros Hnd Hb Hn Hp. apply NoDup_cons in Hnd as [Hz _].
  simpl. apply seg_frame.
  - intros x Hx. apply Hn. set_solver.
  - intros x Hx. apply Hp; set_solver.
Qed.

(** Appending: [list_add_tail] of a node that is in no list. *)
Lemma dlist_add_tail m h l x :
  dlist m h l -> x <> h -> x ∉ l -> dlist (list_add_tail m x h) h (l ++ [x]).
Proof.
  intros [Hnd Hs] Hxh Hxl.
  rewrite <- (app_nil_r l) in Hs. apply seg_split in Hs as (Ho & [_ Hp] & _). simpl in Hp.
  pose proof (last_in l h) as Hpin. set (p := List.last l h) in *.
  assert (x <> p) by set_solver. apply NoDup_cons in Hnd as [Hh Hnd].
  split.
  { apply NoDup_cons. split; [set_solver|].
    apply NoDup_app. split_and!; [done|set_solver|apply NoDup_singleton]. }
  unfold list_add_tail, __list_add. rewrite Hp. apply seg_split. fold p. split_and!.
  - eapply open_seg_frame; [by apply NoDup_cons| | |exact Ho]; intros y Hy; autorewrite with links.
    + intros Hyp. fold p in Hyp. assert (x <> y) by set_solver. by ptr_eq.
    + assert (x <> y) by set_solver. assert (h <> y) by set_solver. by ptr_eq.
  - unfold linked. simpl. autorewrite with links. by ptr_eq.
  - simpl. unfold linked. autorewrite with links. by ptr_eq.
Qed.

(** Unlinking one node; the links of every node of the list are kernel
    addresses, so the sanity checks of [list_del] pass. *)
Lemma dlist_del m h l1 x l2 :
  dlist m h (l1 ++ x :: l2) -> (forall y, y ∈ h :: l1 ++ x :: l2 -> KERNEL_HALF <= y) ->
  dlist (list_del m x) h (l1 ++ l2).
Proof.
  intros [Hnd Hs] Hk. apply (seg_split m h l1 (x :: l2)) in Hs as (Ho & [_ Hp] & Hs2).
  apply (seg_split m x [] l2) in Hs2 as (_ & [Hn _] & Ht). simpl in Hp, Hn.
  apply NoDup_cons in Hnd as [Hh Hnd]. apply NoDup_app in Hnd as (Hnd1 & Hd & Hnd2).
  apply NoDup_cons in Hnd2 as [Hx2 Hnd2].
  rewrite not_elem_of_app, not_elem_of_cons in Hh. destruct Hh as (Hh1 & Hxh & Hh2).
  pose proof (last_in l1 h) as Hpin. pose proof (hd_in l2 h) as Hnin.
  set (p := List.last l1 h) in *. set (n := hd h l2) in *.
  assert (x ∉ l1) as Hx1 by (intros E; eapply Hd; [exact E|left]).
  assert (forall y, y ∈ l1 -> y ∉ l2) as Hd' by (intros y E F; eapply Hd; [exact E|by right]).
  clear Hd.
  assert (KERNEL_HALF <= x /\ KERNEL_HALF <= p /\ KERNEL_HALF <= n) as (Kx & Kp & Kn).
  { clear -Hpin Hnin Hk. split_and!; apply Hk; set_solver. }
  clear Hk. assert (0 < KERNEL_HALF) by done.
  assert (x <> p) by (intros <-; apply elem_of_cons in Hpin as [?|?]; congruence).
  assert (x <> n) by (intros <-; apply elem_of_cons in Hnin as [?|?]; congruence).
  assert (forall y, y ∈ l1 -> n <> y) as Hny.
  { intros y Hy <-. apply elem_of_cons in Hnin as [?|?]; [congruence|by eapply Hd']. }
  assert (forall y, y ∈ l2 -> p <> y) as Hpy.
  { intros y Hy <-. apply elem_of_cons in Hpin as [?|?]; [congruence|by eapply Hd']. }
  split; [apply NoDup_cons; split; [rewrite not_elem_of_app; done|by apply NoDup_app]|].
  unfold list_del. rewrite Hp, Hn.
  rewrite (proj2 (Z.eqb_neq x 0)), (proj2 (Z.eqb_neq n 0)), (proj2 (Z.eqb_neq p 0)) by lia.
  rewrite (proj2 (Z.ltb_ge n _)), (proj2 (Z.ltb_ge p _)) by lia. simpl. unfold __list_del.
  apply seg_split. fold p n. split_and!.
  - eapply open_seg_frame; [by apply NoDup_cons| | |exact Ho]; intros y Hy; autorewrite with links.
    + intros Hyp. fold p in Hyp.
      assert (x <> y) by (intros <-; apply elem_of_cons in Hy as [?|?]; congruence). by ptr_eq.
    + specialize (Hny y Hy). assert (x <> y) by congruence. by ptr_eq.
  - unfold linked. autorewrite with links. by ptr_eq.
  - eapply tail_seg_frame; [done|done| | |exact Ht]; intros y Hy; autorewrite with links.
    + specialize (Hpy y Hy). assert (x <> y) by congruence. by ptr_eq.
    + intros Hyn. fold n in Hyn.
      assert (x <> y) by (intros <-; apply elem_of_cons in Hy as [?|?]; congruence). by ptr_eq.
Qed.

(** ** Framing: operations on one list leave the others alone *)

Lemma list_add_tail_frame m h x h' l' l :
  dlist m h l -> dlist m h' l' ->
  (forall y, y ∈ x :: h :: l -> y ∉ h' :: l') ->
  dlist (list_add_tail m x h) h' l'.
Proof.
  intros [_ Hs] [Hnd' Hs'] Hdis. split; [done|].
  assert (get_prev m h ∈ h :: l) as Hp.
  { rewrite (seg_last _ _ _ _ Hs). apply last_in. }
  assert (forall y, y ∈ h' :: l' -> get_prev m h <> y /\ x <> y /\ h <> y) as Hne.
  { intros y Hy. split_and!; intros <-; eapply Hdis; [|exact Hy| |exact Hy| |exact Hy]; set_solver. }
  unfold list_add_tail, __list_add. eapply seg_frame; [| |exact Hs']; intros y Hy;
    (assert (y ∈ h' :: l') as Hy' by set_solver);
    destruct (Hne y Hy') as (? & ? & ?); autorewrite with links; by ptr_eq.
Qed.

Lemma list_del_frame m h l1 x l2 h' l' :
  dlist m h (l1 ++ x :: l2) -> dlist m h' l' ->
  (forall y, y ∈ h :: l1 ++ x :: l2 -> y ∉ h' :: l') ->
  dlist (list_del m x) h' l'.
Proof.
  intros [_ Hs] [Hnd' Hs'] Hdis. split; [done|].
  apply seg_app in Hs as [Hs1 Hs2].
  assert (get_prev m x ∈ h :: l1) as Hp.
  { rewrite (seg_last _ _ _ _ Hs1). apply last_in. }
  assert (get_next m x ∈ h :: l2) as Hn.
  { rewrite (seg_head _ _ _ _ Hs2). apply hd_in. }
  assert (forall y, y ∈ h' :: l' -> get_prev m x <> y /\ get_next m x <> y /\ x <> y) as Hne.
  { intros y Hy. split_and!; intros <-; eapply Hdis; [|exact Hy| |exact Hy| |exact Hy]; set_solver. }
  unfold list_del, __list_del. case_if; [done|]. case_if; [done|].
  eapply seg_frame; [| |exact Hs']; intros y Hy;
    (assert (y ∈ h' :: l') as Hy' by set_solver);
    destruct (Hne y Hy') as (? & ? & ?); autorewrite with links; by ptr_eq.
Qed.

(** ** Traversal *)

Lemma list_for_each_from_seg fuel m a l h :
  seg m a l h -> h ∉ l -> (length l <= fuel)%nat ->
  list_for_each_from fuel m (get_next m a) h = Some l.
Proof.
  revert fuel a. induction l as [|x l IH]; intros fuel a Hs Hh Hf.
  - rewrite (seg_head _ _ _ _ Hs). simpl. destruct fuel; simpl; by rewrite Z.eqb_refl.
  - rewrite (seg_head _ _ _ _ Hs). simpl. destruct Hs as [_ Hs].
    destruct fuel as [|n]; simpl in Hf; [lia|]. simpl.
    assert (x <> h) by set_solver. ptr_eq.
    rewrite IH; [done|done|set_solver|lia].
Qed.

Lemma dlist_for_each fuel m h l :
  dlist m h l -> (length l <= fuel)%nat -> list_for_each fuel m h = Some l.
Proof.
  intros [Hnd Hs] Hf. apply NoDup_cons in Hnd as [Hh _]. by apply list_for_each_from_seg.
Qed.
