(* ===== verification/Pmm.v ===== *)
(** * The physical memory manager

    Models [kernel/src/mm/pmm.c]: a binary buddy allocator whose free blocks are
    linked through headers stored in the free pages themselves, a bitmap of used
    pages, a bitmap of managed pages and a table of 16-bit reference counts.

    The state is the set of the file's static variables.  [links] and
    [block_order] are the fields of the [struct buddy_block] headers (and, for
    [links], of the list heads of [b_zone]), keyed by virtual address.  The three
    metadata arrays are lists; [bitmap_addr] is the address they start at, 0
    standing for [NULL].  The spinlocks are not represented: every function below
    runs between one acquisition and the matching release, or takes none. *)

From S2P Require Import Prelude Bitmap DList.

Definition MAX_ORDER : Z := 20.

(** Entry types of the bootloader's memory map. *)
Inductive memmap_type :=
| MEMMAP_USABLE
| MEMMAP_RESERVED
| MEMMAP_ACPI_RECLAIMABLE
| MEMMAP_ACPI_NVS
| MEMMAP_BAD_MEMORY
| MEMMAP_BOOTLOADER_RECLAIMABLE
| MEMMAP_EXECUTABLE_AND_MODULES
| MEMMAP_FRAMEBUFFER.

#[export] Instance memmap_type_eq_dec : EqDecision memmap_type.
Proof. solve_decision. Defined.

Record memmap_entry := MemmapEntry {
  e_base : Z;
  e_length : Z;
  e_type : memmap_type;
}.

Record pmm := Pmm {
  b_zone : Z;
  links : lmem;
  block_order : gmap Z Z;
  bitmap : list Z;
  managed_bitmap : list Z;
  refcounts : list Z;
  bitmap_addr : Z;
  bitmap_size : Z;
  lowest_page : Z;
  highest_page : Z;
  page_count : Z;
  usable_memory : Z;
  total_memory : Z;
  physical_memory_offset : Z;
  internal_memmap : option (list memmap_entry);
}.

(** Field updates. *)
Definition with_links (s : pmm) (m : lmem) : pmm :=
  Pmm (b_zone s) m (block_order s) (bitmap s) (managed_bitmap s) (refcounts s) (bitmap_addr s)
    (bitmap_size s) (lowest_page s) (highest_page s) (page_count s) (usable_memory s)
    (total_memory s) (physical_memory_offset s) (internal_memmap s).
Definition with_order (s : pmm) (o : gmap Z Z) : pmm :=
  Pmm (b_zone s) (links s) o (bitmap s) (managed_bitmap s) (refcounts s) (bitmap_addr s)
    (bitmap_size s) (lowest_page s) (highest_page s) (page_count s) (usable_memory s)
    (total_memory s) (physical_memory_offset s) (internal_memmap s).
Definition with_bitmap (s : pmm) (b : list Z) : pmm :=
  Pmm (b_zone s) (links s) (block_order s) b (managed_bitmap s) (refcounts s) (bitmap_addr s)
    (bitmap_size s) (lowest_page s) (highest_page s) (page_count s) (usable_memory s)
    (total_memory s) (physical_memory_offset s) (internal_memmap s).
Definition with_managed (s : pmm) (b : list Z) : pmm :=
  Pmm (b_zone s) (links s) (block_order s) (bitmap s) b (refcounts s) (bitmap_addr s)
    (bitmap_size s) (lowest_page s) (highest_page s) (page_count s) (usable_memory s)
    (total_memory s) (physical_memory_offset s) (internal_memmap s).
Definition with_refcounts (s : pmm) (r : list Z) : pmm :=
  Pmm (b_zone s) (links s) (block_order s) (bitmap s) (managed_bitmap s) r (bitmap_addr s)
    (bitmap_size s) (lowest_page s) (highest_page s) (page_count s) (usable_memory s)
    (total_memory s) (physical_memory_offset s) (internal_memmap s).
Definition with_usable (s : pmm) (u : Z) : pmm :=
  Pmm (b_zone s) (links s) (block_order s) (bitmap s) (managed_bitmap s) (refcounts s) (bitmap_addr s)
    (bitmap_size s) (lowest_page s) (highest_page s) (page_count s) u
    (total_memory s) (physical_memory_offset s) (internal_memmap s).
Definition with_memmap (s : pmm) (o : option (list memmap_entry)) : pmm :=
  Pmm (b_zone s) (links s) (block_order s) (bitmap s) (managed_bitmap s) (refcounts s) (bitmap_addr s)
    (bitmap_size s) (lowest_page s) (highest_page s) (page_count s) (usable_memory s)
    (total_memory s) (physical_memory_offset s) o.

(** ** Helpers *)

(** [&b_zone.free_list[i]]; a [struct list_head] takes 16 bytes. *)
Definition free_list (s : pmm) (i : Z) : Z := b_zone s + 16 * i.

Definition virt_to_buddy (s : pmm) (phys : Z) : Z := u64 (phys + physical_memory_offset s).

Definition buddy_to_phys (s : pmm) (block : Z) : Z := u64 (block - physical_memory_offset s).

Definition get_block_order (s : pmm) (block : Z) : Z := default 0 (block_order s !! block).

(** [size *= 2] wraps at 64 bits; [None] is a loop that has not ended. *)
Fixpoint get_order_loop (fuel : nat) (size count order : Z) : option Z :=
  match fuel with
  | O => None
  | S n => if size <? count then get_order_loop n (u64 (size * 2)) count (order + 1)
           else Some order
  end.

Definition get_order (count : Z) : option Z := get_order_loop 65 1 count 0.

Definition pmm_is_managed (s : pmm) (phys : Z) : bool :=
  let pfn := phys / PAGE_SIZE in
  if (pfn <? lowest_page s) || (pfn >=? highest_page s) || (bitmap_addr s =? 0) then false
  else bitmap_test (managed_bitmap s) (pfn - lowest_page s).

(** Number of nodes a traversal can meet: one block per page at most. *)
Definition list_fuel (s : pmm) : nat := Z.to_nat (highest_page s - lowest_page s).

(** [total_free += 1 << order] for every node of the [n] lists from [order] on. *)
Fixpoint count_free (n : nat) (s : pmm) (order total_free : Z) : option Z :=
  match n with
  | O => Some total_free
  | S n' =>
      match list_for_each (list_fuel s) (links s) (free_list s order) with
      | None => None
      | Some l =>
          count_free n' s (order + 1)
            (fold_left (fun acc _ => u64 (acc + Z.shiftl 1 order)) l total_free)
      end
  end.

Definition pmm_get_free_pages (s : pmm) : option Z := count_free (Z.to_nat MAX_ORDER) s 0 0.

(** ** Freeing *)

(** [block->order = order; list_add_tail(&block->node, &b_zone.free_list[order])] *)
Definition push_block (s : pmm) (pfn order : Z) : pmm :=
  let block := virt_to_buddy s (pfn * PAGE_SIZE) in
  let s := with_order s (<[block := order]> (block_order s)) in
  with_links s (list_add_tail (links s) block (free_list s order)).

(** The coalescing loop; [order] grows by one per iteration and stops at
    [MAX_ORDER - 1]. *)
Fixpoint coalesce (fuel : nat) (s : pmm) (pfn order : Z) : pmm * Z * Z :=
  match fuel with
  | O => (s, pfn, order)
  | S n =>
      if order <? MAX_ORDER - 1 then
        let buddy_pfn := Z.lxor pfn (Z.shiftl 1 order) in
        let buddy_free :=
          negb ((buddy_pfn <? lowest_page s) || (buddy_pfn >=? highest_page s) ||
                negb (pmm_is_managed s (buddy_pfn * PAGE_SIZE)) ||
                bitmap_test (bitmap s) (buddy_pfn - lowest_page s)) in
        if negb buddy_free then (s, pfn, order)
        else
          let buddy := virt_to_buddy s (buddy_pfn * PAGE_SIZE) in
          if (get_block_order s buddy =? order) &&
             negb (get_next (links s) buddy =? 0) && negb (get_prev (links s) buddy =? 0)
          then
            let s := with_links s (list_del (links s) buddy) in
            let pfn := if pfn <? buddy_pfn then pfn else buddy_pfn in
            coalesce n s pfn (order + 1)
          else (s, pfn, order)
      else (s, pfn, order)
  end.

Definition buddy_free_internal (s : pmm) (phys order : Z) : pmm :=
  let pfn := phys / PAGE_SIZE in
  let s := with_bitmap s
    (bitmap_clear_range (lowest_page s) (highest_page s) (bitmap s) pfn (Z.shiftl 1 order)) in
  let '(s, pfn, order) := coalesce (Z.to_nat MAX_ORDER) s pfn order in
  push_block s pfn order.

(** [for (i = 0; i < n; i++) if (refcounts[idx + i] > 0) refcounts[idx + i]--;] *)
Fixpoint dec_refs (n : nat) (r : list Z) (idx : Z) : list Z :=
  match n with
  | O => r
  | S n' => dec_refs n' (if rd r idx >? 0 then wr r idx (rd r idx - 1) else r) (idx + 1)
  end.

(** [for (i = 0; i < n; i++) refcounts[idx + i] = 1;] *)
Fixpoint set_refs (n : nat) (r : list Z) (idx : Z) : list Z :=
  match n with
  | O => r
  | S n' => set_refs n' (wr r idx 1) (idx + 1)
  end.

Definition pmm_free_pages (s : pmm) (ptr count : Z) : option pmm :=
  if (ptr =? 0) || (count =? 0) then Some s
  else
    match get_order count with
    | None => None
    | Some order =>
        if order >=? MAX_ORDER then Some s
        else
          let addr := ptr in
          let pfn := addr / PAGE_SIZE in
          if (pfn <? lowest_page s) || (pfn >=? highest_page s) ||
             negb (bitmap_test (managed_bitmap s) (pfn - lowest_page s))
          then Some s
          else if negb (bitmap_test (bitmap s) (pfn - lowest_page s)) then Some s
          else
            let s := with_refcounts s
              (dec_refs (Z.to_nat (Z.shiftl 1 order)) (refcounts s) (pfn - lowest_page s)) in
            if rd (refcounts s) (pfn - lowest_page s) =? 0
            then Some (buddy_free_internal s addr order)
            else Some s
    end.

(** ** Allocation *)

(** [while (cur_order < MAX_ORDER && list_empty(&b_zone.free_list[cur_order])) cur_order++] *)
Fixpoint first_nonempty (fuel : nat) (s : pmm) (cur_order : Z) : Z :=
  match fuel with
  | O => cur_order
  | S n =>
      if (cur_order <? MAX_ORDER) && list_empty (links s) (free_list s cur_order)
      then first_nonempty n s (cur_order + 1)
      else cur_order
  end.

(** [n] iterations of the splitting loop, from [cur_order] down. *)
Fixpoint split_down (n : nat) (s : pmm) (pfn cur_order : Z) : pmm :=
  match n with
  | O => s
  | S n' =>
      let cur_order := cur_order - 1 in
      let buddy_pfn := pfn + Z.shiftl 1 cur_order in
      split_down n' (push_block s buddy_pfn cur_order) pfn cur_order
  end.

(** Unlink [block] of order [cur_order], split it down to [order] and mark the
    remaining block used; returns its first frame. *)
Definition take_block (s : pmm) (block cur_order order : Z) : Z * pmm :=
  let s := with_links s (list_del (links s) block) in
  let pfn := buddy_to_phys s block / PAGE_SIZE in
  let s := split_down (Z.to_nat (cur_order - order)) s pfn cur_order in
  let s := with_bitmap s
    (bitmap_set_range (lowest_page s) (highest_page s) (bitmap s) pfn (Z.shiftl 1 order)) in
  (pfn, s).

Definition pmm_alloc_pages (s : pmm) (count : Z) : option (Z * pmm) :=
  if count =? 0 then Some (0, s)
  else
    match get_order count with
    | None => None
    | Some order =>
        if order >=? MAX_ORDER then Some (0, s)
        else
          let cur_order := first_nonempty (Z.to_nat (MAX_ORDER - order)) s order in
          if cur_order =? MAX_ORDER then Some (0, s)
          else
            let block := get_next (links s) (free_list s cur_order) in
            let '(pfn, s) := take_block s block cur_order order in
            let s := with_refcounts s
              (set_refs (Z.to_nat (Z.shiftl 1 order)) (refcounts s) (pfn - lowest_page s)) in
            Some (pfn * PAGE_SIZE, s)
    end.

Definition pmm_alloc_page (s : pmm) : option (Z * pmm) := pmm_alloc_pages s 1.

(** The [list_for_each] search of the constrained allocators: the first block
    of the list at [pos] that satisfies [ok]. *)
Fixpoint find_block (fuel : nat) (m : lmem) (ok : Z -> bool) (pos head : Z) : option (option Z) :=
  if pos =? head then Some None
  else if ok pos then Some (Some pos)
  else match fuel with
       | O => None
       | S n => find_block n m ok (get_next m pos) head
       end.

(** [for (cur_order = order; cur_order < MAX_ORDER; cur_order++)]; the
    constrained allocators leave the reference counts alone. *)
Fixpoint alloc_search (n : nat) (s : pmm) (ok : Z -> Z -> bool) (cur_order order : Z)
    : option (Z * pmm) :=
  match n with
  | O => Some (0, s)
  | S n' =>
      let head := free_list s cur_order in
      match find_block (list_fuel s) (links s)
              (fun block => ok (buddy_to_phys s block) cur_order)
              (get_next (links s) head) head with
      | None => None
      | Some (Some found_block) =>
          let '(pfn, s) := take_block s found_block cur_order order in
          Some (pfn * PAGE_SIZE, s)
      | Some None => alloc_search n' s ok (cur_order + 1) order
      end
  end.

Definition alloc_constrained (s : pmm) (count : Z) (ok : Z -> Z -> bool) : option (Z * pmm) :=
  if count =? 0 then Some (0, s)
  else
    match get_order count with
    | None => None
    | Some order =>
        if order >=? MAX_ORDER then Some (0, s)
        else alloc_search (Z.to_nat (MAX_ORDER - order)) s ok order order
    end.

Definition pmm_alloc_pages_constrained (s : pmm) (count max_phys_addr : Z) : option (Z * pmm) :=
  alloc_constrained s count (fun phys cur_order =>
    u64 (phys + Z.shiftl 1 cur_order * PAGE_SIZE) <=? max_phys_addr).

Definition pmm_alloc_pages_range (s : pmm) (count min_phys_addr max_phys_addr : Z)
    : option (Z * pmm) :=
  alloc_constrained s count (fun phys cur_order =>
    let block_end := u64 (phys + Z.shiftl 1 cur_order * PAGE_SIZE) in
    (phys >=? min_phys_addr) && (block_end <=? max_phys_addr)).

(** ** Reference counts *)

Definition pmm_incref (s : pmm) (ptr : Z) : pmm :=
  if ptr =? 0 then s
  else if negb (pmm_is_managed s ptr) then s
  else
    let idx := ptr / PAGE_SIZE - lowest_page s in
    with_refcounts s (wr (refcounts s) idx (u16 (rd (refcounts s) idx + 1))).

Definition pmm_decref (s : pmm) (ptr : Z) : pmm :=
  if ptr =? 0 then s
  else if negb (pmm_is_managed s ptr) then s
  else
    let idx := ptr / PAGE_SIZE - lowest_page s in
    if rd (refcounts s) idx >? 0 then
      let s := with_refcounts s (wr (refcounts s) idx (rd (refcounts s) idx - 1)) in
      if rd (refcounts s) idx =? 0 then buddy_free_internal s ptr 0 else s
    else s.

Definition pmm_free_page (s : pmm) (ptr : Z) : pmm := pmm_decref s ptr.

Definition pmm_get_ref (s : pmm) (ptr : Z) : Z :=
  if ptr =? 0 then 0
  else if negb (pmm_is_managed s ptr) then 1
  else rd (refcounts s) (ptr / PAGE_SIZE - lowest_page s).

Definition pmm_mark_used (s : pmm) (ptr count : Z) : pmm :=
  if (ptr =? 0) || (count =? 0) then s
  else with_bitmap s
    (bitmap_set_range (lowest_page s) (highest_page s) (bitmap s) (ptr / PAGE_SIZE) count).

Definition pmm_is_reclaimable (s : pmm) (phys : Z) : bool :=
  match internal_memmap s with
  | None => false
  | Some entries =>
      existsb (fun e =>
        bool_decide (e_type e = MEMMAP_BOOTLOADER_RECLAIMABLE) &&
        (phys >=? e_base e) && (phys <? u64 (e_base e + e_length e))) entries
  end.
