(* ===== verification/PmmInv.v ===== *)
(** * Invariant of the physical memory manager and its preservation

    [inv s B H] relates a state to the set [B] of its free blocks (order, first
    frame): the free lists hold exactly [B], the blocks are aligned, in range and
    pairwise disjoint, and a managed page is marked free exactly when it lies in a
    block or in the "hole" [H].  A hole is the block an operation has taken out of
    the lists and not yet handed over; it is empty between operations. *)

From S2P Require Import Prelude Bitmap DList Pmm.

Definition used (s : pmm) (x : Z) : bool := bitmap_test (bitmap s) (x - lowest_page s).
Definition managed (s : pmm) (x : Z) : bool := bitmap_test (managed_bitmap s) (x - lowest_page s).
Definition in_block (k p x : Z) : Prop := p <= x < p + 2 ^ k.
Definition no_hole (_ : Z) : Prop := False.

(** Virtual address of the header in frame [p], without wrap-around. *)
Definition blk (s : pmm) (p : Z) : Z := physical_memory_offset s + p * PAGE_SIZE.

(** The metadata arrays are large enough, all addresses involved are kernel
    addresses, and the list heads do not lie in managed memory. *)
Record geom (s : pmm) : Prop := {
  g_range : 0 <= lowest_page s <= highest_page s;
  g_bm : highest_page s - lowest_page s <= 8 * zlen (bitmap s);
  g_mb : highest_page s - lowest_page s <= 8 * zlen (managed_bitmap s);
  g_rc : highest_page s - lowest_page s <= zlen (refcounts s);
  g_off : KERNEL_HALF <= physical_memory_offset s;
  g_top : blk s (highest_page s) <= 2 ^ 64;
  g_zone : KERNEL_HALF <= b_zone s;
  g_sep : b_zone s + 16 * MAX_ORDER <= blk s (lowest_page s) \/ blk s (highest_page s) <= b_zone s;
  g_addr : bitmap_addr s <> 0;
}.

(** [p] is the first frame of an aligned block of order [k] inside the range. *)
Record block_ok (s : pmm) (k p : Z) : Prop := {
  bo_order : 0 <= k < MAX_ORDER;
  bo_align : p mod 2 ^ k = 0;
  bo_lo : lowest_page s <= p;
  bo_hi : p + 2 ^ k <= highest_page s;
}.

Record inv (s : pmm) (B : gset (Z * Z)) (H : Z -> Prop) : Prop := {
  i_geom : geom s;
  i_lists : forall k, 0 <= k < MAX_ORDER ->
    exists l, dlist (links s) (free_list s k) l /\
      forall a, a ∈ l <-> exists p, a = blk s p /\ (k, p) ∈ B;
  i_block : forall k p, (k, p) ∈ B -> block_ok s k p /\ get_block_order s (blk s p) = k;
  i_disj : forall k p k' p' x, (k, p) ∈ B -> (k', p') ∈ B ->
    in_block k p x -> in_block k' p' x -> k = k' /\ p = p';
  i_hole : forall k p x, (k, p) ∈ B -> in_block k p x -> ~ H x;
  i_free : forall x, lowest_page s <= x < highest_page s ->
    (managed s x = true /\ used s x = false <->
     H x \/ exists k p, (k, p) ∈ B /\ in_block k p x);
  i_hrange : forall x, H x -> lowest_page s <= x < highest_page s;
  i_low : forall x, lowest_page s <= x < highest_page s -> managed s x = true -> 0 < x;
}.

(** ** Geometry *)

Section Geom.
Context (s : pmm) (G : geom s).

Lemma geom_bounds : 0 <= lowest_page s <= highest_page s /\ highest_page s <= 2 ^ 35 /\
  KERNEL_HALF <= physical_memory_offset s.
Proof.
  destruct G as [? ? ? ? ? Ht]. unfold blk, PAGE_SIZE, KERNEL_HALF in *. lia.
Qed.

Lemma virt_to_buddy_blk p : 0 <= p < highest_page s -> virt_to_buddy s (p * PAGE_SIZE) = blk s p.
Proof.
  intros Hp. destruct G as [? ? ? ? ? Ht]. unfold virt_to_buddy, blk, PAGE_SIZE, KERNEL_HALF in *.
  rewrite u64_small; lia.
Qed.

Lemma buddy_to_phys_blk p : 0 <= p < highest_page s -> buddy_to_phys s (blk s p) = p * PAGE_SIZE.
Proof.
  intros Hp. destruct G as [? ? ? ? ? Ht]. unfold buddy_to_phys, blk, PAGE_SIZE, KERNEL_HALF in *.
  rewrite u64_small; lia.
Qed.

Lemma blk_inj p q : blk s p = blk s q -> p = q.
Proof. unfold blk, PAGE_SIZE. lia. Qed.

(** The header of a frame in range is not one of the list heads. *)
Lemma blk_not_head p k :
  lowest_page s <= p < highest_page s -> 0 <= k < MAX_ORDER -> blk s p <> free_list s k.
Proof.
  intros Hp Hk. destruct G as [? ? ? ? ? ? ? Hsep].
  unfold blk, free_list, PAGE_SIZE, MAX_ORDER in *. lia.
Qed.

Lemma blk_kernel p : lowest_page s <= p -> KERNEL_HALF <= blk s p.
Proof. intros. destruct geom_bounds as (? & ? & ?). unfold blk, PAGE_SIZE. lia. Qed.

Lemma head_kernel k : 0 <= k -> KERNEL_HALF <= free_list s k.
Proof. intros. destruct G. unfold free_list. lia. Qed.

Lemma pmm_is_managed_frame p :
  lowest_page s <= p < highest_page s -> pmm_is_managed s (p * PAGE_SIZE) = managed s p.
Proof.
  intros Hp. unfold pmm_is_managed, managed. unfold PAGE_SIZE. rewrite Z.div_mul by lia.
  rewrite (proj2 (Z.ltb_ge _ _)), Z.geb_leb, (proj2 (Z.leb_gt _ _)) by lia.
  by rewrite (proj2 (Z.eqb_neq _ _) (g_addr _ G)).
Qed.
End Geom.

Lemma free_list_inj s k k' : free_list s k = free_list s k' -> k = k'.
Proof. unfold free_list. lia. Qed.

(** ** Alignment and buddies *)

Lemma in_block_start k p : 0 <= k -> in_block k p p.
Proof. intros. pose proof (pow2_pos k). unfold in_block. lia. Qed.

(** An aligned block that meets an aligned block of no larger order contains it. *)
Lemma aligned_nested k p k' p' x :
  0 <= k <= k' -> p mod 2 ^ k = 0 -> p' mod 2 ^ k' = 0 ->
  in_block k p x -> in_block k' p' x -> p' <= p /\ p + 2 ^ k <= p' + 2 ^ k'.
Proof.
  intros Hk Ha Ha' Hx Hx'. unfold in_block in *.
  pose proof (pow2_pos k ltac:(lia)). pose proof (pow2_pos (k' - k) ltac:(lia)).
  assert (2 ^ k' = 2 ^ (k' - k) * 2 ^ k) as E.
  { rewrite <- Z.pow_add_r by lia. f_equal. lia. }
  apply Z.mod_divide in Ha as [a Ha]; [|lia]. apply Z.mod_divide in Ha' as [b Hb]; [|lia].
  subst p p'. rewrite E in *. rewrite Z.mul_assoc in *.
  set (M := 2 ^ (k' - k)) in *. set (c := b * M) in *. set (K := 2 ^ k) in *.
  assert (c < a + 1) by (apply (Z.mul_lt_mono_pos_r K); lia).
  assert (a < c + M) by (apply (Z.mul_lt_mono_pos_r K); lia). split; nia.
Qed.

Lemma aligned_le k k' p : 0 <= k <= k' -> p mod 2 ^ k' = 0 -> p mod 2 ^ k = 0.
Proof.
  intros Hk Ha. pose proof (pow2_pos k ltac:(lia)). pose proof (pow2_pos k' ltac:(lia)).
  apply Z.mod_divide in Ha; [|lia]. apply Z.mod_divide; [lia|].
  etransitivity; [|exact Ha]. exists (2 ^ (k' - k)).
  rewrite <- Z.pow_add_r by lia. f_equal. lia.
Qed.

(** The buddy of an aligned block is its sibling in the enclosing block. *)
Lemma buddy_cases k p :
  0 <= k -> 0 <= p -> p mod 2 ^ k = 0 ->
  (p mod 2 ^ (k + 1) = 0 /\ Z.lxor p (Z.shiftl 1 k) = p + 2 ^ k) \/
  ((p - 2 ^ k) mod 2 ^ (k + 1) = 0 /\ Z.lxor p (Z.shiftl 1 k) = p - 2 ^ k /\ 2 ^ k <= p).
Proof.
  intros Hk Hp Ha. pose proof (pow2_pos k Hk).
  apply Z.mod_divide in Ha as [a Ha]; [|lia]. subst p.
  assert (0 <= a) by nia.
  rewrite <- Z.shiftl_mul_pow2, <- Z.shiftl_lxor by lia.
  rewrite pow2_succ by lia.
  assert (Z.lxor a 1 = if Z.even a then a + 1 else a - 1) as ->.
  { destruct (Z.even a) eqn:E.
    - rewrite Z.add_nocarry_lxor; [done|].
      apply Z.bits_inj'. intros i Hi. rewrite Z.land_spec, Z.bits_0.
      destruct (Z.eq_dec i 0) as [->|]; [|rewrite (testbit_high 1 1) by lia; apply andb_false_r].
      rewrite Z.bit0_odd, <- Z.negb_even, E. done.
    - rewrite Z.sub_nocarry_ldiff.
      + apply Z.bits_inj'. intros i Hi. rewrite Z.lxor_spec, Z.ldiff_spec.
        destruct (Z.eq_dec i 0) as [->|].
        * rewrite !Z.bit0_odd, <- Z.negb_even, E. done.
        * rewrite (testbit_high 1 1) by lia. by rewrite xorb_false_r, andb_true_r.
      + apply Z.bits_inj'. intros i Hi. rewrite Z.ldiff_spec, Z.bits_0.
        destruct (Z.eq_dec i 0) as [->|]; [|by rewrite (testbit_high 1 1) by lia].
        rewrite !Z.bit0_odd, <- (Z.negb_even a), E. done. }
  destruct (Z.even a) eqn:E.
  - left. apply Z.even_spec in E as [b ->]. rewrite !Z.shiftl_mul_pow2 by lia. split; [|ring].
    apply Z.mod_divide; [lia|]. exists b. ring.
  - right. assert (Z.odd a = true) as O by (by rewrite <- Z.negb_even, E).
    apply Z.odd_spec in O as [b ->]. rewrite !Z.shiftl_mul_pow2 by lia.
    split_and!; [|ring|nia]. apply Z.mod_divide; [lia|]. exists b. ring.
Qed.

(** ** Taking a block out of the lists and putting one in *)

Lemma inv_hole_ext s B H H' : (forall x, H x <-> H' x) -> inv s B H -> inv s B H'.
Proof.
  intros E [G L Bl D Ho F R Lo]. split; try done.
  - intros k p x Hb Hx. rewrite <- E. by eapply Ho.
  - intros x Hx. rewrite <- E. by apply F.
  - intros x Hx. apply R, E, Hx.
Qed.

(** Every node of free list [k] is a header in range. *)
Lemma inv_node s B H k l a :
  inv s B H -> 0 <= k < MAX_ORDER ->
  (forall a, a ∈ l <-> exists p, a = blk s p /\ (k, p) ∈ B) ->
  a ∈ free_list s k :: l -> KERNEL_HALF <= a.
Proof.
  intros I Hk Hl [->|Ha]%elem_of_cons; [apply head_kernel; [apply I|lia]|].
  apply Hl in Ha as (p & -> & Hp). apply (i_block _ _ _ I) in Hp as [[? ? ? ?] _].
  apply blk_kernel; [apply I|done].
Qed.

(** Two different free lists share no node. *)
Lemma inv_nodes_disjoint s B H k k' l l' a :
  inv s B H -> 0 <= k < MAX_ORDER -> 0 <= k' < MAX_ORDER -> k <> k' ->
  (forall a, a ∈ l <-> exists p, a = blk s p /\ (k, p) ∈ B) ->
  (forall a, a ∈ l' <-> exists p, a = blk s p /\ (k', p) ∈ B) ->
  a ∈ free_list s k :: l -> a ∉ free_list s k' :: l'.
Proof.
  intros I Hk Hk' Hne Hl Hl' Ha Ha'.
  assert (forall j q, (j, q) ∈ B -> lowest_page s <= q < highest_page s) as Hr.
  { intros j q Hq. apply (i_block _ _ _ I) in Hq as [[? ? ? ?] _]. pose proof (pow2_pos j). lia. }
  apply elem_of_cons in Ha as [->|Ha]; apply elem_of_cons in Ha' as [E|Ha'].
  - by apply free_list_inj in E.
  - apply Hl' in Ha' as (p & E & Hp). symmetry in E.
    eapply blk_not_head; [apply I|by eapply Hr| |exact E]. done.
  - subst. apply Hl in Ha as (p & E & Hp). symmetry in E.
    eapply blk_not_head; [apply I|by eapply Hr| |exact E]. done.
  - apply Hl in Ha as (p & -> & Hp). apply Hl' in Ha' as (p' & E & Hp').
    apply blk_inj in E as <-. apply Hne.
    eapply (i_disj _ _ _ I k p k' p p); try done.
    + apply in_block_start; lia.
    + apply in_block_start; lia.
Qed.

(** The free lists hold exactly the blocks of [B]. *)
Definition lists_hold (s : pmm) (m : lmem) (B : gset (Z * Z)) : Prop :=
  forall k, 0 <= k < MAX_ORDER ->
    exists l, dlist m (free_list s k) l /\ forall a, a ∈ l <-> exists p, a = blk s p /\ (k, p) ∈ B.

Lemma lists_pop s B H k p :
  inv s B H -> (k, p) ∈ B ->
  lists_hold s (list_del (links s) (blk s p)) (B ∖ {[(k, p)]}).
Proof.
  intros I Hkp k' Hk'. destruct (i_block _ _ _ I _ _ Hkp) as [[Hk _ _ _] _].
  destruct (i_lists _ _ _ I k Hk) as (l & Hd & Hl).
  assert (blk s p ∈ l) as (l1 & l2 & ->)%list_elem_of_split by (apply Hl; eauto).
  destruct (Z.eq_dec k' k) as [->|Hne].
  - exists (l1 ++ l2). split.
    { apply dlist_del; [done|]. intros y Hy. by eapply (inv_node _ _ _ k (l1 ++ blk s p :: l2)). }
    destruct Hd as [Hnd _]. apply NoDup_cons in Hnd as [_ Hnd].
    apply NoDup_app in Hnd as (_ & Hd1 & Hnd2). apply NoDup_cons in Hnd2 as [Hd2 _].
    intros a. split.
    + intros Hin. assert (a ∈ l1 ++ blk s p :: l2) as (q & -> & Hq)%Hl.
      { rewrite elem_of_app in Hin |- *. rewrite elem_of_cons. tauto. }
      exists q. split; [done|]. apply elem_of_difference. split; [done|].
      intros [= ->]%elem_of_singleton. apply elem_of_app in Hin as [Hin|Hin]; [|done].
      eapply Hd1; [exact Hin|left].
    + intros (q & -> & [Hq Hne]%elem_of_difference). rewrite elem_of_singleton in Hne.
      assert (blk s q ∈ l1 ++ blk s p :: l2) as Hin by (apply Hl; eauto).
      rewrite elem_of_app, elem_of_cons in Hin. rewrite elem_of_app.
      destruct Hin as [?|[E|?]]; [by left| |by right]. apply blk_inj in E as ->. done.
  - destruct (i_lists _ _ _ I k' Hk') as (l' & Hd' & Hl'). exists l'. split.
    { eapply list_del_frame; [exact Hd|exact Hd'|]. intros y Hy.
      eapply (inv_nodes_disjoint s B H k k' (l1 ++ blk s p :: l2) l'); done. }
    intros a. rewrite Hl'. split; intros (q & -> & Hq); exists q; (split; [done|]).
    + apply elem_of_difference. split; [done|]. intros [= ?]%elem_of_singleton. done.
    + by apply elem_of_difference in Hq as [? _].
Qed.
Lemma inv_pop s B H k p :
  inv s B H -> (k, p) ∈ B ->
  inv (with_links s (list_del (links s) (blk s p))) (B ∖ {[(k, p)]})
    (fun x => H x \/ in_block k p x).
Proof.
  intros I Hkp. destruct (i_block _ _ _ I _ _ Hkp) as [[Hk Ha Hlo Hhi] Ho].
  split; simpl.
  - destruct (i_geom _ _ _ I). split; done.
  - by apply (lists_pop s B H).
  - intros k' p' [Hq _]%elem_of_difference.
    destruct (i_block _ _ _ I _ _ Hq) as [[? ? ? ?] ?]. split; [split; done|done].
  - intros k1 p1 k2 p2 x [H1 _]%elem_of_difference [H2 _]%elem_of_difference.
    by apply (i_disj _ _ _ I).
  - intros k' p' x [Hq Hne]%elem_of_difference Hx [Hh|Hin].
    + by eapply (i_hole _ _ _ I).
    + destruct (i_disj _ _ _ I _ _ _ _ _ Hkp Hq Hin Hx) as [-> ->]. set_solver.
  - intros x Hx. unfold managed, used; simpl. fold (managed s x) (used s x).
    rewrite (i_free _ _ _ I x Hx). split.
    + intros [?|(k' & p' & Hq & Hin)]; [tauto|].
      destruct (decide ((k', p') = (k, p))) as [[= -> ->]|Hne]; [tauto|].
      right. exists k', p'. set_solver.
    + intros [[?|?]|(k' & p' & [Hq _]%elem_of_difference & Hin)]; eauto 6.
  - intros x [?|Hx]; [by apply (i_hrange _ _ _ I)|]. unfold in_block in Hx. lia.
  - apply (i_low _ _ _ I).
Qed.

Lemma lists_push s B H k p :
  inv s B H -> block_ok s k p -> (forall k', (k', p) ∉ B) ->
  lists_hold s (list_add_tail (links s) (blk s p) (free_list s k)) ({[(k, p)]} ∪ B).
Proof.
  intros I [Hk Ha Hlo Hhi] Hfresh k' Hk'. pose proof (pow2_pos k ltac:(lia)).
  destruct (i_lists _ _ _ I k Hk) as (l & Hd & Hl).
  assert (blk s p ∉ l) as Hpl.
  { rewrite Hl. intros (q & E%blk_inj & Hq). subst q. by eapply Hfresh. }
  assert (forall j, 0 <= j < MAX_ORDER -> blk s p <> free_list s j) as Hph.
  { intros. apply blk_not_head; [apply I|lia|done]. }
  destruct (Z.eq_dec k' k) as [->|Hne].
  - exists (l ++ [blk s p]). split; [apply dlist_add_tail; auto|].
    intros a. rewrite elem_of_app, list_elem_of_singleton, Hl. split.
    + intros [(q & -> & Hq)| ->]; [exists q|exists p]; set_solver.
    + intros (q & -> & [[= ->]%elem_of_singleton|Hq]%elem_of_union); [by right|left; eauto].
  - destruct (i_lists _ _ _ I k' Hk') as (l' & Hd' & Hl'). exists l'. split.
    { eapply list_add_tail_frame; [exact Hd|exact Hd'|].
      intros y [->|Hy]%elem_of_cons.
      - intros [E|Hy]%elem_of_cons; [by apply Hph in E|].
        apply Hl' in Hy as (q & E%blk_inj & Hq). subst q. by eapply Hfresh.
      - by eapply (inv_nodes_disjoint s B H k k' l l'). }
    intros a. rewrite Hl'. split; intros (q & -> & Hq); exists q; (split; [done|]); set_solver.
Qed.

Lemma inv_push s B H k p :
  inv s B H -> block_ok s k p -> (forall x, in_block k p x -> H x) ->
  inv (push_block s p k) ({[(k, p)]} ∪ B) (fun x => H x /\ ~ in_block k p x).
Proof.
  intros I [Hk Ha Hlo Hhi] Hin. pose proof (i_geom _ _ _ I) as G.
  pose proof (pow2_pos k ltac:(lia)). pose proof (geom_bounds s G) as (Hlh & Htop & Hoff).
  unfold push_block. rewrite virt_to_buddy_blk by (done || lia).
  assert (forall k', (k', p) ∉ B) as Hfresh.
  { intros k' Hq. destruct (i_block _ _ _ I _ _ Hq) as [[? ? ? ?] _].
    eapply (i_hole _ _ _ I k' p p Hq); [apply in_block_start; lia|].
    apply Hin, in_block_start. lia. }
  split; simpl.
  - destruct G. split; done.
  - apply (lists_push s B H); [done|by split|done].
  - intros k' p' [[= -> ->]%elem_of_singleton|Hq]%elem_of_union.
    + split; [split; done|]. unfold get_block_order; simpl. by rewrite lookup_insert_eq.
    + destruct (i_block _ _ _ I _ _ Hq) as [[? ? ? ?] Hbo]. split; [split; done|].
      unfold get_block_order; simpl. rewrite lookup_insert_ne; [done|].
      intros E. apply (blk_inj s) in E. subst p'. by eapply Hfresh.
  - intros k1 p1 k2 p2 x [[= -> ->]%elem_of_singleton|Hb1]%elem_of_union
      [[= -> ->]%elem_of_singleton|Hb2]%elem_of_union Hx1 Hx2; try done.
    + exfalso. eapply (i_hole _ _ _ I); [exact Hb2|exact Hx2|by apply Hin].
    + exfalso. eapply (i_hole _ _ _ I); [exact Hb1|exact Hx1|by apply Hin].
    + by eapply (i_disj _ _ _ I).
  - intros k' p' x [[= -> ->]%elem_of_singleton|Hq]%elem_of_union Hx [Hh Hn]; [done|].
    by eapply (i_hole _ _ _ I).
  - intros x Hx. unfold managed, used; simpl. fold (managed s x) (used s x).
    rewrite (i_free _ _ _ I x Hx).
    assert (in_block k p x \/ ~ in_block k p x) as Hdec by (unfold in_block; lia). split.
    + intros [?|(k' & p' & Hq & Hx')].
      * destruct Hdec; [right; exists k, p; set_solver|by left].
      * right. exists k', p'. set_solver.
    + intros [[? _]|(k' & p' & [[= -> ->]%elem_of_singleton|Hq]%elem_of_union & Hx')].
      * by left.
      * left. by apply Hin.
      * right. eauto.
  - intros x [Hx _]. by apply (i_hrange _ _ _ I).
  - apply (i_low _ _ _ I).
Qed.

(** ** Marking pages *)

Definition blockb (k p x : Z) : bool := (p <=? x) && (x <? p + 2 ^ k).

Lemma blockb_spec k p x : blockb k p x = true <-> in_block k p x.
Proof. unfold blockb, in_block. rewrite andb_true_iff, Z.leb_le, Z.ltb_lt. done. Qed.

Lemma blockb_false k p x : blockb k p x = false <-> ~ in_block k p x.
Proof. rewrite <- blockb_spec. destruct (blockb k p x); split; congruence. Qed.

(** Effect of the range operations on a whole block, page by page. *)
Lemma range_op_block f v byte s bm k p :
  bit_op f v byte -> geom s -> block_ok s k p -> zlen bm = zlen (bitmap s) \/ zlen bm = zlen (managed_bitmap s) ->
  zlen (range_op f byte (lowest_page s) (highest_page s) bm p (Z.shiftl 1 k)) = zlen bm /\
  forall x, lowest_page s <= x ->
    bitmap_test (range_op f byte (lowest_page s) (highest_page s) bm p (Z.shiftl 1 k)) (x - lowest_page s) =
    if blockb k p x then v else bitmap_test bm (x - lowest_page s).
Proof.
  intros Hop G [Hk Ha Hlo Hhi] Hlen. pose proof (geom_bounds s G) as (? & ? & ?).
  pose proof (pow2_pos k ltac:(lia)). pose proof (g_bm _ G). pose proof (g_mb _ G).
  assert (2 ^ k <= 2 ^ 20) by (apply pow2_le; unfold MAX_ORDER in *; lia).
  rewrite Z.shiftl_1_l.
  destruct (range_op_spec f v byte Hop (lowest_page s) (highest_page s) bm p (2 ^ k)) as (L & _ & T);
    try lia.
  split; [done|]. intros x Hx. rewrite T by lia. unfold blockb.
  rewrite Z.min_l by lia.
  destruct (Z.leb_spec p x), (Z.leb_spec (p - lowest_page s) (x - lowest_page s)),
    (Z.ltb_spec x (p + 2 ^ k)), (Z.ltb_spec (x - lowest_page s) (p + 2 ^ k - lowest_page s));
    simpl; done || lia.
Qed.

Lemma used_set_range s k p : geom s -> block_ok s k p -> forall x, lowest_page s <= x ->
  used (with_bitmap s (bitmap_set_range (lowest_page s) (highest_page s) (bitmap s) p (Z.shiftl 1 k))) x
  = blockb k p x || used s x.
Proof.
  intros G Hb x Hx. unfold used; simpl.
  destruct (range_op_block _ _ _ s (bitmap s) k p set_bit_op G Hb (or_introl eq_refl)) as [_ T].
  unfold bitmap_set_range. rewrite T by done. by destruct (blockb k p x).
Qed.

Lemma used_clear_range s k p : geom s -> block_ok s k p -> forall x, lowest_page s <= x ->
  used (with_bitmap s (bitmap_clear_range (lowest_page s) (highest_page s) (bitmap s) p (Z.shiftl 1 k))) x
  = negb (blockb k p x) && used s x.
Proof.
  intros G Hb x Hx. unfold used; simpl.
  destruct (range_op_block _ _ _ s (bitmap s) k p clear_bit_op G Hb (or_introl eq_refl)) as [_ T].
  unfold bitmap_clear_range. rewrite T by done. by destruct (blockb k p x).
Qed.

Lemma geom_bitmap s bm : geom s -> zlen bm = zlen (bitmap s) -> geom (with_bitmap s bm).
Proof. intros [] E. split; simpl; rewrite ?E; done. Qed.

Lemma inv_mark_used s B k p :
  inv s B (in_block k p) -> block_ok s k p ->
  inv (with_bitmap s (bitmap_set_range (lowest_page s) (highest_page s) (bitmap s) p (Z.shiftl 1 k))) B no_hole.
Proof.
  intros I Hb. pose proof (used_set_range s k p (i_geom _ _ _ I) Hb) as U.
  destruct (range_op_block _ _ _ s (bitmap s) k p set_bit_op (i_geom _ _ _ I) Hb (or_introl eq_refl)) as [L _].
  destruct I as [G Li Bl D Ho F R Lo]. split; try done.
  - by apply geom_bitmap.
  - intros k' p' Hq. destruct (Bl _ _ Hq) as [[? ? ? ?] ?]. split; [split; done|done].
  - by intros ? ? ? ? ? [].
  - intros x Hx. simpl in Hx. rewrite U by lia. specialize (F x Hx).
    change (managed (with_bitmap _ _) x) with (managed s x).
    destruct (blockb k p x) eqn:E; simpl.
    + apply blockb_spec in E. split; [by intros [_ ?]|]. intros [[]|(k' & p' & Hq & Hx')].
      exfalso. by eapply Ho.
    + apply blockb_false in E. rewrite F. unfold no_hole. tauto.
Qed.

Lemma inv_mark_free s B k p :
  inv s B no_hole -> block_ok s k p ->
  (forall x, in_block k p x -> managed s x = true /\ used s x = true) ->
  inv (with_bitmap s (bitmap_clear_range (lowest_page s) (highest_page s) (bitmap s) p (Z.shiftl 1 k))) B (in_block k p).
Proof.
  intros I Hb Hall. pose proof (used_clear_range s k p (i_geom _ _ _ I) Hb) as U.
  destruct (range_op_block _ _ _ s (bitmap s) k p clear_bit_op (i_geom _ _ _ I) Hb (or_introl eq_refl)) as [L _].
  destruct I as [G Li Bl D Ho F R Lo].
  assert (forall x, in_block k p x -> lowest_page s <= x < highest_page s) as Hr.
  { intros x Hx. destruct Hb. unfold in_block in Hx. lia. }
  split; try done.
  - by apply geom_bitmap.
  - intros k' p' Hq. destruct (Bl _ _ Hq) as [[? ? ? ?] ?]. split; [split; done|done].
  - intros k' p' x Hq Hx Hin. destruct (Hall x Hin) as [_ Hu].
    assert (managed s x = true /\ used s x = false) as [_ ?]; [|congruence].
    apply F; [by apply Hr|]. right. eauto.
  - intros x Hx. simpl in Hx. rewrite U by lia. specialize (F x Hx).
    change (managed (with_bitmap _ _) x) with (managed s x).
    destruct (blockb k p x) eqn:E; simpl.
    + apply blockb_spec in E. split; [by left|]. intros _. split; [by apply Hall|done].
    + apply blockb_false in E. rewrite F. unfold no_hole. tauto.
Qed.

Lemma inv_refcounts s B H r :
  inv s B H -> zlen r = zlen (refcounts s) -> inv (with_refcounts s r) B H.
Proof.
  intros [G Li Bl D Ho F R Lo] E. split; try done.
  - destruct G. split; simpl; rewrite ?E; done.
  - intros k' p' Hq. destruct (Bl _ _ Hq) as [[? ? ? ?] ?]. split; [split; done|done].
Qed.

(** ** Coalescing *)

(** [s'] differs from [s] in the block headers only. *)
Definition same_pages (s s' : pmm) : Prop :=
  bitmap s' = bitmap s /\ managed_bitmap s' = managed_bitmap s /\ refcounts s' = refcounts s /\
  lowest_page s' = lowest_page s /\ highest_page s' = highest_page s /\
  physical_memory_offset s' = physical_memory_offset s /\ b_zone s' = b_zone s.

Lemma same_pages_refl s : same_pages s s.
Proof. done. Qed.

Lemma same_pages_trans s1 s2 s3 : same_pages s1 s2 -> same_pages s2 s3 -> same_pages s1 s3.
Proof. unfold same_pages. intros. destruct_and!. split_and!; congruence. Qed.

Lemma same_pages_used s s' x : same_pages s s' -> used s' x = used s x /\ managed s' x = managed s x.
Proof. intros (E1 & E2 & _ & E3 & _). unfold used, managed. by rewrite E1, E2, E3. Qed.

Lemma same_pages_block s s' k p : same_pages s s' -> block_ok s k p -> block_ok s' k p.
Proof. intros (_ & _ & _ & E1 & E2 & _) []. split; rewrite ?E1, ?E2; done. Qed.

Lemma same_pages_links s m : same_pages s (with_links s m).
Proof. repeat split. Qed.

Lemma block_ok_links s m k p : block_ok s k p -> block_ok (with_links s m) k p.
Proof. intros []. by split. Qed.

(** A free page that starts a block-aligned region is the header of the block
    it lies in, unless that block would contain the hole. *)
Lemma free_start_is_block s B k p b :
  inv s B (in_block k p) -> block_ok s k p -> lowest_page s <= b < highest_page s ->
  b mod 2 ^ k = 0 -> ~ in_block k p b ->
  (forall k' q, k < k' -> q mod 2 ^ k' = 0 -> in_block k' q b -> in_block k' q p) ->
  managed s b = true -> used s b = false -> get_block_order s (blk s b) = k ->
  (k, b) ∈ B.
Proof.
  intros I Hb Hr Ha Hnb Hpair Hm Hu Hord.
  destruct (proj1 (i_free _ _ _ I b Hr) (conj Hm Hu)) as [?|(k' & q & Hq & Hin)]; [done|].
  destruct (i_block _ _ _ I _ _ Hq) as [[Hk' Ha' ? ?] Ho].
  destruct (Z_lt_le_dec k k') as [Hlt|Hle].
  - exfalso. eapply (i_hole _ _ _ I _ _ _ Hq); [by eapply Hpair|]. apply in_block_start, Hb.
  - assert (in_block k b b) as Hbb by (apply in_block_start, Hb).
    destruct (aligned_nested k' q k b b ltac:(lia) Ha' Ha Hin Hbb) as [? _].
    assert (q = b) as -> by (unfold in_block in Hin; lia). congruence.
Qed.

Lemma coalesce_step s B k p b :
  inv s B (in_block k p) -> block_ok s k p -> k < MAX_ORDER - 1 ->
  b = Z.lxor p (Z.shiftl 1 k) -> (k, b) ∈ B ->
  let q := if p <? b then p else b in
  inv (with_links s (list_del (links s) (blk s b))) (B ∖ {[(k, b)]}) (in_block (k + 1) q) /\
  block_ok s (k + 1) q.
Proof.
  intros I Hb Hk -> Hin q. destruct Hb as [Hk0 Ha Hlo Hhi].
  destruct (i_block _ _ _ I _ _ Hin) as [[_ _ Hlo' Hhi'] _].
  pose proof (pow2_pos k ltac:(lia)). pose proof (pow2_succ k ltac:(lia)) as Hs.
  pose proof (geom_bounds s (i_geom _ _ _ I)) as (? & ? & ?).
  destruct (buddy_cases k p ltac:(lia) ltac:(lia) Ha) as [[Hal E]|(Hal & E & Hge)]; unfold q; clear q;
    rewrite E in *.
  - rewrite (proj2 (Z.ltb_lt _ _)) by lia. split.
    + eapply inv_hole_ext; [|by apply inv_pop]. intros x. unfold in_block. lia.
    + split; unfold MAX_ORDER in *; lia.
  - rewrite (proj2 (Z.ltb_ge _ _)) by lia. split.
    + eapply inv_hole_ext; [|by apply inv_pop]. intros x. unfold in_block. lia.
    + split; unfold MAX_ORDER in *; lia.
Qed.

(** A larger aligned block that contains the buddy contains the block itself. *)
Lemma buddy_pair k p k' q :
  0 <= k -> 0 <= p -> p mod 2 ^ k = 0 -> k < k' -> q mod 2 ^ k' = 0 ->
  in_block k' q (Z.lxor p (Z.shiftl 1 k)) -> in_block k' q p.
Proof.
  intros Hk Hp Ha Hlt Haq Hin. pose proof (pow2_pos k Hk). pose proof (pow2_succ k Hk).
  destruct (buddy_cases k p Hk Hp Ha) as [[Hal E]|(Hal & E & Hge)]; rewrite E in Hin.
  - destruct (aligned_nested (k + 1) p k' q (p + 2 ^ k) ltac:(lia) Hal Haq) as [? ?];
      [unfold in_block; lia|done|]. unfold in_block in *. lia.
  - destruct (aligned_nested (k + 1) (p - 2 ^ k) k' q (p - 2 ^ k) ltac:(lia) Hal Haq) as [? ?];
      [unfold in_block; lia|done|]. unfold in_block in *. lia.
Qed.

Lemma lxor_aligned k p :
  0 <= k -> 0 <= p -> p mod 2 ^ k = 0 ->
  Z.lxor p (Z.shiftl 1 k) mod 2 ^ k = 0 /\ ~ in_block k p (Z.lxor p (Z.shiftl 1 k)).
Proof.
  intros Hk Hp Ha. pose proof (pow2_pos k Hk). pose proof (pow2_succ k Hk).
  destruct (buddy_cases k p Hk Hp Ha) as [[Hal E]|(Hal & E & Hge)]; rewrite E; unfold in_block.
  - split; [|lia]. rewrite Z.add_mod, Ha, Z_mod_same_full by lia. done.
  - split; [|lia]. by apply (aligned_le k (k + 1)); [lia|].
Qed.

Lemma coalesce_spec n s B p k :
  inv s B (in_block k p) -> block_ok s k p ->
  let '(s', p', k') := coalesce n s p k in
  same_pages s s' /\ block_ok s' k' p' /\ exists B', inv s' B' (in_block k' p').
Proof.
  revert s B p k. induction n as [|n IH]; intros s B p k I Hb; simpl.
  { split_and!; [done|done|]. eauto. }
  pose proof Hb as [Hk Ha Hlo Hhi]. pose proof (i_geom _ _ _ I) as G.
  pose proof (geom_bounds s G) as (? & ? & ?).
  destruct (k <? MAX_ORDER - 1) eqn:Ek; b2p; [|split_and!; eauto using same_pages_refl].
  set (b := Z.lxor p (Z.shiftl 1 k)). rewrite negb_involutive.
  destruct ((b <? lowest_page s) || (b >=? highest_page s) ||
    negb (pmm_is_managed s (b * PAGE_SIZE)) || bitmap_test (bitmap s) (b - lowest_page s)) eqn:Eb;
    [split_and!; eauto using same_pages_refl|].
  b2p. rewrite pmm_is_managed_frame in * by (done || lia).
  rewrite virt_to_buddy_blk by (done || lia).
  destruct (_ && _ && _) eqn:Eo; [|split_and!; eauto using same_pages_refl]. b2p.
  destruct (lxor_aligned k p ltac:(lia) ltac:(lia) Ha) as [Hab Hnb].
  assert ((k, b) ∈ B) as Hin.
  { eapply free_start_is_block; try done; try lia.
    intros k' q Hlt Haq. apply buddy_pair; (done || lia). }
  destruct (coalesce_step s B k p b I Hb ltac:(lia) eq_refl Hin) as [I' Hb'].
  set (q := if p <? b then p else b) in *.
  specialize (IH _ _ _ _ I' (block_ok_links _ _ _ _ Hb')).
  destruct (coalesce n _ _ _) as [[s' p'] k'].
  destruct IH as (Hsame & Hrest). split; [|done].
  eapply same_pages_trans; [|exact Hsame]. done.
Qed.

(** More fuel than [MAX_ORDER - 1 - k] does not change the loop. *)
Lemma coalesce_fuel n s p k :
  (Z.to_nat (MAX_ORDER - 1 - k) <= n)%nat -> coalesce (S n) s p k = coalesce n s p k.
Proof.
  revert s p k. induction n as [|n IH]; intros s p k Hf.
  - cbn [coalesce]. rewrite (proj2 (Z.ltb_ge _ _)) by lia. done.
  - set (m := S n) in *. cbn [coalesce]. unfold m. cbn [coalesce]. fold m.
    destruct (k <? MAX_ORDER - 1) eqn:E; [|done]. b2p.
    destruct (negb (negb _)); [done|]. destruct (_ && _ && _); [|done].
    apply IH. lia.
Qed.

Lemma push_same_pages s p k : same_pages s (push_block s p k).
Proof. done. Qed.

Lemma push_whole_hole s B k p :
  inv s B (in_block k p) -> block_ok s k p ->
  inv (push_block s p k) ({[(k, p)]} ∪ B) no_hole.
Proof.
  intros I Hb. eapply inv_hole_ext; [|by apply inv_push].
  intros x. simpl. unfold no_hole. tauto.
Qed.

Lemma buddy_free_spec s B k p :
  inv s B no_hole -> block_ok s k p ->
  (forall x, in_block k p x -> managed s x = true /\ used s x = true) ->
  let s' := buddy_free_internal s (p * PAGE_SIZE) k in
  (exists B', inv s' B' no_hole) /\ refcounts s' = refcounts s /\
  lowest_page s' = lowest_page s /\ highest_page s' = highest_page s /\
  forall x, lowest_page s <= x ->
    used s' x = negb (blockb k p x) && used s x /\ managed s' x = managed s x.
Proof.
  intros I Hb Hall s'. pose proof (inv_mark_free _ _ _ _ I Hb Hall) as I1.
  pose proof (used_clear_range s k p (i_geom _ _ _ I) Hb) as U.
  set (s1 := with_bitmap s _) in *.
  assert (s' = let '(s2, p2, k2) := coalesce (Z.to_nat MAX_ORDER) s1 p k in push_block s2 p2 k2) as ->.
  { unfold s', buddy_free_internal, PAGE_SIZE. by rewrite Z.div_mul by lia. }
  assert (block_ok s1 k p) as Hb1 by (destruct Hb; split; done).
  pose proof (coalesce_spec (Z.to_nat MAX_ORDER) s1 B p k I1 Hb1) as C.
  destruct (coalesce _ s1 p k) as [[s2 p2] k2]. destruct C as (S2 & Hb2 & B2 & I2).
  split; [eexists; by apply push_whole_hole|].
  pose proof S2 as (_ & _ & ? & ? & ? & _). split_and!; try done.
  intros x Hx. destruct (same_pages_used _ _ x S2) as [Eu Em].
  change (used (push_block s2 p2 k2) x) with (used s2 x).
  change (managed (push_block s2 p2 k2) x) with (managed s2 x).
  rewrite Eu, Em. split; [by apply U|done].
Qed.

(** ** Splitting *)

Lemma block_half s k p : block_ok s (k + 1) p -> 0 <= k -> block_ok s k p /\ block_ok s k (p + 2 ^ k).
Proof.
  intros [Hk Ha Hlo Hhi] H0. pose proof (pow2_pos k H0). rewrite pow2_succ in Hhi by lia.
  assert (p mod 2 ^ k = 0) as Hp by (apply (aligned_le k (k + 1)); [lia|done]).
  split; split; try lia. rewrite Z.add_mod, Hp, Z_mod_same_full by lia. done.
Qed.

Lemma split_down_spec n s B p k :
  inv s B (in_block k p) -> block_ok s k p -> Z.of_nat n <= k ->
  let s' := split_down n s p k in
  same_pages s s' /\ block_ok s' (k - Z.of_nat n) p /\
  exists B', inv s' B' (in_block (k - Z.of_nat n) p).
Proof.
  revert s B k. induction n as [|n IH]; intros s B k I Hb Hn; cbn [split_down]; cbv zeta.
  { rewrite Z.sub_0_r. split_and!; eauto using same_pages_refl. }
  rewrite Z.shiftl_1_l. set (j := k - 1).
  replace k with (j + 1) in I, Hb |- * by lia.
  destruct (block_half _ _ _ Hb ltac:(lia)) as [Hb1 Hb2].
  pose proof (pow2_pos j ltac:(lia)). pose proof (pow2_succ j ltac:(lia)) as Hs.
  assert (inv (push_block s (p + 2 ^ j) j) ({[(j, p + 2 ^ j)]} ∪ B) (in_block j p)) as I'.
  { eapply inv_hole_ext; [|apply inv_push; [exact I|done|]].
    - intros x. simpl. unfold in_block. lia.
    - intros x. unfold in_block. lia. }
  specialize (IH _ _ _ I' (same_pages_block _ _ _ _ (push_same_pages _ _ _) Hb1) ltac:(lia)).
  destruct IH as (S' & Hb' & HB').
  replace (j + 1 - Z.of_nat (S n)) with (j - Z.of_nat n) by lia.
  split_and!; [|done|done]. eapply same_pages_trans; [apply push_same_pages|exact S'].
Qed.

(** Taking a block of [B]: the result is an aligned block of the requested order
    whose pages were free; they become used and nothing else changes. *)
Lemma take_block_spec s B c k p :
  inv s B no_hole -> (c, p) ∈ B -> 0 <= k <= c ->
  let '(pfn, s') := take_block s (blk s p) c k in
  pfn = p /\ block_ok s' k p /\ (exists B', inv s' B' no_hole) /\
  refcounts s' = refcounts s /\ lowest_page s' = lowest_page s /\ highest_page s' = highest_page s /\
  (forall x, in_block k p x -> managed s x = true /\ used s x = false) /\
  forall x, lowest_page s <= x ->
    used s' x = blockb k p x || used s x /\ managed s' x = managed s x.
Proof.
  intros I Hin Hk. unfold take_block. cbv zeta.
  destruct (i_block _ _ _ I _ _ Hin) as [Hb _]. pose proof Hb as [Hc Ha Hlo Hhi].
  pose proof (pow2_pos c ltac:(lia)). pose proof (pow2_le k c ltac:(lia)).
  pose proof (geom_bounds s (i_geom _ _ _ I)) as (? & ? & ?).
  set (s1 := with_links s _). change (buddy_to_phys s1) with (buddy_to_phys s).
  rewrite buddy_to_phys_blk by (apply I || lia).
  unfold PAGE_SIZE. rewrite Z.div_mul by lia.
  assert (inv s1 (B ∖ {[(c, p)]}) (in_block c p)) as I1.
  { eapply inv_hole_ext; [|by apply inv_pop]. intros x. simpl. unfold no_hole. tauto. }
  pose proof (split_down_spec (Z.to_nat (c - k)) s1 _ p c I1
    (block_ok_links _ _ _ _ Hb) ltac:(lia)) as Hsp.
  set (s2 := split_down _ s1 p c) in *. cbv zeta in Hsp.
  replace (c - Z.of_nat (Z.to_nat (c - k))) with k in Hsp by lia.
  destruct Hsp as (S2 & Hb2 & B2 & I2).
  assert (same_pages s s2) as S by (eapply same_pages_trans; [apply same_pages_links|exact S2]).
  pose proof S as (_ & _ & ? & El & Eh & _). split_and!; try done.
  - destruct Hb2; split; done.
  - eexists. by apply inv_mark_used.
  - intros x Hx. apply (i_free _ _ _ I); [unfold in_block in Hx; lia|].
    right. exists c, p. split; [done|]. unfold in_block in *. lia.
  - intros x Hx. rewrite used_set_range by (done || lia || apply I2).
    destruct (same_pages_used _ _ x S) as [-> Em]. done.
Qed.
