(* ===== verification/PmmSpec.v ===== *)
(** * What the physical memory manager promises

    The abstract state of the manager is the set of its free pages
    ([free_page]) and the reference count of every page.  The theorems give the
    effect of each entry point on that abstract state for every state that
    satisfies the invariant [pmm_ok], which each of them preserves. *)

From S2P Require Import Prelude Bitmap DList Pmm PmmInv.

Definition in_range (s : pmm) (x : Z) : Prop := lowest_page s <= x < highest_page s.

(** The page can be handed out by an allocation. *)
Definition free_page (s : pmm) (x : Z) : Prop :=
  in_range s x /\ managed s x = true /\ used s x = false.

Definition refcount (s : pmm) (x : Z) : Z := rd (refcounts s) (x - lowest_page s).

Definition pmm_ok (s : pmm) : Prop := exists B, inv s B no_hole.

(** ** [get_order] *)

Lemma get_order_loop_spec n size count order :
  0 <= order -> size = 2 ^ order -> 1 <= count <= 2 ^ 63 -> order <= 63 ->
  (order = 0 \/ 2 ^ (order - 1) < count) -> (Z.to_nat (64 - order) <= n)%nat ->
  exists o, get_order_loop n size count order = Some o /\
    count <= 2 ^ o /\ (o = 0 \/ 2 ^ (o - 1) < count) /\ 0 <= o <= 63.
Proof.
  revert size order. induction n as [|n IH]; intros size order H0 -> Hc Ho Hlow Hf; [lia|].
  cbn [get_order_loop]. destruct (2 ^ order <? count) eqn:E; b2p.
  - assert (order < 63).
    { destruct (Z_lt_le_dec order 63); [done|]. replace order with 63 in E by lia. lia. }
    apply IH; try lia.
    + rewrite u64_small, pow2_succ; [lia|lia|].
      assert (2 ^ order <= 2 ^ 62) by (apply pow2_le; lia). pose proof (pow2_pos order). lia.
    + right. by replace (order + 1 - 1) with order by lia.
  - exists order. split_and!; done || lia.
Qed.

Lemma get_order_spec count :
  1 <= count <= 2 ^ 63 ->
  exists o, get_order count = Some o /\ count <= 2 ^ o /\
    (o = 0 \/ 2 ^ (o - 1) < count) /\ 0 <= o <= 63.
Proof. intros. apply get_order_loop_spec; [lia|done|lia|lia|by left|lia]. Qed.

(** The order is the exponent of the smallest sufficient power of two. *)
Lemma get_order_unique count o :
  1 <= count <= 2 ^ 63 -> 0 <= o -> count <= 2 ^ o -> (o = 0 \/ 2 ^ (o - 1) < count) ->
  get_order count = Some o.
Proof.
  intros Hc Ho Hle Hlow. destruct (get_order_spec count Hc) as (o' & -> & Hle' & Hlow' & Ho').
  f_equal. destruct (Z.lt_trichotomy o o') as [Hlt|[?|Hlt]]; [|done|].
  - destruct Hlow' as [?|Hlow']; [lia|].
    assert (2 ^ o <= 2 ^ (o' - 1)) by (apply pow2_le; lia). lia.
  - destruct Hlow as [?|Hlow]; [lia|].
    assert (2 ^ o' <= 2 ^ (o - 1)) by (apply pow2_le; lia). lia.
Qed.

(** ** Reference-count loops *)

Lemma set_refs_spec n r idx x :
  0 <= idx -> idx + Z.of_nat n <= zlen r ->
  zlen (set_refs n r idx) = zlen r /\
  rd (set_refs n r idx) x = if (idx <=? x) && (x <? idx + Z.of_nat n) then 1 else rd r x.
Proof.
  revert r idx. induction n as [|n IH]; intros r idx H0 Hl; cbn [set_refs].
  - split; [done|]. destruct (Z.leb_spec idx x), (Z.ltb_spec x (idx + Z.of_nat 0)); simpl; done || lia.
  - destruct (IH (wr r idx 1) (idx + 1)) as [-> ->]; [lia|rewrite zlen_wr; lia|].
    rewrite zlen_wr, rd_wr. split; [done|].
    destruct (Z.leb_spec (idx + 1) x), (Z.ltb_spec x (idx + 1 + Z.of_nat n)), (Z.leb_spec idx x),
      (Z.ltb_spec x (idx + Z.of_nat (S n))), (Z.eqb_spec idx x), (Z.leb_spec 0 idx),
      (Z.ltb_spec idx (zlen r)); simpl; done || lia.
Qed.

Lemma dec_refs_spec n r idx x :
  0 <= idx -> idx + Z.of_nat n <= zlen r ->
  zlen (dec_refs n r idx) = zlen r /\
  rd (dec_refs n r idx) x =
    if (idx <=? x) && (x <? idx + Z.of_nat n) && (rd r x >? 0) then rd r x - 1 else rd r x.
Proof.
  revert r idx. induction n as [|n IH]; intros r idx H0 Hl; cbn [dec_refs].
  - split; [done|]. destruct (Z.leb_spec idx x), (Z.ltb_spec x (idx + Z.of_nat 0)); simpl; done || lia.
  - set (r' := if rd r idx >? 0 then _ else _).
    assert (zlen r' = zlen r) as Hz by (unfold r'; case_if; [apply zlen_wr|done]).
    assert (rd r' x = if (idx =? x) && (rd r x >? 0) then rd r x - 1 else rd r x) as Hx.
    { unfold r'. destruct (rd r idx >? 0) eqn:E; rewrite ?rd_wr;
        destruct (Z.eqb_spec idx x) as [<-|]; rewrite ?E; simpl; try done.
      rewrite (proj2 (Z.leb_le _ _)), (proj2 (Z.ltb_lt _ _)) by lia. done. }
    destruct (IH r' (idx + 1)) as [-> ->]; [lia|lia|]. split; [done|]. rewrite Hx.
    destruct (Z.leb_spec (idx + 1) x), (Z.ltb_spec x (idx + 1 + Z.of_nat n)), (Z.leb_spec idx x),
      (Z.ltb_spec x (idx + Z.of_nat (S n))), (Z.eqb_spec idx x); simpl; try lia; try done.
Qed.

(** ** Searching the free lists *)

Lemma first_nonempty_spec n s B order :
  inv s B no_hole -> 0 <= order <= MAX_ORDER -> Z.of_nat n = MAX_ORDER - order ->
  let c := first_nonempty n s order in
  order <= c <= MAX_ORDER /\ (forall k p, (k, p) ∈ B -> order <= k -> c <= k) /\
  (c < MAX_ORDER -> exists p, (c, p) ∈ B /\ get_next (links s) (free_list s c) = blk s p).
Proof.
  intros I. revert order. induction n as [|n IH]; intros order Ho Hn; cbn [first_nonempty].
  { split; [lia|]. split; [|lia]. intros k p Hin. apply (i_block _ _ _ I) in Hin as [[? ? ? ?] _]. lia. }
  destruct (i_lists _ _ _ I order ltac:(lia)) as (l & Hd & Hl).
  rewrite (proj2 (Z.ltb_lt _ _)) by lia. rewrite (dlist_list_empty _ _ _ Hd). simpl.
  destruct (bool_decide (l = [])) eqn:E; b2p.
  - subst l. specialize (IH (order + 1) ltac:(lia) ltac:(lia)). cbv zeta in IH.
    destruct IH as (H1 & H2 & H3). split; [lia|]. split; [|done].
    intros k p Hin Hk. destruct (Z.eq_dec k order) as [->|]; [|eapply H2; [done|lia]].
    assert (blk s p ∈ ([] : list Z)) by (apply Hl; eauto). set_solver.
  - split; [lia|]. split; [auto|]. intros _. destruct l as [|a l]; [done|].
    assert (a ∈ a :: l) as Ha by left. apply Hl in Ha as (p & Ea & Hp). exists p. split; [done|].
    destruct Hd as [_ Hs]. rewrite (seg_head _ _ _ _ Hs). done.
Qed.

Lemma find_block_spec n m ok a l h :
  seg m a l h -> h ∉ l -> (length l <= n)%nat ->
  exists r, find_block n m ok (get_next m a) h = Some r /\
    match r with
    | None => forall b, b ∈ l -> ok b = false
    | Some b => b ∈ l /\ ok b = true
    end.
Proof.
  revert n a. induction l as [|x l IH]; intros n a Hs Hh Hn; rewrite (seg_head _ _ _ _ Hs); simpl.
  - exists None. split; [|set_solver]. destruct n; simpl; by rewrite Z.eqb_refl.
  - destruct Hs as [_ Hs]. destruct n as [|n]; simpl in Hn; [lia|]. simpl.
    assert (x <> h) as Hxh by set_solver. rewrite (proj2 (Z.eqb_neq _ _) Hxh).
    destruct (ok x) eqn:E.
    + exists (Some x). split; [done|]. split; [left|done].
    + destruct (IH n x Hs ltac:(set_solver) ltac:(lia)) as (r & -> & Hr). exists r. split; [done|].
      destruct r; set_solver.
Qed.

(** A duplicate-free list of integers of an interval is no longer than it. *)
Lemma NoDup_interval (l : list Z) lo n :
  NoDup l -> (forall x, x ∈ l -> lo <= x < lo + Z.of_nat n) -> (length l <= n)%nat.
Proof.
  intros Hnd Hl. replace n with (length (seqZ lo (Z.of_nat n))) by (rewrite length_seqZ; lia).
  apply submseteq_length, NoDup_submseteq; [done|]. intros x Hx. apply elem_of_seqZ. auto.
Qed.

(** A free list has at most one node per page. *)
Lemma list_fuel_enough s B H k l :
  inv s B H -> 0 <= k < MAX_ORDER -> dlist (links s) (free_list s k) l ->
  (forall a, a ∈ l <-> exists p, a = blk s p /\ (k, p) ∈ B) -> (length l <= list_fuel s)%nat.
Proof.
  intros I Hk [Hnd _] Hl. apply NoDup_cons in Hnd as [_ Hnd].
  pose proof (g_range _ (i_geom _ _ _ I)).
  assert (exists l', l = (blk s) <$> l' /\ forall p, p ∈ l' -> (k, p) ∈ B) as (l' & -> & Hl').
  { clear Hnd. assert (forall a, a ∈ l -> exists p, a = blk s p /\ (k, p) ∈ B) as Hl1 by (intros; by apply Hl).
    clear Hl. induction l as [|a l IH]; [exists []; set_solver|].
    destruct IH as (l' & -> & Hl'); [set_solver|]. destruct (Hl1 a) as (p & -> & Hp); [left|].
    exists (p :: l'). split; [done|]. set_solver. }
  rewrite length_fmap. unfold list_fuel. apply (NoDup_interval l' (lowest_page s)).
  - by eapply NoDup_fmap_1.
  - intros p Hp%Hl'. apply (i_block _ _ _ I) in Hp as [[? ? ? ?] _]. pose proof (pow2_pos k). lia.
Qed.

(** ** Allocation *)

(** Which pages are managed does not change, nor does the mark of the others. *)
Definition keeps_others (s s' : pmm) : Prop :=
  forall x, in_range s x -> managed s' x = managed s x /\ (managed s x = false -> used s' x = used s x).

(** Outcome of a successful allocation of a block of order [k]: the block is
    aligned, all of its pages were free, they no longer are, and every other
    page keeps its status. *)
Record allocated (s s' : pmm) (k p : Z) : Prop := {
  al_others : keeps_others s s';
  al_align : p mod 2 ^ k = 0;
  al_nonnull : 0 < p;
  al_ok : pmm_ok s';
  al_was_free : forall x, in_block k p x -> free_page s x;
  al_free : forall x, free_page s' x <-> free_page s x /\ ~ in_block k p x;
  al_lo : lowest_page s' = lowest_page s;
  al_hi : highest_page s' = highest_page s;
}.

Lemma take_block_allocated s B c k p :
  inv s B no_hole -> (c, p) ∈ B -> 0 <= k <= c ->
  let '(pfn, s') := take_block s (blk s p) c k in
  pfn = p /\ allocated s s' k p /\ refcounts s' = refcounts s /\ block_ok s k p.
Proof.
  intros I Hin Hk. pose proof (take_block_spec s B c k p I Hin Hk) as T.
  destruct (take_block s (blk s p) c k) as [pfn s'].
  destruct T as (-> & Hb & Hok & Er & El & Eh & Hf & Hu).
  assert (block_ok s k p) as Hb' by (destruct Hb; split; rewrite <- ?El, <- ?Eh; done).
  assert (forall x, in_block k p x -> in_range s x) as Hr.
  { intros x Hx. destruct Hb'. unfold in_block, in_range in *. lia. }
  split_and!; try done. split; try done.
  - intros x Hx. destruct (Hu x ltac:(unfold in_range in Hx; lia)) as [-> ->]. split; [done|].
    intros Hm. destruct (blockb k p x) eqn:E; [|done]. apply blockb_spec, Hf in E as [? _]. congruence.
  - apply Hb'.
  - assert (in_block k p p) as Hp by (apply in_block_start; lia).
    eapply (i_low _ _ _ I); [by apply Hr|]. by apply Hf.
  - intros x Hx. destruct (Hf x Hx). split; [by apply Hr|done].
  - intros x. unfold free_page. unfold in_range at 1. rewrite El, Eh. fold (in_range s x).
    split.
    + intros (Hx & Hm & Hus). destruct (Hu x ltac:(unfold in_range in Hx; lia)) as [E1 E2].
      rewrite E1 in Hus. rewrite E2 in Hm. b2p. split; [done|]. by apply blockb_false.
    + intros ((Hx & Hm & Hus) & Hn). destruct (Hu x ltac:(unfold in_range in Hx; lia)) as [E1 E2].
      rewrite E1, E2. apply blockb_false in Hn. rewrite Hn, Hus. done.
Qed.

Lemma allocated_refcounts s s' k p r :
  allocated s s' k p -> zlen r = zlen (refcounts s') -> allocated s (with_refcounts s' r) k p.
Proof.
  intros [K A N [B I] W F L H] E. split; try done. exists B. by apply inv_refcounts.
Qed.

Lemma pmm_alloc_pages_spec s B count :
  inv s B no_hole -> 1 <= count <= 2 ^ 63 ->
  exists k ptr s', get_order count = Some k /\ pmm_alloc_pages s count = Some (ptr, s') /\
    ((ptr = 0 /\ s' = s /\ (MAX_ORDER <= k \/ forall c p, (c, p) ∈ B -> c < k)) \/
     exists p, ptr = p * PAGE_SIZE /\ allocated s s' k p /\
       forall x, in_range s x -> refcount s' x = if blockb k p x then 1 else refcount s x).
Proof.
  intros I Hc. destruct (get_order_spec count Hc) as (k & Hk & _ & _ & Hk0). exists k.
  unfold pmm_alloc_pages. rewrite (proj2 (Z.eqb_neq count 0)) by lia. rewrite Hk.
  destruct (k >=? MAX_ORDER) eqn:Ek; b2p.
  { exists 0, s. split_and!; [done|done|]. left. split_and!; [done|done|by left]. }
  pose proof (first_nonempty_spec (Z.to_nat (MAX_ORDER - k)) s B k I ltac:(lia) ltac:(lia)) as Hf.
  cbv zeta in Hf. set (c := first_nonempty _ s k) in *. destruct Hf as (Hc1 & Hc2 & Hc3).
  destruct (c =? MAX_ORDER) eqn:Ec; b2p.
  { exists 0, s. split_and!; [done|done|]. left. split_and!; [done|done|right].
    intros c' p Hin. destruct (Z_lt_le_dec c' k) as [|Hle]; [done|].
    specialize (Hc2 _ _ Hin Hle). apply (i_block _ _ _ I) in Hin as [[? ? ? ?] _]. lia. }
  destruct (Hc3 ltac:(lia)) as (p & Hin & ->).
  pose proof (take_block_allocated s B c k p I Hin ltac:(lia)) as T.
  destruct (take_block s (blk s p) c k) as [pfn s1]. destruct T as (-> & A & Er & Hb).
  eexists (p * PAGE_SIZE), _. split_and!; [done|done|]. right. exists p.
  pose proof (g_rc _ (i_geom _ _ _ I)). pose proof (al_lo _ _ _ _ A) as El.
  destruct Hb as [? ? Hlo Hhi]. rewrite Z.shiftl_1_l. pose proof (pow2_pos k ltac:(lia)).
  assert (forall x, zlen (set_refs (Z.to_nat (2 ^ k)) (refcounts s1) (p - lowest_page s1)) = zlen (refcounts s1) /\
    rd (set_refs (Z.to_nat (2 ^ k)) (refcounts s1) (p - lowest_page s1)) x =
    if (p - lowest_page s1 <=? x) && (x <? p - lowest_page s1 + 2 ^ k) then 1 else rd (refcounts s1) x) as Hrefs.
  { intros x. pose proof (set_refs_spec (Z.to_nat (2 ^ k)) (refcounts s1) (p - lowest_page s1) x) as R.
    rewrite Z2Nat.id in R by lia. apply R; rewrite ?Er; lia. }
  split_and!; [done|apply allocated_refcounts; [done|apply (Hrefs 0)]|].
  intros x Hx. unfold refcount. simpl. destruct (Hrefs (x - lowest_page s1)) as [_ ->].
  rewrite Er, El. unfold blockb.
  destruct (Z.leb_spec (p - lowest_page s) (x - lowest_page s)), (Z.leb_spec p x),
    (Z.ltb_spec (x - lowest_page s) (p - lowest_page s + 2 ^ k)), (Z.ltb_spec x (p + 2 ^ k)); simpl; done || lia.
Qed.

(** ** Constrained allocation *)

Lemma alloc_search_spec n s B ok c k :
  inv s B no_hole -> 0 <= k <= c -> Z.of_nat n = MAX_ORDER - c ->
  exists ptr s', alloc_search n s ok c k = Some (ptr, s') /\
    ((ptr = 0 /\ s' = s /\ forall c' p, (c', p) ∈ B -> c <= c' -> ok (p * PAGE_SIZE) c' = false) \/
     exists c' p, ptr = p * PAGE_SIZE /\ c <= c' < MAX_ORDER /\ ok ptr c' = true /\
       allocated s s' k p /\ refcounts s' = refcounts s).
Proof.
  intros I. revert c. induction n as [|n IH]; intros c Hk Hn; cbn [alloc_search]; cbv zeta.
  { exists 0, s. split; [done|]. left. split_and!; [done|done|].
    intros c' p Hin. apply (i_block _ _ _ I) in Hin as [[? ? ? ?] _]. lia. }
  destruct (i_lists _ _ _ I c ltac:(lia)) as (l & Hd & Hl).
  pose proof (list_fuel_enough s B _ c l I ltac:(lia) Hd Hl) as Hfuel.
  destruct Hd as [Hnd Hs]. apply NoDup_cons in Hnd as [Hh _].
  destruct (find_block_spec (list_fuel s) (links s) (fun block => ok (buddy_to_phys s block) c)
    (free_list s c) l (free_list s c) Hs Hh Hfuel) as (r & -> & Hr).
  assert (forall p, (c, p) ∈ B -> buddy_to_phys s (blk s p) = p * PAGE_SIZE) as Hphys.
  { intros p Hin. apply (i_block _ _ _ I) in Hin as [[? ? ? ?] _]. pose proof (pow2_pos c).
    pose proof (g_range _ (i_geom _ _ _ I)). apply buddy_to_phys_blk; [apply I|lia]. }
  destruct r as [b|].
  - destruct Hr as [Hb Hok]. apply Hl in Hb as (p & -> & Hin).
    pose proof (take_block_allocated s B c k p I Hin ltac:(lia)) as T.
    destruct (take_block s (blk s p) c k) as [pfn s1]. destruct T as (-> & A & Er & _).
    eexists _, _. split; [done|]. right. exists c, p. rewrite Hphys in Hok by done.
    split_and!; done || lia.
  - destruct (IH (c + 1) ltac:(lia) ltac:(lia)) as (ptr & s' & -> & Hcase).
    exists ptr, s'. split; [done|]. destruct Hcase as [(-> & -> & Hno)|(c' & p & -> & Hc' & Hrest)].
    + left. split_and!; [done|done|]. intros c' p Hin Hle.
      destruct (Z.eq_dec c' c) as [->|]; [|apply Hno; [done|lia]].
      rewrite <- Hphys by done. apply Hr, Hl. eauto.
    + right. exists c', p. split_and!; try done; try lia; apply Hrest.
Qed.

(** ** Freeing *)

Record freed (s s' : pmm) (k p : Z) : Prop := {
  fr_others : keeps_others s s';
  fr_ok : pmm_ok s';
  fr_free : forall x, free_page s' x <-> free_page s x \/ in_block k p x;
  fr_refs : refcounts s' = refcounts s;
  fr_lo : lowest_page s' = lowest_page s;
  fr_hi : highest_page s' = highest_page s;
}.

(** The pages of the block belong to a client. *)
Definition owned_block (s : pmm) (k p : Z) : Prop :=
  block_ok s k p /\ forall x, in_block k p x -> managed s x = true /\ used s x = true.

(** A block just allocated is owned by the caller. *)
Lemma alloc_owned s s' k p B :
  inv s B no_hole -> allocated s s' k p -> 0 <= k -> k < MAX_ORDER -> owned_block s' k p.
Proof.
  intros I A Hk0 Hk. pose proof (pow2_pos k Hk0).
  assert (forall x, in_block k p x -> in_range s x) as Hin by (intros x Hx; apply (al_was_free _ _ _ _ A x Hx)).
  pose proof (Hin p) as H1. pose proof (Hin (p + 2 ^ k - 1)) as H2. unfold in_block, in_range in H1, H2.
  pose proof (al_lo _ _ _ _ A) as El. pose proof (al_hi _ _ _ _ A) as Eh.
  split; [split; [done|apply A|lia|lia]|]. intros x Hx.
  pose proof (al_was_free _ _ _ _ A x Hx) as (Hr & Hm & _). destruct (al_others _ _ _ _ A x Hr) as [Em _].
  split; [by rewrite Em|]. destruct (used s' x) eqn:Eu; [done|]. exfalso.
  assert (free_page s' x) as [_ Hn]%(al_free _ _ _ _ A); [|done].
  split; [|by rewrite Em]. unfold in_range. by rewrite El, Eh.
Qed.

Lemma alloc_order_small s count k ptr s' :
  get_order count = Some k -> pmm_alloc_pages s count = Some (ptr, s') -> ptr <> 0 -> k < MAX_ORDER.
Proof.
  intros Hk. unfold pmm_alloc_pages. destruct (count =? 0); [by intros [= <- _]|]. rewrite Hk.
  case_if; [by intros [= <- _]|]. b2p. done.
Qed.

Lemma buddy_free_freed s k p :
  pmm_ok s -> owned_block s k p -> freed s (buddy_free_internal s (p * PAGE_SIZE) k) k p.
Proof.
  intros [B I] [Hb Hall]. destruct (buddy_free_spec s B k p I Hb Hall) as (Hok & Er & El & Eh & Hu).
  split; try done.
  { intros x Hx. destruct (Hu x ltac:(unfold in_range in Hx; lia)) as [-> ->]. split; [done|].
    intros Hm. destruct (blockb k p x) eqn:E; [|done]. apply blockb_spec, Hall in E as [? _]. congruence. }
  intros x. unfold free_page. unfold in_range at 1. rewrite El, Eh. fold (in_range s x).
  split.
  - intros (Hx & Hm & Hus). destruct (Hu x ltac:(unfold in_range in Hx; lia)) as [E1 E2].
    rewrite E1 in Hus. rewrite E2 in Hm. b2p. destruct Hus as [Hus|Hus]; b2p; [right|left; done].
    by apply blockb_spec.
  - intros [(Hx & Hm & Hus)|Hx].
    + destruct (Hu x ltac:(unfold in_range in Hx; lia)) as [-> ->]. rewrite Hus, andb_false_r. done.
    + assert (in_range s x) as Hr by (destruct Hb; unfold in_block, in_range in *; lia).
      destruct (Hu x ltac:(unfold in_range in Hr; lia)) as [-> ->].
      rewrite (proj2 (blockb_spec k p x) Hx). split_and!; [done|by apply Hall|done].
Qed.

Lemma ok_refcounts s r : pmm_ok s -> zlen r = zlen (refcounts s) -> pmm_ok (with_refcounts s r).
Proof. intros [B I] E. exists B. by apply inv_refcounts. Qed.

Lemma owned_refcounts s r k p : owned_block s k p -> owned_block (with_refcounts s r) k p.
Proof. intros [[] ?]. split; [split|]; done. Qed.

Lemma frame_div p : p * PAGE_SIZE / PAGE_SIZE = p.
Proof. unfold PAGE_SIZE. apply Z.div_mul. lia. Qed.

(** The guards of [pmm_free_pages] pass for an owned block. *)
Lemma pmm_free_pages_owned s count k p :
  pmm_ok s -> 1 <= count -> get_order count = Some k -> owned_block s k p ->
  pmm_free_pages s (p * PAGE_SIZE) count =
  let s1 := with_refcounts s (dec_refs (Z.to_nat (2 ^ k)) (refcounts s) (p - lowest_page s)) in
  Some (if refcount s1 p =? 0 then buddy_free_internal s1 (p * PAGE_SIZE) k else s1).
Proof.
  intros [B I] Hc Hk Ho. pose proof Ho as [[Hk0 Ha Hlo Hhi] Hall]. pose proof (pow2_pos k ltac:(lia)).
  destruct (Hall p (in_block_start k p ltac:(lia))) as [Hm Hu].
  assert (0 < p) by (eapply (i_low _ _ _ I); [lia|done]).
  unfold pmm_free_pages. rewrite (proj2 (Z.eqb_neq (p * PAGE_SIZE) 0)) by (unfold PAGE_SIZE; lia).
  rewrite (proj2 (Z.eqb_neq count 0)) by lia. rewrite Hk, frame_div.
  unfold managed, used in Hm, Hu. rewrite Hm, Hu, Z.shiftl_1_l, !Z.geb_leb.
  rewrite (proj2 (Z.leb_gt MAX_ORDER k)), (proj2 (Z.ltb_ge p _)), (proj2 (Z.leb_gt _ p)) by lia.
  simpl. unfold refcount. simpl. by destruct (_ =? 0).
Qed.

(** The pages' counts drop by one and the block is released when the first
    count reaches zero. *)
Lemma pmm_free_pages_spec s count k p :
  pmm_ok s -> 1 <= count -> get_order count = Some k -> owned_block s k p ->
  exists s', pmm_free_pages s (p * PAGE_SIZE) count = Some s' /\ pmm_ok s' /\
    (forall x, in_range s x ->
       refcount s' x = if blockb k p x && (refcount s x >? 0) then refcount s x - 1 else refcount s x) /\
    (if (refcount s p =? 0) || (refcount s p =? 1)
     then forall x, free_page s' x <-> free_page s x \/ in_block k p x
     else forall x, free_page s' x <-> free_page s x) /\
    lowest_page s' = lowest_page s /\ highest_page s' = highest_page s /\ keeps_others s s'.
Proof.
  intros Hok Hc Hk Ho. rewrite (pmm_free_pages_owned s count k p) by done. cbv zeta.
  set (r := dec_refs _ _ _). pose proof Ho as [[Hk0 Ha Hlo Hhi] _]. pose proof (pow2_pos k ltac:(lia)).
  assert (highest_page s - lowest_page s <= zlen (refcounts s)) as Hz.
  { destruct Hok as [B I]. apply (i_geom _ _ _ I). }
  assert (forall x, zlen r = zlen (refcounts s) /\ refcount (with_refcounts s r) x =
    if blockb k p x && (refcount s x >? 0) then refcount s x - 1 else refcount s x) as Hr.
  { intros x. unfold r, refcount. simpl.
    pose proof (dec_refs_spec (Z.to_nat (2 ^ k)) (refcounts s) (p - lowest_page s)
      (x - lowest_page s) ltac:(lia) ltac:(lia)) as [? ->].
    rewrite Z2Nat.id by lia. split; [done|]. unfold blockb.
    destruct (Z.leb_spec (p - lowest_page s) (x - lowest_page s)), (Z.leb_spec p x),
      (Z.ltb_spec (x - lowest_page s) (p - lowest_page s + 2 ^ k)), (Z.ltb_spec x (p + 2 ^ k)); simpl; done || lia. }
  set (s1 := with_refcounts s r) in *.
  assert (pmm_ok s1) as Hok1 by (apply ok_refcounts; [done|apply (Hr 0)]).
  pose proof (buddy_free_freed s1 k p Hok1 (owned_refcounts _ _ _ _ Ho)) as F.
  assert ((refcount s1 p =? 0) = (refcount s p =? 0) || (refcount s p =? 1)) as ->.
  { destruct (Hr p) as [_ ->]. rewrite (proj2 (blockb_spec k p p)) by (apply in_block_start; lia). simpl.
    destruct (refcount s p >? 0) eqn:E, (Z.eqb_spec (refcount s p) 0), (Z.eqb_spec (refcount s p) 1);
      b2p; simpl; try done; try lia; (apply Z.eqb_eq || apply Z.eqb_neq); lia. }
  eexists. split; [done|]. destruct (_ || _).
  - destruct F as [Fk Fok Ff Fr Fl Fh]. split_and!; try done.
    intros x Hx. unfold refcount at 1. rewrite Fr, Fl. apply Hr.
  - split_and!; try done. intros x Hx. apply Hr.
Qed.

(** A page that is free, or not managed, is left alone. *)
Lemma pmm_free_pages_noop s ptr count k :
  get_order count = Some k ->
  (in_range s (ptr / PAGE_SIZE) -> managed s (ptr / PAGE_SIZE) = true -> used s (ptr / PAGE_SIZE) = false) ->
  pmm_free_pages s ptr count = Some s.
Proof.
  intros Hk Hf. unfold pmm_free_pages. rewrite Hk.
  destruct (_ || _); [done|]. destruct (k >=? MAX_ORDER); [done|]. cbv zeta.
  destruct (_ || _ || _) eqn:E; [done|]. b2p. unfold in_range, managed, used in Hf.
  rewrite Hf by (done || lia). done.
Qed.

Lemma buddy_free_frame s ptr k :
  buddy_free_internal s ptr k = buddy_free_internal s (ptr / PAGE_SIZE * PAGE_SIZE) k.
Proof. unfold buddy_free_internal. by rewrite frame_div. Qed.

Lemma owned_page s x :
  in_range s x -> managed s x = true -> used s x = true -> owned_block s 0 x.
Proof.
  intros Hx Hm Hu. unfold in_range in Hx. split.
  - split; unfold MAX_ORDER; try lia. apply Z.mod_1_r.
  - intros y Hy. unfold in_block in Hy. assert (y = x) as -> by lia. done.
Qed.

(** [pmm_decref] on a used page: at count one it releases the page, above one
    it only decrements, at zero it does nothing. *)
Lemma pmm_decref_spec s ptr :
  pmm_ok s -> ptr <> 0 -> let x := ptr / PAGE_SIZE in
  in_range s x -> managed s x = true -> used s x = true ->
  let s' := pmm_decref s ptr in
  pmm_ok s' /\ lowest_page s' = lowest_page s /\ highest_page s' = highest_page s /\ keeps_others s s' /\
  (forall y, free_page s' y <-> free_page s y \/ (y = x /\ refcount s x = 1)) /\
  (forall y, refcount s' y = if (y =? x) && (refcount s x >? 0) then refcount s x - 1 else refcount s y).
Proof.
  intros Hok Hp x Hx Hm Hu s'.
  assert (pmm_is_managed s ptr = true) as Hman.
  { destruct Hok as [B I]. rewrite <- Hm. unfold pmm_is_managed, managed. fold x. unfold in_range in Hx.
    rewrite (proj2 (Z.ltb_ge _ _)), Z.geb_leb, (proj2 (Z.leb_gt _ _)) by lia.
    by rewrite (proj2 (Z.eqb_neq _ _) (g_addr _ (i_geom _ _ _ I))). }
  unfold s', pmm_decref. rewrite (proj2 (Z.eqb_neq ptr 0) Hp), Hman. cbn [negb]. fold x.
  fold (refcount s x). destruct (refcount s x >? 0) eqn:E; b2p.
  2: { split_and!; try done; intros y; [|by rewrite andb_false_r]. split; [tauto|]. intros [?|[_ ?]]; [done|lia]. }
  set (s1 := with_refcounts s _).
  assert (0 <= x - lowest_page s < zlen (refcounts s)) as Hi.
  { destruct Hok as [B I]. pose proof (g_rc _ (i_geom _ _ _ I)). unfold in_range in Hx. lia. }
  assert (forall y, refcount s1 y = if y =? x then refcount s x - 1 else refcount s y) as Hr.
  { intros y. unfold s1, refcount. simpl. rewrite rd_wr.
    destruct (Z.eqb_spec y x) as [->|].
    - rewrite Z.eqb_refl, (proj2 (Z.leb_le _ _)), (proj2 (Z.ltb_lt _ _)) by lia. done.
    - rewrite (proj2 (Z.eqb_neq _ _)) by lia. done. }
  assert (pmm_ok s1) as Hok1 by (apply ok_refcounts; [done|apply zlen_wr]).
  change (rd (refcounts s1) (x - lowest_page s)) with (refcount s1 x). rewrite Hr, Z.eqb_refl.
  destruct (refcount s x - 1 =? 0) eqn:E2; b2p.
  - rewrite buddy_free_frame. fold x.
    destruct (buddy_free_freed s1 0 x Hok1 (owned_page s1 x Hx Hm Hu)) as [Fk Fok Ff Fr Fl Fh].
    split_and!; try done.
    + intros y. rewrite Ff. change (free_page s1 y) with (free_page s y). unfold in_block.
      change (2 ^ 0) with 1. split; intros [?|?]; try tauto; right; lia.
    + intros y. rewrite andb_true_r. unfold refcount at 1. rewrite Fr, Fl. apply Hr.
  - split_and!; try done.
    + intros y. change (free_page s1 y) with (free_page s y). split; [tauto|]. intros [?|[_ ?]]; [done|lia].
    + intros y. rewrite andb_true_r. apply Hr.
Qed.

Lemma pmm_is_managed_true s ptr :
  pmm_is_managed s ptr = true ->
  in_range s (ptr / PAGE_SIZE) /\ managed s (ptr / PAGE_SIZE) = true.
Proof.
  unfold pmm_is_managed. destruct (_ || _ || _) eqn:E; [done|]. b2p. intros Hm.
  split; [unfold in_range; lia|done].
Qed.

Lemma pmm_incref_spec s ptr :
  pmm_ok s -> pmm_ok (pmm_incref s ptr) /\
  (forall x, free_page (pmm_incref s ptr) x <-> free_page s x) /\
  lowest_page (pmm_incref s ptr) = lowest_page s /\
  forall x, refcount (pmm_incref s ptr) x =
    if (x =? ptr / PAGE_SIZE) && negb (ptr =? 0) && pmm_is_managed s ptr
    then u16 (refcount s x + 1) else refcount s x.
Proof.
  intros Hok. unfold pmm_incref. destruct (ptr =? 0) eqn:E0.
  { split_and!; try done. intros x. by rewrite andb_false_r. }
  destruct (pmm_is_managed s ptr) eqn:Em; cbn [negb].
  2: { split_and!; try done. intros x. by rewrite andb_false_r. }
  apply pmm_is_managed_true in Em as [Hr _].
  split_and!; try done; [apply ok_refcounts; [done|apply zlen_wr]|].
  intros x. unfold refcount; simpl. rewrite rd_wr.
  destruct Hok as [B I]. pose proof (g_rc _ (i_geom _ _ _ I)). unfold in_range in Hr.
  destruct (Z.eqb_spec x (ptr / PAGE_SIZE)) as [->|].
  - rewrite Z.eqb_refl, (proj2 (Z.leb_le _ _)), (proj2 (Z.ltb_lt _ _)) by lia. done.
  - rewrite (proj2 (Z.eqb_neq _ _)) by lia. done.
Qed.

(** ** Executions

    The kernel's use of the manager as a transition system: allocations, frees of
    blocks the caller owns, reference counting of pages in use, and arbitrary
    writes by the owners of pages, which may overwrite the block headers those
    pages held while they were free. *)

(** Headers the manager relies on: the list heads and those in free pages. *)
Definition live_header (s : pmm) (a : Z) : Prop :=
  (exists k, 0 <= k < MAX_ORDER /\ a = free_list s k) \/ (exists x, free_page s x /\ a = blk s x).

Definition client_write (s s' : pmm) : Prop :=
  exists m o, s' = with_order (with_links s m) o /\
    forall a, live_header s a ->
      get_next m a = get_next (links s) a /\ get_prev m a = get_prev (links s) a /\
      o !! a = block_order s !! a.

(** When the first page of a block has no second reference, then no page of it has:
    the condition under which freeing the block, which asks the first page only, is
    safe. *)
Definition last_reference (s : pmm) (k p : Z) : Prop :=
  refcount s p = 0 \/ refcount s p = 1 -> forall x, in_block k p x -> refcount s x = 0 \/ refcount s x = 1.

Inductive pmm_step : pmm -> pmm -> Prop :=
| step_alloc s count ptr s' :
    1 <= count <= 2 ^ 63 -> pmm_alloc_pages s count = Some (ptr, s') -> pmm_step s s'
| step_alloc_constrained s count max ptr s' :
    1 <= count <= 2 ^ 63 -> pmm_alloc_pages_constrained s count max = Some (ptr, s') ->
    pmm_step s s'
| step_alloc_range s count min max ptr s' :
    1 <= count <= 2 ^ 63 -> pmm_alloc_pages_range s count min max = Some (ptr, s') ->
    pmm_step s s'
| step_free s count k p s' :
    1 <= count -> get_order count = Some k -> owned_block s k p ->
    last_reference s k p -> pmm_free_pages s (p * PAGE_SIZE) count = Some s' -> pmm_step s s'
| step_incref s ptr :
    used s (ptr / PAGE_SIZE) = true -> pmm_step s (pmm_incref s ptr)
| step_decref s ptr : pmm_step s (pmm_decref s ptr)
| step_client s s' : client_write s s' -> pmm_step s s'.

(** The manager's invariant, with its reference counts (free pages have none)
    and the pages it does not manage (all marked used). *)
Record pmm_wf (s : pmm) : Prop := {
  wf_ok : pmm_ok s;
  wf_refs : forall x, free_page s x -> refcount s x = 0;
  wf_others : forall x, in_range s x -> managed s x = false -> used s x = true;
}.

Lemma keeps_others_wf s s' :
  keeps_others s s' -> lowest_page s' = lowest_page s -> highest_page s' = highest_page s ->
  (forall x, in_range s x -> managed s x = false -> used s x = true) ->
  forall x, in_range s' x -> managed s' x = false -> used s' x = true.
Proof.
  intros K El Eh Ho x Hx Hm. unfold in_range in Hx. rewrite El, Eh in Hx.
  destruct (K x Hx) as [E1 E2]. rewrite E1 in Hm. rewrite E2 by done. by apply Ho.
Qed.

Lemma allocated_wf s s' k p :
  pmm_wf s -> allocated s s' k p ->
  (forall x, in_range s x -> ~ in_block k p x -> refcount s' x = refcount s x) -> pmm_wf s'.
Proof.
  intros [_ Hz Ho] A Hr. split; [apply A| |eapply keeps_others_wf; [apply A|apply A|apply A|done]].
  intros x [Hf Hn]%(al_free _ _ _ _ A). rewrite Hr; [by apply Hz|apply Hf|done].
Qed.

Lemma alloc_constrained_spec s B count ok :
  inv s B no_hole -> 1 <= count <= 2 ^ 63 ->
  exists k ptr s', get_order count = Some k /\ alloc_constrained s count ok = Some (ptr, s') /\
    ((ptr = 0 /\ s' = s) \/
     exists c p, ptr = p * PAGE_SIZE /\ k <= c < MAX_ORDER /\ ok ptr c = true /\
       allocated s s' k p /\ refcounts s' = refcounts s).
Proof.
  intros I Hc. destruct (get_order_spec count Hc) as (k & Hk & _ & _ & Hk0).
  exists k. unfold alloc_constrained. rewrite (proj2 (Z.eqb_neq count 0)) by lia. rewrite Hk.
  destruct (k >=? MAX_ORDER) eqn:Ek; b2p.
  { exists 0, s. split_and!; [done|done|by left]. }
  destruct (alloc_search_spec (Z.to_nat (MAX_ORDER - k)) s B ok k k I ltac:(lia) ltac:(lia))
    as (ptr & s' & -> & Hcase).
  exists ptr, s'. split_and!; [done|done|]. destruct Hcase as [(? & ? & _)|?]; [by left|by right].
Qed.

Lemma alloc_constrained_wf s count ok ptr s' :
  pmm_wf s -> 1 <= count <= 2 ^ 63 -> alloc_constrained s count ok = Some (ptr, s') -> pmm_wf s'.
Proof.
  intros Hwf Hc Ha. pose proof Hwf as [[B I] _ _].
  destruct (alloc_constrained_spec s B count ok I Hc) as (k & ptr' & s1 & _ & E & Hcase).
  rewrite E in Ha. injection Ha as <- <-.
  destruct Hcase as [[_ ->]|(c & p & _ & _ & _ & A & Er)]; [done|].
  eapply allocated_wf; [done|exact A|]. intros x _ _.
  unfold refcount. by rewrite Er, (al_lo _ _ _ _ A).
Qed.

Lemma client_write_ok s s' B : client_write s s' -> inv s B no_hole -> inv s' B no_hole.
Proof.
  intros (m & o & -> & Hw) I. pose proof I as [G Li Bl D Ho F R Lo].
  assert (forall k p, (k, p) ∈ B -> live_header s (blk s p)) as Hlive.
  { intros k p Hin. right. exists p. split; [|done]. destruct (Bl _ _ Hin) as [[? ? ? ?] _].
    pose proof (pow2_pos k ltac:(lia)).
    assert (in_range s p) as Hr by (unfold in_range; lia). split; [done|]. apply F; [done|].
    right. exists k, p. split; [done|]. apply in_block_start. lia. }
  split; try done.
  - destruct G; split; done.
  - intros k Hk. destruct (Li k Hk) as (l & [Hnd Hs] & Hl). exists l. split; [|done]. split; [done|].
    assert (forall x, x = free_list s k \/ x ∈ l -> live_header s x) as Hn.
    { intros x [->|Hx]; [left; eauto|]. apply Hl in Hx as (p & -> & Hp). eauto. }
    eapply seg_frame; [| |exact Hs]; intros x Hx; apply Hw, Hn, Hx.
  - intros k p Hin. destruct (Bl _ _ Hin) as [[? ? ? ?] Hbo]. split; [split; done|].
    rewrite <- Hbo. unfold get_block_order; simpl.
    change (blk (with_order (with_links s m) o) p) with (blk s p).
    by destruct (Hw _ (Hlive _ _ Hin)) as (_ & _ & ->).
Qed.

Lemma free_wf s count k p s' :
  pmm_wf s -> 1 <= count -> get_order count = Some k -> owned_block s k p ->
  last_reference s k p -> pmm_free_pages s (p * PAGE_SIZE) count = Some s' -> pmm_wf s'.
Proof.
  intros [Hok Hz Hoth] Hc Hk Ho Hrc Hf.
  destruct (pmm_free_pages_spec s count k p Hok Hc Hk Ho) as (s1 & E & Hok1 & Hr & Hfree & El & Eh & K).
  rewrite E in Hf. injection Hf as <-. split; [done| |by eapply keeps_others_wf]. intros x Hx.
  assert (in_range s x) as Hin by (destruct Hx as [Hx _]; unfold in_range in *; rewrite <- El, <- Eh; done).
  rewrite Hr by done. destruct (blockb k p x) eqn:Eb; simpl.
  - apply blockb_spec in Eb. destruct ((refcount s p =? 0) || (refcount s p =? 1)) eqn:E1.
    + assert (refcount s p = 0 \/ refcount s p = 1) as Hp by (b2p; destruct E1; b2p; auto).
      destruct (Hrc Hp x Eb) as [-> | ->]; done.
    + apply Hfree in Hx. by rewrite (Hz x Hx).
  - apply blockb_false in Eb. apply Hz. destruct (_ || _); apply Hfree in Hx; [tauto|done].
Qed.

Lemma incref_wf s ptr : pmm_wf s -> used s (ptr / PAGE_SIZE) = true -> pmm_wf (pmm_incref s ptr).
Proof.
  intros [Hok Hz Hoth] Hu. destruct (pmm_incref_spec s ptr Hok) as (Hok' & Hf & _ & Hr).
  split; [done| |unfold pmm_incref; repeat case_if; exact Hoth]. intros x Hx. rewrite Hr. apply Hf in Hx.
  destruct (Z.eqb_spec x (ptr / PAGE_SIZE)) as [->|]; [|by apply Hz].
  destruct Hx as (_ & _ & Hx). congruence.
Qed.

Lemma decref_wf s ptr : pmm_wf s -> pmm_wf (pmm_decref s ptr).
Proof.
  intros Hwf. pose proof Hwf as [Hok Hz Hoth].
  destruct (Z.eq_dec ptr 0) as [->|Hp]; [done|].
  destruct (pmm_is_managed s ptr) eqn:Em.
  2: { unfold pmm_decref. rewrite (proj2 (Z.eqb_neq _ _) Hp), Em. done. }
  pose proof Em as [Hr Hm]%pmm_is_managed_true. destruct (used s (ptr / PAGE_SIZE)) eqn:Eu.
  - destruct (pmm_decref_spec s ptr Hok Hp Hr Hm Eu) as (Hok' & El & Eh & K & Hf & Hrc).
    split; [done| |by eapply keeps_others_wf]. intros x Hx. rewrite Hrc. apply Hf in Hx as [Hx|[-> E]].
    + destruct (Z.eqb_spec x (ptr / PAGE_SIZE)) as [->|]; [|by apply Hz].
      destruct Hx as (_ & _ & Hx). congruence.
    + rewrite E, Z.eqb_refl. done.
  - unfold pmm_decref. rewrite (proj2 (Z.eqb_neq _ _) Hp), Em. cbn [negb].
    fold (refcount s (ptr / PAGE_SIZE)). rewrite Hz by done. done.
Qed.

Lemma pmm_step_wf s s' : pmm_step s s' -> pmm_wf s -> pmm_wf s'.
Proof.
  intros Hst Hwf. destruct Hst as
    [s count ptr s' Hc Ha|s count max ptr s' Hc Ha|s count min max ptr s' Hc Ha|
     s count k p s' Hc Hk Ho Hrc Hf|s ptr Hu|s ptr|s s' Hw].
  - pose proof Hwf as [[B I] _ _].
    destruct (pmm_alloc_pages_spec s B count I Hc) as (k & ptr' & s1 & _ & E & Hcase).
    rewrite E in Ha. injection Ha as <- <-.
    destruct Hcase as [(_ & -> & _)|(p & _ & A & Hr)]; [done|].
    eapply allocated_wf; [done|exact A|]. intros x Hx Hn. rewrite Hr by done.
    by apply blockb_false in Hn as ->.
  - by eapply alloc_constrained_wf.
  - by eapply alloc_constrained_wf.
  - by eapply free_wf.
  - by apply incref_wf.
  - by apply decref_wf.
  - destruct Hwf as [[B I] Hz Ho]. split; [exists B; by eapply client_write_ok| |];
      destruct Hw as (m & o & -> & _); [exact Hz|exact Ho].
Qed.
