(* ===== verification/PmmCount.v ===== *)
(** * Counting free pages

    [pmm_get_free_pages] adds up the sizes of the blocks in the free lists; the
    lemmas here relate that sum to the bitmap. *)

From S2P Require Import Prelude Bitmap DList Pmm PmmInv PmmSpec.

(** The pages marked free, in order of their frame number. *)
Definition free_frames (s : pmm) : list Z :=
  List.filter (fun x => managed s x && negb (used s x)) (seqZ (lowest_page s) (highest_page s - lowest_page s)).

Definition block_pages (k : Z) (ps : list Z) : list Z := flat_map (fun p => seqZ p (2 ^ k)) ps.

Lemma elem_of_block_pages k ps x : x ∈ block_pages k ps <-> exists p, p ∈ ps /\ in_block k p x.
Proof.
  unfold block_pages. rewrite list_elem_of_In, in_flat_map.
  split; intros (p & H1 & H2); exists p; revert H1 H2; rewrite <- !list_elem_of_In, ?elem_of_seqZ; done.
Qed.

Lemma zlen_block_pages k ps : 0 <= k -> zlen (block_pages k ps) = 2 ^ k * zlen ps.
Proof.
  intros Hk. pose proof (pow2_pos k Hk). unfold zlen. induction ps as [|p ps IH]; simpl; [lia|].
  rewrite length_app, length_seqZ. lia.
Qed.

Lemma NoDup_block_pages s B H k ps :
  inv s B H -> NoDup ps -> (forall p, p ∈ ps -> (k, p) ∈ B) -> NoDup (block_pages k ps).
Proof.
  intros I Hnd Hin. induction Hnd as [|p ps Hp Hnd IH]; simpl; [constructor|].
  apply NoDup_app. split_and!; [apply NoDup_seqZ| |apply IH; set_solver].
  intros x Hx%elem_of_seqZ (q & Hq & Hxq)%elem_of_block_pages.
  destruct (i_disj _ _ _ I k p k q x) as [_ ->]; try done; apply Hin; set_solver.
Qed.

Lemma fold_sizes (l : list Z) k acc :
  0 <= k -> 0 <= acc -> acc + 2 ^ k * zlen l < 2 ^ 64 ->
  fold_left (fun a (_ : Z) => u64 (a + Z.shiftl 1 k)) l acc = acc + 2 ^ k * zlen l.
Proof.
  intros Hk. pose proof (pow2_pos k Hk). rewrite Z.shiftl_1_l. revert acc. unfold zlen.
  induction l as [|x l IH]; intros acc Ha Hb; simpl length in *; cbn [fold_left]; [lia|].
  rewrite u64_small by lia. rewrite IH; lia.
Qed.

(** The nodes of a list as frames. *)
Lemma list_frames s B H k l :
  inv s B H -> 0 <= k < MAX_ORDER -> dlist (links s) (free_list s k) l ->
  (forall a, a ∈ l <-> exists p, a = blk s p /\ (k, p) ∈ B) ->
  exists ps, l = blk s <$> ps /\ NoDup ps /\ forall p, p ∈ ps <-> (k, p) ∈ B.
Proof.
  intros I Hk [Hnd _] Hl. apply NoDup_cons in Hnd as [_ Hnd].
  assert (exists ps, l = blk s <$> ps) as [ps ->].
  { clear Hnd. assert (forall a, a ∈ l -> exists p, a = blk s p) as Hl1 by (intros a (p & ? & _)%Hl; eauto).
    clear Hl. induction l as [|a l IH]; [by exists []|].
    destruct IH as [ps ->]; [set_solver|]. destruct (Hl1 a) as [p ->]; [left|]. by exists (p :: ps). }
  exists ps. split_and!; [done|by eapply NoDup_fmap_1|]. intros p. split.
  - intros Hp. destruct (proj1 (Hl (blk s p))) as (q & E & Hq); [by apply list_elem_of_fmap_2|].
    by apply (blk_inj s) in E as ->.
  - intros Hp. destruct (list_elem_of_fmap_1 (blk s) ps (blk s p)) as (q & E & Hq); [apply Hl; eauto|].
    by apply (blk_inj s) in E as ->.
Qed.

Lemma free_list_pages s B L :
  inv s B no_hole -> NoDup L -> (forall x, x ∈ L -> exists k p, (k, p) ∈ B /\ in_block k p x) ->
  zlen L <= highest_page s - lowest_page s.
Proof.
  intros I Hnd HL. pose proof (g_range _ (i_geom _ _ _ I)).
  pose proof (NoDup_interval L (lowest_page s) (Z.to_nat (highest_page s - lowest_page s)) Hnd) as Hlen.
  unfold zlen. destruct (Z.le_gt_cases (Z.of_nat (length L)) (highest_page s - lowest_page s)); [done|].
  assert (length L <= Z.to_nat (highest_page s - lowest_page s))%nat; [|lia]. apply Hlen.
  intros x (k & p & Hin & Hx)%HL. apply (i_block _ _ _ I) in Hin as [[? ? ? ?] _]. unfold in_block in Hx. lia.
Qed.

Lemma count_free_spec n s B k L :
  inv s B no_hole -> 0 <= k -> Z.of_nat n = MAX_ORDER - k -> NoDup L ->
  (forall x, x ∈ L <-> exists k' p, (k', p) ∈ B /\ k' < k /\ in_block k' p x) ->
  exists L', count_free n s k (zlen L) = Some (zlen L') /\ NoDup L' /\
    forall x, x ∈ L' <-> exists k' p, (k', p) ∈ B /\ in_block k' p x.
Proof.
  intros I. revert k L. induction n as [|n IH]; intros k L Hk Hn Hnd HL; cbn [count_free].
  { exists L. split_and!; [done|done|]. intros x. rewrite HL. split; intros (k' & p & Hin & Hx); exists k', p.
    - split; [done|apply Hx].
    - pose proof (i_block _ _ _ I _ _ Hin) as [[? ? ? ?] _]. split_and!; [done|lia|done]. }
  destruct (i_lists _ _ _ I k ltac:(lia)) as (l & Hd & Hl).
  rewrite (dlist_for_each _ _ _ l); [|done|by eapply list_fuel_enough; [| |done|]; [exact I|lia|exact Hl]].
  destruct (list_frames s B no_hole k l I ltac:(lia) Hd Hl) as (ps & -> & Hps & Hmem).
  assert (NoDup (L ++ block_pages k ps)) as HndL.
  { apply NoDup_app. split_and!; [done| |by eapply NoDup_block_pages; [| |intros; apply Hmem]].
    intros x (k1 & p1 & H1 & ? & Hx1)%HL (p2 & H2%Hmem & Hx2)%elem_of_block_pages.
    destruct (i_disj _ _ _ I _ _ _ _ x H1 H2 Hx1 Hx2). lia. }
  assert (forall x, x ∈ L ++ block_pages k ps <-> exists k' p, (k', p) ∈ B /\ k' < k + 1 /\ in_block k' p x) as HL'.
  { intros x. rewrite elem_of_app, HL, elem_of_block_pages. split.
    - intros [(k' & p & ? & ? & ?)|(p & ?%Hmem & ?)]; [exists k', p|exists k, p]; split_and!; done || lia.
    - intros (k' & p & Hin & ? & ?). destruct (Z.eq_dec k' k) as [->|]; [right; exists p; by rewrite Hmem|].
      left. exists k', p. split_and!; done || lia. }
  assert (zlen (L ++ block_pages k ps) = zlen L + 2 ^ k * zlen (blk s <$> ps)) as Hlen.
  { unfold zlen. rewrite length_app, length_fmap. pose proof (zlen_block_pages k ps Hk). unfold zlen in *. lia. }
  rewrite fold_sizes, <- Hlen; [|done|apply zlen_nonneg|].
  - apply IH; [lia|lia|done|done].
  - rewrite <- Hlen. pose proof (geom_bounds s (i_geom _ _ _ I)) as (? & ? & ?).
    pose proof (free_list_pages s B (L ++ block_pages k ps) I HndL) as Hb.
    assert (zlen (L ++ block_pages k ps) <= highest_page s - lowest_page s); [|lia].
    apply Hb. intros x (k' & p & ? & _ & ?)%HL'. eauto.
Qed.

Lemma get_free_pages_spec s B :
  inv s B no_hole -> pmm_get_free_pages s = Some (zlen (free_frames s)).
Proof.
  intros I. destruct (count_free_spec (Z.to_nat MAX_ORDER) s B 0 [] I) as (L & E & Hnd & HL);
    try done; [by constructor| |].
  { intros x. split; [by intros ?%elem_of_nil|]. intros (k & p & Hin & ? & _).
    pose proof (i_block _ _ _ I _ _ Hin) as [[? ? ? ?] _]. lia. }
  unfold pmm_get_free_pages. change 0 with (zlen (@nil Z)) at 2. rewrite E. f_equal. unfold zlen. f_equal. apply Permutation_length.
  apply NoDup_Permutation; [done|unfold free_frames; apply NoDup_ListNoDup, List.NoDup_filter, NoDup_ListNoDup, NoDup_seqZ|].
  intros x. rewrite HL. unfold free_frames. rewrite list_elem_of_In, filter_In, <- list_elem_of_In, elem_of_seqZ.
  pose proof (i_free _ _ _ I x) as Hf. split.
  - intros (k & p & Hin & Hx). pose proof (i_block _ _ _ I _ _ Hin) as [[? ? ? ?] _].
    unfold in_block in Hx. assert (lowest_page s <= x < highest_page s) as Hr by lia.
    destruct (proj2 (Hf Hr)) as [-> ->]; [right; by exists k, p|]. split; [lia|done].
  - intros [Hr Hb]. b2p. destruct (proj1 (Hf ltac:(lia))) as [[]|?]; done.
Qed.
