(* ===== verification/PmmBoot.v ===== *)
(** * Building the memory manager at boot

    Models [pmm_init] and [pmm_reclaim_bootloader] of [kernel/src/mm/pmm.c] and
    the walk of [kernel/src/mm/vmm.c] that protects live page tables.  The memory
    map is the bootloader's; [mem_refs] is what the memory under the reference
    count table held before, because [pmm_init] clears that table only for the
    pages it hands to the allocator. *)

From S2P Require Import Prelude Bitmap DList Pmm PmmInv PmmSpec.

(** ** [pmm_init] *)

Definition pmm_init_early (s : pmm) (hhdm_offset : Z) : pmm :=
  Pmm (b_zone s) (links s) (block_order s) (bitmap s) (managed_bitmap s) (refcounts s)
    (bitmap_addr s) (bitmap_size s) (lowest_page s) (highest_page s) (page_count s)
    (usable_memory s) (total_memory s) hhdm_offset (internal_memmap s).

Definition counts_as_ram (t : memmap_type) : bool :=
  match t with
  | MEMMAP_USABLE | MEMMAP_BOOTLOADER_RECLAIMABLE | MEMMAP_EXECUTABLE_AND_MODULES
  | MEMMAP_ACPI_RECLAIMABLE | MEMMAP_ACPI_NVS | MEMMAP_FRAMEBUFFER => true
  | MEMMAP_RESERVED | MEMMAP_BAD_MEMORY => false
  end.

Definition sets_bounds (t : memmap_type) : bool :=
  match t with
  | MEMMAP_USABLE | MEMMAP_BOOTLOADER_RECLAIMABLE => true
  | _ => false
  end.

(** One iteration of the first loop, on [lowest_page], [highest_page] and
    [total_memory]. *)
Definition scan_entry (acc : Z * Z * Z) (e : memmap_entry) : Z * Z * Z :=
  let '(lo, hi, total) := acc in
  let total := if counts_as_ram (e_type e) then u64 (total + e_length e) else total in
  let top := u64 (e_base e + e_length e) in
  if sets_bounds (e_type e) then
    let lo := if e_base e / PAGE_SIZE <? lo then e_base e / PAGE_SIZE else lo in
    let top_page := u64 (top + PAGE_SIZE - 1) / PAGE_SIZE in
    let hi := if top_page >? hi then top_page else hi in
    (lo, hi, total)
  else (lo, hi, total).

(** [(x + PAGE_SIZE - 1) & ~(PAGE_SIZE - 1)] on [size_t] *)
Definition page_round_up (x : Z) : Z :=
  Z.land (u64 (x + PAGE_SIZE - 1)) (u64 (Z.lnot (PAGE_SIZE - 1))).

Definition is_usable (e : memmap_entry) : bool := bool_decide (e_type e = MEMMAP_USABLE).

(** Where the metadata goes: the first usable entry that is large enough. *)
Definition metadata_entry (memmap : list memmap_entry) (total_metadata_size : Z) : option memmap_entry :=
  List.find (fun e => is_usable e && (e_length e >=? total_metadata_size)) memmap.

(** Largest order usable at [phys], [p] bytes into an entry of [len] bytes. *)
Fixpoint init_order (fuel : nat) (md_base md_size len p phys order : Z) : Z :=
  match fuel with
  | O => order
  | S n =>
      if order <? MAX_ORDER - 1 then
        let next_order_size := u64 (Z.shiftl 1 (order + 1) * PAGE_SIZE) in
        if u64 (p + next_order_size) >? len then order
        else if negb (phys mod next_order_size =? 0) then order
        else
          let phys_end := u64 (phys + next_order_size) in
          if negb ((phys_end <=? md_base) || (phys >=? u64 (md_base + md_size))) then order
          else init_order n md_base md_size len p phys (order + 1)
      else order
  end.

(** Hand the block of order [order] at [phys] to the allocator. *)
Definition init_block (s : pmm) (phys order : Z) : pmm :=
  let pfn := phys / PAGE_SIZE in
  let n := Z.shiftl 1 order in
  let s := with_managed s
    (bitmap_set_range (lowest_page s) (highest_page s) (managed_bitmap s) pfn n) in
  let s := with_bitmap s
    (bitmap_clear_range (lowest_page s) (highest_page s) (bitmap s) pfn n) in
  let s := with_refcounts s (fill (refcounts s) (pfn - lowest_page s) n 0) in
  let block := virt_to_buddy s phys in
  let s := with_order s (<[block := order]> (block_order s)) in
  let s := with_links s (list_add_tail (links s) block (free_list s order)) in
  with_usable s (u64 (usable_memory s + n * PAGE_SIZE)).

(** The loop over the bytes of one usable entry; [None] when it has not ended. *)
Fixpoint init_entry (fuel : nat) (s : pmm) (md_base md_size : Z) (e : memmap_entry) (p : Z)
    : option pmm :=
  match fuel with
  | O => None
  | S n =>
      if p <? e_length e then
        let phys := u64 (e_base e + p) in
        if phys <? 0x100000 then
          init_entry n s md_base md_size e (u64 (p + (0x100000 - phys)))
        else if (phys >=? md_base) && (phys <? u64 (md_base + md_size)) then
          init_entry n s md_base md_size e (u64 (p + (md_base + md_size - phys)))
        else
          let order := init_order (Z.to_nat MAX_ORDER) md_base md_size (e_length e) p phys 0 in
          init_entry n (init_block s phys order) md_base md_size e
            (u64 (p + Z.shiftl 1 order * PAGE_SIZE))
      else Some s
  end.

(** Every iteration but the two skips advances by at least one page. *)
Definition entry_fuel (e : memmap_entry) : nat := Z.to_nat (e_length e / PAGE_SIZE + 4).

Fixpoint init_entries (s : pmm) (md_base md_size : Z) (memmap : list memmap_entry) : option pmm :=
  match memmap with
  | [] => Some s
  | e :: rest =>
      if is_usable e then
        match init_entry (entry_fuel e) s md_base md_size e 0 with
        | None => None
        | Some s => init_entries s md_base md_size rest
        end
      else init_entries s md_base md_size rest
  end.

Fixpoint init_lists (n : nat) (m : lmem) (zone : Z) (i : Z) : lmem :=
  match n with
  | O => m
  | S n' => init_lists n' (INIT_LIST_HEAD m (zone + 16 * i)) zone (i + 1)
  end.

(** Sizes computed from the page bounds. *)
Definition init_page_count (lo hi : Z) : Z := if hi >? lo then hi - lo else 0.
Definition init_bitmap_size (pages : Z) : Z :=
  if pages mod 8 =? 0 then pages / 8 else pages / 8 + 1.
Definition init_metadata_size (pages : Z) : Z :=
  page_round_up (init_bitmap_size pages * 2 + pages * 2).

(** State once the metadata has been placed in [md] and the lists are empty. *)
Definition init_state (s : pmm) (memmap : list memmap_entry) (hhdm_offset : Z) (mem_refs : list Z)
    (lo hi total : Z) (md : memmap_entry) : pmm :=
  let pages := init_page_count lo hi in
  let bytes := init_bitmap_size pages in
  Pmm (b_zone s) (init_lists (Z.to_nat MAX_ORDER) (links s) (b_zone s) 0) (block_order s)
    (replicate (Z.to_nat bytes) 0xFF) (replicate (Z.to_nat bytes) 0) mem_refs
    (u64 (e_base md + hhdm_offset)) bytes lo hi pages (usable_memory s) total
    hhdm_offset (Some memmap).

(** [None] is the fatal branch, which halts the machine. *)
Definition pmm_init (s : pmm) (memmap : list memmap_entry) (hhdm_offset : Z) (mem_refs : list Z)
    : option pmm :=
  let '(lo, hi, total) := fold_left scan_entry memmap (0xFFFFFFFFFFFFFFFF, 0, total_memory s) in
  let size := init_metadata_size (init_page_count lo hi) in
  match metadata_entry memmap size with
  | None => None
  | Some md =>
      let s := init_state s memmap hhdm_offset mem_refs lo hi total md in
      if bitmap_addr s =? 0 then None
      else
        let bitmap_phys_base := u64 (bitmap_addr s - hhdm_offset) in
        init_entries s bitmap_phys_base size memmap
  end.

(** ** The page bounds *)

(** What the boot protocol guarantees of the memory map, and where the kernel
    image lies: usable and reclaimable entries are page aligned, usable entries do
    not overlap, and the direct map of all of them ends below the list heads. *)
Record memmap_ok (memmap : list memmap_entry) (hhdm_offset zone : Z) : Prop := {
  mo_entry : forall e, e ∈ memmap -> 0 <= e_base e /\ 0 <= e_length e /\ e_base e + e_length e < 2 ^ 63;
  mo_aligned : forall e, e ∈ memmap -> sets_bounds (e_type e) = true ->
    e_base e mod PAGE_SIZE = 0 /\ e_length e mod PAGE_SIZE = 0;
  mo_disjoint : ForallOrdPairs (fun e e' => is_usable e = true -> is_usable e' = true ->
    e_base e + e_length e <= e_base e' \/ e_base e' + e_length e' <= e_base e) memmap;
  mo_direct : forall e, e ∈ memmap -> sets_bounds (e_type e) = true ->
    hhdm_offset + e_base e + e_length e <= zone;
  mo_hhdm : KERNEL_HALF <= hhdm_offset;
  mo_zone : zone < 2 ^ 64;
}.

Lemma usable_bounds e : is_usable e = true -> sets_bounds (e_type e) = true.
Proof. unfold is_usable. intros Hu. b2p. by rewrite Hu. Qed.

Lemma page_mul x : x mod PAGE_SIZE = 0 -> exists q, x = q * PAGE_SIZE /\ x / PAGE_SIZE = q.
Proof.
  unfold PAGE_SIZE. intros E. exists (x / 4096). pose proof (Z.div_mod x 4096). lia.
Qed.

Lemma scan_entry_spec lo hi total e :
  0 <= e_base e -> 0 <= e_length e -> e_base e + e_length e < 2 ^ 63 ->
  (sets_bounds (e_type e) = true -> e_base e mod PAGE_SIZE = 0 /\ e_length e mod PAGE_SIZE = 0) ->
  exists lo' hi' total', scan_entry (lo, hi, total) e = (lo', hi', total') /\ lo' <= lo /\ hi <= hi' /\
    (sets_bounds (e_type e) = true -> lo' * PAGE_SIZE <= e_base e /\ e_base e + e_length e <= hi' * PAGE_SIZE) /\
    (lo' = lo \/ 0 <= lo') /\
    (hi' = hi \/ sets_bounds (e_type e) = true /\ hi' * PAGE_SIZE = e_base e + e_length e).
Proof.
  intros Hb Hl Ht Ha. unfold scan_entry. destruct (sets_bounds (e_type e)) eqn:Eb.
  2: { eexists _, _, _. split; [done|]. split_and!; try done; try lia. }
  destruct (Ha eq_refl) as [(b & Eb1 & Eb2)%page_mul (l & El1 & El2)%page_mul].
  assert (u64 (u64 (e_base e + e_length e) + PAGE_SIZE - 1) / PAGE_SIZE = b + l) as ->.
  { rewrite (u64_small (e_base e + e_length e)) by lia. unfold PAGE_SIZE in *. rewrite u64_small by lia.
    rewrite Eb1, El1. symmetry. apply Z.div_unique with 4095; lia. }
  rewrite Eb2. unfold PAGE_SIZE in *. eexists _, _, _. split; [done|].
  destruct (Z.ltb_spec b lo), (Z.gtb_spec (b + l) hi); split_and!; first [lia | intros _; lia | right; split; [done|lia]].
Qed.

Lemma scan_spec memmap lo0 hi0 total0 :
  (forall e, e ∈ memmap -> 0 <= e_base e /\ 0 <= e_length e /\ e_base e + e_length e < 2 ^ 63) ->
  (forall e, e ∈ memmap -> sets_bounds (e_type e) = true ->
    e_base e mod PAGE_SIZE = 0 /\ e_length e mod PAGE_SIZE = 0) ->
  0 <= lo0 -> exists lo hi total, fold_left scan_entry memmap (lo0, hi0, total0) = (lo, hi, total) /\
    0 <= lo <= lo0 /\ hi0 <= hi /\
    (forall e, e ∈ memmap -> sets_bounds (e_type e) = true ->
       lo * PAGE_SIZE <= e_base e /\ e_base e + e_length e <= hi * PAGE_SIZE) /\
    (hi = hi0 \/ exists e, e ∈ memmap /\ sets_bounds (e_type e) = true /\
       hi * PAGE_SIZE = e_base e + e_length e).
Proof.
  revert lo0 hi0 total0. induction memmap as [|e rest IH]; intros lo0 hi0 total0 He Ha Hlo.
  { exists lo0, hi0, total0. split_and!; try done; try lia; by intros ? ?%elem_of_nil. }
  destruct (He e ltac:(apply elem_of_cons; by left)) as (Hb & Hl & Ht).
  destruct (scan_entry_spec lo0 hi0 total0 e Hb Hl Ht (Ha e ltac:(apply elem_of_cons; by left)))
    as (lo1 & hi1 & total1 & E & H1 & H2 & H3 & H4 & H5).
  destruct (IH lo1 hi1 total1) as (lo & hi & total & E' & Hlo' & Hhi' & Hall & Hex).
  { intros e' ?. apply He, elem_of_cons. by right. }
  { intros e' ?. apply Ha, elem_of_cons. by right. }
  { lia. }
  exists lo, hi, total. cbn [fold_left]. rewrite E, E'. split; [done|]. split; [lia|]. split; [lia|].
  split.
  - intros e' [->|?]%elem_of_cons Hs; [|by apply Hall].
    destruct (H3 Hs). unfold PAGE_SIZE in *. lia.
  - destruct Hex as [->|(e' & ? & ? & ?)].
    + destruct H5 as [->|[? ?]]; [by left|]. right. exists e. split_and!; [|done|done].
      apply elem_of_cons. by left.
    + right. exists e'. split_and!; [|done|done]. apply elem_of_cons. by right.
Qed.

(** ** Handing blocks to the allocator *)

(** Exactly the pages of [D] are managed; they are free with no references, all
    others are marked used. *)
Record boot_inv (s : pmm) (D : Z -> bool) : Prop := {
  bi_ok : pmm_ok s;
  bi_managed : forall x, in_range s x -> managed s x = D x;
  bi_used : forall x, in_range s x -> used s x = negb (D x);
  bi_refs : forall x, in_range s x -> D x = true -> refcount s x = 0;
}.

Lemma boot_inv_ext s D D' :
  (forall x, in_range s x -> D x = D' x) -> boot_inv s D -> boot_inv s D'.
Proof.
  intros E [O M U R]. split; [done| | |]; intros x Hx; rewrite <- E by done; auto.
Qed.

Lemma inv_manage s B k p :
  inv s B no_hole -> block_ok s k p -> 0 < p ->
  (forall x, in_block k p x -> managed s x = false /\ used s x = true) ->
  inv (with_managed s (bitmap_set_range (lowest_page s) (highest_page s) (managed_bitmap s) p (Z.shiftl 1 k)))
    B no_hole /\
  forall x, in_range s x ->
    managed (with_managed s (bitmap_set_range (lowest_page s) (highest_page s) (managed_bitmap s) p (Z.shiftl 1 k))) x
    = blockb k p x || managed s x.
Proof.
  intros I Hb Hp Hall.
  destruct (range_op_block _ _ _ s (managed_bitmap s) k p set_bit_op (i_geom _ _ _ I) Hb (or_intror eq_refl))
    as [L T].
  set (s1 := with_managed s _).
  assert (forall x, in_range s x -> managed s1 x = blockb k p x || managed s x) as M.
  { intros x Hx. unfold managed, s1; simpl. unfold bitmap_set_range. unfold in_range in Hx.
    rewrite T by lia. by destruct (blockb k p x). }
  split; [|exact M]. destruct I as [G Li Bl D Ho F R Lo]. split; try done.
  - destruct G. split; try done. unfold s1; simpl. unfold bitmap_set_range. rewrite L. done.
  - intros k' p' Hq. destruct (Bl _ _ Hq) as [[? ? ? ?] ?]. split; [split; done|done].
  - intros x Hx. simpl in Hx. rewrite M by done. change (used s1 x) with (used s x).
    rewrite <- (F x Hx). destruct (blockb k p x) eqn:E; [|done]. apply blockb_spec in E.
    destruct (Hall x E) as [-> ->]. split; intros [? ?]; done.
  - intros x Hx. simpl in Hx. rewrite M by done. destruct (blockb k p x) eqn:E; [|by apply Lo].
    apply blockb_spec in E. unfold in_block in E. lia.
Qed.

Lemma inv_usable s B H u : inv s B H -> inv (with_usable s u) B H.
Proof.
  intros [G Li Bl D Ho F R Lo]. split; try done.
  - destruct G. split; done.
  - intros k' p' Hq. destruct (Bl _ _ Hq) as [[? ? ? ?] ?]. split; [split; done|done].
Qed.

Lemma init_block_spec s D k p :
  boot_inv s D -> block_ok s k p -> 0 < p -> (forall x, in_block k p x -> D x = false) ->
  let s' := init_block s (p * PAGE_SIZE) k in
  boot_inv s' (fun x => D x || blockb k p x) /\
  lowest_page s' = lowest_page s /\ highest_page s' = highest_page s.
Proof.
  intros [[B I] M U R] Hb Hp Hd s'. pose proof Hb as [Hk Ha Hlo Hhi].
  assert (forall x, in_block k p x -> in_range s x) as Hr.
  { intros x Hx. unfold in_block, in_range in *. lia. }
  destruct (inv_manage s B k p I Hb Hp) as [I1 M1].
  { intros x Hx. rewrite M, U, Hd by auto. done. }
  unfold s', init_block. rewrite frame_div. set (s1 := with_managed s _) in *.
  assert (block_ok s1 k p) as Hb1 by (destruct Hb; split; done).
  pose proof (inv_mark_free s1 B k p I1 Hb1) as I2.
  pose proof (used_clear_range s1 k p (i_geom _ _ _ I1) Hb1) as U2.
  assert (inv (with_bitmap s1 (bitmap_clear_range (lowest_page s1) (highest_page s1) (bitmap s1) p (Z.shiftl 1 k)))
    B (in_block k p)) as I2'.
  { apply I2. intros x Hx. rewrite M1 by auto. rewrite (proj2 (blockb_spec k p x) Hx).
    split; [done|]. change (used s1 x) with (used s x). rewrite U, Hd by auto. done. }
  clear I2. set (s2 := with_bitmap s1 _) in *. set (r := fill _ _ _ _).
  assert (inv (with_refcounts s2 r) B (in_block k p)) as I3 by (apply inv_refcounts; [done|apply zlen_fill]).
  set (s3 := with_refcounts s2 r) in *. assert (block_ok s3 k p) as Hb3 by (destruct Hb; split; done).
  pose proof (push_whole_hole s3 B k p I3 Hb3) as I4.
  split; [|done]. split.
  - eexists. by apply inv_usable.
  - intros x Hx. transitivity (managed s1 x); [done|]. rewrite M1 by done. rewrite M by done. apply orb_comm.
  - intros x Hx. transitivity (used s2 x); [done|]. rewrite U2 by (unfold in_range in Hx; simpl in *; lia).
    change (used s1 x) with (used s x). rewrite U by done. by destruct (D x), (blockb k p x).
  - intros x Hx Hdx. transitivity (rd r (x - lowest_page s)); [done|]. unfold r. simpl.
    unfold in_range in Hx; simpl in Hx. rewrite Z.shiftl_1_l. pose proof (pow2_pos k ltac:(lia)).
    pose proof (g_rc _ (i_geom _ _ _ I)). unfold blockb in Hdx.
    rewrite rd_fill by lia. fold (refcount s x).
    case_if; [done|]. apply R; [done|]. destruct (D x); [done|]. simpl in Hdx. lia.
Qed.

(** ** The loop over an entry *)

(** The bytes of [e] up to offset [p] that are handed over: those above the first
    megabyte and outside the metadata. *)
Definition handed (md_base md_size : Z) (e : memmap_entry) (p x : Z) : bool :=
  (e_base e <=? x * PAGE_SIZE) && (x * PAGE_SIZE <? e_base e + p) && (0x100000 <=? x * PAGE_SIZE) &&
  negb ((md_base <=? x * PAGE_SIZE) && (x * PAGE_SIZE <? md_base + md_size)).

Lemma mod_page_pow k p : 0 <= k -> (p * PAGE_SIZE) mod (2 ^ k * PAGE_SIZE) = 0 <-> p mod 2 ^ k = 0.
Proof.
  intros Hk. pose proof (pow2_pos k Hk). unfold PAGE_SIZE.
  rewrite Z.mul_mod_distr_r by lia. lia.
Qed.

Section Entry.
Context (mb ms : Z) (e : memmap_entry).
Hypothesis Hbase : 0 <= e_base e.
Hypothesis Htop : e_base e + e_length e < 2 ^ 63.
Hypothesis Hmd : 0 <= mb /\ 0 <= ms /\ mb + ms < 2 ^ 63.

(** A block of order [k] at page [q] lies in the rest of the entry, aligned and
    clear of the metadata. *)
Definition fits (p q k : Z) : Prop :=
  0 <= k < MAX_ORDER /\ p + 2 ^ k * PAGE_SIZE <= e_length e /\ q mod 2 ^ k = 0 /\
  (q * PAGE_SIZE + 2 ^ k * PAGE_SIZE <= mb \/ mb + ms <= q * PAGE_SIZE).

Lemma init_order_fits n p q k :
  0 <= p -> q * PAGE_SIZE = e_base e + p -> fits p q k ->
  fits p q (init_order n mb ms (e_length e) p (q * PAGE_SIZE) k).
Proof.
  intros Hp Hq. revert k. induction n as [|n IH]; intros k Hf; simpl; [done|].
  destruct (k <? MAX_ORDER - 1) eqn:Ek; [|done]. b2p. pose proof Hf as (Hk & Hlen & Ha & Hm).
  assert (2 ^ (k + 1) <= 2 ^ 20) by (apply pow2_le; unfold MAX_ORDER in *; lia).
  pose proof (pow2_pos (k + 1) ltac:(lia)). rewrite Z.shiftl_1_l.
  assert (u64 (2 ^ (k + 1) * PAGE_SIZE) = 2 ^ (k + 1) * PAGE_SIZE) as E1
    by (unfold PAGE_SIZE; apply u64_small; lia).
  rewrite E1, (u64_small (p + _)), (u64_small (_ + _)), (u64_small (mb + ms)) by (unfold PAGE_SIZE in *; lia).
  destruct (_ >? _) eqn:E2; [done|]. destruct (negb (_ =? 0)) eqn:E3; [done|].
  destruct (negb (_ || _)) eqn:E4; [done|]. b2p. apply IH. apply mod_page_pow in E3; [|lia].
  unfold fits. split; [unfold MAX_ORDER in *; lia|]. split; [lia|]. split; [done|]. lia.
Qed.

Lemma handed_skip p p' x :
  (forall y, e_base e + p <= y * PAGE_SIZE < e_base e + p' ->
     y * PAGE_SIZE < 0x100000 \/ mb <= y * PAGE_SIZE < mb + ms) ->
  p <= p' -> handed mb ms e p x = handed mb ms e p' x.
Proof.
  intros Hs Hle. unfold handed. specialize (Hs x).
  destruct (Z.leb_spec (e_base e) (x * PAGE_SIZE)), (Z.ltb_spec (x * PAGE_SIZE) (e_base e + p)),
    (Z.ltb_spec (x * PAGE_SIZE) (e_base e + p')), (Z.leb_spec 0x100000 (x * PAGE_SIZE)),
    (Z.leb_spec mb (x * PAGE_SIZE)), (Z.ltb_spec (x * PAGE_SIZE) (mb + ms)); simpl; done || lia.
Qed.

Lemma handed_block p q k x :
  0 <= p -> q * PAGE_SIZE = e_base e + p -> fits p q k -> 0x100000 <= q * PAGE_SIZE ->
  handed mb ms e (p + 2 ^ k * PAGE_SIZE) x = handed mb ms e p x || blockb k q x.
Proof.
  intros Hp Hq (Hk & _ & _ & Hm) Hlow. unfold handed, blockb. unfold PAGE_SIZE in *.
  destruct (Z.leb_spec (e_base e) (x * 4096)), (Z.ltb_spec (x * 4096) (e_base e + p)),
    (Z.ltb_spec (x * 4096) (e_base e + (p + 2 ^ k * 4096))), (Z.leb_spec 0x100000 (x * 4096)),
    (Z.leb_spec mb (x * 4096)), (Z.ltb_spec (x * 4096) (mb + ms)),
    (Z.leb_spec q x), (Z.ltb_spec x (q + 2 ^ k)); simpl; done || lia.
Qed.

Hypothesis Hbase_al : e_base e mod PAGE_SIZE = 0.
Hypothesis Hlen_al : e_length e mod PAGE_SIZE = 0.
Hypothesis Hmb_al : mb mod PAGE_SIZE = 0.
Hypothesis Hms_al : ms mod PAGE_SIZE = 0.

(** A skipped stretch from [p] to [p'] hands nothing over. *)
Lemma boot_inv_skip s D p p' :
  boot_inv s (fun x => D x || handed mb ms e (Z.min p (e_length e)) x) ->
  (forall y, e_base e + p <= y * PAGE_SIZE < e_base e + p' ->
     y * PAGE_SIZE < 0x100000 \/ mb <= y * PAGE_SIZE < mb + ms) -> p <= p' ->
  boot_inv s (fun x => D x || handed mb ms e (Z.min p' (e_length e)) x).
Proof.
  intros Hs Hskip Hle. eapply boot_inv_ext; [|exact Hs]. intros x _. simpl. f_equal.
  apply handed_skip; [|lia]. intros y Hy. apply Hskip. lia.
Qed.

Lemma boot_inv_block s D p q k :
  boot_inv s (fun x => D x || handed mb ms e (Z.min p (e_length e)) x) ->
  (forall x, e_base e <= x * PAGE_SIZE < e_base e + e_length e -> D x = false) ->
  lowest_page s * PAGE_SIZE <= e_base e -> e_base e + e_length e <= highest_page s * PAGE_SIZE ->
  0 <= p -> q * PAGE_SIZE = e_base e + p -> 0x100000 <= q * PAGE_SIZE -> fits p q k ->
  let s' := init_block s (q * PAGE_SIZE) k in
  boot_inv s' (fun x => D x || handed mb ms e (Z.min (p + 2 ^ k * PAGE_SIZE) (e_length e)) x) /\
  lowest_page s' = lowest_page s /\ highest_page s' = highest_page s.
Proof.
  intros Hs Hd Hlo Hhi Hp Hq Hlow Hf s'. pose proof Hf as (Hk & Hlen & Ha & Hm).
  pose proof (pow2_pos k ltac:(lia)). unfold PAGE_SIZE in *.
  assert (block_ok s k q) as Hb by (split; lia).
  assert (forall x, in_block k q x -> (D x || handed mb ms e (Z.min p (e_length e)) x) = false) as Hfresh.
  { intros x Hx. unfold in_block in Hx. rewrite Hd by lia. unfold handed, PAGE_SIZE. simpl. lia. }
  destruct (init_block_spec s _ k q Hs Hb ltac:(lia) Hfresh) as (Hs' & El & Eh).
  split; [|done]. eapply boot_inv_ext; [|exact Hs']. intros x _. simpl. unfold PAGE_SIZE in *.
  rewrite !Z.min_l by lia. rewrite <- orb_assoc. f_equal. symmetry. by apply handed_block.
Qed.

Lemma fits_0 p q :
  0 <= p < e_length e -> q * PAGE_SIZE = e_base e + p ->
  q * PAGE_SIZE < mb \/ mb + ms <= q * PAGE_SIZE -> fits p q 0.
Proof.
  intros Hp Hq Hm. unfold fits. apply page_mul in Hbase_al as (b & Eb & _).
  apply page_mul in Hlen_al as (l & El & _). apply page_mul in Hmb_al as (m & Em & _).
  unfold PAGE_SIZE, MAX_ORDER in *. split; [lia|]. split; [lia|]. split; [apply Z.mod_1_r|lia].
Qed.

Lemma init_entry_spec n s D p :
  boot_inv s (fun x => D x || handed mb ms e (Z.min p (e_length e)) x) ->
  (forall x, e_base e <= x * PAGE_SIZE < e_base e + e_length e -> D x = false) ->
  lowest_page s * PAGE_SIZE <= e_base e -> e_base e + e_length e <= highest_page s * PAGE_SIZE ->
  0 <= p -> p mod PAGE_SIZE = 0 -> 0 < Z.of_nat n -> e_length e / PAGE_SIZE - p / PAGE_SIZE < Z.of_nat n ->
  exists s', init_entry n s mb ms e p = Some s' /\
    boot_inv s' (fun x => D x || handed mb ms e (e_length e) x) /\
    lowest_page s' = lowest_page s /\ highest_page s' = highest_page s.
Proof.
  revert s p. induction n as [|n IH]; intros s p Hs Hd Hlo Hhi Hp Hpa Hn0 Hn; [lia|]. cbn [init_entry].
  destruct (page_mul _ Hbase_al) as (b & Eb & _). destruct (page_mul _ Hlen_al) as (l & El & El').
  destruct (page_mul _ Hmb_al) as (m & Em & _). destruct (page_mul _ Hms_al) as (z & Ez & _).
  destruct (page_mul _ Hpa) as (i & Ei & Ei'). rewrite El', Ei' in Hn.
  destruct (p <? e_length e) eqn:Ep; b2p.
  2: { exists s. split_and!; try done. by rewrite Z.min_r in Hs by lia. }
  assert (u64 (e_base e + p) = (b + i) * PAGE_SIZE) as -> by (unfold PAGE_SIZE in *; rewrite u64_small; lia).
  rewrite (u64_small (mb + ms)) by lia. pose proof Hmd as (Hm1 & Hm2 & Hm3).
  assert (forall j, 0 <= j < 2 ^ 52 -> u64 (j * PAGE_SIZE) = j * PAGE_SIZE /\ (j * PAGE_SIZE) mod PAGE_SIZE = 0
    /\ j * PAGE_SIZE / PAGE_SIZE = j) as Hj.
  { intros j Hj. unfold PAGE_SIZE. rewrite Z.mod_mul, Z.div_mul by lia. split; [apply u64_small; lia|done]. }
  destruct (_ <? 0x100000) eqn:E1; b2p.
  { destruct (Hj (256 - b) ltac:(unfold PAGE_SIZE in *; lia)) as (J1 & J2 & J3).
    assert (p + (0x100000 - (b + i) * PAGE_SIZE) = (256 - b) * PAGE_SIZE) as -> by (unfold PAGE_SIZE in *; lia).
    rewrite J1. unfold PAGE_SIZE in *.
    apply IH; try done; rewrite ?El', ?J3; try lia. eapply boot_inv_skip; [exact Hs|unfold PAGE_SIZE; intros y Hy|]; lia. }
  destruct (_ && _) eqn:E2; b2p.
  { destruct (Hj (m + z - b) ltac:(unfold PAGE_SIZE in *; lia)) as (J1 & J2 & J3).
    assert (p + (mb + ms - (b + i) * PAGE_SIZE) = (m + z - b) * PAGE_SIZE) as -> by (unfold PAGE_SIZE in *; lia).
    rewrite J1. unfold PAGE_SIZE in *.
    apply IH; try done; rewrite ?El', ?J3; try lia. eapply boot_inv_skip; [exact Hs|unfold PAGE_SIZE; intros y Hy|]; lia. }
  assert ((b + i) * PAGE_SIZE = e_base e + p) as Hq by (unfold PAGE_SIZE in *; lia).
  pose proof (init_order_fits (Z.to_nat MAX_ORDER) p (b + i) 0 Hp Hq
    (fits_0 p (b + i) ltac:(lia) Hq ltac:(lia))) as Hf.
  set (k := init_order _ _ _ _ _ _ _) in *.
  destruct (boot_inv_block s D p (b + i) k Hs Hd Hlo Hhi Hp Hq ltac:(lia) Hf) as (Hs' & El1 & Eh1).
  destruct Hf as (Hk & Hlen & _). pose proof (pow2_pos k ltac:(lia)). rewrite Z.shiftl_1_l.
  destruct (Hj (i + 2 ^ k) ltac:(unfold PAGE_SIZE in *; lia)) as (J1 & J2 & J3).
  assert (p + 2 ^ k * PAGE_SIZE = (i + 2 ^ k) * PAGE_SIZE) as E3 by (unfold PAGE_SIZE in *; lia).
  rewrite E3 in Hs' |- *. rewrite J1. rewrite <- El1, <- Eh1. unfold PAGE_SIZE in *.
  apply IH; try done; rewrite ?El1, ?Eh1, ?El', ?J3; try lia; done.
Qed.
End Entry.

(** ** All entries *)

Definition handed_all (mb ms : Z) (memmap : list memmap_entry) (x : Z) : bool :=
  existsb (fun e => is_usable e && handed mb ms e (e_length e) x) memmap.

Lemma init_entries_spec mb ms memmap hhdm zone s D :
  memmap_ok memmap hhdm zone -> 0 <= mb /\ 0 <= ms /\ mb + ms < 2 ^ 63 ->
  mb mod PAGE_SIZE = 0 -> ms mod PAGE_SIZE = 0 -> boot_inv s D ->
  (forall e, e ∈ memmap -> is_usable e = true ->
     lowest_page s * PAGE_SIZE <= e_base e /\ e_base e + e_length e <= highest_page s * PAGE_SIZE /\
     forall x, e_base e <= x * PAGE_SIZE < e_base e + e_length e -> D x = false) ->
  exists s', init_entries s mb ms memmap = Some s' /\
    boot_inv s' (fun x => D x || handed_all mb ms memmap x) /\
    lowest_page s' = lowest_page s /\ highest_page s' = highest_page s.
Proof.
  intros Hok Hmd Hmb Hms. revert s D.
  induction memmap as [|e rest IH]; intros s D Hs Hu; cbn [init_entries].
  { exists s. split_and!; try done. eapply boot_inv_ext; [|exact Hs]. intros x _. by rewrite orb_false_r. }
  assert (memmap_ok rest hhdm zone) as Hrest.
  { destruct Hok as [He Ha Hd Hdir Hh Hz]. inversion Hd; subst.
    split; try done; intros e' ?; apply He || apply Ha || apply Hdir; apply elem_of_cons; by right. }
  assert (e ∈ e :: rest) as Hin by (apply elem_of_cons; by left).
  destruct (is_usable e) eqn:Eu.
  - destruct (Hu e Hin Eu) as (Hlo & Hhi & Hd).
    destruct (mo_entry _ _ _ Hok e Hin) as (Hb & Hl & Ht).
    destruct (mo_aligned _ _ _ Hok e Hin (usable_bounds e Eu)) as [Hba Hla].
    assert (0 < Z.of_nat (entry_fuel e) /\ e_length e / PAGE_SIZE - 0 / PAGE_SIZE < Z.of_nat (entry_fuel e))
      as [Hf1 Hf2].
    { pose proof (Z.div_pos (e_length e) PAGE_SIZE Hl ltac:(done)). unfold entry_fuel. rewrite Zdiv_0_l. lia. }
    destruct (fun Hs0 => init_entry_spec mb ms e Hb Ht Hmd Hba Hla Hmb Hms (entry_fuel e) s D 0
      Hs0 Hd Hlo Hhi ltac:(lia) ltac:(done) Hf1 Hf2) as (s1 & -> & Hs1 & El & Eh).
    { eapply boot_inv_ext; [|exact Hs]. intros x _. unfold handed.
      destruct (Z.leb_spec (e_base e) (x * PAGE_SIZE)); simpl; [|by rewrite orb_false_r].
      rewrite (proj2 (Z.ltb_ge _ _)) by lia. by rewrite orb_false_r. }
    destruct (IH Hrest s1 _ Hs1) as (s' & -> & Hs' & El' & Eh').
    { intros e' Hin' Eu'. rewrite El, Eh.
      destruct (Hu e' ltac:(apply elem_of_cons; by right) Eu') as (? & ? & Hd'). split_and!; try done.
      intros x Hx. rewrite Hd' by done. simpl.
      pose proof (mo_disjoint _ _ _ Hok) as Hdis. inversion Hdis as [|? ? Hf _]; subst.
      rewrite List.Forall_forall in Hf. apply list_elem_of_In in Hin'. specialize (Hf e' Hin' Eu Eu').
      unfold handed. lia. }
    exists s'. split_and!; try congruence. eapply boot_inv_ext; [|exact Hs'].
    intros x _. simpl. rewrite Eu. simpl. by rewrite orb_assoc.
  - destruct (IH Hrest s D Hs) as (s' & -> & Hs' & El' & Eh').
    { intros e' ? ?. apply Hu; [apply elem_of_cons; by right|done]. }
    exists s'. split_and!; try done. eapply boot_inv_ext; [|exact Hs']. intros x _. simpl. by rewrite Eu.
Qed.

(** ** The initial state *)

Lemma page_round_up_spec x :
  0 <= x < 2 ^ 63 -> x <= page_round_up x < x + PAGE_SIZE /\ page_round_up x mod PAGE_SIZE = 0.
Proof.
  intros Hx. unfold page_round_up. rewrite (u64_small (x + PAGE_SIZE - 1)) by (unfold PAGE_SIZE; lia).
  rewrite land_page_mask by (unfold PAGE_SIZE; lia). unfold PAGE_SIZE. split; [|apply Z.mod_mul; lia].
  pose proof (Z.div_mod (x + 4096 - 1) 4096). pose proof (Z.mod_pos_bound (x + 4096 - 1) 4096). lia.
Qed.

Lemma init_lists_head n m zone i j :
  (i <= j < i + Z.of_nat n -> get_next (init_lists n m zone i) (zone + 16 * j) = zone + 16 * j /\
     get_prev (init_lists n m zone i) (zone + 16 * j) = zone + 16 * j) /\
  (j < i -> get_next (init_lists n m zone i) (zone + 16 * j) = get_next m (zone + 16 * j) /\
     get_prev (init_lists n m zone i) (zone + 16 * j) = get_prev m (zone + 16 * j)).
Proof.
  revert m i. induction n as [|n IH]; intros m i; cbn [init_lists]; [split; [lia|done]|].
  destruct (IH (INIT_LIST_HEAD m (zone + 16 * i)) (i + 1)) as [H1 H2]. unfold INIT_LIST_HEAD in H2.
  rewrite get_prev_set, !get_next_set_prev, get_prev_set_next, get_next_set in H2.
  split; intros Hj.
  - destruct (Z.eq_dec i j) as [->|]; [|apply H1; lia]. rewrite Z.eqb_refl in H2. apply H2. lia.
  - rewrite (proj2 (Z.eqb_neq _ _)) in H2 by lia. apply H2. lia.
Qed.

Lemma init_bitmap_size_enough pages : 0 <= pages -> pages <= 8 * init_bitmap_size pages <= pages + 7.
Proof.
  intros Hp. unfold init_bitmap_size. pose proof (Z.div_mod pages 8). pose proof (Z.mod_pos_bound pages 8).
  destruct (Z.eqb_spec (pages mod 8) 0); lia.
Qed.

Section InitState.
Context (s : pmm) (memmap : list memmap_entry) (hhdm : Z) (mem_refs : list Z) (lo hi total : Z) (md : memmap_entry).
Hypothesis Hok : memmap_ok memmap hhdm (b_zone s).
Hypothesis Hrange : 0 <= lo < hi.
Hypothesis Htop : hhdm + hi * PAGE_SIZE <= b_zone s.
Hypothesis Hrefs : hi - lo <= zlen mem_refs.
Hypothesis Hmd : 0 <= e_base md /\ hhdm + e_base md < 2 ^ 64.

Let s0 := init_state s memmap hhdm mem_refs lo hi total md.

Lemma init_pages : init_page_count lo hi = hi - lo.
Proof. unfold init_page_count. rewrite Z.gtb_ltb, (proj2 (Z.ltb_lt _ _)) by lia. done. Qed.

Lemma init_bits bits b x :
  in_range s0 x -> bits = replicate (Z.to_nat (init_bitmap_size (hi - lo))) b ->
  bitmap_test bits (x - lo) = Z.testbit b ((x - lo) mod 8).
Proof.
  intros Hx ->. unfold in_range in Hx; simpl in Hx. rewrite bitmap_test_bit by lia.
  pose proof (init_bitmap_size_enough (hi - lo) ltac:(lia)). rewrite rd_replicate; [done|].
  split; [apply Z.div_pos; lia|]. apply Z.div_lt_upper_bound; lia.
Qed.

Lemma init_geom : geom s0.
Proof.
  pose proof (init_bitmap_size_enough (hi - lo) ltac:(lia)). destruct Hok as [? ? ? ? Hh Hz].
  unfold KERNEL_HALF, PAGE_SIZE in *.
  split; unfold blk, KERNEL_HALF, PAGE_SIZE; simpl; rewrite ?init_pages, ?zlen_replicate; try lia.
  rewrite u64_small; lia.
Qed.

Lemma init_state_spec : boot_inv s0 (fun _ => false) /\ u64 (bitmap_addr s0 - hhdm) = e_base md.
Proof.
  assert (forall x, in_range s0 x -> managed s0 x = false) as HM.
  { intros x Hx. unfold managed. simpl. rewrite init_pages. erewrite init_bits by done. apply Z.bits_0. }
  assert (forall x, in_range s0 x -> used s0 x = true) as HU.
  { intros x Hx. unfold used. simpl. rewrite init_pages. erewrite init_bits by done.
    change 0xFF with (Z.ones 8). apply Z.ones_spec_low. by apply Z.mod_pos_bound. }
  split; [split; try done; exists ∅; split|].
  - apply init_geom.
  - intros k Hk. exists []. split; [|set_solver]. split; [apply NoDup_singleton|].
    destruct (init_lists_head (Z.to_nat MAX_ORDER) (links s) (b_zone s) 0 k) as [Hh _].
    destruct Hh as [? ?]; [unfold MAX_ORDER in *; lia|]. done.
  - set_solver.
  - set_solver.
  - set_solver.
  - intros x Hx. rewrite HM by done. split; [by intros [? _]|]. intros [[]|(? & ? & ? & _)]. set_solver.
  - by intros x [].
  - intros x Hx. by rewrite HM by done.
  - destruct Hok as [? ? ? ? Hh Hz]. unfold KERNEL_HALF, PAGE_SIZE in *. simpl.
    rewrite (u64_small (_ + _)) by lia. rewrite u64_small; lia.
Qed.
End InitState.

Lemma metadata_entry_some memmap size md :
  metadata_entry memmap size = Some md -> md ∈ memmap /\ is_usable md = true /\ size <= e_length md.
Proof.
  intros [Hin Hb]%List.find_some. b2p. split_and!; [by apply list_elem_of_In|done|done].
Qed.

Lemma handed_all_spec mb ms memmap x :
  handed_all mb ms memmap x = true <->
  exists e, e ∈ memmap /\ is_usable e = true /\
    e_base e <= x * PAGE_SIZE < e_base e + e_length e /\ 0x100000 <= x * PAGE_SIZE /\
    ~ (mb <= x * PAGE_SIZE < mb + ms).
Proof.
  unfold handed_all. rewrite existsb_exists. split; intros (e & Hin & He); exists e.
  - apply list_elem_of_In in Hin. unfold handed in He. b2p. split; [done|]. split; [done|]. lia.
  - destruct He as (Hu & ? & ? & ?). split; [by apply list_elem_of_In|]. rewrite Hu. unfold handed. simpl. lia.
Qed.

Lemma pmm_init_spec s memmap hhdm mem_refs lo hi total md :
  memmap_ok memmap hhdm (b_zone s) ->
  fold_left scan_entry memmap (0xFFFFFFFFFFFFFFFF, 0, total_memory s) = (lo, hi, total) ->
  let size := init_metadata_size (init_page_count lo hi) in
  metadata_entry memmap size = Some md -> 0 < e_length md -> hi - lo <= zlen mem_refs ->
  exists s', pmm_init s memmap hhdm mem_refs = Some s' /\ lowest_page s' = lo /\ highest_page s' = hi /\
    boot_inv s' (handed_all (e_base md) size memmap) /\
    forall x, handed_all (e_base md) size memmap x = true -> in_range s' x.
Proof.
  intros Hok Hscan size Hmd Hpos Hrefs. pose proof Hmd as (Hin & Hu & Hsz)%metadata_entry_some.
  pose proof (usable_bounds _ Hu) as Hsb.
  destruct (scan_spec memmap 0xFFFFFFFFFFFFFFFF 0 (total_memory s) (mo_entry _ _ _ Hok) (mo_aligned _ _ _ Hok)
    ltac:(lia)) as (lo' & hi' & total' & E & Hlo & Hhi & Hbounds & Hwho).
  rewrite Hscan in E. injection E as <- <- <-.
  destruct (Hbounds md Hin Hsb) as [Hb1 Hb2]. destruct (mo_entry _ _ _ Hok md Hin) as (M1 & M2 & M3).
  pose proof (mo_hhdm _ _ _ Hok) as Hh. pose proof (mo_zone _ _ _ Hok) as Hz.
  assert (hhdm + hi * PAGE_SIZE <= b_zone s) as Htop.
  { pose proof (mo_direct _ _ _ Hok md Hin Hsb). destruct Hwho as [->|(e & He & Hes & ->)].
    - unfold PAGE_SIZE in *. lia.
    - pose proof (mo_direct _ _ _ Hok e He Hes). lia. }
  assert (lo < hi) as Hlt by (unfold PAGE_SIZE in *; lia).
  assert (0 <= size /\ size mod PAGE_SIZE = 0) as [Hs1 Hs2].
  { unfold size, init_metadata_size. rewrite init_pages by lia.
    pose proof (init_bitmap_size_enough (hi - lo) ltac:(lia)). unfold KERNEL_HALF, PAGE_SIZE in *.
    destruct (page_round_up_spec (init_bitmap_size (hi - lo) * 2 + (hi - lo) * 2)) as [? ?];
      [lia|]. split; [lia|done]. }
  pose proof (mo_direct _ _ _ Hok md Hin Hsb) as Hdir. unfold KERNEL_HALF in Hh.
  destruct (init_state_spec s memmap hhdm mem_refs lo hi total md) as [Hs0 Hphys]; try done; try lia.
  set (s0 := init_state s memmap hhdm mem_refs lo hi total md) in *.
  destruct (init_entries_spec (e_base md) size memmap hhdm (b_zone s) s0 (fun _ => false)) as
    (s' & Hs' & Hinv & El & Eh); try done; [lia|by apply (mo_aligned _ _ _ Hok)| |].
  { intros e He Heu. destruct (Hbounds e He (usable_bounds e Heu)). done. }
  exists s'. unfold pmm_init. rewrite Hscan. fold size. rewrite Hmd. fold s0.
  rewrite (proj2 (Z.eqb_neq _ _)), Hphys by (unfold s0; simpl; rewrite u64_small; lia).
  split_and!; try done.
  intros x (e & He & Heu & Hx & _)%handed_all_spec.
  destruct (Hbounds e He (usable_bounds e Heu)). unfold in_range. rewrite El, Eh. simpl.
  unfold PAGE_SIZE in *. lia.
Qed.
