(* ===== verification/PmmReclaim.v ===== *)
(** * Reclaiming the bootloader's memory

    Models [pmm_reclaim_bootloader] of [kernel/src/mm/pmm.c] and
    [vmm_protect_active_tables] of [kernel/src/mm/vmm.c].  The temporary bitmap
    lives in pages the function has just allocated and is a local array here.
    Page tables are read through [pte table i], the entry [i] of the table at
    physical address [table]. *)

From S2P Require Import Prelude Bitmap DList Pmm PmmInv PmmSpec.

Definition PAGE_FLAG_PRESENT : Z := 1.
Definition PAGE_FLAG_PS : Z := Z.shiftl 1 7.
Definition PAGE_MASK : Z := 0x000FFFFFFFFFF000.

Section Protect.
Context (pte : Z -> Z -> Z).

(** [level] counts down to 0, where the function returns at once. *)
Fixpoint vmm_protect_table_recursive (level : nat) (phys : Z) (s : pmm) : pmm :=
  match level with
  | O => s
  | S l =>
      let s := if pmm_is_reclaimable s phys then pmm_mark_used s phys 1 else s in
      for_n 512 0 (fun i s =>
        let entry := pte phys i in
        if Z.land entry PAGE_FLAG_PRESENT =? 0 then s
        else if bool_decide (1 < Z.of_nat level) then
          if negb (Z.land entry PAGE_FLAG_PS =? 0) then
            let leaf_phys := Z.land entry PAGE_MASK in
            if pmm_is_reclaimable s leaf_phys then
              let page_count := if Z.of_nat level =? 3 then 0x40000 else 0x200 in
              pmm_mark_used s leaf_phys page_count
            else s
          else vmm_protect_table_recursive l (Z.land entry PAGE_MASK) s
        else
          let leaf_phys := Z.land entry PAGE_MASK in
          if pmm_is_reclaimable s leaf_phys then pmm_mark_used s leaf_phys 1 else s) s
  end.

Definition vmm_protect_active_tables (cr3 : Z) (s : pmm) : pmm :=
  vmm_protect_table_recursive 4 (Z.land cr3 PAGE_MASK) s.
End Protect.

(** Step 1: the entry is to be reclaimed. *)
Definition reclaims (kernel_phys_base : Z) (e : memmap_entry) : bool :=
  match e_type e with
  | MEMMAP_BOOTLOADER_RECLAIMABLE => true
  | MEMMAP_EXECUTABLE_AND_MODULES =>
      (kernel_phys_base <? e_base e) || (kernel_phys_base >=? u64 (e_base e + e_length e))
  | _ => false
  end.

Definition mark_entry (lo hi kernel_phys_base : Z) (temp : list Z) (e : memmap_entry) : list Z :=
  if reclaims kernel_phys_base e then
    let start := e_base e in
    let len := e_length e in
    let diff := 0x100000 - start in
    if (start <? 0x100000) && (diff >=? len) then temp
    else
      let '(start, len) := if start <? 0x100000 then (0x100000, len - diff) else (start, len) in
      bitmap_set_range lo hi temp (start / PAGE_SIZE) (len / PAGE_SIZE)
  else temp.

(** [temp_bitmap[b] & (1 << i)] and [temp_bitmap[b] &= ~(1 << i)] *)
Definition temp_test (temp : list Z) (b i : Z) : bool := negb (Z.land (rd temp b) (Z.shiftl 1 i) =? 0).
Definition temp_clear (temp : list Z) (b i : Z) : list Z :=
  wr temp b (Z.land (rd temp b) (Z.lnot (Z.shiftl 1 i))).

(** Step 3: drop the pages that are marked used. *)
Definition drop_used (s : pmm) (temp : list Z) : list Z :=
  for_n (Z.to_nat (bitmap_size s)) 0 (fun b temp =>
    if rd temp b =? 0 then temp
    else for_n 8 0 (fun i temp =>
      if temp_test temp b i then
        let pfn := u64 (b * 8 + i + lowest_page s) in
        if bitmap_test (bitmap s) (u64 (pfn - lowest_page s)) then temp_clear temp b i else temp
      else temp) temp) temp.

(** Length of the run of set bits from [curr_pfn], which is cleared. *)
Fixpoint take_run (fuel : nat) (lo hi : Z) (temp : list Z) (curr_pfn count : Z) : list Z * Z :=
  match fuel with
  | O => (temp, count)
  | S n =>
      if curr_pfn <? hi then
        let idx := curr_pfn - lo in
        if temp_test temp (idx / 8) (idx mod 8)
        then take_run n lo hi (temp_clear temp (idx / 8) (idx mod 8)) (curr_pfn + 1) (count + 1)
        else (temp, count)
      else (temp, count)
  end.

Fixpoint run_order (fuel : nat) (remaining phys order : Z) : Z :=
  match fuel with
  | O => order
  | S n =>
      if order <? MAX_ORDER - 1 then
        let n_pages := Z.shiftl 1 (order + 1) in
        if (n_pages >? remaining) || negb (phys mod (n_pages * PAGE_SIZE) =? 0) then order
        else run_order n remaining phys (order + 1)
      else order
  end.

(** Give the [count] pages from [start_pfn] to the allocator in aligned blocks. *)
Fixpoint reclaim_run (fuel : nat) (s : pmm) (start_pfn count p : Z) : pmm :=
  match fuel with
  | O => s
  | S n =>
      if p <? count then
        let phys := (start_pfn + p) * PAGE_SIZE in
        let order := run_order (Z.to_nat MAX_ORDER) (count - p) phys 0 in
        let p_count := Z.shiftl 1 order in
        let base_pfn := phys / PAGE_SIZE in
        let s := with_managed s
          (bitmap_set_range (lowest_page s) (highest_page s) (managed_bitmap s) base_pfn p_count) in
        let s := with_refcounts s (fill (refcounts s) (base_pfn - lowest_page s) p_count 0) in
        let s := buddy_free_internal s phys order in
        let s := with_usable s (u64 (usable_memory s + p_count * PAGE_SIZE)) in
        reclaim_run n s start_pfn count (p + p_count)
      else s
  end.

(** Step 4. *)
Definition reclaim_marked (s : pmm) (temp : list Z) : pmm * list Z :=
  for_n (Z.to_nat (bitmap_size s)) 0 (fun b '(s, temp) =>
    if rd temp b =? 0 then (s, temp)
    else for_n 8 0 (fun i '(s, temp) =>
      if temp_test temp b i then
        let start_pfn := b * 8 + i + lowest_page s in
        let '(temp, count) :=
          take_run (Z.to_nat (highest_page s - start_pfn)) (lowest_page s) (highest_page s) temp start_pfn 0 in
        (reclaim_run (Z.to_nat count) s start_pfn count 0, temp)
      else (s, temp)) (s, temp)) (s, temp).

Definition pmm_reclaim_bootloader (pte : Z -> Z -> Z) (cr3 kernel_phys_base : Z) (s : pmm) : option pmm :=
  match internal_memmap s with
  | None => Some s
  | Some memmap =>
      let static_entries := take 128 memmap in
      let temp_count := u64 (bitmap_size s + PAGE_SIZE - 1) / PAGE_SIZE in
      match pmm_alloc_pages s temp_count with
      | None => None
      | Some (temp_bitmap_phys, s) =>
          if temp_bitmap_phys =? 0 then Some s
          else
            let temp := replicate (Z.to_nat (bitmap_size s)) 0 in
            let temp := fold_left (mark_entry (lowest_page s) (highest_page s) kernel_phys_base)
                          static_entries temp in
            let s := vmm_protect_active_tables pte cr3 s in
            let temp := drop_used s temp in
            let '(s, _) := reclaim_marked s temp in
            let s := with_memmap s None in
            pmm_free_pages s temp_bitmap_phys temp_count
      end
  end.

(** ** What the walk of the page tables does *)

(** [s'] is [s] with more pages marked used. *)
Definition marks_more (s s' : pmm) : Prop :=
  exists bm, s' = with_bitmap s bm /\ zlen bm = zlen (bitmap s) /\
    forall j, 0 <= j -> bitmap_test (bitmap s) j = true -> bitmap_test bm j = true.

Lemma marks_more_refl s : marks_more s s.
Proof. exists (bitmap s). by destruct s. Qed.

Lemma marks_more_trans s1 s2 s3 : marks_more s1 s2 -> marks_more s2 s3 -> marks_more s1 s3.
Proof.
  intros (b1 & -> & L1 & T1) (b2 & -> & L2 & T2). exists b2. simpl in *. split_and!; [done|congruence|auto].
Qed.

Lemma marks_more_geom s s' : marks_more s s' -> geom s -> geom s'.
Proof. intros (bm & -> & L & _) G. by apply geom_bitmap. Qed.

Lemma pmm_mark_used_more s ptr count : geom s -> 0 <= count < 2 ^ 63 -> marks_more s (pmm_mark_used s ptr count).
Proof.
  intros G Hc. unfold pmm_mark_used. destruct (_ || _); [apply marks_more_refl|].
  eexists. split; [done|]. unfold bitmap_set_range.
  destruct (Z_lt_le_dec (ptr / PAGE_SIZE) (lowest_page s));
    [by rewrite range_op_out by lia|]. destruct (Z_lt_le_dec (ptr / PAGE_SIZE) (highest_page s));
    [|by rewrite range_op_out by lia].
  pose proof (geom_bounds s G) as (? & ? & ?). pose proof (g_bm _ G).
  destruct (range_op_spec _ _ _ set_bit_op (lowest_page s) (highest_page s) (bitmap s) (ptr / PAGE_SIZE) count)
    as (L & _ & T); try lia.
  split; [done|]. intros j Hj Ht. rewrite T by done. by destruct (_ && _).
Qed.

Lemma protect_more pte level phys s : geom s -> marks_more s (vmm_protect_table_recursive pte level phys s).
Proof.
  revert phys s. induction level as [|l IH]; intros phys s G; [apply marks_more_refl|].
  cbn [vmm_protect_table_recursive]. cbv zeta. set (s1 := if pmm_is_reclaimable s phys then pmm_mark_used s phys 1 else s).
  assert (marks_more s s1) as M1.
  { unfold s1. destruct (pmm_is_reclaimable s phys); [by apply pmm_mark_used_more|apply marks_more_refl]. }
  apply (for_n_ind (fun _ b => marks_more s b) 512 0); [done|]. intros i b _ M.
  eapply marks_more_trans; [exact M|]. assert (geom b) as Gb by (by eapply marks_more_geom).
  repeat case_if; try apply marks_more_refl; try (by apply IH); apply pmm_mark_used_more; done.
Qed.

Lemma protect_active_more pte cr3 s : geom s -> marks_more s (vmm_protect_active_tables pte cr3 s).
Proof. apply (protect_more pte 4). Qed.

(** ** What the temporary bitmap holds *)

Definition in_entry (e : memmap_entry) (x : Z) : Prop :=
  e_base e / PAGE_SIZE <= x /\ x * PAGE_SIZE < e_base e + e_length e.

Section Temp.
Context (lo hi kpb : Z) (Hlo : 0 <= lo) (Hhi : hi < 2 ^ 63).

(** Only pages in range of the given entries are marked. *)
Definition temp_marks (entries : list memmap_entry) (temp : list Z) : Prop :=
  forall j, 0 <= j -> bitmap_test temp j = true ->
    lo + j < hi /\ exists e, e ∈ entries /\ reclaims kpb e = true /\ in_entry e (lo + j).

Lemma mark_entry_len temp e : hi - lo <= 8 * zlen temp -> 0 <= e_base e -> 0 <= e_length e ->
  e_base e + e_length e < 2 ^ 63 ->
  zlen (mark_entry lo hi kpb temp e) = zlen temp /\
  forall j, 0 <= j -> bitmap_test (mark_entry lo hi kpb temp e) j = true ->
    bitmap_test temp j = true \/ (lo + j < hi /\ reclaims kpb e = true /\ in_entry e (lo + j)).
Proof.
  intros Hz Hb Hl Ht. unfold mark_entry. destruct (reclaims kpb e) eqn:Er; [|split; [done|tauto]].
  destruct (_ && _) eqn:E; [split; [done|tauto]|].
  set (sl := if e_base e <? 0x100000 then _ else _).
  assert (e_base e <= sl.1 /\ 0 <= sl.2 /\ sl.1 + sl.2 = e_base e + e_length e) as (H1 & H2 & H3).
  { unfold sl. destruct (Z.ltb_spec (e_base e) 0x100000); simpl in *; b2p; lia. }
  destruct sl as [start len]; simpl in *. unfold bitmap_set_range.
  destruct (Z_lt_le_dec (start / PAGE_SIZE) lo); [rewrite range_op_out by lia; split; [done|tauto]|].
  destruct (Z_lt_le_dec (start / PAGE_SIZE) hi); [|rewrite range_op_out by lia; split; [done|tauto]].
  unfold PAGE_SIZE in *.
  pose proof (Z.div_mod start 4096 ltac:(lia)). pose proof (Z.mod_pos_bound start 4096 ltac:(lia)).
  pose proof (Z.div_mod len 4096 ltac:(lia)). pose proof (Z.mod_pos_bound len 4096 ltac:(lia)).
  destruct (range_op_spec _ _ _ set_bit_op lo hi temp (start / 4096) (len / 4096)) as (L & _ & T); try lia.
  split; [done|]. intros j Hj. rewrite T by done. case_if; [|tauto]. b2p. intros _. right.
  split; [lia|]. split; [done|]. unfold in_entry, PAGE_SIZE.
  pose proof (Z.div_le_mono (e_base e) start 4096 ltac:(lia) H1). lia.
Qed.

Lemma mark_entries entries done temp :
  hi - lo <= 8 * zlen temp ->
  Forall (fun e => 0 <= e_base e /\ 0 <= e_length e /\ e_base e + e_length e < 2 ^ 63) entries ->
  temp_marks done temp ->
  zlen (fold_left (mark_entry lo hi kpb) entries temp) = zlen temp /\
  temp_marks (done ++ entries) (fold_left (mark_entry lo hi kpb) entries temp).
Proof.
  revert done temp. induction entries as [|e rest IH]; intros done temp Hz Hall Hm; simpl.
  { by rewrite app_nil_r. }
  apply Forall_cons in Hall as [(Hb & Hl & Ht) Hall].
  destruct (mark_entry_len temp e Hz Hb Hl Ht) as [L T].
  destruct (IH (done ++ [e]) (mark_entry lo hi kpb temp e)) as [L' M']; [by rewrite L|done| |].
  { intros j Hj Hb'. destruct (T j Hj Hb') as [H|(? & ? & ?)].
    - destruct (Hm j Hj H) as (? & e' & ? & ? & ?). split; [done|]. exists e'. split_and!; try done.
      apply elem_of_app. by left.
    - split; [done|]. exists e. split_and!; try done. apply elem_of_app. right. by apply list_elem_of_singleton. }
  split; [congruence|]. by rewrite <- app_assoc in M'.
Qed.
End Temp.

Lemma temp_index b i : 0 <= i < 8 -> (b * 8 + i) / 8 = b /\ (b * 8 + i) mod 8 = i.
Proof.
  intros Hi. rewrite Z.add_comm, Z.div_add, Z.mod_add by lia.
  by rewrite Z.div_small, Z.mod_small by lia.
Qed.

Lemma temp_test_bit temp b i : 0 <= i < 8 -> temp_test temp b i = bitmap_test temp (b * 8 + i).
Proof. intros Hi. unfold temp_test, bitmap_test. by destruct (temp_index b i Hi) as [-> ->]. Qed.

Lemma temp_clear_bit temp b i : 0 <= i < 8 -> temp_clear temp b i = bitmap_clear temp (b * 8 + i).
Proof. intros Hi. unfold temp_clear, bitmap_clear. by destruct (temp_index b i Hi) as [-> ->]. Qed.

(** After step 3 no page marked for reclaim is marked used. *)
Lemma drop_used_spec s temp :
  zlen temp = bitmap_size s -> 8 * bitmap_size s < 2 ^ 63 -> 0 <= lowest_page s < 2 ^ 63 ->
  forall j, 0 <= j < 8 * bitmap_size s -> bitmap_test (drop_used s temp) j = true ->
    bitmap_test temp j = true /\ bitmap_test (bitmap s) j = false.
Proof.
  intros Hz Hsz Hlo.
  set (Inv := fun d (t : list Z) => zlen t = zlen temp /\ forall j, 0 <= j -> bitmap_test t j = true ->
    bitmap_test temp j = true /\ (j < d -> bitmap_test (bitmap s) j = false)).
  assert (Inv (0 + Z.of_nat (Z.to_nat (bitmap_size s)) * 8) (drop_used s temp)) as [_ HI].
  2: { intros j Hj Ht. destruct (HI j ltac:(lia) Ht) as [? Hb]. split; [done|]. apply Hb. lia. }
  replace (0 + Z.of_nat (Z.to_nat (bitmap_size s)) * 8) with
    ((0 + Z.of_nat (Z.to_nat (bitmap_size s))) * 8) by lia.
  apply (for_n_ind (fun b t => Inv (b * 8) t)); [split; [done|]; intros j ? ?; split; [done|lia]|].
  intros b t Hb [L T]. case_if.
  { b2p. split; [done|]. intros j Hj Ht. destruct (T j Hj Ht) as [? Hd]. split; [done|]. intros Hj'.
    destruct (Z_lt_le_dec j (b * 8)); [by apply Hd|]. exfalso.
    assert (j = b * 8 + (j - b * 8)) as E by lia. rewrite E, bitmap_test_bit in Ht by lia.
    destruct (temp_index b (j - b * 8) ltac:(lia)) as [E1 E2]. rewrite E1, E2, Heqb0, Z.bits_0 in Ht. done. }
  replace ((b + 1) * 8) with (b * 8 + (0 + Z.of_nat 8)) by lia.
  apply (for_n_ind (fun i t => Inv (b * 8 + i) t)); [by rewrite Z.add_0_r|].
  intros i u Hi [L' T']. cbv zeta. rewrite temp_test_bit, temp_clear_bit by lia. rewrite (u64_small (_ + _)) by lia.
  rewrite u64_small by lia. replace (b * 8 + i + lowest_page s - lowest_page s) with (b * 8 + i) by lia.
  assert (forall j, 0 <= j -> bitmap_test u j = true -> j <> b * 8 + i \/ bitmap_test (bitmap s) (b * 8 + i) = false ->
    bitmap_test temp j = true /\ (j < b * 8 + (i + 1) -> bitmap_test (bitmap s) j = false)) as Hext.
  { intros j Hj Ht Hd. destruct (T' j Hj Ht) as [? Hu]. split; [done|]. intros Hj'.
    destruct (Z.eq_dec j (b * 8 + i)) as [->|]; [by destruct Hd|apply Hu; lia]. }
  repeat case_if.
  - split; [by rewrite zlen_bitmap_clear|]. intros j Hj. rewrite bitmap_clear_test by lia.
    destruct (Z.eqb_spec (b * 8 + i) j); [by rewrite andb_false_l|]. simpl. intros Ht. apply Hext; [done|done|by left; lia].
  - split; [done|]. intros j Hj Ht. apply Hext; auto.
  - split; [done|]. intros j Hj Ht. apply Hext; [done|done|]. left. intros ->. congruence.
Qed.

(** Step 4 on an empty set. *)
Lemma reclaim_marked_empty s temp :
  (forall j, 0 <= j < 8 * bitmap_size s -> bitmap_test temp j = false) -> reclaim_marked s temp = (s, temp).
Proof.
  intros Hz. unfold reclaim_marked. apply for_n_id. intros b Hb. case_if; [done|].
  apply for_n_id. intros i Hi. rewrite temp_test_bit, Hz by lia. done.
Qed.

(** ** What allocating and freeing leave alone *)

Definition same_manager (s s' : pmm) : Prop :=
  managed_bitmap s' = managed_bitmap s /\ usable_memory s' = usable_memory s /\
  bitmap_size s' = bitmap_size s.

Lemma same_manager_trans s1 s2 s3 : same_manager s1 s2 -> same_manager s2 s3 -> same_manager s1 s3.
Proof. intros (? & ? & ?) (? & ? & ?). repeat split; congruence. Qed.

Lemma same_manager_memmap s o : same_manager s (with_memmap s o).
Proof. done. Qed.

Lemma coalesce_manager n s p k : same_manager s (coalesce n s p k).1.1.
Proof.
  revert s p k. induction n as [|n IH]; intros s p k; cbn [coalesce]; [done|].
  repeat case_if;
    lazymatch goal with
    | |- same_manager _ (coalesce _ ?s1 ?p1 ?k1).1.1 => exact (IH s1 p1 k1)
    | _ => done
    end.
Qed.

Lemma buddy_free_manager s phys k : same_manager s (buddy_free_internal s phys k).
Proof.
  unfold buddy_free_internal. set (s1 := with_bitmap s _).
  pose proof (coalesce_manager (Z.to_nat MAX_ORDER) s1 (phys / PAGE_SIZE) k) as H.
  by destruct (coalesce _ s1 _ k) as [[s2 p2] k2].
Qed.

Lemma free_pages_manager s ptr count k :
  get_order count = Some k -> exists s', pmm_free_pages s ptr count = Some s' /\ same_manager s s'.
Proof.
  intros Hk. unfold pmm_free_pages. rewrite Hk. cbv zeta.
  repeat case_if; eexists; (split; [reflexivity|]);
    lazymatch goal with
    | |- same_manager _ (buddy_free_internal ?s1 ?p1 ?k1) => exact (buddy_free_manager s1 p1 k1)
    | _ => done
    end.
Qed.

Lemma split_manager n s p k : same_manager s (split_down n s p k).
Proof. revert s k. induction n as [|n IH]; intros s k; simpl; [done|].
  match goal with |- same_manager _ (split_down _ ?s1 _ ?k1) => exact (IH s1 k1) end.
Qed.

Lemma alloc_pages_manager s count ptr s' :
  pmm_alloc_pages s count = Some (ptr, s') -> same_manager s s'.
Proof.
  unfold pmm_alloc_pages, take_block. cbv zeta. case_if; [by intros [= <- <-]|].
  destruct (get_order count); [|done]. repeat case_if; intros [= <- <-];
    lazymatch goal with
    | |- context [split_down ?n ?s1 ?p ?k] => exact (split_manager n s1 p k)
    | _ => done
    end.
Qed.

(** ** Nothing is reclaimed *)

(** The state when the kernel calls [pmm_reclaim_bootloader]: the memory map is
    in place and the entries that could be reclaimed hold no managed page. *)
Record reclaim_pre (s : pmm) (memmap : list memmap_entry) : Prop := {
  rp_wf : pmm_wf s;
  rp_memmap : internal_memmap s = Some memmap;
  rp_entries : Forall (fun e => 0 <= e_base e /\ 0 <= e_length e /\ e_base e + e_length e < 2 ^ 63) memmap;
  rp_size : highest_page s - lowest_page s <= 8 * bitmap_size s < 2 ^ 62;
  rp_unmanaged : forall e x, e ∈ memmap ->
    e_type e = MEMMAP_BOOTLOADER_RECLAIMABLE \/ e_type e = MEMMAP_EXECUTABLE_AND_MODULES ->
    in_range s x -> in_entry e x -> managed s x = false;
}.

Lemma reclaims_type kpb e : reclaims kpb e = true ->
  e_type e = MEMMAP_BOOTLOADER_RECLAIMABLE \/ e_type e = MEMMAP_EXECUTABLE_AND_MODULES.
Proof. unfold reclaims. destruct (e_type e); auto; done. Qed.

(** The marked pages are all in use when step 3 looks at them. *)
Lemma nothing_left s memmap pte cr3 kpb :
  reclaim_pre s memmap ->
  let temp := fold_left (mark_entry (lowest_page s) (highest_page s) kpb) (take 128 memmap)
                (replicate (Z.to_nat (bitmap_size s)) 0) in
  let s1 := vmm_protect_active_tables pte cr3 s in
  reclaim_marked s1 (drop_used s1 temp) = (s1, drop_used s1 temp) /\ same_manager s s1.
Proof.
  intros [[[B I] _ Hoth] Hmm Hent Hsz Hun] temp s1. pose proof (i_geom _ _ _ I) as G.
  pose proof (geom_bounds s G) as (? & ? & ?).
  destruct (mark_entries (lowest_page s) (highest_page s) kpb ltac:(lia) ltac:(lia) (take 128 memmap) []
    (replicate (Z.to_nat (bitmap_size s)) 0)) as [Ht1 Ht2].
  { rewrite zlen_replicate. lia. }
  { by apply Forall_take. }
  { intros j Hj. rewrite bitmap_test_bit by done. intros Ht. exfalso. revert Ht.
    destruct (Z_lt_le_dec (j / 8) (bitmap_size s)).
    - rewrite rd_replicate by (pose proof (Z.div_pos j 8); lia). by rewrite Z.bits_0.
    - rewrite rd_out by (rewrite zlen_replicate; lia). by rewrite Z.bits_0. }
  fold temp in Ht1, Ht2. rewrite zlen_replicate in Ht1.
  destruct (protect_active_more pte cr3 s G) as (bm & E & L & T). fold s1 in E. clearbody s1 temp.
  split; [|by rewrite E]. apply reclaim_marked_empty.
  assert (bitmap_size s1 = bitmap_size s) as Es by (by rewrite E). rewrite Es. intros j Hj.
  destruct (bitmap_test (drop_used s1 temp) j) eqn:Et; [|done]. exfalso.
  apply drop_used_spec in Et as [Et Ef]; [|rewrite ?Es; lia..|rewrite E; simpl; lia|by rewrite Es].
  destruct (Ht2 j ltac:(lia) Et) as (Hj2 & e & He & Hr & Hin).
  assert (in_range s (lowest_page s + j)) as Hrg by (unfold in_range; lia).
  assert (used s (lowest_page s + j) = true) as Hu.
  { apply Hoth; [done|]. apply (Hun e); [|by eapply reclaims_type|done|done].
    rewrite <- (take_drop 128 memmap). apply elem_of_app. by left. }
  unfold used in Hu. replace (lowest_page s + j - lowest_page s) with j in Hu by lia.
  rewrite E in Ef. simpl in Ef. rewrite T in Ef by (done || lia). done.
Qed.

Lemma reclaim_pre_alloc s memmap count ptr s' :
  reclaim_pre s memmap -> 1 <= count <= 2 ^ 63 -> pmm_alloc_pages s count = Some (ptr, s') ->
  internal_memmap s' = internal_memmap s -> reclaim_pre s' memmap.
Proof.
  intros [Hwf Hmm He Hsz Hun] Hc Ha Emm.
  pose proof (alloc_pages_manager _ _ _ _ Ha) as (Em & _ & Es).
  pose proof (pmm_step_wf _ _ (step_alloc _ _ _ _ Hc Ha) Hwf) as Hwf'.
  destruct Hwf as [[B I] _ _].
  destruct (pmm_alloc_pages_spec s B count I Hc) as (k & ptr' & s1 & _ & E & Hcase).
  rewrite E in Ha. injection Ha as -> ->.
  assert (lowest_page s' = lowest_page s /\ highest_page s' = highest_page s) as [El Eh].
  { destruct Hcase as [(_ & -> & _)|(p & _ & A & _)]; [done|]. split; apply A. }
  split; try done; [congruence|by rewrite El, Eh, Es|].
  intros e x Hin Ht Hr Hx. unfold managed. rewrite Em, El. apply (Hun e); try done.
  unfold in_range in *. by rewrite <- El, <- Eh.
Qed.

Lemma split_memmap n s p k : internal_memmap (split_down n s p k) = internal_memmap s.
Proof.
  revert s k. induction n as [|n IH]; intros s k; simpl; [done|].
  match goal with |- internal_memmap (split_down _ ?s1 _ ?k1) = _ => exact (IH s1 k1) end.
Qed.

Lemma alloc_pages_memmap s count ptr s' :
  pmm_alloc_pages s count = Some (ptr, s') -> internal_memmap s' = internal_memmap s.
Proof.
  unfold pmm_alloc_pages, take_block. cbv zeta. case_if; [by intros [= <- <-]|].
  destruct (get_order count); [|done]. repeat case_if; intros [= <- <-];
    lazymatch goal with
    | |- context [split_down ?n ?s1 ?p ?k] => exact (split_memmap n s1 p k)
    | _ => done
    end.
Qed.

Lemma alloc_zero s : pmm_alloc_pages s 0 = Some (0, s).
Proof. reflexivity. Qed.

#[local] Opaque vmm_protect_active_tables drop_used reclaim_marked pmm_free_pages pmm_alloc_pages.

Lemma reclaim_keeps_manager pte cr3 kpb s memmap :
  reclaim_pre s memmap ->
  exists s', pmm_reclaim_bootloader pte cr3 kpb s = Some s' /\ same_manager s s'.
Proof.
  intros Hpre. unfold pmm_reclaim_bootloader. rewrite (rp_memmap _ _ Hpre).
  set (count := u64 (bitmap_size s + PAGE_SIZE - 1) / PAGE_SIZE).
  assert (0 <= count <= 2 ^ 63) as Hc.
  { pose proof (rp_size _ _ Hpre). pose proof (u64_range (bitmap_size s + PAGE_SIZE - 1)).
    unfold count. split; [apply Z.div_pos; [lia|done]|]. apply Z.div_le_upper_bound; unfold PAGE_SIZE in *; lia. }
  clearbody count. destruct (Z.eq_dec count 0) as [E0|Hc0]; [exists s; rewrite E0, alloc_zero; split; [reflexivity|by repeat split]|].
  pose proof (rp_wf _ _ Hpre) as [[B I] _ _].
  destruct (pmm_alloc_pages_spec s B count I ltac:(lia)) as (k & ptr & s1 & Hk & Ha & _).
  rewrite Ha. pose proof (alloc_pages_manager _ _ _ _ Ha) as M1. case_if; [by exists s1|].
  pose proof (reclaim_pre_alloc s memmap count ptr s1 Hpre ltac:(lia) Ha (alloc_pages_memmap _ _ _ _ Ha)) as Hpre1.
  destruct (nothing_left s1 memmap pte cr3 kpb Hpre1) as [E2 M2]. cbv zeta in E2. cbv zeta. rewrite E2. clear E2.
  set (s2 := vmm_protect_active_tables pte cr3 s1) in *. clearbody s2.
  destruct (free_pages_manager (with_memmap s2 None) ptr count k Hk) as (s3 & -> & M3).
  exists s3. split; [reflexivity|].
  eapply same_manager_trans; [exact M1|]. eapply same_manager_trans; [exact M2|].
  eapply same_manager_trans; [apply same_manager_memmap|exact M3].
Qed.
