(* ===== verification/Dma.v ===== *)
(** * The DMA allocator

    Models [kernel/src/mm/dma_alloc.c] on top of the physical memory manager.
    Mapping a page and allocating or releasing the small buffer descriptor belong
    to the paging code and to the heap; [KernelMem] states what they promise to
    this component. *)

From S2P Require Import Prelude Bitmap DList Pmm PmmInv PmmSpec.

Definition DMA_FLAG_32BIT : Z := Z.shiftl 1 0.
Definition DMA_FLAG_LOW : Z := Z.shiftl 1 1.
Definition DMA_LOW_START : Z := 0x100000.
Definition DMA_LOW_END : Z := 0x1000000.
Definition DMA_32BIT_END : Z := 0x100000000.

Record dma_buffer := DmaBuffer {
  dma_addr : Z;
  dma_virt : Z;
  dma_phys : Z;
  dma_size : Z;
  dma_pages : Z;
}.

(** A page in use that nobody holds a reference to. *)
Definition unreferenced (s : pmm) (x : Z) : Prop :=
  in_range s x /\ managed s x = true /\ used s x = true /\ refcount s x = 0.

(** Mapping and heap operations get and return their pages one at a time
    through [pmm_alloc_page] and [pmm_free_page], so a page in use without a
    reference is none of theirs and they leave it alone. *)
Class KernelMem := {
  vmm_map_page : pmm -> Z -> Z -> bool * pmm;
  kmalloc : pmm -> Z -> Z * pmm;
  kfree : pmm -> Z -> pmm;
  map_unreferenced : forall s v p x, unreferenced s x -> unreferenced (vmm_map_page s v p).2 x;
  kmalloc_unreferenced : forall s n x, unreferenced s x -> unreferenced (kmalloc s n).2 x;
  kfree_unreferenced : forall s a x, unreferenced s x -> unreferenced (kfree s a) x;
}.

Section Dma.
Context `{KernelMem}.

(** [if (!phys && cond) phys = pmm_alloc_pages_range(pages, lo, hi)]; 0 is [NULL]. *)
Definition try_range (pages : Z) (cond : bool) (lo hi : Z) (r : option (Z * pmm)) : option (Z * pmm) :=
  match r with
  | Some (phys, s) =>
      if (phys =? 0) && cond then pmm_alloc_pages_range s pages lo hi else Some (phys, s)
  | None => None
  end.

(** The sequence of attempts at physical memory. *)
Definition dma_alloc_phys (s : pmm) (pages flags : Z) : option (Z * pmm) :=
  let r := Some (0, s) in
  let r := try_range pages (negb (Z.land flags DMA_FLAG_LOW =? 0)) DMA_LOW_START DMA_LOW_END r in
  let r := try_range pages (negb (Z.land flags DMA_FLAG_32BIT =? 0)) DMA_LOW_START DMA_32BIT_END r in
  let r := try_range pages true DMA_LOW_START DMA_LOW_END r in
  try_range pages true DMA_LOW_END DMA_32BIT_END r.

(** Map the pages from index [i]; stops at the first failure. *)
Fixpoint dma_map (n : nat) (s : pmm) (virt phys i : Z) : bool * pmm :=
  match n with
  | O => (true, s)
  | S n' =>
      let '(ok, s) := vmm_map_page s (u64 (virt + i * PAGE_SIZE)) (u64 (phys + i * PAGE_SIZE)) in
      if ok then dma_map n' s virt phys (i + 1) else (false, s)
  end.

Definition dma_alloc (s : pmm) (size flags : Z) : option (option dma_buffer * pmm) :=
  if size =? 0 then Some (None, s)
  else
    let pages := u64 (size + PAGE_SIZE - 1) / PAGE_SIZE in
    match dma_alloc_phys s pages flags with
    | None => None
    | Some (phys, s) =>
        if phys =? 0 then Some (None, s)
        else
          let virt := u64 (phys + physical_memory_offset s) in
          let '(ok, s) := dma_map (Z.to_nat pages) s virt phys 0 in
          if negb ok then Some (None, s)
          else
            let '(buf, s) := kmalloc s 32 in
            if buf =? 0 then Some (None, s)
            else Some (Some (DmaBuffer buf virt phys size pages), s)
    end.

Definition dma_free (s : pmm) (buf : option dma_buffer) : pmm :=
  match buf with
  | None => s
  | Some b =>
      let s := for_n (Z.to_nat (dma_pages b)) 0
        (fun i s => pmm_free_page s (u64 (dma_phys b + i * PAGE_SIZE))) s in
      kfree s (dma_addr b)
  end.

(** [dma_alloc_pages], and [dma_alloc_page] for [count = 1]: the descriptor is
    released, the memory kept; returns the virtual and the physical address. *)
Definition dma_alloc_pages (s : pmm) (count : Z) : option (option (Z * Z) * pmm) :=
  match dma_alloc s (u64 (count * PAGE_SIZE)) DMA_FLAG_32BIT with
  | None => None
  | Some (None, s) => Some (None, s)
  | Some (Some buf, s) => Some (Some (dma_virt buf, dma_phys buf), kfree s (dma_addr buf))
  end.

Definition dma_alloc_page (s : pmm) : option (option (Z * Z) * pmm) := dma_alloc_pages s 1.

Definition dma_free_page (s : pmm) (virt : Z) : pmm :=
  if virt =? 0 then s else pmm_free_page s (u64 (virt - physical_memory_offset s)).

(** ** Where the memory comes from *)

(** Outcome of one attempt: nothing, or a block of unreferenced pages that
    holds [pages] pages between 1 MB and 4 GB. *)
Definition dma_result (s : pmm) (pages phys : Z) (s' : pmm) : Prop :=
  (phys = 0 /\ s' = s) \/
  exists k p, phys = p * PAGE_SIZE /\ 0 <= k /\ pages <= 2 ^ k /\ allocated s s' k p /\
    refcounts s' = refcounts s /\
    DMA_LOW_START <= phys /\ phys + 2 ^ k * PAGE_SIZE <= DMA_32BIT_END.

Lemma range_result s pages lo hi :
  pmm_ok s -> 1 <= pages <= 2 ^ 63 -> DMA_LOW_START <= lo -> hi <= DMA_32BIT_END ->
  exists phys s', pmm_alloc_pages_range s pages lo hi = Some (phys, s') /\ dma_result s pages phys s'.
Proof.
  intros [B I] Hp Hlo Hhi. unfold pmm_alloc_pages_range. set (ok := fun _ _ => _).
  destruct (alloc_constrained_spec s B pages ok I Hp) as (k & phys & s' & Hk & -> & Hcase).
  exists phys, s'. split; [done|]. destruct Hcase as [?|(c & p & -> & Hc & Hok & A & Er)]; [by left|right].
  destruct (get_order_spec pages Hp) as (k' & Hk' & Hpk & _ & Hk0). rewrite Hk in Hk'. injection Hk' as <-.
  pose proof (geom_bounds s (i_geom _ _ _ I)) as (? & ? & ?).
  pose proof (al_was_free _ _ _ _ A p (in_block_start k p ltac:(lia))) as [Hr _]. unfold in_range in Hr.
  assert (2 ^ k <= 2 ^ c <= 2 ^ 20) by (split; apply pow2_le; unfold MAX_ORDER in *; lia).
  exists k, p. unfold ok in Hok. rewrite Z.shiftl_1_l in Hok.
  rewrite u64_small in Hok by (unfold PAGE_SIZE; lia). b2p.
  split_and!; try done; unfold PAGE_SIZE in *; lia.
Qed.

Lemma try_range_result s pages c lo hi r :
  pmm_ok s -> 1 <= pages <= 2 ^ 63 -> DMA_LOW_START <= lo -> hi <= DMA_32BIT_END ->
  (exists phys s', r = Some (phys, s') /\ dma_result s pages phys s') ->
  exists phys s', try_range pages c lo hi r = Some (phys, s') /\ dma_result s pages phys s'.
Proof.
  intros Hok Hp Hlo Hhi (phys & s' & -> & Hr). unfold try_range. case_if; [|eauto].
  b2p. subst phys. destruct Hr as [[_ ->]|(k & p & E & _ & _ & A & _)]; [by apply range_result|].
  pose proof (al_nonnull _ _ _ _ A). unfold PAGE_SIZE in E. lia.
Qed.

Lemma dma_alloc_phys_spec s pages flags :
  pmm_ok s -> 1 <= pages <= 2 ^ 63 ->
  exists phys s', dma_alloc_phys s pages flags = Some (phys, s') /\ dma_result s pages phys s'.
Proof.
  intros Hok Hp. unfold dma_alloc_phys. do 4 (apply try_range_result; [done|done|done|done|]).
  exists 0, s. split; [done|by left].
Qed.

Lemma dma_map_unreferenced n s virt phys i x :
  unreferenced s x -> unreferenced (dma_map n s virt phys i).2 x.
Proof.
  revert s i. induction n as [|n IH]; intros s i Hx; simpl; [done|].
  pose proof (map_unreferenced s (u64 (virt + i * PAGE_SIZE)) (u64 (phys + i * PAGE_SIZE)) x Hx) as Hm.
  destruct (vmm_map_page s _ _) as [[] s1]; simpl in *; [by apply IH|done].
Qed.

(** The pages of a new buffer. *)
Lemma dma_alloc_buffer s size flags b s' :
  pmm_wf s -> 0 < size < 2 ^ 62 -> dma_alloc s size flags = Some (Some b, s') ->
  let p := dma_phys b / PAGE_SIZE in
  dma_phys b = p * PAGE_SIZE /\ size <= dma_pages b * PAGE_SIZE /\ dma_size b = size /\
  DMA_LOW_START <= dma_phys b /\ dma_phys b + dma_pages b * PAGE_SIZE <= DMA_32BIT_END /\
  (forall i, 0 <= i < dma_pages b -> free_page s (p + i) /\ unreferenced s' (p + i)).
Proof.
  intros Hwf Hsz. unfold dma_alloc. rewrite (proj2 (Z.eqb_neq size 0)) by lia.
  rewrite (u64_small (size + PAGE_SIZE - 1)) by (unfold PAGE_SIZE; lia).
  set (pages := (size + PAGE_SIZE - 1) / PAGE_SIZE).
  assert (1 <= pages <= 2 ^ 63 /\ size <= pages * PAGE_SIZE) as [Hp Hcov].
  { unfold pages, PAGE_SIZE. pose proof (Z.div_mod (size + 4096 - 1) 4096).
    pose proof (Z.mod_pos_bound (size + 4096 - 1) 4096). lia. }
  destruct (dma_alloc_phys_spec s pages flags (wf_ok _ Hwf) Hp) as (phys & s1 & -> & Hr).
  case_if; [done|]. b2p. destruct Hr as [[? _]|(k & p & -> & Hk & Hle & A & Er & Hlo & Hhi)]; [done|].
  set (v := u64 (p * PAGE_SIZE + _)).
  assert (forall x, in_block k p x -> free_page s x /\ unreferenced s1 x) as Hpg.
  { intros x Hx. pose proof (al_was_free _ _ _ _ A x Hx) as Hf. split; [done|].
    pose proof Hf as (Hr & Hm & _). destruct (al_others _ _ _ _ A x Hr) as [Em _].
    assert (in_range s1 x) as Hr1 by (unfold in_range; rewrite (al_lo _ _ _ _ A), (al_hi _ _ _ _ A); done).
    split; [done|]. split; [by rewrite Em|]. split.
    - destruct (used s1 x) eqn:Eu; [done|]. exfalso.
      assert (free_page s1 x) as [_ Hn]%(al_free _ _ _ _ A); [|done]. split; [done|]. by rewrite Em.
    - unfold refcount. rewrite Er, (al_lo _ _ _ _ A). by apply (wf_refs _ Hwf). }
  pose proof (dma_map_unreferenced (Z.to_nat pages) s1 v (p * PAGE_SIZE) 0) as Hmap.
  destruct (dma_map _ s1 v _ 0) as [ok s2]. destruct ok; [|done]. simpl.
  pose proof (kmalloc_unreferenced s2 32) as Hkm. destruct (kmalloc s2 32) as [a s3]. simpl in *.
  case_if; [done|]. intros [= <- <-]. simpl. rewrite frame_div. unfold PAGE_SIZE in *.
  split_and!; try done; try lia. intros i Hi. destruct (Hpg (p + i)) as [? ?]; [unfold in_block; lia|].
  split; [done|]. by apply Hkm, Hmap.
Qed.

Lemma decref_unreferenced s ptr : refcount s (ptr / PAGE_SIZE) = 0 -> pmm_decref s ptr = s.
Proof.
  intros E. unfold pmm_decref. fold (refcount s (ptr / PAGE_SIZE)). rewrite E. by repeat case_if.
Qed.

Lemma dma_free_unreferenced s b p :
  dma_phys b = p * PAGE_SIZE -> 0 <= p -> p + dma_pages b < 2 ^ 51 ->
  (forall i, 0 <= i < dma_pages b -> refcount s (p + i) = 0) ->
  dma_free s (Some b) = kfree s (dma_addr b).
Proof.
  intros Ep Hp Hlt Hz. unfold dma_free. rewrite for_n_id; [done|]. intros i Hi. unfold pmm_free_page.
  apply decref_unreferenced. rewrite Ep. unfold PAGE_SIZE. rewrite u64_small by lia.
  replace (p * 4096 + i * 4096) with ((p + i) * 4096) by lia. rewrite Z.div_mul by lia. apply Hz. lia.
Qed.
End Dma.
