(* ===== verification/PmmThms.v ===== *)
(** * Theorems about physical memory

    What the physical memory manager, its boot code and the DMA allocator
    guarantee, with a small concrete machine on which the statements are
    instantiated. *)

From S2P Require Import Prelude Bitmap DList Pmm PmmInv PmmSpec PmmCount PmmBoot PmmReclaim Dma.

(** ** A small machine: sixteen usable pages at 1 MB, two of the bootloader's *)

Definition demo_memmap : list memmap_entry :=
  [MemmapEntry 0x100000 0x10000 MEMMAP_USABLE;
   MemmapEntry 0x110000 0x2000 MEMMAP_BOOTLOADER_RECLAIMABLE].

Definition demo_hhdm : Z := 0xFFFF800000000000.

Definition demo_reset : pmm :=
  Pmm 0xFFFFFFFF80200000 (Lmem ∅ ∅) ∅ [] [] [] 0 0 0xFFFFFFFFFFFFFFFF 0 0 0 0 0 None.

Definition demo_refs : list Z := replicate 18 7.

Definition demo : pmm := Eval vm_compute in
  default demo_reset (pmm_init demo_reset demo_memmap demo_hhdm demo_refs).

Lemma demo_memmap_ok : memmap_ok demo_memmap demo_hhdm (b_zone demo_reset).
Proof.
  assert (forall e, e ∈ demo_memmap -> e = MemmapEntry 0x100000 0x10000 MEMMAP_USABLE \/
    e = MemmapEntry 0x110000 0x2000 MEMMAP_BOOTLOADER_RECLAIMABLE) as Hall.
  { intros e [->|[->|[]%elem_of_nil]%elem_of_cons]%elem_of_cons; auto. }
  split; [| | | |done|done].
  - intros e [->| ->]%Hall; simpl; lia.
  - intros e [->| ->]%Hall; done.
  - repeat constructor; simpl; intros; lia.
  - intros e [->| ->]%Hall; done.
Qed.

Lemma demo_init :
  pmm_init demo_reset demo_memmap demo_hhdm demo_refs = Some demo /\
  lowest_page demo = 256 /\ highest_page demo = 274.
Proof. vm_compute. done. Qed.

Lemma boot_inv_wf s D : boot_inv s D -> pmm_wf s.
Proof.
  intros [O M U R]. split; [done| |].
  - intros x (Hx & Hm & _). rewrite M in Hm by done. by apply R.
  - intros x Hx Hm. rewrite M in Hm by done. by rewrite U, Hm by done.
Qed.

Lemma demo_boot_inv : boot_inv demo (handed_all 0x100000 0x1000 demo_memmap).
Proof.
  destruct (pmm_init_spec demo_reset demo_memmap demo_hhdm demo_refs 256 274 0x12000
    (MemmapEntry 0x100000 0x10000 MEMMAP_USABLE) demo_memmap_ok) as (s' & E & _ & _ & I & _);
    [by vm_compute..|].
  change (init_metadata_size (init_page_count 256 274)) with 0x1000 in I. simpl e_base in I.
  pose proof (Some_inj _ _ (eq_trans (eq_sym (proj1 demo_init)) E)) as E'. subst s'. exact I.
Qed.

Lemma demo_wf : pmm_wf demo.
Proof. eapply boot_inv_wf, demo_boot_inv. Qed.

Lemma demo_free x : 257 <= x < 272 -> free_page demo x.
Proof.
  intros Hx. pose proof (proj2 demo_init) as [El Eh].
  assert (in_range demo x) as Hr by (unfold in_range; lia). destruct demo_boot_inv as [_ M U _].
  assert (handed_all 0x100000 0x1000 demo_memmap x = true) as Hh.
  { apply handed_all_spec. exists (MemmapEntry 0x100000 0x10000 MEMMAP_USABLE).
    split; [left|]. split; [done|]. simpl. unfold PAGE_SIZE. lia. }
  split; [done|]. rewrite M, U, Hh by done. done.
Qed.

(** ** Allocation and release *)

(** No list from order [k] up holds a block. *)
Lemma lists_empty s B k :
  inv s B no_hole -> 0 <= k -> (forall c p, (c, p) ∈ B -> c < k) ->
  forall c, k <= c < MAX_ORDER -> list_empty (links s) (free_list s c) = true.
Proof.
  intros I Hk Hn c Hc. destruct (i_lists _ _ _ I c ltac:(lia)) as (l & Hd & Hl).
  rewrite (dlist_list_empty _ _ _ Hd). apply bool_decide_eq_true. destruct l as [|a l]; [done|].
  destruct (proj1 (Hl a)) as (p & _ & Hin); [left|]. apply Hn in Hin. lia.
Qed.

(** C2: [pmm_alloc_pages] always returns.  A non-null result is a block of
    [2^k] frames, [k] the order of the request, aligned to its size, whose pages
    were all free and are now in use with reference count one while every other
    page keeps its status; a null result leaves the state as it was and happens
    only when the order is too large or no list from that order up has a block. *)
Theorem pmm_alloc_pages_correct s count :
  pmm_wf s -> 1 <= count <= 2 ^ 63 ->
  exists k ptr s', get_order count = Some k /\ pmm_alloc_pages s count = Some (ptr, s') /\ pmm_wf s' /\
    ((ptr = 0 /\ s' = s /\
      (MAX_ORDER <= k \/ forall c, k <= c < MAX_ORDER -> list_empty (links s) (free_list s c) = true)) \/
     exists p, ptr = p * PAGE_SIZE /\ 0 < p /\ p mod 2 ^ k = 0 /\ count <= 2 ^ k /\
       (forall x, in_block k p x -> free_page s x /\ used s' x = true /\ refcount s' x = 1) /\
       (forall x, free_page s' x <-> free_page s x /\ ~ in_block k p x) /\
       (forall x, in_range s x -> ~ in_block k p x -> refcount s' x = refcount s x)).
Proof.
  intros Hwf Hc. pose proof (wf_ok _ Hwf) as [B I].
  destruct (pmm_alloc_pages_spec s B count I Hc) as (k & ptr & s' & Hk & Ha & Hcase).
  destruct (get_order_spec count Hc) as (k' & Hk' & Hle & _ & Hk0). rewrite Hk in Hk'. injection Hk' as <-.
  exists k, ptr, s'. split_and!; [done|done|by eapply pmm_step_wf; [eapply step_alloc|]|].
  destruct Hcase as [(-> & -> & Hfail)|(p & -> & A & Hr)].
  - left. split_and!; [done|done|]. destruct Hfail as [?|Hn]; [by left|right]. by apply (lists_empty s B); [|lia|].
  - right. exists p. split_and!; try done; try apply A.
    + intros x Hx. pose proof (al_was_free _ _ _ _ A x Hx) as Hf. pose proof Hf as (Hin & Hm & _).
      split_and!; [done| |by rewrite Hr, (proj2 (blockb_spec k p x) Hx) by done].
      assert (p * PAGE_SIZE <> 0) as Hnz by (pose proof (al_nonnull _ _ _ _ A); unfold PAGE_SIZE; lia).
      by apply (alloc_owned _ _ _ _ _ I A ltac:(lia) (alloc_order_small _ _ _ _ _ Hk Ha Hnz)).
    + intros x Hx Hn. rewrite Hr by done. by rewrite (proj2 (blockb_false k p x) Hn).
Qed.

Lemma pmm_alloc_pages_correct_witness :
  exists ptr s', pmm_alloc_pages demo 3 = Some (ptr, s') /\ pmm_wf s'.
Proof.
  destruct (pmm_alloc_pages_correct demo 3 demo_wf ltac:(lia)) as (k & ptr & s' & _ & Ha & Hwf & _). eauto.
Defined.

(** [pmm_alloc_page] is complete: it returns null only when the machine has
    no free page at all. *)
Theorem pmm_alloc_page_complete s :
  pmm_wf s -> (exists x, free_page s x) ->
  exists p s', pmm_alloc_page s = Some (p * PAGE_SIZE, s') /\ 0 < p /\ free_page s p /\
    pmm_wf s' /\ (forall y, free_page s' y <-> free_page s y /\ y <> p) /\ refcount s' p = 1.
Proof.
  intros Hwf [x (Hx & Hm & Hu)]. pose proof (wf_ok _ Hwf) as [B I].
  destruct (pmm_alloc_pages_spec s B 1 I ltac:(lia)) as (k & ptr & s' & Hk & Ha & Hcase).
  assert (k = 0) as -> by (vm_compute in Hk; congruence).
  destruct Hcase as [(_ & _ & [Hbig|Hn])|(p & -> & A & Hr)].
  - by vm_compute in Hbig.
  - destruct (proj1 (i_free _ _ _ I x Hx) (conj Hm Hu)) as [[]|(c & q & Hin & _)].
    pose proof (Hn _ _ Hin). destruct (i_block _ _ _ I _ _ Hin) as [[? ? ? ?] _]. lia.
  - pose proof (al_was_free _ _ _ _ A p (in_block_start 0 p ltac:(lia))) as Hf. exists p, s'.
    split_and!; try done; [apply A|by eapply pmm_step_wf; [eapply step_alloc with (count := 1); [lia|]|]| |].
    + intros y. rewrite (al_free _ _ _ _ A). unfold in_block. change (2 ^ 0) with 1. split; intros [? ?]; split; done || lia.
    + rewrite Hr by apply Hf. by rewrite (proj2 (blockb_spec 0 p p) (in_block_start 0 p ltac:(lia))).
Qed.

Lemma pmm_alloc_page_complete_witness :
  exists p s', pmm_alloc_page demo = Some (p * PAGE_SIZE, s') /\ free_page demo p.
Proof.
  destruct (pmm_alloc_page_complete demo demo_wf) as (p & s' & Ha & _ & Hf & _);
    [exists 260; apply demo_free; lia|]. eauto.
Defined.

(** C3: [pmm_free_pages] on a block its caller owns drops the count of each of
    its pages by one (a zero stays zero); the block goes back to the allocator
    exactly when its first page had at most one reference, and no other page
    changes status. *)
Theorem pmm_free_pages_correct s count k p :
  pmm_wf s -> 1 <= count -> get_order count = Some k -> owned_block s k p ->
  exists s', pmm_free_pages s (p * PAGE_SIZE) count = Some s' /\ pmm_ok s' /\
    (forall x, in_range s x -> refcount s' x =
       if bool_decide (in_block k p x /\ 0 < refcount s x) then refcount s x - 1 else refcount s x) /\
    (forall x, free_page s' x <->
       free_page s x \/ (in_block k p x /\ (refcount s p = 0 \/ refcount s p = 1))).
Proof.
  intros [Hok _ _] Hc Hk Ho.
  destruct (pmm_free_pages_spec s count k p Hok Hc Hk Ho) as (s' & E & Hok' & Hr & Hf & _).
  exists s'. split_and!; try done.
  - intros x Hx. rewrite Hr by done. rewrite Z.gtb_ltb.
    destruct (blockb k p x && (0 <? refcount s x)) eqn:Eb.
    + b2p. rewrite bool_decide_true; [done|]. by rewrite <- blockb_spec.
    + rewrite bool_decide_false; [done|]. rewrite <- blockb_spec. intros [E1 E2%Z.ltb_lt].
      by rewrite E1, E2 in Eb.
  - intros x. destruct (_ || _) eqn:Eb; rewrite Hf.
    + assert (refcount s p = 0 \/ refcount s p = 1) by (b2p; destruct Eb; b2p; auto). tauto.
    + b2p. tauto.
Qed.

(** A state in which pages 260 to 263 belong to a client. *)
Definition demo_used : pmm := Eval vm_compute in (default (0, demo) (pmm_alloc_pages demo 4)).2.

Lemma demo_used_alloc : pmm_alloc_pages demo 4 = Some (260 * PAGE_SIZE, demo_used).
Proof. by vm_compute. Qed.

Lemma demo_used_wf : pmm_wf demo_used.
Proof. eapply pmm_step_wf; [|apply demo_wf]. eapply (step_alloc demo 4); [lia|apply demo_used_alloc]. Qed.

Lemma demo_used_owned : owned_block demo_used 2 260.
Proof.
  split; [by vm_compute|]. unfold in_block. intros x Hx.
  assert (x = 260 \/ x = 261 \/ x = 262 \/ x = 263) as [->|[->|[->| ->]]] by (simpl in Hx; lia); by vm_compute.
Qed.

Lemma pmm_free_pages_correct_witness :
  exists s', pmm_free_pages demo_used (260 * PAGE_SIZE) 3 = Some s' /\ pmm_ok s'.
Proof.
  destruct (pmm_free_pages_correct demo_used 3 2 260 demo_used_wf ltac:(lia) ltac:(by vm_compute) demo_used_owned)
    as (s' & E & Hok & _). eauto.
Defined.

(** Allocating and then freeing the same number of pages restores the set of
    free pages and leaves the pages of the block without references. *)
Theorem pmm_alloc_free_roundtrip s count ptr s1 :
  pmm_wf s -> 1 <= count <= 2 ^ 63 -> pmm_alloc_pages s count = Some (ptr, s1) -> ptr <> 0 ->
  exists s2, pmm_free_pages s1 ptr count = Some s2 /\ pmm_wf s2 /\
    (forall x, free_page s2 x <-> free_page s x) /\
    (forall x, in_range s x -> ~ free_page s x -> refcount s2 x = refcount s x).
Proof.
  intros Hwf Hc Ha Hp. pose proof (wf_ok _ Hwf) as [B I].
  destruct (pmm_alloc_pages_spec s B count I Hc) as (k & ptr' & s1' & Hk & Ha' & Hcase).
  rewrite Ha in Ha'. injection Ha' as <- <-.
  destruct Hcase as [(? & _)|(p & -> & A & Hr)]; [done|].
  pose proof (pmm_step_wf _ _ (step_alloc _ _ _ _ Hc Ha) Hwf) as Hwf1.
  destruct (get_order_spec count Hc) as (k' & Hk' & _ & _ & Hk0). rewrite Hk in Hk'. injection Hk' as <-.
  pose proof (in_block_start k p ltac:(lia)) as Hpp.
  assert (forall x, in_block k p x -> in_range s x) as Hin by (intros x Hx; apply (al_was_free _ _ _ _ A x Hx)).
  assert (forall x, in_block k p x -> refcount s1 x = 1) as Hone.
  { intros x Hx. rewrite Hr, (proj2 (blockb_spec k p x) Hx) by auto. done. }
  pose proof (alloc_owned _ _ _ _ _ I A ltac:(lia) (alloc_order_small _ _ _ _ _ Hk Ha Hp)) as Ho.
  destruct (pmm_free_pages_spec s1 count k p (wf_ok _ Hwf1) ltac:(lia) Hk Ho) as (s2 & E & _ & Hr2 & Hf & El & Eh & _).
  exists s2. split; [done|]. split.
  { eapply free_wf; [exact Hwf1| |exact Hk|exact Ho| |exact E]; [lia|].
    intros _ x Hx. right. by apply Hone. }
  rewrite (Hone p Hpp) in Hf. simpl in Hf. split.
  - intros x. rewrite Hf, (al_free _ _ _ _ A). pose proof (al_was_free _ _ _ _ A x).
    assert (in_block k p x \/ ~ in_block k p x) by (unfold in_block; lia). tauto.
  - intros x Hx Hn. assert (~ in_block k p x) as Hnb by (intros ?%(al_was_free _ _ _ _ A); done).
    rewrite Hr2 by (unfold in_range; rewrite (al_lo _ _ _ _ A), (al_hi _ _ _ _ A); done).
    rewrite Hr by done. by rewrite (proj2 (blockb_false k p x) Hnb).
Qed.

Lemma pmm_alloc_free_roundtrip_witness :
  exists s2, pmm_free_pages demo_used (260 * PAGE_SIZE) 4 = Some s2 /\ forall x, free_page s2 x <-> free_page demo x.
Proof.
  destruct (pmm_alloc_free_roundtrip demo 4 (260 * PAGE_SIZE) demo_used demo_wf ltac:(lia) demo_used_alloc
    ltac:(done)) as (s2 & E & _ & Hf & _). eauto.
Defined.

(** Freeing a page that is already free, or that the manager does not own,
    changes nothing. *)
Theorem pmm_double_free_ignored s ptr count :
  1 <= count <= 2 ^ 63 ->
  (in_range s (ptr / PAGE_SIZE) -> managed s (ptr / PAGE_SIZE) = true -> used s (ptr / PAGE_SIZE) = false) ->
  pmm_free_pages s ptr count = Some s.
Proof.
  intros Hc Hf. destruct (get_order_spec count Hc) as (k & Hk & _). by eapply pmm_free_pages_noop.
Qed.

Lemma pmm_double_free_ignored_witness : pmm_free_pages demo (260 * PAGE_SIZE) 4 = Some demo.
Proof. apply pmm_double_free_ignored; [lia|]. intros _ _. by vm_compute. Defined.

(** ** Every execution *)

Lemma rtc_wf s s' : rtc pmm_step s s' -> pmm_wf s -> pmm_wf s'.
Proof. intros Hs. induction Hs; [done|]. intros. apply IHHs. by eapply pmm_step_wf. Qed.

(** C1: After [pmm_init] the manager's invariant holds in every state reached by
    allocations, by frees of blocks in use none of whose pages has a second reference
    when the first page has none, by new references to pages in use, by dropping
    references of any page, and by writes of the owners of pages into them: the free
    lists are well-formed, their blocks are aligned, disjoint and exactly the pages
    marked free, and free pages have no references. *)
Theorem pmm_reachable_wf s0 memmap hhdm mem_refs lo hi total md s s' :
  memmap_ok memmap hhdm (b_zone s0) ->
  fold_left scan_entry memmap (0xFFFFFFFFFFFFFFFF, 0, total_memory s0) = (lo, hi, total) ->
  metadata_entry memmap (init_metadata_size (init_page_count lo hi)) = Some md -> 0 < e_length md ->
  hi - lo <= zlen mem_refs ->
  pmm_init s0 memmap hhdm mem_refs = Some s -> rtc pmm_step s s' -> pmm_wf s'.
Proof.
  intros Hok Hscan Hmd Hpos Hrefs Hinit Hsteps.
  destruct (pmm_init_spec s0 memmap hhdm mem_refs lo hi total md Hok Hscan Hmd Hpos Hrefs)
    as (s1 & E & _ & _ & Hb & _).
  rewrite Hinit in E. apply Some_inj in E as <-. eapply rtc_wf; [done|by eapply boot_inv_wf].
Qed.

Lemma pmm_reachable_wf_witness : pmm_wf (pmm_incref demo_used (260 * PAGE_SIZE)).
Proof.
  apply (pmm_reachable_wf demo_reset demo_memmap demo_hhdm demo_refs 256 274 0x12000
    (MemmapEntry 0x100000 0x10000 MEMMAP_USABLE) demo _ demo_memmap_ok); try (by vm_compute).
  eapply rtc_l; [eapply (step_alloc demo 4); [lia|apply demo_used_alloc]|].
  apply rtc_once, step_incref. by vm_compute.
Defined.

(** The condition on frees is needed: [pmm_free_pages] asks for the count of the first
    page only.  When a later page of the block has another reference, the page is
    free with that reference left, and dropping it frees the page a second time: the
    lists then hold one page more than there are free pages. *)
Theorem pmm_free_shared_block :
  exists s, pmm_free_pages (pmm_incref demo_used (262 * PAGE_SIZE)) (260 * PAGE_SIZE) 4 = Some s /\
    free_page s 262 /\ refcount s 262 = 1 /\
    let s' := pmm_decref s (262 * PAGE_SIZE) in
    pmm_get_free_pages s' = Some 16 /\ zlen (free_frames s') = 15.
Proof.
  eexists. split; [vm_compute; reflexivity|]. split; [|by vm_compute].
  split; [unfold in_range; by vm_compute|by vm_compute].
Qed.

(** C4: [pmm_init] hands to the allocator exactly the pages of usable entries
    that lie above the first megabyte and outside the metadata, all free and
    without references, and establishes the invariant. *)
Theorem pmm_init_correct s memmap hhdm mem_refs lo hi total md :
  memmap_ok memmap hhdm (b_zone s) ->
  fold_left scan_entry memmap (0xFFFFFFFFFFFFFFFF, 0, total_memory s) = (lo, hi, total) ->
  let size := init_metadata_size (init_page_count lo hi) in
  metadata_entry memmap size = Some md -> 0 < e_length md -> hi - lo <= zlen mem_refs ->
  exists s', pmm_init s memmap hhdm mem_refs = Some s' /\ pmm_wf s' /\
    forall x, free_page s' x <-> exists e, e ∈ memmap /\ is_usable e = true /\
      e_base e <= x * PAGE_SIZE < e_base e + e_length e /\ 0x100000 <= x * PAGE_SIZE /\
      ~ (e_base md <= x * PAGE_SIZE < e_base md + size).
Proof.
  intros Hok Hscan size Hmd Hpos Hrefs.
  destruct (pmm_init_spec s memmap hhdm mem_refs lo hi total md Hok Hscan Hmd Hpos Hrefs)
    as (s' & E & _ & _ & Hb & Hin). fold size in Hb, Hin.
  exists s'. split_and!; [done|by eapply boot_inv_wf|]. intros x. rewrite <- handed_all_spec.
  destruct Hb as [_ M U _]. split.
  - intros (Hx & Hm & _). by rewrite <- M.
  - intros Hh. pose proof (Hin x Hh) as Hx. split; [done|]. rewrite M, U, Hh by done. done.
Qed.

Lemma pmm_init_correct_witness :
  exists s', pmm_init demo_reset demo_memmap demo_hhdm demo_refs = Some s' /\ pmm_wf s'.
Proof.
  destruct (pmm_init_correct demo_reset demo_memmap demo_hhdm demo_refs 256 274 0x12000
    (MemmapEntry 0x100000 0x10000 MEMMAP_USABLE) demo_memmap_ok) as (s' & E & Hwf & _);
    [by vm_compute..|]. eauto.
Defined.

(** [pmm_get_free_pages], which adds up the sizes of the blocks in the free
    lists, returns the number of managed pages the bitmap marks free. *)
Theorem pmm_get_free_pages_correct s :
  pmm_wf s -> pmm_get_free_pages s = Some (zlen (free_frames s)).
Proof. intros [[B I] _ _]. by eapply get_free_pages_spec. Qed.

Lemma pmm_get_free_pages_correct_witness :
  pmm_get_free_pages demo_used = Some (zlen (free_frames demo_used)) /\ zlen (free_frames demo_used) = 11.
Proof. split; [apply pmm_get_free_pages_correct, demo_used_wf|by vm_compute]. Defined.

(** ** Constrained allocation *)

(** A block from [pmm_alloc_pages_range] lies between the two bounds, was
    free and becomes used; on failure the state is unchanged. *)
Theorem pmm_alloc_pages_range_correct s count min_addr max_addr :
  pmm_wf s -> 1 <= count <= 2 ^ 63 ->
  exists k ptr s', get_order count = Some k /\
    pmm_alloc_pages_range s count min_addr max_addr = Some (ptr, s') /\ pmm_wf s' /\
    ((ptr = 0 /\ s' = s) \/
     exists p, ptr = p * PAGE_SIZE /\ p mod 2 ^ k = 0 /\ count <= 2 ^ k /\
       min_addr <= ptr /\ ptr + 2 ^ k * PAGE_SIZE <= max_addr /\
       (forall x, in_block k p x -> free_page s x) /\
       (forall x, free_page s' x <-> free_page s x /\ ~ in_block k p x)).
Proof.
  intros Hwf Hc. pose proof (wf_ok _ Hwf) as [B I]. unfold pmm_alloc_pages_range. set (ok := fun _ _ => _).
  destruct (alloc_constrained_spec s B count ok I Hc) as (k & ptr & s' & Hk & E & Hcase).
  exists k, ptr, s'. split_and!; [done|done|by eapply alloc_constrained_wf|].
  destruct Hcase as [?|(c & p & -> & Hkc & Hok & A & _)]; [by left|right]. exists p.
  destruct (get_order_spec count Hc) as (k' & Hk' & Hle & _ & Hk0). rewrite Hk in Hk'. injection Hk' as <-.
  pose proof (geom_bounds s (i_geom _ _ _ I)) as (? & ? & ?).
  pose proof (al_was_free _ _ _ _ A p (in_block_start k p ltac:(lia))) as [Hr _]. unfold in_range in Hr.
  assert (2 ^ k <= 2 ^ c <= 2 ^ 20) by (split; apply pow2_le; unfold MAX_ORDER in *; lia).
  unfold ok in Hok. rewrite Z.shiftl_1_l, u64_small in Hok by (unfold PAGE_SIZE; lia). b2p.
  split_and!; try done; try apply A; unfold PAGE_SIZE in *; lia.
Qed.

Lemma pmm_alloc_pages_range_correct_witness :
  exists ptr s', pmm_alloc_pages_range demo 2 0x104000 0x10A000 = Some (ptr, s') /\ pmm_wf s'.
Proof.
  destruct (pmm_alloc_pages_range_correct demo 2 0x104000 0x10A000 demo_wf ltac:(lia))
    as (k & ptr & s' & _ & E & Hwf & _). eauto.
Defined.

(** ** Reference counts *)

(** Sharing a page and dropping the share again is neutral: after
    [pmm_incref] and [pmm_decref] on a page in use with fewer than 65535
    references, at least one, the page has its old count and is still in use.
    [pmm_decref] alone releases the page exactly when it held the last
    reference. *)
Theorem pmm_decref_correct s ptr :
  let x := ptr / PAGE_SIZE in
  pmm_wf s -> ptr <> 0 -> in_range s x -> managed s x = true -> used s x = true -> 1 <= refcount s x < 65535 ->
  pmm_wf (pmm_decref s ptr) /\
  (forall y, free_page (pmm_decref s ptr) y <-> free_page s y \/ (y = x /\ refcount s x = 1)) /\
  (forall y, refcount (pmm_decref s ptr) y = if y =? x then refcount s x - 1 else refcount s y) /\
  (let s2 := pmm_decref (pmm_incref s ptr) ptr in
   (forall y, free_page s2 y <-> free_page s y) /\ (forall y, refcount s2 y = refcount s y)).
Proof.
  intros x Hwf Hp Hx Hm Hu Hr. pose proof (wf_ok _ Hwf) as Hok.
  split; [by apply decref_wf|].
  destruct (pmm_decref_spec s ptr Hok Hp Hx Hm Hu) as (_ & _ & _ & _ & Hf & Hc). fold x in Hf, Hc.
  split; [done|]. split; [intros y; rewrite Hc, Z.gtb_ltb, (proj2 (Z.ltb_lt _ _)), andb_true_r by lia; done|].
  destruct (pmm_incref_spec s ptr Hok) as (Hok1 & Hf1 & El & Hc1).
  assert (pmm_is_managed s ptr = true) as Hman.
  { destruct Hok as [B I]. unfold pmm_is_managed. fold x. unfold in_range in Hx.
    rewrite (proj2 (Z.ltb_ge _ _)), Z.geb_leb, (proj2 (Z.leb_gt _ _)), (proj2 (Z.eqb_neq _ _) (g_addr _ (i_geom _ _ _ I))) by lia.
    done. }
  assert (forall y, refcount (pmm_incref s ptr) y = if y =? x then refcount s x + 1 else refcount s y) as Hc1'.
  { intros y. rewrite Hc1, Hman, (proj2 (Z.eqb_neq _ _) Hp), !andb_true_r. fold x.
    destruct (Z.eqb_spec y x) as [->|]; [|done]. apply u16_small. lia. }
  assert (forall z, in_range (pmm_incref s ptr) z = in_range s z /\ managed (pmm_incref s ptr) z = managed s z /\
    used (pmm_incref s ptr) z = used s z) as Hsame by (intros z; unfold pmm_incref; by repeat case_if).
  destruct (Hsame x) as (S1 & S2 & S3).
  destruct (pmm_decref_spec (pmm_incref s ptr) ptr Hok1 Hp) as (_ & _ & _ & _ & Hf2 & Hc2); fold x;
    rewrite ?S1, ?S2, ?S3; try done.
  fold x in Hf2, Hc2. rewrite (Hc1' x), Z.eqb_refl in Hf2. split.
  - intros y. rewrite Hf2, Hf1. split; [intros [?|[_ ?]]; [done|lia]|tauto].
  - intros y. rewrite Hc2, !Hc1', Z.eqb_refl, Z.gtb_ltb, (proj2 (Z.ltb_lt _ _)), andb_true_r by lia.
    destruct (Z.eqb_spec y x) as [->|]; lia.
Qed.

Lemma pmm_decref_correct_witness : pmm_wf (pmm_decref demo_used (261 * PAGE_SIZE)).
Proof.
  apply (pmm_decref_correct demo_used (261 * PAGE_SIZE) demo_used_wf); by vm_compute.
Defined.

(** [get_order] is the rounded-up binary logarithm for requests of up to
    [2^63] pages; above that its doubling counter wraps to zero and the loop
    never ends. *)
Theorem get_order_correct count :
  (1 <= count <= 2 ^ 63 -> forall k, get_order count = Some k <->
     0 <= k /\ count <= 2 ^ k /\ forall j, 0 <= j -> count <= 2 ^ j -> k <= j) /\
  (2 ^ 63 < count < 2 ^ 64 -> forall fuel, get_order_loop fuel 1 count 0 = None).
Proof.
  split.
  - intros Hc k. destruct (get_order_spec count Hc) as (o & Ho & Hle & Hmin & Ho0). rewrite Ho.
    assert (forall j, 0 <= j -> count <= 2 ^ j -> o <= j) as Hleast.
    { intros j Hj Hcj. destruct Hmin as [->|Hmin]; [done|]. destruct (Z_lt_le_dec j o); [|done].
      assert (2 ^ j <= 2 ^ (o - 1)) by (apply pow2_le; lia). lia. }
    split.
    + intros [= <-]. split_and!; [lia|done|done].
    + intros (Hk & Hck & Hkmin). f_equal. specialize (Hleast k Hk Hck). specialize (Hkmin o ltac:(lia) Hle). lia.
  - intros Hc fuel.
    assert (forall n size order, (size = 0 \/ exists i, 0 <= i <= 63 /\ size = 2 ^ i) ->
      get_order_loop n size count order = None) as Hloop; [|apply Hloop; right; by exists 0].
    induction n as [|n IH]; intros size order Hs; cbn [get_order_loop]; [done|].
    assert (size <= 2 ^ 63) by (destruct Hs as [->|(i & Hi & ->)]; [lia|apply pow2_le; lia]).
    rewrite (proj2 (Z.ltb_lt size count)) by lia. apply IH.
    destruct Hs as [->|(i & Hi & ->)]; [by left|]. destruct (Z.eq_dec i 63) as [->|]; [by left|].
    right. exists (i + 1). split; [lia|]. rewrite pow2_succ by lia.
    assert (2 ^ i <= 2 ^ 62) by (apply pow2_le; lia). pose proof (pow2_pos i ltac:(lia)). rewrite u64_small; lia.
Qed.

Lemma get_order_correct_witness : get_order 5 = Some 3 /\ get_order_loop 100 1 (2 ^ 63 + 1) 0 = None.
Proof.
  split.
  - apply (proj1 (get_order_correct 5)); [lia|]. split_and!; [lia|lia|]. intros j Hj H5.
    destruct (Z_lt_le_dec j 3); [|done]. assert (2 ^ j <= 2 ^ 2) by (apply pow2_le; lia). lia.
  - apply (proj2 (get_order_correct (2 ^ 63 + 1))). lia.
Defined.

(** The byte-wise range routines [bitmap_set_range] and
    [bitmap_clear_range] do what setting or clearing every bit of the clipped
    range one at a time does. *)
Theorem bitmap_range_equiv lo hi bm start count :
  0 <= lo <= start -> start < hi -> hi < 2 ^ 63 -> hi - lo <= 8 * zlen bm -> 0 <= count < 2 ^ 63 ->
  let n := Z.to_nat (Z.min (start + count) hi - start) in
  let ref f := for_n n (start - lo) (fun i b => f b i) bm in
  forall j, 0 <= j ->
    bitmap_test (bitmap_set_range lo hi bm start count) j = bitmap_test (ref bitmap_set) j /\
    bitmap_test (bitmap_clear_range lo hi bm start count) j = bitmap_test (ref bitmap_clear) j.
Proof.
  intros Hlo Hs Hhi Hz Hc n ref j Hj.
  assert (forall f v byte, bit_op f v byte ->
    bitmap_test (range_op f byte lo hi bm start count) j = bitmap_test (ref f) j) as Hop.
  { intros f v byte H. destruct (range_op_spec f v byte H lo hi bm start count) as (_ & _ & T); try lia.
    rewrite T by done. unfold ref. symmetry.
    assert (zlen (ref f) = zlen bm /\ forall i, 0 <= i -> bitmap_test (ref f) i =
      if (start - lo <=? i) && (i <? start - lo + Z.of_nat n) then v else bitmap_test bm i) as [_ R].
    { apply (for_n_ind (fun e b => zlen b = zlen bm /\ forall i, 0 <= i -> bitmap_test b i =
        if (start - lo <=? i) && (i <? e) then v else bitmap_test bm i)).
      - split; [done|]. intros i Hi. destruct (_ && _) eqn:E; [|done]. b2p. lia.
      - intros e b He [L R]. split; [by rewrite (bop_len _ _ _ H)|]. intros i Hi.
        rewrite (bop_test _ _ _ H) by lia. rewrite R by done.
        destruct (Z.eqb_spec e i), (Z.leb_spec (start - lo) i), (Z.ltb_spec i e), (Z.ltb_spec i (e + 1)); simpl; done || lia. }
    unfold ref in R. rewrite R by done. unfold n. rewrite Z2Nat.id by lia.
    destruct (Z.leb_spec (start - lo) j), (Z.ltb_spec j (start - lo + (start + count) `min` hi - start)); simpl;
      destruct (Z.ltb_spec j ((start + count) `min` hi - lo)),
        (Z.ltb_spec j (start - lo + ((start + count) `min` hi - start))); done || lia. }
  split; [apply (Hop _ _ _ set_bit_op)|apply (Hop _ _ _ clear_bit_op)].
Qed.

Lemma bitmap_range_equiv_witness :
  bitmap_test (bitmap_set_range 256 300 (replicate 6 0) 259 21) 13 =
  bitmap_test (for_n 21 3 (fun i b => bitmap_set b i) (replicate 6 0)) 13.
Proof. apply (bitmap_range_equiv 256 300 (replicate 6 0) 259 21); by vm_compute. Defined.

(** ** Reclaiming the bootloader's memory *)

(** [pmm_reclaim_bootloader] hands no page to the allocator: the pages it
    would reclaim have been marked used since [pmm_init], and its third step takes
    the mark as a sign that the paging code needs them.  The set of managed pages
    and the amount of usable memory stay what they were, whatever the page tables
    hold. *)
Theorem pmm_reclaim_keeps_managed pte cr3 kernel_base s memmap :
  reclaim_pre s memmap ->
  exists s', pmm_reclaim_bootloader pte cr3 kernel_base s = Some s' /\
    managed_bitmap s' = managed_bitmap s /\ usable_memory s' = usable_memory s.
Proof.
  intros Hpre. destruct (reclaim_keeps_manager pte cr3 kernel_base s memmap Hpre) as (s' & E & Em & Eu & _).
  eauto.
Qed.

Lemma demo_reclaim_pre : reclaim_pre demo demo_memmap.
Proof.
  split; [apply demo_wf|by vm_compute|repeat constructor; simpl; lia|by vm_compute|].
  intros e x He Ht Hr Hx. pose proof (proj2 demo_init) as [El Eh]. unfold in_range in Hr.
  apply elem_of_cons in He as [->|He]; [by destruct Ht|].
  apply elem_of_cons in He as [->|[]%elem_of_nil].
  assert (x = 272 \/ x = 273) as [->| ->] by (destruct Hx as [Hx _]; change (272 <= x) in Hx; lia); by vm_compute.
Qed.

Lemma pmm_reclaim_keeps_managed_witness :
  exists s', pmm_reclaim_bootloader (fun _ _ => 0) 0 0 demo = Some s' /\ usable_memory s' = usable_memory demo.
Proof.
  destruct (pmm_reclaim_keeps_managed (fun _ _ => 0) 0 0 demo demo_memmap demo_reclaim_pre) as (s' & E & _ & Eu).
  eauto.
Defined.

(** ** DMA buffers *)

(** A buffer from [dma_alloc] covers the requested size with contiguous
    pages between 1 MB and 4 GB, all of which were free. *)
Theorem dma_alloc_correct `{KernelMem} s size flags b s' :
  pmm_wf s -> 0 < size < 2 ^ 62 -> dma_alloc s size flags = Some (Some b, s') ->
  let p := dma_phys b / PAGE_SIZE in
  dma_phys b = p * PAGE_SIZE /\ size <= dma_pages b * PAGE_SIZE /\
  DMA_LOW_START <= dma_phys b /\ dma_phys b + dma_pages b * PAGE_SIZE <= DMA_32BIT_END /\
  forall i, 0 <= i < dma_pages b -> free_page s (p + i).
Proof.
  intros Hwf Hs Ha. destruct (dma_alloc_buffer s size flags b s' Hwf Hs Ha) as (? & ? & _ & ? & ? & Hp).
  cbv zeta. split_and!; try done. intros i Hi. by apply Hp.
Qed.

(** Mapping and heap that always succeed and need no pages of their own. *)
Definition demo_mem : KernelMem.
Proof.
  refine {| vmm_map_page := fun s _ _ => (true, s); kmalloc := fun s _ => (0xFFFF900000000000, s);
            kfree := fun s _ => s |}; done.
Defined.

Definition demo_dma : option dma_buffer * pmm :=
  Eval vm_compute in default (None, demo) (@dma_alloc demo_mem demo 0x1800 DMA_FLAG_32BIT).

Definition demo_buf : dma_buffer :=
  Eval vm_compute in default (DmaBuffer 0 0 0 0 0) demo_dma.1.

Lemma dma_alloc_correct_witness : free_page demo (dma_phys demo_buf / PAGE_SIZE + 1).
Proof.
  assert (@dma_alloc demo_mem demo 0x1800 DMA_FLAG_32BIT = Some (Some demo_buf, demo_dma.2)) as E by (by vm_compute).
  apply (@dma_alloc_correct demo_mem demo 0x1800 DMA_FLAG_32BIT demo_buf demo_dma.2 demo_wf ltac:(lia) E). by vm_compute.
Defined.

(** The pages of a DMA buffer are never given back: [dma_alloc] gets them
    from an allocator that leaves their reference counts at zero, and [dma_free]
    releases them with [pmm_free_page], which ignores pages without references.
    After [dma_free] every page of the buffer is still in use. *)
Theorem dma_free_leaks `{KernelMem} s size flags b s' :
  pmm_wf s -> 0 < size < 2 ^ 62 -> dma_alloc s size flags = Some (Some b, s') ->
  let s'' := dma_free s' (Some b) in
  let p := dma_phys b / PAGE_SIZE in
  1 <= dma_pages b /\
  forall i, 0 <= i < dma_pages b -> free_page s (p + i) /\ ~ free_page s'' (p + i).
Proof.
  intros Hwf Hs Ha s'' p. destruct (dma_alloc_buffer s size flags b s' Hwf Hs Ha) as (Ep & Hsz & _ & Hlo & Hhi & Hp).
  fold p in Ep, Hp. unfold DMA_LOW_START, DMA_32BIT_END, PAGE_SIZE in *. split; [lia|]. intros i Hi.
  destruct (Hp i Hi) as [Hf Hu]. split; [done|]. unfold s''.
  rewrite (dma_free_unreferenced s' b p); [|done|lia|lia|intros j Hj; by apply Hp].
  pose proof (kfree_unreferenced s' (dma_addr b) (p + i) Hu) as (_ & _ & Hus & _).
  intros (_ & _ & Hn). congruence.
Qed.

Lemma dma_free_leaks_witness :
  ~ free_page (@dma_free demo_mem demo_dma.2 (Some demo_buf)) (dma_phys demo_buf / PAGE_SIZE + 1).
Proof.
  assert (@dma_alloc demo_mem demo 0x1800 DMA_FLAG_32BIT = Some (Some demo_buf, demo_dma.2)) as E by (by vm_compute).
  apply (@dma_free_leaks demo_mem demo 0x1800 DMA_FLAG_32BIT demo_buf demo_dma.2 demo_wf ltac:(lia) E). by vm_compute.
Defined.
