(* ===== verification/ObjAlloc.v ===== *)
(** * What an object allocator promises

    The interface between the kernel's object caches ([kernel/src/mm/slab_cache.c],
    [kernel/src/mm/heap.c]) and the components that take their nodes from them:
    an allocation is either refused or returns an object that was not live, and
    freeing a live object makes it available again. *)

From S2P Require Import Prelude.

Class ObjAlloc (A : Type) := {
  (** [None] is a null pointer. *)
  obj_alloc : A -> option Z * A;
  obj_free : A -> Z -> A;
  obj_live : A -> gset Z;
  obj_ok : A -> Prop;
  obj_alloc_some : forall s p s', obj_ok s -> obj_alloc s = (Some p, s') ->
    obj_ok s' /\ p ∉ obj_live s /\ obj_live s' = {[p]} ∪ obj_live s;
  obj_alloc_none : forall s s', obj_ok s -> obj_alloc s = (None, s') ->
    obj_ok s' /\ obj_live s' = obj_live s;
  obj_free_live : forall s p, obj_ok s -> p ∈ obj_live s ->
    obj_ok (obj_free s p) /\ obj_live (obj_free s p) = obj_live s ∖ {[p]};
}.

(** An allocator over a fixed stock of addresses. *)
Record stock := Stock { st_free : list Z; st_used : gset Z }.

Definition stock_alloc (s : stock) : option Z * stock :=
  match st_free s with
  | [] => (None, s)
  | p :: l => (Some p, Stock l ({[p]} ∪ st_used s))
  end.

Definition stock_free (s : stock) (p : Z) : stock := Stock (p :: st_free s) (st_used s ∖ {[p]}).

Definition stock_ok (s : stock) : Prop := NoDup (st_free s) /\ forall p, p ∈ st_free s -> p ∉ st_used s.

#[export] Instance stock_ObjAlloc : ObjAlloc stock.
Proof.
  refine {| obj_alloc := stock_alloc; obj_free := stock_free; obj_live := st_used; obj_ok := stock_ok |}.
  - intros [l u] p s' [Hnd Hf]. unfold stock_alloc; simpl in *. destruct l as [|q l]; [done|].
    intros [= -> <-]. apply NoDup_cons in Hnd as [Hq Hnd]. split_and!; [split; [done|]|apply Hf; left|done].
    intros r Hr. simpl in *. specialize (Hf r ltac:(by right)). set_solver.
  - intros [l u] s' Hok. unfold stock_alloc; simpl. destruct l; [|done]. by intros [= <-].
  - intros [l u] p [Hnd Hf] Hp; simpl in *. split; [|done]. split; simpl.
    + constructor; [|done]. intros ?%Hf. done.
    + intros r [->|Hr]%elem_of_cons; [set_solver|]. apply Hf in Hr. set_solver.
Defined.

(** An allocator that never runs out. *)
Record bump := Bump { bp_next : Z; bp_used : gset Z }.

Definition bump_alloc (s : bump) : option Z * bump :=
  (Some (bp_next s), Bump (bp_next s + 64) ({[bp_next s]} ∪ bp_used s)).

Definition bump_free (s : bump) (p : Z) : bump := Bump (bp_next s) (bp_used s ∖ {[p]}).

Definition bump_ok (s : bump) : Prop := forall p, p ∈ bp_used s -> p < bp_next s.

#[export] Instance bump_ObjAlloc : ObjAlloc bump.
Proof.
  refine {| obj_alloc := bump_alloc; obj_free := bump_free; obj_live := bp_used; obj_ok := bump_ok |}.
  - intros s p s' Hok [= <- <-]. split_and!; [|intros ?%Hok; lia|done].
    intros q [->%elem_of_singleton|Hq]%elem_of_union; simpl; [lia|]. specialize (Hok q Hq). lia.
  - done.
  - intros s p Hok Hp. split; [|done]. intros q Hq. apply Hok. simpl in Hq. set_solver.
Defined.
