(* ===== verification/Vma.v ===== *)
(** * Virtual memory areas

    Models [kernel/src/mm/vma.c]: the regions of an address space in an AVL tree
    of nodes keyed by start address, each node also tracking the largest end
    address of its subtree.  A tree keeps the address of every node, because nodes
    come from an object cache and go back to it; the cache is used through the
    interface [ObjAlloc].  In the C code a tree is a structure of owned nodes that
    is updated in place, so an update yields the new tree here. *)

From S2P Require Import Prelude ObjAlloc.

Definition MAP_GROWSDOWN : Z := 0x0100.

Record vma_data := VmaData {
  v_start : Z;
  v_end : Z;
  v_prot : Z;
  v_flags : Z;
  v_fd : Z;
  v_offset : Z;
}.

(** [Leaf] is a null pointer; [Node a d max_end height left right] the node at
    address [a]. *)
Inductive tree :=
| Leaf
| Node (a : Z) (d : vma_data) (max_end height : Z) (left right : tree).

Record vma_list := VmaList { root : tree; count : Z }.

Definition get_height (n : tree) : Z :=
  match n with Leaf => 0 | Node _ _ _ h _ _ => h end.

Definition get_max_end (n : tree) : Z :=
  match n with Leaf => 0 | Node _ _ m _ _ _ => m end.

Definition get_left (n : tree) : tree :=
  match n with Leaf => Leaf | Node _ _ _ _ l _ => l end.

Definition get_right (n : tree) : tree :=
  match n with Leaf => Leaf | Node _ _ _ _ _ r => r end.

(** [node->start]; only read from nodes that are not null. *)
Definition get_start (n : tree) : Z :=
  match n with Leaf => 0 | Node _ d _ _ _ _ => v_start d end.

Definition update_node (n : tree) : tree :=
  match n with
  | Leaf => Leaf
  | Node a d _ _ l r =>
      let h := 1 + (if get_height l >? get_height r then get_height l else get_height r) in
      let m := v_end d in
      let m := if get_max_end l >? m then get_max_end l else m in
      let m := if get_max_end r >? m then get_max_end r else m in
      Node a d m h l r
  end.

(** [n->left = l], [n->right = r] *)
Definition set_left (n l : tree) : tree :=
  match n with Leaf => Leaf | Node a d m h _ r => Node a d m h l r end.
Definition set_right (n r : tree) : tree :=
  match n with Leaf => Leaf | Node a d m h l _ => Node a d m h l r end.

Definition right_rotate (y : tree) : tree :=
  let x := get_left y in
  let T2 := get_right x in
  update_node (set_right x (update_node (set_left y T2))).

Definition left_rotate (x : tree) : tree :=
  let y := get_right x in
  let T2 := get_left y in
  update_node (set_left y (update_node (set_right x T2))).

Definition get_balance (n : tree) : Z :=
  match n with Leaf => 0 | Node _ _ _ _ l r => get_height l - get_height r end.

(** The rebalancing at the end of [insert_node]; [start] is the new node's. *)
Definition insert_fix (node : tree) (start : Z) : tree :=
  let balance := get_balance node in
  if (balance >? 1) && (start <? get_start (get_left node)) then right_rotate node
  else if (balance <? -1) && (start >? get_start (get_right node)) then left_rotate node
  else if (balance >? 1) && (start >? get_start (get_left node))
  then right_rotate (set_left node (left_rotate (get_left node)))
  else if (balance <? -1) && (start <? get_start (get_right node))
  then left_rotate (set_right node (right_rotate (get_right node)))
  else node.

Fixpoint insert_node (node new_node : tree) : tree :=
  match node with
  | Leaf => new_node
  | Node a d m h l r =>
      if get_start new_node <? v_start d
      then insert_fix (update_node (Node a d m h (insert_node l new_node) r)) (get_start new_node)
      else if get_start new_node >? v_start d
      then insert_fix (update_node (Node a d m h l (insert_node r new_node))) (get_start new_node)
      else node
  end.

(** Data of the leftmost node of the tree at [node]. *)
Fixpoint min_value_node (d : vma_data) (left : tree) : vma_data :=
  match left with
  | Leaf => d
  | Node _ d' _ _ l _ => min_value_node d' l
  end.

(** The rebalancing at the end of [delete_node]. *)
Definition delete_fix (node : tree) : tree :=
  let node := update_node node in
  let balance := get_balance node in
  if (balance >? 1) && (get_balance (get_left node) >=? 0) then right_rotate node
  else if (balance >? 1) && (get_balance (get_left node) <? 0)
  then right_rotate (set_left node (left_rotate (get_left node)))
  else if (balance <? -1) && (get_balance (get_right node) <=? 0) then left_rotate node
  else if (balance <? -1) && (get_balance (get_right node) >? 0)
  then left_rotate (set_right node (right_rotate (get_right node)))
  else node.

Fixpoint vma_find_recursive (node : tree) (addr : Z) : option (Z * vma_data) :=
  match node with
  | Leaf => None
  | Node a d _ _ l r =>
      if (addr >=? v_start d) && (addr <? v_end d) then Some (a, d)
      else
        match (match l with
               | Leaf => None
               | Node _ _ lm _ _ _ => if lm >? addr then vma_find_recursive l addr else None
               end) with
        | Some res => Some res
        | None => vma_find_recursive r addr
        end
  end.

Definition vma_find (list : vma_list) (addr : Z) : option (Z * vma_data) :=
  vma_find_recursive (root list) addr.

Fixpoint vma_find_overlap_recursive (node : tree) (start end_ : Z) : option (Z * vma_data) :=
  match node with
  | Leaf => None
  | Node a d _ _ l r =>
      if (v_start d <? end_) && (v_end d >? start) then Some (a, d)
      else
        match (match l with
               | Leaf => None
               | Node _ _ lm _ _ _ => if lm >? start then vma_find_overlap_recursive l start end_ else None
               end) with
        | Some res => Some res
        | None => vma_find_overlap_recursive r start end_
        end
  end.

Definition vma_find_overlap (list : vma_list) (start end_ : Z) : option (Z * vma_data) :=
  vma_find_overlap_recursive (root list) start end_.

Fixpoint vma_find_growdown_recursive (node : tree) (cr2 max_limit : Z) : option (Z * vma_data) :=
  match node with
  | Leaf => None
  | Node a d _ _ l r =>
      if negb (Z.land (v_flags d) MAP_GROWSDOWN =? 0) && (cr2 <? v_start d) &&
         (cr2 >=? u64 (v_end d - max_limit))
      then Some (a, d)
      else
        match vma_find_growdown_recursive l cr2 max_limit with
        | Some res => Some res
        | None => vma_find_growdown_recursive r cr2 max_limit
        end
  end.

Definition vma_find_growdown (list : vma_list) (cr2 max_limit : Z) : option (Z * vma_data) :=
  vma_find_growdown_recursive (root list) cr2 max_limit.

Definition vma_list_init : vma_list := VmaList Leaf 0.

(** [inorder_gather]: the nodes in order of address. *)
Fixpoint inorder_gather (node : tree) : list vma_data :=
  match node with
  | Leaf => []
  | Node _ d _ _ l r => inorder_gather l ++ d :: inorder_gather r
  end.

(** The scan of [vma_find_gap]: [inl] is a gap found before a region, [inr] the
    end of the last region passed. *)
Fixpoint gap_scan (arr : list vma_data) (length current : Z) : Z + Z :=
  match arr with
  | [] => inr current
  | v :: rest =>
      if v_end v <=? current then gap_scan rest length current
      else if (v_start v >? current) && (v_start v - current >=? length) then inl current
      else gap_scan rest length (if current >? v_end v then current else v_end v)
  end.

(** [arr_ok]: the allocation of the temporary array succeeds. *)
Definition vma_find_gap (arr_ok : bool) (list : vma_list) (length base_addr limit_addr : Z) : Z :=
  if count list =? 0 then
    if u64 (base_addr + length) <=? limit_addr then base_addr else 0
  else if negb arr_ok then 0
  else
    let '(gap_start, current) :=
      match gap_scan (inorder_gather (root list)) length base_addr with
      | inl g => (g, g)
      | inr c => (0, c)
      end in
    if negb (gap_start =? 0) then gap_start
    else if u64 (current + length) <=? limit_addr then current else 0.

(** ** Operations that allocate or free nodes *)

Section Alloc.
Context {A : Type} `{!ObjAlloc A}.

Fixpoint delete_node (node : tree) (start : Z) (deleted : bool) (s : A) : tree * bool * A :=
  match node with
  | Leaf => (Leaf, deleted, s)
  | Node a d m h l r =>
      if start <? v_start d then
        let '(l, deleted, s) := delete_node l start deleted s in
        (delete_fix (Node a d m h l r), deleted, s)
      else if start >? v_start d then
        let '(r, deleted, s) := delete_node r start deleted s in
        (delete_fix (Node a d m h l r), deleted, s)
      else
        match l, r with
        | Leaf, Leaf => (Leaf, true, obj_free s a)
        | Leaf, temp => (delete_fix temp, true, obj_free s a)
        | temp, Leaf => (delete_fix temp, true, obj_free s a)
        | Node _ _ _ _ _ _, Node _ rd _ _ rl _ =>
            let temp := min_value_node rd rl in
            let '(r, deleted, s) := delete_node r (v_start temp) true s in
            (delete_fix (Node a temp m h l r), deleted, s)
        end
  end.

Fixpoint vma_destroy_recursive (node : tree) (s : A) : A :=
  match node with
  | Leaf => s
  | Node a _ _ _ l r => obj_free (vma_destroy_recursive r (vma_destroy_recursive l s)) a
  end.

Definition vma_list_destroy (list : vma_list) (s : A) : vma_list * A :=
  (VmaList Leaf 0, vma_destroy_recursive (root list) s).

(** Result 0 or -1. *)
Definition vma_add (list : vma_list) (start end_ prot flags fd offset : Z) (s : A) : Z * vma_list * A :=
  match vma_find_overlap list start end_ with
  | Some _ => (-1, list, s)
  | None =>
      match obj_alloc s with
      | (None, s) => (-1, list, s)
      | (Some p, s) =>
          let new_node := Node p (VmaData start end_ prot flags fd offset) end_ 1 Leaf Leaf in
          (0, VmaList (insert_node (root list) new_node) (count list + 1), s)
      end
  end.

(** One iteration of [vma_remove] on the region [v]. *)
Definition remove_one (list : vma_list) (v : vma_data) (start end_ : Z) (s : A) : vma_list * A :=
  let '(r, _, s) := delete_node (root list) (v_start v) false s in
  let list := VmaList r (count list - 1) in
  let add lo hi off list s :=
    let '(_, list, s) := vma_add list lo hi (v_prot v) (v_flags v) (v_fd v) off s in (list, s) in
  let tail_offset := u64 (v_offset v + (end_ - v_start v)) in
  if (start >? v_start v) && (end_ <? v_end v) then
    let '(list, s) := add (v_start v) start (v_offset v) list s in
    add end_ (v_end v) tail_offset list s
  else if (start <=? v_start v) && (end_ >? v_start v) && (end_ <? v_end v) then
    add end_ (v_end v) tail_offset list s
  else if (end_ >=? v_end v) && (start >? v_start v) && (start <? v_end v) then
    add (v_start v) start (v_offset v) list s
  else (list, s).

(** [None] when the loop has not ended. *)
Fixpoint remove_loop (fuel : nat) (list : vma_list) (start end_ : Z) (removed : bool) (s : A)
    : option (bool * vma_list * A) :=
  match vma_find_overlap list start end_ with
  | None => Some (removed, list, s)
  | Some (_, v) =>
      match fuel with
      | O => None
      | S n =>
          let '(list, s) := remove_one list v start end_ s in
          remove_loop n list start end_ true s
      end
  end.

(** Every iteration leaves one overlapping region less. *)
Definition vma_remove (list : vma_list) (start end_ : Z) (s : A) : option (bool * vma_list * A) :=
  remove_loop (length (inorder_gather (root list))) list start end_ false s.

Fixpoint mprotect_loop (fuel : nat) (list : vma_list) (start end_ new_prot curr : Z) (s : A)
    : option (vma_list * A) :=
  if curr <? end_ then
    match fuel with
    | O => None
    | S n =>
        match vma_find list curr with
        | None =>
            match vma_find_overlap list curr end_ with
            | None => Some (list, s)
            | Some (_, v) => mprotect_loop n list start end_ new_prot (v_start v) s
            end
        | Some (_, v) =>
            let m_start := if v_start v >? start then v_start v else start in
            let m_end := if v_end v <? end_ then v_end v else end_ in
            match vma_remove list m_start m_end s with
            | None => None
            | Some (_, list, s) =>
                let '(_, list, s) :=
                  vma_add list m_start m_end new_prot (v_flags v) (v_fd v)
                    (u64 (v_offset v + (m_start - v_start v))) s in
                mprotect_loop n list start end_ new_prot m_end s
            end
        end
    end
  else Some (list, s).

(** Two iterations per region suffice: one that skips the gap before it, one
    that rewrites it.  The result is always 0. *)
Definition vma_mprotect (list : vma_list) (start end_ new_prot : Z) (s : A) : option (Z * vma_list * A) :=
  match mprotect_loop (2 * length (inorder_gather (root list)) + 2) list start end_ new_prot start s with
  | None => None
  | Some (list, s) => Some (0, list, s)
  end.

Fixpoint clone_recursive (dst : vma_list) (node : tree) (s : A) : vma_list * A :=
  match node with
  | Leaf => (dst, s)
  | Node _ d _ _ l r =>
      let '(_, dst, s) :=
        vma_add dst (v_start d) (v_end d) (v_prot d) (v_flags d) (v_fd d) (v_offset d) s in
      let '(dst, s) := clone_recursive dst l s in
      clone_recursive dst r s
  end.

Definition vma_list_clone (src : vma_list) (s : A) : vma_list * A :=
  clone_recursive vma_list_init (root src) s.

(** The first pair of neighbours that can be merged. *)
Fixpoint find_pair (arr : list vma_data) : option (vma_data * vma_data) :=
  match arr with
  | cur :: ((nxt :: _) as rest) =>
      if (v_end cur =? v_start nxt) && (v_prot cur =? v_prot nxt) && (v_flags cur =? v_flags nxt) &&
         (v_fd cur =? -1) && (v_fd nxt =? -1)
      then Some (cur, nxt)
      else find_pair rest
  | _ => None
  end.

(** [arr_ok n]: the allocation of the temporary array succeeds with [n]
    iterations left. *)
Fixpoint merge_loop (fuel : nat) (arr_ok : nat -> bool) (list : vma_list) (s : A) : option (vma_list * A) :=
  if negb (arr_ok fuel) then Some (list, s)
  else
    match find_pair (inorder_gather (root list)) with
    | None => Some (list, s)
    | Some (cur, nxt) =>
        match fuel with
        | O => None
        | S n =>
            match vma_remove list (v_start cur) (v_end cur) s with
            | None => None
            | Some (_, list, s) =>
                match vma_remove list (v_start nxt) (v_end nxt) s with
                | None => None
                | Some (_, list, s) =>
                    let '(_, list, s) :=
                      vma_add list (v_start cur) (v_end nxt) (v_prot cur) (v_flags cur) (-1) 0 s in
                    merge_loop n arr_ok list s
                end
            end
        end
    end.

(** Every merge leaves one region less. *)
Definition vma_merge_adjacent (arr_ok : nat -> bool) (list : vma_list) (s : A) : option (vma_list * A) :=
  if count list <? 2 then Some (list, s)
  else merge_loop (length (inorder_gather (root list))) arr_ok list s.
End Alloc.
