(* ===== verification/VmaTree.v ===== *)
(** * The region tree

    Rotations, insertion and deletion of [kernel/src/mm/vma.c] keep the tree
    balanced, its augmentation exact and its in-order contents what they should
    be; the searches find what the contents say. *)

From S2P Require Import Prelude ObjAlloc Vma.
From Stdlib Require Import Sorting.Sorted.

(** Addresses of the nodes of a tree. *)
Fixpoint addrs (t : tree) : list Z :=
  match t with
  | Leaf => []
  | Node a _ _ _ l r => a :: addrs l ++ addrs r
  end.

(** Balanced, with exact heights and subtree ends. *)
Fixpoint avl (t : tree) : Prop :=
  match t with
  | Leaf => True
  | Node _ d m h l r =>
      avl l /\ avl r /\ -1 <= get_height l - get_height r <= 1 /\
      h = 1 + Z.max (get_height l) (get_height r) /\
      m = Z.max (v_end d) (Z.max (get_max_end l) (get_max_end r))
  end.

Definition region (v : vma_data) : Prop := 0 <= v_start v /\ v_start v < v_end v.
Definition before (v w : vma_data) : Prop := v_end v <= v_start w.

(** Proper regions in order, none overlapping the next. *)
Definition ordered (l : list vma_data) : Prop := Forall region l /\ StronglySorted before l.

Notation elems := inorder_gather.

(** A node whose derived fields are exact. *)
Definition mk (a : Z) (d : vma_data) (l r : tree) : tree := update_node (Node a d 0 0 l r).

(** ** Ordered lists *)

Lemma StronglySorted_middle {X} (R : X -> X -> Prop) l1 x l2 :
  StronglySorted R (l1 ++ x :: l2) <->
  StronglySorted R l1 /\ StronglySorted R l2 /\ Forall (fun y => R y x) l1 /\ Forall (R x) l2 /\
  Forall (fun y => Forall (R y) l2) l1.
Proof.
  induction l1 as [|y l1 IH]; simpl.
  - split; [intros [? ?]%StronglySorted_inv|intros (_ & ? & _ & ? & _)]; [split_and!; auto; constructor|by constructor].
  - split.
    + intros [H1 H2]%StronglySorted_inv. apply IH in H1 as (? & ? & ? & ? & ?).
      apply Forall_app in H2 as [? [? ?]%Forall_cons]. split_and!; try done; constructor; done.
    + intros ([? ?]%StronglySorted_inv & ? & [? ?]%Forall_cons & ? & [? ?]%Forall_cons).
      constructor; [by apply IH|]. apply Forall_app. split; [done|]. by constructor.
Qed.

Lemma ordered_middle l1 v l2 :
  ordered (l1 ++ v :: l2) <->
  ordered l1 /\ ordered l2 /\ region v /\ Forall (fun w => before w v) l1 /\ Forall (before v) l2 /\
  Forall (fun w => Forall (before w) l2) l1.
Proof.
  unfold ordered. rewrite StronglySorted_middle, Forall_app, Forall_cons. tauto.
Qed.

Lemma ordered_app_drop l1 v l2 : ordered (l1 ++ v :: l2) -> ordered (l1 ++ l2).
Proof.
  intros (O1 & O2 & _ & _ & _ & O3)%ordered_middle. destruct l2 as [|w l2]; [by rewrite app_nil_r|].
  apply (ordered_middle [] w l2) in O2 as (_ & O2 & Rw & _ & O4 & _).
  apply ordered_middle. split_and!; try done.
  - eapply Forall_impl; [exact O3|]. simpl. intros u Hu. by apply Forall_cons in Hu as [? _].
  - eapply Forall_impl; [exact O3|]. simpl. intros u Hu. by apply Forall_cons in Hu as [_ ?].
Qed.

Lemma before_start v w : region v -> before v w -> v_start v < v_start w.
Proof. unfold region, before. lia. Qed.

(** ** Shapes *)

Lemma update_node_mk a d m h l r : update_node (Node a d m h l r) = mk a d l r.
Proof. done. Qed.

Lemma right_rotate_mk a d m h b e m' h' ll lr r :
  right_rotate (Node a d m h (Node b e m' h' ll lr) r) = mk b e ll (mk a d lr r).
Proof. done. Qed.

Lemma left_rotate_mk a d m h b e m' h' l rl rr :
  left_rotate (Node a d m h l (Node b e m' h' rl rr)) = mk b e (mk a d l rl) rr.
Proof. done. Qed.

Lemma mk_shape a d l r :
  mk a d l r = Node a d (Z.max (v_end d) (Z.max (get_max_end l) (get_max_end r)))
    (1 + Z.max (get_height l) (get_height r)) l r.
Proof.
  unfold mk, update_node. f_equal.
  - destruct (Z.gtb_spec (get_max_end l) (v_end d)).
    + destruct (Z.gtb_spec (get_max_end r) (get_max_end l)); lia.
    + destruct (Z.gtb_spec (get_max_end r) (v_end d)); lia.
  - destruct (Z.gtb_spec (get_height l) (get_height r)); lia.
Qed.

Lemma height_mk a d l r : get_height (mk a d l r) = 1 + Z.max (get_height l) (get_height r).
Proof. by rewrite mk_shape. Qed.

Lemma elems_mk a d l r : elems (mk a d l r) = elems l ++ d :: elems r.
Proof. done. Qed.

Lemma addrs_mk a d l r : addrs (mk a d l r) = a :: addrs l ++ addrs r.
Proof. done. Qed.

Lemma balance_mk a d l r : get_balance (mk a d l r) = get_height l - get_height r.
Proof. done. Qed.

Lemma avl_mk a d l r :
  avl l -> avl r -> -1 <= get_height l - get_height r <= 1 -> avl (mk a d l r).
Proof. intros. rewrite mk_shape. simpl. done. Qed.

Lemma avl_node_mk a d m h l r : avl (Node a d m h l r) -> Node a d m h l r = mk a d l r.
Proof. intros (_ & _ & _ & -> & ->). by rewrite mk_shape. Qed.

Lemma height_nonneg t : avl t -> 0 <= get_height t /\ (get_height t = 0 <-> t = Leaf).
Proof.
  induction t as [|a d m h l IHl r IHr]; simpl; [done|]. intros (Hl & Hr & _ & -> & _).
  destruct (IHl Hl), (IHr Hr). split; [lia|]. split; [lia|done].
Qed.

(** A tree with a positive height is a node. *)
Lemma height_node t : avl t -> 0 < get_height t ->
  exists a d l r, t = mk a d l r /\ avl l /\ avl r /\ -1 <= get_height l - get_height r <= 1.
Proof.
  intros Ht Hh. destruct t as [|a d m h l r]; [done|]. exists a, d, l, r.
  split; [by apply avl_node_mk in Ht as ->|]. simpl in Ht. tauto.
Qed.

(** ** Rebalancing *)

(** [t] holds the node [a] with data [d] and the trees [l] and [r], balanced. *)
Record rebalanced (a : Z) (d : vma_data) (l r t : tree) : Prop := {
  rb_avl : avl t;
  rb_elems : elems t = elems l ++ d :: elems r;
  rb_addrs : addrs t ≡ₚ a :: addrs l ++ addrs r;
  rb_height : Z.max (get_height l) (get_height r) <= get_height t <= 1 + Z.max (get_height l) (get_height r);
}.

Ltac heights := rewrite ?height_mk in *; lia.

Lemma rebalanced_mk a d l r :
  avl l -> avl r -> -1 <= get_height l - get_height r <= 1 -> rebalanced a d l r (mk a d l r).
Proof. intros. split; [by apply avl_mk|done|done|heights]. Qed.

Ltac solve_perm := rewrite ?addrs_mk; solve_Permutation.

Lemma rebalanced_LL a d b e ll lr r :
  avl ll -> avl lr -> avl r -> -1 <= get_height ll - get_height lr <= 1 ->
  get_height (mk b e ll lr) = get_height r + 2 -> get_height lr <= get_height ll ->
  rebalanced a d (mk b e ll lr) r (right_rotate (mk a d (mk b e ll lr) r)) /\
  (get_height lr < get_height ll ->
   get_height (right_rotate (mk a d (mk b e ll lr) r)) = get_height (mk b e ll lr)).
Proof.
  intros Hll Hlr Hr Hb Hh Hle.
  assert (right_rotate (mk a d (mk b e ll lr) r) = mk b e ll (mk a d lr r)) as -> by done.
  rewrite height_mk in Hh. split; [|heights]. split.
  - apply avl_mk; [done|apply avl_mk; [done|done|lia]|heights].
  - rewrite !elems_mk. by rewrite <- app_assoc.
  - solve_perm.
  - heights.
Qed.

Lemma rebalanced_LR a d b e ll c f lrl lrr r :
  avl ll -> avl lrl -> avl lrr -> avl r -> -1 <= get_height lrl - get_height lrr <= 1 ->
  get_height (mk b e ll (mk c f lrl lrr)) = get_height r + 2 ->
  get_height (mk c f lrl lrr) = get_height ll + 1 ->
  rebalanced a d (mk b e ll (mk c f lrl lrr)) r
    (right_rotate (set_left (mk a d (mk b e ll (mk c f lrl lrr)) r) (left_rotate (mk b e ll (mk c f lrl lrr))))) /\
  get_height (right_rotate (set_left (mk a d (mk b e ll (mk c f lrl lrr)) r)
    (left_rotate (mk b e ll (mk c f lrl lrr))))) = get_height (mk b e ll (mk c f lrl lrr)).
Proof.
  intros Hll Hlrl Hlrr Hr Hb Hh Hh2.
  assert (right_rotate (set_left (mk a d (mk b e ll (mk c f lrl lrr)) r) (left_rotate (mk b e ll (mk c f lrl lrr)))) =
    mk c f (mk b e ll lrl) (mk a d lrr r)) as -> by done.
  rewrite !height_mk in *. split; [|heights]. split.
  - apply avl_mk; [apply avl_mk; [done|done|lia]|apply avl_mk; [done|done|lia]|heights].
  - rewrite !elems_mk. repeat (rewrite <- app_assoc; simpl). done.
  - solve_perm.
  - heights.
Qed.

Lemma rebalanced_RR a d l b e rl rr :
  avl l -> avl rl -> avl rr -> -1 <= get_height rl - get_height rr <= 1 ->
  get_height (mk b e rl rr) = get_height l + 2 -> get_height rl <= get_height rr ->
  rebalanced a d l (mk b e rl rr) (left_rotate (mk a d l (mk b e rl rr))) /\
  (get_height rl < get_height rr ->
   get_height (left_rotate (mk a d l (mk b e rl rr))) = get_height (mk b e rl rr)).
Proof.
  intros Hl Hrl Hrr Hb Hh Hle.
  assert (left_rotate (mk a d l (mk b e rl rr)) = mk b e (mk a d l rl) rr) as -> by done.
  rewrite height_mk in Hh. split; [|heights]. split.
  - apply avl_mk; [apply avl_mk; [done|done|lia]|done|heights].
  - rewrite !elems_mk. rewrite <- app_assoc. done.
  - solve_perm.
  - heights.
Qed.

Lemma rebalanced_RL a d l b e c f rll rlr rr :
  avl l -> avl rll -> avl rlr -> avl rr -> -1 <= get_height rll - get_height rlr <= 1 ->
  get_height (mk b e (mk c f rll rlr) rr) = get_height l + 2 ->
  get_height (mk c f rll rlr) = get_height rr + 1 ->
  rebalanced a d l (mk b e (mk c f rll rlr) rr)
    (left_rotate (set_right (mk a d l (mk b e (mk c f rll rlr) rr)) (right_rotate (mk b e (mk c f rll rlr) rr)))) /\
  get_height (left_rotate (set_right (mk a d l (mk b e (mk c f rll rlr) rr))
    (right_rotate (mk b e (mk c f rll rlr) rr)))) = get_height (mk b e (mk c f rll rlr) rr).
Proof.
  intros Hl Hrll Hrlr Hrr Hb Hh Hh2.
  assert (left_rotate (set_right (mk a d l (mk b e (mk c f rll rlr) rr)) (right_rotate (mk b e (mk c f rll rlr) rr))) =
    mk c f (mk a d l rll) (mk b e rlr rr)) as -> by done.
  rewrite !height_mk in *. split; [|heights]. split.
  - apply avl_mk; [apply avl_mk; [done|done|lia]|apply avl_mk; [done|done|lia]|heights].
  - rewrite !elems_mk. repeat (rewrite <- app_assoc; simpl). done.
  - solve_perm.
  - heights.
Qed.

(** The rebalancing of [delete_node]: the subtrees differ by two at most. *)
Lemma delete_fix_spec a d m h l r :
  avl l -> avl r -> -2 <= get_height l - get_height r <= 2 ->
  rebalanced a d l r (delete_fix (Node a d m h l r)) /\
  (-1 <= get_height l - get_height r <= 1 ->
   get_height (delete_fix (Node a d m h l r)) = 1 + Z.max (get_height l) (get_height r)).
Proof.
  intros Hl Hr Hb. unfold delete_fix. rewrite update_node_mk, balance_mk.
  change (get_left (mk a d l r)) with l. change (get_right (mk a d l r)) with r.
  pose proof (proj1 (height_nonneg l Hl)). pose proof (proj1 (height_nonneg r Hr)).
  destruct (Z.gtb_spec (get_height l - get_height r) 1).
  - destruct (height_node l Hl ltac:(lia)) as (b & e & ll & lr & -> & Hll & Hlr & Hlb). rewrite balance_mk.
    split; [|lia]. simpl. destruct (Z.geb_spec (get_height ll - get_height lr) 0).
    + apply rebalanced_LL; try done; lia.
    + rewrite (proj2 (Z.ltb_lt _ _)) by lia. rewrite height_mk in *.
      destruct (height_node lr Hlr) as (c & f & lrl & lrr & -> & Hlrl & Hlrr & Hlrb).
      { pose proof (proj1 (height_nonneg ll Hll)). lia. }
      apply rebalanced_LR; try done; heights.
  - simpl. destruct (Z.ltb_spec (get_height l - get_height r) (-1)); simpl.
    2: { split; [|intros _; exact (height_mk a d l r)]. apply rebalanced_mk; done || lia. }
    destruct (height_node r Hr ltac:(lia)) as (b & e & rl & rr & -> & Hrl & Hrr & Hrb). rewrite balance_mk.
    split; [|lia]. destruct (Z.leb_spec (get_height rl - get_height rr) 0).
    + apply rebalanced_RR; try done; lia.
    + rewrite Z.gtb_ltb, (proj2 (Z.ltb_lt _ _)) by lia. rewrite height_mk in *.
      destruct (height_node rl Hrl) as (c & f & rll & rlr & -> & Hrll & Hrlr & Hrlb).
      { pose proof (proj1 (height_nonneg rr Hrr)). lia. }
      apply rebalanced_RL; try done; heights.
Qed.

(** ** Insertion *)

(** When a non-empty tree grows, the new key is not at its root and the side
    it went to is the taller one. *)
Definition grew (start : Z) (t t' : tree) : Prop :=
  get_height t' = get_height t + 1 -> t <> Leaf ->
  get_start t' <> start /\
  (start < get_start t' -> get_height (get_left t') = get_height (get_right t') + 1) /\
  (start > get_start t' -> get_height (get_right t') = get_height (get_left t') + 1).

Lemma insert_fix_left a d l l' r start :
  avl l' -> avl r -> get_height l <= get_height l' <= get_height l + 1 -> (l = Leaf -> get_height l' <= 1) ->
  -1 <= get_height l - get_height r <= 1 -> start < v_start d -> grew start l l' ->
  let t' := insert_fix (mk a d l' r) start in
  let h := 1 + Z.max (get_height l) (get_height r) in
  rebalanced a d l' r t' /\ h <= get_height t' <= h + 1 /\
  (get_height t' = h + 1 -> get_start t' = v_start d /\ get_height (get_left t') = get_height (get_right t') + 1).
Proof.
  intros Hl Hr Hgr Hleaf Hb Hs Hdir. unfold insert_fix. cbv zeta. rewrite balance_mk.
  change (get_left (mk a d l' r)) with l'. change (get_right (mk a d l' r)) with r.
  pose proof (proj1 (height_nonneg r Hr)). pose proof (proj1 (height_nonneg l' Hl)).
  assert ((get_height l' - get_height r <? -1) = false) as -> by (apply Z.ltb_ge; lia).
  destruct (Z.gtb_spec (get_height l' - get_height r) 1); cbn [andb].
  2: { split; [apply rebalanced_mk; done || lia|]. split; [heights|]. rewrite height_mk. intros.
       change (get_start (mk a d l' r)) with (v_start d). change (get_left (mk a d l' r)) with l'.
       change (get_right (mk a d l' r)) with r. split; [done|lia]. }
  destruct (Hdir ltac:(lia)) as (Hne & HL & HR); [intros ->; specialize (Hleaf eq_refl); lia|].
  destruct (height_node l' Hl ltac:(lia)) as (b & e & ll & lr & -> & Hll & Hlr & Hlb).
  change (get_start (mk b e ll lr)) with (v_start e) in *. change (get_left (mk b e ll lr)) with ll in *.
  change (get_right (mk b e ll lr)) with lr in *.
  destruct (Z.ltb_spec start (v_start e)).
  - specialize (HL ltac:(lia)). destruct (rebalanced_LL a d b e ll lr r) as [Rb Hh]; try done; try lia.
    rewrite Hh by lia. split; [done|]. heights.
  - rewrite Z.gtb_ltb, (proj2 (Z.ltb_lt (v_start e) start)) by lia. specialize (HR ltac:(lia)). rewrite height_mk in *.
    destruct (height_node lr Hlr) as (c & f & lrl & lrr & -> & Hlrl & Hlrr & Hlrb).
    { pose proof (proj1 (height_nonneg ll Hll)). lia. }
    destruct (rebalanced_LR a d b e ll c f lrl lrr r) as [Rb Hh]; try done; try heights.
    rewrite Hh. split; [done|]. heights.
Qed.

Lemma insert_fix_right a d l r r' start :
  avl l -> avl r' -> get_height r <= get_height r' <= get_height r + 1 -> (r = Leaf -> get_height r' <= 1) ->
  -1 <= get_height l - get_height r <= 1 -> v_start d < start -> grew start r r' ->
  let t' := insert_fix (mk a d l r') start in
  let h := 1 + Z.max (get_height l) (get_height r) in
  rebalanced a d l r' t' /\ h <= get_height t' <= h + 1 /\
  (get_height t' = h + 1 -> get_start t' = v_start d /\ get_height (get_right t') = get_height (get_left t') + 1).
Proof.
  intros Hl Hr Hgr Hleaf Hb Hs Hdir. unfold insert_fix. cbv zeta. rewrite balance_mk.
  change (get_left (mk a d l r')) with l. change (get_right (mk a d l r')) with r'.
  pose proof (proj1 (height_nonneg l Hl)). pose proof (proj1 (height_nonneg r' Hr)).
  assert ((get_height l - get_height r' >? 1) = false) as -> by (rewrite Z.gtb_ltb; apply Z.ltb_ge; lia).
  destruct (Z.ltb_spec (get_height l - get_height r') (-1)); cbn [andb].
  2: { split; [apply rebalanced_mk; done || lia|]. split; [heights|]. rewrite height_mk. intros.
       change (get_start (mk a d l r')) with (v_start d). change (get_left (mk a d l r')) with l.
       change (get_right (mk a d l r')) with r'. split; [done|lia]. }
  destruct (Hdir ltac:(lia)) as (Hne & HL & HR); [intros ->; specialize (Hleaf eq_refl); lia|].
  destruct (height_node r' Hr ltac:(lia)) as (b & e & rl & rr & -> & Hrl & Hrr & Hrb).
  change (get_start (mk b e rl rr)) with (v_start e) in *. change (get_left (mk b e rl rr)) with rl in *.
  change (get_right (mk b e rl rr)) with rr in *.
  rewrite Z.gtb_ltb. destruct (Z.ltb_spec (v_start e) start).
  - specialize (HR ltac:(lia)). destruct (rebalanced_RR a d l b e rl rr) as [Rb Hh]; try done; try lia.
    rewrite Hh by lia. split; [done|]. heights.
  - rewrite (proj2 (Z.ltb_lt start (v_start e))) by lia. specialize (HL ltac:(lia)). rewrite height_mk in *.
    destruct (height_node rl Hrl) as (c & f & rll & rlr & -> & Hrll & Hrlr & Hrlb).
    { pose proof (proj1 (height_nonneg rr Hrr)). lia. }
    destruct (rebalanced_RL a d l b e c f rll rlr rr) as [Rb Hh]; try done; try heights.
    rewrite Hh. split; [done|]. heights.
Qed.

(** [l'] is the sorted list [l] with [d] added. *)
Definition inserted (d : vma_data) (l l' : list vma_data) : Prop :=
  exists l1 l2, l = l1 ++ l2 /\ l' = l1 ++ d :: l2 /\
    Forall (fun w => v_start w < v_start d) l1 /\ Forall (fun w => v_start d < v_start w) l2.

Lemma inserted_left d l l' w r :
  inserted d l l' -> v_start d < v_start w -> Forall (fun u => v_start w < v_start u) r ->
  inserted d (l ++ w :: r) (l' ++ w :: r).
Proof.
  intros (l1 & l2 & -> & -> & H1 & H2) Hw Hr. exists l1, (l2 ++ w :: r).
  split_and!; [by rewrite app_assoc|by rewrite <- app_assoc|done|]. apply Forall_app. split; [done|].
  constructor; [done|]. eapply Forall_impl; [exact Hr|]. simpl. lia.
Qed.

Lemma inserted_right d l l' w r :
  inserted d r l' -> v_start w < v_start d -> Forall (fun u => v_start u < v_start w) l ->
  inserted d (l ++ w :: r) (l ++ w :: l').
Proof.
  intros (l1 & l2 & -> & -> & H1 & H2) Hw Hr. exists (l ++ w :: l1), l2.
  split_and!; [by rewrite <- app_assoc|by rewrite <- app_assoc| |done]. apply Forall_app. split.
  - eapply Forall_impl; [exact Hr|]. simpl. lia.
  - by constructor.
Qed.

(** Starts increase along an ordered list. *)
Lemma ordered_starts l1 v l2 : ordered (l1 ++ v :: l2) ->
  Forall (fun w => v_start w < v_start v) l1 /\ Forall (fun w => v_start v < v_start w) l2.
Proof.
  intros (O1 & O2 & Rv & B1 & B2 & _)%ordered_middle. split; apply Forall_forall; intros w Hw.
  - destruct O1 as [R1 _]. rewrite Forall_forall in R1, B1. apply before_start; auto.
  - rewrite Forall_forall in B2. apply before_start; auto.
Qed.

Record insert_outcome (p : Z) (d : vma_data) (t t' : tree) : Prop := {
  io_avl : avl t';
  io_height : get_height t <= get_height t' <= get_height t + 1;
  io_leaf : t = Leaf -> get_height t' <= 1;
  io_addrs : addrs t' ≡ₚ p :: addrs t;
  io_elems : inserted d (elems t) (elems t');
  io_grew : grew (v_start d) t t';
}.

Lemma insert_node_spec p d0 t :
  avl t -> ordered (elems t) -> Forall (fun w => v_start w <> v_start d0) (elems t) ->
  insert_outcome p d0 t (insert_node t (mk p d0 Leaf Leaf)).
Proof.
  set (new := mk p d0 Leaf Leaf). assert (get_start new = v_start d0) as Hns by done.
  induction t as [|a d m h l IHl r IHr]; cbn [insert_node]; intros Ht Ho Hne.
  { split; [by apply avl_mk|simpl; lia|simpl; lia|done|by exists [], []|by intros ? ?]. }
  pose proof (avl_node_mk _ _ _ _ _ _ Ht) as Em. destruct Ht as (Hl & Hr & Hb & Hh & _).
  cbn [inorder_gather] in Ho, Hne.
  destruct (ordered_starts _ _ _ Ho) as [S1 S2]. apply ordered_middle in Ho as (O1 & O2 & _).
  apply Forall_app in Hne as [N1 [Nd N2]%Forall_cons]. rewrite !Hns, !update_node_mk.
  destruct (Z.ltb_spec (v_start d0) (v_start d)).
  - destruct (IHl Hl O1 N1) as [A1 H1 L1 P1 E1 G1].
    destruct (insert_fix_left a d l (insert_node l new) r (v_start d0)) as ([RA RE RP _] & HB & HG); try done.
    cbv zeta in *. split; try done; simpl get_height; rewrite ?Hh; try lia.
    + rewrite RP, P1. simpl. solve_Permutation.
    + rewrite RE. by apply inserted_left.
    + intros Hg _. simpl in Hg. destruct (HG Hg) as [-> ?]. split; [lia|]. split; [done|lia].
  - rewrite Z.gtb_ltb, (proj2 (Z.ltb_lt (v_start d) (v_start d0))) by lia.
    destruct (IHr Hr O2 N2) as [A1 H1 L1 P1 E1 G1].
    destruct (insert_fix_right a d l r (insert_node r new) (v_start d0)) as ([RA RE RP _] & HB & HG); try done; try lia.
    cbv zeta in *. split; try done; simpl get_height; rewrite ?Hh; try lia.
    + rewrite RP, P1. simpl. solve_Permutation.
    + rewrite RE. apply inserted_right; [done|lia|done].
    + intros Hg _. simpl in Hg. destruct (HG Hg) as [-> ?]. split; [lia|]. split; [lia|done].
Qed.

(** ** Deletion *)

(** The leftmost node's data heads the contents. *)
Lemma min_value_first d l rest :
  exists more, elems l ++ d :: rest = min_value_node d l :: more.
Proof.
  revert d rest. induction l as [|a d' m h l IHl r IHr]; intros d rest; simpl; [eauto|].
  rewrite <- app_assoc. simpl. apply IHl.
Qed.

Section Delete.
Context {A : Type} `{!ObjAlloc A}.

(** Deleting the region [v] that lies between [l1] and [l2]. *)
Record delete_outcome (t : tree) (l1 l2 : list vma_data) (s : A) (res : tree * bool * A) : Prop := {
  do_avl : avl res.1.1;
  do_height : get_height t - 1 <= get_height res.1.1 <= get_height t;
  do_elems : elems res.1.1 = l1 ++ l2;
  do_deleted : res.1.2 = true;
  do_free : exists p, res.2 = obj_free s p /\ addrs t ≡ₚ p :: addrs res.1.1;
}.

Lemma delete_spec_fix a d m h l r l' r' d' l1 l2 s p b :
  avl (Node a d m h l r) -> avl l' -> avl r' ->
  get_height l - 1 <= get_height l' <= get_height l -> get_height r - 1 <= get_height r' <= get_height r ->
  get_height l' = get_height l \/ get_height r' = get_height r ->
  elems l' ++ d' :: elems r' = l1 ++ l2 -> b = true ->
  a :: addrs l ++ addrs r ≡ₚ p :: a :: addrs l' ++ addrs r' ->
  delete_outcome (Node a d m h l r) l1 l2 s (delete_fix (Node a d' m h l' r'), b, obj_free s p).
Proof.
  intros (_ & _ & Hb & -> & _) Hl' Hr' H1 H2 Hone He -> Hp. set (h := 1 + _).
  destruct (delete_fix_spec a d' m h l' r' Hl' Hr' ltac:(lia)) as [[RA RE RP RH] HX].
  split; cbn [fst snd]; try done.
  - change (get_height (Node a d m h l r)) with h. unfold h at 1 4. destruct (Z_lt_le_dec 1 (Z.abs (get_height l' - get_height r'))); [lia|]. rewrite HX in * by lia. lia.
  - by rewrite RE.
  - exists p. split; [done|]. rewrite RP. exact Hp.
Qed.

(** [delete_fix] of a balanced tree. *)
Lemma delete_fix_balanced t : avl t -> t <> Leaf ->
  avl (delete_fix t) /\ elems (delete_fix t) = elems t /\ addrs (delete_fix t) ≡ₚ addrs t /\
  get_height (delete_fix t) = get_height t.
Proof.
  destruct t as [|a d m h l r]; [done|]. intros (Hl & Hr & Hb & Hh & _) _.
  destruct (delete_fix_spec a d m h l r Hl Hr ltac:(lia)) as [[RA RE RP RH] HX].
  split_and!; try done. rewrite HX by done. done.
Qed.

Lemma delete_only_child a d m h l r s t l1 l2 :
  avl (Node a d m h l r) -> (l = Leaf /\ t = r) \/ (r = Leaf /\ t = l) -> t <> Leaf ->
  elems l = l1 -> elems r = l2 ->
  delete_outcome (Node a d m h l r) l1 l2 s (delete_fix t, true, obj_free s a).
Proof.
  intros (Hl & Hr & Hb & Hh & _) Ht Hn <- <-.
  assert (avl t) as Hat by (destruct Ht as [[_ ->]|[_ ->]]; done).
  destruct (delete_fix_balanced t Hat Hn) as (RA & RE & RP & RH).
  pose proof (proj1 (height_nonneg t Hat)). split; cbn [fst snd]; try done.
  - rewrite RH. change (get_height (Node a d m h l r)) with h. rewrite Hh.
    destruct Ht as [[-> ->]|[-> ->]]; change (get_height Leaf) with 0 in *; lia.
  - rewrite RE. destruct Ht as [[-> ->]|[-> ->]]; [done|]. simpl. by rewrite app_nil_r.
  - exists a. split; [done|]. rewrite RP. simpl.
    destruct Ht as [[-> ->]|[-> ->]]; simpl; [done|by rewrite app_nil_r].
Qed.

Lemma app_middle_cases {X} (l r l1 l2 : list X) d v :
  l ++ d :: r = l1 ++ v :: l2 ->
  (exists k, l = l1 ++ v :: k /\ l2 = k ++ d :: r) \/ (l = l1 /\ d = v /\ r = l2) \/
  (exists k, l1 = l ++ d :: k /\ r = k ++ v :: l2).
Proof.
  revert l1. induction l as [|x l IH]; intros [|y l1]; simpl; intros [= -> E].
  - right. left. done.
  - right. right. exists l1. by rewrite E.
  - left. exists l. by rewrite E.
  - destruct (IH l1 E) as [(k & -> & ->)|[(-> & -> & ->)|(k & -> & ->)]]; eauto 10.
Qed.

Lemma delete_node_spec t l1 v l2 b s :
  avl t -> ordered (elems t) -> elems t = l1 ++ v :: l2 ->
  delete_outcome t l1 l2 s (delete_node t (v_start v) b s).
Proof.
  revert l1 v l2 b s. induction t as [|a d m h l IHl r IHr]; intros l1 v l2 b s Ht Ho He.
  { by destruct l1. }
  pose proof Ht as (Hl & Hr & Hb & Hh & _). cbn [inorder_gather] in Ho, He. cbn [delete_node].
  destruct (ordered_starts _ _ _ Ho) as [S1 S2]. rewrite Forall_forall in S1, S2.
  pose proof Ho as (O1 & O2 & _)%ordered_middle.
  destruct (app_middle_cases _ _ _ _ _ _ He) as [(k & El & ->)|[(El & <- & Er)|(k & -> & Er)]].
  - assert (v_start v < v_start d) by (apply S1; rewrite El; set_solver).
    rewrite (proj2 (Z.ltb_lt _ _)) by done.
    destruct (IHl l1 v k b s Hl O1 El) as [DA DH DE DD (p & DF & DP)].
    destruct (delete_node l (v_start v) b s) as [[l' b'] s']. cbn [fst snd] in *. subst s'.
    eapply delete_spec_fix; try done; [lia|by right| |].
    + rewrite DE, <- app_assoc. done.
    + rewrite DP. solve_Permutation.
  - rewrite Z.gtb_ltb, Z.ltb_irrefl. destruct l as [|la ld lm lh ll lr].
    { destruct r as [|ra rd rm rh rl rr]; [|by apply delete_only_child; auto].
      simpl in *. subst. split; simpl; first [done|lia|by exists a]. }
    destruct r as [|ra rd rm rh rl rr]; [by apply delete_only_child; auto|].
    destruct (min_value_first rd rl (elems rr)) as [more Em].
    set (temp := min_value_node rd rl) in *.
    destruct (IHr [] temp more true s Hr O2 Em) as [DA DH DE DD (p & DF & DP)].
    destruct (delete_node (Node ra rd rm rh rl rr) (v_start temp) true s) as [[r' b'] s']. cbn [fst snd] in *. subst s'.
    eapply delete_spec_fix; try done; [lia|by left| |].
    + rewrite DE, El, <- Er. cbn [inorder_gather app]. by rewrite Em.
    + rewrite DP. solve_Permutation.
  - assert (v_start d < v_start v) by (apply S2; rewrite Er; set_solver).
    rewrite (proj2 (Z.ltb_ge _ _)), Z.gtb_ltb, (proj2 (Z.ltb_lt _ _)) by lia.
    destruct (IHr k v l2 b s Hr O2 Er) as [DA DH DE DD (p & DF & DP)].
    destruct (delete_node r (v_start v) b s) as [[r' b'] s']. cbn [fst snd] in *. subst s'.
    eapply delete_spec_fix; try done; [lia|by left| |].
    + rewrite DE, <- app_assoc. done.
    + rewrite DP. solve_Permutation.
Qed.
End Delete.

(** ** Searching *)

(** Regions end below the tree's maximum. *)
Lemma max_end_bound t : avl t -> Forall (fun v => v_end v <= get_max_end t) (elems t).
Proof.
  induction t as [|a d m h l IHl r IHr]; [constructor|]. intros (Hl & Hr & _ & _ & ->). simpl.
  apply Forall_app. split; [|constructor; [lia|]].
  - eapply Forall_impl; [by apply IHl|]. simpl. lia.
  - eapply Forall_impl; [by apply IHr|]. simpl. lia.
Qed.


Definition contains (v : vma_data) (addr : Z) : Prop := v_start v <= addr < v_end v.
Definition overlaps (v : vma_data) (start end_ : Z) : Prop := v_start v < end_ /\ start < v_end v.

#[export] Instance overlaps_dec v start end_ : Decision (overlaps v start end_).
Proof. unfold overlaps. apply _. Defined.
#[export] Instance contains_dec v addr : Decision (contains v addr).
Proof. unfold contains. apply _. Defined.

(** Both searches have the same shape: a test of the node, then the left
    subtree unless all of it ends at or below [lo], then the right one. *)
Section Search.
Context (test : vma_data -> bool) (lo : Z) (find : tree -> option (Z * vma_data)).
Hypothesis find_leaf : find Leaf = None.
Hypothesis find_node : forall a d m h l r, find (Node a d m h l r) =
  if test d then Some (a, d)
  else match (match l with Leaf => None | Node _ _ lm _ _ _ => if lm >? lo then find l else None end) with
       | Some res => Some res
       | None => find r
       end.
Hypothesis test_lo : forall d, test d = true -> lo < v_end d.

Lemma search_spec t : avl t ->
  match find t with
  | Some (a, d) => a ∈ addrs t /\ d ∈ elems t /\ test d = true
  | None => Forall (fun d => test d = false) (elems t)
  end.
Proof.
  induction t as [|a d m h l IHl r IHr]; intros Ht; [by rewrite find_leaf; constructor|].
  rewrite find_node. destruct Ht as (Hl & Hr & _). specialize (IHl Hl). specialize (IHr Hr). simpl.
  destruct (test d) eqn:Ed; [set_solver|].
  set (left := match l with Leaf => None | _ => _ end).
  assert (match left with
    | Some (a, d) => a ∈ addrs l /\ d ∈ elems l /\ test d = true
    | None => Forall (fun d => test d = false) (elems l) end) as Hleft.
  { unfold left. destruct l as [|la ld lm lh ll lr]; [constructor|].
    destruct (Z.gtb_spec lm lo); [done|].
    pose proof (max_end_bound _ Hl) as Hm. eapply Forall_impl; [exact Hm|]. simpl. intros v Hv.
    destruct (test v) eqn:Ev; [|done]. apply test_lo in Ev. lia. }
  destruct left as [[la ld]|]; [set_solver|].
  destruct (find r) as [[ra rd]|]; [set_solver|]. apply Forall_app. split; [done|]. by constructor.
Qed.
End Search.

Lemma vma_find_spec t addr : avl t ->
  match vma_find_recursive t addr with
  | Some (a, d) => a ∈ addrs t /\ d ∈ elems t /\ contains d addr
  | None => Forall (fun d => ~ contains d addr) (elems t)
  end.
Proof.
  intros Ht. set (test := fun d => (addr >=? v_start d) && (addr <? v_end d)).
  assert (forall d, test d = true <-> contains d addr) as Hc.
  { intros d. unfold test, contains. rewrite andb_true_iff, Z.geb_leb, Z.leb_le, Z.ltb_lt. done. }
  pose proof (search_spec test addr (fun t => vma_find_recursive t addr) eq_refl
    (fun _ _ _ _ _ _ => eq_refl) ltac:(intros d Hd%Hc; unfold contains in Hd; lia) t Ht) as S.
  simpl in S. destruct (vma_find_recursive t addr) as [[a d]|]; [by rewrite <- Hc|].
  eapply Forall_impl; [exact S|]. simpl. intros d Hd Hn%Hc. congruence.
Qed.

Lemma vma_find_overlap_spec t start end_ : avl t ->
  match vma_find_overlap_recursive t start end_ with
  | Some (a, d) => a ∈ addrs t /\ d ∈ elems t /\ overlaps d start end_
  | None => Forall (fun d => ~ overlaps d start end_) (elems t)
  end.
Proof.
  intros Ht. set (test := fun d => (v_start d <? end_) && (v_end d >? start)).
  assert (forall d, test d = true <-> overlaps d start end_) as Hc.
  { intros d. unfold test, overlaps. rewrite andb_true_iff, Z.gtb_ltb, !Z.ltb_lt. done. }
  pose proof (search_spec test start (fun t => vma_find_overlap_recursive t start end_) eq_refl
    (fun _ _ _ _ _ _ => eq_refl) ltac:(intros d Hd%Hc; unfold overlaps in Hd; lia) t Ht) as S.
  simpl in S. destruct (vma_find_overlap_recursive t start end_) as [[a d]|]; [by rewrite <- Hc|].
  eapply Forall_impl; [exact S|]. simpl. intros d Hd Hn%Hc. congruence.
Qed.

(** ** Depth *)

(** A tree of height [h] has at least [2^(h/2)] nodes less one. *)
Lemma height_log t : avl t -> 2 ^ (get_height t / 2) <= zlen (elems t) + 1.
Proof.
  remember (Z.to_nat (get_height t)) as n eqn:En. revert t En.
  induction n as [n IH] using lt_wf_ind. intros t En Ht.
  pose proof (proj1 (height_nonneg t Ht)).
  destruct t as [|a d m h l r]; [by vm_compute|]. cbn [get_height inorder_gather] in *.
  destruct Ht as (Hl & Hr & Hb & -> & _).
  pose proof (proj1 (height_nonneg l Hl)). pose proof (proj1 (height_nonneg r Hr)).
  assert (zlen (elems l ++ d :: elems r) + 1 = (zlen (elems l) + 1) + (zlen (elems r) + 1)) as ->.
  { unfold zlen. rewrite length_app. simpl. lia. }
  pose proof (IH (Z.to_nat (get_height l)) ltac:(lia) l eq_refl Hl) as Bl. pose proof (IH (Z.to_nat (get_height r)) ltac:(lia) r eq_refl Hr) as Br.
  set (x := Z.min (get_height l) (get_height r)).
  assert (2 ^ (x / 2) <= 2 ^ (get_height l / 2) /\ 2 ^ (x / 2) <= 2 ^ (get_height r / 2)) as [B1 B2].
  { split; apply pow2_le; (split; [apply Z.div_pos; lia|apply Z.div_le_mono; lia]). }
  assert (2 ^ ((1 + Z.max (get_height l) (get_height r)) / 2) <= 2 ^ (x / 2 + 1)) as B3.
  { apply pow2_le. split; [apply Z.div_pos; lia|]. replace (x / 2 + 1) with ((x + 1 * 2) / 2) by (apply Z.div_add; lia).
    apply Z.div_le_mono; lia. }
  rewrite pow2_succ in B3 by (apply Z.div_pos; lia). lia.
Qed.
