(* ===== verification/VmaSpec.v ===== *)
(** * What the region operations do to an address space

    The abstract view of a region list is a partial map from addresses to
    attributes ([view]).  The lemmas here state for each operation of
    [kernel/src/mm/vma.c] which view results, together with the invariant
    [vma_wf] of the list and of the node cache behind it. *)

From S2P Require Import Prelude ObjAlloc Vma VmaTree.
From Stdlib Require Import Sorting.Sorted.

(** Protection, flags, file and offset in the file; the offset of an anonymous
    mapping means nothing. *)
Definition attr : Type := Z * Z * Z * Z.

Definition attr_of (v : vma_data) (addr : Z) : attr :=
  (v_prot v, v_flags v, v_fd v, if v_fd v =? -1 then 0 else u64 (v_offset v + (addr - v_start v))).

Definition containsb (v : vma_data) (addr : Z) : bool := (v_start v <=? addr) && (addr <? v_end v).

Fixpoint view (l : list vma_data) (addr : Z) : option attr :=
  match l with
  | [] => None
  | v :: l' => if containsb v addr then Some (attr_of v addr) else view l' addr
  end.

Lemma containsb_spec v addr : containsb v addr = true <-> contains v addr.
Proof. unfold containsb, contains. rewrite andb_true_iff, Z.leb_le, Z.ltb_lt. done. Qed.

Lemma view_app l1 l2 addr :
  view (l1 ++ l2) addr = match view l1 addr with Some x => Some x | None => view l2 addr end.
Proof. induction l1 as [|v l1 IH]; simpl; [done|]. by destruct (containsb v addr). Qed.

Lemma view_none l addr : view l addr = None <-> Forall (fun v => ~ contains v addr) l.
Proof.
  induction l as [|v l IH]; simpl; [done|]. rewrite Forall_cons, <- IH.
  pose proof (containsb_spec v addr). destruct (containsb v addr); split; try done; [|intros; split; [|done]|intros [_ ?]; done].
  - intros [Hn _]. by destruct Hn; apply H.
  - rewrite <- H. done.
Qed.

Lemma before_not_contains v w addr : before v w -> contains v addr -> ~ contains w addr.
Proof. unfold before, contains. lia. Qed.

(** The view of an ordered list with one region singled out. *)
Lemma view_middle l1 v l2 addr : ordered (l1 ++ v :: l2) ->
  view (l1 ++ v :: l2) addr = if containsb v addr then Some (attr_of v addr) else view (l1 ++ l2) addr.
Proof.
  intros (_ & _ & _ & B1 & B2 & _)%ordered_middle. rewrite !view_app. simpl.
  destruct (containsb v addr) eqn:E; [|done]. apply containsb_spec in E.
  assert (view l1 addr = None) as ->; [|done]. apply view_none. eapply Forall_impl; [exact B1|].
  intros w Hw Hc. exact (before_not_contains w v addr Hw Hc E).
Qed.

Lemma view_without l1 v l2 addr : ordered (l1 ++ v :: l2) ->
  view (l1 ++ l2) addr = if containsb v addr then None else view (l1 ++ v :: l2) addr.
Proof.
  intros Ho. rewrite (view_middle l1 v l2 addr Ho). destruct (containsb v addr) eqn:E; [|done].
  apply containsb_spec in E. apply ordered_middle in Ho as (_ & _ & _ & B1 & B2 & _).
  apply view_none, Forall_app. split.
  - eapply Forall_impl; [exact B1|]. intros w Hw Hc. exact (before_not_contains w v addr Hw Hc E).
  - eapply Forall_impl; [exact B2|]. intros w Hw. exact (before_not_contains v w addr Hw E).
Qed.

(** ** Adding a region to an ordered list *)

Lemma inserted_ordered d l l' :
  ordered l -> region d -> Forall (fun w => ~ overlaps w (v_start d) (v_end d)) l -> inserted d l l' -> ordered l'.
Proof.
  intros Ho Hd Hn (l1 & l2 & -> & -> & H1 & H2). destruct Ho as [Hr Hs].
  apply Forall_app in Hr as [R1 R2]. apply Forall_app in Hn as [N1 N2].
  assert (Forall (fun w => before w d) l1) as B1.
  { apply Forall_forall. intros w Hw. rewrite Forall_forall in H1, N1. specialize (H1 w Hw). specialize (N1 w Hw).
    unfold overlaps, before, region in *. simpl in *. lia. }
  assert (Forall (before d) l2) as B2.
  { apply Forall_forall. intros w Hw. rewrite Forall_forall in H2, N2, R2.
    specialize (H2 w Hw). specialize (N2 w Hw). specialize (R2 w Hw).
    unfold overlaps, before, region in *. simpl in *. lia. }
  assert (StronglySorted before l1 /\ StronglySorted before l2) as [S1 S2].
  { clear -Hs. induction l1 as [|x l1 IH]; [split; [constructor|done]|]. simpl in Hs.
    apply StronglySorted_inv in Hs as [Hs Hx]. destruct (IH Hs). apply Forall_app in Hx as [? _].
    split; [by constructor|done]. }
  apply ordered_middle. split_and!; try done.
  apply Forall_forall. intros w Hw. apply Forall_forall. intros u Hu.
  rewrite Forall_forall in B1, B2. specialize (B1 w Hw). specialize (B2 u Hu). unfold before, region in *. lia.
Qed.

Lemma inserted_view d l l' addr : ordered l' -> inserted d l l' ->
  view l' addr = if containsb d addr then Some (attr_of d addr) else view l addr.
Proof. intros Ho (l1 & l2 & -> & -> & _). by apply view_middle. Qed.

Lemma inserted_perm d l l' : inserted d l l' -> l' ≡ₚ d :: l.
Proof. intros (l1 & l2 & -> & -> & _). symmetry. apply Permutation_middle. Qed.

Lemma same_start_overlaps d l :
  region d -> Forall region l -> Forall (fun w => ~ overlaps w (v_start d) (v_end d)) l ->
  Forall (fun w => v_start w <> v_start d) l.
Proof.
  intros Hd Hr Hn. apply Forall_forall. intros w Hw E. rewrite Forall_forall in Hr, Hn.
  apply (Hn w Hw). specialize (Hr w Hw). unfold overlaps, region in *. lia.
Qed.

(** Two ordered lists with the same regions are equal. *)
Lemma ordered_perm_eq l l' : ordered l -> ordered l' -> l ≡ₚ l' -> l = l'.
Proof.
  revert l'. induction l as [|v l IH]; intros l' Ho Ho' Hp.
  { by apply Permutation_nil in Hp as ->. }
  destruct l' as [|w l']; [by apply Permutation_sym, Permutation_nil in Hp|].
  pose proof (ordered_starts [] v l Ho) as [_ S1]. pose proof (ordered_starts [] w l' Ho') as [_ S2].
  assert (v = w) as <-.
  { assert (v ∈ w :: l') as Hv by (rewrite <- Hp; left). assert (w ∈ v :: l) as Hw by (rewrite Hp; left).
    apply elem_of_cons in Hv as [?|Hv]; [done|]. apply elem_of_cons in Hw as [?|Hw]; [done|].
    rewrite Forall_forall in S1, S2. specialize (S1 w Hw). specialize (S2 v Hv). lia. }
  f_equal. apply IH.
  - by apply (ordered_app_drop [] v l).
  - by apply (ordered_app_drop [] v l').
  - by apply Permutation_cons_inv in Hp.
Qed.

(** ** The invariant *)

Section Ops.
Context {A : Type} `{!ObjAlloc A}.

(** Well-formed tree, exact count, and a cache whose live objects are the nodes
    of this tree and the objects [F] of other owners. *)
Record vma_wf (list : vma_list) (F : gset Z) (s : A) : Prop := {
  vw_avl : avl (root list);
  vw_ordered : ordered (elems (root list));
  vw_count : count list = zlen (elems (root list));
  vw_nodup : NoDup (addrs (root list));
  vw_frame : forall p, p ∈ addrs (root list) -> p ∉ F;
  vw_live : obj_live s = list_to_set (addrs (root list)) ∪ F;
  vw_ok : obj_ok s;
}.

(** The allocator never refuses. *)
Definition never_fails : Prop := forall s : A, exists p s', obj_alloc s = (Some p, s').

Lemma new_node_mk p d : region d -> Node p d (v_end d) 1 Leaf Leaf = mk p d Leaf Leaf.
Proof.
  intros [? ?]. rewrite mk_shape. change (get_max_end Leaf) with 0. change (get_height Leaf) with 0.
  f_equal; lia.
Qed.

Lemma vma_add_spec list start end_ prot flags fd offset F s r list' s' :
  vma_wf list F s -> 0 <= start < end_ ->
  vma_add list start end_ prot flags fd offset s = (r, list', s') ->
  let d := VmaData start end_ prot flags fd offset in
  vma_wf list' F s' /\
  ((r = 0 /\ Forall (fun w => ~ overlaps w start end_) (elems (root list)) /\
    inserted d (elems (root list)) (elems (root list'))) \/
   (r = -1 /\ list' = list /\
    (~ Forall (fun w => ~ overlaps w start end_) (elems (root list)) \/ (obj_alloc s).1 = None))).
Proof.
  intros W Hr. unfold vma_add, vma_find_overlap.
  pose proof (vma_find_overlap_spec (root list) start end_ (vw_avl _ _ _ W)) as Hf.
  destruct (vma_find_overlap_recursive (root list) start end_) as [[a v]|].
  { intros [= <- <- <-]. split; [done|]. right. split_and!; [done|done|left].
    destruct Hf as (_ & Hv & Ho). intros Hn. rewrite Forall_forall in Hn. by apply (Hn v Hv). }
  destruct (obj_alloc s) as [[p|] s1] eqn:Ea; intros [= <- <- <-].
  2: { destruct (obj_alloc_none s s1 (vw_ok _ _ _ W) Ea) as [Hok Hl]. split; [|right; split_and!; [done|done|by right]].
       destruct W. split; try done. by rewrite Hl. }
  set (d := VmaData start end_ prot flags fd offset). assert (region d) as Hd by (unfold region; simpl; lia).
  change (Node p d end_ 1 Leaf Leaf) with (Node p d (v_end d) 1 Leaf Leaf). rewrite (new_node_mk p d) by done.
  destruct (obj_alloc_some s p s1 (vw_ok _ _ _ W) Ea) as (Hok & Hp & Hl).
  destruct (insert_node_spec p d (root list)) as [IA IH IL IP IE IG]; [apply W|apply W| |].
  { apply same_start_overlaps; [done|apply W|done]. }
  pose proof (inserted_ordered d _ _ (vw_ordered _ _ _ W) Hd Hf IE) as HO.
  assert (p ∉ addrs (root list) /\ p ∉ F) as [Hp1 Hp2].
  { rewrite (vw_live _ _ _ W) in Hp. set_solver. }
  split; [|by left]. split; simpl; try done.
  - rewrite (vw_count _ _ _ W). apply inserted_perm, Permutation_length in IE. unfold zlen. simpl in IE. lia.
  - rewrite IP. constructor; [done|apply W].
  - intros q. rewrite IP. intros [->|Hq]%elem_of_cons; [done|by apply (vw_frame _ _ _ W)].
  - rewrite Hl, (vw_live _ _ _ W). apply set_eq. intros q.
    rewrite !elem_of_union, !elem_of_list_to_set, elem_of_singleton, IP, elem_of_cons. tauto.
Qed.

(** Taking the region [v] out of the tree. *)
Lemma delete_wf list l1 v l2 F s :
  vma_wf list F s -> elems (root list) = l1 ++ v :: l2 ->
  exists t s', delete_node (root list) (v_start v) false s = (t, true, s') /\
    elems t = l1 ++ l2 /\ vma_wf (VmaList t (count list - 1)) F s'.
Proof.
  intros W He. pose proof (vw_ordered _ _ _ W) as Ho.
  destruct (delete_node_spec (root list) l1 v l2 false s (vw_avl _ _ _ W) Ho He) as [DA DH DE DD (p & DF & DP)].
  destruct (delete_node (root list) (v_start v) false s) as [[t b] s']. cbn [fst snd] in *. subst b s'.
  exists t, (obj_free s p). split_and!; [done|done|].
  pose proof (vw_nodup _ _ _ W) as Hnd. rewrite DP in Hnd. apply NoDup_cons in Hnd as [Hpt Hnd].
  assert (p ∈ addrs (root list)) as Hp by (rewrite DP; left).
  pose proof (vw_frame _ _ _ W p Hp) as HpF.
  destruct (obj_free_live s p (vw_ok _ _ _ W)) as [Hok Hl]; [rewrite (vw_live _ _ _ W); set_solver|].
  split; simpl; try done.
  - rewrite DE. rewrite He in Ho. by eapply ordered_app_drop.
  - rewrite (vw_count _ _ _ W), He, DE. unfold zlen. rewrite !length_app. simpl. lia.
  - intros q Hq. apply (vw_frame _ _ _ W). rewrite DP. by right.
  - rewrite Hl, (vw_live _ _ _ W). apply set_eq. intros q.
    rewrite elem_of_difference, !elem_of_union, !elem_of_list_to_set, elem_of_singleton, DP, elem_of_cons.
    destruct (decide (q = p)) as [->|]; tauto.
Qed.

(** ** Removing a range *)

Definition overlapsb (start end_ : Z) (v : vma_data) : bool := (v_start v <? end_) && (start <? v_end v).

Lemma overlapsb_spec start end_ v : overlapsb start end_ v = true <-> overlaps v start end_.
Proof. unfold overlapsb, overlaps. rewrite andb_true_iff, !Z.ltb_lt. done. Qed.

(** Number of regions that overlap the range. *)
Definition hits (start end_ : Z) (l : list vma_data) : nat := length (List.filter (overlapsb start end_) l).

Lemma hits_app start end_ l1 l2 : hits start end_ (l1 ++ l2) = (hits start end_ l1 + hits start end_ l2)%nat.
Proof. unfold hits. by rewrite List.filter_app, length_app. Qed.

Lemma hits_le start end_ l : (hits start end_ l <= length l)%nat.
Proof. apply List.filter_length_le. Qed.

Lemma hits_inserted start end_ d l l' :
  inserted d l l' -> hits start end_ l' = (hits start end_ l + (if overlapsb start end_ d then 1 else 0))%nat.
Proof.
  intros (l1 & l2 & -> & -> & _). rewrite !hits_app. unfold hits at 2. simpl.
  destruct (overlapsb start end_ d); simpl; unfold hits; lia.
Qed.

(** No other region of an ordered list meets a part of [v]. *)
Lemma part_free l1 v l2 lo hi :
  ordered (l1 ++ v :: l2) -> v_start v <= lo -> hi <= v_end v ->
  Forall (fun w => ~ overlaps w lo hi) (l1 ++ l2).
Proof.
  intros (_ & _ & _ & B1 & B2 & _)%ordered_middle Hlo Hhi. apply Forall_app. split.
  - eapply Forall_impl; [exact B1|]. intros w. unfold before, overlaps. lia.
  - eapply Forall_impl; [exact B2|]. intros w. unfold before, overlaps. lia.
Qed.

(** Putting back the part of [v] between [lo] and [hi]. *)
Lemma add_part_spec v lo hi off F list s r list' s' :
  vma_wf list F s -> 0 <= lo < hi -> Forall (fun w => ~ overlaps w lo hi) (elems (root list)) ->
  let d := VmaData lo hi (v_prot v) (v_flags v) (v_fd v) off in
  (forall addr, attr_of d addr = attr_of v addr) ->
  vma_add list lo hi (v_prot v) (v_flags v) (v_fd v) off s = (r, list', s') ->
  vma_wf list' F s' /\
  (forall start end_, ~ overlaps d start end_ ->
     hits start end_ (elems (root list')) = hits start end_ (elems (root list))) /\
  (forall P : vma_data -> Prop, Forall P (elems (root list)) -> P d -> Forall P (elems (root list'))) /\
  (forall addr, view (elems (root list')) addr = view (elems (root list)) addr \/
     (lo <= addr < hi /\ view (elems (root list')) addr = Some (attr_of v addr))) /\
  (never_fails -> forall addr, view (elems (root list')) addr =
     if (lo <=? addr) && (addr <? hi) then Some (attr_of v addr) else view (elems (root list)) addr).
Proof.
  intros W Hlh Hn d Hattr Ha. pose proof Ha as Ha'.
  eapply vma_add_spec in Ha as [W' Hcase]; [|done|done]. fold d in Hcase.
  destruct Hcase as [(-> & _ & Hins)|(-> & -> & Hfail)].
  - assert (forall addr, view (elems (root list')) addr =
      if (lo <=? addr) && (addr <? hi) then Some (attr_of v addr) else view (elems (root list)) addr) as Hv.
    { intros addr. rewrite (inserted_view d _ _ addr (vw_ordered _ _ _ W') Hins), Hattr. done. }
    split_and!; try done.
    + intros start end_ Hno. rewrite (hits_inserted _ _ _ _ _ Hins).
      assert (overlapsb start end_ d = false) as ->; [|lia].
      destruct (overlapsb start end_ d) eqn:E; [|done]. by apply overlapsb_spec in E.
    + intros P HP Hd. rewrite (inserted_perm _ _ _ Hins). by constructor.
    + intros addr. rewrite Hv. destruct (_ && _) eqn:E; [|by left]. right. b2p. done.
  - split_and!; try done; [by left|]. intros Hnf. exfalso. destruct Hfail as [Ho|Ho]; [done|].
    destruct (Hnf s) as (p & s1 & E). rewrite E in Ho. done.
Qed.

Lemma attr_tail v lo :
  forall addr, attr_of (VmaData lo (v_end v) (v_prot v) (v_flags v) (v_fd v) (u64 (v_offset v + (lo - v_start v)))) addr
    = attr_of v addr.
Proof.
  intros addr. unfold attr_of; simpl. f_equal. destruct (v_fd v =? -1); [done|].
  unfold u64. rewrite Zplus_mod_idemp_l. f_equal. lia.
Qed.

(** What one iteration of [vma_remove] leaves of the view. *)
Definition shrinks (start end_ : Z) (l l' : list vma_data) : Prop :=
  (forall addr, view l' addr = view l addr \/ view l' addr = None) /\
  (never_fails -> forall addr, ~ (start <= addr < end_) -> view l' addr = view l addr).

(** [d] is a part of [v] outside the removed range. *)
Definition part (v : vma_data) (start end_ : Z) (d : vma_data) : Prop :=
  v_start v <= v_start d /\ v_start d < v_end d <= v_end v /\ (v_end d <= start \/ end_ <= v_start d).

(** [list'] is [list], which lacks [v], with parts of [v] put back. *)
Record restored (v : vma_data) (start end_ : Z) (F : gset Z) (list list' : vma_list) (s' : A) : Prop := {
  rs_wf : vma_wf list' F s';
  rs_hits : forall a b, (forall d, part v start end_ d -> ~ overlaps d a b) ->
    hits a b (elems (root list')) = hits a b (elems (root list));
  rs_all : forall P : vma_data -> Prop, Forall P (elems (root list)) ->
    (forall d, part v start end_ d -> P d) -> Forall P (elems (root list'));
  rs_view : forall addr, view (elems (root list')) addr = view (elems (root list)) addr \/
    (contains v addr /\ view (elems (root list')) addr = Some (attr_of v addr));
}.

Lemma restored_refl v start end_ F list s : vma_wf list F s -> restored v start end_ F list list s.
Proof. intros W. split; try done. by left. Qed.

Lemma restored_add v start end_ F list list1 s1 lo hi off r list2 s2 :
  restored v start end_ F list list1 s1 -> 0 <= lo < hi ->
  Forall (fun w => ~ overlaps w lo hi) (elems (root list1)) ->
  let d := VmaData lo hi (v_prot v) (v_flags v) (v_fd v) off in
  part v start end_ d -> (forall addr, attr_of d addr = attr_of v addr) ->
  vma_add list1 lo hi (v_prot v) (v_flags v) (v_fd v) off s1 = (r, list2, s2) ->
  restored v start end_ F list list2 s2 /\
  (never_fails -> forall addr, view (elems (root list2)) addr =
     if (lo <=? addr) && (addr <? hi) then Some (attr_of v addr) else view (elems (root list1)) addr).
Proof.
  intros [W1 H1 P1 V1] Hlh Hfree d Hd Hattr Ha.
  eapply (add_part_spec v) in Ha as (W2 & H2 & P2 & V2 & N2); [|done|done|done|done].
  split; [|done]. split; [done| | |].
  - intros a b Hno. rewrite H2, H1; [done|done|by apply Hno].
  - intros P HP Hall. apply P2; [by apply P1|by apply Hall].
  - intros addr. destruct (V2 addr) as [->|[? ->]]; [apply V1|]. right. split; [|done].
    destruct Hd as (? & ? & _). unfold contains. simpl in *. lia.
Qed.

(** The iteration on [v] once [v] has been taken out. *)
Lemma put_back_spec list v start end_ F s t s1 list' s' :
  region v -> overlaps v start end_ -> start <= end_ ->
  delete_node (root list) (v_start v) false s = (t, true, s1) ->
  let list1 := VmaList t (count list - 1) in
  vma_wf list1 F s1 ->
  (forall lo hi, v_start v <= lo -> hi <= v_end v -> Forall (fun w => ~ overlaps w lo hi) (elems t)) ->
  remove_one list v start end_ s = (list', s') ->
  restored v start end_ F list1 list' s' /\
  (never_fails -> forall addr, contains v addr -> ~ (start <= addr < end_) ->
     view (elems (root list')) addr = Some (attr_of v addr)).
Proof.
  intros [Hv0 Hv] Hov Hse Hdel list1 W1 Hfree. unfold remove_one. rewrite Hdel. fold list1.
  pose proof (restored_refl v start end_ F list1 s1 W1) as R1. unfold overlaps in Hov.
  destruct ((start >? v_start v) && (end_ <? v_end v)) eqn:C2; b2p.
  { destruct (vma_add list1 (v_start v) start _ _ _ _ s1) as [[r2 list2] s2] eqn:A1.
    destruct (vma_add list2 end_ (v_end v) _ _ _ _ s2) as [[r3 list3] s3] eqn:A2. intros [= <- <-].
    pose proof A1 as (_ & _ & P2 & _)%(add_part_spec v _ _ _ F); [|done|lia|apply Hfree; lia|done].
    eapply (restored_add v start end_ F list1) in A1 as [R2 N2];
      [|done|lia|apply Hfree; lia|unfold part; simpl; lia|done].
    eapply (restored_add v start end_ F list1) in A2 as [R3 N3]; [|done|lia| |unfold part; simpl; lia|apply attr_tail].
    - split; [done|]. intros Hnf addr Hc Hr. rewrite N3, N2 by done. unfold contains in Hc.
      repeat case_if; try done; exfalso; b2p; lia.
    - apply P2; [apply Hfree; lia|]. unfold overlaps. simpl. lia. }
  destruct ((start <=? v_start v) && (end_ >? v_start v) && (end_ <? v_end v)) eqn:C3.
  { b2p. destruct (vma_add list1 end_ (v_end v) _ _ _ _ s1) as [[r2 list2] s2] eqn:A1. intros [= <- <-].
    eapply (restored_add v start end_ F list1) in A1 as [R2 N2];
      [|done|lia|apply Hfree; lia|unfold part; simpl; lia|apply attr_tail].
    split; [done|]. intros Hnf addr Hc Hr. rewrite N2 by done. unfold contains in Hc.
    repeat case_if; try done; exfalso; b2p; lia. }
  destruct ((end_ >=? v_end v) && (start >? v_start v) && (start <? v_end v)) eqn:C4.
  { b2p. destruct (vma_add list1 (v_start v) start _ _ _ _ s1) as [[r2 list2] s2] eqn:A1. intros [= <- <-].
    eapply (restored_add v start end_ F list1) in A1 as [R2 N2];
      [|done|lia|apply Hfree; lia|unfold part; simpl; lia|done].
    split; [done|]. intros Hnf addr Hc Hr. rewrite N2 by done. unfold contains in Hc.
    repeat case_if; try done; exfalso; b2p; lia. }
  intros [= <- <-]. split; [done|]. intros _ addr Hc Hr. exfalso. unfold contains in Hc. lia.
Qed.

Record removed_one (start end_ : Z) (F : gset Z) (list : vma_list) (v : vma_data) (list' : vma_list) (s' : A) : Prop := {
  ro_wf : vma_wf list' F s';
  ro_hits : (hits start end_ (elems (root list')) < hits start end_ (elems (root list)))%nat;
  ro_later : forall a b, v_end v <= a -> hits a b (elems (root list')) = hits a b (elems (root list));
  ro_all : forall P : vma_data -> Prop, Forall P (elems (root list)) ->
    (forall d, part v start end_ d -> P d) -> Forall P (elems (root list'));
  ro_view : shrinks start end_ (elems (root list)) (elems (root list'));
}.

Lemma hits_middle a b l1 v l2 :
  hits a b (l1 ++ v :: l2) = (hits a b (l1 ++ l2) + if overlapsb a b v then 1 else 0)%nat.
Proof.
  rewrite !hits_app. unfold hits at 2. simpl. destruct (overlapsb a b v); simpl; unfold hits; lia.
Qed.

Lemma remove_one_spec list l1 v l2 start end_ F s list' s' :
  vma_wf list F s -> elems (root list) = l1 ++ v :: l2 -> overlaps v start end_ -> start <= end_ ->
  remove_one list v start end_ s = (list', s') -> removed_one start end_ F list v list' s'.
Proof.
  intros W He Hov Hse Hrem. pose proof (vw_ordered _ _ _ W) as Ho. rewrite He in Ho.
  assert (region v) as Hreg by (apply ordered_middle in Ho; tauto).
  destruct (delete_wf list l1 v l2 F s W He) as (t & s1 & Hd & Et & W1).
  destruct (put_back_spec list v start end_ F s t s1 list' s' Hreg Hov Hse Hd W1) as [[W' RH RA RV] N]; [|done|].
  { intros lo hi ? ?. rewrite Et. by eapply part_free. }
  simpl in RH, RA, RV. rewrite Et in RH, RA, RV.
  assert (forall addr, containsb v addr = true -> view (elems (root list)) addr = Some (attr_of v addr)) as V0.
  { intros addr Hc. by rewrite He, view_middle, Hc. }
  split; [done| | | |split].
  - rewrite RH, He, hits_middle, (proj2 (overlapsb_spec _ _ _) Hov); [lia|].
    intros d (? & ? & ?). unfold overlaps. lia.
  - intros a b Ha. rewrite RH, He, hits_middle.
    + destruct (overlapsb a b v) eqn:E; [|lia]. apply overlapsb_spec in E. unfold overlaps in E. lia.
    + intros d (? & ? & ?). unfold overlaps. lia.
  - intros P HP Hpart. apply RA; [|done]. rewrite He in HP. apply Forall_app in HP as [? [_ ?]%Forall_cons].
    by apply Forall_app.
  - intros addr. destruct (RV addr) as [->|[Hc ->]]; [|left; by rewrite V0 by (by apply containsb_spec)].
    rewrite (view_without l1 v l2 addr Ho), <- He. destruct (containsb v addr); auto.
  - intros Hnf addr Ha. destruct (containsb v addr) eqn:Ec; [rewrite V0 by done; apply N; [done|by apply containsb_spec|done]|].
    destruct (RV addr) as [->|[Hc%containsb_spec _]]; [|congruence].
    by rewrite (view_without l1 v l2 addr Ho), Ec, He.
Qed.

Lemma shrinks_trans start end_ l1 l2 l3 :
  shrinks start end_ l1 l2 -> shrinks start end_ l2 l3 -> shrinks start end_ l1 l3.
Proof.
  intros [H1 N1] [H2 N2]. split.
  - intros addr. destruct (H2 addr) as [->|]; [apply H1|by right].
  - intros Hnf addr Ha. rewrite N2, N1; done.
Qed.

Lemma remove_loop_spec n list start end_ b F s :
  vma_wf list F s -> start <= end_ -> (hits start end_ (elems (root list)) <= n)%nat ->
  exists b' list' s', remove_loop n list start end_ b s = Some (b', list', s') /\ vma_wf list' F s' /\
    Forall (fun w => ~ overlaps w start end_) (elems (root list')) /\
    shrinks start end_ (elems (root list)) (elems (root list')) /\
    (forall lo hi, Forall (fun w => overlaps w start end_ -> v_end w <= lo) (elems (root list)) ->
       hits lo hi (elems (root list')) = hits lo hi (elems (root list))) /\
    (b' = true <-> b = true \/ ~ Forall (fun w => ~ overlaps w start end_) (elems (root list))).
Proof.
  revert list b s. induction n as [|n IH]; intros list b s W Hse Hn; cbn [remove_loop]; unfold vma_find_overlap;
    pose proof (vma_find_overlap_spec (root list) start end_ (vw_avl _ _ _ W)) as Hf;
    destruct (vma_find_overlap_recursive (root list) start end_) as [[a v]|].
  1: { exfalso. destruct Hf as (_ & Hv & Ho). apply list_elem_of_In, in_split in Hv as (l1 & l2 & He).
       rewrite He, hits_app in Hn. unfold hits in Hn at 2. simpl in Hn.
       rewrite (proj2 (overlapsb_spec _ _ _) Ho) in Hn. simpl in Hn. lia. }
  1, 3: exists b, list, s; do 3 (split; [done|]); split; [split; [by left|done]|]; split; [done|split; [by left|by intros [?|?]]].
  destruct Hf as (_ & Hv & Ho). apply list_elem_of_In, in_split in Hv as (l1 & l2 & He).
  destruct (remove_one list v start end_ s) as [list1 s1] eqn:Er.
  destruct (remove_one_spec list l1 v l2 start end_ F s list1 s1 W He Ho Hse Er) as [W1 Hh L1 A1 S1].
  destruct (IH list1 true s1 W1 Hse ltac:(lia)) as (b' & list' & s' & -> & W' & Hno & S2 & H2 & Hb).
  exists b', list', s'. do 3 (split; [done|]). split; [by eapply shrinks_trans|].
  split; [|split; [|intros _; apply Hb; by left]].
  { intros lo hi Hall. rewrite H2, L1; [done| |].
    - rewrite Forall_forall in Hall. apply Hall; [rewrite He; set_solver|done].
    - apply A1; [done|]. intros d (? & ? & ?) ?. unfold overlaps in *. lia. }
  intros _. right. rewrite Forall_forall. intros Hall. apply (Hall v); [rewrite He; set_solver|done].
Qed.

Lemma vma_remove_spec list start end_ F s :
  vma_wf list F s -> start <= end_ ->
  exists b list' s', vma_remove list start end_ s = Some (b, list', s') /\ vma_wf list' F s' /\
    Forall (fun w => ~ overlaps w start end_) (elems (root list')) /\
    shrinks start end_ (elems (root list)) (elems (root list')) /\
    (forall lo hi, Forall (fun w => overlaps w start end_ -> v_end w <= lo) (elems (root list)) ->
       hits lo hi (elems (root list')) = hits lo hi (elems (root list))) /\
    (b = true <-> ~ Forall (fun w => ~ overlaps w start end_) (elems (root list))).
Proof.
  intros W Hse. destruct (remove_loop_spec (length (elems (root list))) list start end_ false F s W Hse)
    as (b & list' & s' & E & W' & Hno & S & Hl & Hb); [apply hits_le|].
  exists b, list', s'. do 5 (split; [done|]). rewrite Hb. split; [by intros [?|?]|by right].
Qed.

(** A range that no region meets is unmapped, and conversely for regions. *)
Lemma no_overlap_view l start end_ :
  Forall (fun w => ~ overlaps w start end_) l -> forall addr, start <= addr < end_ -> view l addr = None.
Proof.
  intros Hn addr Ha. apply view_none. eapply Forall_impl; [exact Hn|]. unfold overlaps, contains. lia.
Qed.

Lemma view_no_overlap l start end_ :
  Forall region l -> start < end_ -> (forall addr, start <= addr < end_ -> view l addr = None) ->
  Forall (fun w => ~ overlaps w start end_) l.
Proof.
  intros Hr Hse Hv. apply Forall_forall. intros w Hw Ho. rewrite Forall_forall in Hr. specialize (Hr w Hw).
  specialize (Hv (Z.max start (v_start w))). unfold overlaps, region in *. rewrite view_none in Hv.
  specialize (Hv ltac:(lia)). rewrite Forall_forall in Hv. apply (Hv w Hw). unfold contains. lia.
Qed.

(** Removing exactly one region needs no memory. *)
Lemma remove_exact list l1 v l2 F s :
  vma_wf list F s -> elems (root list) = l1 ++ v :: l2 ->
  exists list' s', vma_remove list (v_start v) (v_end v) s = Some (true, list', s') /\ vma_wf list' F s' /\
    elems (root list') = l1 ++ l2.
Proof.
  intros W He. pose proof (vw_ordered _ _ _ W) as Ho. rewrite He in Ho.
  assert (region v) as [Hv0 Hv] by (apply ordered_middle in Ho; tauto).
  pose proof (part_free l1 v l2 (v_start v) (v_end v) Ho ltac:(lia) ltac:(lia)) as Hfree.
  unfold vma_remove. rewrite He, length_app. simpl length. rewrite Nat.add_succ_r. cbn [remove_loop].
  unfold vma_find_overlap.
  pose proof (vma_find_overlap_spec (root list) (v_start v) (v_end v) (vw_avl _ _ _ W)) as Hf. rewrite He in Hf.
  destruct (vma_find_overlap_recursive (root list) (v_start v) (v_end v)) as [[a w]|].
  2: { exfalso. rewrite Forall_forall in Hf. apply (Hf v); [set_solver|]. unfold overlaps. lia. }
  assert (w = v) as ->.
  { destruct Hf as (_ & Hw & Hov). rewrite Forall_forall in Hfree.
    apply elem_of_app in Hw as [Hw|[Hw|Hw]%elem_of_cons]; [|done|]; exfalso; apply (Hfree w); set_solver. }
  destruct (delete_wf list l1 v l2 F s W He) as (t & s1 & Hd & Et & W1). unfold remove_one. rewrite Hd.
  rewrite !Z.gtb_ltb, !Z.ltb_irrefl, !andb_false_r. simpl.
  exists (VmaList t (count list - 1)), s1. split_and!; try done.
  assert (vma_find_overlap_recursive t (v_start v) (v_end v) = None) as Hnone.
  { pose proof (vma_find_overlap_spec t (v_start v) (v_end v) (vw_avl _ _ _ W1)) as Hg. simpl in Hg.
    destruct (vma_find_overlap_recursive t _ _) as [[a' w]|]; [|done]. exfalso.
    destruct Hg as (_ & Hw & Hov). rewrite Et in Hw. rewrite Forall_forall in Hfree. by apply (Hfree w). }
  destruct (length l1 + length l2)%nat; simpl; unfold vma_find_overlap; simpl; by rewrite Hnone.
Qed.

(** ** Changing protection *)

Definition set_prot (prot : Z) (x : option attr) : option attr :=
  match x with
  | Some (_, flags, fd, off) => Some (prot, flags, fd, off)
  | None => None
  end.

Lemma hits_le_mono a b a' b' l :
  (forall w, w ∈ l -> overlaps w a b -> overlaps w a' b') -> (hits a b l <= hits a' b' l)%nat.
Proof.
  unfold hits. induction l as [|v l IH]; intros Hm; simpl; [lia|].
  specialize (IH ltac:(set_solver)). destruct (overlapsb a b v) eqn:E.
  - apply overlapsb_spec, Hm, overlapsb_spec in E; [|left]. rewrite E. simpl. lia.
  - destruct (overlapsb a' b' v); simpl; lia.
Qed.

Lemma hits_zero a b l : Forall (fun w => ~ overlaps w a b) l -> hits a b l = 0%nat.
Proof.
  induction 1 as [|v l Hv _ IH]; [done|]. unfold hits in *. simpl.
  destruct (overlapsb a b v) eqn:E; [by apply overlapsb_spec in E|done].
Qed.

(** An address lies in one region at most. *)
Lemma contains_unique l v w addr :
  ordered l -> v ∈ l -> w ∈ l -> contains v addr -> contains w addr -> v = w.
Proof.
  intros Ho Hv Hw Cv Cw. apply list_elem_of_In, in_split in Hv as (l1 & l2 & ->).
  apply ordered_middle in Ho as (_ & _ & _ & B1 & B2 & _). rewrite Forall_forall in B1, B2.
  apply elem_of_app in Hw as [Hw|[Hw|Hw]%elem_of_cons]; [|done|]; exfalso.
  - exact (before_not_contains w v addr (B1 w Hw) Cw Cv).
  - exact (before_not_contains v w addr (B2 w Hw) Cv Cw).
Qed.

(** No region starts below [x] and ends above it. *)
Definition boundary (x : Z) (l : list vma_data) : Prop := Forall (fun w => ~ (v_start w < x < v_end w)) l.

Lemma view_in l v addr : ordered l -> v ∈ l -> contains v addr -> view l addr = Some (attr_of v addr).
Proof.
  intros Ho Hv Hc. apply list_elem_of_In, in_split in Hv as (l1 & l2 & ->).
  rewrite view_middle by done. by rewrite (proj2 (containsb_spec v addr) Hc).
Qed.

(** The flags and file of an address stay, unless its region is lost for lack of
    memory. *)
Definition owner (r : option attr) : option (Z * Z) :=
  match r with Some (_, flags, fd, _) => Some (flags, fd) | None => None end.
Definition keeps_owner (l l' : list vma_data) : Prop :=
  forall addr, owner (view l' addr) = owner (view l addr) \/ view l' addr = None.

Lemma keeps_owner_refl l : keeps_owner l l.
Proof. by left. Qed.

Lemma keeps_owner_trans l1 l2 l3 : keeps_owner l1 l2 -> keeps_owner l2 l3 -> keeps_owner l1 l3.
Proof.
  intros H1 H2 addr. destruct (H2 addr) as [E|E]; [|by right]. destruct (H1 addr) as [E'|E']; [left; congruence|right].
  rewrite E' in E. by destruct (view l3 addr) as [[[[] ?] ?]|].
Qed.

Lemma shrinks_keeps_owner start end_ l l' : shrinks start end_ l l' -> keeps_owner l l'.
Proof. intros [H _] addr. destruct (H addr) as [-> | ->]; [by left|by right]. Qed.

(** Rewriting the part of [v] from [curr] to [m_end]. *)
Lemma protect_step list v curr end_ new_prot F s :
  vma_wf list F s -> v ∈ elems (root list) -> contains v curr -> curr < end_ ->
  let m_end := if v_end v <? end_ then v_end v else end_ in
  exists b list1 s1 r list2 s2,
    vma_remove list curr m_end s = Some (b, list1, s1) /\
    vma_add list1 curr m_end new_prot (v_flags v) (v_fd v) (u64 (v_offset v + (curr - v_start v))) s1 = (r, list2, s2) /\
    curr < m_end <= end_ /\ vma_wf list2 F s2 /\ boundary m_end (elems (root list2)) /\
    (hits m_end end_ (elems (root list2)) < hits curr end_ (elems (root list)))%nat /\
    (never_fails -> forall addr, view (elems (root list2)) addr =
       if (curr <=? addr) && (addr <? m_end) then set_prot new_prot (view (elems (root list)) addr)
       else view (elems (root list)) addr) /\
    keeps_owner (elems (root list)) (elems (root list2)).
Proof.
  intros W Hv Hc He m_end. pose proof (vw_ordered _ _ _ W) as Ho. pose proof Hc as [Hc1 Hc2].
  assert (curr < m_end <= end_ /\ m_end <= v_end v) as [Hm Hm2] by (unfold m_end; destruct (Z.ltb_spec (v_end v) end_); lia).
  assert (0 <= v_start v) as Hv0 by (destruct Ho as [Hr _]; rewrite Forall_forall in Hr; apply (Hr v Hv)).
  destruct (vma_remove_spec list curr m_end F s W ltac:(lia)) as (b & list1 & s1 & E1 & W1 & Hno & Hshr & Hlater & _).
  pose proof Hshr as [_ Hsh].
  destruct (vma_add list1 curr m_end new_prot (v_flags v) (v_fd v) (u64 (v_offset v + (curr - v_start v))) s1)
    as [[r list2] s2] eqn:E2. exists b, list1, s1, r, list2, s2. do 3 (split; [done|]).
  set (d := VmaData curr m_end new_prot (v_flags v) (v_fd v) (u64 (v_offset v + (curr - v_start v)))).
  pose proof E2 as [W2 Hcase]%(vma_add_spec _ _ _ _ _ _ _ F); [|done|lia]. fold d in Hcase.
  assert (forall P : vma_data -> Prop, Forall P (elems (root list1)) -> P d -> Forall P (elems (root list2))) as HP.
  { intros P H1 H2. destruct Hcase as [(_ & _ & Hins)|(_ & -> & _)]; [|done].
    rewrite (inserted_perm _ _ _ Hins). by constructor. }
  assert (boundary m_end (elems (root list2))) as Hbd.
  { apply HP; [|simpl; lia]. eapply Forall_impl; [exact Hno|]. unfold overlaps. simpl. intros w Hw. lia. }
  split; [done|]. split; [done|]. split; [|split].
  - assert (exists l1 l2, elems (root list) = l1 ++ v :: l2) as (l1 & l2 & El) by (by apply in_split, list_elem_of_In).
    destruct (Z.ltb_spec (v_end v) end_).
    + assert (hits m_end end_ (elems (root list2)) = hits m_end end_ (elems (root list))) as ->.
      { rewrite <- (Hlater m_end end_).
        - destruct Hcase as [(_ & _ & Hins)|(_ & -> & _)]; [|done]. rewrite (hits_inserted _ _ _ _ _ Hins).
          destruct (overlapsb m_end end_ d) eqn:E; [|lia]. apply overlapsb_spec in E. unfold overlaps in E. simpl in E. lia.
        - apply Forall_forall. intros w Hw Hov. destruct (Z_lt_le_dec m_end (v_end w)); [exfalso|done].
          assert (contains w (Z.max curr (v_start w))) by (unfold contains, overlaps in *; lia).
          assert (contains v (Z.max curr (v_start w))) by (unfold contains, overlaps in *; lia).
          assert (v = w) as <- by (by eapply contains_unique). lia. }
      rewrite El, !hits_middle. assert (overlapsb curr end_ v = true) as -> by (apply overlapsb_spec; unfold overlaps; lia).
      assert (overlapsb m_end end_ v = false) as ->.
      { destruct (overlapsb m_end end_ v) eqn:E; [|done]. apply overlapsb_spec in E. unfold overlaps in E. lia. }
      assert (hits m_end end_ (l1 ++ l2) <= hits curr end_ (l1 ++ l2))%nat; [|lia].
      apply hits_le_mono. intros w _. unfold overlaps. lia.
    + rewrite hits_zero; [|eapply Forall_impl; [exact Hbd|]; unfold overlaps; simpl; lia].
      rewrite El, hits_middle, (proj2 (overlapsb_spec curr end_ v)) by (unfold overlaps; lia). lia.
  - intros Hnf addr. destruct Hcase as [(_ & _ & Hins)|(_ & _ & Hfail)].
    2: { exfalso. destruct Hfail as [Hf|Hf]; [done|]. destruct (Hnf s1) as (p & s3 & E3). by rewrite E3 in Hf. }
    rewrite (inserted_view d _ _ addr (vw_ordered _ _ _ W2) Hins). unfold containsb; simpl.
    destruct ((curr <=? addr) && (addr <? m_end)) eqn:E; b2p; [|apply (Hsh Hnf); lia].
    rewrite (view_in _ v addr Ho Hv) by (unfold contains; lia). unfold attr_of, set_prot; simpl. do 2 f_equal.
    destruct (v_fd v =? -1); [done|]. unfold u64. rewrite Zplus_mod_idemp_l. f_equal. lia.
  - pose proof (shrinks_keeps_owner _ _ _ _ Hshr) as Hk. intros addr. destruct Hcase as [(_ & _ & Hins)|(_ & -> & _)]; [|apply Hk].
    rewrite (inserted_view d _ _ addr (vw_ordered _ _ _ W2) Hins). destruct (containsb d addr) eqn:Ed; [left|apply Hk].
    apply containsb_spec in Ed. unfold contains in Ed. simpl in Ed. by rewrite (view_in _ v addr Ho Hv) by (unfold contains; lia).
Qed.

(** Outcome of the loop from [curr] on. *)
Record protected (curr end_ new_prot : Z) (l l' : list vma_data) : Prop := {
  pr_outside : forall addr, addr < curr \/ end_ <= addr -> view l' addr = view l addr;
  pr_inside : forall addr, curr <= addr < end_ -> view l' addr = view l addr \/ view l' addr = set_prot new_prot (view l addr);
  pr_mapped : (forall addr, curr <= addr < end_ -> view l addr <> None) ->
    forall addr, curr <= addr < end_ -> view l' addr = set_prot new_prot (view l addr);
}.

Lemma protected_refl curr end_ new_prot l : (curr < end_ -> view l curr = None) -> protected curr end_ new_prot l l.
Proof.
  intros Hn. split; [done|by left|]. intros Hm addr Ha. exfalso. apply (Hm curr); [lia|]. apply Hn. lia.
Qed.

Lemma protected_step curr m_end end_ new_prot l l1 l2 :
  curr < m_end <= end_ ->
  (forall addr, view l1 addr =
     if (curr <=? addr) && (addr <? m_end) then set_prot new_prot (view l addr) else view l addr) ->
  protected m_end end_ new_prot l1 l2 -> protected curr end_ new_prot l l2.
Proof.
  intros Hm H1 [O2 I2 M2].
  assert (forall addr, addr < curr \/ m_end <= addr -> view l1 addr = view l addr) as E1.
  { intros addr Ha. rewrite H1. destruct (_ && _) eqn:E; [|done]. b2p. lia. }
  assert (forall addr, curr <= addr < m_end -> view l1 addr = set_prot new_prot (view l addr)) as E2.
  { intros addr Ha. rewrite H1. destruct (_ && _) eqn:E; [done|]. b2p. lia. }
  split.
  - intros addr Ha. rewrite O2, E1 by lia. done.
  - intros addr Ha. destruct (Z_lt_le_dec addr m_end).
    + right. rewrite O2, E2 by lia. done.
    + rewrite <- E1 by lia. apply I2. lia.
  - intros Hmap addr Ha. destruct (Z_lt_le_dec addr m_end).
    + rewrite O2, E2 by lia. done.
    + rewrite <- E1 by lia. apply M2; [|lia]. intros a Ha'. rewrite E1 by lia. apply Hmap. lia.
Qed.

Lemma protected_skip curr curr' end_ new_prot l l' :
  curr < end_ -> view l curr = None -> curr <= curr' -> protected curr' end_ new_prot l l' ->
  protected curr end_ new_prot l l'.
Proof.
  intros Hc Hn Hle [O I M]. split.
  - intros addr Ha. apply O. lia.
  - intros addr Ha. destruct (Z_lt_le_dec addr curr'); [left; apply O; lia|apply I; lia].
  - intros Hm. exfalso. apply (Hm curr); [lia|done].
Qed.

Lemma mprotect_loop_spec n list start end_ new_prot curr F s :
  vma_wf list F s -> start <= curr -> curr = start \/ boundary curr (elems (root list)) ->
  (2 * hits curr end_ (elems (root list)) + 1 <= n \/
   (2 * hits curr end_ (elems (root list)) <= n /\ view (elems (root list)) curr <> None))%nat ->
  exists list' s', mprotect_loop n list start end_ new_prot curr s = Some (list', s') /\ vma_wf list' F s' /\
    (never_fails -> protected curr end_ new_prot (elems (root list)) (elems (root list'))) /\
    keeps_owner (elems (root list)) (elems (root list')).
Proof.
  revert list curr s. induction n as [|n IH]; intros list curr s W Hsc Hbd Hfuel; cbn [mprotect_loop];
    (destruct (Z.ltb_spec curr end_);
      [|exists list, s; do 2 (split; [done|]); split; [intros _; apply protected_refl; lia|apply keeps_owner_refl]]);
    pose proof (vma_find_spec (root list) curr (vw_avl _ _ _ W)) as Hf.
  { exfalso. destruct Hfuel as [?|[Hz Hv]]; [lia|]. destruct (vma_find_recursive (root list) curr) as [[a v]|].
    - destruct Hf as (_ & Hv1 & Hc). apply list_elem_of_In, in_split in Hv1 as (l1 & l2 & El). rewrite El, hits_middle in Hz.
      rewrite (proj2 (overlapsb_spec curr end_ v)) in Hz by (unfold overlaps, contains in *; lia). lia.
    - by apply view_none in Hf. }
  unfold vma_find. destruct (vma_find_recursive (root list) curr) as [[a v]|].
  - destruct Hf as (_ & Hv & Hc).
    assert ((if v_start v >? start then v_start v else start) = curr) as ->.
    { pose proof Hc as [? ?]. destruct (Z.gtb_spec (v_start v) start); [|].
      - destruct Hbd as [->|Hbd]; [lia|]. unfold boundary in Hbd. rewrite Forall_forall in Hbd. specialize (Hbd v Hv). simpl in Hbd. lia.
      - destruct Hbd as [->|Hbd]; [done|]. unfold boundary in Hbd. rewrite Forall_forall in Hbd. specialize (Hbd v Hv). simpl in Hbd. lia. }
    destruct (protect_step list v curr end_ new_prot F s W Hv Hc ltac:(lia))
      as (b & list1 & s1 & r & list2 & s2 & -> & -> & Hm & W2 & Hbd2 & Hh & Hview & Hk).
    set (m_end := if v_end v <? end_ then v_end v else end_) in *.
    destruct (IH list2 m_end s2 W2 ltac:(lia) ltac:(by right)) as (list' & s' & -> & W' & Hp & Hk'); [left; lia|].
    exists list', s'. do 2 (split; [done|]). split; [|by eapply keeps_owner_trans]. intros Hnf. eapply protected_step; [exact Hm|exact (Hview Hnf)|exact (Hp Hnf)].
  - apply view_none in Hf. unfold vma_find_overlap.
    pose proof (vma_find_overlap_spec (root list) curr end_ (vw_avl _ _ _ W)) as Hg.
    destruct (vma_find_overlap_recursive (root list) curr end_) as [[a v]|].
    2: { exists list, s. do 2 (split; [done|]). split; [|apply keeps_owner_refl]. intros _. by apply protected_refl. }
    destruct Hg as (_ & Hv & Hov). pose proof (vw_ordered _ _ _ W) as Ho.
    assert (region v) as [? ?] by (destruct Ho as [Hr _]; rewrite Forall_forall in Hr; apply (Hr v Hv)).
    assert (curr < v_start v) as Hlt.
    { destruct (Z_lt_le_dec curr (v_start v)); [done|]. exfalso. rewrite (view_in _ v curr Ho Hv) in Hf; [done|].
      unfold contains, overlaps in *. lia. }
    destruct (IH list (v_start v) s W ltac:(lia)) as (list' & s' & -> & W' & Hp & Hk).
    + right. unfold boundary. apply Forall_forall. intros w Hw Hst.
      assert (v = w) as <- by (eapply (contains_unique _ v w (v_start v) Ho Hv Hw); unfold contains; lia). lia.
    + right. split; [|rewrite (view_in _ v (v_start v) Ho Hv); [done|unfold contains; lia]].
      assert (hits (v_start v) end_ (elems (root list)) <= hits curr end_ (elems (root list)))%nat.
      { apply hits_le_mono. intros w _. unfold overlaps. lia. }
      destruct Hfuel as [?|[_ ?]]; [lia|done].
    + exists list', s'. do 2 (split; [done|]). split; [|done]. intros Hnf. eapply protected_skip; [done|done| |by apply Hp]. lia.
Qed.

Lemma vma_mprotect_spec list start end_ new_prot F s :
  vma_wf list F s ->
  exists list' s', vma_mprotect list start end_ new_prot s = Some (0, list', s') /\ vma_wf list' F s' /\
    (never_fails -> protected start end_ new_prot (elems (root list)) (elems (root list'))) /\
    keeps_owner (elems (root list)) (elems (root list')).
Proof.
  intros W. unfold vma_mprotect.
  destruct (mprotect_loop_spec (2 * length (elems (root list)) + 2) list start end_ new_prot start F s W)
    as (list' & s' & -> & W' & Hp); [lia|by left| |eauto 10].
  left. pose proof (hits_le start end_ (elems (root list))). lia.
Qed.

(** ** Cloning and destroying *)

Lemma VmaData_eta d : VmaData (v_start d) (v_end d) (v_prot d) (v_flags d) (v_fd d) (v_offset d) = d.
Proof. by destruct d. Qed.

Lemma clone_spec node dst F s dst' s' :
  ordered (elems node) -> vma_wf dst F s ->
  (forall w v, w ∈ elems (root dst) -> v ∈ elems node -> ~ overlaps w (v_start v) (v_end v)) ->
  clone_recursive dst node s = (dst', s') ->
  vma_wf dst' F s' /\ (forall w, w ∈ elems (root dst') -> w ∈ elems (root dst) \/ w ∈ elems node) /\
  (never_fails -> elems (root dst') ≡ₚ elems node ++ elems (root dst)).
Proof.
  revert dst s dst' s'. induction node as [|a d m h l IHl r IHr]; intros dst s dst' s' Ho W Hno; cbn [clone_recursive].
  { intros [= <- <-]. split; [done|]. split; [auto|done]. }
  cbn [inorder_gather] in *. pose proof Ho as (O1 & O2 & [Hd0 Hd] & B1 & B2 & B3)%ordered_middle.
  destruct (vma_add dst _ _ _ _ _ _ s) as [[rr dst1] s1] eqn:E1.
  pose proof E1 as [W1 Hcase]%(vma_add_spec _ _ _ _ _ _ _ F); [|done|done]. rewrite VmaData_eta in Hcase.
  destruct (clone_recursive dst1 l s1) as [dst2 s2] eqn:E2. intros E3.
  assert (forall w, w ∈ elems (root dst1) -> w ∈ elems (root dst) \/ w = d) as M1.
  { intros w. destruct Hcase as [(_ & _ & Hins)|(_ & -> & _)]; [|by left].
    rewrite (inserted_perm _ _ _ Hins), elem_of_cons. tauto. }
  rewrite Forall_forall in B1, B2, B3.
  destruct (IHl dst1 s1 dst2 s2 O1 W1) as (W2 & M2 & N2); [|done|].
  { intros w v Hw Hv. apply M1 in Hw as [Hw| ->]; [apply Hno; set_solver|]. specialize (B1 v Hv).
    unfold overlaps, before in *. lia. }
  destruct (IHr dst2 s2 dst' s' O2 W2) as (W3 & M3 & N3); [|done|].
  { intros w v Hw Hv. apply M2 in Hw as [[Hw| ->]%M1|Hw].
    - apply Hno; set_solver.
    - specialize (B2 v Hv). unfold overlaps, before in *. lia.
    - specialize (B3 w Hw). rewrite Forall_forall in B3. specialize (B3 v Hv). unfold overlaps, before in *. lia. }
  split; [done|]. split.
  - intros w Hw. apply M3 in Hw as [[[Hw| ->]%M1|Hw]%M2|Hw]; set_solver.
  - intros Hnf. rewrite (N3 Hnf), (N2 Hnf). destruct Hcase as [(_ & _ & Hins)|(_ & _ & Hfail)].
    + rewrite (inserted_perm _ _ _ Hins). solve_Permutation.
    + exfalso. destruct Hfail as [Hf|Hf]; [|by destruct (Hnf s) as (p & s3 & E); rewrite E in Hf].
      apply Hf, Forall_forall. intros w Hw. apply Hno; [done|set_solver].
Qed.

Lemma empty_wf F s : obj_ok s -> obj_live s = F -> vma_wf vma_list_init F s.
Proof.
  intros Hok Hl. split; simpl; try done; [split; constructor|constructor|set_solver|set_solver].
Qed.

Lemma destroy_spec t s : obj_ok s -> NoDup (addrs t) -> (forall p, p ∈ addrs t -> p ∈ obj_live s) ->
  obj_ok (vma_destroy_recursive t s) /\
  obj_live (vma_destroy_recursive t s) = obj_live s ∖ list_to_set (addrs t).
Proof.
  revert s. induction t as [|a d m h l IHl r IHr]; intros s Hok Hnd Hin; simpl; [split; [done|set_solver]|].
  simpl in Hnd, Hin. apply NoDup_cons in Hnd as [Ha Hnd]. apply NoDup_app in Hnd as (N1 & N2 & N3).
  destruct (IHl s Hok N1) as [Ok1 L1]; [set_solver|].
  destruct (IHr _ Ok1 N3) as [Ok2 L2]; [set_solver|].
  destruct (obj_free_live (vma_destroy_recursive r (vma_destroy_recursive l s)) a Ok2) as [Ok3 L3]; [set_solver|].
  split; [done|]. rewrite L3, L2, L1, list_to_set_app_L. set_solver.
Qed.

(** ** Merging *)

Lemma find_pair_some l cur nxt : find_pair l = Some (cur, nxt) ->
  exists l1 l2, l = l1 ++ cur :: nxt :: l2 /\ v_end cur = v_start nxt /\ v_prot cur = v_prot nxt /\
    v_flags cur = v_flags nxt /\ v_fd cur = -1 /\ v_fd nxt = -1.
Proof.
  induction l as [|v l IH]; [done|]. destruct l as [|w l]; [done|]. cbn [find_pair].
  destruct (_ && _) eqn:E.
  - b2p. intros [= -> ->]. exists [], l. split_and!; done.
  - intros (l1 & l2 & -> & Hrest)%IH. exists (v :: l1), l2. done.
Qed.

(** Merging two neighbours: what each step of the loop does. *)
Lemma merge_step list cur nxt F s :
  vma_wf list F s -> find_pair (elems (root list)) = Some (cur, nxt) ->
  exists list1 s1 list2 s2 r list3 s3,
    vma_remove list (v_start cur) (v_end cur) s = Some (true, list1, s1) /\
    vma_remove list1 (v_start nxt) (v_end nxt) s1 = Some (true, list2, s2) /\
    vma_add list2 (v_start cur) (v_end nxt) (v_prot cur) (v_flags cur) (-1) 0 s2 = (r, list3, s3) /\
    vma_wf list3 F s3 /\ (length (elems (root list3)) < length (elems (root list)))%nat /\
    (never_fails -> forall addr, view (elems (root list3)) addr = view (elems (root list)) addr) /\
    keeps_owner (elems (root list)) (elems (root list3)).
Proof.
  intros W (l1 & l2 & El & E1 & E2 & E3 & E4 & E5)%find_pair_some.
  pose proof (vw_ordered _ _ _ W) as Ho. rewrite El in Ho.
  destruct (remove_exact list l1 cur (nxt :: l2) F s W El) as (list1 & s1 & R1 & W1 & El1).
  destruct (remove_exact list1 l1 nxt l2 F s1 W1 El1) as (list2 & s2 & R2 & W2 & El2).
  pose proof (vw_ordered _ _ _ W1) as Ho1. rewrite El1 in Ho1.
  assert (region cur /\ region nxt) as [[Hc0 Hc] [Hn0 Hn]].
  { destruct Ho as [Hr _]. rewrite Forall_forall in Hr. split; apply Hr; set_solver. }
  set (d := VmaData (v_start cur) (v_end nxt) (v_prot cur) (v_flags cur) (-1) 0).
  destruct (vma_add list2 (v_start cur) (v_end nxt) (v_prot cur) (v_flags cur) (-1) 0 s2) as [[r list3] s3] eqn:R3.
  pose proof R3 as [W3 Hcase]%(vma_add_spec _ _ _ _ _ _ _ F); [|done|lia]. fold d in Hcase.
  assert (Hview : inserted d (elems (root list2)) (elems (root list3)) -> forall addr, view (elems (root list3)) addr = view (elems (root list)) addr).
  { intros Hins addr. rewrite (inserted_view d _ _ addr (vw_ordered _ _ _ W3) Hins), El, El2, (view_middle _ _ _ addr Ho), (view_middle _ _ _ addr Ho1).
    unfold containsb, attr_of; simpl. rewrite E4, E5, E2, E3; simpl.
    destruct (Z.leb_spec (v_start cur) addr), (Z.ltb_spec addr (v_end nxt)), (Z.ltb_spec addr (v_end cur)), (Z.leb_spec (v_start nxt) addr); simpl; done || lia. }
  exists list1, s1, list2, s2, r, list3, s3. do 4 (split; [done|]). split.
  - rewrite El, length_app. simpl. assert (length (elems (root list2)) = length l1 + length l2)%nat as Hlen
      by (rewrite El2; apply length_app).
    destruct Hcase as [(_ & _ & Hins)|(_ & -> & _)]; [|lia].
    apply inserted_perm, Permutation_length in Hins. simpl in Hins. lia.
  - split; [|intros addr; destruct Hcase as [(_ & _ & Hins)|(_ & -> & _)]; [left; by rewrite Hview|]].
    2:{ rewrite El2, El, (view_without _ _ _ addr Ho1), (view_without _ _ _ addr Ho). destruct (containsb nxt addr); [by right|].
        destruct (containsb cur addr); [by right|by left]. }
    intros Hnf addr. destruct Hcase as [(_ & _ & Hins)|(_ & _ & Hfail)]; [by apply Hview|].
    exfalso. destruct Hfail as [Hf|Hf]; [|by destruct (Hnf s2) as (p & s4 & E); rewrite E in Hf].
      apply Hf. rewrite El2. pose proof (part_free _ _ _ (v_start cur) (v_end cur) Ho ltac:(lia) ltac:(lia)) as P1.
      pose proof (part_free _ _ _ (v_start nxt) (v_end nxt) Ho1 ltac:(lia) ltac:(lia)) as P2.
      apply Forall_app in P1 as [P1 [_ P1']%Forall_cons]. apply Forall_forall. intros w Hw.
      rewrite Forall_forall in P1, P1', P2. specialize (P2 w Hw).
      assert (region w) as [_ Hw2].
      { destruct (vw_ordered _ _ _ W2) as [Hr _]. rewrite El2, Forall_forall in Hr. by apply Hr. }
      assert (~ overlaps w (v_start cur) (v_end cur)) by (apply elem_of_app in Hw as [?|?]; auto).
      unfold overlaps in *. lia.
Qed.

Lemma merge_loop_spec n arr_ok list F s :
  vma_wf list F s -> (length (elems (root list)) <= n)%nat ->
  exists list' s', merge_loop n arr_ok list s = Some (list', s') /\ vma_wf list' F s' /\
    ((forall k, arr_ok k = true) -> find_pair (elems (root list')) = None) /\
    (never_fails -> forall addr, view (elems (root list')) addr = view (elems (root list)) addr) /\
    keeps_owner (elems (root list)) (elems (root list')).
Proof.
  revert list s. induction n as [|n IH]; intros list s W Hn; cbn [merge_loop].
  - destruct (elems (root list)) as [|v l] eqn:El; [|simpl in Hn; lia]. simpl.
    exists list, s. destruct (negb (arr_ok 0%nat)); (split; [done|]); (split; [done|]); rewrite El; (split; [done|]); (split; [done|apply keeps_owner_refl]).
  - destruct (negb (arr_ok (S n))) eqn:Ea.
    { exists list, s. do 2 (split; [done|]). split; [|split; [done|apply keeps_owner_refl]]. intros Hall. rewrite Hall in Ea. done. }
    destruct (find_pair (elems (root list))) as [[cur nxt]|] eqn:Ef; [|exists list, s; do 4 (split; [done|]); apply keeps_owner_refl].
    destruct (merge_step list cur nxt F s W Ef) as (list1 & s1 & list2 & s2 & r & list3 & s3 & -> & -> & -> & W3 & Hl & Hv & Hk).
    destruct (IH list3 s3 W3 ltac:(lia)) as (list' & s' & -> & W' & Hp & Hv' & Hk').
    exists list', s'. do 2 (split; [done|]). split; [done|]. split; [|by eapply keeps_owner_trans]. intros Hnf addr. rewrite Hv', Hv; done.
Qed.

Lemma merge_adjacent_spec arr_ok list F s :
  vma_wf list F s ->
  exists list' s', vma_merge_adjacent arr_ok list s = Some (list', s') /\ vma_wf list' F s' /\
    ((forall k, arr_ok k = true) -> find_pair (elems (root list')) = None) /\
    (never_fails -> forall addr, view (elems (root list')) addr = view (elems (root list)) addr) /\
    keeps_owner (elems (root list)) (elems (root list')).
Proof.
  intros W. unfold vma_merge_adjacent. destruct (count list <? 2) eqn:E; b2p.
  - exists list, s. do 2 (split; [done|]). split; [|split; [done|apply keeps_owner_refl]]. intros _. rewrite (vw_count _ _ _ W) in E. unfold zlen in E.
    destruct (elems (root list)) as [|v [|w l]]; [done|done|simpl in E; lia].
  - by destruct (merge_loop_spec (length (elems (root list))) arr_ok list F s W) as (l1 & s1 & E1 & H); [lia|exists l1, s1].
Qed.
End Ops.

(** ** Looking for a gap *)

Lemma gap_scan_spec l length current : ordered l -> 0 < length ->
  match gap_scan l length current with
  | inl g => current <= g /\ Forall (fun w => ~ overlaps w g (g + length)) l
  | inr c => current <= c /\ Forall (fun w => v_end w <= c) l
  end.
Proof.
  intros Ho Hlen. revert current. induction l as [|v l IH]; intros current; cbn [gap_scan].
  { split; [lia|constructor]. }
  pose proof (ordered_middle [] v l) as [Hom _]. destruct (Hom Ho) as (_ & O2 & [? ?] & _ & B2 & _).
  destruct (Z.leb_spec (v_end v) current).
  { specialize (IH O2 current). destruct (gap_scan l length current) as [g|c]; destruct IH as [? ?];
      (split; [done|]); constructor; [unfold overlaps; lia|done|lia|done]. }
  destruct ((v_start v >? current) && (v_start v - current >=? length)) eqn:E; b2p.
  { split; [lia|]. constructor; [unfold overlaps; lia|]. eapply Forall_impl; [exact B2|].
    unfold before, overlaps. lia. }
  set (c' := if current >? v_end v then current else v_end v).
  assert (current <= c' /\ v_end v <= c') as [? ?] by (unfold c'; destruct (Z.gtb_spec current (v_end v)); lia).
  specialize (IH O2 c'). destruct (gap_scan l length c') as [g|c]; destruct IH as [? ?];
    (split; [lia|]); constructor; [unfold overlaps; lia|done|lia|done].
Qed.

Lemma vma_find_gap_spec arr_ok list length base limit r :
  ordered (elems (root list)) -> count list = zlen (elems (root list)) -> 0 < length -> 0 <= base ->
  base + length < 2 ^ 64 -> Forall (fun w => v_end w + length < 2 ^ 64) (elems (root list)) ->
  vma_find_gap arr_ok list length base limit = r -> r <> 0 ->
  base <= r /\ Forall (fun w => ~ overlaps w r (r + length)) (elems (root list)).
Proof.
  intros Ho Hc Hlen Hb Hbl Hends. unfold vma_find_gap. destruct (count list =? 0) eqn:E0; b2p.
  { assert (elems (root list) = []) as ->.
    { rewrite Hc in E0. unfold zlen in E0. by destruct (elems (root list)). }
    case_if; intros <- ?; [split; [lia|constructor]|done]. }
  case_if; [by intros <-|]. pose proof (gap_scan_spec (elems (root list)) length base Ho Hlen) as G.
  destruct (gap_scan (elems (root list)) length base) as [g|c]; destruct G as [G1 G2].
  - case_if; [by intros <- _|]. b2p. subst g. case_if; intros <-; done.
  - simpl. case_if; intros <- ?; [|done]. split; [done|]. eapply Forall_impl; [exact G2|].
    unfold overlaps. simpl. lia.
Qed.

(** ** Recursion depth *)

Fixpoint depth (t : tree) : Z :=
  match t with
  | Leaf => 0
  | Node _ _ _ _ l r => 1 + Z.max (depth l) (depth r)
  end.

Lemma depth_height t : avl t -> depth t = get_height t.
Proof.
  induction t as [|a d m h l IHl r IHr]; [done|]. intros (Hl & Hr & _ & -> & _). simpl.
  by rewrite IHl, IHr.
Qed.
