(* ===== verification/VmaThms.v ===== *)
(** * Theorems about virtual memory areas

    What [kernel/src/mm/vma.c] guarantees to the memory system calls, and where
    it does not do what its callers expect. *)

From S2P Require Import Prelude ObjAlloc Vma VmaTree VmaSpec.

(** ** Executions of one address space *)

Section Steps.
Context {A : Type} `{!ObjAlloc A}.

(** The mutating operations on a region list and the node cache, for callers that add no
    empty region. *)
Inductive vma_step : vma_list * A -> vma_list * A -> Prop :=
| vstep_add list s start end_ prot flags fd offset r list' s' :
    0 <= start < end_ ->
    vma_add list start end_ prot flags fd offset s = (r, list', s') -> vma_step (list, s) (list', s')
| vstep_remove list s start end_ b list' s' :
    start <= end_ -> vma_remove list start end_ s = Some (b, list', s') -> vma_step (list, s) (list', s')
| vstep_mprotect list s start end_ prot r list' s' :
    vma_mprotect list start end_ prot s = Some (r, list', s') -> vma_step (list, s) (list', s')
| vstep_merge list s arr_ok list' s' :
    vma_merge_adjacent arr_ok list s = Some (list', s') -> vma_step (list, s) (list', s').

Lemma vma_step_wf F list s list' s' :
  vma_step (list, s) (list', s') -> vma_wf list F s -> vma_wf list' F s'.
Proof.
  intros Hst W. inversion Hst; subst.
  - by eapply vma_add_spec.
  - destruct (vma_remove_spec list start end_ F s W) as (b' & l1 & s1 & E & W1 & _); [done|]. congruence.
  - destruct (vma_mprotect_spec list start end_ prot F s W) as (l1 & s1 & E & W1 & _). congruence.
  - unfold vma_merge_adjacent in *. case_if_in H0; [congruence|].
    destruct (merge_loop_spec (length (elems (root list))) arr_ok list F s W) as (l1 & s1 & E & W1 & _); [lia|]. congruence.
Qed.

Lemma vma_rtc_wf F x y : rtc vma_step x y -> vma_wf x.1 F x.2 -> vma_wf y.1 F y.2.
Proof.
  intros Hs. induction Hs as [x|[l1 s1] [l2 s2] y Hst _ IH]; [done|]. intros W. apply IH. by eapply vma_step_wf.
Qed.
End Steps.

(** ** A small address space *)

Definition demo_add (x : vma_list * bump) (v : vma_data) : vma_list * bump :=
  let '(_, list, s) := vma_add x.1 (v_start v) (v_end v) (v_prot v) (v_flags v) (v_fd v) (v_offset v) x.2 in
  (list, s).

Definition demo_regions : list vma_data :=
  [VmaData 0x1000 0x3000 3 0x22 (-1) 0; VmaData 0x3000 0x4000 3 0x22 (-1) 0;
   VmaData 0x6000 0x9000 1 0x02 5 0x10000; VmaData 0xA000 0xB000 3 0x22 (-1) 0].

Definition demo_space : vma_list * bump :=
  Eval vm_compute in fold_left demo_add demo_regions (vma_list_init, Bump 0x100000 ∅).

Lemma demo_add_wf x v : vma_wf x.1 ∅ x.2 -> 0 <= v_start v < v_end v -> vma_wf (demo_add x v).1 ∅ (demo_add x v).2.
Proof.
  intros W Hv. unfold demo_add. destruct (vma_add _ _ _ _ _ _ _ _) as [[r l] s] eqn:E.
  by eapply vma_add_spec in E as [W' _].
Qed.

Lemma demo_space_wf : vma_wf demo_space.1 ∅ demo_space.2.
Proof.
  change demo_space with (fold_left demo_add demo_regions (vma_list_init, Bump 0x100000 ∅)).
  assert (vma_wf vma_list_init ∅ (Bump 0x100000 ∅)) as W by (apply empty_wf; [intros p; set_solver|done]).
  cbn [fold_left demo_regions]. do 4 (apply demo_add_wf; [|simpl; lia]). exact W.
Qed.

Lemma bump_never_fails : @never_fails bump _.
Proof. intros s. by eexists _, _. Qed.

(** ** The invariant *)

(** C14: Starting from an empty list, whatever non-empty regions are added, whatever
    ranges that do not end before they start are removed, whatever is re-protected or
    merged, and whether or not the node cache runs out of memory on the way: the tree
    stays balanced with exact heights and subtree ends, the
    regions stay ordered and disjoint, the count is exact, and the live objects of
    the cache are exactly the nodes of the tree and what other owners hold, so no
    node is leaked or freed twice. *)
Theorem vma_reachable_wf {A} `{!ObjAlloc A} (s : A) F list' s' :
  obj_ok s -> obj_live s = F -> rtc vma_step (vma_list_init, s) (list', s') -> vma_wf list' F s'.
Proof. intros Hok Hl Hst. exact (vma_rtc_wf F _ _ Hst (empty_wf F s Hok Hl)). Qed.

Lemma vma_reachable_wf_witness :
  exists list' s', vma_wf list' ∅ s' /\ elems (root list') = [VmaData 0x1000 0x3000 3 0x22 (-1) 0].
Proof.
  destruct (vma_add vma_list_init 0x1000 0x3000 3 0x22 (-1) 0 (Bump 0x100000 ∅)) as [[r l] s] eqn:E.
  exists l, s. split; [|by injection E as <- <- <-].
  apply (vma_reachable_wf (Bump 0x100000 ∅) ∅ l s); [intros p; set_solver|done|].
  apply rtc_once. by eapply (vstep_add _ _ 0x1000 0x3000).
Defined.

(** That regions are not empty is for the caller to see to.  [vma_add] accepts an empty
    one, overlapping nothing, a second time at the same address: it is counted, but the
    tree has one node, and the other is lost. *)
Theorem vma_add_empty_leaks : exists l1 s1 l2 s2,
  vma_add vma_list_init 0x1000 0x1000 3 0x22 (-1) 0 (Bump 0x100000 ∅) = (0, l1, s1) /\
  vma_add l1 0x1000 0x1000 3 0x22 (-1) 0 s1 = (0, l2, s2) /\
  count l2 = 2 /\ length (addrs (root l2)) = 1%nat /\ size (obj_live s2) = 2%nat.
Proof. do 4 eexists. split; [reflexivity|]. split; [reflexivity|]. by vm_compute. Qed.

(** ** Lookup *)

(** [vma_find] finds the region that contains an address whenever there is
    one, although it skips subtrees by their largest end; [vma_find_overlap] returns
    a region that meets the range whenever there is one. *)
Theorem vma_find_correct {A} `{!ObjAlloc A} list F (s : A) addr start end_ :
  vma_wf list F s ->
  match vma_find list addr with
  | Some (p, v) => p ∈ addrs (root list) /\ v ∈ elems (root list) /\ contains v addr /\
                   view (elems (root list)) addr = Some (attr_of v addr)
  | None => view (elems (root list)) addr = None
  end /\
  match vma_find_overlap list start end_ with
  | Some (p, v) => p ∈ addrs (root list) /\ v ∈ elems (root list) /\ overlaps v start end_
  | None => forall v, v ∈ elems (root list) -> ~ overlaps v start end_
  end.
Proof.
  intros W. unfold vma_find, vma_find_overlap.
  pose proof (vma_find_spec (root list) addr (vw_avl _ _ _ W)) as H1.
  pose proof (vma_find_overlap_spec (root list) start end_ (vw_avl _ _ _ W)) as H2. split.
  - destruct (vma_find_recursive _ _) as [[p v]|]; [|by apply view_none].
    destruct H1 as (? & ? & ?). split_and!; try done. by apply view_in; [apply W| |].
  - destruct (vma_find_overlap_recursive _ _ _) as [[p v]|]; [done|]. by rewrite Forall_forall in H2.
Qed.

Lemma vma_find_correct_witness : view (elems (root demo_space.1)) 0x5000 = None.
Proof. apply (vma_find_correct demo_space.1 ∅ demo_space.2 0x5000 0 1 demo_space_wf). Defined.

(** ** Adding *)

(** [vma_add] returns 0 and maps exactly the new range with the given
    attributes, or returns -1 and leaves the list alone; it fails only when a region
    overlaps the range or the cache has no node. *)
Theorem vma_add_correct {A} `{!ObjAlloc A} list F (s : A) start end_ prot flags fd offset r list' s' :
  vma_wf list F s -> 0 <= start < end_ ->
  vma_add list start end_ prot flags fd offset s = (r, list', s') ->
  vma_wf list' F s' /\
  ((r = 0 /\ (forall v, v ∈ elems (root list) -> ~ overlaps v start end_) /\
    forall addr, view (elems (root list')) addr =
      if (start <=? addr) && (addr <? end_)
      then Some (attr_of (VmaData start end_ prot flags fd offset) addr)
      else view (elems (root list)) addr) \/
   (r = -1 /\ list' = list /\
    ((exists v, v ∈ elems (root list) /\ overlaps v start end_) \/ (obj_alloc s).1 = None))).
Proof.
  intros W Hr Ha. pose proof (vma_add_spec list start end_ prot flags fd offset F s r list' s' W Hr Ha) as [W' Hcase].
  split; [done|]. destruct Hcase as [(-> & Hn & Hins)|(-> & -> & Hf)].
  - left. rewrite Forall_forall in Hn. split_and!; try done. intros addr.
    rewrite (inserted_view _ _ _ addr (vw_ordered _ _ _ W') Hins). done.
  - right. split_and!; try done. destruct Hf as [Hf|Hf]; [left|by right].
    apply not_Forall_Exists, Exists_exists in Hf as (v & Hv & Ho); [|apply _].
    exists v. split; [done|]. by apply dec_stable.
Qed.

Lemma vma_add_correct_witness :
  let '(r, list', s') := vma_add demo_space.1 0x9000 0xA000 1 0x22 (-1) 0 demo_space.2 in vma_wf list' ∅ s'.
Proof.
  destruct (vma_add demo_space.1 0x9000 0xA000 1 0x22 (-1) 0 demo_space.2) as [[r list'] s'] eqn:E.
  apply (vma_add_correct demo_space.1 ∅ demo_space.2 0x9000 0xA000 1 0x22 (-1) 0 r list' s' demo_space_wf ltac:(lia) E).
Defined.

(** ** Removing *)

(** [vma_remove] terminates and, given memory, unmaps exactly the range: no
    address in it stays mapped, every other address keeps its attributes (the file
    offset of a shortened region included), and the result says whether anything was
    mapped there.  Without memory the range is still unmapped and no address gains
    or changes attributes. *)
Theorem vma_remove_correct {A} `{!ObjAlloc A} list F (s : A) start end_ :
  vma_wf list F s -> start <= end_ ->
  exists b list' s', vma_remove list start end_ s = Some (b, list', s') /\ vma_wf list' F s' /\
    (forall addr, start <= addr < end_ -> view (elems (root list')) addr = None) /\
    (forall addr, view (elems (root list')) addr = view (elems (root list)) addr \/
                  view (elems (root list')) addr = None) /\
    (never_fails (A := A) -> forall addr, ~ (start <= addr < end_) ->
       view (elems (root list')) addr = view (elems (root list)) addr).
Proof.
  intros W Hse. destruct (vma_remove_spec list start end_ F s W Hse) as (b & list' & s' & E & W' & Hno & [H1 H2] & _).
  exists b, list', s'. split_and!; try done. by apply no_overlap_view.
Qed.

Lemma vma_remove_correct_witness :
  exists b list' s', vma_remove demo_space.1 0x2000 0x7000 demo_space.2 = Some (b, list', s') /\
    view (elems (root list')) 0x7000 = view (elems (root demo_space.1)) 0x7000.
Proof.
  destruct (vma_remove_correct demo_space.1 ∅ demo_space.2 0x2000 0x7000 demo_space_wf ltac:(lia))
    as (b & list' & s' & E & _ & _ & _ & H). exists b, list', s'. split; [done|].
  apply H; [apply bump_never_fails|lia].
Defined.

(** When the node cache is exhausted [vma_remove] loses the end of a region
    it has to split: removing the middle page of a three-page region unmaps the last
    page too, and the result is the same as on success. *)
Theorem vma_remove_loses_rest :
  let list := VmaList (Node 0x10 (VmaData 0x1000 0x4000 3 0x22 (-1) 0) 0x4000 1 Leaf Leaf) 1 in
  let s := Stock [] {[0x10]} in
  vma_wf list ∅ s /\
  exists list' s', vma_remove list 0x2000 0x3000 s = Some (true, list', s') /\
    view (elems (root list)) 0x3000 <> None /\ view (elems (root list')) 0x3000 = None.
Proof.
  intros list s. split.
  - split; simpl; try done; try lia; try set_solver.
    + split; [repeat constructor; simpl; lia|repeat constructor].
    + apply NoDup_singleton.
    + split; [constructor|set_solver].
  - eexists _, _. split; [by vm_compute|]. split; by vm_compute.
Qed.

(** ** Protection *)

(** [vma_mprotect] terminates and returns 0 and, given memory, changes
    nothing outside the range.  If every address of the range is mapped, all of them
    get the new protection and keep flags, file and offset. *)
Theorem vma_mprotect_correct {A} `{!ObjAlloc A} list F (s : A) start end_ prot :
  vma_wf list F s ->
  exists list' s', vma_mprotect list start end_ prot s = Some (0, list', s') /\ vma_wf list' F s' /\
    (never_fails (A := A) ->
     (forall addr, addr < start \/ end_ <= addr -> view (elems (root list')) addr = view (elems (root list)) addr) /\
     ((forall addr, start <= addr < end_ -> view (elems (root list)) addr <> None) ->
      forall addr, start <= addr < end_ ->
        view (elems (root list')) addr = set_prot prot (view (elems (root list)) addr))).
Proof.
  intros W. destruct (vma_mprotect_spec list start end_ prot F s W) as (list' & s' & E & W' & H & _).
  exists list', s'. do 2 (split; [done|]). intros Hnf. destruct (H Hnf). done.
Qed.

Lemma vma_mprotect_correct_witness :
  exists list' s', vma_mprotect demo_space.1 0x2000 0x4000 1 demo_space.2 = Some (0, list', s') /\
    view (elems (root list')) 0x3000 = Some (1, 0x22, -1, 0).
Proof.
  destruct (vma_mprotect_correct demo_space.1 ∅ demo_space.2 0x2000 0x4000 1 demo_space_wf)
    as (list' & s' & E & _ & H). exists list', s'. split; [done|].
  destruct (H bump_never_fails) as [_ Hm]. rewrite Hm; [by vm_compute| |lia].
  intros addr Ha. rewrite view_none, Forall_forall. intros Hn.
  assert (exists v, v ∈ elems (root demo_space.1) /\ contains v addr) as (v & Hv & Hc); [|exact (Hn v Hv Hc)].
  destruct (Z_lt_le_dec addr 0x3000).
  - exists (VmaData 0x1000 0x3000 3 0x22 (-1) 0). split; [left|unfold contains; simpl; lia].
  - exists (VmaData 0x3000 0x4000 3 0x22 (-1) 0). split; [right; left|unfold contains; simpl; lia].
Defined.

(** [vma_mprotect] skips regions when the range has a gap: it continues at
    whatever overlapping region the search finds first, not at the lowest.  With
    regions at 0x1000, 0x3000 and 0x5000 it leaves the first one writable although
    the whole range up to 0x6000 was to become read-only, and returns 0. *)
Theorem vma_mprotect_skips_region :
  let regions := [VmaData 0x1000 0x2000 3 0x22 (-1) 0; VmaData 0x3000 0x4000 3 0x22 (-1) 0;
                  VmaData 0x5000 0x6000 3 0x22 (-1) 0] in
  let '(list, s) := fold_left demo_add regions (vma_list_init, Bump 0x100000 ∅) in
  vma_wf list ∅ s /\
  exists list' s', vma_mprotect list 0 0x6000 1 s = Some (0, list', s') /\
    view (elems (root list')) 0x1000 = Some (3, 0x22, -1, 0) /\
    view (elems (root list')) 0x3000 = Some (1, 0x22, -1, 0).
Proof.
  intros regions. set (x := fold_left demo_add regions (vma_list_init, Bump 0x100000 ∅)).
  assert (vma_wf x.1 ∅ x.2) as W.
  { unfold x, regions. cbn [fold_left]. do 3 (apply demo_add_wf; [|simpl; lia]). apply empty_wf; [intros p; set_solver|done]. }
  destruct x as [list s] eqn:E. split; [done|]. vm_compute in E. injection E as <- <-.
  eexists _, _. split; [by vm_compute|]. split; by vm_compute.
Qed.

(** ** Cloning, merging, destroying *)

(** [vma_list_clone] makes a list of its own with, given memory, exactly the
    regions of the source; the nodes of both lists are distinct. *)
Theorem vma_list_clone_correct {A} `{!ObjAlloc A} src F (s : A) dst s' :
  vma_wf src F s -> vma_list_clone src s = (dst, s') ->
  vma_wf dst (obj_live s) s' /\ (forall v, v ∈ elems (root dst) -> v ∈ elems (root src)) /\
  (never_fails (A := A) -> elems (root dst) = elems (root src) /\ count dst = count src).
Proof.
  intros W Hc. assert (vma_wf vma_list_init (obj_live s) s) as W0 by (apply empty_wf; [apply W|done]).
  destruct (clone_spec (root src) vma_list_init (obj_live s) s dst s' (vw_ordered _ _ _ W) W0) as (W' & Hm & Hp); [|done|].
  { intros w v Hw. by apply elem_of_nil in Hw. }
  split; [done|]. split; [intros v [?%elem_of_nil|?]%Hm; done|]. intros Hnf. specialize (Hp Hnf). simpl in Hp.
  rewrite app_nil_r in Hp. assert (elems (root dst) = elems (root src)) as E.
  { by apply ordered_perm_eq; [apply W'|apply W|]. }
  split; [done|]. by rewrite (vw_count _ _ _ W'), (vw_count _ _ _ W), E.
Qed.

Lemma vma_list_clone_correct_witness :
  elems (root (vma_list_clone demo_space.1 demo_space.2).1) = elems (root demo_space.1).
Proof.
  destruct (vma_list_clone demo_space.1 demo_space.2) as [dst s'] eqn:E.
  apply (vma_list_clone_correct demo_space.1 ∅ demo_space.2 dst s' demo_space_wf E). apply bump_never_fails.
Defined.

(** [vma_merge_adjacent] terminates and does not change what is mapped
    where; if its temporary arrays can be allocated, no two neighbours that could be
    merged remain. *)
Theorem vma_merge_correct {A} `{!ObjAlloc A} arr_ok list F (s : A) :
  vma_wf list F s ->
  exists list' s', vma_merge_adjacent arr_ok list s = Some (list', s') /\ vma_wf list' F s' /\
    (never_fails (A := A) -> forall addr, view (elems (root list')) addr = view (elems (root list)) addr) /\
    ((forall k, arr_ok k = true) -> find_pair (elems (root list')) = None).
Proof.
  intros W. destruct (merge_adjacent_spec arr_ok list F s W) as (l1 & s1 & E1 & W1 & H1 & H2 & _). by exists l1, s1.
Qed.

Lemma vma_merge_correct_witness :
  exists list' s', vma_merge_adjacent (fun _ => true) demo_space.1 demo_space.2 = Some (list', s') /\
    view (elems (root list')) 0x3000 = view (elems (root demo_space.1)) 0x3000.
Proof.
  destruct (vma_merge_correct (fun _ => true) demo_space.1 ∅ demo_space.2 demo_space_wf) as (list' & s' & E & _ & H & _).
  exists list', s'. split; [done|]. apply H, bump_never_fails.
Defined.

(** [vma_list_destroy] returns every node of the list to the cache and
    nothing else. *)
Theorem vma_list_destroy_correct {A} `{!ObjAlloc A} list F (s : A) :
  vma_wf list F s ->
  let '(list', s') := vma_list_destroy list s in vma_wf list' F s' /\ obj_live s' = F /\ elems (root list') = [].
Proof.
  intros W. simpl. destruct (destroy_spec (root list) s (vw_ok _ _ _ W) (vw_nodup _ _ _ W)) as [Hok Hl].
  { intros p Hp. rewrite (vw_live _ _ _ W). set_solver. }
  assert (obj_live (vma_destroy_recursive (root list) s) = F) as E.
  { rewrite Hl, (vw_live _ _ _ W). pose proof (vw_frame _ _ _ W) as Hf. apply set_eq. intros q.
    rewrite elem_of_difference, elem_of_union, elem_of_list_to_set. specialize (Hf q). tauto. }
  split_and!; [by apply empty_wf|done|done].
Qed.

Lemma vma_list_destroy_correct_witness : obj_live (vma_list_destroy demo_space.1 demo_space.2).2 = ∅.
Proof. apply (vma_list_destroy_correct demo_space.1 ∅ demo_space.2 demo_space_wf). Defined.

(** ** Gaps *)

(** A non-zero result of [vma_find_gap] is at least the base address and
    starts a range of the requested length that no region meets (as long as no
    region ends within that length of the top of the address space). *)
Theorem vma_find_gap_correct {A} `{!ObjAlloc A} arr_ok list F (s : A) len base limit r :
  vma_wf list F s -> 0 < len -> 0 <= base -> base + len < 2 ^ 64 ->
  (forall v, v ∈ elems (root list) -> v_end v + len < 2 ^ 64) ->
  vma_find_gap arr_ok list len base limit = r -> r <> 0 ->
  base <= r /\ forall addr, r <= addr < r + len -> view (elems (root list)) addr = None.
Proof.
  intros W Hlen Hb Hbl Hends Hr Hn.
  destruct (vma_find_gap_spec arr_ok list len base limit r (vw_ordered _ _ _ W) (vw_count _ _ _ W)) as [H1 H2];
    try done; [by apply Forall_forall|]. split; [done|]. by apply no_overlap_view.
Qed.

Lemma vma_find_gap_correct_witness :
  vma_find_gap true demo_space.1 0x2000 0x1000 0x100000 = 0x4000 /\
  view (elems (root demo_space.1)) 0x5FFF = None.
Proof.
  assert (vma_find_gap true demo_space.1 0x2000 0x1000 0x100000 = 0x4000) as E by (by vm_compute).
  split; [done|]. refine (proj2 (vma_find_gap_correct true demo_space.1 ∅ demo_space.2 0x2000 0x1000 0x100000 0x4000
    demo_space_wf _ _ _ _ E _) 0x5FFF _); try lia.
  apply Forall_forall. repeat constructor; simpl; lia.
Defined.

(** The limit does not bound a gap found before a region: [vma_find_gap] can
    return an address above [limit_addr]. *)
Theorem vma_find_gap_ignores_limit :
  exists r, vma_find_gap true demo_space.1 0x1000 0x4000 0x4800 = r /\ r <> 0 /\ 0x4800 < r + 0x1000.
Proof. eexists. split; [by vm_compute|]. done. Qed.

(** ** Depth of the recursion *)

(** The recursive functions of [vma.c] descend at most logarithmically:
    [2^(depth/2) <= count + 1] for every reachable list. *)
Theorem vma_depth_logarithmic {A} `{!ObjAlloc A} list F (s : A) :
  vma_wf list F s -> 2 ^ (depth (root list) / 2) <= count list + 1.
Proof.
  intros W. rewrite (depth_height _ (vw_avl _ _ _ W)), (vw_count _ _ _ W). apply height_log, W.
Qed.

Lemma vma_depth_logarithmic_witness : 2 ^ (depth (root demo_space.1) / 2) <= count demo_space.1 + 1.
Proof. apply (vma_depth_logarithmic demo_space.1 ∅ demo_space.2 demo_space_wf). Defined.
