(* ===== verification/Slab.v ===== *)
(** * Object caches

    Models [kernel/src/mm/slab_cache.c]: caches of fixed-size objects in
    one-page slabs.  A slab page starts with a header that links it into one of
    its cache's three lists and tracks its objects in a 128-bit bitmap.

    As in the list library, the links of all slab pages are a store of [next] and
    [prev] fields ([sl_links]); the other header fields are in [sl_pages].  A cache
    is named by its slot in [cache_pool].  A slab that [kmem_cache_shrink] gave back
    stays mapped with its header as it was; such headers are in [sl_stale].  Memory
    outside [sl_pages] and [sl_stale] does not carry the magic number of a slab.
    Constructors and destructors are not
    represented (no cache of the kernel has one), nor are log output and locks.
    Frames and mappings come from the layers below through [PageSource], of which
    nothing is assumed: a slab is identified by its virtual page, and those are
    never reused. *)

From S2P Require Import Prelude DList.

Definition SLAB_CACHE_MAX_CACHES : nat := 32.
Definition SLAB_PAGE_MAGIC : Z := 0xCA04E51A8CA04E.
Definition SLAB_HEADER : Z := 64.
Definition SLAB_VADDR_BASE : Z := 0xFFFFE00000000000 + 0x100000000.

Record kmem_cache := KmemCache {
  obj_size : Z;
  obj_aligned : Z;
  alignment : Z;
  objs_per_slab : Z;
  slabs_partial : Z;
  slabs_full : Z;
  slabs_free : Z;
  total_allocs : Z;
  total_frees : Z;
  active_objects : Z;
  total_slabs : Z;
}.

Record slab_page := SlabPage {
  sp_magic : Z;
  sp_cache : nat;
  sp_free_count : Z;
  sp_total_count : Z;
  sp_bitmap : list Z;
}.

(** What slab pages are made of: [pmm_alloc_page] (0 is null), [vmm_map_page] in
    the active tables, [pmm_free_page] and [vmm_virt_to_phys]. *)
Class PageSource (M : Type) := {
  ps_alloc : M -> Z * M;
  ps_map : M -> Z -> Z -> bool * M;
  ps_free : M -> Z -> M;
  ps_phys : M -> Z -> Z;
}.

Record slab_sys (M : Type) := SlabSys {
  sl_links : lmem;
  sl_pages : gmap Z slab_page;
  sl_stale : gmap Z slab_page;
  cache_pool : list kmem_cache;
  cache_used : list bool;
  cache_count : Z;
  slab_vaddr_cursor : Z;
  sl_mem : M;
}.
Arguments SlabSys {M}.
Arguments sl_links {M}.
Arguments sl_pages {M}.
Arguments sl_stale {M}.
Arguments cache_pool {M}.
Arguments cache_used {M}.
Arguments cache_count {M}.
Arguments slab_vaddr_cursor {M}.
Arguments sl_mem {M}.

(** ** Bitmaps of 32-bit words *)

Definition BITMAP_SET (bmp : list Z) (i : Z) : list Z :=
  wr bmp (i / 32) (Z.lor (rd bmp (i / 32)) (Z.shiftl 1 (i mod 32))).
Definition BITMAP_CLEAR (bmp : list Z) (i : Z) : list Z :=
  wr bmp (i / 32) (Z.land (rd bmp (i / 32)) (Z.lnot (Z.shiftl 1 (i mod 32)))).
Definition BITMAP_TEST (bmp : list Z) (i : Z) : bool :=
  negb (Z.land (rd bmp (i / 32)) (Z.shiftl 1 (i mod 32)) =? 0).

(** ** Lists of slabs; 0 is the null pointer *)

(** Returns the links and the head. *)
Definition slab_unlink (m : lmem) (head s : Z) : lmem * Z :=
  let '(m, head) :=
    if negb (get_prev m s =? 0) then (set_next m (get_prev m s) (get_next m s), head)
    else (m, get_next m s) in
  let m := if negb (get_next m s =? 0) then set_prev m (get_next m s) (get_prev m s) else m in
  let m := set_next m s 0 in
  (set_prev m s 0, head).

Definition slab_push (m : lmem) (head s : Z) : lmem * Z :=
  let m := set_next m s head in
  let m := set_prev m s 0 in
  let m := if negb (head =? 0) then set_prev m head s else m in
  (m, s).

Section Slabs.
Context {M : Type} `{!PageSource M}.
Notation sys := (slab_sys M).

Definition with_slabs (st : sys) (m : lmem) (p : gmap Z slab_page) : sys :=
  SlabSys m p (sl_stale st) (cache_pool st) (cache_used st) (cache_count st) (slab_vaddr_cursor st) (sl_mem st).
Definition with_cache (st : sys) (c : nat) (k : kmem_cache) : sys :=
  SlabSys (sl_links st) (sl_pages st) (sl_stale st) (<[c := k]> (cache_pool st)) (cache_used st) (cache_count st)
    (slab_vaddr_cursor st) (sl_mem st).

Definition with_lists (k : kmem_cache) (partial full free : Z) : kmem_cache :=
  KmemCache (obj_size k) (obj_aligned k) (alignment k) (objs_per_slab k) partial full free
    (total_allocs k) (total_frees k) (active_objects k) (total_slabs k).
Definition with_stats (k : kmem_cache) (allocs frees active slabs : Z) : kmem_cache :=
  KmemCache (obj_size k) (obj_aligned k) (alignment k) (objs_per_slab k) (slabs_partial k)
    (slabs_full k) (slabs_free k) allocs frees active slabs.

(** A new slab page for the cache in slot [c], described by [k]; [None] is a
    null result.  The page is mapped at the next address of the slab region. *)
Definition slab_page_alloc (st : sys) (c : nat) (k : kmem_cache) : option (Z * kmem_cache) * sys :=
  let '(frame, mem) := ps_alloc (sl_mem st) in
  if frame =? 0 then
    (None, SlabSys (sl_links st) (sl_pages st) (sl_stale st) (cache_pool st) (cache_used st) (cache_count st)
             (slab_vaddr_cursor st) mem)
  else
    let vaddr := slab_vaddr_cursor st in
    let cursor := u64 (vaddr + PAGE_SIZE) in
    let '(ok, mem) := ps_map mem vaddr frame in
    if negb ok then
      (None, SlabSys (sl_links st) (sl_pages st) (sl_stale st) (cache_pool st) (cache_used st) (cache_count st)
               cursor (ps_free mem frame))
    else
      let total := if objs_per_slab k >? 128 then 128 else objs_per_slab k in
      let page := SlabPage SLAB_PAGE_MAGIC c total total [0; 0; 0; 0] in
      let links := set_prev (set_next (sl_links st) vaddr 0) vaddr 0 in
      (Some (vaddr, with_stats k (total_allocs k) (total_frees k) (active_objects k) (u64 (total_slabs k + 1))),
       SlabSys links (<[vaddr := page]> (sl_pages st)) (sl_stale st) (cache_pool st) (cache_used st)
         (cache_count st) cursor mem).

(** First clear bit below [n + i], from [i]. *)
Fixpoint find_free (n : nat) (bmp : list Z) (i : Z) : Z :=
  match n with
  | O => -1
  | S n' => if negb (BITMAP_TEST bmp i) then i else find_free n' bmp (i + 1)
  end.

(** Steps 1 to 3 of [kmem_cache_alloc]: a slab at the front of the partial list. *)
Definition slab_for_alloc (st : sys) (c : nat) (k : kmem_cache) : option (Z * kmem_cache) * sys :=
  if negb (slabs_partial k =? 0) then (Some (slabs_partial k, k), st)
  else
    let '(r, st) :=
      if negb (slabs_free k =? 0) then
        let s := slabs_free k in
        let '(m, free) := slab_unlink (sl_links st) (slabs_free k) s in
        (Some (s, with_lists k (slabs_partial k) (slabs_full k) free), with_slabs st m (sl_pages st))
      else slab_page_alloc st c k in
    match r with
    | None => (None, st)
    | Some (s, k) =>
        if s =? 0 then (None, with_cache st c k)
        else
        let '(m, partial) := slab_push (sl_links st) (slabs_partial k) s in
        (Some (s, with_lists k partial (slabs_full k) (slabs_free k)), with_slabs st m (sl_pages st))
    end.

(** The object taken from slab [s]; the result is a null pointer if [s] has none. *)
Definition take_object (st : sys) (c : nat) (k : kmem_cache) (s : Z) : option Z * sys :=
  match sl_pages st !! s with
  | None => (None, st)
  | Some p =>
      let free_idx := find_free (Z.to_nat (sp_total_count p)) (sp_bitmap p) 0 in
      if free_idx =? -1 then (None, with_cache st c k)
      else
        let p := SlabPage (sp_magic p) (sp_cache p) (u32 (sp_free_count p - 1)) (sp_total_count p)
                   (BITMAP_SET (sp_bitmap p) free_idx) in
        let pages := <[s := p]> (sl_pages st) in
        let '(m, k) :=
          if sp_free_count p =? 0 then
            let '(m, partial) := slab_unlink (sl_links st) (slabs_partial k) s in
            let '(m, full) := slab_push m (slabs_full k) s in
            (m, with_lists k partial full (slabs_free k))
          else (sl_links st, k) in
        let k := with_stats k (u64 (total_allocs k + 1)) (total_frees k) (u64 (active_objects k + 1)) (total_slabs k) in
        (Some (u64 (s + SLAB_HEADER + free_idx * obj_aligned k)), with_cache (with_slabs st m pages) c k)
  end.

Definition kmem_cache_alloc (st : sys) (c : nat) : option Z * sys :=
  match cache_pool st !! c with
  | None => (None, st)
  | Some k =>
      match slab_for_alloc st c k with
      | (None, st) => (None, st)
      | (Some (s, k), st) => take_object st c k s
      end
  end.

(** State transitions of a slab after an object of it has been freed. *)
Definition settle_slab (m : lmem) (k : kmem_cache) (s : Z) (p : slab_page) : lmem * kmem_cache :=
  let '(m, k) :=
    if sp_free_count p =? 1 then
      let '(m, full) := slab_unlink m (slabs_full k) s in
      let '(m, partial) := slab_push m (slabs_partial k) s in
      (m, with_lists k partial full (slabs_free k))
    else (m, k) in
  if sp_free_count p =? sp_total_count p then
    let '(m, partial) := slab_unlink m (slabs_partial k) s in
    let '(m, free) := slab_push m (slabs_free k) s in
    (m, with_lists k partial (slabs_full k) free)
  else (m, k).

(** The header at a page of the slab region, and writing it. *)
Definition slab_header (st : sys) (a : Z) : option slab_page :=
  match sl_pages st !! a with Some p => Some p | None => sl_stale st !! a end.
Definition with_header (st : sys) (m : lmem) (a : Z) (p : slab_page) : sys :=
  match sl_pages st !! a with
  | Some _ => with_slabs st m (<[a := p]> (sl_pages st))
  | None => SlabSys m (sl_pages st) (<[a := p]> (sl_stale st)) (cache_pool st) (cache_used st) (cache_count st)
              (slab_vaddr_cursor st) (sl_mem st)
  end.

Definition kmem_cache_free (st : sys) (c : nat) (obj : Z) : sys :=
  match cache_pool st !! c with
  | None => st
  | Some k =>
      if obj =? 0 then st
      else
        let page_base := Z.land obj (u64 (Z.lnot 0xFFF)) in
        match slab_header st page_base with
        | None => st
        | Some p =>
            if negb (sp_magic p =? SLAB_PAGE_MAGIC) then st
            else if negb (Nat.eqb (sp_cache p) c) then st
            else
              let offset := u64 (obj - (page_base + SLAB_HEADER)) in
              let idx := u32 (offset / obj_aligned k) in
              if idx >=? sp_total_count p then st
              else if negb (BITMAP_TEST (sp_bitmap p) idx) then st
              else
                let p := SlabPage (sp_magic p) (sp_cache p) (u32 (sp_free_count p + 1)) (sp_total_count p)
                           (BITMAP_CLEAR (sp_bitmap p) idx) in
                let k := with_stats k (total_allocs k) (u64 (total_frees k + 1)) (u64 (active_objects k - 1)) (total_slabs k) in
                let '(m, k) := settle_slab (sl_links st) k page_base p in
                with_cache (with_header st m page_base p) c k
        end
  end.

(** Empty slabs go back to the page source; their virtual pages stay mapped, and their
    headers keep the magic number. *)
Fixpoint shrink_loop (fuel : nat) (st : sys) (k : kmem_cache) : option (kmem_cache * sys) :=
  if slabs_free k =? 0 then Some (k, st)
  else match fuel with
  | O => None
  | S n =>
      let s := slabs_free k in
      let '(m, free) := slab_unlink (sl_links st) (slabs_free k) s in
      let phys := ps_phys (sl_mem st) s in
      let mem := if negb (phys =? 0) then ps_free (sl_mem st) (Z.land phys 0x000FFFFFFFFFF000) else sl_mem st in
      let k := with_lists (with_stats k (total_allocs k) (total_frees k) (active_objects k) (u64 (total_slabs k - 1)))
                 (slabs_partial k) (slabs_full k) free in
      let stale := match sl_pages st !! s with Some p => <[s := p]> (sl_stale st) | None => sl_stale st end in
      shrink_loop n (SlabSys m (delete s (sl_pages st)) stale (cache_pool st) (cache_used st) (cache_count st)
                       (slab_vaddr_cursor st) mem) k
  end.

Definition kmem_cache_shrink (st : sys) (c : nat) : option sys :=
  match cache_pool st !! c with
  | None => Some st
  | Some k =>
      match shrink_loop (size (sl_pages st)) st k with
      | None => None
      | Some (k, st) => Some (with_cache st c k)
      end
  end.

(** First slot not in use. *)
Fixpoint free_slot (used : list bool) (i : nat) : option nat :=
  match used with
  | [] => None
  | b :: rest => if negb b then Some i else free_slot rest (S i)
  end.

Definition kmem_cache_create (st : sys) (size align : Z) : option nat * sys :=
  if size =? 0 then (None, st)
  else
    let align := if align =? 0 then 8 else align in
    let aligned_size := Z.land (u64 (size + align - 1)) (u64 (Z.lnot (u64 (align - 1)))) in
    let aligned_size := if aligned_size <? 16 then 16 else aligned_size in
    match free_slot (cache_used st) 0 with
    | None => (None, st)
    | Some slot =>
        let per_slab := u32 ((PAGE_SIZE - SLAB_HEADER) / aligned_size) in
        let per_slab := if per_slab >? 128 then 128 else per_slab in
        let c := KmemCache size aligned_size align per_slab 0 0 0 0 0 0 0 in
        if per_slab =? 0 then
          (None, with_cache st slot c)
        else
          let st := with_cache st slot c in
          (Some slot, SlabSys (sl_links st) (sl_pages st) (sl_stale st) (cache_pool st) (<[slot := true]> (cache_used st))
                        (cache_count st + 1) (slab_vaddr_cursor st) (sl_mem st))
    end.

Definition kmem_cache_destroy (st : sys) (c : nat) : sys :=
  match cache_used st !! c with
  | Some true =>
      SlabSys (sl_links st) (sl_pages st) (sl_stale st) (cache_pool st) (<[c := false]> (cache_used st))
        (cache_count st - 1) (slab_vaddr_cursor st) (sl_mem st)
  | _ => st
  end.

Definition slab_cache_init (st : sys) : sys :=
  SlabSys (sl_links st) (sl_pages st) (sl_stale st)
    (replicate SLAB_CACHE_MAX_CACHES (KmemCache 0 0 0 0 0 0 0 0 0 0 0))
    (replicate SLAB_CACHE_MAX_CACHES false) 0 (slab_vaddr_cursor st) (sl_mem st).

Definition kmem_cache_total_active (st : sys) : Z :=
  fold_left (fun total '(used, k) => if (used : bool) then u64 (total + active_objects k) else total)
    (combine (cache_used st) (cache_pool st)) 0.
End Slabs.
