(* ===== verification/SlabList.v ===== *)
(** * The lists of slabs

    [nlist m h l]: the null-terminated doubly linked list with head pointer [h]
    holds the slabs [l].  [slab_push] and [slab_unlink] implement consing and
    deletion, and touch no other list. *)

From S2P Require Import Prelude DList Slab.

Definition hd0 (l : list Z) : Z := default 0 (head l).

Fixpoint nseg (m : lmem) (a : Z) (l : list Z) : Prop :=
  match l with
  | [] => True
  | x :: l' => get_prev m x = a /\ get_next m x = hd0 l' /\ nseg m x l'
  end.

Definition nlist (m : lmem) (h : Z) (l : list Z) : Prop :=
  h = hd0 l /\ NoDup l /\ 0 ∉ l /\ nseg m 0 l.

(** Agreement of two stores on the links of a node. *)
Definition same_node (m m' : lmem) (x : Z) : Prop :=
  get_next m' x = get_next m x /\ get_prev m' x = get_prev m x.

Ltac links := repeat rewrite ?get_next_set_prev, ?get_prev_set_next, ?get_next_set, ?get_prev_set.

Lemma nseg_frame m m' l : forall a, (forall x, x ∈ l -> same_node m m' x) -> nseg m a l -> nseg m' a l.
Proof.
  induction l as [|x l IH]; intros a Hs; simpl; [done|]. intros (? & ? & ?).
  destruct (Hs x ltac:(left)) as [-> ->]. do 2 (split; [done|]). apply IH; [|done].
  intros y Hy. apply Hs. by right.
Qed.

Lemma nlist_frame m m' h l : (forall x, x ∈ l -> same_node m m' x) -> nlist m h l -> nlist m' h l.
Proof. intros Hs (? & ? & ? & ?). do 3 (split; [done|]). by eapply nseg_frame. Qed.

Lemma nlist_nil m : nlist m 0 [].
Proof. split; [done|]. split; [constructor|]. split; [apply not_elem_of_nil|done]. Qed.

Lemma nlist_head_nz m h l : nlist m h l -> h <> 0 -> exists l', l = h :: l'.
Proof. intros (-> & _). destruct l as [|x l]; [done|]. by exists l. Qed.

Lemma nlist_null m l : nlist m 0 l -> l = [].
Proof. intros (Hh & _ & H0 & _). destruct l as [|x l]; [done|]. unfold hd0 in Hh; simpl in Hh. subst. set_solver. Qed.

Lemma slab_push_spec m h l s m' h' : nlist m h l -> s ∉ l -> s <> 0 -> slab_push m h s = (m', h') ->
  nlist m' h' (s :: l) /\ forall x, x ∉ s :: l -> same_node m m' x.
Proof.
  intros (-> & Hnd & H0 & Hseg) Hs Hs0 [= <- <-].
  destruct l as [|y l]; unfold hd0; simpl.
  - split.
    + split; [done|]. split; [apply NoDup_singleton|]. split; [set_solver|]. simpl. links.
      by rewrite Z.eqb_refl.
    + intros x Hx. split; links; destruct (Z.eqb_spec s x); set_solver.
  - destruct (Z.eqb_spec y 0) as [->|Hy]; [set_solver|]. simpl.
    assert (s <> y) by set_solver. apply NoDup_cons in Hnd as [Hyl Hnd].
    split.
    + split; [done|]. split; [constructor; [done|by constructor]|]. split; [set_solver|].
      simpl. links. rewrite Z.eqb_refl, (proj2 (Z.eqb_neq s y)), (proj2 (Z.eqb_neq y s)), Z.eqb_refl by done.
      destruct Hseg as (_ & Hn & Hseg). do 4 (split; [done|]).
      apply (nseg_frame m); [|done]. intros x Hx. split; links.
      * by rewrite (proj2 (Z.eqb_neq s x)) by set_solver.
      * by rewrite (proj2 (Z.eqb_neq y x)), (proj2 (Z.eqb_neq s x)) by set_solver.
    + intros x Hx. split; links.
      * by rewrite (proj2 (Z.eqb_neq s x)) by set_solver.
      * by rewrite (proj2 (Z.eqb_neq y x)), (proj2 (Z.eqb_neq s x)) by set_solver.
Qed.

(** The node before the rest of a segment, and the segment's last node. *)
Lemma nseg_app m l1 : forall a l2, nseg m a (l1 ++ l2) ->
  nseg m (default a (last l1)) l2.
Proof.
  induction l1 as [|x l1 IH]; intros a l2; simpl; [done|]. intros (_ & _ & H). apply IH in H.
  rewrite list.last_cons. by destruct (last l1).
Qed.

(** Removing the head of the second part: the last node of the first part is
    redirected, and the next node points back at it. *)
Lemma nseg_remove m m' s l2 : forall l1 a,
  NoDup (l1 ++ s :: l2) -> nseg m a (l1 ++ s :: l2) ->
  (forall x, x ∈ l1 ++ l2 -> get_next m' x = if decide (Some x = last l1) then hd0 l2 else get_next m x) ->
  (forall x, x ∈ l1 ++ l2 -> get_prev m' x = if decide (Some x = head l2) then default a (last l1) else get_prev m x) ->
  nseg m' a (l1 ++ l2).
Proof.
  induction l1 as [|x l1 IH]; intros a Hnd Hseg Hn Hp; simpl in *.
  - destruct l2 as [|y l2]; [done|]. destruct Hseg as (_ & _ & _ & Hny & Hseg); simpl in *.
    rewrite (Hp y), (Hn y), decide_True by (done || left).
    do 2 (split; [done|]). apply NoDup_cons in Hnd as [_ Hnd]. apply NoDup_cons in Hnd as [Hy _].
    apply (nseg_frame m); [|done]. intros z Hz. split; [by apply Hn; right|].
    rewrite Hp by (by right). apply decide_False. congruence.
  - destruct Hseg as (Hpx & Hnx & Hseg). apply NoDup_cons in Hnd as [Hx Hnd].
    split; [|split].
    + rewrite Hp by left. rewrite decide_False; [done|]. destruct l2; [done|]. set_solver.
    + rewrite Hn by left. rewrite list.last_cons. destruct (last l1) as [y|] eqn:Hl.
      * apply last_Some in Hl as [l' ->]. rewrite decide_False by set_solver. by destruct l'.
      * apply last_None in Hl as ->. by rewrite decide_True.
    + apply IH; [done|done| |].
      * intros z Hz. rewrite Hn by (by right). rewrite list.last_cons. destruct (last l1) as [y|] eqn:Hl; [done|].
        rewrite decide_False, decide_False; [done|done|]. apply last_None in Hl as ->. set_solver.
      * intros z Hz. rewrite Hp by (by right). rewrite list.last_cons. by destruct (last l1).
Qed.

Lemma slab_unlink_links m h s : forall x, x <> s ->
  get_next (slab_unlink m h s).1 x =
    (if negb (get_prev m s =? 0) && (get_prev m s =? x) then get_next m s else get_next m x) /\
  get_prev (slab_unlink m h s).1 x =
    (if negb (get_next m s =? 0) && (get_next m s =? x) then get_prev m s else get_prev m x).
Proof.
  intros x Hx. unfold slab_unlink. destruct (Z.eqb_spec (get_prev m s) 0) as [Hp|Hp]; simpl.
  - destruct (Z.eqb_spec (get_next m s) 0) as [Hn|Hn]; simpl; split; links; try done;
      by rewrite (proj2 (Z.eqb_neq s x)) by done.
  - assert (Hns : get_next (set_next m (get_prev m s) (get_next m s)) s = get_next m s).
    { links. by case_if. }
    rewrite Hns. destruct (Z.eqb_spec (get_next m s) 0) as [Hn|Hn]; simpl; split; links; try done;
      by rewrite (proj2 (Z.eqb_neq s x)) by done.
Qed.

Lemma slab_unlink_head m h s : (slab_unlink m h s).2 = if get_prev m s =? 0 then get_next m s else h.
Proof. unfold slab_unlink. by destruct (Z.eqb_spec (get_prev m s) 0). Qed.

Lemma slab_unlink_spec m h l1 s l2 m' h' : nlist m h (l1 ++ s :: l2) -> slab_unlink m h s = (m', h') ->
  nlist m' h' (l1 ++ l2) /\ forall x, x ∉ l1 ++ s :: l2 -> same_node m m' x.
Proof.
  intros (Hh & Hnd & H0 & Hseg) He.
  pose proof (slab_unlink_links m h s) as Hl. pose proof (slab_unlink_head m h s) as Hhd.
  rewrite He in Hl, Hhd. cbn [fst snd] in Hl, Hhd.
  pose proof (nseg_app _ _ _ _ Hseg) as Hs. destruct Hs as (Hps & Hns & Hs2).
  assert (Hs : s ∉ l1 ++ l2).
  { rewrite <- Permutation_middle in Hnd. by apply NoDup_cons in Hnd as [? _]. }
  assert (Hp0 : get_prev m s = 0 <-> l1 = []).
  { rewrite Hps. destruct (last l1) as [y|] eqn:E; simpl.
    - apply last_Some in E as [l' ->]. split; [set_solver|by destruct l'].
    - apply last_None in E as ->. done. }
  assert (Hn0 : get_next m s = 0 <-> l2 = []).
  { rewrite Hns. destruct l2 as [|y l2]; unfold hd0; simpl; [done|]. split; [set_solver|done]. }
  split.
  - split; [|split; [|split]].
    + rewrite Hhd. destruct (Z.eqb_spec (get_prev m s) 0) as [Hz|Hz].
      * apply Hp0 in Hz as ->. done.
      * rewrite Hh. destruct l1; [|done]. by destruct Hz; apply Hp0.
    + rewrite <- Permutation_middle in Hnd. by apply NoDup_cons in Hnd as [_ ?].
    + set_solver.
    + apply (nseg_remove m _ s); [done|done| |]; intros x Hx.
      * destruct (Hl x ltac:(set_solver)) as [-> _]. rewrite Hps.
        destruct (last l1) as [y|] eqn:E; simpl; [|done]. apply last_Some in E as [l' ->].
        destruct (Z.eqb_spec y 0); [set_solver|]. simpl.
        destruct (Z.eqb_spec y x) as [->|]; [by rewrite decide_True|]. rewrite decide_False; [done|congruence].
      * destruct (Hl x ltac:(set_solver)) as [_ ->]. rewrite Hps, Hns.
        destruct l2 as [|y l2]; unfold hd0; simpl; [done|].
        destruct (Z.eqb_spec y 0); [set_solver|]. simpl.
        destruct (Z.eqb_spec y x) as [->|]; [by rewrite decide_True|]. rewrite decide_False; [done|congruence].
  - intros x Hx. destruct (Hl x ltac:(set_solver)) as [Hln Hlp]. rewrite Hps, Hns in *.
    split; [rewrite Hln|rewrite Hlp].
    + destruct (last l1) as [y|] eqn:E; simpl; [|done]. apply last_Some in E as [l' ->].
      destruct (Z.eqb_spec y x) as [->|]; [set_solver|]. by rewrite andb_false_r.
    + destruct l2 as [|y l2]; unfold hd0; simpl; [done|].
      destruct (Z.eqb_spec y x) as [->|]; [set_solver|]. by rewrite andb_false_r.
Qed.

(** ** All the lists of all the caches

    A list is named by its cache's slot and its kind.  [slab_lists m H tg]: with
    head pointers [H], the lists partition the slabs the way [tg] says. *)

Inductive slab_kind := Partial | Full | Empty.

#[export] Instance slab_kind_eq_dec : EqDecision slab_kind.
Proof. solve_decision. Defined.

Notation slab_list := (nat * slab_kind)%type.

Definition slab_lists (m : lmem) (H : slab_list -> Z) (tg : gmap Z slab_list) : Prop :=
  exists G : slab_list -> list Z,
    (forall a, nlist m (H a) (G a)) /\ forall x a, x ∈ G a <-> tg !! x = Some a.

Lemma slab_lists_ext m H H' tg : (forall a, H a = H' a) -> slab_lists m H tg -> slab_lists m H' tg.
Proof. intros He (G & HG & Hm). exists G. split; [|done]. intros a. rewrite <- He. apply HG. Qed.

Lemma slab_lists_head m H tg a : slab_lists m H tg -> H a <> 0 -> tg !! H a = Some a.
Proof.
  intros (G & HG & Hm) Hh. destruct (nlist_head_nz _ _ _ (HG a) Hh) as [l Hl].
  apply Hm. rewrite Hl. left.
Qed.

Lemma slab_lists_null m H tg a : slab_lists m H tg -> H a = 0 -> forall x, tg !! x <> Some a.
Proof.
  intros (G & HG & Hm) Hh x Hx. specialize (HG a). rewrite Hh in HG. apply nlist_null in HG.
  apply Hm in Hx. rewrite HG in Hx. by apply not_elem_of_nil in Hx.
Qed.

Lemma slab_lists_zero m H tg : slab_lists m H tg -> tg !! 0 = None.
Proof.
  intros (G & HG & Hm). destruct (tg !! 0) as [a|] eqn:E; [|done].
  apply Hm in E. by destruct (HG a) as (_ & _ & ? & _).
Qed.

Lemma slab_lists_push m H tg a s m' h' : slab_lists m H tg -> tg !! s = None -> s <> 0 ->
  slab_push m (H a) s = (m', h') -> slab_lists m' (<[a := h']> H) (<[s := a]> tg).
Proof.
  intros (G & HG & Hm) Hs Hs0 He.
  assert (Hns : forall b, s ∉ G b) by (intros b Hb%Hm; congruence).
  destruct (slab_push_spec _ _ _ _ _ _ (HG a) (Hns a) Hs0 He) as [Hl Hf].
  exists (<[a := s :: G a]> G). split.
  - intros b. destruct (decide (b = a)) as [->|Hb]; [by rewrite !fn_lookup_insert|].
    rewrite !fn_lookup_insert_ne by done. apply (nlist_frame m); [|apply HG].
    intros x Hx. apply Hf. intros [->|Ha]%elem_of_cons; [by apply (Hns b)|].
    apply Hm in Hx, Ha. congruence.
  - intros x b. destruct (decide (b = a)) as [->|Hb].
    + rewrite fn_lookup_insert, elem_of_cons, lookup_insert_Some, Hm. naive_solver.
    + rewrite fn_lookup_insert_ne, lookup_insert_Some, Hm by done. naive_solver.
Qed.

Lemma slab_lists_unlink m H tg a s m' h' : slab_lists m H tg -> tg !! s = Some a ->
  slab_unlink m (H a) s = (m', h') -> slab_lists m' (<[a := h']> H) (delete s tg).
Proof.
  intros (G & HG & Hm) Hs He. pose proof Hs as Hin. apply Hm in Hin.
  apply list_elem_of_split in Hin as (l1 & l2 & Hl).
  pose proof (HG a) as Ha. rewrite Hl in Ha.
  destruct (slab_unlink_spec _ _ _ _ _ _ _ Ha He) as [Hl' Hf].
  assert (Hnd : s ∉ l1 ++ l2).
  { destruct Ha as (_ & Hnd & _). rewrite <- Permutation_middle in Hnd. by apply NoDup_cons in Hnd as [? _]. }
  exists (<[a := l1 ++ l2]> G). split.
  - intros b. destruct (decide (b = a)) as [->|Hb]; [by rewrite !fn_lookup_insert|].
    rewrite !fn_lookup_insert_ne by done. apply (nlist_frame m); [|apply HG].
    intros x Hx. apply Hf. rewrite <- Hl. intros Hxa. apply Hm in Hx, Hxa. congruence.
  - intros x b. rewrite lookup_delete_Some. destruct (decide (b = a)) as [->|Hb].
    + rewrite fn_lookup_insert, <- Hm, Hl. set_solver.
    + rewrite fn_lookup_insert_ne, Hm by done. naive_solver.
Qed.

(** A slab moves from the list [a] to the list [b]. *)
Lemma slab_lists_move m H tg a b s m1 h1 m2 h2 : slab_lists m H tg -> tg !! s = Some a -> a <> b ->
  slab_unlink m (H a) s = (m1, h1) -> slab_push m1 (H b) s = (m2, h2) ->
  slab_lists m2 (<[b := h2]> (<[a := h1]> H)) (<[s := b]> tg).
Proof.
  intros HL Hs Hab Hu Hp.
  assert (s <> 0) by (intros ->; rewrite (slab_lists_zero _ _ _ HL) in Hs; done).
  pose proof (slab_lists_unlink _ _ _ _ _ _ _ HL Hs Hu) as HL1.
  rewrite <- (insert_delete_eq tg). eapply slab_lists_push; [exact HL1|by rewrite lookup_delete_eq|done|].
  by rewrite fn_lookup_insert_ne.
Qed.
