(* ===== verification/SlabSpec.v ===== *)
(** * Invariant and specifications of the object caches

    Every slab page is on exactly the list its free count says, free counts agree
    with the bitmaps, and the active count of a cache is the number of its live
    objects ([slab_inv]).  Allocation and release preserve the invariant and change
    the set of live objects by the one object they are about; hence a cache is an
    allocator in the sense of [ObjAlloc]. *)

From S2P Require Import Prelude Bitmap DList ObjAlloc Slab SlabList.

(** ** Bitmaps *)

Lemma BITMAP_TEST_bit bmp i : 0 <= i -> BITMAP_TEST bmp i = Z.testbit (rd bmp (i / 32)) (i mod 32).
Proof.
  intros Hi. unfold BITMAP_TEST. pose proof (Z.mod_pos_bound i 32 ltac:(lia)).
  set (w := rd bmp (i / 32)). set (j := i mod 32) in *. destruct (Z.testbit w j) eqn:Ht.
  - apply negb_true_iff, Z.eqb_neq. intros H0. apply (f_equal (fun x => Z.testbit x j)) in H0.
    by rewrite Z.land_spec, Ht, shiftl1_testbit, Z.eqb_refl, Z.bits_0 in H0 by lia.
  - apply negb_false_iff, Z.eqb_eq, Z.bits_inj'. intros n Hn.
    rewrite Z.land_spec, shiftl1_testbit, Z.bits_0 by lia. destruct (Z.eqb_spec n j) as [->|]; [by rewrite Ht|].
    apply andb_false_r.
Qed.

Lemma div_mod_32 i j : i / 32 = j / 32 -> i mod 32 = j mod 32 -> i = j.
Proof. intros. rewrite (Z.div_mod i 32), (Z.div_mod j 32) by lia. congruence. Qed.

Lemma BITMAP_SET_TEST bmp i j : 0 <= i < 32 * zlen bmp -> 0 <= j ->
  BITMAP_TEST (BITMAP_SET bmp i) j = (i =? j) || BITMAP_TEST bmp j.
Proof.
  intros Hi Hj. rewrite !BITMAP_TEST_bit by lia. unfold BITMAP_SET.
  pose proof (Z.mod_pos_bound i 32 ltac:(lia)). pose proof (Z.mod_pos_bound j 32 ltac:(lia)).
  assert (0 <= i / 32 < zlen bmp) by (split; [apply Z.div_pos|apply Z.div_lt_upper_bound]; lia).
  assert (0 <= j / 32) by (apply Z.div_pos; lia).
  rewrite rd_wr_in by lia. destruct (Z.eqb_spec (i / 32) (j / 32)) as [Hd|Hd].
  - rewrite Z.lor_spec, shiftl1_testbit, Hd by lia. rewrite orb_comm. f_equal.
    apply eq_true_iff_eq. rewrite !Z.eqb_eq. split; [intros ?; by apply div_mod_32|congruence].
  - destruct (Z.eqb_spec i j); [congruence|done].
Qed.

Lemma BITMAP_CLEAR_TEST bmp i j : 0 <= i < 32 * zlen bmp -> 0 <= j ->
  BITMAP_TEST (BITMAP_CLEAR bmp i) j = negb (i =? j) && BITMAP_TEST bmp j.
Proof.
  intros Hi Hj. rewrite !BITMAP_TEST_bit by lia. unfold BITMAP_CLEAR.
  pose proof (Z.mod_pos_bound i 32 ltac:(lia)). pose proof (Z.mod_pos_bound j 32 ltac:(lia)).
  assert (0 <= i / 32 < zlen bmp) by (split; [apply Z.div_pos|apply Z.div_lt_upper_bound]; lia).
  assert (0 <= j / 32) by (apply Z.div_pos; lia).
  rewrite rd_wr_in by lia. destruct (Z.eqb_spec (i / 32) (j / 32)) as [Hd|Hd].
  - rewrite Z.land_spec, Z.lnot_spec, shiftl1_testbit, Hd by lia. rewrite andb_comm. f_equal. f_equal.
    apply eq_true_iff_eq. rewrite !Z.eqb_eq. split; [intros ?; by apply div_mod_32|congruence].
  - destruct (Z.eqb_spec i j); [congruence|done].
Qed.

Lemma find_free_spec bmp n : forall i, let r := find_free n bmp i in
  (r = -1 /\ forall j, i <= j < i + Z.of_nat n -> BITMAP_TEST bmp j = true) \/
  (i <= r < i + Z.of_nat n /\ BITMAP_TEST bmp r = false).
Proof.
  induction n as [|n IH]; intros i; simpl; [left; split; [done|lia]|].
  destruct (BITMAP_TEST bmp i) eqn:E; simpl.
  - destruct (IH (i + 1)) as [[-> H]|[H1 H2]]; [left|right; split; [lia|done]].
    split; [done|]. intros j Hj. destruct (Z.eq_dec j i) as [->|]; [done|]. apply H. lia.
  - right. split; [lia|done].
Qed.

(** ** Pages and objects *)

(** The indices of the objects in use. *)
Definition page_used (p : slab_page) : gset Z :=
  filter (fun i => BITMAP_TEST (sp_bitmap p) i = true) (list_to_set (seqZ 0 (sp_total_count p))).

Lemma elem_of_page_used p i :
  i ∈ page_used p <-> BITMAP_TEST (sp_bitmap p) i = true /\ 0 <= i < sp_total_count p.
Proof. unfold page_used. by rewrite elem_of_filter, elem_of_list_to_set, elem_of_seqZ. Qed.

Lemma page_used_size p : 0 <= sp_total_count p -> Z.of_nat (size (page_used p)) <= sp_total_count p.
Proof.
  intros Hp. transitivity (Z.of_nat (size (list_to_set (seqZ 0 (sp_total_count p)) : gset Z))).
  - apply inj_le, subseteq_size. unfold page_used. set_solver.
  - rewrite size_list_to_set by apply NoDup_seqZ. rewrite length_seqZ. lia.
Qed.

Definition slab_kind_of (p : slab_page) : slab_kind :=
  if sp_free_count p =? 0 then Full
  else if sp_free_count p =? sp_total_count p then Empty else Partial.

Definition list_of (p : slab_page) : slab_list := (sp_cache p, slab_kind_of p).

Record cache_ok (k : kmem_cache) : Prop := {
  co_count : 1 <= objs_per_slab k <= 128;
  co_aligned : 16 <= obj_aligned k;
  co_fits : SLAB_HEADER + objs_per_slab k * obj_aligned k <= PAGE_SIZE;
}.

Record page_ok (k : kmem_cache) (p : slab_page) : Prop := {
  po_magic : sp_magic p = SLAB_PAGE_MAGIC;
  po_total : sp_total_count p = objs_per_slab k;
  po_bitmap : zlen (sp_bitmap p) = 4;
  po_free : sp_free_count p = sp_total_count p - Z.of_nat (size (page_used p));
}.

Lemma cache_ok_ext k k' : obj_aligned k' = obj_aligned k -> objs_per_slab k' = objs_per_slab k ->
  cache_ok k -> cache_ok k'.
Proof. intros Ha Hn []. split; by rewrite ?Hn, ?Ha. Qed.

Lemma page_ok_ext k k' p : objs_per_slab k' = objs_per_slab k -> page_ok k p -> page_ok k' p.
Proof. intros Hn []. split; by rewrite ?Hn. Qed.

(** The live objects of the cache in slot [c] with objects of [al] bytes. *)
Definition slab_objs (al : Z) (c : nat) (pages : gmap Z slab_page) : gset Z :=
  list_to_set (map_to_list pages ≫= fun '(s, p) =>
    if Nat.eqb (sp_cache p) c then (fun i => s + SLAB_HEADER + i * al) <$> elements (page_used p) else []).

Lemma elem_of_slab_objs al c pages o : o ∈ slab_objs al c pages <->
  exists s p i, pages !! s = Some p /\ sp_cache p = c /\ i ∈ page_used p /\ o = s + SLAB_HEADER + i * al.
Proof.
  unfold slab_objs. rewrite elem_of_list_to_set, list_elem_of_bind. split.
  - intros ([s p] & Ho & Hp%elem_of_map_to_list). destruct (Nat.eqb_spec (sp_cache p) c) as [Hc|_].
    + apply list_elem_of_fmap in Ho as (i & -> & Hi%elem_of_elements). by exists s, p, i.
    + by apply not_elem_of_nil in Ho.
  - intros (s & p & i & Hp & Hc & Hi & ->). exists (s, p). split; [|by apply elem_of_map_to_list].
    rewrite Hc, Nat.eqb_refl. apply list_elem_of_fmap. exists i. split; [done|by apply elem_of_elements].
Qed.

(** Offsets within a page determine page and index. *)
Lemma obj_addr_inj al s s' i i' : 16 <= al -> s mod PAGE_SIZE = 0 -> s' mod PAGE_SIZE = 0 ->
  0 <= SLAB_HEADER + i * al < PAGE_SIZE -> 0 <= SLAB_HEADER + i' * al < PAGE_SIZE ->
  s + SLAB_HEADER + i * al = s' + SLAB_HEADER + i' * al -> s = s' /\ i = i'.
Proof.
  intros Hal Hs Hs' Hi Hi' He. unfold PAGE_SIZE, SLAB_HEADER in *.
  apply Z.mod_divide in Hs as [q ->]; [|lia]. apply Z.mod_divide in Hs' as [q' ->]; [|lia].
  assert (q = q') as -> by nia. split; [done|]. nia.
Qed.

Lemma page_used_set k p i : page_ok k p -> cache_ok k -> 0 <= i < sp_total_count p ->
  let p' := SlabPage (sp_magic p) (sp_cache p) (u32 (sp_free_count p - 1)) (sp_total_count p)
              (BITMAP_SET (sp_bitmap p) i) in
  BITMAP_TEST (sp_bitmap p) i = false ->
  page_used p' = {[i]} ∪ page_used p /\ page_ok k p' /\ sp_free_count p' = sp_free_count p - 1 /\ i ∉ page_used p.
Proof.
  intros [Hm Ht Hb Hf] [Hc _ _] Hi p' Hbit.
  assert (Hn : i ∉ page_used p) by (rewrite elem_of_page_used; intros []; congruence).
  assert (Hu : page_used p' = {[i]} ∪ page_used p).
  { apply set_eq. intros j. rewrite elem_of_union, elem_of_singleton, !elem_of_page_used. simpl.
    destruct (decide (0 <= j)) as [Hj|Hj]; [|lia].
    rewrite BITMAP_SET_TEST by lia. destruct (Z.eqb_spec i j); simpl; [subst; tauto|naive_solver]. }
  assert (Hs : size (page_used p') = S (size (page_used p))).
  { rewrite Hu, size_union, size_singleton by set_solver. done. }
  pose proof (page_used_size p' ltac:(simpl; lia)) as Hsz. simpl in Hsz.
  assert (Hfc : sp_free_count p' = sp_free_count p - 1) by (simpl; apply u32_small; lia).
  split; [done|]. split; [|done]. split; simpl; [done|done|unfold BITMAP_SET; by rewrite zlen_wr|].
  simpl in Hfc. rewrite Hfc. lia.
Qed.

Lemma page_used_clear k p i : page_ok k p -> cache_ok k -> i ∈ page_used p ->
  let p' := SlabPage (sp_magic p) (sp_cache p) (u32 (sp_free_count p + 1)) (sp_total_count p)
              (BITMAP_CLEAR (sp_bitmap p) i) in
  page_used p' = page_used p ∖ {[i]} /\ page_ok k p' /\ sp_free_count p' = sp_free_count p + 1 /\
  0 <= sp_free_count p < sp_total_count p.
Proof.
  intros [Hm Ht Hb Hf] [Hc _ _] Hi p'. pose proof Hi as Hi'. apply elem_of_page_used in Hi' as [Hbit Hr].
  assert (Hu : page_used p' = page_used p ∖ {[i]}).
  { apply set_eq. intros j. rewrite elem_of_difference, elem_of_singleton, !elem_of_page_used. simpl.
    destruct (decide (0 <= j)) as [Hj|Hj]; [|lia].
    rewrite BITMAP_CLEAR_TEST by lia. destruct (Z.eqb_spec i j); simpl; [subst; naive_solver|naive_solver]. }
  assert (Hs : size (page_used p) = S (size (page_used p'))).
  { rewrite Hu. rewrite (union_difference_singleton_L i (page_used p)) at 1 by done.
    rewrite size_union, size_singleton by set_solver. done. }
  pose proof (page_used_size p ltac:(lia)) as Hsz.
  assert (Hfc : sp_free_count p' = sp_free_count p + 1) by (simpl; apply u32_small; lia).
  split; [done|]. split; [|split; [done|lia]]. split; simpl; [done|done|unfold BITMAP_CLEAR; by rewrite zlen_wr|].
  simpl in Hfc. rewrite Hfc. lia.
Qed.

(** A slab with free objects has a clear bit. *)
Lemma page_has_free k p : page_ok k p -> 0 < sp_free_count p ->
  let i := find_free (Z.to_nat (sp_total_count p)) (sp_bitmap p) 0 in
  0 <= i < sp_total_count p /\ BITMAP_TEST (sp_bitmap p) i = false.
Proof.
  intros [Hm Ht Hb Hf] Hpos i. destruct (find_free_spec (sp_bitmap p) (Z.to_nat (sp_total_count p)) 0)
    as [[_ Hall]|[H1 H2]]; [exfalso|split; [lia|done]].
  assert (page_used p = list_to_set (seqZ 0 (sp_total_count p))) as Hu.
  { apply set_eq. intros j. rewrite elem_of_page_used, elem_of_list_to_set, elem_of_seqZ.
    split; [lia|]. intros Hj. split; [apply Hall; lia|lia]. }
  rewrite Hu, size_list_to_set, length_seqZ in Hf by apply NoDup_seqZ. lia.
Qed.

(** ** The invariant *)

Definition head_of (pool : list kmem_cache) (a : slab_list) : Z :=
  match pool !! a.1 with
  | None => 0
  | Some k => match a.2 with Partial => slabs_partial k | Full => slabs_full k | Empty => slabs_free k end
  end.

(** How many more times the page source will ever hand out a frame, a frame that came
    back and is handed out again included: each slab page has an address of its own,
    never used again, and these must not run out. *)
Class PageBudget (M : Type) `{!PageSource M} := {
  ps_left : M -> Z;
  ps_left_nonneg : forall m, 0 <= ps_left m;
  ps_alloc_left : forall m, ps_left (ps_alloc m).2 <= ps_left m - (if (ps_alloc m).1 =? 0 then 0 else 1);
  ps_map_left : forall m v f, ps_left (ps_map m v f).2 <= ps_left m;
  ps_free_left : forall m f, ps_left (ps_free m f) <= ps_left m;
}.

Section Inv.
Context {M : Type} `{!PageSource M, !PageBudget M}.
Notation sys := (slab_sys M).

Definition slab_live (st : sys) (c : nat) : gset Z :=
  match cache_pool st !! c with
  | None => ∅
  | Some k => slab_objs (obj_aligned k) c (sl_pages st)
  end.

(** The parts of the invariant that do not concern the lists. *)
Record slab_state (st : sys) : Prop := {
  ss_caches : forall c, cache_used st !! c = Some true -> exists k, cache_pool st !! c = Some k /\ cache_ok k;
  ss_pages : forall s p, sl_pages st !! s = Some p ->
    exists k, cache_pool st !! sp_cache p = Some k /\ cache_ok k /\ page_ok k p;
  ss_addr : forall s p, sl_pages st !! s = Some p ->
    0 < s /\ s mod PAGE_SIZE = 0 /\ s + PAGE_SIZE <= slab_vaddr_cursor st;
  ss_cursor : 0 < slab_vaddr_cursor st /\ slab_vaddr_cursor st mod PAGE_SIZE = 0 /\
    slab_vaddr_cursor st + PAGE_SIZE * (ps_left (sl_mem st) + 1) <= 2 ^ 64;
  ss_active : forall c k, cache_pool st !! c = Some k ->
    active_objects k = u64 (Z.of_nat (size (slab_live st c)));
  ss_stale : forall s p, sl_stale st !! s = Some p -> page_used p = ∅;
}.

(** The invariant with the slabs listed as in [tg]. *)
Definition slab_inv_at (tg : gmap Z slab_list) (st : sys) : Prop :=
  slab_lists (sl_links st) (head_of (cache_pool st)) tg /\ slab_state st.

Definition slab_inv (st : sys) : Prop := slab_inv_at (list_of <$> sl_pages st) st.

(** ** Objects of distinct slots have distinct addresses *)

Lemma live_addr st c k s p i : slab_state st -> cache_pool st !! c = Some k -> sl_pages st !! s = Some p ->
  sp_cache p = c -> 0 <= i < sp_total_count p ->
  0 <= SLAB_HEADER + i * obj_aligned k < PAGE_SIZE /\
  SLAB_HEADER + i * obj_aligned k + obj_aligned k <= PAGE_SIZE /\ s mod PAGE_SIZE = 0 /\ 16 <= obj_aligned k.
Proof.
  intros Hst Hk Hp Hc Hi. destruct (ss_pages _ Hst _ _ Hp) as (k' & Hk' & [Hn Hal Hfit] & [_ Ht _ _]).
  rewrite Hc, Hk in Hk'. injection Hk' as <-. destruct (ss_addr _ Hst _ _ Hp) as (_ & Hs & _).
  unfold SLAB_HEADER, PAGE_SIZE in *. split; [nia|]. split; [nia|]. done.
Qed.

Lemma live_inv st c k o : slab_state st -> cache_pool st !! c = Some k -> o ∈ slab_live st c ->
  exists s p i, sl_pages st !! s = Some p /\ sp_cache p = c /\ i ∈ page_used p /\
    o = s + SLAB_HEADER + i * obj_aligned k.
Proof. intros _ Hk. unfold slab_live. rewrite Hk. apply elem_of_slab_objs. Qed.

(** An object of a known page is live exactly if its bit is set. *)
Lemma live_bit st c k s p i : slab_state st -> cache_pool st !! c = Some k -> sl_pages st !! s = Some p ->
  sp_cache p = c -> 0 <= i < sp_total_count p ->
  s + SLAB_HEADER + i * obj_aligned k ∈ slab_live st c <-> i ∈ page_used p.
Proof.
  intros Hst Hk Hp Hc Hi. unfold slab_live. rewrite Hk, elem_of_slab_objs. split.
  - intros (s' & p' & i' & Hp' & Hc' & Hi' & He). pose proof Hi' as [_ Hr]%elem_of_page_used.
    destruct (live_addr _ _ _ _ _ _ Hst Hk Hp Hc Hi) as (? & _ & ? & ?).
    destruct (live_addr _ _ _ _ _ _ Hst Hk Hp' Hc' Hr) as (? & _ & ? & _).
    destruct (obj_addr_inj (obj_aligned k) s s' i i') as [<- <-]; [done..|]. congruence.
  - intros ?. by exists s, p, i.
Qed.

(** Replacing the page [s] of cache [c] and the cache's descriptor. *)
Lemma slab_state_update st c k s p m p' k' : slab_state st ->
  cache_pool st !! c = Some k -> sl_pages st !! s = Some p -> sp_cache p = c -> sp_cache p' = c ->
  page_ok k p' -> obj_aligned k' = obj_aligned k -> objs_per_slab k' = objs_per_slab k ->
  let st' := with_cache (with_slabs st m (<[s := p']> (sl_pages st))) c k' in
  active_objects k' = u64 (Z.of_nat (size (slab_live st' c))) ->
  slab_state st' /\ (forall c', c' <> c -> slab_live st' c' = slab_live st c').
Proof.
  intros [Hca Hpg Had Hcu Hac Hsl] Hk Hp Hc Hc' Hok Hal Hn st' Hact.
  assert (Hlt : (c < length (cache_pool st))%nat) by (by eapply lookup_lt_Some).
  assert (Hck : cache_ok k).
  { destruct (Hpg _ _ Hp) as (k0 & Hk0 & ? & _). by replace k with k0 by congruence. }
  assert (Hck' : cache_ok k') by (by eapply cache_ok_ext).
  assert (Hlive : forall c', c' <> c -> slab_live st' c' = slab_live st c').
  { intros c' Hne. unfold slab_live; simpl. rewrite list_lookup_insert_ne by done.
    destruct (cache_pool st !! c') as [kk|]; [|done]. apply set_eq. intros o. rewrite !elem_of_slab_objs.
    setoid_rewrite lookup_insert_Some. split.
    - intros (s' & q & i & [[<- <-]|[? ?]] & ? & ?); [congruence|]. by exists s', q, i.
    - intros (s' & q & i & Hq & ? & ?). exists s', q, i. split; [|done]. right. split; [|done]. congruence. }
  split; [|done]. split; simpl.
  - intros c0 Hu. destruct (decide (c0 = c)) as [->|Hne].
    + exists k'. by rewrite list_lookup_insert_eq.
    + rewrite list_lookup_insert_ne by done. by apply Hca.
  - intros s' q [[<- <-]|[Hne Hq]]%lookup_insert_Some.
    + exists k'. rewrite Hc', list_lookup_insert_eq by done. do 2 (split; [done|]).
      by eapply page_ok_ext.
    + destruct (Hpg _ _ Hq) as (kq & Hkq & Hcq & Hpq). destruct (decide (sp_cache q = c)) as [Hqc|Hn0].
      * exists k'. rewrite Hqc in *. rewrite list_lookup_insert_eq by done. do 2 (split; [done|]).
        assert (kq = k) as -> by congruence. by eapply page_ok_ext.
      * exists kq. by rewrite list_lookup_insert_ne.
  - intros s' q [[<- <-]|[_ Hq]]%lookup_insert_Some; [by apply (Had s p)|by apply (Had _ q)].
  - done.
  - intros c0 k0 Hk0. destruct (decide (c0 = c)) as [->|Hne].
    + rewrite list_lookup_insert_eq in Hk0 by done. injection Hk0 as <-. done.
    + rewrite Hlive by done. rewrite list_lookup_insert_ne in Hk0 by done. by apply Hac.
  - done.
Qed.

(** Only the list heads and counters of a cache, and the links, change. *)
Lemma slab_state_relist st c k m k' : slab_state st -> cache_pool st !! c = Some k ->
  obj_aligned k' = obj_aligned k -> objs_per_slab k' = objs_per_slab k -> active_objects k' = active_objects k ->
  let st' := with_cache (with_slabs st m (sl_pages st)) c k' in
  slab_state st' /\ (forall c', slab_live st' c' = slab_live st c').
Proof.
  intros [Hca Hpg Had Hcu Hac Hsl] Hk Hal Hn Hact st'.
  assert (Hlt : (c < length (cache_pool st))%nat) by (by eapply lookup_lt_Some).
  assert (Hlive : forall c', slab_live st' c' = slab_live st c').
  { intros c'. unfold slab_live; simpl. destruct (decide (c' = c)) as [->|Hne].
    - by rewrite list_lookup_insert_eq, Hk, Hal.
    - by rewrite list_lookup_insert_ne. }
  assert (Hcx : forall c0 k0, cache_pool st !! c0 = Some k0 -> exists k1, cache_pool st' !! c0 = Some k1 /\
    obj_aligned k1 = obj_aligned k0 /\ objs_per_slab k1 = objs_per_slab k0).
  { intros c0 k0 Hk0. simpl. destruct (decide (c0 = c)) as [->|Hne].
    - exists k'. rewrite list_lookup_insert_eq by done. split; [done|]. split; congruence.
    - exists k0. by rewrite list_lookup_insert_ne. }
  split; [|done]. split; simpl.
  - intros c0 Hu. destruct (Hca _ Hu) as (k0 & Hk0 & ?). destruct (Hcx _ _ Hk0) as (k1 & Hk1 & Ha1 & Hn1).
    exists k1. split; [done|]. by eapply cache_ok_ext.
  - intros s q Hq. destruct (Hpg _ _ Hq) as (k0 & Hk0 & ? & ?).
    destruct (Hcx _ _ Hk0) as (k1 & Hk1 & Ha1 & Hn1). exists k1. split; [done|].
    split; [by eapply cache_ok_ext|by eapply page_ok_ext].
  - done.
  - done.
  - intros c0 k0 Hk0. rewrite Hlive. destruct (decide (c0 = c)) as [->|Hne].
    + rewrite list_lookup_insert_eq in Hk0 by done. injection Hk0 as <-. rewrite Hact. by apply Hac.
    + rewrite list_lookup_insert_ne in Hk0 by done. by apply Hac.
  - done.
Qed.
End Inv.
