(* ===== verification/SlabOps.v ===== *)
(** * Specifications of the cache operations *)

From S2P Require Import Prelude Bitmap DList ObjAlloc Slab SlabList SlabSpec.

(** Head pointers after the descriptor of one cache changed. *)
Ltac heads :=
  intros [?c ?t]; unfold head_of; simpl;
  match goal with |- context [<[?c0 := _]> _ !! ?c'] =>
    destruct (decide (c' = c0)) as [->|?];
    [rewrite list_lookup_insert_eq by done | rewrite list_lookup_insert_ne by done]
  end;
  repeat match goal with
  | |- context [(<[?a := _]> ?f) ?b] =>
      destruct (decide (b = a)); [simplify_eq; rewrite fn_lookup_insert | rewrite fn_lookup_insert_ne by congruence]
  end; simpl;
  repeat match goal with H : ?l !! ?c = Some _ |- _ => rewrite H end; simpl;
  try match goal with t : slab_kind |- _ => destruct t end; simplify_eq; try done.

(** A page with all its objects free. *)
Definition fresh_page (c : nat) (k : kmem_cache) : slab_page :=
  SlabPage SLAB_PAGE_MAGIC c (objs_per_slab k) (objs_per_slab k) [0; 0; 0; 0].

Lemma fresh_page_used c k : cache_ok k -> page_used (fresh_page c k) = ∅.
Proof.
  intros [Hn _ _]. apply set_eq. intros i. rewrite elem_of_page_used, elem_of_empty. split; [|done].
  intros [Ht Hi]. rewrite BITMAP_TEST_bit in Ht by lia.
  replace (rd _ _) with 0 in Ht; [by rewrite Z.bits_0 in Ht|].
  symmetry. apply (rd_replicate 4). simpl in *.
  split; [apply Z.div_pos; lia|apply Z.div_lt_upper_bound; lia].
Qed.

Lemma fresh_page_ok c k : cache_ok k -> page_ok k (fresh_page c k).
Proof. intros Hk. split; [done|done|done|]. rewrite fresh_page_used, size_empty by done. simpl. lia. Qed.

(** A page without live objects may be added or removed. *)
Lemma slab_objs_no_objects al c pages s p : pages !! s = None -> page_used p = ∅ ->
  slab_objs al c (<[s := p]> pages) = slab_objs al c pages.
Proof.
  intros Hs Hu. apply set_eq. intros o. rewrite !elem_of_slab_objs. setoid_rewrite lookup_insert_Some. split.
  - intros (s' & q & i & [[<- <-]|[_ Hq]] & Hc & Hi & Ho); [by rewrite Hu in Hi|]. by exists s', q, i.
  - intros (s' & q & i & Hq & Hr). exists s', q, i. split; [|done]. right. split; [|done]. congruence.
Qed.

(** The head pointer of one of the lists of a cache. *)
Definition cache_head (k : kmem_cache) (t : slab_kind) : Z :=
  match t with Partial => slabs_partial k | Full => slabs_full k | Empty => slabs_free k end.

Section Ops.
Context {M : Type} `{!PageSource M, !PageBudget M}.
Notation sys := (slab_sys M).

Lemma with_cache_twice (st : sys) c k k' m p :
  with_cache (with_slabs (with_cache st c k) m p) c k' = with_cache (with_slabs st m p) c k'.
Proof. unfold with_cache, with_slabs; simpl. by rewrite list_insert_insert_eq. Qed.

(** A page source that only shrinks leaves the rest of the invariant alone. *)
Lemma slab_state_mem (st : sys) cur mem : slab_state st -> slab_vaddr_cursor st <= cur ->
  cur mod PAGE_SIZE = 0 -> cur + PAGE_SIZE * (ps_left mem + 1) <= 2 ^ 64 ->
  slab_state (SlabSys (sl_links st) (sl_pages st) (sl_stale st) (cache_pool st) (cache_used st) (cache_count st) cur mem).
Proof.
  intros [Hca Hpg Had Hcu Hac Hsl] Hc Hm Hb. split; simpl; [done|done| | |done|done].
  - intros s p Hp. destruct (Had _ _ Hp) as (? & ? & ?). split; [done|]. split; [done|lia].
  - destruct Hcu. split; [lia|done].
Qed.

(** A fresh page: its address is new, and nothing in it is live. *)
Lemma slab_page_alloc_spec (st st' : sys) c k r : slab_inv st -> cache_pool st !! c = Some k -> cache_ok k ->
  slab_page_alloc st c k = (r, st') ->
  cache_pool st' = cache_pool st /\
  match r with
  | None => slab_inv st' /\ sl_pages st' = sl_pages st
  | Some (s, k') =>
      s <> 0 /\ sl_pages st !! s = None /\ k' = with_stats k (total_allocs k) (total_frees k) (active_objects k) (u64 (total_slabs k + 1)) /\
      sl_pages st' = <[s := fresh_page c k]> (sl_pages st) /\
      slab_lists (sl_links st') (head_of (cache_pool st)) (list_of <$> sl_pages st) /\ slab_state st'
  end.
Proof.
  intros [Hl Hst] Hk Hok. unfold slab_page_alloc. pose proof (ps_alloc_left (sl_mem st)) as Hal.
  destruct (ps_alloc (sl_mem st)) as [frame mem]. cbn [fst snd] in Hal.
  destruct (ss_cursor _ Hst) as (Hc0 & Hcm & Hcb). pose proof (ps_left_nonneg mem) as Hmn.
  assert (HP : PAGE_SIZE = 4096) by done.
  destruct (Z.eqb_spec frame 0) as [Hf|Hf].
  { intros [= <- <-]. split; [done|]. split; [|done]. split; [done|]. apply slab_state_mem; [done|lia|done|lia]. }
  pose proof (ps_map_left mem (slab_vaddr_cursor st) frame) as Hml.
  destruct (ps_map mem (slab_vaddr_cursor st) frame) as [ok mem2]. cbn [fst snd] in Hml.
  rewrite (u64_small (slab_vaddr_cursor st + PAGE_SIZE)) by lia.
  assert (Hmod : (slab_vaddr_cursor st + PAGE_SIZE) mod PAGE_SIZE = 0).
  { rewrite <- Z.add_mod_idemp_r, Z.mod_same, Z.add_0_r by lia. done. }
  destruct ok; simpl.
  2: { intros [= <- <-]. split; [done|]. pose proof (ps_free_left mem2 frame).
       split; [|done]. split; [done|]. apply slab_state_mem; [done|lia|done|lia]. }
  pose proof Hok as [Hcnt _ _]. replace (objs_per_slab k >? 128) with false by (symmetry; rewrite Z.gtb_ltb; apply Z.ltb_ge; lia).
  intros [= <- <-]. split; [done|].
  assert (Hfresh : sl_pages st !! slab_vaddr_cursor st = None).
  { destruct (sl_pages st !! slab_vaddr_cursor st) eqn:E; [|done]. apply (ss_addr _ Hst) in E. lia. }
  split; [lia|]. split; [done|]. split; [done|]. split; [done|]. split.
  - destruct Hl as (G & HG & Hm). exists G. split; [|done]. intros a. apply (nlist_frame (sl_links st)); [|done].
    intros x Hx. apply Hm in Hx. rewrite lookup_fmap_Some in Hx. destruct Hx as (q & _ & Hq).
    split; simpl; links; rewrite (proj2 (Z.eqb_neq (slab_vaddr_cursor st) x)); congruence.
  - destruct Hst as [Hca Hpg Had Hcu Hac Hsl]. pose proof (fresh_page_ok c k Hok) as Hpo.
    split; simpl.
    + done.
    + intros s p [[<- <-]|[_ Hp]]%lookup_insert_Some; [by exists k|by apply (Hpg s)].
    + intros s p [[<- <-]|[_ Hp]]%lookup_insert_Some; [lia|]. destruct (Had _ _ Hp) as (? & ? & ?). lia.
    + lia.
    + intros c0 k0 Hk0. rewrite (Hac _ _ Hk0). unfold slab_live; simpl. rewrite Hk0.
      rewrite slab_objs_no_objects; [done|done|by apply fresh_page_used].
    + done.
Qed.

Lemma page_free_bounds k p : page_ok k p -> cache_ok k -> 0 <= sp_free_count p <= sp_total_count p.
Proof.
  intros [_ Ht _ Hf] [Hc _ _].
  assert (Z.of_nat (size (page_used p)) <= Z.of_nat (size (list_to_set (seqZ 0 (sp_total_count p)) : gset Z))).
  { apply inj_le, subseteq_size. unfold page_used. set_solver. }
  rewrite size_list_to_set, length_seqZ in H by apply NoDup_seqZ. lia.
Qed.

Lemma listed_page (st : sys) s a : (list_of <$> sl_pages st) !! s = Some a ->
  exists p, sl_pages st !! s = Some p /\ list_of p = a.
Proof. intros (p & <- & Hp)%lookup_fmap_Some. by exists p. Qed.

Lemma with_cache_id (st : sys) c k : cache_pool st !! c = Some k -> with_cache st c k = st.
Proof. intros Hk. unfold with_cache. rewrite list_insert_id by done. by destruct st. Qed.

Lemma slab_for_alloc_used (st st' : sys) c k r : slab_for_alloc st c k = (r, st') -> cache_used st' = cache_used st.
Proof.
  unfold slab_for_alloc, slab_page_alloc.
  intros H. repeat (case_match; simplify_eq; simpl; try done).
Qed.

(** A slab with a free object, at the front of the partial list. *)
Definition alloc_ready (st st' : sys) (c : nat) (k' : kmem_cache) (s : Z) : Prop :=
  exists p, sl_pages st' !! s = Some p /\ sp_cache p = c /\ 0 < sp_free_count p /\
    (c < length (cache_pool st'))%nat /\
    slab_inv_at (<[s := (c, Partial)]> (list_of <$> sl_pages st')) (with_cache st' c k') /\
    forall c', slab_live (with_cache st' c k') c' = slab_live st c'.

Lemma slab_for_alloc_spec (st st' : sys) c k r : slab_inv st -> cache_pool st !! c = Some k -> cache_ok k ->
  slab_for_alloc st c k = (r, st') ->
  match r with
  | None => slab_inv st' /\ forall c', slab_live st' c' = slab_live st c'
  | Some (s, k') => alloc_ready st st' c k' s
  end.
Proof.
  intros Hinv Hk Hok. unfold slab_for_alloc. pose proof Hinv as [Hl Hst].
  assert (Hlt : (c < length (cache_pool st))%nat) by (by eapply lookup_lt_Some).
  assert (Hh : forall t, head_of (cache_pool st) (c, t) =
    match t with Partial => slabs_partial k | Full => slabs_full k | Empty => slabs_free k end).
  { intros t. unfold head_of; simpl. by rewrite Hk. }
  destruct (Z.eqb_spec (slabs_partial k) 0) as [Hp0|Hp0]; simpl negb; cbv iota.
  2: { intros [= <- <-]. pose proof (slab_lists_head _ _ _ (c, Partial) Hl) as Ht. rewrite Hh in Ht.
       specialize (Ht Hp0). destruct (listed_page _ _ _ Ht) as (p & Hp & Hlo).
       exists p. rewrite insert_id, with_cache_id by done. injection Hlo as Hc Hkd. split; [done|]. split; [done|].
       split; [|done]. destruct (ss_pages _ Hst _ _ Hp) as (k1 & Hk1 & Hck & Hpk).
       pose proof (page_free_bounds _ _ Hpk Hck). unfold slab_kind_of in Hkd.
       destruct (Z.eqb_spec (sp_free_count p) 0); [done|lia]. }
  destruct (Z.eqb_spec (slabs_free k) 0) as [Hf0|Hf0]; simpl negb; cbv iota.
  - (* a new page *)
    destruct (slab_page_alloc st c k) as [r1 st1] eqn:Hpa.
    destruct (slab_page_alloc_spec _ _ _ _ _ Hinv Hk Hok Hpa) as [Hpool Hr1]. destruct r1 as [[s k1]|].
    + destruct Hr1 as (Hs0 & Hfr & -> & Hpg & Hl1 & Hst1). rewrite (proj2 (Z.eqb_neq s 0)) by done.
      destruct (slab_push (sl_links st1) _ s) as [m h] eqn:Hpu. intros [= <- <-].
      exists (fresh_page c k). simpl. rewrite Hpg, lookup_insert_eq, Hpool. do 2 (split; [done|]).
      pose proof Hok as [Hcnt _ _]. split; [lia|]. split; [done|].
      rewrite <- Hpool in Hk. destruct (slab_state_relist st1 c k m
        (with_lists (with_stats k (total_allocs k) (total_frees k) (active_objects k) (u64 (total_slabs k + 1))) h
           (slabs_full k) (slabs_free k)) Hst1 Hk) as [Hst2 Hlv]; [done..|]. rewrite Hpg in Hst2, Hlv.
      split; [split; [|done]|].
      * simpl. rewrite fmap_insert, insert_insert_eq. rewrite Hpool in *.
        eapply slab_lists_ext; [|eapply (slab_lists_push _ _ _ (c, Partial)); [exact Hl1| |done|]].
        -- heads.
        -- by rewrite lookup_fmap, Hfr.
        -- rewrite Hh. exact Hpu.
      * intros c'. rewrite Hlv. unfold slab_live. rewrite Hpool, Hpg. destruct (cache_pool st !! c'); [|done].
        apply slab_objs_no_objects; [done|by apply fresh_page_used].
    + intros [= <- <-]. destruct Hr1 as [Hinv1 Hpg]. split; [done|]. intros c'. unfold slab_live.
      by rewrite Hpool, Hpg.
  - (* an empty slab *)
    pose proof (slab_lists_head _ _ _ (c, Empty) Hl) as Ht. rewrite Hh in Ht. specialize (Ht Hf0).
    destruct (listed_page _ _ _ Ht) as (p & Hp & [= Hc Hkd]).
    destruct (slab_unlink (sl_links st) _ _) as [m1 h1] eqn:Hu. cbn [sl_links with_slabs].
    rewrite (proj2 (Z.eqb_neq _ 0)) by done.
    destruct (slab_push m1 _ _) as [m2 h2] eqn:Hpu. intros [= <- <-]. exists p. simpl. do 2 (split; [done|]).
    destruct (ss_pages _ Hst _ _ Hp) as (k1 & Hk1 & Hck & Hpk). pose proof (page_free_bounds _ _ Hpk Hck).
    split; [unfold slab_kind_of in Hkd; destruct (Z.eqb_spec (sp_free_count p) 0); [done|lia]|]. split; [done|].
    destruct (slab_state_relist st c k m2 (with_lists (with_lists k (slabs_partial k) (slabs_full k) h1) h2
      (slabs_full k) h1) Hst Hk) as [Hst2 Hlv]; [done..|]. split; [split; [|done]|done].
    eapply slab_lists_ext; [|eapply (slab_lists_move _ _ _ (c, Empty) (c, Partial)); [exact Hl|exact Ht|done| |]].
    + heads.
    + rewrite Hh. exact Hu.
    + rewrite Hh. exact Hpu.
Qed.

(** Live objects after the bitmap of one page of the cache gained a bit. *)
Lemma slab_objs_add al c pages s p p' i : pages !! s = Some p -> sp_cache p = c -> sp_cache p' = c ->
  page_used p' = {[i]} ∪ page_used p ->
  slab_objs al c (<[s := p']> pages) = {[s + SLAB_HEADER + i * al]} ∪ slab_objs al c pages.
Proof.
  intros Hp Hc Hc' Hu. apply set_eq. intros o. rewrite elem_of_union, elem_of_singleton, !elem_of_slab_objs.
  setoid_rewrite lookup_insert_Some. split.
  - intros (s' & q & j & [[<- <-]|[Hne Hq]] & Hcq & Hj & ->); [|right; by exists s', q, j].
    rewrite Hu, elem_of_union, elem_of_singleton in Hj. destruct Hj as [->|Hj]; [by left|].
    right. by exists s, p, j.
  - intros [->|(s' & q & j & Hq & Hcq & Hj & ->)].
    + exists s, p', i. rewrite Hu. split; [by left|]. split; [done|]. split; [set_solver|done].
    + destruct (decide (s = s')) as [<-|Hne].
      * exists s, p', j. rewrite Hu. split; [by left|]. split; [done|].
        assert (q = p) as -> by congruence. split; [set_solver|done].
      * exists s', q, j. split; [by right|done].
Qed.

(** The object found by a lookup below the header of its page. *)
Lemma obj_in_page (st : sys) c k s p i : slab_state st -> cache_pool st !! c = Some k ->
  sl_pages st !! s = Some p -> sp_cache p = c -> 0 <= i < sp_total_count p ->
  0 < s + SLAB_HEADER + i * obj_aligned k /\ s + SLAB_HEADER + i * obj_aligned k + obj_aligned k <= 2 ^ 64.
Proof.
  intros Hst Hk Hp Hc Hi. destruct (live_addr _ _ _ _ _ _ Hst Hk Hp Hc Hi) as (? & ? & ? & ?).
  destruct (ss_addr _ Hst _ _ Hp) as (? & ? & ?). destruct (ss_cursor _ Hst) as (_ & _ & Hb).
  pose proof (ps_left_nonneg (sl_mem st)). unfold PAGE_SIZE in *. lia.
Qed.

Lemma u64_add_l a b : u64 (u64 a + b) = u64 (a + b).
Proof. apply Zplus_mod_idemp_l. Qed.

(** What an allocation may change. *)
Definition alloc_result (st : sys) (c : nat) (r : option Z) (st' : sys) : Prop :=
  slab_inv st' /\ cache_used st' = cache_used st /\
  (forall c', c' <> c -> slab_live st' c' = slab_live st c') /\
  match r with
  | None => slab_live st' c = slab_live st c
  | Some o => o ∉ slab_live st c /\ slab_live st' c = {[o]} ∪ slab_live st c
  end.

(** Moving a slab between two lists of one cache, for any of the ways in which the
    code records the two new heads. *)
Lemma cache_move pool c k k' m tg s a b m1 h1 m2 h2 :
  slab_lists m (head_of (<[c := k]> pool)) tg -> (c < length pool)%nat -> tg !! s = Some (c, a) -> a <> b ->
  slab_unlink m (cache_head k a) s = (m1, h1) -> slab_push m1 (cache_head k b) s = (m2, h2) ->
  (forall t, cache_head k' t = if decide (t = b) then h2 else if decide (t = a) then h1 else cache_head k t) ->
  slab_lists m2 (head_of (<[c := k']> pool)) (<[s := (c, b)]> tg).
Proof.
  intros Hl Hlt Ht Hab Hun Hpu Hk'.
  assert (Hh : forall t, head_of (<[c := k]> pool) (c, t) = cache_head k t).
  { intros t. unfold head_of; simpl. by rewrite list_lookup_insert_eq. }
  eapply slab_lists_ext; [|eapply (slab_lists_move _ _ _ (c, a) (c, b)); [exact Hl|exact Ht|congruence| |]].
  - intros [c' t]. destruct (decide (c' = c)) as [->|Hne].
    + unfold head_of at 2; simpl. rewrite list_lookup_insert_eq by done. fold (cache_head k' t). rewrite Hk'.
      destruct (decide (t = b)) as [->|]; [by rewrite fn_lookup_insert|]. rewrite fn_lookup_insert_ne by congruence.
      destruct (decide (t = a)) as [->|]; [by rewrite fn_lookup_insert|]. by rewrite fn_lookup_insert_ne by congruence.
    + rewrite !fn_lookup_insert_ne by congruence. unfold head_of; simpl. by rewrite !list_lookup_insert_ne.
  - rewrite Hh. exact Hun.
  - rewrite Hh. exact Hpu.
Qed.

(** The lists after an object was taken from a slab of the partial list. *)
Lemma take_relist (st : sys) c k s p' m k1 :
  slab_lists (sl_links st) (head_of (<[c := k]> (cache_pool st))) (<[s := (c, Partial)]> (list_of <$> sl_pages st)) ->
  sp_cache p' = c -> (c < length (cache_pool st))%nat -> sp_free_count p' < sp_total_count p' ->
  (if sp_free_count p' =? 0 then
     let '(m, partial) := slab_unlink (sl_links st) (slabs_partial k) s in
     let '(m, full) := slab_push m (slabs_full k) s in
     (m, with_lists k partial full (slabs_free k))
   else (sl_links st, k)) = (m, k1) ->
  obj_aligned k1 = obj_aligned k /\ objs_per_slab k1 = objs_per_slab k /\ active_objects k1 = active_objects k /\
  slab_lists m (head_of (<[c := k1]> (cache_pool st))) (list_of <$> <[s := p']> (sl_pages st)).
Proof.
  intros Hl Hc Hlt Hlo Hmv. rewrite fmap_insert. unfold list_of at 1, slab_kind_of. rewrite Hc.
  destruct (Z.eqb_spec (sp_free_count p') 0) as [Hz|Hz].
  - destruct (slab_unlink (sl_links st) _ s) as [m1 h1] eqn:Hun.
    destruct (slab_push m1 _ s) as [m2 h2] eqn:Hpu. injection Hmv as <- <-. do 3 (split; [done|]).
    rewrite <- (insert_insert_eq (list_of <$> sl_pages st) s (c, Full) (c, Partial)).
    eapply cache_move; [exact Hl|done|apply lookup_insert_eq| |exact Hun|exact Hpu|by intros []]. done.
  - injection Hmv as <- <-. do 3 (split; [done|]).
    destruct (Z.eqb_spec (sp_free_count p') (sp_total_count p')); [lia|done].
Qed.

Lemma take_object_spec (st st' : sys) c k s p r :
  sl_pages st !! s = Some p -> sp_cache p = c -> 0 < sp_free_count p -> (c < length (cache_pool st))%nat ->
  slab_inv_at (<[s := (c, Partial)]> (list_of <$> sl_pages st)) (with_cache st c k) ->
  take_object st c k s = (r, st') -> alloc_result (with_cache st c k) c r st' /\ r <> None.
Proof.
  intros Hp Hc Hpos Hlt [Hl Hst] Ht.
  assert (Hk : cache_pool (with_cache st c k) !! c = Some k) by (by apply list_lookup_insert_eq).
  destruct (ss_pages _ Hst s p Hp) as (k0 & Hk0 & Hck & Hpk). rewrite Hc, Hk in Hk0. injection Hk0 as <-.
  destruct (page_has_free _ _ Hpk Hpos) as [Hi Hbit]. unfold take_object in Ht. rewrite Hp in Ht. cbv zeta in Ht.
  set (i := find_free _ _ _) in *. rewrite (proj2 (Z.eqb_neq i (-1))) in Ht by lia.
  set (p' := SlabPage _ _ _ _ _) in Ht.
  destruct (page_used_set k p i Hpk Hck Hi Hbit) as (Hu & Hpk' & Hfc & Hni). fold p' in Hu, Hpk', Hfc.
  destruct (if sp_free_count p' =? 0 then _ else _) as [m k1] eqn:Hmv.
  destruct (take_relist st c k s p' m k1 Hl Hc Hlt) as (Ha1 & Hn1 & Hac1 & HL).
  { destruct (page_free_bounds _ _ Hpk Hck). rewrite Hfc. simpl. lia. }
  { exact Hmv. }
  injection Ht as <- <-. rewrite <- (with_cache_twice st c k).
  destruct (obj_in_page _ _ _ _ _ _ Hst Hk Hp Hc Hi) as [Ho0 Ho1].
  assert (Hlive : slab_live (with_cache (with_slabs (with_cache st c k) m (<[s := p']> (sl_pages st))) c
      (with_stats k1 (u64 (total_allocs k1 + 1)) (total_frees k1) (u64 (active_objects k1 + 1)) (total_slabs k1))) c
    = {[s + SLAB_HEADER + i * obj_aligned k]} ∪ slab_live (with_cache st c k) c).
  { unfold slab_live. simpl. rewrite list_insert_insert_eq, !list_lookup_insert_eq by done. simpl. rewrite Ha1.
    by apply (slab_objs_add _ _ _ _ p). }
  assert (Hno : s + SLAB_HEADER + i * obj_aligned k ∉ slab_live (with_cache st c k) c).
  { by rewrite (live_bit _ _ _ _ _ _ Hst Hk Hp Hc Hi). }
  simpl. rewrite Ha1, u64_small by (destruct Hck; lia).
  destruct (slab_state_update (with_cache st c k) c k s p m p'
    (with_stats k1 (u64 (total_allocs k1 + 1)) (total_frees k1) (u64 (active_objects k1 + 1)) (total_slabs k1))
    Hst Hk Hp Hc Hc Hpk' Ha1 Hn1) as [Hst' Hoth].
  { simpl in Hlive. simpl. rewrite Hlive, size_union, size_singleton, Hac1 by set_solver.
    rewrite (ss_active _ Hst c k Hk), u64_add_l. f_equal. lia. }
  split; [|done]. split; [split; [|exact Hst']|].
  - simpl. rewrite list_insert_insert_eq. eapply slab_lists_ext; [|exact HL]. 
    intros [c' t]. unfold head_of; simpl. destruct (decide (c' = c)) as [->|Hne].
    + by rewrite !list_lookup_insert_eq.
    + by rewrite !list_lookup_insert_ne.
  - split; [done|]. split; [exact Hoth|]. split; [exact Hno|exact Hlive].
Qed.

Lemma kmem_cache_alloc_spec (st st' : sys) c r : slab_inv st -> cache_used st !! c = Some true ->
  kmem_cache_alloc st c = (r, st') -> alloc_result st c r st'.
Proof.
  intros Hinv Hu. destruct (ss_caches _ (proj2 Hinv) _ Hu) as (k & Hk & Hok).
  unfold kmem_cache_alloc. rewrite Hk. destruct (slab_for_alloc st c k) as [r1 st1] eqn:Hf.
  pose proof (slab_for_alloc_spec _ _ _ _ _ Hinv Hk Hok Hf) as H1.
  assert (Hus : cache_used st1 = cache_used st) by (by eapply slab_for_alloc_used).
  destruct r1 as [[s k']|].
  - intros Ht. destruct H1 as (p & Hp & Hc & Hpos & Hlt & Hinv1 & Hlv).
    destruct (take_object_spec _ _ _ _ _ _ _ Hp Hc Hpos Hlt Hinv1 Ht) as [(Hi & Hus' & Hoth & Hr) _].
    split; [done|]. split; [by rewrite Hus'|]. split; [intros c' Hc'; by rewrite Hoth, Hlv|].
    by destruct r; rewrite Hlv in Hr.
  - intros [= <- <-]. destruct H1 as [Hi Hlv]. by do 3 (split; [done|]).
Qed.

(** The lists after an object of a slab was freed. *)
Lemma settle_lists pool c k m tg s p' m' k' :
  slab_lists m (head_of (<[c := k]> pool)) tg -> (c < length pool)%nat -> sp_cache p' = c ->
  1 <= sp_free_count p' <= sp_total_count p' ->
  tg !! s = Some (c, if sp_free_count p' =? 1 then Full else Partial) ->
  settle_slab m k s p' = (m', k') ->
  obj_aligned k' = obj_aligned k /\ objs_per_slab k' = objs_per_slab k /\ active_objects k' = active_objects k /\
  slab_lists m' (head_of (<[c := k']> pool)) (<[s := list_of p']> tg).
Proof.
  intros Hl Hlt Hc Hfc Ht. unfold settle_slab, list_of, slab_kind_of. rewrite Hc.
  rewrite (proj2 (Z.eqb_neq (sp_free_count p') 0)) by lia.
  assert (H1 : exists m1 k1, (if sp_free_count p' =? 1 then
      let '(m, full) := slab_unlink m (slabs_full k) s in
      let '(m, partial) := slab_push m (slabs_partial k) s in (m, with_lists k partial full (slabs_free k))
    else (m, k)) = (m1, k1) /\ obj_aligned k1 = obj_aligned k /\ objs_per_slab k1 = objs_per_slab k /\
      active_objects k1 = active_objects k /\
      slab_lists m1 (head_of (<[c := k1]> pool)) (<[s := (c, Partial)]> tg)).
  { destruct (Z.eqb_spec (sp_free_count p') 1) as [Hz|Hz].
    - destruct (slab_unlink m _ s) as [m1 h1] eqn:Hun. destruct (slab_push m1 _ s) as [m2 h2] eqn:Hpu.
      eexists _, _. split; [done|]. do 3 (split; [done|]).
      eapply cache_move; [exact Hl|done|exact Ht| |exact Hun|exact Hpu|by intros []]. done.
    - exists m, k. rewrite insert_id by done. done. }
  destruct H1 as (m1 & k1 & -> & Ha & Hn & Hac & Hl1).
  destruct (Z.eqb_spec (sp_free_count p') (sp_total_count p')) as [Hz|Hz].
  - destruct (slab_unlink m1 _ s) as [m2 h1] eqn:Hun. destruct (slab_push m2 _ s) as [m3 h2] eqn:Hpu.
    intros [= <- <-]. do 3 (split; [done|]). rewrite <- (insert_insert_eq tg s (c, Empty) (c, Partial)).
    eapply cache_move; [exact Hl1|done|apply lookup_insert_eq| |exact Hun|exact Hpu|by intros []]. done.
  - intros [= <- <-]. by do 3 (split; [done|]).
Qed.

(** Live objects after the bitmap of one page of the cache lost a bit. *)
Lemma slab_objs_del (st : sys) c k s p p' i : slab_state st -> cache_pool st !! c = Some k ->
  sl_pages st !! s = Some p -> sp_cache p = c -> sp_cache p' = c -> i ∈ page_used p ->
  page_used p' = page_used p ∖ {[i]} ->
  slab_objs (obj_aligned k) c (<[s := p']> (sl_pages st)) =
    slab_live st c ∖ {[s + SLAB_HEADER + i * obj_aligned k]}.
Proof.
  intros Hst Hk Hp Hc Hc' Hi Hu. apply set_eq. intros o. unfold slab_live. rewrite Hk.
  rewrite elem_of_difference, elem_of_singleton, !elem_of_slab_objs. setoid_rewrite lookup_insert_Some.
  pose proof Hi as [_ Hr]%elem_of_page_used.
  destruct (live_addr _ _ _ _ _ _ Hst Hk Hp Hc Hr) as (Hb & _ & Hm & Hal). split.
  - intros (s' & q & j & Hq & Hcq & Hj & ->).
    assert (Hq' : exists q0, sl_pages st !! s' = Some q0 /\ sp_cache q0 = c /\ j ∈ page_used q0 /\ (s = s' -> j <> i)).
    { destruct Hq as [[<- <-]|[Hne Hq]]; [exists p|exists q]; rewrite ?Hu in Hj; set_solver. }
    destruct Hq' as (q0 & Hq0 & Hcq0 & Hj0 & Hne). split; [by exists s', q0, j|]. intros He.
    pose proof Hj0 as [_ Hrj]%elem_of_page_used.
    destruct (live_addr _ _ _ _ _ _ Hst Hk Hq0 Hcq0 Hrj) as (Hb' & _ & Hm' & _).
    destruct (obj_addr_inj _ _ _ _ _ Hal Hm' Hm Hb' Hb He) as [-> ->]. by apply Hne.
  - intros [(s' & q & j & Hq & Hcq & Hj & ->) Hne]. destruct (decide (s = s')) as [<-|Hs].
    + exists s, p', j. assert (q = p) as -> by congruence. split; [by left|]. split; [done|]. split; [|done].
      rewrite Hu, elem_of_difference, elem_of_singleton. split; [done|]. intros ->. by apply Hne.
    + exists s', q, j. split; [by right|done].
Qed.

Lemma u64_sub_l a b : u64 (u64 a - b) = u64 (a - b).
Proof. apply Zminus_mod_idemp_l. Qed.

(** Freeing the object in slot [i] of the page [s]. *)
Definition free_slot_of (st : sys) (c : nat) (k : kmem_cache) (s : Z) (p : slab_page) (i : Z) : sys :=
  let p' := SlabPage (sp_magic p) (sp_cache p) (u32 (sp_free_count p + 1)) (sp_total_count p)
              (BITMAP_CLEAR (sp_bitmap p) i) in
  let k' := with_stats k (total_allocs k) (u64 (total_frees k + 1)) (u64 (active_objects k - 1)) (total_slabs k) in
  let '(m, k') := settle_slab (sl_links st) k' s p' in
  with_cache (with_slabs st m (<[s := p']> (sl_pages st))) c k'.

(** What a release of the object [o] may change. *)
Definition free_result (st : sys) (c : nat) (o : Z) (st' : sys) : Prop :=
  slab_inv st' /\ cache_used st' = cache_used st /\
  (forall c', c' <> c -> slab_live st' c' = slab_live st c') /\ slab_live st' c = slab_live st c ∖ {[o]}.

Lemma free_slot_spec (st : sys) c k s p i : slab_inv st -> cache_pool st !! c = Some k ->
  sl_pages st !! s = Some p -> sp_cache p = c -> i ∈ page_used p ->
  s + SLAB_HEADER + i * obj_aligned k ∈ slab_live st c /\
  free_result st c (s + SLAB_HEADER + i * obj_aligned k) (free_slot_of st c k s p i).
Proof.
  intros [Hl Hst] Hk Hp Hc Hi. pose proof Hi as [_ Hr]%elem_of_page_used.
  assert (Hin : s + SLAB_HEADER + i * obj_aligned k ∈ slab_live st c) by (by eapply live_bit).
  assert (Hlt : (c < length (cache_pool st))%nat) by (by eapply lookup_lt_Some).
  destruct (ss_pages _ Hst s p Hp) as (k0 & Hk0 & Hck & Hpk). rewrite Hc, Hk in Hk0. injection Hk0 as <-.
  destruct (page_used_clear k p i Hpk Hck Hi) as (Hu & Hpk' & Hfc & Hb).
  unfold free_slot_of. set (p' := SlabPage _ _ _ _ _) in *. set (k1 := with_stats _ _ _ _ _).
  split; [done|]. destruct (settle_slab (sl_links st) k1 s p') as [m k'] eqn:Hse.
  destruct (settle_lists (cache_pool st) c k1 (sl_links st) (list_of <$> sl_pages st) s p' m k')
    as (Ha & Hn & Hac & HL); [|done|done|rewrite Hfc; simpl; lia| |exact Hse|].
  { eapply slab_lists_ext; [|exact Hl]. intros [c' t]. unfold head_of; simpl.
    destruct (decide (c' = c)) as [->|Hne]; [by rewrite list_lookup_insert_eq, Hk|by rewrite list_lookup_insert_ne]. }
  { rewrite lookup_fmap, Hp, Hfc. simpl. unfold list_of, slab_kind_of. rewrite Hc.
    destruct (Z.eqb_spec (sp_free_count p) 0) as [->|Hz]; [done|].
    rewrite (proj2 (Z.eqb_neq (sp_free_count p + 1) 1)), (proj2 (Z.eqb_neq _ (sp_total_count p))) by lia. done. }
  assert (Hlive : slab_live (with_cache (with_slabs st m (<[s := p']> (sl_pages st))) c k') c =
    slab_live st c ∖ {[s + SLAB_HEADER + i * obj_aligned k]}).
  { unfold slab_live at 1. simpl. rewrite list_lookup_insert_eq, Ha by done.
    by eapply (slab_objs_del st c k). }
  destruct (slab_state_update st c k s p m p' k' Hst Hk Hp Hc Hc Hpk' Ha Hn) as [Hst' Hoth].
  { rewrite Hlive, size_difference, size_singleton, Hac by set_solver. unfold k1; simpl.
    assert (0 < size (slab_live st c))%nat.
    { apply Nat.neq_0_lt_0. intros Hz%size_empty_inv. set_solver. }
    rewrite (ss_active _ Hst c k Hk), u64_sub_l. f_equal. lia. }
  split; [split; [simpl; rewrite fmap_insert; exact HL|exact Hst']|]. by do 2 (split; [done|]).
Qed.

(** Releasing any pointer: nothing happens, or one live object of the same page
    and cache is released. *)
Lemma kmem_cache_free_cases (st : sys) c obj : slab_inv st ->
  kmem_cache_free st c obj = st \/
  exists k s p i, cache_pool st !! c = Some k /\ sl_pages st !! s = Some p /\ sp_cache p = c /\
    i ∈ page_used p /\ s = Z.land obj (u64 (Z.lnot 0xFFF)) /\
    i = u32 (u64 (obj - (s + SLAB_HEADER)) / obj_aligned k) /\
    kmem_cache_free st c obj = free_slot_of st c k s p i.
Proof.
  intros [_ Hst]. unfold kmem_cache_free. destruct (cache_pool st !! c) as [k|] eqn:Hk; [|by left].
  destruct (obj =? 0); [by left|]. set (s := Z.land obj _).
  unfold slab_header, with_header. destruct (sl_pages st !! s) as [p|] eqn:Hp.
  2: { left. destruct (sl_stale st !! s) as [p|] eqn:Hs; [|done]. destruct (negb _); [done|]. destruct (negb _); [done|].
       set (i := u32 _). rewrite Z.geb_leb. destruct (Z.leb_spec (sp_total_count p) i) as [|Hlt]; [done|].
       destruct (BITMAP_TEST (sp_bitmap p) i) eqn:Ht; [|done]. assert (Hi : i ∈ page_used p) by (apply elem_of_page_used; split; [done|]; split; [apply u32_range|done]).
       by rewrite (ss_stale _ Hst s p Hs) in Hi. }
  destruct (negb (sp_magic p =? SLAB_PAGE_MAGIC)); [by left|].
  destruct (Nat.eqb_spec (sp_cache p) c) as [Hc|]; [|by left]. cbn [negb].
  set (i := u32 _). rewrite Z.geb_leb. destruct (Z.leb_spec (sp_total_count p) i) as [|Hlt]; [by left|].
  destruct (BITMAP_TEST (sp_bitmap p) i) eqn:Ht; cbn [negb]; [|by left]. right.
  exists k, s, p, i. do 3 (split; [done|]). split; [|done]. apply elem_of_page_used. split; [done|].
  split; [apply u32_range|done].
Qed.

(** A live object is found again from its address. *)
Lemma obj_decode (st : sys) c k s p i : slab_state st -> cache_pool st !! c = Some k ->
  sl_pages st !! s = Some p -> sp_cache p = c -> 0 <= i < sp_total_count p ->
  let o := s + SLAB_HEADER + i * obj_aligned k in
  Z.land o (u64 (Z.lnot 0xFFF)) = s /\ u32 (u64 (o - (s + SLAB_HEADER)) / obj_aligned k) = i /\ o <> 0.
Proof.
  intros Hst Hk Hp Hc Hi o. destruct (obj_in_page _ _ _ _ _ _ Hst Hk Hp Hc Hi) as [Ho0 Ho1]. fold o in Ho0, Ho1.
  destruct (live_addr _ _ _ _ _ _ Hst Hk Hp Hc Hi) as (Hb & Hf & Hm & Hal).
  destruct (ss_addr _ Hst _ _ Hp) as (Hs & _ & _).
  destruct (ss_pages _ Hst s p Hp) as (k0 & Hk0 & [Hcnt _ _] & [_ Htot _ _]). rewrite Hc, Hk in Hk0. injection Hk0 as <-.
  split; [|split; [|lia]].
  - change 0xFFF with (PAGE_SIZE - 1). rewrite land_page_mask by lia.
    apply Z.mod_divide in Hm as [q ->]; [|done]. unfold o.
    rewrite <- Z.add_assoc, Z.div_add_l, (Z.div_small (SLAB_HEADER + _)) by (done || lia). by rewrite Z.add_0_r.
  - replace (o - (s + SLAB_HEADER)) with (i * obj_aligned k) by (unfold o; lia).
    unfold SLAB_HEADER, PAGE_SIZE in *. rewrite u64_small by nia. rewrite Z.div_mul by lia. apply u32_small. lia.
Qed.

Lemma kmem_cache_free_live (st : sys) c obj : slab_inv st -> obj ∈ slab_live st c ->
  free_result st c obj (kmem_cache_free st c obj).
Proof.
  intros Hinv Ho. pose proof Hinv as [_ Hst]. destruct (cache_pool st !! c) as [k|] eqn:Hk.
  2: { unfold slab_live in Ho. rewrite Hk in Ho. by apply elem_of_empty in Ho. }
  destruct (live_inv _ _ _ _ Hst Hk Ho) as (s & p & i & Hp & Hc & Hi & ->).
  pose proof Hi as [Hbit Hr]%elem_of_page_used.
  destruct (obj_decode _ _ _ _ _ _ Hst Hk Hp Hc Hr) as (Hd1 & Hd2 & Hnz).
  destruct (free_slot_spec _ _ _ _ _ _ Hinv Hk Hp Hc Hi) as [_ Hres].
  replace (kmem_cache_free st c _) with (free_slot_of st c k s p i); [done|].
  unfold kmem_cache_free, slab_header, with_header. rewrite Hk, (proj2 (Z.eqb_neq _ 0)), Hd1, Hp by done.
  destruct (ss_pages _ Hst s p Hp) as (k0 & _ & _ & [Hmag _ _ _]).
  rewrite Hmag, Z.eqb_refl, Hc, Nat.eqb_refl. cbn [negb].
  rewrite Hd2, Hbit, Z.geb_leb, (proj2 (Z.leb_gt (sp_total_count p) i)) by lia. cbn [negb].
  unfold free_slot_of. by rewrite Hmag, Hc.
Qed.
End Ops.

(** ** Creating and shrinking caches, and caches as allocators *)

(** No slab page belongs to the slot. *)
Definition slot_unused (pages : gmap Z slab_page) (c : nat) : Prop :=
  map_Forall (fun _ p => sp_cache p <> c) pages.

Lemma slab_objs_unused al c pages : slot_unused pages c -> slab_objs al c pages = ∅.
Proof.
  intros Hn. apply set_eq. intros o. rewrite elem_of_slab_objs, elem_of_empty. split; [|done].
  intros (s & p & i & Hp & Hc & _). by apply (Hn s p).
Qed.

Lemma free_slot_spec_aux used : forall i r, free_slot used i = Some r ->
  (i <= r)%nat /\ used !! (r - i)%nat = Some false /\ forall j, (j < r - i)%nat -> used !! j = Some true.
Proof.
  induction used as [|b used IH]; intros i r; simpl; [done|]. destruct b; simpl.
  - intros H. apply IH in H as (H1 & H2 & H3). replace (r - i)%nat with (S (r - S i)) by lia.
    split; [lia|]. split; [done|]. intros [|j] Hj; [done|]. apply H3. lia.
  - intros [= ->]. rewrite Nat.sub_diag. split; [lia|]. split; [done|]. lia.
Qed.

(** The slot found is the first that is not in use. *)
Lemma free_slot_first used r : free_slot used 0 = Some r ->
  used !! r = Some false /\ forall j, (j < r)%nat -> used !! j = Some true.
Proof. intros H. apply free_slot_spec_aux in H as (_ & H1 & H2). rewrite Nat.sub_0_r in H1, H2. done. Qed.

Section More.
Context {M : Type} `{!PageSource M, !PageBudget M}.
Notation sys := (slab_sys M).

(** A slot without pages takes any descriptor with empty lists. *)
Lemma slab_inv_new_cache (st : sys) c k : slab_inv st -> slot_unused (sl_pages st) c ->
  (c < length (cache_pool st))%nat -> cache_used st !! c = Some false ->
  slabs_partial k = 0 -> slabs_full k = 0 -> slabs_free k = 0 -> active_objects k = 0 ->
  slab_inv (with_cache st c k) /\ forall c', slab_live (with_cache st c k) c' = slab_live st c'.
Proof.
  intros [Hl Hst] Hun Hlt Hnu Hp Hf He Ha.
  assert (Hlv : forall c', slab_live (with_cache st c k) c' = slab_live st c').
  { intros c'. unfold slab_live; simpl. destruct (decide (c' = c)) as [->|Hne].
    - rewrite list_lookup_insert_eq by done. destruct (lookup_lt_is_Some_2 _ _ Hlt) as [k0 Hk0].
      by rewrite Hk0, !slab_objs_unused.
    - by rewrite list_lookup_insert_ne. }
  split; [split|done].
  - simpl. destruct Hl as (G & HG & Hm). exists G. split; [|done]. intros [c' t].
    destruct (decide (c' = c)) as [->|Hne].
    + assert (Hg : G (c, t) = []).
      { destruct (G (c, t)) as [|x l] eqn:Hx; [done|]. assert (Hin : x ∈ G (c, t)) by (rewrite Hx; left).
        apply Hm, listed_page in Hin as (p & Hpp & [= Hc _]). by destruct (Hun _ _ Hpp). }
      rewrite Hg. unfold head_of; simpl. rewrite list_lookup_insert_eq by done.
      destruct t; rewrite ?Hp, ?Hf, ?He; apply nlist_nil.
    + specialize (HG (c', t)). unfold head_of in *; simpl in *. by rewrite list_lookup_insert_ne.
  - destruct Hst as [Hca Hpg Had Hcu Hac Hsl]. split; simpl.
    + intros c0 Hu. rewrite list_lookup_insert_ne by congruence. by apply Hca.
    + intros s p Hpp. rewrite list_lookup_insert_ne; [by apply (Hpg s)|]. intros He'. by destruct (Hun _ _ Hpp).
    + done.
    + done.
    + intros c0 k0 Hk0. rewrite Hlv. destruct (decide (c0 = c)) as [->|Hne].
      * rewrite list_lookup_insert_eq in Hk0 by done. injection Hk0 as <-.
        destruct (lookup_lt_is_Some_2 _ _ Hlt) as [k0 Hk0]. unfold slab_live. rewrite Hk0, slab_objs_unused by done.
        by rewrite Ha, size_empty.
      * rewrite list_lookup_insert_ne in Hk0 by done. by apply Hac.
    + done.
Qed.

(** The descriptor [kmem_cache_create] fills in. *)
Lemma created_ok (a : Z) : 16 <= a ->
  let n := u32 ((PAGE_SIZE - SLAB_HEADER) / a) in
  let n := if n >? 128 then 128 else n in
  n <> 0 -> forall sz al, cache_ok (KmemCache sz a al n 0 0 0 0 0 0 0).
Proof.
  intros Ha n0 n Hn sz al. unfold PAGE_SIZE, SLAB_HEADER in *.
  assert (Hq : 0 <= (4096 - 64) / a <= 4096 - 64).
  { split; [apply Z.div_pos; lia|]. apply Z.div_le_upper_bound; [lia|nia]. }
  assert (Hn0 : n0 = (4096 - 64) / a) by (apply u32_small; lia). clearbody n0.
  pose proof (Z.mul_div_le (4096 - 64) a ltac:(lia)).
  assert (1 <= n <= 128 /\ n <= (4096 - 64) / a).
  { unfold n in *. rewrite Z.gtb_ltb in *. destruct (Z.ltb_spec 128 n0); lia. }
  split; simpl; [lia|done|]. unfold SLAB_HEADER, PAGE_SIZE. nia.
Qed.

(** A new cache: the first slot that is not in use, without objects. *)
Lemma kmem_cache_create_spec (st st' : sys) sz al r : slab_inv st ->
  length (cache_used st) = length (cache_pool st) ->
  (forall c, cache_used st !! c = Some false -> slot_unused (sl_pages st) c) ->
  kmem_cache_create st sz al = (r, st') ->
  slab_inv st' /\ sl_pages st' = sl_pages st /\ length (cache_pool st') = length (cache_pool st) /\
  (forall c, slab_live st' c = slab_live st c) /\
  match r with
  | None => cache_used st' = cache_used st
  | Some c => cache_used st !! c = Some false /\ cache_used st' = <[c := true]> (cache_used st) /\
      slab_live st' c = ∅
  end.
Proof.
  intros Hinv Hlen Hcl. unfold kmem_cache_create. destruct (sz =? 0); [by intros [= <- <-]|].
  set (al' := if al =? 0 then 8 else al). set (a0 := Z.land _ _). set (a := if a0 <? 16 then 16 else a0).
  assert (Ha : 16 <= a) by (unfold a; destruct (Z.ltb_spec a0 16); lia).
  destruct (free_slot (cache_used st) 0) as [slot|] eqn:Hs; [|by intros [= <- <-]].
  apply free_slot_first in Hs as [Hu _].
  assert (Hlt : (slot < length (cache_pool st))%nat) by (rewrite <- Hlen; by eapply lookup_lt_Some).
  set (n := if u32 _ >? 128 then 128 else _). set (k := KmemCache sz a al' n 0 0 0 0 0 0 0).
  destruct (slab_inv_new_cache st slot k Hinv (Hcl _ Hu) Hlt Hu) as [Hinv' Hlv]; [done..|].
  destruct (Z.eqb_spec n 0) as [Hn|Hn]; intros [= <- <-].
  - split; [done|]. split; [done|]. split; [apply length_insert|done].
  - destruct Hinv' as [HL [Hca Hpg Had Hcu Hac Hsl]]. split; [split; [done|]; split; simpl in *|].
    + intros c. destruct (decide (c = slot)) as [->|Hne].
      * intros _. exists k. rewrite list_lookup_insert_eq by done. split; [done|]. by apply created_ok.
      * rewrite list_lookup_insert_ne by done. apply Hca.
    + done.
    + done.
    + done.
    + intros c k0 Hk0. apply (Hac c k0 Hk0).
    + done.
    + split; [done|]. split; [apply length_insert|]. split; [exact Hlv|]. do 2 (split; [done|]).
      unfold slab_live; simpl. rewrite list_lookup_insert_eq by done. by apply slab_objs_unused, Hcl.
Qed.

(** Detaching an empty slab. *)
Lemma drop_empty (st : sys) c k s p m h mem : slab_inv st -> cache_pool st !! c = Some k ->
  sl_pages st !! s = Some p -> list_of p = (c, Empty) ->
  slab_unlink (sl_links st) (slabs_free k) s = (m, h) -> ps_left mem <= ps_left (sl_mem st) ->
  let k' := with_lists (with_stats k (total_allocs k) (total_frees k) (active_objects k) (u64 (total_slabs k - 1)))
              (slabs_partial k) (slabs_full k) h in
  let st' := with_cache (SlabSys m (delete s (sl_pages st)) (<[s := p]> (sl_stale st)) (cache_pool st) (cache_used st) (cache_count st)
                (slab_vaddr_cursor st) mem) c k' in
  slab_inv st' /\ forall c', slab_live st' c' = slab_live st c'.
Proof.
  intros [Hl Hst] Hk Hp Hlo Hun Hmem k' st'. injection Hlo as Hc Hkd.
  assert (Hlt : (c < length (cache_pool st))%nat) by (by eapply lookup_lt_Some).
  assert (Hempty : page_used p = ∅).
  { destruct (ss_pages _ Hst _ _ Hp) as (k0 & _ & Hck & Hpk). destruct (page_free_bounds _ _ Hpk Hck).
    destruct Hpk as [_ _ _ Hf]. unfold slab_kind_of in Hkd.
    destruct (Z.eqb_spec (sp_free_count p) 0); [done|]. destruct (Z.eqb_spec (sp_free_count p) (sp_total_count p)); [|done].
    apply leibniz_equiv, size_empty_inv. lia. }
  assert (Hobjs : forall al c', slab_objs al c' (delete s (sl_pages st)) = slab_objs al c' (sl_pages st)).
  { intros al c'. rewrite <- (insert_delete_id (sl_pages st) s p Hp) at 2.
    symmetry. apply slab_objs_no_objects; [apply lookup_delete_eq|done]. }
  assert (Hlv : forall c', slab_live st' c' = slab_live st c').
  { intros c'. unfold slab_live; simpl. destruct (decide (c' = c)) as [->|Hne].
    - by rewrite list_lookup_insert_eq, Hk, Hobjs.
    - rewrite list_lookup_insert_ne by done. by destruct (cache_pool st !! c'). }
  split; [split|done].
  - simpl. rewrite fmap_delete. eapply slab_lists_ext; [|eapply (slab_lists_unlink _ _ _ (c, Empty)); [exact Hl| |]].
    + heads.
    + rewrite lookup_fmap, Hp. simpl. unfold list_of. by rewrite Hc, Hkd.
    + unfold head_of; simpl. rewrite Hk. exact Hun.
  - destruct (slab_state_relist st c k m k' Hst Hk) as [[Hca Hpg Had Hcu Hac Hsl] _]; [done..|].
    split; simpl in *; [done| | | | |].
    + intros s' q [_ Hq]%lookup_delete_Some. by apply (Hpg s').
    + intros s' q [_ Hq]%lookup_delete_Some. by apply (Had s' q).
    + destruct Hcu as (? & ? & ?). unfold PAGE_SIZE in *. do 2 (split; [done|]). lia.
    + intros c0 k0 Hk0. rewrite (Hac c0 k0 Hk0). unfold slab_live; simpl.
      destruct (_ !! c0); [|done]. by rewrite Hobjs.
    + intros s' q [[_ <-]|[_ Hq]]%lookup_insert_Some; [done|by apply (Hsl s')].
Qed.

(** The loop of [kmem_cache_shrink] ends within one round per page, and leaves
    the cache without empty slabs. *)
Lemma shrink_loop_spec fuel : forall (st : sys) c k, slab_inv (with_cache st c k) -> (c < length (cache_pool st))%nat ->
  (size (sl_pages st) <= fuel)%nat ->
  exists k' st', shrink_loop fuel st k = Some (k', st') /\ slab_inv (with_cache st' c k') /\
    cache_pool st' = cache_pool st /\ cache_used st' = cache_used st /\ slabs_free k' = 0 /\
    sl_pages st' ⊆ sl_pages st /\
    forall c', slab_live (with_cache st' c k') c' = slab_live (with_cache st c k) c'.
Proof.
  induction fuel as [|n IH]; intros st c k Hinv Hlt Hsz; simpl;
    (destruct (Z.eqb_spec (slabs_free k) 0) as [Hz|Hz]; [exists k, st; by do 5 (split; [done|])|]);
    assert (Hk : cache_pool (with_cache st c k) !! c = Some k) by (by apply list_lookup_insert_eq);
    pose proof (slab_lists_head _ _ _ (c, Empty) (proj1 Hinv)) as Ht;
    (assert (Hh : head_of (cache_pool (with_cache st c k)) (c, Empty) = slabs_free k)
      by (unfold head_of; cbn [fst snd]; by rewrite Hk));
    rewrite Hh in Ht; specialize (Ht Hz); apply listed_page in Ht as (p & Hp & Hlo); simpl in Hp.
  - assert (size (sl_pages st) = 0)%nat as H0%map_size_empty_inv by lia. by rewrite H0, lookup_empty in Hp.
  - destruct (slab_unlink (sl_links st) (slabs_free k) (slabs_free k)) as [m h] eqn:Hun.
    set (mem := if negb _ then _ else _). set (k1 := with_lists _ _ _ _).
    rewrite Hp. set (st1 := SlabSys m _ _ _ _ _ _ mem).
    assert (Hmem : ps_left mem <= ps_left (sl_mem st)).
    { unfold mem. destruct (negb _); [apply ps_free_left|lia]. }
    destruct (drop_empty (with_cache st c k) c k _ p m h mem Hinv Hk Hp Hlo Hun Hmem) as [Hinv1 Hlv1].
    simpl in Hinv1, Hlv1. unfold with_cache in Hinv1, Hlv1; simpl in Hinv1, Hlv1.
    rewrite list_insert_insert_eq in Hinv1. setoid_rewrite list_insert_insert_eq in Hlv1.
    destruct (IH st1 c k1) as (k' & st' & He & Hi' & Hp' & Hu' & Hf' & Hs' & Hlv'); [exact Hinv1|done| |].
    { unfold st1; simpl. rewrite map_size_delete_Some; [lia|by eexists]. }
    exists k', st'. do 5 (split; [done|]). split; [|intros c'; rewrite Hlv'; apply Hlv1].
    etrans; [exact Hs'|]. apply delete_subseteq.
Qed.

Lemma kmem_cache_shrink_spec (st : sys) c : slab_inv st -> exists st', kmem_cache_shrink st c = Some st' /\
  slab_inv st' /\ cache_used st' = cache_used st /\ length (cache_pool st') = length (cache_pool st) /\
  sl_pages st' ⊆ sl_pages st /\ (forall c', slab_live st' c' = slab_live st c') /\
  forall s p, sl_pages st' !! s = Some p -> (c < length (cache_pool st))%nat -> list_of p <> (c, Empty).
Proof.
  intros Hinv. unfold kmem_cache_shrink. destruct (cache_pool st !! c) as [k|] eqn:Hk.
  2: { exists st. do 6 (split; [done|]). intros s p _ Hlt. by apply lookup_ge_None in Hk; lia. }
  assert (Hlt : (c < length (cache_pool st))%nat) by (by eapply lookup_lt_Some).
  destruct (shrink_loop_spec (size (sl_pages st)) st c k) as (k' & st' & -> & Hi & Hp & Hu & Hf & Hs & Hlv);
    [by rewrite with_cache_id|done|lia|].
  eexists. split; [done|]. split; [exact Hi|]. simpl. split; [done|]. split; [by rewrite length_insert, Hp|].
  split; [done|]. split; [intros c'; by rewrite Hlv, with_cache_id|].
  intros s p Hsp _ Hlo. apply (slab_lists_null _ _ _ (c, Empty) (proj1 Hi)) with s.
  - unfold head_of; simpl. by rewrite list_lookup_insert_eq by (by rewrite Hp).
  - simpl. by rewrite lookup_fmap, Hsp, <- Hlo.
Qed.

(** An allocation adds pages only for its own cache. *)
Lemma alloc_unused (st st' : sys) c r c' : kmem_cache_alloc st c = (r, st') -> c' <> c ->
  slot_unused (sl_pages st) c' -> slot_unused (sl_pages st') c'.
Proof.
  intros Ha Hc Hun. unfold kmem_cache_alloc, slab_for_alloc, slab_page_alloc, take_object in Ha.
  repeat (case_match; simplify_eq; simpl in *; try done); intros s' q Hq;
    repeat match goal with
    | H : <[_ := _]> _ !! _ = Some _ |- _ => apply lookup_insert_Some in H as [[? ?]|[? ?]]; simplify_eq; simpl
    end; try done; try (by eapply Hun).
Qed.

Lemma alloc_pool_length (st st' : sys) c r : kmem_cache_alloc st c = (r, st') ->
  length (cache_pool st') = length (cache_pool st).
Proof.
  unfold kmem_cache_alloc, slab_for_alloc, slab_page_alloc, take_object. intros Ha.
  repeat (case_match; simplify_eq; simpl in *; rewrite ?length_insert; try done).
Qed.

(** An allocation changes no cache's object size. *)
Lemma alloc_sizes (st st' : sys) c r : kmem_cache_alloc st c = (r, st') ->
  forall c' k, cache_pool st !! c' = Some k ->
  exists k', cache_pool st' !! c' = Some k' /\ obj_aligned k' = obj_aligned k.
Proof.
  unfold kmem_cache_alloc, slab_for_alloc, slab_page_alloc, take_object. intros Ha c' k Hk.
  assert (Hlt : (c' < length (cache_pool st))%nat) by (by eapply lookup_lt_Some).
  repeat (case_match; simplify_eq; simpl in *); try (by exists k);
    (destruct (decide (c' = c)) as [->|]; [rewrite list_lookup_insert_eq by done|rewrite list_lookup_insert_ne by done];
     [eexists; split; [done|]; simpl; congruence|by exists k]).
Qed.

Lemma live_page (st : sys) c k o : slab_state st -> cache_pool st !! c = Some k -> o ∈ slab_live st c ->
  0 < o /\ o / PAGE_SIZE = (o + obj_aligned k - 1) / PAGE_SIZE.
Proof.
  intros Hst Hk Ho. destruct (live_inv _ _ _ _ Hst Hk Ho) as (s & p & i & Hp & Hc & Hi & ->).
  pose proof Hi as [_ Hr]%elem_of_page_used. destruct (live_addr _ _ _ _ _ _ Hst Hk Hp Hc Hr) as (Hb & Hf & Hm & Hal).
  destruct (obj_in_page _ _ _ _ _ _ Hst Hk Hp Hc Hr) as [H0 _]. split; [done|].
  apply Z.mod_divide in Hm as [q ->]; [|done]. unfold PAGE_SIZE, SLAB_HEADER in *.
  rewrite <- (Z.div_unique _ 4096 q (64 + i * obj_aligned k)), <- (Z.div_unique _ 4096 q (64 + i * obj_aligned k + obj_aligned k - 1)); lia.
Qed.

(** ** Caches as allocators *)

(** The slab system seen by the clients of the cache in slot [c]. *)
Record cache_at (c : nat) := CacheAt { ca_sys : sys }.
Arguments CacheAt {c}.
Arguments ca_sys {c}.

#[export] Instance cache_ObjAlloc c : ObjAlloc (cache_at c).
Proof.
  refine {| obj_alloc := fun a => let '(r, st) := kmem_cache_alloc (ca_sys a) c in (r, CacheAt st);
            obj_free := fun a o => CacheAt (kmem_cache_free (ca_sys a) c o);
            obj_live := fun a => slab_live (ca_sys a) c;
            obj_ok := fun a => slab_inv (ca_sys a) /\ cache_used (ca_sys a) !! c = Some true |}.
  - intros [st] p [st'] [Hinv Hu]. simpl. destruct (kmem_cache_alloc st c) as [r st1] eqn:Ha. intros [= -> <-].
    destruct (kmem_cache_alloc_spec _ _ _ _ Hinv Hu Ha) as (Hi & Hus & _ & Hn & Hlv). by rewrite Hus.
  - intros [st] [st'] [Hinv Hu]. simpl. destruct (kmem_cache_alloc st c) as [r st1] eqn:Ha. intros [= -> <-].
    destruct (kmem_cache_alloc_spec _ _ _ _ Hinv Hu Ha) as (Hi & Hus & _ & Hlv). by rewrite Hus.
  - intros [st] p [Hinv Hu] Hp. simpl in *. destruct (kmem_cache_free_live _ _ _ Hinv Hp) as (Hi & Hus & _ & Hlv).
    by rewrite Hus.
Defined.
End More.

Arguments CacheAt {M c}.
Arguments ca_sys {M c}.
