(* ===== verification/SlabThms.v ===== *)
(** * Theorems about the object caches

    What [kernel/src/mm/slab_cache.c] guarantees to its clients, and the region
    lists of [kernel/src/mm/vma.c] running on such a cache. *)

From S2P Require Import Prelude Bitmap DList ObjAlloc Slab SlabList SlabSpec SlabOps.
From S2P Require Import Vma VmaTree VmaSpec VmaThms.

Section Steps.
Context {M : Type} `{!PageSource M, !PageBudget M}.
Notation sys := (slab_sys M).

(** The state before [slab_cache_init]: static storage. *)
Definition slab_boot (mem : M) : sys := SlabSys (Lmem ∅ ∅) ∅ ∅ [] [] 0 SLAB_VADDR_BASE mem.

(** The calls other code makes, with any arguments, except that objects are taken from
    existing caches only and that a cache is destroyed only when it has no slab left.
    And the next owner of a frame that was given back overwrites the header there. *)
Inductive slab_step : sys -> sys -> Prop :=
| sstep_create st size align r st' : kmem_cache_create st size align = (r, st') -> slab_step st st'
| sstep_alloc st c r st' :
    cache_used st !! c = Some true -> kmem_cache_alloc st c = (r, st') -> slab_step st st'
| sstep_free st c obj : slab_step st (kmem_cache_free st c obj)
| sstep_shrink st c st' : kmem_cache_shrink st c = Some st' -> slab_step st st'
| sstep_destroy st c : slot_unused (sl_pages st) c -> slab_step st (kmem_cache_destroy st c)
| sstep_reuse st s : slab_step st (SlabSys (sl_links st) (sl_pages st) (delete s (sl_stale st)) (cache_pool st) (cache_used st) (cache_count st)
    (slab_vaddr_cursor st) (sl_mem st)).

Record slab_wf (st : sys) : Prop := {
  sw_inv : slab_inv st;
  sw_slots : length (cache_used st) = length (cache_pool st);
  sw_unused : forall c, cache_used st !! c = Some false -> slot_unused (sl_pages st) c;
}.

Lemma slab_boot_wf mem : SLAB_VADDR_BASE + PAGE_SIZE * (ps_left mem + 1) <= 2 ^ 64 ->
  slab_wf (slab_cache_init (slab_boot mem)).
Proof.
  intros Hb. assert (Hn : forall c k, cache_pool (slab_cache_init (slab_boot mem)) !! c = Some k -> k = KmemCache 0 0 0 0 0 0 0 0 0 0 0).
  { intros c k Hk. by apply lookup_replicate in Hk as [? _]. }
  split; [split|done|].
  - exists (fun _ => []). split; [|intros x a; simpl; rewrite fmap_empty, lookup_empty; set_solver].
    intros [c t]. replace (head_of _ _) with 0; [apply nlist_nil|]. unfold head_of. simpl fst.
    destruct (cache_pool _ !! c) as [k|] eqn:Hk; [|done]. apply Hn in Hk as ->. by destruct t.
  - split; [|done|done|by split| |done].
    + intros c Hu. cbn [cache_used slab_cache_init] in Hu. by apply lookup_replicate in Hu as [? _].
    + intros c k Hk. pose proof (Hn _ _ Hk) as ->. unfold slab_live. by rewrite Hk.
  - intros c _ s p Hp. cbn [sl_pages slab_cache_init slab_boot] in Hp. by rewrite lookup_empty in Hp.
Qed.

Lemma slab_step_wf st st' : slab_step st st' -> slab_wf st -> slab_wf st'.
Proof.
  intros Hst [Hinv Hlen Hun]. inversion Hst; subst.
  - destruct (kmem_cache_create_spec _ _ _ _ _ Hinv Hlen Hun H) as (Hi & Hpg & Hl & _ & Hr).
    split; [done| |]; rewrite ?Hpg, ?Hl; destruct r as [c|]; [|by rewrite Hr| |by rewrite Hr].
    + destruct Hr as (_ & -> & _). by rewrite length_insert.
    + destruct Hr as (_ & -> & _). intros c' Hc'. apply Hun. destruct (decide (c' = c)) as [->|].
      * apply list_lookup_insert_Some in Hc' as [(_ & ? & _)|[? _]]; congruence.
      * by rewrite list_lookup_insert_ne in Hc'.
  - destruct (kmem_cache_alloc_spec _ _ _ _ Hinv H H0) as (Hi & Hus & _).
    split; [done| |]; rewrite Hus; [by rewrite Hlen, (alloc_pool_length _ _ _ _ H0)|].
    intros c' Hc'. by eapply alloc_unused; [exact H0|congruence|apply Hun].
  - destruct (kmem_cache_free_cases st c obj Hinv) as [->|(k & s & p & i & Hk & Hp & Hc & Hi & _ & _ & ->)]; [done|].
    destruct (free_slot_spec _ _ _ _ _ _ Hinv Hk Hp Hc Hi) as [_ (Hi' & Hus & _)].
    split; [done|rewrite Hus; unfold free_slot_of; by case_match; simpl; rewrite length_insert|].
    rewrite Hus. intros c' Hc'. specialize (Hun c' Hc'). unfold free_slot_of. case_match. simpl.
    intros s' q [[<- <-]|[_ Hq]]%lookup_insert_Some; [by apply (Hun s p)|by apply (Hun s' q)].
  - destruct (kmem_cache_shrink_spec st c Hinv) as (st1 & He & Hi & Hus & Hl & Hsub & _).
    assert (st1 = st') as -> by congruence. split; [done|by rewrite Hus, Hl|]. rewrite Hus. intros c' Hc' s p Hp.
    apply (Hun c' Hc' s p). by eapply lookup_weaken.
  - unfold kmem_cache_destroy. destruct (cache_used st !! c) as [[|]|] eqn:Hu; [|done..].
    destruct Hinv as [HL [Hca Hpg Had Hcu Hac Hsl]]. split; [split; [done|split]| |]; try done; simpl.
    + intros c' Hc'. apply Hca. apply list_lookup_insert_Some in Hc' as [(_ & ? & _)|[? ?]]; [done|done].
    + by rewrite length_insert.
    + intros c' [(-> & _)|[_ Hc']]%list_lookup_insert_Some; [done|by apply Hun].
  - destruct Hinv as [HL [Hca Hpg Had Hcu Hac Hsl]]. split; [split; [done|split]|done|done]; try done. intros s0 p0 Hp. cbn [sl_stale] in Hp. apply lookup_delete_Some in Hp as [_ Hp]. by apply (Hsl s0).
Qed.

Lemma slab_rtc_wf st st' : rtc slab_step st st' -> slab_wf st -> slab_wf st'.
Proof. intros Hs. induction Hs; [done|]. intros W. by eapply IHHs, slab_step_wf. Qed.

(** Two live objects do not overlap, whatever caches they are from. *)
Lemma live_disjoint (st : sys) c c' k k' o o' : slab_state st ->
  cache_pool st !! c = Some k -> cache_pool st !! c' = Some k' ->
  o ∈ slab_live st c -> o' ∈ slab_live st c' -> (c, o) <> (c', o') ->
  o + obj_aligned k <= o' \/ o' + obj_aligned k' <= o.
Proof.
  intros Hst Hk Hk' Ho Ho' Hne.
  destruct (live_inv _ _ _ _ Hst Hk Ho) as (s & p & i & Hp & Hc & Hi & ->).
  destruct (live_inv _ _ _ _ Hst Hk' Ho') as (s' & p' & i' & Hp' & Hc' & Hi' & ->).
  pose proof Hi as [_ Hr]%elem_of_page_used. pose proof Hi' as [_ Hr']%elem_of_page_used.
  destruct (live_addr _ _ _ _ _ _ Hst Hk Hp Hc Hr) as (Hb & Hf & Hm & Hal).
  destruct (live_addr _ _ _ _ _ _ Hst Hk' Hp' Hc' Hr') as (Hb' & Hf' & Hm' & Hal').
  destruct (Z.eq_dec s s') as [<-|Hs].
  - assert (p' = p) as -> by congruence. assert (c' = c) as -> by congruence.
    assert (k' = k) as -> by congruence. assert (i <> i') by congruence. nia.
  - unfold PAGE_SIZE, SLAB_HEADER in *. apply Z.mod_divide in Hm as [q ->]; [|lia].
    apply Z.mod_divide in Hm' as [q' ->]; [|lia]. nia.
Qed.

(** A cache refuses only when each of its slabs is full. *)
Lemma alloc_none_full (st st' : sys) c : slab_inv st -> cache_used st !! c = Some true ->
  kmem_cache_alloc st c = (None, st') ->
  forall s p, sl_pages st !! s = Some p -> sp_cache p = c -> sp_free_count p = 0.
Proof.
  intros Hinv Hu. pose proof Hinv as [HL Hst]. destruct (ss_caches _ Hst _ Hu) as (k & Hk & Hok).
  unfold kmem_cache_alloc. rewrite Hk. destruct (slab_for_alloc st c k) as [r st1] eqn:Hf.
  pose proof (slab_for_alloc_spec _ _ _ _ _ Hinv Hk Hok Hf) as H1. destruct r as [[s k']|].
  { intros Ht. destruct H1 as (p & Hp & Hc & Hpos & Hlt & Hinv1 & _).
    by destruct (take_object_spec _ _ _ _ _ _ _ Hp Hc Hpos Hlt Hinv1 Ht). }
  intros _ s p Hp Hc. unfold slab_for_alloc in Hf.
  destruct (Z.eqb_spec (slabs_partial k) 0) as [Hz|]; [|done]. cbn [negb] in Hf.
  destruct (Z.eqb_spec (slabs_free k) 0) as [Hz'|Hz']; cbn [negb] in Hf.
  2: { repeat case_match; simplify_eq. by b2p. }
  assert (Hnot : forall t, t <> Full -> list_of p <> (c, t)).
  { intros t Ht He. apply (slab_lists_null _ _ _ (c, t) HL) with s.
    - unfold head_of; simpl. rewrite Hk. by destruct t.
    - by rewrite lookup_fmap, Hp, <- He. }
  unfold list_of, slab_kind_of in Hnot. rewrite Hc in Hnot.
  destruct (Z.eqb_spec (sp_free_count p) 0); [done|]. exfalso.
  destruct (sp_free_count p =? sp_total_count p); [by apply (Hnot Empty)|by apply (Hnot Partial)].
Qed.

Lemma alloc_step (st : sys) c : cache_used st !! c = Some true -> slab_step st (kmem_cache_alloc st c).2.
Proof. intros Hu. eapply sstep_alloc; [exact Hu|]. apply surjective_pairing. Qed.
End Steps.

(** ** A small machine *)

(** A source of [n] frames. *)
#[export] Instance stock_pages : PageSource Z := {|
  ps_alloc n := if 0 <? n then (0x1000 * n, n - 1) else (0, n);
  ps_map n v f := (true, n);
  ps_free n f := n;
  ps_phys n v := v;
|}.

#[export] Instance stock_budget : PageBudget Z.
Proof.
  refine {| ps_left n := Z.max 0 n |}; simpl; try lia.
  intros m. destruct (Z.ltb_spec 0 m); simpl; [|lia]. destruct (Z.eqb_spec (0x1000 * m) 0); lia.
Defined.

Definition demo_boot : slab_sys Z := slab_cache_init (slab_boot 2).

Lemma demo_boot_wf : slab_wf demo_boot.
Proof. apply slab_boot_wf. vm_compute. congruence. Qed.

(** A cache of 1000-byte objects, four to a slab, with five of them live. *)
Definition demo_caches : slab_sys Z :=
  Eval vm_compute in for_n 5 0 (fun _ st => (kmem_cache_alloc st 0).2) (kmem_cache_create demo_boot 1000 8).2.

Lemma demo_caches_reached : rtc slab_step demo_boot demo_caches.
Proof.
  change demo_caches with (for_n 5 0 (fun _ st => (kmem_cache_alloc st 0).2) (kmem_cache_create demo_boot 1000 8).2).
  eapply rtc_l; [by apply (sstep_create _ 1000 8 (Some 0%nat))|]. cbn [for_n].
  do 5 (eapply rtc_l; [apply (alloc_step _ 0); by vm_compute|]). apply rtc_refl.
Qed.

Lemma demo_caches_wf : slab_wf demo_caches.
Proof. exact (slab_rtc_wf _ _ demo_caches_reached demo_boot_wf). Qed.

(** ** The properties *)

Section Claims.
Context {M : Type} `{!PageSource M, !PageBudget M}.
Notation sys := (slab_sys M).

(** C15: From initialisation, whatever caches are created, whatever existing caches are
    allocated from, whatever caches are shrunk, whatever caches without a slab are
    destroyed, and whatever pointers are freed, valid or not: every
    slab is on exactly one of the three lists of its cache, the one its free count
    calls for; free counts agree with the bitmaps; and the active count of each
    cache is its number of live objects. *)
Theorem slab_reachable_wf (mem : M) (st : sys) :
  SLAB_VADDR_BASE + PAGE_SIZE * (ps_left mem + 1) <= 2 ^ 64 ->
  rtc slab_step (slab_cache_init (slab_boot mem)) st -> slab_wf st.
Proof. intros Hb Hs. exact (slab_rtc_wf _ _ Hs (slab_boot_wf mem Hb)). Qed.

(** [kmem_cache_alloc] returns an object that was not live and makes exactly it
    live; its memory lies within one page and overlaps no live object of any cache.
    It returns null only when every slab of the cache is full, and then changes no
    set of live objects. *)
Theorem kmem_cache_alloc_correct (st st' : sys) c k r :
  slab_inv st -> cache_used st !! c = Some true -> cache_pool st !! c = Some k ->
  kmem_cache_alloc st c = (r, st') ->
  slab_inv st' /\ (forall c', c' <> c -> slab_live st' c' = slab_live st c') /\
  match r with
  | None => slab_live st' c = slab_live st c /\
      forall s p, sl_pages st !! s = Some p -> sp_cache p = c -> sp_free_count p = 0
  | Some o => o ∉ slab_live st c /\ slab_live st' c = {[o]} ∪ slab_live st c /\
      0 < o /\ o / PAGE_SIZE = (o + obj_aligned k - 1) / PAGE_SIZE /\
      forall c' k' o', cache_pool st !! c' = Some k' -> o' ∈ slab_live st c' ->
        o + obj_aligned k <= o' \/ o' + obj_aligned k' <= o
  end.
Proof.
  intros Hinv Hu Hk Ha. destruct (kmem_cache_alloc_spec _ _ _ _ Hinv Hu Ha) as (Hi & _ & Hoth & Hr).
  split; [done|]. split; [done|]. destruct r as [o|].
  - destruct Hr as [Hn Hlv]. split; [done|]. split; [done|].
    pose proof Hi as [_ Hst]. pose proof (alloc_sizes _ _ _ _ Ha) as Hsz.
    destruct (Hsz c k Hk) as (k1 & Hk1 & <-).
    assert (Ho : o ∈ slab_live st' c) by set_solver.
    destruct (live_page _ _ _ _ Hst Hk1 Ho) as [H0 H1]. split; [done|]. split; [done|].
    intros c' k' o' Hk' Ho'. destruct (Hsz c' k' Hk') as (k2 & Hk2 & <-).
    eapply live_disjoint; [done|exact Hk1|exact Hk2|done| |].
    + destruct (decide (c' = c)) as [->|Hne]; [set_solver|]. by rewrite Hoth.
    + intros [= -> ->]. done.
  - split; [done|]. by eapply alloc_none_full.
Qed.

(** [kmem_cache_free] of a live object makes exactly it available again; of an
    object slot that is not live (a double free), or through the wrong cache, it
    changes nothing; and any pointer at all leaves the caches consistent and makes
    no object live. *)
Theorem kmem_cache_free_correct (st : sys) c obj :
  slab_inv st ->
  let st' := kmem_cache_free st c obj in
  slab_inv st' /\ (forall c', slab_live st' c' ⊆ slab_live st c') /\
  (obj ∈ slab_live st c -> slab_live st' c = slab_live st c ∖ {[obj]} /\
     forall c', c' <> c -> slab_live st' c' = slab_live st c') /\
  (forall s p i k, cache_pool st !! sp_cache p = Some k -> sl_pages st !! s = Some p ->
     0 <= i < sp_total_count p -> obj = s + SLAB_HEADER + i * obj_aligned k ->
     obj ∉ slab_live st c -> st' = st).
Proof.
  intros Hinv st'. pose proof Hinv as [_ Hst]. split; [|split; [|split]].
  - destruct (kmem_cache_free_cases st c obj Hinv) as [He|(k & s & p & i & Hk & Hp & Hc & Hi & _ & _ & He)].
    + unfold st'. by rewrite He.
    + unfold st'. rewrite He. by apply free_slot_spec.
  - intros c'. destruct (kmem_cache_free_cases st c obj Hinv) as [He|(k & s & p & i & Hk & Hp & Hc & Hi & _ & _ & He)].
    + unfold st'. by rewrite He.
    + unfold st'. rewrite He. destruct (free_slot_spec _ _ _ _ _ _ Hinv Hk Hp Hc Hi) as [_ (_ & _ & Hoth & Hlv)].
      destruct (decide (c' = c)) as [->|]; [rewrite Hlv; set_solver|by rewrite Hoth].
  - intros Ho. by destruct (kmem_cache_free_live _ _ _ Hinv Ho) as (_ & _ & Hoth & Hlv).
  - intros s p i k Hk Hp Hi -> Hn.
    destruct (kmem_cache_free_cases st c (s + SLAB_HEADER + i * obj_aligned k) Hinv)
      as [He|(k1 & s1 & p1 & i1 & Hk1 & Hp1 & Hc1 & Hi1 & Hs1 & Hx1 & _)]; [done|].
    destruct (obj_decode _ _ _ _ _ _ Hst Hk Hp eq_refl Hi) as (Hd1 & Hd2 & _). rewrite Hd1 in Hs1. subst s1.
    assert (p1 = p) as -> by congruence. subst c. assert (k1 = k) as -> by congruence. rewrite Hd2 in Hx1. subst i1.
    destruct Hn. by eapply live_bit.
Qed.

(** [kmem_cache_shrink] terminates, whatever the state; it leaves the cache
    without an empty slab, and gives up no live object of any cache. *)
Theorem kmem_cache_shrink_correct (st : sys) c : slab_inv st ->
  exists st', kmem_cache_shrink st c = Some st' /\ slab_inv st' /\
    (forall c', slab_live st' c' = slab_live st c') /\ sl_pages st' ⊆ sl_pages st /\
    ((c < length (cache_pool st))%nat -> forall s p, sl_pages st' !! s = Some p -> sp_cache p = c ->
       page_used p <> ∅).
Proof.
  intros Hinv. destruct (kmem_cache_shrink_spec st c Hinv) as (st' & He & Hi & _ & _ & Hsub & Hlv & Hne).
  exists st'. do 4 (split; [done|]). intros Hlt s p Hp Hc Hemp. apply (Hne s p Hp Hlt).
  destruct (ss_pages _ (proj2 Hi) _ _ Hp) as (k & _ & [Hn _ _] & [_ Ht _ Hf]). rewrite Hemp, size_empty in Hf.
  unfold list_of, slab_kind_of. rewrite Hc, (proj2 (Z.eqb_neq _ 0)), (proj2 (Z.eqb_eq _ (sp_total_count p))) by lia. done.
Qed.

(** C33: The region lists of [vma.c] on a cache of [slab_cache.c]: from an unused
    cache, any sequence of region operations keeps both the tree and the cache
    consistent, and the live objects of the cache are exactly the tree's nodes. *)
Theorem vma_on_slab_cache c (st : sys) list' (a' : cache_at (M := M) c) :
  slab_inv st -> cache_used st !! c = Some true -> slab_live st c = ∅ ->
  rtc vma_step (vma_list_init, CacheAt st) (list', a') ->
  avl (root list') /\ ordered (elems (root list')) /\ slab_inv (ca_sys a') /\
  slab_live (ca_sys a') c = list_to_set (addrs (root list')).
Proof.
  intros Hinv Hu Hl Hs.
  assert (W : vma_wf list' ∅ a').
  { apply (vma_rtc_wf ∅ _ _ Hs). by apply empty_wf. }
  split; [apply W|]. split; [apply W|]. split; [apply (vw_ok _ _ _ W)|].
  pose proof (vw_live _ _ _ W) as H. simpl in H. rewrite H. set_solver.
Qed.

(** Objects have the alignment their cache was created with as long as it
    divides 64 bytes, the offset of a slab's first object. *)
Theorem slab_objects_aligned (st : sys) c k o : slab_inv st -> cache_pool st !! c = Some k ->
  (alignment k | SLAB_HEADER) -> (alignment k | obj_aligned k) -> o ∈ slab_live st c -> (alignment k | o).
Proof.
  intros [_ Hst] Hk Ha Hoa Ho. destruct (live_inv _ _ _ _ Hst Hk Ho) as (s & p & i & Hp & _ & _ & ->).
  destruct (ss_addr _ Hst _ _ Hp) as (_ & Hm & _). apply Z.mod_divide in Hm; [|done].
  apply Z.divide_add_r; [apply Z.divide_add_r; [|done]|by apply Z.divide_mul_r].
  etrans; [exact Ha|]. etrans; [|exact Hm]. by exists 64.
Qed.
End Claims.

(** ** The properties on the small machine *)

Lemma slab_reachable_wf_witness : slab_wf demo_caches.
Proof. apply (slab_reachable_wf 2); [by vm_compute|exact demo_caches_reached]. Defined.

(** A cache that is destroyed while it has slabs leaves them behind.  When its slot is
    used again, an object of the old cache can be freed through the new one, whose count
    of active objects then wraps. *)
Theorem slab_destroy_leaves_slabs : exists st k,
  kmem_cache_create (kmem_cache_destroy demo_caches 0) 1000 8 = (Some 0%nat, st) /\ ~ slab_wf st /\
  cache_pool (kmem_cache_free st 0 (SLAB_VADDR_BASE + SLAB_HEADER)) !! 0%nat = Some k /\ active_objects k = 2 ^ 64 - 1.
Proof.
  eexists _, _. split; [vm_compute; reflexivity|]. split; [|split; vm_compute; reflexivity].
  intros [[_ Hst] _ _]. pose proof (ss_active _ Hst 0%nat _ eq_refl) as H. vm_compute in H. discriminate H.
Qed.

Definition demo_cache_0 : kmem_cache :=
  Eval vm_compute in default (KmemCache 0 0 0 0 0 0 0 0 0 0 0) (cache_pool demo_caches !! 0%nat).

Lemma kmem_cache_alloc_correct_witness :
  exists o, (kmem_cache_alloc demo_caches 0).1 = Some o /\ o ∉ slab_live demo_caches 0.
Proof.
  destruct (kmem_cache_alloc_correct demo_caches (kmem_cache_alloc demo_caches 0).2 0 demo_cache_0
    (Some (SLAB_VADDR_BASE + PAGE_SIZE + SLAB_HEADER + 1000)) (sw_inv _ demo_caches_wf)) as (_ & _ & H & _);
    [by vm_compute..|]. eexists. split; [by vm_compute|exact H].
Defined.

Lemma kmem_cache_free_correct_witness :
  slab_live (kmem_cache_free demo_caches 0 (SLAB_VADDR_BASE + SLAB_HEADER)) 0 =
    slab_live demo_caches 0 ∖ {[SLAB_VADDR_BASE + SLAB_HEADER]}.
Proof.
  destruct (kmem_cache_free_correct demo_caches 0 (SLAB_VADDR_BASE + SLAB_HEADER) (sw_inv _ demo_caches_wf))
    as (_ & _ & H & _). apply H. by vm_compute.
Defined.

Lemma kmem_cache_shrink_correct_witness : exists st', kmem_cache_shrink demo_caches 0 = Some st' /\ slab_inv st'.
Proof.
  destruct (kmem_cache_shrink_correct demo_caches 0 (sw_inv _ demo_caches_wf)) as (st' & H1 & H2 & _).
  exists st'. split; [exact H1|exact H2].
Defined.

Definition demo_vma_cache : cache_at (M := Z) 0 := CacheAt (kmem_cache_create demo_boot 112 8).2.

Lemma demo_vma_cache_wf : slab_wf (ca_sys demo_vma_cache).
Proof. apply (slab_step_wf demo_boot); [by apply (sstep_create _ 112 8 (Some 0%nat))|apply demo_boot_wf]. Qed.

Lemma vma_on_slab_cache_witness : exists list' (a' : cache_at (M := Z) 0),
  avl (root list') /\ slab_live (M := Z) (ca_sys a') 0 = list_to_set (addrs (root list')) /\
  addrs (root list') = [SLAB_VADDR_BASE + SLAB_HEADER].
Proof.
  destruct (vma_add vma_list_init 0x1000 0x3000 3 0x22 (-1) 0 demo_vma_cache) as [[r l] s] eqn:E.
  exists l, s. destruct (vma_on_slab_cache 0 (ca_sys demo_vma_cache) l s) as (H1 & _ & _ & H2).
  - apply demo_vma_cache_wf.
  - by vm_compute.
  - by vm_compute.
  - apply rtc_once. eapply (vstep_add _ _ 0x1000 0x3000); [lia|exact E].
  - split; [exact H1|]. split; [exact H2|]. vm_compute in E. by injection E as <- <- <-.
Defined.

Lemma slab_objects_aligned_witness : (8 | SLAB_VADDR_BASE + SLAB_HEADER).
Proof.
  apply (slab_objects_aligned demo_caches 0 demo_cache_0); [apply demo_caches_wf|by vm_compute| | |by vm_compute].
  - by exists 8.
  - by exists 125.
Defined.

(** A cache created for 128-byte alignment hands out objects that are aligned
    to 64 bytes only, although the interface promises the given alignment. *)
Theorem slab_alignment_not_honoured :
  exists slot st o, kmem_cache_create demo_boot 128 128 = (Some slot, st) /\
    (kmem_cache_alloc st slot).1 = Some o /\ o mod 128 = 64.
Proof.
  exists 0%nat, (kmem_cache_create demo_boot 128 128).2, (SLAB_VADDR_BASE + SLAB_HEADER).
  split; [by vm_compute|]. split; by vm_compute.
Qed.
