(* ===== verification/CString.v ===== *)
(** * The C library of the kernel

    Models [kernel/src/lib/string.c] on a byte-addressed memory.  Loops that run to
    a terminator take fuel and return [None] when it runs out; loops that count
    down are recursion on the count.  [memset] and [memcpy] move eight bytes at a
    time through aligned pointers, as in the source. *)

From S2P Require Import Prelude.

Notation mem := (gmap Z Z).
Definition byte_at (m : mem) (a : Z) : Z := default 0 (m !! a).
Definition store8 (m : mem) (a v : Z) : mem := <[a := v]> m.

(** The byte [i] of a little-endian word. *)
Definition word_byte (v i : Z) : Z := u8 (Z.shiftr v (8 * i)).

Definition store64 (m : mem) (a v : Z) : mem :=
  for_n 8 0 (fun i m => store8 m (a + i) (word_byte v i)) m.
Definition load64 (m : mem) (a : Z) : Z :=
  for_n 8 0 (fun i v => Z.lor v (Z.shiftl (byte_at m (a + i)) (8 * i))) 0.

(** ** Strings *)

Fixpoint strcmp (fuel : nat) (m : mem) (s1 s2 : Z) : option Z :=
  match fuel with
  | O => None
  | S n =>
      if negb (byte_at m s1 =? 0) && (byte_at m s1 =? byte_at m s2) then strcmp n m (s1 + 1) (s2 + 1)
      else Some (byte_at m s1 - byte_at m s2)
  end.

Fixpoint strncmp (n : nat) (m : mem) (s1 s2 : Z) : Z :=
  match n with
  | O => 0
  | S n' =>
      if negb (byte_at m s1 =? 0) && (byte_at m s1 =? byte_at m s2) then strncmp n' m (s1 + 1) (s2 + 1)
      else byte_at m s1 - byte_at m s2
  end.

Fixpoint strlen_from (fuel : nat) (m : mem) (s len : Z) : option Z :=
  match fuel with
  | O => None
  | S n => if negb (byte_at m (s + len) =? 0) then strlen_from n m s (len + 1) else Some len
  end.

Definition strlen (fuel : nat) (m : mem) (s : Z) : option Z := strlen_from fuel m s 0.

Fixpoint strcpy (fuel : nat) (m : mem) (dest src : Z) : option mem :=
  match fuel with
  | O => None
  | S n =>
      let c := byte_at m src in
      let m := store8 m dest c in
      if negb (c =? 0) then strcpy n m (dest + 1) (src + 1) else Some m
  end.

(** The second loop of [strncpy]. *)
Fixpoint zero_fill (n : nat) (m : mem) (p : Z) : mem :=
  match n with
  | O => m
  | S n' => zero_fill n' (store8 m p 0) (p + 1)
  end.

Fixpoint strncpy (n : nat) (m : mem) (dest src : Z) : mem :=
  match n with
  | O => m
  | S n' =>
      if negb (byte_at m src =? 0) then strncpy n' (store8 m dest (byte_at m src)) (dest + 1) (src + 1)
      else zero_fill n m dest
  end.

(** [last] is 0 for a null result. *)
Fixpoint strrchr_from (fuel : nat) (m : mem) (s c last : Z) : option Z :=
  match fuel with
  | O => None
  | S n =>
      let last := if byte_at m s =? u8 c then s else last in
      if negb (byte_at m s =? 0) then strrchr_from n m (s + 1) c last else Some last
  end.

Definition strrchr (fuel : nat) (m : mem) (s c : Z) : option Z := strrchr_from fuel m s c 0.

(** [while ( *ptr) ptr++] *)
Fixpoint find_end (fuel : nat) (m : mem) (ptr : Z) : option Z :=
  match fuel with
  | O => None
  | S n => if negb (byte_at m ptr =? 0) then find_end n m (ptr + 1) else Some ptr
  end.

Definition strcat (fuel : nat) (m : mem) (dest src : Z) : option mem :=
  match find_end fuel m dest with
  | None => None
  | Some ptr => strcpy fuel m ptr src
  end.

Fixpoint strncat_loop (n : nat) (m : mem) (ptr src : Z) : mem :=
  match n with
  | O => store8 m ptr 0
  | S n' =>
      let c := byte_at m src in
      let m := store8 m ptr c in
      if negb (c =? 0) then strncat_loop n' m (ptr + 1) (src + 1) else m
  end.

Definition strncat (fuel : nat) (m : mem) (dest src : Z) (n : nat) : option mem :=
  match find_end fuel m dest with
  | None => None
  | Some ptr => Some (strncat_loop n m ptr src)
  end.

(** ** Blocks *)

(** Bytes until the pointer is aligned or the count is used up; returns the memory,
    the pointer and what is left. *)
Fixpoint memset_lead (n : nat) (m : mem) (p b : Z) : mem * Z * nat :=
  match n with
  | O => (m, p, O)
  | S n' => if negb (Z.land p 7 =? 0) then memset_lead n' (store8 m p b) (p + 1) b else (m, p, n)
  end.

Fixpoint memset_words (k : nat) (m : mem) (p v : Z) : mem :=
  match k with
  | O => m
  | S k' => memset_words k' (store64 m p v) (p + 8) v
  end.

Fixpoint memset_bytes (n : nat) (m : mem) (p b : Z) : mem :=
  match n with
  | O => m
  | S n' => memset_bytes n' (store8 m p b) (p + 1) b
  end.

Definition splat (b : Z) : Z :=
  let val64 := Z.lor (Z.lor (Z.lor b (Z.shiftl b 8)) (Z.shiftl b 16)) (Z.shiftl b 24) in
  u64 (Z.lor val64 (Z.shiftl val64 32)).

Definition memset (m : mem) (s c : Z) (n : nat) : mem :=
  let b := u8 c in
  let '(m, p, n) := memset_lead n m s b in
  let k := (n / 8)%nat in
  let m := memset_words k m p (splat b) in
  memset_bytes (n - 8 * k) m (p + 8 * Z.of_nat k) b.

Fixpoint copy_bytes (n : nat) (m : mem) (d s : Z) : mem :=
  match n with
  | O => m
  | S n' => copy_bytes n' (store8 m d (byte_at m s)) (d + 1) (s + 1)
  end.

Fixpoint copy_lead (n : nat) (m : mem) (d s : Z) : mem * Z * Z * nat :=
  match n with
  | O => (m, d, s, O)
  | S n' =>
      if negb (Z.land d 7 =? 0) then copy_lead n' (store8 m d (byte_at m s)) (d + 1) (s + 1)
      else (m, d, s, n)
  end.

Fixpoint copy_words (k : nat) (m : mem) (d s : Z) : mem :=
  match k with
  | O => m
  | S k' => copy_words k' (store64 m d (load64 m s)) (d + 8) (s + 8)
  end.

Definition memcpy (m : mem) (dest src : Z) (n : nat) : mem :=
  if (Z.of_nat n <? 16) || negb (Z.land dest 7 =? Z.land src 7) then copy_bytes n m dest src
  else
    let '(m, d, s, n) := copy_lead n m dest src in
    let k := (n / 8)%nat in
    let m := copy_words k m d s in
    copy_bytes (n - 8 * k) m (d + 8 * Z.of_nat k) (s + 8 * Z.of_nat k).

Fixpoint memcmp (n : nat) (m : mem) (p1 p2 : Z) : Z :=
  match n with
  | O => 0
  | S n' =>
      if negb (byte_at m p1 =? byte_at m p2) then byte_at m p1 - byte_at m p2
      else memcmp n' m (p1 + 1) (p2 + 1)
  end.

(** ** Numbers and case *)

Fixpoint atoui_from (fuel : nat) (m : mem) (s res : Z) : option Z :=
  match fuel with
  | O => None
  | S n =>
      let c := byte_at m s in
      if (c >=? 48) && (c <=? 57) then atoui_from n m (s + 1) (u32 (res * 10 + (c - 48))) else Some res
  end.

Definition atoui (fuel : nat) (m : mem) (s : Z) : option Z := atoui_from fuel m s 0.

Definition tolower_char (c : Z) : Z := if (c >=? 65) && (c <=? 90) then c + 32 else c.

Fixpoint strcasecmp (fuel : nat) (m : mem) (s1 s2 : Z) : option Z :=
  match fuel with
  | O => None
  | S n =>
      if negb (byte_at m s1 =? 0) && negb (byte_at m s2 =? 0) then
        let c1 := tolower_char (byte_at m s1) in
        let c2 := tolower_char (byte_at m s2) in
        if negb (c1 =? c2) then Some (c1 - c2) else strcasecmp n m (s1 + 1) (s2 + 1)
      else Some (byte_at m s1 - byte_at m s2)
  end.
