(* ===== verification/CStringThms.v ===== *)
(** * Correctness of the C library

    The word-at-a-time routines agree with their byte-at-a-time meaning, and the
    string routines with the operations on the strings they are given. *)

From S2P Require Import Prelude CString.

(** ** Bytes and words *)

Lemma byte_at_store8 m a v x : byte_at (store8 m a v) x = if a =? x then v else byte_at m x.
Proof.
  unfold byte_at, store8. destruct (Z.eqb_spec a x) as [->|];
    [by rewrite lookup_insert_eq|by rewrite lookup_insert_ne].
Qed.

Definition is_byte (v : Z) : Prop := 0 <= v < 256.
Definition bytes_ok (m : mem) : Prop := forall a, is_byte (byte_at m a).

Lemma word_byte_testbit v i j : 0 <= i -> 0 <= j ->
  Z.testbit (word_byte v i) j = (j <? 8) && Z.testbit v (8 * i + j).
Proof.
  intros Hi Hj. unfold word_byte, u8. destruct (Z.ltb_spec j 8).
  - rewrite Z.mod_pow2_bits_low, Z.shiftr_spec by lia. simpl. f_equal. lia.
  - by rewrite Z.mod_pow2_bits_high by lia.
Qed.

Lemma byte_at_store64 m a v x :
  byte_at (store64 m a v) x = if (a <=? x) && (x <? a + 8) then word_byte v (x - a) else byte_at m x.
Proof.
  unfold store64. set (f := fun i m => _).
  assert (H : forall n i m, byte_at (for_n n i f m) x =
    if (a + i <=? x) && (x <? a + i + Z.of_nat n) then word_byte v (x - a) else byte_at m x).
  { clear m. induction n as [|n IH]; intros i m; cbn [for_n].
    - destruct (Z.leb_spec (a + i) x), (Z.ltb_spec x (a + i + Z.of_nat 0)); (done || lia).
    - rewrite IH. unfold f. rewrite byte_at_store8.
      destruct (Z.leb_spec (a + (i + 1)) x), (Z.ltb_spec x (a + (i + 1) + Z.of_nat n)),
        (Z.leb_spec (a + i) x), (Z.ltb_spec x (a + i + Z.of_nat (S n))), (Z.eqb_spec (a + i) x);
        simpl; (done || lia || (f_equal; lia)). }
  rewrite H, Z.add_0_r. done.
Qed.

Lemma load64_testbit m a k : bytes_ok m ->
  Z.testbit (load64 m a) k = (0 <=? k) && (k <? 64) && Z.testbit (byte_at m (a + k / 8)) (k mod 8).
Proof.
  intros Hb. unfold load64. set (f := fun i v => _).
  assert (H : forall n j v, 0 <= j -> Z.testbit (for_n n j f v) k =
    Z.testbit v k || ((0 <=? k) && (8 * j <=? k) && (k <? 8 * (j + Z.of_nat n)) && Z.testbit (byte_at m (a + k / 8)) (k mod 8))).
  { induction n as [|n IH]; intros j v Hj; cbn [for_n].
    - destruct (Z.leb_spec 0 k), (Z.leb_spec (8 * j) k), (Z.ltb_spec k (8 * (j + Z.of_nat 0))); simpl; (lia || by rewrite orb_false_r).
    - rewrite IH by lia. unfold f. rewrite Z.lor_spec, <- orb_assoc. f_equal.
      destruct (Z_lt_le_dec k 0); [by rewrite !Z.testbit_neg_r, (proj2 (Z.leb_gt 0 k)) by lia|].
      rewrite (proj2 (Z.leb_le 0 k)), Z.shiftl_spec by lia. cbn [andb].
      destruct (Z.leb_spec (8 * j) k).
      + destruct (Z.leb_spec (8 * (j + 1)) k).
        * rewrite (testbit_high _ 8) by (apply Hb || lia). cbn [orb andb]. f_equal. f_equal. lia.
        * assert (k / 8 = j) as -> by (symmetry; apply (Z.div_unique_pos _ _ _ (k - 8 * j)); lia).
          assert (k mod 8 = k - 8 * j) as -> by (symmetry; apply (Z.mod_unique_pos _ _ j); lia).
          rewrite (proj2 (Z.ltb_lt k (8 * (j + Z.of_nat (S n))))) by lia. cbn [orb andb]. by rewrite orb_false_r.
      + rewrite (proj2 (Z.leb_gt (8 * (j + 1)) k)), Z.testbit_neg_r by lia. done. }
  rewrite H, Z.bits_0 by lia. cbn [orb]. f_equal. f_equal. destruct (Z.leb_spec 0 k); cbn [andb]; [|done].
  apply Z.leb_le. lia.
Qed.

Lemma load64_byte m a i : bytes_ok m -> 0 <= i < 8 -> word_byte (load64 m a) i = byte_at m (a + i).
Proof.
  intros Hb Hi. apply Z.bits_inj'. intros j Hj. rewrite word_byte_testbit, load64_testbit by (done || lia).
  destruct (Z.ltb_spec j 8); cbn [andb].
  - rewrite (proj2 (Z.leb_le 0 _)), (proj2 (Z.ltb_lt _ 64)) by lia. cbn [andb].
    assert ((8 * i + j) / 8 = i) as -> by (symmetry; apply (Z.div_unique_pos _ _ _ j); lia).
    assert ((8 * i + j) mod 8 = j) as -> by (symmetry; apply (Z.mod_unique_pos _ _ i); lia). done.
  - symmetry. apply (testbit_high _ 8); [apply Hb|lia].
Qed.

Lemma word_byte_is_byte v i : is_byte (word_byte v i).
Proof. apply u8_range. Qed.

Lemma bytes_ok_store64 m a v : bytes_ok m -> bytes_ok (store64 m a v).
Proof. intros Hb x. rewrite byte_at_store64. destruct (_ && _); [apply word_byte_is_byte|apply Hb]. Qed.

(** A stored word is read back, and other words are unaffected. *)
Lemma load64_store64 m a v : bytes_ok m -> 0 <= v < 2 ^ 64 -> load64 (store64 m a v) a = v.
Proof.
  intros Hb Hv. apply Z.bits_inj'. intros k Hk. rewrite load64_testbit by (by apply bytes_ok_store64).
  rewrite (proj2 (Z.leb_le 0 k)) by lia. cbn [andb]. destruct (Z.ltb_spec k 64); cbn [andb].
  - pose proof (Z.div_mod k 8 ltac:(lia)). pose proof (Z.mod_pos_bound k 8 ltac:(lia)).
    rewrite byte_at_store64, (proj2 (Z.leb_le a _)), (proj2 (Z.ltb_lt _ (a + 8))) by lia. cbn [andb].
    rewrite word_byte_testbit, (proj2 (Z.ltb_lt (k mod 8) 8)) by lia. cbn [andb]. f_equal. lia.
  - symmetry. apply (testbit_high _ 64); lia.
Qed.

Lemma load64_frame m m' a : bytes_ok m -> bytes_ok m' ->
  (forall x, a <= x < a + 8 -> byte_at m' x = byte_at m x) -> load64 m' a = load64 m a.
Proof.
  intros Hb Hb' Hf. apply Z.bits_inj'. intros k Hk. rewrite !load64_testbit by done.
  destruct (Z.ltb_spec k 64); [|by rewrite !andb_false_r]. f_equal.
  pose proof (Z.div_mod k 8 ltac:(lia)). pose proof (Z.mod_pos_bound k 8 ltac:(lia)). rewrite Hf by lia. done.
Qed.

Lemma load64_store64_ne m a v b : bytes_ok m -> b + 8 <= a \/ a + 8 <= b -> load64 (store64 m a v) b = load64 m b.
Proof.
  intros Hb Hd. apply load64_frame; [done|by apply bytes_ok_store64|]. intros x Hx. rewrite byte_at_store64.
  destruct (Z.leb_spec a x), (Z.ltb_spec x (a + 8)); cbn [andb]; (done || lia).
Qed.

Lemma splat_byte b i : is_byte b -> 0 <= i < 8 -> word_byte (splat b) i = b.
Proof.
  intros Hb Hi. assert (Hc : i = 0 \/ i = 1 \/ i = 2 \/ i = 3 \/ i = 4 \/ i = 5 \/ i = 6 \/ i = 7) by lia.
  assert (Hall : forallb (fun b => forallb (fun i => word_byte (splat b) i =? b) [0; 1; 2; 3; 4; 5; 6; 7]) (seqZ 0 256) = true)
    by (vm_compute; done).
  rewrite forallb_forall in Hall. specialize (Hall b). rewrite <- list_elem_of_In, elem_of_seqZ in Hall.
  specialize (Hall ltac:(unfold is_byte in Hb; lia)). rewrite forallb_forall in Hall.
  apply Z.eqb_eq, Hall. simpl. lia.
Qed.

(** ** [memset] *)

(** [m'] is [m] with the [n] bytes from [p] replaced by [b]. *)
Definition filled (m m' : mem) (p n b : Z) : Prop :=
  forall x, byte_at m' x = if (p <=? x) && (x <? p + n) then b else byte_at m x.

Lemma filled_trans m1 m2 m3 p a n b : 0 <= a -> 0 <= n -> filled m1 m2 p a b -> filled m2 m3 (p + a) n b ->
  filled m1 m3 p (a + n) b.
Proof.
  intros Ha Hn H1 H2 x. rewrite H2, H1.
  destruct (Z.leb_spec (p + a) x), (Z.ltb_spec x (p + a + n)), (Z.leb_spec p x), (Z.ltb_spec x (p + a)),
    (Z.ltb_spec x (p + (a + n))); simpl; (done || lia).
Qed.

Lemma filled_nil m p b : filled m m p 0 b.
Proof. intros x. destruct (Z.leb_spec p x), (Z.ltb_spec x (p + 0)); simpl; (done || lia). Qed.

Lemma filled_one m p b : filled m (store8 m p b) p 1 b.
Proof.
  intros x. rewrite byte_at_store8.
  destruct (Z.eqb_spec p x), (Z.leb_spec p x), (Z.ltb_spec x (p + 1)); simpl; (done || lia).
Qed.

Lemma memset_bytes_spec n : forall m p b, filled m (memset_bytes n m p b) p (Z.of_nat n) b.
Proof.
  induction n as [|n IH]; intros m p b; cbn [memset_bytes]; [apply filled_nil|].
  replace (Z.of_nat (S n)) with (1 + Z.of_nat n) by lia.
  apply (filled_trans _ (store8 m p b)); [lia|lia|apply filled_one|apply IH].
Qed.

Lemma memset_lead_spec n : forall m p b m' p' n', memset_lead n m p b = (m', p', n') ->
  exists a, 0 <= a /\ p' = p + a /\ Z.of_nat n = a + Z.of_nat n' /\ filled m m' p a b.
Proof.
  induction n as [|n IH]; intros m p b m' p' n'; simpl.
  - intros [= <- <- <-]. exists 0. split; [lia|]. split; [lia|]. split; [lia|apply filled_nil].
  - destruct (negb _); [|intros [= <- <- <-]; exists 0; split; [lia|]; split; [lia|]; split; [lia|apply filled_nil]].
    intros H. apply IH in H as (a & Ha & -> & Hn & Hf). exists (1 + a).
    split; [lia|]. split; [lia|]. split; [lia|].
    apply (filled_trans _ (store8 m p b)); [lia|lia|apply filled_one|done].
Qed.

Lemma memset_words_spec k : forall m p b, is_byte b -> filled m (memset_words k m p (splat b)) p (8 * Z.of_nat k) b.
Proof.
  induction k as [|k IH]; intros m p b Hb; cbn [memset_words]; [apply filled_nil|].
  replace (8 * Z.of_nat (S k)) with (8 + 8 * Z.of_nat k) by lia.
  apply (filled_trans _ (store64 m p (splat b))); [lia|lia| |by apply IH].
  intros x. rewrite byte_at_store64. destruct (Z.leb_spec p x), (Z.ltb_spec x (p + 8)); simpl; try done.
  apply splat_byte; [done|lia].
Qed.

Lemma memset_spec m s c n : filled m (memset m s c n) s (Z.of_nat n) (u8 c).
Proof.
  unfold memset. destruct (memset_lead n m s (u8 c)) as [[m1 p] n1] eqn:E.
  apply memset_lead_spec in E as (a & Ha & -> & Hn & Hf). rewrite Hn.
  pose proof (Nat.div_mod_eq n1 8) as Hd. pose proof (Nat.mod_upper_bound n1 8 ltac:(lia)).
  set (k := (n1 / 8)%nat) in *. eapply filled_trans; [lia|lia|exact Hf|].
  replace (Z.of_nat n1) with (8 * Z.of_nat k + Z.of_nat (n1 - 8 * k)) by lia.
  eapply filled_trans; [lia|lia|apply memset_words_spec, u8_range|apply memset_bytes_spec].
Qed.

(** ** [memcpy] *)

(** [m'] is [m] with [n] bytes of [m] copied from [s] to [d]. *)
Definition copied (m m' : mem) (d s n : Z) : Prop :=
  forall x, byte_at m' x = if (d <=? x) && (x <? d + n) then byte_at m (s + (x - d)) else byte_at m x.

Definition disjoint_blocks (d s n : Z) : Prop := d + n <= s \/ s + n <= d.

Lemma copied_trans m1 m2 m3 d s a n : 0 <= a -> 0 <= n -> disjoint_blocks d s (a + n) ->
  copied m1 m2 d s a -> copied m2 m3 (d + a) (s + a) n -> copied m1 m3 d s (a + n).
Proof.
  unfold disjoint_blocks. intros Ha Hn Hd H1 H2 x. rewrite H2.
  destruct (Z.leb_spec (d + a) x), (Z.ltb_spec x (d + a + n)); cbn [andb]; rewrite H1;
    destruct (Z.leb_spec d x), (Z.ltb_spec x (d + (a + n))); cbn [andb]; try lia;
    repeat match goal with |- context [?p <=? ?q] => destruct (Z.leb_spec p q) end;
    repeat match goal with |- context [?p <? ?q] => destruct (Z.ltb_spec p q) end; cbn [andb];
    first [done | lia | f_equal; lia].
Qed.

Lemma copied_nil m d s : copied m m d s 0.
Proof. intros x. destruct (Z.leb_spec d x), (Z.ltb_spec x (d + 0)); simpl; (done || lia). Qed.

Lemma copied_one m d s : copied m (store8 m d (byte_at m s)) d s 1.
Proof.
  intros x. rewrite byte_at_store8.
  destruct (Z.eqb_spec d x), (Z.leb_spec d x), (Z.ltb_spec x (d + 1)); simpl; (done || lia || (f_equal; lia)).
Qed.

Lemma copied_word m d s : bytes_ok m -> copied m (store64 m d (load64 m s)) d s 8.
Proof.
  intros Hb x. rewrite byte_at_store64. destruct (Z.leb_spec d x), (Z.ltb_spec x (d + 8)); cbn [andb]; try done.
  apply load64_byte; [done|lia].
Qed.

Lemma copied_bytes_ok m m' d s n : bytes_ok m -> copied m m' d s n -> bytes_ok m'.
Proof. intros Hb Hc x. rewrite Hc. destruct (_ && _); apply Hb. Qed.

Lemma disjoint_sub d s a n : 0 <= a -> 0 <= n -> disjoint_blocks d s (a + n) -> disjoint_blocks (d + a) (s + a) n.
Proof. unfold disjoint_blocks. lia. Qed.

Lemma copy_bytes_spec n : forall m d s, disjoint_blocks d s (Z.of_nat n) ->
  copied m (copy_bytes n m d s) d s (Z.of_nat n).
Proof.
  induction n as [|n IH]; intros m d s Hd; cbn [copy_bytes]; [apply copied_nil|].
  replace (Z.of_nat (S n)) with (1 + Z.of_nat n) in * by lia.
  apply (copied_trans _ (store8 m d (byte_at m s))); [lia|lia|done|apply copied_one|].
  apply IH, disjoint_sub; [lia|lia|done].
Qed.

Lemma copy_words_spec k : forall m d s, bytes_ok m -> disjoint_blocks d s (8 * Z.of_nat k) ->
  copied m (copy_words k m d s) d s (8 * Z.of_nat k).
Proof.
  induction k as [|k IH]; intros m d s Hb Hd; cbn [copy_words]; [apply copied_nil|].
  replace (8 * Z.of_nat (S k)) with (8 + 8 * Z.of_nat k) in * by lia.
  pose proof (copied_word m d s Hb) as Hw.
  apply (copied_trans _ (store64 m d (load64 m s))); [lia|lia|done|done|].
  apply IH; [by eapply copied_bytes_ok|apply disjoint_sub; [lia|lia|done]].
Qed.

Lemma copy_lead_spec n : forall m d s m' d' s' n', disjoint_blocks d s (Z.of_nat n) ->
  copy_lead n m d s = (m', d', s', n') ->
  exists a, 0 <= a /\ d' = d + a /\ s' = s + a /\ Z.of_nat n = a + Z.of_nat n' /\ copied m m' d s a.
Proof.
  induction n as [|n IH]; intros m d s m' d' s' n' Hd; cbn [copy_lead].
  - intros [= <- <- <- <-]. exists 0. rewrite !Z.add_0_r. do 4 (split; [done|]). apply copied_nil.
  - destruct (negb _).
    2: { intros [= <- <- <- <-]. exists 0. rewrite !Z.add_0_r. do 4 (split; [done|]). apply copied_nil. }
    replace (Z.of_nat (S n)) with (1 + Z.of_nat n) in * by lia.
    intros H. apply IH in H as (a & Ha & -> & -> & Hn & Hc); [|apply disjoint_sub; [lia|lia|done]].
    exists (1 + a). split; [lia|]. split; [lia|]. split; [lia|]. split; [lia|].
    apply (copied_trans _ (store8 m d (byte_at m s))); [lia|lia| |apply copied_one|done].
    unfold disjoint_blocks in *. lia.
Qed.

Lemma memcpy_spec m d s n : bytes_ok m -> disjoint_blocks d s (Z.of_nat n) ->
  copied m (memcpy m d s n) d s (Z.of_nat n).
Proof.
  intros Hb Hd. unfold memcpy. destruct (_ || _); [by apply copy_bytes_spec|].
  destruct (copy_lead n m d s) as [[[m1 d1] s1] n1] eqn:E.
  apply copy_lead_spec in E as (a & Ha & -> & -> & Hn & Hc); [|done]. rewrite Hn in *.
  pose proof (Nat.div_mod_eq n1 8) as Hdm. pose proof (Nat.mod_upper_bound n1 8 ltac:(lia)).
  set (k := (n1 / 8)%nat) in *. eapply copied_trans; [lia|lia|done|exact Hc|].
  apply disjoint_sub in Hd; [|lia|lia].
  replace (Z.of_nat n1) with (8 * Z.of_nat k + Z.of_nat (n1 - 8 * k)) in * by lia.
  eapply copied_trans; [lia|lia|done|apply copy_words_spec|apply copy_bytes_spec].
  - by eapply copied_bytes_ok.
  - unfold disjoint_blocks in *. lia.
  - apply disjoint_sub; [lia|lia|done].
Qed.

(** ** Strings in memory *)

(** The string [s] is stored at [p], with its terminator. *)
Fixpoint cstring (m : mem) (p : Z) (s : list Z) : Prop :=
  match s with
  | [] => byte_at m p = 0
  | c :: s' => 0 < c < 256 /\ byte_at m p = c /\ cstring m (p + 1) s'
  end.

Lemma cstring_frame m m' s : forall p, (forall x, p <= x <= p + zlen s -> byte_at m' x = byte_at m x) ->
  cstring m p s -> cstring m' p s.
Proof.
  unfold zlen. induction s as [|c s IH]; intros p Hf; cbn [cstring length] in *.
  - intros <-. apply Hf. lia.
  - intros (Hc & <- & Hs). split; [done|]. split; [apply Hf; lia|]. apply IH; [|done]. intros x Hx. apply Hf. lia.
Qed.

Lemma strlen_from_spec s : forall fuel m p len, cstring m (p + len) s -> (length s < fuel)%nat ->
  strlen_from fuel m p len = Some (len + zlen s).
Proof.
  unfold zlen. induction s as [|c s IH]; intros fuel m p len Hs Hf;
    (destruct fuel as [|fuel]; [simpl in *; lia|]); cbn [strlen_from].
  - simpl in Hs. rewrite Hs. simpl. f_equal. lia.
  - destruct Hs as (Hc & Hb & Hs). rewrite Hb, (proj2 (Z.eqb_neq c 0)) by lia. cbn [negb].
    rewrite IH; [f_equal; simpl; lia|by rewrite Z.add_assoc|simpl in Hf; lia].
Qed.

Lemma strlen_spec fuel m p s : cstring m p s -> (length s < fuel)%nat -> strlen fuel m p = Some (zlen s).
Proof. intros Hs Hf. apply (strlen_from_spec s fuel m p 0); [by rewrite Z.add_0_r|done]. Qed.

(** Strict lexicographic order on byte strings. *)
Inductive lex_lt : list Z -> list Z -> Prop :=
| lex_nil c s : lex_lt [] (c :: s)
| lex_head c1 c2 s1 s2 : c1 < c2 -> lex_lt (c1 :: s1) (c2 :: s2)
| lex_tail c s1 s2 : lex_lt s1 s2 -> lex_lt (c :: s1) (c :: s2).

Lemma lex_lt_cons c1 c2 s1 s2 : lex_lt (c1 :: s1) (c2 :: s2) <-> c1 < c2 \/ (c1 = c2 /\ lex_lt s1 s2).
Proof.
  split; [inversion 1; subst; [by left|by right]|]. intros [H|[-> H]]; [by apply lex_head|by apply lex_tail].
Qed.

(** The result of a comparison orders the strings. *)
Definition orders (r : Z) (s1 s2 : list Z) : Prop := (r = 0 <-> s1 = s2) /\ (r < 0 <-> lex_lt s1 s2).

Lemma orders_cons r c s1 s2 : orders r s1 s2 -> orders r (c :: s1) (c :: s2).
Proof.
  intros [H1 H2]. split.
  - rewrite H1. split; [by intros ->|by intros [= ->]].
  - rewrite lex_lt_cons, H2. split; [by right|]. intros [?|[_ ?]]; [lia|done].
Qed.

Lemma orders_head c1 c2 s1 s2 : c1 <> c2 -> orders (c1 - c2) (c1 :: s1) (c2 :: s2).
Proof.
  intros Hne. split; [split; [lia|by intros [= ]]|]. rewrite lex_lt_cons. split; [intros; left; lia|].
  intros [?|[? _]]; [lia|done].
Qed.

Lemma strcmp_spec fuel : forall m p1 p2 s1 s2, cstring m p1 s1 -> cstring m p2 s2 -> (length s1 < fuel)%nat ->
  exists r, strcmp fuel m p1 p2 = Some r /\ orders r s1 s2.
Proof.
  induction fuel as [|n IH]; intros m p1 p2 s1 s2 H1 H2 Hf; [lia|]. cbn [strcmp].
  destruct s1 as [|c1 s1], s2 as [|c2 s2]; cbn [cstring length] in *.
  - rewrite H1, H2. eexists. split; [done|]. split; [done|]. split; [lia|inversion 1].
  - destruct H2 as (Hc & H2 & _). rewrite H1, H2. eexists. split; [done|].
    split; [split; [lia|done]|]. split; [constructor|lia].
  - destruct H1 as (Hc & H1 & _). rewrite H1, H2, (proj2 (Z.eqb_neq c1 0)) by lia. cbn [negb andb].
    eexists. split; [done|]. split; [split; [lia|done]|]. split; [lia|inversion 1].
  - destruct H1 as (Hc1 & -> & H1), H2 as (Hc2 & -> & H2). rewrite (proj2 (Z.eqb_neq c1 0)) by lia. cbn [negb andb].
    destruct (Z.eqb_spec c1 c2) as [->|Hne].
    + destruct (IH m (p1 + 1) (p2 + 1) s1 s2) as (r & Hr & Ho); [done|done|lia|]. exists r. split; [done|].
      by apply orders_cons.
    + eexists. split; [done|]. by apply orders_head.
Qed.

(** ** Copying strings *)

Lemma byte_store8_ne m a v x : a <> x -> byte_at (store8 m a v) x = byte_at m x.
Proof. intros H. rewrite byte_at_store8. by rewrite (proj2 (Z.eqb_neq a x)). Qed.

Lemma byte_store8_eq m a v : byte_at (store8 m a v) a = v.
Proof. by rewrite byte_at_store8, Z.eqb_refl. Qed.

Lemma strcpy_spec s : forall fuel m d p, cstring m p s -> (length s < fuel)%nat ->
  disjoint_blocks d p (zlen s + 1) ->
  exists m', strcpy fuel m d p = Some m' /\ copied m m' d p (zlen s + 1).
Proof.
  unfold zlen. induction s as [|c s IH]; intros fuel m d p Hs Hf Hd;
    (destruct fuel as [|n]; [simpl in *; lia|]); cbn [strcpy].
  - simpl in Hs. rewrite Hs. cbn. eexists. split; [done|]. pose proof (copied_one m d p) as H. by rewrite Hs in H.
  - destruct Hs as (Hc & Hb & Hs). cbn [length] in *.
    replace (Z.of_nat (S (length s)) + 1) with (1 + (Z.of_nat (length s) + 1)) in * by lia.
    rewrite Hb, (proj2 (Z.eqb_neq c 0)) by lia. cbn [negb].
    destruct (IH n (store8 m d c) (d + 1) (p + 1)) as (m' & Hm' & Hcp).
    + eapply cstring_frame; [|exact Hs]. intros x Hx. apply byte_store8_ne.
      unfold zlen, disjoint_blocks in *. lia.
    + lia.
    + apply disjoint_sub; [lia|lia|done].
    + exists m'. split; [done|]. eapply copied_trans; [lia|lia|done| |exact Hcp].
      pose proof (copied_one m d p) as H. by rewrite Hb in H.
Qed.

(** A copied string is a string. *)
Lemma copied_cstring m m' d p s : copied m m' d p (zlen s + 1) -> cstring m p s -> cstring m' d s.
Proof.
  intros Hc Hs. assert (Hb : forall i, 0 <= i <= zlen s -> byte_at m' (d + i) = byte_at m (p + i)).
  { intros i Hi. rewrite Hc, (proj2 (Z.leb_le d _)), (proj2 (Z.ltb_lt (d + i) _)) by lia. cbn [andb]. f_equal. lia. }
  clear Hc. revert d p Hs Hb. unfold zlen. induction s as [|c s IH]; intros d p Hs Hb; cbn [cstring length] in *.
  - specialize (Hb 0 ltac:(lia)). by rewrite !Z.add_0_r, Hs in Hb.
  - destruct Hs as (Hc & Hp & Hs). split; [done|]. split.
    + specialize (Hb 0 ltac:(lia)). by rewrite !Z.add_0_r, Hp in Hb.
    + apply (IH _ (p + 1)); [done|]. intros i Hi. rewrite <- !Z.add_assoc. apply Hb. lia.
Qed.

Lemma find_end_spec s : forall fuel m p, cstring m p s -> (length s < fuel)%nat -> find_end fuel m p = Some (p + zlen s).
Proof.
  unfold zlen. induction s as [|c s IH]; intros fuel m p Hs Hf; (destruct fuel as [|n]; [simpl in *; lia|]); cbn [find_end].
  - simpl in Hs. rewrite Hs. simpl. f_equal. lia.
  - destruct Hs as (Hc & Hb & Hs). rewrite Hb, (proj2 (Z.eqb_neq c 0)) by lia. cbn [negb].
    rewrite IH; [f_equal; simpl; lia|done|simpl in Hf; lia].
Qed.

Lemma cstring_app m t s : forall p, (forall i c, t !! i = Some c -> 0 < c < 256 /\ byte_at m (p + Z.of_nat i) = c) ->
  cstring m (p + zlen t) s -> cstring m p (t ++ s).
Proof.
  unfold zlen. induction t as [|c t IH]; intros p Ht Hs; cbn [app cstring length] in *; [by rewrite Z.add_0_r in Hs|].
  destruct (Ht 0%nat c eq_refl) as [Hc Hb]. rewrite Z.add_0_r in Hb. split; [done|]. split; [done|]. apply IH.
  - intros i c' Hi. destruct (Ht (S i) c' Hi) as [? Hb']. split; [done|]. rewrite <- Hb'. f_equal. lia.
  - replace (p + 1 + Z.of_nat (length t)) with (p + Z.of_nat (S (length t))) by lia. done.
Qed.

Lemma cstring_lookup m s : forall p i c, cstring m p s -> s !! i = Some c -> 0 < c < 256 /\ byte_at m (p + Z.of_nat i) = c.
Proof.
  induction s as [|c' s IH]; intros p i c Hs Hi; [done|]. destruct Hs as (Hc & Hb & Hs). destruct i as [|i].
  - injection Hi as <-. by rewrite Z.add_0_r.
  - destruct (IH (p + 1) i c Hs Hi) as [? Hb']. split; [done|]. rewrite <- Hb'. f_equal. lia.
Qed.

Lemma strcat_spec fuel m d p t s : cstring m d t -> cstring m p s -> (length t < fuel)%nat -> (length s < fuel)%nat ->
  disjoint_blocks (d + zlen t) p (zlen s + 1) ->
  exists m', strcat fuel m d p = Some m' /\ copied m m' (d + zlen t) p (zlen s + 1) /\ cstring m' d (t ++ s).
Proof.
  intros Ht Hs Hft Hfs Hd. unfold strcat. rewrite (find_end_spec t) by done.
  destruct (strcpy_spec s fuel m (d + zlen t) p Hs Hfs Hd) as (m' & Hm' & Hc). exists m'. do 2 (split; [done|]).
  apply cstring_app; [|by eapply copied_cstring]. intros i c Hi. destruct (cstring_lookup _ _ _ _ _ Ht Hi) as [? <-].
  split; [done|]. rewrite Hc. apply lookup_lt_Some in Hi. unfold zlen.
  by rewrite (proj2 (Z.leb_gt (d + Z.of_nat (length t)) _)) by lia.
Qed.

Lemma zero_fill_spec n : forall m p, filled m (zero_fill n m p) p (Z.of_nat n) 0.
Proof.
  induction n as [|n IH]; intros m p; cbn [zero_fill]; [apply filled_nil|].
  replace (Z.of_nat (S n)) with (1 + Z.of_nat n) by lia.
  apply (filled_trans _ (store8 m p 0)); [lia|lia|apply filled_one|apply IH].
Qed.

(** [strncpy] writes exactly [n] bytes: the string, cut or padded with zeros. *)
Lemma strncpy_spec n : forall m d p s, cstring m p s -> d + Z.of_nat n <= p \/ p + zlen s < d ->
  forall x, byte_at (strncpy n m d p) x =
    if (d <=? x) && (x <? d + Z.of_nat n) then rd s (x - d) else byte_at m x.
Proof.
  induction n as [|n IH]; intros m d p s Hs Hd x; cbn [strncpy].
  { destruct (Z.leb_spec d x), (Z.ltb_spec x (d + Z.of_nat 0)); cbn [andb]; (done || lia). }
  destruct s as [|c s]; cbn [cstring] in Hs.
  - rewrite Hs. cbn [Z.eqb negb]. rewrite zero_fill_spec. destruct (_ && _); [|done].
    unfold rd. destruct (0 <=? _); [|done]. by rewrite lookup_nil.
  - destruct Hs as (Hc & Hb & Hs). rewrite Hb, (proj2 (Z.eqb_neq c 0)) by lia. cbn [negb].
    unfold zlen in *. cbn [length] in *. rewrite (IH _ _ _ s); [| |unfold zlen; lia].
    2: { eapply cstring_frame; [|exact Hs]. intros y Hy. apply byte_store8_ne. unfold zlen in Hy. lia. }
    rewrite byte_at_store8. unfold rd.
    destruct (Z.leb_spec (d + 1) x), (Z.ltb_spec x (d + 1 + Z.of_nat n)), (Z.leb_spec d x),
      (Z.ltb_spec x (d + Z.of_nat (S n))), (Z.eqb_spec d x); cbn [andb]; try lia; try done.
    + rewrite (proj2 (Z.leb_le 0 _)), (proj2 (Z.leb_le 0 (x - d))) by lia.
      replace (Z.to_nat (x - d)) with (S (Z.to_nat (x - (d + 1)))) by lia. done.
    + subst. by rewrite Z.sub_diag.
Qed.

Lemma strncat_loop_spec n : forall m d p s, cstring m p s ->
  d + Z.of_nat n < p \/ p + zlen s < d ->
  cstring (strncat_loop n m d p) d (take n s) /\ forall x, x < d -> byte_at (strncat_loop n m d p) x = byte_at m x.
Proof.
  induction n as [|n IH]; intros m d p s Hs Hd; cbn [strncat_loop].
  { rewrite take_0. split; [apply byte_store8_eq|]. intros x Hx. apply byte_store8_ne. lia. }
  destruct s as [|c s]; cbn [cstring] in Hs.
  - rewrite Hs. cbn. split; [apply byte_store8_eq|]. intros x Hx. apply byte_store8_ne. lia.
  - destruct Hs as (Hc & Hb & Hs). rewrite Hb, (proj2 (Z.eqb_neq c 0)) by lia. cbn [negb take].
    unfold zlen in *. cbn [length] in *. destruct (IH (store8 m d c) (d + 1) (p + 1) s) as [H1 H2].
    + eapply cstring_frame; [|exact Hs]. intros y Hy. apply byte_store8_ne. unfold zlen in Hy. lia.
    + lia.
    + split; [|intros x Hx; rewrite H2, byte_store8_ne by lia; done].
      cbn [cstring]. split; [done|]. split; [by rewrite H2, byte_store8_eq by lia|done].
Qed.

Lemma strncat_spec fuel m d p t s n : cstring m d t -> cstring m p s -> (length t < fuel)%nat ->
  d + zlen t + Z.of_nat n < p \/ p + zlen s < d + zlen t ->
  exists m', strncat fuel m d p n = Some m' /\ cstring m' d (t ++ take n s).
Proof.
  intros Ht Hs Hf Hd. unfold strncat. rewrite (find_end_spec t) by done. eexists. split; [done|].
  destruct (strncat_loop_spec n m (d + zlen t) p s Hs Hd) as [H1 H2]. apply cstring_app; [|done].
  intros i c Hi. destruct (cstring_lookup _ _ _ _ _ Ht Hi) as [? <-]. split; [done|]. apply H2.
  apply lookup_lt_Some in Hi. unfold zlen. lia.
Qed.

(** ** Comparing *)

Lemma memcmp_spec n : forall m p1 p2,
  memcmp n m p1 p2 = 0 <-> forall i, 0 <= i < Z.of_nat n -> byte_at m (p1 + i) = byte_at m (p2 + i).
Proof.
  induction n as [|n IH]; intros m p1 p2; cbn [memcmp]; [split; [lia|done]|].
  destruct (Z.eqb_spec (byte_at m p1) (byte_at m p2)) as [He|Hne]; cbn [negb].
  - rewrite IH. split; intros H i Hi.
    + destruct (Z.eq_dec i 0) as [->|]; [by rewrite !Z.add_0_r|]. specialize (H (i - 1) ltac:(lia)).
      replace (p1 + i) with (p1 + 1 + (i - 1)) by lia. replace (p2 + i) with (p2 + 1 + (i - 1)) by lia. done.
    + specialize (H (1 + i) ltac:(lia)). by rewrite <- !Z.add_assoc.
  - split; [lia|]. intros H. specialize (H 0 ltac:(lia)). rewrite !Z.add_0_r in H. done.
Qed.

Lemma strncmp_spec n : forall m p1 p2 s1 s2, cstring m p1 s1 -> cstring m p2 s2 ->
  orders (strncmp n m p1 p2) (take n s1) (take n s2).
Proof.
  induction n as [|n IH]; intros m p1 p2 s1 s2 H1 H2; cbn [strncmp].
  { rewrite !take_0. split; [done|]. split; [lia|inversion 1]. }
  destruct s1 as [|c1 s1], s2 as [|c2 s2]; cbn [cstring take] in *.
  - rewrite H1, H2. cbn [Z.eqb negb andb]. split; [done|]. split; [lia|inversion 1].
  - destruct H2 as (Hc & H2 & _). rewrite H1, H2. cbn [Z.eqb negb andb]. split; [split; [lia|done]|]. split; [constructor|lia].
  - destruct H1 as (Hc & H1 & _). rewrite H1, H2, (proj2 (Z.eqb_neq c1 0)) by lia. cbn [negb andb].
    split; [split; [lia|done]|]. split; [lia|inversion 1].
  - destruct H1 as (Hc1 & -> & H1), H2 as (Hc2 & -> & H2). rewrite (proj2 (Z.eqb_neq c1 0)) by lia. cbn [negb andb].
    destruct (Z.eqb_spec c1 c2) as [->|Hne]; [by apply orders_cons, IH|by apply orders_head].
Qed.

Lemma tolower_pos c : 0 < c < 256 -> 0 < tolower_char c.
Proof. unfold tolower_char. destruct (_ && _); lia. Qed.

Lemma strcasecmp_spec fuel : forall m p1 p2 s1 s2, cstring m p1 s1 -> cstring m p2 s2 -> (length s1 < fuel)%nat ->
  exists r, strcasecmp fuel m p1 p2 = Some r /\ (r = 0 <-> map tolower_char s1 = map tolower_char s2).
Proof.
  induction fuel as [|n IH]; intros m p1 p2 s1 s2 H1 H2 Hf; [lia|]. cbn [strcasecmp].
  destruct s1 as [|c1 s1], s2 as [|c2 s2]; cbn [cstring length map] in *.
  - rewrite H1, H2. by eexists.
  - destruct H2 as (Hc & H2 & _). rewrite H1, H2. eexists. split; [done|]. split; [lia|done].
  - destruct H1 as (Hc & H1 & _). rewrite H1, H2, (proj2 (Z.eqb_neq c1 0)) by lia. cbn.
    eexists. split; [done|]. split; [lia|done].
  - destruct H1 as (Hc1 & -> & H1), H2 as (Hc2 & -> & H2).
    rewrite (proj2 (Z.eqb_neq c1 0)), (proj2 (Z.eqb_neq c2 0)) by lia. cbn [negb andb].
    destruct (Z.eqb_spec (tolower_char c1) (tolower_char c2)) as [->|Hne]; cbn [negb].
    + destruct (IH m (p1 + 1) (p2 + 1) s1 s2) as (r & Hr & Ho); [done|done|lia|]. exists r. split; [done|].
      rewrite Ho. split; [by intros ->|by intros [= ->]].
    + eexists. split; [done|]. split; [lia|]. by intros [= ? _].
Qed.

(** ** Scanning *)

Lemma strrchr_from_spec s : forall fuel m p c last, cstring m p s -> (length s < fuel)%nat -> 0 < c < 256 ->
  exists r, strrchr_from fuel m p c last = Some r /\
    ((r = last /\ c ∉ s) \/
     exists i, r = p + Z.of_nat i /\ s !! i = Some c /\ forall j, (i < j)%nat -> s !! j <> Some c).
Proof.
  induction s as [|b s IH]; intros fuel m p c last Hs Hf Hc; (destruct fuel as [|n]; [simpl in *; lia|]);
    cbn [strrchr_from cstring length] in *; rewrite (u8_small c) by lia.
  - rewrite Hs, (proj2 (Z.eqb_neq 0 c)) by lia. cbn. eexists. split; [done|]. left. split; [done|set_solver].
  - destruct Hs as (Hb & -> & Hs). rewrite (proj2 (Z.eqb_neq b 0)) by lia. cbn [negb].
    destruct (IH n m (p + 1) c (if b =? c then p else last)) as (r & Hr & Hcase); [done|lia|done|].
    exists r. split; [done|]. destruct Hcase as [[-> Hn]|(i & -> & Hi & Hj)].
    + destruct (Z.eqb_spec b c) as [->|Hne]; [right|left; split; [done|set_solver]].
      exists 0%nat. split; [lia|]. split; [done|]. intros [|j] Hj; [lia|]. simpl. intros H%list_elem_of_lookup_2. done.
    + right. exists (S i). split; [lia|]. split; [done|]. intros [|j] Hlt; [lia|]. apply Hj. lia.
Qed.

(** The value of a string of decimal digits. *)
Definition decimal (s : list Z) : Z := fold_left (fun v c => v * 10 + (c - 48)) s 0.
Definition is_digit (c : Z) : Prop := 48 <= c <= 57.

(** [atoui] reads the longest prefix of digits, modulo 2^32. *)
Lemma atoui_from_spec ds : forall fuel m p v rest, Forall is_digit ds ->
  (match rest with [] => True | c :: _ => ~ is_digit c end) -> cstring m p (ds ++ rest) -> (length ds < fuel)%nat ->
  atoui_from fuel m p (u32 v) = Some (u32 (fold_left (fun v c => v * 10 + (c - 48)) ds v)).
Proof.
  induction ds as [|d ds IH]; intros fuel m p v rest Hd Hr Hs Hf; (destruct fuel as [|n]; [simpl in *; lia|]);
    cbn [atoui_from app fold_left length] in *.
  - replace ((byte_at m p >=? 48) && (byte_at m p <=? 57)) with false; [done|]. symmetry.
    apply andb_false_iff. rewrite Z.geb_leb, !Z.leb_gt. destruct rest as [|c rest]; cbn [cstring] in Hs; [lia|].
    destruct Hs as (_ & -> & _). unfold is_digit in Hr. lia.
  - apply Forall_cons in Hd as [Hd Hds]. destruct Hs as (Hc & -> & Hs). unfold is_digit in Hd.
    rewrite Z.geb_leb, (proj2 (Z.leb_le 48 d)), (proj2 (Z.leb_le d 57)) by lia. cbn [andb].
    replace (u32 (u32 v * 10 + (d - 48))) with (u32 (v * 10 + (d - 48))); [by apply (IH _ _ _ _ rest); [| | |lia]|].
    unfold u32. by rewrite <- (Z.add_mod_idemp_l (v mod 2 ^ 32 * 10)), Z.mul_mod_idemp_l, Z.add_mod_idemp_l by lia.
Qed.

(** ** The properties *)

(** [memset] and [memcpy], which align their pointers and then move eight
    bytes at a time, change memory exactly like the loops that move one byte at a
    time: every count, every alignment, and for [memcpy] all blocks that do not
    overlap. *)
Theorem mem_routines_bytewise (m : mem) d s c n :
  bytes_ok m -> disjoint_blocks d s (Z.of_nat n) ->
  (forall x, byte_at (memset m d c n) x = byte_at (memset_bytes n m d (u8 c)) x) /\
  (forall x, byte_at (memcpy m d s n) x = byte_at (copy_bytes n m d s) x) /\
  (forall i, 0 <= i < Z.of_nat n -> byte_at (memcpy m d s n) (d + i) = byte_at m (s + i)).
Proof.
  intros Hb Hd. pose proof (memcpy_spec m d s n Hb Hd) as Hc. split; [|split].
  - intros x. by rewrite (memset_spec m d c n x), (memset_bytes_spec n m d (u8 c) x).
  - intros x. by rewrite (Hc x), (copy_bytes_spec n m d s Hd x).
  - intros i Hi. rewrite (Hc (d + i)), (proj2 (Z.leb_le d _)), (proj2 (Z.ltb_lt _ (d + _))) by lia. cbn [andb].
    f_equal. lia.
Qed.

(** Memory with a string of bytes written at [p]. *)
Fixpoint put (m : mem) (p : Z) (l : list Z) : mem :=
  match l with
  | [] => m
  | c :: l' => put (store8 m p c) (p + 1) l'
  end.

Definition demo_mem : mem := put (put ∅ 100 [104; 101; 108; 108; 111; 0]) 203 [119; 111; 0].

Lemma demo_mem_bytes : bytes_ok demo_mem.
Proof.
  assert (Hp : forall l m p, Forall is_byte l -> bytes_ok m -> bytes_ok (put m p l)).
  { induction l as [|c l IH]; intros m p Hl Hm; cbn [put]; [done|]. apply Forall_cons in Hl as [Hc Hl].
    apply IH; [done|]. intros a. rewrite byte_at_store8. destruct (p =? a); [done|apply Hm]. }
  apply Hp; [repeat constructor; unfold is_byte; lia|]. apply Hp; [repeat constructor; unfold is_byte; lia|].
  intros a. unfold byte_at. rewrite lookup_empty. unfold is_byte. simpl. lia.
Qed.

Lemma mem_routines_bytewise_witness : byte_at (memcpy demo_mem 307 99 20) 308 = byte_at demo_mem 100.
Proof.
  apply (mem_routines_bytewise demo_mem 307 99 0 20 demo_mem_bytes) with (i := 1); [|lia].
  right. simpl. lia.
Defined.

(** On stored strings of any length: [strlen] is the length, [strcmp] is zero
    exactly on equal strings and negative exactly when the first is smaller in
    lexicographic order, [strcpy] and [strcat] leave the copy and the concatenation
    behind and change no byte outside their result; given enough fuel for the
    lengths they all terminate. *)
Theorem string_routines_correct (m : mem) fuel p1 p2 d s1 s2 t :
  cstring m p1 s1 -> cstring m p2 s2 -> cstring m d t ->
  (length s1 < fuel)%nat -> (length t < fuel)%nat -> disjoint_blocks (d + zlen t) p1 (zlen s1 + 1) ->
  strlen fuel m p1 = Some (zlen s1) /\
  (exists r, strcmp fuel m p1 p2 = Some r /\ (r = 0 <-> s1 = s2) /\ (r < 0 <-> lex_lt s1 s2)) /\
  (exists m', strcat fuel m d p1 = Some m' /\ cstring m' d (t ++ s1) /\
     forall x, ~ (d + zlen t <= x <= d + zlen t + zlen s1) -> byte_at m' x = byte_at m x).
Proof.
  intros H1 H2 Ht Hf Hft Hd. split; [by apply strlen_spec|]. split; [by apply strcmp_spec|].
  destruct (strcat_spec fuel m d p1 t s1 Ht H1 Hft Hf Hd) as (m' & Hm' & Hc & Hs). exists m'. do 2 (split; [done|]).
  intros x Hx. rewrite Hc. destruct (Z.leb_spec (d + zlen t) x), (Z.ltb_spec x (d + zlen t + (zlen s1 + 1)));
    cbn [andb]; (done || lia).
Qed.

Lemma string_routines_correct_witness :
  exists m', strcat 9 demo_mem 100 203 = Some m' /\ cstring m' 100 [104; 101; 108; 108; 111; 119; 111].
Proof.
  destruct (string_routines_correct demo_mem 9 203 100 100 [119; 111] [104; 101; 108; 108; 111] [104; 101; 108; 108; 111])
    as (_ & _ & m' & H1 & H2 & _).
  - vm_compute. repeat split; congruence.
  - vm_compute. repeat split; congruence.
  - vm_compute. repeat split; congruence.
  - simpl. lia.
  - simpl. lia.
  - left. unfold zlen. simpl. lia.
  - exists m'. split; [exact H1|exact H2].
Defined.
