(* ===== verification/UserRange.v ===== *)
(** * Validation of user address ranges

    Models [vmm_is_user_addr_range_valid] of [kernel/src/mm/vmm.c], the check system
    calls make before they touch memory of the caller: every page of the range must
    lie in a region of the address space, or just below a stack region. *)

From S2P Require Import Prelude ObjAlloc Vma VmaTree VmaSpec VmaThms.

Definition USER_SPACE_LIMIT : Z := 0x00007FFFFFFFFFFF.
Definition PROT_NONE : Z := 0.

(** The region an access to [page] is charged to. *)
Definition range_region (vmas : vma_list) (page : Z) : option (Z * vma_data) :=
  match vma_find vmas page with
  | Some v => Some v
  | None => vma_find_growdown vmas page (8 * 1024 * 1024)
  end.

Fixpoint range_loop (fuel : nat) (vmas : vma_list) (page end_page : Z) : option bool :=
  if page <? end_page then
    match fuel with
    | O => None
    | S n =>
        match range_region vmas page with
        | Some (_, v) => if v_prot v =? PROT_NONE then Some false else range_loop n vmas (u64 (page + 0x1000)) end_page
        | None => Some false
        end
    end
  else Some true.

(** [vmas] is [None] when there is no current thread. *)
Definition vmm_is_user_addr_range_valid (vmas : option vma_list) (addr size : Z) : option bool :=
  if (addr >? USER_SPACE_LIMIT) || (u64 (addr + size) >? 0x800000000000) then Some false
  else
    match vmas with
    | None => Some false
    | Some vmas =>
        let start_page := Z.land addr (u64 (Z.lnot 0xFFF)) in
        let end_page := Z.land (u64 (u64 (addr + size) + 0xFFF)) (u64 (Z.lnot 0xFFF)) in
        range_loop (Z.to_nat ((end_page - start_page) / 0x1000)) vmas start_page end_page
    end.

(** ** Meaning *)

(** The page may be accessed: it lies in a region with some access, or within the
    reach of one that grows downwards. *)
Definition page_usable (vmas : vma_list) (page : Z) : Prop :=
  exists v, v ∈ elems (root vmas) /\ v_prot v <> PROT_NONE /\
    (contains v page \/
     (Z.land (v_flags v) MAP_GROWSDOWN <> 0 /\ page < v_start v /\ u64 (v_end v - 8 * 1024 * 1024) <= page)).

Lemma growdown_sound (t : tree) cr2 lim a v : vma_find_growdown_recursive t cr2 lim = Some (a, v) ->
  v ∈ elems t /\ Z.land (v_flags v) MAP_GROWSDOWN <> 0 /\ cr2 < v_start v /\ u64 (v_end v - lim) <= cr2.
Proof.
  induction t as [|a' d me h l IHl r IHr]; cbn [vma_find_growdown_recursive elems]; [done|].
  destruct (_ && _) eqn:E.
  - intros [= -> ->]. b2p. split; [set_solver|]. done.
  - destruct (vma_find_growdown_recursive l cr2 lim) as [[a1 v1]|].
    + intros [= -> ->]. destruct (IHl eq_refl) as [? ?]. split; [set_solver|done].
    + intros H. destruct (IHr H) as [? ?]. split; [set_solver|done].
Qed.

Lemma range_region_sound vmas page a v : avl (root vmas) -> range_region vmas page = Some (a, v) ->
  v_prot v <> PROT_NONE -> page_usable vmas page.
Proof.
  intros Ha. unfold range_region, vma_find. pose proof (vma_find_spec (root vmas) page Ha) as Hf.
  destruct (vma_find_recursive (root vmas) page) as [[a1 v1]|].
  - intros [= -> ->] Hp. destruct Hf as (_ & Hin & Hc). exists v. split; [done|]. split; [done|]. by left.
  - intros Hg Hp. apply growdown_sound in Hg as (? & ? & ? & ?). exists v. split; [done|]. split; [done|]. by right.
Qed.

Lemma range_loop_spec n : forall vmas page, avl (root vmas) -> 0 <= page ->
  page + 0x1000 * Z.of_nat n < 2 ^ 63 ->
  exists b, range_loop n vmas page (page + 0x1000 * Z.of_nat n) = Some b /\
    (b = true -> forall i, 0 <= i < Z.of_nat n -> page_usable vmas (page + 0x1000 * i)).
Proof.
  induction n as [|n IH]; intros vmas page Ha Hp Hb; cbn [range_loop].
  - rewrite (proj2 (Z.ltb_ge page _)) by lia. exists true. split; [done|]. intros _ i Hi. lia.
  - rewrite (proj2 (Z.ltb_lt page _)) by lia.
    destruct (range_region vmas page) as [[a v]|] eqn:Hr; [|by exists false].
    destruct (Z.eqb_spec (v_prot v) PROT_NONE) as [|Hv]; [by exists false|].
    rewrite u64_small by lia. destruct (IH vmas (page + 0x1000)) as (b & He & Hs); [done|lia|lia|].
    replace (page + 0x1000 * Z.of_nat (S n)) with (page + 0x1000 + 0x1000 * Z.of_nat n) by lia.
    exists b. split; [exact He|]. intros Hbt i Hi. destruct (Z.eq_dec i 0) as [->|Hi0].
    + rewrite Z.mul_0_r, Z.add_0_r. by eapply range_region_sound.
    + replace (page + 0x1000 * i) with (page + 0x1000 + 0x1000 * (i - 1)) by lia. apply Hs; [done|lia].
Qed.

(** When the range does not wrap around the address space, the check
    terminates, and accepts only ranges below the user limit each page of which lies
    in a region that grants some access, or in the reach of a stack that grows
    downwards. *)
Theorem user_range_valid_correct {A} `{!ObjAlloc A} (vmas : vma_list) F (s : A) addr size :
  vma_wf vmas F s -> 0 <= addr -> 0 <= size -> addr + size < 2 ^ 64 ->
  exists b, vmm_is_user_addr_range_valid (Some vmas) addr size = Some b /\
    (b = true -> addr + size <= 2 ^ 47 /\
       forall x, addr <= x < addr + size -> page_usable vmas (x / 0x1000 * 0x1000)).
Proof.
  intros W Ha Hs Hno. unfold vmm_is_user_addr_range_valid. rewrite (u64_small (addr + size)) by lia.
  destruct (_ || _) eqn:Hg; [by exists false|]. b2p. unfold USER_SPACE_LIMIT in *.
  rewrite (u64_small (addr + size + 0xFFF)) by lia.
  change 0xFFF with (PAGE_SIZE - 1). rewrite !land_page_mask by (unfold PAGE_SIZE; lia).
  unfold PAGE_SIZE. change (4096 - 1) with 4095. set (p0 := addr / 4096). set (p1 := (addr + size + 4095) / 4096).
  assert (Hp0 : 0 <= p0) by (apply Z.div_pos; lia).
  assert (Hle : p0 <= p1) by (apply Z.div_le_mono; lia).
  assert (Hp1 : p1 <= 2 ^ 35 + 1) by (unfold p1; transitivity ((2 ^ 47 + 4095) / 4096); [apply Z.div_le_mono; lia|by vm_compute]).
  replace (p1 * 4096) with (p0 * 4096 + 0x1000 * Z.of_nat (Z.to_nat (p1 - p0))) by lia.
  replace (_ / 0x1000) with (p1 - p0) by (rewrite Z.add_simpl_l, Z.mul_comm, Z.div_mul by lia; lia).
  destruct (range_loop_spec (Z.to_nat (p1 - p0)) vmas (p0 * 4096)) as (b & He & Hok); [apply W|lia|lia|].
  exists b. split; [exact He|]. intros Hb. split; [lia|]. intros x Hx.
  assert (Hxp : p0 <= x / 4096) by (apply Z.div_le_mono; lia).
  assert (Hxq : x / 4096 < p1).
  { apply Z.lt_le_trans with (x / 4096 + 1); [lia|]. replace (x / 4096 + 1) with ((x + 1 * 4096) / 4096) by (apply Z.div_add; lia).
    apply Z.div_le_mono; lia. }
  replace (x / 4096 * 4096) with (p0 * 4096 + 0x1000 * (x / 4096 - p0)) by lia. apply Hok; [done|lia].
Qed.

Lemma user_range_valid_correct_witness :
  exists b, vmm_is_user_addr_range_valid (Some demo_space.1) 0x1800 0x2000 = Some b /\
    (b = true -> page_usable demo_space.1 0x3000).
Proof.
  destruct (user_range_valid_correct demo_space.1 ∅ demo_space.2 0x1800 0x2000 demo_space_wf) as (b & H1 & H2); [lia..|].
  exists b. split; [exact H1|]. intros Hb. apply (proj2 (H2 Hb) 0x3000). lia.
Defined.

(** A size so large that the end of the range wraps around to an address at or
    below its first page is accepted without looking at any region: the range
    starts at a valid address, so [read] and [write] go on with a count that no
    memory backs. *)
Theorem user_range_wraps (vmas : vma_list) addr size :
  0 <= addr <= USER_SPACE_LIMIT -> 0 <= size < 2 ^ 64 -> 2 ^ 64 <= addr + size ->
  addr + size - 2 ^ 64 <= addr / 0x1000 * 0x1000 ->
  vmm_is_user_addr_range_valid (Some vmas) addr size = Some true.
Proof.
  intros Ha Hs Hw Hlo. unfold vmm_is_user_addr_range_valid, USER_SPACE_LIMIT in *.
  pose proof (Z.mul_div_le addr 4096 ltac:(lia)).
  assert (Hu : u64 (addr + size) = addr + size - 2 ^ 64).
  { unfold u64. symmetry. apply (Z.mod_unique_pos _ _ 1); lia. }
  rewrite Hu. rewrite !Z.gtb_ltb, (proj2 (Z.ltb_ge 0x00007FFFFFFFFFFF addr)), (proj2 (Z.ltb_ge 0x800000000000 _)) by lia.
  cbn [orb]. rewrite (u64_small (_ + 0xFFF)) by lia.
  change 0xFFF with (PAGE_SIZE - 1). rewrite !land_page_mask by (unfold PAGE_SIZE; lia). unfold PAGE_SIZE.
  assert (Hle : (addr + size - 2 ^ 64 + (4096 - 1)) / 4096 <= addr / 4096).
  { apply Z.lt_succ_r. apply Z.div_lt_upper_bound; lia. }
  set (q := (addr + size - 2 ^ 64 + (4096 - 1)) / 4096) in *. set (p := addr / 4096) in *.
  destruct (Z.to_nat _); cbn [range_loop]; by rewrite (proj2 (Z.ltb_ge (p * 4096) (q * 4096))) by lia.
Qed.

Lemma user_range_wraps_witness : vmm_is_user_addr_range_valid (Some vma_list_init) 0x400000 (2 ^ 64 - 0x400000) = Some true.
Proof. apply user_range_wraps; unfold USER_SPACE_LIMIT; by vm_compute. Defined.
