(* ===== verification/Signal.v ===== *)
(** * Signals

    Models [kernel/src/syscalls/sys_signal.c].  User memory is the byte-addressed
    memory of the C library model; structures the kernel reads and writes there are
    sequences of 64-bit words at their offsets.  A handler that calls the
    non-returning [process_do_exit] yields [Exited]. *)

From S2P Require Import Prelude CString Vma UserRange.

Definition SIGKILL : Z := 9.
Definition SIGCHLD : Z := 17.
Definition SIGSTOP : Z := 19.
Definition SIGURG : Z := 23.
Definition SIGWINCH : Z := 28.
Definition SIG_DFL : Z := 0.
Definition SIG_IGN : Z := 1.
Definition SIG_BLOCK : Z := 0.
Definition SIG_UNBLOCK : Z := 1.
Definition SIG_SETMASK : Z := 2.
Definition SA_RESTORER : Z := 0x04000000.
Definition SA_NODEFER : Z := 0x40000000.

Record k_sigaction := KSigaction {
  sa_handler : Z;
  sa_flags : Z;
  sa_restorer : Z;
  sa_mask : Z;
}.

Record thread := Thread {
  t_tid : Z;
  t_pgid : Z;
  signal_handlers : list k_sigaction;
  pending_signals : Z;
  signal_mask : Z;
}.

Definition with_pending (t : thread) (p : Z) : thread :=
  Thread (t_tid t) (t_pgid t) (signal_handlers t) p (signal_mask t).
Definition with_mask (t : thread) (m : Z) : thread :=
  Thread (t_tid t) (t_pgid t) (signal_handlers t) (pending_signals t) m.
Definition with_handlers (t : thread) (h : list k_sigaction) : thread :=
  Thread (t_tid t) (t_pgid t) h (pending_signals t) (signal_mask t).

(** Interrupt frames and system call frames. *)
Record registers := Registers {
  r15 : Z; r14 : Z; r13 : Z; r12 : Z; r11 : Z; r10 : Z; r9 : Z; r8 : Z;
  rbp : Z; rdi : Z; rsi : Z; rdx : Z; rcx : Z; rbx : Z; rax : Z;
  int_no : Z; err_code : Z;
  rip : Z; cs : Z; rflags : Z; rsp : Z; ss : Z;
}.

Record syscall_regs := SyscallRegs {
  s_rdi : Z; s_rsi : Z; s_rdx : Z; s_r10 : Z; s_r8 : Z; s_r9 : Z; s_rax : Z;
  s_rbx : Z; s_rbp : Z; s_r12 : Z; s_r13 : Z; s_r14 : Z; s_r15 : Z;
  s_rip : Z; s_rflags : Z; s_rsp : Z;
}.

(** The registers in the order in which they lie in memory. *)
Definition regs_words (r : registers) : list Z :=
  [r15 r; r14 r; r13 r; r12 r; r11 r; r10 r; r9 r; r8 r; rbp r; rdi r; rsi r; rdx r; rcx r; rbx r; rax r;
   int_no r; err_code r; rip r; cs r; rflags r; rsp r; ss r].

(** Sequences of words in memory. *)
Fixpoint put_words (m : mem) (a : Z) (ws : list Z) : mem :=
  match ws with
  | [] => m
  | w :: ws' => put_words (store64 m a w) (a + 8) ws'
  end.
Definition word_at (m : mem) (a i : Z) : Z := load64 m (a + 8 * i).

(** [sizeof(struct sigframe)]: the registers and the mask. *)
Definition SIGFRAME_SIZE : Z := 184.
Definition SIGACTION_SIZE : Z := 32.

Inductive outcome (A : Type) :=
| Returned (a : A)
| Exited (status : Z).
Arguments Returned {A}.
Arguments Exited {A}.

Section Signals.
(** The address space of the current thread. *)
Context (vmas : vma_list).

Definition user_ok (addr size : Z) : bool :=
  match vmm_is_user_addr_range_valid (Some vmas) addr size with
  | Some b => b
  | None => false
  end.

Definition EINVAL : Z := u64 (-22).
Definition EFAULT : Z := u64 (-14).
Definition ESRCH : Z := u64 (-3).
Definition EPERM : Z := u64 (-1).

(** ** Actions and masks *)

Definition put_action (m : mem) (a : Z) (sa : k_sigaction) : mem :=
  put_words m a [sa_handler sa; sa_flags sa; sa_restorer sa; sa_mask sa].
Definition get_action (m : mem) (a : Z) : k_sigaction :=
  KSigaction (word_at m a 0) (word_at m a 1) (word_at m a 2) (word_at m a 3).
Definition no_action : k_sigaction := KSigaction 0 0 0 0.

(** Returns the result, the thread and the user memory; [None] is no current thread. *)
Definition sys_rt_sigaction (cur : option thread) (m : mem) (signum act_ptr oldact_ptr sigsetsize : Z)
    : Z * option thread * mem :=
  if (signum >? 64) || (signum <? 1) || negb (sigsetsize =? 8) then (EINVAL, cur, m)
  else
    match cur with
    | None => (EPERM, cur, m)
    | Some t =>
        let idx := Z.to_nat (signum - 1) in
        if negb (oldact_ptr =? 0) && negb (user_ok oldact_ptr SIGACTION_SIZE) then (EFAULT, cur, m)
        else
          let m :=
            if negb (oldact_ptr =? 0) then put_action m oldact_ptr (default no_action (signal_handlers t !! idx))
            else m in
          if negb (act_ptr =? 0) then
            if negb (user_ok act_ptr SIGACTION_SIZE) then (EFAULT, cur, m)
            else if (signum =? SIGKILL) || (signum =? SIGSTOP) then (EINVAL, cur, m)
            else (0, Some (with_handlers t (<[idx := get_action m act_ptr]> (signal_handlers t))), m)
          else (0, cur, m)
    end.

Definition unmaskable : Z := Z.lor (Z.shiftl 1 (SIGKILL - 1)) (Z.shiftl 1 (SIGSTOP - 1)).

Definition sys_rt_sigprocmask (cur : option thread) (m : mem) (how set_ptr oldset_ptr sigsetsize : Z)
    : Z * option thread * mem :=
  if negb (sigsetsize =? 8) then (EINVAL, cur, m)
  else
    match cur with
    | None => (EPERM, cur, m)
    | Some t =>
        if negb (oldset_ptr =? 0) && negb (user_ok oldset_ptr 8) then (EFAULT, cur, m)
        else
          let m := if negb (oldset_ptr =? 0) then store64 m oldset_ptr (signal_mask t) else m in
          if negb (set_ptr =? 0) then
            if negb (user_ok set_ptr 8) then (EFAULT, cur, m)
            else
              let newset := Z.land (load64 m set_ptr) (u64 (Z.lnot unmaskable)) in
              if how =? SIG_BLOCK then (0, Some (with_mask t (Z.lor (signal_mask t) newset)), m)
              else if how =? SIG_UNBLOCK then (0, Some (with_mask t (Z.land (signal_mask t) (u64 (Z.lnot newset)))), m)
              else if how =? SIG_SETMASK then (0, Some (with_mask t newset), m)
              else (EINVAL, cur, m)
          else (0, cur, m)
    end.

Definition sys_sigprocmask (cur : option thread) (m : mem) (how set_ptr oldset_ptr : Z) : Z * option thread * mem :=
  sys_rt_sigprocmask cur m how set_ptr oldset_ptr 8.

(** ** Return from a handler *)

(** The result in [rax] is also the system call's. *)
Definition sys_rt_sigreturn (t : thread) (sregs : syscall_regs) (m : mem) : outcome (thread * syscall_regs) :=
  let frame := s_rsp sregs in
  if negb (user_ok frame SIGFRAME_SIZE) then Exited 11
  else
    let w := word_at m frame in
    Returned (with_mask t (w 22),
      SyscallRegs (w 9) (w 10) (w 11) (w 5) (w 7) (w 6) (w 14) (w 13) (w 8) (w 3) (w 2) (w 1) (w 0)
        (w 17) (w 19) (w 20)).

(** ** Delivery *)

(** First set bit below 64, as a signal number; 0 if there is none. *)
Fixpoint first_signal (n : nat) (pending i : Z) : Z :=
  match n with
  | O => 0
  | S n' => if negb (Z.land pending (Z.shiftl 1 i) =? 0) then i + 1 else first_signal n' pending (i + 1)
  end.

(** The frame for a handler, and the state in which it starts. *)
Definition enter_handler (t : thread) (regs : registers) (m : mem) (sig : Z) (sa : k_sigaction)
    : outcome (thread * registers * mem) :=
  let rsp0 := Z.land (u64 (rsp regs - SIGFRAME_SIZE)) (u64 (Z.lnot 0xF)) in
  if negb (user_ok rsp0 SIGFRAME_SIZE) then Exited 11
  else
    let m := put_words m rsp0 (regs_words regs ++ [signal_mask t]) in
    let rsp1 := u64 (rsp0 - 8) in
    if negb (user_ok rsp1 8) then Exited 11
    else
      let m := if negb (Z.land (sa_flags sa) SA_RESTORER =? 0) then store64 m rsp1 (sa_restorer sa) else m in
      let regs := Registers (r15 regs) (r14 regs) (r13 regs) (r12 regs) (r11 regs) (r10 regs) (r9 regs) (r8 regs)
        (rbp regs) sig (rsi regs) (rdx regs) (rcx regs) (rbx regs) (rax regs) (int_no regs) (err_code regs)
        (sa_handler sa) (cs regs) (rflags regs) rsp1 (ss regs) in
      let t :=
        if Z.land (sa_flags sa) SA_NODEFER =? 0
        then with_mask t (Z.lor (signal_mask t) (Z.lor (sa_mask sa) (Z.shiftl 1 (sig - 1)))) else t in
      Returned (t, regs, m).

Definition signal_deliver (cur : option thread) (regs : registers) (m : mem)
    : outcome (option thread * registers * mem) :=
  match cur with
  | None => Returned (cur, regs, m)
  | Some t =>
      let pending := Z.land (pending_signals t) (u64 (Z.lnot (signal_mask t))) in
      if pending =? 0 then Returned (cur, regs, m)
      else
        let sig := first_signal 64 pending 0 in
        if sig =? 0 then Returned (cur, regs, m)
        else
          let t := with_pending t (Z.land (pending_signals t) (u64 (Z.lnot (Z.shiftl 1 (sig - 1))))) in
          let sa := default no_action (signal_handlers t !! Z.to_nat (sig - 1)) in
          if sa_handler sa =? SIG_IGN then Returned (Some t, regs, m)
          else if sa_handler sa =? SIG_DFL then
            if (sig =? SIGCHLD) || (sig =? SIGURG) || (sig =? SIGWINCH) then Returned (Some t, regs, m)
            else Exited (128 + sig)
          else
            match enter_handler t regs m sig sa with
            | Exited st => Exited st
            | Returned (t, regs, m) => Returned (Some t, regs, m)
            end
  end.

Definition signal_deliver_syscall (cur : option thread) (s : syscall_regs) (m : mem)
    : outcome (option thread * syscall_regs * mem) :=
  let regs := Registers (s_r15 s) (s_r14 s) (s_r13 s) (s_r12 s) 0 (s_r10 s) (s_r9 s) (s_r8 s) (s_rbp s) (s_rdi s)
    (s_rsi s) (s_rdx s) 0 (s_rbx s) (s_rax s) 0 0 (s_rip s) 0x2B (s_rflags s) (s_rsp s) 0x23 in
  match signal_deliver cur regs m with
  | Exited st => Exited st
  | Returned (cur, r, m) =>
      Returned (cur, SyscallRegs (rdi r) (rsi r) (rdx r) (r10 r) (r8 r) (r9 r) (rax r) (rbx r) (rbp r) (r12 r)
        (r13 r) (r14 r) (r15 r) (rip r) (rflags r) (rsp r), m)
  end.

(** ** Sending *)

Definition sys_tgkill (sig : Z) : Z := if sig >? 64 then EINVAL else 0.

(** [old_ss_ptr] and [ss_ptr] are accessed without validation. *)
Definition sys_sigaltstack (m : mem) (ss_ptr old_ss_ptr : Z) : Z * mem :=
  let m :=
    if negb (old_ss_ptr =? 0) then
      let m := store64 m old_ss_ptr 0 in
      let m := for_n 4 0 (fun i m => store8 m (old_ss_ptr + 8 + i) (word_byte 2 i)) m in
      store64 m (old_ss_ptr + 16) 0
    else m in
  if negb (ss_ptr =? 0) then
    if negb (Z.land (byte_at m (ss_ptr + 8)) 2 =? 0) then (0, m)
    else if load64 m (ss_ptr + 16) <? 8192 then (EINVAL, m) else (0, m)
  else (0, m).

Definition send_signal (t : thread) (sig : Z) : thread :=
  with_pending t (Z.lor (pending_signals t) (Z.shiftl 1 (sig - 1))).

Definition signal_send_pgid (threads : list thread) (pgid sig : Z) : list thread :=
  if (sig <=? 0) || (sig >? 64) then threads
  else map (fun t => if t_pgid t =? pgid then send_signal t sig else t) threads.

(** The first thread with the given identifier. *)
Fixpoint send_tid (threads : list thread) (tid sig : Z) : list thread :=
  match threads with
  | [] => []
  | t :: rest => if t_tid t =? tid then send_signal t sig :: rest else t :: send_tid rest tid sig
  end.

(** [cur_pgid] is the process group of the caller. *)
Definition sys_kill (threads : list thread) (cur_pgid pid_val sig : Z) : Z * list thread :=
  let pid := s32 pid_val in
  if sig >? 64 then (EINVAL, threads)
  else if sig =? 0 then
    if (pid =? 0) || (pid =? -1) then (0, threads)
    else if existsb (fun t => t_tid t =? u32 (if pid >? 0 then pid else - pid)) threads then (0, threads)
    else (ESRCH, threads)
  else if pid =? 0 then (0, signal_send_pgid threads cur_pgid sig)
  else if pid =? -1 then (0, threads)
  else if pid <? -1 then (0, signal_send_pgid threads (u32 (- pid)) sig)
  else (0, send_tid threads (u32 pid) sig).
End Signals.
