(* ===== verification/SignalThms.v ===== *)
(** * Theorems about signals *)

From S2P Require Import Prelude CString CStringThms Vma VmaTree ObjAlloc VmaSpec VmaThms UserRange Bitmap Signal.

(** ** Words in memory *)

Lemma put_words_bytes ws : forall m a, bytes_ok m -> bytes_ok (put_words m a ws).
Proof. induction ws as [|w ws IH]; intros m a Hb; [done|]. by apply IH, bytes_ok_store64. Qed.

Lemma put_words_below ws : forall m a x, x < a -> byte_at (put_words m a ws) x = byte_at m x.
Proof.
  induction ws as [|w ws IH]; intros m a x Hx; [done|]. cbn [put_words]. rewrite IH, byte_at_store64 by lia.
  by rewrite (proj2 (Z.leb_gt a x)) by lia.
Qed.

Lemma put_words_at ws : forall m a i w, bytes_ok m -> ws !! i = Some w -> 0 <= w < 2 ^ 64 ->
  word_at (put_words m a ws) a (Z.of_nat i) = w.
Proof.
  unfold word_at. induction ws as [|w0 ws IH]; intros m a i w Hb Hi Hw; [done|]. cbn [put_words]. destruct i as [|i].
  - injection Hi as ->. rewrite Z.mul_0_r, Z.add_0_r.
    rewrite (load64_frame (store64 m a w)); [by apply load64_store64|by apply bytes_ok_store64| |].
    + by apply put_words_bytes, bytes_ok_store64.
    + intros x Hx. apply put_words_below. lia.
  - replace (a + 8 * Z.of_nat (S i)) with (a + 8 + 8 * Z.of_nat i) by lia.
    apply IH; [by apply bytes_ok_store64|done|done].
Qed.

(** ** Choosing a signal *)

Lemma land_bit x i : 0 <= i -> negb (Z.land x (Z.shiftl 1 i) =? 0) = Z.testbit x i.
Proof.
  intros Hi. destruct (Z.testbit x i) eqn:Ht.
  - apply negb_true_iff, Z.eqb_neq. intros H0. apply (f_equal (fun y => Z.testbit y i)) in H0.
    by rewrite Z.land_spec, Ht, shiftl1_testbit, Z.eqb_refl, Z.bits_0 in H0 by lia.
  - apply negb_false_iff, Z.eqb_eq, Z.bits_inj'. intros n Hn.
    rewrite Z.land_spec, shiftl1_testbit, Z.bits_0 by lia. destruct (Z.eqb_spec n i) as [->|]; [by rewrite Ht|].
    apply andb_false_r.
Qed.

Lemma first_signal_spec n : forall p i, 0 <= i ->
  let r := first_signal n p i in
  (r = 0 /\ forall j, i <= j < i + Z.of_nat n -> Z.testbit p j = false) \/
  (i < r <= i + Z.of_nat n /\ Z.testbit p (r - 1) = true /\ forall j, i <= j < r - 1 -> Z.testbit p j = false).
Proof.
  induction n as [|n IH]; intros p i Hi; cbn [first_signal]; [left; split; [done|lia]|].
  rewrite land_bit by lia. destruct (Z.testbit p i) eqn:Ht.
  - right. split; [lia|]. replace (i + 1 - 1) with i by lia. split; [done|lia].
  - destruct (IH p (i + 1) ltac:(lia)) as [[-> H]|(H1 & H2 & H3)]; [left; split; [done|]|right; split; [lia|]; split; [done|]];
      intros j Hj; (destruct (Z.eq_dec j i) as [->|]; [done|]); [apply H|apply H3]; lia.
Qed.

Lemma testbit_u64_lnot x i : 0 <= i < 64 -> Z.testbit (u64 (Z.lnot x)) i = negb (Z.testbit x i).
Proof. intros Hi. unfold u64. rewrite Z.mod_pow2_bits_low, Z.lnot_spec by lia. done. Qed.

Lemma deliverable_bit t i : 0 <= i < 64 ->
  Z.testbit (Z.land (pending_signals t) (u64 (Z.lnot (signal_mask t)))) i =
    Z.testbit (pending_signals t) i && negb (Z.testbit (signal_mask t) i).
Proof. intros Hi. by rewrite Z.land_spec, testbit_u64_lnot. Qed.

(** Some signal is pending and not masked. *)
Definition deliverable (t : thread) (sig : Z) : Prop :=
  1 <= sig <= 64 /\ Z.testbit (pending_signals t) (sig - 1) = true /\ Z.testbit (signal_mask t) (sig - 1) = false.

Definition u64_thread (t : thread) : Prop := 0 <= pending_signals t < 2 ^ 64 /\ 0 <= signal_mask t < 2 ^ 64.

(** The signal [signal_deliver] takes up. *)
Definition taken (t : thread) : Z := first_signal 64 (Z.land (pending_signals t) (u64 (Z.lnot (signal_mask t)))) 0.

Lemma taken_spec t :
  (taken t = 0 /\ forall sig, ~ deliverable t sig) \/
  (deliverable t (taken t) /\ forall sig, sig < taken t -> ~ deliverable t sig).
Proof.
  unfold taken. destruct (first_signal_spec 64 (Z.land (pending_signals t) (u64 (Z.lnot (signal_mask t)))) 0 ltac:(lia))
    as [[Hz Hn]|(Hr & Hb & Hn)]; [left|right].
  - split; [done|]. intros sig (Hs & H1 & H2). specialize (Hn (sig - 1) ltac:(lia)).
    rewrite deliverable_bit, H1, H2 in Hn by lia. done.
  - set (r := first_signal _ _ _) in *. rewrite deliverable_bit in Hb by lia. apply andb_true_iff in Hb as [Hb1 Hb2].
    split; [split; [lia|]; split; [done|by apply negb_true_iff]|].
    intros sig Hs (Hs' & H1 & H2). specialize (Hn (sig - 1) ltac:(lia)). rewrite deliverable_bit, H1, H2 in Hn by lia. done.
Qed.

Lemma pending_zero t : u64_thread t -> Z.land (pending_signals t) (u64 (Z.lnot (signal_mask t))) = 0 -> taken t = 0.
Proof. intros _ H. unfold taken. by rewrite H. Qed.

Lemma land_word a b : 0 <= a < 2 ^ 64 -> 0 <= Z.land a (u64 b) < 2 ^ 64.
Proof.
  intros Ha. pose proof (u64_range b) as Hb. split; [apply Z.land_nonneg; left; lia|]. rewrite <- (Z.mod_small a (2 ^ 64)) by done. rewrite <- Z.land_ones by lia.
  rewrite (Z.land_comm a), <- Z.land_assoc, Z.land_comm, Z.land_ones by lia. apply Z.mod_pos_bound. lia.
Qed.

(** ** The properties *)

Section Claims.
Context (vmas : vma_list).

(** The action registered for a signal. *)
Definition action_of (t : thread) (sig : Z) : k_sigaction := default no_action (signal_handlers t !! Z.to_nat (sig - 1)).

Definition clear_pending (t : thread) (sig : Z) : thread :=
  with_pending t (Z.land (pending_signals t) (u64 (Z.lnot (Z.shiftl 1 (sig - 1))))).

(** What [signal_deliver] does, by the signal it takes up. *)
Lemma signal_deliver_cases t regs m : u64_thread t -> let sig := taken t in
  signal_deliver vmas (Some t) regs m =
    if sig =? 0 then Returned (Some t, regs, m)
    else if sa_handler (action_of t sig) =? SIG_IGN then Returned (Some (clear_pending t sig), regs, m)
    else if sa_handler (action_of t sig) =? SIG_DFL then
      if (sig =? SIGCHLD) || (sig =? SIGURG) || (sig =? SIGWINCH) then Returned (Some (clear_pending t sig), regs, m)
      else Exited (128 + sig)
    else
      match enter_handler vmas (clear_pending t sig) regs m sig (action_of t sig) with
      | Exited st => Exited st
      | Returned (t, regs, m) => Returned (Some t, regs, m)
      end.
Proof.
  intros Hu sig. unfold signal_deliver. destruct (Z.eqb_spec (Z.land (pending_signals t) (u64 (Z.lnot (signal_mask t)))) 0) as [Hz|Hz].
  - unfold sig. by rewrite (pending_zero t Hu Hz).
  - done.
Qed.

Lemma clear_pending_bit t sig i : 1 <= sig <= 64 -> 0 <= i < 64 ->
  Z.testbit (pending_signals (clear_pending t sig)) i = Z.testbit (pending_signals t) i && negb (i =? sig - 1).
Proof.
  intros Hs Hi. simpl. by rewrite Z.land_spec, testbit_u64_lnot, shiftl1_testbit by lia.
Qed.

Lemma user_ok_limit addr size : user_ok vmas addr size = true -> addr <= USER_SPACE_LIMIT.
Proof.
  unfold user_ok, vmm_is_user_addr_range_valid. rewrite Z.gtb_ltb. destruct (Z.ltb_spec USER_SPACE_LIMIT addr); [done|lia].
Qed.

Lemma land_align16 x : 0 <= x < 2 ^ 64 -> Z.land x (u64 (Z.lnot 0xF)) = x / 16 * 16.
Proof.
  intros Hx. change (u64 (Z.lnot 0xF)) with (Z.shiftl (Z.ones 60) 4). change 16 with (2 ^ 4).
  rewrite <- Z.shiftr_div_pow2, <- Z.shiftl_mul_pow2 by lia.
  apply Z.bits_inj'. intros n Hn. rewrite Z.land_spec, !Z.shiftl_spec by lia. destruct (Z.ltb_spec n 4).
  - rewrite !(Z.testbit_neg_r _ (n - 4)) by lia. apply andb_false_r.
  - rewrite Z.shiftr_spec, Z.sub_add by lia. destruct (Z.ltb_spec n 64).
    + rewrite Z.ones_spec_low by lia. apply andb_true_r.
    + rewrite (testbit_high x 64) by lia. done.
Qed.

(** Where [enter_handler] puts the frame. *)
Definition frame_addr (regs : registers) : Z := Z.land (u64 (rsp regs - SIGFRAME_SIZE)) (u64 (Z.lnot 0xF)).

Lemma enter_handler_spec t regs m sig sa t' regs' m' :
  enter_handler vmas t regs m sig sa = Returned (t', regs', m') ->
  let f := frame_addr regs in
  user_ok vmas f SIGFRAME_SIZE = true /\ f mod 16 = 0 /\ rsp regs' = f - 8 /\ 0 <= rsp regs' /\
  rip regs' = sa_handler sa /\ rdi regs' = sig /\ pending_signals t' = pending_signals t /\
  signal_mask t' = (if Z.land (sa_flags sa) SA_NODEFER =? 0
                    then Z.lor (signal_mask t) (Z.lor (sa_mask sa) (Z.shiftl 1 (sig - 1))) else signal_mask t) /\
  (m' = put_words m f (regs_words regs ++ [signal_mask t]) \/
   m' = store64 (put_words m f (regs_words regs ++ [signal_mask t])) (f - 8) (sa_restorer sa)).
Proof.
  intros H f. unfold enter_handler in H. fold (frame_addr regs) in H. fold f in H.
  destruct (user_ok vmas f SIGFRAME_SIZE) eqn:Hf; [|done]. cbn [negb] in H.
  destruct (user_ok vmas (u64 (f - 8)) 8) eqn:Hf8; [|done]. cbn [negb] in H.
  pose proof (u64_range (rsp regs - SIGFRAME_SIZE)) as Hr.
  assert (Hfd : f = u64 (rsp regs - SIGFRAME_SIZE) / 16 * 16) by (by apply land_align16).
  assert (H0 : 0 <= u64 (rsp regs - SIGFRAME_SIZE) / 16) by (apply Z.div_pos; lia).
  apply user_ok_limit in Hf8. apply user_ok_limit in Hf. unfold USER_SPACE_LIMIT in *.
  assert (Hpos : 8 <= f).
  { destruct (Z.eq_dec f 0) as [Hz|Hz]; [|lia]. rewrite Hz in Hf8. assert (u64 (0 - 8) = 2 ^ 64 - 8) by done. lia. }
  rewrite u64_small in H by lia. injection H as <- <- <-. split; [done|]. split; [rewrite Hfd; apply Z_mod_mult|].
  split; [done|]. split; [simpl; lia|]. do 2 (split; [done|]). split; [by destruct (_ =? 0)|].
  split; [by destruct (_ =? 0)|]. destruct (negb _); [by right|by left].
Qed.

(** What is to happen with a signal, by the action of the process for it. *)
Inductive disposition := Ignored | Terminated | Handled.

Definition disposition_of (t : thread) (sig : Z) : disposition :=
  if decide (sa_handler (action_of t sig) = 0) then if decide (sig ∈ [17; 23; 28]) then Ignored else Terminated
  else if decide (sa_handler (action_of t sig) = 1) then Ignored
  else Handled.

(** The highest multiple of 16 that leaves room for the frame below the stack pointer. *)
Definition frame_of (regs : registers) : Z := u64 (rsp regs - 184) / 16 * 16.

(** The signal and no other has left the pending set; handlers and identifiers are kept. *)
Definition signal_taken (t t' : thread) (sig : Z) : Prop :=
  (forall i, 0 <= i < 64 -> Z.testbit (pending_signals t') i = Z.testbit (pending_signals t) i && negb (i =? sig - 1)) /\
  signal_handlers t' = signal_handlers t /\ t_tid t' = t_tid t /\ t_pgid t' = t_pgid t.

(** The handler is about to run: its argument is the signal, its stack is aligned as after
    a call, registers and mask are saved above the return address, the rest of the memory
    and of the registers is kept, and its mask is in force. *)
Record handler_entered (t t' : thread) (regs regs' : registers) (m m' : mem) (sig : Z) : Prop := {
  he_taken : signal_taken t t' sig;
  he_regs : regs_words regs' = <[17%nat := sa_handler (action_of t sig)]> (<[9%nat := sig]> (<[20%nat := frame_of regs - 8]> (regs_words regs)));
  he_align : rsp regs' mod 16 = 8;
  he_saved : forall i w, (regs_words regs ++ [signal_mask t]) !! i = Some w -> load64 m' (frame_of regs + 8 * Z.of_nat i) = w;
  he_return : Z.testbit (sa_flags (action_of t sig)) 26 = true -> load64 m' (frame_of regs - 8) = sa_restorer (action_of t sig);
  he_memory : forall x, x < frame_of regs - 8 \/ frame_of regs + 184 <= x -> byte_at m' x = byte_at m x;
  he_mask : forall i, 0 <= i < 64 -> Z.testbit (signal_mask t') i =
    Z.testbit (signal_mask t) i || negb (Z.testbit (sa_flags (action_of t sig)) 30) && (Z.testbit (sa_mask (action_of t sig)) i || (i =? sig - 1));
}.

Lemma put_words_above ws : forall m a x, a + 8 * Z.of_nat (length ws) <= x -> byte_at (put_words m a ws) x = byte_at m x.
Proof.
  induction ws as [|w ws IH]; intros m a x Hx; [done|]. cbn [put_words length] in *. rewrite IH, byte_at_store64 by lia.
  by rewrite (proj2 (Z.ltb_ge x (a + 8))), andb_false_r by lia.
Qed.

Lemma flag_bit x i : 0 <= i -> (Z.land x (Z.shiftl 1 i) =? 0) = negb (Z.testbit x i).
Proof. intros Hi. by rewrite <- land_bit, negb_involutive. Qed.

Lemma clear_pending_taken t sig t' : 1 <= sig <= 64 -> pending_signals t' = pending_signals (clear_pending t sig) -> signal_handlers t' = signal_handlers t -> t_tid t' = t_tid t -> t_pgid t' = t_pgid t -> signal_taken t t' sig.
Proof. intros Hs Hp ? ? ?. split; [|done]. intros i Hi. rewrite Hp. by apply clear_pending_bit. Qed.

Lemma handler_stack regs : user_ok vmas (u64 (frame_of regs - 8)) 8 = true -> 8 <= frame_of regs /\ u64 (frame_of regs - 8) = frame_of regs - 8.
Proof.
  intros H%user_ok_limit. pose proof (u64_range (rsp regs - 184)) as Hr. unfold USER_SPACE_LIMIT in H. pose proof (Z.div_mod (u64 (rsp regs - 184)) 16 ltac:(done)). pose proof (Z.mod_pos_bound (u64 (rsp regs - 184)) 16 ltac:(done)).
  assert (0 <= frame_of regs <= u64 (rsp regs - 184)) by (unfold frame_of; lia). assert (8 <= frame_of regs); [|split; [done|apply u64_small; lia]].
  destruct (Z.eq_dec (frame_of regs) 0) as [E|E]; [rewrite E in H; by change (u64 (0 - 8)) with (2 ^ 64 - 8) in H|]. assert (frame_of regs mod 16 = 0) by (apply Z_mod_mult). pose proof (Z.div_mod (frame_of regs) 16 ltac:(done)). lia.
Qed.

Lemma enter_handler_correct t regs m sig : 1 <= sig <= 64 -> u64_thread t -> bytes_ok m -> Forall (fun w => 0 <= w < 2 ^ 64) (regs_words regs) -> 0 <= sa_restorer (action_of t sig) < 2 ^ 64 ->
  user_ok vmas (frame_of regs) 184 = true -> user_ok vmas (u64 (frame_of regs - 8)) 8 = true ->
  exists t' regs' m', enter_handler vmas (clear_pending t sig) regs m sig (action_of t sig) = Returned (t', regs', m') /\ handler_entered t t' regs regs' m m' sig.
Proof.
  intros Hs Hu Hb Hw Hre H1 H2. destruct (handler_stack regs H2) as [Hf E8]. unfold enter_handler. change SIGFRAME_SIZE with 184. rewrite land_align16 by apply u64_range. fold (frame_of regs). rewrite H1, H2, E8. cbn [negb].
  change SA_RESTORER with (Z.shiftl 1 26). change SA_NODEFER with (Z.shiftl 1 30). rewrite !flag_bit by lia. set (ws := regs_words regs ++ [signal_mask t]). set (sa := action_of t sig) in *. set (f := frame_of regs) in *.
  change (signal_mask (clear_pending t sig)) with (signal_mask t). fold ws. assert (Hws : Forall (fun w => 0 <= w < 2 ^ 64) ws) by (apply Forall_app; split; [done|repeat constructor; apply Hu]).
  eexists _, _, _. split; [reflexivity|]. set (m' := if negb (negb _) then _ else _ : mem). assert (Hx : forall x, f <= x -> byte_at m' x = byte_at (put_words m f ws) x).
  { intros x Hx. subst m'. case_match; [|done]. rewrite byte_at_store64, (proj2 (Z.ltb_ge x (f - 8 + 8))) by lia. by rewrite andb_false_r. }
  assert (Hb' : bytes_ok m') by (subst m'; case_match; [apply bytes_ok_store64|]; by apply put_words_bytes).
  split.
  - by apply clear_pending_taken; [..|case_match|case_match|case_match|case_match].
  - reflexivity.
  - cbn [rsp]. subst f. unfold frame_of. replace (u64 (rsp regs - 184) / 16 * 16 - 8) with (8 + (u64 (rsp regs - 184) / 16 - 1) * 16) by lia. by rewrite Z_mod_plus_full.
  - intros i w Hi. fold ws in Hi. rewrite Forall_lookup in Hws. rewrite <- (put_words_at ws m f i w Hb Hi (Hws i w Hi)) at 1. unfold word_at. apply load64_frame; [by apply put_words_bytes|done|]. intros x Hxx. apply Hx. lia.
  - intros Ht. subst m'. fold sa in Ht. rewrite Ht. cbn [negb]. apply load64_store64; [by apply put_words_bytes|done].
  - intros x Hxx. fold f in Hxx. trans (byte_at (put_words m f ws) x); [|destruct Hxx; [apply put_words_below; lia|apply put_words_above; change (length ws) with 23%nat; lia]]. subst m'. case_match; [|done]. rewrite byte_at_store64.
    destruct (Z.leb_spec (f - 8) x), (Z.ltb_spec x (f - 8 + 8)); try done. lia.
  - intros i Hi. fold sa. destruct (Z.testbit (sa_flags sa) 30); cbn [negb andb signal_mask with_mask clear_pending with_pending]; [by rewrite orb_false_r|]. by rewrite !Z.lor_spec, shiftl1_testbit by lia.
Qed.

(** C34: [signal_deliver] takes up the lowest pending signal that is not masked and does
    what the action for it asks, removing it and no other from the pending set: an ignored
    signal, by choice or by default, changes nothing else; one whose default is to
    terminate ends the process with status 128 plus the signal; for one with a handler,
    the registers and the mask are saved on the user stack and the handler is entered as
    [handler_entered] states, or the process ends with status 11 when the stack has no
    room.  Without a deliverable signal nothing happens. *)
Theorem signal_deliver_correct t regs m : u64_thread t -> bytes_ok m -> Forall (fun w => 0 <= w < 2 ^ 64) (regs_words regs) -> (forall sig, 0 <= sa_restorer (action_of t sig) < 2 ^ 64) ->
  ((forall sig, ~ deliverable t sig) -> signal_deliver vmas (Some t) regs m = Returned (Some t, regs, m)) /\
  forall sig, deliverable t sig -> (forall s, s < sig -> ~ deliverable t s) ->
    match disposition_of t sig with
    | Ignored => exists t', signal_deliver vmas (Some t) regs m = Returned (Some t', regs, m) /\ signal_taken t t' sig /\ signal_mask t' = signal_mask t
    | Terminated => signal_deliver vmas (Some t) regs m = Exited (128 + sig)
    | Handled =>
        if user_ok vmas (frame_of regs) 184 && user_ok vmas (u64 (frame_of regs - 8)) 8
        then exists t' regs' m', signal_deliver vmas (Some t) regs m = Returned (Some t', regs', m') /\ handler_entered t t' regs regs' m m' sig
        else signal_deliver vmas (Some t) regs m = Exited 11
    end.
Proof.
  intros Hu Hb Hw Hre. pose proof (signal_deliver_cases t regs m Hu) as Hd. cbv zeta in Hd. rewrite Hd. clear Hd.
  destruct (taken_spec t) as [[Hz Hn]|[Ht Hmin]].
  - rewrite Hz. split; [done|]. intros sig Hs. by apply Hn in Hs.
  - split; [intros H; by apply H in Ht|]. intros sig Hs Hlow.
    assert (taken t = sig) as Hk.
    { destruct (Z.lt_total (taken t) sig) as [Hlt|[?|Hlt]]; [by apply Hlow in Hlt|done|by apply Hmin in Hlt]. }
    rewrite Hk. destruct Hs as (Hr & _). rewrite (proj2 (Z.eqb_neq sig 0)) by lia. assert (Hig : signal_taken t (clear_pending t sig) sig) by (by apply clear_pending_taken).
    unfold disposition_of. set (h := sa_handler (action_of t sig)). unfold SIG_IGN, SIG_DFL. destruct (decide (h = 0)) as [->|H0]; cbn [Z.eqb].
    { assert (Eb : (sig =? SIGCHLD) || (sig =? SIGURG) || (sig =? SIGWINCH) = bool_decide (sig ∈ [17; 23; 28])).
      { unfold SIGCHLD, SIGURG, SIGWINCH. symmetry. destruct (Z.eqb_spec sig 17), (Z.eqb_spec sig 23), (Z.eqb_spec sig 28); cbn [orb]; (apply bool_decide_eq_true_2; set_solver) || (apply bool_decide_eq_false_2; set_solver). }
      rewrite Eb. case_decide as Hx; [rewrite bool_decide_eq_true_2 by done; by exists (clear_pending t sig)|by rewrite bool_decide_eq_false_2]. }
    rewrite (proj2 (Z.eqb_neq h 0)) by done. destruct (decide (h = 1)) as [->|H1]; [by exists (clear_pending t sig)|]. rewrite (proj2 (Z.eqb_neq h 1)) by done.
    destruct (user_ok vmas (frame_of regs) 184 && user_ok vmas (u64 (frame_of regs - 8)) 8) eqn:Eo.
    + apply andb_true_iff in Eo as [O1 O2]. destruct (enter_handler_correct t regs m sig) as (t' & regs' & m' & -> & He); try done. by exists t', regs', m'.
    + unfold enter_handler. change SIGFRAME_SIZE with 184. rewrite land_align16 by apply u64_range. fold (frame_of regs). apply andb_false_iff in Eo as [->| ->]; [done|]. by destruct (user_ok vmas (frame_of regs) 184).
Qed.

(** All registers of a system call frame are 64-bit words. *)
Definition sregs_words (s : syscall_regs) : list Z :=
  [s_r15 s; s_r14 s; s_r13 s; s_r12 s; 0; s_r10 s; s_r9 s; s_r8 s; s_rbp s; s_rdi s; s_rsi s; s_rdx s; 0; s_rbx s;
   s_rax s; 0; 0; s_rip s; 0x2B; s_rflags s; s_rsp s; 0x23].

(** The registers that a return from a handler restores. *)
Definition sregs_of (r : registers) : syscall_regs :=
  SyscallRegs (rdi r) (rsi r) (rdx r) (r10 r) (r8 r) (r9 r) (rax r) (rbx r) (rbp r) (r12 r) (r13 r) (r14 r) (r15 r) (rip r) (rflags r) (rsp r).

Lemma return_restores t regs m sig sa t' regs' m' t2 s2 m2 : u64_thread t -> bytes_ok m -> Forall (fun w => 0 <= w < 2 ^ 64) (regs_words regs) ->
  enter_handler vmas t regs m sig sa = Returned (t', regs', m') ->
  bytes_ok m2 -> (forall x, rsp regs' + 8 <= x < rsp regs' + 8 + SIGFRAME_SIZE -> byte_at m2 x = byte_at m' x) -> s_rsp s2 = rsp regs' + 8 ->
  sys_rt_sigreturn vmas t2 s2 m2 = Returned (with_mask t2 (signal_mask t), sregs_of regs).
Proof.
  intros Hu Hb Hw He Hb2 Hfr Hs2. apply enter_handler_spec in He as (Hok & _ & Hrsp & Hnn & _ & _ & _ & _ & Hm1).
  set (f := frame_addr regs) in *. rewrite Hrsp, Z.sub_add in Hs2, Hfr. set (ws := regs_words regs ++ [signal_mask t]) in *.
  assert (Hws : Forall (fun w => 0 <= w < 2 ^ 64) ws) by (apply Forall_app; split; [exact Hw|repeat constructor; apply Hu]).
  assert (Hword : forall i w, ws !! i = Some w -> word_at m2 f (Z.of_nat i) = w).
  { intros i w Hiw. pose proof (lookup_lt_Some _ _ _ Hiw) as Hlt. cbn in Hlt.
    rewrite Forall_lookup in Hws. pose proof (Hws i w Hiw) as Hr. rewrite <- (put_words_at ws m f i w Hb Hiw Hr).
    unfold word_at. apply load64_frame; [by apply put_words_bytes|done|]. intros x Hx.
    rewrite Hfr by (unfold SIGFRAME_SIZE; lia). destruct Hm1 as [->| ->]; [done|].
    rewrite byte_at_store64, (proj2 (Z.ltb_ge x (f - 8 + 8))) by lia. by rewrite andb_false_r. }
  unfold sys_rt_sigreturn. rewrite Hs2, Hok. cbn [negb].
  assert (Hz : forall z w, 0 <= z -> ws !! Z.to_nat z = Some w -> word_at m2 f z = w).
  { intros z w Hz Hzw. rewrite <- (Z2Nat.id z Hz). by apply Hword. }
  by rewrite (Hz 22 (signal_mask t)), (Hz 9 (rdi regs)), (Hz 10 (rsi regs)), (Hz 11 (rdx regs)), (Hz 5 (r10 regs)),
    (Hz 7 (r8 regs)), (Hz 6 (r9 regs)), (Hz 14 (rax regs)), (Hz 13 (rbx regs)), (Hz 8 (rbp regs)), (Hz 3 (r12 regs)),
    (Hz 2 (r13 regs)), (Hz 1 (r14 regs)), (Hz 0 (r15 regs)), (Hz 17 (rip regs)), (Hz 19 (rflags regs)), (Hz 20 (rsp regs)) by (done || lia).
Qed.

(** C35: After a handler was entered from a system call, a return through the saved
    frame restores every register a system call keeps, and the signal mask, whatever the
    handler did to registers, mask and memory outside the frame.  A handler entered from
    an interrupt is another matter: see [interrupt_return_loses]. *)
Theorem signal_roundtrip t s m t' s' m' t2 s2 m2 :
  u64_thread t -> bytes_ok m -> Forall (fun w => 0 <= w < 2 ^ 64) (sregs_words s) ->
  signal_deliver_syscall vmas (Some t) s m = Returned (Some t', s', m') ->
  taken t <> 0 -> sa_handler (action_of t (taken t)) <> SIG_IGN -> sa_handler (action_of t (taken t)) <> SIG_DFL ->
  bytes_ok m2 -> (forall x, s_rsp s' + 8 <= x < s_rsp s' + 8 + SIGFRAME_SIZE -> byte_at m2 x = byte_at m' x) ->
  s_rsp s2 = s_rsp s' + 8 ->
  sys_rt_sigreturn vmas t2 s2 m2 = Returned (with_mask t2 (signal_mask t), s).
Proof.
  intros Hu Hb Hw Hd Hk Hi Hf Hb2 Hfr Hs2. unfold signal_deliver_syscall in Hd.
  set (regs := Registers _ _ _ _ _ _ _ _ _ _ _ _ _ _ _ _ _ _ _ _ _ _) in Hd.
  pose proof (signal_deliver_cases t regs m Hu) as Hc. cbv zeta in Hc. rewrite Hc in Hd. clear Hc.
  rewrite (proj2 (Z.eqb_neq _ 0)), (proj2 (Z.eqb_neq _ SIG_IGN)), (proj2 (Z.eqb_neq _ SIG_DFL)) in Hd by done.
  destruct (enter_handler _ _ _ _ _ _) as [[[t1 regs1] m1]|st] eqn:He; [|done]. injection Hd as <- <- <-.
  rewrite (return_restores (clear_pending t (taken t)) regs m (taken t) (action_of t (taken t)) t1 regs1 m1 t2 s2 m2); try done; [by destruct s|]. split; [|apply Hu]. cbn. apply land_word, Hu.
Qed.

(** A handler entered from an interrupt returns through the same system call, whose frame
    has no [rcx] and no [r11]: the interrupted code resumes with the registers of the
    frame, and what these two held, which the saved frame has, makes no difference. *)
Theorem interrupt_return_loses t regs m t' regs' m' t2 s2 m2 :
  u64_thread t -> bytes_ok m -> Forall (fun w => 0 <= w < 2 ^ 64) (regs_words regs) ->
  signal_deliver vmas (Some t) regs m = Returned (Some t', regs', m') ->
  taken t <> 0 -> sa_handler (action_of t (taken t)) <> SIG_IGN -> sa_handler (action_of t (taken t)) <> SIG_DFL ->
  bytes_ok m2 -> (forall x, rsp regs' + 8 <= x < rsp regs' + 8 + SIGFRAME_SIZE -> byte_at m2 x = byte_at m' x) ->
  s_rsp s2 = rsp regs' + 8 ->
  sys_rt_sigreturn vmas t2 s2 m2 = Returned (with_mask t2 (signal_mask t), sregs_of regs) /\
  forall r, <[4%nat := 0]> (<[12%nat := 0]> (regs_words r)) = <[4%nat := 0]> (<[12%nat := 0]> (regs_words regs)) -> sregs_of r = sregs_of regs.
Proof.
  intros Hu Hb Hw Hd Hk Hi Hf Hb2 Hfr Hs2. split.
  - pose proof (signal_deliver_cases t regs m Hu) as Hc. cbv zeta in Hc. rewrite Hc in Hd. clear Hc.
    rewrite (proj2 (Z.eqb_neq _ 0)), (proj2 (Z.eqb_neq _ SIG_IGN)), (proj2 (Z.eqb_neq _ SIG_DFL)) in Hd by done.
    destruct (enter_handler _ _ _ _ _ _) as [[[t1 regs1] m1]|st] eqn:He; [|done]. injection Hd as <- <- <-.
    rewrite (return_restores (clear_pending t (taken t)) regs m (taken t) (action_of t (taken t)) t1 regs1 m1 t2 s2 m2); try done. split; [|apply Hu]. cbn. apply land_word, Hu.
  - intros r H. destruct r, regs. cbn in H. by injection H as -> -> -> -> -> -> -> -> -> -> -> -> -> -> -> -> -> -> -> ->.
Qed.

(** [rt_sigprocmask] changes the mask as asked, signal by signal, except that
    it never adds SIGKILL or SIGSTOP; on an error, an unknown operation included,
    the mask stays as it is. *)
Theorem sigprocmask_correct t m how set_ptr oldset_ptr r t' m' :
  u64_thread t -> bytes_ok m ->
  sys_rt_sigprocmask vmas (Some t) m how set_ptr oldset_ptr 8 = (r, Some t', m') ->
  (r <> 0 \/ set_ptr = 0 -> t' = t) /\
  (r = 0 -> set_ptr <> 0 -> forall i, 0 <= i < 64 ->
     let new := Z.testbit (load64 m' set_ptr) i && negb ((i =? SIGKILL - 1) || (i =? SIGSTOP - 1)) in
     Z.testbit (signal_mask t') i =
       if how =? SIG_BLOCK then Z.testbit (signal_mask t) i || new
       else if how =? SIG_UNBLOCK then Z.testbit (signal_mask t) i && negb new
       else new).
Proof.
  intros Hu Hb. unfold sys_rt_sigprocmask. cbn [Z.eqb Pos.eqb negb].
  destruct (_ && _); [by intros [= <- <- <-]|]. set (m1 := if negb (oldset_ptr =? 0) then store64 m oldset_ptr (signal_mask t) else m).
  destruct (Z.eqb_spec set_ptr 0) as [->|Hs]; cbn [negb]; [by intros [= <- <- <-]|].
  destruct (user_ok vmas set_ptr 8); cbn [negb]; [|by intros [= <- <- <-]].
  set (new := Z.land _ _).
  assert (Hnew : forall i, 0 <= i < 64 -> Z.testbit new i =
    Z.testbit (load64 m1 set_ptr) i && negb ((i =? SIGKILL - 1) || (i =? SIGSTOP - 1))).
  { intros i Hi. unfold new, unmaskable. by rewrite Z.land_spec, testbit_u64_lnot, Z.lor_spec, !shiftl1_testbit. }
  destruct (how =? SIG_BLOCK) eqn:H1; [|destruct (how =? SIG_UNBLOCK) eqn:H2; [|destruct (how =? SIG_SETMASK) eqn:H3]];
    intros [= <- <- <-]; (split; [intros [|]; done|]); intros Hr0 _ i Hi; simpl; try by rewrite Hnew.
  - by rewrite Z.lor_spec, Hnew.
  - by rewrite Z.land_spec, testbit_u64_lnot, Hnew.
  - done.
Qed.

(** The mask of a handler is not filtered: while a handler with SIGKILL in its
    mask runs, SIGKILL can not be delivered, although it is meant to be
    unmaskable. *)
Theorem sigkill_masked_by_handler t regs m t' regs' m' :
  u64_thread t -> signal_deliver vmas (Some t) regs m = Returned (Some t', regs', m') -> taken t <> 0 ->
  let sa := action_of t (taken t) in
  sa_handler sa <> SIG_IGN -> sa_handler sa <> SIG_DFL -> Z.land (sa_flags sa) SA_NODEFER = 0 ->
  Z.testbit (sa_mask sa) (SIGKILL - 1) = true ->
  ~ deliverable (send_signal t' SIGKILL) SIGKILL.
Proof.
  intros Hu Hd Hk sa Hi Hf Hn Hm. pose proof (signal_deliver_cases t regs m Hu) as Hc. cbv zeta in Hc.
  rewrite Hc in Hd. fold sa in Hd. clear Hc.
  rewrite (proj2 (Z.eqb_neq _ 0)), (proj2 (Z.eqb_neq _ SIG_IGN)), (proj2 (Z.eqb_neq _ SIG_DFL)) in Hd by done.
  destruct (enter_handler _ _ _ _ _ _) as [[[t1 regs1] m1]|st] eqn:He; [|done]. injection Hd as <- <- <-.
  apply enter_handler_spec in He as (_ & _ & _ & _ & _ & _ & _ & Hmask & _). rewrite Hn in Hmask. cbn [Z.eqb] in Hmask.
  intros (_ & _ & Hx). simpl signal_mask in Hx. rewrite Hmask, !Z.lor_spec, Hm in Hx. by rewrite orb_true_r in Hx.
Qed.
End Claims.

(** ** A process with a handler *)

Definition demo_stack : vma_list := (vma_add vma_list_init 0x70000000 0x70010000 3 0x22 (-1) 0 (Bump 0x100000 ∅)).1.2.

Definition demo_thread : thread :=
  Thread 7 7 (<[9%nat := KSigaction 0x401000 SA_RESTORER 0x402000 (Z.shiftl 1 8)]> (replicate 64 no_action))
    (Z.shiftl 1 9) 0.

Definition demo_sregs : syscall_regs := SyscallRegs 1 2 3 4 5 6 7 8 9 10 11 12 13 0x400123 0x202 0x7000FF08.

Lemma demo_thread_u64 : u64_thread demo_thread.
Proof. split; vm_compute; split; congruence. Qed.

Lemma empty_bytes : bytes_ok ∅.
Proof. intros a. unfold byte_at. rewrite lookup_empty. unfold is_byte. simpl. lia. Qed.

Definition demo_regs : registers := Registers 0 0 0 0 0 0 0 0 0 0 0 0 0 0 0 0 0 0 0 0 0x7000FF08 0.

Lemma demo_restorer sig : 0 <= sa_restorer (action_of demo_thread sig) < 2 ^ 64.
Proof.
  assert (H : Forall (fun sa => 0 <= sa_restorer sa < 2 ^ 64) (signal_handlers demo_thread)) by (repeat constructor; vm_compute; congruence). unfold action_of.
  destruct (signal_handlers demo_thread !! Z.to_nat (sig - 1)) as [sa|] eqn:E; [|vm_compute; split; congruence]. exact (proj1 (Forall_lookup _ _) H _ _ E).
Qed.

Lemma signal_deliver_correct_witness : deliverable demo_thread 10 /\
  exists t' regs' m', signal_deliver demo_stack (Some demo_thread) demo_regs ∅ = Returned (Some t', regs', m') /\ handler_entered demo_thread t' demo_regs regs' ∅ m' 10.
Proof.
  assert (Hd : deliverable demo_thread 10) by (by vm_compute).
  assert (Hl : forall s, s < 10 -> ~ deliverable demo_thread s).
  { intros s Hs (Hr & Hp & _). unfold demo_thread in Hp; simpl in Hp. rewrite shiftl1_testbit in Hp by lia.
    apply Z.eqb_eq in Hp. lia. }
  split; [exact Hd|]. assert (Hw : Forall (fun w => 0 <= w < 2 ^ 64) (regs_words demo_regs)) by (repeat constructor; vm_compute; congruence).
  pose proof (proj2 (signal_deliver_correct demo_stack demo_thread demo_regs ∅ demo_thread_u64 empty_bytes Hw demo_restorer) 10 Hd Hl) as H.
  assert (E : disposition_of demo_thread 10 = Handled) by (vm_compute; reflexivity). assert (Eo : user_ok demo_stack (frame_of demo_regs) 184 && user_ok demo_stack (u64 (frame_of demo_regs - 8)) 8 = true) by (vm_compute; reflexivity).
  rewrite E, Eo in H. exact H.
Defined.

Definition demo_entered : outcome (option thread * syscall_regs * mem) :=
  signal_deliver_syscall demo_stack (Some demo_thread) demo_sregs ∅.

(** The memory after the handler was entered. *)
Definition demo_entered_mem : mem := match demo_entered with Returned (_, _, m) => m | Exited _ => ∅ end.

Lemma demo_entered_bytes : bytes_ok demo_entered_mem.
Proof.
  intros a. unfold byte_at. destruct (demo_entered_mem !! a) as [v|] eqn:Hv; [|unfold is_byte; simpl; lia].
  assert (Hall : map_Forall (fun _ v => is_byte v) demo_entered_mem); [|exact (Hall a v Hv)].
  apply map_Forall_to_list. vm_compute. repeat constructor; congruence.
Qed.

Lemma signal_roundtrip_witness :
  sys_rt_sigreturn demo_stack demo_thread (SyscallRegs 0 0 0 0 0 0 15 0 0 0 0 0 0 0x402000 0x202 0x7000FE50)
    demo_entered_mem = Returned (with_mask demo_thread 0, demo_sregs).
Proof.
  assert (Es : match demo_entered with Returned (Some _, s', _) => s_rsp s' | _ => 0 end = 0x7000FE48)
    by (vm_compute; reflexivity).
  destruct demo_entered as [[[[t'|] s'] m']|st] eqn:E; [|discriminate Es..].
  assert (Em : demo_entered_mem = m') by (unfold demo_entered_mem; rewrite E; reflexivity).
  apply (signal_roundtrip demo_stack demo_thread demo_sregs ∅ t' s' m' demo_thread _ demo_entered_mem).
  - exact demo_thread_u64.
  - exact empty_bytes.
  - repeat constructor; vm_compute; congruence.
  - exact E.
  - by vm_compute.
  - by vm_compute.
  - by vm_compute.
  - exact demo_entered_bytes.
  - intros x _. by rewrite Em.
  - by rewrite Es.
Defined.

Lemma sigprocmask_correct_witness :
  sys_rt_sigprocmask demo_stack (Some demo_thread) ∅ SIG_SETMASK 0 0 8 = (0, Some demo_thread, ∅).
Proof.
  destruct (sys_rt_sigprocmask demo_stack (Some demo_thread) ∅ SIG_SETMASK 0 0 8) as [[r [t'|]] m'] eqn:E;
    [|vm_compute in E; congruence].
  rewrite (proj1 (sigprocmask_correct demo_stack demo_thread ∅ SIG_SETMASK 0 0 r t' m' demo_thread_u64 empty_bytes E)
    (or_intror eq_refl)).
  vm_compute in E. by injection E as <- <- <-.
Defined.

Lemma sigkill_masked_by_handler_witness : exists t' regs' m',
  signal_deliver demo_stack (Some demo_thread) demo_regs ∅
    = Returned (Some t', regs', m') /\ ~ deliverable (send_signal t' SIGKILL) SIGKILL.
Proof.
  assert (Hc : match signal_deliver demo_stack (Some demo_thread) demo_regs ∅ with
    Returned (Some _, _, _) => true | _ => false end = true) by (vm_compute; reflexivity).
  destruct (signal_deliver demo_stack (Some demo_thread) demo_regs ∅)
    as [[[[t'|] regs'] m']|st] eqn:E; [|discriminate Hc..].
  exists t', regs', m'. split; [reflexivity|].
  apply (sigkill_masked_by_handler demo_stack demo_thread _ ∅ t' regs' m' demo_thread_u64 E); by vm_compute.
Defined.
