(* ===== verification/SignalSend.v ===== *)
(** * Sending signals

    What [sys_kill] of [kernel/src/syscalls/sys_signal.c] does to the threads of the
    system, as [kill] describes it to a program. *)

From S2P Require Import Prelude CString Vma UserRange Bitmap Signal SignalThms.

Lemma s32_range x : - 2 ^ 31 <= s32 x < 2 ^ 31.
Proof. unfold s32. pose proof (u32_range x). destruct (Z.ltb_spec (u32 x) (2 ^ 31)); lia. Qed.

(** The threads a call addresses: one thread, the group of the caller, no one, or the
    group of the given number. *)
Definition addressed (cur_pgid pid : Z) (t : thread) : bool :=
  if 0 <? pid then t_tid t =? pid
  else if pid =? 0 then t_pgid t =? cur_pgid
  else if pid =? -1 then false
  else t_pgid t =? - pid.

(** The signal and no other was added to the pending ones, and is delivered unless it is
    masked. *)
Record signal_sent (t t' : thread) (sig : Z) : Prop := {
  sent_pending : forall i, 0 <= i < 64 -> Z.testbit (pending_signals t') i = Z.testbit (pending_signals t) i || (i =? sig - 1);
  sent_deliverable : Z.testbit (signal_mask t) (sig - 1) = false -> deliverable t' sig;
  sent_rest : t' = with_pending t (pending_signals t');
}.

Lemma send_signal_sent t sig : 1 <= sig <= 64 -> signal_sent t (send_signal t sig) sig.
Proof.
  intros Hs. assert (Hp : forall i, 0 <= i < 64 -> Z.testbit (pending_signals (send_signal t sig)) i = Z.testbit (pending_signals t) i || (i =? sig - 1)) by (intros i Hi; cbn; by rewrite Z.lor_spec, shiftl1_testbit by lia).
  split; [done| |done]. intros Hm. split; [done|]. split; [rewrite Hp by lia; rewrite Z.eqb_refl; apply orb_true_r|exact Hm].
Qed.

Lemma send_tid_lookup tid sig : forall l i t, NoDup (map t_tid l) -> l !! i = Some t ->
  send_tid l tid sig !! i = Some (if t_tid t =? tid then send_signal t sig else t).
Proof.
  induction l as [|a l IH]; intros i t Hn Hi; [done|]. apply NoDup_cons in Hn as [Ha Hn]. cbn [send_tid]. destruct (Z.eqb_spec (t_tid a) tid) as [E|E].
  - destruct i as [|i]; [injection Hi as <-; by rewrite E, Z.eqb_refl|]. cbn in Hi |- *. rewrite Hi. rewrite (proj2 (Z.eqb_neq _ _)); [done|]. intros E'. apply Ha. rewrite E, <- E'. apply list_elem_of_fmap. exists t. split; [done|]. by eapply list_elem_of_lookup_2.
  - destruct i as [|i]; [injection Hi as <-; cbn; by rewrite (proj2 (Z.eqb_neq _ _) E)|]. by apply IH.
Qed.

Lemma send_tid_length tid sig l : length (send_tid l tid sig) = length l.
Proof. induction l as [|a l IH]; [done|]. cbn. case_match; cbn; [done|by f_equal]. Qed.

Lemma send_pgid_lookup pgid sig l i t : 1 <= sig <= 64 -> l !! i = Some t -> signal_send_pgid l pgid sig !! i = Some (if t_pgid t =? pgid then send_signal t sig else t).
Proof.
  intros Hs Hi. unfold signal_send_pgid. rewrite (proj2 (Z.leb_gt _ _)), Z.gtb_ltb, (proj2 (Z.ltb_ge _ _)) by lia. cbn [orb]. change (map ?f l) with (f <$> l). by rewrite list_lookup_fmap, Hi.
Qed.

Lemma send_pgid_length pgid sig l : length (signal_send_pgid l pgid sig) = length l.
Proof. unfold signal_send_pgid. case_match; [done|]. apply length_map. Qed.

(** The threads after a call, one by one. *)
Lemma kill_each threads cur_pgid pid_val sig : 1 <= sig <= 64 -> NoDup (map t_tid threads) -> s32 pid_val <> - 2 ^ 31 ->
  exists threads', sys_kill threads cur_pgid pid_val sig = (0, threads') /\ length threads' = length threads /\
    forall i t, threads !! i = Some t -> threads' !! i = Some (if addressed cur_pgid (s32 pid_val) t then send_signal t sig else t).
Proof.
  intros Hs Hn Hmin. unfold sys_kill, addressed. pose proof (s32_range pid_val) as Hr. set (pid := s32 pid_val) in *. rewrite Z.gtb_ltb, (proj2 (Z.ltb_ge 64 sig)), (proj2 (Z.eqb_neq sig 0)) by lia.
  destruct (Z.eqb_spec pid 0) as [E0|E0]; [rewrite E0|destruct (Z.eqb_spec pid (-1)) as [E1|E1]; [rewrite E1|destruct (Z.ltb_spec pid (-1))]]; cbn [Z.ltb Z.compare].
  - eexists. split; [done|]. split; [apply send_pgid_length|]. intros i t Hi. by apply send_pgid_lookup.
  - exists threads. split; [done|]. split; [done|]. intros i t Hi. by rewrite Hi.
  - eexists. split; [done|]. split; [apply send_pgid_length|]. intros i t Hi. rewrite (proj2 (Z.ltb_ge 0 pid)) by lia. unfold u32. rewrite Z.mod_small by lia. by apply send_pgid_lookup.
  - eexists. split; [done|]. split; [apply send_tid_length|]. intros i t Hi. rewrite (proj2 (Z.ltb_lt 0 pid)) by lia. unfold u32. rewrite Z.mod_small by lia. by apply send_tid_lookup.
Qed.

(** C36: [sys_kill] sends a signal to exactly the threads it addresses: the signal is added
    to what is pending for them, so that it is delivered unless it is masked, and nothing
    else changes.  The result is 0, whether or not any thread was addressed.  Signal 0 is
    sent to no one and asks for a thread: the result is 0 when there is one with that
    number, or minus that number, and -ESRCH when there is none.  A signal above 64 is
    refused.  The lowest 32-bit number, which has no negation, is left out. *)
Theorem kill_correct threads cur_pgid pid_val sig : NoDup (map t_tid threads) -> s32 pid_val <> - 2 ^ 31 -> 0 <= sig ->
  let pid := s32 pid_val in
  let r := sys_kill threads cur_pgid pid_val sig in
  (64 < sig -> r = (EINVAL, threads)) /\
  (sig = 0 -> pid <> 0 -> pid <> -1 -> r = (if decide (Z.abs pid ∈ map t_tid threads) then 0 else ESRCH, threads)) /\
  (1 <= sig <= 64 -> r.1 = 0 /\ length r.2 = length threads /\
     forall i t, threads !! i = Some t -> exists t', r.2 !! i = Some t' /\ if addressed cur_pgid pid t then signal_sent t t' sig else t' = t).
Proof.
  intros Hn Hmin H0 pid r. split; [|split].
  - intros Hs. subst r. unfold sys_kill. by rewrite Z.gtb_ltb, (proj2 (Z.ltb_lt 64 sig)) by lia.
  - intros -> Hp0 Hp1. subst r. unfold sys_kill. fold pid. cbn [Z.gtb Z.compare Z.eqb]. rewrite (proj2 (Z.eqb_neq pid 0)), (proj2 (Z.eqb_neq pid (-1))) by done. cbn [orb].
    replace (u32 (if pid >? 0 then pid else - pid)) with (Z.abs pid); [|pose proof (s32_range pid_val); subst pid; unfold u32; rewrite Z.gtb_ltb; destruct (Z.ltb_spec 0 (s32 pid_val)); rewrite Z.mod_small; lia].
    case_decide as Hx.
    + rewrite (proj2 (existsb_exists _ _)); [done|]. apply list_elem_of_In, in_map_iff in Hx as (t & Et & Ht). exists t. split; [done|]. by apply Z.eqb_eq.
    + destruct (existsb _ threads) eqn:E; [|done]. destruct Hx. apply existsb_exists in E as (t & Ht & <-%Z.eqb_eq). by apply list_elem_of_In, in_map.
  - intros Hs. destruct (kill_each threads cur_pgid pid_val sig Hs Hn Hmin) as (threads' & E & Hl & Hi). subst r. rewrite E. cbn [fst snd]. split; [done|]. split; [done|]. intros i t Ht. eexists. split; [by apply Hi|]. fold pid.
    destruct (addressed cur_pgid pid t); [by apply send_signal_sent|done].
Qed.

(** ** A system of three threads *)

Definition demo_threads : list thread := [with_pending demo_thread 0; Thread 8 3 (replicate 64 no_action) 0 0; Thread 9 3 (replicate 64 no_action) 1 0].

Lemma kill_correct_witness : exists t', (sys_kill demo_threads 7 (u64 (-3)) 15).2 !! 2%nat = Some t' /\ signal_sent (Thread 9 3 (replicate 64 no_action) 1 0) t' 15.
Proof.
  assert (Hn : NoDup (map t_tid demo_threads)) by (apply (bool_decide_unpack _); vm_compute; exact I).
  destruct (kill_correct demo_threads 7 (u64 (-3)) 15 Hn ltac:(vm_compute; discriminate) ltac:(lia)) as (_ & _ & H). destruct (H ltac:(lia)) as (_ & _ & Hi). destruct (Hi 2%nat _ eq_refl) as (t' & E & Hs). exists t'. split; [exact E|exact Hs].
Defined.
