(* ===== verification/Ramfs.v ===== *)
(** * The RAM file system

    Models [kernel/src/fs/ramfs.c].  Nodes, file descriptors' buffers and directory
    cells live at addresses obtained from the kernel heap, which is used through
    the allocator interface; file contents are byte lists of the length that was
    allocated.  An operation returns [None] where the code would follow a null
    pointer or touch memory outside the block it owns. *)

From S2P Require Import Prelude ObjAlloc.

Definition FS_FILE : Z := 0x01.
Definition FS_DIRECTORY : Z := 0x02.
Definition FS_SYMLINK : Z := 0x06.
Definition FS_MOUNTPOINT : Z := 0x08.
Definition FS_PERSISTENT : Z := 0x10.
Definition FS_TYPE_MASK : Z := 0x0F.

(** A string of C: the bytes before the terminator. *)
Notation cstr := (list Z).

(** The operations a node is bound to; only those of this file system. *)
Record node_ops := NodeOps {
  op_data : bool;      (* read, write *)
  op_lookup : bool;    (* readdir, finddir *)
  op_modify : bool;    (* create, mkdir, unlink, rename, mknod *)
}.

(** [vfs_node_t]. *)
Record node := VNode {
  n_name : cstr;
  n_mask : Z;
  n_flags : Z;
  n_inode : Z;
  n_length : Z;
  n_device : Z;
  n_ops : node_ops;
}.

(** [ramfs_file_t]; no data is a null pointer. *)
Record ramfs_file := RamfsFile { f_data : option (list Z); f_capacity : Z }.

Definition with_length (n : node) (len : Z) : node :=
  VNode (n_name n) (n_mask n) (n_flags n) (n_inode n) len (n_device n) (n_ops n).
Definition with_name (n : node) (name : cstr) : node :=
  VNode name (n_mask n) (n_flags n) (n_inode n) (n_length n) (n_device n) (n_ops n).
Definition with_device (n : node) (d : Z) : node :=
  VNode (n_name n) (n_mask n) (n_flags n) (n_inode n) (n_length n) d (n_ops n).

Definition node_type (n : node) : Z := Z.land (n_flags n) FS_TYPE_MASK.

(** ** Blocks of memory *)

(** [memcpy] out of and into a block of [length l] bytes. *)
Definition read_block (l : list Z) (off n : Z) : option (list Z) :=
  if (0 <=? off) && (off + n <=? zlen l) then Some (take (Z.to_nat n) (drop (Z.to_nat off) l)) else None.
Definition write_block (l : list Z) (off : Z) (data : list Z) : option (list Z) :=
  if (0 <=? off) && (off + zlen data <=? zlen l) then Some (list_inserts (Z.to_nat off) data l) else None.

(** ** File contents

    [alloc n] is what [kmalloc(n)] returns: the bytes of a new block, whatever they
    are, or [None]. *)

(** [ramfs_read]; the caller's buffer holds [size] bytes. *)
Definition ramfs_read (n : node) (file : option ramfs_file) (offset size : Z) : option (list Z) :=
  match file with
  | None => Some []
  | Some f =>
      if offset >=? n_length n then Some []
      else
        let size := if u32 (offset + size) >? n_length n then n_length n - offset else size in
        match f_data f with
        | None => if size =? 0 then Some [] else None
        | Some d => read_block d offset size
        end
  end.

(** A larger block with the old contents. *)
Definition move_data (f : ramfs_file) (len : Z) (block : list Z) : option (list Z) :=
  match f_data f with
  | None => Some block
  | Some d =>
      match read_block d 0 len with
      | None => None
      | Some old => write_block block 0 old
      end
  end.

(** Returns the number of bytes written, the node and the file. *)
Definition ramfs_write (alloc : Z -> option (list Z)) (n : node) (file : option ramfs_file) (offset : Z)
    (buffer : list Z) : option (Z * node * option ramfs_file) :=
  let size := zlen buffer in
  match file with
  | None => Some (0, n, file)
  | Some f =>
      let grown :=
        if u32 (offset + size) >? f_capacity f then
          let new_cap := u32 (u32 (offset + size) * 2) in
          let new_cap := if new_cap <? 512 then 512 else new_cap in
          match alloc new_cap with
          | None => Some None
          | Some block =>
              match move_data f (n_length n) block with
              | None => None
              | Some d => Some (Some (RamfsFile (Some d) new_cap))
              end
          end
        else Some (Some f) in
      match grown with
      | None => None
      | Some None => Some (0, n, file)
      | Some (Some f) =>
          let written :=
            match f_data f with
            | None => if size =? 0 then Some f else None
            | Some d =>
                match write_block d offset buffer with
                | None => None
                | Some d => Some (RamfsFile (Some d) (f_capacity f))
                end
            end in
          match written with
          | None => None
          | Some f =>
              let n := if u32 (offset + size) >? n_length n then with_length n (u32 (offset + size)) else n in
              Some (size, n, Some f)
          end
      end
  end.

Definition zeros (n : Z) : list Z := replicate (Z.to_nat n) 0.

Definition ramfs_truncate (alloc : Z -> option (list Z)) (n : node) (file : option ramfs_file) (new_len : Z)
    : option (Z * node * option ramfs_file) :=
  match file with
  | None => Some (-1, n, file)
  | Some f =>
      if negb (n_flags n =? FS_FILE) then Some (-1, n, file)
      else if new_len =? 0 then
        let f := match f_data f with Some _ => RamfsFile None 0 | None => f end in
        Some (0, with_length n 0, Some f)
      else if new_len >? f_capacity f then
        match alloc new_len with
        | None => Some (-1, n, file)
        | Some block =>
            match move_data f (n_length n) block with
            | None => None
            | Some d =>
                match (if new_len >? n_length n then write_block d (n_length n) (zeros (new_len - n_length n)) else Some d) with
                | None => None
                | Some d => Some (0, with_length n new_len, Some (RamfsFile (Some d) new_len))
                end
            end
        end
      else if new_len >? n_length n then
        match f_data f with
        | None => None
        | Some d =>
            match write_block d (n_length n) (zeros (new_len - n_length n)) with
            | None => None
            | Some d => Some (0, with_length n new_len, Some (RamfsFile (Some d) (f_capacity f)))
            end
        end
      else Some (0, with_length n new_len, file)
  end.

(** ** Directories *)

(** Nodes, file descriptors and directories by address; a directory holds the
    addresses of its cells with the nodes they point to, newest first. *)
Record fs (A : Type) := Fs {
  nodes : gmap Z node;
  files : gmap Z ramfs_file;
  dirs : gmap Z (list (Z * Z));
  fs_heap : A;
  next_inode : Z;
}.
Arguments Fs {A}.
Arguments nodes {A}.
Arguments files {A}.
Arguments dirs {A}.
Arguments fs_heap {A}.
Arguments next_inode {A}.

Definition dot : cstr := [46].
Definition dotdot : cstr := [46; 46].

Section Directories.
Context {A : Type} `{!ObjAlloc A}.

Definition with_nodes (s : fs A) (m : gmap Z node) : fs A := Fs m (files s) (dirs s) (fs_heap s) (next_inode s).
Definition with_dirs (s : fs A) (m : gmap Z (list (Z * Z))) : fs A := Fs (nodes s) (files s) m (fs_heap s) (next_inode s).
Definition with_files (s : fs A) (m : gmap Z ramfs_file) : fs A := Fs (nodes s) m (dirs s) (fs_heap s) (next_inode s).
Definition with_heap (s : fs A) (h : A) : fs A := Fs (nodes s) (files s) (dirs s) h (next_inode s).

(** [kmalloc] of a structure. *)
Definition fs_alloc (s : fs A) : option Z * fs A :=
  let '(p, h) := obj_alloc (fs_heap s) in (p, with_heap s h).
Definition fs_free (s : fs A) (p : Z) : fs A := with_heap s (obj_free (fs_heap s) p).

(** The first child with the name; 0 is null, [None] a dangling child. *)
Fixpoint find_child (s : fs A) (cells : list (Z * Z)) (name : cstr) : option Z :=
  match cells with
  | [] => Some 0
  | (_, c) :: rest =>
      match nodes s !! c with
      | None => None
      | Some n => if bool_decide (n_name n = name) then Some c else find_child s rest name
      end
  end.

Definition ramfs_finddir (s : fs A) (node : Z) (name : cstr) : option Z :=
  match nodes s !! node with
  | None => Some 0
  | Some n =>
      if n_device n =? 0 then Some 0
      else if bool_decide (name = dot) || bool_decide (name = dotdot) then Some node
      else
        match dirs s !! n_device n with
        | None => None
        | Some cells => find_child s cells name
        end
  end.

(** The entry at an index: its name and inode; [Some None] at the end. *)
Definition ramfs_readdir (s : fs A) (node : Z) (index : Z) : option (option (cstr * Z)) :=
  match nodes s !! node with
  | None => Some None
  | Some n =>
      if n_device n =? 0 then Some None
      else if index =? 0 then Some (Some (dot, n_inode n))
      else if index =? 1 then Some (Some (dotdot, n_inode n))
      else
        match dirs s !! n_device n with
        | None => None
        | Some cells =>
            match cells !! Z.to_nat (index - 2) with
            | None => Some None
            | Some (_, c) =>
                match nodes s !! c with
                | None => None
                | Some cn => Some (Some (n_name cn, n_inode cn))
                end
            end
        end
  end.

Definition dir_ops : node_ops := NodeOps false true false.
Definition full_dir_ops : node_ops := NodeOps false true true.
Definition file_ops : node_ops := NodeOps true false false.
Definition no_ops : node_ops := NodeOps false false false.

(** Returns the new node, 0 when out of memory; [None] when the second allocation
    fails, whose result is used unchecked. *)
Definition ramfs_make_node (s : fs A) (name : cstr) (perm type : Z) : option (Z * fs A) :=
  match fs_alloc s with
  | (None, s) => Some (0, s)
  | (Some p, s) =>
      let inode := next_inode s in
      let s := Fs (nodes s) (files s) (dirs s) (fs_heap s) (u32 (inode + 1)) in
      let n := VNode (take 127 name) perm (Z.lor type FS_PERSISTENT) inode 0 0 no_ops in
      if type =? FS_DIRECTORY then
        match fs_alloc s with
        | (None, _) => None
        | (Some d, s) =>
            let n := VNode (n_name n) (n_mask n) (n_flags n) inode 0 d dir_ops in
            Some (p, Fs (<[p := n]> (nodes s)) (files s) (<[d := []]> (dirs s)) (fs_heap s) (next_inode s))
        end
      else if type =? FS_FILE then
        match fs_alloc s with
        | (None, _) => None
        | (Some f, s) =>
            let n := VNode (n_name n) (n_mask n) (n_flags n) inode 0 f file_ops in
            Some (p, Fs (<[p := n]> (nodes s)) (<[f := RamfsFile None 0]> (files s)) (dirs s) (fs_heap s) (next_inode s))
        end
      else Some (p, with_nodes s (<[p := n]> (nodes s)))
  end.

Definition ramfs_add_child (s : fs A) (parent child : Z) : option (fs A) :=
  match nodes s !! parent with
  | None => None
  | Some n =>
      match fs_alloc s with
      | (None, _) => None
      | (Some cn, s) =>
          match dirs s !! n_device n with
          | None => None
          | Some cells => Some (with_dirs s (<[n_device n := (cn, child) :: cells]> (dirs s)))
          end
      end
  end.

(** The node exists and is a directory without an entry of that name. *)
Definition may_create (s : fs A) (node : Z) (name : cstr) : option bool :=
  match nodes s !! node with
  | None => Some false
  | Some n =>
      if negb (node_type n =? FS_DIRECTORY) then Some false
      else
        match ramfs_finddir s node name with
        | None => None
        | Some c => Some (c =? 0)
        end
  end.

(** Common to [ramfs_create], [ramfs_mknod] and [ramfs_mkdir]: [bind] completes the
    new node. *)
Definition make_entry (s : fs A) (node : Z) (name : cstr) (perm type : Z) (bind : Ramfs.node -> Ramfs.node)
    : option (Z * fs A) :=
  match may_create s node name with
  | None => None
  | Some false => Some (-1, s)
  | Some true =>
      match ramfs_make_node s name perm type with
      | None => None
      | Some (new_node, s) =>
          if new_node =? 0 then Some (-1, s)
          else
            match ramfs_add_child (with_nodes s (alter bind new_node (nodes s))) node new_node with
            | None => None
            | Some s => Some (0, s)
            end
      end
  end.

Definition ramfs_create (s : fs A) (node : Z) (name : cstr) (perm : Z) : option (Z * fs A) :=
  make_entry s node name perm FS_FILE (fun n => n).

Definition ramfs_mknod (s : fs A) (node : Z) (name : cstr) (perm flags device : Z) : option (Z * fs A) :=
  make_entry s node name perm flags (fun n => with_device n device).

Definition ramfs_mkdir (s : fs A) (node : Z) (name : cstr) (perm : Z) : option (Z * fs A) :=
  make_entry s node name perm FS_DIRECTORY
    (fun n => VNode (n_name n) (n_mask n) (n_flags n) (n_inode n) (n_length n) (n_device n) full_dir_ops).

(** Freeing a file's descriptor and buffer, its node and its cell. *)
Definition drop_child (s : fs A) (cell c : Z) (n : node) : option (fs A) :=
  let freed :=
    if negb (n_device n =? 0) && (node_type n =? FS_FILE) then
      match files s !! n_device n with
      | None => None
      | Some _ => Some (fs_free (with_files s (delete (n_device n) (files s))) (n_device n))
      end
    else Some s in
  match freed with
  | None => None
  | Some s => Some (fs_free (fs_free (with_nodes s (delete c (nodes s))) c) cell)
  end.

(** The cells without the first one whose node has the name; a directory of that
    name is an error. *)
Fixpoint unlink_cells (s : fs A) (cells : list (Z * Z)) (name : cstr) : option (option (list (Z * Z) * Z * Z * node)) :=
  match cells with
  | [] => Some None
  | (cell, c) :: rest =>
      match nodes s !! c with
      | None => None
      | Some n =>
          if bool_decide (n_name n = name) then
            if node_type n =? FS_DIRECTORY then Some None else Some (Some (rest, cell, c, n))
          else
            match unlink_cells s rest name with
            | Some (Some (rest', x, y, z)) => Some (Some ((cell, c) :: rest', x, y, z))
            | r => r
            end
      end
  end.

Definition ramfs_unlink (s : fs A) (node : Z) (name : cstr) : option (Z * fs A) :=
  match nodes s !! node with
  | None => Some (-1, s)
  | Some n =>
      if negb (node_type n =? FS_DIRECTORY) || (n_device n =? 0) then Some (-1, s)
      else
        match dirs s !! n_device n with
        | None => None
        | Some cells =>
            match unlink_cells s cells name with
            | None => None
            | Some None => Some (-1, s)
            | Some (Some (cells', cell, c, cn)) =>
                match drop_child (with_dirs s (<[n_device n := cells']> (dirs s))) cell c cn with
                | None => None
                | Some s => Some (0, s)
                end
            end
        end
  end.

Definition ramfs_rename (s : fs A) (node : Z) (old_name new_name : cstr) : option (Z * fs A) :=
  match nodes s !! node with
  | None => Some (-1, s)
  | Some n =>
      if negb (node_type n =? FS_DIRECTORY) || (n_device n =? 0) then Some (-1, s)
      else
        let replaced :=
          match ramfs_finddir s node new_name with
          | None => None
          | Some target =>
              if target =? 0 then Some (Some s)
              else
                match nodes s !! target with
                | None => None
                | Some tn =>
                    if negb (node_type tn =? FS_DIRECTORY) then
                      match ramfs_unlink s node new_name with
                      | None => None
                      | Some (_, s) => Some (Some s)
                      end
                    else Some None
                end
          end in
        match replaced with
        | None => None
        | Some None => Some (-1, s)
        | Some (Some s) =>
            match ramfs_finddir s node old_name with
            | None => None
            | Some child =>
                if child =? 0 then Some (-1, s)
                else Some (0, with_nodes s (alter (fun c => with_name c (take 127 new_name)) child (nodes s)))
            end
        end
  end.

(** Adding an existing node. *)
Definition ramfs_mount_node (s : fs A) (root node : Z) : option (fs A) :=
  match nodes s !! root, nodes s !! node with
  | Some r, Some n =>
      if negb (node_type r =? FS_DIRECTORY) then Some s
      else
        match ramfs_finddir s root (n_name n) with
        | None => None
        | Some c => if negb (c =? 0) then Some s else ramfs_add_child s root node
        end
  | _, _ => Some s
  end.

(** Turning a node into an empty directory. *)
Definition ramfs_mount_on (s : fs A) (node : Z) : option (fs A) :=
  match nodes s !! node with
  | None => Some s
  | Some n =>
      match fs_alloc s with
      | (None, s) => Some s
      | (Some d, s) =>
          let flags := Z.lor (Z.lor (Z.land (n_flags n) (u32 (Z.lnot 0x07))) FS_DIRECTORY) FS_PERSISTENT in
          let n := VNode (n_name n) (n_mask n) flags (n_inode n) (n_length n) d full_dir_ops in
          Some (Fs (<[node := n]> (nodes s)) (files s) (<[d := []]> (dirs s)) (fs_heap s) (next_inode s))
      end
  end.

(** The root directory with [dev] and [tmp]. *)
Definition ramfs_init (s : fs A) : option (Z * fs A) :=
  let s := Fs (nodes s) (files s) (dirs s) (fs_heap s) 1 in
  match ramfs_make_node s [47] 493 FS_DIRECTORY with
  | None => None
  | Some (root, s) =>
      if root =? 0 then None
      else
        let s := with_nodes s (alter (fun n => VNode (n_name n) (n_mask n) (n_flags n) (n_inode n) (n_length n)
                                                 (n_device n) full_dir_ops) root (nodes s)) in
        match ramfs_mkdir s root [100; 101; 118] 493 with
        | None => None
        | Some (_, s) =>
            match ramfs_mkdir s root [116; 109; 112] 511 with
            | None => None
            | Some (_, s) => Some (root, s)
            end
        end
  end.
End Directories.
