(* ===== verification/RamfsFile.v ===== *)
(** * File contents in the RAM file system

    Writing and reading back, growth of the buffer, and what happens when offset and
    size do not fit in 32 bits. *)

From S2P Require Import Prelude Ramfs.

(** The buffer of a file has its capacity, and the file fits in it. *)
Record file_ok (n : node) (f : ramfs_file) : Prop := {
  fo_length : 0 <= n_length n <= f_capacity f;
  fo_capacity : f_capacity f < 2 ^ 32;
  fo_data : match f_data f with None => f_capacity f = 0 | Some d => zlen d = f_capacity f end;
}.

(** [kmalloc] returns blocks of the size asked for. *)
Definition alloc_ok (alloc : Z -> option (list Z)) : Prop := forall n l, 0 <= n -> alloc n = Some l -> zlen l = n.

(** The byte at a position of the file. *)
Definition file_byte (f : ramfs_file) (i : Z) : Z := match f_data f with None => 0 | Some d => rd d i end.

(** ** Blocks *)

Lemma rd_nat l i : rd l (Z.of_nat i) = default 0 (l !! i).
Proof. unfold rd. rewrite (proj2 (Z.leb_le 0 _)) by lia. by rewrite Nat2Z.id. Qed.

Lemma read_block_spec l off n : 0 <= off -> 0 <= n -> off + n <= zlen l ->
  exists r, read_block l off n = Some r /\ zlen r = n /\ forall i, 0 <= i < n -> rd r i = rd l (off + i).
Proof.
  intros Ho Hn Hl. unfold read_block. rewrite (proj2 (Z.leb_le 0 off)), (proj2 (Z.leb_le (off + n) _)) by lia.
  cbn [andb]. eexists. split; [done|]. unfold zlen in *. split; [rewrite length_take, length_drop; lia|].
  intros i Hi. unfold rd. rewrite (proj2 (Z.leb_le 0 i)), (proj2 (Z.leb_le 0 (off + i))) by lia.
  rewrite lookup_take_lt, lookup_drop by lia. do 2 f_equal. lia.
Qed.

Lemma write_block_spec l off data : 0 <= off -> off + zlen data <= zlen l ->
  exists r, write_block l off data = Some r /\ zlen r = zlen l /\
    forall i, 0 <= i < zlen l -> rd r i = if (off <=? i) && (i <? off + zlen data) then rd data (i - off) else rd l i.
Proof.
  intros Ho Hl. unfold write_block. rewrite (proj2 (Z.leb_le 0 off)), (proj2 (Z.leb_le (off + _) _)) by lia.
  cbn [andb]. eexists. split; [done|]. unfold zlen in *. split; [by rewrite length_inserts|].
  intros i Hi. unfold rd. rewrite (proj2 (Z.leb_le 0 i)) by lia.
  destruct (Z.leb_spec off i), (Z.ltb_spec i (off + Z.of_nat (length data))); cbn [andb].
  - rewrite (proj2 (Z.leb_le 0 (i - off))) by lia. rewrite list_lookup_inserts by lia. do 2 f_equal. lia.
  - by rewrite list_lookup_inserts_ge by lia.
  - by rewrite list_lookup_inserts_lt by lia.
  - by rewrite list_lookup_inserts_lt by lia.
Qed.

Lemma list_eq_rd (a b : list Z) : zlen a = zlen b -> (forall i, 0 <= i < zlen a -> rd a i = rd b i) -> a = b.
Proof.
  unfold zlen. intros Hl Hi. apply list_eq_same_length with (length b); [done|lia|]. intros i x y Hlt Ha Hb.
  specialize (Hi (Z.of_nat i) ltac:(lia)). rewrite !rd_nat, Ha, Hb in Hi. done.
Qed.

Lemma move_data_spec n f block : file_ok n f -> n_length n <= zlen block ->
  exists d, move_data f (n_length n) block = Some d /\ zlen d = zlen block /\
    forall i, 0 <= i < n_length n -> rd d i = file_byte f i.
Proof.
  intros [Hl Hc Hd] Hb. unfold move_data, file_byte. destruct (f_data f) as [d|].
  - destruct (read_block_spec d 0 (n_length n)) as (old & -> & Hlo & Ho); [lia|lia|lia|].
    destruct (write_block_spec block 0 old) as (r & -> & Hlr & Hr); [lia|lia|]. exists r. do 2 (split; [done|]).
    intros i Hi. rewrite Hr, (proj2 (Z.leb_le 0 i)), (proj2 (Z.ltb_lt i _)) by lia. cbn [andb].
    rewrite Z.sub_0_r, Ho by lia. done.
  - exists block. do 2 (split; [done|]). lia.
Qed.

(** ** Writing *)

(** A write that succeeded: the bytes of the buffer in place, the others of the old
    file kept, and the file as long as needed. *)
Definition written (n n' : node) (f f' : ramfs_file) (offset : Z) (buffer : list Z) : Prop :=
  file_ok n' f' /\ n_length n' = Z.max (n_length n) (offset + zlen buffer) /\
  (forall i, 0 <= i < zlen buffer -> file_byte f' (offset + i) = rd buffer i) /\
  (forall i, 0 <= i < n_length n -> ~ (offset <= i < offset + zlen buffer) -> file_byte f' i = file_byte f i).

Lemma write_in_place n f f0 d offset buffer : 0 <= n_length n <= zlen d -> zlen d < 2 ^ 32 -> 0 <= offset ->
  offset + zlen buffer <= zlen d -> (forall i, 0 <= i < n_length n -> rd d i = file_byte f0 i) ->
  f = RamfsFile (Some d) (zlen d) ->
  exists d', write_block d offset buffer = Some d' /\
    written n (if u32 (offset + zlen buffer) >? n_length n then with_length n (u32 (offset + zlen buffer)) else n)
      f0 (RamfsFile (Some d') (zlen d)) offset buffer.
Proof.
  intros Hn Hlt Ho Hfit Hold ->. destruct (write_block_spec d offset buffer) as (d' & -> & Hld & Hd'); [done|done|].
  exists d'. split; [done|]. pose proof (zlen_nonneg buffer). rewrite u32_small by lia. rewrite Z.gtb_ltb.
  set (n' := if n_length n <? offset + zlen buffer then with_length n (offset + zlen buffer) else n).
  assert (Hn' : n_length n' = Z.max (n_length n) (offset + zlen buffer)).
  { unfold n'. destruct (Z.ltb_spec (n_length n) (offset + zlen buffer)); simpl; lia. }
  split; [split; simpl; [lia|lia|lia]|]. split; [done|].
  assert (Hfb : forall i, file_byte (RamfsFile (Some d') (zlen d)) i = rd d' i) by done. split.
  - intros i Hi. rewrite Hfb, Hd', (proj2 (Z.leb_le offset _)), (proj2 (Z.ltb_lt (offset + i) _)) by lia. cbn [andb].
    f_equal. lia.
  - intros i Hi Hout. rewrite Hfb, Hd' by lia.
    destruct (Z.leb_spec offset i), (Z.ltb_spec i (offset + zlen buffer)); cbn [andb]; try lia; by apply Hold.
Qed.

Lemma ramfs_write_spec alloc n f offset buffer : file_ok n f -> alloc_ok alloc -> 0 <= offset ->
  offset + zlen buffer < 2 ^ 31 ->
  (exists cap, alloc cap = None /\ ramfs_write alloc n (Some f) offset buffer = Some (0, n, Some f)) \/
  exists n' f', ramfs_write alloc n (Some f) offset buffer = Some (zlen buffer, n', Some f') /\
    written n n' f f' offset buffer.
Proof.
  intros Hok Hal Ho Hsz. pose proof Hok as [Hl Hc Hd]. pose proof (zlen_nonneg buffer) as Hb0. unfold ramfs_write.
  assert (Hu : u32 (offset + zlen buffer) = offset + zlen buffer) by (apply u32_small; lia).
  rewrite Hu. rewrite (Z.gtb_ltb _ (f_capacity f)).
  destruct (Z.ltb_spec (f_capacity f) (offset + zlen buffer)) as [Hgrow|Hfit].
  - rewrite (u32_small (_ * 2)) by lia. set (cap := if (offset + zlen buffer) * 2 <? 512 then 512 else _).
    assert (Hcap : offset + zlen buffer <= cap < 2 ^ 32).
    { unfold cap. destruct (Z.ltb_spec ((offset + zlen buffer) * 2) 512); lia. }
    destruct (alloc cap) as [block|] eqn:Ha; [|left; by exists cap].
    apply Hal in Ha; [|lia]. destruct (move_data_spec n f block Hok) as (d & -> & Hld & Hold); [lia|]. right. cbn [f_data f_capacity].
    destruct (write_in_place n (RamfsFile (Some d) (zlen d)) f d offset buffer) as (d' & -> & Hw); [lia..|done|done|].
    rewrite Hu in Hw. eexists _, _. split; [done|]. replace cap with (zlen d) by lia. exact Hw.
  - right. destruct (f_data f) as [d|] eqn:Hfd.
    + destruct (write_in_place n f f d offset buffer) as (d' & -> & Hw); [lia..| |by destruct f; simpl in *; subst|].
      { intros i Hi. unfold file_byte. by rewrite Hfd. }
      rewrite Hu in Hw. eexists _, _. split; [done|]. cbn [f_capacity]. by rewrite <- Hd.
    + assert (zlen buffer = 0) as Hz by lia. assert (offset = 0) as -> by lia. rewrite Hz, (proj2 (Z.eqb_eq 0 0)) by done.
      rewrite Z.gtb_ltb, (proj2 (Z.ltb_ge (n_length n) _)) by lia. eexists _, _. split; [done|].
      split; [done|]. split; [lia|]. split; [lia|done].
Qed.

Lemma ramfs_read_spec n f offset size : file_ok n f -> 0 <= offset -> 0 <= size -> offset + size < 2 ^ 32 ->
  exists r, ramfs_read n (Some f) offset size = Some r /\ zlen r = Z.max 0 (Z.min size (n_length n - offset)) /\
    forall i, 0 <= i < zlen r -> rd r i = file_byte f (offset + i).
Proof.
  intros [Hl Hc Hd] Ho Hs Hno. unfold ramfs_read. rewrite Z.geb_leb. destruct (Z.leb_spec (n_length n) offset).
  { exists []. split; [done|]. unfold zlen; simpl. split; [lia|]. lia. }
  rewrite u32_small, Z.gtb_ltb by lia.
  set (sz := if n_length n <? offset + size then n_length n - offset else size).
  assert (Hsz : sz = Z.min size (n_length n - offset)).
  { unfold sz. destruct (Z.ltb_spec (n_length n) (offset + size)); lia. }
  unfold file_byte. destruct (f_data f) as [d|]; [|lia].
  destruct (read_block_spec d offset sz) as (r & -> & Hlr & Hr); [lia|lia|lia|].
  exists r. split; [done|]. split; [lia|]. intros i Hi. apply Hr. lia.
Qed.

(** ** Truncation *)

Lemma ramfs_truncate_wrong_flags alloc n file len : n_flags n <> FS_FILE ->
  ramfs_truncate alloc n file len = Some (-1, n, file).
Proof.
  intros Hf. unfold ramfs_truncate. destruct file as [f|]; [|done]. by rewrite (proj2 (Z.eqb_neq _ _)).
Qed.

Lemma ramfs_truncate_spec alloc n f len : file_ok n f -> alloc_ok alloc -> 0 <= len < 2 ^ 32 -> n_flags n = FS_FILE ->
  ramfs_truncate alloc n (Some f) len = Some (-1, n, Some f) \/
  exists f', ramfs_truncate alloc n (Some f) len = Some (0, with_length n len, Some f') /\
    file_ok (with_length n len) f' /\
    forall i, 0 <= i < len -> file_byte f' i = if i <? n_length n then file_byte f i else 0.
Proof.
  intros Hok Hal Hlen Hfl. pose proof Hok as [Hl Hc Hd]. unfold ramfs_truncate. rewrite Hfl, Z.eqb_refl. cbn [negb].
  assert (Hz : forall m, 0 <= m -> zlen (zeros m) = m /\ forall i, rd (zeros m) i = 0).
  { intros m Hm. unfold zeros. split; [rewrite zlen_replicate; lia|]. intros i. unfold rd. destruct (0 <=? i); [|done].
    destruct (replicate _ _ !! _) as [v|] eqn:E; [|done]. by apply lookup_replicate in E as [-> _]. }
  destruct (Z.eqb_spec len 0) as [->|Hnz].
  { right. eexists. split; [done|]. split; [|lia]. destruct (f_data f) eqn:E; split; simpl; try rewrite E; lia. }
  rewrite !Z.gtb_ltb. destruct (Z.ltb_spec (f_capacity f) len) as [Hg|Hfit].
  - destruct (alloc len) as [block|] eqn:Ha; [|by left]. apply Hal in Ha; [|lia]. right.
    destruct (move_data_spec n f block Hok) as (d & -> & Hld & Hold); [lia|].
    rewrite (proj2 (Z.ltb_lt (n_length n) len)) by lia. destruct (Hz (len - n_length n) ltac:(lia)) as [Hzl Hzr].
    destruct (write_block_spec d (n_length n) (zeros (len - n_length n))) as (d' & -> & Hl' & Hr'); [lia|lia|].
    eexists. split; [done|]. split; [split; simpl; lia|]. intros i Hi. unfold file_byte at 1; simpl. rewrite Hr', Hzr by lia.
    destruct (Z.leb_spec (n_length n) i), (Z.ltb_spec i (n_length n + zlen (zeros (len - n_length n)))),
      (Z.ltb_spec i (n_length n)); cbn [andb]; first [done | lia | (apply Hold; lia)].
  - right. destruct (f_data f) as [d|] eqn:Hfd; [|lia]. destruct (Z.ltb_spec (n_length n) len) as [Hlt|Hge].
    + destruct (Hz (len - n_length n) ltac:(lia)) as [Hzl Hzr].
      destruct (write_block_spec d (n_length n) (zeros (len - n_length n))) as (d' & -> & Hl' & Hr'); [lia|lia|].
      eexists. split; [done|]. split; [split; simpl; lia|]. intros i Hi. unfold file_byte; simpl. rewrite Hr', Hzr, Hfd by lia.
      destruct (Z.leb_spec (n_length n) i), (Z.ltb_spec i (n_length n + zlen (zeros (len - n_length n)))),
        (Z.ltb_spec i (n_length n)); cbn [andb]; (done || lia).
    + eexists. split; [done|]. split; [split; simpl; [lia|done|by rewrite Hfd]|]. intros i Hi.
      by rewrite (proj2 (Z.ltb_lt i _)) by lia.
Qed.

(** ** The properties *)

(** C38: Data written to a file is read back, and the rest of the file keeps its
    contents and length; the write fails only when the heap has no room, and then
    changes nothing. *)
Theorem ramfs_write_read alloc n f offset buffer :
  file_ok n f -> alloc_ok alloc -> 0 <= offset -> offset + zlen buffer < 2 ^ 31 ->
  (exists cap, alloc cap = None /\ ramfs_write alloc n (Some f) offset buffer = Some (0, n, Some f)) \/
  exists n' f', ramfs_write alloc n (Some f) offset buffer = Some (zlen buffer, n', Some f') /\
    file_ok n' f' /\ n_length n' = Z.max (n_length n) (offset + zlen buffer) /\
    ramfs_read n' (Some f') offset (zlen buffer) = Some buffer /\
    forall i, 0 <= i < n_length n -> ~ (offset <= i < offset + zlen buffer) -> file_byte f' i = file_byte f i.
Proof.
  intros Hok Hal Ho Hsz. destruct (ramfs_write_spec alloc n f offset buffer Hok Hal Ho Hsz)
    as [|(n' & f' & Hw & Hok' & Hlen & Hdata & Hrest)]; [by left|right].
  exists n', f'. do 3 (split; [done|]). split; [|done]. pose proof (zlen_nonneg buffer).
  destruct (ramfs_read_spec n' f' offset (zlen buffer) Hok' Ho) as (r & -> & Hlr & Hr); [lia|lia|]. f_equal.
  apply list_eq_rd; [lia|]. intros i Hi. rewrite Hr, Hdata by lia. done.
Qed.

Definition demo_node : node := VNode [102] 420 (Z.lor FS_FILE FS_PERSISTENT) 5 0 0x9000 file_ops.
Definition demo_alloc (n : Z) : option (list Z) := Some (replicate (Z.to_nat n) 0xAA).

Lemma demo_file_ok : file_ok demo_node (RamfsFile None 0).
Proof. split; simpl; lia. Qed.

Lemma demo_alloc_ok : alloc_ok demo_alloc.
Proof. intros n l Hn [= <-]. rewrite zlen_replicate. lia. Qed.

(** The new capacity is computed in 32 bits: a write that ends between 2 GB and
    beyond 4 GB stores outside the buffer, although the heap had room for what it
    was asked for. *)
Theorem ramfs_write_overflow alloc n f offset buffer :
  file_ok n f -> (forall c, exists l, alloc c = Some l /\ zlen l = Z.max 0 c) -> 0 <= offset < 2 ^ 32 ->
  zlen buffer < 2 ^ 32 -> f_capacity f < offset + zlen buffer -> 2 ^ 31 <= offset + zlen buffer ->
  0 < zlen buffer -> ramfs_write alloc n (Some f) offset buffer = None.
Proof.
  intros Hok Hal Ho Hb Hc Hbig Hpos. unfold ramfs_write. pose proof (u32_range (offset + zlen buffer)) as Hr.
  assert (Hw : forall d, zlen d < offset + zlen buffer -> write_block d offset buffer = None).
  { intros d Hd. unfold write_block. by rewrite (proj2 (Z.leb_gt (offset + _) _)), andb_false_r by lia. }
  rewrite Z.gtb_ltb. destruct (Z.ltb_spec (f_capacity f) (u32 (offset + zlen buffer))) as [Hg|Hng].
  - set (cap := if u32 (u32 (offset + zlen buffer) * 2) <? 512 then 512 else _).
    assert (Hcap : 0 <= cap < offset + zlen buffer).
    { pose proof (u32_range (u32 (offset + zlen buffer) * 2)) as Hr2. unfold cap.
      destruct (Z.ltb_spec (u32 (u32 (offset + zlen buffer) * 2)) 512); [lia|].
      destruct (Z_lt_le_dec (offset + zlen buffer) (2 ^ 32)); [|lia].
      rewrite (u32_small (offset + zlen buffer)) in * by lia. unfold u32 in *.
      rewrite (Z.mod_eq _ (2 ^ 32)) in * by lia.
      assert ((offset + zlen buffer) * 2 / 2 ^ 32 = 1) as -> by (symmetry; apply (Z.div_unique_pos _ _ _ ((offset + zlen buffer) * 2 - 2 ^ 32)); lia).
      lia. }
    destruct (Hal cap) as (block & -> & Hlb). destruct (move_data f (n_length n) block) as [d|] eqn:Hm; [|done].
    assert (Hld : zlen d = zlen block).
    { unfold move_data, write_block in Hm. repeat case_match; simplify_eq; [|done].
      unfold zlen. by rewrite length_inserts. }
    cbn [f_data]. by rewrite Hw by lia.
  - pose proof (fo_data _ _ Hok) as Hd. destruct (f_data f) as [d|] eqn:Hfd.
    + by rewrite Hw by lia.
    + by rewrite (proj2 (Z.eqb_neq (zlen buffer) 0)) by lia.
Qed.

Lemma ramfs_write_read_witness : exists n' f',
  ramfs_write demo_alloc demo_node (Some (RamfsFile None 0)) 3 [1; 2; 3] = Some (3, n', Some f') /\
  ramfs_read n' (Some f') 3 3 = Some [1; 2; 3].
Proof.
  destruct (ramfs_write_read demo_alloc demo_node (RamfsFile None 0) 3 [1; 2; 3] demo_file_ok demo_alloc_ok)
    as [(cap & Hn & _)|(n' & f' & Hw & _ & _ & Hr & _)]; [lia|by vm_compute|discriminate Hn|].
  exists n', f'. split; [exact Hw|exact Hr].
Defined.

Lemma ramfs_write_overflow_witness :
  ramfs_write demo_alloc demo_node (Some (RamfsFile None 0)) (2 ^ 31) [1; 2; 3] = None.
Proof.
  apply (ramfs_write_overflow demo_alloc demo_node (RamfsFile None 0) (2 ^ 31) [1; 2; 3] demo_file_ok);
    [|by vm_compute..]. intros c. eexists. split; [reflexivity|]. rewrite zlen_replicate. lia.
Defined.
