(* ===== verification/RamfsDir.v ===== *)
(** * Directories of the RAM file system

    The invariant of the directory tree ([fs_wf]): every child exists, is in one
    directory only, and has a name of its own there; each directory and file node
    owns its descriptor; and every structure is a live object of the heap, of one
    kind only.  Creating, removing and renaming entries preserve it. *)

From S2P Require Import Prelude ObjAlloc Ramfs.

Inductive okind := KNode | KFile | KDir | KCell.

Section Dir.
Context {A : Type} `{!ObjAlloc A}.
Implicit Types s : fs A.

Definition is_cell s (x : Z) : Prop := exists d l c, dirs s !! d = Some l /\ (x, c) ∈ l.

(** Which address holds what. *)
Record fs_own s (own : gmap Z okind) : Prop := {
  ow_ok : obj_ok (fs_heap s);
  ow_null : 0 ∈ obj_live (fs_heap s);
  ow_node : forall a, is_Some (nodes s !! a) <-> own !! a = Some KNode;
  ow_file : forall a, is_Some (files s !! a) <-> own !! a = Some KFile;
  ow_dir : forall a, is_Some (dirs s !! a) <-> own !! a = Some KDir;
  ow_cell : forall a, is_cell s a <-> own !! a = Some KCell;
  ow_live : forall a k, own !! a = Some k -> a ∈ obj_live (fs_heap s) /\ a <> 0;
}.

(** The shape of the tree. *)
Record fs_tree s : Prop := {
  ft_uniq : forall d d' l l' i j x x' c c', dirs s !! d = Some l -> dirs s !! d' = Some l' ->
    l !! i = Some (x, c) -> l' !! j = Some (x', c') -> x = x' \/ c = c' -> d = d' /\ i = j;
  ft_child : forall d l i x c, dirs s !! d = Some l -> l !! i = Some (x, c) -> is_Some (nodes s !! c);
  ft_names : forall d l i j x x' c c' n n', dirs s !! d = Some l -> l !! i = Some (x, c) -> l !! j = Some (x', c') ->
    nodes s !! c = Some n -> nodes s !! c' = Some n' -> n_name n = n_name n' -> i = j;
  ft_dir : forall a n, nodes s !! a = Some n -> node_type n = FS_DIRECTORY -> is_Some (dirs s !! n_device n);
  ft_file : forall a n, nodes s !! a = Some n -> node_type n = FS_FILE -> is_Some (files s !! n_device n);
  ft_inj : forall a b n n', nodes s !! a = Some n -> nodes s !! b = Some n' -> node_type n = node_type n' ->
    node_type n = FS_DIRECTORY \/ node_type n = FS_FILE -> n_device n = n_device n' -> a = b;
}.

Definition fs_wf s : Prop := (exists own, fs_own s own) /\ fs_tree s.

(** ** Lookup *)

(** The entry of a directory with a given name. *)
Definition has_entry s (l : list (Z * Z)) (name : cstr) (c : Z) : Prop :=
  exists i x n, l !! i = Some (x, c) /\ nodes s !! c = Some n /\ n_name n = name.

Lemma find_child_spec s l name : (forall i x c, l !! i = Some (x, c) -> is_Some (nodes s !! c)) -> nodes s !! 0 = None ->
  exists r, find_child s l name = Some r /\ ((r = 0 /\ forall c, ~ has_entry s l name c) \/ (r <> 0 /\ has_entry s l name r)).
Proof.
  intros Hc H0. induction l as [|[x c] l IH]; cbn [find_child].
  - exists 0. split; [done|]. left. split; [done|]. by intros c (i & x & n & Hi & _).
  - destruct (Hc 0%nat x c eq_refl) as [n Hn]. rewrite Hn. case_bool_decide as Hname.
    + exists c. split; [done|]. right. split; [congruence|]. by exists 0%nat, x, n.
    + destruct IH as (r & Hr & Hcase); [intros i x' c' Hi; by apply (Hc (S i) x')|]. exists r. split; [done|].
      destruct Hcase as [[-> Hno]|[Hr0 (i & x' & n' & Hi & Hn')]]; [left|right; split; [done|]; by exists (S i), x', n'].
      split; [done|]. intros c' ([|i] & x' & n' & Hi & Hn' & Hnm); [simpl in Hi; simplify_eq; done|]. apply (Hno c'). by exists i, x', n'.
Qed.

Lemma wf_null_node s : fs_wf s -> nodes s !! 0 = None.
Proof.
  intros [[own Ho] _]. destruct (nodes s !! 0) eqn:E; [|done]. exfalso.
  assert (own !! 0 = Some KNode) as H by (apply (ow_node _ _ Ho); by eexists). by apply (ow_live _ _ Ho) in H as [_ ?].
Qed.

(** What the directory operations rely on. *)
Lemma wf_dir s a n : fs_wf s -> nodes s !! a = Some n -> node_type n = FS_DIRECTORY ->
  exists l, dirs s !! n_device n = Some l /\ n_device n <> 0.
Proof.
  intros [[own Ho] Ht] Ha Hd. destruct (ft_dir _ Ht _ _ Ha Hd) as [l Hl]. exists l. split; [done|].
  assert (own !! n_device n = Some KDir) as H by (apply (ow_dir _ _ Ho); by eexists). by apply (ow_live _ _ Ho) in H as [_ ?].
Qed.

Lemma ramfs_finddir_spec s a n l name : fs_wf s -> nodes s !! a = Some n -> node_type n = FS_DIRECTORY ->
  dirs s !! n_device n = Some l -> name <> dot -> name <> dotdot ->
  exists r, ramfs_finddir s a name = Some r /\
    ((r = 0 /\ forall c, ~ has_entry s l name c) \/ (r <> 0 /\ has_entry s l name r)).
Proof.
  intros Hwf Ha Hd Hl H1 H2. unfold ramfs_finddir. rewrite Ha.
  destruct (wf_dir _ _ _ Hwf Ha Hd) as (l' & Hl' & Hz). rewrite (proj2 (Z.eqb_neq _ 0)), Hl by done.
  rewrite !bool_decide_false by done. cbn [orb]. apply find_child_spec; [|by apply wf_null_node].
  intros i x c Hi. by apply (ft_child _ (proj2 Hwf) (n_device n) l i x c).
Qed.

(** ** Allocation *)

Lemma heap_alloc_spec s own p h K : fs_own s own -> obj_alloc (fs_heap s) = (Some p, h) ->
  own !! p = None /\ p <> 0 /\ obj_ok h /\ 0 ∈ obj_live h /\
  forall a k, <[p := K]> own !! a = Some k -> a ∈ obj_live h /\ a <> 0.
Proof.
  intros [Hok H0 _ _ _ _ Hlive] E. destruct (obj_alloc_some _ _ _ Hok E) as (Hok' & Hfr & Hl).
  assert (Hp0 : p <> 0) by congruence.
  split. { destruct (own !! p) as [k|] eqn:Hk; [|done]. by apply Hlive in Hk as [? _]. }
  split; [done|]. split; [done|]. split; [set_solver|].
  intros a k [[<- _]|[_ Hk]]%lookup_insert_Some; [split; [set_solver|done]|].
  apply Hlive in Hk as [? ?]. split; [set_solver|done].
Qed.

Lemma heap_alloc_none s own h : fs_own s own -> obj_alloc (fs_heap s) = (None, h) -> fs_own (with_heap s h) own.
Proof.
  intros [Hok H0 H1 H2 H3 H4 Hlive] E. destruct (obj_alloc_none _ _ Hok E) as [Hok' Hl].
  split; simpl; rewrite ?Hl; done.
Qed.

Lemma is_Some_insert {V} (m : gmap Z V) k v a (P : Prop) : (is_Some (m !! a) <-> P) ->
  is_Some (<[k := v]> m !! a) <-> a = k \/ P.
Proof.
  intros H. destruct (decide (a = k)) as [->|Hne].
  - rewrite lookup_insert_eq. split; [by left|]. by eexists.
  - rewrite lookup_insert_ne, H by done. naive_solver.
Qed.

(** A new node that is in no directory yet. *)
Record new_node s s' (p : Z) (n : node) : Prop := {
  nn_fresh : nodes s !! p = None;
  nn_null : p <> 0;
  nn_nodes : nodes s' = <[p := n]> (nodes s);
  nn_cells : forall d l, dirs s' !! d = Some l -> (dirs s !! d = Some l \/ (dirs s !! d = None /\ l = []));
  nn_dirs : forall d l, dirs s !! d = Some l -> dirs s' !! d = Some l;
  nn_wf : fs_wf s';
}.

(** Adding a node with its descriptor, which may be an empty directory, an empty
    file, or neither. *)
Lemma fs_tree_add s p n ds fl : fs_tree s -> nodes s !! p = None ->
  (ds = dirs s \/ dirs s !! n_device n = None /\ ds = <[n_device n := []]> (dirs s)) ->
  (forall a, is_Some (files s !! a) -> is_Some (fl !! a)) ->
  (node_type n = FS_DIRECTORY -> dirs s !! n_device n = None /\ is_Some (ds !! n_device n)) ->
  (node_type n = FS_FILE -> files s !! n_device n = None /\ is_Some (fl !! n_device n)) ->
  fs_tree (Fs (<[p := n]> (nodes s)) fl ds (fs_heap s) (next_inode s)).
Proof.
  intros [Hu Hc Hn Hd Hf Hi] Hp Hds Hfl Hnd Hnf.
  assert (Hold : forall d l i y, ds !! d = Some l -> l !! i = Some y -> dirs s !! d = Some l).
  { intros d l i y Hd' Hy. destruct Hds as [->|[_ ->]]; [done|].
    apply lookup_insert_Some in Hd' as [[_ <-]|[_ ?]]; [by rewrite lookup_nil in Hy|done]. }
  assert (Hdom : forall d, is_Some (dirs s !! d) -> is_Some (ds !! d)).
  { intros d H. destruct Hds as [->|[_ ->]]; [done|]. apply lookup_insert_is_Some. destruct (decide (n_device n = d)); [by left|by right]. }
  assert (Hnew : forall d l i x c, ds !! d = Some l -> l !! i = Some (x, c) -> c <> p).
  { intros d l i x c H1 H2 ->. pose proof (Hold _ _ _ _ H1 H2) as H3. destruct (Hc _ _ _ _ _ H3 H2). congruence. }
  split; simpl.
  - intros d d' l l' i j x x' c c' H1 H2 H3 H4. eapply Hu; [by eapply Hold|by eapply Hold|done|done].
  - intros d l i x c H1 H2. apply lookup_insert_is_Some. right. split; [symmetry; by eapply Hnew|].
    eapply Hc; [by eapply Hold|done].
  - intros d l i j x x' c c' m m' H1 H2 H3 H4 H5. rewrite lookup_insert_ne in H4, H5 by (symmetry; by eapply Hnew).
    eapply Hn; [by eapply Hold|done..].
  - intros a m [[<- <-]|[_ Hm]]%lookup_insert_Some Ht; [by apply Hnd|]. by eapply Hdom, Hd.
  - intros a m [[<- <-]|[_ Hm]]%lookup_insert_Some Ht; [by apply Hnf|]. by eapply Hfl, Hf.
  - intros a b m m' [[<- <-]|[Ha Hm]]%lookup_insert_Some [[<- <-]|[Hb Hm']]%lookup_insert_Some Ht Hty Hdev; [done| | |by eapply Hi].
    + exfalso. rewrite Hdev in Hnd, Hnf. destruct Hty as [Hty|Hty].
      * destruct (Hnd Hty) as [Hx _]. rewrite Ht in Hty. destruct (Hd _ _ Hm' Hty). congruence.
      * destruct (Hnf Hty) as [Hx _]. rewrite Ht in Hty. destruct (Hf _ _ Hm' Hty). congruence.
    + exfalso. rewrite <- Hdev in Hnd, Hnf. destruct Hty as [Hty|Hty].
      * destruct (Hd _ _ Hm Hty). rewrite Ht in Hty. destruct (Hnd Hty) as [Hx _]. congruence.
      * destruct (Hf _ _ Hm Hty). rewrite Ht in Hty. destruct (Hnf Hty) as [Hx _]. congruence.
Qed.

Lemma own_insert (own : gmap Z okind) p K a k : own !! p = None ->
  <[p := K]> own !! a = Some k <-> (a = p /\ k = K) \/ own !! a = Some k.
Proof.
  intros Hp. rewrite lookup_insert_Some. split; [naive_solver|].
  intros [[-> ->]|H]; [by left|right]. split; [congruence|done].
Qed.

(** The ownership map after one allocation, by the kind of the new object. *)
Lemma own_add_node s own p h n nxt : fs_own s own -> obj_alloc (fs_heap s) = (Some p, h) ->
  fs_own (Fs (<[p := n]> (nodes s)) (files s) (dirs s) h nxt) (<[p := KNode]> own).
Proof.
  intros Ho E. destruct (heap_alloc_spec s own p h KNode Ho E) as (Hp & Hp0 & Hok & H0 & Hl).
  destruct Ho as [_ _ H1 H2 H3 H4 _]. split; simpl; [done|done| | | | |done]; intros a; rewrite own_insert by exact Hp.
  - rewrite (is_Some_insert _ _ _ _ _ (H1 a)). naive_solver.
  - rewrite H2. naive_solver.
  - rewrite H3. naive_solver.
  - change (is_cell (Fs _ _ (dirs s) h nxt) a) with (is_cell s a). rewrite H4. naive_solver.
Qed.

Lemma own_add_file s own p h f nxt : fs_own s own -> obj_alloc (fs_heap s) = (Some p, h) ->
  fs_own (Fs (nodes s) (<[p := f]> (files s)) (dirs s) h nxt) (<[p := KFile]> own).
Proof.
  intros Ho E. destruct (heap_alloc_spec s own p h KFile Ho E) as (Hp & Hp0 & Hok & H0 & Hl).
  destruct Ho as [_ _ H1 H2 H3 H4 _]. split; simpl; [done|done| | | | |done]; intros a; rewrite own_insert by exact Hp.
  - rewrite H1. naive_solver.
  - rewrite (is_Some_insert _ _ _ _ _ (H2 a)). naive_solver.
  - rewrite H3. naive_solver.
  - change (is_cell (Fs _ _ (dirs s) h nxt) a) with (is_cell s a). rewrite H4. naive_solver.
Qed.

Lemma own_add_dir s own p h nxt : fs_own s own -> obj_alloc (fs_heap s) = (Some p, h) ->
  fs_own (Fs (nodes s) (files s) (<[p := []]> (dirs s)) h nxt) (<[p := KDir]> own).
Proof.
  intros Ho E. destruct (heap_alloc_spec s own p h KDir Ho E) as (Hp & Hp0 & Hok & H0 & Hl).
  destruct Ho as [_ _ H1 H2 H3 H4 _]. split; simpl; [done|done| | | | |done]; intros a; rewrite own_insert by exact Hp.
  - rewrite H1. naive_solver.
  - rewrite H2. naive_solver.
  - rewrite (is_Some_insert _ _ _ _ _ (H3 a)). naive_solver.
  - assert (Hc : is_cell (Fs (nodes s) (files s) (<[p := []]> (dirs s)) h nxt) a <-> is_cell s a).
    { unfold is_cell; simpl. split; intros (d & l & c & Hd & Hin); exists d, l, c; (split; [|done]).
      - apply lookup_insert_Some in Hd as [[_ <-]|[_ ?]]; [by apply not_elem_of_nil in Hin|done].
      - rewrite lookup_insert_ne; [done|]. intros <-. assert (own !! p = Some KDir) by (apply H3; by eexists). congruence. }
    rewrite Hc, H4. naive_solver.
Qed.

(** A new cell at the front of a directory. *)
Lemma own_add_cell s own p h d l c : fs_own s own -> obj_alloc (fs_heap s) = (Some p, h) -> dirs s !! d = Some l ->
  fs_own (Fs (nodes s) (files s) (<[d := (p, c) :: l]> (dirs s)) h (next_inode s)) (<[p := KCell]> own).
Proof.
  intros Ho E Hd. destruct (heap_alloc_spec s own p h KCell Ho E) as (Hp & Hp0 & Hok & H0 & Hl).
  destruct Ho as [_ _ H1 H2 H3 H4 _]. split; simpl; [done|done| | | | |done]; intros a; rewrite own_insert by exact Hp.
  - rewrite H1. naive_solver.
  - rewrite H2. naive_solver.
  - rewrite (is_Some_insert _ _ _ _ _ (H3 a)). split; [|naive_solver]. intros [->|?]; [|by right]. right.
    apply H3. by eexists.
  - assert (Hc : is_cell (Fs (nodes s) (files s) (<[d := (p, c) :: l]> (dirs s)) h (next_inode s)) a <-> a = p \/ is_cell s a).
    { unfold is_cell; simpl. split.
      - intros (d' & l' & c' & [[<- <-]|[_ Hd']]%lookup_insert_Some & Hin).
        + apply elem_of_cons in Hin as [[= -> _]|Hin]; [by left|]. right. by exists d, l, c'.
        + right. by exists d', l', c'.
      - intros [->|(d' & l' & c' & Hd' & Hin)].
        + exists d, ((p, c) :: l), c. rewrite lookup_insert_eq. split; [done|left].
        + destruct (decide (d = d')) as [<-|Hne].
          * exists d, ((p, c) :: l), c'. rewrite lookup_insert_eq. split; [done|]. right. congruence.
          * exists d', l', c'. by rewrite lookup_insert_ne. }
    rewrite Hc, H4. naive_solver.
Qed.

(** ** New entries *)

(** Kinds of node [make_entry] is used for: files, directories, and special nodes. *)
Definition entry_type (type : Z) : Prop :=
  type = FS_FILE \/ type = FS_DIRECTORY \/
  (Z.land type FS_TYPE_MASK <> FS_FILE /\ Z.land type FS_TYPE_MASK <> FS_DIRECTORY).

Lemma type_persistent type : Z.land (Z.lor type FS_PERSISTENT) FS_TYPE_MASK = Z.land type FS_TYPE_MASK.
Proof. by rewrite Z.land_lor_distr_l, Z.lor_0_r. Qed.

Lemma with_heap_wf s own h : fs_own (with_heap s h) own -> fs_tree s -> fs_wf (with_heap s h).
Proof. intros Ho [H1 H2 H3 H4 H5 H6]. split; [by exists own|]. by split. Qed.

Lemma make_node_spec s name perm type p s' : fs_wf s -> entry_type type ->
  ramfs_make_node s name perm type = Some (p, s') ->
  (p = 0 /\ fs_wf s' /\ nodes s' = nodes s /\ dirs s' = dirs s) \/
  exists n, new_node s s' p n /\ n_name n = take 127 name /\ node_type n = Z.land type FS_TYPE_MASK /\ n_length n = 0 /\
    (type = FS_FILE -> files s' !! n_device n = Some (RamfsFile None 0)) /\
    (type = FS_DIRECTORY -> dirs s' !! n_device n = Some []).
Proof.
  intros [[own Ho] Ht] Hty. unfold ramfs_make_node, fs_alloc. destruct (obj_alloc (fs_heap s)) as [[q|] h1] eqn:E1.
  2: { intros [= <- <-]. left. split; [done|]. split; [|done]. eapply with_heap_wf; [by eapply heap_alloc_none|done]. }
  destruct (heap_alloc_spec s own q h1 KNode Ho E1) as (Hq & Hq0 & _).
  assert (Hqn : nodes s !! q = None).
  { destruct (nodes s !! q) eqn:En; [|done]. assert (own !! q = Some KNode) by (apply (ow_node _ _ Ho); by eexists). congruence. }
  cbn [fs_heap with_heap nodes files dirs next_inode n_name n_mask n_flags].
  destruct (Z.eqb_spec type FS_DIRECTORY) as [->|Hnd]; [|destruct (Z.eqb_spec type FS_FILE) as [->|Hnf]].
  - destruct (obj_alloc h1) as [[d|] h2] eqn:E2; [|done]. intros [= <- <-]. right.
    set (n := VNode _ _ _ _ _ _ _). exists n.
    pose proof (own_add_node s own q h1 n (u32 (next_inode s + 1)) Ho E1) as Ho1.
    destruct (heap_alloc_spec _ _ d h2 KDir Ho1 E2) as (Hd & _).
    assert (Hdn : dirs s !! d = None).
    { destruct (dirs s !! d) eqn:En; [|done].
      assert (<[q := KNode]> own !! d = Some KDir) by (apply (ow_dir _ _ Ho1); by eexists). congruence. }
    split; [split; simpl; [done|done|done| | |]|].
    + intros d' l [[<- <-]|[_ ?]]%lookup_insert_Some; [by right|by left].
    + intros d' l Hl. rewrite lookup_insert_ne; [done|congruence].
    + split; [eexists; exact (own_add_dir _ _ d h2 _ Ho1 E2)|].
      destruct (fs_tree_add s q n (<[d := []]> (dirs s)) (files s) Ht Hqn) as [A1 A2 A3 A4 A5 A6];
        [by right|done| |done|by split]. intros _. split; [done|]. apply lookup_insert_is_Some. by left.
    + do 3 (split; [done|]). split; [done|]. intros _. simpl. by rewrite lookup_insert_eq.
  - destruct (obj_alloc h1) as [[f|] h2] eqn:E2; [|done]. intros [= <- <-]. right.
    set (n := VNode _ _ _ _ _ _ _). exists n.
    pose proof (own_add_node s own q h1 n (u32 (next_inode s + 1)) Ho E1) as Ho1.
    destruct (heap_alloc_spec _ _ f h2 KFile Ho1 E2) as (Hf & _).
    assert (Hfn : files s !! f = None).
    { destruct (files s !! f) eqn:En; [|done].
      assert (<[q := KNode]> own !! f = Some KFile) by (apply (ow_file _ _ Ho1); by eexists). congruence. }
    split; [split; simpl; [done|done|done|by left|done|]|].
    + split; [eexists; exact (own_add_file _ _ f h2 _ _ Ho1 E2)|].
      destruct (fs_tree_add s q n (dirs s) (<[f := RamfsFile None 0]> (files s)) Ht Hqn) as [A1 A2 A3 A4 A5 A6];
        [by left| |done| |by split].
      * intros a Ha. apply lookup_insert_is_Some. destruct (decide (f = a)); [by left|by right].
      * intros _. split; [done|]. apply lookup_insert_is_Some. by left.
    + do 3 (split; [done|]). split; [|done]. intros _. simpl. by rewrite lookup_insert_eq.
  - intros [= <- <-]. right. set (n := VNode _ _ _ _ _ _ _). exists n.
    pose proof (own_add_node s own q h1 n (u32 (next_inode s + 1)) Ho E1) as Ho1.
    assert (Hnt : node_type n = Z.land type FS_TYPE_MASK) by (apply type_persistent).
    split; [split; simpl; [done|done|done|by left|done|]|].
    + split; [eexists; exact Ho1|].
      destruct (fs_tree_add s q n (dirs s) (files s) Ht Hqn) as [A1 A2 A3 A4 A5 A6]; [by left|done| | |by split];
        rewrite Hnt; intros Hx; destruct Hty as [?|[?|[? ?]]]; congruence.
    + done.
Qed.

(** Completing a node changes nothing the invariant is about. *)
Lemma bind_wf s p n g : fs_wf s -> nodes s !! p = Some n ->
  n_name (g n) = n_name n -> node_type (g n) = node_type n ->
  (n_device (g n) = n_device n \/ (node_type n <> FS_FILE /\ node_type n <> FS_DIRECTORY)) ->
  fs_wf (with_nodes s (alter g p (nodes s))).
Proof.
  intros [[own Ho] [Hu Hc Hn Hd Hf Hi]] Hp Hnm Hty Hdev.
  assert (Hal : forall a m, alter g p (nodes s) !! a = Some m -> exists m0, nodes s !! a = Some m0 /\
    n_name m = n_name m0 /\ node_type m = node_type m0 /\ (n_device m = n_device m0 \/ (node_type m0 <> FS_FILE /\ node_type m0 <> FS_DIRECTORY))).
  { intros a m. destruct (decide (p = a)) as [<-|Hne].
    - rewrite lookup_alter_eq, Hp. intros [= <-]. by exists n.
    - rewrite lookup_alter_ne by done. intros Hm. exists m. by split_and!; [..|left]. }
  assert (Hdom : forall a, is_Some (alter g p (nodes s) !! a) <-> is_Some (nodes s !! a)) by (intros; apply lookup_alter_is_Some).
  split.
  - exists own. destruct Ho as [O1 O2 O3 O4 O5 O6 O7]. split; simpl; try done. intros a. by rewrite Hdom.
  - split; simpl; try done.
    + intros d l i x c H1 H2. rewrite Hdom. by eapply Hc.
    + intros d l i j x x' c c' m m' H1 H2 H3 H4 H5 H6.
      apply Hal in H4 as (m0 & H4 & E4 & _). apply Hal in H5 as (m1 & H5 & E5 & _). rewrite E4, E5 in H6. by eapply Hn.
    + intros a m (m0 & Hm & _ & -> & [->|[? ?]])%Hal Ht; [by eapply Hd|done].
    + intros a m (m0 & Hm & _ & -> & [->|[? ?]])%Hal Ht; [by eapply Hf|done].
    + intros a b m m' (m0 & Hm & _ & -> & Hx)%Hal (m1 & Hm1 & _ & -> & Hy)%Hal Ht Hk Hdd.
      destruct Hx as [Hx|[? ?]]; [|naive_solver]. destruct Hy as [Hy|[? ?]]; [|rewrite Ht in Hk; naive_solver].
      rewrite Hx, Hy in Hdd. by eapply Hi.
Qed.

Lemma add_child_spec s parent pn l child cn s' : fs_wf s -> nodes s !! parent = Some pn ->
  dirs s !! n_device pn = Some l -> nodes s !! child = Some cn ->
  (forall d l' i x, dirs s !! d = Some l' -> l' !! i <> Some (x, child)) ->
  (forall c, ~ has_entry s l (n_name cn) c) ->
  ramfs_add_child s parent child = Some s' ->
  fs_wf s' /\ nodes s' = nodes s /\ files s' = files s /\ exists x, dirs s' = <[n_device pn := (x, child) :: l]> (dirs s).
Proof.
  intros [[own Ho] [Hu Hc Hn Hd Hf Hi]] Hp Hl Hch Horph Hno. unfold ramfs_add_child, fs_alloc. rewrite Hp.
  destruct (obj_alloc (fs_heap s)) as [[x|] h] eqn:E; [|done]. cbn [dirs with_heap]. rewrite Hl. intros [= <-].
  split; [|do 2 (split; [done|]); by exists x].
  destruct (heap_alloc_spec s own x h KCell Ho E) as (Hx & _).
  assert (Hxc : forall d l' i c, dirs s !! d = Some l' -> l' !! i <> Some (x, c)).
  { intros d l' i c Hd' Hi'. assert (own !! x = Some KCell); [|congruence]. apply (ow_cell _ _ Ho).
    exists d, l', c. split; [done|]. by apply list_elem_of_lookup_2 in Hi'. }
  split; [eexists; exact (own_add_cell s own x h (n_device pn) l child Ho E Hl)|].
  (* every cell of the new state is the new one or an old one, shifted *)
  assert (Hcells : forall d l' i y c, <[n_device pn := (x, child) :: l]> (dirs s) !! d = Some l' -> l' !! i = Some (y, c) ->
    (d = n_device pn /\ i = 0%nat /\ y = x /\ c = child) \/
    exists l0 j, dirs s !! d = Some l0 /\ l0 !! j = Some (y, c) /\ i = (if decide (d = n_device pn) then S j else j)).
  { intros d l' i y c [[<- <-]|[Hne Hd']]%lookup_insert_Some Hi'.
    - destruct i as [|i]; [left; by simplify_eq/=|]. right. exists l, i. by rewrite decide_True.
    - right. exists l', i. by rewrite decide_False. }
  split; simpl; try done.
  - intros d d' l1 l2 i j y y' c c' H1 H2 H3 H4 Heq.
    destruct (Hcells _ _ _ _ _ H1 H3) as [(-> & -> & -> & ->)|(m1 & i1 & D1 & L1 & ->)],
      (Hcells _ _ _ _ _ H2 H4) as [(-> & -> & -> & ->)|(m2 & i2 & D2 & L2 & ->)]; [done| | |].
    + exfalso. destruct Heq as [<-| <-]; [by eapply Hxc|by eapply Horph].
    + exfalso. destruct Heq as [->| ->]; [by eapply Hxc|by eapply Horph].
    + destruct (Hu _ _ _ _ _ _ _ _ _ _ D1 D2 L1 L2 Heq) as [-> ->]. done.
  - intros d l1 i y c H1 H2. destruct (Hcells _ _ _ _ _ H1 H2) as [(_ & _ & _ & ->)|(m1 & i1 & D1 & L1 & _)]; [by eexists|].
    by eapply Hc.
  - intros d l1 i j y y' c c' m m' H1 H2 H3 H4 H5 Hnm.
    destruct (Hcells _ _ _ _ _ H1 H2) as [(-> & -> & -> & ->)|(m1 & i1 & D1 & L1 & ->)],
      (Hcells _ _ _ _ _ H1 H3) as [(E1 & -> & -> & ->)|(m2 & i2 & D2 & L2 & ->)]; [done| | |].
    + exfalso. apply (Hno c'). assert (m2 = l) as -> by congruence. assert (m = cn) as -> by congruence.
      by exists i2, y', m'.
    + exfalso. apply (Hno c). subst d. assert (m1 = l) as -> by congruence. assert (m' = cn) as -> by congruence.
      by exists i1, y, m.
    + assert (m2 = m1) as -> by congruence. by rewrite (Hn _ _ _ _ _ _ _ _ _ _ D1 L1 L2 H4 H5 Hnm).
  - intros a m Hm Ht. apply lookup_insert_is_Some. destruct (decide (n_device pn = n_device m)) as [->|Hne]; [by left|right].
    split; [done|by eapply Hd].
Qed.

(** A new entry was made, or nothing changed. *)
Definition entry_made s s' (pn : node) (l : list (Z * Z)) (name : cstr) (type r : Z) : Prop :=
  (r = -1 /\ nodes s' = nodes s /\ dirs s' = dirs s) \/
  (r = 0 /\ (forall c, ~ has_entry s l name c) /\
   exists x p n, p <> 0 /\ nodes s !! p = None /\ nodes s' = <[p := n]> (nodes s) /\ n_name n = name /\ node_type n = Z.land type FS_TYPE_MASK /\
     dirs s' !! n_device pn = Some ((x, p) :: l) /\
     (node_type n = FS_FILE -> files s' !! n_device n = Some (RamfsFile None 0) /\ n_length n = 0) /\
     forall d l', d <> n_device pn -> dirs s !! d = Some l' -> dirs s' !! d = Some l').

Lemma make_entry_spec s node pn l name perm type g r s' : fs_wf s -> nodes s !! node = Some pn ->
  node_type pn = FS_DIRECTORY -> dirs s !! n_device pn = Some l -> entry_type type -> (length name <= 127)%nat ->
  (forall n, n_name (g n) = n_name n /\ node_type (g n) = node_type n /\ n_length (g n) = n_length n /\
     (n_device (g n) = n_device n \/ (Z.land type FS_TYPE_MASK <> FS_FILE /\ Z.land type FS_TYPE_MASK <> FS_DIRECTORY))) ->
  make_entry s node name perm type g = Some (r, s') ->
  fs_wf s' /\ entry_made s s' pn l name type r.
Proof.
  intros Hwf Hp Hd Hl Hty Hlen Hg. unfold make_entry, may_create. rewrite Hp, Hd, Z.eqb_refl. cbn [negb].
  destruct (ramfs_finddir s node name) as [c0|] eqn:Hfd; [|done].
  destruct (Z.eqb_spec c0 0) as [->|Hc0]; [|intros [= <- <-]; split; [done|by left]].
  assert (Hno : forall c, ~ has_entry s l name c).
  { destruct (decide (name = dot)) as [->|H1].
    { unfold ramfs_finddir in Hfd. rewrite Hp in Hfd. destruct (wf_dir _ _ _ Hwf Hp Hd) as (_ & _ & Hz).
      rewrite (proj2 (Z.eqb_neq _ 0)) in Hfd by done. rewrite bool_decide_true in Hfd by done. injection Hfd as ->.
      by rewrite (wf_null_node _ Hwf) in Hp. }
    destruct (decide (name = dotdot)) as [->|H2].
    { unfold ramfs_finddir in Hfd. rewrite Hp in Hfd. destruct (wf_dir _ _ _ Hwf Hp Hd) as (_ & _ & Hz).
      rewrite (proj2 (Z.eqb_neq _ 0)) in Hfd by done. rewrite (bool_decide_true (dotdot = dotdot)), orb_true_r in Hfd by done.
      injection Hfd as ->. by rewrite (wf_null_node _ Hwf) in Hp. }
    destruct (ramfs_finddir_spec s node pn l name Hwf Hp Hd Hl H1 H2) as (r1 & Hr1 & [[_ Hn]|[Hr _]]); [done|congruence]. }
  destruct (ramfs_make_node s name perm type) as [[p s1]|] eqn:Hmk; [|done].
  destruct (make_node_spec s name perm type p s1 Hwf Hty Hmk) as [(-> & Hwf1 & Hn1 & Hd1)|(n & [Hfr Hnz Hn1 Hcl1 Hd1 Hwf1] & Hnm & Hnt & Hnl & Hfile & _)].
  { cbn [Z.eqb]. intros [= <- <-]. split; [done|by left]. }
  rewrite (proj2 (Z.eqb_neq p 0)) by done. destruct (Hg n) as (Gn & Gt & Gl & Gd).
  assert (Hpn : nodes s1 !! p = Some n) by (by rewrite Hn1, lookup_insert_eq).
  set (s2 := with_nodes s1 (alter g p (nodes s1))).
  assert (Hwf2 : fs_wf s2) by (apply (bind_wf s1 p n); [done|done|done|done|by rewrite Hnt]).
  assert (Hn2 : nodes s2 = <[p := g n]> (nodes s)).
  { simpl. rewrite Hn1. apply map_eq. intros a. destruct (decide (p = a)) as [<-|Hne].
    - by rewrite lookup_alter_eq, !lookup_insert_eq.
    - by rewrite lookup_alter_ne, !lookup_insert_ne. }
  assert (Hname : n_name (g n) = name) by (rewrite Gn, Hnm; by apply take_ge).
  destruct (ramfs_add_child s2 node p) as [s3|] eqn:Hadd; [|done]. intros [= <- <-].
  destruct (add_child_spec s2 node pn l p (g n) s3 Hwf2) as (Hwf3 & Hn3 & Hf3 & x & Hd3); [| | | | |exact Hadd|].
  - rewrite Hn2, lookup_insert_ne; [done|]. congruence.
  - by apply Hd1.
  - by rewrite Hn2, lookup_insert_eq.
  - intros d l' i y Hdl Hi. apply Hcl1 in Hdl as [Hdl|[_ ->]]; [|done].
    destruct (ft_child _ (proj2 Hwf) _ _ _ _ _ Hdl Hi). congruence.
  - intros c (i & y & m & Hi & Hm & Hmn). rewrite Hn2, lookup_insert_ne in Hm.
    + apply (Hno c). exists i, y, m. rewrite <- Hname. done.
    + intros ->. destruct (ft_child _ (proj2 Hwf) _ _ _ _ _ Hl Hi). congruence.
  - split; [done|]. right. split; [done|]. split; [done|]. exists x, p, (g n).
    split; [done|]. split; [done|]. split; [by rewrite Hn3|]. split; [done|]. split; [by rewrite Gt|].
    split; [by rewrite Hd3, lookup_insert_eq|]. split.
    + rewrite Gt, Hnt, Gl, Hf3. intros Hft. destruct Gd as [Gd|[? ?]]; [|done]. rewrite Gd.
      assert (type = FS_FILE) as -> by (destruct Hty as [?|[->|[? _]]]; [done|done|done]). split; [by apply Hfile|done].
    + intros d l' Hne Hdl. rewrite Hd3, lookup_insert_ne by congruence. by apply Hd1.
Qed.
End Dir.
