(* ===== verification/RamfsRename.v ===== *)
(** * Removing and renaming directory entries *)

From S2P Require Import Prelude ObjAlloc Ramfs RamfsDir RamfsFile.

Section Unlink.
Context {A : Type} `{!ObjAlloc A}.
Implicit Types s : fs A.

Lemma unlink_cells_spec s l name : (forall i x c, l !! i = Some (x, c) -> is_Some (nodes s !! c)) ->
  exists r, unlink_cells s l name = Some r /\
    match r with
    | None => (forall c, ~ has_entry s l name c) \/
              exists c n, has_entry s l name c /\ nodes s !! c = Some n /\ node_type n = FS_DIRECTORY
    | Some (l', x, c, n) => exists i, l !! i = Some (x, c) /\ nodes s !! c = Some n /\ n_name n = name /\
        node_type n <> FS_DIRECTORY /\ l' = delete i l
    end.
Proof.
  intros Hc. induction l as [|[x c] l IH]; cbn [unlink_cells].
  - exists None. split; [done|]. left. by intros c (i & x & n & Hi & _).
  - destruct (Hc 0%nat x c eq_refl) as [n Hn]. rewrite Hn. case_bool_decide as Hname.
    + destruct (Z.eqb_spec (node_type n) FS_DIRECTORY) as [Ht|Ht].
      * exists None. split; [done|]. right. exists c, n. split; [|done]. by exists 0%nat, x, n.
      * eexists. split; [done|]. by exists 0%nat.
    + destruct IH as (r & -> & Hr); [intros i x' c' Hi; by apply (Hc (S i) x')|].
      destruct r as [[[[l' y] c1] n1]|].
      * eexists. split; [done|]. destruct Hr as (i & Hi & H1 & H2 & H3 & ->). by exists (S i).
      * exists None. split; [done|]. destruct Hr as [Hno|(c1 & n1 & (i & y & m & Hi & Hm) & Hn1 & Ht)]; [left|right].
        -- intros c1 ([|i] & y & m & Hi & Hm & Hmn); [simpl in Hi; simplify_eq; done|]. apply (Hno c1). by exists i, y, m.
        -- exists c1, n1. split; [|done]. by exists (S i), y, m.
Qed.

(** What the heap keeps when one object is freed. *)
Lemma heap_free_spec (h : A) (own : gmap Z okind) a k : obj_ok h -> 0 ∈ obj_live h ->
  (forall a k, own !! a = Some k -> a ∈ obj_live h /\ a <> 0) -> own !! a = Some k ->
  obj_ok (obj_free h a) /\ 0 ∈ obj_live (obj_free h a) /\
  (forall b k, delete a own !! b = Some k -> b ∈ obj_live (obj_free h a) /\ b <> 0).
Proof.
  intros Hok H0 Hl Ha. destruct (Hl _ _ Ha) as [Hlive Hnz]. destruct (obj_free_live _ _ Hok Hlive) as [Hok' ->].
  split; [done|]. split; [set_solver|]. intros b k' [Hne Hb]%lookup_delete_Some. apply Hl in Hb as [? ?].
  split; [set_solver|done].
Qed.

(** Position of a cell before another one was removed. *)
Definition unshift (i j : nat) : nat := if decide (j < i)%nat then j else S j.

Lemma lookup_delete_unshift (l : list (Z * Z)) i j y : delete i l !! j = Some y -> l !! unshift i j = Some y.
Proof.
  unfold unshift. destruct (decide (j < i)%nat) as [Hlt|Hge].
  - by rewrite list_lookup_delete_lt by lia.
  - by rewrite list_lookup_delete_ge by lia.
Qed.

Lemma unshift_ne i j : unshift i j <> i.
Proof. unfold unshift. destruct (decide (j < i)%nat); lia. Qed.

Lemma unshift_inj i j j' : unshift i j = unshift i j' -> j = j'.
Proof. unfold unshift. destruct (decide (j < i)%nat), (decide (j' < i)%nat); lia. Qed.

Lemma delete_unshift (l : list (Z * Z)) i j y : l !! j = Some y -> j <> i -> exists j', delete i l !! j' = Some y.
Proof.
  intros Hj Hne. destruct (decide (j < i)%nat) as [Hlt|Hge].
  - exists j. by rewrite list_lookup_delete_lt.
  - exists (pred j). rewrite list_lookup_delete_ge by lia. by replace (S (pred j)) with j by lia.
Qed.

(** The tree without one leaf. *)
Lemma fs_tree_drop s d l i x c n fl (h : A) : fs_tree s -> dirs s !! d = Some l -> l !! i = Some (x, c) ->
  nodes s !! c = Some n -> node_type n <> FS_DIRECTORY ->
  (fl = files s \/ node_type n = FS_FILE /\ fl = delete (n_device n) (files s)) ->
  fs_tree (Fs (delete c (nodes s)) fl (<[d := delete i l]> (dirs s)) h (next_inode s)).
Proof.
  intros [Hu Hc Hn Hd Hf Hi] Hl Hli Hcn Hty Hfl.
  assert (Hcells : forall d' l' j y b, <[d := delete i l]> (dirs s) !! d' = Some l' -> l' !! j = Some (y, b) ->
    exists l0, dirs s !! d' = Some l0 /\ l0 !! (if decide (d' = d) then unshift i j else j) = Some (y, b) /\ b <> c).
  { intros d' l' j y b [[<- <-]|[Hne Hd']]%lookup_insert_Some Hj.
    - exists l. rewrite decide_True by done. pose proof (lookup_delete_unshift _ _ _ _ Hj) as Hj'. do 2 (split; [done|]).
      intros ->. destruct (Hu _ _ _ _ _ _ _ _ _ _ Hl Hl Hj' Hli (or_intror eq_refl)) as [_ E]. by apply unshift_ne in E.
    - exists l'. rewrite decide_False by done. do 2 (split; [done|]). intros ->.
      by destruct (Hu _ _ _ _ _ _ _ _ _ _ Hd' Hl Hj Hli (or_intror eq_refl)) as [E _]. }
  split; simpl.
  - intros d1 d2 l1 l2 j1 j2 y1 y2 b1 b2 H1 H2 H3 H4 He.
    destruct (Hcells _ _ _ _ _ H1 H3) as (m1 & D1 & L1 & _), (Hcells _ _ _ _ _ H2 H4) as (m2 & D2 & L2 & _).
    destruct (Hu _ _ _ _ _ _ _ _ _ _ D1 D2 L1 L2 He) as [-> E]. split; [done|].
    destruct (decide (d2 = d)); [by eapply unshift_inj|done].
  - intros d1 l1 j y b H1 H2. destruct (Hcells _ _ _ _ _ H1 H2) as (m1 & D1 & L1 & Hne). rewrite lookup_delete_ne by done.
    by eapply Hc.
  - intros d1 l1 j1 j2 y1 y2 b1 b2 m1 m2 H1 H2 H3 H4 H5 He.
    destruct (Hcells _ _ _ _ _ H1 H2) as (q1 & D1 & L1 & _), (Hcells _ _ _ _ _ H1 H3) as (q2 & D2 & L2 & _).
    assert (q2 = q1) as -> by congruence. apply lookup_delete_Some in H4 as [_ H4]. apply lookup_delete_Some in H5 as [_ H5].
    pose proof (Hn _ _ _ _ _ _ _ _ _ _ D1 L1 L2 H4 H5 He) as E. destruct (decide (d1 = d)); [by eapply unshift_inj|done].
  - intros a m [_ Hm]%lookup_delete_Some Ht. apply lookup_insert_is_Some.
    destruct (decide (d = n_device m)) as [->|]; [by left|right]. split; [done|by eapply Hd].
  - intros a m [Hne Hm]%lookup_delete_Some Ht. destruct Hfl as [->|[Hft ->]]; [by eapply Hf|].
    rewrite lookup_delete_ne; [by eapply Hf|]. intros E. apply Hne. eapply (Hi c a n m); [done|done|congruence|by right|done].
  - intros a b m m' [_ Hm]%lookup_delete_Some [_ Hm']%lookup_delete_Some. by eapply Hi.
Qed.

(** The cells without one. *)
Lemma cell_drop s d l i x c N fl h k : fs_tree s -> dirs s !! d = Some l -> l !! i = Some (x, c) ->
  forall a, is_cell (Fs N fl (<[d := delete i l]> (dirs s)) (h : A) k) a <-> is_cell s a /\ a <> x.
Proof.
  intros Ht Hl Hli a. unfold is_cell; simpl. split.
  - intros (d' & l' & b & [[<- <-]|[Hne Hd']]%lookup_insert_Some & [j Hj]%list_elem_of_lookup_1).
    + apply lookup_delete_unshift in Hj. split; [exists d, l, b; split; [done|by apply list_elem_of_lookup_2 in Hj]|].
      intros ->. destruct (ft_uniq _ Ht _ _ _ _ _ _ _ _ _ _ Hl Hl Hj Hli (or_introl eq_refl)) as [_ E]. by apply unshift_ne in E.
    + split; [exists d', l', b; split; [done|by apply list_elem_of_lookup_2 in Hj]|]. intros ->.
      by destruct (ft_uniq _ Ht _ _ _ _ _ _ _ _ _ _ Hd' Hl Hj Hli (or_introl eq_refl)) as [E _].
  - intros [(d' & l' & b & Hd' & [j Hj]%list_elem_of_lookup_1) Hne]. destruct (decide (d = d')) as [<-|Hdd].
    + assert (l' = l) as -> by congruence. destruct (decide (j = i)) as [->|Hji]; [congruence|].
      destruct (delete_unshift _ _ _ _ Hj Hji) as [j' Hj']. exists d, (delete i l), b. rewrite lookup_insert_eq.
      split; [done|by apply list_elem_of_lookup_2 in Hj'].
    + exists d', l', b. rewrite lookup_insert_ne by done. split; [done|by apply list_elem_of_lookup_2 in Hj].
Qed.

(** Ownership once the node and the cell are freed, its descriptor already being gone. *)
Lemma fs_own_free s own d l i x c h (own1 : gmap Z okind) fl k : fs_own s own -> fs_tree s ->
  dirs s !! d = Some l -> l !! i = Some (x, c) -> is_Some (nodes s !! c) ->
  obj_ok h -> 0 ∈ obj_live h -> (forall a k, own1 !! a = Some k -> a ∈ obj_live h /\ a <> 0) ->
  (forall a k, k <> KFile -> own1 !! a = Some k <-> own !! a = Some k) -> (forall a, is_Some (fl !! a) <-> own1 !! a = Some KFile) ->
  exists own', fs_own (Fs (delete c (nodes s)) fl (<[d := delete i l]> (dirs s)) (obj_free (obj_free h c) x) k) own'.
Proof.
  intros [_ _ H1 _ H3 H4 _] Ht Hl Hli Hc G1 G2 G3 Gk Gf. exists (delete x (delete c own1)).
  assert (Gc : own1 !! c = Some KNode) by (by apply Gk, H1).
  assert (Gx : own1 !! x = Some KCell).
  { apply Gk, H4; [done|]. exists d, l, c. split; [done|]. by apply list_elem_of_lookup_2 in Hli. }
  destruct (heap_free_spec h own1 c KNode G1 G2 G3 Gc) as (K1 & K2 & K3). assert (x <> c) by congruence.
  destruct (heap_free_spec (obj_free h c) (delete c own1) x KCell K1 K2 K3) as (L1 & L2 & L3); [by rewrite lookup_delete_ne|].
  assert (Hdel : forall a k, k <> KNode -> k <> KCell -> delete x (delete c own1) !! a = Some k <-> own1 !! a = Some k).
  { intros a k' N1 N2. rewrite !lookup_delete_Some. split; [tauto|]. intros Ha. split; [congruence|]. split; [congruence|done]. }
  split; simpl; [done|done| | | | |done]; intros a.
  - rewrite !lookup_delete_Some, Gk by done. rewrite <- H1. split.
    + intros [v [Hne Hv]%lookup_delete_Some]. split; [|split; [done|by eexists]]. intros <-.
      assert (own1 !! x = Some KNode) by (apply Gk, H1; [done|by eexists]). congruence.
    + intros (_ & Hne & Hs). by rewrite lookup_delete_ne.
  - rewrite Hdel by done. apply Gf.
  - rewrite Hdel, Gk by done. rewrite <- H3, lookup_insert_is_Some. split; [intros [<-|[_ ?]]; [by eexists|done]|].
    destruct (decide (d = a)); [by left|by right].
  - rewrite !lookup_delete_Some, Gk by done. rewrite (cell_drop s d l i x c) by done. rewrite H4. split.
    + intros [Ha Hne]. split; [done|]. split; [|done]. apply Gk in Ha; [congruence|done].
    + intros (Hne & _ & Ha). by split.
Qed.

(** The leaf is freed: its descriptor, its node and its cell. *)
Lemma drop_child_spec s d l i x c n : fs_wf s -> dirs s !! d = Some l -> l !! i = Some (x, c) ->
  nodes s !! c = Some n -> node_type n <> FS_DIRECTORY ->
  exists s', drop_child (with_dirs s (<[d := delete i l]> (dirs s))) x c n = Some s' /\ fs_wf s' /\
    nodes s' = delete c (nodes s) /\ dirs s' = <[d := delete i l]> (dirs s) /\ next_inode s' = next_inode s /\
    (files s' = files s \/ node_type n = FS_FILE /\ files s' = delete (n_device n) (files s)).
Proof.
  intros [[own Ho] Ht] Hl Hli Hcn Hty. pose proof Ho as [Hok H0 _ H2 _ _ H5].
  unfold drop_child. cbn [files with_dirs]. destruct (negb (n_device n =? 0) && (node_type n =? FS_FILE)) eqn:Hcase.
  - apply andb_true_iff in Hcase as [Hd0 Hft%Z.eqb_eq]. destruct (ft_file _ Ht _ _ Hcn Hft) as [f Hf]. rewrite Hf. eexists. split; [done|].
    assert (Hof : own !! n_device n = Some KFile) by (apply H2; by eexists).
    destruct (heap_free_spec (fs_heap s) own (n_device n) KFile Hok H0 H5 Hof) as (K1 & K2 & K3).
    split; [split|do 3 (split; [done|])].
    + apply (fs_own_free s own d l i x c (obj_free (fs_heap s) (n_device n)) (delete (n_device n) own)); try done.
      * intros a k Hk. rewrite lookup_delete_Some. split; [tauto|]. intros Ha. split; [congruence|done].
      * intros a. cbn. rewrite lookup_delete_Some, <- H2. split.
        -- intros [v [? ?]%lookup_delete_Some]. split; [done|by eexists].
        -- intros [? ?]. by rewrite lookup_delete_ne.
    + apply (fs_tree_drop s d l i x c n); try done. by right.
    + by right.
  - eexists. split; [done|]. split; [split; [|apply (fs_tree_drop s d l i x c n); try done; by left]|do 3 (split; [done|]); by left].
    by apply (fs_own_free s own d l i x c (fs_heap s) own).
Qed.

(** The directory without the leaf of a name. *)
Definition unlinked s s' (d : Z) (l : list (Z * Z)) (name : cstr) : Prop :=
  exists i x c n, l !! i = Some (x, c) /\ nodes s !! c = Some n /\ n_name n = name /\ node_type n <> FS_DIRECTORY /\
    nodes s' = delete c (nodes s) /\ dirs s' = <[d := delete i l]> (dirs s) /\
    (files s' = files s \/ node_type n = FS_FILE /\ files s' = delete (n_device n) (files s)).

Definition dir_entry s (l : list (Z * Z)) (name : cstr) : Prop :=
  exists c n, has_entry s l name c /\ nodes s !! c = Some n /\ node_type n = FS_DIRECTORY.

Lemma ramfs_unlink_spec s a n l name : fs_wf s -> nodes s !! a = Some n -> node_type n = FS_DIRECTORY ->
  dirs s !! n_device n = Some l ->
  exists r s', ramfs_unlink s a name = Some (r, s') /\ fs_wf s' /\
    (r = -1 /\ s' = s /\ ((forall c, ~ has_entry s l name c) \/ dir_entry s l name) \/
     r = 0 /\ unlinked s s' (n_device n) l name).
Proof.
  intros Hwf Ha Hd Hl. unfold ramfs_unlink. destruct (wf_dir _ _ _ Hwf Ha Hd) as (_ & _ & Hz).
  rewrite Ha, Hd, Z.eqb_refl, (proj2 (Z.eqb_neq _ 0)), Hl by done. cbn [negb orb].
  destruct (unlink_cells_spec s l name) as (r & -> & Hr).
  { intros i x c Hi. by apply (ft_child _ (proj2 Hwf) (n_device n) l i x c). }
  destruct r as [[[[l' x] c] m]|].
  - destruct Hr as (i & Hi & Hc & Hm & Ht & ->).
    destruct (drop_child_spec s (n_device n) l i x c m Hwf Hl Hi Hc Ht) as (s' & -> & Hwf' & H1 & H2 & _ & H3).
    exists 0, s'. split; [done|]. split; [done|]. right. split; [done|]. by exists i, x, c, m.
  - exists (-1), s. split; [done|]. split; [done|]. by left.
Qed.

(** The name is gone after its leaf is removed. *)
Lemma unlinked_no_entry s s' d l name : fs_wf s -> dirs s !! d = Some l -> unlinked s s' d l name ->
  exists l', dirs s' !! d = Some l' /\ forall c, ~ has_entry s' l' name c.
Proof.
  intros [_ Ht] Hl (i & x & c & n & Hi & Hc & Hn & _ & Hn' & Hd' & _). exists (delete i l). rewrite Hd', lookup_insert_eq.
  split; [done|]. intros c' (j & y & m & Hj%lookup_delete_unshift & Hm & Hmn). rewrite Hn' in Hm.
  apply lookup_delete_Some in Hm as [_ Hm]. apply (unshift_ne i j). eapply (ft_names _ Ht); [exact Hl|exact Hj|exact Hi|exact Hm|exact Hc|congruence].
Qed.

(** Every other name keeps its node. *)
Lemma unlinked_other s s' d l name name' c : fs_wf s -> dirs s !! d = Some l -> unlinked s s' d l name -> name' <> name ->
  has_entry s l name' c <-> has_entry s' (default [] (dirs s' !! d)) name' c.
Proof.
  intros [_ Ht] Hl (i & x & b & n & Hi & Hc & Hn & _ & Hn' & Hd' & _) Hne. rewrite Hd', lookup_insert_eq. cbn [default].
  unfold has_entry. rewrite Hn'. split.
  - intros (j & y & m & Hj & Hm & Hmn). assert (Hji : j <> i) by (intros ->; congruence).
    destruct (delete_unshift l i j _ Hj Hji) as [j' Hj']. exists j', y, m. split; [done|]. split; [|done].
    rewrite lookup_delete_ne; [done|]. intros ->. congruence.
  - intros (j & y & m & Hj%lookup_delete_unshift & [_ Hm]%lookup_delete_Some & Hmn). by eexists _, y, m.
Qed.

(** Giving an entry a name that no entry of the directory has. *)
Lemma rename_wf s d l c name : fs_wf s -> dirs s !! d = Some l -> (exists i x, l !! i = Some (x, c)) ->
  (forall b, ~ has_entry s l name b) -> fs_wf (with_nodes s (alter (fun n => with_name n name) c (nodes s))).
Proof.
  intros [[own [H1 H2 H3 H4 H5 H6 H7]] [Hu Hc Hn Hd Hf Hi]] Hl (i & x & Hx) Hno.
  assert (Hlk : forall a m, alter (fun n => with_name n name) c (nodes s) !! a = Some m ->
    exists m0, nodes s !! a = Some m0 /\ node_type m = node_type m0 /\ n_device m = n_device m0 /\
      n_name m = if decide (a = c) then name else n_name m0).
  { intros a m. destruct (decide (a = c)) as [->|Hne]; [rewrite lookup_alter_eq|rewrite lookup_alter_ne by done].
    - intros (m0 & Hm0 & ->)%fmap_Some. by exists m0.
    - intros Hm. by exists m. }
  split.
  - exists own. split; simpl; [done|done| |done|done|done|done]. intros a. rewrite lookup_alter_is_Some. apply H3.
  - split; simpl; [done| | | | |].
    + intros d1 l1 j y b K1 K2. rewrite lookup_alter_is_Some. by eapply Hc.
    + intros d1 l1 j1 j2 y1 y2 b1 b2 m1 m2 K1 K2 K3 (q1 & Q1 & _ & _ & N1)%Hlk (q2 & Q2 & _ & _ & N2)%Hlk E.
      rewrite N1, N2 in E. destruct (decide (b1 = c)) as [->|B1], (decide (b2 = c)) as [->|B2].
      * by destruct (Hu _ _ _ _ _ _ _ _ _ _ K1 K1 K2 K3 (or_intror eq_refl)).
      * exfalso. destruct (Hu _ _ _ _ _ _ _ _ _ _ K1 Hl K2 Hx (or_intror eq_refl)) as [-> _]. apply (Hno b2).
        exists j2, y2, q2. split; [congruence|]. by split.
      * exfalso. destruct (Hu _ _ _ _ _ _ _ _ _ _ K1 Hl K3 Hx (or_intror eq_refl)) as [-> _]. apply (Hno b1).
        exists j1, y1, q1. split; [congruence|]. by split.
      * by eapply Hn.
    + intros a m (q & Q & T & D & _)%Hlk Ht. rewrite D. eapply Hd; [done|congruence].
    + intros a m (q & Q & T & D & _)%Hlk Ht. rewrite D. eapply Hf; [done|congruence].
    + intros a b m m' (q & Q & T & D & _)%Hlk (q' & Q' & T' & D' & _)%Hlk. rewrite T, T', D, D'. by eapply Hi.
Qed.

(** ** Lookup in terms of the entries *)

Lemma has_entry_fun s d l name c c' : fs_wf s -> dirs s !! d = Some l -> has_entry s l name c -> has_entry s l name c' -> c = c'.
Proof.
  intros [_ Ht] Hl (i & x & n & Hi & Hn & Hnm) (j & y & m & Hj & Hm & Hmn).
  assert (i = j) as -> by (eapply (ft_names _ Ht); [exact Hl|exact Hi|exact Hj|exact Hn|exact Hm|congruence]). congruence.
Qed.

Definition ordinary (name : cstr) : Prop := name <> dot /\ name <> dotdot.

Lemma finddir_entry s a n l name c : fs_wf s -> nodes s !! a = Some n -> node_type n = FS_DIRECTORY ->
  dirs s !! n_device n = Some l -> ordinary name -> has_entry s l name c -> ramfs_finddir s a name = Some c.
Proof.
  intros Hwf Ha Hd Hl [H1 H2] Hc. destruct (ramfs_finddir_spec s a n l name Hwf Ha Hd Hl H1 H2) as (r & -> & [[_ Hno]|[_ Hr]]).
  - by destruct (Hno c).
  - by rewrite (has_entry_fun s (n_device n) l name r c).
Qed.

Lemma finddir_absent s a n l name : fs_wf s -> nodes s !! a = Some n -> node_type n = FS_DIRECTORY ->
  dirs s !! n_device n = Some l -> ordinary name -> (forall c, ~ has_entry s l name c) -> ramfs_finddir s a name = Some 0.
Proof.
  intros Hwf Ha Hd Hl [H1 H2] Hno. destruct (ramfs_finddir_spec s a n l name Hwf Ha Hd Hl H1 H2) as (r & -> & [[-> _]|[_ Hr]]); [done|].
  by destruct (Hno r).
Qed.

Lemma finddir_same s s' a n n' l l' name : fs_wf s -> fs_wf s' -> nodes s !! a = Some n -> nodes s' !! a = Some n' ->
  node_type n = FS_DIRECTORY -> node_type n' = FS_DIRECTORY -> dirs s !! n_device n = Some l -> dirs s' !! n_device n' = Some l' ->
  (forall c, has_entry s l name c <-> has_entry s' l' name c) -> ramfs_finddir s' a name = ramfs_finddir s a name.
Proof.
  intros Hwf Hwf' Ha Ha' Hd Hd' Hl Hl' Hsame. destruct (wf_dir _ _ _ Hwf Ha Hd) as (_ & _ & Hz), (wf_dir _ _ _ Hwf' Ha' Hd') as (_ & _ & Hz').
  destruct (decide (name = dot \/ name = dotdot)) as [Hdot|Hdot].
  { unfold ramfs_finddir. rewrite Ha, Ha', !(proj2 (Z.eqb_neq _ 0)) by done.
    destruct Hdot as [->| ->]; [by rewrite !(bool_decide_true (dot = dot))|]. by rewrite !(bool_decide_true (dotdot = dotdot)), !orb_true_r. }
  assert (Hord : ordinary name) by (unfold ordinary; tauto). destruct Hord as [H1 H2].
  destruct (ramfs_finddir_spec s a n l name Hwf Ha Hd Hl H1 H2) as (r & -> & [[-> Hno]|[_ Hr]]).
  - apply (finddir_absent s' a n' l'); try done. intros c Hc. apply (Hno c). by apply Hsame.
  - apply (finddir_entry s' a n' l'); try done. by apply Hsame.
Qed.

(** ** Renaming *)

(** The directory after the entry of the new name, if any, made room. *)
Definition cleared s s' (d : Z) (l : list (Z * Z)) (name : cstr) : Prop :=
  (s' = s /\ forall c, ~ has_entry s l name c) \/ unlinked s s' d l name.

Lemma cleared_no_entry s s' d l name : fs_wf s -> dirs s !! d = Some l -> cleared s s' d l name ->
  exists l', dirs s' !! d = Some l' /\ (forall c, ~ has_entry s' l' name c) /\
    forall name' c, name' <> name -> has_entry s l name' c <-> has_entry s' l' name' c.
Proof.
  intros Hwf Hl [[-> Hno]|Hu]; [by exists l|]. destruct (unlinked_no_entry _ _ _ _ _ Hwf Hl Hu) as (l' & Hl' & Hno).
  exists l'. split; [done|]. split; [done|]. intros name' c Hne. rewrite (unlinked_other s s' d l name name' c) by done.
  by rewrite Hl'.
Qed.

Lemma cleared_node s s' d l name a n : fs_wf s -> cleared s s' d l name -> nodes s !! a = Some n ->
  node_type n = FS_DIRECTORY -> nodes s' !! a = Some n.
Proof.
  intros Hwf [[-> _]|(i & x & c & m & _ & Hc & _ & Ht & -> & _)] Ha Hd; [done|]. rewrite lookup_delete_ne; [done|]. congruence.
Qed.

Definition renamed s' s'' (l' : list (Z * Z)) (old_name new_name : cstr) (r : Z) : Prop :=
  (r = -1 /\ s'' = s' /\ forall c, ~ has_entry s' l' old_name c) \/
  (r = 0 /\ exists c, c <> 0 /\ has_entry s' l' old_name c /\
     s'' = with_nodes s' (alter (fun n => with_name n new_name) c (nodes s'))).

Lemma ramfs_rename_spec s a n l old_name new_name : fs_wf s -> nodes s !! a = Some n -> node_type n = FS_DIRECTORY ->
  dirs s !! n_device n = Some l -> ordinary old_name -> ordinary new_name -> (length new_name <= 127)%nat ->
  exists r s', ramfs_rename s a old_name new_name = Some (r, s') /\ fs_wf s' /\
    ((r = -1 /\ s' = s /\ dir_entry s l new_name) \/
     exists s1 l1, fs_wf s1 /\ cleared s s1 (n_device n) l new_name /\ dirs s1 !! n_device n = Some l1 /\
       renamed s1 s' l1 old_name new_name r).
Proof.
  intros Hwf Ha Hd Hl [Ho1 Ho2] [Hn1 Hn2] Hlen. destruct (wf_dir _ _ _ Hwf Ha Hd) as (_ & _ & Hz).
  unfold ramfs_rename. rewrite Ha, Hd, Z.eqb_refl, (proj2 (Z.eqb_neq _ 0)) by done. cbn [negb orb]. rewrite take_ge by done.
  assert (Hgo : forall s1, fs_wf s1 -> cleared s s1 (n_device n) l new_name ->
    exists r s', match ramfs_finddir s1 a old_name with
      | None => None
      | Some child => if child =? 0 then Some (-1, s1)
          else Some (0, with_nodes s1 (alter (fun c => with_name c new_name) child (nodes s1))) end = Some (r, s') /\
      fs_wf s' /\ exists l1, dirs s1 !! n_device n = Some l1 /\ renamed s1 s' l1 old_name new_name r).
  { intros s1 Hwf1 Hcl. destruct (cleared_no_entry _ _ _ _ _ Hwf Hl Hcl) as (l1 & Hl1 & Hno & _).
    pose proof (cleared_node _ _ _ _ _ _ _ Hwf Hcl Ha Hd) as Ha1.
    destruct (ramfs_finddir_spec s1 a n l1 old_name Hwf1 Ha1 Hd Hl1 Ho1 Ho2) as (c & -> & [[-> Hnc]|[Hc0 Hc]]).
    - exists (-1), s1. split; [done|]. split; [done|]. exists l1. split; [done|]. by left.
    - rewrite (proj2 (Z.eqb_neq c 0)) by done. eexists 0, _. split; [done|]. split.
      + apply (rename_wf s1 (n_device n) l1); try done. destruct Hc as (i & x & m & Hi & _). by exists i, x.
      + exists l1. split; [done|]. right. split; [done|]. by exists c. }
  destruct (ramfs_finddir_spec s a n l new_name Hwf Ha Hd Hl Hn1 Hn2) as (t & -> & [[-> Hno]|[Ht0 Ht]]).
  - cbn [Z.eqb]. destruct (Hgo s Hwf) as (r & s' & -> & Hwf' & l1 & H); [by left|]. exists r, s'. split; [done|]. split; [done|].
    right. exists s, l1. split; [done|]. split; [by left|done].
  - rewrite (proj2 (Z.eqb_neq t 0)) by done. pose proof Ht as (i & x & tn & Hi & Htn & Hnm). rewrite Htn.
    destruct (Z.eqb_spec (node_type tn) FS_DIRECTORY) as [Htd|Htd]; cbn [negb].
    { exists (-1), s. split; [done|]. split; [done|]. left. do 2 (split; [done|]). by exists t, tn. }
    destruct (ramfs_unlink_spec s a n l new_name Hwf Ha Hd Hl) as (r1 & s1 & -> & Hwf1 & [(_ & _ & Hbad)|[_ Hu]]).
    { exfalso. destruct Hbad as [Hbad|(c & m & Hc & Hm & Hmt)]; [by destruct (Hbad t)|].
      assert (c = t) as -> by exact (has_entry_fun s _ l new_name c t Hwf Hl Hc Ht). congruence. }
    destruct (Hgo s1 Hwf1) as (r & s' & -> & Hwf' & l1 & H); [by right|]. exists r, s'. split; [done|]. split; [done|].
    right. exists s1, l1. split; [done|]. split; [by right|done].
Qed.
End Unlink.
