(* ===== verification/RamfsThms.v ===== *)
(** * The properties of the RAM file system's directories *)

From S2P Require Import Prelude ObjAlloc Ramfs RamfsDir RamfsRename RamfsFile.

Section Reach.
Context {A : Type} `{!ObjAlloc A}.
Implicit Types s : fs A.

(** The operations a client calls on a node; [ramfs_mknod] is called with the type of a
    device, pipe or socket.  A step is a call that ends: where the heap is empty, making an
    entry may store through a null pointer.  Names are shorter than the field of a node,
    which cuts longer ones off, and a directory is not renamed through its entry [.] or
    [..] (see [ramfs_rename_dot]). *)
Inductive fs_step s : fs A -> Prop :=
  | step_create a name perm r s' : (length name <= 127)%nat -> ramfs_create s a name perm = Some (r, s') -> fs_step s s'
  | step_mkdir a name perm r s' : (length name <= 127)%nat -> ramfs_mkdir s a name perm = Some (r, s') -> fs_step s s'
  | step_mknod a name perm flags dev r s' : (length name <= 127)%nat ->
      Z.land flags FS_TYPE_MASK <> FS_FILE -> Z.land flags FS_TYPE_MASK <> FS_DIRECTORY ->
      Z.land flags FS_TYPE_MASK <> FS_SYMLINK -> ramfs_mknod s a name perm flags dev = Some (r, s') -> fs_step s s'
  | step_unlink a name r s' : ramfs_unlink s a name = Some (r, s') -> fs_step s s'
  | step_rename a old_name new_name r s' : ordinary old_name -> (length new_name <= 127)%nat ->
      ramfs_rename s a old_name new_name = Some (r, s') -> fs_step s s'
  | step_mount_on a s' : ramfs_mount_on s a = Some s' -> fs_step s s'.

Lemma make_entry_wf s a name perm type g r s' : fs_wf s -> entry_type type -> (length name <= 127)%nat ->
  (forall n, n_name (g n) = n_name n /\ node_type (g n) = node_type n /\ n_length (g n) = n_length n /\
     (n_device (g n) = n_device n \/ (Z.land type FS_TYPE_MASK <> FS_FILE /\ Z.land type FS_TYPE_MASK <> FS_DIRECTORY))) ->
  make_entry s a name perm type g = Some (r, s') -> fs_wf s'.
Proof.
  intros Hwf Hty Hlen Hg Hm. destruct (nodes s !! a) as [n|] eqn:Ha.
  - destruct (decide (node_type n = FS_DIRECTORY)) as [Hd|Hd].
    + destruct (wf_dir _ _ _ Hwf Ha Hd) as (l & Hl & _). exact (proj1 (make_entry_spec s a n l name perm type g r s' Hwf Ha Hd Hl Hty Hlen Hg Hm)).
    + unfold make_entry, may_create in Hm. rewrite Ha, (proj2 (Z.eqb_neq _ _)) in Hm by done. by injection Hm as _ <-.
  - unfold make_entry, may_create in Hm. rewrite Ha in Hm. by injection Hm as _ <-.
Qed.

(** The type of a node that was mounted on. *)
Definition mounted_flags (f : Z) : Z := Z.lor (Z.lor (Z.land f (u32 (Z.lnot 0x07))) FS_DIRECTORY) FS_PERSISTENT.

Lemma mounted_type f : Z.land (mounted_flags f) FS_TYPE_MASK <> FS_FILE /\ Z.land (mounted_flags f) FS_TYPE_MASK <> FS_SYMLINK /\ Z.testbit (mounted_flags f) 4 = true.
Proof.
  assert (Hb : forall i, Z.testbit (Z.land (mounted_flags f) FS_TYPE_MASK) i = (Z.testbit f i && Z.testbit (u32 (Z.lnot 7)) i || Z.testbit 2 i || Z.testbit 16 i) && Z.testbit 15 i) by (intros i; unfold mounted_flags; by rewrite Z.land_spec, !Z.lor_spec, Z.land_spec).
  split; [|split]; [intros E; specialize (Hb 1)..|]; [rewrite E in Hb; cbn in Hb; by rewrite andb_false_r in Hb| |unfold mounted_flags; rewrite Z.lor_spec; apply orb_true_r].
  pose proof (f_equal (fun x => Z.testbit x 2) E) as E2. cbv beta in E2. unfold mounted_flags in E2. rewrite Z.land_spec, !Z.lor_spec, Z.land_spec in E2. cbn in E2. by rewrite andb_false_r in E2.
Qed.

Lemma mount_on_wf s a s' : fs_wf s -> ramfs_mount_on s a = Some s' -> fs_wf s'.
Proof.
  intros [[own Ho] Ht]. unfold ramfs_mount_on, fs_alloc. destruct (nodes s !! a) as [n|] eqn:Ha; [|by intros [= <-]; split; [exists own|]].
  destruct (obj_alloc (fs_heap s)) as [[d|] h] eqn:E; intros [= <-]; [|apply (with_heap_wf s own); [by eapply heap_alloc_none|done]]. cbn [fs_heap with_heap nodes files dirs next_inode]. fold (mounted_flags (n_flags n)). set (n' := VNode _ _ _ _ _ _ _).
  pose proof (own_add_dir s own d h (next_inode s) Ho E) as Ho'. destruct (heap_alloc_spec s own d h KDir Ho E) as (Hd & _). destruct (mounted_type (n_flags n)) as (Hf & _).
  assert (Hdn : dirs s !! d = None) by (apply eq_None_not_Some; intros H%(ow_dir _ _ Ho); congruence).
  split; [exists (<[d := KDir]> own); destruct Ho' as [H1 H2 H3 H4 H5 H6 H7]; split; cbn in *; try done; intros b; rewrite <- H3; destruct (decide (b = a)) as [->|]; [rewrite lookup_insert_eq, Ha; split; by eexists|by rewrite lookup_insert_ne]|].
  assert (Hl : forall e l i y, <[d := []]> (dirs s) !! e = Some l -> l !! i = Some y -> dirs s !! e = Some l) by (intros e l i y [[_ <-]|[_ H]]%lookup_insert_Some Hi; done).
  assert (Hn : forall b m, <[a := n']> (nodes s) !! b = Some m -> exists m0, nodes s !! b = Some m0 /\ n_name m = n_name m0 /\ (b = a /\ m = n' \/ b <> a /\ m = m0)).
  { intros b m [[<- <-]|[? H]]%lookup_insert_Some; [exists n; split; [done|]; split; [done|by left]|exists m; split; [done|]; split; [done|]; right; split; congruence]. }
  destruct Ht as [T1 T2 T3 T4 T5 T6]. split; cbn.
  - intros e e' l l' i j x x' c c' He He' Hi Hj. apply (T1 e e' l l' i j x x' c c'); [by eapply Hl|by eapply Hl|done|done].
  - intros e l i x c He Hi. destruct (T2 e l i x c (Hl _ _ _ _ He Hi) Hi) as [m Hm]. destruct (decide (c = a)) as [->|]; [rewrite lookup_insert_eq; by eexists|rewrite lookup_insert_ne by done; by eexists].
  - intros e l i j x x' c c' m m' He Hi Hj Hm Hm' En. destruct (Hn _ _ Hm) as (m0 & Hm0 & E0 & _), (Hn _ _ Hm') as (m1 & Hm1 & E1 & _). apply (T3 e l i j x x' c c' m0 m1); [by eapply Hl|done..|congruence].
  - intros b m Hm Hty. destruct (Hn _ _ Hm) as (m0 & Hm0 & _ & [[-> ->]|[_ ->]]); [cbn; rewrite lookup_insert_eq; by eexists|]. destruct (T4 b m0 Hm0 Hty) as [l Hl0]. rewrite lookup_insert_ne; [by eexists|congruence].
  - intros b m Hm Hty. destruct (Hn _ _ Hm) as (m0 & Hm0 & _ & [[-> ->]|[_ ->]]); [done|by apply (T5 b)].
  - intros b b' m m' Hm Hm' Ety Hor Edev. destruct (Hn _ _ Hm) as (m0 & Hm0 & _ & [[-> ->]|[_ ->]]), (Hn _ _ Hm') as (m1 & Hm1 & _ & [[-> ->]|[_ ->]]); [done| | |by apply (T6 b b' m0 m1)].
    + destruct Hor as [Hor|Hor]; [|done]. destruct (T4 b' m1 Hm1) as [l Hl0]; [congruence|]. cbn in Edev. congruence.
    + rewrite Ety in Hor. destruct Hor as [Hor|Hor]; [|done]. destruct (T4 b m0 Hm0) as [l Hl0]; [congruence|]. cbn in Edev. congruence.
Qed.

(** Renaming to [.] or [..] is refused. *)
Lemma rename_to_dot s a old_name new_name r s' : fs_wf s -> ~ ordinary new_name -> ramfs_rename s a old_name new_name = Some (r, s') -> s' = s.
Proof.
  intros Hwf Hn. unfold ramfs_rename, ramfs_finddir. destruct (nodes s !! a) as [n|] eqn:Ha; [|by intros [= _ ->]]. destruct (Z.eqb_spec (node_type n) FS_DIRECTORY) as [Hd|]; cbn [negb orb]; [|by intros [= _ ->]]. destruct (n_device n =? 0); [by intros [= _ ->]|].
  assert (E : bool_decide (new_name = dot) || bool_decide (new_name = dotdot) = true) by (unfold ordinary in Hn; do 2 case_bool_decide; tauto). rewrite E. destruct (Z.eqb_spec a 0) as [->|]; [by rewrite wf_null_node in Ha|]. rewrite Ha, Hd. by intros [= _ ->].
Qed.

Lemma fs_step_wf s s' : fs_wf s -> fs_step s s' -> fs_wf s'.
Proof.
  intros Hwf [a name perm r s1 Hlen H|a name perm r s1 Hlen H|a name perm flags dev r s1 Hlen H1 H2 _ H|a name r s1 H|a o m r s1 Ho Hlen H|a s1 H].
  - eapply make_entry_wf; [done| |done| |exact H]; [by left|]. intros n. by repeat split; left.
  - eapply make_entry_wf; [done| |done| |exact H]; [by right; left|]. intros n. by repeat split; left.
  - eapply make_entry_wf; [done| |done| |exact H]; [by right; right|]. intros n. by repeat split; right.
  - destruct (nodes s !! a) as [n|] eqn:Ha; [|unfold ramfs_unlink in H; rewrite Ha in H; by injection H as _ <-].
    destruct (decide (node_type n = FS_DIRECTORY)) as [Hd|Hd].
    + destruct (wf_dir _ _ _ Hwf Ha Hd) as (l & Hl & _).
      destruct (ramfs_unlink_spec s a n l name Hwf Ha Hd Hl) as (r' & s2 & E & Hwf' & _). congruence.
    + unfold ramfs_unlink in H. rewrite Ha, (proj2 (Z.eqb_neq _ _)) in H by done. by injection H as _ <-.
  - destruct (decide (m = dot)) as [Hm|H1]; [by rewrite (rename_to_dot s a o m r s1 Hwf (fun Hx => proj1 Hx Hm) H)|].
    destruct (decide (m = dotdot)) as [Hm|H2]; [by rewrite (rename_to_dot s a o m r s1 Hwf (fun Hx => proj2 Hx Hm) H)|]. assert (Hm : ordinary m) by done.
    destruct (nodes s !! a) as [n|] eqn:Ha; [|unfold ramfs_rename in H; rewrite Ha in H; by injection H as _ <-].
    destruct (decide (node_type n = FS_DIRECTORY)) as [Hd|Hd].
    + destruct (wf_dir _ _ _ Hwf Ha Hd) as (l & Hl & _).
      destruct (ramfs_rename_spec s a n l o m Hwf Ha Hd Hl Ho Hm Hlen) as (r' & s2 & E & Hwf' & _). congruence.
    + unfold ramfs_rename in H. rewrite Ha, (proj2 (Z.eqb_neq _ _)) in H by done. by injection H as _ <-.
  - by eapply mount_on_wf.
Qed.

(** The file system with nothing in it. *)
Definition no_fs (h : A) : fs A := Fs ∅ ∅ ∅ h 0.

Lemma no_fs_wf h k : obj_ok h -> 0 ∈ obj_live h -> fs_wf (Fs ∅ ∅ ∅ h k).
Proof.
  intros Hok H0. split; [exists ∅|]; split; simpl; try done.
  - intros a. rewrite !lookup_empty. split; [by intros [? ?]|done].
  - intros a. rewrite !lookup_empty. split; [by intros [? ?]|done].
  - intros a. rewrite !lookup_empty. split; [by intros [? ?]|done].
  - intros a. rewrite lookup_empty. split; [by intros (? & ? & ? & ? & _)|done].
Qed.

Lemma ramfs_init_wf h root s : obj_ok h -> 0 ∈ obj_live h -> ramfs_init (no_fs h) = Some (root, s) -> fs_wf s.
Proof.
  intros Hok H0. unfold ramfs_init, no_fs. cbn [nodes files dirs fs_heap].
  destruct (ramfs_make_node _ [47] 493 FS_DIRECTORY) as [[p s1]|] eqn:Hmk; [|done].
  destruct (make_node_spec _ [47] 493 FS_DIRECTORY p s1 (no_fs_wf h 1 Hok H0) ltac:(by right; left) Hmk)
    as [(-> & _)|(n & [Hfr Hnz Hn1 Hcl1 Hd1 Hwf1] & Hnm & Hnt & _)]; [done|].
  rewrite (proj2 (Z.eqb_neq p 0)) by done. set (g := fun n : node => _). intros E.
  assert (Hwf2 : fs_wf (with_nodes s1 (alter g p (nodes s1)))).
  { apply (bind_wf s1 p n); [done|by rewrite Hn1, lookup_insert_eq|done|done|by left]. }
  destruct (ramfs_mkdir _ p [100; 101; 118] 493) as [[r2 s2]|] eqn:E2; [|done].
  destruct (ramfs_mkdir s2 p [116; 109; 112] 511) as [[r3 s3]|] eqn:E3; [|done]. injection E as _ <-.
  eapply fs_step_wf; [|eapply step_mkdir; [|exact E3]; simpl; lia].
  eapply fs_step_wf; [exact Hwf2|eapply step_mkdir; [|exact E2]; simpl; lia].
Qed.

Lemma reach_wf s s' : fs_wf s -> rtc fs_step s s' -> fs_wf s'.
Proof. intros Hwf Hr. induction Hr as [|x y z Hs _ IH]; [done|]. apply IH. by apply (fs_step_wf x). Qed.

(** Making an entry fails only because of the name or of the heap. *)
Lemma make_entry_fails s a n name perm type g s' : fs_wf s -> nodes s !! a = Some n -> node_type n = FS_DIRECTORY ->
  make_entry s a name perm type g = Some (-1, s') -> ramfs_finddir s a name <> Some 0 \/ (obj_alloc (fs_heap s)).1 = None.
Proof.
  intros [[own Ho] _] Ha Hd. unfold make_entry, may_create. rewrite Ha, Hd, Z.eqb_refl. cbn [negb].
  destruct (ramfs_finddir s a name) as [c|]; [|done]. destruct (Z.eqb_spec c 0) as [->|Hc]; [|left; congruence].
  unfold ramfs_make_node, fs_alloc. destruct (obj_alloc (fs_heap s)) as [[p|] h] eqn:E; [|by right].
  destruct (heap_alloc_spec s own p h KNode Ho E) as (_ & Hp%Z.eqb_neq & _). repeat case_match; simplify_eq/=; congruence.
Qed.

(** A new entry among the old ones. *)
Lemma entry_made_entries s s' pn l name type : fs_wf s -> dirs s !! n_device pn = Some l -> entry_made s s' pn l name type 0 ->
  exists p n l', nodes s !! p = None /\ nodes s' = <[p := n]> (nodes s) /\ node_type n = Z.land type FS_TYPE_MASK /\
    (node_type n = FS_FILE -> files s' !! n_device n = Some (RamfsFile None 0) /\ n_length n = 0) /\
    dirs s' !! n_device pn = Some l' /\ has_entry s' l' name p /\
    (forall c, ~ has_entry s l name c) /\ forall name' c, name' <> name -> has_entry s l name' c <-> has_entry s' l' name' c.
Proof.
  intros [_ Ht] Hl [[? _]|(_ & Hno & x & p & n & _ & Hp & Hn & Hnm & Hty & Hd & Hf & _)]; [done|].
  exists p, n, ((x, p) :: l). do 5 (split; [done|]). split.
  { exists 0%nat, x, n. by rewrite Hn, lookup_insert_eq. }
  split; [done|]. intros name' c Hne. unfold has_entry. rewrite Hn. split.
  - intros (i & y & m & Hi & Hm & Hmn). exists (S i), y, m. split; [done|]. split; [|done].
    rewrite lookup_insert_ne; [done|]. congruence.
  - intros (i & y & m & Hi & Hm & Hmn). destruct i as [|i]; [injection Hi as <- <-; rewrite lookup_insert_eq in Hm; congruence|].
    exists i, y, m. split; [done|]. split; [|done]. rewrite lookup_insert_ne in Hm; [done|]. intros <-.
    destruct (ft_child _ Ht _ _ _ _ _ Hl Hi). congruence.
Qed.

(** Every node the file system makes is marked persistent, and none is a link. *)
Definition persistent s : Prop := forall a n, nodes s !! a = Some n ->
  Z.testbit (n_flags n) 4 = true /\ node_type n <> FS_SYMLINK.

Lemma make_node_flags s name perm type p s' : ramfs_make_node s name perm type = Some (p, s') ->
  nodes s' = nodes s \/ exists n, nodes s' = <[p := n]> (nodes s) /\ n_flags n = Z.lor type FS_PERSISTENT.
Proof.
  unfold ramfs_make_node, fs_alloc. intros H. repeat case_match; simplify_eq/=; [right..|by left]; by eexists.
Qed.

Lemma alter_persistent s g p : persistent s -> (forall n, n_flags (g n) = n_flags n) ->
  persistent (with_nodes s (alter g p (nodes s))).
Proof.
  intros Hp Hg a n. simpl. destruct (decide (p = a)) as [<-|Hne]; [rewrite lookup_alter_eq|rewrite lookup_alter_ne by done; apply Hp].
  intros (m & Hm & ->)%fmap_Some. unfold node_type. rewrite Hg. by eapply Hp.
Qed.

Lemma make_node_persistent s name perm type p s' : persistent s -> Z.land type FS_TYPE_MASK <> FS_SYMLINK ->
  ramfs_make_node s name perm type = Some (p, s') -> persistent s'.
Proof.
  intros Hp Ht Hm a n. destruct (make_node_flags _ _ _ _ _ _ Hm) as [->|(m & -> & Hf)]; [apply Hp|].
  intros [[_ <-]|[_ H]]%lookup_insert_Some; [|by eapply Hp]. unfold node_type. by rewrite Hf, Z.lor_spec, orb_true_r, type_persistent.
Qed.

Lemma make_entry_persistent s a name perm type g r s' : persistent s -> Z.land type FS_TYPE_MASK <> FS_SYMLINK -> (forall n, n_flags (g n) = n_flags n) ->
  make_entry s a name perm type g = Some (r, s') -> persistent s'.
Proof.
  intros Hp Ht Hg. unfold make_entry. destruct (may_create s a name) as [[|]|]; [|by intros [= _ <-]|done].
  destruct (ramfs_make_node s name perm type) as [[p s1]|] eqn:E; [|done].
  pose proof (make_node_persistent _ _ _ _ _ _ Hp Ht E) as Hp1. case_match; [by intros [= _ <-]|].
  destruct (ramfs_add_child _ a p) as [s2|] eqn:E2; [|done]. intros [= _ <-].
  assert (nodes s2 = nodes (with_nodes s1 (alter g p (nodes s1)))) as Hn.
  { unfold ramfs_add_child, fs_alloc in E2. repeat case_match; simplify_eq/=; done. }
  intros b n Hb. rewrite Hn in Hb. by eapply (alter_persistent s1 g p).
Qed.

Lemma delete_persistent s s' c : persistent s -> nodes s' = delete c (nodes s) -> persistent s'.
Proof. intros Hp Hn a n. rewrite Hn. intros [_ H]%lookup_delete_Some. by eapply Hp. Qed.

Lemma unlink_persistent s a name r s' : persistent s -> ramfs_unlink s a name = Some (r, s') -> persistent s'.
Proof.
  intros Hp. unfold ramfs_unlink, drop_child. intros H. repeat case_match; simplify_eq/=; try done;
    by eapply (delete_persistent s).
Qed.

Lemma fs_step_persistent s s' : persistent s -> fs_step s s' -> persistent s'.
Proof.
  intros Hp [a name perm r s1 _ H|a name perm r s1 _ H|a name perm flags dev r s1 _ _ _ Ht H|a name r s1 H|a o m r s1 _ _ H|a s1 H].
  1-3: eapply make_entry_persistent; [| | |exact H]; done.
  - by eapply unlink_persistent.
  - unfold ramfs_rename in H. destruct (nodes s !! a) as [n|]; [|by injection H as _ <-].
    destruct (negb _ || _); [by injection H as _ <-|]. set (x := match ramfs_finddir s a m with None => None | Some _ => _ end) in H.
    assert (Hx : forall s2, x = Some (Some s2) -> persistent s2).
    { unfold x. intros s2. repeat case_match; intros; simplify_eq; first [done|by eapply unlink_persistent]. }
    destruct x as [[s2|]|]; [|by injection H as _ <-|done]. specialize (Hx s2 eq_refl).
    repeat case_match; simplify_eq; [done|]. by apply alter_persistent.
  - unfold ramfs_mount_on, fs_alloc in H. repeat case_match; simplify_eq/=; try done. intros b m Hb. cbn in Hb. apply lookup_insert_Some in Hb as [[<- <-]|[_ Hm]]; [|by eapply Hp]. fold (mounted_flags (n_flags n)). destruct (mounted_type (n_flags n)) as (_ & ? & ?). done.
Qed.

Lemma init_persistent h root s : ramfs_init (no_fs h) = Some (root, s) -> persistent s.
Proof.
  unfold ramfs_init, no_fs. cbn [nodes files dirs fs_heap]. intros H.
  destruct (ramfs_make_node _ _ _ _) as [[p s1]|] eqn:E1; [|done]. destruct (p =? 0); [done|].
  apply make_node_persistent in E1; [| |done]; [|intros a n Ha; cbn in Ha; by rewrite lookup_empty in Ha].
  destruct (ramfs_mkdir _ p [100; 101; 118] 493) as [[r2 s2]|] eqn:E2; [|done].
  destruct (ramfs_mkdir s2 p [116; 109; 112] 511) as [[r3 s3]|] eqn:E3; [|done]. injection H as _ <-.
  eapply make_entry_persistent; [| | |exact E3]; [|done..]. eapply make_entry_persistent; [| | |exact E2]; [|done..]. by apply alter_persistent.
Qed.

Lemma reach_persistent s s' : persistent s -> rtc fs_step s s' -> persistent s'.
Proof. intros Hp Hr. induction Hr as [|x y z Hs _ IH]; [done|]. apply IH. by apply (fs_step_persistent x). Qed.

(** ** The properties *)

(** C37: Every file system reachable from the initial one by creating, making
    directories and special files, unlinking, renaming and mounting on a node is well
    formed: no two entries share a cell or a node, no two entries of a directory share a
    name, every descriptor is live and belongs to one node; and looking up, listing and
    unlinking in any of its directories touch only live memory.  Names are at most 127
    bytes long, a directory is not renamed through its entry [.] or [..], nodes of drivers
    are not added, and a call that stores through a failed allocation is no step. *)
Theorem ramfs_reachable_wf (h : A) root s0 s : obj_ok h -> 0 ∈ obj_live h ->
  ramfs_init (no_fs h) = Some (root, s0) -> rtc fs_step s0 s ->
  fs_wf s /\ forall a n name i, nodes s !! a = Some n -> node_type n = FS_DIRECTORY ->
    is_Some (ramfs_finddir s a name) /\ is_Some (ramfs_readdir s a i) /\ is_Some (ramfs_unlink s a name).
Proof.
  intros Hok H0 Hi Hr. pose proof (reach_wf _ _ (ramfs_init_wf _ _ _ Hok H0 Hi) Hr) as Hwf. split; [done|].
  intros a n name i Ha Hd. destruct (wf_dir _ _ _ Hwf Ha Hd) as (l & Hl & Hz).
  assert (Hch : forall j x c, l !! j = Some (x, c) -> is_Some (nodes s !! c)).
  { intros j x c Hj. by apply (ft_child _ (proj2 Hwf) (n_device n) l j x c). }
  split; [|split].
  - unfold ramfs_finddir. rewrite Ha, (proj2 (Z.eqb_neq _ 0)), Hl by done. case_match; [done|].
    destruct (find_child_spec s l name Hch (wf_null_node _ Hwf)) as (r & -> & _). done.
  - unfold ramfs_readdir. rewrite Ha, (proj2 (Z.eqb_neq _ 0)), Hl by done. repeat case_match; try done.
    destruct (Hch (Z.to_nat (i - 2)) _ _ ltac:(eassumption)). congruence.
  - destruct (ramfs_unlink_spec s a n l name Hwf Ha Hd Hl) as (r & s' & -> & _). done.
Qed.

(** Renaming the entry [.] of a directory gives the directory itself the new name, which
    is only looked for inside of it: afterwards two entries of its parent can have the same
    name, of which only one can be reached. *)
Theorem ramfs_rename_dot s a n pd l i x name : fs_wf s -> nodes s !! a = Some n -> node_type n = FS_DIRECTORY -> dirs s !! pd = Some l -> l !! i = Some (x, a) ->
  ordinary name -> (length name <= 127)%nat -> ramfs_finddir s a name = Some 0 ->
  (exists j y c m, l !! j = Some (y, c) /\ nodes s !! c = Some m /\ n_name m = name /\ c <> a) ->
  exists s', ramfs_rename s a dot name = Some (0, s') /\ ~ fs_wf s'.
Proof.
  intros Hwf Ha Hd Hl Hi Ho Hlen Hf (j & y & c & m & Hj & Hc & Hm & Hne). destruct (wf_dir _ _ _ Hwf Ha Hd) as (_ & _ & Hz).
  assert (Ha0 : a <> 0) by (intros ->; by rewrite wf_null_node in Ha). unfold ramfs_rename. rewrite Ha, Hd, Hf. cbn [Z.eqb Pos.eqb negb FS_DIRECTORY]. rewrite (proj2 (Z.eqb_neq _ 0)) by done. cbn [orb].
  unfold ramfs_finddir. rewrite Ha, (proj2 (Z.eqb_neq _ 0)) by done. rewrite bool_decide_eq_true_2 by done. cbn [orb]. rewrite (proj2 (Z.eqb_neq a 0)) by done. eexists. split; [done|].
  intros [_ Ht]. assert (j = i) as ->; [|congruence]. eapply (ft_names _ Ht pd l j i y x c a m); [done..| |cbn; by rewrite lookup_alter_eq, Ha|cbn; by rewrite take_ge]. cbn. by rewrite lookup_alter_ne.
Qed.

(** Creating a file in a directory fails, changing no entry, exactly when the
    name is taken or the heap is empty; otherwise the name, which was absent,
    resolves to a new empty regular file and every other name resolves as before. *)
Theorem ramfs_create_correct s a n name perm r s' : fs_wf s -> nodes s !! a = Some n -> node_type n = FS_DIRECTORY ->
  ordinary name -> (length name <= 127)%nat -> ramfs_create s a name perm = Some (r, s') ->
  fs_wf s' /\
  ((r = -1 /\ (ramfs_finddir s a name <> Some 0 \/ (obj_alloc (fs_heap s)).1 = None) /\
    forall name', ramfs_finddir s' a name' = ramfs_finddir s a name') \/
   (r = 0 /\ ramfs_finddir s a name = Some 0 /\
    (exists p m, nodes s !! p = None /\ nodes s' !! p = Some m /\ node_type m = FS_FILE /\ n_length m = 0 /\
       files s' !! n_device m = Some (RamfsFile None 0) /\ ramfs_finddir s' a name = Some p) /\
    forall name', name' <> name -> ramfs_finddir s' a name' = ramfs_finddir s a name')).
Proof.
  intros Hwf Ha Hd Ho Hlen Hc. destruct (wf_dir _ _ _ Hwf Ha Hd) as (l & Hl & _). pose proof Hc as Hc'.
  apply (make_entry_spec s a n l name perm FS_FILE _ r s') in Hc' as [Hwf' Hmade]; [|done..|by left|done|intros m; by repeat split; left].
  split; [done|]. pose proof Hmade as [(-> & Hn & Hdr)|(-> & _)].
  - left. split; [done|]. split; [by eapply make_entry_fails|]. intros name'.
    apply (finddir_same s s' a n n l l); [done|done|done|by rewrite Hn|done|done|done|by rewrite Hdr|].
    intros c. unfold has_entry. by rewrite Hn.
  - right. split; [done|]. destruct (entry_made_entries _ _ _ _ _ _ Hwf Hl Hmade) as (p & m & l' & Hp & Hn & Ht & Hf & Hl' & Hin & Hno & Hoth).
    assert (Ha' : nodes s' !! a = Some n) by (rewrite Hn, lookup_insert_ne; [done|congruence]).
    split; [by apply (finddir_absent s a n l)|]. destruct (Hf Ht) as [Hfl Hml]. split.
    + exists p, m. do 2 (split; [by rewrite ?Hn, ?lookup_insert_eq|]). do 3 (split; [done|]). by apply (finddir_entry s' a n l').
    + intros name' Hne. apply (finddir_same s s' a n n l l'); try done. intros c. by apply Hoth.
Qed.

(** Unlinking succeeds exactly on the names of entries that are not directories;
    the name is then absent, its node is freed and every other name resolves as
    before; otherwise nothing changes. *)
Theorem ramfs_unlink_correct s a n name : fs_wf s -> nodes s !! a = Some n -> node_type n = FS_DIRECTORY -> ordinary name ->
  exists r s', ramfs_unlink s a name = Some (r, s') /\ fs_wf s' /\
    ((r = -1 /\ s' = s /\ forall c m, ramfs_finddir s a name = Some c -> nodes s !! c = Some m -> node_type m = FS_DIRECTORY) \/
     (r = 0 /\ ramfs_finddir s' a name = Some 0 /\
      (exists c m, ramfs_finddir s a name = Some c /\ nodes s !! c = Some m /\ node_type m <> FS_DIRECTORY /\ nodes s' !! c = None) /\
      forall name', name' <> name -> ramfs_finddir s' a name' = ramfs_finddir s a name')).
Proof.
  intros Hwf Ha Hd Ho. destruct (wf_dir _ _ _ Hwf Ha Hd) as (l & Hl & _).
  destruct (ramfs_unlink_spec s a n l name Hwf Ha Hd Hl) as (r & s' & -> & Hwf' & Hcase).
  exists r, s'. do 2 (split; [done|]). destruct Hcase as [(-> & -> & Hbad)|(-> & Hu)]; [left|right].
  - do 2 (split; [done|]). intros c m Hc Hm. destruct Hbad as [Hno|(c' & m' & He & Hm' & Ht)].
    + rewrite (finddir_absent s a n l) in Hc by done. injection Hc as <-. by rewrite wf_null_node in Hm.
    + rewrite (finddir_entry s a n l name c') in Hc by done. congruence.
  - split; [done|]. pose proof (or_intror Hu : cleared s s' (n_device n) l name) as Hcl.
    destruct (cleared_no_entry _ _ _ _ _ Hwf Hl Hcl) as (l' & Hl' & Hno & Hoth).
    pose proof (cleared_node _ _ _ _ _ _ _ Hwf Hcl Ha Hd) as Ha'. split; [by apply (finddir_absent s' a n l')|]. split.
    + destruct Hu as (i & x & c & m & Hi & Hm & Hnm & Ht & Hn' & _). exists c, m. rewrite Hn', lookup_delete_eq.
      split; [|done]. apply (finddir_entry s a n l); try done. by exists i, x, m.
    + intros name' Hne. apply (finddir_same s s' a n n l l'); try done. intros c. by apply Hoth.
Qed.

Lemma renamed_entries s s' d l old_name new_name : fs_wf s -> dirs s !! d = Some l -> old_name <> new_name ->
  (forall c, ~ has_entry s l new_name c) -> renamed s s' l old_name new_name 0 ->
  dirs s' = dirs s /\ exists c, has_entry s l old_name c /\ has_entry s' l new_name c /\ (forall b, ~ has_entry s' l old_name b) /\
    forall name b, name <> old_name -> name <> new_name -> has_entry s l name b <-> has_entry s' l name b.
Proof.
  intros Hwf Hl Hne Hno [[? _]|(_ & c & _ & He & ->)]; [done|]. split; [done|]. exists c. split; [done|].
  pose proof He as (i & x & n & Hi & Hn & Hnm).
  assert (Halt : forall a m, alter (fun n => with_name n new_name) c (nodes s) !! a = Some m ->
    (a = c /\ n_name m = new_name) \/ (a <> c /\ nodes s !! a = Some m)).
  { intros a m. destruct (decide (a = c)) as [->|Hac]; [rewrite lookup_alter_eq, Hn|rewrite lookup_alter_ne by done; by right].
    intros [= <-]. by left. }
  split; [exists i, x, (with_name n new_name); split; [done|]; simpl; by rewrite lookup_alter_eq, Hn|]. split.
  - intros b (j & y & m & Hj & [[_ Hm]|[Hbc Hm]]%Halt & Hmn); [congruence|]. apply Hbc.
    apply (has_entry_fun s d l old_name b c); try done. by exists j, y, m.
  - intros name b N1 N2. unfold has_entry; simpl. split; intros (j & y & m & Hj & Hm & Hmn); exists j, y, m; (split; [done|]).
    + split; [|done]. rewrite lookup_alter_ne; [done|]. congruence.
    + apply Halt in Hm as [[_ Hm]|[_ Hm]]; [congruence|done].
Qed.

(** Renaming an existing entry to another name, which is absent or names
    something that is not a directory, succeeds: the new name resolves to the old
    entry, the old name is absent, and every other name resolves as before. *)
Theorem ramfs_rename_correct s a n old_name new_name c : fs_wf s -> nodes s !! a = Some n -> node_type n = FS_DIRECTORY ->
  ordinary old_name -> ordinary new_name -> (length new_name <= 127)%nat -> old_name <> new_name ->
  ramfs_finddir s a old_name = Some c -> c <> 0 ->
  (forall t m, ramfs_finddir s a new_name = Some t -> nodes s !! t = Some m -> node_type m <> FS_DIRECTORY) ->
  exists s' n', ramfs_rename s a old_name new_name = Some (0, s') /\ fs_wf s' /\ nodes s' !! a = Some n' /\
    ramfs_finddir s' a new_name = Some c /\ ramfs_finddir s' a old_name = Some 0 /\
    forall name, name <> old_name -> name <> new_name -> ramfs_finddir s' a name = ramfs_finddir s a name.
Proof.
  intros Hwf Ha Hd Ho1 Ho2 Hlen Hne Hc Hc0 Ht. destruct (wf_dir _ _ _ Hwf Ha Hd) as (l & Hl & _).
  destruct (ramfs_rename_spec s a n l old_name new_name Hwf Ha Hd Hl Ho1 Ho2 Hlen) as (r & s' & -> & Hwf' & Hcase).
  destruct Hcase as [(_ & _ & (t & m & Hent & Hm & Hmt))|(s1 & l1 & Hwf1 & Hcl & Hl1 & Hren)].
  { exfalso. by eapply (Ht t m); [apply (finddir_entry s a n l)|..]. }
  destruct (cleared_no_entry _ _ _ _ _ Hwf Hl Hcl) as (l1' & Hl1' & Hno & Hoth). assert (l1' = l1) as -> by congruence.
  pose proof (cleared_node _ _ _ _ _ _ _ Hwf Hcl Ha Hd) as Ha1.
  assert (Hold : has_entry s1 l1 old_name c).
  { apply Hoth; [done|]. destruct Ho1. destruct (ramfs_finddir_spec s a n l old_name Hwf Ha Hd Hl) as (c' & E & [[-> _]|[_ He]]); [done..|congruence|].
    by assert (c' = c) as -> by congruence. }
  assert (r = 0) as ->. { destruct Hren as [(_ & _ & Hbad)|[-> _]]; [by destruct (Hbad c)|done]. }
  destruct (renamed_entries s1 s' _ l1 old_name new_name Hwf1 Hl1 Hne Hno Hren) as (Hd' & c' & Hc' & Hnew & Hgone & Hrest).
  assert (c' = c) as -> by exact (has_entry_fun s1 _ l1 old_name c' c Hwf1 Hl1 Hc' Hold).
  assert (Hn' : exists n', nodes s' !! a = Some n' /\ node_type n' = FS_DIRECTORY /\ n_device n' = n_device n).
  { destruct Hren as [(? & _)|(_ & b & _ & _ & ->)]; [done|]. simpl. destruct (decide (a = b)) as [<-|Hab].
    - rewrite lookup_alter_eq, Ha1. by eexists.
    - rewrite lookup_alter_ne by done. by exists n. }
  destruct Hn' as (n' & Hn' & Hdn' & Hdev). exists s', n'. split; [done|]. split; [done|]. split; [done|].
  assert (Hl' : dirs s' !! n_device n' = Some l1) by (by rewrite Hd', Hdev).
  split; [by apply (finddir_entry s' a n' l1)|]. split; [by apply (finddir_absent s' a n' l1)|].
  intros name N1 N2. apply (finddir_same s s' a n n' l l1); try done. intros b. rewrite Hoth by done. by apply Hrest.
Qed.

(** Renaming onto an existing file when the old name is the new one, or is
    absent, reports failure but removes the file. *)
Theorem ramfs_rename_loses_target s a n old_name new_name t m : fs_wf s -> nodes s !! a = Some n -> node_type n = FS_DIRECTORY ->
  ordinary old_name -> ordinary new_name -> (length new_name <= 127)%nat ->
  ramfs_finddir s a new_name = Some t -> nodes s !! t = Some m -> node_type m <> FS_DIRECTORY ->
  old_name = new_name \/ ramfs_finddir s a old_name = Some 0 ->
  exists s', ramfs_rename s a old_name new_name = Some (-1, s') /\ ramfs_finddir s' a new_name = Some 0 /\ nodes s' !! t = None.
Proof.
  intros Hwf Ha Hd Ho1 Ho2 Hlen Ht Hm Hmt Hold. destruct (wf_dir _ _ _ Hwf Ha Hd) as (l & Hl & _).
  assert (Hent : has_entry s l new_name t).
  { destruct Ho2. destruct (ramfs_finddir_spec s a n l new_name Hwf Ha Hd Hl) as (t' & E & [[-> _]|[_ He]]); [done..| |].
    - assert (t = 0) as -> by congruence. by rewrite (wf_null_node _ Hwf) in Hm.
    - by assert (t' = t) as -> by congruence. }
  destruct (ramfs_rename_spec s a n l old_name new_name Hwf Ha Hd Hl Ho1 Ho2 Hlen) as (r & s' & -> & Hwf' & Hcase).
  destruct Hcase as [(_ & _ & (t' & m' & Hent' & Hm' & Hmt'))|(s1 & l1 & Hwf1 & Hcl & Hl1 & Hren)].
  { exfalso. assert (t' = t) as -> by exact (has_entry_fun s _ l new_name t' t Hwf Hl Hent' Hent). congruence. }
  destruct (cleared_no_entry _ _ _ _ _ Hwf Hl Hcl) as (l1' & Hl1' & Hno & Hoth). assert (l1' = l1) as -> by congruence.
  destruct Hren as [(-> & -> & _)|(_ & c & _ & Hc & _)].
  - exists s1. split; [done|]. pose proof (cleared_node _ _ _ _ _ _ _ Hwf Hcl Ha Hd) as Ha1.
    split; [by apply (finddir_absent s1 a n l1)|]. destruct Hcl as [[_ Hbad]|(i & x & c & m1 & Hi & Hc & Hcn & _ & -> & _)]; [by destruct (Hbad t)|].
    assert (c = t) as ->; [|by rewrite lookup_delete_eq]. apply (has_entry_fun s (n_device n) l new_name c t); try done. by exists i, x, m1.
  - exfalso. destruct (decide (old_name = new_name)) as [->|Hne]; [by apply (Hno c)|]. destruct Hold as [?|Hold]; [done|].
    rewrite (finddir_entry s a n l old_name c) in Hold; [|done..|by apply Hoth]. injection Hold as ->.
    destruct Hc as (i & x & m1 & _ & Hm1 & _). by rewrite (wf_null_node _ Hwf1) in Hm1.
Qed.

(** Truncating fails on every node of every reachable file system: the nodes
    carry the persistence flag, and the guard compares all the flags with the file
    type. *)
Theorem ramfs_truncate_never (h : A) root s0 s a n alloc file len :
  ramfs_init (no_fs h) = Some (root, s0) -> rtc fs_step s0 s -> nodes s !! a = Some n ->
  ramfs_truncate alloc n file len = Some (-1, n, file).
Proof.
  intros Hi Hr Ha. apply ramfs_truncate_wrong_flags. intros Hf.
  pose proof (reach_persistent _ _ (init_persistent _ _ _ Hi) Hr a n Ha) as [Hb _]. by rewrite Hf in Hb.
Qed.
End Reach.

(** ** Witnesses *)

Definition demo_heap : bump := Bump 0x100000 {[0]}.

Lemma demo_heap_ok : obj_ok demo_heap /\ 0 ∈ obj_live demo_heap.
Proof. split; [intros p Hp; simpl in *; assert (p = 0) by set_solver; lia|simpl; set_solver]. Qed.

(** The initial file system, and one with the files [a] and [b] in its root. *)
Definition demo_root : Z := 0x100000.
Definition demo_init : fs bump := Eval vm_compute in
  match ramfs_init (no_fs demo_heap) with Some (_, s) => s | None => no_fs demo_heap end.
Definition demo_fs1 : fs bump := Eval vm_compute in
  match ramfs_create demo_init demo_root [97] 420 with Some (_, s) => s | None => demo_init end.
Definition demo_fs : fs bump := Eval vm_compute in
  match ramfs_create demo_fs1 demo_root [98] 420 with Some (_, s) => s | None => demo_init end.
Definition demo_dir : node := Eval vm_compute in default demo_node (nodes demo_fs !! demo_root).
Definition demo_a : Z := Eval vm_compute in default 0 (ramfs_finddir demo_fs demo_root [97]).
Definition demo_a_node : node := Eval vm_compute in default demo_node (nodes demo_fs !! demo_a).

Lemma demo_init_eq : ramfs_init (no_fs demo_heap) = Some (demo_root, demo_init).
Proof. vm_compute. reflexivity. Qed.

Lemma demo_steps : rtc fs_step demo_init demo_fs.
Proof.
  eapply rtc_l; [eapply (step_create demo_init demo_root [97] 420 0 demo_fs1); [simpl; lia|vm_compute; reflexivity]|].
  eapply rtc_l; [eapply (step_create demo_fs1 demo_root [98] 420 0 demo_fs); [simpl; lia|vm_compute; reflexivity]|].
  apply rtc_refl.
Qed.

Lemma demo_fs_wf : fs_wf demo_fs.
Proof.
  destruct demo_heap_ok as [H1 H2]. exact (reach_wf _ _ (ramfs_init_wf _ _ _ H1 H2 demo_init_eq) demo_steps).
Qed.

Lemma demo_dir_lookup : nodes demo_fs !! demo_root = Some demo_dir.
Proof. vm_compute. reflexivity. Qed.

Lemma demo_a_lookup : nodes demo_fs !! demo_a = Some demo_a_node.
Proof. vm_compute. reflexivity. Qed.

Lemma letter_ordinary c : ordinary [c] <-> c <> 46.
Proof. unfold ordinary, dot, dotdot. naive_solver. Qed.

Lemma ramfs_reachable_wf_witness : fs_wf demo_fs /\ is_Some (ramfs_unlink demo_fs demo_root [98]).
Proof.
  destruct demo_heap_ok as [H1 H2].
  destruct (ramfs_reachable_wf demo_heap demo_root demo_init demo_fs H1 H2 demo_init_eq demo_steps) as [Hwf H].
  split; [exact Hwf|]. exact (proj2 (proj2 (H demo_root demo_dir [98] 0 demo_dir_lookup eq_refl))).
Defined.

(** The directory [tmp] renamed to [dev] from inside. *)
Definition demo_tmp : Z := Eval vm_compute in default 0 (ramfs_finddir demo_init demo_root [116; 109; 112]).
Definition demo_tmp_node : node := Eval vm_compute in default demo_node (nodes demo_init !! demo_tmp).
Definition demo_cells : list (Z * Z) := Eval vm_compute in default [] (dirs demo_init !! n_device demo_dir).

Lemma ramfs_rename_dot_witness : exists s', ramfs_rename demo_init demo_tmp dot [100; 101; 118] = Some (0, s') /\ ~ fs_wf s'.
Proof.
  destruct demo_heap_ok as [H1 H2]. eapply (ramfs_rename_dot demo_init demo_tmp demo_tmp_node (n_device demo_dir) demo_cells 0 _ [100; 101; 118] (ramfs_init_wf _ _ _ H1 H2 demo_init_eq));
    [vm_compute; reflexivity|reflexivity|vm_compute; reflexivity|reflexivity|by split|cbn; lia|vm_compute; reflexivity|].
  eexists 1%nat, _, _, _. split; [reflexivity|]. split; [vm_compute; reflexivity|]. split; [reflexivity|discriminate].
Defined.

Lemma ramfs_create_correct_witness : exists s', ramfs_create demo_fs demo_root [99] 420 = Some (0, s') /\ fs_wf s'.
Proof.
  destruct (ramfs_create demo_fs demo_root [99] 420) as [[r s']|] eqn:E; [|by vm_compute in E].
  destruct (ramfs_create_correct demo_fs demo_root demo_dir [99] 420 r s' demo_fs_wf demo_dir_lookup eq_refl) as [Hwf Hc];
    [by apply letter_ordinary|simpl; lia|exact E|]. exists s'. split; [|exact Hwf].
  destruct Hc as [(_ & Hbad & _)|[-> _]]; [|reflexivity]. exfalso.
  destruct Hbad as [Hbad|Hbad]; [apply Hbad; vm_compute; reflexivity|by vm_compute in Hbad].
Defined.

Lemma ramfs_unlink_correct_witness : exists r s', ramfs_unlink demo_fs demo_root [97] = Some (r, s') /\ fs_wf s'.
Proof.
  destruct (ramfs_unlink_correct demo_fs demo_root demo_dir [97] demo_fs_wf demo_dir_lookup eq_refl) as (r & s' & H & Hwf & _);
    [by apply letter_ordinary|]. exists r, s'. split; [exact H|exact Hwf].
Defined.

Lemma ramfs_rename_correct_witness : exists s', ramfs_rename demo_fs demo_root [97] [98] = Some (0, s') /\
  ramfs_finddir s' demo_root [98] = Some demo_a.
Proof.
  destruct (ramfs_rename_correct demo_fs demo_root demo_dir [97] [98] demo_a demo_fs_wf demo_dir_lookup eq_refl)
    as (s' & n' & H & _ & _ & Hf & _); [by apply letter_ordinary|by apply letter_ordinary|simpl; lia|discriminate
    |vm_compute; reflexivity|by vm_compute| |].
  - intros t m Ht Hm. assert (node_type m = FS_FILE) as ->; [|discriminate].
    vm_compute in Ht. injection Ht as <-. vm_compute in Hm. injection Hm as <-. reflexivity.
  - exists s'. split; [exact H|exact Hf].
Defined.

Lemma ramfs_rename_loses_target_witness : exists s', ramfs_rename demo_fs demo_root [97] [97] = Some (-1, s') /\
  ramfs_finddir s' demo_root [97] = Some 0.
Proof.
  destruct (ramfs_rename_loses_target demo_fs demo_root demo_dir [97] [97] demo_a demo_a_node demo_fs_wf demo_dir_lookup eq_refl)
    as (s' & H & Hf & _); [by apply letter_ordinary|by apply letter_ordinary|simpl; lia|vm_compute; reflexivity
    |exact demo_a_lookup|by vm_compute|by left|]. exists s'. split; [exact H|exact Hf].
Defined.

Lemma ramfs_truncate_never_witness :
  ramfs_truncate demo_alloc demo_a_node (Some (RamfsFile None 0)) 0 = Some (-1, demo_a_node, Some (RamfsFile None 0)).
Proof.
  exact (ramfs_truncate_never demo_heap demo_root demo_init demo_fs demo_a demo_a_node demo_alloc (Some (RamfsFile None 0)) 0
    demo_init_eq demo_steps demo_a_lookup).
Defined.
