(* ===== verification/Vfs.v ===== *)
(** * The virtual file system (kernel/src/fs/vfs.c)

    The node operations are function pointers; a node here carries the ones that are
    set, as functions on the state of the file systems behind it ([None] for a use of
    memory that is not live), whose type is a parameter.  The reference counts and mount pointers, which only this layer
    uses, are kept beside that state by node address. *)

From S2P Require Import Prelude Ramfs.

Definition POLLIN : Z := 0x0001.
Definition POLLOUT : Z := 0x0004.

(** [struct vfs_node]: the type, identity and operations of a node. *)
Record vnode (S : Type) := VfsNode {
  v_flags : Z;
  v_inode : Z;
  v_device : Z;
  v_read : option (S -> Z -> Z -> option (list Z * S));
  v_write : option (S -> Z -> list Z -> option (Z * S));
  v_open : option (S -> option S);
  v_close : option (S -> option S);
  v_readdir : option (S -> Z -> option (option (cstr * Z) * S));
  v_finddir : option (S -> cstr -> option (Z * S));
  v_create : option (S -> cstr -> Z -> option (Z * S));
  v_mkdir : option (S -> cstr -> Z -> option (Z * S));
  v_mknod : option (S -> cstr -> Z -> Z -> Z -> option (Z * S));
  v_unlink : option (S -> cstr -> option (Z * S));
  v_rmdir : option (S -> cstr -> option (Z * S));
  v_readlink : option (S -> Z -> option (Z * cstr * S));
  v_symlink : option (S -> cstr -> cstr -> option (Z * S));
  v_rename : option (S -> cstr -> cstr -> option (Z * S));
  v_chmod : option (S -> Z -> option (Z * S));
  v_chown : option (S -> Z -> Z -> option (Z * S));
  v_truncate : option (S -> Z -> option (Z * S));
  v_poll : option (S -> Z -> Z);
}.
Arguments VfsNode {S}.
Arguments v_flags {S}. Arguments v_inode {S}. Arguments v_device {S}.
Arguments v_read {S}. Arguments v_write {S}. Arguments v_open {S}. Arguments v_close {S}.
Arguments v_readdir {S}. Arguments v_finddir {S}. Arguments v_create {S}. Arguments v_mkdir {S}.
Arguments v_mknod {S}. Arguments v_unlink {S}. Arguments v_rmdir {S}. Arguments v_readlink {S}.
Arguments v_symlink {S}. Arguments v_rename {S}. Arguments v_chmod {S}. Arguments v_chown {S}.
Arguments v_truncate {S}. Arguments v_poll {S}.

(** What this layer uses of the file systems and of the heap: reading a node ([None]
    for an address that is not one), changing its flags, [kmalloc] and [kfree]. *)
Class FileSystems (S : Type) := {
  st_node : S -> Z -> option (vnode S);
  st_set_flags : S -> Z -> Z -> S;
  st_kmalloc : S -> option Z * S;
  st_kfree : S -> Z -> S;
}.

(** The state of the layer; the mount list is newest first. *)
Record vfs (S : Type) := Vfs {
  v_fs : S;
  fs_root : Z;
  vfs_mount_list : list (Z * Z);
  refcounts : gmap Z Z;
  ptrs : gmap Z Z;
}.
Arguments Vfs {S}. Arguments v_fs {S}. Arguments fs_root {S}. Arguments vfs_mount_list {S}.
Arguments refcounts {S}. Arguments ptrs {S}.

Section Vfs.
Context {S : Type} `{!FileSystems S}.
Implicit Types v : vfs S.

Definition with_fs v (s : S) : vfs S := Vfs s (fs_root v) (vfs_mount_list v) (refcounts v) (ptrs v).
Definition with_refcount v (node c : Z) : vfs S :=
  Vfs (v_fs v) (fs_root v) (vfs_mount_list v) (<[node := c]> (refcounts v)) (ptrs v).
Definition kfree v (p : Z) : vfs S := with_fs v (st_kfree (v_fs v) p).
Definition kmalloc v : option Z * vfs S := let '(p, s) := st_kmalloc (v_fs v) in (p, with_fs v s).
Definition node_at v (node : Z) : option (vnode S) := st_node (v_fs v) node.
Definition vtype (n : vnode S) : Z := Z.land (v_flags n) FS_TYPE_MASK.
Definition persistent_node (n : vnode S) : bool := negb (Z.land (v_flags n) FS_PERSISTENT =? 0).

(** ** Calls through a node *)

(** Calls guarded by [node && node->op]: the default without the operation, [None]
    at an address that is not a node. *)
Definition call {B} v (node : Z) (op : vnode S -> option (S -> option (B * S))) (dflt : B) : option (B * vfs S) :=
  if node =? 0 then Some (dflt, v)
  else
    match node_at v node with
    | None => None
    | Some n =>
        match op n with
        | None => Some (dflt, v)
        | Some f => match f (v_fs v) with None => None | Some (r, s) => Some (r, with_fs v s) end
        end
    end.

(** Calls guarded by the type being a directory; the node is not null. *)
Definition dir_call {B} v (node : Z) (op : vnode S -> option (S -> option (B * S))) (dflt : B) : option (B * vfs S) :=
  match node_at v node with
  | None => None
  | Some n =>
      if vtype n =? FS_DIRECTORY then
        match op n with
        | None => Some (dflt, v)
        | Some f => match f (v_fs v) with None => None | Some (r, s) => Some (r, with_fs v s) end
        end
      else Some (dflt, v)
  end.

Definition vfs_read v node offset size := call v node (fun n => (fun f s => f s offset size) <$> v_read n) [].
Definition vfs_write v node offset buffer := call v node (fun n => (fun f s => f s offset buffer) <$> v_write n) 0.
Definition vfs_readdir v node index := dir_call v node (fun n => (fun f s => f s index) <$> v_readdir n) None.
Definition vfs_create v node name perm := dir_call v node (fun n => (fun f s => f s name perm) <$> v_create n) (-1).
Definition vfs_mkdir v node name perm := dir_call v node (fun n => (fun f s => f s name perm) <$> v_mkdir n) (-1).
Definition vfs_unlink v node name := dir_call v node (fun n => (fun f s => f s name) <$> v_unlink n) (-1).
Definition vfs_rmdir v node name := dir_call v node (fun n => (fun f s => f s name) <$> v_rmdir n) (-1).
Definition vfs_readlink v node size := call v node (fun n => (fun f s => f s size) <$> v_readlink n) (-1, []).
Definition vfs_symlink v node name target := dir_call v node (fun n => (fun f s => f s name target) <$> v_symlink n) (-1).
Definition vfs_rename v node old_name new_name :=
  dir_call v node (fun n => (fun f s => f s old_name new_name) <$> v_rename n) (-1).
Definition vfs_chmod v node perm := call v node (fun n => (fun f s => f s perm) <$> v_chmod n) (-1).
Definition vfs_chown v node uid gid := call v node (fun n => (fun f s => f s uid gid) <$> v_chown n) (-1).
Definition vfs_mknod v node name perm flags device :=
  dir_call v node (fun n => (fun f s => f s name perm flags device) <$> v_mknod n) (-1).
Definition vfs_truncate v node size := call v node (fun n => (fun f s => f s size) <$> v_truncate n) (-1).

Definition vfs_poll v (node events : Z) : option Z :=
  match node_at v node with
  | None => None
  | Some n =>
      match v_poll n with
      | Some f => Some (f (v_fs v) events)
      | None =>
          if (vtype n =? FS_FILE) || (vtype n =? FS_DIRECTORY) then Some (Z.land events (Z.lor POLLIN POLLOUT))
          else Some 0
      end
  end.

Definition vfs_open v (node : Z) : option (vfs S) :=
  if node =? 0 then Some v
  else
    match node_at v node with
    | None => None
    | Some n =>
        let v := with_refcount v node (u32 (default 0 (refcounts v !! node) + 1)) in
        match v_open n with
        | None => Some v
        | Some f => match f (v_fs v) with None => None | Some s => Some (with_fs v s) end
        end
    end.

Definition vfs_close v (node : Z) : option (vfs S) :=
  if node =? 0 then Some v
  else
    match node_at v node with
    | None => None
    | Some n =>
        let count := u32 (default 0 (refcounts v !! node) - 1) in
        let v := with_refcount v node count in
        if count =? 0 then
          let closed :=
            match v_close n with
            | None => Some v
            | Some f => match f (v_fs v) with None => None | Some s => Some (with_fs v s) end
            end in
          match closed with
          | None => None
          | Some v =>
              match node_at v node with
              | None => None
              | Some n => Some (if persistent_node n then v else kfree v node)
              end
          end
        else Some v
    end.

(** ** Mounts *)

Definition vfs_mount v (mountpoint target : Z) : option (Z * vfs S) :=
  if (mountpoint =? 0) || (target =? 0) then Some (-1, v)
  else
    match kmalloc v with
    | (None, _) => None
    | (Some _, v) =>
        match node_at v mountpoint with
        | None => None
        | Some n =>
            let s := st_set_flags (v_fs v) mountpoint (Z.lor (v_flags n) (Z.lor FS_MOUNTPOINT FS_PERSISTENT)) in
            Some (0, Vfs s (fs_root v) ((mountpoint, target) :: vfs_mount_list v) (refcounts v)
                       (<[mountpoint := target]> (ptrs v)))
        end
    end.

(** The node mounted over the one found, or that one. *)
Fixpoint covering v (mounts : list (Z * Z)) (res : Z) (n : vnode S) : option Z :=
  match mounts with
  | [] => Some res
  | (mountpoint, target) :: rest =>
      match node_at v mountpoint with
      | None => None
      | Some m =>
          if (v_inode m =? v_inode n) && (v_device m =? v_device n) && negb (target =? res) then Some target
          else covering v rest res n
      end
  end.

Definition vfs_finddir v (node : Z) (name : cstr) : option (Z * vfs S) :=
  match dir_call v node (fun n => (fun f s => f s name) <$> v_finddir n) 0 with
  | None => None
  | Some (res, v) =>
      if res =? 0 then Some (0, v)
      else
        match node_at v res with
        | None => None
        | Some n =>
            match covering v (vfs_mount_list v) res n with
            | None => None
            | Some r => Some (r, v)
            end
        end
  end.

(** ** Paths *)

Definition MAX_SYMLINK_DEPTH : Z := 8.
Definition slash : Z := 47.

Fixpoint skip_slashes (p : cstr) : cstr :=
  match p with
  | c :: r => if c =? slash then skip_slashes r else p
  | [] => []
  end.

(** The next component, of at most [room] bytes, and what follows it. *)
Fixpoint next_component (room : nat) (p : cstr) : cstr * cstr :=
  match room, p with
  | Datatypes.S room, c :: r =>
      if c =? slash then ([], p) else let '(comp, rest) := next_component room r in (c :: comp, rest)
  | _, _ => ([], p)
  end.

(** The link target before what is left of the path; [None] when an empty target
    makes the code read the byte before the buffer. *)
Definition splice (target p : cstr) : option cstr :=
  let next_path := take 511 target in
  match p with
  | [] => Some next_path
  | _ =>
      if (length next_path <? 510)%nat then
        match last next_path with
        | None => None
        | Some c =>
            let next_path := if c =? slash then next_path else next_path ++ [slash] in
            Some (next_path ++ take (511 - length next_path) p)
        end
      else Some next_path
  end.

(** What a resolution comes to: its result, a use of an address that is not a node
    or of a byte outside a buffer, or the end of the fuel. *)
Inductive resolution :=
  | Resolved (node : Z) (v : vfs S)
  | Fault
  | OutOfFuel.

(** Freeing the directory that is left, unless it is the root, the starting one or
    persistent. *)
Definition leave v (dir current : Z) : option (vfs S) :=
  if negb (current =? fs_root v) && negb (current =? dir) then
    match node_at v current with
    | None => None
    | Some n => Some (if persistent_node n then v else kfree v current)
    end
  else Some v.

Definition abandon v (dir current buf : Z) : resolution :=
  match leave v dir current with
  | None => Fault
  | Some v => Resolved 0 (kfree v buf)
  end.

Fixpoint resolve_loop (fuel : nat) v (dir current depth : Z) (p : cstr) (buf : Z) : resolution :=
  match fuel with
  | O => OutOfFuel
  | Datatypes.S fuel =>
      match skip_slashes p with
      | [] => Resolved current (kfree v buf)
      | p =>
          let '(comp, p) := next_component 127 p in
          match vfs_finddir v current comp with
          | None => Fault
          | Some (next, v) =>
              if next =? 0 then abandon v dir current buf
              else
                match node_at v next with
                | None => Fault
                | Some n =>
                    if vtype n =? FS_SYMLINK then
                      let depth := depth + 1 in
                      if depth >? MAX_SYMLINK_DEPTH then abandon (kfree v next) dir current buf
                      else
                        match vfs_readlink v next 256 with
                        | None => Fault
                        | Some (len, target, v) =>
                            let v := kfree v next in
                            if len <? 0 then abandon v dir current buf
                            else
                              match kmalloc v with
                              | (None, v) => abandon v dir current buf
                              | (Some next_path, v) =>
                                  match splice target p with
                                  | None => Fault
                                  | Some p =>
                                      let v := kfree v next_path in
                                      if bool_decide (head p = Some slash) then
                                        match leave v dir current with
                                        | None => Fault
                                        | Some v => resolve_loop fuel v dir (fs_root v) depth (skip_slashes p) buf
                                        end
                                      else resolve_loop fuel v dir current depth p buf
                                  end
                              end
                        end
                    else
                      match leave v dir current with
                      | None => Fault
                      | Some v => resolve_loop fuel v dir next depth p buf
                      end
                end
          end
      end
  end.

Definition vfs_resolve_path_at (fuel : nat) v (dir : Z) (path : option cstr) : resolution :=
  match path with
  | None => Resolved 0 v
  | Some path =>
      if fs_root v =? 0 then Resolved 0 v
      else
        match kmalloc v with
        | (None, v) => Resolved 0 v
        | (Some path_buf, v) =>
            let p := take 511 path in
            let current :=
              if bool_decide (head path = Some slash) then fs_root v
              else if negb (dir =? 0) then dir else fs_root v in
            let p := if bool_decide (head p = Some slash) then skip_slashes p else p in
            resolve_loop fuel v dir current 0 p path_buf
        end
  end.

Definition vfs_resolve_path (fuel : nat) v (path : option cstr) : resolution :=
  vfs_resolve_path_at fuel v (fs_root v) path.
End Vfs.
Arguments resolution : clear implicits.
