(* ===== verification/VfsThms.v ===== *)
(** * Path resolution: termination, memory safety and its meaning *)

From S2P Require Import Prelude Ramfs Vfs.

(** ** Paths *)

Lemma skip_slashes_length p : (length (skip_slashes p) <= length p)%nat.
Proof. induction p as [|c p IH]; simpl; [done|]. destruct (c =? slash); simpl; lia. Qed.

Lemma skip_slashes_head p c r : skip_slashes p = c :: r -> c <> slash.
Proof.
  induction p as [|d p IH]; simpl; [done|]. destruct (Z.eqb_spec d slash); [done|]. by intros [= -> ->].
Qed.

Lemma skip_slashes_id p : head p <> Some slash -> skip_slashes p = p.
Proof. destruct p as [|c p]; simpl; [done|]. intros H. destruct (Z.eqb_spec c slash); congruence. Qed.

Lemma next_component_app room p comp rest : next_component room p = (comp, rest) ->
  p = comp ++ rest /\ slash ∉ comp /\ (length comp <= room)%nat.
Proof.
  revert p comp rest. induction room as [|room IH]; intros [|c p] comp rest; simpl; try (intros [= <- <-]; split_and!; [done|set_solver|simpl; lia]).
  destruct (Z.eqb_spec c slash); [intros [= <- <-]; split_and!; [done|set_solver|simpl; lia]|].
  destruct (next_component room p) as [cm rs] eqn:E. intros [= <- <-]. destruct (IH _ _ _ E) as (-> & ? & ?).
  split_and!; [done|set_solver|simpl; lia].
Qed.

Lemma next_component_progress p comp rest : next_component 127 (skip_slashes p) = (comp, rest) -> skip_slashes p <> [] ->
  (length rest < length p)%nat.
Proof.
  intros E Hne. pose proof (skip_slashes_length p). destruct (skip_slashes p) as [|c q] eqn:Hq; [done|].
  pose proof (skip_slashes_head _ _ _ Hq) as Hc. destruct (next_component_app _ _ _ _ E) as (Heq & _ & _).
  destruct comp as [|d comp]; [|injection Heq as <- ->; simpl in *; rewrite length_app in *; lia].
  change (next_component 127 (c :: q)) with (if c =? slash then ([], c :: q) else let '(cm, rs) := next_component 126 q in (c :: cm, rs)) in E.
  rewrite (proj2 (Z.eqb_neq c slash)) in E by done. by destruct (next_component 126 q).
Qed.

Lemma splice_length target p q : splice target p = Some q -> (length q <= 511)%nat.
Proof.
  unfold splice. assert (Ht : (length (take 511 target) <= 511)%nat) by (rewrite length_take; lia).
  destruct p as [|c p]; [by intros [= <-]|]. destruct (Nat.ltb_spec (length (take 511 target)) 510) as [Hlt|]; [|by intros [= <-]].
  destruct (last (take 511 target)) as [d|]; [|done]. intros [= <-]. rewrite length_app, length_take.
  destruct (d =? slash); [|rewrite length_app; simpl length]; lia.
Qed.

(** ** Termination *)

Section Terminates.
Context {S : Type} `{!FileSystems S}.
Implicit Types v : vfs S.

Lemma abandon_fuel v dir current buf : abandon v dir current buf <> OutOfFuel.
Proof. unfold abandon. by destruct (leave v dir current). Qed.

(** More fuel does not change a result; every round shortens the path or uses up a
    link. *)
Lemma resolve_loop_fuel v dir current depth p buf m : 0 <= depth <= 8 -> (length p <= 511)%nat ->
  (Z.to_nat (8 - depth) * 512 + length p < m)%nat ->
  resolve_loop m v dir current depth p buf <> OutOfFuel /\
  forall k, resolve_loop (m + k) v dir current depth p buf = resolve_loop m v dir current depth p buf.
Proof.
  revert v current depth p. induction m as [|m IH]; intros v current depth p Hd Hp Hm; [lia|]. cbn [resolve_loop Nat.add].
  pose proof (next_component_progress p) as Hprog. destruct (skip_slashes p) as [|c q]; [done|].
  destruct (next_component 127 (c :: q)) as [comp rest] eqn:E. specialize (Hprog comp rest eq_refl ltac:(done)).
  pose proof abandon_fuel. destruct (vfs_finddir v current comp) as [[next v1]|]; [|done].
  destruct (next =? 0); [done|]. destruct (node_at v1 next) as [n|]; [|done]. destruct (vtype n =? FS_SYMLINK).
  - unfold MAX_SYMLINK_DEPTH. rewrite Z.gtb_ltb. destruct (Z.ltb_spec 8 (depth + 1)); [done|].
    destruct (vfs_readlink v1 next 256) as [[[len target] v2]|]; [|done]. destruct (len <? 0); [done|].
    destruct (kmalloc (kfree v2 next)) as [[np|] v3]; [|done]. destruct (splice target rest) as [q'|] eqn:Hs; [|done].
    apply splice_length in Hs. pose proof (skip_slashes_length q').
    destruct (bool_decide _); [destruct (leave (kfree v3 np) dir current) as [v4|]; [|done]|]; apply IH; lia.
  - destruct (leave v1 dir current) as [v2|]; [|done]. apply IH; lia.
Qed.

(** Enough rounds for the longest path and the most links. *)
Definition resolve_fuel : nat := 9 * 512.

Lemma resolve_fuel_enough v dir path m : (resolve_fuel <= m)%nat ->
  vfs_resolve_path_at m v dir path <> OutOfFuel /\ vfs_resolve_path_at m v dir path = vfs_resolve_path_at resolve_fuel v dir path.
Proof.
  intros Hm. unfold vfs_resolve_path_at. destruct path as [path|]; [|done]. destruct (fs_root v =? 0); [done|].
  destruct (kmalloc v) as [[buf|] v1]; [|done]. set (p := if bool_decide _ then skip_slashes _ else _).
  set (cur := if bool_decide _ then _ else _).
  assert (Hp : (length p <= 511)%nat).
  { unfold p. pose proof (skip_slashes_length (take 511 path)). assert (length (take 511 path) <= 511)%nat by (rewrite length_take; lia).
    case_match; lia. }
  destruct (resolve_loop_fuel v1 dir cur 0 p buf resolve_fuel) as [H1 H2]; [lia|done|change (Z.to_nat (8 - 0)) with 8%nat; unfold resolve_fuel; lia|].
  replace m with (resolve_fuel + (m - resolve_fuel))%nat by lia. by rewrite H2.
Qed.
End Terminates.

(** ** What the file systems promise *)

(** Two states agree on some objects of the heap. *)
Definition agree {S} `{!FileSystems S} (B : gset Z) (s s' : S) : Prop := forall q, q ∈ B -> st_node s' q = st_node s q.

(** The objects in use, those that belong to the file systems for good, and what
    the operations do to them.  A lookup yields nothing, a node that stays, or a
    node made for the caller; only the first kind is persistent, and symbolic links
    are of the second kind. *)
Class FsLaws (S : Type) `{!FileSystems S} := {
  st_ok : S -> Prop;
  st_live : S -> gset Z;
  st_own : S -> gset Z;
  law_own s : st_ok s -> st_own s ⊆ st_live s;
  law_null s : st_ok s -> 0 ∉ st_live s;
  law_node s p n : st_ok s -> st_node s p = Some n -> p ∈ st_live s;
  law_persistent s p n : st_ok s -> st_node s p = Some n -> persistent_node n = bool_decide (p ∈ st_own s);
  law_symlink s p n : st_ok s -> st_node s p = Some n -> vtype n = FS_SYMLINK -> p ∉ st_own s;
  law_kmalloc s r s' : st_ok s -> st_kmalloc s = (r, s') ->
    st_ok s' /\ st_own s' = st_own s /\ agree (st_live s) s s' /\
    match r with
    | None => st_live s' = st_live s
    | Some p => p ∉ st_live s /\ p <> 0 /\ st_live s' = {[p]} ∪ st_live s /\ st_node s' p = None
    end;
  law_kfree s p : st_ok s -> p ∈ st_live s -> p ∉ st_own s ->
    st_ok (st_kfree s p) /\ st_own (st_kfree s p) = st_own s /\ st_live (st_kfree s p) = st_live s ∖ {[p]} /\
    agree (st_live s ∖ {[p]}) s (st_kfree s p);
  law_finddir s p n f name : st_ok s -> st_node s p = Some n -> vtype n = FS_DIRECTORY -> v_finddir n = Some f ->
    exists r s', f s name = Some (r, s') /\ st_ok s' /\ st_own s' = st_own s /\ agree (st_live s) s s' /\
    (st_live s' = st_live s /\ (r = 0 \/ (r <> 0 /\ r ∈ st_own s /\ is_Some (st_node s r))) \/
     r <> 0 /\ r ∉ st_live s /\ st_live s' = {[r]} ∪ st_live s /\ is_Some (st_node s' r));
  law_readlink s p n f size : st_ok s -> st_node s p = Some n -> v_readlink n = Some f ->
    exists len target s', f s size = Some (len, target, s') /\ st_ok s' /\ st_own s' = st_own s /\ agree (st_live s) s s' /\ st_live s' = st_live s /\ (0 <= len -> target <> []);
}.

Section Safe.
Context {S : Type} `{!FileSystems S, !FsLaws S}.
Implicit Types v : vfs S.

Definition live v : gset Z := st_live (v_fs v).
Definition own v : gset Z := st_own (v_fs v).

(** The layer's state is sound: the root and the ends of every mount are nodes, and
    mounts tie nodes that stay. *)
Record vfs_ok v : Prop := {
  vo_fs : st_ok (v_fs v);
  vo_root : is_Some (node_at v (fs_root v));
  vo_mounts : forall m t, (m, t) ∈ vfs_mount_list v ->
    m ∈ own v /\ t ∈ own v /\ is_Some (node_at v m) /\ is_Some (node_at v t);
}.

(** Progress from [v] to [v'] that keeps the objects of [B]. *)
Record keeps (B : gset Z) v v' : Prop := {
  kp_ok : vfs_ok v';
  kp_root : fs_root v' = fs_root v;
  kp_mounts : vfs_mount_list v' = vfs_mount_list v;
  kp_own : own v' = own v;
  kp_live : B ⊆ live v';
  kp_nodes : agree B (v_fs v) (v_fs v');
}.

Lemma keeps_trans (B : gset Z) v1 v2 v3 : keeps B v1 v2 -> keeps B v2 v3 -> keeps B v1 v3.
Proof.
  intros [A1 A2 A3 A4 A5 A6] [B1 B2 B3 B4 B5 B6]. split; [done|congruence..|done|].
  intros q Hq. rewrite B6 by done. by apply A6.
Qed.

Lemma keeps_weaken (B B' : gset Z) v v' : B' ⊆ B -> keeps B v v' -> keeps B' v v'.
Proof. intros HB [A1 A2 A3 A4 A5 A6]. split; try done; [set_solver|]. intros q Hq. apply A6. set_solver. Qed.

(** A step of the file systems that keeps what belongs to them and the root keeps
    the layer's state sound. *)
Lemma vfs_ok_step (B : gset Z) v s : vfs_ok v -> st_ok s -> st_own s = own v -> own v ⊆ B -> fs_root v ∈ B -> agree B (v_fs v) s ->
  vfs_ok (with_fs v s).
Proof.
  intros [H1 H2 H3] Hs Ho HB Hr Ha. split; [done| |].
  - unfold node_at. simpl. by rewrite (Ha _ Hr).
  - intros m t Hmt. destruct (H3 m t Hmt) as (K1 & K2 & K3 & K4). unfold own, node_at. simpl. rewrite Ho.
    rewrite !Ha by set_solver. done.
Qed.

Lemma root_live v : vfs_ok v -> fs_root v ∈ live v.
Proof. intros [H1 [n Hn] _]. by apply (law_node _ _ n). Qed.

Lemma own_live v : vfs_ok v -> own v ⊆ live v.
Proof. intros Hv. apply law_own, Hv. Qed.

Lemma kmalloc_spec v r v' : vfs_ok v -> kmalloc v = (r, v') ->
  keeps (live v) v v' /\ match r with
  | None => live v' = live v
  | Some p => p ∉ live v /\ p <> 0 /\ live v' = {[p]} ∪ live v /\ node_at v' p = None
  end.
Proof.
  intros Hv. unfold kmalloc. destruct (st_kmalloc (v_fs v)) as [r' s'] eqn:E. intros [= -> <-].
  destruct (law_kmalloc _ _ _ (vo_fs _ Hv) E) as (H1 & H2 & H3 & H4). split; [|done]. pose proof (own_live _ Hv). pose proof (root_live _ Hv).
  split; try done; [by apply (vfs_ok_step (live v))|]. unfold live; simpl. destruct r; [destruct H4 as (_ & _ & -> & _); set_solver|set_solver].
Qed.

Lemma kfree_spec v p : vfs_ok v -> p ∈ live v -> p ∉ own v -> p <> fs_root v ->
  keeps (live v ∖ {[p]}) v (kfree v p) /\ live (kfree v p) = live v ∖ {[p]}.
Proof.
  intros Hv Hp Ho Hr. destruct (law_kfree _ p (vo_fs _ Hv) Hp Ho) as (H1 & H2 & H3 & H4). split; [|done].
  pose proof (own_live _ Hv). pose proof (root_live _ Hv).
  split; try done; [apply (vfs_ok_step (live v ∖ {[p]})); try done; [set_solver|set_solver]|unfold live in *; simpl; set_solver].
Qed.

Lemma covering_spec v mounts res n : (forall m t, (m, t) ∈ mounts -> is_Some (node_at v m) /\ t ∈ own v /\ is_Some (node_at v t)) ->
  exists r, covering v mounts res n = Some r /\ (r = res \/ (mounts <> [] /\ r ∈ own v /\ is_Some (node_at v r))).
Proof.
  induction mounts as [|[m t] mounts IH]; intros Hm; cbn [covering]; [exists res; auto|].
  destruct (Hm m t) as ([k Hk] & Ht & Htn); [set_solver|]. rewrite Hk. case_match; [exists t; auto|].
  destruct IH as (r & -> & [->|(_ & ? & ?)]); [set_solver|exists res; auto|exists r; auto].
Qed.

Lemma finddir_spec v current name : vfs_ok v -> is_Some (node_at v current) ->
  exists r v', vfs_finddir v current name = Some (r, v') /\ keeps (live v) v v' /\
    (r = 0 /\ live v' = live v \/
     r <> 0 /\ is_Some (node_at v' r) /\
     (r ∈ own v /\ (vfs_mount_list v = [] -> live v' = live v) \/ r ∉ live v /\ live v' = {[r]} ∪ live v)).
Proof.
  intros Hv [n Hn]. pose proof (root_live _ Hv). pose proof (own_live _ Hv).
  assert (Hrefl : keeps (live v) v v) by (split; done). unfold vfs_finddir, dir_call. rewrite Hn.
  destruct (Z.eqb_spec (vtype n) FS_DIRECTORY) as [Hd|]; [|exists 0, v; auto]. destruct (v_finddir n) as [f|] eqn:Hf; simpl; [|exists 0, v; auto].
  destruct (law_finddir _ _ _ _ name (vo_fs _ Hv) Hn Hd Hf) as (r & s' & -> & H1 & H2 & H3 & H4).
  assert (Hk : keeps (live v) v (with_fs v s')).
  { split; try done; [by apply (vfs_ok_step (live v))|]. unfold live; simpl. destruct H4 as [[-> _]|(_ & _ & -> & _)]; set_solver. }
  destruct (Z.eqb_spec r 0) as [->|Hr0].
  { exists 0, (with_fs v s'). split; [done|]. split; [done|]. left. split; [done|]. destruct H4 as [[? _]|[? _]]; done. }
  assert (Hrn : is_Some (node_at (with_fs v s') r)).
  { destruct H4 as [(_ & [?|(_ & Ho & Hn')])|(_ & _ & _ & Hn')]; [done| |done]. unfold node_at; simpl. rewrite H3; [done|]. unfold live, own in *. set_solver. }
  destruct Hrn as [rn Hrn]. rewrite Hrn. change (vfs_mount_list v) with (vfs_mount_list (with_fs v s')).
  destruct (covering_spec (with_fs v s') (vfs_mount_list (with_fs v s')) r rn) as (t & -> & Ht).
  { intros m t Hmt. destruct (vo_mounts _ (kp_ok _ _ _ Hk) m t Hmt) as (_ & ? & ? & ?). done. }
  exists t, (with_fs v s'). split; [done|]. split; [done|]. right. destruct Ht as [->|(Hne & Ho & Htn)].
  - split; [done|]. split; [by eexists|]. destruct H4 as [(Hl & [?|(_ & Ho & _)])|(_ & Hnl & Hl & _)]; [done|left|right]; done.
  - split; [|split; [done|]]. { intros ->. destruct Htn as [? Htn]. apply (law_node _ _ _ H1) in Htn. by apply (law_null _ H1) in Htn. }
    left. split; [|done]. unfold own in *. simpl in *. congruence.
Qed.

(** The nodes that resolution never frees. *)
Definition stays v (dir p : Z) : Prop := p = fs_root v \/ p = dir \/ p ∈ own v.

Lemma leave_spec v dir current : vfs_ok v -> is_Some (node_at v current) ->
  exists v', leave v dir current = Some v' /\ keeps (live v') v v' /\
    (stays v dir current /\ live v' = live v \/ ~ stays v dir current /\ live v' = live v ∖ {[current]}).
Proof.
  intros Hv [n Hn]. unfold leave, stays. assert (Hrefl : keeps (live v) v v) by (split; done).
  destruct (Z.eqb_spec current (fs_root v)) as [->|Hr]; [exists v; by auto 6|].
  destruct (Z.eqb_spec current dir) as [->|Hd]; [exists v; by auto 8|]. cbn [negb andb]. rewrite Hn.
  rewrite (law_persistent _ _ _ (vo_fs _ Hv) Hn). case_bool_decide as Ho; [exists v; by auto 8|].
  exists (kfree v current). split; [done|]. assert (current ∈ live v) by (by apply (law_node _ _ n); [apply Hv|]).
  destruct (kfree_spec v current) as [Hk ->]; try done. split; [done|]. right. split; [|done]. intros [?|[?|?]]; done.
Qed.

(** ** The loop *)

(** The round's invariant: what was live at the start still is, and of the
    resolution's own nodes only the current directory is live. *)
Record round (v0 : vfs S) (dir buf : Z) v (current : Z) : Prop := {
  rd_keeps : keeps (live v0) v0 v;
  rd_node : is_Some (node_at v current);
  rd_current : current ∉ live v0 \/ stays v0 dir current;
  rd_live : vfs_mount_list v0 = [] -> live v = live v0 ∪ {[current]};
}.

(** The path buffer: an object that is not a node. *)
Record buffer (v0 : vfs S) (dir buf : Z) : Prop := {
  bf_live : buf ∈ live v0;
  bf_own : buf ∉ own v0;
  bf_root : buf <> fs_root v0;
  bf_dir : buf <> dir;
  bf_start : dir = 0 \/ dir ∈ live v0;
}.

Definition resolved_ok (v0 : vfs S) (buf r : Z) v' : Prop :=
  keeps (live v0 ∖ {[buf]}) v0 v' /\ (r = 0 \/ is_Some (node_at v' r)) /\
  (vfs_mount_list v0 = [] -> live v' = (live v0 ∖ {[buf]}) ∪ (if decide (r = 0) then ∅ else {[r]})).

Lemma stays_keeps (B : gset Z) v v' dir p : keeps B v v' -> stays v' dir p <-> stays v dir p.
Proof. intros [_ Hr _ Ho _ _]. unfold stays. by rewrite Hr, Ho. Qed.

Lemma stays_live v0 dir buf v p : vfs_ok v0 -> buffer v0 dir buf -> vfs_ok v -> is_Some (node_at v p) -> stays v0 dir p -> p ∈ live v0.
Proof.
  intros Hv0 Hb Hv [n Hn] [->|[->|Ho]]; [by apply root_live| |by apply own_live].
  destruct (bf_start _ _ _ Hb) as [->|?]; [|done]. apply (law_node _ _ _ (vo_fs _ Hv)) in Hn. by apply (law_null _ (vo_fs _ Hv)) in Hn.
Qed.

Lemma round_step v0 dir buf v v' current : round v0 dir buf v current -> keeps (live v) v v' -> live v' = live v ->
  round v0 dir buf v' current.
Proof.
  intros [H1 H2 H3 H4] Hk Hl. split; [|unfold node_at in *|done|by rewrite Hl].
  - eapply keeps_trans; [exact H1|]. eapply keeps_weaken; [|exact Hk]. apply H1.
  - rewrite (kp_nodes _ _ _ Hk); [done|]. destruct H2 as [n Hn]. eapply law_node; [apply H1|exact Hn].
Qed.

Lemma temp_free v v1 p : vfs_ok v -> keeps (live v) v v1 -> p ∉ live v -> live v1 = {[p]} ∪ live v ->
  keeps (live v) v (kfree v1 p) /\ live (kfree v1 p) = live v.
Proof.
  intros Hv Hk Hp Hl. pose proof (root_live _ Hv). pose proof (own_live _ Hv). destruct Hk as [K1 K2 K3 K4 K5 K6] eqn:EK.
  destruct (kfree_spec v1 p) as [Hk1 Hl1]; [done|set_solver|rewrite K4; set_solver|rewrite K2; set_solver|].
  assert (Heq : live v1 ∖ {[p]} = live v) by (rewrite Hl; set_solver). rewrite Heq in *. split; [|done].
  eapply keeps_trans; [split; done|done].
Qed.

Lemma abandon_spec v0 dir buf v current : vfs_ok v0 -> buffer v0 dir buf -> round v0 dir buf v current ->
  exists v', abandon v dir current buf = Resolved 0 v' /\ resolved_ok v0 buf 0 v'.
Proof.
  intros Hv0 Hb [H1 H2 H3 H4]. pose proof (stays_live v0 dir buf v current Hv0 Hb (kp_ok _ _ _ H1) H2) as Hst.
  pose proof (root_live _ Hv0). pose proof (own_live _ Hv0). destruct Hb as [B1 B2 B3 B4 B5]. unfold abandon. destruct (leave_spec v dir current (kp_ok _ _ _ H1) H2) as (v1 & -> & Hk & Hcase).
  rewrite (stays_keeps _ _ _ _ _ H1) in Hcase.
  assert (Hsub : live v0 ⊆ live v1).
  { pose proof (kp_live _ _ _ H1). destruct Hcase as [[_ ->]|[Hns ->]]; [done|]. destruct H3; [set_solver|done]. }
  assert (Hkeep : keeps (live v0) v0 v1) by (eapply keeps_trans; [exact H1|by eapply keeps_weaken]).
  destruct (kfree_spec v1 buf) as [Hk2 Hl2]; [apply Hk|set_solver|by rewrite (kp_own _ _ _ Hkeep)|by rewrite (kp_root _ _ _ Hkeep)|].
  exists (kfree v1 buf). split; [done|]. split; [|split; [by left|]].
  - eapply keeps_trans; [eapply keeps_weaken; [|exact Hkeep]; set_solver|]. eapply keeps_weaken; [|exact Hk2]. set_solver.
  - intros Hm. rewrite decide_True, Hl2 by done. specialize (H4 Hm).
    assert (live v1 = live v0) as ->; [|set_solver]. destruct Hcase as [[Hs%Hst ->]|[Hns ->]]; rewrite H4; [set_solver|].
    destruct H3; [set_solver|done].
Qed.

Lemma readlink_spec v p size : vfs_ok v -> is_Some (node_at v p) ->
  exists len target v', vfs_readlink v p size = Some (len, target, v') /\ keeps (live v) v v' /\ live v' = live v /\
    (0 <= len -> target <> []).
Proof.
  intros Hv [n Hn]. pose proof (root_live _ Hv). pose proof (own_live _ Hv). unfold vfs_readlink, call. rewrite Hn.
  assert (Hrefl : keeps (live v) v v) by (split; done).
  destruct (p =? 0); [by eexists _, _, _|]. destruct (v_readlink n) as [f|] eqn:Hf; simpl; [|by eexists _, _, _].
  destruct (law_readlink _ _ _ _ size (vo_fs _ Hv) Hn Hf) as (len & target & s' & -> & H1 & H2 & H3 & H4 & H5).
  eexists _, _, _. split; [done|]. split; [|done].
  split; try done; [by apply (vfs_ok_step (live v))|]. unfold live; simpl. set_solver.
Qed.

Lemma splice_some target p : target <> [] -> is_Some (splice target p).
Proof.
  intros Ht. unfold splice. destruct p as [|c p]; [done|]. case_match; [|done].
  destruct target as [|d target]; [done|]. change (take 511 (d :: target)) with (d :: take 510 target).
  rewrite last_cons. by destruct (last (take 510 target)).
Qed.

(** Moving into the next directory. *)
Lemma round_move v0 dir buf v current v1 next : vfs_ok v0 -> buffer v0 dir buf -> round v0 dir buf v current ->
  keeps (live v) v v1 -> is_Some (node_at v1 next) ->
  (next ∈ own v /\ (vfs_mount_list v = [] -> live v1 = live v) \/ next ∉ live v /\ live v1 = {[next]} ∪ live v) ->
  exists v2, leave v1 dir current = Some v2 /\ round v0 dir buf v2 next.
Proof.
  intros Hv0 Hb [H1 H2 H3 H4] Hk Hn Hcase. pose proof (stays_live v0 dir buf v current Hv0 Hb (kp_ok _ _ _ H1) H2) as Hst.
  pose proof (own_live _ Hv0) as Hown. pose proof (kp_live _ _ _ H1) as Hsub.
  assert (Hcl : current ∈ live v). { destruct H2 as [n Hn2]. eapply law_node; [apply H1|exact Hn2]. }
  assert (Hc1 : is_Some (node_at v1 current)) by (unfold node_at in *; by rewrite (kp_nodes _ _ _ Hk)).
  destruct (leave_spec v1 dir current (kp_ok _ _ _ Hk) Hc1) as (v2 & -> & Hk2 & Hl2). exists v2. split; [done|].
  rewrite (stays_keeps _ _ _ _ _ Hk), (stays_keeps _ _ _ _ _ H1) in Hl2. rewrite (kp_own _ _ _ H1) in Hcase.
  pose proof (kp_live _ _ _ Hk) as Hsub1.
  assert (Hnl : next ∈ live v1). { destruct Hn as [n Hn]. eapply law_node; [apply Hk|exact Hn]. }
  assert (Hne : ~ stays v0 dir current -> next <> current).
  { intros Hns ->. destruct Hcase as [[Ho _]|[? _]]; [|done]. apply Hns. by right; right. }
  assert (Hsub2 : live v0 ⊆ live v2) by (destruct Hl2 as [[_ ->]|[Hns ->]]; destruct H3; try done; set_solver).
  split.
  - eapply keeps_trans; [exact H1|]. eapply keeps_trans; [by apply (keeps_weaken (live v))|by apply (keeps_weaken (live v2))].
  - unfold node_at in *. rewrite (kp_nodes _ _ _ Hk2); [done|]. destruct Hl2 as [[_ ->]|[Hns ->]]; [done|]. specialize (Hne Hns). set_solver.
  - destruct Hcase as [[Ho _]|[Hnl0 _]]; [right; by right; right|left; set_solver].
  - intros Hm. specialize (H4 Hm). assert (Hm' : vfs_mount_list v = []) by (by rewrite (kp_mounts _ _ _ H1)).
    destruct Hcase as [[Ho Hl]|[Hnl0 Hl]]; [specialize (Hl Hm')|]; (destruct Hl2 as [[Hs%Hst ->]|[Hns ->]]; [|destruct H3; [|done]]); set_solver.
Qed.

(** The end of the path. *)
Lemma resolve_end v0 dir buf v current : vfs_ok v0 -> buffer v0 dir buf -> (forall n, node_at v0 buf <> Some n) ->
  round v0 dir buf v current -> resolved_ok v0 buf current (kfree v buf).
Proof.
  intros Hv0 [B1 B2 B3 B4 B5] Hbn [H1 [n Hn] H3 H4]. pose proof (kp_live _ _ _ H1) as Hsub.
  assert (Hbc : current <> buf). { intros ->. unfold node_at in Hn. rewrite (kp_nodes _ _ _ H1) in Hn by done. by apply Hbn in Hn. }
  assert (Hcl : current ∈ live v) by (eapply law_node; [apply H1|exact Hn]).
  destruct (kfree_spec v buf) as [Hk Hl]; [apply H1|set_solver|by rewrite (kp_own _ _ _ H1)|by rewrite (kp_root _ _ _ H1)|].
  split; [|split].
  - eapply keeps_trans; [eapply keeps_weaken; [|exact H1]; set_solver|]. eapply keeps_weaken; [|exact Hk]. set_solver.
  - right. unfold node_at in *. rewrite (kp_nodes _ _ _ Hk) by set_solver. by eexists.
  - intros Hm. rewrite Hl, H4, decide_False by first [done|intros ->; by apply (law_null _ (vo_fs _ (kp_ok _ _ _ H1)))]. set_solver.
Qed.

(** Going back to the root for an absolute link. *)
Lemma round_restart v0 dir buf v current : vfs_ok v0 -> buffer v0 dir buf -> round v0 dir buf v current ->
  exists v', leave v dir current = Some v' /\ round v0 dir buf v' (fs_root v').
Proof.
  intros Hv0 Hb [H1 H2 H3 H4]. pose proof (stays_live v0 dir buf v current Hv0 Hb (kp_ok _ _ _ H1) H2) as Hst.
  pose proof (kp_live _ _ _ H1) as Hsub. pose proof (root_live _ Hv0) as Hrl.
  destruct (leave_spec v dir current (kp_ok _ _ _ H1) H2) as (v' & -> & Hk & Hl). exists v'. split; [done|].
  rewrite (stays_keeps _ _ _ _ _ H1) in Hl. rewrite (kp_root _ _ _ Hk), (kp_root _ _ _ H1).
  assert (Hsub' : live v0 ⊆ live v') by (destruct Hl as [[_ ->]|[Hns ->]]; destruct H3; try done; set_solver). split.
  - eapply keeps_trans; [exact H1|]. by apply (keeps_weaken (live v')).
  - rewrite <- (kp_root _ _ _ H1), <- (kp_root _ _ _ Hk). apply Hk.
  - right. by left.
  - intros Hm. specialize (H4 Hm). destruct Hl as [[Hs%Hst ->]|[Hns ->]]; [|destruct H3; [|done]]; set_solver.
Qed.

Lemma resolve_loop_safe v0 dir buf m : vfs_ok v0 -> buffer v0 dir buf -> (forall n, node_at v0 buf <> Some n) -> forall v current depth p, round v0 dir buf v current ->
  match resolve_loop m v dir current depth p buf with
  | Resolved r v' => resolved_ok v0 buf r v'
  | Fault => False
  | OutOfFuel => True
  end.
Proof.
  intros Hv0 Hb Hbn. induction m as [|m IH]; intros v current depth p Hr; [done|]. cbn [resolve_loop].
  assert (Hgive : forall v, round v0 dir buf v current ->
    match abandon v dir current buf with Resolved r v' => resolved_ok v0 buf r v' | Fault => False | OutOfFuel => True end).
  { intros w Hw. by destruct (abandon_spec v0 dir buf w current Hv0 Hb Hw) as (v' & -> & ?). }
  pose proof (kp_ok _ _ _ (rd_keeps _ _ _ _ _ Hr)) as Hv. destruct (skip_slashes p) as [|c q].
  { by apply (resolve_end v0 dir buf). }
  destruct (next_component 127 (c :: q)) as [comp rest].
  destruct (finddir_spec v current comp Hv (rd_node _ _ _ _ _ Hr)) as (next & v1 & -> & Hk & Hcase).
  destruct Hcase as [[-> Hl]|(Hn0 & [n Hn] & Hcase)]; [by apply Hgive, (round_step v0 dir buf v)|].
  rewrite (proj2 (Z.eqb_neq next 0)), Hn by done. pose proof (kp_ok _ _ _ Hk) as Hv1.
  destruct (Z.eqb_spec (vtype n) FS_SYMLINK) as [Hlink|_].
  - pose proof (law_symlink _ _ _ (vo_fs _ Hv1) Hn Hlink) as Hno. fold (own v1) in Hno. rewrite (kp_own _ _ _ Hk) in Hno.
    destruct Hcase as [[? _]|[Hnl Hl]]; [done|]. destruct (_ >? _).
    { destruct (temp_free v v1 next Hv Hk Hnl Hl) as [Hk2 Hl2]. by apply Hgive, (round_step v0 dir buf v). }
    destruct (readlink_spec v1 next 256 Hv1) as (len & target & v2 & -> & Hk2 & Hl2 & Ht); [by eexists|].
    destruct (temp_free v v2 next Hv) as [Hk3 Hl3]; [|done|congruence|].
    { eapply keeps_trans; [exact Hk|]. eapply keeps_weaken; [|exact Hk2]. apply Hk. }
    assert (Hr3 : round v0 dir buf (kfree v2 next) current) by (by apply (round_step v0 dir buf v)).
    destruct (Z.ltb_spec len 0); [by apply Hgive|]. destruct (kmalloc (kfree v2 next)) as [[np|] v4] eqn:Hal;
      (destruct (kmalloc_spec _ _ _ (kp_ok _ _ _ Hk3) Hal) as [Hk4 Hl4]); [|by apply Hgive, (round_step v0 dir buf (kfree v2 next))].
    destruct (splice_some target rest) as [p' ->]; [by apply Ht|]. destruct Hl4 as (Hnp & _ & Hl4 & _).
    destruct (temp_free (kfree v2 next) v4 np) as [Hk5 Hl5]; [apply Hk3|done..|].
    assert (Hr5 : round v0 dir buf (kfree v4 np) current) by (by apply (round_step v0 dir buf (kfree v2 next))).
    case_bool_decide; [|by apply IH].
    destruct (round_restart v0 dir buf (kfree v4 np) current Hv0 Hb Hr5) as (v6 & -> & Hr6). by apply IH.
  - destruct (round_move v0 dir buf v current v1 next Hv0 Hb Hr Hk) as (v2 & -> & Hr2); [by eexists|done|]. by apply IH.
Qed.
End Safe.

(** ** The meaning of a path without links *)

(** A component that is looked up as it is written. *)
Definition component (c : cstr) : Prop := c <> [] /\ slash ∉ c /\ (length c <= 127)%nat.

(** The path of some components, each after one or more slashes, with slashes at
    the end. *)
Definition path_of (comps : list (nat * cstr)) (tail : nat) : cstr :=
  concat (map (fun '(k, c) => replicate (Datatypes.S k) slash ++ c) comps) ++ replicate tail slash.

Section Walk.
Context {S : Type} `{!FileSystems S}.
Implicit Types v : vfs S.

(** Looking up one component after the other; [None] when a lookup faults or meets
    a link. *)
Fixpoint walk v (dir current : Z) (comps : list cstr) : option (Z * vfs S) :=
  match comps with
  | [] => Some (current, v)
  | c :: comps =>
      match vfs_finddir v current c with
      | None => None
      | Some (next, v) =>
          match leave v dir current with
          | None => None
          | Some v' =>
              if next =? 0 then Some (0, v')
              else
                match node_at v next with
                | None => None
                | Some n => if vtype n =? FS_SYMLINK then None else walk v' dir next comps
                end
          end
      end
  end.

Lemma skip_slashes_replicate k p : skip_slashes (replicate k slash ++ p) = skip_slashes p.
Proof. induction k; simpl; [done|]. done. Qed.

Lemma next_component_of room c p : slash ∉ c -> (length c <= room)%nat -> head p = None \/ head p = Some slash ->
  next_component room (c ++ p) = (c, p).
Proof.
  revert room. induction c as [|d c IH]; intros room Hs Hl Hp; simpl.
  - destruct room, p as [|e p]; try done. simpl in *. destruct Hp as [?|[= ->]]; [done|]. by rewrite Z.eqb_refl.
  - destruct room as [|room]; [simpl in Hl; lia|]. simpl. rewrite (proj2 (Z.eqb_neq d slash)) by set_solver.
    rewrite IH; [done|set_solver|simpl in Hl; lia|done].
Qed.

Lemma path_of_head comps tail : head (path_of comps tail) = None \/ head (path_of comps tail) = Some slash.
Proof. unfold path_of. destruct comps as [|[k c] comps]; [destruct tail; auto|by right]. Qed.

Lemma resolve_loop_walk v dir current depth comps tail buf m r v' : Forall component comps.*2 -> (length comps < m)%nat ->
  walk v dir current comps.*2 = Some (r, v') ->
  resolve_loop m v dir current depth (path_of comps tail) buf = Resolved r (kfree v' buf).
Proof.
  revert v current m. induction comps as [|[k c] comps IH]; intros v current [|m] Hc Hm Hw; simpl in Hm; try lia.
  - injection Hw as <- <-. cbn [resolve_loop]. unfold path_of. simpl.
    replace (skip_slashes (replicate tail slash)) with (@nil Z); [done|].
    rewrite <- (app_nil_r (replicate tail slash)), skip_slashes_replicate. done.
  - apply Forall_cons in Hc as [(Hne & Hs & Hl) Hcs]. cbn [resolve_loop].
    assert (Hp : path_of ((k, c) :: comps) tail = replicate (Datatypes.S k) slash ++ (c ++ path_of comps tail)).
    { unfold path_of. cbn [map concat]. by rewrite <- !app_assoc. }
    rewrite Hp, skip_slashes_replicate. destruct c as [|d c]; [done|].
    rewrite (skip_slashes_id ((d :: c) ++ _)) by (simpl; set_solver). cbn [app].
    change (d :: c ++ path_of comps tail) with ((d :: c) ++ path_of comps tail).
    rewrite next_component_of; [|done|done|apply path_of_head]. cbn [walk fmap list_fmap snd] in Hw.
    destruct (vfs_finddir v current (d :: c)) as [[next v1]|]; [|done]. unfold abandon.
    destruct (leave v1 dir current) as [v2|]; [|done]. destruct (next =? 0); [by injection Hw as <- <-|].
    destruct (node_at v1 next) as [n|]; [|done]. destruct (vtype n =? FS_SYMLINK); [done|]. apply IH; [done|lia|done].
Qed.
End Walk.

(** ** The properties *)

Section Props.
Context {S : Type} `{!FileSystems S}.
Implicit Types v : vfs S.

(** C39: Resolving a path always ends: whatever the file systems return, including
    cycles of symbolic links, 4608 rounds are enough, and more change nothing. *)
Theorem vfs_resolve_terminates v dir path : exists r, r <> OutOfFuel /\
  forall m, (resolve_fuel <= m)%nat -> vfs_resolve_path_at m v dir path = r.
Proof.
  exists (vfs_resolve_path_at resolve_fuel v dir path). split.
  - by apply (resolve_fuel_enough v dir path resolve_fuel).
  - intros m Hm. by apply resolve_fuel_enough.
Qed.

Lemma vfs_resolve_walk_eq v dir comps tail buf v1 r v' m : fs_root v <> 0 -> kmalloc v = (Some buf, v1) ->
  Forall component comps.*2 -> (length (path_of comps tail) <= 511)%nat -> path_of comps tail <> [] -> (length comps < m)%nat ->
  walk v1 dir (fs_root v1) comps.*2 = Some (r, v') ->
  vfs_resolve_path_at m v dir (Some (path_of comps tail)) = Resolved r (kfree v' buf).
Proof.
  intros Hr Hal Hc Hl Hne Hm Hw. unfold vfs_resolve_path_at. rewrite (proj2 (Z.eqb_neq _ 0)), Hal by done.
  rewrite take_ge by done. destruct (path_of_head comps tail) as [Hh|Hh]; [by destruct (path_of comps tail)|].
  rewrite Hh, !bool_decide_true by done. destruct m as [|m]; [lia|].
  rewrite <- (resolve_loop_walk v1 dir (fs_root v1) 0 comps tail buf (Datatypes.S m) r v' Hc Hm Hw). cbn [resolve_loop].
  assert (Hidem : forall p, skip_slashes (skip_slashes p) = skip_slashes p); [|by rewrite Hidem].
  intros p. destruct (skip_slashes p) as [|c q] eqn:E; [done|]. apply skip_slashes_id. apply skip_slashes_head in E. simpl. congruence.
Qed.

(** Resolving an absolute path whose components fit is looking them up one after
    the other from the root, however many slashes separate or end them. *)
Theorem vfs_resolve_walk v dir comps tail buf v1 r v' m : fs_root v <> 0 -> kmalloc v = (Some buf, v1) ->
  Forall component comps.*2 -> (length (path_of comps tail) <= 511)%nat -> path_of comps tail <> [] -> (length comps < m)%nat ->
  walk v1 dir (fs_root v1) comps.*2 = Some (r, v') ->
  vfs_resolve_path_at m v dir (Some (path_of comps tail)) = Resolved r (kfree v' buf).
Proof. apply vfs_resolve_walk_eq. Qed.

Context `{!FsLaws S}.

(** Resolution uses only live nodes, frees only nodes it was given for itself,
    and returns null or a live node; without mounts it leaks nothing: afterwards
    only the returned node can be live that was not before. *)
Theorem vfs_resolve_safe v dir path m : vfs_ok v -> dir = 0 \/ is_Some (node_at v dir) -> (resolve_fuel <= m)%nat ->
  exists r v', vfs_resolve_path_at m v dir path = Resolved r v' /\ keeps (live v) v v' /\
    (r = 0 \/ is_Some (node_at v' r)) /\
    (vfs_mount_list v = [] -> live v' = live v ∪ (if decide (r = 0) then ∅ else {[r]})).
Proof.
  intros Hv Hdir Hm. destruct (resolve_fuel_enough v dir path m Hm) as [Hf _]. revert Hf. unfold vfs_resolve_path_at.
  assert (Hrefl : keeps (live v) v v) by (split; done).
  assert (Hz : live v = live v ∪ ∅) by set_solver.
  destruct path as [path|]; [|exists 0, v; auto]. destruct (fs_root v =? 0); [exists 0, v; auto|].
  destruct (kmalloc v) as [[buf|] v1] eqn:Hal; destruct (kmalloc_spec _ _ _ Hv Hal) as [Hk Hl].
  2:{ exists 0, v1. split; [done|]. split; [done|]. split; [by left|]. intros _. rewrite Hl. set_solver. }
  destruct Hl as (Hnl & Hb0 & Hl & Hbn). set (cur := if bool_decide (head path = Some slash) then _ else _).
  pose proof (root_live _ Hv) as Hrl. pose proof (own_live _ Hv) as Hol.
  assert (Hdl : dir = 0 \/ dir ∈ live v).
  { destruct Hdir as [?|[n Hn]]; [by left|right]. by apply (law_node _ _ n); [apply Hv|]. }
  assert (Hbuf : buffer v1 dir buf).
  { split; [set_solver|rewrite (kp_own _ _ _ Hk); set_solver|rewrite (kp_root _ _ _ Hk); set_solver| |set_solver].
    intros ->. destruct Hdl; done. }
  assert (Hcur : round v1 dir buf v1 cur).
  { assert (cur = fs_root v1 \/ (cur = dir /\ dir <> 0)) as Hcase.
    { unfold cur. destruct (bool_decide _); [by left|]. destruct (Z.eqb_spec dir 0); [by left|by right]. }
    split; [split; try done; apply Hk| | |].
    - destruct Hcase as [->|[-> Hd0]]; [apply (kp_ok _ _ _ Hk)|]. destruct Hdir as [?|Hn]; [done|]. destruct Hdl as [?|Hdl]; [done|].
      unfold node_at. by rewrite (kp_nodes _ _ _ Hk).
    - right. destruct Hcase as [->|[-> _]]; [by left|by right; left].
    - intros _. destruct Hcase as [->|[-> Hd0]]; [rewrite (kp_root _ _ _ Hk)|destruct Hdl as [?|Hdl]; [done|]]; set_solver. }
  intros Hf. pose proof (resolve_loop_safe v1 dir buf m (kp_ok _ _ _ Hk) Hbuf ltac:(by rewrite Hbn) v1 cur 0
    (if bool_decide (head (take 511 path) = Some slash) then skip_slashes (take 511 path) else take 511 path) Hcur) as H.
  destruct (resolve_loop m v1 dir cur 0 _ buf) as [r v'| |]; [|done|done]. exists r, v'. split; [done|].
  assert (Heq : live v1 ∖ {[buf]} = live v) by (rewrite Hl; set_solver). destruct H as (H1 & H2 & H3). rewrite Heq in *.
  split; [by eapply keeps_trans|]. split; [done|]. intros Hmt. apply H3. by rewrite (kp_mounts _ _ _ Hk).
Qed.
End Props.
