(* ===== verification/RamfsVfs.v ===== *)
(** * The RAM file system behind the virtual one

    The nodes of [kernel/src/fs/ramfs.c] as nodes of [kernel/src/fs/vfs.c], the
    promises that path resolution relies on, and mounting by path. *)

From S2P Require Import Prelude ObjAlloc Ramfs RamfsFile RamfsDir RamfsRename RamfsThms Vfs VfsThms.

(** [kmalloc] of a data buffer: its contents when the heap has room. *)
Class Buffers := kmalloc_buffer : Z -> option (list Z).

Section Instance.
Context {A : Type} `{!ObjAlloc A, !Buffers}.
Implicit Types s : fs A.

(** The descriptor a node points to: null, or [None] when it is not live. *)
Definition file_at s (n : node) : option (option ramfs_file) :=
  if n_device n =? 0 then Some None
  else match files s !! n_device n with None => None | Some f => Some (Some f) end.

Definition put_file s (p : Z) (n : node) (file : option ramfs_file) : fs A :=
  Fs (<[p := n]> (nodes s)) (match file with None => files s | Some f => <[n_device n := f]> (files s) end)
    (dirs s) (fs_heap s) (next_inode s).

Definition fs_read s (p offset size : Z) : option (list Z * fs A) :=
  match nodes s !! p with
  | None => None
  | Some n =>
      match file_at s n with
      | None => None
      | Some file => match ramfs_read n file offset size with None => None | Some r => Some (r, s) end
      end
  end.

Definition fs_write s (p offset : Z) (buffer : list Z) : option (Z * fs A) :=
  match nodes s !! p with
  | None => None
  | Some n =>
      match file_at s n with
      | None => None
      | Some file =>
          match ramfs_write kmalloc_buffer n file offset buffer with
          | None => None
          | Some (r, n, file) => Some (r, put_file s p n file)
          end
      end
  end.

Definition fs_truncate s (p len : Z) : option (Z * fs A) :=
  match nodes s !! p with
  | None => None
  | Some n =>
      match file_at s n with
      | None => None
      | Some file =>
          match ramfs_truncate kmalloc_buffer n file len with
          | None => None
          | Some (r, n, file) => Some (r, put_file s p n file)
          end
      end
  end.

Definition if_op {T} (b : bool) (f : T) : option T := if b then Some f else None.

(** The node at an address, with the operations it is bound to. *)
Definition ramfs_vnode (p : Z) (n : node) : vnode (fs A) :=
  let data := op_data (n_ops n) in
  let lookup := op_lookup (n_ops n) in
  let modify := op_modify (n_ops n) in
  {| v_flags := n_flags n; v_inode := n_inode n; v_device := n_device n;
     v_read := if_op data (fun s => fs_read s p);
     v_write := if_op data (fun s => fs_write s p);
     v_open := None; v_close := None;
     v_readdir := if_op lookup (fun s i => match ramfs_readdir s p i with None => None | Some r => Some (r, s) end);
     v_finddir := if_op lookup (fun s name => match ramfs_finddir s p name with None => None | Some r => Some (r, s) end);
     v_create := if_op modify (fun s => ramfs_create s p);
     v_mkdir := if_op modify (fun s => ramfs_mkdir s p);
     v_mknod := if_op modify (fun s => ramfs_mknod s p);
     v_unlink := if_op modify (fun s => ramfs_unlink s p);
     v_rmdir := None; v_readlink := None; v_symlink := None;
     v_rename := if_op modify (fun s => ramfs_rename s p);
     v_chmod := None; v_chown := None;
     v_truncate := if_op data (fun s => fs_truncate s p);
     v_poll := None |}.

Definition set_node_flags s (p flags : Z) : fs A :=
  with_nodes s (alter (fun n => VNode (n_name n) (n_mask n) flags (n_inode n) (n_length n) (n_device n) (n_ops n)) p (nodes s)).

#[export] Instance ramfs_FileSystems : FileSystems (fs A) := {|
  st_node s p := ramfs_vnode p <$> nodes s !! p;
  st_set_flags := set_node_flags;
  st_kmalloc := fs_alloc;
  st_kfree := fs_free;
|}.

(** ** Mounting by path *)

(** What follows the last slash. *)
Fixpoint base_name (p : cstr) : cstr :=
  match p with
  | [] => []
  | c :: r => if bool_decide (slash ∈ r) then base_name r else if c =? slash then r else p
  end.

Definition ramfs_mount_at (fuel : nat) (v : vfs (fs A)) (path : cstr) : option (vfs (fs A)) :=
  let found :=
    match vfs_resolve_path fuel v (Some path) with
    | Resolved mountpoint v =>
        if negb (mountpoint =? 0) then Some (mountpoint, v)
        else if fs_root v =? 0 then Some (0, v)
        else
          match node_at v (fs_root v) with
          | None => None
          | Some root =>
              match v_mkdir root with
              | None => Some (0, v)
              | Some mkdir =>
                  match mkdir (v_fs v) (if bool_decide (head path = Some slash) then tail path else path) 493 with
                  | None => None
                  | Some (_, s) =>
                      match vfs_resolve_path fuel (with_fs v s) (Some path) with
                      | Resolved mountpoint v => Some (mountpoint, v)
                      | _ => None
                      end
                  end
              end
          end
    | _ => None
    end in
  match found with
  | None => None
  | Some (mountpoint, v) =>
      if mountpoint =? 0 then Some v
      else
        match kmalloc v with
        | (None, _) => None
        | (Some ram_root, v) =>
            let s := v_fs v in
            let s := with_nodes s (<[ram_root := VNode (take 127 (base_name path)) 0 0 0 0 0 no_ops]> (nodes s)) in
            match ramfs_mount_on s ram_root with
            | None => None
            | Some s => match vfs_mount (with_fs v s) mountpoint ram_root with None => None | Some (_, v) => Some v end
            end
        end
  end.

(** ** The promises of the RAM file system *)

Definition cells s : gset Z := list_to_set (mjoin (map_to_list (dirs s)).*2).*1.

Definition owned s : gset Z := dom (nodes s) ∪ dom (files s) ∪ dom (dirs s) ∪ cells s.

Lemma elem_of_cells s a : a ∈ cells s <-> is_cell s a.
Proof.
  unfold cells, is_cell. rewrite elem_of_list_to_set, list_elem_of_fmap. split.
  - intros ([x c] & -> & (l & Hx & Hl)%list_elem_of_join). apply list_elem_of_fmap in Hl as ([d l'] & -> & Hd%elem_of_map_to_list).
    by exists d, l', c.
  - intros (d & l & c & Hd & Hc). exists (a, c). split; [done|]. apply list_elem_of_join. exists l. split; [done|].
    apply list_elem_of_fmap. exists (d, l). split; [done|]. by apply elem_of_map_to_list.
Qed.

Lemma owned_own s own a : fs_own s own -> a ∈ owned s <-> is_Some (own !! a).
Proof.
  intros [_ _ H1 H2 H3 H4 _]. unfold owned. rewrite !elem_of_union, !elem_of_dom, elem_of_cells, H1, H2, H3, H4. split.
  - intros [[[->| ->]| ->]| ->]; by eexists.
  - intros [[] Hk]; auto.
Qed.

Lemma persistent_bit (n : vnode (fs A)) : Z.testbit (v_flags n) 4 = true -> persistent_node n = true.
Proof.
  intros Hb. unfold persistent_node. destruct (Z.eqb_spec (Z.land (v_flags n) FS_PERSISTENT) 0) as [E|]; [|done].
  assert (Z.testbit (Z.land (v_flags n) FS_PERSISTENT) 4 = true) as Ht by (by rewrite Z.land_spec, Hb). by rewrite E in Ht.
Qed.

Definition ramfs_ok s : Prop := fs_wf s /\ persistent s.

Lemma with_heap_ok s own h : fs_own s own -> fs_tree s -> persistent s -> obj_ok h -> 0 ∈ obj_live h ->
  (forall a k, own !! a = Some k -> a ∈ obj_live h /\ a <> 0) -> ramfs_ok (with_heap s h).
Proof.
  intros [_ _ H1 H2 H3 H4 _] [K1 K2 K3 K4 K5 K6] Hp Hok H0 Hl. split; [split; [exists own|]|done]; by split.
Qed.

Lemma fs_alloc_ok s r s' : ramfs_ok s -> fs_alloc s = (r, s') ->
  ramfs_ok s' /\ owned s' = owned s /\ nodes s' = nodes s /\
  match r with
  | None => obj_live (fs_heap s') = obj_live (fs_heap s)
  | Some p => p ∉ obj_live (fs_heap s) /\ p <> 0 /\ obj_live (fs_heap s') = {[p]} ∪ obj_live (fs_heap s)
  end.
Proof.
  intros [[[own Ho] Ht] Hp]. unfold fs_alloc. destruct (obj_alloc (fs_heap s)) as [[p|] h] eqn:E; intros [= <- <-].
  - destruct (heap_alloc_spec s own p h KNode Ho E) as (Hpn & Hp0 & Hok & H0 & Hl).
    destruct (obj_alloc_some _ _ _ (ow_ok _ _ Ho) E) as (_ & Hfr & Hlive). split; [|done].
    apply (with_heap_ok s own); try done. intros a k Ha. apply (Hl a k). rewrite lookup_insert_ne; [done|congruence].
  - destruct (obj_alloc_none _ _ (ow_ok _ _ Ho) E) as (Hok & Hlive). split; [|done].
    apply (with_heap_ok s own); try done; rewrite Hlive; apply Ho.
Qed.

Lemma fs_free_ok s p : ramfs_ok s -> p ∈ obj_live (fs_heap s) -> p <> 0 -> p ∉ owned s ->
  ramfs_ok (fs_free s p) /\ obj_live (fs_heap (fs_free s p)) = obj_live (fs_heap s) ∖ {[p]}.
Proof.
  intros [[[own Ho] Ht] Hp] Hl H0 Hno. rewrite (owned_own s own) in Hno by done.
  destruct (obj_free_live _ _ (ow_ok _ _ Ho) Hl) as [Hok Hlive]. split; [|done].
  apply (with_heap_ok s own); try done; rewrite Hlive; pose proof (ow_null _ _ Ho); [set_solver|].
  intros a k Ha. destruct (ow_live _ _ Ho a k Ha) as [Ha1 Ha2]. split; [|done].
  assert (a <> p) by (intros ->; apply Hno; by eexists). set_solver.
Qed.

(** A lookup in a directory finds nothing or a node of the file system. *)
Lemma finddir_ok s p n name : ramfs_ok s -> nodes s !! p = Some n -> node_type n = FS_DIRECTORY ->
  exists r, ramfs_finddir s p name = Some r /\ (r = 0 \/ (r <> 0 /\ is_Some (nodes s !! r))).
Proof.
  intros [Hwf _] Hn Hd. destruct (wf_dir _ _ _ Hwf Hn Hd) as (l & Hl & Hz).
  destruct (decide (name = dot \/ name = dotdot)) as [Hdot|Hdot].
  - exists p. unfold ramfs_finddir. rewrite Hn, (proj2 (Z.eqb_neq _ 0)) by done. split.
    + destruct Hdot as [->| ->]; [by rewrite (bool_decide_true (dot = dot))|].
      by rewrite (bool_decide_true (dotdot = dotdot)), orb_true_r.
    + right. split; [|by eexists]. intros ->. by rewrite wf_null_node in Hn.
  - destruct (ramfs_finddir_spec s p n l name Hwf Hn Hd Hl) as (r & -> & [[-> _]|[Hr0 (i & x & m & _ & Hm & _)]]); [tauto|tauto| |].
    + exists 0. by auto.
    + exists r. split; [done|]. right. split; [done|by eexists].
Qed.

#[export] Instance ramfs_FsLaws : FsLaws (fs A).
Proof.
  refine {| st_ok := ramfs_ok; st_live s := obj_live (fs_heap s) ∖ {[0]}; st_own := owned |}.
  - intros s [[[own Ho] _] _] a Ha. apply (owned_own s own) in Ha as [k Hk]; [|done].
    destruct (ow_live _ _ Ho a k Hk). set_solver.
  - set_solver.
  - intros s p n [[[own Ho] _] _] (m & Hm & _)%fmap_Some.
    destruct (ow_live _ _ Ho p KNode) as [H1 H2]; [apply Ho; by eexists|]. set_solver.
  - intros s p n [[[own Ho] _] Hp] (m & Hm & ->)%fmap_Some. rewrite bool_decide_true.
    + apply persistent_bit. by apply (Hp p m).
    + apply (owned_own s own); [done|]. exists KNode. apply Ho. by eexists.
  - intros s p n [_ Hp] (m & Hm & ->)%fmap_Some Hty. by destruct (Hp p m Hm).
  - intros s r s' Hok E. destruct (fs_alloc_ok s r s' Hok E) as (H1 & H2 & H3 & H4). split; [done|]. split; [done|].
    split; [intros q _; simpl; by rewrite H3|]. destruct r as [p|]; [|by rewrite H4]. destruct H4 as (H4 & H5 & H6).
    rewrite H6. do 2 (split; [set_solver|]). split; [set_solver|]. simpl. rewrite H3.
    destruct (nodes s !! p) as [m|] eqn:Em; [|done]. destruct Hok as [[[own Ho] _] _].
    destruct (ow_live _ _ Ho p KNode); [apply Ho; by eexists|done].
  - intros s p Hok Hl Hno. destruct (fs_free_ok s p Hok) as [H1 H2]; [set_solver|set_solver|done|].
    split; [done|]. split; [done|]. simpl in *. rewrite H2. split; [set_solver|]. by intros q _.
  - intros s p n f name Hok (m & Hm & ->)%fmap_Some Hd Hf. simpl in Hf. unfold if_op in Hf. destruct (op_lookup (n_ops m)); [|done].
    injection Hf as <-. destruct (finddir_ok s p m name Hok Hm Hd) as (r & Hr & Hcase). exists r, s. rewrite Hr.
    split; [done|]. split; [done|]. split; [done|]. split; [by intros q _|]. left. split; [done|].
    destruct Hcase as [->|[Hr0 [k Hk]]]; [by left|right]. split; [done|]. simpl. rewrite Hk. split; [|by eexists].
    destruct Hok as [[[own Ho] _] _]. apply (owned_own s own); [done|]. exists KNode. apply Ho. by eexists.
  - intros s p n f size _ (m & Hm & ->)%fmap_Some Hf. done.
Defined.

(** ** Resolution on the RAM file system *)

(** Looking a name up in a node: nothing in what is not a directory. *)
Definition lookup_name s (a : Z) (name : cstr) : option Z :=
  match nodes s !! a with
  | None => None
  | Some n => if (node_type n =? FS_DIRECTORY) && op_lookup (n_ops n) then ramfs_finddir s a name else Some 0
  end.

Fixpoint lookup_path s (a : Z) (comps : list cstr) : option Z :=
  match comps with
  | [] => Some a
  | c :: comps =>
      match lookup_name s a c with
      | None => None
      | Some b => if b =? 0 then Some 0 else lookup_path s b comps
      end
  end.

Lemma lookup_name_ok s a name : ramfs_ok s -> is_Some (nodes s !! a) ->
  exists r, lookup_name s a name = Some r /\ (r = 0 \/ (r <> 0 /\ is_Some (nodes s !! r))).
Proof.
  intros Hok [n Hn]. unfold lookup_name. rewrite Hn.
  destruct (Z.eqb_spec (node_type n) FS_DIRECTORY) as [Hd|]; [|exists 0; by auto]. simpl.
  destruct (op_lookup (n_ops n)); [|exists 0; by auto]. by apply (finddir_ok s a n).
Qed.

Lemma vfs_finddir_lookup (v : vfs (fs A)) a name r : is_Some (nodes (v_fs v) !! a) -> lookup_name (v_fs v) a name = Some r ->
  vfs_finddir v a name =
  (if r =? 0 then Some (0, v)
   else match node_at v r with
        | None => None
        | Some n => match covering v (vfs_mount_list v) r n with None => None | Some t => Some (t, v) end
        end).
Proof.
  intros [n Hn] Hl. unfold vfs_finddir, dir_call, node_at. simpl. rewrite Hn. simpl. unfold lookup_name in Hl. rewrite Hn in Hl.
  assert (Hv : forall x, with_fs v (v_fs x) = Vfs (v_fs x) (fs_root v) (vfs_mount_list v) (refcounts v) (ptrs v)) by done.
  unfold vtype. simpl. fold (node_type n). destruct (node_type n =? FS_DIRECTORY); simpl in *; [|by injection Hl as <-].
  unfold if_op. destruct (op_lookup (n_ops n)); simpl in *; [|by injection Hl as <-]. rewrite Hl. by destruct v.
Qed.

Lemma leave_ramfs (v : vfs (fs A)) dir a : ramfs_ok (v_fs v) -> is_Some (nodes (v_fs v) !! a) -> leave v dir a = Some v.
Proof.
  intros [_ Hp] [n Hn]. unfold leave, node_at. simpl. rewrite Hn. simpl. case_match; [|done].
  rewrite persistent_bit; [done|]. by apply (Hp a n).
Qed.

Lemma ramfs_walk (v : vfs (fs A)) dir a comps : ramfs_ok (v_fs v) -> vfs_mount_list v = [] -> is_Some (nodes (v_fs v) !! a) ->
  exists r, lookup_path (v_fs v) a comps = Some r /\ walk v dir a comps = Some (r, v).
Proof.
  intros Hok Hm. revert a. induction comps as [|c comps IH]; intros a Ha; cbn [lookup_path walk]; [by exists a|].
  destruct (lookup_name_ok (v_fs v) a c Hok Ha) as (b & Hb & Hcase). rewrite (vfs_finddir_lookup v a c b Ha Hb), Hb, Hm.
  destruct Hcase as [->|[Hb0 [n Hn]]]; [exists 0; cbn [Z.eqb]; by rewrite leave_ramfs|].
  assert (Hnb : node_at v b = Some (ramfs_vnode b n)) by (unfold node_at; simpl; by rewrite Hn).
  rewrite (proj2 (Z.eqb_neq b 0)), Hnb by done. cbn [covering]. rewrite leave_ramfs, (proj2 (Z.eqb_neq b 0)), Hnb by done. destruct (Z.eqb_spec (vtype (ramfs_vnode b n)) FS_SYMLINK) as [Hl|_]; [|by apply IH].
  destruct Hok as [_ Hp]. by destruct (Hp b n Hn).
Qed.


(** ** Mounts *)

Lemma find_child_flags s p flags h l name :
  find_child (set_node_flags (with_heap s h) p flags) l name = find_child s l name.
Proof.
  induction l as [|[x c] l IH]; cbn [find_child]; [done|]. rewrite IH. simpl. destruct (decide (c = p)) as [->|Hne].
  - rewrite lookup_alter_eq. by destruct (nodes s !! p).
  - by rewrite lookup_alter_ne.
Qed.

(** After a mount, looking the mountpoint up in its directory gives the mounted
    root; but the mountpoint's own node is no longer a directory, since the mount
    flag lies within the type mask, so looking anything up in it finds nothing. *)
Theorem vfs_mount_covers (v v' : vfs (fs A)) a name mountpoint target : ramfs_ok (v_fs v) -> is_Some (nodes (v_fs v) !! a) ->
  lookup_name (v_fs v) a name = Some mountpoint -> mountpoint <> 0 -> mountpoint <> a -> mountpoint <> target ->
  vfs_mount v mountpoint target = Some (0, v') ->
  vfs_finddir v' a name = Some (target, v') /\ forall name', vfs_finddir v' mountpoint name' = Some (0, v').
Proof.
  intros Hok Ha Hl Hm0 Hma Hmt. unfold vfs_mount. destruct ((mountpoint =? 0) || (target =? 0)); [done|].
  unfold kmalloc. simpl. unfold fs_alloc. destruct (obj_alloc (fs_heap (v_fs v))) as [[e|] h]; [|done]. simpl. unfold node_at. simpl.
  destruct (lookup_name_ok (v_fs v) a name Hok Ha) as (r & Hr & Hcase). assert (r = mountpoint) as -> by congruence.
  destruct Hcase as [?|[_ [n Hn]]]; [done|]. rewrite Hn. simpl. intros [= <-].
  set (v' := Vfs _ _ _ _ _). set (flags := Z.lor (n_flags n) _) in *.
  assert (Hmp : nodes (v_fs v') !! mountpoint = Some (VNode (n_name n) (n_mask n) flags (n_inode n) (n_length n) (n_device n) (n_ops n))).
  { simpl. by rewrite lookup_alter_eq, Hn. }
  assert (Ha' : nodes (v_fs v') !! a = nodes (v_fs v) !! a) by (simpl; by rewrite lookup_alter_ne).
  assert (Hl' : lookup_name (v_fs v') a name = Some mountpoint).
  { rewrite <- Hl. unfold lookup_name, ramfs_finddir. rewrite Ha'. change (dirs (v_fs v')) with (dirs (v_fs v)).
    destruct (nodes (v_fs v) !! a) as [na|]; [|done]. destruct (dirs (v_fs v) !! n_device na) as [l|]; [|done].
    by rewrite (find_child_flags (v_fs v) mountpoint flags h l name : find_child (v_fs v') l name = _). }
  split.
  - rewrite (vfs_finddir_lookup v' a name mountpoint) by (rewrite ?Ha'; done). rewrite (proj2 (Z.eqb_neq mountpoint 0)) by done.
    assert (Hnm : node_at v' mountpoint = Some (ramfs_vnode mountpoint (VNode (n_name n) (n_mask n) flags (n_inode n) (n_length n) (n_device n) (n_ops n)))).
    { unfold node_at, st_node. cbn [ramfs_FileSystems]. by rewrite Hmp. }
    rewrite Hnm. cbn [v' vfs_mount_list covering]. fold v'. rewrite Hnm, !Z.eqb_refl, (proj2 (Z.eqb_neq target mountpoint)) by done. done.
  - intros name'. rewrite (vfs_finddir_lookup v' mountpoint name' 0); [done|by eexists|]. unfold lookup_name. rewrite Hmp.
    assert (node_type (VNode (n_name n) (n_mask n) flags (n_inode n) (n_length n) (n_device n) (n_ops n)) <> FS_DIRECTORY) as Hnd.
    { unfold node_type, flags. simpl. intros E. assert (Z.testbit FS_DIRECTORY 3 = true) as Hb; [|done].
      by rewrite <- E, Z.land_spec, Z.lor_spec, orb_true_r. }
    by rewrite (proj2 (Z.eqb_neq _ _) Hnd).
Qed.
End Instance.

(** ** Witnesses *)

#[export] Instance demo_buffers : Buffers := demo_alloc.

Definition demo_vfs : vfs (fs bump) := Vfs demo_fs demo_root [] ∅ ∅.

Lemma demo_ramfs_ok : ramfs_ok demo_fs.
Proof. split; [exact demo_fs_wf|]. exact (reach_persistent _ _ (init_persistent _ _ _ demo_init_eq) demo_steps). Qed.

Lemma demo_vfs_ok : vfs_ok demo_vfs.
Proof.
  split; [exact demo_ramfs_ok| |].
  - change (is_Some (ramfs_vnode demo_root <$> nodes demo_fs !! demo_root)). rewrite demo_dir_lookup. by eexists.
  - intros m t Hmt. by apply elem_of_nil in Hmt.
Qed.

(** [/tmp/] and [/a]. *)
Definition demo_tmp : list (nat * cstr) := [(0%nat, [116; 109; 112])].

Lemma demo_tmp_component : Forall component demo_tmp.*2.
Proof.
  apply Forall_singleton. split; [done|]. split; [unfold slash; set_solver|simpl; lia].
Qed.

Lemma vfs_resolve_safe_witness : exists r v', vfs_resolve_path_at resolve_fuel demo_vfs 0 (Some [47; 97]) = Resolved r v' /\
  keeps (live demo_vfs) demo_vfs v'.
Proof.
  destruct (vfs_resolve_safe demo_vfs 0 (Some [47; 97]) resolve_fuel demo_vfs_ok) as (r & v' & H & Hk & _); [by left|done|].
  exists r, v'. split; [exact H|exact Hk].
Defined.

Lemma demo_walk : exists r v', walk (kmalloc demo_vfs).2 0 demo_root demo_tmp.*2 = Some (r, v').
Proof.
  destruct (ramfs_walk (kmalloc demo_vfs).2 0 demo_root demo_tmp.*2) as (r & _ & H); [|done| |by eexists _, _].
  - change (v_fs (kmalloc demo_vfs).2) with (fs_alloc demo_fs).2. apply (fs_alloc_ok demo_fs (fs_alloc demo_fs).1); [exact demo_ramfs_ok|].
    by destruct (fs_alloc demo_fs).
  - change (nodes (v_fs (kmalloc demo_vfs).2)) with (nodes demo_fs). exact (mk_is_Some _ _ demo_dir_lookup).
Qed.

Lemma vfs_resolve_walk_witness : exists r v', vfs_resolve_path_at 2 demo_vfs 0 (Some (path_of demo_tmp 1)) = Resolved r v'.
Proof.
  destruct demo_walk as (r & v' & Hw). destruct (kmalloc demo_vfs) as [[buf|] v1] eqn:E; [|by vm_compute in E].
  assert (Hr : fs_root v1 = demo_root) by (unfold kmalloc in E; simpl in E; by injection E as _ <-).
  exists r, (kfree v' buf). apply (vfs_resolve_walk demo_vfs 0 demo_tmp 1 buf v1 r v' 2); [done|exact E|exact demo_tmp_component
    |vm_compute; lia|done|vm_compute; lia|rewrite Hr; exact Hw].
Defined.


Definition demo_tmp_node : Z := Eval vm_compute in default 0 (lookup_name demo_fs demo_root [116; 109; 112]).

Lemma vfs_mount_covers_witness : exists v', vfs_mount demo_vfs demo_tmp_node demo_a = Some (0, v') /\
  vfs_finddir v' demo_root [116; 109; 112] = Some (demo_a, v').
Proof.
  destruct (vfs_mount demo_vfs demo_tmp_node demo_a) as [[r v']|] eqn:E; [|by vm_compute in E].
  assert (r = 0) as -> by (vm_compute in E; by injection E as <- _). exists v'. split; [reflexivity|].
  refine (proj1 (vfs_mount_covers demo_vfs v' demo_root [116; 109; 112] demo_tmp_node demo_a demo_ramfs_ok _ _ _ _ _ E)).
  - exact (mk_is_Some _ _ demo_dir_lookup).
  - vm_compute. reflexivity.
  - by vm_compute.
  - by vm_compute.
  - by vm_compute.
Defined.
