(* ===== verification/Paging.v ===== *)
(** * Page tables (kernel/src/mm/vmm.c)

    Physical memory is a store of 64-bit words keyed by physical address; a table is
    a page of it.  [PHYS_TO_VIRT] only adds the offset of the direct map, so tables
    are named by their physical address throughout.  TLB flushes, the log and
    [vmm_lock], which every operation below holds, are left out. *)

From S2P Require Import Prelude PmmReclaim Vma.

Definition PAGE_FLAG_RW : Z := Z.shiftl 1 1.
Definition PAGE_FLAG_USER : Z := Z.shiftl 1 2.
Definition PAGE_FLAG_COW : Z := Z.shiftl 1 9.
Definition PAGE_FLAG_NX : Z := Z.shiftl 1 63.
Definition KERNEL_HEAP_BASE : Z := 0xFFFFE00000000000.
Definition MAP_SHARED : Z := 0x01.

(** What the page tables use of the physical memory manager: [pmm_alloc],
    [pmm_free_page] (the same as [pmm_decref]), [pmm_incref], [pmm_get_ref] and
    [pmm_is_managed]. *)
Class Frames (P : Type) := {
  fr_alloc : P -> option Z * P;
  fr_free : P -> Z -> P;
  fr_incref : P -> Z -> P;
  fr_ref : P -> Z -> Z;
  fr_managed : P -> Z -> bool;
}.

Record pg (P : Type) := Pg { words : gmap Z Z; frames : P }.
Arguments Pg {P}.
Arguments words {P}.
Arguments frames {P}.

(** A loop that returns early when a round fails. *)
Fixpoint for_ok {A} (n : nat) (i : Z) (f : Z -> A -> bool * A) (a : A) : bool * A :=
  match n with
  | O => (true, a)
  | S n => match f i a with (true, a) => for_ok n (i + 1) f a | (false, a) => (false, a) end
  end.

Definition word (m : gmap Z Z) (a : Z) : Z := default 0 (m !! a).

(** [table[i]] *)
Definition entry (m : gmap Z Z) (t i : Z) : Z := word m (t + 8 * i).

Definition set (e bits : Z) : bool := negb (Z.land e bits =? 0).
Definition present (e : Z) : bool := set e PAGE_FLAG_PRESENT.

Definition pml4_index (va : Z) : Z := Z.land (Z.shiftr va 39) 0x1FF.
Definition pdpt_index (va : Z) : Z := Z.land (Z.shiftr va 30) 0x1FF.
Definition pd_index (va : Z) : Z := Z.land (Z.shiftr va 21) 0x1FF.
Definition pt_index (va : Z) : Z := Z.land (Z.shiftr va 12) 0x1FF.

Section Paging.
Context {P : Type} `{!Frames P}.
Implicit Types s : pg P.

Definition read_entry s (t i : Z) : Z := entry (words s) t i.
Definition set_entry s (t i v : Z) : pg P := Pg (<[t + 8 * i := v]> (words s)) (frames s).
Definition or_entry s (t i bits : Z) : pg P := set_entry s t i (Z.lor (read_entry s t i) bits).
Definition with_frames s (f : P) : pg P := Pg (words s) f.
Definition alloc_frame s : option Z * pg P := let '(r, f) := fr_alloc (frames s) in (r, with_frames s f).
Definition free_frame s (p : Z) : pg P := with_frames s (fr_free (frames s) p).

(** [for (i = 0; i < n; i++) table[i] = 0] *)
Definition zero_entries (n : nat) s (t : Z) : pg P := for_n n 0 (fun i s => set_entry s t i 0) s.

(** ** Mapping *)

Definition get_next_level s (t i : Z) (allocate : bool) : option Z * pg P :=
  let e := read_entry s t i in
  if present e then (Some (Z.land e PAGE_MASK), s)
  else if negb allocate then (None, s)
  else
    match alloc_frame s with
    | (None, s) => (None, s)
    | (Some new_table, s) =>
        let s := zero_entries 512 s new_table in
        (Some new_table,
         set_entry s t i (Z.lor (Z.lor (Z.lor new_table PAGE_FLAG_PRESENT) PAGE_FLAG_RW) PAGE_FLAG_USER))
    end.

(** One level down with the flags propagated. *)
Definition descend s (t i propagate : Z) : option Z * pg P :=
  match get_next_level s t i true with
  | (None, s) => (None, s)
  | (Some next, s) => (Some next, or_entry s t i propagate)
  end.

Definition vmm_map_page s (pml4 virtual_addr physical_addr flags : Z) : bool * pg P :=
  let propagate := Z.land flags (Z.lor PAGE_FLAG_USER PAGE_FLAG_RW) in
  match descend s pml4 (pml4_index virtual_addr) propagate with
  | (None, s) => (false, s)
  | (Some pdpt, s) =>
      match descend s pdpt (pdpt_index virtual_addr) propagate with
      | (None, s) => (false, s)
      | (Some pd, s) =>
          match descend s pd (pd_index virtual_addr) propagate with
          | (None, s) => (false, s)
          | (Some pt, s) =>
              (true, set_entry s pt (pt_index virtual_addr)
                       (Z.lor (Z.lor (Z.land physical_addr PAGE_MASK) flags) PAGE_FLAG_PRESENT))
          end
      end
  end.

Definition vmm_map_huge_page s (pml4 virtual_addr physical_addr flags : Z) : bool * pg P :=
  let propagate := Z.land flags (Z.lor PAGE_FLAG_USER PAGE_FLAG_RW) in
  match descend s pml4 (pml4_index virtual_addr) propagate with
  | (None, s) => (false, s)
  | (Some pdpt, s) =>
      match descend s pdpt (pdpt_index virtual_addr) propagate with
      | (None, s) => (false, s)
      | (Some pd, s) =>
          (true, set_entry s pd (pd_index virtual_addr)
                   (Z.lor (Z.lor (Z.lor (Z.land physical_addr PAGE_MASK) flags) PAGE_FLAG_PRESENT) PAGE_FLAG_PS))
      end
  end.

Definition vmm_map_range s (pml4 virtual_addr physical_addr : Z) (pages : nat) (flags : Z) : bool * pg P :=
  for_ok pages 0 (fun i s => vmm_map_page s pml4 (u64 (virtual_addr + i * 4096)) (u64 (physical_addr + i * 4096)) flags) s.

(** ** Unmapping *)

Definition table_empty s (t : Z) : bool := for_n 512 0 (fun i b => b && negb (present (read_entry s t i))) true.

Definition vmm_free_empty_tables s (pml4 virtual_addr : Z) : pg P :=
  let i4 := pml4_index virtual_addr in
  let i3 := pdpt_index virtual_addr in
  let i2 := pd_index virtual_addr in
  let e4 := read_entry s pml4 i4 in
  if negb (present e4) then s
  else
    let pdpt := Z.land e4 PAGE_MASK in
    let e3 := read_entry s pdpt i3 in
    if negb (present e3) || set e3 PAGE_FLAG_PS then s
    else
      let pd := Z.land e3 PAGE_MASK in
      let e2 := read_entry s pd i2 in
      if negb (present e2) || set e2 PAGE_FLAG_PS then s
      else
        let pt := Z.land e2 PAGE_MASK in
        if table_empty s pt then
          let s := free_frame (set_entry s pd i2 0) pt in
          if table_empty s pd then
            let s := free_frame (set_entry s pdpt i3 0) pd in
            if table_empty s pdpt then free_frame (set_entry s pml4 i4 0) pdpt else s
          else s
        else s.

Definition vmm_unmap_page s (pml4 virtual_addr : Z) : pg P :=
  let i4 := pml4_index virtual_addr in
  let e4 := read_entry s pml4 i4 in
  if negb (present e4) then s
  else
    let e3 := read_entry s (Z.land e4 PAGE_MASK) (pdpt_index virtual_addr) in
    if negb (present e3) then s
    else if set e3 PAGE_FLAG_PS then s
    else
      let e2 := read_entry s (Z.land e3 PAGE_MASK) (pd_index virtual_addr) in
      if negb (present e2) then s
      else if set e2 PAGE_FLAG_PS then s
      else
        let s := set_entry s (Z.land e2 PAGE_MASK) (pt_index virtual_addr) 0 in
        if (i4 <? 256) || ((i4 >=? 256) && (virtual_addr <? KERNEL_HEAP_BASE)) then vmm_free_empty_tables s pml4 virtual_addr
        else s.

(** ** Translation *)

Definition vmm_virt_to_phys s (pml4 virtual_addr : Z) : Z :=
  let e := read_entry s pml4 (pml4_index virtual_addr) in
  if negb (present e) then 0
  else
    let e := read_entry s (Z.land e PAGE_MASK) (pdpt_index virtual_addr) in
    if negb (present e) then 0
    else if set e PAGE_FLAG_PS then Z.lor (Z.land e 0xFFFFFC0000000) (Z.land virtual_addr 0x3FFFFFFF)
    else
      let e := read_entry s (Z.land e PAGE_MASK) (pd_index virtual_addr) in
      if negb (present e) then 0
      else if set e PAGE_FLAG_PS then Z.lor (Z.land e 0xFFFFFFFE00000) (Z.land virtual_addr 0x1FFFFF)
      else
        let e := read_entry s (Z.land e PAGE_MASK) (pt_index virtual_addr) in
        if negb (present e) then 0
        else Z.lor (Z.land e PAGE_MASK) (Z.land virtual_addr 0xFFF).
End Paging.
