(* ===== verification/AddrSpace.v ===== *)
(** * Address spaces (kernel/src/mm/vmm.c)

    Creating, cloning and freeing the tables of an address space.  The page of the
    kernel's own root ([kernel_pml4]) and the root the processor uses are arguments.
    The headers that the physical memory manager keeps in free pages belong to its
    own state; the words of a free page are never read here before they are written. *)

From S2P Require Import Prelude PmmReclaim Vma Paging.

Section AddrSpace.
Context {P : Type} `{!Frames P}.
Implicit Types s : pg P.

(** [for (i = 256; i < 512; i++) new[i] = src[i]] *)
Definition copy_kernel_half s (new src : Z) : pg P := for_n 256 256 (fun i s => set_entry s new i (read_entry s src i)) s.

(** [(phys & PAGE_MASK) | (entry & ~PAGE_MASK)] *)
Definition redirect (phys e : Z) : Z := Z.lor (Z.land phys PAGE_MASK) (Z.land e (Z.lnot PAGE_MASK)).

Definition vmm_create_pml4 s (kernel_pml4 : Z) : option Z * pg P :=
  match alloc_frame s with
  | (None, s) => (None, s)
  | (Some new, s) => (Some new, copy_kernel_half (zero_entries 256 s new) new kernel_pml4)
  end.

(** ** The kernel's own tables *)

(** Level [l]; 0 when there is no memory. *)
Fixpoint vmm_deep_clone_table (l : nat) s (src : Z) : Z * pg P :=
  match l with
  | O => (0, s)
  | S l' =>
      match alloc_frame s with
      | (None, s) => (0, s)
      | (Some new, s) =>
          let '(ok, s) :=
            for_ok 512 0 (fun i s =>
              let e := read_entry s src i in
              if negb (present e) then (true, set_entry s new i 0)
              else if ((1 <? l)%nat && set e PAGE_FLAG_PS) || (l =? 1)%nat then (true, set_entry s new i e)
              else
                let '(sub, s) := vmm_deep_clone_table l' s (Z.land e PAGE_MASK) in
                if sub =? 0 then (false, s) else (true, set_entry s new i (redirect sub e))) s in
          (if ok then new else 0, s)
      end
  end.

(** The new [kernel_pml4] and whether the kernel switched to it; [mark] is
    [pmm_mark_used(kernel_pml4, 1)]. *)
Definition vmm_init (mark : P -> Z -> P) s (active : Z) : Z * bool * pg P :=
  let s := with_frames s (mark (frames s) active) in
  let s := zero_entries 256 s active in
  match alloc_frame s with
  | (None, s) => (active, false, s)
  | (Some new, s) =>
      let s := zero_entries 512 s new in
      let s :=
        for_n 256 256 (fun i s =>
          let e := read_entry s active i in
          if present e then
            if set e PAGE_FLAG_PS then set_entry s new i e
            else
              let '(cloned, s) := vmm_deep_clone_table 3 s (Z.land e PAGE_MASK) in
              set_entry s new i (redirect cloned e)
          else s) s in
      (new, true, s)
  end.

(** ** Copies of an address space *)

(** [for (w = 0; w < 512; w++) dst[w] = src[w]] *)
Definition copy_page s (dst src : Z) : pg P := for_n 512 0 (fun w s => set_entry s dst w (read_entry s src w)) s.

(** [l] is the level minus one. *)
Fixpoint clone_table (l : nat) s (src start end_ : Z) : option Z * pg P :=
  match alloc_frame s with
  | (None, s) => (None, s)
  | (Some new, s) =>
      let s := zero_entries 512 s new in
      let '(ok, s) :=
        for_ok (Z.to_nat (end_ - start)) start (fun i s =>
          let e := read_entry s src i in
          if negb (present e) then (true, s)
          else if negb (set e PAGE_FLAG_USER) then (true, s)
          else
            match l with
            | O =>
                match alloc_frame s with
                | (None, s) => (false, s)
                | (Some f, s) =>
                    let s := copy_page s f (Z.land e PAGE_MASK) in
                    (true, set_entry s new i (redirect f (read_entry s src i)))
                end
            | S l' =>
                match clone_table l' s (Z.land e PAGE_MASK) 0 512 with
                | (None, s) => (false, s)
                | (Some child, s) => (true, set_entry s new i (redirect child (read_entry s src i)))
                end
            end) s in
      (if ok then Some new else None, s)
  end.

Definition vmm_clone_user_mappings s (src_pml4 : Z) : Z * pg P :=
  match alloc_frame s with
  | (None, s) => (0, s)
  | (Some new, s) =>
      let s := zero_entries 512 s new in
      let '(ok, s) :=
        for_ok 256 0 (fun i s =>
          let e := read_entry s src_pml4 i in
          if negb (present e) then (true, s)
          else if negb (set e PAGE_FLAG_USER) then (true, s)
          else
            match clone_table 2 s (Z.land e PAGE_MASK) 0 512 with
            | (None, s) => (false, s)
            | (Some child, s) => (true, set_entry s new i (redirect child (read_entry s src_pml4 i)))
            end) s in
      if ok then (new, copy_kernel_half s new src_pml4) else (0, s)
  end.

(** [vmas] is [None] for a null pointer. *)
Definition is_shared_vma (vmas : option vma_list) (vaddr : Z) : bool :=
  match vmas with
  | None => false
  | Some vmas => match vma_find vmas vaddr with Some (_, v) => set (v_flags v) MAP_SHARED | None => false end
  end.

(** [e & ~RW | COW] *)
Definition make_cow (e : Z) : Z := Z.lor (Z.land e (Z.lnot PAGE_FLAG_RW)) PAGE_FLAG_COW.

(** The parent's entry of a private page when it is cloned. *)
Definition share_page s (src i : Z) : pg P :=
  let e := read_entry s src i in
  let phys := Z.land e PAGE_MASK in
  if fr_managed (frames s) phys then
    let s := if set e PAGE_FLAG_RW then set_entry s src i (make_cow e) else s in
    with_frames s (fr_incref (frames s) phys)
  else s.

Fixpoint clone_table_vma (l : nat) s (src start end_ : Z) (vmas : option vma_list) (base_addr : Z) : option Z * pg P :=
  match alloc_frame s with
  | (None, s) => (None, s)
  | (Some new, s) =>
      let s := zero_entries 512 s new in
      let '(ok, s) :=
        for_ok (Z.to_nat (end_ - start)) start (fun i s =>
          let e := read_entry s src i in
          if negb (present e) then (true, s)
          else if negb (set e PAGE_FLAG_USER) then (true, s)
          else
            match l with
            | O =>
                let page_vaddr := Z.lor base_addr (Z.shiftl i 12) in
                let s := if is_shared_vma vmas page_vaddr then s else share_page s src i in
                (true, set_entry s new i (read_entry s src i))
            | S l' =>
                let child_base := Z.lor base_addr (Z.shiftl i (12 + 9 * Z.of_nat l)) in
                match clone_table_vma l' s (Z.land e PAGE_MASK) 0 512 vmas child_base with
                | (None, s) => (false, s)
                | (Some child, s) => (true, set_entry s new i (redirect child (read_entry s src i)))
                end
            end) s in
      (if ok then Some new else None, s)
  end.

Definition vmm_clone_user_mappings_vma s (src_pml4 : Z) (vmas : option vma_list) : Z * pg P :=
  match alloc_frame s with
  | (None, s) => (0, s)
  | (Some new, s) =>
      let s := zero_entries 512 s new in
      let '(ok, s) :=
        for_ok 256 0 (fun i s =>
          let e := read_entry s src_pml4 i in
          if negb (present e) then (true, s)
          else if negb (set e PAGE_FLAG_USER) then (true, s)
          else
            let base_addr := Z.shiftl i 39 in
            let base_addr := if set base_addr (Z.shiftl 1 47) then Z.lor base_addr 0xFFFF000000000000 else base_addr in
            match clone_table_vma 2 s (Z.land e PAGE_MASK) 0 512 vmas base_addr with
            | (None, s) => (false, s)
            | (Some child, s) => (true, set_entry s new i (redirect child (read_entry s src_pml4 i)))
            end) s in
      if ok then (new, copy_kernel_half s new src_pml4) else (0, s)
  end.

(** ** Freeing an address space *)

(** Freeing the 512 frames of a huge page. *)
Definition free_huge s (phys : Z) : pg P := for_n 512 0 (fun p s => free_frame s (phys + p * 4096)) s.

(** [keep] says which pages belong to shared mappings; without regions none do. *)
Definition free_pt (keep : Z -> bool) s (pt base : Z) : pg P :=
  for_n 512 0 (fun l s =>
    let e := read_entry s pt l in
    if present e then
      if keep (Z.lor base (Z.shiftl l 12)) then s else free_frame s (Z.land e PAGE_MASK)
    else s) s.

Definition free_pd (keep : Z -> bool) s (pd base : Z) : pg P :=
  for_n 512 0 (fun k s =>
    let e := read_entry s pd k in
    let va := Z.lor base (Z.shiftl k 21) in
    if negb (present e) then s
    else if set e PAGE_FLAG_PS then
      if keep va then set_entry s pd k 0
      else set_entry (free_huge s (Z.land e PAGE_MASK)) pd k 0
    else
      let pt := Z.land e PAGE_MASK in
      free_frame (free_pt keep s pt va) pt) s.

Definition free_pdpt (keep : Z -> bool) s (pdpt base : Z) : pg P :=
  for_n 512 0 (fun j s =>
    let e := read_entry s pdpt j in
    if negb (present e) then s
    else if set e PAGE_FLAG_PS then s
    else
      let pd := Z.land e PAGE_MASK in
      free_frame (free_pd keep s pd (Z.lor base (Z.shiftl j 30))) pd) s.

Definition free_user_half (keep : Z -> bool) s (cr3 : Z) : pg P :=
  let s :=
    for_n 256 0 (fun i s =>
      let e := read_entry s cr3 i in
      if negb (present e) then s
      else
        let pdpt := Z.land e PAGE_MASK in
        free_frame (free_pdpt keep s pdpt (Z.shiftl i 39)) pdpt) s in
  free_frame s cr3.

Definition vmm_free_user_pages s (active_cr3 cr3 : Z) : pg P :=
  if cr3 =? 0 then s
  else if cr3 =? Z.land active_cr3 PAGE_MASK then s
  else free_user_half (fun _ => false) s cr3.

Definition vmm_free_user_pages_vma s (active_cr3 cr3 : Z) (vmas : option vma_list) : pg P :=
  if cr3 =? 0 then s
  else
    match vmas with
    | None => vmm_free_user_pages s active_cr3 cr3
    | Some _ =>
        if cr3 =? Z.land active_cr3 PAGE_MASK then s
        else free_user_half (is_shared_vma vmas) s cr3
    end.

(** The page that signal handlers return through; [signal_trampoline_phys] is the
    kernel's global. *)
Definition vmm_map_signal_trampoline (signal_trampoline_phys : Z) s (pml4 : Z) : pg P :=
  if signal_trampoline_phys =? 0 then s
  else (vmm_map_page s pml4 0x00007FFFFFFFF000 signal_trampoline_phys PAGE_FLAG_USER).2.
End AddrSpace.
