(* ===== verification/PagingInv.v ===== *)
(** * Page tables as a tree

    The shape of the tables behind one root, what an address translates to, and how
    changing one entry changes it. *)

From S2P Require Import Prelude PmmReclaim Vma Paging.

(** ** Bits *)

Lemma land_pow2_testbit e k : 0 <= k -> set e (Z.shiftl 1 k) = Z.testbit e k.
Proof.
  intros Hk. unfold set. rewrite Z.shiftl_1_l. destruct (Z.testbit e k) eqn:Hb.
  - rewrite (proj2 (Z.eqb_neq _ 0)); [done|]. intros E. assert (Z.testbit (Z.land e (2 ^ k)) k = false) as Ht by (by rewrite E, Z.bits_0).
    by rewrite Z.land_spec, Hb, Z.pow2_bits_true in Ht.
  - rewrite (proj2 (Z.eqb_eq _ 0)); [done|]. apply Z.bits_inj'. intros n Hn. rewrite Z.land_spec, Z.bits_0, Z.pow2_bits_eqb by done.
    destruct (Z.eqb_spec k n) as [->|]; [by rewrite Hb|by rewrite andb_false_r].
Qed.

Lemma present_testbit e : present e = Z.testbit e 0.
Proof. exact (land_pow2_testbit e 0 ltac:(lia)). Qed.

Lemma ps_testbit e : set e PAGE_FLAG_PS = Z.testbit e 7.
Proof. exact (land_pow2_testbit e 7 ltac:(lia)). Qed.

Lemma mask_testbit n : 0 <= n -> Z.testbit PAGE_MASK n = (12 <=? n) && (n <? 52).
Proof.
  intros Hn. change PAGE_MASK with (Z.shiftl (Z.ones 40) 12). destruct (Z.leb_spec 12 n); cbn [andb].
  - rewrite Z.shiftl_spec by lia. destruct (Z.ltb_spec n 52); [by rewrite Z.ones_spec_low by lia|by rewrite Z.ones_spec_high by lia].
  - rewrite Z.shiftl_spec by lia. by rewrite Z.testbit_neg_r by lia.
Qed.

(** A physical page. *)
Definition page (f : Z) : Prop := f mod 4096 = 0 /\ 0 <= f < 2 ^ 52.

Lemma page_testbit f n : page f -> 0 <= n -> (n < 12 \/ 52 <= n) -> Z.testbit f n = false.
Proof.
  intros [Ha Hr] Hn [Hlt|Hge].
  - assert (f = Z.shiftl (f / 4096) 12) as ->.
    { rewrite Z.shiftl_mul_pow2 by lia. change (2 ^ 12) with 4096. pose proof (Z.div_mod f 4096). lia. }
    rewrite Z.shiftl_spec by done. by rewrite Z.testbit_neg_r by lia.
  - by apply (testbit_high f 52).
Qed.

Lemma page_mask f x : page f -> Z.land (Z.lor f x) PAGE_MASK = Z.lor f (Z.land x PAGE_MASK).
Proof.
  intros Hf. apply Z.bits_inj'. intros n Hn. rewrite Z.land_spec, !Z.lor_spec, Z.land_spec, mask_testbit by done.
  destruct (Z.leb_spec 12 n), (Z.ltb_spec n 52); cbn [andb]; rewrite ?andb_false_r, ?andb_true_r, ?orb_false_r; try done;
    symmetry; apply page_testbit; (done || lia).
Qed.

Lemma mask_page e : page (Z.land e PAGE_MASK).
Proof.
  assert (Hm : forall n, 0 <= n -> (n < 12 \/ 52 <= n) -> Z.testbit (Z.land e PAGE_MASK) n = false).
  { intros n Hn Hc. rewrite Z.land_spec, mask_testbit by done.
    destruct (Z.leb_spec 12 n), (Z.ltb_spec n 52); cbn [andb]; rewrite ?andb_false_r; (done || lia). }
  split.
  - apply Z.bits_inj'. intros n Hn. rewrite Z.bits_0. change 4096 with (2 ^ 12).
    destruct (Z.lt_ge_cases n 12); [rewrite Z.mod_pow2_bits_low by lia; apply Hm; lia|by rewrite Z.mod_pow2_bits_high by lia].
  - assert (0 <= Z.land e PAGE_MASK) as H0 by (apply Z.land_nonneg; right; done). split; [done|].
    apply testbit_bound; [lia|done|]. intros n Hn. apply Hm; lia.
Qed.

(** ** The translation *)

(** The index of an address in a table of a level; 4 is the root's. *)
Definition vidx (l : nat) (va : Z) : Z := Z.land (Z.shiftr va (3 + 9 * Z.of_nat l)) 0x1FF.

Lemma vidx_range l va : 0 <= vidx l va < 512.
Proof. unfold vidx. change 0x1FF with (Z.ones 9). rewrite Z.land_ones by lia. apply Z.mod_pos_bound. lia. Qed.

(** An entry that maps a page, and one that points to the next table. *)
Definition maps (l : nat) (e : Z) : bool := (l =? 1)%nat || ((l <? 4)%nat && set e PAGE_FLAG_PS).
Definition links (l : nat) (e : Z) : bool := present e && negb (maps l e).

(** The level and value of the entry that maps an address. *)
Fixpoint leaf (m : gmap Z Z) (l : nat) (t va : Z) : option (nat * Z) :=
  match l with
  | O => None
  | S l' =>
      let e := entry m t (vidx l va) in
      if negb (present e) then None
      else if maps l e then Some (l, e)
      else leaf m l' (Z.land e PAGE_MASK) va
  end.

Lemma leaf_S m l t va : leaf m (S l) t va =
  if negb (present (entry m t (vidx (S l) va))) then None
  else if maps (S l) (entry m t (vidx (S l) va)) then Some (S l, entry m t (vidx (S l) va))
  else leaf m l (Z.land (entry m t (vidx (S l) va)) PAGE_MASK) va.
Proof. done. Qed.

(** The address a mapping entry gives. *)
Definition leaf_phys (r : option (nat * Z)) (va : Z) : Z :=
  match r with
  | None => 0
  | Some (3%nat, e) => Z.lor (Z.land e 0xFFFFFC0000000) (Z.land va 0x3FFFFFFF)
  | Some (2%nat, e) => Z.lor (Z.land e 0xFFFFFFFE00000) (Z.land va 0x1FFFFF)
  | Some (_, e) => Z.lor (Z.land e PAGE_MASK) (Z.land va 0xFFF)
  end.

Lemma virt_to_phys_leaf {P} (s : pg P) pml4 va : vmm_virt_to_phys s pml4 va = leaf_phys (leaf (words s) 4 pml4 va) va.
Proof.
  unfold vmm_virt_to_phys, read_entry. cbn [leaf].
  change (vidx 4 va) with (pml4_index va). change (vidx 3 va) with (pdpt_index va).
  change (vidx 2 va) with (pd_index va). change (vidx 1 va) with (pt_index va). unfold maps. cbn [Nat.eqb Nat.ltb Nat.leb orb andb].
  destruct (present _); [|done]. cbn [negb]. destruct (present _); [|done]. cbn [negb]. destruct (set _ _); [done|].
  destruct (present _); [|done]. cbn [negb]. destruct (set _ _); [done|]. by destruct (present _).
Qed.

(** ** The tree *)

(** The tables behind a root with their levels: entries point to tables one level
    down, and no table is pointed to twice. *)
Record pt_wf (m : gmap Z Z) (root : Z) (tbl : gmap Z nat) : Prop := {
  pw_root : tbl !! root = Some 4%nat;
  pw_page : forall t l, tbl !! t = Some l -> page t /\ (1 <= l <= 4)%nat;
  pw_child : forall t l i, tbl !! t = Some (S l) -> 0 <= i < 512 -> links (S l) (entry m t i) = true ->
    tbl !! Z.land (entry m t i) PAGE_MASK = Some l;
  pw_uniq : forall t t' l l' i i', tbl !! t = Some l -> tbl !! t' = Some l' -> 0 <= i < 512 -> 0 <= i' < 512 ->
    links l (entry m t i) = true -> links l' (entry m t' i') = true ->
    Z.land (entry m t i) PAGE_MASK = Z.land (entry m t' i') PAGE_MASK -> t = t' /\ i = i';
}.

(** Entries of different tables, or of different indices, are different words. *)
Lemma entry_addr_inj t t' i i' : page t -> page t' -> 0 <= i < 512 -> 0 <= i' < 512 -> t + 8 * i = t' + 8 * i' -> t = t' /\ i = i'.
Proof.
  intros [H1 _] [H2 _] Hi Hi' E. pose proof (Z.div_mod t 4096 ltac:(lia)). pose proof (Z.div_mod t' 4096 ltac:(lia)).
  assert (t / 4096 = t' / 4096) by lia. lia.
Qed.

Lemma entry_insert m t t' i i' v : page t -> page t' -> 0 <= i < 512 -> 0 <= i' < 512 ->
  entry (<[t + 8 * i := v]> m) t' i' = if decide (t = t' /\ i = i') then v else entry m t' i'.
Proof.
  intros H1 H2 Hi Hi'. unfold entry, word. destruct (decide (t = t' /\ i = i')) as [[-> ->]|Hne].
  - by rewrite lookup_insert_eq.
  - rewrite lookup_insert_ne; [done|]. intros E. apply Hne. by apply entry_addr_inj.
Qed.

(** The table of the [k]-th step down from the root. *)
Fixpoint tab (m : gmap Z Z) (root va : Z) (k : nat) : option Z :=
  match k with
  | O => Some root
  | S k =>
      match tab m root va k with
      | None => None
      | Some t =>
          let e := entry m t (vidx (4 - k) va) in
          if links (4 - k) e then Some (Z.land e PAGE_MASK) else None
      end
  end.

Lemma tab_link m root va k c : tab m root va (S k) = Some c ->
  exists t, tab m root va k = Some t /\ links (4 - k) (entry m t (vidx (4 - k) va)) = true /\
    Z.land (entry m t (vidx (4 - k) va)) PAGE_MASK = c.
Proof.
  cbn [tab]. destruct (tab m root va k) as [t|]; [|done]. destruct (links _ _) eqn:E; [|done]. intros [= <-]. by exists t.
Qed.

Lemma tab_next m root va k t l : tab m root va k = Some t -> (4 - k)%nat = l -> links l (entry m t (vidx l va)) = true ->
  tab m root va (S k) = Some (Z.land (entry m t (vidx l va)) PAGE_MASK).
Proof. intros H <- Hl. cbn [tab]. by rewrite H, Hl. Qed.

Lemma links_ok l e : present e = true -> (2 <= l)%nat -> (l = 4%nat \/ set e PAGE_FLAG_PS = false) -> links l e = true.
Proof.
  intros Hp Hl Hs. unfold links, maps. rewrite Hp, (proj2 (Nat.eqb_neq l 1)) by lia. destruct Hs as [->|Hs]; [done|].
  by rewrite Hs, andb_false_r.
Qed.

Lemma links_level m root tbl t l i : pt_wf m root tbl -> tbl !! t = Some l -> links l (entry m t i) = true -> (2 <= l)%nat.
Proof.
  intros Hwf Ht Hl. destruct (pw_page _ _ _ Hwf t l Ht) as [_ Hr]. unfold links, maps in Hl.
  destruct (Nat.eqb_spec l 1); [by rewrite andb_false_r in Hl|lia].
Qed.

Lemma tab_level m root tbl va k t : pt_wf m root tbl -> (k <= 3)%nat -> tab m root va k = Some t -> tbl !! t = Some (4 - k)%nat.
Proof.
  intros Hwf. revert t. induction k as [|k IH]; intros t Hk; cbn [tab]; [intros [= <-]; apply Hwf|].
  destruct (tab m root va k) as [t'|] eqn:E; [|done]. specialize (IH t' ltac:(lia) eq_refl).
  destruct (links (4 - k) _) eqn:Hl; [|done]. intros [= <-]. replace (4 - k)%nat with (S (4 - S k)) in * by lia.
  apply (pw_child _ _ _ Hwf); [done|apply vidx_range|done].
Qed.

(** Two addresses that reach the same table have the same indices above it. *)
Lemma tab_inj m root tbl va va' k t : pt_wf m root tbl -> (k <= 3)%nat -> tab m root va k = Some t -> tab m root va' k = Some t ->
  forall j, (4 - k < j <= 4)%nat -> vidx j va = vidx j va'.
Proof.
  intros Hwf. revert t. induction k as [|k IH]; intros t Hk H1 H2 j Hj; [lia|]. cbn [tab] in H1, H2.
  destruct (tab m root va k) as [t1|] eqn:E1; [|done]. destruct (tab m root va' k) as [t2|] eqn:E2; [|done].
  destruct (links (4 - k) (entry m t1 _)) eqn:L1; [|done]. destruct (links (4 - k) (entry m t2 _)) eqn:L2; [|done].
  injection H1 as H1. injection H2 as H2.
  destruct (pw_uniq _ _ _ Hwf t1 t2 (4 - k) (4 - k) (vidx (4 - k) va) (vidx (4 - k) va')) as [-> Hi];
    [by apply (tab_level m root tbl va); [|lia|]|by apply (tab_level m root tbl va'); [|lia|]|apply vidx_range|apply vidx_range|done|done|congruence|].
  destruct (decide (j = (4 - k)%nat)) as [->|Hne]; [done|]. apply (IH t2 ltac:(lia) eq_refl eq_refl). lia.
Qed.

(** Conversely, the way down only depends on the indices. *)
Lemma tab_ext m root va va' k : (k <= 4)%nat -> (forall j, (4 - k < j <= 4)%nat -> vidx j va = vidx j va') ->
  tab m root va k = tab m root va' k.
Proof.
  induction k as [|k IH]; intros Hk Hj; [done|]. cbn [tab]. rewrite IH; [|lia|intros j Hjj; apply Hj; lia].
  destruct (tab m root va' k); [|done]. by rewrite (Hj (4 - k)%nat) by lia.
Qed.

Lemma leaf_tab m root va k t : (k <= 3)%nat -> tab m root va k = Some t -> leaf m 4 root va = leaf m (4 - k) t va.
Proof.
  revert t. induction k as [|k IH]; intros t Hk; cbn [tab]; [by intros [= ->]|].
  destruct (tab m root va k) as [t'|] eqn:E; [|done]. rewrite (IH t' ltac:(lia) eq_refl).
  destruct (links (4 - k) _) eqn:Hl; [|done]. intros [= <-]. replace (4 - k)%nat with (S (4 - S k)) in * by lia.
  cbn [leaf]. unfold links in Hl. apply andb_true_iff in Hl as [-> Hm]. cbn [negb]. by destruct (maps _ _).
Qed.

(** Entries that mean the same to the walk. *)
Definition same_entry (l : nat) (e e' : Z) : Prop :=
  if links l e then links l e' = true /\ Z.land e' PAGE_MASK = Z.land e PAGE_MASK
  else present e' = present e /\ (present e = true -> e' = e).

Lemma same_entry_refl l e : same_entry l e e.
Proof. unfold same_entry. by case_match. Qed.

Lemma leaf_same m m' root tbl va : pt_wf m root tbl ->
  (forall t l i, tbl !! t = Some l -> 0 <= i < 512 -> same_entry l (entry m t i) (entry m' t i)) ->
  forall l t, tbl !! t = Some l -> leaf m' l t va = leaf m l t va.
Proof.
  intros Hwf Hs. induction l as [|l IH]; intros t Ht; [done|]. pose proof (Hs t (S l) (vidx (S l) va) Ht (vidx_range _ _)) as Hse.
  pose proof (pw_child _ _ _ Hwf t l (vidx (S l) va) Ht (vidx_range _ _)) as Hch. cbn [leaf]. unfold same_entry in Hse.
  set (e := entry m t (vidx (S l) va)) in *. set (e' := entry m' t (vidx (S l) va)) in *. destruct (links (S l) e) eqn:Hl.
  - destruct Hse as [Hl' ->]. unfold links in Hl, Hl'. apply andb_true_iff in Hl as [-> Hm], Hl' as [-> Hm'].
    cbn [negb]. destruct (maps (S l) e), (maps (S l) e'); try done. apply IH, Hch. done.
  - destruct Hse as [-> He]. destruct (present e) eqn:Hp; [|done]. rewrite He by done. cbn [negb]. unfold links in Hl.
    rewrite Hp in Hl. by destruct (maps (S l) e).
Qed.

Lemma pt_wf_same m m' root tbl : pt_wf m root tbl ->
  (forall t l i, tbl !! t = Some l -> 0 <= i < 512 -> same_entry l (entry m t i) (entry m' t i)) -> pt_wf m' root tbl.
Proof.
  intros [H1 H2 H3 H4] Hs.
  assert (Hback : forall t l i, tbl !! t = Some l -> 0 <= i < 512 -> links l (entry m' t i) = true ->
    links l (entry m t i) = true /\ Z.land (entry m' t i) PAGE_MASK = Z.land (entry m t i) PAGE_MASK).
  { intros t l i Ht Hi Hl. specialize (Hs t l i Ht Hi). unfold same_entry in Hs. destruct (links l (entry m t i)) eqn:E; [by destruct Hs|].
    destruct Hs as [Hp He]. assert (present (entry m' t i) = true) as Hp' by (unfold links in Hl; by apply andb_true_iff in Hl as [? _]).
    rewrite He in Hl by congruence. congruence. }
  split; [done|done| |].
  - intros t l i Ht Hi Hl. destruct (Hback t (S l) i Ht Hi Hl) as [Hl0 ->]. by apply H3.
  - intros t t' l l' i i' Ht Ht' Hi Hi' Hl Hl' E. destruct (Hback t l i Ht Hi Hl) as [Hl0 E1], (Hback t' l' i' Ht' Hi' Hl') as [Hl0' E2].
    apply (H4 t t' l l'); try done. congruence.
Qed.

(** ** Changing one entry *)

(** Addresses that share the entries down to a level. *)
Definition same_upto (l : nat) (va va' : Z) : Prop := forall j, (l <= j <= 4)%nat -> vidx j va = vidx j va'.

#[export] Instance same_upto_dec l va va' : Decision (same_upto l va va').
Proof.
  refine (cast_if (decide (Forall (fun j => vidx j va = vidx j va') (seq l (5 - l))))); rewrite Forall_forall in *; unfold same_upto.
  - intros j Hj. apply f, elem_of_seq. lia.
  - intros H. apply n. intros j Hj%elem_of_seq. apply H. lia.
Defined.

Section SetEntry.
Context (m m' : gmap Z Z) (root : Z) (tbl : gmap Z nat) (va t0 : Z) (l0 : nat).
Context (Hwf : pt_wf m root tbl) (Hl0 : (1 <= l0 <= 4)%nat) (Ht0 : tab m root va (4 - l0) = Some t0).
Context (Hm : forall t l i, tbl !! t = Some l -> 0 <= i < 512 -> ~ (t = t0 /\ i = vidx l0 va) -> entry m' t i = entry m t i).

Lemma t0_level : tbl !! t0 = Some l0.
Proof. replace l0 with (4 - (4 - l0))%nat by lia. apply (tab_level m root tbl va); [done|lia|done]. Qed.

Lemma through_iff va' : (tab m root va' (4 - l0) = Some t0 /\ vidx l0 va' = vidx l0 va) <-> same_upto l0 va va'.
Proof.
  split.
  - intros [H1 H2] j Hj. destruct (decide (j = l0)) as [->|Hne]; [done|].
    apply (tab_inj m root tbl va va' (4 - l0) t0); (done || lia).
  - intros Hs. split; [|symmetry; apply Hs; lia]. rewrite <- Ht0. symmetry. apply tab_ext; [lia|]. intros j Hj. apply Hs. lia.
Qed.

Lemma tab_set va' k : (k <= 4 - l0)%nat -> tab m' root va' k = tab m root va' k.
Proof.
  induction k as [|k IH]; intros Hk; [done|]. cbn [tab]. rewrite IH by lia. destruct (tab m root va' k) as [t|] eqn:E; [|done].
  pose proof (tab_level m root tbl va' k t Hwf ltac:(lia) E) as Hlev.
  rewrite (Hm t (4 - k) _ Hlev (vidx_range _ _)); [done|]. intros [-> _]. rewrite t0_level in Hlev. injection Hlev as Hlev. lia.
Qed.

Lemma leaf_set_other va' : ~ same_upto l0 va va' -> leaf m' 4 root va' = leaf m 4 root va'.
Proof.
  intros Hns. rewrite <- through_iff in Hns.
  assert (Hgo : forall l t, (l <= 4)%nat -> tab m root va' (4 - l) = Some t -> tbl !! t = Some l -> leaf m' l t va' = leaf m l t va').
  { induction l as [|l IH]; intros t Hl Ht Hlev; [done|]. cbn [leaf].
    rewrite (Hm t (S l) _ Hlev (vidx_range _ _)).
    - destruct (present _) eqn:Hp; [|done]. cbn [negb]. destruct (maps (S l) _) eqn:Hmp; [done|].
      assert (Hlk : links (S l) (entry m t (vidx (S l) va')) = true) by (unfold links; by rewrite Hp, Hmp).
      pose proof (links_level _ _ _ _ _ _ Hwf Hlev Hlk). apply IH; [lia| |by apply (pw_child _ _ _ Hwf); [|apply vidx_range|]].
      replace (4 - l)%nat with (S (4 - S l)) by lia. cbn [tab]. rewrite Ht. replace (4 - (4 - S l))%nat with (S l) by lia. by rewrite Hlk.
    - intros [-> Hi]. apply Hns. rewrite t0_level in Hlev. injection Hlev as Hlev. rewrite <- Hlev in *. by split. }
  apply (Hgo 4%nat root); [done|done|apply Hwf].
Qed.

Lemma leaf_set_through va' : same_upto l0 va va' -> leaf m' 4 root va' = leaf m' l0 t0 va'.
Proof.
  intros Hs. replace l0 with (4 - (4 - l0))%nat by lia. apply leaf_tab; [lia|]. rewrite tab_set by lia. by apply through_iff in Hs as [? _].
Qed.
End SetEntry.

(** ** Pages of the address space *)

(** The number of the page of a 48-bit address. *)
Definition vpn (va : Z) : Z := Z.land (Z.shiftr va 12) (Z.ones 36).

Lemma testbit_vidx l va n : 0 <= n < 9 -> Z.testbit (vidx l va) n = Z.testbit va (3 + 9 * Z.of_nat l + n).
Proof.
  intros Hn. unfold vidx. change 0x1FF with (Z.ones 9). rewrite Z.land_spec, Z.ones_spec_low, andb_true_r, Z.shiftr_spec by lia.
  f_equal. lia.
Qed.

Lemma same_upto_vpn va va' : same_upto 1 va va' <-> vpn va = vpn va'.
Proof.
  split.
  - intros Hs. apply Z.bits_inj'. intros n Hn. unfold vpn. rewrite !Z.land_spec, !Z.shiftr_spec by done.
    destruct (Z.lt_ge_cases n 36); [|rewrite !Z.ones_spec_high by lia; by rewrite !andb_false_r]. f_equal.
    assert (Hq : 0 <= n / 9 < 4) by (split; [apply Z.div_pos; lia|apply Z.div_lt_upper_bound; lia]).
    pose proof (Z.mod_pos_bound n 9 ltac:(lia)). pose proof (Z.div_mod n 9 ltac:(lia)).
    assert (Hv : vidx (Z.to_nat (n / 9) + 1) va = vidx (Z.to_nat (n / 9) + 1) va') by (apply Hs; lia).
    pose proof (testbit_vidx (Z.to_nat (n / 9) + 1) va (n mod 9) ltac:(lia)) as T1.
    pose proof (testbit_vidx (Z.to_nat (n / 9) + 1) va' (n mod 9) ltac:(lia)) as T2.
    replace (3 + 9 * Z.of_nat (Z.to_nat (n / 9) + 1) + n mod 9) with (n + 12) in T1, T2 by lia. congruence.
  - intros Hv j Hj. apply Z.bits_inj'. intros n Hn. destruct (Z.lt_ge_cases n 9) as [Hlt|Hge].
    + rewrite !testbit_vidx by lia.
      assert (Hb : Z.testbit (vpn va) (9 * (Z.of_nat j - 1) + n) = Z.testbit (vpn va') (9 * (Z.of_nat j - 1) + n)) by (by rewrite Hv).
      unfold vpn in Hb. rewrite !Z.land_spec, !Z.ones_spec_low, !andb_true_r, !Z.shiftr_spec in Hb by lia.
      replace (9 * (Z.of_nat j - 1) + n + 12) with (3 + 9 * Z.of_nat j + n) in Hb by lia. done.
    + rewrite !(testbit_high _ 9); try done; apply vidx_range.
Qed.

(** ** Adding an empty table *)

Section Link.
Context (m m' : gmap Z Z) (root : Z) (tbl : gmap Z nat) (va t f e' : Z) (l : nat).
Context (Hwf : pt_wf m root tbl) (Hl : (1 <= l <= 3)%nat) (Ht : tab m root va (4 - S l) = Some t).
Context (Habs : present (entry m t (vidx (S l) va)) = false) (Hf : page f) (Hfr : tbl !! f = None).
Context (Hlk : links (S l) e' = true) (Hto : Z.land e' PAGE_MASK = f).
Context (Hm : forall t' l' i, tbl !! t' = Some l' -> 0 <= i < 512 ->
  entry m' t' i = if decide (t' = t /\ i = vidx (S l) va) then e' else entry m t' i).
Context (Hz : forall i, 0 <= i < 512 -> entry m' f i = 0).

Lemma link_level : tbl !! t = Some (S l).
Proof. replace (S l) with (4 - (4 - S l))%nat by lia. apply (tab_level m root tbl va); [done|lia|done]. Qed.

Lemma absent_links l' e : present e = false -> links l' e = false.
Proof. intros He. unfold links. by rewrite He. Qed.

(** An entry of the new state that points to a table. *)
Lemma link_cases t' l' i : <[f := l]> tbl !! t' = Some l' -> 0 <= i < 512 -> links l' (entry m' t' i) = true ->
  (t' = t /\ i = vidx (S l) va /\ l' = S l /\ Z.land (entry m' t' i) PAGE_MASK = f) \/
  (tbl !! t' = Some l' /\ entry m' t' i = entry m t' i /\ links l' (entry m t' i) = true /\
   ~ (t' = t /\ i = vidx (S l) va) /\ Z.land (entry m' t' i) PAGE_MASK <> f).
Proof.
  intros [[<- <-]|[Hne H1]]%lookup_insert_Some Hi Hlink; [rewrite Hz in Hlink by done; done|].
  rewrite (Hm t' l' i H1 Hi) in *. destruct (decide (t' = t /\ i = vidx (S l) va)) as [[-> ->]|Hn]; [left|right].
  - split; [done|]. split; [done|]. split; [|done]. pose proof link_level. congruence.
  - do 4 (split; [done|]). pose proof (links_level _ _ _ _ _ _ Hwf H1 Hlink). destruct l' as [|l']; [lia|].
    pose proof (pw_child _ _ _ Hwf t' l' i H1 Hi Hlink). congruence.
Qed.

Lemma link_wf : pt_wf m' root (<[f := l]> tbl).
Proof.
  pose proof link_level as Hlev. pose proof Hwf as [H1 H2 H3 H4]. split.
  - rewrite lookup_insert_ne; [done|]. congruence.
  - intros t' l' [[<- <-]|[_ Ht']]%lookup_insert_Some; [split; [done|lia]|by apply H2].
  - intros t' l' i Ht' Hi Hlink. destruct (link_cases _ _ _ Ht' Hi Hlink) as [(-> & -> & E & ->)|(H5 & E & H6 & _ & H7)].
    + injection E as ->. by rewrite lookup_insert_eq.
    + rewrite lookup_insert_ne by congruence. rewrite E. by apply H3.
  - intros t1 t2 l1 l2 i1 i2 T1 T2 I1 I2 L1 L2 E.
    destruct (link_cases _ _ _ T1 I1 L1) as [(-> & -> & _ & F1)|(A1 & B1 & C1 & D1 & F1)],
      (link_cases _ _ _ T2 I2 L2) as [(-> & -> & _ & F2)|(A2 & B2 & C2 & D2 & F2)]; [done|congruence|congruence|].
    rewrite B1, B2 in E. by apply (H4 t1 t2 l1 l2).
Qed.

Lemma link_entries t' l' i : tbl !! t' = Some l' -> 0 <= i < 512 -> ~ (t' = t /\ i = vidx (S l) va) -> entry m' t' i = entry m t' i.
Proof. intros Ht' Hi Hne. rewrite (Hm t' l' i Ht' Hi). by rewrite decide_False. Qed.

Lemma link_entry : entry m' t (vidx (S l) va) = e'.
Proof. rewrite (Hm t (S l) _ link_level (vidx_range _ _)). by rewrite decide_True. Qed.

Lemma link_tab : tab m' root va (4 - l) = Some f.
Proof.
  replace (4 - l)%nat with (S (4 - S l)) by lia. cbn [tab].
  rewrite (tab_set m m' root tbl va t (S l) Hwf ltac:(lia) Ht link_entries) by lia. rewrite Ht.
  replace (4 - (4 - S l))%nat with (S l) by lia. rewrite link_entry, Hlk. by rewrite Hto.
Qed.

Lemma link_leaf va' : leaf m' 4 root va' = leaf m 4 root va'.
Proof.
  destruct (decide (same_upto (S l) va va')) as [Hup|Hup].
  - rewrite (leaf_set_through m m' root tbl va t (S l) Hwf ltac:(lia) Ht link_entries va' Hup).
    apply (through_iff m root tbl va t (S l) Hwf ltac:(lia) Ht) in Hup as [Ht' Hv].
    rewrite (leaf_tab m root va' (4 - S l) t) by (done || lia). replace (4 - (4 - S l))%nat with (S l) by lia.
    cbn [leaf]. rewrite Hv, Habs, link_entry. cbn [negb]. pose proof Hlk as Hlk'. unfold links in Hlk'.
    apply andb_true_iff in Hlk' as [-> Hmp]. cbn [negb]. destruct (maps (S l) e'); [done|]. rewrite Hto.
    destruct l as [|l']; [lia|]. cbn [leaf]. by rewrite Hz by apply vidx_range.
  - by apply (leaf_set_other m m' root tbl va t (S l) Hwf ltac:(lia) Ht link_entries).
Qed.
End Link.

(** ** Writing an entry *)

(** No entry points to the table. *)
Definition orphan (m : gmap Z Z) (tbl : gmap Z nat) (c : Z) : Prop :=
  forall t l i, tbl !! t = Some l -> 0 <= i < 512 -> links l (entry m t i) = true -> Z.land (entry m t i) PAGE_MASK <> c.

Lemma pt_wf_set m root tbl t l i v : pt_wf m root tbl -> tbl !! t = Some l -> 0 <= i < 512 ->
  (links l v = true -> tbl !! Z.land v PAGE_MASK = Some (pred l) /\ orphan m tbl (Z.land v PAGE_MASK)) ->
  pt_wf (<[t + 8 * i := v]> m) root tbl.
Proof.
  intros [W1 W2 W3 W4] Ht Hi Hv.
  assert (He : forall t' l' i', tbl !! t' = Some l' -> 0 <= i' < 512 ->
    entry (<[t + 8 * i := v]> m) t' i' = if decide (t = t' /\ i = i') then v else entry m t' i').
  { intros t' l' i' Ht' Hi'. apply entry_insert; try done; [apply (W2 t l Ht)|apply (W2 t' l' Ht')]. }
  split; [done|done| |].
  - intros t' l' i' Ht' Hi'. rewrite (He t' _ i' Ht' Hi'). destruct (decide _) as [[<- <-]|]; [|by apply W3].
    rewrite Ht in Ht'. injection Ht' as ->. intros Hl. by apply Hv.
  - intros t1 t2 l1 l2 i1 i2 T1 T2 I1 I2. rewrite (He t1 _ i1 T1 I1), (He t2 _ i2 T2 I2).
    destruct (decide (t = t1 /\ i = i1)) as [[<- <-]|], (decide (t = t2 /\ i = i2)) as [[<- <-]|]; try done; [| |by apply (W4 t1 t2 l1 l2)];
      intros L1 L2 E; exfalso.
    + assert (l1 = l) as -> by congruence. destruct (Hv L1) as [_ Ho]. by apply (Ho t2 l2 i2 T2 I2 L2).
    + assert (l2 = l) as -> by congruence. destruct (Hv L2) as [_ Ho]. by apply (Ho t1 l1 i1 T1 I1 L1).
Qed.
