(* ===== verification/PagingSpec.v ===== *)
(** * What mapping and unmapping a page do *)

From S2P Require Import Prelude PmmReclaim Vma Paging PagingInv.

(** What the page tables rely on of the physical memory manager: a frame it hands
    out is a page that nothing referred to, counts go up and down one by one, and
    those of other frames stay. *)
Class FramesLaws (P : Type) `{!Frames P} := {
  fr_ok : P -> Prop;
  law_fr_alloc p r p' : fr_ok p -> fr_alloc p = (r, p') ->
    fr_ok p' /\ (forall q, fr_managed p' q = fr_managed p q) /\
    match r with
    | None => forall q, page q -> fr_ref p' q = fr_ref p q
    | Some f => page f /\ f <> 0 /\ fr_managed p f = true /\ fr_ref p f = 0 /\
        forall q, page q -> fr_ref p' q = if decide (q = f) then 1 else fr_ref p q
    end;
  law_fr_free p f : fr_ok p -> page f -> fr_managed p f = true -> 0 < fr_ref p f ->
    fr_ok (fr_free p f) /\ (forall q, fr_managed (fr_free p f) q = fr_managed p q) /\
    forall q, page q -> fr_ref (fr_free p f) q = if decide (q = f) then fr_ref p f - 1 else fr_ref p q;
  law_fr_incref p f : fr_ok p -> page f -> fr_managed p f = true -> 0 < fr_ref p f < 65535 ->
    fr_ok (fr_incref p f) /\ (forall q, fr_managed (fr_incref p f) q = fr_managed p q) /\
    forall q, page q -> fr_ref (fr_incref p f) q = if decide (q = f) then fr_ref p f + 1 else fr_ref p q;
}.

(** An address in a page. *)
Definition in_page (t a : Z) : Prop := t <= a < t + 4096.

Lemma in_page_entry t i : 0 <= i < 512 -> in_page t (t + 8 * i).
Proof. unfold in_page. lia. Qed.

Lemma pages_disjoint t t' a : page t -> page t' -> in_page t a -> in_page t' a -> t = t'.
Proof.
  intros [H1 _] [H2 _] [H3 H4] [H5 H6]. pose proof (Z.div_mod t 4096 ltac:(lia)). pose proof (Z.div_mod t' 4096 ltac:(lia)).
  assert (t / 4096 = t' / 4096) by lia. lia.
Qed.

Section Spec.
Context {P : Type} `{!Frames P, !FramesLaws P}.
Implicit Types s : pg P.

(** The tables of one address space are sound, and each has the one reference of
    the entry that points to it. *)
Record pt_inv s (root : Z) (tbl : gmap Z nat) : Prop := {
  pi_frames : fr_ok (frames s);
  pi_wf : pt_wf (words s) root tbl;
  pi_ref : forall t l, tbl !! t = Some l -> fr_ref (frames s) t = 1;
  pi_managed : forall t l, tbl !! t = Some l -> fr_managed (frames s) t = true;
}.

Lemma zero_entries_spec n s t : frames (zero_entries n s t) = frames s /\
  (forall i, 0 <= i < Z.of_nat n -> words (zero_entries n s t) !! (t + 8 * i) = Some 0) /\
  forall a, (forall i, 0 <= i < Z.of_nat n -> a <> t + 8 * i) -> words (zero_entries n s t) !! a = words s !! a.
Proof.
  unfold zero_entries.
  apply (for_n_ind (fun j s' => frames s' = frames s /\ (forall i, 0 <= i < j -> words s' !! (t + 8 * i) = Some 0) /\
    forall a, (forall i, 0 <= i < j -> a <> t + 8 * i) -> words s' !! a = words s !! a)).
  - split; [done|]. split; [lia|done].
  - intros j s' Hj (Hf & Hz & Hw). split; [done|]. split; simpl.
    + intros i Hi. destruct (decide (i = j)) as [->|Hne]; [by rewrite lookup_insert_eq|].
      rewrite lookup_insert_ne by lia. apply Hz. lia.
    + intros a Ha. rewrite lookup_insert_ne by (intros E; by apply (Ha j); [lia|]). apply Hw. intros i Hi. apply Ha. lia.
Qed.

(** Going from one state to another by adding empty tables: nothing is mapped or
    unmapped, and no word outside the tables changes. *)
Record grows s (root : Z) (tbl : gmap Z nat) s' (tbl' : gmap Z nat) : Prop := {
  gr_inv : pt_inv s' root tbl';
  gr_sub : tbl ⊆ tbl';
  gr_leaf : forall va, leaf (words s') 4 root va = leaf (words s) 4 root va;
  gr_new : forall q l, tbl' !! q = Some l -> tbl !! q = None -> fr_ref (frames s) q = 0;
  gr_ref : forall q, page q -> fr_ref (frames s') q = if decide (tbl !! q = None /\ is_Some (tbl' !! q)) then 1 else fr_ref (frames s) q;
  gr_words : forall a, (forall t l, tbl' !! t = Some l -> ~ in_page t a) -> words s' !! a = words s !! a;
  gr_managed : forall q, fr_managed (frames s') q = fr_managed (frames s) q;
}.

Lemma grows_refl s root tbl : pt_inv s root tbl -> grows s root tbl s tbl.
Proof.
  intros Hi. split; try done; [congruence|]. intros q _. rewrite decide_False; [done|]. intros [H1 [? H2]]. congruence.
Qed.

Lemma grows_trans s1 s2 s3 root tbl1 tbl2 tbl3 : grows s1 root tbl1 s2 tbl2 -> grows s2 root tbl2 s3 tbl3 -> grows s1 root tbl1 s3 tbl3.
Proof.
  intros [A1 A2 A3 A4 A5 A6 A7] [B1 B2 B3 B4 B5 B6 B7]. split; [done|by etrans|by intros va; rewrite B3, A3| | | |intros q; by rewrite B7].
  - intros q l H3 H1. destruct (tbl2 !! q) as [l'|] eqn:H2; [by apply (A4 q l')|].
    pose proof (B4 q l H3 H2) as E. rewrite A5 in E by apply (pw_page _ _ _ (pi_wf _ _ _ B1) q l H3).
    rewrite decide_False in E; [done|]. intros [_ [? ?]]. congruence.
  - intros q Hq. rewrite B5, A5 by done. destruct (tbl1 !! q) as [l1|] eqn:H1.
    { pose proof (lookup_weaken _ _ _ _ H1 A2) as H2. by rewrite !decide_False by (intros [? _]; congruence). }
    destruct (tbl2 !! q) as [l2|] eqn:H2.
    + pose proof (lookup_weaken _ _ _ _ H2 B2) as H3. rewrite H3. rewrite decide_False by (intros [? _]; congruence).
      rewrite !decide_True by (split; [done|by eexists]). done.
    + rewrite (decide_False (P := None = None /\ is_Some None)) by (intros [_ [? ?]]; done). done.
  - intros a Ha. rewrite B6, A6; [done| |done]. intros t l Ht. apply (Ha t l). by eapply lookup_weaken.
Qed.

(** Bits of an entry that points to a table. *)
Lemma or_links l e bits : Z.land bits PAGE_MASK = 0 -> Z.testbit bits 0 = false -> Z.testbit bits 7 = false ->
  links l (Z.lor e bits) = links l e /\ Z.land (Z.lor e bits) PAGE_MASK = Z.land e PAGE_MASK.
Proof.
  intros Hm H0 H7. split; [|by rewrite Z.land_lor_distr_l, Hm, Z.lor_0_r].
  unfold links, maps. rewrite !present_testbit, !ps_testbit, !Z.lor_spec, H0, H7, !orb_false_r. done.
Qed.

Lemma propagate_bits flags : let p := Z.land flags (Z.lor PAGE_FLAG_USER PAGE_FLAG_RW) in
  Z.land p PAGE_MASK = 0 /\ Z.testbit p 0 = false /\ Z.testbit p 7 = false.
Proof.
  cbv zeta. rewrite <- Z.land_assoc. split; [by rewrite Z.land_0_r|]. split; by rewrite Z.land_spec, andb_false_r.
Qed.

Lemma new_table_entry f bits l : page f -> (2 <= l)%nat -> Z.land bits PAGE_MASK = 0 -> Z.testbit bits 7 = false ->
  let e := Z.lor (Z.lor (Z.lor (Z.lor f PAGE_FLAG_PRESENT) PAGE_FLAG_RW) PAGE_FLAG_USER) bits in
  links l e = true /\ Z.land e PAGE_MASK = f.
Proof.
  intros Hf Hl Hb H7. cbv zeta. split.
  - unfold links, maps. rewrite present_testbit, ps_testbit, !Z.lor_spec, H7, (page_testbit f 7) by (done || lia).
    rewrite (proj2 (Nat.eqb_neq l 1)) by lia. cbn [orb]. rewrite andb_false_r. change (Z.testbit PAGE_FLAG_PRESENT 0) with true.
    by rewrite !orb_true_r.
  - rewrite Z.land_lor_distr_l, Hb, Z.lor_0_r, <- !Z.lor_assoc, page_mask by done.
    change (Z.land _ PAGE_MASK) with 0. by rewrite Z.lor_0_r.
Qed.

Lemma words_set s t i v : words (set_entry s t i v) = <[t + 8 * i := v]> (words s).
Proof. done. Qed.

(** The frame allocator does not touch the tables. *)
Lemma alloc_frame_spec s root tbl r s' : pt_inv s root tbl -> alloc_frame s = (r, s') ->
  words s' = words s /\
  match r with
  | None => grows s root tbl s' tbl
  | Some f => fr_ok (frames s') /\ page f /\ f <> 0 /\ tbl !! f = None /\ fr_ref (frames s) f = 0 /\
      fr_managed (frames s) f = true /\ (forall q, fr_managed (frames s') q = fr_managed (frames s) q) /\
      forall q, page q -> fr_ref (frames s') q = if decide (q = f) then 1 else fr_ref (frames s) q
  end.
Proof.
  intros [H1 H2 H3 H4]. unfold alloc_frame. destruct (fr_alloc (frames s)) as [r' p] eqn:E. intros [= <- <-]. split; [done|].
  destruct (law_fr_alloc _ _ _ H1 E) as (Hok & Hmg & Hr). destruct r' as [f|].
  - destruct Hr as (Hf & Hf0 & Hmf & Hz & Hq). do 3 (split; [done|]). split; [|done].
    destruct (tbl !! f) as [l|] eqn:Ef; [|done]. apply H3 in Ef. lia.
  - split; try done; [split; try done|congruence|].
    + intros t l Ht. simpl. rewrite Hr; [by apply (H3 t l)|apply (pw_page _ _ _ H2 t l Ht)].
    + intros t l Ht. simpl. rewrite Hmg. by apply (H4 t l).
    + intros q Hq. simpl. rewrite Hr by done. rewrite decide_False; [done|]. intros [G1 [? G2]]. congruence.
Qed.

(** Rewriting an entry without changing what it means. *)
Lemma same_entry_grows s root tbl t l i v : pt_inv s root tbl -> tbl !! t = Some l -> 0 <= i < 512 ->
  same_entry l (read_entry s t i) v -> grows s root tbl (set_entry s t i v) tbl.
Proof.
  intros [H1 H2 H3 H4] Ht Hi Hs. pose proof (pw_page _ _ _ H2) as Hpg.
  assert (Hsame : forall t' l' i', tbl !! t' = Some l' -> 0 <= i' < 512 ->
    same_entry l' (entry (words s) t' i') (entry (words (set_entry s t i v)) t' i')).
  { intros t' l' i' Ht' Hi'. rewrite words_set, entry_insert by (done || apply (Hpg t l Ht) || apply (Hpg t' l' Ht')).
    destruct (decide (t = t' /\ i = i')) as [[<- <-]|_]; [|apply same_entry_refl]. by assert (l' = l) as -> by congruence. }
  split; try done.
  - split; [done|by apply (pt_wf_same (words s))|done|done].
  - intros va. apply (leaf_same (words s) _ root tbl va H2 Hsame). apply H2.
  - congruence.
  - intros q _. rewrite decide_False; [done|]. intros [G1 [? G2]]. congruence.
  - intros a Ha. simpl. rewrite lookup_insert_ne; [done|]. intros <-. apply (Ha t l Ht). by apply in_page_entry.
Qed.

Lemma descend_spec s root tbl va t l bits : pt_inv s root tbl -> (1 <= l <= 3)%nat -> tab (words s) root va (4 - S l) = Some t ->
  (present (read_entry s t (vidx (S l) va)) = true -> maps (S l) (read_entry s t (vidx (S l) va)) = false) ->
  Z.land bits PAGE_MASK = 0 /\ Z.testbit bits 0 = false /\ Z.testbit bits 7 = false ->
  exists r s' tbl', descend s t (vidx (S l) va) bits = (r, s') /\ grows s root tbl s' tbl' /\
    match r with
    | None => tbl' = tbl /\ words s' = words s
    | Some t' => tab (words s') root va (4 - l) = Some t'
    end.
Proof.
  intros Hi Hl Ht Hns (Hb1 & Hb2 & Hb3). pose proof Hi as [Hok Hwf Href Hman].
  assert (Hlev : tbl !! t = Some (S l)). { replace (S l) with (4 - (4 - S l))%nat by lia. apply (tab_level (words s) root tbl va); (done || lia). }
  pose proof (pw_page _ _ _ Hwf) as Hpg. pose proof (vidx_range (S l) va) as Hv. unfold descend, get_next_level.
  destruct (present (read_entry s t (vidx (S l) va))) eqn:Hp.
  - specialize (Hns eq_refl). assert (Hlk : links (S l) (read_entry s t (vidx (S l) va)) = true) by (unfold links; by rewrite Hp, Hns).
    destruct (or_links (S l) (read_entry s t (vidx (S l) va)) bits Hb1 Hb2 Hb3) as [O1 O2].
    assert (Hg : grows s root tbl (or_entry s t (vidx (S l) va) bits) tbl).
    { apply (same_entry_grows _ _ _ t (S l)); try done. unfold same_entry. rewrite Hlk. by rewrite O1, O2. }
    eexists _, _, tbl. split; [done|]. split; [exact Hg|]. replace (4 - l)%nat with (S (4 - S l)) by lia. cbn [tab].
    rewrite (tab_set (words s) _ root tbl va t (S l) Hwf ltac:(lia) Ht) by
      first [lia|intros t' l' i Ht' Hi' Hne; unfold or_entry; rewrite words_set, entry_insert by (done || apply (Hpg t _ Hlev) || apply (Hpg t' l' Ht')); rewrite decide_False; naive_solver].
    rewrite Ht. replace (4 - (4 - S l))%nat with (S l) by lia. unfold or_entry. rewrite words_set, entry_insert by (done || apply (Hpg t _ Hlev)).
    rewrite decide_True by done. by rewrite O1, Hlk, O2.
  - cbn [negb]. destruct (alloc_frame s) as [[f|] s1] eqn:Hal; destruct (alloc_frame_spec s root tbl _ _ Hi Hal) as [Hw1 Hr];
      [|by eexists None, s1, tbl]. destruct Hr as (Hok1 & Hf & Hf0 & Hfr & Hrf & Hmf & Hmg & Hq1).
    set (e' := Z.lor (Z.lor (Z.lor (Z.lor f PAGE_FLAG_PRESENT) PAGE_FLAG_RW) PAGE_FLAG_USER) bits).
    destruct (new_table_entry f bits (S l) Hf ltac:(lia) Hb1 Hb3) as [Hlk Hto]. fold e' in Hlk, Hto.
    destruct (zero_entries_spec 512 s1 f) as (Hzf & Hz1 & Hz2). set (s2 := zero_entries 512 s1 f) in *.
    set (s3 := or_entry (set_entry s2 t (vidx (S l) va) _) t (vidx (S l) va) bits).
    assert (Htf : t <> f) by congruence.
    assert (Hw3 : forall a, words s3 !! a = if decide (a = t + 8 * vidx (S l) va) then Some e' else words s2 !! a).
    { intros a. unfold s3, or_entry, read_entry. rewrite !words_set, entry_insert by (done || apply (Hpg t _ Hlev)).
      rewrite (decide_True (P := t = t /\ vidx (S l) va = vidx (S l) va)) by done. fold e'.
      destruct (decide (a = t + 8 * vidx (S l) va)) as [->|Hne]; [by rewrite lookup_insert_eq|]. by rewrite !lookup_insert_ne. }
    assert (Hm : forall t' l' i, tbl !! t' = Some l' -> 0 <= i < 512 ->
      entry (words s3) t' i = if decide (t' = t /\ i = vidx (S l) va) then e' else entry (words s) t' i).
    { intros t' l' i Ht' Hi'. destruct (Hpg t' l' Ht') as [Hpt' _]. unfold entry, word. rewrite Hw3.
      destruct (decide (t' = t /\ i = vidx (S l) va)) as [[-> ->]|Hne]; [by rewrite decide_True|]. rewrite decide_False.
      - rewrite Hz2, Hw1; [done|]. intros j Hj E. assert (t' = f) as -> by (eapply (entry_addr_inj t' f i j); done || lia). congruence.
      - intros E. apply Hne. apply entry_addr_inj; try done. apply (Hpg t _ Hlev). }
    assert (Hzf0 : forall i, 0 <= i < 512 -> entry (words s3) f i = 0).
    { intros i Hi'. unfold entry, word. rewrite Hw3, decide_False, Hz1 by lia || (intros E; apply Htf; symmetry;
        eapply (entry_addr_inj f t i (vidx (S l) va)); done || apply (Hpg t _ Hlev)). done. }
    assert (Hf3 : frames s3 = frames s1) by exact Hzf.
    eexists (Some f), s3, (<[f := l]> tbl). split; [done|]. split; [|exact (link_tab (words s) (words s3) root tbl va t f e' l Hwf Hl Ht Hlk Hto Hm)].
    split.
    + split; [by rewrite Hf3|exact (link_wf (words s) (words s3) root tbl va t f e' l Hwf Hl Ht Hf Hfr Hto Hm Hzf0)| |];
        intros q lq Hql; rewrite Hf3, ?Hmg; (apply lookup_insert_Some in Hql as [[<- _]|[Hne Hql]]).
      * rewrite Hq1, decide_True by done. done.
      * rewrite Hq1, decide_False by (congruence || apply (Hpg q lq Hql)). by apply (Href q lq).
      * done.
      * by apply (Hman q lq).
    + by apply insert_subseteq.
    + exact (link_leaf (words s) (words s3) root tbl va t f e' l Hwf Hl Ht Hp Hlk Hto Hm Hzf0).
    + intros q lq [[<- _]|[_ ?]]%lookup_insert_Some Hnone; [done|congruence].
    + intros q Hq. rewrite Hf3, Hq1 by done. destruct (decide (q = f)) as [->|Hne].
      * rewrite decide_True; [done|]. split; [done|]. rewrite lookup_insert_eq. by eexists.
      * rewrite decide_False; [done|]. rewrite lookup_insert_ne by done. intros [G1 [? G2]]. congruence.
    + intros a Ha. rewrite Hw3, decide_False, Hz2, Hw1; [done| |].
      * intros i Hi' ->. apply (Ha f l); [by rewrite lookup_insert_eq|by apply in_page_entry].
      * intros ->. apply (Ha t (S l)); [by rewrite lookup_insert_ne by done|by apply in_page_entry].
    + intros q. by rewrite Hf3.
Qed.

(** ** Writing the last entry *)

Lemma links_1 e : links 1 e = false.
Proof. unfold links, maps. by rewrite andb_false_r. Qed.

Definition entry_leaf (v : Z) : option (nat * Z) := if present v then Some (1%nat, v) else None.

(** Writing an entry that maps a page or nothing, at any level. *)
Lemma set_maps_spec s root tbl va t l v : pt_inv s root tbl -> (1 <= l <= 4)%nat -> tab (words s) root va (4 - l) = Some t -> links l v = false ->
  let s' := set_entry s t (vidx l va) v in
  pt_inv s' root tbl /\
  forall va', leaf (words s') 4 root va' =
    if decide (same_upto l va va') then if present v then Some (l, v) else None else leaf (words s) 4 root va'.
Proof.
  intros [H1 Hwf H3 H4] Hl Ht Hv s'. pose proof (t0_level _ _ _ va t l Hwf Hl Ht) as Hlev. pose proof (pw_page _ _ _ Hwf) as Hpg.
  assert (Hm : forall t' l' i, tbl !! t' = Some l' -> 0 <= i < 512 -> ~ (t' = t /\ i = vidx l va) -> entry (words s') t' i = entry (words s) t' i).
  { intros t' l' i Ht' Hi Hne. unfold s'. rewrite words_set, entry_insert by (done || apply vidx_range || apply (Hpg t _ Hlev) || apply (Hpg t' l' Ht')).
    rewrite decide_False; [done|]. naive_solver. }
  assert (Hat : entry (words s') t (vidx l va) = v).
  { unfold s'. rewrite words_set, entry_insert by (apply vidx_range || apply (Hpg t _ Hlev)). by rewrite decide_True. }
  split.
  - split; [done| |done|done]. apply (pt_wf_set _ _ _ _ l); [done|done|apply vidx_range|]. by rewrite Hv.
  - intros va'. destruct (decide (same_upto l va va')) as [Hs|Hs].
    + rewrite (leaf_set_through (words s) (words s') root tbl va t l Hwf Hl Ht Hm va' Hs). destruct l as [|l]; [lia|]. rewrite leaf_S.
      rewrite <- (Hs (S l)) by lia. rewrite Hat. unfold links in Hv. destruct (present v); [|done]. cbn [negb]. by destruct (maps (S l) v).
    + apply (leaf_set_other (words s) (words s') root tbl va t l Hwf Hl Ht Hm). done.
Qed.

Lemma set_leaf_spec s root tbl va pt v : pt_inv s root tbl -> tab (words s) root va 3 = Some pt ->
  let s' := set_entry s pt (vidx 1 va) v in
  pt_inv s' root tbl /\
  forall va', leaf (words s') 4 root va' = if decide (vpn va = vpn va') then entry_leaf v else leaf (words s) 4 root va'.
Proof.
  intros Hi Hpt s'. destruct (set_maps_spec s root tbl va pt 1 v Hi ltac:(lia) Hpt (links_1 v)) as [Hi' Hl]. split; [done|].
  intros va'. unfold s'. rewrite Hl. unfold entry_leaf.
  destruct (decide (same_upto 1 va va')) as [Hs|Hs]; rewrite same_upto_vpn in Hs; [by rewrite decide_True|by rewrite decide_False].
Qed.

(** No huge page on the way to an address. *)
Definition no_huge s (root va : Z) : Prop := forall l e, leaf (words s) 4 root va = Some (l, e) -> l = 1%nat.

Lemma deep_entry s root va l t : (forall l' e, leaf (words s) 4 root va = Some (l', e) -> (l' <= l)%nat) -> (1 <= l <= 3)%nat ->
  tab (words s) root va (4 - S l) = Some t ->
  present (read_entry s t (vidx (S l) va)) = true -> maps (S l) (read_entry s t (vidx (S l) va)) = false.
Proof.
  intros Hn Hl Ht Hp. destruct (maps (S l) _) eqn:Hm; [|done]. exfalso.
  assert (S l <= l)%nat; [|lia]. apply (Hn _ (read_entry s t (vidx (S l) va))).
  rewrite (leaf_tab _ root va (4 - S l) t) by (done || lia). replace (4 - (4 - S l))%nat with (S l) by lia. cbn [leaf].
  unfold read_entry in *. by rewrite Hp, Hm.
Qed.

Lemma no_huge_entry s root va l t : no_huge s root va -> (1 <= l <= 3)%nat -> tab (words s) root va (4 - S l) = Some t ->
  present (read_entry s t (vidx (S l) va)) = true -> maps (S l) (read_entry s t (vidx (S l) va)) = false.
Proof. intros Hn Hl. apply deep_entry; [|done]. intros l' e Hle. rewrite (Hn l' e Hle). lia. Qed.

Lemma grows_no_huge s root tbl s' tbl' va : grows s root tbl s' tbl' -> no_huge s root va -> no_huge s' root va.
Proof. intros Hg Hn l e. rewrite (gr_leaf _ _ _ _ _ Hg). apply Hn. Qed.

Notation deep s root va k := (forall l e, leaf (words s) 4 root va = Some (l, e) -> (l <= k)%nat).

Lemma grows_deep s root tbl s' tbl' va k : grows s root tbl s' tbl' -> deep s root va k -> deep s' root va k.
Proof. intros Hg Hn l e. rewrite (gr_leaf _ _ _ _ _ Hg). apply Hn. Qed.

(** A step down only fails where nothing is mapped. *)
Lemma descend_none s root va k t b s' : tab (words s) root va k = Some t -> (k <= 3)%nat -> descend s t (vidx (4 - k) va) b = (None, s') ->
  leaf (words s) 4 root va = None.
Proof.
  intros Ht Hk. rewrite (leaf_tab _ _ _ k t Hk Ht). destruct (4 - k)%nat as [|l] eqn:El; [lia|]. rewrite leaf_S.
  unfold descend, get_next_level. fold (read_entry s t (vidx (S l) va)). by destruct (present _).
Qed.

(** The way to the directory. *)
Lemma walk_pd s root tbl va b : pt_inv s root tbl -> deep s root va 2%nat ->
  Z.land b PAGE_MASK = 0 /\ Z.testbit b 0 = false /\ Z.testbit b 7 = false ->
  exists r s2 tbl2,
    (match descend s root (vidx 4 va) b with (None, s) => (None, s) | (Some pdpt, s) => descend s pdpt (vidx 3 va) b end) = (r, s2) /\
    grows s root tbl s2 tbl2 /\ match r with Some pd => tab (words s2) root va 2 = Some pd | None => leaf (words s) 4 root va = None end.
Proof.
  intros Hi Hn Hb. assert (Hn3 : deep s root va 3%nat) by (intros l e Hl; specialize (Hn l e Hl); lia).
  destruct (descend_spec s root tbl va root 3 b Hi ltac:(lia) eq_refl (deep_entry s root va 3 root Hn3 ltac:(lia) eq_refl) Hb)
    as (r1 & s1 & tbl1 & E1 & Hg1 & Hr1). rewrite E1. destruct r1 as [pdpt|].
  2:{ exists None, s1, tbl1. split; [done|]. split; [done|]. exact (descend_none s root va 0 root b s1 eq_refl ltac:(lia) E1). }
  destruct (descend_spec s1 root tbl1 va pdpt 2 b (gr_inv _ _ _ _ _ Hg1) ltac:(lia) Hr1
    (deep_entry s1 root va 2 pdpt (grows_deep _ _ _ _ _ _ _ Hg1 Hn) ltac:(lia) Hr1) Hb) as (r2 & s2 & tbl2 & E2 & Hg2 & Hr2).
  exists r2, s2, tbl2. split; [done|]. split; [by eapply grows_trans|]. destruct r2; [done|].
  rewrite <- (gr_leaf _ _ _ _ _ Hg1). exact (descend_none s1 root va 1 pdpt b s2 Hr1 ltac:(lia) E2).
Qed.

Lemma vmm_map_page_walk s root va pa flags : vmm_map_page s root va pa flags =
  let b := Z.land flags (Z.lor PAGE_FLAG_USER PAGE_FLAG_RW) in
  match (match descend s root (vidx 4 va) b with (None, s) => (None, s) | (Some pdpt, s) => descend s pdpt (vidx 3 va) b end) with
  | (None, s) => (false, s)
  | (Some pd, s) =>
      match descend s pd (vidx 2 va) b with
      | (None, s) => (false, s)
      | (Some pt, s) => (true, set_entry s pt (vidx 1 va) (Z.lor (Z.lor (Z.land pa PAGE_MASK) flags) PAGE_FLAG_PRESENT))
      end
  end.
Proof. unfold vmm_map_page. change (pml4_index va) with (vidx 4 va). cbv zeta. by destruct (descend s root _ _) as [[pdpt|] ?]. Qed.

(** The state before the last entry is written: every table on the way exists. *)
Lemma map_walk s root tbl va flags : pt_inv s root tbl -> no_huge s root va ->
  exists s1 tbl1, grows s root tbl s1 tbl1 /\
    ((forall pa, vmm_map_page s root va pa flags = (false, s1)) \/
     exists pt, tab (words s1) root va 3 = Some pt /\
       forall pa, vmm_map_page s root va pa flags =
         (true, set_entry s1 pt (vidx 1 va) (Z.lor (Z.lor (Z.land pa PAGE_MASK) flags) PAGE_FLAG_PRESENT))).
Proof.
  intros Hi Hn. pose proof (propagate_bits flags) as Hb. cbv zeta in Hb. setoid_rewrite vmm_map_page_walk. cbv zeta.
  set (b := Z.land flags (Z.lor PAGE_FLAG_USER PAGE_FLAG_RW)) in *.
  destruct (walk_pd s root tbl va b Hi ltac:(intros l e Hl; rewrite (Hn l e Hl); lia) Hb) as (r2 & s2 & tbl2 & -> & Hg2 & Hr2).
  destruct r2 as [pd|]; [|by exists s2, tbl2; split; [|left]]. pose proof (grows_no_huge _ _ _ _ _ va Hg2 Hn) as Hn2.
  destruct (descend_spec s2 root tbl2 va pd 1 b (gr_inv _ _ _ _ _ Hg2) ltac:(lia) Hr2 (no_huge_entry s2 root va 1 pd Hn2 ltac:(lia) Hr2) Hb)
    as (r3 & s3 & tbl3 & -> & Hg3 & Hr3). pose proof (grows_trans _ _ _ _ _ _ _ Hg2 Hg3) as Hg13.
  exists s3, tbl3. split; [done|]. destruct r3 as [pt|]; [right|by left]. by exists pt.
Qed.

(** The entry of a huge page. *)
Definition huge_pde (pa flags : Z) : Z := Z.lor (Z.lor (Z.lor (Z.land pa PAGE_MASK) flags) PAGE_FLAG_PRESENT) PAGE_FLAG_PS.

Lemma huge_pde_bits pa flags : present (huge_pde pa flags) = true /\ links 2 (huge_pde pa flags) = false.
Proof.
  unfold links, maps, huge_pde. rewrite present_testbit, ps_testbit, !Z.lor_spec.
  change (Z.testbit PAGE_FLAG_PRESENT 0) with true. change (Z.testbit PAGE_FLAG_PS 7) with true. by rewrite !orb_true_r.
Qed.

Lemma map_huge_spec s root tbl va pa flags : pt_inv s root tbl -> deep s root va 2%nat ->
  exists r s' tbl', vmm_map_huge_page s root va pa flags = (r, s') /\ pt_inv s' root tbl' /\ tbl ⊆ tbl' /\
    forall va', leaf (words s') 4 root va' =
      if r && bool_decide (same_upto 2 va va') then Some (2%nat, huge_pde pa flags) else leaf (words s) 4 root va'.
Proof.
  intros Hi Hn. pose proof (propagate_bits flags) as Hb. cbv zeta in Hb. unfold vmm_map_huge_page.
  set (b := Z.land flags (Z.lor PAGE_FLAG_USER PAGE_FLAG_RW)) in *. destruct (walk_pd s root tbl va b Hi Hn Hb) as (r2 & s2 & tbl2 & E & Hg & Hr).
  change (pml4_index va) with (vidx 4 va). change (pdpt_index va) with (vidx 3 va). change (pd_index va) with (vidx 2 va).
  destruct (descend s root _ _) as [[pdpt|] s1]; [rewrite E|]; cycle 1.
  { injection E as <- <-. exists false, s1, tbl2. split; [done|]. split; [apply Hg|]. split; [apply Hg|]. apply Hg. }
  destruct r2 as [pd|]; cycle 1.
  { exists false, s2, tbl2. split; [done|]. split; [apply Hg|]. split; [apply Hg|]. apply Hg. }
  destruct (huge_pde_bits pa flags) as [Hp Hlk].
  destruct (set_maps_spec s2 root tbl2 va pd 2 _ (gr_inv _ _ _ _ _ Hg) ltac:(lia) Hr Hlk) as [Hi' Hl].
  eexists true, _, tbl2. split; [done|]. split; [done|]. split; [apply Hg|]. intros va'. unfold huge_pde in *. rewrite Hl, Hp. cbn [andb].
  destruct (decide _); [by rewrite bool_decide_true|rewrite bool_decide_false by done]. apply Hg.
Qed.

Definition pte (pa flags : Z) : Z := Z.lor (Z.lor (Z.land pa PAGE_MASK) flags) PAGE_FLAG_PRESENT.

Lemma pte_phys pa flags : Z.land flags PAGE_MASK = 0 -> Z.land (pte pa flags) PAGE_MASK = Z.land pa PAGE_MASK.
Proof.
  intros Hf. unfold pte. rewrite !Z.land_lor_distr_l, Hf, Z.lor_0_r, <- Z.land_assoc, Z.land_diag.
  change (Z.land PAGE_FLAG_PRESENT PAGE_MASK) with 0. apply Z.lor_0_r.
Qed.

Lemma map_page_spec s root tbl va pa flags : pt_inv s root tbl -> no_huge s root va ->
  exists r s' tbl', vmm_map_page s root va pa flags = (r, s') /\ pt_inv s' root tbl' /\ tbl ⊆ tbl' /\
    (forall q, page q -> fr_ref (frames s') q = if decide (tbl !! q = None /\ is_Some (tbl' !! q)) then 1 else fr_ref (frames s) q) /\
    (forall q, fr_managed (frames s') q = fr_managed (frames s) q) /\
    (forall q l, tbl' !! q = Some l -> tbl !! q = None -> fr_ref (frames s) q = 0) /\
    (forall a, (forall t l, tbl' !! t = Some l -> ~ in_page t a) -> words s' !! a = words s !! a) /\
    forall va', leaf (words s') 4 root va' =
      if r && bool_decide (vpn va = vpn va') then Some (1%nat, pte pa flags) else leaf (words s) 4 root va'.
Proof.
  intros Hi Hn. destruct (map_walk s root tbl va flags Hi Hn) as (s1 & tbl1 & [G1 G2 G3 G4 G5 G6 G7] & [H|(pt & Hpt & H)]); rewrite H.
  { by exists false, s1, tbl1. }
  destruct (set_leaf_spec s1 root tbl1 va pt (pte pa flags) G1 Hpt) as [Hinv Hleaf].
  eexists true, _, tbl1. do 6 (split; [done|]). split.
  - intros a Ha. rewrite words_set, lookup_insert_ne, G6; [done|done|]. intros <-.
    apply (Ha pt 1%nat); [apply (tab_level _ _ _ va 3 pt (pi_wf _ _ _ G1)); (done || lia)|apply in_page_entry, vidx_range].
  - intros va'. rewrite Hleaf, G3. cbn [andb]. unfold entry_leaf.
    assert (present (pte pa flags) = true) as -> by (unfold pte; by rewrite present_testbit, Z.lor_spec, orb_true_r).
    by destruct (decide (vpn va = vpn va')), (bool_decide_reflect (vpn va = vpn va')).
Qed.

(** ** Removing an empty table *)

Lemma table_empty_spec s t : table_empty s t = true <-> forall i, 0 <= i < 512 -> present (read_entry s t i) = false.
Proof.
  unfold table_empty.
  assert (H : (for_n 512 0 (fun i b => b && negb (present (read_entry s t i))) true = true) <->
    forall i, 0 <= i < 0 + Z.of_nat 512 -> present (read_entry s t i) = false); [|done].
  apply (for_n_ind (fun j b => b = true <-> forall i, 0 <= i < j -> present (read_entry s t i) = false)).
  - split; [lia|done].
  - intros j b Hj IH. rewrite andb_true_iff, IH, negb_true_iff. split.
    + intros [H1 H2] i Hi. destruct (decide (i = j)) as [->|]; [done|]. apply H1. lia.
    + intros H. split; [intros i Hi; apply H; lia|apply H; lia].
Qed.

Lemma unlink_table s root tbl va t c l : pt_inv s root tbl -> (1 <= l <= 3)%nat -> tab (words s) root va (4 - S l) = Some t ->
  tab (words s) root va (4 - l) = Some c -> table_empty s c = true ->
  let s' := free_frame (set_entry s t (vidx (S l) va) 0) c in
  pt_inv s' root (delete c tbl) /\ (forall va', leaf (words s') 4 root va' = leaf (words s) 4 root va') /\
  tbl !! c = Some l /\ (forall q, page q -> fr_ref (frames s') q = if decide (q = c) then 0 else fr_ref (frames s) q) /\
  (forall q, fr_managed (frames s') q = fr_managed (frames s) q) /\
  (forall va' k, (k <= 4 - S l)%nat -> tab (words s') root va' k = tab (words s) root va' k).
Proof.
  intros [Hok Hwf Href Hman] Hl Ht Htc Hemp s'. rewrite table_empty_spec in Hemp. unfold read_entry in *.
  replace (4 - l)%nat with (S (4 - S l)) in Htc by lia. apply tab_link in Htc as (t' & Ht' & Hlk & Hc). symmetry in Hc.
  assert (t' = t) as -> by congruence. clear Ht'. replace (4 - (4 - S l))%nat with (S l) in * by lia.
  assert (Hlev : tbl !! t = Some (S l)). { replace (S l) with (4 - (4 - S l))%nat by lia. apply (tab_level (words s) root tbl va); (done || lia). }
  pose proof (pw_page _ _ _ Hwf) as Hpg. pose proof (vidx_range (S l) va) as Hv.
  assert (Hcl : tbl !! c = Some l) by (rewrite Hc; by apply (pw_child _ _ _ Hwf)).
  assert (Hw : words s' = <[t + 8 * vidx (S l) va := 0]> (words s)) by done.
  assert (Hm : forall t' l' i, tbl !! t' = Some l' -> 0 <= i < 512 ->
    entry (words s') t' i = if decide (t = t' /\ vidx (S l) va = i) then 0 else entry (words s) t' i).
  { intros t' l' i Ht' Hi. rewrite Hw, entry_insert by (done || apply (Hpg t _ Hlev) || apply (Hpg t' l' Ht')). done. }
  assert (Hm' : forall t' l' i, tbl !! t' = Some l' -> 0 <= i < 512 -> ~ (t' = t /\ i = vidx (S l) va) ->
    entry (words s') t' i = entry (words s) t' i).
  { intros t' l' i Ht' Hi Hne. rewrite (Hm t' l' i Ht' Hi), decide_False; [done|]. naive_solver. }
  destruct (law_fr_free (frames s) c Hok ltac:(apply (Hpg c l Hcl)) (Hman c l Hcl) ltac:(rewrite (Href c l Hcl); lia)) as (Hok' & Hmg & Hq).
  assert (Hrf : forall q, page q -> fr_ref (frames s') q = if decide (q = c) then 0 else fr_ref (frames s) q).
  { intros q Hqp. unfold s'; simpl. rewrite Hq by done. rewrite (Href c l Hcl). done. }
  split; [|split; [|split; [done|split; [done|split; [done|]]]]].
  - assert (Hlk' : forall t' l' i, delete c tbl !! t' = Some l' -> 0 <= i < 512 -> links l' (entry (words s') t' i) = true ->
      tbl !! t' = Some l' /\ entry (words s') t' i = entry (words s) t' i /\ ~ (t' = t /\ i = vidx (S l) va)).
    { intros t' l' i [_ Ht']%lookup_delete_Some Hi Hl'. split; [done|]. rewrite (Hm t' l' i Ht' Hi) in Hl' |- *.
      destruct (decide (t = t' /\ vidx (S l) va = i)) as [_|Hne]; [by rewrite absent_links in Hl'|]. split; [done|]. naive_solver. }
    split; [done| | |]; [|intros q lq [Hne Hql]%lookup_delete_Some; rewrite Hrf, decide_False by (congruence || apply (Hpg q lq Hql)); by apply (Href q lq)
      |intros q lq [Hne Hql]%lookup_delete_Some; unfold s'; simpl; rewrite Hmg; by apply (Hman q lq)].
    split.
    + rewrite lookup_delete_ne; [apply Hwf|]. intros ->. pose proof (pw_root _ _ _ Hwf). assert (l = 4%nat) by congruence. lia.
    + intros t' l' [_ Ht']%lookup_delete_Some. by apply Hpg.
    + intros t' l' i Ht' Hi Hl'. destruct (Hlk' t' (S l') i Ht' Hi Hl') as (H1 & E & Hne). rewrite E in Hl' |- *.
      rewrite lookup_delete_ne; [by apply (pw_child _ _ _ Hwf)|]. intros E2. apply Hne.
      apply (pw_uniq _ _ _ Hwf t' t (S l') (S l)); try done. congruence.
    + intros t1 t2 l1 l2 i1 i2 T1 T2 I1 I2 L1 L2 E. destruct (Hlk' t1 l1 i1 T1 I1 L1) as (A1 & B1 & _), (Hlk' t2 l2 i2 T2 I2 L2) as (A2 & B2 & _).
      rewrite B1 in L1, E. rewrite B2 in L2, E. by apply (pw_uniq _ _ _ Hwf t1 t2 l1 l2).
  - intros va'. destruct (decide (same_upto (S l) va va')) as [Hup|Hup].
    + rewrite (leaf_set_through _ (words s') root tbl va t (S l) Hwf ltac:(lia) Ht Hm' va' Hup).
      apply (through_iff _ root tbl va t (S l) Hwf ltac:(lia) Ht) in Hup as [Ht' Hve].
      rewrite (leaf_tab _ root va' (4 - S l) t) by (done || lia). replace (4 - (4 - S l))%nat with (S l) by lia. cbn [leaf].
      rewrite Hve, (Hm t _ _ Hlev Hv), decide_True by done. change (present 0) with false. cbn [negb].
      pose proof Hlk as Hlk2. unfold links in Hlk2. apply andb_true_iff in Hlk2 as [-> Hmp]. cbn [negb]. destruct (maps (S l) _); [done|].
      rewrite <- Hc. destruct l as [|l']; [lia|]. cbn [leaf]. by rewrite Hemp by apply vidx_range.
    + by apply (leaf_set_other _ (words s') root tbl va t (S l) Hwf ltac:(lia) Ht Hm').
  - intros va' j Hj. apply (tab_set _ (words s') root tbl va t (S l) Hwf ltac:(lia) Ht Hm'). done.
Qed.

(** Going from one state to another by removing empty tables. *)
Record shrinks s (root : Z) (tbl : gmap Z nat) s' (tbl' : gmap Z nat) : Prop := {
  sh_inv : pt_inv s' root tbl';
  sh_sub : tbl' ⊆ tbl;
  sh_leaf : forall va, leaf (words s') 4 root va = leaf (words s) 4 root va;
  sh_ref : forall q, page q -> fr_ref (frames s') q = if decide (is_Some (tbl !! q) /\ tbl' !! q = None) then 0 else fr_ref (frames s) q;
  sh_words : forall a, (forall t l, tbl !! t = Some l -> ~ in_page t a) -> words s' !! a = words s !! a;
  sh_managed : forall q, fr_managed (frames s') q = fr_managed (frames s) q;
}.

Lemma tables_shrink_refl s root tbl : pt_inv s root tbl -> shrinks s root tbl s tbl.
Proof. intros Hi. split; try done. intros q _. rewrite decide_False; [done|]. intros [[? H1] H2]. congruence. Qed.

Lemma tables_shrink_trans s1 s2 s3 root tbl1 tbl2 tbl3 : shrinks s1 root tbl1 s2 tbl2 -> shrinks s2 root tbl2 s3 tbl3 ->
  shrinks s1 root tbl1 s3 tbl3.
Proof.
  intros [A1 A2 A3 A4 A5 A6] [B1 B2 B3 B4 B5 B6]. split; [done|by etrans|by intros va; rewrite B3, A3| | |intros q; by rewrite B6].
  - intros q Hq. rewrite B4, A4 by done. destruct (tbl3 !! q) as [l3|] eqn:H3.
    { pose proof (lookup_weaken _ _ _ _ H3 B2) as H2. by rewrite !decide_False by (intros [_ ?]; congruence). }
    destruct (tbl2 !! q) as [l2|] eqn:H2.
    + pose proof (lookup_weaken _ _ _ _ H2 A2) as H1. rewrite H1. by rewrite !decide_True by (split; [by eexists|done]).
    + rewrite (decide_False (P := is_Some None /\ None = None)) by (intros [[? ?] _]; done). done.
  - intros a Ha. rewrite B5, A5; [done|done|]. intros t l Ht. apply (Ha t l). by eapply lookup_weaken.
Qed.

Lemma unlink_shrinks s root tbl va t c l : pt_inv s root tbl -> (1 <= l <= 3)%nat -> tab (words s) root va (4 - S l) = Some t ->
  tab (words s) root va (4 - l) = Some c -> table_empty s c = true ->
  let s' := free_frame (set_entry s t (vidx (S l) va) 0) c in
  shrinks s root tbl s' (delete c tbl) /\ forall k, (k <= 4 - S l)%nat -> tab (words s') root va k = tab (words s) root va k.
Proof.
  intros Hi Hl Ht Hc He s'. destruct (unlink_table s root tbl va t c l Hi Hl Ht Hc He) as (H1 & H2 & H3 & H4 & H6 & H5).
  split; [|intros k Hk; by apply H5]. split; [done|apply delete_subseteq|done| | |done].
  - intros q Hq. rewrite H4 by done. destruct (decide (q = c)) as [->|Hne].
    + rewrite decide_True; [done|]. by rewrite H3, lookup_delete_eq.
    + rewrite decide_False; [done|]. rewrite lookup_delete_ne by done. intros [[? G1] G2]. congruence.
  - intros a Ha. unfold s'. simpl. rewrite lookup_insert_ne; [done|]. intros <-.
    apply (Ha t (S l)); [|apply in_page_entry, vidx_range].
    replace (S l) with (4 - (4 - S l))%nat by lia. apply (tab_level (words s) root tbl va); [apply Hi|lia|done].
Qed.

Lemma free_empty_tables_spec s root tbl va : pt_inv s root tbl -> exists tbl', shrinks s root tbl (vmm_free_empty_tables s root va) tbl'.
Proof.
  intros Hi. pose proof (tables_shrink_refl s root tbl Hi) as Hrefl. unfold vmm_free_empty_tables.
  change (pml4_index va) with (vidx 4 va). change (pdpt_index va) with (vidx 3 va). change (pd_index va) with (vidx 2 va).
  destruct (present (read_entry s root (vidx 4 va))) eqn:P4; [|by exists tbl]. cbn [negb].
  set (pdpt := Z.land (read_entry s root (vidx 4 va)) PAGE_MASK).
  assert (T1 : tab (words s) root va 1 = Some pdpt).
  { apply (tab_next _ _ _ 0 root 4); [done|done|]. apply links_ok; [done|lia|by left]. }
  destruct (present (read_entry s pdpt (vidx 3 va))) eqn:P3; [|by exists tbl]. cbn [negb orb].
  destruct (set (read_entry s pdpt (vidx 3 va)) PAGE_FLAG_PS) eqn:S3; [by exists tbl|]. set (pd := Z.land (read_entry s pdpt _) PAGE_MASK).
  assert (T2 : tab (words s) root va 2 = Some pd).
  { apply (tab_next _ _ _ 1 pdpt 3); [done|done|]. apply links_ok; [done|lia|by right]. }
  destruct (present (read_entry s pd (vidx 2 va))) eqn:P2; [|by exists tbl]. cbn [negb orb].
  destruct (set (read_entry s pd (vidx 2 va)) PAGE_FLAG_PS) eqn:S2; [by exists tbl|]. set (pt := Z.land (read_entry s pd _) PAGE_MASK).
  assert (T3 : tab (words s) root va 3 = Some pt).
  { apply (tab_next _ _ _ 2 pd 2); [done|done|]. apply links_ok; [done|lia|by right]. }
  destruct (table_empty s pt) eqn:E1; [|by exists tbl].
  destruct (unlink_shrinks s root tbl va pd pt 1 Hi ltac:(lia) T2 T3 E1) as [Sh1 K1].
  set (s1 := free_frame (set_entry s pd (vidx 2 va) 0) pt) in *. destruct (table_empty s1 pd) eqn:E2; [|by exists (delete pt tbl)].
  destruct (unlink_shrinks s1 root _ va pdpt pd 2 (sh_inv _ _ _ _ _ Sh1) ltac:(lia)) as [Sh2 K2]; [by rewrite K1 by lia|by rewrite K1 by lia|done|].
  set (s2 := free_frame (set_entry s1 pdpt (vidx 3 va) 0) pd) in *. pose proof (tables_shrink_trans _ _ _ _ _ _ _ Sh1 Sh2) as Sh12.
  destruct (table_empty s2 pdpt) eqn:E3; [|by eexists].
  destruct (unlink_shrinks s2 root _ va root pdpt 3 (sh_inv _ _ _ _ _ Sh2) ltac:(lia)) as [Sh3 _]; [done|by rewrite K2, K1 by lia|done|].
  eexists. by eapply tables_shrink_trans.
Qed.

(** ** Unmapping *)

Lemma leaf_vpn s root va va' : vpn va = vpn va' -> leaf (words s) 4 root va = leaf (words s) 4 root va'.
Proof.
  intros Hv%same_upto_vpn. assert (Hgo : forall l t, (l <= 4)%nat -> leaf (words s) l t va = leaf (words s) l t va'); [|by apply Hgo].
  induction l as [|l IH]; intros t Hl; [done|]. cbn [leaf]. rewrite (Hv (S l)) by lia. case_match; [done|]. case_match; [done|]. apply IH. lia.
Qed.

(** What is left of a mapping when its page is unmapped: huge pages stay. *)
Definition unmapped (r : option (nat * Z)) : option (nat * Z) := match r with Some (1%nat, _) => None | r => r end.

Lemma unmap_page_spec s root tbl va : pt_inv s root tbl ->
  exists tbl', let s' := vmm_unmap_page s root va in
  pt_inv s' root tbl' /\ tbl' ⊆ tbl /\
  (forall q, page q -> fr_ref (frames s') q = if decide (is_Some (tbl !! q) /\ tbl' !! q = None) then 0 else fr_ref (frames s) q) /\
  (forall q, fr_managed (frames s') q = fr_managed (frames s) q) /\
  (forall a, (forall t l, tbl !! t = Some l -> ~ in_page t a) -> words s' !! a = words s !! a) /\
  forall va', leaf (words s') 4 root va' =
    if decide (vpn va = vpn va') then unmapped (leaf (words s) 4 root va) else leaf (words s) 4 root va'.
Proof.
  intros Hi. pose proof (tables_shrink_refl s root tbl Hi) as [R1 R2 R3 R4 R5 R6]. unfold vmm_unmap_page. cbv zeta.
  change (pml4_index va) with (vidx 4 va). change (pdpt_index va) with (vidx 3 va). change (pd_index va) with (vidx 2 va).
  change (pt_index va) with (vidx 1 va).
  assert (Hnop : unmapped (leaf (words s) 4 root va) = leaf (words s) 4 root va -> exists tbl', pt_inv s root tbl' /\ tbl' ⊆ tbl /\
    (forall q, page q -> fr_ref (frames s) q = if decide (is_Some (tbl !! q) /\ tbl' !! q = None) then 0 else fr_ref (frames s) q) /\
    (forall q, fr_managed (frames s) q = fr_managed (frames s) q) /\
    (forall a, (forall t l, tbl !! t = Some l -> ~ in_page t a) -> words s !! a = words s !! a) /\
    forall va', leaf (words s) 4 root va' =
      if decide (vpn va = vpn va') then unmapped (leaf (words s) 4 root va) else leaf (words s) 4 root va').
  { intros Hu. exists tbl. do 5 (split; [done|]). intros va'. destruct (decide _) as [E|]; [|done]. rewrite Hu. symmetry. by apply leaf_vpn. }
  destruct (present (read_entry s root (vidx 4 va))) eqn:P4; cbn [negb];
    [|apply Hnop; rewrite leaf_S; unfold read_entry in P4; by rewrite P4].
  pose proof (tab_next (words s) root va 0 root 4 eq_refl eq_refl (links_ok 4 _ P4 ltac:(lia) (or_introl eq_refl))) as T1.
  set (pdpt := Z.land (entry (words s) root (vidx 4 va)) PAGE_MASK) in *. change (Z.land (read_entry s root (vidx 4 va)) PAGE_MASK) with pdpt.
  pose proof (leaf_tab _ _ _ 1 _ ltac:(lia) T1) as L1.
  change (4 - 1)%nat with 3%nat in L1. rewrite (leaf_S _ 2), (leaf_S _ 1), (leaf_S _ 0) in L1. unfold maps in L1. cbn [Nat.eqb Nat.ltb Nat.leb orb andb] in L1.
  unfold read_entry in *. destruct (present (entry (words s) pdpt (vidx 3 va))) eqn:P3; cbn [negb] in *; [|apply Hnop; by rewrite L1].
  destruct (set (entry (words s) pdpt (vidx 3 va)) PAGE_FLAG_PS) eqn:S3; [apply Hnop; by rewrite L1|].
  pose proof (tab_next (words s) root va 1 pdpt 3 T1 eq_refl (links_ok 3 _ P3 ltac:(lia) (or_intror S3))) as T2.
  set (pd := Z.land (entry (words s) pdpt (vidx 3 va)) PAGE_MASK) in *.
  destruct (present (entry (words s) pd (vidx 2 va))) eqn:P2; cbn [negb] in *; [|apply Hnop; by rewrite L1].
  destruct (set (entry (words s) pd (vidx 2 va)) PAGE_FLAG_PS) eqn:S2; [apply Hnop; by rewrite L1|].
  pose proof (tab_next (words s) root va 2 pd 2 T2 eq_refl (links_ok 2 _ P2 ltac:(lia) (or_intror S2))) as T3.
  set (pt := Z.land (entry (words s) pd (vidx 2 va)) PAGE_MASK) in *.
  destruct (set_leaf_spec s root tbl va pt 0 Hi T3) as [Hinv Hleaf]. set (s1 := set_entry s pt (vidx 1 va) 0) in *.
  assert (Hun : unmapped (leaf (words s) 4 root va) = None) by (rewrite L1; by destruct (negb _)). rewrite Hun.
  assert (Hw1 : forall a, (forall t l, tbl !! t = Some l -> ~ in_page t a) -> words s1 !! a = words s !! a).
  { intros a Ha. unfold s1. rewrite words_set, lookup_insert_ne; [done|]. intros <-. apply (Ha pt 1%nat); [|apply in_page_entry, vidx_range].
    apply (tab_level (words s) root tbl va 3 pt); [apply Hi|lia|done]. }
  destruct (_ || _).
  - destruct (free_empty_tables_spec s1 root tbl va Hinv) as (tbl' & [S1' S2' S3' S4' S5' S6']). exists tbl'. split; [done|]. split; [done|].
    split; [done|]. split; [done|]. split; [intros a Ha; rewrite S5', Hw1 by done; done|]. intros va'. rewrite S3', Hleaf. done.
  - exists tbl. by do 5 (split; [done|]).
Qed.
End Spec.
