(* ===== verification/ForkInv.v ===== *)
(** * Growing a second tree of tables

    Cloning an address space builds a new tree next to the tables of the parent,
    [tbl], and only changes permission bits in those.  [clones] is what every part of
    the work guarantees; it composes. *)

From S2P Require Import Prelude PmmReclaim Vma Paging PagingInv PagingSpec AddrSpace.

Definition user (e : Z) : bool := set e PAGE_FLAG_USER.

(** Entries that agree up to permission to write. *)
Definition like (l : nat) (e e' : Z) : Prop :=
  present e' = present e /\ user e' = user e /\ links l e' = links l e /\ Z.land e' PAGE_MASK = Z.land e PAGE_MASK.

Lemma like_refl l e : like l e e.
Proof. done. Qed.

Lemma like_trans l e1 e2 e3 : like l e1 e2 -> like l e2 e3 -> like l e1 e3.
Proof. intros (A1 & A2 & A3 & A4) (B1 & B2 & B3 & B4). unfold like. by rewrite B1, B2, B3, B4. Qed.

(** Whether every entry on the way lets the user through. *)
Fixpoint upath (m : gmap Z Z) (l : nat) (t va : Z) : bool :=
  match l with
  | O => true
  | S l' =>
      let e := entry m t (vidx l va) in
      user e && (if links l e then upath m l' (Z.land e PAGE_MASK) va else true)
  end.

Lemma upath_S m l t va : upath m (S l) t va =
  user (entry m t (vidx (S l) va)) && (if links (S l) (entry m t (vidx (S l) va)) then upath m l (Z.land (entry m t (vidx (S l) va)) PAGE_MASK) va else true).
Proof. done. Qed.

Lemma upath_like m m' root tbl va : pt_wf m root tbl ->
  (forall t l i, tbl !! t = Some l -> 0 <= i < 512 -> like l (entry m t i) (entry m' t i)) ->
  forall l t, tbl !! t = Some l -> upath m' l t va = upath m l t va.
Proof.
  intros Hwf Hlike. induction l as [|l IH]; intros t Ht; [done|]. rewrite !upath_S.
  destruct (Hlike t (S l) (vidx (S l) va) Ht (vidx_range _ _)) as (_ & -> & -> & ->). f_equal.
  destruct (links _ _) eqn:El; [|done]. apply IH. by apply (pw_child _ _ _ Hwf); [|apply vidx_range|].
Qed.

Lemma tab_like m m' root tbl va : pt_wf m root tbl ->
  (forall t l i, tbl !! t = Some l -> 0 <= i < 512 -> like l (entry m t i) (entry m' t i)) ->
  forall k, (k <= 3)%nat -> tab m' root va k = tab m root va k.
Proof.
  intros Hwf Hlike. induction k as [|k IH]; intros Hk; [done|]. cbn [tab]. rewrite IH by lia. destruct (tab m root va k) as [t|] eqn:Et; [|done].
  destruct (Hlike t (4 - k)%nat (vidx (4 - k) va)) as (_ & _ & -> & ->); [|apply vidx_range|done].
  apply (tab_level m root tbl va); [done|lia|done].
Qed.

(** What an address maps to only depends on the tables of a region that its walk
    does not leave. *)
Lemma leaf_region (R : nat -> Z -> Prop) m m' va :
  (forall l t, R (S l) t -> links (S l) (entry m t (vidx (S l) va)) = true -> R l (Z.land (entry m t (vidx (S l) va)) PAGE_MASK)) ->
  (forall l t, R (S l) t -> entry m' t (vidx (S l) va) = entry m t (vidx (S l) va)) ->
  forall l t, R l t -> leaf m' l t va = leaf m l t va.
Proof.
  intros Hc He. induction l as [|l IH]; intros t Ht; [done|]. rewrite !leaf_S, He by done.
  destruct (present _) eqn:Ep; [|done]. cbn [negb]. destruct (maps _ _) eqn:Em; [done|]. apply IH, Hc; [done|].
  unfold links. by rewrite Ep, Em.
Qed.

Lemma entry_word m m' t i : m' !! (t + 8 * i) = m !! (t + 8 * i) -> entry m' t i = entry m t i.
Proof. intros H. unfold entry, word. by rewrite H. Qed.

(** A table nothing points to. *)
Lemma pt_wf_orphan m m' root T f l : pt_wf m root T -> page f -> (1 <= l <= 4)%nat -> T !! f = None ->
  (forall t l i, T !! t = Some l -> 0 <= i < 512 -> entry m' t i = entry m t i) ->
  (forall i, 0 <= i < 512 -> entry m' f i = 0) ->
  pt_wf m' root (<[f := l]> T) /\ orphan m' (<[f := l]> T) f.
Proof.
  intros [W1 W2 W3 W4] Hf Hl Hfr Hm Hz.
  assert (Hk : forall t l' i, <[f := l]> T !! t = Some l' -> 0 <= i < 512 -> links l' (entry m' t i) = true ->
    T !! t = Some l' /\ entry m' t i = entry m t i /\ links l' (entry m t i) = true).
  { intros t l' i [[<- <-]|[_ Ht]]%lookup_insert_Some Hi Hlk; [by rewrite Hz in Hlk|]. split; [done|]. rewrite (Hm t l' i Ht Hi) in Hlk |- *. done. }
  assert (Hc : forall t l' i, <[f := l]> T !! t = Some l' -> 0 <= i < 512 -> links l' (entry m' t i) = true -> Z.land (entry m' t i) PAGE_MASK <> f).
  { intros t l' i Ht Hi Hlk. destruct (Hk _ _ _ Ht Hi Hlk) as (Ht' & E & Hlk'). rewrite E.
    destruct l' as [|l']; [pose proof (W2 _ _ Ht'); lia|]. pose proof (W3 t l' i Ht' Hi Hlk'). congruence. }
  split; [|done]. split.
  - rewrite lookup_insert_ne by congruence. done.
  - intros t l' [[<- <-]|[_ Ht]]%lookup_insert_Some; [done|by apply W2].
  - intros t l' i Ht Hi Hlk. destruct (Hk _ _ _ Ht Hi Hlk) as (Ht' & E & Hlk'). rewrite lookup_insert_ne by (symmetry; by apply (Hc t (S l') i)).
    rewrite E. by apply W3.
  - intros t1 t2 l1 l2 i1 i2 T1 T2 I1 I2 L1 L2. destruct (Hk _ _ _ T1 I1 L1) as (T1' & -> & L1'), (Hk _ _ _ T2 I2 L2) as (T2' & -> & L2').
    by apply (W4 t1 t2 l1 l2).
Qed.

Lemma orphan_like m m' tbl c : (forall t l i, tbl !! t = Some l -> 0 <= i < 512 -> like l (entry m t i) (entry m' t i)) ->
  orphan m tbl c -> orphan m' tbl c.
Proof. intros Hl Ho t l i Ht Hi. destruct (Hl t l i Ht Hi) as (_ & _ & -> & ->). by apply Ho. Qed.

(** ** Copy-on-write entries *)

(** The first address of a page, from the indices. *)
Definition page_va (va : Z) : Z := Z.shiftl (vpn va) 12.

Section Cow.
Context (sh M : Z -> bool).

(** What cloning makes of the entry of a page that the user may access: frames that
    are managed and not shared lose the permission to write. *)
Definition cow_entry (va e : Z) : Z :=
  if sh va || negb (M (Z.land e PAGE_MASK)) then e else if set e PAGE_FLAG_RW then make_cow e else e.

Definition cow_leaf (va : Z) (r : option (nat * Z)) : option (nat * Z) :=
  match r with Some (1%nat, e) => Some (1%nat, cow_entry (page_va va) e) | r => r end.

Lemma make_cow_testbit e n : 0 <= n -> Z.testbit (make_cow e) n = (Z.testbit e n && negb (n =? 1)) || (n =? 9).
Proof.
  intros Hn. unfold make_cow. rewrite Z.lor_spec, Z.land_spec, Z.lnot_spec by done. unfold PAGE_FLAG_RW, PAGE_FLAG_COW.
  rewrite !Z.shiftl_1_l, !Z.pow2_bits_eqb by lia. by rewrite (Z.eqb_sym 1 n), (Z.eqb_sym 9 n).
Qed.

Lemma make_cow_mask e : Z.land (make_cow e) PAGE_MASK = Z.land e PAGE_MASK.
Proof.
  apply Z.bits_inj'. intros n Hn. rewrite !Z.land_spec, make_cow_testbit, mask_testbit by done.
  destruct (Z.leb_spec 12 n); [|by rewrite !andb_false_r]. rewrite (proj2 (Z.eqb_neq n 1)), (proj2 (Z.eqb_neq n 9)) by lia.
  by rewrite andb_true_r, orb_false_r.
Qed.

Lemma make_cow_rw e : set (make_cow e) PAGE_FLAG_RW = false.
Proof. unfold PAGE_FLAG_RW. rewrite land_pow2_testbit, make_cow_testbit by lia. by rewrite andb_false_r. Qed.

Lemma cow_entry_like va e : like 1 e (cow_entry va e).
Proof.
  unfold cow_entry. destruct (_ || _); [done|]. destruct (set e PAGE_FLAG_RW); [|done]. unfold like, user.
  rewrite !links_1, make_cow_mask, !present_testbit. unfold PAGE_FLAG_USER. rewrite !land_pow2_testbit, !make_cow_testbit by lia.
  by rewrite !andb_true_r, !orb_false_r.
Qed.

Lemma cow_entry_idem va e : cow_entry va (cow_entry va e) = cow_entry va e.
Proof.
  unfold cow_entry at 2 3. destruct (sh va || negb (M (Z.land e PAGE_MASK))) eqn:E; [unfold cow_entry; by rewrite E|].
  destruct (set e PAGE_FLAG_RW) eqn:Er; unfold cow_entry.
  - by rewrite make_cow_mask, E, make_cow_rw.
  - by rewrite E, Er.
Qed.

Lemma cow_leaf_idem va r : cow_leaf va (cow_leaf va r) = cow_leaf va r.
Proof. destruct r as [[[|[|l]] e]|]; try done. cbn [cow_leaf]. by rewrite cow_entry_idem. Qed.

Lemma cow_leaf_phys va r : leaf_phys (cow_leaf va r) va = leaf_phys r va.
Proof.
  destruct r as [[[|[|l]] e]|]; try done. cbn [cow_leaf leaf_phys]. by destruct (cow_entry_like (page_va va) e) as (_ & _ & _ & ->).
Qed.
End Cow.

(** ** The guarantee *)

Section Clones.
Context {P : Type} `{!Frames P, !FramesLaws P}.
Context (sh : Z -> bool) (root : Z) (tbl : gmap Z nat).
Implicit Types s : pg P.
Implicit Types T : gmap Z nat.

(** From [s] with the tables [T] to [s'] with [T']: only permission bits of the
    parent's entries change, tables of [T] that are not the parent's keep their
    words, and new tables point to new tables. *)
Record clones s T s' T' : Prop := {
  cl_inv : pt_inv s' root T';
  cl_wf : pt_wf (words s') root tbl;
  cl_sub : T ⊆ T';
  cl_like : forall t l i, tbl !! t = Some l -> 0 <= i < 512 -> like l (entry (words s) t i) (entry (words s') t i);
  cl_keep : forall t l a, T !! t = Some l -> tbl !! t = None -> in_page t a -> words s' !! a = words s !! a;
  cl_words : forall a, (forall t l, T' !! t = Some l -> ~ in_page t a) -> words s' !! a = words s !! a;
  cl_fresh : forall q l, T' !! q = Some l -> T !! q = None -> fr_ref (frames s) q = 0;
  cl_used : forall q, page q -> fr_ref (frames s') q = 0 -> fr_ref (frames s) q = 0;
  cl_managed : forall q, fr_managed (frames s') q = fr_managed (frames s) q;
  cl_new : forall t l i, T' !! t = Some l -> T !! t = None -> 0 <= i < 512 -> links l (entry (words s') t i) = true ->
    T !! Z.land (entry (words s') t i) PAGE_MASK = None;
  cl_leaf : forall va, leaf (words s') 4 root va = leaf (words s) 4 root va \/
    leaf (words s') 4 root va = cow_leaf sh (fr_managed (frames s)) va (leaf (words s) 4 root va);
}.

Lemma clones_refl s T : pt_inv s root T -> pt_wf (words s) root tbl -> clones s T s T.
Proof. intros Hi Hw. split; try done; [congruence|congruence|]. by left. Qed.

(** Entries of tables that are not the parent's. *)
Lemma clones_entry s T s' T' t l i : clones s T s' T' -> T !! t = Some l -> tbl !! t = None -> 0 <= i < 512 ->
  entry (words s') t i = entry (words s) t i.
Proof. intros Hc Ht Hn Hi. apply entry_word, (cl_keep _ _ _ _ Hc t l); [done|done|by apply in_page_entry]. Qed.

Lemma cow_leaf_ext (M' M : Z -> bool) va r : (forall q, M' q = M q) -> cow_leaf sh M' va r = cow_leaf sh M va r.
Proof. intros HM. destruct r as [[[|[|l]] e]|]; try done. cbn [cow_leaf]. unfold cow_entry. by rewrite HM. Qed.

Lemma clones_trans s1 s2 s3 T1 T2 T3 : tbl ⊆ T1 -> clones s1 T1 s2 T2 -> clones s2 T2 s3 T3 -> clones s1 T1 s3 T3.
Proof.
  intros Hsub [A1 A2 A3 A4 A5 A6 A7 AU A8 A9 A10] [B1 B2 B3 B4 B5 B6 B7 BU B8 B9 B10].
  assert (Htb : forall t, T1 !! t = None -> tbl !! t = None) by (intros t Ht; by eapply lookup_weaken_None).
  split; [done|done|by etrans| | | | | |congruence| |].
  - intros t l i Ht Hi. eapply like_trans; [by apply A4|by apply B4].
  - intros t l a Ht Hn Ha. rewrite (B5 t l); [by apply (A5 t l)|by eapply lookup_weaken|done|done].
  - intros a Ha. rewrite B6, A6; [done| |done]. intros t l Ht. apply (Ha t l). by eapply lookup_weaken.
  - intros q l H3 H1. destruct (T2 !! q) as [l'|] eqn:H2; [by apply (A7 q l')|]. apply AU; [|by apply (B7 q l)].
    apply (pw_page _ _ _ (pi_wf _ _ _ B1) q l H3).
  - intros q Hq H0. by apply AU, BU.
  - intros t l i Ht Hn Hi Hl. destruct (T2 !! t) as [l'|] eqn:H2.
    + pose proof (lookup_weaken _ _ _ _ H2 B3) as H3. assert (l' = l) as -> by congruence.
      assert (E : entry (words s3) t i = entry (words s2) t i) by (apply entry_word, (B5 t l); [done|by apply Htb|by apply in_page_entry]).
      rewrite E in *. by apply (A9 t l i).
    + eapply lookup_weaken_None; [|exact A3]. by apply (B9 t l i).
  - intros va. specialize (A10 va). specialize (B10 va).
    assert (B10' : leaf (words s3) 4 root va = leaf (words s2) 4 root va \/
      leaf (words s3) 4 root va = cow_leaf sh (fr_managed (frames s1)) va (leaf (words s2) 4 root va)).
    { destruct B10 as [->| ->]; [by left|right]. by apply cow_leaf_ext. }
    destruct A10 as [<-|EA]; [done|]. right. destruct B10' as [->| ->]; [done|]. rewrite EA. apply cow_leaf_idem.
Qed.

(** Trees of new tables stay as they are. *)
Lemma clones_leaf_new s0 T0 s T s' T' l t va : tbl ⊆ T0 -> clones s0 T0 s T -> clones s T s' T' -> T !! t = Some l -> T0 !! t = None ->
  leaf (words s') l t va = leaf (words s) l t va.
Proof.
  intros Hsub H0 H1 Ht Hn. apply (leaf_region (fun l t => T !! t = Some l /\ T0 !! t = None)); [| |done].
  - intros l' t' [Ht' Hn'] Hl. split; [|by apply (cl_new _ _ _ _ H0 t' (S l') _ Ht' Hn' (vidx_range _ _))].
    by apply (pw_child _ _ _ (pi_wf _ _ _ (cl_inv _ _ _ _ H0))); [|apply vidx_range|].
  - intros l' t' [Ht' Hn']. apply (clones_entry s T s' T' t' (S l')); [done|done|by eapply lookup_weaken_None|apply vidx_range].
Qed.

(** Nothing points to a table that nothing pointed to. *)
Lemma clones_orphan s T s' T' c l : tbl ⊆ T -> clones s T s' T' -> T !! c = Some l -> orphan (words s) T c -> orphan (words s') T' c.
Proof.
  intros Hsub Hc Htc Ho t l' i Ht Hi Hl. destruct (T !! t) as [l1|] eqn:E.
  - pose proof (lookup_weaken _ _ _ _ E (cl_sub _ _ _ _ Hc)) as E'. assert (l1 = l') as -> by congruence.
    destruct (tbl !! t) as [l1|] eqn:Eb.
    + pose proof (lookup_weaken _ _ _ _ Eb Hsub). assert (l1 = l') as -> by congruence.
      destruct (cl_like _ _ _ _ Hc t l' i Eb Hi) as (_ & _ & E1 & E2). rewrite E1 in Hl. rewrite E2. by apply (Ho t l').
    + rewrite (clones_entry _ _ _ _ _ _ _ Hc E Eb Hi) in *. by apply (Ho t l').
  - pose proof (cl_new _ _ _ _ Hc t l' i Ht E Hi Hl). congruence.
Qed.
End Clones.
