(* ===== verification/KernelHalf.v ===== *)
(** * Sharing the kernel's half of an address space

    A new root whose upper entries are copied from another root: both are sound,
    the tables of the upper half belonging to both.  And the frames of data: taking,
    filling and giving back a frame that is not a table leaves the tables and what they
    map alone. *)

From S2P Require Import Prelude PmmReclaim Vma Paging PagingInv PagingSpec AddrSpace ForkInv.

Section Copy.
Context {P : Type}.

(** Copying the entries [i0], ..., [i0 + n - 1] of a page to another. *)
Lemma copy_entries_spec (n : nat) i0 (s : pg P) new src : 0 <= i0 -> i0 + Z.of_nat n <= 512 -> page new -> page src -> new <> src ->
  let s' := for_n n i0 (fun i s => set_entry s new i (read_entry s src i)) s in
  frames s' = frames s /\ (forall i, i0 <= i < i0 + Z.of_nat n -> entry (words s') new i = entry (words s) src i) /\
  forall a, (forall i, i0 <= i < i0 + Z.of_nat n -> a <> new + 8 * i) -> words s' !! a = words s !! a.
Proof.
  intros H0 Hn Hpn Hps Hne. cbv zeta.
  apply (for_n_ind (fun j (s' : pg P) => frames s' = frames s /\ (forall i, i0 <= i < j -> entry (words s') new i = entry (words s) src i) /\
    forall a, (forall i, i0 <= i < j -> a <> new + 8 * i) -> words s' !! a = words s !! a)).
  - split; [done|]. split; [lia|done].
  - intros j s' Hj (Hf & He & Hw). split; [done|]. split.
    + intros i Hi. rewrite words_set, entry_insert by (done || lia). destruct (decide (new = new /\ j = i)) as [[_ <-]|Hc].
      * unfold read_entry. apply entry_word, Hw. intros i' Hi' E. apply (entry_addr_inj src new j i') in E as [? _]; (done || lia).
      * apply He. assert (j <> i) by naive_solver. lia.
    + intros a Ha. rewrite words_set, lookup_insert_ne by (intros E; apply (Ha j); [lia|done]). apply Hw. intros i Hi. apply Ha. lia.
Qed.

Lemma copy_kernel_half_spec (s : pg P) new src : page new -> page src -> new <> src -> let s' := copy_kernel_half s new src in
  frames s' = frames s /\ (forall i, 256 <= i < 512 -> entry (words s') new i = entry (words s) src i) /\
  forall a, (forall i, 256 <= i < 512 -> a <> new + 8 * i) -> words s' !! a = words s !! a.
Proof. exact (copy_entries_spec 256 256 s new src ltac:(lia) ltac:(lia)). Qed.

Lemma copy_page_spec (s : pg P) dst src : page dst -> page src -> dst <> src -> let s' := copy_page s dst src in
  frames s' = frames s /\ (forall i, 0 <= i < 512 -> entry (words s') dst i = entry (words s) src i) /\
  forall a, (forall i, 0 <= i < 512 -> a <> dst + 8 * i) -> words s' !! a = words s !! a.
Proof. exact (copy_entries_spec 512 0 s dst src ltac:(lia) ltac:(lia)). Qed.
End Copy.

Section Half.
Context {P : Type} `{!Frames P, !FramesLaws P}.
Context (s2 s3 : pg P) (root new : Z) (T : gmap Z nat).
Context (HI : pt_inv s2 root T) (Hnew : T !! new = Some 4%nat) (Hne : new <> root) (Ho : orphan (words s2) T new).
Context (Hf : frames s3 = frames s2) (Hout : forall a, ~ in_page new a -> words s3 !! a = words s2 !! a).
Context (Hent : forall i, 0 <= i < 512 -> entry (words s3) new i = if i <? 256 then entry (words s2) new i else entry (words s2) root i).

Let HW : pt_wf (words s2) root T := pi_wf _ _ _ HI.

Lemma half_entry t l i : T !! t = Some l -> t <> new -> 0 <= i < 512 -> entry (words s3) t i = entry (words s2) t i.
Proof.
  intros Ht Hn Hi. apply entry_word, Hout. intros Ha. apply Hn.
  apply (pages_disjoint t new (t + 8 * i)); [by eapply (pw_page _ _ _ HW)|by eapply (pw_page _ _ _ HW)|by apply in_page_entry|done].
Qed.

Lemma half_parent_wf : pt_wf (words s3) root (delete new T).
Proof.
  pose proof HW as [W1 W2 W3 W4].
  assert (Hd : forall t l i, delete new T !! t = Some l -> 0 <= i < 512 -> T !! t = Some l /\ entry (words s3) t i = entry (words s2) t i).
  { intros t l i [Hn Ht]%lookup_delete_Some Hi. split; [done|]. by apply (half_entry t l). }
  split.
  - by rewrite lookup_delete_ne.
  - intros t l [_ Ht]%lookup_delete_Some. by apply W2.
  - intros t l i Ht Hi. destruct (Hd _ _ _ Ht Hi) as [Ht' ->]. intros Hl. rewrite lookup_delete_ne; [by apply W3|].
    intros E. by apply (Ho t (S l) i Ht' Hi Hl).
  - intros t t' l l' i i' Ht Ht' Hi Hi'. destruct (Hd _ _ _ Ht Hi) as [H1 ->], (Hd _ _ _ Ht' Hi') as [H2 ->]. by apply (W4 t t' l l').
Qed.

(** Where an entry of the new tree comes from. *)
Lemma half_origin t l i : delete root T !! t = Some l -> 0 <= i < 512 -> exists t0, T !! t0 = Some l /\
  entry (words s3) t i = entry (words s2) t0 i /\ (t = new /\ t0 = root \/ t = t0 /\ t0 <> root).
Proof.
  intros [Hr Ht]%lookup_delete_Some Hi. destruct (decide (t = new)) as [->|Hn].
  - rewrite Hent by done. assert (l = 4%nat) as -> by congruence. destruct (i <? 256); [exists new|exists root]; split; try done; [split; [done|by right]|apply HW|split; [done|by left]].
  - exists t. split; [done|]. split; [by apply (half_entry t l)|by right].
Qed.

Lemma half_child_wf : pt_wf (words s3) new (delete root T).
Proof.
  pose proof HW as [W1 W2 W3 W4]. split.
  - by rewrite lookup_delete_ne.
  - intros t l [_ Ht]%lookup_delete_Some. by apply W2.
  - intros t l i Ht Hi. destruct (half_origin _ _ _ Ht Hi) as (t0 & H0 & -> & _). intros Hl. pose proof (W3 _ _ _ H0 Hi Hl) as Hc.
    rewrite lookup_delete_ne; [done|]. intros E. rewrite <- E, W1 in Hc. injection Hc as <-. destruct (W2 _ _ H0) as [_ ?]. lia.
  - intros t t' l l' i i' Ht Ht' Hi Hi'. destruct (half_origin _ _ _ Ht Hi) as (t0 & H0 & -> & C), (half_origin _ _ _ Ht' Hi') as (t0' & H0' & -> & C').
    intros Hl Hl' E. destruct (W4 t0 t0' l l' i i' H0 H0' Hi Hi' Hl Hl' E) as [E1 E2]. split; [|done].
    destruct C as [[-> ->]|[-> ?]], C' as [[-> ->]|[-> ?]]; congruence.
Qed.

Lemma half_parent : pt_inv s3 root (delete new T) /\ forall va, leaf (words s3) 4 root va = leaf (words s2) 4 root va.
Proof.
  split.
  - pose proof HI as [H1 _ H3 H4]. split; rewrite ?Hf; [done|apply half_parent_wf| |]; intros t l [_ Ht]%lookup_delete_Some; [by apply (H3 t l)|by apply (H4 t l)].
  - intros va. apply (leaf_region (fun l t => T !! t = Some l /\ t <> new)); [| |split; [apply HW|done]].
    + intros l t [Ht Hn] Hl. split; [by apply (pw_child _ _ _ HW); [|apply vidx_range|]|]. by apply (Ho t (S l) _ Ht (vidx_range _ _)).
    + intros l t [Ht Hn]. by apply (half_entry t (S l)); [| |apply vidx_range].
Qed.

Lemma half_child : pt_inv s3 new (delete root T) /\
  forall va, leaf (words s3) 4 new va = if vidx 4 va <? 256 then leaf (words s2) 4 new va else leaf (words s2) 4 root va.
Proof.
  split.
  - pose proof HI as [H1 _ H3 H4]. split; rewrite ?Hf; [done|apply half_child_wf| |]; intros t l [_ Ht]%lookup_delete_Some; [by apply (H3 t l)|by apply (H4 t l)].
  - intros va. pose proof (vidx_range 4 va) as Hr.
    assert (Hsub : forall l t, T !! t = Some l -> t <> new -> leaf (words s3) l t va = leaf (words s2) l t va).
    { intros l t Ht Hn. apply (leaf_region (fun l t => T !! t = Some l /\ t <> new)); [| |done].
      - intros l' t' [Ht' Hn'] Hl. split; [by apply (pw_child _ _ _ HW); [|apply vidx_range|]|]. by apply (Ho t' (S l') _ Ht' (vidx_range _ _)).
      - intros l' t' [Ht' Hn']. by apply (half_entry t' (S l')); [| |apply vidx_range]. }
    assert (Hstep : forall t0, T !! t0 = Some 4%nat -> entry (words s3) new (vidx 4 va) = entry (words s2) t0 (vidx 4 va) ->
      leaf (words s3) 4 new va = leaf (words s2) 4 t0 va).
    { intros t0 H0 E. rewrite (leaf_S (words s3) 3 new va), (leaf_S (words s2) 3 t0 va), E. destruct (present _) eqn:Hp; [|done]. cbn [negb]. destruct (maps 4 _) eqn:Hm; [done|].
      assert (Hl : links 4 (entry (words s2) t0 (vidx 4 va)) = true) by (unfold links; by rewrite Hp, Hm).
      apply Hsub; [by apply (pw_child _ _ _ HW)|]. by apply (Ho t0 4%nat _ H0 Hr). }
    specialize (Hent (vidx 4 va) Hr). destruct (vidx 4 va <? 256); apply Hstep; try done. apply HW.
Qed.
End Half.

(** ** Frames that are not tables *)

Section Data.
Context {P : Type} `{!Frames P, !FramesLaws P}.
Implicit Types s : pg P.

(** A frame for data. *)
Lemma alloc_data s root tbl f s' : pt_inv s root tbl -> alloc_frame s = (Some f, s') ->
  pt_inv s' root tbl /\ words s' = words s /\ page f /\ f <> 0 /\ tbl !! f = None /\ fr_ref (frames s) f = 0 /\ fr_managed (frames s) f = true /\
  (forall q, fr_managed (frames s') q = fr_managed (frames s) q) /\
  forall q, page q -> fr_ref (frames s') q = if decide (q = f) then 1 else fr_ref (frames s) q.
Proof.
  intros HI E. destruct (alloc_frame_spec s root tbl _ s' HI E) as [Ew (Hok & Hpg & H0 & Hn & Hz & Hm & Hmg & Hr)]. split; [|done].
  destruct HI as [_ HW Href Hman]. split; [done|by rewrite Ew| |].
  - intros t l Ht. rewrite Hr by (by eapply (pw_page _ _ _ HW)). rewrite decide_False by congruence. by apply (Href t l).
  - intros t l Ht. rewrite Hmg. by apply (Hman t l).
Qed.

(** Writing to it. *)
Lemma write_data s s' root tbl f : pt_inv s root tbl -> page f -> tbl !! f = None -> frames s' = frames s ->
  (forall a, ~ in_page f a -> words s' !! a = words s !! a) ->
  pt_inv s' root tbl /\ (forall t l i, tbl !! t = Some l -> 0 <= i < 512 -> entry (words s') t i = entry (words s) t i) /\
  forall va, leaf (words s') 4 root va = leaf (words s) 4 root va.
Proof.
  intros [H1 HW H3 H4] Hf Hn Hfr Hw.
  assert (Hent : forall t l i, tbl !! t = Some l -> 0 <= i < 512 -> entry (words s') t i = entry (words s) t i).
  { intros t l i Ht Hi. apply entry_word, Hw. intros Ha. assert (t = f) as ->; [|congruence].
    apply (pages_disjoint t f (t + 8 * i)); [by eapply (pw_page _ _ _ HW)|done|by apply in_page_entry|done]. }
  assert (Hsame : forall t l i, tbl !! t = Some l -> 0 <= i < 512 -> same_entry l (entry (words s) t i) (entry (words s') t i)).
  { intros t l i Ht Hi. rewrite (Hent t l i Ht Hi). apply same_entry_refl. }
  split; [|split; [done|]].
  - split; rewrite ?Hfr; [done|by apply (pt_wf_same (words s))|done|done].
  - intros va. apply (leaf_same _ _ root tbl va HW Hsame). apply HW.
Qed.

(** Giving up a reference to it. *)
Lemma free_data s root tbl f : pt_inv s root tbl -> page f -> fr_managed (frames s) f = true -> 0 < fr_ref (frames s) f -> tbl !! f = None ->
  pt_inv (free_frame s f) root tbl /\ (forall q, fr_managed (frames (free_frame s f)) q = fr_managed (frames s) q) /\
  forall q, page q -> fr_ref (frames (free_frame s f)) q = if decide (q = f) then fr_ref (frames s) f - 1 else fr_ref (frames s) q.
Proof.
  intros [H1 HW H3 H4] Hf Hm Hr Hn. destruct (law_fr_free _ f H1 Hf Hm Hr) as (Hok & Hmg & Hq). split; [|done]. split; [done|done| |].
  - intros t l Ht. cbn [free_frame with_frames frames]. rewrite Hq by (by eapply (pw_page _ _ _ HW)). rewrite decide_False by congruence. by apply (H3 t l).
  - intros t l Ht. cbn [free_frame with_frames frames]. rewrite Hmg. by apply (H4 t l).
Qed.
End Data.
