(* ===== verification/ForkSpec.v ===== *)
(** * The steps of cloning an address space *)

From S2P Require Import Prelude PmmReclaim Vma Paging PagingInv PagingSpec AddrSpace ForkInv.

Section Steps.
Context {P : Type} `{!Frames P, !FramesLaws P}.
Context (sh : Z -> bool) (root : Z) (tbl : gmap Z nat).
Implicit Types s : pg P.
Implicit Types T : gmap Z nat.

Notation clones := (clones sh root tbl).

(** Frames are handed out without touching the tables. *)
Lemma clones_oom s T s' : pt_inv s root T -> pt_wf (words s) root tbl -> alloc_frame s = (None, s') ->
  clones s T s' T /\ forall q, page q -> fr_ref (frames s') q = fr_ref (frames s) q.
Proof.
  intros Hi Hw E. destruct (alloc_frame_spec s root T None s' Hi E) as [Ew Hg].
  assert (Hr : forall q, page q -> fr_ref (frames s') q = fr_ref (frames s) q).
  { intros q Hq. rewrite (gr_ref _ _ _ _ _ Hg q Hq), decide_False; [done|]. intros [? [? ?]]. congruence. }
  assert (Hm : forall q, fr_managed (frames s') q = fr_managed (frames s) q).
  { unfold alloc_frame in E. destruct (fr_alloc (frames s)) as [r p] eqn:Ea. injection E as -> <-.
    apply (law_fr_alloc _ _ _ (pi_frames _ _ _ Hi) Ea). }
  split; [|done]. split; try (rewrite Ew; done); try done; [apply Hg|congruence|intros q Hq; by rewrite Hr|congruence|rewrite Ew; by left].
Qed.

(** A new empty table. *)
Lemma clones_table s T new s1 l : pt_inv s root T -> pt_wf (words s) root tbl -> tbl ⊆ T -> (1 <= l <= 4)%nat -> alloc_frame s = (Some new, s1) ->
  let s2 := zero_entries 512 s1 new in
  clones s T s2 (<[new := l]> T) /\ page new /\ new <> 0 /\ T !! new = None /\ orphan (words s2) (<[new := l]> T) new /\
  (forall i, 0 <= i < 512 -> entry (words s2) new i = 0) /\
  (forall va, leaf (words s2) 4 root va = leaf (words s) 4 root va) /\
  (forall t l i, T !! t = Some l -> 0 <= i < 512 -> entry (words s2) t i = entry (words s) t i) /\
  (forall q, page q -> fr_ref (frames s2) q = if decide (q = new) then 1 else fr_ref (frames s) q).
Proof.
  intros Hi Hw Hsub Hl E s2. destruct (alloc_frame_spec s root T _ s1 Hi E) as [Ew (Hok & Hpg & Hn0 & Hfr & Href & Hmn & Hmg & Hq)].
  destruct (zero_entries_spec 512 s1 new) as (Ef & Hz & Ho). fold s2 in Ef, Hz, Ho. change (Z.of_nat 512) with 512 in *.
  pose proof (pi_wf _ _ _ Hi) as HW. pose proof (pw_page _ _ _ HW) as Hpt.
  assert (Hout : forall a, ~ in_page new a -> words s2 !! a = words s !! a).
  { intros a Ha. rewrite Ho, Ew; [done|]. intros i Hi' ->. apply Ha. by apply in_page_entry. }
  assert (Hent : forall t l i, T !! t = Some l -> 0 <= i < 512 -> entry (words s2) t i = entry (words s) t i).
  { intros t l' i Ht Hi'. apply entry_word, Hout. intros Ha. assert (t = new) as ->; [|congruence].
    apply (pages_disjoint t new (t + 8 * i)); [apply (Hpt t l' Ht)|done|by apply in_page_entry|done]. }
  assert (Hze : forall i, 0 <= i < 512 -> entry (words s2) new i = 0) by (intros i Hi'; unfold entry, word; by rewrite Hz).
  destruct (pt_wf_orphan (words s) (words s2) root T new l HW Hpg Hl Hfr Hent Hze) as [HW2 Horph].
  assert (Hlf : forall va, leaf (words s2) 4 root va = leaf (words s) 4 root va).
  { intros va. apply (leaf_same _ _ root T va HW); [|apply HW]. intros t l' i Ht Hi'. rewrite (Hent t l' i Ht Hi'). apply same_entry_refl. }
  split; [|done]. split.
  - split; [by rewrite Ef|done| |].
    + intros t l' [[<- <-]|[Hne Ht]]%lookup_insert_Some; rewrite Ef, Hq by (done || apply (Hpt t l' Ht)); [by rewrite decide_True|].
      rewrite decide_False by congruence. by apply (pi_ref _ _ _ Hi t l').
    + intros t l' [[<- <-]|[Hne Ht]]%lookup_insert_Some; rewrite Ef, Hmg; [done|]. by apply (pi_managed _ _ _ Hi t l').
  - apply (pt_wf_same (words s)); [done|]. intros t l' i Ht Hi'.
    rewrite (Hent t l' i (lookup_weaken _ _ _ _ Ht Hsub) Hi'). apply same_entry_refl.
  - by apply insert_subseteq.
  - intros t l' i Ht Hi'. rewrite (Hent t l' i (lookup_weaken _ _ _ _ Ht Hsub) Hi'). apply like_refl.
  - intros t l' a Ht Hn Ha. apply Hout. intros Ha'. assert (t = new) as ->; [|congruence]. by apply (pages_disjoint t new a); [apply (Hpt t l' Ht)| | |].
  - intros a Ha. apply Hout, (Ha new l). apply lookup_insert_eq.
  - intros q l' [[<- _]|[_ Ht]]%lookup_insert_Some; [done|congruence].
  - intros q Hpq. rewrite Ef, Hq by done. by destruct (decide _).
  - intros q. by rewrite Ef, Hmg.
  - intros t l' i [[<- <-]|[_ Ht]]%lookup_insert_Some Hn Hi' Hlk; [by rewrite Hze in Hlk|congruence].
  - intros va. left. apply Hlf.
Qed.

(** ** Filling in a new table *)

Section SetNew.
Context s T s' T' (new : Z) (l : nat) (i v : Z).
Context (Hsub : tbl ⊆ T) (Hc : clones s T s' T') (Hnew : T' !! new = Some l) (Hn : T !! new = None) (Hi : 0 <= i < 512).
Context (Hv : PagingInv.links l v = true -> T' !! Z.land v PAGE_MASK = Some (pred l) /\ T !! Z.land v PAGE_MASK = None /\
  orphan (words s') T' (Z.land v PAGE_MASK)).

Let HW : pt_wf (words s') root T' := pi_wf _ _ _ (cl_inv _ _ _ _ _ _ _ Hc).

Lemma set_new_entry t l' j : T' !! t = Some l' -> 0 <= j < 512 ->
  entry (words (set_entry s' new i v)) t j = if decide (t = new /\ j = i) then v else entry (words s') t j.
Proof.
  intros Ht Hj. rewrite words_set, entry_insert by (done || by eapply (pw_page _ _ _ HW)).
  destruct (decide (new = t /\ i = j)) as [[-> ->]|]; [by rewrite decide_True|]. rewrite decide_False; [done|naive_solver].
Qed.

Lemma new_not_parent : tbl !! new = None.
Proof. by eapply lookup_weaken_None. Qed.

Lemma parent_entry t l' j : tbl !! t = Some l' -> 0 <= j < 512 -> entry (words (set_entry s' new i v)) t j = entry (words s') t j.
Proof.
  intros Ht Hj. rewrite (set_new_entry t l' j); [|by eapply lookup_weaken, (cl_sub _ _ _ _ _ _ _ Hc); eapply lookup_weaken|done].
  rewrite decide_False; [done|]. intros [-> _]. pose proof new_not_parent. congruence.
Qed.

Lemma set_new_parent_leaf va : leaf (words (set_entry s' new i v)) 4 root va = leaf (words s') 4 root va.
Proof.
  pose proof (cl_wf _ _ _ _ _ _ _ Hc) as Hwf. apply (leaf_same _ _ root tbl va Hwf); [|apply Hwf].
  intros t l' j Ht Hj. rewrite (parent_entry t l' j Ht Hj). apply same_entry_refl.
Qed.

Lemma set_new_orphan : orphan (words s') T' new -> orphan (words (set_entry s' new i v)) T' new.
Proof.
  intros Ho t l' j Ht Hj. rewrite (set_new_entry t l' j Ht Hj). destruct (decide _) as [[-> ->]|]; [|by apply (Ho t l' j)].
  assert (l' = l) as -> by congruence. intros Hl E. destruct (Hv Hl) as (H1 & _). rewrite E, Hnew in H1. injection H1 as H1.
  pose proof (pw_page _ _ _ HW _ _ Hnew). lia.
Qed.

(** What the new table maps, when nothing points to it. *)
Lemma set_new_leaf va : orphan (words s') T' new -> vidx l va <> i ->
  leaf (words (set_entry s' new i v)) l new va = leaf (words s') l new va.
Proof.
  intros Ho Hne. apply (leaf_region (fun k t => T' !! t = Some k /\ (t = new -> k = l))); [| |done].
  - intros k t [Ht Hk] Hl. split; [by apply (pw_child _ _ _ HW); [|apply vidx_range|]|].
    intros E. exfalso. by apply (Ho t (S k) (vidx (S k) va) Ht (vidx_range _ _) Hl).
  - intros k t [Ht Hk]. rewrite (set_new_entry t (S k)) by (done || apply vidx_range). rewrite decide_False; [done|].
    intros [-> E]. by rewrite (Hk eq_refl) in E.
Qed.

Lemma set_new_subleaf k t va : orphan (words s') T' new -> T' !! t = Some k -> t <> new ->
  leaf (words (set_entry s' new i v)) k t va = leaf (words s') k t va.
Proof.
  intros Ho Ht Hne. apply (leaf_region (fun k t => T' !! t = Some k /\ t <> new)); [| |done].
  - intros k' t' [Ht' Hne'] Hl. split; [by apply (pw_child _ _ _ HW); [|apply vidx_range|]|].
    by apply (Ho t' (S k') (vidx (S k') va) Ht' (vidx_range _ _)).
  - intros k' t' [Ht' Hne']. rewrite (set_new_entry t' (S k')) by (done || apply vidx_range). rewrite decide_False; [done|]. naive_solver.
Qed.

Lemma clones_set_new : clones s T (set_entry s' new i v) T'.
Proof.
  pose proof Hc as [A1 A2 A3 A4 A5 A6 A7 AU A8 A9 A10]. split; try done.
  - destruct A1 as [B1 B2 B3 B4]. split; try done. apply (pt_wf_set _ _ _ _ l); [done|done|done|]. intros Hl. destruct (Hv Hl) as (? & _ & ?). done.
  - apply (pt_wf_same (words s')); [done|]. intros t l' j Ht Hj. rewrite (parent_entry t l' j Ht Hj). apply same_entry_refl.
  - intros t l' j Ht Hj. rewrite (parent_entry t l' j Ht Hj). by apply A4.
  - intros t l' a Ht Hb Ha. rewrite words_set, lookup_insert_ne; [by apply (A5 t l')|]. intros <-.
    assert (t = new) as ->; [|congruence]. pose proof (lookup_weaken _ _ _ _ Ht A3) as Ht'.
    apply (pages_disjoint t new (new + 8 * i)); [by eapply (pw_page _ _ _ HW)|by eapply (pw_page _ _ _ HW)|done|by apply in_page_entry].
  - intros a Ha. rewrite words_set, lookup_insert_ne; [by apply A6|]. intros <-. apply (Ha new l Hnew). by apply in_page_entry.
  - intros t l' j Ht Hnt Hj. rewrite (set_new_entry t l' j Ht Hj). destruct (decide _) as [[-> ->]|]; [|by apply A9].
    assert (l' = l) as -> by congruence. intros Hl. by apply Hv.
  - intros va. rewrite set_new_parent_leaf. apply A10.
Qed.

Lemma set_new_spec : orphan (words s') T' new ->
  let s2 := set_entry s' new i v in
  clones s T s2 T' /\ orphan (words s2) T' new /\
  (forall va, leaf (words s2) 4 root va = leaf (words s') 4 root va) /\
  (forall t l' j, T' !! t = Some l' -> 0 <= j < 512 -> entry (words s2) t j = if decide (t = new /\ j = i) then v else entry (words s') t j) /\
  (forall va, vidx l va <> i -> leaf (words s2) l new va = leaf (words s') l new va) /\
  (forall k t va, T' !! t = Some k -> t <> new -> leaf (words s2) k t va = leaf (words s') k t va) /\
  (forall t l' j, tbl !! t = Some l' -> 0 <= j < 512 -> entry (words s2) t j = entry (words s') t j).
Proof.
  intros Ho s2. split; [apply clones_set_new|]. split; [by apply set_new_orphan|]. split; [apply set_new_parent_leaf|].
  split; [apply set_new_entry|]. split; [intros va; by apply set_new_leaf|]. split; [intros k t va; by apply set_new_subleaf|apply parent_entry].
Qed.
End SetNew.

(** ** Sharing a page *)

Lemma leaf_at s va va' src : tab (words s) root va 3 = Some src -> present (read_entry s src (vidx 1 va)) = true -> vpn va' = vpn va ->
  leaf (words s) 4 root va' = Some (1%nat, read_entry s src (vidx 1 va)).
Proof.
  intros Ht Hp Hv. rewrite (leaf_vpn s root va' va Hv), (leaf_tab _ _ _ 3 src ltac:(lia) Ht). change (4 - 3)%nat with 1%nat. rewrite leaf_S.
  unfold read_entry in *. by rewrite Hp.
Qed.

Lemma page_va_vpn va va' : vpn va' = vpn va -> page_va va' = page_va va.
Proof. intros E. unfold page_va. by rewrite E. Qed.

Section Share.
Context s T (va src : Z).
Context (HI : pt_inv s root T) (Hw : pt_wf (words s) root tbl) (Hsub : tbl ⊆ T) (Ht : tab (words s) root va 3 = Some src).
Let e := read_entry s src (vidx 1 va).
Let M := fr_managed (frames s).
Let v := cow_entry sh M (page_va va) e.
Context (Hp : present e = true).

Lemma share_src : tbl !! src = Some 1%nat.
Proof. exact (tab_level _ _ _ va 3 src Hw ltac:(lia) Ht). Qed.

(** Taking the permission to write away. *)
Lemma clones_cow : let s' := set_entry s src (vidx 1 va) v in
  clones s T s' T /\
  (forall i, 0 <= i < 512 -> entry (words s') src i = if decide (i = vidx 1 va) then v else entry (words s) src i) /\
  (forall va', leaf (words s') 4 root va' = if decide (vpn va' = vpn va) then cow_leaf sh M va' (leaf (words s) 4 root va') else leaf (words s) 4 root va').
Proof.
  intros s'. pose proof (pi_wf _ _ _ HI) as HW. pose proof share_src as Hsrc. pose proof (cow_entry_like sh M (page_va va) e) as Hlike. fold v in Hlike.
  assert (Hent : forall t l i, T !! t = Some l -> 0 <= i < 512 ->
    entry (words s') t i = if decide (t = src /\ i = vidx 1 va) then v else entry (words s) t i).
  { intros t l i Ht' Hi. unfold s'.
    rewrite words_set, entry_insert by (done || apply vidx_range || apply (pw_page _ _ _ Hw _ _ Hsrc) || apply (pw_page _ _ _ HW _ _ Ht')).
    destruct (decide (src = t /\ vidx 1 va = i)) as [[-> ->]|]; [by rewrite decide_True|]. rewrite decide_False; [done|naive_solver]. }
  destruct (set_leaf_spec s root T va src v HI Ht) as [HI' Hl]. fold s' in HI', Hl.
  assert (Hw' : pt_wf (words s') root tbl) by (apply (pt_wf_set _ _ _ _ 1); [done|done|apply vidx_range|by rewrite links_1]).
  assert (Hleaf : forall va', leaf (words s') 4 root va' = if decide (vpn va' = vpn va) then cow_leaf sh M va' (leaf (words s) 4 root va') else leaf (words s) 4 root va').
  { intros va'. rewrite Hl. destruct (decide (vpn va = vpn va')) as [Hv|]; [rewrite decide_True by done|by rewrite decide_False by congruence].
    rewrite (leaf_at s va va' src Ht Hp) by done. cbn [cow_leaf]. rewrite (page_va_vpn va va') by done. fold e v. unfold entry_leaf.
    destruct Hlike as (-> & _). by rewrite Hp. }
  assert (Hout : forall a, ~ in_page src a -> words s' !! a = words s !! a).
  { intros a Ha. unfold s'. rewrite words_set, lookup_insert_ne; [done|]. intros <-. apply Ha, in_page_entry, vidx_range. }
  split; [|split; [|done]].
  - split; try done.
    + intros t l i Ht' Hi. rewrite (Hent t l i (lookup_weaken _ _ _ _ Ht' Hsub) Hi). destruct (decide _) as [[-> ->]|]; [|apply like_refl].
      assert (l = 1%nat) as -> by congruence. exact Hlike.
    + intros t l a Ht' Hn Ha. apply Hout. intros Ha'. assert (t = src) as ->; [|congruence].
      apply (pages_disjoint t src a); [apply (pw_page _ _ _ HW _ _ Ht')|apply (pw_page _ _ _ Hw _ _ Hsrc)|done|done].
    + intros a Ha. apply Hout, (Ha src 1%nat). by eapply lookup_weaken.
    + congruence.
    + congruence.
    + intros va'. rewrite Hleaf. destruct (decide _); [by right|by left].
  - intros i Hi. rewrite (Hent src 1%nat i (lookup_weaken _ _ _ _ Hsrc Hsub) Hi). destruct (decide (i = vidx 1 va)); [by rewrite decide_True|].
    rewrite decide_False; [done|naive_solver].
Qed.
End Share.

(** One more reference to a page of the user. *)
Lemma clones_incref s T f : pt_inv s root T -> pt_wf (words s) root tbl -> page f -> fr_managed (frames s) f = true ->
  0 < fr_ref (frames s) f < 65535 -> T !! f = None ->
  let s' := with_frames s (fr_incref (frames s) f) in
  clones s T s' T /\ forall q, page q -> fr_ref (frames s') q = fr_ref (frames s) q + if f =? q then 1 else 0.
Proof.
  intros HI Hw Hf Hm Hr Hn s'. destruct (law_fr_incref _ f (pi_frames _ _ _ HI) Hf Hm Hr) as (Hok & Hmg & Hq).
  assert (Hrq : forall q, page q -> fr_ref (frames s') q = fr_ref (frames s) q + if f =? q then 1 else 0).
  { intros q Hpq. unfold s'. cbn [frames with_frames]. rewrite Hq by done. destruct (decide (q = f)) as [->|Hne].
    - by rewrite Z.eqb_refl.
    - rewrite (proj2 (Z.eqb_neq f q)) by done. lia. }
  split; [|done]. pose proof (pi_wf _ _ _ HI) as HW. split; try done.
  - split; [done|done| |].
    + intros t l Ht. rewrite Hrq by (by eapply (pw_page _ _ _ HW)). rewrite (proj2 (Z.eqb_neq f t)) by congruence.
      rewrite (pi_ref _ _ _ HI t l Ht). lia.
    + intros t l Ht. unfold s'. cbn [frames with_frames]. rewrite Hmg. by apply (pi_managed _ _ _ HI t l).
  - congruence.
  - intros q Hpq. rewrite Hrq by done. destruct (Z.eqb_spec f q) as [<-|]; lia.
  - congruence.
  - intros va. by left.
Qed.

(** The parent's entry of a private page, after it is shared. *)
Lemma share_page_spec s T va src : pt_inv s root T -> pt_wf (words s) root tbl -> tbl ⊆ T -> tab (words s) root va 3 = Some src ->
  let e := read_entry s src (vidx 1 va) in
  let phys := Z.land e PAGE_MASK in
  let s' := share_page s src (vidx 1 va) in
  let M := fr_managed (frames s) in
  present e = true -> sh (page_va va) = false -> (M phys = true -> 0 < fr_ref (frames s) phys < 65535 /\ T !! phys = None) ->
  clones s T s' T /\
  (forall i, 0 <= i < 512 -> entry (words s') src i = if decide (i = vidx 1 va) then cow_entry sh M (page_va va) e else entry (words s) src i) /\
  (forall va', leaf (words s') 4 root va' = if decide (vpn va' = vpn va) then cow_leaf sh M va' (leaf (words s) 4 root va') else leaf (words s) 4 root va') /\
  (forall q, page q -> fr_ref (frames s') q = fr_ref (frames s) q + if M phys && (phys =? q) then 1 else 0).
Proof.
  intros HI Hw Hsub Ht e phys s' M Hp Hsh Hm.
  assert (Hkeep : cow_entry sh M (page_va va) e = e ->
    clones s T s T /\
    (forall i, 0 <= i < 512 -> entry (words s) src i = if decide (i = vidx 1 va) then cow_entry sh M (page_va va) e else entry (words s) src i) /\
    (forall va', leaf (words s) 4 root va' = if decide (vpn va' = vpn va) then cow_leaf sh M va' (leaf (words s) 4 root va') else leaf (words s) 4 root va')).
  { intros E. split; [by apply clones_refl|]. rewrite E. split; [intros i _; by destruct (decide _) as [->|]|].
    intros va'. destruct (decide _) as [Hv|]; [|done]. rewrite (leaf_at s va va' src Ht Hp Hv). cbn [cow_leaf].
    rewrite (page_va_vpn va va' Hv). fold e. by rewrite E. }
  unfold s', share_page. fold e phys M. destruct (M phys) eqn:Em.
  2:{ assert (cow_entry sh M (page_va va) e = e) as E by (unfold cow_entry; fold phys; by rewrite Em, orb_true_r).
      destruct (Hkeep E) as (H1 & H2 & H3). split; [done|]. split; [done|]. split; [done|]. intros q _. cbn [andb]. lia. }
  destruct (Hm eq_refl) as [Href Hn]. set (s1 := if set e PAGE_FLAG_RW then set_entry s src (vidx 1 va) (make_cow e) else s).
  assert (H1 : clones s T s1 T /\
    (forall i, 0 <= i < 512 -> entry (words s1) src i = if decide (i = vidx 1 va) then cow_entry sh M (page_va va) e else entry (words s) src i) /\
    (forall va', leaf (words s1) 4 root va' = if decide (vpn va' = vpn va) then cow_leaf sh M va' (leaf (words s) 4 root va') else leaf (words s) 4 root va')).
  { unfold s1. destruct (set e PAGE_FLAG_RW) eqn:Er.
    - pose proof (clones_cow s T va src HI Hw Hsub Ht Hp) as Hcow. fold e M in Hcow.
      assert (cow_entry sh M (page_va va) e = make_cow e) as E by (unfold cow_entry; fold phys; by rewrite Em, Hsh, Er).
      rewrite E in *. exact Hcow.
    - apply Hkeep. unfold cow_entry. by rewrite Er; destruct (_ || _). }
  destruct H1 as (H1 & H2 & H3). assert (Ef : frames s1 = frames s) by (unfold s1; by destruct (set e PAGE_FLAG_RW)).
  destruct (clones_incref s1 T phys (cl_inv _ _ _ _ _ _ _ H1) (cl_wf _ _ _ _ _ _ _ H1) (mask_page e)) as [H4 H5]; [by rewrite Ef|by rewrite Ef|done|].
  split; [by eapply clones_trans|]. split; [done|]. split; [done|]. intros q Hq. rewrite H5, Ef by done. done.
Qed.

(** The same for any page, shared ones being left alone. *)
Lemma clone_pte_spec s T va src : pt_inv s root T -> pt_wf (words s) root tbl -> tbl ⊆ T -> tab (words s) root va 3 = Some src ->
  let e := read_entry s src (vidx 1 va) in
  let phys := Z.land e PAGE_MASK in
  let s' := if sh (page_va va) then s else share_page s src (vidx 1 va) in
  let M := fr_managed (frames s) in
  present e = true -> (sh (page_va va) = false -> M phys = true -> 0 < fr_ref (frames s) phys < 65535 /\ T !! phys = None) ->
  clones s T s' T /\
  (forall i, 0 <= i < 512 -> entry (words s') src i = if decide (i = vidx 1 va) then cow_entry sh M (page_va va) e else entry (words s) src i) /\
  (forall va', leaf (words s') 4 root va' = if decide (vpn va' = vpn va) then cow_leaf sh M va' (leaf (words s) 4 root va') else leaf (words s) 4 root va') /\
  (forall q, page q -> fr_ref (frames s') q = fr_ref (frames s) q + if negb (sh (page_va va)) && M phys && (phys =? q) then 1 else 0).
Proof.
  intros HI Hw Hsub Ht e phys s' M Hp Hm. unfold s'. destruct (sh (page_va va)) eqn:Hsh; [|by apply share_page_spec; auto].
  assert (E : forall x, cow_entry sh M (page_va va) x = x) by (intros x; unfold cow_entry; by rewrite Hsh).
  split; [by apply clones_refl|]. split; [|split].
  - intros i _. rewrite E. by destruct (decide _) as [->|].
  - intros va'. destruct (decide _) as [Hv|]; [|done]. destruct (leaf _ _ _ _) as [[[|[|l]] x]|]; try done. cbn [cow_leaf].
    by rewrite (page_va_vpn va va' Hv), E.
  - intros q _. cbn [negb andb]. lia.
Qed.
End Steps.
