(* ===== verification/Fork.v ===== *)
(** * Cloning an address space

    The loops of [clone_table_vma] and [vmm_clone_user_mappings_vma], the clone of a
    table by induction on its level, and the clone of an address space. *)

From S2P Require Import Prelude PmmReclaim Vma Paging AddrSpace PagingInv PagingSpec ForkInv KernelHalf ForkSpec.

(** ** Loops that stop early *)

Lemma for_ok_ind {A} (I : Z -> A -> Prop) (F : A -> Prop) n i (f : Z -> A -> bool * A) a : I i a ->
  (forall j a, i <= j < i + Z.of_nat n -> I j a -> exists ok a', f j a = (ok, a') /\ if ok then I (j + 1) a' else F a') ->
  exists ok a', for_ok n i f a = (ok, a') /\ if ok then I (i + Z.of_nat n) a' else F a'.
Proof.
  revert i a. induction n as [|n IH]; intros i a Hi Hstep; cbn [for_ok].
  - exists true, a. split; [done|]. by replace (i + Z.of_nat 0) with i by lia.
  - destruct (Hstep i a ltac:(lia) Hi) as (ok & a1 & -> & H1). destruct ok; [|by exists false, a1].
    replace (i + Z.of_nat (S n)) with (i + 1 + Z.of_nat n) by lia. apply IH; [done|]. intros j a2 Hj. apply Hstep. lia.
Qed.

Fixpoint zsum (n : nat) (f : Z -> Z) : Z := match n with O => 0 | S n => zsum n f + f (Z.of_nat n) end.

Lemma zsum_ext n f g : (forall i, 0 <= i < Z.of_nat n -> f i = g i) -> zsum n f = zsum n g.
Proof. induction n as [|n IH]; intros H; [done|]. cbn [zsum]. rewrite IH, H by (lia || intros i Hi; apply H; lia). done. Qed.

Lemma zsum_nonneg n f : (forall i, 0 <= f i) -> 0 <= zsum n f.
Proof. intros H. induction n as [|n IH]; cbn [zsum]; [lia|]. specialize (H (Z.of_nat n)). lia. Qed.

Lemma zsum_le n n' f : (forall i, 0 <= f i) -> (n <= n')%nat -> zsum n f <= zsum n' f.
Proof. intros H. induction 1 as [|n' _ IH]; [lia|]. cbn [zsum]. specialize (H (Z.of_nat n')). lia. Qed.

Lemma zsum_pos n f : 0 < zsum n f -> exists i, 0 <= i < Z.of_nat n /\ 0 < f i.
Proof.
  induction n as [|n IH]; cbn [zsum]; [lia|]. intros H. destruct (Z.lt_ge_cases 0 (f (Z.of_nat n))) as [Hf|Hf]; [exists (Z.of_nat n); lia|].
  destruct IH as (i & Hi & Hp); [lia|]. exists i. split; [lia|done].
Qed.

Lemma zsum_S n f : zsum (S n) f = zsum n f + f (Z.of_nat n).
Proof. done. Qed.

#[local] Opaque zsum.

(** ** Addresses *)

(** The address of a table of level [l]: only the indices above are there. *)
Definition base_ok (l : nat) (base : Z) : Prop := forall n, 0 <= n -> n < 12 + 9 * Z.of_nat l \/ 48 <= n -> Z.testbit base n = false.

(** The address of the [i]-th entry of a table of level [S l]. *)
Definition child_base (l : nat) (base i : Z) : Z := Z.lor base (Z.shiftl i (12 + 9 * Z.of_nat l)).

Lemma child_testbit l base i n : 0 <= n -> Z.testbit (child_base l base i) n = Z.testbit base n || Z.testbit i (n - (12 + 9 * Z.of_nat l)).
Proof. intros Hn. unfold child_base. by rewrite Z.lor_spec, Z.shiftl_spec. Qed.

Lemma small_testbit i n : 0 <= i < 512 -> 9 <= n -> Z.testbit i n = false.
Proof. intros Hi Hn. by apply (testbit_high i 9). Qed.

Lemma child_base_idx l base i : base_ok (S l) base -> 0 <= i < 512 -> vidx (S l) (child_base l base i) = i.
Proof.
  intros Hb Hi. apply Z.bits_inj'. intros n Hn. destruct (Z.lt_ge_cases n 9) as [Hlt|Hge].
  - rewrite testbit_vidx, child_testbit, Hb by lia. cbn [orb]. f_equal. lia.
  - rewrite (small_testbit i n) by lia. apply (small_testbit _ n); [apply vidx_range|done].
Qed.

Lemma child_base_above l base i j : 0 <= i < 512 -> (S l < j)%nat -> vidx j (child_base l base i) = vidx j base.
Proof.
  intros Hi Hj. apply Z.bits_inj'. intros n Hn. destruct (Z.lt_ge_cases n 9) as [Hlt|Hge].
  - rewrite !testbit_vidx, child_testbit by lia. rewrite (small_testbit i) by lia. by rewrite orb_false_r.
  - rewrite !(small_testbit _ n); (done || apply vidx_range).
Qed.

Lemma child_base_ok l base i : base_ok (S l) base -> 0 <= i < 512 -> (l <= 3)%nat -> base_ok l (child_base l base i).
Proof.
  intros Hb Hi Hl n Hn Hc. rewrite child_testbit, Hb by lia. cbn [orb]. destruct Hc as [Hc|Hc]; [by rewrite Z.testbit_neg_r by lia|].
  apply small_testbit; lia.
Qed.

Lemma child_under l base i va : base_ok (S l) base -> (l <= 3)%nat -> 0 <= i < 512 ->
  same_upto (S l) (child_base l base i) va <-> same_upto (S (S l)) base va /\ vidx (S l) va = i.
Proof.
  intros Hb Hl Hi. split.
  - intros H. split; [|rewrite <- H by lia; by apply child_base_idx]. intros j Hj. rewrite <- H by lia. symmetry. apply child_base_above; (done || lia).
  - intros [H1 H2] j Hj. destruct (decide (j = S l)) as [->|]; [rewrite H2; by apply child_base_idx|].
    rewrite child_base_above by (done || lia). apply H1. lia.
Qed.

(** The page of a leaf. *)
Lemma page_va_base base va : base_ok 0 base -> same_upto 1 base va -> page_va va = base.
Proof.
  intros Hb Hv%same_upto_vpn. unfold page_va. rewrite <- Hv. apply Z.bits_inj'. intros n Hn. rewrite Z.shiftl_spec by done. unfold vpn.
  destruct (Z.lt_ge_cases n 12); [rewrite Z.testbit_neg_r, Hb by lia; done|]. rewrite Z.land_spec, Z.shiftr_spec by lia.
  replace (n - 12 + 12) with n by lia. destruct (Z.lt_ge_cases n 48); [by rewrite Z.ones_spec_low, andb_true_r by lia|].
  by rewrite Hb by lia.
Qed.

Lemma redirect_spec l f e : page f ->
  present (redirect f e) = present e /\ user (redirect f e) = user e /\ links l (redirect f e) = links l e /\ Z.land (redirect f e) PAGE_MASK = f.
Proof.
  intros Hf. assert (Hlow : forall n, 0 <= n < 12 -> Z.testbit (redirect f e) n = Z.testbit e n).
  { intros n Hn. unfold redirect. rewrite Z.lor_spec, !Z.land_spec, Z.lnot_spec, mask_testbit by lia.
    rewrite (proj2 (Z.leb_gt 12 n)) by lia. cbn [andb negb]. by rewrite andb_false_r, andb_true_r. }
  unfold user, PagingInv.links, maps, PAGE_FLAG_USER. rewrite !present_testbit, !ps_testbit, !land_pow2_testbit, !Hlow by lia.
  split; [done|]. split; [done|]. split; [done|]. apply Z.bits_inj'. intros n Hn. unfold redirect.
  rewrite Z.land_spec, Z.lor_spec, !Z.land_spec, Z.lnot_spec by done. destruct (Z.testbit PAGE_MASK n) eqn:Em; cbn [negb].
  - by rewrite !andb_true_r, andb_false_r, orb_false_r.
  - rewrite !andb_false_r. rewrite mask_testbit in Em by done. symmetry. apply page_testbit; [done|done|].
    destruct (Z.leb_spec 12 n); [|lia]. cbn [andb] in Em. apply Z.ltb_ge in Em. lia.
Qed.

(** ** The references that cloning adds *)

Section Refs.
Context (sh M : Z -> bool).

(** How often the pages below the [i]-th entry of a table of level [S l] refer to a
    private frame. *)
Fixpoint ref_at (l : nat) (m : gmap Z Z) (t base q i : Z) : Z :=
  let e := entry m t i in
  match l with
  | O =>
      if present e && user e && negb (sh (child_base 0 base i)) && M (Z.land e PAGE_MASK) && (Z.land e PAGE_MASK =? q) then 1 else 0
  | S l' =>
      if links (S l) e && user e then zsum 512 (ref_at l' m (Z.land e PAGE_MASK) (child_base l base i) q) else 0
  end.

Definition refs (n : nat) (l : nat) (m : gmap Z Z) (t base q : Z) : Z := zsum n (ref_at l m t base q).

Lemma ref_at_S l m t base q i : ref_at (S l) m t base q i =
  if links (S (S l)) (entry m t i) && user (entry m t i) then refs 512 l m (Z.land (entry m t i) PAGE_MASK) (child_base (S l) base i) q else 0.
Proof. unfold refs. reflexivity. Qed.

Lemma ref_at_nonneg l m t base q i : 0 <= ref_at l m t base q i.
Proof.
  revert t base i. induction l as [|l IH]; intros t base i; [cbn; by destruct (_ && _)|]. rewrite ref_at_S.
  destruct (_ && _); [|lia]. by apply zsum_nonneg.
Qed.

Lemma refs_S n l m t base q : refs (S n) l m t base q = refs n l m t base q + ref_at l m t base q (Z.of_nat n).
Proof. apply zsum_S. Qed.

Lemma refs_le n n' l m t base q : (n <= n')%nat -> refs n l m t base q <= refs n' l m t base q.
Proof. apply zsum_le. intros i. apply ref_at_nonneg. Qed.

Lemma refs_nonneg n l m t base q : 0 <= refs n l m t base q.
Proof. apply zsum_nonneg. intros i. apply ref_at_nonneg. Qed.

Lemma ref_at_page l m t base q i : 0 < ref_at l m t base q i -> page q.
Proof.
  revert t base i. induction l as [|l IH]; intros t base i.
  - cbn [ref_at]. destruct (_ && _) eqn:E; [|lia]. apply andb_true_iff in E as [_ <-%Z.eqb_eq]. intros _. apply mask_page.
  - rewrite ref_at_S. destruct (_ && _); [|lia]. intros (j & _ & Hj)%zsum_pos. by eapply IH.
Qed.

Lemma ref_at_like m m' root tbl q : pt_wf m root tbl ->
  (forall t l i, tbl !! t = Some l -> 0 <= i < 512 -> like l (entry m t i) (entry m' t i)) ->
  forall l t base i, tbl !! t = Some (S l) -> 0 <= i < 512 -> ref_at l m' t base q i = ref_at l m t base q i.
Proof.
  intros Hwf Hlike. induction l as [|l IH]; intros t base i Ht Hi.
  - cbn [ref_at]. by destruct (Hlike t 1%nat i Ht Hi) as (-> & -> & _ & ->).
  - rewrite !ref_at_S. destruct (Hlike t _ i Ht Hi) as (_ & -> & -> & ->). destruct (links _ _ && _) eqn:E; [|done].
    apply andb_true_iff in E as [E _]. apply zsum_ext. intros j Hj. apply IH; [|lia]. by apply (pw_child _ _ _ Hwf).
Qed.
End Refs.

(** ** The loop *)

Section Loop.
Context {P : Type} `{!Frames P, !FramesLaws P}.
Context (sh : Z -> bool) (root : Z) (tbl : gmap Z nat).
Implicit Types s : pg P.
Implicit Types T : gmap Z nat.

Notation clones := (clones sh root tbl).
Notation cow M va r := (cow_leaf sh M va r).

(** No entry of the parent that the user may use maps a huge page. *)
Definition user_linked (m : gmap Z Z) : Prop :=
  forall t l i, tbl !! t = Some l -> (2 <= l)%nat -> 0 <= i < 512 -> present (entry m t i) = true -> user (entry m t i) = true ->
    links l (entry m t i) = true.

(** The address lies below the first [n] entries of the table at [base]. *)
Definition below (l : nat) (n base va : Z) : bool := bool_decide (same_upto (S (S l)) base va) && (vidx (S l) va <? n).

(** A table of level [S l] of the parent of which [n] entries are to be cloned. *)
Record source (n : nat) (l : nat) s T (src base : Z) : Prop := {
  so_inv : pt_inv s root T;
  so_wf : pt_wf (words s) root tbl;
  so_sub : tbl ⊆ T;
  so_huge : user_linked (words s);
  so_level : (l <= 3)%nat;
  so_n : (n <= 512)%nat;
  so_tab : tab (words s) root base (3 - l) = Some src;
  so_upath : forall va, same_upto (S (S l)) base va -> upath (words s) 4 root va = upath (words s) (S l) src va;
  so_base : base_ok (S l) base;
  so_data : forall q, 0 < refs sh (fr_managed (frames s)) n l (words s) src base q ->
    T !! q = None /\ 0 < fr_ref (frames s) q /\ fr_ref (frames s) q + refs sh (fr_managed (frames s)) n l (words s) src base q <= 65535;
}.

(** The first [n] entries are cloned into the table [new]. *)
Record cloned (n : nat) (l : nat) s T (src base new : Z) s' T' : Prop := {
  cd_clones : clones s T s' T';
  cd_new : T' !! new = Some (S l) /\ T !! new = None;
  cd_orphan : orphan (words s') T' new;
  cd_leaf : forall va, leaf (words s') 4 root va =
    if below l (Z.of_nat n) base va && upath (words s) 4 root va then cow (fr_managed (frames s)) va (leaf (words s) 4 root va)
    else leaf (words s) 4 root va;
  cd_ref : forall q, page q -> fr_ref (frames s') q =
    if decide (T !! q = None /\ is_Some (T' !! q)) then 1
    else fr_ref (frames s) q + refs sh (fr_managed (frames s)) n l (words s) src base q;
  cd_child : forall va, below l (Z.of_nat n) base va = true -> leaf (words s') (S l) new va =
    if upath (words s) (S l) src va then cow (fr_managed (frames s)) va (leaf (words s) (S l) src va) else None;
  cd_zero : forall i, Z.of_nat n <= i < 512 -> entry (words s') new i = 0;
  cd_rest : l = O -> forall i, Z.of_nat n <= i < 512 -> entry (words s') src i = entry (words s) src i;
}.

Lemma source_level n l s T src base : source n l s T src base -> tbl !! src = Some (S l).
Proof.
  intros H. pose proof (so_level _ _ _ _ _ _ H). replace (S l) with (4 - (3 - l))%nat by lia.
  apply (tab_level (words s) root tbl base); [apply H|lia|apply H].
Qed.

Lemma source_leaf n l s T src base va : source n l s T src base -> same_upto (S (S l)) base va ->
  tab (words s) root va (3 - l) = Some src /\ leaf (words s) 4 root va = leaf (words s) (S l) src va.
Proof.
  intros H Hv. pose proof (so_level _ _ _ _ _ _ H). assert (Ht : tab (words s) root va (3 - l) = Some src).
  { rewrite <- (so_tab _ _ _ _ _ _ H). symmetry. apply tab_ext; [lia|]. intros j Hj. apply Hv. lia. }
  split; [done|]. rewrite (leaf_tab _ _ _ (3 - l) src ltac:(lia) Ht). by replace (4 - (3 - l))%nat with (S l) by lia.
Qed.

Lemma below_true l n base va : below l n base va = true <-> same_upto (S (S l)) base va /\ vidx (S l) va < n.
Proof. unfold below. by rewrite andb_true_iff, bool_decide_eq_true, Z.ltb_lt. Qed.

Lemma below_S l n base va : below l (Z.of_nat (S n)) base va = true <->
  below l (Z.of_nat n) base va = true \/ (same_upto (S (S l)) base va /\ vidx (S l) va = Z.of_nat n).
Proof. rewrite !below_true. split; [intros [H1 H2]|intros [[H1 H2]|[H1 H2]]; split; (done || lia)]. destruct (decide (vidx (S l) va = Z.of_nat n)); [by right|left; split; [done|lia]]. Qed.

(** How the parent's mappings change with one more entry. *)
Lemma below_leaf_S (A : Type) (x y : A) l n base va (u : bool) :
  (if below l (Z.of_nat (S n)) base va && u then x else y) =
  if below l (Z.of_nat n) base va && u then x
  else if bool_decide (same_upto (S (S l)) base va) && (vidx (S l) va =? Z.of_nat n) && u then x else y.
Proof.
  destruct (below l (Z.of_nat n) base va) eqn:Eb; cbn [andb].
  - rewrite (proj2 (below_S l n base va)) by (by left). cbn [andb]. by destruct u; [|destruct (_ && false) eqn:E; [by rewrite andb_false_r in E|]].
  - destruct (below l (Z.of_nat (S n)) base va) eqn:Es.
    + apply below_S in Es as [?|[H1 H2]]; [congruence|]. by rewrite bool_decide_true, (proj2 (Z.eqb_eq _ _) H2).
    + destruct (bool_decide _ && (vidx (S l) va =? Z.of_nat n)) eqn:E; [|done]. apply andb_true_iff in E as [E1%bool_decide_eq_true E2%Z.eqb_eq].
      rewrite (proj2 (below_S l n base va)) in Es by (by right). done.
Qed.

(** ** Entries that are not cloned *)

Lemma skip_leaf m l src va : present (entry m src (vidx (S l) va)) && user (entry m src (vidx (S l) va)) = false ->
  upath m (S l) src va = true -> leaf m (S l) src va = None.
Proof.
  intros E. rewrite upath_S, leaf_S. destruct (present _); [|done]. cbn [andb] in E. by rewrite E.
Qed.

Lemma skip_ref sh' M l m t base q i : present (entry m t i) && user (entry m t i) = false -> ref_at sh' M l m t base q i = 0.
Proof.
  intros E. destruct l as [|l]; [cbn [ref_at]; by rewrite E|]. rewrite ref_at_S. unfold links.
  destruct (present _); [|done]. cbn [andb] in E. by rewrite E, andb_false_r.
Qed.

Lemma cloned_skip N n l s T src base new s' T' : source N l s T src base -> (n < 512)%nat -> cloned n l s T src base new s' T' ->
  present (entry (words s) src (Z.of_nat n)) && user (entry (words s) src (Z.of_nat n)) = false ->
  cloned (S n) l s T src base new s' T'.
Proof.
  intros Hs Hn [C1 C2 C3 C4 C5 C6 C7 C8] Hskip. split; try done.
  - intros va. rewrite C4, below_leaf_S. destruct (below _ _ _ _ && _); [done|].
    destruct (_ && upath (words s) 4 root va) eqn:E; [|done]. apply andb_true_iff in E as [[E1%bool_decide_eq_true E2%Z.eqb_eq]%andb_true_iff E3].
    rewrite (so_upath _ _ _ _ _ _ Hs va E1) in E3. destruct (source_leaf _ _ _ _ _ _ va Hs E1) as [_ ->].
    by rewrite (skip_leaf _ l src va) by (by rewrite ?E2).
  - intros q Hq. rewrite C5 by done. rewrite refs_S, skip_ref by done. by rewrite Z.add_0_r.
  - intros va [Hb|[E1 E2]]%below_S; [by apply C6|]. rewrite leaf_S, E2, C7 by lia. cbn [present negb].
    destruct (upath _ _ _ _) eqn:E3; [|done]. by rewrite (skip_leaf _ l src va) by (by rewrite ?E2).
  - intros i Hi. apply C7. lia.
  - intros -> i Hi. apply C8; [done|lia].
Qed.

(** Frames that the next entry refers to. *)
Lemma cloned_data N n l s T src base new s' T' q : source N l s T src base -> (n < N)%nat -> cloned n l s T src base new s' T' ->
  let r := ref_at sh (fr_managed (frames s)) l (words s) src base q (Z.of_nat n) in
  0 < r -> T' !! q = None /\ 0 < fr_ref (frames s') q /\ fr_ref (frames s') q + r <= 65535.
Proof.
  intros Hs Hn Hc r Hr. pose proof (ref_at_page _ _ _ _ _ _ _ _ Hr) as Hq.
  pose proof (refs_le sh (fr_managed (frames s)) (S n) N l (words s) src base q Hn) as Hle. rewrite refs_S in Hle. fold r in Hle.
  pose proof (refs_nonneg sh (fr_managed (frames s)) n l (words s) src base q) as H0.
  destruct (so_data _ _ _ _ _ _ Hs q) as (Hnone & Hpos & Hmax); [lia|].
  assert (T' !! q = None) as Hn'.
  { destruct (T' !! q) as [l'|] eqn:E; [|done]. pose proof (cl_fresh _ _ _ _ _ _ _ (cd_clones _ _ _ _ _ _ _ _ _ Hc) q l' E Hnone). lia. }
  split; [done|]. rewrite (cd_ref _ _ _ _ _ _ _ _ _ Hc q Hq), decide_False by (intros [_ [? ?]]; congruence). lia.
Qed.

(** ** Entries of pages *)

(** The body of the loop of a table of pages. *)
Definition clone_pte s (src base new i : Z) : pg P :=
  let s := if sh (child_base 0 base i) then s else share_page s src i in
  set_entry s new i (read_entry s src i).

Lemma under_pte base i va : base_ok 1 base -> 0 <= i < 512 ->
  vpn va = vpn (child_base 0 base i) <-> same_upto 2 base va /\ vidx 1 va = i.
Proof. intros Hb Hi. rewrite <- (child_under 0 base i va) by (done || lia). rewrite same_upto_vpn. by split; symmetry. Qed.

Section Pte.
Context (N n : nat) s T (src base new : Z) s' T'.
Context (Hs : source N 0 s T src base) (Hn : (n < N)%nat) (Hc : cloned n 0 s T src base new s' T').
Let i := Z.of_nat n.
Let e := entry (words s) src i.
Let M := fr_managed (frames s).
Let va0 := child_base 0 base i.
Context (Hp : present e = true) (Hu : user e = true).

Lemma pte_range : 0 <= i < 512.
Proof. pose proof (so_n _ _ _ _ _ _ Hs). unfold i. lia. Qed.

Lemma pte_va : vidx 1 va0 = i /\ page_va va0 = va0.
Proof.
  pose proof pte_range as Hi. pose proof (so_base _ _ _ _ _ _ Hs) as Hb. split; [by apply child_base_idx|].
  apply page_va_base; [|done]. apply child_base_ok; (done || lia).
Qed.

Lemma pte_ref q : ref_at sh M 0 (words s) src base q i = if negb (sh va0) && M (Z.land e PAGE_MASK) && (Z.land e PAGE_MASK =? q) then 1 else 0.
Proof. cbn [ref_at]. fold e va0. by rewrite Hp, Hu. Qed.

Lemma pte_step : let s1 := if sh va0 then s' else share_page s' src i in
  clones s' T' s1 T' /\ entry (words s1) src i = cow_entry sh M va0 e /\
  (forall j, 0 <= j < 512 -> j <> i -> entry (words s1) src j = entry (words s') src j) /\
  (forall va, leaf (words s1) 4 root va = if decide (vpn va = vpn va0) then cow M va (leaf (words s') 4 root va) else leaf (words s') 4 root va) /\
  (forall q, page q -> fr_ref (frames s1) q = fr_ref (frames s') q + ref_at sh M 0 (words s) src base q i).
Proof.
  intros s1. pose proof pte_range as Hi. destruct pte_va as [Hv Hpv]. destruct Hc as [C1 C2 C3 C4 C5 C6 C7 C8].
  assert (Ee : entry (words s') src i = e) by (apply C8; [done|]; split; [unfold i; lia|apply Hi]).
  assert (Ht : tab (words s') root va0 3 = Some src).
  { rewrite (tab_like (words s) (words s') root tbl va0 (so_wf _ _ _ _ _ _ Hs) (cl_like _ _ _ _ _ _ _ C1)) by lia.
    apply (source_leaf _ _ _ _ _ _ va0 Hs). by apply (under_pte base i va0 (so_base _ _ _ _ _ _ Hs) Hi). }
  assert (HM : forall q, fr_managed (frames s') q = M q) by apply C1.
  pose proof (clone_pte_spec sh root tbl s' T' va0 src (cl_inv _ _ _ _ _ _ _ C1) (cl_wf _ _ _ _ _ _ _ C1)
    ltac:(etrans; [apply Hs|apply C1]) Ht) as Hspec. cbv zeta in Hspec. unfold read_entry in Hspec. rewrite Hv, Hpv, Ee, HM in Hspec. fold s1 in Hspec.
  destruct (Hspec Hp) as (H1 & H2 & H3 & H4).
  { intros Hsh Hm. pose proof (cloned_data N n 0 s T src base new s' T' (Z.land e PAGE_MASK) Hs Hn Hc) as Hd. cbv zeta in Hd.
    fold M i in Hd. rewrite pte_ref, Hsh, Hm, Z.eqb_refl in Hd. cbn [negb andb] in Hd. destruct (Hd eq_refl) as (? & ? & ?). split; [lia|done]. }
  split; [done|]. split; [rewrite H2, decide_True by done; unfold cow_entry; by rewrite HM|].
  split; [intros j Hj Hne; by rewrite H2, decide_False by done|]. split.
  - intros va. rewrite H3. destruct (decide _); [by apply cow_leaf_ext|done].
  - intros q Hq. rewrite H4 by done. by rewrite pte_ref.
Qed.

Lemma cloned_pte : cloned (S n) 0 s T src base new (clone_pte s' src base new i) T'.
Proof.
  pose proof pte_range as Hi. pose proof pte_step as Hst. cbv zeta in Hst. unfold clone_pte. fold va0. set (s1 := if sh va0 then s' else _) in *.
  destruct Hst as (H1 & H2 & H3 & H4 & H5). unfold read_entry. rewrite H2. set (v := cow_entry sh M va0 e) in *.
  pose proof Hc as [C1 [C2 C2'] C3 C4 C5 C6 C7 C8]. pose proof (so_sub _ _ _ _ _ _ Hs) as Hsub. pose proof (so_base _ _ _ _ _ _ Hs) as Hb.
  pose proof (clones_trans _ _ _ _ _ _ _ _ _ Hsub C1 H1) as C1'.
  assert (Hl1 : links 1 v = true -> T' !! Z.land v PAGE_MASK = Some 0%nat /\ T !! Z.land v PAGE_MASK = None /\ orphan (words s1) T' (Z.land v PAGE_MASK))
    by (by rewrite links_1).
  pose proof (clones_orphan _ _ _ _ _ _ _ _ _ ltac:(etrans; [exact Hsub|apply C1]) H1 C2 C3) as C3'.
  assert (Hsnew : src <> new) by (intros ->; pose proof (source_level _ _ _ _ _ _ Hs) as Hl; rewrite (lookup_weaken _ _ _ _ Hl Hsub) in C2'; done).
  assert (Hup : forall va, same_upto 2 base va -> vidx 1 va = i -> upath (words s) 1 src va = true /\ leaf (words s) 1 src va = Some (1%nat, e)).
  { intros va Hv E. rewrite upath_S, leaf_S, E, links_1. fold e. by rewrite Hu, Hp. }
  destruct (set_new_spec _ _ _ s T s1 T' new 1 i v Hsub C1' C2 C2' Hi Hl1 C3') as (D1 & D2 & D3 & D4 & D5 & _ & D7).
  split; try done.
  - intros va. rewrite D3, H4, below_leaf_S. fold M i. destruct (decide (vpn va = vpn va0)) as [Hv|Hv]; rewrite C4; fold M i.
    + apply under_pte in Hv as [Hv1 Hv2]; [|done|done]. unfold below. rewrite Hv2, Z.ltb_irrefl, andb_false_r. cbn [andb].
      rewrite bool_decide_true, Z.eqb_refl by done. cbn [andb]. rewrite (so_upath _ _ _ _ _ _ Hs va Hv1).
      by destruct (Hup va Hv1 Hv2) as [-> _].
    + destruct (_ && upath _ _ _ _); [done|]. destruct (bool_decide _ && (_ =? i)) eqn:E; [|done]. exfalso. apply Hv.
      apply andb_true_iff in E as [E1%bool_decide_eq_true E2%Z.eqb_eq]. by apply under_pte.
  - intros q Hq. change (frames (set_entry s1 new i v)) with (frames s1). rewrite H5, C5 by done. fold M.
    destruct (decide (T !! q = None /\ is_Some (T' !! q))) as [[Hq1 [l' Hq2]]|]; [|rewrite refs_S; fold i; lia].
    pose proof (ref_at_nonneg sh M 0 (words s) src base q i).
    destruct (Z.lt_ge_cases 0 (ref_at sh M 0 (words s) src base q i)) as [Hr|]; [|lia].
    destruct (cloned_data N n 0 s T src base new s' T' q Hs Hn Hc Hr) as [? _]. congruence.
  - intros va [Hbl|[Hv1 Hv2]]%below_S.
    + rewrite D5 by (apply below_true in Hbl as [_ ?]; unfold i; lia).
      rewrite (clones_leaf_new _ _ _ s T s' T' s1 T' 1 new va Hsub C1 H1 C2 C2'). by apply C6.
    + rewrite leaf_S, (D4 new 1%nat _ C2) by apply vidx_range.
      fold i in Hv2. rewrite Hv2, decide_True by done. destruct (Hup va Hv1 Hv2) as [-> ->]. cbn [cow_leaf]. fold M.
      rewrite (page_va_vpn va0 va) by (by apply under_pte). destruct pte_va as [_ ->]. fold v.
      destruct (cow_entry_like sh M va0 e) as (Ep & _). fold v in Ep. by rewrite Ep, Hp.
  - intros j Hj. rewrite (D4 new 1%nat j C2) by lia. rewrite decide_False by (unfold i; lia).
    rewrite (clones_entry _ _ _ s' T' s1 T' new 1 j H1 C2) by (lia || by eapply lookup_weaken_None). apply C7. lia.
  - intros _ j Hj. pose proof (source_level _ _ _ _ _ _ Hs) as Hlev. rewrite (D7 src 1%nat j Hlev) by lia.
    rewrite H3 by (unfold i; lia). apply C8; [done|lia].
Qed.
End Pte.

(** ** Entries of tables *)

Section Inter.
Context (N n k : nat) s T (src base new : Z) s' T'.
Context (Hs : source N (S k) s T src base) (Hn : (n < N)%nat) (Hc : cloned n (S k) s T src base new s' T').
Let i := Z.of_nat n.
Let e := entry (words s) src i.
Let M := fr_managed (frames s).
Let c := Z.land e PAGE_MASK.
Let basei := child_base (S k) base i.
Context (Hp : present e = true) (Hu : user e = true).

Lemma inter_range : 0 <= i < 512 /\ (k <= 2)%nat.
Proof. pose proof (so_n _ _ _ _ _ _ Hs). pose proof (so_level _ _ _ _ _ _ Hs). unfold i. lia. Qed.

Lemma inter_links : links (S (S k)) e = true.
Proof. apply (so_huge _ _ _ _ _ _ Hs src); [by eapply source_level|lia|apply inter_range|done|done]. Qed.

Lemma inter_child : tbl !! c = Some (S k).
Proof. apply (pw_child _ _ _ (so_wf _ _ _ _ _ _ Hs) src); [by eapply source_level|apply inter_range|apply inter_links]. Qed.

Lemma inter_under va : same_upto (S (S k)) basei va <-> same_upto (S (S (S k))) base va /\ vidx (S (S k)) va = i.
Proof. destruct inter_range as [Hi Hk]. apply (child_under (S k)); [apply Hs|lia|done]. Qed.

Lemma inter_ref q : ref_at sh M (S k) (words s) src base q i = refs sh M 512 k (words s) c basei q.
Proof. rewrite ref_at_S. fold e. by rewrite inter_links, Hu. Qed.

(** The way to a page of the child. *)
Lemma inter_path va : same_upto (S (S k)) basei va ->
  upath (words s) (S (S k)) src va = upath (words s) (S k) c va /\ leaf (words s) (S (S k)) src va = leaf (words s) (S k) c va.
Proof.
  intros [_ Hv]%inter_under. rewrite upath_S, leaf_S, Hv. fold e. rewrite inter_links, Hu, Hp. cbn [andb negb].
  pose proof inter_links as Hl. unfold links in Hl. apply andb_true_iff in Hl as [_ Hm]. by destruct (maps _ e).
Qed.

Lemma refs_same m' q : (forall t l i, tbl !! t = Some l -> 0 <= i < 512 -> like l (entry (words s) t i) (entry m' t i)) ->
  refs sh M 512 k m' c basei q = refs sh M 512 k (words s) c basei q.
Proof.
  intros Hlike. apply zsum_ext. intros j Hj. apply (ref_at_like sh M (words s) m' root tbl q (so_wf _ _ _ _ _ _ Hs) Hlike); [apply inter_child|lia].
Qed.

Lemma refs_managed (M' : Z -> bool) m q : (forall q, M' q = M q) -> refs sh M' 512 k m c basei q = refs sh M 512 k m c basei q.
Proof.
  intros HM. apply zsum_ext. intros j _. generalize c basei j. clear -HM. induction k as [|k' IH]; intros t base j.
  - cbn [ref_at]. by rewrite HM.
  - rewrite !ref_at_S. destruct (_ && _); [|done]. apply zsum_ext. intros j' _. apply IH.
Qed.

Lemma inter_source : source 512 k s' T' c basei.
Proof.
  destruct inter_range as [Hi Hk]. pose proof Hs as [S1 S2 S3 S4 S5 S6 S7 S8 S9 S10]. pose proof Hc as [C1 C2 C3 C4 C5 C6 C7 C8].
  pose proof (cl_like _ _ _ _ _ _ _ C1) as Hlike. assert (HM : forall q, fr_managed (frames s') q = M q) by apply C1.
  split; [apply C1|apply C1|etrans; [apply S3|apply C1]| |lia|lia| | |apply (child_base_ok (S k)); [done|done|lia]|].
  - intros t l j Ht Hl Hj. destruct (Hlike t l j Ht Hj) as (-> & -> & -> & _). by apply S4.
  - rewrite (tab_like (words s) (words s') root tbl basei S2 Hlike) by lia. replace (3 - k)%nat with (S (3 - S k)) by lia.
    destruct (proj1 (inter_under basei) ltac:(done)) as [Hu1 Hu2].
    rewrite (tab_next _ _ _ (3 - S k) src (S (S k))); [by rewrite Hu2|apply (source_leaf _ _ _ _ _ _ basei Hs Hu1)|lia|rewrite Hu2; apply inter_links].
  - intros va Hv. pose proof (upath_like (words s) (words s') root tbl va S2 Hlike) as Hup.
    rewrite (Hup 4%nat root (pw_root _ _ _ S2)), (Hup (S k) c inter_child). pose proof (proj1 (inter_under va) Hv) as [Hv1 _].
    rewrite (S8 va Hv1). apply (inter_path va Hv).
  - intros q. rewrite (refs_managed _ _ _ HM), refs_same, <- inter_ref by done. intros Hr.
    by apply (cloned_data N n (S k) s T src base new s' T' q Hs Hn Hc).
Qed.

Context (child : Z) s2 T2 (Hd : cloned 512 k s' T' c basei child s2 T2).
Let v := redirect child (read_entry s2 src i).

Lemma inter_entry : links (S (S k)) v = true /\ present v = true /\ Z.land v PAGE_MASK = child.
Proof.
  pose proof Hd as [D1 [D2 _] _ _ _ _ _ _]. pose proof Hc as [C1 _ _ _ _ _ _ _].
  assert (Hpg : page child) by apply (pw_page _ _ _ (pi_wf _ _ _ (cl_inv _ _ _ _ _ _ _ D1)) _ _ D2).
  pose proof (clones_trans _ _ _ _ _ _ _ _ _ (so_sub _ _ _ _ _ _ Hs) C1 D1) as CD.
  destruct (cl_like _ _ _ _ _ _ _ CD src (S (S k)) i ltac:(by eapply source_level) (proj1 inter_range)) as (Ep & _ & El & _). fold e in Ep, El.
  destruct (redirect_spec (S (S k)) child (read_entry s2 src i) Hpg) as (Rp & _ & Rl & Rm). fold v in Rp, Rl, Rm. unfold read_entry in *.
  rewrite Rp, Rl, Rm, Ep, El, inter_links. done.
Qed.

(** The counts of the two parts add up. *)
Lemma inter_refs q : page q -> fr_ref (frames s2) q =
  if decide (T !! q = None /\ is_Some (T2 !! q)) then 1 else fr_ref (frames s) q + refs sh M (S n) (S k) (words s) src base q.
Proof.
  intros Hq. pose proof Hd as [D1 _ _ _ D5 _ _ _]. pose proof Hc as [C1 _ _ _ C5 _ _ _].
  assert (HM : forall q, fr_managed (frames s') q = M q) by apply C1. pose proof (cl_sub _ _ _ _ _ _ _ C1) as Hsub1. pose proof (cl_sub _ _ _ _ _ _ _ D1) as Hsub2.
  rewrite D5 by done. rewrite (refs_managed _ _ _ HM), refs_same, <- inter_ref by apply C1. rewrite C5 by done. fold M. rewrite refs_S. fold i.
  destruct (decide (T' !! q = None /\ is_Some (T2 !! q))) as [[H1 H2]|H1].
  { rewrite decide_True; [done|]. split; [by eapply lookup_weaken_None|done]. }
  destruct (decide (T !! q = None /\ is_Some (T' !! q))) as [[H2 [l' H3]]|H2].
  - rewrite decide_True by (split; [done|]; exists l'; by eapply lookup_weaken).
    destruct (Z.lt_ge_cases 0 (ref_at sh M (S k) (words s) src base q i)) as [Hr|]; [|pose proof (ref_at_nonneg sh M (S k) (words s) src base q i); lia].
    destruct (cloned_data N n (S k) s T src base new s' T' q Hs Hn Hc Hr) as [? _]. congruence.
  - rewrite decide_False; [lia|]. intros [H3 [l' H4]]. destruct (T' !! q) eqn:E; [apply H2; split; [done|by eexists]|]. apply H1. split; [done|by eexists].
Qed.

Lemma cloned_inter : cloned (S n) (S k) s T src base new (set_entry s2 new i v) T2.
Proof.
  destruct inter_range as [Hi Hk]. destruct inter_entry as (Hlv & Hpv & Hmv). pose proof Hd as [D1 [D2 D2'] D3 D4 D5 D6 D7 D8].
  pose proof Hc as [C1 [C2 C2'] C3 C4 C5 C6 C7 C8]. pose proof (so_sub _ _ _ _ _ _ Hs) as Hsub.
  pose proof (clones_trans _ _ _ _ _ _ _ _ _ Hsub C1 D1) as CD. assert (Hsub' : tbl ⊆ T') by (etrans; [exact Hsub|apply C1]).
  pose proof (lookup_weaken _ _ _ _ C2 (cl_sub _ _ _ _ _ _ _ D1)) as Hnew2.
  assert (Hv : links (S (S k)) v = true -> T2 !! Z.land v PAGE_MASK = Some (S k) /\ T !! Z.land v PAGE_MASK = None /\ orphan (words s2) T2 (Z.land v PAGE_MASK)).
  { intros _. rewrite Hmv. split; [done|]. split; [|done]. eapply lookup_weaken_None; [exact D2'|apply C1]. }
  destruct (set_new_spec _ _ _ s T s2 T2 new (S (S k)) i v Hsub CD Hnew2 C2' Hi Hv (clones_orphan _ _ _ _ _ _ _ _ _ Hsub' D1 C2 C3))
    as (E1 & E2 & E3 & E4 & E5 & E6 & E7).
  assert (HM : forall q, fr_managed (frames s') q = M q) by apply C1.
  assert (Hlow : forall va, same_upto (S (S k)) basei va -> below (S k) i base va = false).
  { intros va [_ E]%inter_under. unfold below. by rewrite E, Z.ltb_irrefl, andb_false_r. }
  assert (Hall : forall va, below k (Z.of_nat 512) basei va = bool_decide (same_upto (S (S k)) basei va)).
  { intros va. unfold below. rewrite (proj2 (Z.ltb_lt _ _)); [by rewrite andb_true_r|]. apply vidx_range. }
  pose proof (upath_like (words s) (words s') root tbl) as Hup.
  split; try done.
  - intros va. rewrite E3, D4, Hall, below_leaf_S. fold i M.
    rewrite (Hup va (so_wf _ _ _ _ _ _ Hs) (cl_like _ _ _ _ _ _ _ C1) 4%nat root (pw_root _ _ _ (so_wf _ _ _ _ _ _ Hs))).
    destruct (bool_decide (same_upto (S (S k)) basei va)) eqn:Eb.
    + apply bool_decide_eq_true in Eb. rewrite C4. fold i. rewrite (Hlow va Eb). cbn [andb]. apply inter_under in Eb as [Eb1 Eb2].
      rewrite bool_decide_true, (proj2 (Z.eqb_eq _ _) Eb2) by done. cbn [andb]. destruct (upath _ _ _ _); [by apply cow_leaf_ext|done].
    + cbn [andb]. rewrite C4. fold M. destruct (below _ _ _ _ && _); [done|]. destruct (bool_decide _ && (_ =? i)) eqn:E; [|done]. exfalso.
      apply bool_decide_eq_false in Eb. apply Eb, inter_under. by apply andb_true_iff in E as [?%bool_decide_eq_true ?%Z.eqb_eq].
  - apply inter_refs.
  - intros va [Hbl|[Hv1 Hv2]]%below_S.
    + rewrite E5 by (apply below_true in Hbl as [_ ?]; unfold i; lia).
      rewrite (clones_leaf_new _ _ _ s T s' T' s2 T2 (S (S k)) new va Hsub C1 D1 C2 C2'). by apply C6.
    + assert (Hun : same_upto (S (S k)) basei va) by (by apply inter_under). rewrite leaf_S, (E4 new (S (S k)) _ Hnew2) by apply vidx_range.
      fold i in Hv2. rewrite Hv2, decide_True by done. rewrite Hpv. unfold links in Hlv. rewrite Hpv in Hlv. cbn [andb negb] in Hlv |- *.
      destruct (maps _ v); [done|]. rewrite Hmv, (E6 (S k) child va D2) by (intros ->; rewrite C2 in D2'; done).
      rewrite (D6 va) by (rewrite Hall; by apply bool_decide_eq_true). destruct (inter_path va Hun) as [-> EL].
      rewrite (Hup va (so_wf _ _ _ _ _ _ Hs) (cl_like _ _ _ _ _ _ _ C1) (S k) c inter_child). destruct (upath _ _ _ _); [|done].
      rewrite (cow_leaf_ext _ _ M va _ HM). f_equal. destruct (source_leaf _ _ _ _ _ _ va inter_source Hun) as [_ <-].
      rewrite C4. fold i. rewrite (Hlow va Hun). cbn [andb]. destruct (source_leaf _ _ _ _ _ _ va Hs Hv1) as [_ ->]. done.
  - intros j Hj. rewrite (E4 new (S (S k)) j Hnew2) by lia. rewrite decide_False by (unfold i; lia).
    rewrite (clones_entry _ _ _ s' T' s2 T2 new (S (S k)) j D1 C2) by (lia || by eapply lookup_weaken_None). apply C7. lia.
Qed.
End Inter.
End Loop.

#[local] Opaque zsum for_ok zero_entries.

Section Fork.
Context {P : Type} `{!Frames P, !FramesLaws P}.
Context (vmas : option vma_list) (root : Z) (tbl : gmap Z nat).
Implicit Types s : pg P.
Implicit Types T : gmap Z nat.

Notation clones := (clones (is_shared_vma vmas) root tbl).
Notation source := (source (is_shared_vma vmas) root tbl).
Notation cloned := (cloned (is_shared_vma vmas) root tbl).

(** Stopping because a frame was refused. *)
Definition failed s T s' T' : Prop := clones s T s' T' /\ exists p, fr_alloc p = (None, frames s').

Lemma failed_oom N l s T src base s1 : source N l s T src base -> alloc_frame s = (None, s1) -> failed s T s1 T.
Proof.
  intros Hs Ea. split; [by apply (clones_oom _ root tbl s T s1 (so_inv _ _ _ _ _ _ _ _ _ Hs) (so_wf _ _ _ _ _ _ _ _ _ Hs))|].
  exists (frames s). unfold alloc_frame in Ea. destruct (fr_alloc (frames s)) as [r p]. by injection Ea as -> <-.
Qed.

Lemma failed_trans s T s' T' s2 T2 : tbl ⊆ T -> clones s T s' T' -> failed s' T' s2 T2 -> failed s T s2 T2.
Proof. intros Hsub Hc [Hf Hp]. split; [by eapply clones_trans|done]. Qed.

(** ** Before the first entry *)

Lemma cloned_0 N l s T src base new s1 : source N l s T src base -> alloc_frame s = (Some new, s1) ->
  cloned 0 l s T src base new (zero_entries 512 s1 new) (<[new := S l]> T).
Proof.
  intros Hs E. pose proof (so_level _ _ _ _ _ _ _ _ _ Hs).
  destruct (clones_table (is_shared_vma vmas) root tbl s T new s1 (S l) (so_inv _ _ _ _ _ _ _ _ _ Hs) (so_wf _ _ _ _ _ _ _ _ _ Hs)
    (so_sub _ _ _ _ _ _ _ _ _ Hs) ltac:(lia) E) as (H1 & Hpg & _ & H2 & H3 & H4 & H5 & H7 & H6).
  pose proof (so_sub _ _ _ _ _ _ _ _ _ Hs) as Hsub. pose proof (source_level _ _ _ _ _ _ _ _ _ Hs) as Hlev.
  assert (Hno : forall va, below l (Z.of_nat 0) base va = false).
  { intros va. unfold below. rewrite (proj2 (Z.ltb_ge _ _)); [by rewrite andb_false_r|]. apply vidx_range. }
  split; try done.
  - split; [apply lookup_insert_eq|done].
  - intros va. by rewrite H5, Hno.
  - intros q Hq. rewrite H6 by done. change (refs _ _ 0 _ _ _ _ _) with 0. rewrite Z.add_0_r. destruct (decide (q = new)) as [->|Hne].
    + rewrite decide_True; [done|]. split; [done|]. rewrite lookup_insert_eq. by eexists.
    + rewrite decide_False; [done|]. rewrite lookup_insert_ne by done. intros [? [? ?]]. congruence.
  - intros va. by rewrite Hno.
  - intros _ i Hi. apply (H7 src (S l)); [by eapply lookup_weaken|lia].
Qed.

(** ** The loop over the entries *)

(** The test at the top of the loop. *)
Definition user_entry_loop (n : nat) (src : Z) (body : Z -> pg P -> bool * pg P) (s : pg P) : bool * pg P :=
  for_ok n 0 (fun i s =>
    let e := read_entry s src i in
    if negb (present e) then (true, s) else if negb (set e PAGE_FLAG_USER) then (true, s) else body i s) s.

Lemma clone_loop N l s T src base new s1 T1 (body : Z -> pg P -> bool * pg P) : source N l s T src base -> cloned 0 l s T src base new s1 T1 ->
  (forall n s' T', (n < N)%nat -> cloned n l s T src base new s' T' ->
    present (entry (words s) src (Z.of_nat n)) = true -> user (entry (words s) src (Z.of_nat n)) = true ->
    exists (ok : bool) s2 T2, body (Z.of_nat n) s' = (ok, s2) /\ if ok then cloned (S n) l s T src base new s2 T2 else failed s T s2 T2) ->
  exists (ok : bool) s2 T2, user_entry_loop N src body s1 = (ok, s2) /\ if ok then cloned N l s T src base new s2 T2 else failed s T s2 T2.
Proof.
  intros Hs H0 Hbody. pose proof (so_n _ _ _ _ _ _ _ _ _ Hs) as HN. pose proof (source_level _ _ _ _ _ _ _ _ _ Hs) as Hlev.
  destruct (for_ok_ind (fun j s' => exists n T', j = Z.of_nat n /\ cloned n l s T src base new s' T') (fun s' => exists T', failed s T s' T') N 0
    (fun i s => let e := read_entry s src i in
      if negb (present e) then (true, s) else if negb (set e PAGE_FLAG_USER) then (true, s) else body i s) s1) as (ok & s2 & E & H).
  - exists 0%nat, T1. done.
  - intros j s' Hj (n & T' & -> & Hc). cbv zeta.
    destruct (cl_like _ _ _ _ _ _ _ (cd_clones _ _ _ _ _ _ _ _ _ _ _ _ Hc) src (S l) (Z.of_nat n) Hlev ltac:(lia)) as (Ep & Eu & _).
    unfold read_entry. fold (user (entry (words s') src (Z.of_nat n))). rewrite Ep, Eu.
    destruct (present (entry (words s) src (Z.of_nat n)) && user (entry (words s) src (Z.of_nat n))) eqn:Epu.
    + apply andb_true_iff in Epu as [Hp Hu]. rewrite Hp, Hu. cbn [negb].
      destruct (Hbody n s' T' ltac:(lia) Hc Hp Hu) as (ok & s2 & T2 & -> & H2). exists ok, s2. split; [done|].
      destruct ok; [|by exists T2]. exists (S n), T2. split; [lia|done].
    + exists true, s'. split; [apply andb_false_iff in Epu as [E| E]; rewrite E; [done|by case_match]|]. exists (S n), T'. split; [lia|].
      by apply (cloned_skip _ _ _ N n l s T src base new s' T' Hs ltac:(lia) Hc).
  - exists ok, s2. destruct ok; [destruct H as (n & T2 & En & H); assert (n = N) as -> by lia; by exists T2|destruct H as [T2 H]; by exists T2].
Qed.

(** ** A table *)

Lemma clone_table_vma_eq l s src base : clone_table_vma l s src 0 512 vmas base =
  match alloc_frame s with
  | (None, s) => (None, s)
  | (Some new, s) =>
      let '(ok, s) :=
        user_entry_loop 512 src (fun i s =>
          match l with
          | O => (true, clone_pte (is_shared_vma vmas) s src base new i)
          | S l' =>
              match clone_table_vma l' s (Z.land (read_entry s src i) PAGE_MASK) 0 512 vmas (child_base l base i) with
              | (None, s) => (false, s)
              | (Some child, s) => (true, set_entry s new i (redirect child (read_entry s src i)))
              end
          end) (zero_entries 512 s new) in
      (if ok then Some new else None, s)
  end.
Proof. destruct l; cbn [clone_table_vma]; change (Z.to_nat (512 - 0)) with 512%nat; reflexivity. Qed.

Lemma clone_table_spec l s T src base : (l <= 2)%nat -> source 512 l s T src base ->
  exists r s' T', clone_table_vma l s src 0 512 vmas base = (r, s') /\
    match r with Some new => cloned 512 l s T src base new s' T' | None => failed s T s' T' end.
Proof.
  revert s T src base. induction l as [|l IH]; intros s T src base Hl Hs; rewrite clone_table_vma_eq; destruct (alloc_frame s) as [[new|] s1] eqn:Ea;
    try (exists None, s1, T; split; [done|]; by eapply failed_oom).
  - edestruct (clone_loop 512 0 s T src base new _ _ (fun i s => (true, clone_pte (is_shared_vma vmas) s src base new i)) Hs (cloned_0 _ _ _ _ _ _ _ _ Hs Ea))
      as (ok & s2 & T2 & E & H2).
    { intros n s' T' Hn Hc Hp Hu. eexists true, _, T'. split; [done|]. by apply (cloned_pte _ root tbl 512). }
    rewrite E. exists (if ok then Some new else None), s2, T2. split; [done|]. by destruct ok.
  - edestruct (clone_loop 512 (S l) s T src base new _ _ (fun i s =>
      match clone_table_vma l s (Z.land (read_entry s src i) PAGE_MASK) 0 512 vmas (child_base (S l) base i) with
      | (None, s) => (false, s)
      | (Some child, s) => (true, set_entry s new i (redirect child (read_entry s src i)))
      end) Hs (cloned_0 _ _ _ _ _ _ _ _ Hs Ea)) as (ok & s2 & T2 & E & H2).
    { intros n s' T' Hn Hc Hp Hu.
      destruct (cl_like _ _ _ _ _ _ _ (cd_clones _ _ _ _ _ _ _ _ _ _ _ _ Hc) src (S (S l)) (Z.of_nat n) ltac:(by eapply source_level) ltac:(lia)) as (_ & _ & _ & Em).
      unfold read_entry at 1. rewrite Em.
      destruct (IH s' T' _ _ ltac:(lia) (inter_source _ _ _ 512 n l s T src base new s' T' Hs Hn Hc Hp Hu)) as (r & s3 & T3 & -> & H3).
      destruct r as [child|].
      - eexists true, _, T3. split; [done|]. by apply (cloned_inter _ root tbl 512 n l s T src base new s' T' Hs Hn Hc Hp Hu child s3 T3).
      - exists false, s3, T3. split; [done|]. eapply failed_trans; [apply Hs|apply Hc|done]. }
    rewrite E. exists (if ok then Some new else None), s2, T2. split; [done|]. by destruct ok.
Qed.

(** ** The root *)

Lemma user_base i : 0 <= i < 256 ->
  (let base_addr := Z.shiftl i 39 in if set base_addr (Z.shiftl 1 47) then Z.lor base_addr 0xFFFF000000000000 else base_addr) = child_base 3 0 i.
Proof.
  intros Hi. cbv zeta. rewrite land_pow2_testbit, Z.shiftl_spec by lia. change (47 - 39) with 8. rewrite (testbit_high i 8) by lia.
  unfold child_base. by rewrite Z.lor_0_l.
Qed.

(** The references that cloning the user's half adds. *)
Definition user_refs s (q : Z) : Z := refs (is_shared_vma vmas) (fr_managed (frames s)) 256 3 (words s) root 0 q.

(** What cloning needs of the parent: no huge pages of the user, and room for the
    counts of its private frames, which are not tables. *)
Record forkable s : Prop := {
  fk_inv : pt_inv s root tbl;
  fk_huge : user_linked tbl (words s);
  fk_data : forall q, 0 < user_refs s q -> tbl !! q = None /\ 0 < fr_ref (frames s) q /\ fr_ref (frames s) q + user_refs s q <= 65535;
}.

Lemma forkable_source s : forkable s -> source 256 3 s tbl root 0.
Proof.
  intros [H1 H2 H3]. pose proof (pi_wf _ _ _ H1). split; try done; [lia..|]. intros n Hn _. apply Z.bits_0.
Qed.

Lemma clone_root_eq s : vmm_clone_user_mappings_vma s root vmas =
  match alloc_frame s with
  | (None, s) => (0, s)
  | (Some new, s) =>
      let '(ok, s) :=
        user_entry_loop 256 root (fun i s =>
          match clone_table_vma 2 s (Z.land (read_entry s root i) PAGE_MASK) 0 512 vmas
            (let base_addr := Z.shiftl i 39 in if set base_addr (Z.shiftl 1 47) then Z.lor base_addr 0xFFFF000000000000 else base_addr) with
          | (None, s) => (false, s)
          | (Some child, s) => (true, set_entry s new i (redirect child (read_entry s root i)))
          end) (zero_entries 512 s new) in
      if ok then (new, copy_kernel_half s new root) else (0, s)
  end.
Proof. reflexivity. Qed.

Lemma clone_root_spec s : forkable s ->
  (exists s' T', vmm_clone_user_mappings_vma s root vmas = (0, s') /\ failed s tbl s' T') \/
  exists new s2 T2, new <> 0 /\ vmm_clone_user_mappings_vma s root vmas = (new, copy_kernel_half s2 new root) /\ cloned 256 3 s tbl root 0 new s2 T2.
Proof.
  intros Hk. pose proof (forkable_source s Hk) as Hs. rewrite clone_root_eq. destruct (alloc_frame s) as [[new|] s1] eqn:Ea.
  2:{ left. exists s1, tbl. split; [done|]. by eapply failed_oom. }
  edestruct (clone_loop 256 3 s tbl root 0 new _ _ (fun i s =>
    match clone_table_vma 2 s (Z.land (read_entry s root i) PAGE_MASK) 0 512 vmas
      (let base_addr := Z.shiftl i 39 in if set base_addr (Z.shiftl 1 47) then Z.lor base_addr 0xFFFF000000000000 else base_addr) with
    | (None, s) => (false, s)
    | (Some child, s) => (true, set_entry s new i (redirect child (read_entry s root i)))
    end) Hs (cloned_0 _ _ _ _ _ _ _ _ Hs Ea)) as (ok & s2 & T2 & E & H2).
  { intros n s' T' Hn Hc Hp Hu. rewrite user_base by lia.
    destruct (cl_like _ _ _ _ _ _ _ (cd_clones _ _ _ _ _ _ _ _ _ _ _ _ Hc) root 4%nat (Z.of_nat n) ltac:(by eapply source_level) ltac:(lia)) as (_ & _ & _ & Em).
    unfold read_entry at 1. rewrite Em.
    destruct (clone_table_spec 2 s' T' _ _ ltac:(lia) (inter_source _ _ _ 256 n 2 s tbl root 0 new s' T' Hs Hn Hc Hp Hu)) as (r & s3 & T3 & -> & H3).
    destruct r as [child|].
    - eexists true, _, T3. split; [done|]. by apply (cloned_inter _ root tbl 256 n 2 s tbl root 0 new s' T' Hs Hn Hc Hp Hu child s3 T3).
    - exists false, s3, T3. split; [done|]. eapply failed_trans; [apply Hs|apply Hc|done]. }
  rewrite E. destruct ok; [right; exists new, s2, T2|left; by exists s2, T2]. split; [|done].
  by destruct (alloc_frame_spec s root tbl _ s1 (fk_inv _ Hk) Ea) as (_ & _ & _ & ? & _).
Qed.

(** ** Both address spaces *)

Lemma pt_inv_sub s T : pt_inv s root T -> tbl ⊆ T -> pt_wf (words s) root tbl -> pt_inv s root tbl.
Proof.
  intros [H1 _ H3 H4] Hsub Hw. split; [done|done| |]; intros t l Ht; pose proof (lookup_weaken _ _ _ _ Ht Hsub); [by apply (H3 t l)|by apply (H4 t l)].
Qed.

(** An address in the user's half. *)
Definition user_va (va : Z) : bool := vidx 4 va <? 256.

Lemma below_user va : below 3 (Z.of_nat 256) 0 va = user_va va.
Proof. unfold below, user_va. rewrite bool_decide_true; [done|]. intros j Hj. lia. Qed.
End Fork.
