(* ===== verification/PmmFrames.v ===== *)
(** * The physical memory manager as the page tables' source of frames

    The functions of [kernel/src/mm/pmm.c] that [kernel/src/mm/vmm.c] calls, and that
    they keep the promises the page tables rely on. *)

From S2P Require Import Prelude Bitmap DList Pmm PmmInv PmmSpec PmmReclaim Vma Paging PagingInv PagingSpec.

#[export] Instance pmm_Frames : Frames pmm := {|
  fr_alloc s :=
    match pmm_alloc_page s with
    | None => (None, s)
    | Some (ptr, s) => (if ptr =? 0 then None else Some ptr, s)
    end;
  fr_free := pmm_free_page;
  fr_incref := pmm_incref;
  fr_ref := pmm_get_ref;
  fr_managed := pmm_is_managed;
|}.

(** Physical addresses have at most 52 bits. *)
Definition pmm_frames_ok (s : pmm) : Prop := pmm_wf s /\ highest_page s <= 2 ^ 40.

Lemma pmm_is_managed_eq s q : pmm_ok s ->
  pmm_is_managed s q = bool_decide (in_range s (q / PAGE_SIZE)) && managed s (q / PAGE_SIZE).
Proof.
  intros [B I]. pose proof (g_addr _ (i_geom _ _ _ I)) as Ha. unfold pmm_is_managed, in_range, managed.
  rewrite (proj2 (Z.eqb_neq _ _) Ha), Z.geb_leb.
  destruct (Z.ltb_spec (q / PAGE_SIZE) (lowest_page s)), (Z.leb_spec (highest_page s) (q / PAGE_SIZE));
    first [rewrite bool_decide_true by lia; done|rewrite bool_decide_false by lia; done].
Qed.

Lemma pmm_managed_same s s' q : pmm_ok s -> pmm_ok s' -> lowest_page s' = lowest_page s -> highest_page s' = highest_page s ->
  keeps_others s s' -> pmm_is_managed s' q = pmm_is_managed s q.
Proof.
  intros H1 H2 El Eh K. rewrite !pmm_is_managed_eq by done. unfold in_range. rewrite El, Eh.
  case_bool_decide as Hr; [|done]. cbn [andb]. by apply K.
Qed.

(** Distinct pages have distinct numbers. *)
Lemma page_number q q' : page q -> page q' -> q / PAGE_SIZE = q' / PAGE_SIZE -> q = q'.
Proof.
  intros [H1 _] [H2 _]. unfold PAGE_SIZE. pose proof (Z.div_mod q 4096). pose proof (Z.div_mod q' 4096). lia.
Qed.

Lemma get_ref_managed s q : q <> 0 -> pmm_is_managed s q = true -> pmm_get_ref s q = refcount s (q / PAGE_SIZE).
Proof. intros H0 Hm. unfold pmm_get_ref. by rewrite (proj2 (Z.eqb_neq q 0)), Hm. Qed.

Lemma referenced_used s q : pmm_wf s -> pmm_is_managed s q = true -> 0 < refcount s (q / PAGE_SIZE) ->
  in_range s (q / PAGE_SIZE) /\ managed s (q / PAGE_SIZE) = true /\ used s (q / PAGE_SIZE) = true.
Proof.
  intros [_ Hz _] [Hr Hm]%pmm_is_managed_true Href. split; [done|]. split; [done|].
  destruct (used s (q / PAGE_SIZE)) eqn:Hu; [done|]. rewrite Hz in Href; [lia|done].
Qed.

(** Counts after an operation that keeps the managed pages. *)
Lemma get_ref_change s s' f v q : page f -> f <> 0 -> page q -> pmm_is_managed s f = true ->
  (forall q, pmm_is_managed s' q = pmm_is_managed s q) ->
  (forall x, in_range s x -> refcount s' x = if x =? f / PAGE_SIZE then v else refcount s x) ->
  pmm_get_ref s' q = if decide (q = f) then v else pmm_get_ref s q.
Proof.
  intros Hf Hf0 Hq Hmf Hm Hr. destruct (decide (q = f)) as [->|Hne].
  - rewrite get_ref_managed by (done || by rewrite Hm). rewrite Hr by (by apply pmm_is_managed_true in Hmf as [? _]). by rewrite Z.eqb_refl.
  - unfold pmm_get_ref. rewrite Hm. destruct (q =? 0); [done|]. destruct (pmm_is_managed s q) eqn:E; [|done]. cbn [negb].
    fold (refcount s' (q / PAGE_SIZE)) (refcount s (q / PAGE_SIZE)). rewrite Hr by (by apply pmm_is_managed_true in E as [? _]).
    rewrite (proj2 (Z.eqb_neq _ _)); [done|]. intros E2. apply Hne. by apply page_number.
Qed.

Lemma pmm_law_alloc s r s' : pmm_frames_ok s -> fr_alloc s = (r, s') ->
  pmm_frames_ok s' /\ (forall q, fr_managed s' q = fr_managed s q) /\
  match r with
  | None => forall q, page q -> fr_ref s' q = fr_ref s q
  | Some f => page f /\ f <> 0 /\ fr_managed s f = true /\ fr_ref s f = 0 /\
      forall q, page q -> fr_ref s' q = if decide (q = f) then 1 else fr_ref s q
  end.
Proof.
  intros [Hwf Hh]. pose proof (wf_ok _ Hwf) as [B I]. simpl. unfold pmm_alloc_page.
  destruct (pmm_alloc_pages_spec s B 1 I ltac:(lia)) as (k & ptr & s1 & Hk & -> & Hcase).
  assert (k = 0) as -> by (vm_compute in Hk; congruence). intros [= <- <-].
  destruct Hcase as [(-> & -> & _)|(p & -> & A & Hr)]; [done|]. pose proof (al_nonnull _ _ _ _ A) as Hp0.
  rewrite (proj2 (Z.eqb_neq (p * PAGE_SIZE) 0)) by (unfold PAGE_SIZE; lia).
  pose proof (al_was_free _ _ _ _ A p (in_block_start 0 p ltac:(lia))) as Hfree. pose proof Hfree as (Hin & Hman & _).
  assert (Hdiv : p * PAGE_SIZE / PAGE_SIZE = p) by (by apply Z.div_mul).
  assert (Hmg : forall q, pmm_is_managed s1 q = pmm_is_managed s q).
  { intros q. apply pmm_managed_same; [by exists B|apply A|apply A|apply A|apply A]. }
  assert (Hmp : pmm_is_managed s (p * PAGE_SIZE) = true).
  { rewrite pmm_is_managed_eq, Hdiv by (by exists B). by rewrite bool_decide_true by done. }
  assert (Hpage : page (p * PAGE_SIZE)).
  { split; [by apply Z.mod_mul|]. unfold PAGE_SIZE. unfold in_range in Hin. lia. }
  assert (Hblk : forall x, blockb 0 p x = (x =? p)).
  { intros x. unfold blockb. change (2 ^ 0) with 1. destruct (Z.leb_spec p x), (Z.ltb_spec x (p + 1)), (Z.eqb_spec x p); (done || lia). }
  split; [split|].
  - eapply allocated_wf; [done|exact A|]. intros x Hx Hnb. rewrite Hr, Hblk by done. rewrite (proj2 (Z.eqb_neq x p)); [done|].
    intros ->. apply Hnb. by apply in_block_start.
  - by rewrite (al_hi _ _ _ _ A).
  - split; [done|]. split; [done|]. split; [unfold PAGE_SIZE; lia|]. split; [done|]. split.
    + rewrite get_ref_managed, Hdiv by (done || (unfold PAGE_SIZE; lia)). by apply (wf_refs _ Hwf).
    + intros q Hq. apply get_ref_change; try done; [unfold PAGE_SIZE; lia|]. intros x Hx. rewrite Hr, Hblk, Hdiv by done. done.
Qed.

Lemma pmm_law_free s f : pmm_frames_ok s -> page f -> fr_managed s f = true -> 0 < fr_ref s f ->
  pmm_frames_ok (fr_free s f) /\ (forall q, fr_managed (fr_free s f) q = fr_managed s q) /\
  forall q, page q -> fr_ref (fr_free s f) q = if decide (q = f) then fr_ref s f - 1 else fr_ref s q.
Proof.
  intros [Hwf Hh] Hf Hm Href. simpl in *. assert (Hf0 : f <> 0) by (intros ->; change (pmm_get_ref s 0) with 0 in Href; lia).
  rewrite get_ref_managed in Href |- * by done. destruct (referenced_used s f Hwf Hm Href) as (Hr & Hmn & Hu).
  destruct (pmm_decref_spec s f (wf_ok _ Hwf) Hf0 Hr Hmn Hu) as (Hok' & El & Eh & K & _ & Hrc).
  assert (Hmg : forall q, pmm_is_managed (pmm_free_page s f) q = pmm_is_managed s q).
  { intros q. apply pmm_managed_same; [apply Hwf|done..]. }
  split; [split; [by apply decref_wf|unfold pmm_free_page; by rewrite Eh]|]. split; [done|].
  intros q Hq. apply get_ref_change; try done. intros x Hx. unfold pmm_free_page. rewrite Hrc.
  rewrite (proj2 (Z.gtb_lt _ _)) by done. by rewrite andb_true_r.
Qed.

Lemma pmm_law_incref s f : pmm_frames_ok s -> page f -> fr_managed s f = true -> 0 < fr_ref s f < 65535 ->
  pmm_frames_ok (fr_incref s f) /\ (forall q, fr_managed (fr_incref s f) q = fr_managed s q) /\
  forall q, page q -> fr_ref (fr_incref s f) q = if decide (q = f) then fr_ref s f + 1 else fr_ref s q.
Proof.
  intros [Hwf Hh] Hf Hm Href. simpl in *. assert (Hf0 : f <> 0) by (intros ->; change (pmm_get_ref s 0) with 0 in Href; lia).
  rewrite get_ref_managed in Href |- * by done. destruct (referenced_used s f Hwf Hm ltac:(lia)) as (Hr & Hmn & Hu).
  destruct (pmm_incref_spec s f (wf_ok _ Hwf)) as (Hok' & _ & El & Hrc).
  assert (Hsame : highest_page (pmm_incref s f) = highest_page s /\ keeps_others s (pmm_incref s f)).
  { unfold pmm_incref. rewrite (proj2 (Z.eqb_neq f 0)), Hm by done. split; [done|]. by intros x _. }
  destruct Hsame as [Eh K].
  assert (Hmg : forall q, pmm_is_managed (pmm_incref s f) q = pmm_is_managed s q).
  { intros q. apply pmm_managed_same; [apply Hwf|done..]. }
  split; [split; [by apply incref_wf|by rewrite Eh]|]. split; [done|].
  intros q Hq. apply get_ref_change; try done. intros x Hx. rewrite Hrc, (proj2 (Z.eqb_neq f 0)), Hm by done.
  destruct (Z.eqb_spec x (f / PAGE_SIZE)) as [->|]; [|done]. cbn [negb andb]. apply u16_small. lia.
Qed.

#[export] Instance pmm_FramesLaws : FramesLaws pmm := {|
  fr_ok := pmm_frames_ok;
  law_fr_alloc := pmm_law_alloc;
  law_fr_free := pmm_law_free;
  law_fr_incref := pmm_law_incref;
|}.
