(* ===== verification/PagingThms.v ===== *)
(** * The properties of the page tables *)

From S2P Require Import Prelude Bitmap DList Pmm PmmInv PmmSpec PmmReclaim PmmThms Vma Paging PagingInv PagingSpec PmmFrames.

Section Thms.
Context {P : Type} `{!Frames P, !FramesLaws P}.
Implicit Types s : pg P.

(** ** The mappings as a map *)

(** The page of level [l] an address lies in: 4 KB, 2 MB or 1 GB. *)
Definition page_no (l : nat) (va : Z) : Z := Z.shiftr (vpn va) (9 * (Z.of_nat l - 1)).

Lemma same_upto_page l va va' : (1 <= l <= 4)%nat -> same_upto l va va' <-> page_no l va = page_no l va'.
Proof.
  intros Hl. assert (Hbit : forall v j n, (1 <= j <= 4)%nat -> 0 <= n < 9 -> Z.testbit (vpn v) (9 * (Z.of_nat j - 1) + n) = Z.testbit (vidx j v) n).
  { intros v j n Hj Hn. rewrite testbit_vidx by lia. unfold vpn. rewrite Z.land_spec, Z.ones_spec_low, andb_true_r, Z.shiftr_spec by lia. f_equal. lia. }
  unfold page_no. split.
  - intros Hs. apply Z.bits_inj'. intros n Hn. rewrite !Z.shiftr_spec by done. set (m := n + 9 * (Z.of_nat l - 1)).
    destruct (Z.lt_ge_cases m 36); [|unfold vpn; rewrite !Z.land_spec, !Z.ones_spec_high by lia; by rewrite !andb_false_r].
    pose proof (Z.mod_pos_bound m 9 ltac:(lia)). pose proof (Z.div_mod m 9 ltac:(lia)).
    assert (Hq : Z.of_nat l - 1 <= m / 9 < 4) by (split; [apply Z.div_le_lower_bound; lia|apply Z.div_lt_upper_bound; lia]).
    replace m with (9 * (Z.of_nat (Z.to_nat (m / 9) + 1) - 1) + m mod 9) by lia. rewrite !Hbit by lia. rewrite (Hs (Z.to_nat (m / 9) + 1)%nat) by lia. done.
  - intros Hp j Hj. apply Z.bits_inj'. intros n Hn. destruct (Z.lt_ge_cases n 9) as [Hlt|Hge].
    + rewrite <- !Hbit by lia. assert (Hb : forall v, Z.testbit (vpn v) (9 * (Z.of_nat j - 1) + n) = Z.testbit (Z.shiftr (vpn v) (9 * (Z.of_nat l - 1))) (9 * (Z.of_nat j - Z.of_nat l) + n)) by (intros v; rewrite Z.shiftr_spec by lia; f_equal; lia). by rewrite !Hb, Hp.
    + rewrite !(testbit_high _ 9); try done; apply vidx_range.
Qed.

(** What each address is mapped by: a level, 1 for a page of 4 KB, 2 for one of 2 MB
    and 3 for one of 1 GB, and the entry. *)
Definition mapping : Type := Z -> option (nat * Z).

Definition mapped s (root : Z) (M : mapping) : Prop := forall va, leaf (words s) 4 root va = M va.

(** The whole page of level [l] around [va] is mapped by the entry [e]. *)
Definition map_at (l : nat) (va e : Z) (M : mapping) : mapping :=
  fun va' => if decide (page_no l va = page_no l va') then Some (l, e) else M va'.

(** The page of 4 KB around [va] is not mapped any more; a larger page stays. *)
Definition unmap_at (va : Z) (M : mapping) : mapping :=
  fun va' => if decide (page_no 1 va = page_no 1 va') then match M va' with Some (1%nat, _) => None | x => x end else M va'.

(** No page larger than those of level [l] is mapped at [va]. *)
Definition at_most (l : nat) (M : mapping) (va : Z) : Prop := forall l' e, M va = Some (l', e) -> (l' <= l)%nat.

(** Calls on one address space, with what they do to the map.  A page is not mapped
    inside a larger one. *)
Inductive pt_step (root : Z) : pg P * mapping -> pg P * mapping -> Prop :=
  | step_map s s' M va pa flags : at_most 1 M va -> vmm_map_page s root va pa flags = (true, s') ->
      pt_step root (s, M) (s', map_at 1 va (pte pa flags) M)
  | step_map_oom s s' M va pa flags : at_most 1 M va -> vmm_map_page s root va pa flags = (false, s') -> pt_step root (s, M) (s', M)
  | step_map_huge s s' M va pa flags : at_most 2 M va -> vmm_map_huge_page s root va pa flags = (true, s') ->
      pt_step root (s, M) (s', map_at 2 va (huge_pde pa flags) M)
  | step_map_huge_oom s s' M va pa flags : at_most 2 M va -> vmm_map_huge_page s root va pa flags = (false, s') -> pt_step root (s, M) (s', M)
  | step_unmap s M va : pt_step root (s, M) (vmm_unmap_page s root va, unmap_at va M).

Definition pt_state (root : Z) (x : pg P * mapping) : Prop := (exists tbl, pt_inv x.1 root tbl) /\ mapped x.1 root x.2.

Lemma page_no_vpn va : page_no 1 va = vpn va.
Proof. apply Z.shiftr_0_r. Qed.

Lemma mapped_deep s root M va l : mapped s root M -> at_most l M va -> forall l' e, leaf (words s) 4 root va = Some (l', e) -> (l' <= l)%nat.
Proof. intros Hm Hl l' e. rewrite Hm. apply Hl. Qed.

Lemma leaf_positive m l t va l' e : leaf m l t va = Some (l', e) -> (1 <= l')%nat.
Proof. revert t. induction l as [|l IH]; intros t; [done|]. rewrite leaf_S. destruct (negb _); [done|]. destruct (maps _ _); [intros [= <- _]; lia|apply IH]. Qed.

Lemma mapped_no_huge s root M va : mapped s root M -> at_most 1 M va -> no_huge s root va.
Proof. intros Hm Hl l' e E. pose proof (leaf_positive _ _ _ _ _ _ E). rewrite Hm in E. apply Hl in E. lia. Qed.

Lemma pt_step_state root x y : pt_step root x y -> pt_state root x -> pt_state root y.
Proof.
  intros [s s' M va pa flags Hs E|s s' M va pa flags Hs E|s s' M va pa flags Hs E|s s' M va pa flags Hs E|s M va] [[tbl Hi] Hm]; cbn [fst snd] in *.
  - destruct (map_page_spec s root tbl va pa flags Hi (mapped_no_huge _ _ _ va Hm Hs)) as (r & s1 & tbl' & E1 & Hi' & _ & _ & _ & _ & _ & Hl).
    rewrite E in E1. injection E1 as <- <-. split; [by exists tbl'|]. intros va'. cbn [fst snd]. rewrite Hl, Hm. unfold map_at. rewrite (page_no_vpn va), (page_no_vpn va'). cbn [andb]. by case_bool_decide; case_decide.
  - destruct (map_page_spec s root tbl va pa flags Hi (mapped_no_huge _ _ _ va Hm Hs)) as (r & s1 & tbl' & E1 & Hi' & _ & _ & _ & _ & _ & Hl).
    rewrite E in E1. injection E1 as <- <-. split; [by exists tbl'|]. intros va'. cbn [fst snd]. rewrite Hl. apply Hm.
  - destruct (map_huge_spec s root tbl va pa flags Hi (mapped_deep _ _ _ va 2 Hm Hs)) as (r & s1 & tbl' & E1 & Hi' & _ & Hl).
    rewrite E in E1. injection E1 as <- <-. split; [by exists tbl'|]. intros va'. cbn [fst snd]. rewrite Hl, Hm. unfold map_at. cbn [andb].
    pose proof (same_upto_page 2 va va' ltac:(lia)). case_bool_decide; case_decide; tauto.
  - destruct (map_huge_spec s root tbl va pa flags Hi (mapped_deep _ _ _ va 2 Hm Hs)) as (r & s1 & tbl' & E1 & Hi' & _ & Hl).
    rewrite E in E1. injection E1 as <- <-. split; [by exists tbl'|]. intros va'. cbn [fst snd]. rewrite Hl. apply Hm.
  - destruct (unmap_page_spec s root tbl va Hi) as (tbl' & Hi' & _ & _ & _ & _ & Hl). split; [by exists tbl'|]. intros va'. cbn [fst snd]. rewrite Hl. unfold unmap_at. rewrite (page_no_vpn va), (page_no_vpn va').
    case_decide as Hv; [|apply Hm]. rewrite <- Hm, (leaf_vpn _ _ _ _ Hv). by destruct (leaf (words s) 4 root va') as [[[|[|l]] e]|].
Qed.

Lemma pt_rtc_state root x y : rtc (pt_step root) x y -> pt_state root x -> pt_state root y.
Proof. induction 1 as [|x y z Hs _ IH]; [done|]. intros Hx. apply IH. by eapply pt_step_state. Qed.

(** ** The way to a huge page *)

Lemma leaf_here m t va e l : leaf m (S (S l)) t va = Some (S (S l), e) ->
  present (entry m t (vidx (S (S l)) va)) = true /\ entry m t (vidx (S (S l)) va) = e.
Proof.
  assert (Hlow : forall k t l' e', leaf m k t va = Some (l', e') -> (l' <= k)%nat).
  { induction k as [|k IH]; intros t' l' e'; [done|]. rewrite leaf_S. destruct (negb _); [done|].
    destruct (maps _ _); [by intros [= <- _]|]. intros Hk%IH. lia. }
  rewrite leaf_S. destruct (present _); [|done]. cbn [negb]. destruct (maps _ _); [by intros [= ->]|]. intros H%Hlow. lia.
Qed.

(** ** The properties *)

(** C5: The page tables implement a map from addresses to pages of three sizes.  Start
    from tables that map pages of any size.  After any sequence of mappings of small and
    of 2 MB pages, failed ones included, and of unmappings, none of which maps a page
    inside a larger one, an address translates to what the map of the successful calls
    says: the page mapped last, unless it was a small one and was unmapped since.  Huge
    pages are translated with their own offsets and stay when a page in them is
    unmapped, and the tables are still a tree. *)
Theorem vmm_refines_map root s M s' M' : pt_state root (s, M) -> rtc (pt_step root) (s, M) (s', M') ->
  (exists tbl, pt_inv s' root tbl) /\ forall va, vmm_virt_to_phys s' root va = leaf_phys (M' va) va.
Proof. intros Hs Hr. destruct (pt_rtc_state _ _ _ Hr Hs) as [Hi Hm]. split; [done|]. intros va. by rewrite virt_to_phys_leaf, Hm. Qed.

(** Mapping a page makes its addresses translate into the given frame and leaves
    every other page's translation alone; without memory for a table it fails and
    changes no translation.  Only words of the tables change, new tables are frames
    that nothing referred to, and no other reference count changes. *)
Theorem vmm_map_page_correct s root tbl va pa flags : pt_inv s root tbl -> no_huge s root va -> Z.land flags PAGE_MASK = 0 ->
  exists r s' tbl', vmm_map_page s root va pa flags = (r, s') /\ pt_inv s' root tbl' /\ tbl ⊆ tbl' /\
    (r = true -> vmm_virt_to_phys s' root va = Z.lor (Z.land pa PAGE_MASK) (Z.land va 0xFFF)) /\
    (forall va', r = false \/ vpn va' <> vpn va -> vmm_virt_to_phys s' root va' = vmm_virt_to_phys s root va') /\
    (forall a, (forall t l, tbl' !! t = Some l -> ~ in_page t a) -> words s' !! a = words s !! a) /\
    (forall q, page q -> fr_ref (frames s') q = fr_ref (frames s) q \/
       tbl !! q = None /\ is_Some (tbl' !! q) /\ fr_ref (frames s) q = 0 /\ fr_ref (frames s') q = 1).
Proof.
  intros Hi Hn Hf. destruct (map_page_spec s root tbl va pa flags Hi Hn) as (r & s' & tbl' & E & Hi' & Hsub & Href & _ & Hnew & Hw & Hl).
  exists r, s', tbl'. do 3 (split; [done|]). split; [|split; [|split; [done|]]].
  - intros ->. rewrite virt_to_phys_leaf, Hl, bool_decide_true by done. cbn [andb leaf_phys]. by rewrite pte_phys.
  - intros va' Hc. rewrite !virt_to_phys_leaf, Hl. destruct Hc as [->|Hc]; [done|]. rewrite bool_decide_false, andb_false_r by done. done.
  - intros q Hq. rewrite Href by done. destruct (decide (tbl !! q = None /\ is_Some (tbl' !! q))) as [[H1 [l H2]]|]; [right|by left].
    split; [done|]. split; [by eexists|]. split; [by apply (Hnew q l)|done].
Qed.

(** Unmapping a page removes its translation (a huge page stays) and no other;
    it frees exactly the tables that this left empty and changes only words of the
    tables. *)
Theorem vmm_unmap_page_correct s root tbl va : pt_inv s root tbl ->
  exists tbl', let s' := vmm_unmap_page s root va in
    pt_inv s' root tbl' /\ tbl' ⊆ tbl /\
    (no_huge s root va -> vmm_virt_to_phys s' root va = 0) /\
    (forall va', vpn va' <> vpn va -> vmm_virt_to_phys s' root va' = vmm_virt_to_phys s root va') /\
    (forall a, (forall t l, tbl !! t = Some l -> ~ in_page t a) -> words s' !! a = words s !! a) /\
    (forall q, page q -> fr_ref (frames s') q = if decide (is_Some (tbl !! q) /\ tbl' !! q = None) then 0 else fr_ref (frames s) q).
Proof.
  intros Hi. destruct (unmap_page_spec s root tbl va Hi) as (tbl' & Hi' & Hsub & Href & _ & Hw & Hl). exists tbl'. cbv zeta in *.
  do 2 (split; [done|]). split; [|split; [|done]].
  - intros Hn. rewrite virt_to_phys_leaf, Hl, decide_True by done. destruct (leaf (words s) 4 root va) as [[l e]|] eqn:E; [|done].
    by rewrite (Hn l e E).
  - intros va' Hne. by rewrite !virt_to_phys_leaf, Hl, decide_False by congruence.
Qed.

(** Mapping a page inside a 2 MB page does not fail: the frame of the huge page
    is taken for a page table, and the new entry is written into the data mapped
    there. *)
Theorem vmm_map_page_in_huge s root tbl va pa flags e : pt_inv s root tbl -> leaf (words s) 4 root va = Some (2%nat, e) ->
  exists s', vmm_map_page s root va pa flags = (true, s') /\
    words s' !! (Z.land e PAGE_MASK + 8 * pt_index va) = Some (pte pa flags).
Proof.
  intros Hi Hlf. pose proof (propagate_bits flags) as Hb. cbv zeta in Hb. rewrite vmm_map_page_walk. cbv zeta.
  set (b := Z.land flags (Z.lor PAGE_FLAG_USER PAGE_FLAG_RW)) in *.
  destruct (walk_pd s root tbl va b Hi ltac:(rewrite Hlf; intros l e' [= <- _]; lia) Hb) as (r & s2 & tbl2 & E & Hg & Hr).
  rewrite E. destruct r as [pd|]; [|by rewrite Hlf in Hr].
  rewrite <- (gr_leaf _ _ _ _ _ Hg), (leaf_tab _ _ _ 2 pd ltac:(lia) Hr) in Hlf. apply leaf_here in Hlf as [Hp He].
  unfold descend, get_next_level, read_entry. rewrite Hp, He. eexists. split; [done|]. rewrite words_set. apply lookup_insert_eq.
Qed.
End Thms.

(** ** An address space on the physical memory manager *)

Lemma empty_space_inv {P} `{!Frames P, !FramesLaws P} (p : P) r p' : fr_ok p -> fr_alloc p = (Some r, p') ->
  pt_inv (Pg ∅ p') r {[r := 4%nat]}.
Proof.
  intros Hp Ha. destruct (law_fr_alloc _ _ _ Hp Ha) as (Hok & Hmg & Hr & _ & Hm & _ & Hq).
  assert (Hz : forall l t i, links l (entry ∅ t i) = false) by done. split; [done| | |].
  - split; [apply lookup_singleton_eq|..].
    + intros t l [<- <-]%lookup_singleton_Some. split; [done|lia].
    + intros t l i _ _ Hl. by rewrite Hz in Hl.
    + intros t t' l l' i i' _ _ _ _ Hl. by rewrite Hz in Hl.
  - intros t l [<- <-]%lookup_singleton_Some. cbn [frames]. by rewrite Hq, decide_True.
  - intros t l [<- <-]%lookup_singleton_Some. cbn [frames]. by rewrite Hmg.
Qed.

Definition demo_root : Z := Eval vm_compute in default 0 (fr_alloc demo).1.
Definition demo_space : pg pmm := Eval vm_compute in Pg ∅ (fr_alloc demo).2.

Lemma demo_frames_ok : fr_ok demo.
Proof. split; [exact demo_wf|]. by vm_compute. Qed.

Lemma demo_space_inv : pt_inv demo_space demo_root {[demo_root := 4%nat]}.
Proof. apply (empty_space_inv demo demo_root (frames demo_space) demo_frames_ok). vm_compute. exact eq_refl. Qed.

Lemma demo_space_empty va : leaf (words demo_space) 4 demo_root va = None.
Proof. done. Qed.

Definition demo_va : Z := 0x400000.

(** One page mapped; and one huge page. *)
Definition demo_mapped : pg pmm := Eval vm_compute in (vmm_map_page demo_space demo_root demo_va 0x10b000 PAGE_FLAG_USER).2.
Definition demo_huge : pg pmm := Eval vm_compute in (vmm_map_huge_page demo_space demo_root demo_va 0x10b000 PAGE_FLAG_USER).2.

Lemma demo_huge_inv : exists tbl, pt_inv demo_huge demo_root tbl.
Proof.
  destruct (map_huge_spec demo_space demo_root _ demo_va 0x10b000 PAGE_FLAG_USER demo_space_inv ltac:(intros l e; by rewrite demo_space_empty))
    as (r & s' & tbl' & E & Hi & _). exists tbl'. assert (s' = demo_huge) as <-; [|exact Hi].
  change s' with (r, s').2. rewrite <- E. vm_compute. exact eq_refl.
Qed.

(** ** Witnesses *)

(** Next to the huge page, a small one. *)
Definition demo_both : pg pmm := Eval vm_compute in (vmm_map_page demo_huge demo_root 0x800000 0x10c000 PAGE_FLAG_USER).2.

Lemma vmm_refines_map_witness : vmm_virt_to_phys demo_both demo_root 0x412345 = 0x12345 /\ vmm_virt_to_phys demo_both demo_root 0x800123 = 0x10c123 /\ vmm_virt_to_phys demo_both demo_root 0x801123 = 0.
Proof.
  set (M1 := map_at 2 demo_va (huge_pde 0x10b000 PAGE_FLAG_USER) (fun _ => None)).
  assert (Hr : rtc (pt_step demo_root) (demo_space, fun _ => None) (demo_both, map_at 1 0x800000 (pte 0x10c000 PAGE_FLAG_USER) M1)).
  { eapply rtc_l; [apply (step_map_huge demo_root demo_space demo_huge _ demo_va 0x10b000 PAGE_FLAG_USER); [intros l e; discriminate|vm_compute; reflexivity]|].
    apply rtc_once, (step_map demo_root demo_huge demo_both M1 0x800000); [intros l e; vm_compute; discriminate|vm_compute; reflexivity]. }
  assert (Hs : pt_state demo_root (demo_space, fun _ => None)) by (split; [by eexists; apply demo_space_inv|]; intros va; apply demo_space_empty).
  destruct (vmm_refines_map demo_root demo_space _ demo_both _ Hs Hr) as [_ Ht]. split; [|split]; rewrite Ht; vm_compute; exact eq_refl.
Defined.

Lemma vmm_map_page_correct_witness : exists s', vmm_map_page demo_space demo_root demo_va 0x10b000 PAGE_FLAG_USER = (true, s') /\
  vmm_virt_to_phys s' demo_root demo_va = 0x10b000.
Proof.
  destruct (vmm_map_page_correct demo_space demo_root _ demo_va 0x10b000 PAGE_FLAG_USER demo_space_inv
    ltac:(intros l e; by rewrite demo_space_empty) eq_refl) as (r & s' & tbl' & E & _ & _ & Ht & _).
  assert (r = true) as -> by (change r with (r, s').1; rewrite <- E; by vm_compute).
  exists s'. split; [exact E|]. rewrite (Ht eq_refl). by vm_compute.
Defined.

Lemma vmm_unmap_page_correct_witness : vmm_virt_to_phys (vmm_unmap_page demo_mapped demo_root demo_va) demo_root demo_va = 0.
Proof.
  destruct (map_page_spec demo_space demo_root _ demo_va 0x10b000 PAGE_FLAG_USER demo_space_inv
    ltac:(intros l e; by rewrite demo_space_empty)) as (r & s' & tbl' & E & Hi & _).
  assert (s' = demo_mapped) as -> by (change s' with (r, s').2; rewrite <- E; vm_compute; exact eq_refl).
  destruct (vmm_unmap_page_correct demo_mapped demo_root tbl' demo_va Hi) as (tbl2 & _ & _ & Ht & _).
  apply Ht. intros l e Hl. vm_compute in Hl. by injection Hl as <- _.
Defined.

Lemma vmm_map_page_in_huge_witness : exists s', vmm_map_page demo_huge demo_root demo_va 0x10c000 PAGE_FLAG_USER = (true, s') /\
  words s' !! 0x10b000 = Some 0x10c005.
Proof.
  destruct demo_huge_inv as [tbl Hi].
  destruct (vmm_map_page_in_huge demo_huge demo_root tbl demo_va 0x10c000 PAGE_FLAG_USER 0x10b085 Hi) as (s' & E & Hw); [by vm_compute|].
  exists s'. split; [exact E|]. exact Hw.
Defined.
