(* ===== verification/ForkThms.v ===== *)
(** * The properties of address spaces *)

From S2P Require Import Prelude Bitmap DList Pmm PmmInv PmmSpec PmmReclaim PmmThms Vma Paging PagingInv PagingSpec PmmFrames PagingThms AddrSpace ForkInv KernelHalf ForkSpec Fork.

#[local] Opaque zsum for_ok zero_entries.

Section Thms.
Context {P : Type} `{!Frames P, !FramesLaws P}.
Implicit Types s : pg P.

(** ** A new address space *)

(** A new address space maps the kernel's half like the kernel's own tables and
    nothing in the user's half; its tables are a tree of their own and those of the
    kernel stay sound and translate as before.  Without memory nothing happens. *)
Theorem vmm_create_pml4_correct s kernel tbl : pt_inv s kernel tbl ->
  exists r s', vmm_create_pml4 s kernel = (r, s') /\ pt_inv s' kernel tbl /\
    (forall va, vmm_virt_to_phys s' kernel va = vmm_virt_to_phys s kernel va) /\
    match r with
    | None => True
    | Some new => new <> 0 /\ fr_ref (frames s) new = 0 /\ (exists tbl', pt_inv s' new tbl') /\
        forall va, vmm_virt_to_phys s' new va = if user_va va then 0 else vmm_virt_to_phys s kernel va
    end.
Proof.
  intros HI. pose proof (pi_wf _ _ _ HI) as HW. unfold vmm_create_pml4. destruct (alloc_frame s) as [[new|] s1] eqn:Ea.
  2:{ destruct (clones_oom (fun _ => false) kernel tbl s tbl s1 HI HW Ea) as [Hc _].
      exists None, s1. split; [done|]. split; [apply Hc|]. split; [|done]. intros va. rewrite !virt_to_phys_leaf.
      by destruct (alloc_frame_spec s kernel tbl None s1 HI Ea) as [-> _]. }
  destruct (clones_table (fun _ => false) kernel tbl s tbl new s1 4 HI HW ltac:(done) ltac:(lia) Ea) as (H1 & Hpg & Hn0 & Hnew & Ho & Hz & Hl & He & _).
  pose proof (pw_page _ _ _ HW kernel _ (pw_root _ _ _ HW)) as [Hpk _]. assert (Hne : new <> kernel) by (pose proof (pw_root _ _ _ HW); congruence).
  destruct (copy_kernel_half_spec (zero_entries 256 s1 new) new kernel Hpg Hpk Hne) as (Cf & Ce & Cw). set (s3 := copy_kernel_half _ new kernel) in *.
  destruct (zero_entries_spec 256 s1 new) as (Zf & Zz & Zw). destruct (zero_entries_spec 512 s1 new) as (Yf & Yz & Yw). set (s2 := zero_entries 512 s1 new) in *.
  assert (Hout : forall a, ~ in_page new a -> words s3 !! a = words s2 !! a).
  { intros a Ha. rewrite Cw, Zw, Yw; try done; intros i Hi ->; apply Ha, in_page_entry; lia. }
  assert (Hent : forall i, 0 <= i < 512 -> entry (words s3) new i = if i <? 256 then entry (words s2) new i else entry (words s2) kernel i).
  { intros i Hi. destruct (Z.ltb_spec i 256).
    - rewrite (Hz i Hi). unfold entry, word. rewrite Cw, Zz by lia. done.
    - rewrite Ce by lia. apply entry_word. rewrite Zw, Yw; [done| |]; intros j Hj E; apply (entry_addr_inj kernel new i j) in E as [? _]; (done || lia). }
  destruct (half_parent s2 s3 kernel new _ (cl_inv _ _ _ _ _ _ _ H1) (lookup_insert_eq _ _ _) Hne Ho (eq_trans Cf (eq_trans Zf (eq_sym Yf))) Hout) as [Hp Hpl].
  destruct (half_child s2 s3 kernel new _ (cl_inv _ _ _ _ _ _ _ H1) (lookup_insert_eq _ _ _) Hne Ho (eq_trans Cf (eq_trans Zf (eq_sym Yf))) Hout Hent) as [Hc Hcl].
  rewrite delete_insert_id in Hp by done. exists (Some new), s3. split; [done|]. split; [done|]. split.
  { intros va. by rewrite !virt_to_phys_leaf, Hpl, Hl. }
  split; [done|]. split; [by apply (cl_fresh _ _ _ _ _ _ _ H1 new 4%nat); [apply lookup_insert_eq|]|]. split; [by eexists|].
  intros va. rewrite !virt_to_phys_leaf, Hcl, Hl. unfold user_va. destruct (_ <? 256); [|done].
  rewrite leaf_S. by rewrite Hz by apply vidx_range.
Qed.

(** ** Fork *)

Section Fork.
Context (vmas : option vma_list) (root : Z) (tbl : gmap Z nat).

Notation cow s va r := (cow_leaf (is_shared_vma vmas) (fr_managed (frames s)) va r).

(** The two address spaces after a clone, in terms of the parent before it. *)
Record forked s (new : Z) s' : Prop := {
  fd_child : exists tbl', pt_inv s' new tbl' /\ forall q l, tbl' !! q = Some l -> is_Some (tbl !! q) \/ fr_ref (frames s) q = 0;
  fd_private : forall va pt, user_va va = true -> tab (words s') new va 3 = Some pt -> tbl !! pt = None;
  fd_kernel : forall va, user_va va = false ->
    leaf (words s') 4 root va = leaf (words s) 4 root va /\ leaf (words s') 4 new va = leaf (words s) 4 root va;
  fd_user : forall va, user_va va = true -> upath (words s) 4 root va = true ->
    leaf (words s') 4 root va = cow s va (leaf (words s) 4 root va) /\ leaf (words s') 4 new va = cow s va (leaf (words s) 4 root va);
  fd_hidden : forall va, user_va va = true -> upath (words s) 4 root va = false ->
    leaf (words s') 4 root va = leaf (words s) 4 root va /\ leaf (words s') 4 new va = None;
  fd_ref : forall q, page q -> 0 < fr_ref (frames s) q -> fr_ref (frames s') q = fr_ref (frames s) q + user_refs vmas root s q;
  fd_managed : forall q, fr_managed (frames s') q = fr_managed (frames s) q;
}.

(** The tables of the child's half of the user are its own. *)
Lemma new_tables s s2 s' new T2 va : clones (is_shared_vma vmas) root tbl s tbl s2 T2 -> T2 !! new = Some 4%nat -> tbl !! new = None ->
  (forall a, ~ in_page new a -> words s' !! a = words s2 !! a) -> orphan (words s2) T2 new ->
  (forall i, 0 <= i < 512 -> entry (words s') new i = if i <? 256 then entry (words s2) new i else entry (words s2) root i) ->
  user_va va = true -> forall k t, (k <= 3)%nat -> tab (words s') new va k = Some t -> T2 !! t = Some (4 - k)%nat /\ tbl !! t = None.
Proof.
  intros Hc Hnew Hn Hout Ho Hent Hu. pose proof (pi_wf _ _ _ (cl_inv _ _ _ _ _ _ _ Hc)) as HW.
  induction k as [|k IH]; intros t Hk Ht; [injection Ht as <-; done|]. apply tab_link in Ht as (t0 & Ht0 & Hlk & <-).
  destruct (IH t0 ltac:(lia) Ht0) as [H0 H0']. pose proof (vidx_range (4 - k) va) as Hr.
  assert (E : entry (words s') t0 (vidx (4 - k) va) = entry (words s2) t0 (vidx (4 - k) va)).
  { destruct (decide (t0 = new)) as [->|Hne].
    - rewrite Hnew in H0. injection H0 as H0. assert (k = 0%nat) as -> by lia. rewrite Hent by done. unfold user_va in Hu. change (4 - 0)%nat with 4%nat. by rewrite Hu.
    - apply entry_word, Hout. intros Ha. apply Hne, (pages_disjoint t0 new (t0 + 8 * vidx (4 - k) va)); [by eapply (pw_page _ _ _ HW)|by eapply (pw_page _ _ _ HW)|by apply in_page_entry|done]. }
  rewrite E in *. replace (4 - k)%nat with (S (4 - S k)) in * by lia. split; [by apply (pw_child _ _ _ HW)|]. by apply (cl_new _ _ _ _ _ _ _ Hc t0 _ _ H0 H0' Hr Hlk).
Qed.

Lemma cloned_forked s new s2 T2 : cloned (is_shared_vma vmas) root tbl 256 3 s tbl root 0 new s2 T2 -> pt_inv s root tbl ->
  let s' := copy_kernel_half s2 new root in
  forked s new s' /\ pt_inv s' root tbl /\ (forall va, leaf (words s') 4 root va = leaf (words s2) 4 root va) /\ frames s' = frames s2 /\
  (forall a, ~ in_page new a -> words s' !! a = words s2 !! a) /\ T2 !! new = Some 4%nat /\ tbl !! new = None.
Proof.
  intros [C1 [C2 C2'] C3 C4 C5 C6 _ _] HI s'. pose proof (pi_wf _ _ _ HI) as HW. pose proof (cl_inv _ _ _ _ _ _ _ C1) as HI2. pose proof (pi_wf _ _ _ HI2) as HW2.
  pose proof (pw_page _ _ _ HW2 new _ C2) as [Hpn _]. pose proof (pw_page _ _ _ HW2 root _ (pw_root _ _ _ HW2)) as [Hpr _].
  assert (Hne : new <> root) by (pose proof (pw_root _ _ _ HW); congruence).
  destruct (copy_kernel_half_spec s2 new root Hpn Hpr Hne) as (Hf & He & Hw). fold s' in Hf, He, Hw.
  assert (Hout : forall a, ~ in_page new a -> words s' !! a = words s2 !! a).
  { intros a Ha. apply Hw. intros i Hi ->. apply Ha, in_page_entry. lia. }
  assert (Hent : forall i, 0 <= i < 512 -> entry (words s') new i = if i <? 256 then entry (words s2) new i else entry (words s2) root i).
  { intros i Hi. destruct (Z.ltb_spec i 256); [|apply He; lia]. apply entry_word, Hw. intros j Hj. lia. }
  destruct (half_parent s2 s' root new T2 HI2 C2 Hne C3 Hf Hout) as [Hp Hpl].
  destruct (half_child s2 s' root new T2 HI2 C2 Hne C3 Hf Hout Hent) as [Hc Hcl].
  split; [|split; [|done]].
  - split.
    + eexists. split; [exact Hc|]. intros q l [_ Hq]%lookup_delete_Some. destruct (tbl !! q) eqn:E; [by left; eexists|right].
      by apply (cl_fresh _ _ _ _ _ _ _ C1 q l).
    + intros va pt Hu Hpt. apply (new_tables s s2 s' new T2 va C1 C2 C2' Hout C3 Hent Hu 3 pt ltac:(lia) Hpt).
    + intros va Hu. rewrite Hpl, Hcl, C4, below_user, Hu. cbn [andb]. split; [done|]. unfold user_va in Hu. by rewrite Hu.
    + intros va Hu Hpath. rewrite Hpl, Hcl, C4, below_user, Hu, Hpath. cbn [andb]. split; [done|]. unfold user_va in Hu. rewrite Hu.
      rewrite C6 by (by rewrite below_user). by rewrite Hpath.
    + intros va Hu Hpath. rewrite Hpl, Hcl, C4, below_user, Hu, Hpath. cbn [andb]. split; [done|]. unfold user_va in Hu. rewrite Hu.
      rewrite C6 by (by rewrite below_user). by rewrite Hpath.
    + intros q Hq Hr. rewrite Hf, C5 by done. rewrite decide_False; [done|]. intros [H1 [l H2]]. pose proof (cl_fresh _ _ _ _ _ _ _ C1 q l H2 H1). lia.
    + intros q. rewrite Hf. apply C1.
  - apply (pt_inv_sub root tbl s' (delete new T2)); [done| |].
    + apply map_subseteq_spec. intros t l Ht. rewrite lookup_delete_ne by congruence. eapply lookup_weaken; [done|apply C1].
    + apply (pt_wf_same (words s2)); [apply C1|]. intros t l i Ht Hi.
      rewrite (half_entry s2 s' root new T2 HI2 C2 Hout t l i); [apply same_entry_refl|eapply lookup_weaken; [done|apply C1]|congruence|done].
Qed.

(** What cloning guarantees, whether or not it succeeds. *)
Record fork_outcome s (new : Z) s' : Prop := {
  fo_inv : pt_inv s' root tbl;
  fo_phys : forall va, vmm_virt_to_phys s' root va = vmm_virt_to_phys s root va;
  fo_data : forall q a, page q -> tbl !! q = None -> 0 < fr_ref (frames s) q -> in_page q a -> words s' !! a = words s !! a;
  fo_child : new <> 0 -> forked s new s';
  fo_oom : new = 0 -> exists p, fr_alloc p = (None, frames s');
}.

Lemma fork_spec s : forkable vmas root tbl s -> exists new s', vmm_clone_user_mappings_vma s root vmas = (new, s') /\ fork_outcome s new s'.
Proof.
  intros Hk. pose proof (fk_inv _ _ _ _ Hk) as HI.
  assert (Hdata : forall s2 T2, clones (is_shared_vma vmas) root tbl s tbl s2 T2 ->
    forall q a, page q -> tbl !! q = None -> 0 < fr_ref (frames s) q -> in_page q a -> (forall t l, T2 !! t = Some l -> ~ in_page t a) /\ words s2 !! a = words s !! a).
  { intros s2 T2 Hc q a Hq Hn Hr Ha. assert (Ht : forall t l, T2 !! t = Some l -> ~ in_page t a).
    { intros t l Ht Ha'. assert (t = q) as ->.
      { apply (pages_disjoint t q a); [apply (pw_page _ _ _ (pi_wf _ _ _ (cl_inv _ _ _ _ _ _ _ Hc)) t l Ht)|done|done|done]. }
      pose proof (cl_fresh _ _ _ _ _ _ _ Hc q l Ht Hn). lia. }
    split; [done|]. by apply Hc. }
  destruct (clone_root_spec vmas root tbl s Hk) as [(s' & T' & E & Hc & Hoom)|(new & s2 & T2 & Hnz & E & Hc)].
  - exists 0, s'. split; [done|]. split; [apply (pt_inv_sub root tbl s' T'); apply Hc| | |done|done].
    + intros va. rewrite !virt_to_phys_leaf. destruct (cl_leaf _ _ _ _ _ _ _ Hc va) as [->| ->]; [done|]. apply cow_leaf_phys.
    + intros q a Hq Hn Hr Ha. by apply (Hdata s' T' Hc q a).
  - pose proof (cd_clones _ _ _ _ _ _ _ _ _ _ _ _ Hc) as Hcl. destruct (cloned_forked s new s2 T2 Hc HI) as (Hfk & Hp & Hl & Hf & Hw & Hn2 & _).
    exists new, (copy_kernel_half s2 new root). split; [done|]. split; [done| | |done|done].
    + intros va. rewrite !virt_to_phys_leaf, Hl. destruct (cl_leaf _ _ _ _ _ _ _ Hcl va) as [->| ->]; [done|]. apply cow_leaf_phys.
    + intros q a Hq Hn Hr Ha. destruct (Hdata s2 T2 Hcl q a Hq Hn Hr Ha) as [Ht <-]. by apply Hw, (Ht new 4%nat).
Qed.
(** C7: Forking an address space.  Whatever happens, the parent's tables stay sound,
    every address of the parent translates as before, and no frame in use other than
    the parent's tables changes its contents.  Unless memory runs out, parent and
    child map the same frames: pages of the kernel and shared pages with the same
    entry, private pages without the permission to write and marked copy-on-write in
    both, and each of their frames has one more reference per page. *)
Theorem vmm_fork_correct s : forkable vmas root tbl s ->
  exists new s', vmm_clone_user_mappings_vma s root vmas = (new, s') /\ pt_inv s' root tbl /\
    (forall va, vmm_virt_to_phys s' root va = vmm_virt_to_phys s root va) /\
    (forall q a, page q -> tbl !! q = None -> 0 < fr_ref (frames s) q -> in_page q a -> words s' !! a = words s !! a) /\
    (new <> 0 -> forked s new s') /\ (new = 0 -> exists p, fr_alloc p = (None, frames s')).
Proof. intros Hk. destruct (fork_spec s Hk) as (new & s' & E & []). by exists new, s'. Qed.
End Fork.
End Thms.

(** ** A process with one page *)

Lemma ref_at_managed sh M l m t base q i : 0 < ref_at sh M l m t base q i -> M q = true.
Proof.
  revert t base i. induction l as [|l IH]; intros t base i.
  - cbn [ref_at]. destruct (_ && _) eqn:E; [|lia]. apply andb_true_iff in E as [E <-%Z.eqb_eq]. intros _. by apply andb_true_iff in E as [_ ?].
  - rewrite ref_at_S. destruct (_ && _); [|lia]. unfold refs. intros (j & _ & Hj)%zsum_pos. by eapply IH.
Qed.

Definition demo_frame : Z := Eval vm_compute in default 0 (fr_alloc (frames demo_space)).1.
Definition demo_before : pg pmm := Eval vm_compute in Pg ∅ (fr_alloc (frames demo_space)).2.

(** The page mapped with the given flags. *)
Definition demo_with (flags : Z) : pg pmm := (vmm_map_page demo_before demo_root demo_va demo_frame flags).2.
Definition demo_proc : pg pmm := Eval vm_compute in demo_with (Z.lor PAGE_FLAG_USER PAGE_FLAG_RW).
Definition demo_vmas : option vma_list := Some vma_list_init.

Lemma demo_before_inv : pt_inv demo_before demo_root {[demo_root := 4%nat]} /\ fr_ref (frames demo_before) demo_frame = 1.
Proof.
  assert (Ea : alloc_frame demo_space = (Some demo_frame, demo_before)) by (vm_compute; exact eq_refl).
  destruct (alloc_data demo_space demo_root _ _ _ demo_space_inv Ea) as (HI & _ & Hp & _ & _ & _ & _ & _ & Hr). split; [exact HI|].
  rewrite Hr by exact Hp. by rewrite decide_True.
Qed.

Lemma demo_with_inv flags : Z.land flags PAGE_MASK = 0 -> (vmm_map_page demo_before demo_root demo_va demo_frame flags).1 = true ->
  exists tbl, pt_inv (demo_with flags) demo_root tbl /\ tbl !! demo_frame = None /\
    leaf (words (demo_with flags)) 4 demo_root demo_va = Some (1%nat, pte demo_frame flags).
Proof.
  intros Hf Hok. destruct demo_before_inv as [HI H1].
  destruct (map_page_spec demo_before demo_root _ demo_va demo_frame flags HI) as (r & s' & tbl & E & HI' & _ & _ & _ & Hnew & _ & Hl).
  { intros l e Hl. by vm_compute in Hl. }
  unfold demo_with. rewrite E in *. cbn [fst snd] in *. subst r. exists tbl. split; [exact HI'|]. split.
  - destruct (tbl !! demo_frame) as [l|] eqn:Et; [|done]. pose proof (Hnew demo_frame l Et) as H. rewrite H1 in H. discriminate H.
    apply lookup_singleton_ne. by vm_compute.
  - rewrite Hl. by rewrite bool_decide_true.
Qed.

Lemma demo_managed q : page q -> fr_managed (frames demo_proc) q = true -> exists k, q = k * 4096 /\ k ∈ seqZ 256 18.
Proof.
  intros [Hq _] [Hr _]%pmm_is_managed_true. exists (q / 4096). split; [pose proof (Z.div_mod q 4096 ltac:(lia)); lia|].
  apply elem_of_seqZ. unfold in_range in Hr. assert (lowest_page (frames demo_proc) = 256 /\ highest_page (frames demo_proc) = 274) as [E1 E2] by by vm_compute.
  rewrite E1, E2 in Hr. unfold PAGE_SIZE in Hr. lia.
Qed.

Lemma demo_refs q : 0 < user_refs demo_vmas demo_root demo_proc q -> q = demo_frame.
Proof.
  intros Hr. pose proof Hr as (i & _ & Hi)%zsum_pos. destruct (demo_managed q (ref_at_page _ _ _ _ _ _ _ _ Hi) (ref_at_managed _ _ _ _ _ _ _ _ Hi)) as (k & -> & Hk).
  assert (Hall : forallb (fun k => (user_refs demo_vmas demo_root demo_proc (k * 4096) =? 0) || (k * 4096 =? demo_frame)) (seqZ 256 18) = true) by by vm_compute.
  rewrite forallb_forall in Hall. specialize (Hall k ltac:(by apply list_elem_of_In)). apply orb_true_iff in Hall as [Hz%Z.eqb_eq|Hz%Z.eqb_eq]; [lia|done].
Qed.

Lemma demo_user_refs : user_refs demo_vmas demo_root demo_proc demo_frame = 1.
Proof. vm_compute. exact eq_refl. Qed.

Lemma demo_ref : fr_ref (frames demo_proc) demo_frame = 1.
Proof. vm_compute. exact eq_refl. Qed.

Lemma demo_forkable : exists tbl, forkable demo_vmas demo_root tbl demo_proc.
Proof.
  destruct (demo_with_inv (Z.lor PAGE_FLAG_USER PAGE_FLAG_RW) ltac:(done) ltac:(by vm_compute)) as (tbl & HI & Hn & _).
  assert (E : demo_with (Z.lor PAGE_FLAG_USER PAGE_FLAG_RW) = demo_proc) by (vm_compute; exact eq_refl). rewrite E in HI.
  assert (Hps : map_Forall (fun _ e => set e PAGE_FLAG_PS = false) (words demo_proc)) by (apply (bool_decide_unpack _); by vm_compute).
  exists tbl. split; [exact HI| |].
  - intros t l i Ht Hl _ Hp _. apply links_ok; [done|done|right]. unfold entry, word in *. destruct (words demo_proc !! (t + 8 * i)) as [e|] eqn:Ee; [|done].
    exact (Hps _ _ Ee).
  - intros q Hr. rewrite (demo_refs q Hr). split; [exact Hn|]. rewrite demo_user_refs, demo_ref. split; by vm_compute.
Qed.

(** ** Witnesses *)

Lemma vmm_create_pml4_correct_witness : exists new s', vmm_create_pml4 demo_space demo_root = (Some new, s') /\ vmm_virt_to_phys s' new demo_va = 0.
Proof.
  destruct (vmm_create_pml4_correct demo_space demo_root _ demo_space_inv) as (r & s' & E & _ & _ & H).
  assert (r = Some 0x102000) as -> by (change r with (r, s').1; rewrite <- E; vm_compute; exact eq_refl).
  destruct H as (_ & _ & _ & Ht). exists 0x102000, s'. split; [exact E|]. rewrite Ht. by vm_compute.
Defined.

Lemma vmm_fork_correct_witness : exists new s', vmm_clone_user_mappings_vma demo_proc demo_root demo_vmas = (new, s') /\ new <> 0 /\
  leaf (words s') 4 demo_root demo_va = Some (1%nat, demo_frame + 0x205) /\ leaf (words s') 4 new demo_va = Some (1%nat, demo_frame + 0x205).
Proof.
  destruct demo_forkable as [tbl Hk]. destruct (vmm_fork_correct demo_vmas demo_root tbl demo_proc Hk) as (new & s' & E & _ & _ & _ & Hf & _).
  assert (Hn : new <> 0) by (change new with (new, s').1; rewrite <- E; vm_compute; lia). exists new, s'. split; [exact E|]. split; [exact Hn|].
  destruct (fd_user _ _ _ _ _ _ (Hf Hn) demo_va ltac:(by vm_compute) ltac:(by vm_compute)) as [-> ->]. split; vm_compute; exact eq_refl.
Defined.
