(* ===== verification/PageFault.v ===== *)
(** * The page fault handler (kernel/src/mm/vmm.c)

    [vmm_handle_page_fault]: copy-on-write, growing a stack, and filling in pages on
    first access.  It works on the page tables ([Paging]), the regions of the
    process ([Vma]) and, through them, the frame allocator and the cache of region
    nodes.  The locks, the log and the TLB are left out. *)

From S2P Require Import Prelude ObjAlloc PmmReclaim Vma UserRange Paging AddrSpace.

Definition PROT_WRITE : Z := 0x2.
Definition PROT_EXEC : Z := 0x4.

Definition dp_build_flags (prot : Z) : Z :=
  if prot =? PROT_NONE then 0
  else
    let flags := Z.lor PAGE_FLAG_PRESENT PAGE_FLAG_USER in
    let flags := if set prot PROT_WRITE then Z.lor flags PAGE_FLAG_RW else flags in
    if negb (set prot PROT_EXEC) then Z.lor flags PAGE_FLAG_NX else flags.

(** How the handler ends: it returns, it terminates the faulting thread and returns
    0, or it leaves through [process_do_exit], which does not return. *)
Inductive fault_result :=
| FaultReturn (r : Z)
| FaultTerminate
| FaultExit (status : Z).

(** What it uses of the current thread. *)
Record fault_thread := FaultThread { ft_cr3 : Z; ft_mm : option vma_list }.

Section PageFault.
Context {P A : Type} `{!Frames P, !ObjAlloc A}.
Implicit Types s : pg P.
Implicit Types a : A.

(** A write to a page that is present: 0 when it was a copy-on-write page. *)
Definition cow_fault s (target_cr3 cr2 : Z) : Z * pg P :=
  let virt := Z.land cr2 PAGE_MASK in
  let e4 := read_entry s target_cr3 (pml4_index virt) in
  if negb (present e4) then (-1, s)
  else
    let e3 := read_entry s (Z.land e4 PAGE_MASK) (pdpt_index virt) in
    if negb (present e3) then (-1, s)
    else if set e3 PAGE_FLAG_PS then (-1, s)
    else
      let e2 := read_entry s (Z.land e3 PAGE_MASK) (pd_index virt) in
      if negb (present e2) then (-1, s)
      else if set e2 PAGE_FLAG_PS then (-1, s)
      else
        let pt := Z.land e2 PAGE_MASK in
        let i := pt_index virt in
        let e := read_entry s pt i in
        if negb (present e) then (-1, s)
        else if set e PAGE_FLAG_COW then
          let old_phys := Z.land e PAGE_MASK in
          if fr_ref (frames s) old_phys >? 1 then
            match alloc_frame s with
            | (None, s) => (-1, s)
            | (Some new_phys, s) =>
                let s := copy_page s new_phys old_phys in
                let e := read_entry s pt i in
                let s := set_entry s pt i
                  (Z.lor (Z.lor (Z.land new_phys PAGE_MASK) (Z.land (Z.land e (Z.lnot PAGE_MASK)) (Z.lnot PAGE_FLAG_COW))) PAGE_FLAG_RW) in
                (0, free_frame s old_phys)
            end
          else (0, set_entry s pt i (Z.lor (Z.land e (Z.lnot PAGE_FLAG_COW)) PAGE_FLAG_RW))
        else (-1, s).

(** The region of an address, growing a stack towards it if need be.  [None] when
    removing the old stack region has not ended. *)
Definition fault_region (vmas : vma_list) a (cr2 : Z) : option (option (Z * vma_data) * vma_list * A) :=
  match vma_find vmas cr2 with
  | Some v => Some (Some v, vmas, a)
  | None =>
      match vma_find_growdown vmas cr2 (8 * 1024 * 1024) with
      | None => Some (None, vmas, a)
      | Some (_, v) =>
          let new_start := Z.land cr2 (u64 (Z.lnot 0xFFF)) in
          match vma_remove vmas (v_start v) (v_end v) a with
          | None => None
          | Some (_, vmas, a) =>
              let '(r, vmas, a) := vma_add vmas new_start (v_end v) (v_prot v) (v_flags v) (v_fd v) (v_offset v) a in
              if negb (r =? 0) then
                let '(_, vmas, a) := vma_add vmas (v_start v) (v_end v) (v_prot v) (v_flags v) (v_fd v) (v_offset v) a in
                Some (None, vmas, a)
              else Some (vma_find vmas cr2, vmas, a)
          end
      end
  end.

(** Filling in a page of a region with protection [vma_prot]. *)
Definition demand_page s (target_cr3 cr2 vma_prot : Z) (user_mode write_fault : bool) : fault_result * pg P :=
  if vma_prot =? PROT_NONE then (FaultReturn (-1), s)
  else if write_fault && negb (set vma_prot PROT_WRITE) then (FaultReturn (-1), s)
  else
    match alloc_frame s with
    | (None, s) => (if user_mode then FaultTerminate else FaultReturn (-1), s)
    | (Some frame, s) =>
        let s := zero_entries 512 s frame in
        let flags := dp_build_flags vma_prot in
        match vmm_map_page s target_cr3 (Z.land cr2 (u64 (Z.lnot 0xFFF))) frame flags with
        | (false, s) => (if user_mode then FaultTerminate else FaultReturn (-1), free_frame s frame)
        | (true, s) => (FaultReturn 0, s)
        end
    end.

(** [current] is [None] without a current thread; [active_cr3] is the CR3 register.
    The thread is returned with its regions. *)
Definition vmm_handle_page_fault s a (active_cr3 : Z) (current : option fault_thread) (cr2 error_code : Z)
    : option (fault_result * option fault_thread * pg P * A) :=
  let user_mode := set error_code 0x4 in
  let write_fault := set error_code 0x2 in
  let present_bit := set error_code 0x1 in
  match current with
  | None => Some (FaultReturn (-1), current, s, a)
  | Some t =>
      let target_cr3 := if ft_cr3 t =? 0 then Z.land active_cr3 0xFFFFFFFFFFFFF000 else ft_cr3 t in
      if present_bit then
        if write_fault then let '(r, s) := cow_fault s target_cr3 cr2 in Some (FaultReturn r, current, s, a)
        else Some (FaultReturn (-1), current, s, a)
      else
        match ft_mm t with
        | None => Some (FaultReturn (-1), current, s, a)
        | Some vmas =>
            match fault_region vmas a cr2 with
            | None => None
            | Some (vma, vmas, a) =>
                let current := Some (FaultThread (ft_cr3 t) (Some vmas)) in
                match vma with
                | None =>
                    if negb user_mode && (cr2 <=? USER_SPACE_LIMIT) then Some (FaultExit 11, current, s, a)
                    else Some (FaultReturn (-1), current, s, a)
                | Some (_, v) =>
                    let '(r, s) := demand_page s target_cr3 cr2 (v_prot v) user_mode write_fault in
                    Some (r, current, s, a)
                end
            end
        end
  end.
End PageFault.
