(* ===== verification/PageFaultSpec.v ===== *)
(** * What the page fault handler does *)

From S2P Require Import Prelude ObjAlloc PmmReclaim Vma VmaTree VmaSpec UserRange Paging PagingInv PagingSpec AddrSpace ForkInv KernelHalf PageFault.

#[local] Opaque zero_entries copy_page.

(** ** Addresses *)

Lemma vidx_page l va : (1 <= l <= 4)%nat -> vidx l (Z.land va PAGE_MASK) = vidx l va.
Proof.
  intros Hl. apply Z.bits_inj'. intros n Hn. destruct (Z.lt_ge_cases n 9).
  - rewrite !testbit_vidx, Z.land_spec, mask_testbit by lia.
    rewrite (proj2 (Z.leb_le 12 _)), (proj2 (Z.ltb_lt _ 52)) by lia. by rewrite andb_true_r.
  - rewrite !(testbit_high _ 9); (done || apply vidx_range).
Qed.

Lemma vpn_page va : 0 <= va < 2 ^ 64 -> vpn (Z.land va (u64 (Z.lnot 0xFFF))) = vpn va.
Proof.
  intros Hva. unfold vpn. apply Z.bits_inj'. intros n Hn. rewrite !Z.land_spec, !Z.shiftr_spec, Z.land_spec by lia.
  destruct (Z.lt_ge_cases n 36); [|rewrite !Z.ones_spec_high by lia; by rewrite !andb_false_r]. f_equal.
  change (u64 (Z.lnot 0xFFF)) with (Z.shiftl (Z.ones 52) 12). rewrite Z.shiftl_spec, Z.ones_spec_low by lia. by rewrite andb_true_r.
Qed.

Section Spec.
Context {P : Type} `{!Frames P, !FramesLaws P}.
Implicit Types s : pg P.

(** ** Copy-on-write *)

(** The new entry of a copied page, and of one that has no other owner. *)
Definition copied_pte (f e : Z) : Z :=
  Z.lor (Z.lor (Z.land f PAGE_MASK) (Z.land (Z.land e (Z.lnot PAGE_MASK)) (Z.lnot PAGE_FLAG_COW))) PAGE_FLAG_RW.
Definition owned_pte (e : Z) : Z := Z.lor (Z.land e (Z.lnot PAGE_FLAG_COW)) PAGE_FLAG_RW.

(** The handler once the entry is found. *)
Definition cow_page s (pt i : Z) : Z * pg P :=
  let e := read_entry s pt i in
  if set e PAGE_FLAG_COW then
    if fr_ref (frames s) (Z.land e PAGE_MASK) >? 1 then
      match alloc_frame s with
      | (None, s) => (-1, s)
      | (Some f, s) =>
          let s := copy_page s f (Z.land e PAGE_MASK) in
          (0, free_frame (set_entry s pt i (copied_pte f (read_entry s pt i))) (Z.land e PAGE_MASK))
      end
    else (0, set_entry s pt i (owned_pte e))
  else (-1, s).

Lemma cow_fault_walk s root cr2 :
  match leaf (words s) 4 root cr2 with
  | Some (1%nat, e) => exists pt, tab (words s) root cr2 3 = Some pt /\ read_entry s pt (vidx 1 cr2) = e /\ present e = true /\
      cow_fault s root cr2 = cow_page s pt (vidx 1 cr2)
  | _ => cow_fault s root cr2 = (-1, s)
  end.
Proof.
  unfold cow_fault, read_entry. change (pml4_index (Z.land cr2 PAGE_MASK)) with (vidx 4 (Z.land cr2 PAGE_MASK)).
  change (pdpt_index (Z.land cr2 PAGE_MASK)) with (vidx 3 (Z.land cr2 PAGE_MASK)).
  change (pd_index (Z.land cr2 PAGE_MASK)) with (vidx 2 (Z.land cr2 PAGE_MASK)).
  change (pt_index (Z.land cr2 PAGE_MASK)) with (vidx 1 (Z.land cr2 PAGE_MASK)). rewrite !vidx_page by lia.
  rewrite leaf_S. cbn [tab Nat.sub]. set (e4 := entry (words s) root (vidx 4 cr2)).
  assert (El : links 4 e4 = present e4) by (unfold links, maps; cbn; by rewrite andb_true_r). rewrite El.
  assert (Em : maps 4 e4 = false) by done. rewrite Em. destruct (present e4); [|done]. cbn [negb].
  rewrite leaf_S. set (e3 := entry (words s) _ (vidx 3 cr2)).
  unfold links. assert (Em3 : maps 3 e3 = set e3 PAGE_FLAG_PS) by done. rewrite Em3. destruct (present e3); [|done]. cbn [negb andb].
  destruct (set e3 PAGE_FLAG_PS); [done|]. cbn [negb]. rewrite leaf_S. set (e2 := entry (words s) _ (vidx 2 cr2)).
  assert (Em2 : maps 2 e2 = set e2 PAGE_FLAG_PS) by done. rewrite Em2. destruct (present e2); [|done]. cbn [negb andb].
  destruct (set e2 PAGE_FLAG_PS); [done|]. cbn [negb]. rewrite leaf_S. set (e1 := entry (words s) _ (vidx 1 cr2)).
  destruct (present e1) eqn:Hp; [|done]. cbn [negb]. assert (Em1 : maps 1 e1 = true) by done. rewrite Em1.
  exists (Z.land e2 PAGE_MASK). split; [done|]. split; [done|]. split; done.
Qed.

(** Bits of the new entries. *)
Lemma copied_pte_spec f e : page f -> present e = true ->
  present (copied_pte f e) = true /\ set (copied_pte f e) PAGE_FLAG_RW = true /\ set (copied_pte f e) PAGE_FLAG_COW = false /\
  Z.land (copied_pte f e) PAGE_MASK = f.
Proof.
  intros Hf Hp. rewrite present_testbit in *. unfold PAGE_FLAG_RW, PAGE_FLAG_COW. rewrite !land_pow2_testbit by lia.
  assert (Hb : forall n, 0 <= n -> Z.testbit (copied_pte f e) n =
    (Z.testbit f n && Z.testbit PAGE_MASK n) || (Z.testbit e n && negb (Z.testbit PAGE_MASK n) && negb (n =? 9)) || (n =? 1)).
  { intros n Hn. unfold copied_pte, PAGE_FLAG_RW, PAGE_FLAG_COW. rewrite !Z.lor_spec, !Z.land_spec, !Z.lnot_spec by done.
    rewrite !Z.shiftl_1_l, !Z.pow2_bits_eqb by lia. by rewrite (Z.eqb_sym 1 n), (Z.eqb_sym 9 n). }
  rewrite !Hb by lia. split; [by rewrite Hp, orb_true_r|]. split; [by rewrite orb_true_r|]. split; [by rewrite !andb_false_r|].
  apply Z.bits_inj'. intros n Hn. rewrite Z.land_spec, Hb, mask_testbit by done.
  destruct (Z.leb_spec 12 n); [|rewrite !andb_false_r; symmetry; apply page_testbit; (done || lia)].
  destruct (Z.ltb_spec n 52); [|rewrite !andb_false_r; symmetry; apply page_testbit; (done || lia)]. cbn [andb negb].
  rewrite (proj2 (Z.eqb_neq n 1)) by lia. by rewrite !andb_true_r, andb_false_r, !orb_false_r.
Qed.

Lemma owned_pte_spec e : present e = true ->
  present (owned_pte e) = true /\ set (owned_pte e) PAGE_FLAG_RW = true /\ set (owned_pte e) PAGE_FLAG_COW = false /\
  Z.land (owned_pte e) PAGE_MASK = Z.land e PAGE_MASK.
Proof.
  intros Hp. rewrite present_testbit in *. unfold PAGE_FLAG_RW, PAGE_FLAG_COW. rewrite !land_pow2_testbit by lia.
  assert (Hb : forall n, 0 <= n -> Z.testbit (owned_pte e) n = (Z.testbit e n && negb (n =? 9)) || (n =? 1)).
  { intros n Hn. unfold owned_pte, PAGE_FLAG_RW, PAGE_FLAG_COW. rewrite !Z.lor_spec, !Z.land_spec, !Z.lnot_spec by done.
    rewrite !Z.shiftl_1_l, !Z.pow2_bits_eqb by lia. by rewrite (Z.eqb_sym 1 n), (Z.eqb_sym 9 n). }
  rewrite !Hb by lia. split; [by rewrite Hp|]. split; [by rewrite orb_true_r|]. split; [by rewrite andb_false_r|].
  apply Z.bits_inj'. intros n Hn. rewrite !Z.land_spec, Hb, mask_testbit by done.
  destruct (Z.leb_spec 12 n); [|by rewrite !andb_false_r]. rewrite (proj2 (Z.eqb_neq n 1)), (proj2 (Z.eqb_neq n 9)) by lia.
  by rewrite andb_true_r, orb_false_r.
Qed.

(** A page made writable: only its translation changes, the frame has no other owner
    and holds what was there, and no other frame is written to. *)
Record made_writable s (root : Z) (tbl : gmap Z nat) (cr2 e : Z) s' (e' : Z) : Prop := {
  mw_leaf : forall va, leaf (words s') 4 root va = if decide (vpn cr2 = vpn va) then Some (1%nat, e') else leaf (words s) 4 root va;
  mw_rw : set e' PAGE_FLAG_RW = true;
  mw_cow : set e' PAGE_FLAG_COW = false;
  mw_data : forall i, 0 <= i < 512 -> entry (words s') (Z.land e' PAGE_MASK) i = entry (words s) (Z.land e PAGE_MASK) i;
  mw_sole : fr_ref (frames s') (Z.land e' PAGE_MASK) = 1;
  mw_frame : Z.land e' PAGE_MASK = Z.land e PAGE_MASK /\ fr_ref (frames s) (Z.land e PAGE_MASK) = 1 \/
    fr_ref (frames s) (Z.land e' PAGE_MASK) = 0 /\ 1 < fr_ref (frames s) (Z.land e PAGE_MASK) /\
    fr_ref (frames s') (Z.land e PAGE_MASK) = fr_ref (frames s) (Z.land e PAGE_MASK) - 1;
  mw_refs : forall q, page q -> q <> Z.land e PAGE_MASK -> q <> Z.land e' PAGE_MASK -> fr_ref (frames s') q = fr_ref (frames s) q;
  mw_words : forall q a, page q -> tbl !! q = None -> q <> Z.land e' PAGE_MASK -> in_page q a -> words s' !! a = words s !! a;
  mw_only : forall pt a, tab (words s) root cr2 3 = Some pt -> a <> pt + 8 * vidx 1 cr2 -> ~ in_page (Z.land e' PAGE_MASK) a -> words s' !! a = words s !! a;
  mw_alloc : Z.land e' PAGE_MASK = Z.land e PAGE_MASK \/ Z.land e' PAGE_MASK <> 0 /\ fr_managed (frames s) (Z.land e' PAGE_MASK) = true /\ tbl !! Z.land e' PAGE_MASK = None;
  mw_managed : forall q, fr_managed (frames s') q = fr_managed (frames s) q;
}.

Section Cow.
Context s (root : Z) (tbl : gmap Z nat) (cr2 pt : Z).
Let e := read_entry s pt (vidx 1 cr2).
Let old := Z.land e PAGE_MASK.
Context (HI : pt_inv s root tbl) (Ht : tab (words s) root cr2 3 = Some pt) (Hp : present e = true).
Context (Hm : fr_managed (frames s) old = true) (Hr : 0 < fr_ref (frames s) old) (Hd : tbl !! old = None).

Lemma cow_pt : tbl !! pt = Some 1%nat /\ page pt.
Proof.
  pose proof (pi_wf _ _ _ HI) as HW. pose proof (tab_level _ _ _ cr2 3 pt HW ltac:(lia) Ht) as Hl. cbn in Hl. split; [done|].
  apply (pw_page _ _ _ HW pt _ Hl).
Qed.

(** Writing the entry does not touch data. *)
Lemma set_pte_words (x : pg P) v q a : page q -> tbl !! q = None -> in_page q a -> words (set_entry x pt (vidx 1 cr2) v) !! a = words x !! a.
Proof.
  intros Hq Hn Ha. destruct cow_pt as [Hl Hpg]. rewrite words_set, lookup_insert_ne; [done|]. intros <-. assert (pt = q) as ->; [|congruence].
  apply (pages_disjoint pt q (pt + 8 * vidx 1 cr2)); [done|done|apply in_page_entry, vidx_range|done].
Qed.

Lemma cow_promote : fr_ref (frames s) old <= 1 -> let s' := set_entry s pt (vidx 1 cr2) (owned_pte e) in
  pt_inv s' root tbl /\ made_writable s root tbl cr2 e s' (owned_pte e).
Proof.
  intros H1 s'. destruct (owned_pte_spec e Hp) as (Ep & Erw & Ecow & Em). destruct (set_leaf_spec s root tbl cr2 pt (owned_pte e) HI Ht) as [HI' Hl].
  split; [done|]. split; rewrite ?Em; try done.
  - intros va. rewrite Hl. unfold entry_leaf. by rewrite Ep.
  - intros i Hi. apply entry_word. by apply (set_pte_words s _ old); [apply mask_page| |apply in_page_entry].
  - fold old. change (frames s') with (frames s). lia.
  - left. split; [done|]. fold old. lia.
  - intros q a Hq Hn _ Ha. by apply (set_pte_words s _ q).
  - intros pt' a Ht' Ha _. assert (pt' = pt) as -> by congruence. unfold s'. by rewrite words_set, lookup_insert_ne by done.
  - by left.
Qed.

Lemma cow_copy f s1 : alloc_frame s = (Some f, s1) -> 1 < fr_ref (frames s) old ->
  let s2 := copy_page s1 f old in let e' := copied_pte f (read_entry s2 pt (vidx 1 cr2)) in
  let s' := free_frame (set_entry s2 pt (vidx 1 cr2) e') old in
  pt_inv s' root tbl /\ made_writable s root tbl cr2 e s' e'.
Proof.
  intros Ea Hshared s2 e' s'. destruct (alloc_data s root tbl f s1 HI Ea) as (HI1 & Ew & Hpf & Hf0 & Hnf & Hzf & Hmf & Hmg & Hrf).
  assert (Hne : f <> old) by (intros E; rewrite E in Hzf; lia). destruct (copy_page_spec s1 f old Hpf (mask_page e) Hne) as (Cf & Ce & Cw). fold s2 in Cf, Ce, Cw. clearbody s2.
  assert (Cout : forall a, ~ in_page f a -> words s2 !! a = words s !! a).
  { intros a Ha. rewrite Cw, Ew; [done|]. intros i Hi ->. by apply Ha, in_page_entry. }
  destruct (write_data s1 s2 root tbl f HI1 Hpf Hnf Cf) as (HI2 & Hent & Hlf); [intros a Ha; by rewrite Cout, Ew|].
  destruct cow_pt as [Hlpt Hppt].
  assert (Ee : read_entry s2 pt (vidx 1 cr2) = e) by (unfold read_entry; rewrite (Hent pt _ _ Hlpt (vidx_range _ _)); by rewrite Ew).
  assert (Ht2 : tab (words s2) root cr2 3 = Some pt).
  { rewrite (tab_like (words s) (words s2) root tbl cr2 (pi_wf _ _ _ HI)) by (lia || intros t l i Htl Hi; rewrite (Hent t l i Htl Hi), Ew; apply like_refl). done. }
  unfold s', e'. rewrite Ee. destruct (copied_pte_spec f e Hpf Hp) as (Ep & Erw & Ecow & Em). set (v := copied_pte f e) in *.
  destruct (set_leaf_spec s2 root tbl cr2 pt v HI2 Ht2) as [HI3 Hl]. set (s3 := set_entry s2 pt (vidx 1 cr2) v) in *.
  assert (Hr3 : forall q, page q -> fr_ref (frames s3) q = if decide (q = f) then 1 else fr_ref (frames s) q) by (intros q Hq; change (frames s3) with (frames s2); by rewrite Cf, Hrf).
  assert (Hold3 : fr_ref (frames s3) old = fr_ref (frames s) old) by (rewrite Hr3 by apply mask_page; by rewrite decide_False by done).
  destruct (free_data s3 root tbl old HI3 (mask_page e)) as (HI4 & Hm4 & Hr4); [change (frames s3) with (frames s2); by rewrite Cf, Hmg|lia|done|].
  split; [done|]. split; rewrite ?Em; [|exact Erw|exact Ecow| | | | | | |by right|].
  - intros va. cbn [free_frame with_frames words]. rewrite Hl, Hlf, Ew. unfold entry_leaf. by rewrite Ep.
  - intros i Hi. cbn [free_frame with_frames words]. fold old. rewrite Ew in Ce. rewrite <- (Ce i Hi).
    apply entry_word. by apply (set_pte_words s2 _ f); [| |apply in_page_entry].
  - by rewrite Hr4, decide_False, Hr3, decide_True.
  - right. split; [done|]. split; [done|]. fold old. rewrite Hr4, decide_True by (done || apply mask_page). by rewrite Hold3.
  - intros q Hq H1 H2. by rewrite Hr4, decide_False, Hr3, decide_False.
  - intros q a Hq Hn Hqf Ha. cbn [free_frame with_frames words]. rewrite <- (Cout a); [by apply (set_pte_words s2 _ q)|].
    intros Ha'. by apply Hqf, (pages_disjoint q f a).
  - intros pt' a Ht' Ha Hna. assert (pt' = pt) as -> by congruence. cbn [free_frame with_frames words]. unfold s3.
    rewrite words_set, lookup_insert_ne by done. by apply Cout.
  - intros q. rewrite Hm4. change (frames s3) with (frames s2). by rewrite Cf, Hmg.
Qed.

Lemma cow_page_spec : set e PAGE_FLAG_COW = true ->
  exists r s', cow_page s pt (vidx 1 cr2) = (r, s') /\ pt_inv s' root tbl /\
    ((r = 0 /\ exists e', made_writable s root tbl cr2 e s' e') \/
     (r = -1 /\ words s' = words s /\ 1 < fr_ref (frames s) old /\ (exists p, fr_alloc p = (None, frames s')) /\
      (forall q, page q -> fr_ref (frames s') q = fr_ref (frames s) q) /\ forall q, fr_managed (frames s') q = fr_managed (frames s) q)).
Proof.
  intros Hcow. unfold cow_page. fold e old. rewrite Hcow. destruct (Z.gtb_spec (fr_ref (frames s) old) 1) as [H1|H1].
  - destruct (alloc_frame s) as [[f|] s1] eqn:Ea.
    + destruct (cow_copy f s1 Ea H1) as [H2 H3]. eexists 0, _. split; [done|]. split; [done|]. left. split; [done|]. by eexists.
    + destruct (alloc_frame_spec s root tbl None s1 HI Ea) as [Ew Hg]. exists (-1), s1. split; [done|]. split; [apply Hg|]. right.
      do 3 (split; [done|]). split; [|split; [|apply Hg]].
      * exists (frames s). unfold alloc_frame in Ea. destruct (fr_alloc (frames s)) as [r p]. by injection Ea as -> <-.
      * intros q Hq. rewrite (gr_ref _ _ _ _ _ Hg q Hq), decide_False by (intros [? [? ?]]; congruence). done.
  - destruct (cow_promote H1) as [H2 H3]. eexists 0, _. split; [done|]. split; [done|]. left. split; [done|]. by eexists.
Qed.
End Cow.

(** ** Filling in a page *)

Lemma dp_build_flags_mask prot : Z.land (dp_build_flags prot) PAGE_MASK = 0.
Proof. unfold dp_build_flags. destruct (_ =? _); [done|]. destruct (set prot PROT_WRITE), (set prot PROT_EXEC); by vm_compute. Qed.

(** What the access needs of the protection of the region. *)
Definition allowed (prot : Z) (write_fault : bool) : bool := negb (prot =? PROT_NONE) && (negb write_fault || set prot PROT_WRITE).

(** A page filled in: a frame of zeros that nothing referred to, with the access the
    region grants; no other page and no data changes. *)
Record filled_in s (root : Z) (tbl : gmap Z nat) (cr2 prot : Z) s' (f : Z) : Prop := {
  fi_frame : page f /\ f <> 0 /\ fr_ref (frames s) f = 0 /\ fr_ref (frames s') f = 1;
  fi_leaf : forall va, leaf (words s') 4 root va =
    if decide (vpn cr2 = vpn va) then Some (1%nat, pte f (dp_build_flags prot)) else leaf (words s) 4 root va;
  fi_zero : forall i, 0 <= i < 512 -> entry (words s') f i = 0;
  fi_words : forall q a, page q -> tbl !! q = None -> 0 < fr_ref (frames s) q -> in_page q a -> words s' !! a = words s !! a;
  fi_refs : forall q, page q -> 0 < fr_ref (frames s) q -> fr_ref (frames s') q = fr_ref (frames s) q;
  fi_alloc : fr_managed (frames s) f = true;
  fi_managed : forall q, fr_managed (frames s') q = fr_managed (frames s) q;
}.

(** A fault that could not be served for lack of memory. *)
Record not_filled s (root : Z) (tbl : gmap Z nat) s' : Prop := {
  nf_leaf : forall va, leaf (words s') 4 root va = leaf (words s) 4 root va;
  nf_words : forall q a, page q -> tbl !! q = None -> 0 < fr_ref (frames s) q -> in_page q a -> words s' !! a = words s !! a;
  nf_refs : forall q, page q -> 0 < fr_ref (frames s) q -> fr_ref (frames s') q = fr_ref (frames s) q;
  nf_managed : forall q, fr_managed (frames s') q = fr_managed (frames s) q;
}.

(** Data in use is not in a page that was free. *)
Lemma used_not_free s q f a : page q -> page f -> 0 < fr_ref (frames s) q -> fr_ref (frames s) f = 0 -> in_page q a -> ~ in_page f a.
Proof. intros Hq Hf Hr H0 Ha Ha'. assert (q = f) as -> by (by apply (pages_disjoint q f a)). lia. Qed.

Section Demand.
Context s (root : Z) (tbl : gmap Z nat) (cr2 prot : Z).
Context (HI : pt_inv s root tbl) (Hcr2 : 0 <= cr2 < 2 ^ 64) (Habs : leaf (words s) 4 root cr2 = None).

(** Taking a frame, clearing it and mapping it. *)
Lemma demand_map f s1 : alloc_frame s = (Some f, s1) ->
  exists r s3 tbl3, vmm_map_page (zero_entries 512 s1 f) root (Z.land cr2 (u64 (Z.lnot 0xFFF))) f (dp_build_flags prot) = (r, s3) /\
    pt_inv s3 root tbl3 /\ tbl ⊆ tbl3 /\ tbl3 !! f = None /\ fr_managed (frames s3) f = true /\ fr_ref (frames s3) f = 1 /\
    (if r then filled_in s root tbl cr2 prot s3 f else not_filled s root tbl s3) /\ page f /\ fr_ref (frames s) f = 0 /\
    forall q l, tbl3 !! q = Some l -> tbl !! q = None -> fr_ref (frames s) q = 0.
Proof.
  intros Ea. destruct (alloc_data s root tbl f s1 HI Ea) as (HI1 & Ew & Hpf & Hf0 & Hnf & Hzf & Hmf & Hmg & Hrf).
  destruct (zero_entries_spec 512 s1 f) as (Zf & Zz & Zw). change (Z.of_nat 512) with 512 in *. set (s2 := zero_entries 512 s1 f) in *. clearbody s2.
  assert (Zout : forall a, ~ in_page f a -> words s2 !! a = words s1 !! a) by (intros a Ha; apply Zw; intros i Hi ->; by apply Ha, in_page_entry).
  destruct (write_data s1 s2 root tbl f HI1 Hpf Hnf Zf Zout) as (HI2 & _ & Hl2). rewrite Ew in Hl2.
  set (va := Z.land cr2 _). assert (Hva : vpn va = vpn cr2) by (by apply vpn_page).
  assert (Hnh : no_huge s2 root va) by (intros l e; rewrite Hl2, (leaf_vpn s root va cr2 Hva), Habs; done).
  destruct (map_page_spec s2 root tbl va f (dp_build_flags prot) HI2 Hnh) as (r & s3 & tbl3 & -> & HI3 & Hsub & Hr3 & Hm3 & Hnew & Hw3 & Hl3).
  assert (Hr2 : forall q, page q -> fr_ref (frames s2) q = if decide (q = f) then 1 else fr_ref (frames s) q) by (intros q Hq; by rewrite Zf, Hrf).
  assert (Hf3 : tbl3 !! f = None).
  { destruct (tbl3 !! f) as [l|] eqn:E; [|done]. pose proof (Hnew f l E Hnf) as H. rewrite Hr2, decide_True in H by done. lia. }
  assert (Hfr3 : fr_ref (frames s3) f = 1) by (rewrite Hr3, decide_False, Hr2, decide_True by (done || intros [_ [? ?]]; congruence); done).
  assert (Hwords : forall q a, page q -> tbl !! q = None -> 0 < fr_ref (frames s) q -> in_page q a -> words s3 !! a = words s !! a).
  { intros q a Hq Hn Hr Ha. pose proof (used_not_free s q f a Hq Hpf Hr Hzf Ha) as Hna. rewrite Hw3, Zout, Ew; [done|done|].
    intros t l Ht Ha'. assert (t = q) as -> by (apply (pages_disjoint t q a); [apply (pw_page _ _ _ (pi_wf _ _ _ HI3) t l Ht)|done|done|done]).
    pose proof (Hnew q l Ht Hn) as H0. rewrite Hr2 in H0 by done. destruct (decide (q = f)); lia. }
  assert (Hrefs : forall q, page q -> 0 < fr_ref (frames s) q -> fr_ref (frames s3) q = fr_ref (frames s) q).
  { intros q Hq Hr. assert (Hr2q : fr_ref (frames s2) q = fr_ref (frames s) q) by (rewrite Hr2, decide_False; [done|intros ->; lia|done]).
    rewrite Hr3, decide_False by (done || intros [H1 [l H2]]; pose proof (Hnew q l H2 H1); lia). done. }
  assert (Hmg3 : forall q, fr_managed (frames s3) q = fr_managed (frames s) q) by (intros q; by rewrite Hm3, Zf, Hmg).
  exists r, s3, tbl3. do 4 (split; [done|]). split; [by rewrite Hmg3|]. split; [done|]. split.
  2:{ split; [done|]. split; [done|]. intros q l Ht Hn. pose proof (pw_page _ _ _ (pi_wf _ _ _ HI3) q l Ht) as [Hq _]. pose proof (Hnew q l Ht Hn) as H0.
      rewrite Hr2 in H0 by done. destruct (decide (q = f)); [lia|done]. }
  destruct r; (split; [| |..]; try done).
  - intros va'. rewrite Hl3, Hl2, Hva. cbn [andb]. by destruct (decide _); case_bool_decide.
  - intros i Hi. unfold entry, word. rewrite Hw3, Zz by (done || intros t l Ht Ha; assert (t = f) as -> by (apply (pages_disjoint t f (f + 8 * i)); [apply (pw_page _ _ _ (pi_wf _ _ _ HI3) t l Ht)|done|done|by apply in_page_entry]); congruence). done.
  - intros va'. by rewrite Hl3, Hl2.
Qed.

Lemma demand_page_spec um wf : exists r s' tbl', demand_page s root cr2 prot um wf = (r, s') /\ pt_inv s' root tbl' /\ tbl ⊆ tbl' /\
  (forall q l, tbl' !! q = Some l -> tbl !! q = None -> fr_ref (frames s) q = 0) /\
  if allowed prot wf then
    (r = FaultReturn 0 /\ exists f, filled_in s root tbl cr2 prot s' f /\ tbl' !! f = None) \/
    (r = (if um then FaultTerminate else FaultReturn (-1)) /\ not_filled s root tbl s')
  else r = FaultReturn (-1) /\ s' = s.
Proof.
  assert (Hsame : exists tbl', pt_inv s root tbl' /\ tbl ⊆ tbl' /\ forall q l, tbl' !! q = Some l -> tbl !! q = None -> fr_ref (frames s) q = 0).
  { exists tbl. do 2 (split; [done|]). congruence. }
  unfold demand_page, allowed. destruct (prot =? PROT_NONE); [destruct Hsame as (tbl' & H); exists (FaultReturn (-1)), s, tbl'; by intuition|]. cbn [negb andb].
  destruct wf, (set prot PROT_WRITE) eqn:Ew; cbn [negb andb orb]; try (destruct Hsame as (tbl' & H); exists (FaultReturn (-1)), s, tbl'; by intuition). all: clear Hsame.
  all: destruct (alloc_frame s) as [[f|] s1] eqn:Ea.
  all: try (destruct (alloc_frame_spec s root tbl None s1 HI Ea) as [Ew1 Hg]; eexists _, s1, tbl; split; [done|]; split; [apply Hg|]; split; [done|]; split; [congruence|]; right;
    split; [done|]; split; [apply Hg|by intros; rewrite Ew1| |apply Hg]; intros q Hq _; rewrite (gr_ref _ _ _ _ _ Hg q Hq), decide_False by (intros [? [? ?]]; congruence); done).
  all: destruct (demand_map f s1 Ea) as (r & s3 & tbl3 & -> & HI3 & Hsub & Hn3 & Hm3 & Hr3 & Hres & Hpf & Hz & Hnew); destruct r.
  all: try (eexists _, s3, tbl3; split; [done|]; split; [done|]; split; [done|]; split; [done|]; left; split; [done|]; by exists f).
  all: destruct (free_data s3 root tbl3 f HI3 Hpf Hm3 ltac:(lia) Hn3) as (HI4 & Hm4 & Hr4); destruct Hres as [N1 N2 N3 N4];
    eexists _, (free_frame s3 f), tbl3; split; [done|]; split; [done|]; split; [done|]; split; [done|]; right; split; [done|]; split; [done|done| |by intros q; rewrite Hm4];
    intros q Hq Hr; rewrite Hr4, decide_False by (done || intros ->; lia); by apply N3.
Qed.
End Demand.
End Spec.
