(* ===== verification/PageFaultThms.v ===== *)
(** * The properties of the page fault handler *)

From S2P Require Import Prelude ObjAlloc Bitmap DList Pmm PmmInv PmmSpec PmmReclaim PmmThms Vma VmaTree VmaSpec VmaThms UserRange Paging PagingInv PagingSpec PmmFrames PagingThms AddrSpace ForkInv KernelHalf ForkSpec Fork ForkThms PageFault PageFaultSpec.

#[local] Opaque zsum for_ok zero_entries copy_page.

(** ** The region of a fault *)

Section Region.
Context {A : Type} `{!ObjAlloc A}.

(** A stack region grown down to the page of an address. *)
Definition grown (v : vma_data) (cr2 : Z) : vma_data :=
  VmaData (Z.land cr2 (u64 (Z.lnot 0xFFF))) (v_end v) (v_prot v) (v_flags v) (v_fd v) (v_offset v).

Lemma page_start cr2 : 0 <= cr2 < 2 ^ 64 -> 0 <= Z.land cr2 (u64 (Z.lnot 0xFFF)) <= cr2.
Proof.
  intros Hc. assert (E : Z.land cr2 (u64 (Z.lnot 0xFFF)) = cr2 - Z.land cr2 0xFFF).
  { change (u64 (Z.lnot 0xFFF)) with (Z.shiftl (Z.ones 52) 12). rewrite Z.sub_nocarry_ldiff.
    - apply Z.bits_inj'. intros n Hn. rewrite Z.ldiff_spec, !Z.land_spec, Z.shiftl_spec by done. change 0xFFF with (Z.ones 12).
      destruct (Z.lt_ge_cases n 12); [rewrite (Z.testbit_neg_r _ (n - 12)), Z.ones_spec_low, !andb_true_r, andb_false_r by lia; by rewrite andb_negb_r|].
      rewrite (Z.ones_spec_high 12 n) by lia. rewrite andb_false_r, andb_true_r. destruct (Z.lt_ge_cases n 64); [rewrite Z.ones_spec_low by lia; by rewrite andb_true_r|].
      by rewrite (testbit_high cr2 64) by lia.
    - apply Z.bits_inj'. intros n Hn. rewrite Z.ldiff_spec, Z.land_spec, Z.bits_0. by destruct (Z.testbit cr2 n), (Z.testbit 0xFFF n). }
  rewrite E. change 0xFFF with (Z.ones 12). rewrite Z.land_ones by lia. pose proof (Z.mod_pos_bound cr2 (2 ^ 12) ltac:(lia)).
  pose proof (Z.mod_le cr2 (2 ^ 12) ltac:(lia) ltac:(lia)). lia.
Qed.

(** What can happen to the regions: nothing; a stack within 8 MB grows; or, when the
    grown region does not fit, the old one is put back, if memory for it is left. *)
Inductive stack_growth (l : list vma_data) (cr2 : Z) : option (Z * vma_data) -> list vma_data -> Prop :=
| growth_none r : stack_growth l cr2 r l
| growth_done v p l' : v ∈ l -> Z.land (v_flags v) MAP_GROWSDOWN <> 0 -> cr2 < v_start v -> u64 (v_end v - 8 * 1024 * 1024) <= cr2 ->
    (forall addr, view l' addr = if containsb (grown v cr2) addr then Some (attr_of (grown v cr2) addr) else view l addr) ->
    (forall addr, contains (grown v cr2) addr -> contains v addr \/ view l addr = None) -> stack_growth l cr2 (Some (p, grown v cr2)) l'
| growth_failed v l' : v ∈ l -> cr2 < v_start v ->
    (forall addr, view l' addr = view l addr \/ contains v addr /\ view l' addr = None) ->
    (never_fails (A := A) -> forall addr, view l' addr = view l addr) -> stack_growth l cr2 None l'.

Lemma contains_elem l v w addr : ordered l -> v ∈ l -> w ∈ l -> contains v addr -> contains w addr -> v = w.
Proof.
  intros Ho Hv Hw Cv Cw. apply list_elem_of_split in Hv as (l1 & l2 & ->). apply ordered_middle in Ho as (_ & _ & _ & B1 & B2 & _).
  rewrite Forall_forall in B1, B2. apply elem_of_app in Hw as [Hw|[->|Hw]%elem_of_cons]; [exfalso|done|exfalso].
  - exact (before_not_contains w v addr (B1 w Hw) Cw Cv).
  - exact (before_not_contains v w addr (B2 w Hw) Cv Cw).
Qed.

Lemma fault_region_spec vmas F (a : A) cr2 : vma_wf vmas F a -> 0 <= cr2 < 2 ^ 64 ->
  exists r vmas' a', fault_region vmas a cr2 = Some (r, vmas', a') /\ vma_wf vmas' F a' /\
    match r with
    | Some (_, v) => v ∈ elems (root vmas') /\ contains v cr2
    | None => view (elems (root vmas')) cr2 = None
    end /\ stack_growth (elems (root vmas)) cr2 r (elems (root vmas')).
Proof.
  intros W Hc. pose proof (page_start cr2 Hc) as Hps. unfold fault_region. unfold vma_find at 1.
  pose proof (vma_find_spec (root vmas) cr2 (vw_avl _ _ _ W)) as Hf. destruct (vma_find_recursive (root vmas) cr2) as [[p v]|].
  { eexists _, vmas, a. split; [done|]. split; [done|]. split; [by destruct Hf as (_ & ? & ?)|constructor]. }
  apply view_none in Hf. unfold vma_find_growdown.
  destruct (vma_find_growdown_recursive (root vmas) cr2 _) as [[p v]|] eqn:Eg.
  2:{ eexists _, vmas, a. split; [done|]. split; [done|]. split; [done|constructor]. }
  apply growdown_sound in Eg as (Hv & Hg & Hlt & Hlim). pose proof Hv as Hin. apply list_elem_of_split in Hin as (l1 & l2 & El).
  destruct (remove_exact vmas l1 v l2 F a W El) as (vmas1 & a1 & -> & W1 & E1). pose proof (vw_ordered _ _ _ W) as Ho. pose proof Ho as Ho'. rewrite El in Ho'.
  assert (region v) as [Hv0 Hv1] by (apply ordered_middle in Ho'; tauto).
  assert (Hr1 : 0 <= Z.land cr2 (u64 (Z.lnot 0xFFF)) < v_end v) by lia. assert (Hr2 : 0 <= v_start v < v_end v) by lia.
  destruct (vma_add vmas1 _ (v_end v) (v_prot v) (v_flags v) (v_fd v) (v_offset v) a1) as [[r2 vmas2] a2] eqn:Ea.
  destruct (vma_add_spec _ _ _ _ _ _ _ _ _ _ _ _ W1 Hr1 Ea) as [W2 [(-> & Hno & Hins)|(-> & -> & _)]]; cbn [Z.eqb negb].
  - fold (grown v cr2) in Hins.
    assert (Hview : forall addr, view (elems (root vmas2)) addr = if containsb (grown v cr2) addr then Some (attr_of (grown v cr2) addr) else view (elems (root vmas)) addr).
    { intros addr. rewrite (inserted_view _ _ _ addr (vw_ordered _ _ _ W2) Hins), E1, (view_without l1 v l2 addr Ho'), <- El.
      destruct (containsb (grown v cr2) addr) eqn:Eg; [done|]. destruct (containsb v addr) eqn:Ev; [|done]. exfalso.
      unfold containsb in *. cbn [grown v_start v_end] in Eg. apply andb_true_iff in Ev as [E2%Z.leb_le E3]. rewrite E3, andb_true_r in Eg. apply Z.leb_gt in Eg. lia. }
    assert (Hmem : grown v cr2 ∈ elems (root vmas2)) by (rewrite (inserted_perm _ _ _ Hins); left).
    assert (Hcon : contains (grown v cr2) cr2) by (unfold contains; cbn; lia).
    unfold vma_find. pose proof (vma_find_spec (root vmas2) cr2 (vw_avl _ _ _ W2)) as Hf2. destruct (vma_find_recursive (root vmas2) cr2) as [[p2 v2]|].
    2:{ exfalso. rewrite Forall_forall in Hf2. by apply (Hf2 _ Hmem). }
    destruct Hf2 as (_ & Hv2 & Hc2). assert (v2 = grown v cr2) as -> by (by apply (contains_elem _ _ _ cr2 (vw_ordered _ _ _ W2))).
    eexists _, vmas2, a2. split; [done|]. split; [done|]. split; [done|]. apply growth_done; try done. intros addr Hg'. destruct (containsb v addr) eqn:Ev; [left; by apply containsb_spec|right].
    rewrite El, (view_middle l1 v l2 addr Ho'), Ev, <- E1. apply (no_overlap_view _ _ _ Hno addr). exact Hg'.
  - destruct (vma_add vmas1 (v_start v) (v_end v) (v_prot v) (v_flags v) (v_fd v) (v_offset v) a2) as [[r3 vmas3] a3] eqn:Eb.
    destruct (vma_add_spec _ _ _ _ _ _ _ _ _ _ _ _ W2 Hr2 Eb) as [W3 Hcase].
    assert (Hview : forall addr, view (elems (root vmas3)) addr = view (elems (root vmas)) addr \/ contains v addr /\ view (elems (root vmas3)) addr = None).
    { intros addr. pose proof (view_without l1 v l2 addr Ho') as Hw. rewrite <- El in Hw. destruct Hcase as [(_ & _ & Hins)|(_ & -> & _)].
      - left. rewrite (inserted_view _ _ _ addr (vw_ordered _ _ _ W3) Hins), E1, Hw. rewrite El, (view_middle l1 v l2 addr Ho'), Hw. destruct v; cbn. by case_match.
      - rewrite E1, Hw. destruct (containsb v addr) eqn:Ev; [right|by left]. by apply containsb_spec in Ev. }
    eexists _, vmas3, a3. split; [done|]. split; [done|]. split; [destruct (Hview cr2) as [->|[_ ?]]; done|]. apply (growth_failed _ _ v); try done. intros Hnf addr.
    destruct Hcase as [(_ & _ & Hins)|(_ & _ & [Hov|Hoom])].
    + rewrite (inserted_view _ _ _ addr (vw_ordered _ _ _ W3) Hins), E1, El, (view_middle l1 v l2 addr Ho'). by destruct v.
    + exfalso. apply Hov. rewrite E1. apply (part_free l1 v l2 (v_start v) (v_end v) Ho'); lia.
    + exfalso. destruct (Hnf a2) as (x & s3 & E3). by rewrite E3 in Hoom.
Qed.
End Region.

(** ** The handler *)

Section Handler.
Context {P A : Type} `{!Frames P, !FramesLaws P, !ObjAlloc A}.
Implicit Types s : pg P.
Implicit Types a : A.

(** The outcome of a write to a copy-on-write page with entry [e]. *)
Definition cow_outcome s root tbl cr2 e (r : Z) s' : Prop :=
  (r = 0 /\ exists e', made_writable s root tbl cr2 e s' e') \/
  (r = -1 /\ words s' = words s /\ 1 < fr_ref (frames s) (Z.land e PAGE_MASK) /\ (exists p, fr_alloc p = (None, frames s')) /\
   (forall q, page q -> fr_ref (frames s') q = fr_ref (frames s) q) /\ forall q, fr_managed (frames s') q = fr_managed (frames s) q).

(** The handler reaches the copy-on-write case with the entry of the page. *)
Lemma cow_fault_spec s a active root tbl mm cr2 error e :
  pt_inv s root tbl -> root <> 0 -> leaf (words s) 4 root cr2 = Some (1%nat, e) -> set e PAGE_FLAG_COW = true ->
  fr_managed (frames s) (Z.land e PAGE_MASK) = true -> 0 < fr_ref (frames s) (Z.land e PAGE_MASK) -> tbl !! Z.land e PAGE_MASK = None ->
  set error 1 = true -> set error 2 = true ->
  exists r s', vmm_handle_page_fault s a active (Some (FaultThread root mm)) cr2 error = Some (FaultReturn r, Some (FaultThread root mm), s', a) /\
    pt_inv s' root tbl /\ cow_outcome s root tbl cr2 e r s'.
Proof.
  intros HI Hr Hl Hc Hm Hp Hd E1 E2. unfold vmm_handle_page_fault. cbn [ft_cr3]. rewrite (proj2 (Z.eqb_neq root 0) Hr), E1, E2.
  pose proof (cow_fault_walk s root cr2) as Hw. rewrite Hl in Hw. destruct Hw as (pt & Ht & He & Hpe & ->).
  destruct (cow_page_spec s root tbl cr2 pt HI Ht) as (r & s' & -> & HI' & H); rewrite ?He; try done. rewrite He in H. by exists r, s'.
Qed.

(** C8: A write to a copy-on-write page is resolved: the page becomes writable, on a
    frame that no one else refers to and that holds what the page held; the frame
    shared so far is only given up, never written, and no other page changes its
    translation.  It fails only when a copy is needed and memory has run out, and
    then nothing changes. *)
Theorem cow_fault_correct s a active root tbl mm cr2 error e :
  pt_inv s root tbl -> root <> 0 -> leaf (words s) 4 root cr2 = Some (1%nat, e) -> set e PAGE_FLAG_COW = true ->
  fr_managed (frames s) (Z.land e PAGE_MASK) = true -> 0 < fr_ref (frames s) (Z.land e PAGE_MASK) -> tbl !! Z.land e PAGE_MASK = None ->
  set error 1 = true -> set error 2 = true ->
  exists r s', vmm_handle_page_fault s a active (Some (FaultThread root mm)) cr2 error = Some (FaultReturn r, Some (FaultThread root mm), s', a) /\
    pt_inv s' root tbl /\
    ((r = 0 /\ exists e', made_writable s root tbl cr2 e s' e') \/
     (r = -1 /\ words s' = words s /\ 1 < fr_ref (frames s) (Z.land e PAGE_MASK) /\ (exists p, fr_alloc p = (None, frames s')) /\
      (forall q, page q -> fr_ref (frames s') q = fr_ref (frames s) q) /\ forall q, fr_managed (frames s') q = fr_managed (frames s) q)).
Proof. apply cow_fault_spec. Qed.

End Handler.

(** ** Fork and copy-on-write together *)

Section Isolation.
Context {P A : Type} `{!Frames P, !FramesLaws P, !ObjAlloc A}.
Context (vmas : option vma_list) (root : Z) (tbl : gmap Z nat).
Implicit Types s : pg P.

(** C6: A child's write does not reach the parent: after a fork, when the child writes
    to a private page that was writable, it gets a frame of its own with the same
    contents (unless memory has run out, which is reported), while every translation
    of the parent and the frame the parent still uses stay as they were. *)
Theorem fork_write_isolated s new s1 (a : A) active mm cr2 error e :
  forkable vmas root tbl s -> vmm_clone_user_mappings_vma s root vmas = (new, s1) -> new <> 0 ->
  user_va cr2 = true -> upath (words s) 4 root cr2 = true -> leaf (words s) 4 root cr2 = Some (1%nat, e) ->
  set e PAGE_FLAG_RW = true -> is_shared_vma vmas (page_va cr2) = false -> fr_managed (frames s) (Z.land e PAGE_MASK) = true ->
  0 < user_refs vmas root s (Z.land e PAGE_MASK) -> set error 1 = true -> set error 2 = true ->
  exists r s2, vmm_handle_page_fault s1 a active (Some (FaultThread new mm)) cr2 error = Some (FaultReturn r, Some (FaultThread new mm), s2, a) /\
    (forall va, leaf (words s2) 4 root va = leaf (words s1) 4 root va) /\
    (forall x, in_page (Z.land e PAGE_MASK) x -> words s2 !! x = words s !! x) /\
    (r = 0 /\ (exists f e', leaf (words s2) 4 new cr2 = Some (1%nat, e') /\ Z.land e' PAGE_MASK = f /\ f <> Z.land e PAGE_MASK /\
       set e' PAGE_FLAG_RW = true /\ fr_ref (frames s2) f = 1 /\ forall i, 0 <= i < 512 -> entry (words s2) f i = entry (words s) (Z.land e PAGE_MASK) i) \/
     r = -1 /\ exists p, fr_alloc p = (None, frames s2)).
Proof.
  intros Hk Hf Hnew Hu Hpath Hl Hrw Hsh Hm Href E1 E2. destruct (fork_spec vmas root tbl s Hk) as (new' & s1' & E & [HI1 _ Hdata Hok _]).
  rewrite Hf in E. injection E as <- <-. destruct (Hok Hnew) as [(tbl' & HI' & Hfresh) Hpriv _ Huser _ Hrefs Hman]. set (old := Z.land e PAGE_MASK) in *.
  destruct (fk_data _ _ _ _ Hk old Href) as (Hnt & Hpos & Hmax). pose proof (mask_page e : page old) as Hpo.
  pose proof (Hrefs old Hpo Hpos) as Hr1. destruct (Huser cr2 Hu Hpath) as [_ Hchild]. rewrite Hl in Hchild. cbn [cow_leaf] in Hchild.
  assert (Ec : cow_entry (is_shared_vma vmas) (fr_managed (frames s)) (page_va cr2) e = make_cow e) by (unfold cow_entry; fold old; by rewrite Hsh, Hm, Hrw).
  rewrite Ec in Hchild. assert (Hold : Z.land (make_cow e) PAGE_MASK = old) by apply make_cow_mask.
  assert (Hno' : tbl' !! old = None).
  { destruct (tbl' !! old) as [l|] eqn:E; [|done]. destruct (Hfresh old l E) as [[? ?]|?]; [congruence|lia]. }
  assert (Hcow : set (make_cow e) PAGE_FLAG_COW = true).
  { unfold PAGE_FLAG_COW. rewrite land_pow2_testbit, make_cow_testbit by lia. by rewrite orb_true_r. }
  assert (Hm1 : fr_managed (frames s1) old = true) by (by rewrite Hman).
  destruct (cow_fault_spec s1 a active new tbl' mm cr2 error (make_cow e) HI' Hnew Hchild Hcow) as (r & s2 & Eh & HI2 & Hres); rewrite ?Hold; try done; [lia|].
  exists r, s2. split; [done|]. unfold cow_outcome in Hres. rewrite Hold in Hres. destruct Hres as [(-> & e' & [M1 M2 M3 M4 M5 M6 M7 M8 M9 _ _])|(-> & Ew & _ & Hoom & _)].
  2:{ split; [by rewrite Ew|]. split; [|by right]. intros x Hx. rewrite Ew. by apply (Hdata old). }
  rewrite Hold in *. set (f := Z.land e' PAGE_MASK) in *.
  assert (Hz : f <> old /\ fr_ref (frames s1) f = 0) by (destruct M6 as [[_ ?]|(? & _ & _)]; [lia|split; [intros En; rewrite En in *; lia|done]]).
  destruct Hz as [Hne Hz]. pose proof (mask_page e' : page f) as Hpf.
  pose proof (cow_fault_walk s1 new cr2) as Hw. rewrite Hchild in Hw. destruct Hw as (pt & Hpt & _). pose proof (Hpriv cr2 pt Hu Hpt) as Hnpt.
  assert (Hppt : page pt) by (pose proof (tab_level _ _ _ cr2 3 pt (pi_wf _ _ _ HI') ltac:(lia) Hpt) as Hlev; apply (pw_page _ _ _ (pi_wf _ _ _ HI') pt _ Hlev)).
  split; [|split; [|left; split; [done|]]].
  - intros va. pose proof (pi_wf _ _ _ HI1) as HW1. apply (leaf_same _ _ root tbl va HW1); [|apply HW1]. intros t l i Ht Hi.
    rewrite (entry_word (words s1) (words s2) t i); [apply same_entry_refl|]. pose proof (pw_page _ _ _ HW1 t l Ht) as [Hpt' _]. apply (M9 pt); [done| |].
    + intros Ex. apply (entry_addr_inj t pt i (vidx 1 cr2)) in Ex as [-> _]; [congruence|done|done|done|apply vidx_range].
    + intros Hx. assert (t = f) as -> by (apply (pages_disjoint t f (t + 8 * i)); [done|done|by apply in_page_entry|done]).
      pose proof (pi_ref _ _ _ HI1 f l Ht). lia.
  - intros x Hx. rewrite (M8 old x) by done. by apply (Hdata old).
  - exists f, e'. split; [by rewrite M1, decide_True|]. split; [done|]. split; [done|]. split; [done|]. split; [done|].
    intros i Hi. rewrite M4 by done. apply entry_word. apply (Hdata old); [done|done|done|by apply in_page_entry].
Qed.
End Isolation.

(** ** Witnesses *)

Definition demo_cow_entry : Z := pte demo_frame (Z.lor PAGE_FLAG_USER PAGE_FLAG_COW).

Lemma cow_fault_correct_witness : exists r s',
  vmm_handle_page_fault (demo_with (Z.lor PAGE_FLAG_USER PAGE_FLAG_COW)) (Bump 0x100000 ∅) 0 (Some (FaultThread demo_root None)) demo_va 3 =
    Some (FaultReturn r, Some (FaultThread demo_root None), s', Bump 0x100000 ∅) /\
  exists tbl, cow_outcome (demo_with (Z.lor PAGE_FLAG_USER PAGE_FLAG_COW)) demo_root tbl demo_va demo_cow_entry r s'.
Proof.
  destruct (demo_with_inv (Z.lor PAGE_FLAG_USER PAGE_FLAG_COW) ltac:(by vm_compute) ltac:(by vm_compute)) as (tbl & HI & Hn & Hl).
  destruct (cow_fault_correct _ (Bump 0x100000 ∅) 0 demo_root tbl None demo_va 3 demo_cow_entry HI ltac:(by vm_compute) Hl) as (r & s' & E & _ & H).
  - by vm_compute.
  - by vm_compute.
  - by vm_compute.
  - change (Z.land demo_cow_entry PAGE_MASK) with demo_frame. exact Hn.
  - by vm_compute.
  - by vm_compute.
  - exists r, s'. split; [exact E|]. exists tbl. exact H.
Defined.


Lemma fork_write_isolated_witness : exists new s1 r s2, vmm_clone_user_mappings_vma demo_proc demo_root demo_vmas = (new, s1) /\ new <> 0 /\
  vmm_handle_page_fault s1 (Bump 0x100000 ∅) 0 (Some (FaultThread new None)) demo_va 3 =
    Some (FaultReturn r, Some (FaultThread new None), s2, Bump 0x100000 ∅) /\
  leaf (words s2) 4 demo_root demo_va = leaf (words s1) 4 demo_root demo_va.
Proof.
  destruct demo_forkable as [tbl Hk]. destruct (vmm_clone_user_mappings_vma demo_proc demo_root demo_vmas) as [new s1] eqn:E.
  assert (Hn : new <> 0) by (change new with (new, s1).1; rewrite <- E; vm_compute; discriminate).
  destruct (fork_write_isolated demo_vmas demo_root tbl demo_proc new s1 (Bump 0x100000 ∅) 0 None demo_va 3
    (pte demo_frame (Z.lor PAGE_FLAG_USER PAGE_FLAG_RW)) Hk E Hn) as (r & s2 & Eh & Hl & _).
  - by vm_compute.
  - by vm_compute.
  - vm_compute. exact eq_refl.
  - by vm_compute.
  - by vm_compute.
  - by vm_compute.
  - change (Z.land _ PAGE_MASK) with demo_frame. rewrite demo_user_refs. by vm_compute.
  - by vm_compute.
  - by vm_compute.
  - exists new, s1, r, s2. split; [exact eq_refl|]. split; [exact Hn|]. split; [exact Eh|]. apply Hl.
Defined.
