(* ===== verification/SysMm.v ===== *)
(** * The memory system calls (kernel/src/syscalls/sys_mm.c)

    mmap, munmap, brk, mprotect and mremap of the current thread.  They change the
    page tables ([Paging]), the regions of the process ([Vma]) and, through them,
    the frame allocator and the cache of region nodes.  A call that would go through
    a null [mm] pointer has no result.  The locks and the log are left out; the
    active root table is an argument, and so is whether [kmalloc] finds room for the
    scratch arrays of the region code. *)

From S2P Require Import Prelude ObjAlloc Bitmap Pmm PmmReclaim Vma UserRange Paging AddrSpace PageFault.

Definition PROT_READ : Z := 0x1.
Definition MAP_PRIVATE : Z := 0x02.
Definition MAP_FIXED : Z := 0x10.
Definition MAP_ANONYMOUS : Z := 0x20.
Definition MAP_FAILED : Z := u64 (-1).
Definition E_INVAL : Z := u64 (-22).
Definition E_NOMEM : Z := u64 (-12).
Definition PAGE_ALIGN_UP (x : Z) : Z := Z.land (u64 (x + PAGE_SIZE - 1)) (u64 (Z.lnot (PAGE_SIZE - 1))).
Definition PAGE_ALIGN_DOWN (x : Z) : Z := Z.land x (u64 (Z.lnot (PAGE_SIZE - 1))).
Definition USER_ADDR_MAX : Z := 0x00007FFFFFFFFFFF.
Definition is_user_pointer (addr : Z) : bool := addr <=? USER_ADDR_MAX.
Definition MMAP_REGION_BASE : Z := 0x7F0000000000.
Definition MMAP_REGION_LIMIT : Z := 0x7FF000000000.
Definition MREMAP_MAYMOVE : Z := 1.
Definition MREMAP_FIXED : Z := 2.
Definition MAX_FDS : Z := 256.

Definition build_page_flags (prot : Z) : Z :=
  if prot =? PROT_NONE then 0
  else
    let flags := Z.lor PAGE_FLAG_PRESENT PAGE_FLAG_USER in
    let flags := if set prot PROT_WRITE then Z.lor flags PAGE_FLAG_RW else flags in
    if negb (set prot PROT_EXEC) then Z.lor flags PAGE_FLAG_NX else flags.

(** The memory of a process. *)
Record mm := Mm { mm_vmas : vma_list; brk_base : Z; brk_current : Z; mmap_next_addr : Z }.

(** [current] is [None] without a current thread and [Some None] for a thread
    without a process. *)
Record proc (P A : Type) := Proc { tables : pg P; nodes : A; current : option (option mm) }.
Arguments Proc {P A}.
Arguments tables {P A}.
Arguments nodes {P A}.
Arguments current {P A}.

(** The pages of a range with page-aligned ends, none if it is empty or wraps. *)
Definition pages_in (base end_ : Z) : nat := Z.to_nat ((end_ - base) / PAGE_SIZE).
Definition page_at (base i : Z) : Z := u64 (base + i * PAGE_SIZE).

Section SysMm.
Context {P A : Type} `{!Frames P, !ObjAlloc A}.
Implicit Types p : proc P A.
Implicit Types s : pg P.

Definition with_tables p s : proc P A := Proc s (nodes p) (current p).

(** The process with its regions, and the nodes they use, replaced. *)
Definition with_vmas p (m : mm) (vmas : vma_list) (a : A) : proc P A :=
  Proc (tables p) a (Some (Some (Mm vmas (brk_base m) (brk_current m) (mmap_next_addr m)))).
Definition with_brk p (m : mm) (brk : Z) : proc P A :=
  Proc (tables p) (nodes p) (Some (Some (Mm (mm_vmas m) (brk_base m) brk (mmap_next_addr m)))).
Definition with_next p (m : mm) (next : Z) : proc P A :=
  Proc (tables p) (nodes p) (Some (Some (Mm (mm_vmas m) (brk_base m) (brk_current m) next))).

(** The regions of the current thread, if it has any. *)
Definition regions p : option vma_list :=
  match current p with Some (Some m) => Some (mm_vmas m) | _ => None end.

(** ** Removing pages *)

Definition safe_unmap_and_free s (pml4 va phys : Z) (free_phys : bool) : pg P :=
  let s := vmm_unmap_page s pml4 va in
  if free_phys && negb (phys =? 0) then free_frame s phys else s.

(** Whether the page is one of an anonymous private mapping. *)
Definition owns_frame (vmas : option vma_list) (va : Z) : bool :=
  match vmas with
  | None => false
  | Some vmas =>
      match vma_find vmas va with
      | None => false
      | Some (_, v) => (v_fd v =? -1) && set (v_flags v) MAP_PRIVATE && set (v_flags v) MAP_ANONYMOUS
      end
  end.

Definition teardown_page s (pml4 : Z) (vmas : option vma_list) (va : Z) : pg P :=
  let phys := vmm_virt_to_phys s pml4 va in
  if phys =? 0 then s
  else safe_unmap_and_free s pml4 va (PAGE_ALIGN_DOWN phys) (owns_frame vmas va).

Definition teardown_range s (pml4 : Z) (vmas : option vma_list) (base len : Z) : pg P :=
  let end_ := u64 (base + len) in
  for_n (pages_in base end_) 0 (fun i s => teardown_page s pml4 vmas (page_at base i)) s.

(** ** mmap *)

Definition mm_reset_mmap_state p : proc P A :=
  match current p with Some (Some m) => with_next p m MMAP_REGION_BASE | _ => p end.

Definition mm_alloc_mmap_region p (length : Z) : Z * proc P A :=
  if length =? 0 then (0, p)
  else
    match current p with
    | Some (Some m) =>
        let aligned_len := PAGE_ALIGN_UP length in
        if u64 (mmap_next_addr m + aligned_len) >? MMAP_REGION_LIMIT then (0, p)
        else (mmap_next_addr m, with_next p m (u64 (mmap_next_addr m + aligned_len)))
    | _ => (0, p)
    end.

(** Choosing the address; [None] for MAP_FAILED. *)
Definition mmap_place (gap_ok : bool) (pml4 : Z) p (addr aligned_len flags : Z) : option (option Z * proc P A) :=
  if set flags MAP_FIXED then
    if (addr =? 0) || set addr (PAGE_SIZE - 1) then Some (None, p)
    else if negb (is_user_pointer addr) || negb (is_user_pointer (u64 (addr + aligned_len - 1))) then Some (None, p)
    else
      let p := with_tables p (teardown_range (tables p) pml4 (regions p) addr aligned_len) in
      match current p with
      | Some (Some m) =>
          match vma_remove (mm_vmas m) addr (u64 (addr + aligned_len)) (nodes p) with
          | None => None
          | Some (_, vmas, a) => Some (Some addr, with_vmas p m vmas a)
          end
      | _ => Some (Some addr, p)
      end
  else
    let vaddr :=
      match current p with
      | Some (Some m) => vma_find_gap gap_ok (mm_vmas m) aligned_len MMAP_REGION_BASE MMAP_REGION_LIMIT
      | _ => 0
      end in
    let '(vaddr, p) := if vaddr =? 0 then mm_alloc_mmap_region p aligned_len else (vaddr, p) in
    if (vaddr =? 0) || (u64 (vaddr + aligned_len) >? MMAP_REGION_LIMIT) then Some (None, p) else Some (Some vaddr, p).

(** The [mmap] operation of an open file: address, length, protection, flags and
    offset to an address. *)
Definition mmap_op : Type := Z -> Z -> Z -> Z -> Z -> proc P A -> Z * proc P A.

(** [fds] gives the open files: [Some None] for one without [mmap]. *)
Definition mmap_file (fds : Z -> option (option mmap_op)) p (vaddr length aligned_len prot flags fd offset : Z) : Z * proc P A :=
  match current p with
  | None => (MAP_FAILED, p)
  | Some _ =>
      if fd >=? MAX_FDS then (MAP_FAILED, p)
      else
        match fds fd with
        | None => (MAP_FAILED, p)
        | Some None => (MAP_FAILED, p)
        | Some (Some op) =>
            let '(result, p) := op vaddr length prot (Z.lor flags MAP_FIXED) offset p in
            if result =? MAP_FAILED then (MAP_FAILED, p)
            else
              match current p with
              | Some (Some m) =>
                  let '(_, vmas, a) := vma_add (mm_vmas m) result (u64 (result + aligned_len)) prot flags (s32 fd) offset (nodes p) in
                  (result, with_vmas p m vmas a)
              | _ => (result, p)
              end
        end
  end.

(** Reserving a region of demand-zero pages. *)
Definition mmap_anonymous p (vaddr aligned_len prot flags : Z) : proc P A :=
  match current p with
  | Some (Some m) =>
      let '(_, vmas, a) := vma_add (mm_vmas m) vaddr (u64 (vaddr + aligned_len)) prot flags (-1) 0 (nodes p) in
      with_next (with_vmas p m vmas a) (Mm vmas (brk_base m) (brk_current m) (mmap_next_addr m))
        (Z.max (mmap_next_addr m) (u64 (vaddr + aligned_len)))
  | _ => p
  end.

Definition sys_mmap (gap_ok : bool) (fds : Z -> option (option mmap_op)) (pml4 : Z) p (addr length prot flags fd offset : Z) : option (Z * proc P A) :=
  let is_shared := set flags MAP_SHARED in
  let is_private := set flags MAP_PRIVATE in
  if negb is_shared && negb is_private then Some (MAP_FAILED, p)
  else if is_shared && is_private then Some (MAP_FAILED, p)
  else if length =? 0 then Some (MAP_FAILED, p)
  else
    let aligned_len := PAGE_ALIGN_UP length in
    match mmap_place gap_ok pml4 p addr aligned_len flags with
    | None => None
    | Some (None, p) => Some (MAP_FAILED, p)
    | Some (Some vaddr, p) =>
        if negb (set flags MAP_ANONYMOUS) && negb (fd =? u64 (-1)) then
          Some (mmap_file fds p vaddr length aligned_len prot flags fd offset)
        else if negb (set flags MAP_ANONYMOUS) then Some (MAP_FAILED, p)
        else Some (vaddr, mmap_anonymous p vaddr aligned_len prot flags)
    end.

(** ** munmap *)

Definition sys_munmap (merge_ok : nat -> bool) (pml4 : Z) p (addr length : Z) : option (Z * proc P A) :=
  if (addr =? 0) || (length =? 0) then Some (E_INVAL, p)
  else if set addr (PAGE_SIZE - 1) then Some (E_INVAL, p)
  else if negb (is_user_pointer addr) || negb (is_user_pointer (u64 (addr + length - 1))) then Some (E_INVAL, p)
  else
    match current p with
    | None => Some (E_INVAL, p)
    | Some None => None
    | Some (Some m) =>
        match vma_find (mm_vmas m) addr with
        | None => Some (E_INVAL, p)
        | Some _ =>
            let aligned_len := PAGE_ALIGN_UP length in
            let p := with_tables p (teardown_range (tables p) pml4 (regions p) addr aligned_len) in
            match vma_remove (mm_vmas m) addr (u64 (addr + aligned_len)) (nodes p) with
            | None => None
            | Some (_, vmas, a) =>
                match vma_merge_adjacent merge_ok vmas a with
                | None => None
                | Some (vmas, a) => Some (0, with_vmas p m vmas a)
                end
            end
        end
    end.

(** ** brk *)

(** The pages given up when the heap shrinks are freed whatever they are. *)
Definition brk_page s (pml4 page : Z) : pg P :=
  let phys := vmm_virt_to_phys s pml4 page in
  if negb (phys =? 0) then safe_unmap_and_free s pml4 page (PAGE_ALIGN_DOWN phys) true else s.

Definition sys_brk (pml4 : Z) p (addr : Z) : option (Z * proc P A) :=
  match current p with
  | None => Some (0, p)
  | Some None => None
  | Some (Some m) =>
      if addr =? 0 then Some (brk_current m, p)
      else if negb (is_user_pointer addr) then Some (brk_current m, p)
      else if addr >? brk_current m then
        let old_end := PAGE_ALIGN_UP (brk_current m) in
        let new_end := PAGE_ALIGN_UP addr in
        let '(vmas, a) :=
          if new_end >? old_end then
            let '(_, vmas, a) := vma_add (mm_vmas m) old_end new_end (Z.lor PROT_READ PROT_WRITE) (Z.lor MAP_PRIVATE MAP_ANONYMOUS) (-1) 0 (nodes p) in
            (vmas, a)
          else (mm_vmas m, nodes p) in
        Some (addr, Proc (tables p) a (Some (Some (Mm vmas (brk_base m) addr (mmap_next_addr m)))))
      else if (addr <? brk_current m) && (addr >=? brk_base m) then
        let old_end := PAGE_ALIGN_UP (brk_current m) in
        let new_end := PAGE_ALIGN_UP addr in
        let s := for_n (pages_in new_end old_end) 0 (fun i s => brk_page s pml4 (page_at new_end i)) (tables p) in
        match vma_remove (mm_vmas m) new_end old_end (nodes p) with
        | None => None
        | Some (_, vmas, a) => Some (addr, Proc s a (Some (Some (Mm vmas (brk_base m) addr (mmap_next_addr m)))))
        end
      else Some (brk_current m, p)
  end.

(** ** mprotect *)

(** [false] when there is no memory for a table. *)
Definition protect_page s (pml4 va prot : Z) : bool * pg P :=
  let phys := vmm_virt_to_phys s pml4 va in
  if phys =? 0 then (true, s)
  else
    let new_flags := build_page_flags prot in
    let s := vmm_unmap_page s pml4 va in
    vmm_map_page s pml4 va (PAGE_ALIGN_DOWN phys) new_flags.

Definition sys_mprotect (merge_ok : nat -> bool) (pml4 : Z) p (addr len prot : Z) : option (Z * proc P A) :=
  if set addr (PAGE_SIZE - 1) then Some (E_INVAL, p)
  else if len =? 0 then Some (0, p)
  else
    let aligned_len := PAGE_ALIGN_UP len in
    match current p with
    | None => Some (E_INVAL, p)
    | Some None => None
    | Some (Some m) =>
        let end_ := u64 (addr + aligned_len) in
        match for_ok (pages_in addr end_) 0 (fun i s => protect_page s pml4 (page_at addr i) prot) (tables p) with
        | (false, s) => Some (E_NOMEM, with_tables p s)
        | (true, s) =>
            let p := with_tables p s in
            match vma_mprotect (mm_vmas m) addr end_ prot (nodes p) with
            | None => None
            | Some (_, vmas, a) =>
                match vma_merge_adjacent merge_ok vmas a with
                | None => None
                | Some (vmas, a) => Some (0, with_vmas p m vmas a)
                end
            end
        end
    end.

(** ** mremap *)

(** Mapping a fresh page, then clearing it. *)
Definition fresh_page s (pml4 va page_flags : Z) : bool * pg P :=
  match alloc_frame s with
  | (None, s) => (false, s)
  | (Some phys, s) =>
      match vmm_map_page s pml4 va phys page_flags with
      | (false, s) => (false, free_frame s phys)
      | (true, s) => (true, zero_entries 512 s phys)
      end
  end.

Definition fresh_pages s (pml4 base : Z) (n : nat) (page_flags : Z) : bool * pg P :=
  for_ok n 0 (fun i s => fresh_page s pml4 (page_at base i) page_flags) s.

(** Copying the old pages that are mapped. *)
Definition move_page s (pml4 old_va new_va : Z) : pg P :=
  let old_phys := vmm_virt_to_phys s pml4 old_va in
  let new_phys := vmm_virt_to_phys s pml4 new_va in
  if negb (old_phys =? 0) && negb (new_phys =? 0) then copy_page s (PAGE_ALIGN_DOWN new_phys) (PAGE_ALIGN_DOWN old_phys) else s.

Definition mremap_shrink (pml4 : Z) p (m : mm) (old_addr aligned_old aligned_new : Z) : option (Z * proc P A) :=
  if aligned_new <? aligned_old then
    let trim_base := u64 (old_addr + aligned_new) in
    let trim_len := aligned_old - aligned_new in
    let p := with_tables p (teardown_range (tables p) pml4 (regions p) trim_base trim_len) in
    match vma_remove (mm_vmas m) trim_base (u64 (trim_base + trim_len)) (nodes p) with
    | None => None
    | Some (_, vmas, a) => Some (old_addr, with_vmas p m vmas a)
    end
  else Some (old_addr, p).

Definition mremap_inplace (pml4 : Z) p (m : mm) (old_addr aligned_old aligned_new prot vma_flags : Z) : option (Z * proc P A) :=
  let grow_base := u64 (old_addr + aligned_old) in
  let grow_len := aligned_new - aligned_old in
  match fresh_pages (tables p) pml4 grow_base (pages_in grow_base (u64 (grow_base + grow_len))) (build_page_flags prot) with
  | (false, s) => Some (MAP_FAILED, with_tables p s)
  | (true, s) =>
      let p := with_tables p s in
      match vma_remove (mm_vmas m) old_addr (u64 (old_addr + aligned_old)) (nodes p) with
      | None => None
      | Some (_, vmas, a) =>
          let '(_, vmas, a) := vma_add vmas old_addr (u64 (old_addr + aligned_new)) prot vma_flags (-1) 0 a in
          Some (old_addr, with_vmas p m vmas a)
      end
  end.

Definition mremap_move (gap_ok : bool) (pml4 : Z) p (m : mm) (old_addr aligned_old aligned_new prot vma_flags : Z) : option (Z * proc P A) :=
  let new_addr := vma_find_gap gap_ok (mm_vmas m) aligned_new MMAP_REGION_BASE MMAP_REGION_LIMIT in
  if (new_addr =? 0) || (u64 (new_addr + aligned_new) >? MMAP_REGION_LIMIT) then Some (MAP_FAILED, p)
  else
    match fresh_pages (tables p) pml4 new_addr (Z.to_nat (aligned_new / PAGE_SIZE)) (build_page_flags prot) with
    | (false, s) => Some (MAP_FAILED, with_tables p s)
    | (true, s) =>
        let s := for_n (Z.to_nat (aligned_old / PAGE_SIZE)) 0 (fun i s => move_page s pml4 (page_at old_addr i) (page_at new_addr i)) s in
        let s := teardown_range s pml4 (regions p) old_addr aligned_old in
        match vma_remove (mm_vmas m) old_addr (u64 (old_addr + aligned_old)) (nodes p) with
        | None => None
        | Some (_, vmas, a) =>
            let '(_, vmas, a) := vma_add vmas new_addr (u64 (new_addr + aligned_new)) prot vma_flags (-1) 0 a in
            Some (new_addr, Proc s a (Some (Some (Mm vmas (brk_base m) (brk_current m) (Z.max (mmap_next_addr m) (u64 (new_addr + aligned_new)))))))
        end
    end.

(** Whether the range after the old one has neither regions nor pages. *)
Definition can_grow_inplace s (pml4 : Z) (vmas : vma_list) (grow_base grow_end : Z) : bool :=
  match vma_find_overlap vmas grow_base grow_end with
  | Some _ => false
  | None => for_n (pages_in grow_base grow_end) 0 (fun i b => b && (vmm_virt_to_phys s pml4 (page_at grow_base i) =? 0)) true
  end.

Definition sys_mremap (gap_ok : bool) (pml4 : Z) p (old_addr old_size new_size flags : Z) : option (Z * proc P A) :=
  if (old_addr =? 0) || (old_size =? 0) || (new_size =? 0) then Some (MAP_FAILED, p)
  else if set old_addr (PAGE_SIZE - 1) then Some (MAP_FAILED, p)
  else if negb (is_user_pointer old_addr) then Some (MAP_FAILED, p)
  else if set flags MREMAP_FIXED then Some (MAP_FAILED, p)
  else
    match current p with
    | None => Some (MAP_FAILED, p)
    | Some None => None
    | Some (Some m) =>
        let aligned_old := PAGE_ALIGN_UP old_size in
        let aligned_new := PAGE_ALIGN_UP new_size in
        if aligned_new <=? aligned_old then mremap_shrink pml4 p m old_addr aligned_old aligned_new
        else
          let grow_base := u64 (old_addr + aligned_old) in
          let can_grow := can_grow_inplace (tables p) pml4 (mm_vmas m) grow_base (u64 (grow_base + (aligned_new - aligned_old))) in
          match vma_find (mm_vmas m) old_addr with
          | None => Some (MAP_FAILED, p)
          | Some (_, v) =>
              if can_grow then mremap_inplace pml4 p m old_addr aligned_old aligned_new (v_prot v) (v_flags v)
              else if negb (set flags MREMAP_MAYMOVE) then Some (MAP_FAILED, p)
              else mremap_move gap_ok pml4 p m old_addr aligned_old aligned_new (v_prot v) (v_flags v)
          end
    end.

Definition sys_madvise p (addr len advice : Z) : Z * proc P A := (0, p).
End SysMm.
