(* ===== verification/ProcMem.v ===== *)
(** * The memory of a process

    What ties the regions of a process to its page tables and to the frames: the
    user half maps single pages, a page of an anonymous private region has a frame
    of its own, and that frame carries a reference.  Under this invariant taking
    pages down frees each frame once and nothing that is still mapped. *)

From S2P Require Import Prelude ObjAlloc Bitmap DList Pmm PmmInv PmmSpec PmmReclaim Vma VmaTree VmaSpec UserRange Paging PagingInv PagingSpec AddrSpace ForkInv KernelHalf ForkSpec Fork PageFault PageFaultSpec SysMm.

(** ** Addresses of the user half *)

Lemma vpn_user va : 0 <= va < 2 ^ 48 -> vpn va = va / 4096.
Proof.
  intros Hv. unfold vpn. rewrite Z.land_ones, Z.shiftr_div_pow2 by lia. change (2 ^ 12) with 4096. apply Z.mod_small.
  split; [apply Z.div_pos; lia|]. apply Z.div_lt_upper_bound; lia.
Qed.

Lemma user_va_low va : 0 <= va < 2 ^ 47 -> user_va va = true.
Proof.
  intros Hv. unfold user_va, vidx. apply Z.ltb_lt. change 0x1FF with (Z.ones 9). rewrite Z.land_ones, Z.shiftr_div_pow2 by lia.
  change (3 + 9 * Z.of_nat 4) with 39. rewrite Z.mod_small; [|split; [apply Z.div_pos; lia|]]; apply Z.div_lt_upper_bound; lia.
Qed.

Lemma page_va_aligned va : 0 <= va < 2 ^ 48 -> va mod 4096 = 0 -> page_va va = va.
Proof.
  intros Hv Ha. unfold page_va. rewrite vpn_user, Z.shiftl_mul_pow2 by lia. change (2 ^ 12) with 4096. pose proof (Z.div_mod va 4096 ltac:(lia)). lia.
Qed.

Lemma set_low_bits va : set va (PAGE_SIZE - 1) = negb (va mod 4096 =? 0).
Proof. unfold set, PAGE_SIZE. change (4096 - 1) with (Z.ones 12). by rewrite Z.land_ones by lia. Qed.

Lemma align_up_spec x : 0 <= x <= 2 ^ 64 - PAGE_SIZE -> PAGE_ALIGN_UP x mod 4096 = 0 /\ x <= PAGE_ALIGN_UP x < x + PAGE_SIZE.
Proof.
  intros Hx. unfold PAGE_ALIGN_UP. unfold PAGE_SIZE in *. rewrite (land_page_mask (u64 _)) by (unfold u64; apply Z.mod_pos_bound; lia).
  unfold u64, PAGE_SIZE. rewrite (Z.mod_small (x + 4096 - 1)) by lia. split; [by apply Z.mod_mul|].
  pose proof (Z.div_mod (x + 4096 - 1) 4096 ltac:(lia)). pose proof (Z.mod_pos_bound (x + 4096 - 1) 4096 ltac:(lia)). lia.
Qed.

Lemma align_up_aligned x : 0 <= x <= 2 ^ 64 - PAGE_SIZE -> x mod 4096 = 0 -> PAGE_ALIGN_UP x = x.
Proof.
  intros Hx Hm. destruct (align_up_spec x Hx) as [H1 H2]. unfold PAGE_SIZE in H2. pose proof (Z.div_mod x 4096 ltac:(lia)).
  pose proof (Z.div_mod (PAGE_ALIGN_UP x) 4096 ltac:(lia)). lia.
Qed.

Lemma align_down_page q : page q -> PAGE_ALIGN_DOWN q = q.
Proof.
  intros [Ha Hq]. unfold PAGE_ALIGN_DOWN. rewrite land_page_mask by lia. unfold PAGE_SIZE. pose proof (Z.div_mod q 4096 ltac:(lia)). lia.
Qed.

(** ** Ownership *)

Definition owns_view (r : option attr) : bool :=
  match owner r with Some (flags, fd) => (fd =? -1) && set flags MAP_PRIVATE && set flags MAP_ANONYMOUS | None => false end.

(** Whether the regions [l] give the page at [va] a frame of its own. *)
Definition owned_at (l : list vma_data) (va : Z) : bool := owns_view (view l va).

Lemma keeps_owner_owned l l' va : keeps_owner l l' -> owned_at l' va = true -> owned_at l va = true.
Proof. intros Hk. unfold owned_at, owns_view. destruct (Hk va) as [->|E]; [done|]. by rewrite E. Qed.

Section Owns.
Context {A : Type} `{!ObjAlloc A}.

Lemma find_view vmas F (a : A) va : vma_wf vmas F a ->
  match vma_find vmas va with
  | Some (_, v) => view (elems (root vmas)) va = Some (attr_of v va) /\ v ∈ elems (root vmas)
  | None => view (elems (root vmas)) va = None
  end.
Proof.
  intros W. unfold vma_find. pose proof (vma_find_spec (root vmas) va (vw_avl _ _ _ W)) as Hf. destruct (vma_find_recursive (root vmas) va) as [[p v]|].
  - destruct Hf as (_ & Hv & Hc). split; [|done]. by apply view_in; [apply W| |].
  - by apply view_none.
Qed.

Lemma owns_frame_view vmas F (a : A) va : vma_wf vmas F a -> owns_frame (Some vmas) va = owned_at (elems (root vmas)) va.
Proof.
  intros W. unfold owns_frame, owned_at. pose proof (find_view vmas F a va W) as H. destruct (vma_find vmas va) as [[p v]|]; [|by rewrite H].
  by destruct H as [-> _].
Qed.

End Owns.

Section Space.
Context {P : Type} `{!Frames P, !FramesLaws P}.
Implicit Types s : pg P.

Abbreviation frame_of e := (Z.land e PAGE_MASK).

(** The user half of an address space; [own] says which pages have a frame of their
    own. *)
Record space_inv (own : Z -> bool) s (root : Z) (tbl : gmap Z nat) : Prop := {
  si_inv : pt_inv s root tbl;
  si_user : forall va l e, user_va va = true -> leaf (words s) 4 root va = Some (l, e) ->
    l = 1%nat /\ frame_of e <> 0 /\ (fr_managed (frames s) (frame_of e) = true -> 0 < fr_ref (frames s) (frame_of e) /\ tbl !! frame_of e = None);
  si_owned : forall va e, user_va va = true -> own (page_va va) = true -> leaf (words s) 4 root va = Some (1%nat, e) ->
    fr_managed (frames s) (frame_of e) = true;
  si_unique : forall va va' e e', user_va va = true -> user_va va' = true -> own (page_va va) = true ->
    leaf (words s) 4 root va = Some (1%nat, e) -> leaf (words s) 4 root va' = Some (1%nat, e') -> frame_of e = frame_of e' -> vpn va = vpn va';
  si_cow : forall va e, user_va va = true -> leaf (words s) 4 root va = Some (1%nat, e) -> set e PAGE_FLAG_COW = true -> fr_managed (frames s) (frame_of e) = true;
}.

Lemma space_inv_own own own' s root tbl :
  (forall va, user_va va = true -> own' (page_va va) = true -> own (page_va va) = true \/ leaf (words s) 4 root va = None) ->
  space_inv own s root tbl -> space_inv own' s root tbl.
Proof.
  intros Ho [H1 H2 H3 H4 H5]. split; [done|done| | |done].
  - intros va e Hu Hw Hl. destruct (Ho va Hu Hw) as [Hw'|E]; [by apply (H3 va)|congruence].
  - intros va va' e e' Hu Hu' Hw Hl. destruct (Ho va Hu Hw) as [Hw'|E]; [by apply H4|congruence].
Qed.

(** Pages may go or change their flags as long as their frames stay in use. *)
Lemma space_inv_sub own s tbl s' tbl' root : pt_inv s' root tbl' ->
  (forall va l e', user_va va = true -> leaf (words s') 4 root va = Some (l, e') ->
     exists e, leaf (words s) 4 root va = Some (l, e) /\ frame_of e' = frame_of e /\ (set e' PAGE_FLAG_COW = true -> set e PAGE_FLAG_COW = true)) ->
  (forall va e', user_va va = true -> leaf (words s') 4 root va = Some (1%nat, e') -> 0 < fr_ref (frames s) (frame_of e') -> tbl !! frame_of e' = None ->
     0 < fr_ref (frames s') (frame_of e') /\ tbl' !! frame_of e' = None) ->
  (forall q, fr_managed (frames s') q = fr_managed (frames s) q) -> space_inv own s root tbl -> space_inv own s' root tbl'.
Proof.
  intros HI' Hl Hr Hm [H1 H2 H3 H4 H5]. split; [done| | | |].
  - intros va l e' Hu He'. destruct (Hl va l e' Hu He') as (e & He & Ef & _). destruct (H2 va l e Hu He) as (-> & Hz & Hmr). rewrite Ef in *. split; [done|]. split; [done|].
    rewrite Hm. intros [Hp Ht]%Hmr. rewrite <- Ef in *. by apply (Hr va).
  - intros va e' Hu Ho He'. destruct (Hl va _ e' Hu He') as (e & He & -> & _). rewrite Hm. by apply (H3 va).
  - intros va va' e1 e2 Hu Hu' Ho E1 E2 Ef. destruct (Hl va _ e1 Hu E1) as (e1' & E1' & F1 & _), (Hl va' _ e2 Hu' E2) as (e2' & E2' & F2 & _).
    apply (H4 va va' e1' e2'); try done. congruence.
  - intros va e' Hu He' Hc. destruct (Hl va _ e' Hu He') as (e & He & -> & Hce). rewrite Hm. by apply (H5 va e), Hce.
Qed.

(** ** Removing pages *)

(** The pages from number [lo] up to [hi] are gone, and the frames of those that had
    one of their own have lost a reference. *)
Record removed (own : Z -> bool) (lo hi : Z) (root : Z) s (tbl : gmap Z nat) s' (tbl' : gmap Z nat) : Prop := {
  rm_tbl : tbl' ⊆ tbl;
  rm_leaf : forall va, leaf (words s') 4 root va = if (lo <=? vpn va) && (vpn va <? hi) then None else leaf (words s) 4 root va;
  rm_freed : forall va e, user_va va = true -> lo <= vpn va < hi -> own (page_va va) = true -> leaf (words s) 4 root va = Some (1%nat, e) ->
    fr_ref (frames s') (frame_of e) = fr_ref (frames s) (frame_of e) - 1;
  rm_kept : forall q, page q -> tbl !! q = None ->
    (forall va e, user_va va = true -> lo <= vpn va < hi -> own (page_va va) = true -> leaf (words s) 4 root va = Some (1%nat, e) -> frame_of e <> q) ->
    fr_ref (frames s') q = fr_ref (frames s) q;
  rm_managed : forall q, fr_managed (frames s') q = fr_managed (frames s) q;
  rm_words : forall a, (forall t l, tbl !! t = Some l -> ~ in_page t a) -> words s' !! a = words s !! a;
}.

Lemma removed_refl own lo root s tbl : removed own lo lo root s tbl s tbl.
Proof.
  split; try done.
  - intros va. destruct (Z.leb_spec lo (vpn va)), (Z.ltb_spec (vpn va) lo); done || lia.
  - intros va e _ Hr. lia.
Qed.

Lemma removed_trans own lo mid hi root s tbl s1 tbl1 s2 tbl2 : lo <= mid <= hi -> space_inv own s root tbl ->
  removed own lo mid root s tbl s1 tbl1 -> removed own mid hi root s1 tbl1 s2 tbl2 -> removed own lo hi root s tbl s2 tbl2.
Proof.
  intros Hm HI [R1 R2 R3 R4 R5 R6] [Q1 Q2 Q3 Q4 Q5 Q6].
  assert (Hsame : forall va, mid <= vpn va -> leaf (words s1) 4 root va = leaf (words s) 4 root va).
  { intros va Hv. rewrite R2. by destruct (Z.ltb_spec (vpn va) mid); [lia|rewrite andb_false_r]. }
  assert (Hfr : forall va e, user_va va = true -> own (page_va va) = true -> leaf (words s) 4 root va = Some (1%nat, e) -> tbl !! frame_of e = None).
  { intros va e Hu Ho Hl. by apply (si_user _ _ _ _ HI va 1 e Hu Hl), (si_owned _ _ _ _ HI va e). }
  split.
  - by transitivity tbl1.
  - intros va. rewrite Q2, R2. destruct (Z.leb_spec lo (vpn va)), (Z.leb_spec mid (vpn va)), (Z.ltb_spec (vpn va) mid), (Z.ltb_spec (vpn va) hi); done || lia.
  - intros va e Hu Hr Ho Hl. destruct (Z.lt_ge_cases (vpn va) mid).
    + rewrite <- (R3 va e) by (done || lia). apply Q4; [apply mask_page|eapply lookup_weaken_None; [by eapply Hfr|done]|].
      intros va' e' Hu' Hr' Ho' Hl' E. rewrite Hsame in Hl' by lia. pose proof (si_unique _ _ _ _ HI va' va e' e Hu' Hu Ho' Hl' Hl E). lia.
    + rewrite (Q3 va e) by (done || lia || by rewrite Hsame by lia). rewrite (R4 (frame_of e)); [done|apply mask_page|by eapply Hfr|].
      intros va' e' Hu' Hr' Ho' Hl' E. pose proof (si_unique _ _ _ _ HI va' va e' e Hu' Hu Ho' Hl' Hl E). lia.
  - intros q Hq Ht Hn. rewrite Q4, R4; [done|done|done| |done|by eapply lookup_weaken_None|].
    + intros va e Hu Hr. apply Hn; [done|lia].
    + intros va e Hu Hr Ho. rewrite Hsame by lia. apply Hn; [done|lia|done].
  - intros q. by rewrite Q5, R5.
  - intros a Ha. rewrite Q6, R6; [done|done|]. intros t l Ht. apply (Ha t l). by eapply lookup_weaken.
Qed.

(** The page at [va] when it is mapped. *)
Lemma mapped_page own s root tbl va l e : space_inv own s root tbl -> user_va va = true -> va mod 4096 = 0 -> leaf (words s) 4 root va = Some (l, e) ->
  l = 1%nat /\ vmm_virt_to_phys s root va = frame_of e /\ frame_of e <> 0.
Proof.
  intros HI Hu Ha Hl. destruct (si_user _ _ _ _ HI va l e Hu Hl) as (-> & Hz & _). split; [done|]. split; [|done].
  rewrite virt_to_phys_leaf, Hl. cbn [leaf_phys]. change 0xFFF with (Z.ones 12). rewrite Z.land_ones by lia. change (2 ^ 12) with 4096. by rewrite Ha, Z.lor_0_r.
Qed.

(** Unmapping a page, and giving up its frame if it is its own. *)
Lemma unmap_free_spec own s root tbl va e : space_inv own s root tbl -> user_va va = true -> page_va va = va -> leaf (words s) 4 root va = Some (1%nat, e) ->
  exists tbl', let s' := safe_unmap_and_free s root va (frame_of e) (own va) in
    space_inv own s' root tbl' /\ removed own (vpn va) (vpn va + 1) root s tbl s' tbl'.
Proof.
  intros HI Hu Hp Hl. pose proof (si_inv _ _ _ _ HI) as HT. destruct (si_user _ _ _ _ HI va 1 e Hu Hl) as (_ & Hz & Hm).
  destruct (unmap_page_spec s root tbl va HT) as (tbl' & HT' & Hsub & Hr & Hmg & Hw & Hlf). exists tbl'. unfold safe_unmap_and_free.
  set (s1 := vmm_unmap_page s root va) in *. clearbody s1.
  assert (Hleaf : forall va', leaf (words s1) 4 root va' = if (vpn va <=? vpn va') && (vpn va' <? vpn va + 1) then None else leaf (words s) 4 root va').
  { intros va'. rewrite Hlf, Hl. cbn [unmapped]. destruct (Z.leb_spec (vpn va) (vpn va')), (Z.ltb_spec (vpn va') (vpn va + 1)), (decide (vpn va = vpn va')); done || lia. }
  assert (Hother : forall va' l' e', leaf (words s1) 4 root va' = Some (l', e') -> vpn va' <> vpn va /\ leaf (words s) 4 root va' = Some (l', e')).
  { intros va' l' e' H. rewrite Hlf in H. destruct (decide _) as [E|E]; [by rewrite Hl in H|]. split; [congruence|done]. }
  assert (Hkept : forall q, page q -> tbl !! q = None -> fr_ref (frames s1) q = fr_ref (frames s) q).
  { intros q Hq Ht. rewrite Hr, decide_False by (done || intros [[? ?] _]; congruence). done. }
  assert (Hother_va : forall va', user_va va' = true -> vpn va <= vpn va' < vpn va + 1 -> page_va va' = va /\ leaf (words s) 4 root va' = Some (1%nat, e)).
  { intros va' _ Hv. assert (E : vpn va' = vpn va) by lia. rewrite (page_va_vpn va va' E), (leaf_vpn s root va' va E). done. }
  rewrite (proj2 (Z.eqb_neq _ _) Hz), andb_true_r. destruct (own va) eqn:Ho.
  - assert (Ho' : own (page_va va) = true) by (by rewrite Hp). pose proof (si_owned _ _ _ _ HI va e Hu Ho' Hl) as Hmq. destruct (Hm Hmq) as [Hpos Hnt].
    assert (Hpq : page (frame_of e)) by apply mask_page. assert (Hn' : tbl' !! frame_of e = None) by (by eapply lookup_weaken_None).
    assert (Hm1 : fr_managed (frames s1) (frame_of e) = true) by (by rewrite Hmg). assert (Hp1 : 0 < fr_ref (frames s1) (frame_of e)) by (by rewrite Hkept).
    destruct (free_data s1 root tbl' (frame_of e) HT' Hpq Hm1 Hp1 Hn') as (HF & HFm & HFr).
    assert (Href : forall q, page q -> tbl !! q = None -> q <> frame_of e -> fr_ref (frames (free_frame s1 (frame_of e))) q = fr_ref (frames s) q).
    { intros q Hq Ht Hne. by rewrite HFr, decide_False, Hkept by done. }
    assert (Huniq : forall va' e', user_va va' = true -> vpn va' <> vpn va -> leaf (words s) 4 root va' = Some (1%nat, e') -> frame_of e' <> frame_of e).
    { intros va' e' Hu' Hv Hl' E. apply Hv. symmetry. by apply (si_unique _ _ _ _ HI va va' e e'). }
    split.
    + apply (space_inv_sub own s tbl); try done.
      * intros va' l' e' Hu' [_ Hl']%Hother. by exists e'.
      * intros va' e' Hu' [Hv Hl']%Hother Hp' Ht'. rewrite Href by (done || apply mask_page || by eapply Huniq). split; [done|by eapply lookup_weaken_None].
      * intros q. by rewrite HFm, Hmg.
    + split; [done|exact Hleaf| | | |].
      * intros va' e' Hu' [_ Hl']%(Hother_va _ Hu') _ H. rewrite Hl' in H. injection H as <-. by rewrite HFr, decide_True, Hkept by done.
      * intros q Hq Ht Hn. apply Href; [done|done|]. intros ->. apply (Hn va e Hu); [lia|by rewrite Hp|done|done].
      * intros q. by rewrite HFm, Hmg.
      * intros a Ha. by apply Hw.
  - split.
    + apply (space_inv_sub own s tbl); try done.
      * intros va' l' e' Hu' [_ Hl']%Hother. by exists e'.
      * intros va' e' Hu' [Hv Hl']%Hother Hp' Ht'. rewrite Hkept by (done || apply mask_page). split; [done|by eapply lookup_weaken_None].
    + split; [done|exact Hleaf| |intros q Hq Ht _; by apply Hkept|done|exact Hw].
      intros va' e' Hu' [Hp' _]%(Hother_va _ Hu'). rewrite Hp', Ho. done.
Qed.

Lemma removed_none own s root tbl va : leaf (words s) 4 root va = None -> removed own (vpn va) (vpn va + 1) root s tbl s tbl.
Proof.
  intros Hl. assert (H : forall va', vpn va <= vpn va' < vpn va + 1 -> leaf (words s) 4 root va' = None).
  { intros va' Hv. by rewrite (leaf_vpn s root va' va) by lia. }
  split; try done.
  - intros va'. destruct (Z.leb_spec (vpn va) (vpn va')), (Z.ltb_spec (vpn va') (vpn va + 1)); cbn [andb]; try done. apply H. lia.
  - intros va' e _ Hv _ E. by rewrite H in E.
Qed.

Lemma teardown_page_spec own vmas s root tbl va : (forall a, owns_frame vmas a = own a) -> space_inv own s root tbl -> 0 <= va < 2 ^ 47 -> va mod 4096 = 0 ->
  exists tbl', let s' := teardown_page s root vmas va in
    space_inv own s' root tbl' /\ removed own (vpn va) (vpn va + 1) root s tbl s' tbl'.
Proof.
  intros Ho HI Hv Ha. pose proof (user_va_low va Hv) as Hu. unfold teardown_page. rewrite Ho. destruct (leaf (words s) 4 root va) as [[l e]|] eqn:Hl.
  - destruct (mapped_page _ s root tbl va l e HI Hu Ha Hl) as (-> & -> & Hz). rewrite (proj2 (Z.eqb_neq _ _) Hz), align_down_page by apply mask_page.
    apply unmap_free_spec; [done|done|apply page_va_aligned; lia|done].
  - exists tbl. rewrite virt_to_phys_leaf, Hl. cbn [leaf_phys Z.eqb]. split; [done|by apply removed_none].
Qed.

(** Doing so for each page of a range. *)
Lemma page_loop_spec own root (f : pg P -> Z -> pg P) s tbl base n :
  (forall s tbl va, space_inv own s root tbl -> base <= va < base + Z.of_nat n * 4096 -> va mod 4096 = 0 ->
     exists tbl', space_inv own (f s va) root tbl' /\ removed own (vpn va) (vpn va + 1) root s tbl (f s va) tbl') ->
  space_inv own s root tbl -> 0 <= base -> base mod 4096 = 0 -> base + Z.of_nat n * 4096 <= 2 ^ 47 ->
  exists tbl', let s' := for_n n 0 (fun i s => f s (page_at base i)) s in
    space_inv own s' root tbl' /\ removed own (base / 4096) (base / 4096 + Z.of_nat n) root s tbl s' tbl'.
Proof.
  intros Hf HI Hb Ha Hn. cbv zeta.
  apply (for_n_ind (fun i s' => exists tbl', space_inv own s' root tbl' /\ removed own (base / 4096) (base / 4096 + i) root s tbl s' tbl') n 0).
  - exists tbl. split; [done|]. rewrite Z.add_0_r. apply removed_refl.
  - intros i s1 Hi (tbl1 & HI1 & HR1). assert (E : page_at base i = base + i * 4096) by (unfold page_at, u64, PAGE_SIZE; apply Z.mod_small; lia).
    assert (Hm : page_at base i mod 4096 = 0) by (by rewrite E, Z.mod_add by lia).
    destruct (Hf s1 tbl1 (page_at base i) HI1 ltac:(lia) Hm) as (tbl2 & HI2 & HR2). exists tbl2. split; [done|].
    assert (Ev : vpn (page_at base i) = base / 4096 + i) by (rewrite vpn_user, E, Z.div_add by lia; done). rewrite Ev in HR2.
    replace (base / 4096 + (i + 1)) with (base / 4096 + i + 1) by lia. by apply (removed_trans own _ (base / 4096 + i) _ root s tbl s1 tbl1); [lia| | |].
Qed.

Lemma pages_in_range base len : 0 <= base -> base mod 4096 = 0 -> 0 <= len -> len mod 4096 = 0 -> base + len < 2 ^ 64 ->
  Z.of_nat (pages_in base (u64 (base + len))) = len / 4096 /\ len / 4096 * 4096 = len.
Proof.
  intros Hb Hba Hl Hla Hbl. unfold pages_in, u64, PAGE_SIZE. rewrite Z.mod_small by lia. replace (base + len - base) with len by lia.
  pose proof (Z.div_pos len 4096 Hl ltac:(lia)). pose proof (Z.div_mod len 4096 ltac:(lia)). lia.
Qed.

Lemma teardown_range_spec own vmas s root tbl base len : (forall a, owns_frame vmas a = own a) -> space_inv own s root tbl ->
  0 <= base -> base mod 4096 = 0 -> 0 <= len -> len mod 4096 = 0 -> base + len <= 2 ^ 47 ->
  exists tbl', let s' := teardown_range s root vmas base len in
    space_inv own s' root tbl' /\ removed own (base / 4096) ((base + len) / 4096) root s tbl s' tbl'.
Proof.
  intros Ho HI Hb Hba Hl Hla Hbl. destruct (pages_in_range base len Hb Hba Hl Hla ltac:(lia)) as [En Em]. unfold teardown_range.
  destruct (page_loop_spec own root (fun s va => teardown_page s root vmas va) s tbl base (pages_in base (u64 (base + len)))) as (tbl' & H1 & H2); try done; [|lia|].
  { intros s1 tbl1 va HI1 Hv Hva. apply teardown_page_spec; [done|done|lia|done]. }
  exists tbl'. split; [done|]. rewrite En in H2. replace ((base + len) / 4096) with (base / 4096 + len / 4096); [done|].
  rewrite <- Em at 2. by rewrite Z.div_add by lia.
Qed.
End Space.
