(* ===== verification/SysMmSpec.v ===== *)
(** * What the memory system calls do to a process *)

From S2P Require Import Prelude ObjAlloc Bitmap DList Pmm PmmInv PmmSpec PmmReclaim Vma VmaTree VmaSpec UserRange Paging PagingInv PagingSpec AddrSpace ForkInv KernelHalf ForkSpec Fork PageFault PageFaultSpec SysMm ProcMem.

Abbreviation regions_of m := (elems (Vma.root (mm_vmas m))).
Abbreviation own_of m := (owned_at (regions_of m)).

Section Spec.
Context {P A : Type} `{!Frames P, !FramesLaws P, !ObjAlloc A}.
Implicit Types s : pg P.
Implicit Types p : proc P A.

(** A process with memory [m] whose tables start at [root]. *)
Record proc_inv (root : Z) (F : gset Z) (tbl : gmap Z nat) p (m : mm) : Prop := {
  pv_current : current p = Some (Some m);
  pv_regions : vma_wf (mm_vmas m) F (nodes p);
  pv_space : space_inv (own_of m) (tables p) root tbl;
  pv_user : forall addr, view (regions_of m) addr <> None -> addr < 2 ^ 47;
  pv_next : MMAP_REGION_BASE <= mmap_next_addr m <= 2 ^ 47;
  pv_brk : 0 <= brk_current m <= USER_ADDR_MAX;
}.

Lemma keeps_owner_user l l' : keeps_owner l l' -> (forall addr, view l addr <> None -> addr < 2 ^ 47) -> forall addr, view l' addr <> None -> addr < 2 ^ 47.
Proof. intros Hk Hu addr Hv. apply Hu. destruct (Hk addr) as [E|E]; [|done]. intros E'. rewrite E' in E. by destruct (view l' addr) as [[[[] ?] ?]|]. Qed.

(** Every page of the user lies in a region. *)
Definition covered (root : Z) p (m : mm) : Prop :=
  forall va, user_va va = true -> leaf (words (tables p)) 4 root va <> None -> view (regions_of m) (page_va va) <> None.

(** Regions begin and end between pages. *)
Definition uniform (l : list vma_data) : Prop := forall addr, 0 <= addr -> owner (view l addr) = owner (view l (addr / 4096 * 4096)).

(** What holds as long as memory for the nodes of regions does not run out. *)
Record settled (root : Z) p (m : mm) : Prop := {
  st_covered : covered root p m;
  st_uniform : uniform (regions_of m);
  st_next : mmap_next_addr m mod 4096 = 0;
}.

Lemma in_range_base base end_ addr : base mod 4096 = 0 -> end_ mod 4096 = 0 -> base <= addr < end_ <-> base <= addr / 4096 * 4096 < end_.
Proof.
  intros Hb He. pose proof (Z.div_mod base 4096 ltac:(lia)). pose proof (Z.div_mod end_ 4096 ltac:(lia)). pose proof (Z.div_mod addr 4096 ltac:(lia)).
  pose proof (Z.mod_pos_bound addr 4096 ltac:(lia)). lia.
Qed.

(** A view that is changed to [r] on a range of whole pages. *)
Lemma uniform_range l l' base end_ r : base mod 4096 = 0 -> end_ mod 4096 = 0 -> uniform l ->
  (forall addr, base <= addr < end_ -> owner (view l' addr) = r) -> (forall addr, ~ (base <= addr < end_) -> owner (view l' addr) = owner (view l addr)) -> uniform l'.
Proof.
  intros Hb He Hu Hin Hout addr Ha. pose proof (in_range_base base end_ addr Hb He). destruct (decide (base <= addr < end_)) as [Hr|Hr].
  - rewrite !Hin by tauto. done.
  - rewrite !Hout by tauto. by apply Hu.
Qed.

Lemma page_va_user va : user_va va = true -> 0 <= page_va va < 2 ^ 47 /\ page_va va mod 4096 = 0 /\ page_va va / 4096 = vpn va.
Proof.
  intros Hu. unfold page_va. rewrite Z.shiftl_mul_pow2 by lia. change (2 ^ 12) with 4096. rewrite Z.mod_mul, Z.div_mul by lia. split; [|done].
  assert (0 <= vpn va < 2 ^ 35); [|lia]. unfold user_va, vidx in Hu. apply Z.ltb_lt in Hu. unfold vpn. change 0x1FF with (Z.ones 9) in Hu. rewrite Z.land_ones in * by lia.
  change (3 + 9 * Z.of_nat 4) with (12 + 27) in Hu. rewrite <- Z.shiftr_shiftr in Hu by lia. set (x := Z.shiftr va 12) in *. clearbody x.
  rewrite Z.shiftr_div_pow2 in Hu by lia. change (2 ^ 36) with (2 ^ 27 * 2 ^ 9). rewrite Z.rem_mul_r by lia.
  pose proof (Z.mod_pos_bound x (2 ^ 27) ltac:(lia)). pose proof (Z.mod_pos_bound (x / 2 ^ 27) (2 ^ 9) ltac:(lia)). lia.
Qed.

(** Pages by number and by address. *)
Lemma in_range_page base end_ va : user_va va = true -> base mod 4096 = 0 -> end_ mod 4096 = 0 ->
  base <= page_va va < end_ <-> base / 4096 <= vpn va < end_ / 4096.
Proof.
  intros Hu Hb He. destruct (page_va_user va Hu) as (_ & Hm & <-). pose proof (Z.div_mod base 4096 ltac:(lia)). pose proof (Z.div_mod end_ 4096 ltac:(lia)).
  pose proof (Z.div_mod (page_va va) 4096 ltac:(lia)). lia.
Qed.

Lemma in_pages_page base end_ va : user_va va = true -> base mod 4096 = 0 -> end_ mod 4096 = 0 ->
  (base / 4096 <=? vpn va) && (vpn va <? end_ / 4096) = (base <=? page_va va) && (page_va va <? end_).
Proof.
  intros Hu Hb He. pose proof (in_range_page base end_ va Hu Hb He) as H.
  destruct (Z.leb_spec (base / 4096) (vpn va)), (Z.ltb_spec (vpn va) (end_ / 4096)), (Z.leb_spec base (page_va va)), (Z.ltb_spec (page_va va) end_); try done; exfalso; lia.
Qed.

(** ** Removing a range *)

(** Regions and pages of a range taken down together. *)
Lemma remove_range_spec root F tbl p m base len : proc_inv root F tbl p m ->
  0 <= base -> base mod 4096 = 0 -> 0 <= len -> len mod 4096 = 0 -> base + len <= 2 ^ 47 ->
  exists tbl' b vmas a, let s' := teardown_range (tables p) root (regions p) base len in
    vma_remove (mm_vmas m) base (u64 (base + len)) (nodes p) = Some (b, vmas, a) /\ vma_wf vmas F a /\
    space_inv (owned_at (elems (Vma.root vmas))) s' root tbl' /\
    removed (own_of m) (base / 4096) ((base + len) / 4096) root (tables p) tbl s' tbl' /\
    (forall addr, base <= addr < base + len -> view (elems (Vma.root vmas)) addr = None) /\
    VmaSpec.shrinks base (base + len) (regions_of m) (elems (Vma.root vmas)).
Proof.
  intros [Hc W HS _ _ _] Hb Hba Hl Hla Hbl. assert (Hu : u64 (base + len) = base + len) by (unfold u64; apply Z.mod_small; lia). rewrite Hu.
  assert (Hr : regions p = Some (mm_vmas m)) by (unfold regions; by rewrite Hc). rewrite Hr.
  destruct (teardown_range_spec (own_of m) (Some (mm_vmas m)) (tables p) root tbl base len (fun va => owns_frame_view _ F _ va W) HS Hb Hba Hl Hla Hbl) as (tbl' & HS' & HR).
  destruct (vma_remove_spec (mm_vmas m) base (base + len) F (nodes p) W ltac:(lia)) as (b & vmas & a & E & W' & Hno & Hsh & _).
  exists tbl', b, vmas, a. split; [done|]. split; [done|]. split; [|split; [done|split; [by apply no_overlap_view|done]]].
  eapply space_inv_own; [|exact HS']. intros va Hu' Ho. left. eapply keeps_owner_owned; [by eapply shrinks_keeps_owner|done].
Qed.

(** The range from [base] to [end_] has neither regions nor pages any more; all else
    is as it was, as far as memory for the nodes of regions does not run out. *)
Record range_gone (root : Z) (tbl : gmap Z nat) p (m : mm) (base end_ : Z) (tbl' : gmap Z nat) p' (m' : mm) : Prop := {
  rg_pages : removed (own_of m) (base / 4096) (end_ / 4096) root (tables p) tbl (tables p') tbl';
  rg_inside : forall addr, base <= addr < end_ -> view (regions_of m') addr = None;
  rg_outside : never_fails (A := A) -> forall addr, ~ (base <= addr < end_) -> view (regions_of m') addr = view (regions_of m) addr;
  rg_lost : keeps_owner (regions_of m) (regions_of m');
  rg_next : mmap_next_addr m' = mmap_next_addr m;
}.

Lemma range_gone_settled root tbl p m base end_ tbl' p' m' : never_fails (A := A) -> base mod 4096 = 0 -> end_ mod 4096 = 0 ->
  range_gone root tbl p m base end_ tbl' p' m' -> settled root p m -> settled root p' m'.
Proof.
  intros Hnf Hb He [R1 R2 R3 R4 R5] [Hc Hu Hn]. split; [| |by rewrite R5].
  - intros va Huv Hl. rewrite (rm_leaf _ _ _ _ _ _ _ _ R1), in_pages_page in Hl by done.
    destruct ((base <=? page_va va) && (page_va va <? end_)) eqn:E; [done|]. rewrite R3; [by apply Hc|done|]. apply andb_false_iff in E as [E%Z.leb_gt|E%Z.ltb_ge]; lia.
  - apply (uniform_range (regions_of m) _ base end_ None); [done|done|done| |]; intros addr Ha; [by rewrite R2|by rewrite R3].
Qed.

Lemma sys_munmap_spec merge_ok root F tbl p m addr length : proc_inv root F tbl p m -> 0 <= addr -> 0 <= length -> addr + length < 2 ^ 64 ->
  exists r p', sys_munmap merge_ok root p addr length = Some (r, p') /\
    if (0 <? addr) && (addr mod 4096 =? 0) && (0 <? length) && (addr + length <=? 2 ^ 47) && bool_decide (view (regions_of m) addr <> None)
    then r = 0 /\ exists tbl' m', proc_inv root F tbl' p' m' /\ range_gone root tbl p m addr (addr + PAGE_ALIGN_UP length) tbl' p' m'
    else r = E_INVAL /\ p' = p.
Proof.
  intros HI Ha Hl Hw. pose proof HI as [Hc W HS Hus Hnx Hbk]. unfold sys_munmap. rewrite Hc, set_low_bits.
  destruct (Z.eqb_spec addr 0) as [->|Ha0]; [exists E_INVAL, p; by cbn|]. destruct (Z.ltb_spec 0 addr) as [Ha1|]; [|lia]. cbn [orb andb].
  destruct (Z.eqb_spec length 0) as [->|Hl0]; [exists E_INVAL, p; split; [done|]; by rewrite andb_false_r|]. destruct (Z.ltb_spec 0 length); [|lia].
  destruct (Z.eqb_spec (addr mod 4096) 0) as [Hal|]; [|exists E_INVAL, p; by cbn]. cbn [negb andb].
  assert (Eu : u64 (addr + length - 1) = addr + length - 1) by (unfold u64; apply Z.mod_small; lia). rewrite Eu. unfold is_user_pointer, USER_ADDR_MAX.
  destruct (Z.leb_spec (addr + length) (2 ^ 47)) as [Hr|Hr].
  2:{ exists E_INVAL, p. rewrite (proj2 (Z.leb_gt (addr + length - 1) _)), orb_true_r by lia. done. }
  rewrite !(proj2 (Z.leb_le _ _)) by lia. cbn [negb orb andb]. pose proof (find_view (mm_vmas m) F (nodes p) addr W) as Hf.
  destruct (vma_find (mm_vmas m) addr) as [[q v]|]; [|rewrite bool_decide_false by (intros Hne; by apply Hne); by exists E_INVAL, p].
  rewrite bool_decide_true by (by destruct Hf as [-> _]). destruct (align_up_spec length ltac:(unfold PAGE_SIZE; lia)) as [Hlm Hlu]. unfold PAGE_SIZE in Hlu.
  assert (Hend : addr + PAGE_ALIGN_UP length <= 2 ^ 47).
  { pose proof (Z.div_mod addr 4096 ltac:(lia)). pose proof (Z.div_mod (PAGE_ALIGN_UP length) 4096 ltac:(lia)). lia. }
  destruct (remove_range_spec root F tbl p m addr (PAGE_ALIGN_UP length) HI Ha Hal ltac:(lia) Hlm Hend) as (tbl' & b & vmas & a & E & W' & HS' & HR & Hin & Hsh).
  cbn [nodes with_tables]. rewrite E. destruct (merge_adjacent_spec merge_ok vmas F a W') as (vmas2 & a2 & E2 & W2 & _ & Hv & Hk). rewrite E2.
  eexists 0, _. split; [done|]. split; [done|]. exists tbl', (Mm vmas2 (brk_base m) (brk_current m) (mmap_next_addr m)). split; split; cbn [tables nodes with_vmas with_tables current mm_vmas mmap_next_addr brk_current]; try done.
  - eapply space_inv_own; [|exact HS']. intros va _ Ho. left. by eapply keeps_owner_owned.
  - eapply keeps_owner_user; [eapply keeps_owner_trans; [by eapply shrinks_keeps_owner|exact Hk]|done].
  - intros addr' Ha'. destruct (Hk addr') as [Eo|Eo]; [|done]. rewrite Hin in Eo by done. by destruct (view _ addr') as [[[[] ?] ?]|].
  - intros Hnf addr' Ha'. rewrite Hv by done. by apply Hsh.
  - eapply keeps_owner_trans; [by eapply shrinks_keeps_owner|done].
Qed.

(** ** Adding a region *)

Lemma add_region_spec root F tbl p m start end_ prot flags fd offset r vmas a next brk : proc_inv root F tbl p m ->
  0 <= start < end_ -> end_ <= 2 ^ 47 -> MMAP_REGION_BASE <= next <= 2 ^ 47 -> 0 <= brk <= USER_ADDR_MAX ->
  (forall va, user_va va = true -> start <= page_va va < end_ -> leaf (words (tables p)) 4 root va <> None -> view (regions_of m) (page_va va) <> None) ->
  vma_add (mm_vmas m) start end_ prot flags fd offset (nodes p) = (r, vmas, a) ->
  let m' := Mm vmas (brk_base m) brk next in
  proc_inv root F tbl (Proc (tables p) a (Some (Some m'))) m' /\
  ((r = 0 /\ (forall addr, start <= addr < end_ -> view (regions_of m) addr = None) /\
    forall addr, view (regions_of m') addr = if (start <=? addr) && (addr <? end_) then Some (attr_of (VmaData start end_ prot flags fd offset) addr) else view (regions_of m) addr) \/
   (r = -1 /\ vmas = mm_vmas m /\ (~ (forall addr, start <= addr < end_ -> view (regions_of m) addr = None) \/ (obj_alloc (nodes p)).1 = None))).
Proof.
  intros [Hc W HS Hus Hnx Hbk] Hse He Hn Hb Hfree Ea m'. destruct (vma_add_spec _ _ _ _ _ _ _ F _ _ _ _ W Hse Ea) as [W' Hcase]. set (d := VmaData start end_ prot flags fd offset) in *.
  destruct Hcase as [(-> & Hno & Hins)|(-> & -> & Hwhy)].
  - assert (Hnone : forall addr, start <= addr < end_ -> view (regions_of m) addr = None) by (by apply no_overlap_view).
    assert (Hv : forall addr, view (elems (Vma.root vmas)) addr = if (start <=? addr) && (addr <? end_) then Some (attr_of d addr) else view (regions_of m) addr).
    { intros addr. by rewrite (inserted_view d _ _ addr (vw_ordered _ _ _ W') Hins). }
    split; [split; cbn [tables nodes current mm_vmas mmap_next_addr brk_current m']; try done|left; by split_and!].
    + eapply space_inv_own; [|exact HS]. intros va Hu Ho. unfold owned_at in *. rewrite Hv in Ho.
      destruct ((start <=? page_va va) && (page_va va <? end_)) eqn:E; [right|by left]. b2p. destruct (leaf (words (tables p)) 4 root va) eqn:El; [|done]. exfalso.
      apply (Hfree va); [done|lia|by rewrite El|apply Hnone; lia].
    + intros addr. rewrite Hv. destruct ((start <=? addr) && (addr <? end_)) eqn:E; [b2p; lia|apply Hus].
  - split; [split; cbn [tables nodes current mm_vmas mmap_next_addr brk_current m']; done|]. right. do 2 (split; [done|]). destruct Hwhy as [Hf|Hf]; [left|by right].
    intros Hv. apply Hf, view_no_overlap; [apply (vw_ordered _ _ _ W)|lia|done].
Qed.

(** ** mmap *)

Lemma region_end_user root F tbl p m w : proc_inv root F tbl p m -> w ∈ regions_of m -> v_end w <= 2 ^ 47.
Proof.
  intros [_ W _ Hus _ _] Hw. destruct (vw_ordered _ _ _ W) as [Hr _]. rewrite Forall_forall in Hr. destruct (Hr w Hw) as [H0 H1].
  assert (v_end w - 1 < 2 ^ 47); [|lia]. apply Hus. rewrite (view_in _ w) by (done || apply W || unfold contains; lia). done.
Qed.

(** The range found begins at [base] or after a region. *)
Lemma gap_scan_from l len cur : match gap_scan l len cur with inl g | inr g => g = cur \/ exists w, w ∈ l /\ g = v_end w end.
Proof.
  revert cur. induction l as [|v l IH]; intros cur; cbn [gap_scan]; [by left|].
  assert (Hgo : forall c, c = cur \/ c = v_end v -> match gap_scan l len c with inl g | inr g => g = cur \/ exists w, w ∈ v :: l /\ g = v_end w end).
  { intros c Hc. specialize (IH c). destruct (gap_scan l len c); destruct IH as [->|(w & Hw & ->)]; try (right; exists w; split; [by right|done]);
      destruct Hc as [->| ->]; try (by left); right; exists v; (split; [left|done]). }
  destruct (v_end v <=? cur); [apply Hgo; by left|]. destruct ((v_start v >? cur) && _); [by left|]. apply Hgo. destruct (cur >? v_end v); [by left|by right].
Qed.

Lemma gap_from gap_ok vmas len base limit : let g := vma_find_gap gap_ok vmas len base limit in
  g <> 0 -> g = base \/ exists w, w ∈ elems (Vma.root vmas) /\ g = v_end w.
Proof.
  unfold vma_find_gap. pose proof (gap_scan_from (elems (Vma.root vmas)) len base). destruct (gap_scan _ len base); repeat case_match; simplify_eq; intros; try done; by left.
Qed.

(** Where a mapping goes: the range asked for, cleared, or a free range of the mmap
    area; only when no gap is found the range after the last mapping is taken
    without a look at the regions. *)
Definition placed (gap_ok : bool) (root : Z) (F : gset Z) (tbl : gmap Z nat) p (m : mm) (addr len flags va : Z) (tbl1 : gmap Z nat) p1 (m1 : mm) : Prop :=
  if set flags MAP_FIXED then va = addr /\ va mod 4096 = 0 /\ range_gone root tbl p m va (va + len) tbl1 p1 m1
  else tables p1 = tables p /\ mm_vmas m1 = mm_vmas m /\ tbl1 = tbl /\ MMAP_REGION_BASE <= va /\ va + len <= MMAP_REGION_LIMIT /\
    ((forall a, va <= a < va + len -> view (regions_of m) a = None) \/ vma_find_gap gap_ok (mm_vmas m) len MMAP_REGION_BASE MMAP_REGION_LIMIT = 0).

Lemma mmap_fixed_spec gap_ok root F tbl p m addr len flags : proc_inv root F tbl p m -> settled root p m -> never_fails (A := A) ->
  0 <= addr < 2 ^ 64 -> 0 < len <= 2 ^ 47 -> len mod 4096 = 0 -> set flags MAP_FIXED = true ->
  exists v p1, mmap_place gap_ok root p addr len flags = Some (v, p1) /\
    match v with
    | None => p1 = p
    | Some va => exists tbl1 m1, proc_inv root F tbl1 p1 m1 /\ settled root p1 m1 /\ 0 <= va /\ va mod 4096 = 0 /\ va + len <= 2 ^ 47 /\ placed gap_ok root F tbl p m addr len flags va tbl1 p1 m1
    end.
Proof.
  intros HI Hcov Hnf Ha Hl Hlm Hfx. pose proof HI as [Hc W HS Hus Hnx Hbk]. unfold mmap_place, placed. rewrite Hfx, set_low_bits. cbn [current with_tables]. rewrite Hc.
  destruct ((addr =? 0) || negb (addr mod 4096 =? 0)) eqn:E1; [by exists None, p|]. apply orb_false_iff in E1 as [E1%Z.eqb_neq E2%negb_false_iff%Z.eqb_eq].
  destruct (negb (is_user_pointer addr) || _) eqn:E3; [by exists None, p|]. apply orb_false_iff in E3 as [E3%negb_false_iff%Z.leb_le E4%negb_false_iff%Z.leb_le].
  unfold USER_ADDR_MAX, u64 in *. rewrite Z.mod_small in E4 by lia. assert (Hend : addr + len <= 2 ^ 47) by lia.
  destruct (remove_range_spec root F tbl p m addr len HI ltac:(lia) E2 ltac:(lia) Hlm Hend) as (tbl' & b & vmas & a & E & W' & HS' & HR & Hin & Hsh).
  cbn [nodes with_tables]. unfold u64 in E. rewrite E. eexists (Some addr), _. split; [done|]. exists tbl', (Mm vmas (brk_base m) (brk_current m) (mmap_next_addr m)).
  assert (Hg : range_gone root tbl p m addr (addr + len) tbl' (with_vmas (with_tables p (teardown_range (tables p) root (regions p) addr len)) m vmas a)
      (Mm vmas (brk_base m) (brk_current m) (mmap_next_addr m))).
  { split; cbn [tables with_vmas with_tables mm_vmas]; [done|done|intros _ a' Ha'; by apply Hsh|by eapply shrinks_keeps_owner|done]. }
  split; [|split; [eapply range_gone_settled; [done| | |exact Hg|done]; [done|rewrite <- Zplus_mod_idemp_r, Hlm, Z.add_0_r; done]|split_and!; try done; lia]].
  split; cbn [tables with_vmas with_tables mm_vmas nodes current mmap_next_addr brk_current]; try done.
  by eapply keeps_owner_user; [by eapply shrinks_keeps_owner|].
Qed.

Lemma mmap_gap_spec gap_ok root F tbl p m addr len flags : proc_inv root F tbl p m -> settled root p m ->
  0 < len <= 2 ^ 47 -> len mod 4096 = 0 -> set flags MAP_FIXED = false ->
  exists v p1, mmap_place gap_ok root p addr len flags = Some (v, p1) /\
    match v with
    | None => p1 = p
    | Some va => exists tbl1 m1, proc_inv root F tbl1 p1 m1 /\ settled root p1 m1 /\ 0 <= va /\ va mod 4096 = 0 /\ va + len <= 2 ^ 47 /\ placed gap_ok root F tbl p m addr len flags va tbl1 p1 m1
    end.
Proof.
  intros HI Hcov Hl Hlm Hfx. pose proof HI as [Hc W HS Hus Hnx Hbk]. unfold mmap_place, placed. rewrite Hfx, Hc.
  unfold MMAP_REGION_BASE, MMAP_REGION_LIMIT in *. set (g := vma_find_gap _ _ _ _ _).
  destruct (Z.eqb_spec g 0) as [Eg|Eg].
  - assert (Eup : PAGE_ALIGN_UP len = len) by (apply align_up_aligned; [unfold PAGE_SIZE; lia|done]).
    unfold mm_alloc_mmap_region. rewrite (proj2 (Z.eqb_neq len 0)), Hc, Eup by lia. unfold MMAP_REGION_LIMIT.
    assert (Eu : u64 (mmap_next_addr m + len) = mmap_next_addr m + len) by (unfold u64; apply Z.mod_small; lia). rewrite Eu.
    destruct (Z.gtb_spec (mmap_next_addr m + len) 0x7FF000000000); [by exists None, p|]. rewrite Eu, (proj2 (Z.eqb_neq (mmap_next_addr m) 0)) by lia. cbn [orb].
    destruct (Z.gtb_spec (mmap_next_addr m + len) 0x7FF000000000); [lia|]. eexists (Some (mmap_next_addr m)), _. split; [done|].
    exists tbl, (Mm (mm_vmas m) (brk_base m) (brk_current m) (mmap_next_addr m + len)). split; [|split; [|split_and!; try done; try lia; first [by right|apply Hcov]]].
    2:{ destruct Hcov as [H1 H2 H3]. split; [exact H1|exact H2|]. cbn [mmap_next_addr]. by rewrite Zplus_mod, H3, Hlm. }
    split; cbn [tables nodes current with_next mm_vmas mmap_next_addr brk_current]; try done. unfold MMAP_REGION_BASE. lia.
  - rewrite (proj2 (Z.eqb_neq g 0) Eg). cbn [orb].
    destruct (vma_find_gap_spec gap_ok (mm_vmas m) len 0x7F0000000000 0x7FF000000000 g (vw_ordered _ _ _ W) (vw_count _ _ _ W)) as [Hge Hno]; try done; try lia.
    { apply Forall_forall. intros w Hw. pose proof (region_end_user root F tbl p m w HI Hw). lia. }
    assert (Hnone : forall a, g <= a < g + len -> view (regions_of m) a = None) by (by apply no_overlap_view).
    assert (g <= 2 ^ 47 /\ g mod 4096 = 0) as [Hgb Hga].
    { destruct (gap_from gap_ok (mm_vmas m) len 0x7F0000000000 0x7FF000000000 Eg) as [Ew|(w & Hw & Ew)]; fold g in Ew; [rewrite Ew; done|]. split; [rewrite Ew; by eapply region_end_user|].
      destruct (Z.eq_dec (g mod 4096) 0) as [|Hne]; [done|exfalso]. destruct (vw_ordered _ _ _ W) as [Hr _]. rewrite Forall_forall in Hr. destruct (Hr w Hw) as [Hw0 Hw1].
      pose proof (Z.div_mod g 4096 ltac:(lia)). pose proof (Z.mod_pos_bound g 4096 ltac:(lia)).
      pose proof (st_uniform _ _ _ Hcov g ltac:(lia)) as U1. pose proof (st_uniform _ _ _ Hcov (g - 1) ltac:(lia)) as U2.
      replace ((g - 1) / 4096) with (g / 4096) in U2 by (apply (Z.div_unique (g - 1) 4096 (g / 4096) (g mod 4096 - 1)); lia).
      rewrite Hnone in U1 by lia. rewrite (view_in _ w (g - 1)) in U2 by (done || apply W || unfold contains; lia). rewrite <- U1 in U2. done. }
    assert (Eu : u64 (g + len) = g + len) by (unfold u64; apply Z.mod_small; lia). rewrite Eu.
    destruct (Z.gtb_spec (g + len) 0x7FF000000000) as [|Hle]; [by exists None, p|]. exists (Some g), p. split; [done|].
    exists tbl, m. split_and!; try done; try lia. by left.
Qed.
End Spec.
