(* ===== verification/Mprotect.v ===== *)
(** * Changing the protection of pages, and moving the break *)

From S2P Require Import Prelude Bitmap DList Pmm PmmInv PmmSpec PmmReclaim ObjAlloc Vma VmaTree VmaSpec UserRange Paging AddrSpace PagingInv PagingSpec ForkInv KernelHalf ForkSpec Fork PageFault PageFaultSpec SysMm ProcMem SysMmSpec.

Lemma build_page_flags_mask prot : Z.land (build_page_flags prot) PAGE_MASK = 0.
Proof. unfold build_page_flags. repeat case_match; done. Qed.

Lemma set_lor a b bits : set (Z.lor a b) bits = set a bits || set b bits.
Proof.
  unfold set. rewrite Z.land_lor_distr_l. destruct (Z.eqb_spec (Z.land a bits) 0) as [->|Ha]; cbn [negb orb]; [by rewrite Z.lor_0_l|].
  apply negb_true_iff, Z.eqb_neq. intros H. apply Z.lor_eq_0_iff in H. tauto.
Qed.

(** The entry of a frame, with flags other than those of copy-on-write. *)
Lemma pte_not_cow e flags : set flags PAGE_FLAG_COW = false -> set (pte (Z.land e PAGE_MASK) flags) PAGE_FLAG_COW = false.
Proof.
  intros Hf. unfold pte. rewrite !set_lor, Hf. unfold set at 1. by rewrite <- !Z.land_assoc, Z.land_0_r.
Qed.

Lemma build_page_flags_cow prot e : set (pte (Z.land e PAGE_MASK) (build_page_flags prot)) PAGE_FLAG_COW = false.
Proof. apply pte_not_cow. unfold build_page_flags. repeat case_match; done. Qed.

Lemma in_one_page n k : (n <=? k) && (k <? n + 1) = bool_decide (n = k).
Proof. case_bool_decide; destruct (Z.leb_spec n k), (Z.ltb_spec k (n + 1)); done || lia. Qed.

Section Mprotect.
Context {P A : Type} `{!Frames P, !FramesLaws P, !ObjAlloc A}.
Implicit Types s : pg P.
Implicit Types p : proc P A.

Abbreviation frame_of e := (Z.land e PAGE_MASK).

(** The entry of a page with other flags. *)
Definition reflag (flags : Z) (r : option (nat * Z)) : option (nat * Z) :=
  match r with Some (1%nat, e) => Some (1%nat, pte (frame_of e) flags) | r => r end.

(** The entries of the pages from number [lo] up to [hi] have changed by [g]; data in
    use and its reference counts stay as they are. *)
Record reprotected (g : option (nat * Z) -> option (nat * Z)) (lo hi root : Z) s (tbl : gmap Z nat) s' (tbl' : gmap Z nat) : Prop := {
  rp_leaf : forall va, leaf (words s') 4 root va = if (lo <=? vpn va) && (vpn va <? hi) then g (leaf (words s) 4 root va) else leaf (words s) 4 root va;
  rp_ref : forall q, page q -> 0 < fr_ref (frames s) q -> tbl !! q = None -> fr_ref (frames s') q = fr_ref (frames s) q /\ tbl' !! q = None;
  rp_managed : forall q, fr_managed (frames s') q = fr_managed (frames s) q;
  rp_words : forall q a, page q -> 0 < fr_ref (frames s) q -> tbl !! q = None -> in_page q a -> words s' !! a = words s !! a;
}.

Lemma reprotected_refl g lo root s tbl : reprotected g lo lo root s tbl s tbl.
Proof. split; try done. intros va. destruct (Z.leb_spec lo (vpn va)), (Z.ltb_spec (vpn va) lo); done || lia. Qed.

Lemma reprotected_trans g lo mid hi root s tbl s1 tbl1 s2 tbl2 : lo <= mid <= hi ->
  reprotected g lo mid root s tbl s1 tbl1 -> reprotected g mid hi root s1 tbl1 s2 tbl2 -> reprotected g lo hi root s tbl s2 tbl2.
Proof.
  intros Hm [R1 R2 R3 R4] [Q1 Q2 Q3 Q4]. split.
  - intros va. rewrite Q1, R1. destruct (Z.leb_spec lo (vpn va)), (Z.leb_spec mid (vpn va)), (Z.ltb_spec (vpn va) mid), (Z.ltb_spec (vpn va) hi); done || lia.
  - intros q Hq Hr Ht. destruct (R2 q Hq Hr Ht) as [E1 E2]. destruct (Q2 q Hq ltac:(lia) E2) as [E3 E4]. split; [lia|done].
  - intros q. by rewrite Q3, R3.
  - intros q a Hq Hr Ht Ha. destruct (R2 q Hq Hr Ht) as [E1 E2]. rewrite (Q4 q a Hq ltac:(lia) E2 Ha). by apply (R4 q).
Qed.

(** Taking a page out and putting it back with other flags; when there is no memory
    for a table the page is lost. *)
Lemma protect_page_spec own s root tbl va prot : space_inv own s root tbl -> 0 <= va < 2 ^ 47 -> va mod 4096 = 0 ->
  exists r s' tbl', protect_page s root va prot = (r, s') /\ space_inv own s' root tbl' /\
    reprotected (if r then reflag (build_page_flags prot) else fun _ => None) (vpn va) (vpn va + 1) root s tbl s' tbl'.
Proof.
  intros HI Hv Ha. pose proof (user_va_low va Hv) as Hu. pose proof (si_inv _ _ _ _ HI) as HT. unfold protect_page.
  destruct (leaf (words s) 4 root va) as [[l e]|] eqn:Hl.
  2:{ exists true, s, tbl. rewrite virt_to_phys_leaf, Hl. cbn [leaf_phys Z.eqb]. split; [done|]. split; [done|]. split; try done.
      intros va'. rewrite in_one_page. case_bool_decide; [|done]. by rewrite (leaf_vpn s root va' va), Hl by done. }
  destruct (mapped_page _ s root tbl va l e HI Hu Ha Hl) as (-> & -> & Hz). rewrite (proj2 (Z.eqb_neq _ _) Hz), align_down_page by apply mask_page.
  destruct (unmap_page_spec s root tbl va HT) as (tbl1 & HT1 & Hsub1 & Hr1 & Hm1 & Hw1 & Hl1). set (s1 := vmm_unmap_page s root va) in *. clearbody s1.
  assert (Hnh : no_huge s1 root va) by (intros l0 e0; rewrite Hl1, decide_True, Hl by done; done).
  destruct (map_page_spec s1 root tbl1 va (frame_of e) (build_page_flags prot) HT1 Hnh) as (r & s2 & tbl2 & -> & HT2 & Hsub2 & Hr2 & Hm2 & Hnew2 & Hw2 & Hl2).
  assert (Hleaf : forall va', leaf (words s2) 4 root va' = if (vpn va <=? vpn va') && (vpn va' <? vpn va + 1) then (if r then Some (1%nat, pte (frame_of e) (build_page_flags prot)) else None)
                    else leaf (words s) 4 root va').
  { intros va'. rewrite Hl2, Hl1, Hl, in_one_page. cbn [unmapped]. destruct (decide (vpn va = vpn va')) as [E|E].
    - rewrite !bool_decide_true by done. by destruct r.
    - rewrite !bool_decide_false by done. by rewrite andb_false_r. }
  assert (Href : forall q, page q -> 0 < fr_ref (frames s) q -> tbl !! q = None -> fr_ref (frames s2) q = fr_ref (frames s) q /\ tbl2 !! q = None).
  { intros q Hq Hr Ht. assert (E1 : fr_ref (frames s1) q = fr_ref (frames s) q) by (rewrite Hr1, decide_False by (done || intros [[? ?] _]; congruence); done).
    assert (Ht1 : tbl1 !! q = None) by (by eapply lookup_weaken_None). assert (Ht2 : tbl2 !! q = None).
    { destruct (tbl2 !! q) as [l|] eqn:E; [|done]. pose proof (Hnew2 q l E Ht1). lia. }
    split; [|done]. rewrite Hr2, decide_False by (done || intros [_ [? ?]]; congruence). done. }
  assert (Hmg : forall q, fr_managed (frames s2) q = fr_managed (frames s) q) by (intros q; by rewrite Hm2, Hm1).
  assert (Hwords : forall q a, page q -> 0 < fr_ref (frames s) q -> tbl !! q = None -> in_page q a -> words s2 !! a = words s !! a).
  { intros q a Hq Hr Ht Ha'. destruct (Href q Hq Hr Ht) as [_ Ht2]. rewrite Hw2, Hw1; [done| |]; intros t l' Ht' Hin.
    - rewrite (pages_disjoint t q a) in Ht' by (done || by apply (pw_page _ _ _ (pi_wf _ _ _ HT) t l')). congruence.
    - rewrite (pages_disjoint t q a) in Ht' by (done || by apply (pw_page _ _ _ (pi_wf _ _ _ HT2) t l')). congruence. }
  assert (HI2 : space_inv own s2 root tbl2).
  { apply (space_inv_sub own s tbl); try done; [|intros va' e' Hu' He' Hp' Ht'; destruct (Href (frame_of e') (mask_page e') Hp' Ht') as [-> ?]; done].
    intros va' l' e' Hu' He'. rewrite Hleaf, in_one_page in He'. case_bool_decide as E; [|by exists e']. destruct r; [|done]. injection He' as <- <-. exists e. split; [|split].
    - by rewrite (leaf_vpn s root va' va) by done.
    - rewrite pte_phys by apply build_page_flags_mask. rewrite <- Z.land_assoc, Z.land_diag. done.
    - by rewrite build_page_flags_cow. }
  exists r, s2, tbl2. split; [done|]. split; [done|]. split; try done. intros va'. rewrite Hleaf, in_one_page. case_bool_decide as E; [|done].
  rewrite (leaf_vpn s root va' va), Hl by done. by destruct r.
Qed.

(** The loop stops at the page that could not be put back. *)
Lemma protect_loop_spec own s root tbl base prot n : space_inv own s root tbl -> 0 <= base -> base mod 4096 = 0 -> base + Z.of_nat n * 4096 <= 2 ^ 47 ->
  exists r s' tbl', for_ok n 0 (fun i s => protect_page s root (page_at base i) prot) s = (r, s') /\ space_inv own s' root tbl' /\
    if r then reprotected (reflag (build_page_flags prot)) (base / 4096) (base / 4096 + Z.of_nat n) root s tbl s' tbl'
    else exists k s1 tbl1, 0 <= k < Z.of_nat n /\ reprotected (reflag (build_page_flags prot)) (base / 4096) (base / 4096 + k) root s tbl s1 tbl1 /\
      reprotected (fun _ => None) (base / 4096 + k) (base / 4096 + k + 1) root s1 tbl1 s' tbl'.
Proof.
  intros HI Hb Ha Hn. set (g := reflag (build_page_flags prot)).
  destruct (for_ok_ind (fun i s' => exists tbl', space_inv own s' root tbl' /\ reprotected g (base / 4096) (base / 4096 + i) root s tbl s' tbl')
    (fun s' => exists tbl', space_inv own s' root tbl' /\ exists k s1 tbl1, 0 <= k < Z.of_nat n /\ reprotected g (base / 4096) (base / 4096 + k) root s tbl s1 tbl1 /\
      reprotected (fun _ => None) (base / 4096 + k) (base / 4096 + k + 1) root s1 tbl1 s' tbl')
    n 0 (fun i s => protect_page s root (page_at base i) prot) s) as (r & s' & -> & H).
  - exists tbl. split; [done|]. rewrite Z.add_0_r. apply reprotected_refl.
  - intros i s1 Hi (tbl1 & HI1 & HR1). assert (E : page_at base i = base + i * 4096) by (unfold page_at, u64, PAGE_SIZE; apply Z.mod_small; lia).
    assert (Hm : page_at base i mod 4096 = 0) by (by rewrite E, Z.mod_add by lia).
    assert (Ev : vpn (page_at base i) = base / 4096 + i) by (rewrite vpn_user, E, Z.div_add by lia; done).
    destruct (protect_page_spec own s1 root tbl1 (page_at base i) prot HI1 ltac:(lia) Hm) as (r & s2 & tbl2 & -> & HI2 & HR2). rewrite Ev in HR2.
    exists r, s2. split; [done|]. destruct r; exists tbl2; (split; [done|]).
    + replace (base / 4096 + (i + 1)) with (base / 4096 + i + 1) by lia. by apply (reprotected_trans g _ (base / 4096 + i) _ root s tbl s1 tbl1); [lia| |].
    + by exists i, s1, tbl1.
  - exists r, s'. destruct r; destruct H as (tbl' & H); by exists tbl'.
Qed.

(** mprotect on a range of the user. *)
Lemma sys_mprotect_spec merge_ok root F tbl p m addr len prot : proc_inv root F tbl p m -> 0 <= addr -> addr mod 4096 = 0 -> 0 < len -> addr + len <= 2 ^ 47 ->
  exists r p' tbl' m', sys_mprotect merge_ok root p addr len prot = Some (r, p') /\ proc_inv root F tbl' p' m' /\ mmap_next_addr m' = mmap_next_addr m /\
    ((r = 0 /\ reprotected (reflag (build_page_flags prot)) (addr / 4096) ((addr + PAGE_ALIGN_UP len) / 4096) root (tables p) tbl (tables p') tbl' /\
      keeps_owner (regions_of m) (regions_of m') /\ (never_fails (A := A) -> protected addr (addr + PAGE_ALIGN_UP len) prot (regions_of m) (regions_of m'))) \/
     (r = E_NOMEM /\ m' = m /\ exists k s1 tbl1, 0 <= k < PAGE_ALIGN_UP len / 4096 /\
        reprotected (reflag (build_page_flags prot)) (addr / 4096) (addr / 4096 + k) root (tables p) tbl s1 tbl1 /\
        reprotected (fun _ => None) (addr / 4096 + k) (addr / 4096 + k + 1) root s1 tbl1 (tables p') tbl')).
Proof.
  intros HI Ha Hal Hl Hr. pose proof HI as [Hc W HS Hus Hnx Hbk]. unfold sys_mprotect. rewrite set_low_bits, Hal, (proj2 (Z.eqb_neq len 0)), Hc by lia. cbn [Z.eqb negb].
  destruct (align_up_spec len ltac:(unfold PAGE_SIZE; lia)) as [Hlm Hlu]. unfold PAGE_SIZE in Hlu. set (L := PAGE_ALIGN_UP len) in *.
  assert (Hend : addr + L <= 2 ^ 47) by (pose proof (Z.div_mod addr 4096 ltac:(lia)); pose proof (Z.div_mod L 4096 ltac:(lia)); lia).
  destruct (pages_in_range addr L Ha Hal ltac:(lia) Hlm ltac:(lia)) as [En Em].
  assert (Eu : u64 (addr + L) = addr + L) by (unfold u64; apply Z.mod_small; lia). rewrite Eu in *.
  destruct (protect_loop_spec (own_of m) (tables p) root tbl addr prot (pages_in addr (addr + L)) HS Ha Hal ltac:(lia)) as (r & s' & tbl' & -> & HS' & Hres). rewrite En in Hres.
  destruct r.
  - cbn [nodes with_tables]. destruct (vma_mprotect_spec (mm_vmas m) addr (addr + L) prot F (nodes p) W) as (vmas & a & -> & W' & Hp & Hk).
    destruct (merge_adjacent_spec merge_ok vmas F a W') as (vmas2 & a2 & -> & W2 & _ & Hv & Hk2).
    eexists 0, _, tbl', (Mm vmas2 (brk_base m) (brk_current m) (mmap_next_addr m)). split; [done|].
    assert (Hkk : keeps_owner (regions_of m) (elems (Vma.root vmas2))) by (by eapply keeps_owner_trans). split.
    + split; cbn [tables with_vmas with_tables mm_vmas nodes current mmap_next_addr brk_current]; try done.
      * eapply space_inv_own; [|exact HS']. intros va _ Ho. left. by eapply keeps_owner_owned.
      * by eapply keeps_owner_user.
    + split; [done|]. left. split; [done|]. split; [|split; [done|]].
      * replace ((addr + L) / 4096) with (addr / 4096 + L / 4096); [done|]. rewrite <- Em at 2. by rewrite Z.div_add by lia.
      * intros Hnf. destruct (Hp Hnf) as [P1 P2 P3]. split; intros; cbn [mm_vmas]; rewrite Hv by done; eauto.
  - eexists E_NOMEM, _, tbl', m. split; [done|]. split; [by split|]. split; [done|]. right. split; [done|]. split; [done|]. done.
Qed.

Lemma protected_owner a b prot l l' : protected a b prot l l' -> forall addr, owner (view l' addr) = owner (view l addr) /\ (view l addr <> None -> view l' addr <> None).
Proof.
  intros [H1 H2 _] addr. destruct (decide (a <= addr < b)) as [Hr|Hr]; [|by rewrite H1 by lia]. destruct (H2 addr Hr) as [->| ->]; [done|].
  by destruct (view l addr) as [[[[? ?] ?] ?]|].
Qed.

Lemma reprotected_none g lo hi root s tbl s' tbl' va : g None = None -> reprotected g lo hi root s tbl s' tbl' -> leaf (words s) 4 root va = None -> leaf (words s') 4 root va = None.
Proof. intros Hg [R _ _ _] Hl. rewrite R, Hl. by destruct (_ && _). Qed.

Lemma sys_mprotect_settled merge_ok root F tbl p m addr len prot : never_fails (A := A) -> proc_inv root F tbl p m -> settled root p m ->
  0 <= addr -> addr mod 4096 = 0 -> 0 < len -> addr + len <= 2 ^ 47 ->
  exists r p' tbl' m', sys_mprotect merge_ok root p addr len prot = Some (r, p') /\ proc_inv root F tbl' p' m' /\ settled root p' m'.
Proof.
  intros Hnf HI [Hc Hu Hn] Ha Hal Hl Hr. destruct (sys_mprotect_spec merge_ok root F tbl p m addr len prot HI Ha Hal Hl Hr) as (r & p' & tbl' & m' & E & HI' & Hn' & Hcase).
  exists r, p', tbl', m'. split; [done|]. split; [done|].
  destruct Hcase as [(_ & HR & _ & Hp)|(_ & -> & k & s1 & tbl1 & _ & HR1 & HR2)].
  - pose proof (protected_owner _ _ _ _ _ (Hp Hnf)) as Ho. split; [|intros a Ha'; rewrite !(proj1 (Ho _)); by apply Hu|by rewrite Hn'].
    intros va Huv Hl'. apply Ho, Hc; [done|]. intros E'. by apply Hl', (reprotected_none _ _ _ _ _ _ _ _ va eq_refl HR).
  - split; [|done|done]. intros va Huv Hl'. apply Hc; [done|]. intros E'. by apply Hl', (reprotected_none _ _ _ _ _ _ _ _ va eq_refl HR2), (reprotected_none _ _ _ _ _ _ _ _ va eq_refl HR1).
Qed.
End Mprotect.

Section Brk.
Context {P A : Type} `{!Frames P, !FramesLaws P, !ObjAlloc A}.
Implicit Types s : pg P.
Implicit Types p : proc P A.

(** The heap grows by a region, unless there is another one in the way; the break
    moves in any case. *)
Lemma brk_grow_spec root F tbl p m addr : proc_inv root F tbl p m -> brk_current m < addr <= USER_ADDR_MAX ->
  (forall va, user_va va = true -> PAGE_ALIGN_UP (brk_current m) <= page_va va < PAGE_ALIGN_UP addr -> leaf (words (tables p)) 4 root va <> None -> view (regions_of m) (page_va va) <> None) ->
  exists p' m', sys_brk root p addr = Some (addr, p') /\ proc_inv root F tbl p' m' /\ tables p' = tables p /\ brk_current m' = addr /\ brk_base m' = brk_base m /\ mmap_next_addr m' = mmap_next_addr m /\
    ((forall a, PAGE_ALIGN_UP (brk_current m) <= a < PAGE_ALIGN_UP addr -> view (regions_of m) a = None) /\
     (forall a, view (regions_of m') a = if (PAGE_ALIGN_UP (brk_current m) <=? a) && (a <? PAGE_ALIGN_UP addr)
        then Some (Z.lor PROT_READ PROT_WRITE, Z.lor MAP_PRIVATE MAP_ANONYMOUS, -1, 0) else view (regions_of m) a) \/
     mm_vmas m' = mm_vmas m).
Proof.
  intros HI Ha Hfree. pose proof HI as [Hc W HS Hus Hnx Hbk]. unfold USER_ADDR_MAX in *. unfold sys_brk. rewrite Hc, (proj2 (Z.eqb_neq addr 0)) by lia.
  unfold is_user_pointer, USER_ADDR_MAX. rewrite (proj2 (Z.leb_le addr _)) by lia. cbn [negb]. destruct (Z.gtb_spec addr (brk_current m)); [|lia].
  destruct (align_up_spec addr ltac:(unfold PAGE_SIZE; lia)) as [Hm1 Hu1], (align_up_spec (brk_current m) ltac:(unfold PAGE_SIZE; lia)) as [Hm2 Hu2]. unfold PAGE_SIZE in *.
  assert (Hend : PAGE_ALIGN_UP addr <= 2 ^ 47) by (pose proof (Z.div_mod (PAGE_ALIGN_UP addr) 4096 ltac:(lia)); lia).
  destruct (Z.gtb_spec (PAGE_ALIGN_UP addr) (PAGE_ALIGN_UP (brk_current m))) as [Hg|Hg].
  - destruct (vma_add (mm_vmas m) _ _ _ _ _ _ _) as [[r vmas] a] eqn:Ea.
    assert (Hse : 0 <= PAGE_ALIGN_UP (brk_current m) < PAGE_ALIGN_UP addr) by lia. assert (Hb : 0 <= addr <= USER_ADDR_MAX) by (unfold USER_ADDR_MAX; lia).
    destruct (add_region_spec root F tbl p m _ _ _ _ _ _ r vmas a (mmap_next_addr m) addr HI Hse Hend Hnx Hb Hfree Ea) as [HI' Hcase].
    eexists _, _. split; [done|]. split; [exact HI'|]. do 4 (split; [done|]). destruct Hcase as [(_ & H1 & H2)|(_ & -> & _)]; [by left|by right].
  - eexists _, (Mm (mm_vmas m) (brk_base m) addr (mmap_next_addr m)). split; [done|]. split; [|by split_and!; try done; right].
    split; cbn [tables nodes current mm_vmas mmap_next_addr brk_current]; try done. unfold USER_ADDR_MAX. lia.
Qed.

Lemma removed_own own own' lo hi root s tbl s' tbl' :
  (forall va, user_va va = true -> lo <= vpn va < hi -> leaf (words s) 4 root va <> None -> own (page_va va) = own' (page_va va)) ->
  removed own' lo hi root s tbl s' tbl' -> removed own lo hi root s tbl s' tbl'.
Proof.
  intros Ho [R1 R2 R3 R4 R5 R6]. split; try done.
  - intros va e Hu Hr Hw Hl. apply (R3 va); try done. rewrite <- Ho; [done|done|done|by rewrite Hl].
  - intros q Hq Ht Hn. apply R4; [done|done|]. intros va e Hu Hr Hw Hl. apply (Hn va); try done. rewrite Ho; [done|done|done|by rewrite Hl].
Qed.

(** A page of the heap taken down. *)
Lemma brk_page_spec own s root tbl va : space_inv own s root tbl -> 0 <= va < 2 ^ 47 -> va mod 4096 = 0 -> own va = true ->
  exists tbl', space_inv own (brk_page s root va) root tbl' /\ removed own (vpn va) (vpn va + 1) root s tbl (brk_page s root va) tbl'.
Proof.
  intros HI Hv Ha Ho. pose proof (user_va_low va Hv) as Hu. unfold brk_page. destruct (leaf (words s) 4 root va) as [[l e]|] eqn:Hl.
  - destruct (mapped_page _ s root tbl va l e HI Hu Ha Hl) as (-> & -> & Hz). rewrite (proj2 (Z.eqb_neq _ _) Hz), align_down_page by apply mask_page.
    destruct (unmap_free_spec own s root tbl va e HI Hu (page_va_aligned va ltac:(lia) Ha) Hl) as (tbl' & H). rewrite Ho in H. by exists tbl'.
  - exists tbl. rewrite virt_to_phys_leaf, Hl. cbn [leaf_phys Z.eqb negb]. split; [done|by apply removed_none].
Qed.

(** The heap shrinks: its pages and its region go, provided that the pages between
    the new and the old break are private memory of the process. *)
Lemma brk_shrink_spec root F tbl p m addr : proc_inv root F tbl p m -> 0 < addr < brk_current m -> brk_base m <= addr ->
  (forall va, user_va va = true -> PAGE_ALIGN_UP addr <= page_va va < PAGE_ALIGN_UP (brk_current m) -> leaf (words (tables p)) 4 root va <> None -> own_of m (page_va va) = true) ->
  exists p' m' tbl', sys_brk root p addr = Some (addr, p') /\ proc_inv root F tbl' p' m' /\ brk_current m' = addr /\ brk_base m' = brk_base m /\
    range_gone root tbl p m (PAGE_ALIGN_UP addr) (PAGE_ALIGN_UP (brk_current m)) tbl' p' m'.
Proof.
  intros HI Ha Hb Hown. pose proof HI as [Hc W HS Hus Hnx Hbk]. unfold USER_ADDR_MAX in *. unfold sys_brk. rewrite Hc, (proj2 (Z.eqb_neq addr 0)) by lia.
  unfold is_user_pointer, USER_ADDR_MAX. rewrite (proj2 (Z.leb_le addr _)) by lia. cbn [negb]. destruct (Z.gtb_spec addr (brk_current m)); [lia|].
  destruct (Z.ltb_spec addr (brk_current m)); [|lia]. destruct (Z.geb_spec addr (brk_base m)); [|lia]. cbn [andb].
  destruct (align_up_spec addr ltac:(unfold PAGE_SIZE; lia)) as [Hm1 Hu1], (align_up_spec (brk_current m) ltac:(unfold PAGE_SIZE; lia)) as [Hm2 Hu2]. unfold PAGE_SIZE in *.
  set (lo := PAGE_ALIGN_UP addr) in *. set (hi := PAGE_ALIGN_UP (brk_current m)) in *. pose proof (Z.div_mod lo 4096 ltac:(lia)). pose proof (Z.div_mod hi 4096 ltac:(lia)).
  set (own' := fun va => own_of m va || ((lo <=? va) && (va <? hi))).
  assert (HS' : space_inv own' (tables p) root tbl).
  { eapply space_inv_own; [|exact HS]. intros va Hu Ho. destruct (leaf (words (tables p)) 4 root va) eqn:E; [left|by right]. unfold own' in Ho.
    apply orb_true_iff in Ho as [?|Ho]; [done|]. b2p. apply Hown; [done|lia|by rewrite E]. }
  assert (En : pages_in lo hi = Z.to_nat ((hi - lo) / 4096)) by done.
  assert (Hn : Z.of_nat (pages_in lo hi) = (hi - lo) / 4096 /\ lo + (hi - lo) / 4096 * 4096 = hi /\ lo / 4096 + (hi - lo) / 4096 = hi / 4096).
  { assert (Hd : (hi - lo) / 4096 = hi / 4096 - lo / 4096) by (symmetry; apply Z.div_unique_exact; lia). rewrite En, Hd. lia. }
  destruct Hn as (N1 & N2 & N3).
  destruct (page_loop_spec own' root (fun s va => brk_page s root va) (tables p) tbl lo (pages_in lo hi)) as (tbl' & HI1 & HR1); try done; try lia.
  { intros s1 tbl1 va HI1 Hv Hva. apply brk_page_spec; [done|lia|done|]. unfold own'. rewrite (proj2 (Z.leb_le lo va)), (proj2 (Z.ltb_lt va hi)) by lia. apply orb_true_r. }
  rewrite N1, N3 in HR1. destruct (vma_remove_spec (mm_vmas m) lo hi F (nodes p) W ltac:(lia)) as (b & vmas & a & -> & W' & Hno & Hsh & _).
  eexists _, (Mm vmas (brk_base m) addr (mmap_next_addr m)), tbl'. split; [done|]. split; [|do 2 (split; [done|])].
  - split; cbn [tables nodes current mm_vmas mmap_next_addr brk_current]; try done.
    + eapply space_inv_own; [|exact HI1]. intros va Hu Ho. left. unfold own'. by rewrite (keeps_owner_owned _ _ _ (shrinks_keeps_owner _ _ _ _ Hsh) Ho).
    + by eapply keeps_owner_user; [by eapply shrinks_keeps_owner|].
    + unfold USER_ADDR_MAX. lia.
  - split; cbn [tables mm_vmas].
    + eapply removed_own; [|exact HR1]. intros va Hu Hr Hl. unfold own'. rewrite <- in_range_page in Hr by done. rewrite Hown by done. done.
    + by apply no_overlap_view.
    + intros Hnf a' Ha'. by apply Hsh.
    + by eapply shrinks_keeps_owner.
    + done.
Qed.

Lemma brk_grow_settled root F tbl p m addr : proc_inv root F tbl p m -> settled root p m -> brk_current m < addr <= USER_ADDR_MAX ->
  exists p' m', sys_brk root p addr = Some (addr, p') /\ proc_inv root F tbl p' m' /\ settled root p' m'.
Proof.
  intros HI [Hc Hu Hn] Ha. pose proof (pv_brk _ _ _ _ _ HI) as Hb. unfold USER_ADDR_MAX in *.
  destruct (brk_grow_spec root F tbl p m addr HI Ha (fun va Huv _ => Hc va Huv)) as (p' & m' & E & HI' & Et & _ & _ & En & Hcase). exists p', m'. split; [done|]. split; [done|].
  destruct (align_up_spec addr ltac:(unfold PAGE_SIZE; lia)) as [Hm1 _], (align_up_spec (brk_current m) ltac:(unfold PAGE_SIZE; lia)) as [Hm2 _].
  destruct Hcase as [[Hfree Hv]|Ev]; [|split; [|by rewrite Ev|by rewrite En]; intros va Huv; rewrite Et, Ev; by apply Hc]. split; [| |by rewrite En].
  - intros va Huv. rewrite Et, Hv. intros Hl. destruct (_ && _); [done|by apply Hc].
  - apply (uniform_range (regions_of m) _ (PAGE_ALIGN_UP (brk_current m)) (PAGE_ALIGN_UP addr) (Some (Z.lor MAP_PRIVATE MAP_ANONYMOUS, -1))); [done|done|done| |]; intros a Ha'; rewrite Hv.
    + by rewrite (proj2 (Z.leb_le _ _)), (proj2 (Z.ltb_lt _ _)) by lia.
    + destruct (_ && _) eqn:Ex; [b2p; lia|done].
Qed.
End Brk.
