(* ===== verification/ProcFault.v ===== *)
(** * Page faults of a process *)

From S2P Require Import Prelude ObjAlloc Bitmap DList Pmm PmmInv PmmSpec PmmReclaim Vma VmaTree VmaSpec UserRange Paging PagingInv PagingSpec AddrSpace ForkInv KernelHalf ForkSpec Fork PageFault PageFaultSpec PageFaultThms SysMm ProcMem SysMmSpec Mprotect.

Section Fault.
Context {P A : Type} `{!Frames P, !FramesLaws P, !ObjAlloc A}.
Implicit Types s : pg P.
Implicit Types p : proc P A.

Abbreviation frame_of e := (Z.land e PAGE_MASK).

(** A page gets a frame that was free. *)
Lemma space_inv_fresh own s tbl s' tbl' root va0 e' : pt_inv s' root tbl' ->
  (forall va, leaf (words s') 4 root va = if decide (vpn va0 = vpn va) then Some (1%nat, e') else leaf (words s) 4 root va) ->
  frame_of e' <> 0 -> fr_managed (frames s) (frame_of e') = true -> fr_ref (frames s) (frame_of e') = 0 -> tbl' !! frame_of e' = None ->
  0 < fr_ref (frames s') (frame_of e') ->
  (forall q, page q -> 0 < fr_ref (frames s) q -> tbl !! q = None -> 0 < fr_ref (frames s') q /\ tbl' !! q = None) ->
  (forall q, fr_managed (frames s') q = fr_managed (frames s) q) -> space_inv own s root tbl -> space_inv own s' root tbl'.
Proof.
  intros HI' Hl Hz Hm H0 Ht Hr' Hr Hmg [H1 H2 H3 H4 H5].
  assert (Hfree : forall va e, user_va va = true -> leaf (words s) 4 root va = Some (1%nat, e) -> frame_of e <> frame_of e').
  { intros va e Hu He E. destruct (H2 va 1%nat e Hu He) as (_ & _ & Hp). rewrite E in Hp. destruct (Hp Hm). lia. }
  split; [done| | | |].
  - intros va l e Hu. rewrite Hl. case_decide as E; [intros [= <- <-]; done|]. intros He. destruct (H2 va l e Hu He) as (-> & Hz' & Hp). split; [done|]. split; [done|].
    rewrite Hmg. intros [Hp1 Hp2]%Hp. apply Hr; [apply mask_page|done|done].
  - intros va e Hu Ho. rewrite Hl, Hmg. case_decide; [intros [= <-]; done|]. by apply H3.
  - intros va va' e1 e2 Hu Hu' Ho. rewrite !Hl. case_decide as D1; case_decide as D2.
    + intros _ _ _. congruence.
    + intros [= <-] He2 E. by destruct (Hfree va' e2 Hu' He2).
    + intros He1 [= <-] E. by destruct (Hfree va e1 Hu He1).
    + by apply H4.
  - intros va e Hu. rewrite Hl, Hmg. case_decide; [intros [= <-]; done|]. by apply H5.
Qed.

(** A write to a page that is present. *)
Lemma cow_space own s root tbl cr2 : space_inv own s root tbl -> user_va cr2 = true ->
  exists r s', cow_fault s root cr2 = (r, s') /\ space_inv own s' root tbl /\
    (forall va, leaf (words s') 4 root va = None <-> leaf (words s) 4 root va = None).
Proof.
  intros HI Hu. pose proof (cow_fault_walk s root cr2) as Hw. assert (Hno : cow_fault s root cr2 = (-1, s) -> exists r s', cow_fault s root cr2 = (r, s') /\ space_inv own s' root tbl /\
    (forall va, leaf (words s') 4 root va = None <-> leaf (words s) 4 root va = None)) by (intros E; by exists (-1), s).
  destruct (leaf (words s) 4 root cr2) as [[l e]|] eqn:Hl; [|by apply Hno]. destruct (si_user _ _ _ _ HI cr2 l e Hu Hl) as (-> & Hz & Hm).
  destruct Hw as (pt & Ht & He & Hp & Ec). destruct (set e PAGE_FLAG_COW) eqn:Hc.
  2:{ apply Hno. rewrite Ec. unfold cow_page. rewrite He. by rewrite Hc. }
  pose proof (si_cow _ _ _ _ HI cr2 e Hu Hl Hc) as Hmg. destruct (Hm Hmg) as [Hpos Hnt]. pose proof (si_inv _ _ _ _ HI) as HT. rewrite Ec.
  destruct (cow_page_spec s root tbl cr2 pt HT Ht) as (r & s' & -> & HT' & H); rewrite ?He; try done. rewrite He in H. exists r, s'. split; [done|].
  destruct H as [(-> & e' & [M1 M2 M3 M4 M5 M6 M7 M8 M9 M10 M11])|(-> & Ew & _ & _ & Hr & Hmm)].
  2:{ split; [|by rewrite Ew]. apply (space_inv_sub own s tbl); try done; rewrite Ew; [intros va l e' _ H'; by exists e'|]. intros va e' _ _ Hp' Ht'. by rewrite Hr by apply mask_page. }
  split; [|intros va; rewrite M1; case_decide as D; [by rewrite (leaf_vpn s root va cr2), Hl by done|done]].
  destruct M6 as [[Ef _]|(Hfr & E1 & E2)].
  - apply (space_inv_sub own s tbl); try done.
    + intros va l e1 _. rewrite M1. case_decide as D; [|intros H'; by exists e1]. intros [= <- <-]. exists e. rewrite (leaf_vpn s root va cr2), Hl, M3 by done. done.
    + intros va e1 _ _ Hp' Ht'. split; [|done]. destruct (decide (frame_of e1 = frame_of e')) as [->|Hne]; [lia|]. rewrite M7; [done|apply mask_page|congruence|done].
  - assert (Hne : frame_of e' <> frame_of e) by (intros E; rewrite E in Hfr; lia). destruct M10 as [?|(Hz' & Hm' & Hn')]; [done|].
    apply (space_inv_fresh own s tbl s' tbl root cr2 e'); try done; [lia|]. intros q Hq Hp' Ht'. split; [|done].
    destruct (decide (q = frame_of e)) as [->|Hq1]; [lia|]. destruct (decide (q = frame_of e')) as [->|Hq2]; [lia|]. by rewrite M7.
Qed.

(** Filling in a page. *)
Lemma demand_space own s root tbl cr2 prot um wf : space_inv own s root tbl -> user_va cr2 = true -> 0 <= cr2 < 2 ^ 64 -> leaf (words s) 4 root cr2 = None ->
  exists r s' tbl', demand_page s root cr2 prot um wf = (r, s') /\ space_inv own s' root tbl' /\
    (forall va, vpn cr2 <> vpn va -> leaf (words s') 4 root va = leaf (words s) 4 root va).
Proof.
  intros HI Hu Hc Hl. pose proof (si_inv _ _ _ _ HI) as HT. destruct (demand_page_spec s root tbl cr2 prot HT Hc Hl um wf) as (r & s' & tbl' & -> & HT' & Hsub & Hnew & H).
  exists r, s', tbl'. split; [done|].
  assert (Hkeep : (forall q, page q -> 0 < fr_ref (frames s) q -> fr_ref (frames s') q = fr_ref (frames s) q) ->
    forall q, page q -> 0 < fr_ref (frames s) q -> tbl !! q = None -> 0 < fr_ref (frames s') q /\ tbl' !! q = None).
  { intros Hr q Hq Hp Ht. rewrite Hr by done. split; [done|]. destruct (tbl' !! q) as [l|] eqn:E; [|done]. pose proof (Hnew q l E Ht). lia. }
  destruct (allowed prot wf); [destruct H as [(-> & f & [(Fp & Fz & F0 & F1) F2 F3 F4 F5 F6 F7] & Hf)|(-> & [N1 N2 N3 N4])]|destruct H as [-> ->]].
  - assert (Ef : frame_of (pte f (dp_build_flags prot)) = f) by (rewrite pte_phys by apply dp_build_flags_mask; rewrite <- (Z.lor_0_r f) at 1; rewrite page_mask by done; by rewrite Z.lor_0_r).
    split; [|intros va Hv; rewrite F2; by rewrite decide_False].
    apply (space_inv_fresh own s tbl s' tbl' root cr2 (pte f (dp_build_flags prot))); rewrite ?Ef; try done; [lia|by apply Hkeep].
  - split; [|done]. apply (space_inv_sub own s tbl); try done; [intros va l e _ H; rewrite N1 in H; by exists e|].
    intros va e _ _ Hp Ht. apply Hkeep; [done|apply mask_page|done|done].
  - split; [|done]. apply (space_inv_sub own s tbl); try done; [intros va l e _ H; by exists e|].
    intros va e _ _ Hp Ht. apply Hkeep; [done|apply mask_page|done|done].
Qed.

(** ** Regions *)

Lemma page_va_low va : 0 <= va < 2 ^ 48 -> page_va va = va / 4096 * 4096.
Proof. intros Hv. unfold page_va. by rewrite vpn_user, Z.shiftl_mul_pow2 by lia. Qed.

(** The effect of growing a stack on who owns the pages. *)
Lemma growth_owner l l' cr2 r : ordered l -> stack_growth (A := A) l cr2 r l' ->
  forall addr, owner (view l' addr) = owner (view l addr) \/ view l' addr = None \/ view l addr = None.
Proof.
  intros Ho Hg addr. destruct Hg as [r|v q l' Hv _ _ _ Hview Hnew|v l' Hv _ Hview _].
  - by left.
  - rewrite Hview. destruct (containsb (grown v cr2) addr) eqn:E; [|by left]. apply containsb_spec in E. destruct (Hnew addr E) as [Hc|Hn]; [left|by right; right].
    by rewrite (view_in l v addr Ho Hv Hc).
  - destruct (Hview addr) as [->|[_ ->]]; [by left|by right; left].
Qed.

Lemma land_page_base cr2 : 0 <= cr2 < 2 ^ 64 -> Z.land cr2 (u64 (Z.lnot 0xFFF)) = cr2 / 4096 * 4096.
Proof. intros Hc. exact (land_page_mask cr2 Hc). Qed.

Lemma growth_uniform l l' cr2 r : never_fails (A := A) -> ordered l -> 0 <= cr2 < 2 ^ 64 -> uniform l -> stack_growth (A := A) l cr2 r l' -> uniform l'.
Proof.
  intros Hnf Ho Hc Hu Hg. destruct Hg as [r|v q l' Hv _ Hlt _ Hview Hnew|v l' Hv _ _ Hview].
  - done.
  - assert (region v) as [Hv0 Hv1] by (destruct Ho as [Hr _]; rewrite Forall_forall in Hr; by apply Hr).
    assert (Hown : forall addr, contains v addr -> owner (view l addr) = Some (v_flags v, v_fd v)) by (intros addr Hcv; by rewrite (view_in l v addr Ho Hv Hcv)).
    intros addr Ha. rewrite !Hview. pose proof (Z.div_mod addr 4096 ltac:(lia)). pose proof (Z.mod_pos_bound addr 4096 ltac:(lia)).
    pose proof (land_page_base cr2 Hc) as Eb. pose proof (Z.div_mod cr2 4096 ltac:(lia)). pose proof (Z.mod_pos_bound cr2 4096 ltac:(lia)).
    destruct (containsb (grown v cr2) addr) eqn:E1, (containsb (grown v cr2) (addr / 4096 * 4096)) eqn:E2; [done|exfalso| |by apply Hu].
    + apply containsb_spec in E1. assert (~ contains (grown v cr2) (addr / 4096 * 4096)) as E2' by (intros Hx%containsb_spec; congruence).
      unfold contains in E1, E2'. cbn [grown v_start v_end] in E1, E2'. rewrite Eb in E1, E2'. lia.
    + apply containsb_spec in E2. assert (~ contains (grown v cr2) addr) as E1' by (intros Hx%containsb_spec; congruence). unfold contains in E1', E2.
      cbn [grown v_start v_end] in E1', E2. pose proof (Hu addr Ha) as U1. pose proof (Hu (v_end v - 1) ltac:(lia)) as U2.
      assert (Eq : (v_end v - 1) / 4096 = addr / 4096) by (symmetry; apply (Z.div_unique (v_end v - 1) 4096 (addr / 4096) (v_end v - 1 - addr / 4096 * 4096)); lia).
      rewrite Eq in U2. rewrite Hown in U2 by (unfold contains; lia). by rewrite U1, <- U2.
  - intros addr Ha. rewrite !Hview by done. by apply Hu.
Qed.

Lemma growth_proc root F tbl p m cr2 r vmas' a' : proc_inv root F tbl p m -> settled root p m -> never_fails (A := A) -> 0 <= cr2 < 2 ^ 64 ->
  vma_wf vmas' F a' -> stack_growth (A := A) (regions_of m) cr2 r (elems (Vma.root vmas')) ->
  let m' := Mm vmas' (brk_base m) (brk_current m) (mmap_next_addr m) in
  let p' := Proc (tables p) a' (Some (Some m')) in proc_inv root F tbl p' m' /\ settled root p' m'.
Proof.
  intros [Hc W HS Hus Hnx Hbk] [Hcov Hu Hal] Hnf Hcr W' Hg m' p'. pose proof (growth_owner _ _ _ _ (vw_ordered _ _ _ W) Hg) as Ho.
  split; split; cbn [tables nodes current mm_vmas mmap_next_addr brk_current m' p']; try done.
  - eapply space_inv_own; [|exact HS]. intros va Huv. unfold owned_at, owns_view.
    destruct (Ho (page_va va)) as [->|[->|E]]; [by left|by cbn|right]. destruct (leaf (words (tables p)) 4 root va) eqn:El; [|done]. destruct (Hcov va Huv); [by rewrite El|done].
  - intros addr Hv. destruct Hg as [r|v q l' Hv' _ _ _ Hview _|v l' Hv' _ _ Hview]; [by apply Hus| |rewrite Hview in Hv by done; by apply Hus].
    rewrite Hview in Hv. destruct (containsb (grown v cr2) addr) eqn:E; [|by apply Hus]. apply containsb_spec in E as [_ E]. cbn [grown v_end] in E.
    assert (region v) as [Hv0 Hv1] by (destruct (vw_ordered _ _ _ W) as [Hr _]; rewrite Forall_forall in Hr; by apply Hr).
    assert (v_end v - 1 < 2 ^ 47); [|lia]. apply Hus. rewrite (view_in _ v) by (done || apply W || unfold contains; lia). done.
  - intros va Huv Hl Hv. pose proof (Hcov va Huv Hl) as Hn. revert Hv. change (regions_of m') with (elems (Vma.root vmas')). destruct Hg as [r|v q l' Hv' _ _ _ Hview _|v l' Hv' _ _ Hview]; [done| |by rewrite Hview].
    rewrite Hview. by destruct (containsb _ _).
  - by eapply growth_uniform; [| |exact Hcr|exact Hu|exact Hg]; [|apply W].
Qed.

(** A fault at an address of the user. *)
Lemma fault_proc root F tbl p m active cr2 error : proc_inv root F tbl p m -> settled root p m -> never_fails (A := A) -> root <> 0 -> 0 <= cr2 < 2 ^ 47 ->
  (set error 1 = false -> leaf (words (tables p)) 4 root cr2 = None) ->
  exists res s' a' vmas' tbl',
    vmm_handle_page_fault (tables p) (nodes p) active (Some (FaultThread root (Some (mm_vmas m)))) cr2 error = Some (res, Some (FaultThread root (Some vmas')), s', a') /\
    let m' := Mm vmas' (brk_base m) (brk_current m) (mmap_next_addr m) in
    let p' := Proc s' a' (Some (Some m')) in proc_inv root F tbl' p' m' /\ settled root p' m'.
Proof.
  intros HI HT Hnf Hr Hcr Habs. pose proof HI as [Hc W HS Hus Hnx Hbk]. pose proof (user_va_low cr2 Hcr) as Hu. unfold vmm_handle_page_fault. cbn [ft_cr3 ft_mm].
  rewrite (proj2 (Z.eqb_neq root 0) Hr). destruct (set error 1).
  - destruct (set error 2).
    + destruct (cow_space (own_of m) (tables p) root tbl cr2 HS Hu) as (r & s' & -> & HS' & Hl). eexists _, s', (nodes p), (mm_vmas m), tbl. split; [done|]. split.
      * by split.
      * destruct HT as [H1 H2 H3]. split; [|done|done]. intros va Huv Hn. apply H1; [done|]. by rewrite <- Hl.
    + eexists _, (tables p), (nodes p), (mm_vmas m), tbl. split; [done|]. split; [by split|]. by destruct HT.
  - destruct (fault_region_spec (mm_vmas m) F (nodes p) cr2 W ltac:(lia)) as (r & vmas' & a' & -> & W' & Hreg & Hg).
    destruct (growth_proc root F tbl p m cr2 r vmas' a' HI HT Hnf ltac:(lia) W' Hg) as [HI' HT']. destruct r as [[q v]|].
    + destruct Hreg as [Hv Hcon]. destruct HI' as [Hc' _ HS' Hus' Hnx' Hbk'], HT' as [Hcov' Huni' Hal'].
      destruct (demand_space _ (tables p) root tbl cr2 (v_prot v) (set error 4) (set error 2) HS' Hu ltac:(lia) (Habs eq_refl)) as (res & s' & tbl' & -> & HS2 & Hl2).
      eexists res, s', a', vmas', tbl'. split; [done|]. split; [by split|]. split; [|done|done]. intros va Huv Hn Hv0. destruct (decide (vpn cr2 = vpn va)) as [E|E].
      * assert (Hpv : page_va va = cr2 / 4096 * 4096) by (rewrite (page_va_vpn cr2 va), page_va_low by (done || lia); done).
        pose proof (Huni' cr2 ltac:(lia)) as Hx. cbn [mm_vmas] in Hx, Hv0. rewrite <- Hpv, Hv0 in Hx. by rewrite (view_in _ v cr2 (vw_ordered _ _ _ W') Hv Hcon) in Hx.
      * rewrite Hl2 in Hn by done. by apply (Hcov' va).
    + destruct (negb _ && _); eexists _, (tables p), a', vmas', tbl; (split; [done|]); done.
Qed.
End Fault.
