(* ===== verification/ProcThms.v ===== *)
(** * The properties of the memory system calls *)

From S2P Require Import Prelude ObjAlloc Bitmap DList Pmm PmmInv PmmSpec PmmReclaim PmmThms Vma VmaTree VmaSpec VmaThms UserRange Paging PagingInv PagingSpec PmmFrames PagingThms AddrSpace ForkInv KernelHalf ForkSpec Fork ForkThms PageFault PageFaultSpec PageFaultThms SysMm ProcMem SysMmSpec Mprotect ProcFault.

Section Calls.
Context {P A : Type} `{!Frames P, !FramesLaws P, !ObjAlloc A}.
Implicit Types s : pg P.
Implicit Types p : proc P A.
Implicit Types fds : Z -> option (option (mmap_op (P := P) (A := A))).

Abbreviation frame_of e := (Z.land e PAGE_MASK).

(** ** mmap *)

(** The outcome of an anonymous mapping that did not fail. *)
Record mapped_anew (root : Z) p (m : mm) (addr len prot flags r : Z) p' (m' : mm) : Prop := {
  ma_range : 0 <= r /\ r mod 4096 = 0 /\ r + len <= 2 ^ 47;
  ma_fixed : if set flags MAP_FIXED then r = addr else MMAP_REGION_BASE <= r /\ r + len <= MMAP_REGION_LIMIT /\ forall a, r <= a < r + len -> view (regions_of m) a = None;
  ma_view : forall a, view (regions_of m') a = if (r <=? a) && (a <? r + len) then Some (prot, flags, -1, 0) else view (regions_of m) a;
  ma_leaf : forall va, user_va va = true ->
    leaf (words (tables p')) 4 root va = if (r <=? page_va va) && (page_va va <? r + len) then None else leaf (words (tables p)) 4 root va;
}.

(** Placing a mapping of [len] bytes, both ways. *)
Lemma mmap_place_spec gap_ok root F tbl p m addr len flags : proc_inv root F tbl p m -> settled root p m -> never_fails (A := A) ->
  0 <= addr < 2 ^ 64 -> 0 < len <= 2 ^ 47 -> len mod 4096 = 0 ->
  exists v p1, mmap_place gap_ok root p addr len flags = Some (v, p1) /\
    match v with
    | None => p1 = p
    | Some va => exists tbl1 m1, proc_inv root F tbl1 p1 m1 /\ settled root p1 m1 /\ 0 <= va /\ va mod 4096 = 0 /\ va + len <= 2 ^ 47 /\ placed gap_ok root F tbl p m addr len flags va tbl1 p1 m1
    end.
Proof.
  intros HI HT Hnf Ha Hl Hm. destruct (set flags MAP_FIXED) eqn:Hf; [by apply mmap_fixed_spec|by apply mmap_gap_spec].
Qed.

(** The region of a placed mapping. *)
Lemma mmap_anonymous_spec root F tbl p m va len prot flags : proc_inv root F tbl p m -> settled root p m -> never_fails (A := A) ->
  0 <= va -> va mod 4096 = 0 -> 0 < len -> len mod 4096 = 0 -> va + len <= 2 ^ 47 ->
  exists m', proc_inv root F tbl (mmap_anonymous p va len prot flags) m' /\ settled root (mmap_anonymous p va len prot flags) m' /\ tables (mmap_anonymous p va len prot flags) = tables p /\
    (((forall a, va <= a < va + len -> view (regions_of m) a = None) /\
      forall a, view (regions_of m') a = if (va <=? a) && (a <? va + len) then Some (prot, flags, -1, 0) else view (regions_of m) a) \/
     (~ (forall a, va <= a < va + len -> view (regions_of m) a = None) /\ mm_vmas m' = mm_vmas m)).
Proof.
  intros HI [Hc Hu Hn] Hnf Hva Hvm Hl Hlm He. pose proof (pv_current _ _ _ _ _ HI) as Ec. pose proof (pv_next _ _ _ _ _ HI) as Hnx. unfold mmap_anonymous. rewrite Ec.
  assert (Eu : u64 (va + len) = va + len) by (unfold u64; apply Z.mod_small; lia). rewrite Eu.
  destruct (vma_add (mm_vmas m) va (va + len) prot flags (-1) 0 (nodes p)) as [[r vmas] a] eqn:Ea.
  assert (Hse : 0 <= va < va + len) by lia. assert (Hnx' : MMAP_REGION_BASE <= Z.max (mmap_next_addr m) (va + len) <= 2 ^ 47) by lia.
  destruct (add_region_spec root F tbl p m _ _ _ _ _ _ r vmas a _ _ HI Hse He Hnx' (pv_brk _ _ _ _ _ HI) (fun va' Huv _ => Hc va' Huv) Ea) as [HI' Hcase].
  assert (Hal : Z.max (mmap_next_addr m) (va + len) mod 4096 = 0) by (apply Z.max_case; [done|by rewrite Zplus_mod, Hvm, Hlm]).
  eexists. split; [exact HI'|]. destruct Hcase as [(_ & H1 & H2)|(_ & -> & Hwhy)].
  - split; [|split; [done|by left]]. split; [| |done].
    + intros va' Huv Hl'. rewrite H2. destruct (_ && _); [done|by apply Hc].
    + apply (uniform_range (regions_of m) _ va (va + len) (Some (flags, -1))); [done|by rewrite Zplus_mod, Hvm, Hlm|done| |]; intros x Hx; rewrite H2.
      * by rewrite (proj2 (Z.leb_le _ _)), (proj2 (Z.ltb_lt _ _)) by lia.
      * destruct (_ && _) eqn:Ex; [b2p; lia|done].
  - split; [by split|]. split; [done|]. right. split; [|done]. destruct Hwhy as [?|Hoom]; [done|]. destruct (Hnf (nodes p)) as (x & s3 & E3). by rewrite E3 in Hoom.
Qed.

Lemma sys_mmap_spec gap_ok fds root F tbl p m addr length prot flags fd offset :
  never_fails (A := A) -> proc_inv root F tbl p m -> settled root p m ->
  0 <= addr < 2 ^ 64 -> 0 < length <= 2 ^ 47 -> set flags MAP_ANONYMOUS = true ->
  exists r p' tbl' m', sys_mmap gap_ok fds root p addr length prot flags fd offset = Some (r, p') /\ proc_inv root F tbl' p' m' /\ settled root p' m' /\
    (r = MAP_FAILED /\ p' = p \/ mapped_anew root p m addr (PAGE_ALIGN_UP length) prot flags r p' m' \/
     (set flags MAP_FIXED = false /\ vma_find_gap gap_ok (mm_vmas m) (PAGE_ALIGN_UP length) MMAP_REGION_BASE MMAP_REGION_LIMIT = 0 /\
      tables p' = tables p /\ mm_vmas m' = mm_vmas m)).
Proof.
  intros Hnf HI HT Ha Hl Hanon. unfold sys_mmap. assert (Hfail : exists r p' tbl' m', Some (MAP_FAILED, p) = Some (r, p') /\ proc_inv root F tbl' p' m' /\ settled root p' m' /\
    (r = MAP_FAILED /\ p' = p \/ mapped_anew root p m addr (PAGE_ALIGN_UP length) prot flags r p' m' \/
     (set flags MAP_FIXED = false /\ vma_find_gap gap_ok (mm_vmas m) (PAGE_ALIGN_UP length) MMAP_REGION_BASE MMAP_REGION_LIMIT = 0 /\
      tables p' = tables p /\ mm_vmas m' = mm_vmas m))) by (exists MAP_FAILED, p, tbl, m; do 3 (split; [done|]); by left).
  destruct (negb (set flags MAP_SHARED) && _); [done|]. destruct (set flags MAP_SHARED && _); [done|]. rewrite (proj2 (Z.eqb_neq length 0)), Hanon by lia. cbn [negb andb].
  destruct (align_up_spec length ltac:(unfold PAGE_SIZE; lia)) as [Hlm Hlu]. unfold PAGE_SIZE in Hlu. set (L := PAGE_ALIGN_UP length) in *.
  assert (HL : 0 < L <= 2 ^ 47) by (pose proof (Z.div_mod L 4096 ltac:(lia)); lia).
  destruct (mmap_place_spec gap_ok root F tbl p m addr L flags HI HT Hnf Ha HL Hlm) as (v & p1 & -> & Hv). destruct v as [va|]; [|by subst p1].
  destruct Hv as (tbl1 & m1 & HI1 & HT1 & Hva & Hvm & Hend & Hpl).
  destruct (mmap_anonymous_spec root F tbl1 p1 m1 va L prot flags HI1 HT1 Hnf Hva Hvm ltac:(lia) Hlm Hend) as (m' & HI' & HT' & Et & Hcase).
  exists va, (mmap_anonymous p1 va L prot flags), tbl1, m'. do 3 (split; [done|]). right. unfold placed in Hpl. destruct (set flags MAP_FIXED) eqn:Hfx.
  - destruct Hpl as (-> & _ & [R1 R2 R3 R4 R5]). left. destruct Hcase as [[Hfree Hview]|[Hno _]]; [|by destruct Hno]. split; [done|by rewrite Hfx| |].
    + intros a. rewrite Hview. destruct (_ && _) eqn:E; [done|]. apply R3; [done|]. intros Hr. rewrite (proj2 (Z.leb_le _ _)), (proj2 (Z.ltb_lt _ _)) in E by lia. done.
    + intros va Huv. rewrite Et, (rm_leaf _ _ _ _ _ _ _ _ R1). by rewrite in_pages_page by (done || by rewrite Zplus_mod, Hvm, Hlm).
  - destruct Hpl as (E1 & E2 & -> & Hb1 & Hb2 & Hgap). destruct Hcase as [[Hfree Hview]|[Hno Ev]].
    + left. rewrite E2 in Hfree, Hview. split; [done|rewrite Hfx; by split_and!|done|]. intros va' Huv. rewrite Et, E1. destruct (_ && _) eqn:E; [|done].
      b2p. destruct (leaf (words (tables p)) 4 root va') eqn:El; [|done]. exfalso. apply (st_covered _ _ _ HT va' Huv); [by rewrite El|]. apply Hfree. lia.
    + right. split; [done|]. rewrite E2 in Hno. destruct Hgap as [?|Hg]; [done|]. split; [done|]. split; [congruence|]. congruence.
Qed.

(** C11: munmap of a range that does not wrap around 2^64.  A range below 2^47, aligned
    and beginning in a region, loses its regions and its pages; each page of an
    anonymous private mapping gives its frame back once, every other frame keeps its
    references, and addresses outside keep their translation.  They keep their regions
    too as long as nodes for regions can be allocated; otherwise a region that is cut
    can be lost.  Any other range that does not wrap is refused and
    nothing changes.  Tables and regions stay sound. *)
Theorem sys_munmap_correct merge_ok root F tbl p m addr length : proc_inv root F tbl p m -> 0 <= addr -> 0 <= length -> addr + length < 2 ^ 64 ->
  exists r p', sys_munmap merge_ok root p addr length = Some (r, p') /\
    if (0 <? addr) && (addr mod 4096 =? 0) && (0 <? length) && (addr + length <=? 2 ^ 47) && bool_decide (view (regions_of m) addr <> None)
    then r = 0 /\ exists tbl' m', proc_inv root F tbl' p' m' /\ range_gone root tbl p m addr (addr + PAGE_ALIGN_UP length) tbl' p' m'
    else r = E_INVAL /\ p' = p.
Proof. apply sys_munmap_spec. Qed.

(** C12: As long as nodes for regions can be allocated, an anonymous mmap of up to 2^47
    bytes has one of three outcomes.  It fails and changes nothing.  Or it adds a region
    of the requested protection at a page-aligned range of the user: the range asked
    for with MAP_FIXED, otherwise one of the mmap area that no region used; no page is
    mapped there yet, and all other regions and pages are as before.  Or, when no
    gap is found and MAP_FIXED is not given, an address is returned for which no
    region is made. *)
Theorem sys_mmap_correct gap_ok fds root F tbl p m addr length prot flags fd offset :
  never_fails (A := A) -> proc_inv root F tbl p m -> settled root p m ->
  0 <= addr < 2 ^ 64 -> 0 < length <= 2 ^ 47 -> set flags MAP_ANONYMOUS = true ->
  exists r p' tbl' m', sys_mmap gap_ok fds root p addr length prot flags fd offset = Some (r, p') /\ proc_inv root F tbl' p' m' /\ settled root p' m' /\
    (r = MAP_FAILED /\ p' = p \/ mapped_anew root p m addr (PAGE_ALIGN_UP length) prot flags r p' m' \/
     (set flags MAP_FIXED = false /\ vma_find_gap gap_ok (mm_vmas m) (PAGE_ALIGN_UP length) MMAP_REGION_BASE MMAP_REGION_LIMIT = 0 /\
      tables p' = tables p /\ mm_vmas m' = mm_vmas m)).
Proof. apply sys_mmap_spec. Qed.

(** ** All calls together *)

(** What a process does to its memory, by system calls on its own half of the address
    space and by faults: mmap of anything but a file that has an mmap operation, up to
    2^47 bytes; munmap of ranges that do not wrap; mprotect of ranges below 2^47; and
    brk, which may lower the break over pages of private anonymous regions only. *)
Inductive mem_step (root : Z) : proc P A -> proc P A -> Prop :=
| step_mmap gap_ok fds p addr length prot flags fd offset r p' : 0 <= addr < 2 ^ 64 -> 0 <= length <= 2 ^ 47 ->
    set flags MAP_ANONYMOUS = true \/ (forall op, fds fd <> Some (Some op)) ->
    sys_mmap gap_ok fds root p addr length prot flags fd offset = Some (r, p') -> mem_step root p p'
| step_munmap merge_ok p addr length r p' : 0 <= addr -> 0 <= length -> addr + length < 2 ^ 64 ->
    sys_munmap merge_ok root p addr length = Some (r, p') -> mem_step root p p'
| step_mprotect merge_ok p addr len prot r p' : 0 <= addr -> 0 <= len -> addr + len <= 2 ^ 47 ->
    sys_mprotect merge_ok root p addr len prot = Some (r, p') -> mem_step root p p'
| step_brk p m addr r p' : current p = Some (Some m) -> 0 <= addr < 2 ^ 64 ->
    (brk_base m <= addr < brk_current m -> forall va, user_va va = true -> PAGE_ALIGN_UP addr <= page_va va < PAGE_ALIGN_UP (brk_current m) ->
       leaf (words (tables p)) 4 root va <> None -> own_of m (page_va va) = true) ->
    sys_brk root p addr = Some (r, p') -> mem_step root p p'
| step_fault p m active cr2 error res vmas s a : current p = Some (Some m) -> 0 <= cr2 < 2 ^ 47 -> (set error 1 = false -> leaf (words (tables p)) 4 root cr2 = None) ->
    vmm_handle_page_fault (tables p) (nodes p) active (Some (FaultThread root (Some (mm_vmas m)))) cr2 error = Some (res, Some (FaultThread root (Some vmas)), s, a) ->
    mem_step root p (Proc s a (Some (Some (Mm vmas (brk_base m) (brk_current m) (mmap_next_addr m))))).

(** A mapping that is neither anonymous nor of a file with an mmap operation fails, but
    what MAP_FIXED took away is gone. *)
Lemma sys_mmap_no_file gap_ok fds root F tbl p m addr length prot flags fd offset r p' : never_fails (A := A) -> proc_inv root F tbl p m -> settled root p m ->
  0 <= addr < 2 ^ 64 -> 0 < length <= 2 ^ 47 -> set flags MAP_ANONYMOUS = false -> (forall op, fds fd <> Some (Some op)) ->
  sys_mmap gap_ok fds root p addr length prot flags fd offset = Some (r, p') -> exists tbl' m', proc_inv root F tbl' p' m' /\ settled root p' m'.
Proof.
  intros Hnf HI HT Ha Hl Hanon Hop. unfold sys_mmap, mmap_file. destruct (_ && _); [intros [= <- <-]; by exists tbl, m|]. destruct (_ && _); [intros [= <- <-]; by exists tbl, m|].
  rewrite (proj2 (Z.eqb_neq length 0)), Hanon by lia. cbn [negb andb]. destruct (align_up_spec length ltac:(unfold PAGE_SIZE; lia)) as [Hlm Hlu]. unfold PAGE_SIZE in Hlu. set (L := PAGE_ALIGN_UP length) in *.
  assert (HL : 0 < L <= 2 ^ 47) by (pose proof (Z.div_mod L 4096 ltac:(lia)); lia).
  destruct (mmap_place_spec gap_ok root F tbl p m addr L flags HI HT Hnf Ha HL Hlm) as (v & p1 & -> & Hv). destruct v as [va|]; [|subst p1; intros [= <- <-]; by exists tbl, m].
  destruct Hv as (tbl1 & m1 & HI1 & HT1 & _). intros E. exists tbl1, m1. assert (p' = p1) as ->; [|done].
  destruct (negb _); [|by injection E as _ <-]. destruct (current p1); [|by injection E as _ <-]. destruct (fd >=? MAX_FDS); [by injection E as _ <-|].
  specialize (Hop). destruct (fds fd) as [[op|]|]; [by destruct (Hop op)|by injection E as _ <-|by injection E as _ <-].
Qed.

Lemma step_mmap_inv gap_ok fds root F tbl p m addr length prot flags fd offset r p' : never_fails (A := A) -> proc_inv root F tbl p m -> settled root p m ->
  0 <= addr < 2 ^ 64 -> 0 <= length <= 2 ^ 47 -> set flags MAP_ANONYMOUS = true \/ (forall op, fds fd <> Some (Some op)) ->
  sys_mmap gap_ok fds root p addr length prot flags fd offset = Some (r, p') -> exists tbl' m', proc_inv root F tbl' p' m' /\ settled root p' m'.
Proof.
  intros Hnf HI HT Ha Hl Hf E. destruct (decide (length = 0)) as [->|Hz].
  { unfold sys_mmap in E. destruct (_ && _); [injection E as _ <-; by exists tbl, m|]. destruct (_ && _); injection E as _ <-; by exists tbl, m. }
  destruct (set flags MAP_ANONYMOUS) eqn:Hanon.
  - destruct (sys_mmap_spec gap_ok fds root F tbl p m addr length prot flags fd offset Hnf HI HT Ha ltac:(lia) Hanon) as (r' & p2 & tbl' & m' & E' & HI' & HT' & _).
    rewrite E in E'. injection E' as <- <-. by exists tbl', m'.
  - destruct Hf as [?|Hf]; [done|]. apply (sys_mmap_no_file gap_ok fds root F tbl p m addr length prot flags fd offset r p'); (done || lia).
Qed.

Lemma step_munmap_inv merge_ok root F tbl p m addr length r p' : never_fails (A := A) -> proc_inv root F tbl p m -> settled root p m -> 0 <= addr -> 0 <= length -> addr + length < 2 ^ 64 ->
  sys_munmap merge_ok root p addr length = Some (r, p') -> exists tbl' m', proc_inv root F tbl' p' m' /\ settled root p' m'.
Proof.
  intros Hnf HI HT Ha Hl Hal E. destruct (sys_munmap_spec merge_ok root F tbl p m addr length HI Ha Hl Hal) as (r' & p2 & E' & H). rewrite E in E'. injection E' as <- <-.
  destruct ((0 <? addr) && (addr mod 4096 =? 0) && (0 <? length) && (addr + length <=? 2 ^ 47) && bool_decide (view (regions_of m) addr <> None)) eqn:Ec2;
    [|destruct H as [_ ->]; by exists tbl, m]. destruct H as (_ & tbl' & m' & HI' & Hg).
  exists tbl', m'. split; [done|]. b2p. destruct (align_up_spec length ltac:(unfold PAGE_SIZE; lia)) as [Hlm _].
  eapply (range_gone_settled root tbl p m addr (addr + PAGE_ALIGN_UP length)); try done. by rewrite Zplus_mod, Hlm, Z.add_0_r, Z.mod_mod by lia.
Qed.

Lemma step_mprotect_inv merge_ok root F tbl p m addr len prot r p' : never_fails (A := A) -> proc_inv root F tbl p m -> settled root p m -> 0 <= addr -> 0 <= len -> addr + len <= 2 ^ 47 ->
  sys_mprotect merge_ok root p addr len prot = Some (r, p') -> exists tbl' m', proc_inv root F tbl' p' m' /\ settled root p' m'.
Proof.
  intros Hnf HI HT Ha Hl He E. destruct (Z.eqb_spec (addr mod 4096) 0) as [Hal|Hal].
  2: { unfold sys_mprotect in E. rewrite set_low_bits, (proj2 (Z.eqb_neq _ 0) Hal) in E. injection E as _ <-. by exists tbl, m. }
  destruct (decide (len = 0)) as [->|Hz]; [unfold sys_mprotect in E; rewrite set_low_bits, Hal in E; injection E as _ <-; by exists tbl, m|].
  destruct (sys_mprotect_settled merge_ok root F tbl p m addr len prot Hnf HI HT Ha Hal ltac:(lia) He) as (r' & p2 & tbl' & m' & E' & H). rewrite E in E'. injection E' as <- <-. by exists tbl', m'.
Qed.

Lemma step_brk_inv root F tbl p m addr r p' : never_fails (A := A) -> proc_inv root F tbl p m -> settled root p m -> 0 <= addr < 2 ^ 64 ->
  (brk_base m <= addr < brk_current m -> forall va, user_va va = true -> PAGE_ALIGN_UP addr <= page_va va < PAGE_ALIGN_UP (brk_current m) ->
     leaf (words (tables p)) 4 root va <> None -> own_of m (page_va va) = true) ->
  sys_brk root p addr = Some (r, p') -> exists tbl' m', proc_inv root F tbl' p' m' /\ settled root p' m'.
Proof.
  intros Hnf HI HT Ha Ho E. pose proof (pv_brk _ _ _ _ _ HI) as Hbk. pose proof (pv_current _ _ _ _ _ HI) as Ec. unfold USER_ADDR_MAX in Hbk.
  destruct (decide (addr = 0)) as [->|Hz]; [unfold sys_brk in E; rewrite Ec in E; injection E as _ <-; by exists tbl, m|].
  destruct (decide (addr <= USER_ADDR_MAX)) as [Hu|Hu].
  2: { unfold sys_brk, is_user_pointer in E. rewrite Ec, (proj2 (Z.eqb_neq addr 0)), (proj2 (Z.leb_gt addr _)) in E by lia. injection E as _ <-. by exists tbl, m. }
  destruct (decide (brk_current m < addr)) as [Hg|Hg].
  { destruct (brk_grow_settled root F tbl p m addr HI HT ltac:(lia)) as (p2 & m' & E' & H). rewrite E in E'. injection E' as <- <-. by exists tbl, m'. }
  destruct (decide (brk_base m <= addr < brk_current m)) as [Hs|Hs].
  - destruct (brk_shrink_spec root F tbl p m addr HI ltac:(lia) ltac:(lia) (Ho Hs)) as (p2 & m' & tbl' & E' & HI' & _ & _ & Hgone). rewrite E in E'. injection E' as <- <-.
    exists tbl', m'. split; [done|]. unfold USER_ADDR_MAX in *. eapply range_gone_settled; [done| | |exact Hgone|done]; apply align_up_spec; unfold PAGE_SIZE; lia.
  - unfold sys_brk, is_user_pointer in E. rewrite Ec, (proj2 (Z.eqb_neq addr 0)), (proj2 (Z.leb_le addr _)) in E by lia. cbn [negb] in E. destruct (Z.gtb_spec addr (brk_current m)); [lia|].
    rewrite Z.geb_leb in E. destruct (Z.ltb_spec addr (brk_current m)), (Z.leb_spec (brk_base m) addr); try lia; injection E as _ <-; by exists tbl, m.
Qed.

Lemma mem_step_inv root F tbl p m p' : never_fails (A := A) -> root <> 0 -> proc_inv root F tbl p m -> settled root p m -> mem_step root p p' ->
  exists tbl' m', proc_inv root F tbl' p' m' /\ settled root p' m'.
Proof.
  intros Hnf Hr HI HT Hs. pose proof (pv_current _ _ _ _ _ HI) as Ec.
  destruct Hs as [gap_ok fds p addr length prot flags fd offset r p' Ha Hl Hf E|merge_ok p addr length r p' Ha Hl Hal E|merge_ok p addr len prot r p' Ha Hl He E
    |p m0 addr r p' E0 Ha Ho E|p m0 active cr2 error res vmas s a E0 Hc He E].
  - by eapply step_mmap_inv, E.
  - by eapply step_munmap_inv, E.
  - by eapply step_mprotect_inv, E.
  - rewrite Ec in E0. injection E0 as <-. by eapply step_brk_inv, E.
  - rewrite Ec in E0. injection E0 as <-. destruct (fault_proc root F tbl p m active cr2 error HI HT Hnf Hr Hc He) as (res' & s' & a' & vmas' & tbl' & E' & HI' & HT').
    rewrite E in E'. injection E' as <- <- <- <-. by eexists tbl', _.
Qed.

(** C10: As long as nodes for regions can be allocated, a process keeps its memory sound
    by any sequence of faults, of mmap calls of up to 2^47 bytes that reach no mmap
    operation of a file, of munmap calls whose ranges do not wrap, of mprotect calls on
    ranges below 2^47, and of brk calls that lower the break over private anonymous
    memory only.  The tables are a tree of frames of their own, every page of the user
    lies in a region and has a frame in use that is no table, and the pages of
    anonymous private regions share no frame with another page.  So no frame is freed
    while it is mapped, and none is freed twice. *)
Theorem process_memory_sound root F tbl p m p' : never_fails (A := A) -> root <> 0 -> proc_inv root F tbl p m -> settled root p m -> rtc (mem_step root) p p' ->
  exists tbl' m', current p' = Some (Some m') /\ vma_wf (mm_vmas m') F (nodes p') /\ pt_inv (tables p') root tbl' /\
    (forall va l e, user_va va = true -> leaf (words (tables p')) 4 root va = Some (l, e) ->
       l = 1%nat /\ view (regions_of m') (page_va va) <> None /\ (fr_managed (frames (tables p')) (frame_of e) = true -> 0 < fr_ref (frames (tables p')) (frame_of e) /\ tbl' !! frame_of e = None)) /\
    (forall va va' e e', user_va va = true -> user_va va' = true -> own_of m' (page_va va) = true ->
       leaf (words (tables p')) 4 root va = Some (1%nat, e) -> leaf (words (tables p')) 4 root va' = Some (1%nat, e') -> frame_of e = frame_of e' -> vpn va = vpn va').
Proof.
  intros Hnf Hr HI HT Hs. assert (exists tbl' m', proc_inv root F tbl' p' m' /\ settled root p' m') as (tbl' & m' & [Hc W [S1 S2 S3 S4 S5] _ _ _] & [Hcov _ _]).
  { revert tbl m HI HT. induction Hs as [p|p p1 p' Hst _ IH]; intros tbl m HI HT; [by exists tbl, m|].
    destruct (mem_step_inv root F tbl p m p1 Hnf Hr HI HT Hst) as (tbl1 & m1 & HI1 & HT1). by apply (IH tbl1 m1). }
  exists tbl', m'. do 3 (split; [done|]). split; [|done]. intros va l e Hu Hl. destruct (S2 va l e Hu Hl) as (-> & _ & Hm). split; [done|]. split; [|done]. apply Hcov; [done|by rewrite Hl].
Qed.
End Calls.
