(* ===== verification/MmLimits.v ===== *)
(** * Limits of the memory system calls

    What the calls do to memory that they do not check for: pages of the kernel,
    frames shared copy-on-write, and pages that only happen to lie below the break. *)

From S2P Require Import Prelude ObjAlloc Bitmap DList Pmm PmmInv PmmSpec PmmReclaim Vma VmaTree VmaSpec UserRange Paging PagingInv PagingSpec AddrSpace ForkInv KernelHalf ForkSpec Fork PageFault PageFaultSpec SysMm ProcMem SysMmSpec Mprotect.

Section Limits.
Context {P A : Type} `{!Frames P, !FramesLaws P, !ObjAlloc A}.
Implicit Types s : pg P.
Implicit Types p : proc P A.

Abbreviation frame_of e := (Z.land e PAGE_MASK).

Definition PROT_RW : Z := Z.lor PROT_READ PROT_WRITE.

Lemma pte_rw q : set (pte q (build_page_flags PROT_RW)) PAGE_FLAG_RW = true /\ set (pte q (build_page_flags PROT_RW)) PAGE_FLAG_USER = true.
Proof. unfold pte. rewrite !set_lor. split; apply orb_true_iff; left; apply orb_true_iff; right; by vm_compute. Qed.

Lemma one_page va : 0 <= va -> va mod 4096 = 0 -> va + 4096 < 2 ^ 64 -> PAGE_ALIGN_UP 4096 = 4096 /\ u64 (va + 4096) = va + 4096 /\ pages_in va (va + 4096) = 1%nat /\ page_at va 0 = va.
Proof.
  intros H0 Hm H1. split; [done|]. split; [unfold u64; apply Z.mod_small; lia|]. split.
  - unfold pages_in. by replace (va + 4096 - va) with 4096 by lia.
  - unfold page_at, u64. rewrite Z.mul_0_l, Z.add_0_r. apply Z.mod_small. lia.
Qed.

(** C13: mprotect breaks copy-on-write: making a page writable that is shared since a
    fork leaves the page on the shared frame, drops the copy-on-write mark and allows
    the write, while the frame keeps its other references, so the write is seen by
    the other process. *)
Theorem sys_mprotect_breaks_cow merge_ok root F tbl p m va e : proc_inv root F tbl p m -> 0 <= va < 2 ^ 47 -> va mod 4096 = 0 ->
  leaf (words (tables p)) 4 root va = Some (1%nat, e) -> set e PAGE_FLAG_COW = true ->
  exists r p', sys_mprotect merge_ok root p va 4096 PROT_RW = Some (r, p') /\
    (r = 0 /\ (exists e', leaf (words (tables p')) 4 root va = Some (1%nat, e') /\ frame_of e' = frame_of e /\ set e' PAGE_FLAG_RW = true /\ set e' PAGE_FLAG_COW = false) /\
      fr_ref (frames (tables p')) (frame_of e) = fr_ref (frames (tables p)) (frame_of e) \/ r = E_NOMEM).
Proof.
  intros HI Hv Ha Hl Hc. pose proof (user_va_low va Hv) as Hu. pose proof (pv_space _ _ _ _ _ HI) as HS. pose proof (si_cow _ _ _ _ HS va e Hu Hl Hc) as Hm.
  destruct (si_user _ _ _ _ HS va 1 e Hu Hl) as (_ & _ & Hr). destruct (Hr Hm) as [Hp Ht].
  assert (Hend : va + 4096 <= 2 ^ 47) by (pose proof (Z.div_mod va 4096 ltac:(lia)); lia).
  destruct (sys_mprotect_spec merge_ok root F tbl p m va 4096 PROT_RW HI ltac:(lia) Ha ltac:(lia) Hend) as (r & p' & tbl' & m' & E & _ & _ & Hcase). exists r, p'. split; [done|].
  destruct Hcase as [(-> & [R1 R2 R3 R4] & _)|(-> & _)]; [left|by right]. split; [done|]. split; [|by apply R2; [apply mask_page| |]].
  exists (pte (frame_of e) (build_page_flags PROT_RW)). split; [|split; [|split; [apply pte_rw|apply build_page_flags_cow]]].
  - rewrite R1, Hl. change (PAGE_ALIGN_UP 4096) with (1 * 4096). rewrite vpn_user, Z.div_add by lia. rewrite (proj2 (Z.leb_le _ _)), (proj2 (Z.ltb_lt _ _)) by lia. done.
  - rewrite pte_phys by apply build_page_flags_mask. by rewrite <- Z.land_assoc, Z.land_diag.
Qed.

Lemma phys_of_page s root va e : va mod 4096 = 0 -> leaf (words s) 4 root va = Some (1%nat, e) -> vmm_virt_to_phys s root va = frame_of e.
Proof.
  intros Ha Hl. rewrite virt_to_phys_leaf, Hl. cbn [leaf_phys]. change 0xFFF with (Z.ones 12). rewrite Z.land_ones by lia. change (2 ^ 12) with 4096. by rewrite Ha, Z.lor_0_r.
Qed.

(** mprotect does not check that its range belongs to the user: any page that is
    mapped, a page of the kernel too, becomes one that the user may read and write
    (or, without memory for a table, is lost). *)
Theorem sys_mprotect_any_page merge_ok root F tbl p m va e : pt_inv (tables p) root tbl -> current p = Some (Some m) -> vma_wf (mm_vmas m) F (nodes p) ->
  0 <= va -> va mod 4096 = 0 -> va + 4096 < 2 ^ 64 -> leaf (words (tables p)) 4 root va = Some (1%nat, e) -> frame_of e <> 0 ->
  exists r p', sys_mprotect merge_ok root p va 4096 PROT_RW = Some (r, p') /\
    (r = 0 /\ (exists e', leaf (words (tables p')) 4 root va = Some (1%nat, e') /\ frame_of e' = frame_of e /\ set e' PAGE_FLAG_USER = true /\ set e' PAGE_FLAG_RW = true) \/
     r = E_NOMEM /\ leaf (words (tables p')) 4 root va = None).
Proof.
  intros HT Hc W Hv Ha He Hl Hz. destruct (one_page va Hv Ha He) as (E1 & E2 & E3 & E4). unfold sys_mprotect. rewrite set_low_bits, Ha, Hc, E1, E2, E3. cbn [Z.eqb negb for_ok].
  rewrite E4. unfold protect_page. rewrite (phys_of_page _ _ _ _ Ha Hl), (proj2 (Z.eqb_neq _ _) Hz), align_down_page by apply mask_page.
  destruct (unmap_page_spec (tables p) root tbl va HT) as (tbl1 & HT1 & _ & _ & _ & _ & Hl1). set (s1 := vmm_unmap_page (tables p) root va) in *. clearbody s1.
  assert (Hnh : no_huge s1 root va) by (intros l0 e0; rewrite Hl1, decide_True, Hl by done; done).
  destruct (map_page_spec s1 root tbl1 va (frame_of e) (build_page_flags PROT_RW) HT1 Hnh) as (r & s2 & tbl2 & -> & _ & _ & _ & _ & _ & _ & Hl2).
  assert (Hleaf : leaf (words s2) 4 root va = if r then Some (1%nat, pte (frame_of e) (build_page_flags PROT_RW)) else None).
  { rewrite Hl2, Hl1, decide_True, Hl, bool_decide_true by done. by destruct r. }
  destruct r; [|eexists E_NOMEM, _; split; [done|]; by right]. cbn [nodes with_tables].
  destruct (vma_mprotect_spec (mm_vmas m) va (va + 4096) PROT_RW F (nodes p) W) as (vmas & a & -> & W' & _).
  destruct (merge_adjacent_spec merge_ok vmas F a W') as (vmas2 & a2 & -> & _). eexists 0, _. split; [done|]. left. split; [done|]. cbn [tables with_vmas with_tables].
  eexists. split; [exact Hleaf|]. rewrite pte_phys by apply build_page_flags_mask. rewrite <- Z.land_assoc, Z.land_diag. split; [done|]. split; apply pte_rw.
Qed.

(** mremap does not check the range that it cuts off: given the sizes [va] and
    [va - 4096] at address 4096 it unmaps the page at [va], a page of the kernel too,
    and reports success. *)
Theorem sys_mremap_any_page gap_ok root F tbl p m va e flags : pt_inv (tables p) root tbl -> current p = Some (Some m) -> vma_wf (mm_vmas m) F (nodes p) ->
  4096 < va -> va mod 4096 = 0 -> va + 4096 < 2 ^ 64 -> leaf (words (tables p)) 4 root va = Some (1%nat, e) -> frame_of e <> 0 -> set flags MREMAP_FIXED = false ->
  owns_frame (Some (mm_vmas m)) va = false ->
  exists p', sys_mremap gap_ok root p 4096 va (va - 4096) flags = Some (4096, p') /\ leaf (words (tables p')) 4 root va = None.
Proof.
  intros HT Hc W Hv Ha He Hl Hz Hfx Hown.  unfold sys_mremap. rewrite (proj2 (Z.eqb_neq va 0)), (proj2 (Z.eqb_neq (va - 4096) 0)), Hfx, Hc by lia. cbn [Z.eqb orb]. change (set 4096 (PAGE_SIZE - 1)) with false.
  change (negb (is_user_pointer 4096)) with false. cbv iota. rewrite !align_up_aligned by (unfold PAGE_SIZE; lia || done || by rewrite Zminus_mod, Ha). rewrite (proj2 (Z.leb_le _ _)) by lia.
  unfold mremap_shrink. rewrite (proj2 (Z.ltb_lt _ _)) by lia. replace (4096 + (va - 4096)) with va by lia. replace (va - (va - 4096)) with 4096 by lia.
  assert (Eu : u64 va = va) by (unfold u64; apply Z.mod_small; lia). rewrite Eu. destruct (one_page va ltac:(lia) Ha He) as (_ & E2 & E3 & E4). rewrite E2. cbn [nodes with_tables].
  destruct (vma_remove_spec (mm_vmas m) va (va + 4096) F (nodes p) W ltac:(lia)) as (b & vmas & a & -> & _). eexists. split; [done|]. cbn [tables with_vmas with_tables].
  unfold teardown_range. rewrite E2, E3. cbn [for_n]. rewrite E4. unfold teardown_page. rewrite (phys_of_page _ _ _ _ Ha Hl), (proj2 (Z.eqb_neq _ _) Hz).
  unfold regions, safe_unmap_and_free. rewrite Hc, Hown. cbn [andb]. destruct (unmap_page_spec (tables p) root tbl va HT) as (tbl1 & _ & _ & _ & _ & _ & Hl1). by rewrite Hl1, decide_True, Hl by done.
Qed.

(** brk moves the break even when the new range is in use, and lowering it frees
    every page it passes: raising the break over any page of the user and lowering it
    again takes the page away and drops a reference of its frame, also when the page
    belongs to a shared mapping that holds no reference of its own. *)
Theorem sys_brk_frees_any_page root F tbl p m va e : proc_inv root F tbl p m -> settled root p m -> 0 <= va < 2 ^ 47 - 4096 -> va mod 4096 = 0 -> va <> 0 -> brk_base m <= va -> brk_current m <= va ->
  leaf (words (tables p)) 4 root va = Some (1%nat, e) -> fr_managed (frames (tables p)) (frame_of e) = true ->
  exists p1 p2, sys_brk root p (va + 4096) = Some (va + 4096, p1) /\ sys_brk root p1 va = Some (va, p2) /\
    leaf (words (tables p2)) 4 root va = None /\ fr_ref (frames (tables p2)) (frame_of e) = fr_ref (frames (tables p)) (frame_of e) - 1.
Proof.
  intros HI HT Hv Ha Hz0 Hb Hbc Hl Hm. pose proof (user_va_low va ltac:(lia)) as Hu. pose proof (pv_space _ _ _ _ _ HI) as HS.
  destruct (si_user _ _ _ _ HS va 1 e Hu Hl) as (_ & Hz & Hr). destruct (Hr Hm) as [Hp Ht].
  assert (Hg : brk_current m < va + 4096 <= USER_ADDR_MAX) by (unfold USER_ADDR_MAX; lia).
  destruct (brk_grow_spec root F tbl p m (va + 4096) HI Hg (fun va' Huv _ => st_covered _ _ _ HT va' Huv)) as (p1 & m1 & E1 & HI1 & Et & Ebc & Ebb & _).
  exists p1. pose proof HI1 as [Hc1 W1 HS1 _ _ _]. rewrite <- Et in *. unfold sys_brk at 2. rewrite Hc1, (proj2 (Z.eqb_neq va 0)), Ebc, Ebb by done.
  unfold is_user_pointer, USER_ADDR_MAX in *. rewrite (proj2 (Z.leb_le va _)) by lia. cbn [negb]. destruct (Z.gtb_spec va (va + 4096)); [lia|].
  destruct (Z.ltb_spec va (va + 4096)); [|lia]. destruct (Z.geb_spec va (brk_base m)); [|lia]. cbn [andb].
  rewrite !align_up_aligned by (unfold PAGE_SIZE; lia || done || by rewrite Zplus_mod, Ha). destruct (one_page va ltac:(lia) Ha ltac:(lia)) as (_ & _ & E3 & E4). rewrite E3. cbn [for_n]. rewrite E4.
  destruct (vma_remove_spec (mm_vmas m1) va (va + 4096) F (nodes p1) W1 ltac:(lia)) as (b & vmas & a & -> & _). eexists. split; [done|]. split; [done|]. cbn [tables].
  unfold brk_page. rewrite (phys_of_page _ _ _ _ Ha Hl), (proj2 (Z.eqb_neq _ _) Hz), align_down_page by apply mask_page. cbn [negb]. unfold safe_unmap_and_free. rewrite (proj2 (Z.eqb_neq _ _) Hz). cbn [andb negb].
  destruct (unmap_page_spec (tables p1) root tbl va (si_inv _ _ _ _ HS1)) as (tbl1 & HT1 & Hsub & Hr1 & Hm1 & _ & Hl1). set (s1 := vmm_unmap_page (tables p1) root va) in *. clearbody s1.
  assert (Hk : fr_ref (frames s1) (frame_of e) = fr_ref (frames (tables p1)) (frame_of e)) by (rewrite Hr1, decide_False by (apply mask_page || intros [[? ?] _]; congruence); done).
  assert (Hn1 : tbl1 !! frame_of e = None) by (by eapply lookup_weaken_None). assert (Hm1' : fr_managed (frames s1) (frame_of e) = true) by (by rewrite Hm1).
  destruct (free_data s1 root tbl1 (frame_of e) HT1 (mask_page e) Hm1' ltac:(lia) Hn1) as (_ & _ & Hfr). split.
  - change (words (free_frame s1 (frame_of e))) with (words s1). by rewrite Hl1, decide_True, Hl by done.
  - rewrite Hfr, decide_True, Hk by (done || apply mask_page). done.
Qed.
End Limits.
