(* ===== verification/MmWitness.v ===== *)
(** * A small process

    Concrete processes on which the theorems about the memory system calls apply. *)

From S2P Require Import Prelude ObjAlloc Bitmap DList Pmm PmmInv PmmSpec PmmReclaim PmmThms Vma VmaTree VmaSpec VmaThms UserRange Paging PagingInv PagingSpec PmmFrames PagingThms AddrSpace ForkInv KernelHalf ForkSpec Fork ForkThms PageFault PageFaultSpec PageFaultThms SysMm ProcMem SysMmSpec Mprotect ProcFault ProcThms MmLimits.

(** One page at [demo_va], in an anonymous private region. *)
Definition proc_vmas : vma_list * bump := Eval vm_compute in demo_add (vma_list_init, Bump 0x100000 ∅) (VmaData 0x400000 0x401000 3 0x22 (-1) 0).
Definition proc_mm : mm := Mm proc_vmas.1 0x300000 0x300000 MMAP_REGION_BASE.
Definition proc_with (flags : Z) : proc pmm bump := Proc (demo_with flags) proc_vmas.2 (Some (Some proc_mm)).

Lemma proc_vmas_wf : vma_wf proc_vmas.1 ∅ proc_vmas.2.
Proof.
  change proc_vmas with (demo_add (vma_list_init, Bump 0x100000 ∅) (VmaData 0x400000 0x401000 3 0x22 (-1) 0)).
  apply demo_add_wf; [|simpl; lia]. apply empty_wf; [intros p; set_solver|done].
Qed.

Lemma proc_view addr : view (elems (Vma.root proc_vmas.1)) addr = if (0x400000 <=? addr) && (addr <? 0x401000) then Some (3, 0x22, -1, 0) else None.
Proof. change (elems (Vma.root proc_vmas.1)) with [VmaData 0x400000 0x401000 3 0x22 (-1) 0]. done. Qed.

Lemma leaf_empty t va : leaf (words demo_before) 4 t va = None.
Proof. done. Qed.

Lemma demo_with_leaf flags : Z.land flags PAGE_MASK = 0 -> (vmm_map_page demo_before demo_root demo_va demo_frame flags).1 = true ->
  exists tbl, pt_inv (demo_with flags) demo_root tbl /\ tbl !! demo_frame = None /\ fr_ref (frames (demo_with flags)) demo_frame = 1 /\
    fr_managed (frames (demo_with flags)) demo_frame = true /\
    forall va, leaf (words (demo_with flags)) 4 demo_root va = if decide (vpn demo_va = vpn va) then Some (1%nat, pte demo_frame flags) else None.
Proof.
  intros Hf Hok. destruct demo_before_inv as [HI H1].
  destruct (map_page_spec demo_before demo_root _ demo_va demo_frame flags HI) as (r & s' & tbl & E & HI' & _ & Hr & Hm & Hnew & _ & Hl).
  { intros l e Hl. by rewrite leaf_empty in Hl. }
  unfold demo_with. rewrite E in *. cbn [fst snd] in *. subst r. exists tbl. split; [exact HI'|].
  assert (Hn : tbl !! demo_frame = None).
  { destruct (tbl !! demo_frame) as [l|] eqn:Et; [|done]. assert (H : fr_ref (frames demo_before) demo_frame = 0) by (apply (Hnew _ l Et); apply lookup_singleton_ne; by vm_compute). rewrite H1 in H. discriminate H. }
  assert (Hpg : page demo_frame) by (split; [by vm_compute|split; [by vm_compute|by vm_compute]]).
  split; [exact Hn|]. split; [rewrite (Hr demo_frame Hpg); rewrite decide_False; [exact H1|intros [_ [? ?]]; congruence]|]. split; [rewrite Hm; vm_compute; exact eq_refl|].
  intros va. rewrite Hl, leaf_empty. destruct (decide _); [by rewrite bool_decide_true|by rewrite bool_decide_false].
Qed.

Lemma demo_frame_of flags : Z.land flags PAGE_MASK = 0 -> Z.land (pte demo_frame flags) PAGE_MASK = demo_frame.
Proof. intros Hf. rewrite pte_phys by done. by vm_compute. Qed.

(** Any address space with that page alone. *)
Lemma proc_of_inv s tbl flags : Z.land flags PAGE_MASK = 0 -> pt_inv s demo_root tbl -> tbl !! demo_frame = None -> fr_ref (frames s) demo_frame = 1 ->
  fr_managed (frames s) demo_frame = true ->
  (forall va, leaf (words s) 4 demo_root va = if decide (vpn demo_va = vpn va) then Some (1%nat, pte demo_frame flags) else None) ->
  let p := Proc s proc_vmas.2 (Some (Some proc_mm)) in proc_inv demo_root ∅ tbl p proc_mm /\ settled demo_root p proc_mm.
Proof.
  intros Hf HI Hn Hr Hm Hl p. pose proof (demo_frame_of flags Hf) as Ef.
  assert (Hleaf : forall va l e, leaf (words s) 4 demo_root va = Some (l, e) -> vpn demo_va = vpn va /\ l = 1%nat /\ e = pte demo_frame flags).
  { intros va l e H. rewrite Hl in H. destruct (decide _) as [Ev|]; [|discriminate H]. injection H as <- <-. split; [exact Ev|split; exact eq_refl]. }
  assert (Hv : forall addr, view (regions_of proc_mm) addr = if (0x400000 <=? addr) && (addr <? 0x401000) then Some (3, 0x22, -1, 0) else None) by exact proc_view.
  split.
  - split; [exact eq_refl|exact proc_vmas_wf| | |by vm_compute|by vm_compute].
    + split; [exact HI| | | |].
      * intros va l e _ (_ & -> & ->)%Hleaf. rewrite Ef. split; [done|]. split; [by vm_compute|]. intros _. change (tables p) with s. split; [by rewrite Hr|exact Hn].
      * intros va e _ _ (_ & _ & ->)%Hleaf. by rewrite Ef.
      * intros va va' e e' _ _ _ (E1 & _)%Hleaf (E2 & _)%Hleaf _. congruence.
      * intros va e _ (_ & _ & ->)%Hleaf _. by rewrite Ef.
    + intros addr. rewrite Hv. destruct (_ && _) eqn:E; [b2p; lia|done].
  - split; [| |exact eq_refl].
    + intros va _ Hn'. change (tables p) with s in Hn'. rewrite Hl in Hn'. destruct (decide _) as [E|]; [|done]. unfold page_va. rewrite <- E, Hv. by vm_compute.
    + apply (uniform_range [] _ 0x400000 0x401000 (Some (0x22, -1))); [done|done|done| |]; intros addr Ha; rewrite Hv.
      * by rewrite (proj2 (Z.leb_le _ _)), (proj2 (Z.ltb_lt _ _)) by lia.
      * destruct (_ && _) eqn:E; [b2p; lia|done].
Qed.

Lemma proc_with_inv flags : Z.land flags PAGE_MASK = 0 -> (vmm_map_page demo_before demo_root demo_va demo_frame flags).1 = true ->
  exists tbl, proc_inv demo_root ∅ tbl (proc_with flags) proc_mm /\ settled demo_root (proc_with flags) proc_mm /\
    leaf (words (tables (proc_with flags))) 4 demo_root demo_va = Some (1%nat, pte demo_frame flags).
Proof.
  intros Hf Hok. destruct (demo_with_leaf flags Hf Hok) as (tbl & HI & Hn & Hr & Hm & Hl). exists tbl.
  destruct (proc_of_inv (demo_with flags) tbl flags Hf HI Hn Hr Hm Hl) as [H1 H2]. split; [exact H1|]. split; [exact H2|].
  change (tables (proc_with flags)) with (demo_with flags). rewrite (Hl demo_va), decide_True by exact eq_refl. exact eq_refl.
Qed.

(** A page of the kernel on the same frame, and no page of the user. *)
Definition kernel_va : Z := 0xFFFFFFFF80000000.
Definition kernel_space : pg pmm := (vmm_map_page demo_before demo_root kernel_va demo_frame PAGE_FLAG_RW).2.
Definition kernel_proc : proc pmm bump := Proc kernel_space proc_vmas.2 (Some (Some proc_mm)).

Lemma kernel_space_inv : exists tbl, pt_inv kernel_space demo_root tbl /\ leaf (words kernel_space) 4 demo_root kernel_va = Some (1%nat, pte demo_frame PAGE_FLAG_RW).
Proof.
  destruct demo_before_inv as [HI H1].
  destruct (map_page_spec demo_before demo_root _ kernel_va demo_frame PAGE_FLAG_RW HI) as (r & s' & tbl & E & HI' & _ & Hr & Hm & Hnew & _ & Hl).
  { intros l e Hl. by rewrite leaf_empty in Hl. }
  assert (r = true) as -> by (change r with (r, s').1; rewrite <- E; vm_compute; exact eq_refl).
  unfold kernel_space. rewrite E. cbn [snd]. exists tbl. split; [exact HI'|]. rewrite Hl, bool_decide_true by exact eq_refl. exact eq_refl.
Qed.

(** ** Witnesses *)

Lemma sys_munmap_correct_witness : exists r p', sys_munmap (fun _ => true) demo_root (proc_with 6) 0x400000 0x1000 = Some (r, p') /\ r = 0 /\
  leaf (words (tables p')) 4 demo_root 0x400000 = None.
Proof.
  destruct (proc_with_inv 6 ltac:(by vm_compute) ltac:(by vm_compute)) as (tbl & HI & _ & Hl).
  destruct (sys_munmap_correct (fun _ => true) demo_root ∅ tbl (proc_with 6) proc_mm 0x400000 0x1000 HI ltac:(lia) ltac:(lia) ltac:(lia)) as (r & p' & E & H).
  rewrite bool_decide_true in H by (change (mm_vmas proc_mm) with proc_vmas.1; rewrite proc_view; vm_compute; discriminate).
  destruct H as (-> & tbl' & m' & _ & [R _ _ _ _]). exists 0, p'. split; [exact E|]. split; [exact eq_refl|]. rewrite (rm_leaf _ _ _ _ _ _ _ _ R). exact eq_refl.
Defined.

Lemma sys_mmap_correct_witness : exists r p' tbl' m', sys_mmap true (fun _ => None) demo_root (proc_with 6) 0 0x2000 3 0x22 (u64 (-1)) 0 = Some (r, p') /\
  proc_inv demo_root ∅ tbl' p' m' /\ settled demo_root p' m'.
Proof.
  destruct (proc_with_inv 6 ltac:(by vm_compute) ltac:(by vm_compute)) as (tbl & HI & HT & _).
  destruct (sys_mmap_correct true (fun _ => None) demo_root ∅ tbl (proc_with 6) proc_mm 0 0x2000 3 0x22 (u64 (-1)) 0 bump_never_fails HI HT ltac:(lia) ltac:(lia) eq_refl)
    as (r & p' & tbl' & m' & E & HI' & HT' & _). exists r, p', tbl', m'. split; [exact E|]. split; [exact HI'|exact HT'].
Defined.

Lemma process_memory_sound_witness : exists p' tbl', rtc (mem_step demo_root) (proc_with 6) p' /\ pt_inv (tables p') demo_root tbl'.
Proof.
  destruct (proc_with_inv 6 ltac:(by vm_compute) ltac:(by vm_compute)) as (tbl & HI & HT & _).
  destruct (sys_munmap_spec (fun _ => true) demo_root ∅ tbl (proc_with 6) proc_mm 0x400000 0x1000 HI ltac:(lia) ltac:(lia) ltac:(lia)) as (r & p' & E & _).
  assert (Hs : rtc (mem_step demo_root) (proc_with 6) p') by (apply rtc_once; apply (step_munmap _ (fun _ => true) _ 0x400000 0x1000 r); [lia|lia|lia|exact E]).
  destruct (process_memory_sound demo_root ∅ tbl (proc_with 6) proc_mm p' bump_never_fails ltac:(discriminate) HI HT Hs) as (tbl' & m' & _ & _ & H & _).
  exists p', tbl'. split; [exact Hs|exact H].
Defined.

Lemma sys_mprotect_breaks_cow_witness : exists r p', sys_mprotect (fun _ => true) demo_root (proc_with 0x204) demo_va 4096 PROT_RW = Some (r, p') /\
  (r = 0 -> exists e', leaf (words (tables p')) 4 demo_root demo_va = Some (1%nat, e') /\ set e' PAGE_FLAG_RW = true).
Proof.
  destruct (proc_with_inv 0x204 ltac:(by vm_compute) ltac:(by vm_compute)) as (tbl & HI & _ & Hl).
  destruct (sys_mprotect_breaks_cow (fun _ => true) demo_root ∅ tbl (proc_with 0x204) proc_mm demo_va (pte demo_frame 0x204) HI ltac:(unfold demo_va; lia) eq_refl Hl eq_refl)
    as (r & p' & E & H). exists r, p'. split; [exact E|]. intros Hr. destruct H as [(_ & (e' & H1 & _ & H2 & _) & _)|H]; [|rewrite H in Hr; discriminate Hr]. exists e'. split; [exact H1|exact H2].
Defined.

Lemma sys_mprotect_any_page_witness : exists r p', sys_mprotect (fun _ => true) demo_root kernel_proc kernel_va 4096 PROT_RW = Some (r, p') /\
  (r = 0 -> exists e', leaf (words (tables p')) 4 demo_root kernel_va = Some (1%nat, e') /\ set e' PAGE_FLAG_USER = true).
Proof.
  destruct kernel_space_inv as (tbl & HI & Hl).
  destruct (sys_mprotect_any_page (fun _ => true) demo_root ∅ tbl kernel_proc proc_mm kernel_va (pte demo_frame PAGE_FLAG_RW) HI eq_refl proc_vmas_wf ltac:(unfold kernel_va; lia) eq_refl
    ltac:(unfold kernel_va; lia) Hl ltac:(rewrite demo_frame_of by exact eq_refl; discriminate)) as (r & p' & E & H).
  exists r, p'. split; [exact E|]. intros Hr. destruct H as [(_ & (e' & H1 & _ & H2 & _))|[H _]]; [|rewrite H in Hr; discriminate Hr]. exists e'. split; [exact H1|exact H2].
Defined.

Lemma sys_mremap_any_page_witness : exists p', sys_mremap true demo_root kernel_proc 4096 kernel_va (kernel_va - 4096) 0 = Some (4096, p') /\
  leaf (words (tables p')) 4 demo_root kernel_va = None.
Proof.
  destruct kernel_space_inv as (tbl & HI & Hl).
  apply (sys_mremap_any_page true demo_root ∅ tbl kernel_proc proc_mm kernel_va (pte demo_frame PAGE_FLAG_RW) 0 HI eq_refl proc_vmas_wf ltac:(unfold kernel_va; lia) eq_refl
    ltac:(unfold kernel_va; lia) Hl ltac:(rewrite demo_frame_of by exact eq_refl; discriminate) eq_refl eq_refl).
Defined.

Lemma sys_brk_frees_any_page_witness : exists p1 p2, sys_brk demo_root (proc_with 6) (demo_va + 4096) = Some (demo_va + 4096, p1) /\ sys_brk demo_root p1 demo_va = Some (demo_va, p2) /\
  leaf (words (tables p2)) 4 demo_root demo_va = None.
Proof.
  destruct (proc_with_inv 6 ltac:(by vm_compute) ltac:(by vm_compute)) as (tbl & HI & HT & Hl).
  destruct (sys_brk_frees_any_page demo_root ∅ tbl (proc_with 6) proc_mm demo_va (pte demo_frame 6) HI HT ltac:(unfold demo_va; lia) eq_refl ltac:(discriminate) ltac:(vm_compute; discriminate) ltac:(vm_compute; discriminate) Hl ltac:(vm_compute; exact eq_refl))
    as (p1 & p2 & E1 & E2 & H & _). exists p1, p2. split; [exact E1|]. split; [exact E2|exact H].
Defined.
