(* ===== verification/Heap.v ===== *)
(** * The kernel heap (kernel/src/mm/heap.c)

    Blocks of up to 1024 bytes are slots of one-page slabs in six size classes,
    larger ones get pages of their own.  As for the object caches, the [next] and
    [prev] fields of all page headers are one store ([h_links]); the other header
    fields are in [h_slabs] and [h_bigs], keyed by the page, and the contents of
    blocks in [h_bytes].  A page in neither map carries neither magic number.
    Locks and log output are left out, and [heap_get_info] prints only. *)

From S2P Require Import Prelude DList Slab CString Paging.

Definition BIG_HEADER : Z := 64.

Record slab := HeapSlab { s_cache : nat; free_count : Z; total_count : Z; s_bitmap : list Z }.
Record slab_cache := SlabCache { c_size : Z; c_partial : Z; c_full : Z; c_free : Z }.

(** Runs of pages: [pmm_alloc_pages], [vmm_map_range] with the flags of the kernel,
    [pmm_free_pages] and [vmm_unmap_page], all on the active tables. *)
Class RunSource (M : Type) := {
  rs_alloc : M -> Z -> Z * M;
  rs_map : M -> Z -> Z -> Z -> bool * M;
  rs_free : M -> Z -> Z -> M;
  rs_unmap : M -> Z -> M;
}.

Record heap (M : Type) := Heap {
  h_links : lmem;
  h_slabs : gmap Z slab;
  h_bigs : gmap Z Z;
  h_bytes : gmap Z Z;
  caches : list slab_cache;
  big_alloc_head : Z;
  current_heap_vaddr : Z;
  h_mem : M;
}.
Arguments Heap {M}.
Arguments h_links {M}.
Arguments h_slabs {M}.
Arguments h_bigs {M}.
Arguments h_bytes {M}.
Arguments caches {M}.
Arguments big_alloc_head {M}.
Arguments current_heap_vaddr {M}.
Arguments h_mem {M}.

(** The static initialisers. *)
Definition empty_heap {M} (links : lmem) (bytes : gmap Z Z) (mem : M) : heap M :=
  Heap links ∅ ∅ bytes ((fun size => SlabCache size 0 0 0) <$> [32; 64; 128; 256; 512; 1024]) 0 KERNEL_HEAP_BASE mem.

(** Taking a node out of a list without clearing its own links. *)
Definition heap_unlink (m : lmem) (head s : Z) : lmem * Z :=
  let '(m, head) :=
    if negb (get_prev m s =? 0) then (set_next m (get_prev m s) (get_next m s), head)
    else (m, get_next m s) in
  (if negb (get_next m s =? 0) then set_prev m (get_next m s) (get_prev m s) else m, head).

(** Putting a node in front of a list. *)
Definition heap_push (m : lmem) (head s : Z) : lmem * Z :=
  let m := set_next m s head in
  let m := set_prev m s 0 in
  (if negb (head =? 0) then set_prev m head s else m, s).

Section Heap.
Context {M : Type} `{!PageSource M, !RunSource M}.
Implicit Types h : heap M.

Definition with_space h (cursor : Z) (mem : M) : heap M :=
  Heap (h_links h) (h_slabs h) (h_bigs h) (h_bytes h) (caches h) (big_alloc_head h) cursor mem.
Definition with_class h (m : lmem) (slabs : gmap Z slab) (i : nat) (c : slab_cache) : heap M :=
  Heap m slabs (h_bigs h) (h_bytes h) (<[i := c]> (caches h)) (big_alloc_head h) (current_heap_vaddr h) (h_mem h).
Definition with_big h (m : lmem) (bigs : gmap Z Z) (head : Z) (mem : M) : heap M :=
  Heap m (h_slabs h) bigs (h_bytes h) (caches h) head (current_heap_vaddr h) mem.
Definition with_bytes h (bytes : gmap Z Z) : heap M :=
  Heap (h_links h) (h_slabs h) (h_bigs h) bytes (caches h) (big_alloc_head h) (current_heap_vaddr h) (h_mem h).

Definition allocate_virtual_space h (pages : Z) : Z * heap M :=
  (current_heap_vaddr h, with_space h (u64 (current_heap_vaddr h + pages * PAGE_SIZE)) (h_mem h)).

(** A new slab for the cache at index [i]; [None] is a null result. *)
Definition allocate_new_slab h (i : nat) (c : slab_cache) : option Z * heap M :=
  let '(frame, mem) := ps_alloc (h_mem h) in
  let h := with_space h (current_heap_vaddr h) mem in
  if frame =? 0 then (None, h)
  else
    let '(vaddr, h) := allocate_virtual_space h 1 in
    let '(ok, mem) := ps_map (h_mem h) vaddr frame in
    if negb ok then (None, with_space h (current_heap_vaddr h) (ps_free mem frame))
    else
      let total := u32 ((PAGE_SIZE - SLAB_HEADER) / c_size c) in
      let total := if total >? 128 then 128 else total in
      let links := set_prev (set_next (h_links h) vaddr 0) vaddr 0 in
      let h := with_bytes (with_space h (current_heap_vaddr h) mem) (memset (h_bytes h) vaddr 0 4096) in
      (Some vaddr, Heap links (<[vaddr := HeapSlab i total total [0; 0; 0; 0]]> (h_slabs h)) (h_bigs h) (h_bytes h)
                     (caches h) (big_alloc_head h) (current_heap_vaddr h) (h_mem h)).

(** The first cache whose objects are large enough. *)
Fixpoint find_cache (l : list slab_cache) (size : Z) (i : nat) : option (nat * slab_cache) :=
  match l with
  | [] => None
  | c :: l => if size <=? c_size c then Some (i, c) else find_cache l size (S i)
  end.

(** A slab in front of the partial list of the cache. *)
Definition partial_slab h (i : nat) (c : slab_cache) : option (Z * slab_cache) * heap M :=
  if negb (c_partial c =? 0) then (Some (c_partial c, c), h)
  else
    let '(r, h) :=
      if negb (c_free c =? 0) then
        let s := c_free c in
        let free := get_next (h_links h) s in
        let m := if negb (free =? 0) then set_prev (h_links h) free 0 else h_links h in
        let c := SlabCache (c_size c) (c_partial c) (c_full c) free in
        (Some (s, c), with_class h (set_next m s 0) (h_slabs h) i c)
      else
        match allocate_new_slab h i c with
        | (None, h) => (None, h)
        | (Some s, h) => (Some (s, c), h)
        end in
    match r with
    | None => (None, h)
    | Some (s, c) =>
        let '(m, partial) := heap_push (h_links h) (c_partial c) s in
        let c := SlabCache (c_size c) partial (c_full c) (c_free c) in
        (Some (s, c), with_class h m (h_slabs h) i c)
    end.

(** A slab that has become full leaves the partial list. *)
Definition move_if_full (m : lmem) (c : slab_cache) (s : Z) (p : slab) : lmem * slab_cache :=
  if free_count p =? 0 then
    let '(m, partial) := heap_unlink m (c_partial c) s in
    let '(m, full) := heap_push m (c_full c) s in
    (m, SlabCache (c_size c) partial full (c_free c))
  else (m, c).

(** Taking a slot of the slab [s]. *)
Definition take_slot h (i : nat) (c : slab_cache) (s : Z) : Z * heap M :=
  match h_slabs h !! s with
  | None => (0, h)
  | Some p =>
      let free_idx := find_free (Z.to_nat (total_count p)) (s_bitmap p) 0 in
      if free_idx =? -1 then (0, h)
      else
        let p := HeapSlab (s_cache p) (u32 (free_count p - 1)) (total_count p) (BITMAP_SET (s_bitmap p) free_idx) in
        let '(m, c) := move_if_full (h_links h) c s p in
        (u64 (s + SLAB_HEADER + free_idx * c_size c), with_class h m (<[s := p]> (h_slabs h)) i c)
  end.

(** The path for blocks of more than 1024 bytes. *)
Definition kmalloc_big h (size : Z) : Z * heap M :=
  let total_size := u64 (size + BIG_HEADER) in
  let pages := u64 (total_size + PAGE_SIZE - 1) / PAGE_SIZE in
  let '(blocks, mem) := rs_alloc (h_mem h) pages in
  let h := with_space h (current_heap_vaddr h) mem in
  if blocks =? 0 then (0, h)
  else
    let '(vaddr, h) := allocate_virtual_space h pages in
    let '(ok, mem) := rs_map (h_mem h) vaddr blocks pages in
    if negb ok then (0, with_space h (current_heap_vaddr h) (rs_free mem blocks pages))
    else
      let '(m, head) := heap_push (h_links h) (big_alloc_head h) vaddr in
      (u64 (vaddr + BIG_HEADER), with_big h m (<[vaddr := pages]> (h_bigs h)) head mem).

Definition kmalloc h (size : Z) : Z * heap M :=
  if size =? 0 then (0, h)
  else
    match find_cache (caches h) size 0 with
    | Some (i, c) =>
        match partial_slab h i c with
        | (None, h) => (0, h)
        | (Some (s, c), h) => take_slot h i c s
        end
    | None => kmalloc_big h size
    end.

(** Where a slab belongs after one of its slots has been freed. *)
Definition settle (m : lmem) (c : slab_cache) (s : Z) (p : slab) : lmem * slab_cache :=
  let '(m, c) :=
    if free_count p =? 1 then
      let '(m, full) := heap_unlink m (c_full c) s in
      let '(m, partial) := heap_push m (c_partial c) s in
      (m, SlabCache (c_size c) partial full (c_free c))
    else (m, c) in
  if free_count p =? total_count p then
    let '(m, partial) := heap_unlink m (c_partial c) s in
    let '(m, free) := heap_push m (c_free c) s in
    (m, SlabCache (c_size c) partial (c_full c) free)
  else (m, c).

Definition kfree h (ptr : Z) : heap M :=
  if ptr =? 0 then h
  else
    let page_base := Z.land ptr (u64 (Z.lnot 0xFFF)) in
    match h_slabs h !! page_base with
    | Some p =>
        match caches h !! s_cache p with
        | None => h
        | Some c =>
            let offset := u64 (ptr - (page_base + SLAB_HEADER)) in
            let idx := u32 (offset / c_size c) in
            if negb (BITMAP_TEST (s_bitmap p) idx) then h
            else
              let p := HeapSlab (s_cache p) (u32 (free_count p + 1)) (total_count p) (BITMAP_CLEAR (s_bitmap p) idx) in
              let '(m, c) := settle (h_links h) c page_base p in
              with_class h m (<[page_base := p]> (h_slabs h)) (s_cache p) c
        end
    | None =>
        match h_bigs h !! page_base with
        | Some pages =>
            let '(m, head) := heap_unlink (h_links h) (big_alloc_head h) page_base in
            let phys_addr := ps_phys (h_mem h) page_base in
            let mem := for_n (Z.to_nat pages) 0 (fun i mem => rs_unmap mem (u64 (page_base + i * PAGE_SIZE))) (h_mem h) in
            with_big h m (delete page_base (h_bigs h)) head (rs_free mem phys_addr pages)
        | None => h
        end
    end.

Definition kcalloc h (num size : Z) : Z * heap M :=
  let total := u64 (num * size) in
  let '(ptr, h) := kmalloc h total in
  (ptr, if negb (ptr =? 0) then with_bytes h (memset (h_bytes h) ptr 0 (Z.to_nat total)) else h).

(** The size of the block at [ptr], read from the header of its page. *)
Definition old_size h (ptr : Z) : option Z :=
  let page_base := Z.land ptr (u64 (Z.lnot 0xFFF)) in
  match h_slabs h !! page_base with
  | Some p => match caches h !! s_cache p with Some c => Some (c_size c) | None => None end
  | None => match h_bigs h !! page_base with Some pages => Some (u64 (pages * PAGE_SIZE - BIG_HEADER)) | None => None end
  end.

Definition krealloc h (ptr new_size : Z) : Z * heap M :=
  if ptr =? 0 then kmalloc h new_size
  else if new_size =? 0 then (0, kfree h ptr)
  else
    match old_size h ptr with
    | None => (0, h)
    | Some old_size =>
        if new_size <=? old_size then (ptr, h)
        else
          let '(new_ptr, h) := kmalloc h new_size in
          if negb (new_ptr =? 0) then
            (new_ptr, kfree (with_bytes h (memcpy (h_bytes h) new_ptr ptr (Z.to_nat old_size))) ptr)
          else (new_ptr, h)
    end.
End Heap.
