(* ===== verification/HeapSpec.v ===== *)
(** * The heap's lists, pages and blocks

    The lists of the six size classes and the list of large blocks are the lists of
    seven caches in the sense of [SlabList]; a page of the heap is described the way
    pages of the object caches are. *)

From S2P Require Import Prelude Bitmap DList Slab SlabList SlabSpec SlabOps CString CStringThms Paging Heap.

(** ** Lists *)

Lemma slab_lists_frame m m' H tg : (forall x, tg !! x <> None -> same_node m m' x) -> slab_lists m H tg -> slab_lists m' H tg.
Proof.
  intros Hs (G & HG & Hm). exists G. split; [|done]. intros a. apply (nlist_frame m); [|apply HG].
  intros x Hx%Hm. apply Hs. by rewrite Hx.
Qed.

Lemma slab_unlink_heap m hd s : slab_unlink m hd s = (set_prev (set_next (heap_unlink m hd s).1 s 0) s 0, (heap_unlink m hd s).2).
Proof. unfold slab_unlink, heap_unlink. by destruct (negb (get_prev m s =? 0)). Qed.

Lemma same_node_clear m s x : x <> s -> same_node (set_prev (set_next m s 0) s 0) m x.
Proof. intros Hx. split; links; by rewrite (proj2 (Z.eqb_neq s x)) by done. Qed.

Lemma heap_lists_unlink m H tg a s m' h' : slab_lists m H tg -> tg !! s = Some a ->
  heap_unlink m (H a) s = (m', h') -> slab_lists m' (<[a := h']> H) (delete s tg).
Proof.
  intros HL Hs He. pose proof (slab_unlink_heap m (H a) s) as E. rewrite He in E.
  eapply slab_lists_frame; [|by eapply slab_lists_unlink]. intros x Hx. apply same_node_clear. intros ->. by rewrite lookup_delete_eq in Hx.
Qed.

Lemma heap_lists_move m H tg a b s m1 h1 m2 h2 : slab_lists m H tg -> tg !! s = Some a -> a <> b ->
  heap_unlink m (H a) s = (m1, h1) -> heap_push m1 (H b) s = (m2, h2) ->
  slab_lists m2 (<[b := h2]> (<[a := h1]> H)) (<[s := b]> tg).
Proof.
  intros HL Hs Hab Hu Hp. assert (s <> 0) by (intros ->; rewrite (slab_lists_zero _ _ _ HL) in Hs; done).
  pose proof (heap_lists_unlink _ _ _ _ _ _ _ HL Hs Hu) as HL1. rewrite <- (insert_delete_eq tg).
  eapply slab_lists_push; [exact HL1|by rewrite lookup_delete_eq|done|]. by rewrite fn_lookup_insert_ne.
Qed.

(** The first node of a list has no predecessor. *)
Lemma slab_lists_head_prev m H tg a : slab_lists m H tg -> H a <> 0 -> get_prev m (H a) = 0.
Proof. intros (G & HG & _) Hh. pose proof (HG a) as Ha. destruct (nlist_head_nz _ _ _ Ha Hh) as [l Hl]. rewrite Hl in Ha. by destruct Ha as (_ & _ & _ & ? & _). Qed.

(** Taking the first node. *)
Lemma heap_lists_pop m H tg a : slab_lists m H tg -> H a <> 0 ->
  let s := H a in let free := get_next m s in
  slab_lists (set_next (if negb (free =? 0) then set_prev m free 0 else m) s 0) (<[a := free]> H) (delete s tg).
Proof.
  intros HL Hh s free. pose proof (slab_lists_head_prev _ _ _ _ HL Hh) as Hp. pose proof (slab_lists_head _ _ _ _ HL Hh) as Ht. fold s in Hp, Ht.
  eapply slab_lists_frame; [|eapply heap_lists_unlink; [exact HL|exact Ht|unfold heap_unlink; fold s; rewrite Hp; reflexivity]].
  intros x Hx. assert (x <> s) by (intros ->; by rewrite lookup_delete_eq in Hx). split; links; rewrite Hp; [|done]. by rewrite (proj2 (Z.eqb_neq s x)) by done.
Qed.

(** ** Pages *)

Definition sizes : list Z := [32; 64; 128; 256; 512; 1024].

Definition as_page (p : slab) : slab_page := SlabPage SLAB_PAGE_MAGIC (s_cache p) (free_count p) (total_count p) (s_bitmap p).
Definition class_of (size : Z) : kmem_cache := KmemCache size size 1 ((PAGE_SIZE - SLAB_HEADER) / size) 0 0 0 0 0 0 0.
Definition slots (p : slab) : gset Z := page_used (as_page p).

Lemma class_ok i z : sizes !! i = Some z -> cache_ok (class_of z) /\ 32 <= z <= 1024 /\ z mod 32 = 0 /\ 3 <= objs_per_slab (class_of z).
Proof.
  intros Hz. assert (Hin : z ∈ sizes) by (by eapply list_elem_of_lookup_2). unfold sizes in Hin.
  repeat (apply elem_of_cons in Hin as [->|Hin]; [by repeat split; vm_compute|]). by apply not_elem_of_nil in Hin.
Qed.

(** The list a page is in. *)
Definition big_list : slab_list := (6%nat, Full).
Definition tags (slabs : gmap Z slab) (bigs : gmap Z Z) : gmap Z slab_list :=
  ((fun p => list_of (as_page p)) <$> slabs) ∪ ((fun _ => big_list) <$> bigs).

(** ** Blocks *)

(** The allocated blocks: address and size. *)
Inductive block_in (slabs : gmap Z slab) (bigs : gmap Z Z) : Z -> Z -> Prop :=
  | block_slot s p i z : slabs !! s = Some p -> sizes !! s_cache p = Some z -> i ∈ slots p ->
      block_in slabs bigs (s + SLAB_HEADER + i * z) z
  | block_big b n : bigs !! b = Some n -> block_in slabs bigs (b + BIG_HEADER) (n * PAGE_SIZE - BIG_HEADER).

(** Pages in use by the heap, by first address and number. *)
Definition span_in (slabs : gmap Z slab) (bigs : gmap Z Z) (a n : Z) : Prop :=
  (n = 1 /\ slabs !! a <> None) \/ bigs !! a = Some n.

Section HeapInv.
Context {M : Type} `{!PageSource M, !RunSource M}.
Implicit Types h : heap M.

Definition heap_head h (a : slab_list) : Z :=
  if decide (a = big_list) then big_alloc_head h
  else match caches h !! a.1 with
  | None => 0
  | Some c => match a.2 with Partial => c_partial c | Full => c_full c | Empty => c_free c end
  end.

Abbreviation block h := (block_in (h_slabs h) (h_bigs h)).
Abbreviation span h := (span_in (h_slabs h) (h_bigs h)).

Record heap_state h : Prop := {
  hs_sizes : c_size <$> caches h = sizes;
  hs_slab : forall s p, h_slabs h !! s = Some p -> exists z, sizes !! s_cache p = Some z /\ page_ok (class_of z) (as_page p);
  hs_kinds : forall s, h_slabs h !! s <> None -> h_bigs h !! s = None;
  hs_span : forall a n, span h a n -> 1 <= n /\ KERNEL_HEAP_BASE <= a /\ a mod PAGE_SIZE = 0 /\ a + n * PAGE_SIZE <= current_heap_vaddr h;
  hs_apart : forall a n b k, span h a n -> span h b k -> a < b -> a + n * PAGE_SIZE <= b;
  hs_cursor : KERNEL_HEAP_BASE <= current_heap_vaddr h < 2 ^ 64 /\ current_heap_vaddr h mod PAGE_SIZE = 0;
}.

(** The invariant with the pages listed as in [tg]. *)
Definition heap_inv_at (tg : gmap Z slab_list) h : Prop := slab_lists (h_links h) (heap_head h) tg /\ heap_state h.
Definition heap_wf h : Prop := heap_inv_at (tags (h_slabs h) (h_bigs h)) h.

(** The page an address lies in. *)
Lemma base_in a q : a mod PAGE_SIZE = 0 -> a <= q < a + PAGE_SIZE -> q / PAGE_SIZE * PAGE_SIZE = a.
Proof. unfold PAGE_SIZE. intros Ha Hq. apply Z.mod_divide in Ha as [x ->]; [|lia]. f_equal. symmetry. apply (Z.div_unique q 4096 x (q - x * 4096)); lia. Qed.

(** A slot in its page. *)
Lemma slot_place h s p i z : heap_state h -> h_slabs h !! s = Some p -> sizes !! s_cache p = Some z -> 0 <= i < total_count p ->
  64 + i * z + z <= PAGE_SIZE /\ 0 <= i * z /\ 32 <= z /\ (s + SLAB_HEADER + i * z) mod 32 = 0 /\ (s + SLAB_HEADER + i * z) / PAGE_SIZE * PAGE_SIZE = s.
Proof.
  intros HS Hp Hz Hi. destruct (hs_slab _ HS s p Hp) as (z' & Hz' & [_ Ht _ _]). assert (z' = z) as -> by congruence.
  destruct (class_ok _ _ Hz) as ([_ _ Hf] & Hr & Hm & _). cbn [as_page sp_total_count] in Ht. rewrite Ht in Hi. cbn [obj_aligned class_of] in Hf.
  assert (Hsp : span h s 1) by (left; by rewrite Hp). destruct (hs_span _ HS _ _ Hsp) as (_ & _ & Hsm & _).
  assert (Hle : 64 + i * z + z <= PAGE_SIZE) by (unfold SLAB_HEADER in Hf; nia). assert (0 <= i * z) by nia. do 3 (split; [done || lia|]).
  split; [|apply base_in; [done|unfold SLAB_HEADER; lia]]. unfold PAGE_SIZE, SLAB_HEADER in *.
  apply Z.mod_divide in Hsm as [x ->]; [|lia]. apply Z.mod_divide in Hm as [y ->]; [|lia]. apply Z.mod_divide; [lia|]. exists (x * 128 + 2 + i * y). lia.
Qed.

Lemma big_place h b n : heap_state h -> h_bigs h !! b = Some n -> 1 <= n /\ (b + BIG_HEADER) mod 32 = 0 /\ (b + BIG_HEADER) / PAGE_SIZE * PAGE_SIZE = b.
Proof.
  intros HS Hb. assert (Hsp : span h b n) by (by right). destruct (hs_span _ HS _ _ Hsp) as (Hn & _ & Hm & _). split; [done|].
  split; [|apply base_in; [done|unfold BIG_HEADER, PAGE_SIZE; lia]]. unfold PAGE_SIZE, BIG_HEADER in *.
  apply Z.mod_divide in Hm as [x ->]; [|lia]. apply Z.mod_divide; [lia|]. exists (x * 128 + 2). lia.
Qed.

(** A block lies behind the header of its page, and ends where the page's span does
    or before. *)
Lemma block_span h q c : heap_state h -> block h q c ->
  exists n, let a := q / PAGE_SIZE * PAGE_SIZE in span h a n /\ a + 64 <= q /\ q + c <= a + n * PAGE_SIZE /\ 32 <= c /\ q mod 32 = 0.
Proof.
  intros HS [s p i z Hp Hz [_ Hi]%elem_of_page_used|b n Hb].
  - destruct (slot_place h s p i z HS Hp Hz Hi) as (H1 & H2 & H3 & H4 & ->). exists 1. unfold SLAB_HEADER in *. split; [left; by rewrite Hp|]. split; [lia|]. split; [lia|]. done.
  - destruct (big_place h b n HS Hb) as (H1 & H2 & ->). exists n. unfold BIG_HEADER, PAGE_SIZE in *. split; [by right|]. split; [lia|]. split; [lia|]. split; [lia|done].
Qed.

(** Blocks of one page. *)
Lemma block_same_page h q c q' c' : heap_state h -> block h q c -> block h q' c' -> q / PAGE_SIZE * PAGE_SIZE = q' / PAGE_SIZE * PAGE_SIZE ->
  (q = q' /\ c = c') \/ q + c <= q' \/ q' + c' <= q.
Proof.
  intros HS [s p i z Hp Hz Hi|b n Hb] [s' p' i' z' Hp' Hz' Hi'|b' n' Hb'].
  - apply elem_of_page_used in Hi as [_ Hi], Hi' as [_ Hi']. destruct (slot_place h s p i z HS Hp Hz Hi) as (_ & _ & ? & _ & ->), (slot_place h s' p' i' z' HS Hp' Hz' Hi') as (_ & _ & _ & _ & ->).
    intros <-. assert (p' = p) as -> by congruence. assert (z' = z) as -> by congruence. destruct (Z.lt_trichotomy i i') as [|[->|]]; [|by left|]; right; unfold SLAB_HEADER in *; nia.
  - apply elem_of_page_used in Hi as [_ Hi]. destruct (slot_place h s p i z HS Hp Hz Hi) as (_ & _ & _ & _ & ->), (big_place h b' n' HS Hb') as (_ & _ & ->). intros <-.
    assert (h_bigs h !! s = None) by (apply (hs_kinds _ HS); by rewrite Hp). congruence.
  - apply elem_of_page_used in Hi' as [_ Hi']. destruct (slot_place h s' p' i' z' HS Hp' Hz' Hi') as (_ & _ & _ & _ & ->), (big_place h b n HS Hb) as (_ & _ & ->). intros ->.
    assert (h_bigs h !! s' = None) by (apply (hs_kinds _ HS); by rewrite Hp'). congruence.
  - destruct (big_place h b n HS Hb) as (_ & _ & ->), (big_place h b' n' HS Hb') as (_ & _ & ->). intros <-. assert (n' = n) as -> by congruence. by left.
Qed.

(** Distinct blocks do not overlap. *)
Lemma block_apart h q c q' c' : heap_state h -> block h q c -> block h q' c' -> (q = q' /\ c = c') \/ q + c <= q' \/ q' + c' <= q.
Proof.
  intros HS B B'. destruct (block_span h q c HS B) as (n & Hs & H1 & H2 & H3 & _), (block_span h q' c' HS B') as (n' & Hs' & H1' & H2' & H3' & _).
  destruct (Z.lt_trichotomy (q / PAGE_SIZE * PAGE_SIZE) (q' / PAGE_SIZE * PAGE_SIZE)) as [Hl|[He|Hl]].
  - pose proof (hs_apart _ HS _ _ _ _ Hs Hs' Hl). lia.
  - by apply (block_same_page h).
  - pose proof (hs_apart _ HS _ _ _ _ Hs' Hs Hl). lia.
Qed.
End HeapInv.

Abbreviation block h := (block_in (h_slabs h) (h_bigs h)).
Abbreviation span h := (span_in (h_slabs h) (h_bigs h)).
