(* ===== verification/HeapOps.v ===== *)
(** * What allocating and freeing on the heap do *)

From S2P Require Import Prelude Bitmap DList Slab SlabList SlabSpec SlabOps CString CStringThms Paging Heap HeapSpec.

(** ** Tags *)

Lemma tags_lookup slabs bigs x : tags slabs bigs !! x =
  match slabs !! x with Some p => Some (list_of (as_page p)) | None => match bigs !! x with Some _ => Some big_list | None => None end end.
Proof. unfold tags. rewrite lookup_union, !lookup_fmap. destruct (slabs !! x), (bigs !! x); done. Qed.

Lemma tags_slab slabs bigs s p : tags (<[s := p]> slabs) bigs = <[s := list_of (as_page p)]> (tags slabs bigs).
Proof. unfold tags. by rewrite fmap_insert, insert_union_l. Qed.

Lemma tags_big slabs bigs b n : slabs !! b = None -> tags slabs (<[b := n]> bigs) = <[b := big_list]> (tags slabs bigs).
Proof. intros Hb. unfold tags. rewrite fmap_insert, insert_union_r; [done|]. by rewrite lookup_fmap, Hb. Qed.

Lemma tags_big_delete slabs bigs b : slabs !! b = None -> tags slabs (delete b bigs) = delete b (tags slabs bigs).
Proof. intros Hb. unfold tags. rewrite fmap_delete, delete_union, (delete_id (_ <$> slabs)); [done|]. by rewrite lookup_fmap, Hb. Qed.

Definition c_head (c : slab_cache) (t : slab_kind) : Z := match t with Partial => c_partial c | Full => c_full c | Empty => c_free c end.

Section HeapOps.
Context {M : Type} `{!PageSource M, !RunSource M}.
Implicit Types h : heap M.

Lemma class_at h i c : heap_state h -> caches h !! i = Some c -> sizes !! i = Some (c_size c) /\ (i < 6)%nat /\ (i < length (caches h))%nat.
Proof.
  intros HS Hc. assert (Hz : sizes !! i = Some (c_size c)) by (by rewrite <- (hs_sizes _ HS), list_lookup_fmap, Hc).
  split; [done|]. split; [|by eapply lookup_lt_Some]. by apply lookup_lt_Some in Hz.
Qed.

Lemma class_exists h i z : heap_state h -> sizes !! i = Some z -> exists c, caches h !! i = Some c /\ c_size c = z.
Proof. intros HS Hz. rewrite <- (hs_sizes _ HS), list_lookup_fmap in Hz. destruct (caches h !! i) as [c|]; [|done]. exists c. by injection Hz. Qed.

Lemma heap_head_class h i c t : (i < 6)%nat -> caches h !! i = Some c -> heap_head h (i, t) = c_head c t.
Proof. intros Hi Hc. unfold heap_head. rewrite decide_False by (intros [= ->]; lia). simpl. by rewrite Hc. Qed.

Lemma heap_head_with h m slabs i c a : (i < 6)%nat -> (i < length (caches h))%nat ->
  heap_head (with_class h m slabs i c) a = if decide (a.1 = i) then c_head c a.2 else heap_head h a.
Proof.
  intros Hi Hl. destruct a as [j t]. unfold heap_head. cbn [caches with_class fst snd big_alloc_head]. destruct (decide (j = i)) as [->|Hj].
  - rewrite decide_False by (intros [= ->]; lia). by rewrite list_lookup_insert_eq.
  - by rewrite list_lookup_insert_ne.
Qed.

Lemma sizes_insert h i c c' : caches h !! i = Some c -> c_size c' = c_size c -> c_size <$> <[i := c']> (caches h) = c_size <$> caches h.
Proof. intros Hc E. rewrite list_fmap_insert, E. apply list_insert_id. by rewrite list_lookup_fmap, Hc. Qed.

(** ** Growing the heap *)

Lemma heap_state_space h cur mem : heap_state h -> current_heap_vaddr h <= cur < 2 ^ 64 -> cur mod PAGE_SIZE = 0 -> heap_state (with_space h cur mem).
Proof.
  intros [H1 H2 H3 H4 H5 H6] Hc Hm. split; cbn [caches h_slabs h_bigs current_heap_vaddr with_space]; try done.
  - intros a n Hs. destruct (H4 a n Hs) as (? & ? & ? & ?). split_and!; [done..|lia].
  - split; [lia|done].
Qed.

(** Pages at the old end of the heap are added. *)
Lemma heap_state_grow h h' n : heap_state h -> 1 <= n -> c_size <$> caches h' = sizes ->
  (forall s p, h_slabs h' !! s = Some p -> exists z, sizes !! s_cache p = Some z /\ page_ok (class_of z) (as_page p)) ->
  (forall s, h_slabs h' !! s <> None -> h_bigs h' !! s = None) ->
  (forall a k, span h' a k -> span h a k \/ a = current_heap_vaddr h /\ k = n) ->
  current_heap_vaddr h' = current_heap_vaddr h + n * PAGE_SIZE -> current_heap_vaddr h' < 2 ^ 64 -> heap_state h'.
Proof.
  intros HS Hn Hz Hsl Hk Hsp Hcur Hlt. destruct (hs_cursor _ HS) as [Hc Hm]. pose proof (hs_span _ HS) as H4. unfold PAGE_SIZE in *. split; try done.
  - intros a k [Ho|[-> ->]]%Hsp; [destruct (H4 a k Ho) as (? & ? & ? & ?)|]; unfold PAGE_SIZE; rewrite Hcur; (split; [lia|]); split; [lia| |lia|]; split; done || lia.
  - intros a k b j [Ha|[-> ->]]%Hsp [Hb|[-> ->]]%Hsp Hab.
    + by apply (hs_apart _ HS a k b j).
    + by apply H4.
    + destruct (H4 b j Hb) as (? & _ & _ & ?). lia.
    + lia.
  - rewrite Hcur. unfold PAGE_SIZE in *. split; [lia|]. by rewrite Z.mod_add.
Qed.

(** Nothing lies at the end of the heap. *)
Lemma cursor_fresh h : heap_state h -> h_slabs h !! current_heap_vaddr h = None /\ h_bigs h !! current_heap_vaddr h = None.
Proof.
  intros HS. split.
  - destruct (h_slabs h !! current_heap_vaddr h) as [p|] eqn:E; [|done]. destruct (hs_span _ HS (current_heap_vaddr h) 1) as (_ & _ & _ & ?); [left; by rewrite E|unfold PAGE_SIZE in *; lia].
  - destruct (h_bigs h !! current_heap_vaddr h) as [n|] eqn:E; [|done]. destruct (hs_span _ HS (current_heap_vaddr h) n) as (? & _ & _ & ?); [by right|unfold PAGE_SIZE in *; lia].
Qed.

(** Blocks, and the contents of the heap so far, are as before. *)
Record kept h h' : Prop := {
  kp_blocks : forall q k, block h' q k <-> block h q k;
  kp_bytes : (forall x, x < current_heap_vaddr h -> byte_at (h_bytes h') x = byte_at (h_bytes h) x) /\ (bytes_ok (h_bytes h) -> bytes_ok (h_bytes h'));
  kp_cursor : current_heap_vaddr h <= current_heap_vaddr h';
}.

Lemma memset_bytes_ok m p c n : bytes_ok m -> bytes_ok (memset m p c n).
Proof. intros Hb x. rewrite memset_spec. destruct (_ && _); [apply u8_range|apply Hb]. Qed.

(** No page for a slab, or no table to map it. *)
Definition no_page h : Prop :=
  let '(frame, mem) := ps_alloc (h_mem h) in frame = 0 \/ (ps_map mem (current_heap_vaddr h) frame).1 = false.

Definition fresh_slab (i : nat) (z : Z) : slab := HeapSlab i (objs_per_slab (class_of z)) (objs_per_slab (class_of z)) [0; 0; 0; 0].

Lemma fresh_slots i z : cache_ok (class_of z) -> slots (fresh_slab i z) = ∅.
Proof. apply (fresh_page_used i). Qed.

Lemma allocate_new_slab_spec h i c : heap_wf h -> caches h !! i = Some c -> current_heap_vaddr h + PAGE_SIZE < 2 ^ 64 ->
  match allocate_new_slab h i c with
  | (None, h') => heap_wf h' /\ kept h h' /\ no_page h
  | (Some s, h') => s = current_heap_vaddr h /\ h_slabs h' = <[s := fresh_slab i (c_size c)]> (h_slabs h) /\ h_bigs h' = h_bigs h /\ caches h' = caches h /\
      slab_lists (h_links h') (heap_head h') (tags (h_slabs h) (h_bigs h)) /\ heap_state h' /\ kept h h'
  end.
Proof.
  intros [HL HS] Hc Hroom. unfold allocate_new_slab, no_page. destruct (ps_alloc (h_mem h)) as [frame mem]. destruct (hs_cursor _ HS) as [Hcu Hcm].
  destruct (Z.eqb_spec frame 0) as [->|Hf].
  { split; [|split; [split; [done|done|cbn; lia]|by left]]. split; [exact HL|]. apply heap_state_space; [done|lia|done]. }
  unfold allocate_virtual_space. cbn [current_heap_vaddr h_mem with_space]. destruct (ps_map mem (current_heap_vaddr h) frame) as [ok mem'].
  assert (Eu : u64 (current_heap_vaddr h + 1 * PAGE_SIZE) = current_heap_vaddr h + PAGE_SIZE) by (rewrite Z.mul_1_l; apply u64_small; unfold PAGE_SIZE, KERNEL_HEAP_BASE in *; lia).
  rewrite Eu. destruct ok; cbn [negb].
  - destruct (class_at h i c HS Hc) as (Hz & Hi & _). destruct (class_ok _ _ Hz) as (Hok & Hr & _ & Ht). destruct (cursor_fresh h HS) as [F1 F2].
    set (total := if _ >? 128 then _ else _). assert (Et : total = objs_per_slab (class_of (c_size c))).
    { unfold total, class_of. cbn [objs_per_slab]. pose proof (co_count _ Hok) as Hco. cbn [objs_per_slab class_of] in Hco. rewrite u32_small by lia. destruct (Z.gtb_spec ((PAGE_SIZE - SLAB_HEADER) / c_size c) 128); [lia|done]. }
    rewrite Et. split; [done|]. split; [done|]. do 2 (split; [done|]). cbn [h_links h_slabs h_bigs h_bytes]. split; [|split].
    + eapply slab_lists_frame; [|eapply slab_lists_ext; [|exact HL]]; [|done]. intros x Hx. assert (x <> current_heap_vaddr h) by (intros ->; rewrite tags_lookup, F1, F2 in Hx; done).
      split; cbn [with_space with_bytes h_links]; links; by rewrite (proj2 (Z.eqb_neq _ x)) by done.
    + apply (heap_state_grow h _ 1); try done; cbn [caches h_slabs h_bigs current_heap_vaddr with_bytes with_space].
      * apply HS.
      * intros s p [[<- <-]|[_ Hp]]%lookup_insert_Some; [|by apply (hs_slab _ HS s)]. exists (c_size c). split; [done|]. by apply (fresh_page_ok i).
      * intros s. rewrite lookup_insert. case_decide; [subst; done|apply HS].
      * intros a k [[-> Ha]|Ha]; [|left; by right]. rewrite lookup_insert in Ha. case_decide; [subst; by right|left; by left].
    + split; cbn [h_slabs h_bigs h_bytes current_heap_vaddr with_bytes with_space].
      * intros q k. split; intros [s p j z' Hp Hz' Hj|b n Hb]; try (by eapply block_slot); try by eapply block_big.
        -- apply lookup_insert_Some in Hp as [[<- <-]|[_ Hp]]; [|by eapply block_slot]. change (j ∈ slots (fresh_slab i (c_size c))) in Hj. by rewrite fresh_slots in Hj.
        -- eapply block_slot; [|done|done]. rewrite lookup_insert_ne; [done|]. intros <-. congruence.
      * split; [intros x Hx; rewrite memset_spec; destruct (Z.leb_spec (current_heap_vaddr h) x); [lia|done]|by apply memset_bytes_ok].
      * unfold PAGE_SIZE. lia.
  - split; [|split; [split; [done|done|cbn; unfold PAGE_SIZE; lia]|right; done]]. split; [exact HL|]. apply heap_state_space; [apply heap_state_space; [apply heap_state_space; [done|lia|done]| |]| |];
      cbn [current_heap_vaddr with_space]; try (unfold PAGE_SIZE in *; lia); unfold PAGE_SIZE in *; rewrite Zplus_mod, Hcm; done.
Qed.

(** ** Slots *)

(** Lists, slabs and the descriptor of one class change; the pages stay. *)
Lemma heap_state_class h m slabs i c c' : heap_state h -> caches h !! i = Some c -> c_size c' = c_size c ->
  (forall s p, slabs !! s = Some p -> h_slabs h !! s <> None /\ exists z, sizes !! s_cache p = Some z /\ page_ok (class_of z) (as_page p)) ->
  heap_state (with_class h m slabs i c').
Proof.
  intros HS Hc Hz Hsl. assert (Hsp : forall a n, span (with_class h m slabs i c') a n -> span h a n).
  { intros a n [[-> Ha]|Ha]; [|by right]. left. split; [done|]. cbn [h_slabs with_class] in Ha. destruct (slabs !! a) as [p|] eqn:E; [|done]. by destruct (Hsl a p E). }
  split; cbn [caches current_heap_vaddr with_class].
  - rewrite (sizes_insert h i c) by done. apply HS.
  - intros s p Hp. by apply (Hsl s).
  - intros s Hs. cbn [h_slabs with_class] in Hs. destruct (slabs !! s) as [p|] eqn:E; [|done]. destruct (Hsl s p E) as [Hs' _]. by apply (hs_kinds _ HS).
  - intros a n Ha%Hsp. by apply (hs_span _ HS).
  - intros a n b k Ha%Hsp Hb%Hsp. by apply (hs_apart _ HS a n b k).
  - apply HS.
Qed.

(** Lists after the descriptor of a class and its slabs have changed. *)
Lemma lists_with_class h m m' slabs i c c' H tg : heap_state h -> caches h !! i = Some c ->
  (forall t, H (i, t) = c_head c' t) -> (forall a, a.1 <> i -> H a = heap_head h a) -> slab_lists m' H tg ->
  slab_lists m' (heap_head (with_class h m slabs i c')) tg.
Proof.
  intros HS Hc Hi Ho. destruct (class_at h i c HS Hc) as (_ & H6 & Hl). apply slab_lists_ext. intros [j t].
  rewrite heap_head_with by done. cbn [fst snd]. destruct (decide (j = i)) as [->|Hj]; [apply Hi|by apply Ho].
Qed.

Lemma with_class_twice h m m' sl sl' i c c' : with_class (with_class h m sl i c) m' sl' i c' = with_class h m' sl' i c'.
Proof. unfold with_class. cbn. by rewrite list_insert_insert_eq. Qed.

Lemma partial_slab_spec h i c : heap_wf h -> caches h !! i = Some c -> current_heap_vaddr h + PAGE_SIZE < 2 ^ 64 ->
  match partial_slab h i c with
  | (None, h') => heap_wf h' /\ kept h h' /\ no_page h
  | (Some (s, c'), h') => heap_inv_at (<[s := (i, Partial)]> (tags (h_slabs h') (h_bigs h'))) h' /\ caches h' !! i = Some c' /\ c_size c' = c_size c /\
      kept h h' /\ exists p, h_slabs h' !! s = Some p /\ s_cache p = i /\ 0 < free_count p
  end.
Proof.
  intros HW Hc Hroom. pose proof HW as [HL HS]. destruct (class_at h i c HS Hc) as (Hz & Hi & Hlen). destruct (class_ok _ _ Hz) as (Hok & Hr & _ & Ht).
  assert (Hh : forall t, heap_head h (i, t) = c_head c t) by (intros; by apply heap_head_class). unfold partial_slab.
  assert (Hlist : forall t, c_head c t <> 0 -> exists p, h_slabs h !! c_head c t = Some p /\ s_cache p = i /\ slab_kind_of (as_page p) = t).
  { intros t Hn. rewrite <- Hh in *. pose proof (slab_lists_head _ _ _ _ HL Hn) as Hg. rewrite tags_lookup in Hg. destruct (h_slabs h !! heap_head h (i, t)) as [p|].
    - exists p. injection Hg as E1 E2. by cbn in E1.
    - destruct (h_bigs h !! _); [|done]. injection Hg as E1 E2. lia. }
  destruct (Z.eqb_spec (c_partial c) 0) as [Hp0|Hp0]; cbn [negb].
  2:{ destruct (Hlist Partial Hp0) as (p & Hp & Hpc & Hk). split; [|split; [done|split; [done|split; [by split|]]]].
      - split; [|done]. rewrite insert_id; [done|]. rewrite tags_lookup. cbn [c_head] in Hp. rewrite Hp. unfold list_of. by rewrite Hk, <- Hpc.
      - exists p. split; [done|]. split; [done|]. unfold slab_kind_of in Hk. cbn [as_page sp_free_count sp_total_count] in Hk. destruct (Z.eqb_spec (free_count p) 0); [done|].
        destruct (hs_slab _ HS _ _ Hp) as (z & Hz' & [_ Htt _ Hfr]). destruct (class_ok _ _ Hz') as (_ & _ & _ & ?).
        pose proof (page_used_size (as_page p)). cbn [as_page sp_free_count sp_total_count] in *. unfold slots in *. lia. }
  destruct (Z.eqb_spec (c_free c) 0) as [Hf0|Hf0]; cbn [negb].
  - pose proof (allocate_new_slab_spec h i c HW Hc Hroom) as Hnew. destruct (allocate_new_slab h i c) as [[s|] h1]; [|done].
    destruct Hnew as (Es & Esl & Ebg & Eca & HL1 & HS1 & HK). destruct (cursor_fresh h HS) as [F1 F2]. rewrite <- Es in F1, F2.
    destruct (heap_push (h_links h1) (c_partial c) s) as [m2 hd] eqn:Ep. rewrite <- Eca in Hc. cbn [with_class caches h_slabs h_bigs].
    split; [|split; [by rewrite list_lookup_insert_eq by (by rewrite Eca)|split; [done|split; [by destruct HK; split|]]]].
    + split; [|eapply heap_state_class; [done|done|done|]].
      * rewrite Esl, Ebg, tags_slab, insert_insert_eq. eapply (lists_with_class h1 _ _ _ i c _ (<[(i, Partial) := hd]> (heap_head h1))); [done|done| | |].
        -- intros []; (rewrite fn_lookup_insert || rewrite fn_lookup_insert_ne by done); [done|..]; by rewrite (heap_head_class h1 i c).
        -- intros a Ha. rewrite fn_lookup_insert_ne; [done|]. by intros <-.
        -- eapply slab_lists_push; [exact HL1| | |by rewrite (heap_head_class h1 i c)]; [by rewrite tags_lookup, F1, F2|]. destruct (hs_cursor _ HS). unfold KERNEL_HEAP_BASE in *. lia.
      * intros s' p' Hp'. split; [by rewrite Hp'|by apply (hs_slab _ HS1 s')].
    + exists (fresh_slab i (c_size c)). rewrite Esl, lookup_insert_eq. split; [done|]. split; [done|]. cbn [fresh_slab free_count]. lia.
  - destruct (Hlist Empty Hf0) as (p & Hp & Hpc & Hk). cbn [c_head] in Hp.
    pose proof (heap_lists_pop _ _ _ (i, Empty) HL) as HL1. rewrite Hh in HL1. specialize (HL1 Hf0). cbv zeta in HL1. cbn [c_head] in HL1.
    set (m1 := set_next _ (c_free c) 0) in *. cbn [h_links with_class c_partial c_size c_full c_free]. destruct (heap_push m1 (c_partial c) (c_free c)) as [m2 hd] eqn:Ep. rewrite with_class_twice.
    cbn [with_class caches h_slabs h_bigs]. split; [|split; [by rewrite list_lookup_insert_eq|split; [done|split; [by split|]]]].
    + split; [|eapply heap_state_class; [done|done|done|]].
      * rewrite <- (insert_delete_eq (tags _ _)).
        eapply (lists_with_class h _ _ _ i c _ (<[(i, Partial) := hd]> (<[(i, Empty) := get_next (h_links h) (c_free c)]> (heap_head h)))); [done|done| | |].
        -- intros []; repeat (rewrite fn_lookup_insert || rewrite fn_lookup_insert_ne by done); [done|..|done]; by rewrite (heap_head_class h i c).
        -- intros a Ha. rewrite !fn_lookup_insert_ne; [done|..]; by intros <-.
        -- eapply slab_lists_push; [exact HL1|by rewrite lookup_delete_eq|done|]. rewrite fn_lookup_insert_ne by done. by rewrite (heap_head_class h i c).
      * intros s' p' Hp'. split; [by rewrite Hp'|by apply (hs_slab _ HS s')].
    + exists p. split; [done|]. split; [done|]. unfold slab_kind_of in Hk. destruct (hs_slab _ HS _ _ Hp) as (z & Hz' & [_ Htt _ Hfr]).
      cbn [as_page sp_free_count sp_total_count] in *. destruct (Z.eqb_spec (free_count p) 0); [done|]. destruct (Z.eqb_spec (free_count p) (total_count p)) as [->|]; [|done].
      rewrite Htt. destruct (class_ok _ _ Hz') as (_ & _ & _ & ?). lia.
Qed.

Lemma kind_full p : free_count p = 0 -> slab_kind_of (as_page p) = Full.
Proof. intros E. unfold slab_kind_of. cbn. by rewrite E. Qed.

Lemma kind_partial p : 0 < free_count p < total_count p -> slab_kind_of (as_page p) = Partial.
Proof. intros E. unfold slab_kind_of. cbn. rewrite !(proj2 (Z.eqb_neq _ _)) by lia. done. Qed.

Lemma kind_empty p : free_count p = total_count p -> 0 < total_count p -> slab_kind_of (as_page p) = Empty.
Proof. intros E Ht. unfold slab_kind_of. cbn. by rewrite E, Z.eqb_refl, (proj2 (Z.eqb_neq _ _)) by lia. Qed.

(** Blocks after the slots of one slab have changed. *)
Lemma block_slab slabs bigs s p' q k : block_in (<[s := p']> slabs) bigs q k <->
  (exists z i, sizes !! s_cache p' = Some z /\ i ∈ slots p' /\ q = s + SLAB_HEADER + i * z /\ k = z) \/ block_in (delete s slabs) bigs q k.
Proof.
  split.
  - intros [s' p i z Hp Hz Hi|b n Hb]; [|right; by eapply block_big]. apply lookup_insert_Some in Hp as [[<- <-]|[Hne Hp]]; [left; by exists z, i|].
    right. eapply block_slot; [|done|done]. by rewrite lookup_delete_ne.
  - intros [(z & i & Hz & Hi & -> & ->)|[s' p i z Hp Hz Hi|b n Hb]]; [|apply lookup_delete_Some in Hp as [Hne Hp]|by eapply block_big].
    + eapply block_slot; [by rewrite lookup_insert_eq|done|done].
    + eapply block_slot; [by rewrite lookup_insert_ne|done|done].
Qed.

Lemma block_slab_old slabs bigs s p q k : slabs !! s = Some p -> block_in slabs bigs q k <->
  (exists z i, sizes !! s_cache p = Some z /\ i ∈ slots p /\ q = s + SLAB_HEADER + i * z /\ k = z) \/ block_in (delete s slabs) bigs q k.
Proof. intros Hp. rewrite <- block_slab. by rewrite insert_id. Qed.

(** The invariant after a slab [s] of class [i] has become [p']. *)
Lemma slab_changed h i c s p c' p' m' : heap_state h -> caches h !! i = Some c -> h_slabs h !! s = Some p -> s_cache p' = i -> c_size c' = c_size c ->
  page_ok (class_of (c_size c)) (as_page p') ->
  slab_lists m' (heap_head (with_class h m' (<[s := p']> (h_slabs h)) i c')) (<[s := (i, slab_kind_of (as_page p'))]> (tags (h_slabs h) (h_bigs h))) ->
  heap_wf (with_class h m' (<[s := p']> (h_slabs h)) i c').
Proof.
  intros HS Hc Hp Hi Hz Hok HL. destruct (class_at h i c HS Hc) as (Hzi & _). split.
  - cbn [with_class h_links h_slabs h_bigs]. rewrite tags_slab. unfold list_of. cbn [as_page sp_cache] in *. by rewrite Hi.
  - eapply heap_state_class; [done|done|done|]. intros s' q [[<- <-]|[_ Hq]]%lookup_insert_Some.
    + split; [by rewrite Hp|]. exists (c_size c). by rewrite Hi.
    + split; [by rewrite Hq|by apply (hs_slab _ HS s')].
Qed.

Lemma move_if_full_spec h i c s p' m' c' : slab_lists (h_links h) (heap_head h) (<[s := (i, Partial)]> (tags (h_slabs h) (h_bigs h))) -> heap_state h ->
  caches h !! i = Some c -> 0 <= free_count p' < total_count p' -> move_if_full (h_links h) c s p' = (m', c') ->
  c_size c' = c_size c /\ slab_lists m' (heap_head (with_class h m' (<[s := p']> (h_slabs h)) i c')) (<[s := (i, slab_kind_of (as_page p'))]> (tags (h_slabs h) (h_bigs h))).
Proof.
  intros HL HS Hc Hf. destruct (class_at h i c HS Hc) as (_ & Hi6 & _). unfold move_if_full. destruct (Z.eqb_spec (free_count p') 0) as [E0|E0].
  - destruct (heap_unlink (h_links h) (c_partial c) s) as [m1 h1] eqn:E1, (heap_push m1 (c_full c) s) as [m2 h2] eqn:E2. intros [= <- <-]. split; [done|].
    rewrite kind_full by done. rewrite <- (insert_insert_eq _ s (i, Full) (i, Partial)).
    eapply (lists_with_class h _ _ _ i c _ (<[(i, Full) := h2]> (<[(i, Partial) := h1]> (heap_head h)))); [done|done| | |].
    + intros []; repeat (rewrite fn_lookup_insert || rewrite fn_lookup_insert_ne by done); [done..|]; by rewrite (heap_head_class h i c).
    + intros a Ha. rewrite !fn_lookup_insert_ne; [done|..]; by intros <-.
    + eapply heap_lists_move; [exact HL|by rewrite lookup_insert_eq|done|by rewrite (heap_head_class h i c)|by rewrite (heap_head_class h i c)].
  - intros [= <- <-]. split; [done|]. rewrite kind_partial by lia.
    eapply (lists_with_class h _ _ _ i c _ (heap_head h)); [done|done| |done|done]. intros t. by apply heap_head_class.
Qed.

(** A block in the page of a slab is one of its slots. *)
Lemma block_in_slab h s p q k z : heap_state h -> h_slabs h !! s = Some p -> sizes !! s_cache p = Some z -> block h q k -> q / PAGE_SIZE * PAGE_SIZE = s ->
  exists j, j ∈ slots p /\ q = s + SLAB_HEADER + j * z /\ k = z.
Proof.
  intros HS Hp Hz [s' p' j z' Hp' Hz' Hj|b n Hb].
  - pose proof Hj as [_ Hr]%elem_of_page_used. destruct (slot_place h s' p' j z' HS Hp' Hz' Hr) as (_ & _ & _ & _ & ->). intros ->.
    assert (p' = p) as -> by congruence. assert (z' = z) as -> by congruence. by exists j.
  - destruct (big_place h b n HS Hb) as (_ & _ & ->). intros ->. assert (h_bigs h !! s = None) by (apply (hs_kinds _ HS); by rewrite Hp). congruence.
Qed.

Lemma take_slot_spec h i c s p : heap_inv_at (<[s := (i, Partial)]> (tags (h_slabs h) (h_bigs h))) h -> caches h !! i = Some c ->
  h_slabs h !! s = Some p -> s_cache p = i -> 0 < free_count p ->
  exists ptr h', take_slot h i c s = (ptr, h') /\ heap_wf h' /\ ptr <> 0 /\ ptr / PAGE_SIZE * PAGE_SIZE = s /\
    (forall q k, block h' q k <-> block h q k \/ q = ptr /\ k = c_size c) /\ (forall k, ~ block h ptr k) /\
    h_bytes h' = h_bytes h /\ current_heap_vaddr h' = current_heap_vaddr h.
Proof.
  intros [HL HS] Hc Hp Hi Hf. destruct (class_at h i c HS Hc) as (Hz & Hi6 & Hlen). destruct (class_ok _ _ Hz) as (Hok & Hr & _ & Ht).
  destruct (hs_slab _ HS s p Hp) as (z & Hz' & Hpok). rewrite Hi in Hz'. assert (z = c_size c) as -> by congruence.
  destruct (page_has_free _ _ Hpok Hf) as [Hidx Hbit]. unfold take_slot. rewrite Hp. cbn [as_page sp_total_count sp_bitmap] in Hidx, Hbit.
  set (idx := find_free _ _ 0) in *. rewrite (proj2 (Z.eqb_neq idx (-1))) by lia.
  destruct (page_used_set _ _ idx Hpok Hok Hidx Hbit) as (Hu & Hpok' & Hfc & Hnew).
  set (p' := HeapSlab (s_cache p) (u32 (free_count p - 1)) (total_count p) (BITMAP_SET (s_bitmap p) idx)).
  change (page_ok (class_of (c_size c)) (as_page p')) in Hpok'. change (slots p' = {[idx]} ∪ slots p) in Hu. change (free_count p' = free_count p - 1) in Hfc. change (idx ∉ slots p) in Hnew.
  destruct (move_if_full (h_links h) c s p') as [m' c'] eqn:Emc.
  destruct (move_if_full_spec h i c s p' m' c' HL HS Hc) as [Hsz HL']; [|done|].
  { pose proof (po_free _ _ Hpok) as Hfr. cbn [as_page sp_free_count sp_total_count] in Hfr. change (total_count p') with (total_count p). lia. }
  destruct (slot_place h s p idx (c_size c) HS Hp ltac:(by rewrite Hi) Hidx) as (P1 & P2 & P3 & P4 & P5).
  assert (Hsp : span h s 1) by (left; by rewrite Hp). destruct (hs_span _ HS s 1 Hsp) as (_ & Hs1 & _ & Hs2). destruct (hs_cursor _ HS) as [Hcu _].
  assert (Eptr : u64 (s + SLAB_HEADER + idx * c_size c') = s + SLAB_HEADER + idx * c_size c) by (rewrite Hsz; apply u64_small; unfold SLAB_HEADER, PAGE_SIZE, KERNEL_HEAP_BASE in *; lia).
  rewrite Eptr. eexists _, _. split; [done|]. split; [by eapply slab_changed|]. split; [unfold SLAB_HEADER, KERNEL_HEAP_BASE in *; lia|]. split; [done|].
  cbn [with_class h_slabs h_bigs h_bytes current_heap_vaddr]. split; [|split; [|done]].
  - intros q k. rewrite block_slab, (block_slab_old (h_slabs h) _ s p) by done. cbn [p' s_cache]. change (HeapSlab _ _ _ _) with p'. rewrite Hu. split.
    + intros [(z & j & Hzj & [->%elem_of_singleton|Hj]%elem_of_union & -> & ->)|?]; [right|left; left; by exists z, j|left; by right]. split; congruence.
    + intros [[(z & j & Hzj & Hj & -> & ->)|?]|[-> ->]]; [left|by right|left]; [exists z, j|exists (c_size c), idx]; rewrite ?Hi; set_solver.
  - intros k Hb. destruct (block_in_slab h s p _ k (c_size c) HS Hp ltac:(by rewrite Hi) Hb P5) as (j & Hj & Ej & _).
    assert (j = idx) as -> by (unfold SLAB_HEADER in Ej; nia). done.
Qed.
End HeapOps.
