(* ===== verification/HeapBlocks.v ===== *)
(** * Allocating and freeing blocks of the heap *)

From S2P Require Import Prelude Bitmap DList Slab SlabList SlabSpec SlabOps CString CStringThms Paging Heap HeapSpec HeapOps.

(** The pages a request can take from the heap's address range. *)
Definition pages_for (size : Z) : Z := if size <=? 1024 then 1 else (size + BIG_HEADER + PAGE_SIZE - 1) / PAGE_SIZE.

Section HeapBlocks.
Context {M : Type} `{!PageSource M, !RunSource M}.
Implicit Types h : heap M.

Definition room h (size : Z) : Prop := current_heap_vaddr h + pages_for size * PAGE_SIZE < 2 ^ 64.

(** No run of pages for a large block, or no table to map it. *)
Definition no_run h (size : Z) : Prop :=
  let '(blocks, mem) := rs_alloc (h_mem h) (pages_for size) in
  blocks = 0 \/ (rs_map mem (current_heap_vaddr h) blocks (pages_for size)).1 = false.

(** The block at [ptr] is new and large enough; nothing else has changed. *)
Record allocated h (size ptr : Z) h' : Prop := {
  al_wf : heap_wf h';
  al_block : exists cap, size <= cap /\ (size <= 1024 -> cap <= 1024) /\ forall q k, block h' q k <-> block h q k \/ q = ptr /\ k = cap;
  al_new : forall k, ~ block h ptr k;
  al_ptr : KERNEL_HEAP_BASE < ptr;
  al_bytes : (forall x, x < current_heap_vaddr h -> byte_at (h_bytes h') x = byte_at (h_bytes h) x) /\ (bytes_ok (h_bytes h) -> bytes_ok (h_bytes h'));
  al_cursor : current_heap_vaddr h <= current_heap_vaddr h' /\
    (1024 < size -> ptr = current_heap_vaddr h + BIG_HEADER /\ current_heap_vaddr h' = current_heap_vaddr h + pages_for size * PAGE_SIZE);
}.

Lemma find_cache_from (l : list slab_cache) size n :
  match find_cache l size n with
  | Some (i, c) => exists j, i = (n + j)%nat /\ l !! j = Some c /\ size <= c_size c
  | None => Forall (fun c => c_size c < size) l
  end.
Proof.
  revert n. induction l as [|c l IH]; intros n; cbn [find_cache]; [done|]. destruct (Z.leb_spec size (c_size c)) as [Hs|Hs].
  - exists 0%nat. by rewrite Nat.add_0_r.
  - specialize (IH (S n)). destruct (find_cache l size (S n)) as [[i c']|]; [|by constructor].
    destruct IH as (j & -> & Hj & ?). exists (S j). split; [lia|done].
Qed.

Lemma find_cache_spec h size : heap_state h ->
  match find_cache (caches h) size 0 with
  | Some (i, c) => caches h !! i = Some c /\ size <= c_size c
  | None => 1024 < size
  end.
Proof.
  intros HS. pose proof (find_cache_from (caches h) size 0) as H. destruct (find_cache _ _ _) as [[i c]|].
  - by destruct H as (j & -> & ? & ?).
  - destruct (class_exists h 5 1024 HS eq_refl) as (c & Hc & <-). rewrite Forall_lookup in H. by apply (H 5%nat).
Qed.

(** ** Large blocks *)

Lemma pages_for_big size : 1024 < size -> 0 < size /\ size <= pages_for size * PAGE_SIZE - BIG_HEADER /\ 1 <= pages_for size.
Proof.
  intros Hs. unfold pages_for. destruct (Z.leb_spec size 1024); [lia|]. unfold BIG_HEADER, PAGE_SIZE.
  pose proof (Z.div_mod (size + 64 + 4096 - 1) 4096 ltac:(lia)). pose proof (Z.mod_pos_bound (size + 64 + 4096 - 1) 4096 ltac:(lia)). lia.
Qed.

Lemma kmalloc_big_spec h size : heap_wf h -> 1024 < size < 2 ^ 63 -> room h size ->
  exists ptr h', kmalloc_big h size = (ptr, h') /\ (ptr = 0 /\ heap_wf h' /\ kept h h' /\ no_run h size \/ allocated h size ptr h').
Proof.
  intros [HL HS] Hs Hroom. destruct (pages_for_big size ltac:(lia)) as (_ & Hfit & Hn). destruct (hs_cursor _ HS) as [Hcu Hcm].
  assert (Ep : u64 (u64 (size + BIG_HEADER) + PAGE_SIZE - 1) / PAGE_SIZE = pages_for size).
  { unfold pages_for. destruct (Z.leb_spec size 1024); [lia|]. unfold BIG_HEADER, PAGE_SIZE. rewrite (u64_small (size + 64)), u64_small by lia. done. }
  unfold kmalloc_big. rewrite Ep. unfold room in Hroom. set (n := pages_for size) in *. unfold no_run. fold n.
  destruct (rs_alloc (h_mem h) n) as [blocks mem]. destruct (Z.eqb_spec blocks 0) as [->|Hb].
  { eexists _, _. split; [done|]. left. split; [done|]. split; [|split; [split; [done|done|cbn; lia]|by left]]. split; [exact HL|]. apply heap_state_space; [done|lia|done]. }
  unfold allocate_virtual_space. cbn [current_heap_vaddr h_mem with_space].
  assert (Eu : u64 (current_heap_vaddr h + n * PAGE_SIZE) = current_heap_vaddr h + n * PAGE_SIZE) by (apply u64_small; unfold PAGE_SIZE, KERNEL_HEAP_BASE in *; lia).
  rewrite Eu. destruct (rs_map mem (current_heap_vaddr h) blocks n) as [[] mem']; cbn [negb].
  - destruct (heap_push (h_links h) (big_alloc_head h) (current_heap_vaddr h)) as [m2 hd] eqn:E. cbn [h_links big_alloc_head with_space]. rewrite E.
    eexists _, _. split; [done|]. right. rewrite u64_small by (unfold BIG_HEADER, PAGE_SIZE, KERNEL_HEAP_BASE in *; lia). destruct (cursor_fresh h HS) as [F1 F2].
    assert (HS' : heap_state (with_big (with_space (with_space h (current_heap_vaddr h) mem) (current_heap_vaddr h + n * PAGE_SIZE) mem) m2 (<[current_heap_vaddr h := n]> (h_bigs h)) hd mem')).
    { apply (heap_state_grow h _ n HS Hn); cbn [caches h_slabs h_bigs current_heap_vaddr with_big with_space]; try done; try apply HS.
      - intros s Hsl. rewrite lookup_insert_ne by (intros <-; congruence). by apply HS.
      - intros a k [Ha|Ha]; [left; by left|]. apply lookup_insert_Some in Ha as [[<- <-]|[_ Ha]]; [by right|left; by right]. }
    split; cbn [h_slabs h_bigs h_bytes current_heap_vaddr with_big with_space]; try done.
    + split; [|exact HS']. cbn [h_links h_slabs h_bigs with_big with_space]. rewrite tags_big by done.
      eapply slab_lists_ext; [|eapply (slab_lists_push _ (heap_head h) _ big_list); [exact HL|by rewrite tags_lookup, F1, F2|unfold KERNEL_HEAP_BASE in *; lia|]].
      * intros a. unfold heap_head. cbn [big_alloc_head caches with_big with_space]. destruct (decide (a = big_list)) as [->|Ha]; [by rewrite fn_lookup_insert|]. rewrite fn_lookup_insert_ne by done. by rewrite decide_False.
      * unfold heap_head. rewrite decide_True by done. exact E.
    + exists (n * PAGE_SIZE - BIG_HEADER). split; [done|]. split; [lia|]. intros q k. split.
      * intros [s p i z Hp Hz Hi|b k' Hk]; [left; by eapply block_slot|]. apply lookup_insert_Some in Hk as [[<- <-]|[_ Hk]]; [by right|left; by eapply block_big].
      * intros [[s p i z Hp Hz Hi|b k' Hk]|[-> ->]]; [by eapply block_slot| |apply block_big; by rewrite lookup_insert_eq]. apply block_big. rewrite lookup_insert_ne; [done|]. intros <-. congruence.
    + intros k Hk. destruct (block_span h _ k HS Hk) as (n' & Hsp & H1 & H2 & _). cbv zeta in *.
      rewrite (base_in (current_heap_vaddr h)) in Hsp by (done || unfold BIG_HEADER, PAGE_SIZE; lia). destruct (hs_span _ HS _ _ Hsp) as (? & _ & _ & ?). unfold PAGE_SIZE in *. lia.
    + unfold BIG_HEADER. lia.
    + unfold PAGE_SIZE. split; [lia|done].
  - eexists _, _. split; [done|]. left. split; [done|]. split; [|split; [split; [done|done|cbn; unfold PAGE_SIZE; lia]|by right]]. split; [exact HL|].
    change (with_space (with_space (with_space h (current_heap_vaddr h) mem) (current_heap_vaddr h + n * PAGE_SIZE) mem) (current_heap_vaddr h + n * PAGE_SIZE) (rs_free mem' blocks n))
      with (with_space h (current_heap_vaddr h + n * PAGE_SIZE) (rs_free mem' blocks n)).
    apply heap_state_space; [done|unfold PAGE_SIZE in *; lia|]. unfold PAGE_SIZE in *. by rewrite Z.mod_add.
Qed.

(** ** Any block *)

Lemma heap_kmalloc_spec h size : heap_wf h -> 0 <= size < 2 ^ 63 -> room h size ->
  exists ptr h', kmalloc h size = (ptr, h') /\
    (ptr = 0 /\ heap_wf h' /\ kept h h' /\ (size = 0 \/ (if size <=? 1024 then no_page h else no_run h size)) \/ 0 < size /\ allocated h size ptr h').
Proof.
  intros HW Hs Hroom. pose proof HW as [_ HS]. unfold kmalloc. destruct (Z.eqb_spec size 0) as [->|Hs0].
  { eexists _, _. split; [done|]. left. split; [done|]. split; [done|]. split; [by split|by left]. }
  pose proof (find_cache_spec h size HS) as Hf. destruct (find_cache (caches h) size 0) as [[i c]|].
  - destruct Hf as [Hc Hsz]. destruct (class_at h i c HS Hc) as (Hz & _). destruct (class_ok _ _ Hz) as (_ & Hr & _). unfold room, pages_for in Hroom. rewrite (proj2 (Z.leb_le size 1024)) in * by lia.
    pose proof (partial_slab_spec h i c HW Hc ltac:(lia)) as Hps. destruct (partial_slab h i c) as [[[s c']|] h1].
    + destruct Hps as (HI & Hc' & Esz & [K1 K2 K3] & p & Hp & Hpc & Hfr). destruct (take_slot_spec h1 i c' s p HI Hc' Hp Hpc Hfr) as (ptr & h2 & -> & HW2 & Hnz & Hpg & Hb & Hnew & Hby & Hcu).
      eexists _, _. split; [done|]. right. split; [lia|]. split; [done| | | |by rewrite Hby|rewrite Hcu; split; [done|lia]].
      * exists (c_size c'). split; [lia|]. split; [lia|]. intros q k. by rewrite Hb, K1.
      * intros k Hk%K1. by apply (Hnew k).
      * destruct HW2 as [_ HS2]. destruct (block_span h2 ptr (c_size c') HS2) as (n & Hsp & ? & _); [apply Hb; by right|]. destruct (hs_span _ HS2 _ _ Hsp). cbv zeta in *. lia.
    + destruct Hps as (HW1 & HK & Hno). eexists _, _. split; [done|]. left. split; [done|]. split; [done|]. split; [done|by right].
  - destruct (kmalloc_big_spec h size HW ltac:(lia) Hroom) as (ptr & h' & -> & [(-> & ? & ? & ?)|Hal]); eexists _, _; (split; [done|]); [left|right; split; [lia|done]].
    split; [done|]. split; [done|]. split; [done|]. right. by rewrite (proj2 (Z.leb_gt size 1024)) by lia.
Qed.
End HeapBlocks.

(** ** Freeing *)

Section HeapFree.
Context {M : Type} `{!PageSource M, !RunSource M}.
Implicit Types h : heap M.

Lemma settle_spec h i c s p p' m' c' : heap_wf h -> caches h !! i = Some c -> h_slabs h !! s = Some p -> s_cache p = i ->
  free_count p' = free_count p + 1 -> total_count p' = total_count p -> 0 <= free_count p < total_count p -> 3 <= total_count p ->
  settle (h_links h) c s p' = (m', c') ->
  c_size c' = c_size c /\ slab_lists m' (heap_head (with_class h m' (<[s := p']> (h_slabs h)) i c')) (<[s := (i, slab_kind_of (as_page p'))]> (tags (h_slabs h) (h_bigs h))).
Proof.
  intros [HL HS] Hc Hp Hi Hf Ht Hr H3. destruct (class_at h i c HS Hc) as (_ & Hi6 & _). unfold settle.
  assert (Htg : forall t, slab_kind_of (as_page p) = t -> tags (h_slabs h) (h_bigs h) !! s = Some (i, t)) by (intros t <-; rewrite tags_lookup, Hp; unfold list_of; cbn [as_page sp_cache]; by rewrite Hi).
  assert (Hmove : forall t t' m1 z1 m2 z2 c2, t <> t' -> slab_kind_of (as_page p) = t -> slab_kind_of (as_page p') = t' ->
    heap_unlink (h_links h) (c_head c t) s = (m1, z1) -> heap_push m1 (c_head c t') s = (m2, z2) ->
    (forall u, c_head c2 u = if decide (u = t') then z2 else if decide (u = t) then z1 else c_head c u) ->
    slab_lists m2 (heap_head (with_class h m2 (<[s := p']> (h_slabs h)) i c2)) (<[s := (i, slab_kind_of (as_page p'))]> (tags (h_slabs h) (h_bigs h)))).
  { intros t t' m1 z1 m2 z2 c2 Hne Hk Hk' E1 E2 Hc2. rewrite Hk'.
    eapply (lists_with_class h _ _ _ i c _ (<[(i, t') := z2]> (<[(i, t) := z1]> (heap_head h)))); [done|done| | |].
    - intros u. rewrite Hc2. destruct (decide (u = t')) as [->|]; [by rewrite fn_lookup_insert|]. rewrite fn_lookup_insert_ne by congruence.
      destruct (decide (u = t)) as [->|]; [by rewrite fn_lookup_insert|]. rewrite fn_lookup_insert_ne by congruence. by apply heap_head_class.
    - intros a Ha. rewrite !fn_lookup_insert_ne; [done|..]; by intros <-.
    - eapply heap_lists_move; [exact HL|by apply Htg|congruence|by rewrite (heap_head_class h i c)|by rewrite (heap_head_class h i c)]. }
  destruct (Z.eqb_spec (free_count p') 1) as [E1|E1].
  - destruct (heap_unlink (h_links h) (c_full c) s) as [m1 z1] eqn:Eu, (heap_push m1 (c_partial c) s) as [m2 z2] eqn:Eh. rewrite (proj2 (Z.eqb_neq (free_count p') (total_count p'))) by lia.
    intros [= <- <-]. split; [done|]. apply (Hmove Full Partial m1 z1 m2 z2); [done|apply kind_full; lia|apply kind_partial; lia|exact Eu|exact Eh|by intros []].
  - destruct (Z.eqb_spec (free_count p') (total_count p')) as [E2|E2].
    + destruct (heap_unlink (h_links h) (c_partial c) s) as [m1 z1] eqn:Eu, (heap_push m1 (c_free c) s) as [m2 z2] eqn:Eh. intros [= <- <-]. split; [done|].
      apply (Hmove Partial Empty m1 z1 m2 z2); [done|apply kind_partial; lia|apply kind_empty; lia|exact Eu|exact Eh|by intros []].
    + intros [= <- <-]. split; [done|]. rewrite kind_partial by lia. rewrite (insert_id (tags _ _)) by (apply Htg, kind_partial; lia).
      eapply (lists_with_class h _ _ _ i c _ (heap_head h)); [done|done| |done|done]. intros t. by apply heap_head_class.
Qed.
(** The address of a block leads back to its page and slot. *)
Lemma block_page_base h q k : heap_state h -> block h q k -> 0 < q < 2 ^ 64 /\ Z.land q (u64 (Z.lnot 0xFFF)) = q / PAGE_SIZE * PAGE_SIZE.
Proof.
  intros HS Hb. destruct (block_span h q k HS Hb) as (n & Hsp & H1 & H2 & H3 & _). destruct (hs_span _ HS _ _ Hsp) as (_ & H4 & _ & H5), (hs_cursor _ HS) as [Hcu _].
  unfold KERNEL_HEAP_BASE in *. assert (Hq : 0 < q < 2 ^ 64) by lia. split; [done|]. change 0xFFF with (PAGE_SIZE - 1). apply land_page_mask. lia.
Qed.

(** Blocks outside the page of a slab. *)
Lemma block_elsewhere h s p q k : heap_state h -> h_slabs h !! s = Some p -> block_in (delete s (h_slabs h)) (h_bigs h) q k -> q / PAGE_SIZE * PAGE_SIZE <> s.
Proof.
  intros HS Hp [s' p' j z' Hp' Hz' Hj|b n Hb].
  - apply lookup_delete_Some in Hp' as [Hne Hp']. apply elem_of_page_used in Hj as [_ Hj]. destruct (slot_place h s' p' j z' HS Hp' Hz' Hj) as (_ & _ & _ & _ & ->). congruence.
  - destruct (big_place h b n HS Hb) as (_ & _ & ->). intros ->. rewrite (hs_kinds _ HS s) in Hb; [done|]. by rewrite Hp.
Qed.

(** The block at [ptr] is gone; the rest of the heap is as it was. *)
Record freed h (ptr : Z) h' : Prop := {
  fd_wf : heap_wf h';
  fd_block : forall q k, block h' q k <-> block h q k /\ q <> ptr;
  fd_bytes : h_bytes h' = h_bytes h;
  fd_cursor : current_heap_vaddr h' = current_heap_vaddr h;
}.

Lemma kfree_slot h s p i z : heap_wf h -> h_slabs h !! s = Some p -> sizes !! s_cache p = Some z -> i ∈ slots p ->
  freed h (s + SLAB_HEADER + i * z) (kfree h (s + SLAB_HEADER + i * z)).
Proof.
  intros HW Hp Hz Hi. pose proof HW as [HL HS]. pose proof Hi as [_ Hir]%elem_of_page_used. cbn [as_page sp_total_count] in Hir.
  destruct (slot_place h s p i z HS Hp Hz Hir) as (P1 & P2 & P3 & P4 & P5). set (q := s + SLAB_HEADER + i * z) in *.
  destruct (block_page_base h q z HS) as [Hq Hbase]; [by eapply block_slot|]. rewrite P5 in Hbase.
  destruct (class_exists h _ z HS Hz) as (c & Hc & Hcz). destruct (class_ok _ _ Hz) as (Hok & Hr & _ & Ht).
  destruct (hs_slab _ HS s p Hp) as (z' & Hz' & Hpok). assert (z' = z) as -> by congruence. pose proof (po_total _ _ Hpok) as Htot. cbn [as_page sp_total_count] in Htot.
  destruct (page_used_clear _ _ i Hpok Hok Hi) as (Hu & Hpok' & Hfc & Hfr). cbn [as_page sp_free_count sp_total_count] in Hfr.
  set (p' := HeapSlab (s_cache p) (u32 (free_count p + 1)) (total_count p) (BITMAP_CLEAR (s_bitmap p) i)).
  change (page_ok (class_of z) (as_page p')) in Hpok'. change (slots p' = slots p ∖ {[i]}) in Hu. change (free_count p' = free_count p + 1) in Hfc.
  assert (Eidx : u32 (u64 (q - (s + SLAB_HEADER)) / c_size c) = i).
  { rewrite Hcz. replace (q - (s + SLAB_HEADER)) with (i * z) by (unfold q; lia). unfold PAGE_SIZE in P1. rewrite u64_small by lia. rewrite Z.div_mul by lia. apply u32_small. pose proof (co_count _ Hok). lia. }
  apply elem_of_page_used in Hi as Hi'. destruct Hi' as [Hbit _]. cbn [as_page sp_bitmap] in Hbit.
  unfold kfree. rewrite (proj2 (Z.eqb_neq q 0)) by lia. cbv zeta. rewrite Hbase, Hp, Hc, Eidx, Hbit. cbn [negb]. fold p'.
  destruct (settle (h_links h) c s p') as [m' c'] eqn:Es.
  destruct (settle_spec h (s_cache p) c s p p' m' c' HW Hc Hp eq_refl Hfc eq_refl Hfr ltac:(lia) Es) as [Hsz HL']. split.
  - eapply slab_changed; [done|exact Hc|exact Hp|done|done| |exact HL']. by rewrite Hcz.
  - intros q' k. cbn [with_class h_slabs h_bigs]. rewrite block_slab, (block_slab_old (h_slabs h) _ s p) by done. change (s_cache p') with (s_cache p). rewrite Hu. split.
    + intros [(z' & j & Hzj & [Hj Hne]%elem_of_difference & -> & ->)|Ho].
      * split; [left; by exists z', j|]. assert (z' = z) as -> by congruence. rewrite elem_of_singleton in Hne. unfold q, SLAB_HEADER. intros E. apply Hne. nia.
      * split; [by right|]. intros ->. by apply (block_elsewhere h s p q k).
    + intros [[(z' & j & Hzj & Hj & -> & ->)|Ho] Hne]; [left|by right]. exists z', j. split; [done|]. split; [|done]. apply elem_of_difference. split; [done|].
      intros ->%elem_of_singleton. apply Hne. unfold q. congruence.
  - done.
  - done.
Qed.

Lemma kfree_big h b n : heap_wf h -> h_bigs h !! b = Some n -> freed h (b + BIG_HEADER) (kfree h (b + BIG_HEADER)).
Proof.
  intros HW Hb. pose proof HW as [HL HS]. destruct (big_place h b n HS Hb) as (Hn & _ & P). destruct (block_page_base h (b + BIG_HEADER) (n * PAGE_SIZE - BIG_HEADER) HS) as [Hq Hbase]; [by apply block_big|].
  rewrite P in Hbase. unfold kfree. rewrite (proj2 (Z.eqb_neq _ 0)) by lia. cbv zeta. rewrite Hbase. assert (Hs : h_slabs h !! b = None).
  { destruct (h_slabs h !! b) eqn:E; [|done]. rewrite (hs_kinds _ HS b) in Hb; [done|by rewrite E]. }
  rewrite Hs, Hb. destruct (heap_unlink (h_links h) (big_alloc_head h) b) as [m1 z1] eqn:E. set (mem := rs_free _ _ _). clearbody mem.
  assert (Hsp : forall a k, span_in (h_slabs h) (delete b (h_bigs h)) a k -> span h a k) by (intros a k [?|[_ ?]%lookup_delete_Some]; [by left|by right]).
  split; [split| | |]; cbn [with_big h_links h_slabs h_bigs h_bytes current_heap_vaddr]; try done.
  - rewrite tags_big_delete by done. eapply slab_lists_ext; [|eapply (heap_lists_unlink _ (heap_head h) _ big_list); [exact HL|by rewrite tags_lookup, Hs, Hb|]].
    + intros a. unfold heap_head. cbn [big_alloc_head caches with_big]. destruct (decide (a = big_list)) as [->|Ha]; [by rewrite fn_lookup_insert|]. rewrite fn_lookup_insert_ne by done. by rewrite decide_False.
    + unfold heap_head. rewrite decide_True by done. exact E.
  - destruct HS as [H1 H2 H3 H4 H5 H6]. split; cbn [with_big caches h_slabs h_bigs current_heap_vaddr]; try done.
    + intros s Hsl. rewrite lookup_delete. case_decide; [done|by apply H3].
    + intros a k Ha%Hsp. by apply H4.
    + intros a k a' k' Ha%Hsp Ha'%Hsp. by apply (H5 a k a' k').
  - intros q k. split.
    + intros [s p i z Hp Hz Hi|b' n' Hb'].
      * split; [by eapply block_slot|]. intros Eq. apply elem_of_page_used in Hi as [_ Hi]. destruct (slot_place h s p i z HS Hp Hz Hi) as (_ & _ & _ & _ & Pq). rewrite Eq, P in Pq. congruence.
      * apply lookup_delete_Some in Hb' as [Hne Hb']. split; [by apply block_big|]. lia.
    + intros [[s p i z Hp Hz Hi|b' n' Hb'] Hne]; [by eapply block_slot|]. apply block_big. rewrite lookup_delete_ne; [done|]. congruence.
Qed.

Lemma heap_kfree_spec h ptr k : heap_wf h -> block h ptr k -> freed h ptr (kfree h ptr).
Proof. intros HW [s p i z Hp Hz Hi|b n Hb]; [by eapply kfree_slot|by eapply kfree_big]. Qed.

(** [krealloc] reads back the size of a block. *)
Lemma old_size_spec h ptr k : heap_state h -> block h ptr k -> old_size h ptr = Some k.
Proof.
  intros HS Hb. destruct (block_page_base h ptr k HS Hb) as [Hq Hbase]. unfold old_size. cbv zeta. rewrite Hbase. destruct Hb as [s p i z Hp Hz Hi|b n Hb].
  - apply elem_of_page_used in Hi as [_ Hi]. destruct (slot_place h s p i z HS Hp Hz Hi) as (_ & _ & _ & _ & ->). rewrite Hp. destruct (class_exists h _ z HS Hz) as (c & -> & <-). done.
  - destruct (big_place h b n HS Hb) as (Hn & _ & ->). destruct (h_slabs h !! b) eqn:E; [rewrite (hs_kinds _ HS b) in Hb; [done|by rewrite E]|]. rewrite Hb. f_equal. apply u64_small.
    destruct (hs_span _ HS b n ltac:(by right)) as (_ & ? & _ & ?), (hs_cursor _ HS) as [? _]. unfold BIG_HEADER, PAGE_SIZE, KERNEL_HEAP_BASE in *. lia.
Qed.
End HeapFree.
