(* ===== verification/HeapThms.v ===== *)
(** * The properties of the kernel heap *)

From S2P Require Import Prelude Bitmap DList Slab SlabList SlabSpec SlabOps CString CStringThms Paging Heap HeapSpec HeapOps HeapBlocks.

Section HeapThms.
Context {M : Type} `{!PageSource M, !RunSource M}.
Implicit Types h : heap M.

(** ** Blocks and their contents *)

Lemma heap_wf_bytes h b : heap_wf h -> heap_wf (with_bytes h b).
Proof. intros [HL [H1 H2 H3 H4 H5 H6]]. by split. Qed.

Lemma block_below h q k : heap_state h -> block h q k -> KERNEL_HEAP_BASE < q /\ q + k <= current_heap_vaddr h /\ 32 <= k /\ q mod 32 = 0.
Proof.
  intros HS Hb. destruct (block_span h q k HS Hb) as (n & Hsp & H1 & H2 & H3 & H4). destruct (hs_span _ HS _ _ Hsp) as (_ & H5 & _ & H6). cbv zeta in *. split; [lia|]. split; [lia|done].
Qed.

(** The bytes of the block at [q] are the same in both heaps. *)
Definition same_contents h h' (q k : Z) : Prop := forall x, q <= x < q + k -> byte_at (h_bytes h') x = byte_at (h_bytes h) x.

Lemma allocated_contents h size ptr h' q k : heap_state h -> allocated h size ptr h' -> block h q k -> same_contents h h' q k.
Proof. intros HS [_ _ _ _ [Hby _] _] Hb x Hx. apply Hby. pose proof (block_below h q k HS Hb). lia. Qed.

(** The new block and the old ones. *)
Lemma allocated_apart h size ptr h' cap : allocated h size ptr h' -> (forall q k, block h' q k <-> block h q k \/ q = ptr /\ k = cap) ->
  forall q k, block h q k -> q + k <= ptr \/ ptr + cap <= q.
Proof.
  intros [[_ HS] _ Hn _ _ _] Hb q k Hq. destruct (block_apart h' q k ptr cap HS) as [[-> _]|?]; [apply Hb; by left|apply Hb; by right|by apply Hn in Hq|done].
Qed.

(** ** Larger and smaller blocks *)

(** The contents of [ptr] are now at [r], in a block of at least [n] bytes. *)
Record moved h (ptr old n r : Z) h' : Prop := {
  mv_wf : heap_wf h';
  mv_blocks : exists cap, n <= cap /\ forall q k, block h' q k <-> (block h q k /\ q <> ptr) \/ q = r /\ k = cap;
  mv_copied : forall i, 0 <= i < old -> byte_at (h_bytes h') (r + i) = byte_at (h_bytes h) (ptr + i);
  mv_others : forall q k, block h q k -> q <> ptr -> same_contents h h' q k;
  mv_ok : bytes_ok (h_bytes h');
}.

Lemma krealloc_moves h ptr old n r h1 : heap_wf h -> bytes_ok (h_bytes h) -> block h ptr old -> old < n -> allocated h n r h1 ->
  moved h ptr old n r (kfree (with_bytes h1 (memcpy (h_bytes h1) r ptr (Z.to_nat old))) ptr).
Proof.
  intros [HL HS] Hok Hb Hn Hal. destruct (al_block _ _ _ _ Hal) as (cap & Hcap & _ & Hbl). pose proof (allocated_apart h n r h1 cap Hal Hbl) as Hap.
  destruct (block_below h ptr old HS Hb) as (_ & Hlow & Hold & _). pose proof Hal as [HW1 _ Hnew _ [Hby Hok1] _].
  assert (Hd : disjoint_blocks r ptr (Z.of_nat (Z.to_nat old))) by (destruct (Hap ptr old Hb); [right|left]; lia).
  pose proof (memcpy_spec (h_bytes h1) r ptr _ (Hok1 Hok) Hd) as Hc. rewrite Z2Nat.id in Hc by lia.
  set (h2 := with_bytes h1 _). assert (HW2 : heap_wf h2) by (by apply heap_wf_bytes).
  destruct (heap_kfree_spec h2 ptr old HW2) as [HW3 Hb3 Hby3 _]; [apply Hbl; by left|].
  assert (Hin : forall x, byte_at (h_bytes (kfree h2 ptr)) x = if (r <=? x) && (x <? r + old) then byte_at (h_bytes h1) (ptr + (x - r)) else byte_at (h_bytes h1) x) by (intros x; rewrite Hby3; apply Hc).
  assert (Hr : r <> ptr) by (intros ->; by apply (Hnew old)). split.
  - exact HW3.
  - exists cap. split; [done|]. intros q k. rewrite Hb3. change (block h2 q k) with (block h1 q k). rewrite Hbl. clear - Hr. intuition congruence.
  - intros i Hi. rewrite Hin. rewrite (proj2 (Z.leb_le r _)), (proj2 (Z.ltb_lt _ (r + old))) by lia. cbn [andb]. rewrite Hby by lia. f_equal. lia.
  - intros q k Hq Hne x Hx. pose proof (block_below h q k HS Hq) as (_ & ? & _). rewrite Hin. destruct ((r <=? x) && (x <? r + old)) eqn:E; [|apply Hby; lia]. b2p.
    destruct (Hap q k Hq); lia.
  - rewrite Hby3. cbn [h2 with_bytes h_bytes]. eapply copied_bytes_ok; [exact (Hok1 Hok)|exact Hc].
Qed.

Lemma krealloc_spec h ptr old n : heap_wf h -> bytes_ok (h_bytes h) -> block h ptr old -> 0 <= n < 2 ^ 63 -> room h n ->
  exists r h', krealloc h ptr n = (r, h') /\
    (n = 0 /\ r = 0 /\ freed h ptr h' \/ 0 < n <= old /\ r = ptr /\ h' = h \/
     old < n /\ (r = 0 /\ heap_wf h' /\ kept h h' \/ moved h ptr old n r h')).
Proof.
  intros HW Hok Hb Hn Hroom. pose proof HW as [_ HS]. destruct (block_below h ptr old HS Hb) as (Hp & _ & Hold & _). unfold krealloc, KERNEL_HEAP_BASE in *.
  rewrite (proj2 (Z.eqb_neq ptr 0)) by lia. destruct (Z.eqb_spec n 0) as [->|Hn0].
  { eexists _, _. split; [done|]. left. split; [done|]. split; [done|]. by eapply heap_kfree_spec. }
  rewrite (old_size_spec h ptr old HS Hb). destruct (Z.leb_spec n old).
  { eexists _, _. split; [done|]. right. left. split; [lia|done]. }
  destruct (heap_kmalloc_spec h n HW Hn Hroom) as (r & h1 & -> & [(-> & HW1 & HK & _)|[_ Hal]]).
  - eexists _, _. split; [done|]. right. right. split; [done|]. by left.
  - pose proof (al_ptr _ _ _ _ Hal) as Hr. unfold KERNEL_HEAP_BASE in Hr. rewrite (proj2 (Z.eqb_neq r 0)) by lia. cbn [negb]. eexists _, _. split; [done|]. right. right. split; [done|]. right. by apply krealloc_moves.
Qed.

(** ** Cleared blocks *)

Lemma kcalloc_spec h num size : heap_wf h -> u64 (num * size) < 2 ^ 63 -> room h (u64 (num * size)) ->
  exists ptr h1 h', kmalloc h (u64 (num * size)) = (ptr, h1) /\ kcalloc h num size = (ptr, h') /\
    (ptr = 0 /\ heap_wf h' /\ kept h h' \/
     0 < u64 (num * size) /\ allocated h (u64 (num * size)) ptr h1 /\ h' = with_bytes h1 (memset (h_bytes h1) ptr 0 (Z.to_nat (u64 (num * size))))).
Proof.
  intros HW Hs Hroom. pose proof (u64_range (num * size)) as Hu. unfold kcalloc. destruct (heap_kmalloc_spec h (u64 (num * size)) HW ltac:(lia) Hroom) as (ptr & h1 & -> & Hc).
  exists ptr, h1. destruct Hc as [(-> & HW1 & HK & _)|[Hp Hal]].
  - eexists. split; [done|]. split; [done|]. by left.
  - pose proof (al_ptr _ _ _ _ Hal) as Hr. unfold KERNEL_HEAP_BASE in Hr. rewrite (proj2 (Z.eqb_neq ptr 0)) by lia. cbn [negb]. eexists. split; [done|]. split; [done|]. by right.
Qed.

(** ** All uses of the heap *)

Inductive heap_step : heap M -> heap M -> Prop :=
  | step_kmalloc h size ptr h' : 0 <= size < 2 ^ 63 -> room h size -> kmalloc h size = (ptr, h') -> heap_step h h'
  | step_kcalloc h num size ptr h' : u64 (num * size) < 2 ^ 63 -> room h (u64 (num * size)) -> kcalloc h num size = (ptr, h') -> heap_step h h'
  | step_krealloc h ptr old n r h' : block h ptr old -> 0 <= n < 2 ^ 63 -> room h n -> krealloc h ptr n = (r, h') -> heap_step h h'
  | step_kfree h ptr old : block h ptr old -> heap_step h (kfree h ptr)
  | step_write h ptr old x v : block h ptr old -> ptr <= x < ptr + old -> is_byte v -> heap_step h (with_bytes h (store8 (h_bytes h) x v)).

Definition heap_good h : Prop := heap_wf h /\ bytes_ok (h_bytes h).

Lemma heap_step_good h h' : heap_good h -> heap_step h h' -> heap_good h'.
Proof.
  intros [HW Hok] Hs. destruct Hs as [h size ptr h' Hs Hr E|h num size ptr h' Hs Hr E|h ptr old n r h' Hb Hn Hr E|h ptr old Hb|h ptr old x v Hb Hx Hv].
  - destruct (heap_kmalloc_spec h size HW Hs Hr) as (? & ? & E' & Hc). rewrite E in E'. injection E' as <- <-. destruct Hc as [(_ & ? & [_ [_ K] _] & _)|[_ [? _ _ _ [_ K] _]]]; split; auto.
  - destruct (kcalloc_spec h num size HW Hs Hr) as (? & h1 & ? & _ & E' & Hc). rewrite E in E'. injection E' as <- <-. destruct Hc as [(_ & ? & [_ [_ K] _])|(_ & [? _ _ _ [_ K] _] & ->)]; [split; auto|].
    split; [by apply heap_wf_bytes|]. apply memset_bytes_ok. auto.
  - destruct (krealloc_spec h ptr old n HW Hok Hb Hn Hr) as (? & ? & E' & Hc). rewrite E in E'. injection E' as <- <-.
    destruct Hc as [(_ & _ & [? _ Hy _])|[(_ & _ & ->)|(_ & [(_ & ? & [_ [_ K] _])|[]])]]; split; auto. by rewrite Hy.
  - destruct (heap_kfree_spec h ptr old HW Hb) as [? _ Hy _]. split; [done|]. by rewrite Hy.
  - split; [by apply heap_wf_bytes|]. intros y. cbn [with_bytes h_bytes]. unfold byte_at, store8. rewrite lookup_insert. case_decide; [done|apply Hok].
Qed.

Lemma empty_heap_good links bytes (mem : M) : bytes_ok bytes -> heap_good (empty_heap links bytes mem).
Proof.
  intros Hok. split; [|done]. split.
  - exists (fun _ => []). split.
    + intros a. replace (heap_head (empty_heap links bytes mem) a) with 0; [apply nlist_nil|]. unfold heap_head. destruct (decide (a = big_list)); [done|]. destruct a as [i t]. cbn [fst snd caches empty_heap].
      do 6 (destruct i as [|i]; [by destruct t|]). done.
    + intros x a. cbn [empty_heap h_slabs h_bigs]. rewrite tags_lookup, !lookup_empty. split; [by intros ?%not_elem_of_nil|done].
  - split; cbn [empty_heap caches h_slabs h_bigs current_heap_vaddr]; try done.
    + intros a n [[_ ?]|?]; done.
    + intros a n b k [[_ ?]|?]; done.
Qed.

(** C16: However the kernel uses its heap, blocks in use never overlap, are 32-byte
    aligned, and lie between the base of the heap and its current end; the lists and
    counts of slabs stay consistent. *)
Theorem heap_blocks_sound links bytes (mem : M) h : bytes_ok bytes -> rtc heap_step (empty_heap links bytes mem) h ->
  heap_wf h /\
  (forall q k, block h q k -> KERNEL_HEAP_BASE < q /\ q + k <= current_heap_vaddr h /\ q mod 32 = 0 /\ 32 <= k) /\
  (forall q k q' k', block h q k -> block h q' k' -> (q = q' /\ k = k') \/ q + k <= q' \/ q' + k' <= q).
Proof.
  intros Hok Hr. assert (Hg : heap_good h).
  { pose proof (empty_heap_good links bytes mem Hok) as Hg. induction Hr as [|h1 h2 h3 Hs _ IH]; [done|]. by apply IH, (heap_step_good h1). }
  destruct Hg as [HW _]. pose proof HW as [_ HS]. split; [done|]. split.
  - intros q k Hb. destruct (block_below h q k HS Hb) as (? & ? & ? & ?). done.
  - intros q k q' k'. by apply block_apart.
Qed.


(** [krealloc] of a block frees it for size 0, keeps it if it is large enough, and
    otherwise fails with the block and its contents intact or moves the whole
    contents into a new, large enough block; no other block is touched. *)
Theorem krealloc_correct h ptr old n : heap_wf h -> bytes_ok (h_bytes h) -> block h ptr old -> 0 <= n < 2 ^ 63 -> room h n ->
  exists r h', krealloc h ptr n = (r, h') /\ heap_wf h' /\
    (forall q k, block h q k -> q <> ptr -> block h' q k /\ same_contents h h' q k) /\
    (n = 0 /\ r = 0 /\ (forall q k, block h' q k <-> block h q k /\ q <> ptr) \/
     r = ptr /\ n <= old /\ h' = h \/
     r = 0 /\ (forall q k, block h' q k <-> block h q k) /\ same_contents h h' ptr old \/
     exists cap, n <= cap /\ (forall q k, block h' q k <-> (block h q k /\ q <> ptr) \/ q = r /\ k = cap) /\
       forall i, 0 <= i < old -> byte_at (h_bytes h') (r + i) = byte_at (h_bytes h) (ptr + i)).
Proof.
  intros HW Hok Hb Hn Hr. pose proof HW as [_ HS]. destruct (krealloc_spec h ptr old n HW Hok Hb Hn Hr) as (r & h' & E & Hc). exists r, h'. split; [done|].
  destruct Hc as [(-> & -> & [HW' Hf Hy _])|[(Hle & -> & ->)|(Hlt & [(-> & HW' & [K1 [K2 _] _])|[HW' (cap & Hcap & Hbl) Hcp Ho _]])]].
  - split; [done|]. split; [|by left]. intros q k Hq Hne. split; [by apply Hf|]. intros x _. by rewrite Hy.
  - split; [done|]. split; [done|]. right. left. split; [done|]. split; [lia|done].
  - assert (Hs : forall q k, block h q k -> same_contents h h' q k) by (intros q k Hq x Hx; apply K2; pose proof (block_below h q k HS Hq); lia).
    split; [done|]. split; [intros q k Hq _; split; [by apply K1|by apply Hs]|]. right. right. left. split; [done|]. split; [done|]. by apply Hs.
  - split; [done|]. split; [intros q k Hq Hne; split; [apply Hbl; by left|by apply Ho]|]. right. right. right. by exists cap.
Qed.

(** [kcalloc] does not notice that the product of its arguments exceeds 64 bits:
    the block it returns for such a request has at most 1024 bytes. *)
Theorem kcalloc_wraps h num size ptr h' : heap_wf h -> 2 ^ 64 < num * size <= 2 ^ 64 + 1024 -> room h (num * size - 2 ^ 64) ->
  kcalloc h num size = (ptr, h') -> ptr <> 0 -> exists cap, block h' ptr cap /\ cap <= 1024 /\ (forall k, block h' ptr k -> k < num * size).
Proof.
  intros HW Hs Hroom E Hp. assert (Eu : u64 (num * size) = num * size - 2 ^ 64) by (unfold u64; symmetry; apply (Z.mod_unique _ _ 1); lia).
  destruct (kcalloc_spec h num size HW) as (ptr' & h1 & h2 & _ & E' & Hc); rewrite ?Eu; [lia|done|]. rewrite E in E'. injection E' as <- <-.
  destruct Hc as [(-> & _)|(_ & [[_ HS1] (cap & _ & Hsm & Hb) Hnew _ _ _] & ->)]; [done|]. rewrite Eu in Hsm. exists cap. cbn [with_bytes h_slabs h_bigs].
  split; [apply Hb; by right|]. split; [lia|]. intros k [Hk|[_ ->]]%Hb; [by apply Hnew in Hk|lia].
Qed.

(** ** Addresses are used once *)

(** Allocating and freeing a block over and over. *)
Fixpoint churn (n : nat) (size : Z) h : heap M :=
  match n with O => h | S n => let '(ptr, h) := kmalloc h size in churn n size (kfree h ptr) end.

(** The memory manager never runs out. *)
Definition never_out : Prop := forall (m : M) v n, (rs_alloc m n).1 <> 0 /\ forall b, (rs_map m v b n).1 = true.

Lemma churn_step h size ptr h' : never_out -> heap_wf h -> 1024 < size < 2 ^ 63 -> room h size -> kmalloc h size = (ptr, h') ->
  heap_wf (kfree h' ptr) /\ (forall q k, block (kfree h' ptr) q k <-> block h q k) /\
  ptr = current_heap_vaddr h + BIG_HEADER /\ current_heap_vaddr (kfree h' ptr) = current_heap_vaddr h + pages_for size * PAGE_SIZE.
Proof.
  intros Hno HW Hs Hr E. destruct (heap_kmalloc_spec h size HW ltac:(lia) Hr) as (? & ? & E' & Hc). rewrite E in E'. injection E' as <- <-. destruct Hc as [(-> & _ & _ & Hw)|[_ Hal]].
  - exfalso. destruct Hw as [->|Hw]; [lia|]. rewrite (proj2 (Z.leb_gt size 1024)) in Hw by lia. unfold no_run in Hw. destruct (rs_alloc (h_mem h) (pages_for size)) as [b m] eqn:Ea.
    destruct (Hno (h_mem h) 0 (pages_for size)) as [Hn _]. rewrite Ea in Hn. destruct Hw as [->|Hw]; [done|]. destruct (Hno m (current_heap_vaddr h) (pages_for size)) as [_ Hm]. by rewrite Hm in Hw.
  - pose proof Hal as [HW' (cap & Hcap & _ & Hb) Hnew _ _ [_ Hbig]]. destruct (Hbig ltac:(lia)) as [-> Hcu]. destruct (heap_kfree_spec h' (current_heap_vaddr h + BIG_HEADER) cap HW') as [HWf Hf _ Hcf]; [apply Hb; by right|].
    split; [done|]. split; [|by rewrite Hcf]. intros q k. rewrite Hf, Hb. split; [by intros [[?|[-> _]] ?]|]. intros Hq. split; [by left|]. intros ->. by apply Hnew in Hq.
Qed.

(** C18: The heap never uses an address twice for large blocks.  While pages and mappings
    never run out, allocating and freeing one large block [n] times leaves the same
    blocks in use but moves the end of the heap by [n] times the block's pages; once
    that is 4 GiB, the next block lies in the region where the object caches map their
    slabs. *)
Theorem heap_reaches_slab_region n size h ptr h' : never_out -> heap_wf h -> 1024 < size < 2 ^ 63 ->
  current_heap_vaddr h + Z.of_nat (S n) * (pages_for size * PAGE_SIZE) < 2 ^ 64 ->
  kmalloc (churn n size h) size = (ptr, h') ->
  heap_wf (churn n size h) /\ (forall q k, block (churn n size h) q k <-> block h q k) /\
  ptr = current_heap_vaddr h + Z.of_nat n * (pages_for size * PAGE_SIZE) + BIG_HEADER /\
  (2 ^ 32 <= Z.of_nat n * (pages_for size * PAGE_SIZE) -> SLAB_VADDR_BASE <= ptr).
Proof.
  intros Hno. revert h. induction n as [|n IH]; intros h HW Hs Hr; pose proof (pages_for_big size ltac:(lia)) as (_ & _ & Hpg); pose proof HW as [_ HS]; destruct (hs_cursor _ HS) as [Hcu _]; cbn [churn].
  - intros E. destruct (churn_step h size ptr h' Hno HW Hs) as (_ & _ & -> & _); [unfold room; lia|done|]. unfold BIG_HEADER, PAGE_SIZE in *. split; [done|]. split; [done|]. split; lia.
  - destruct (kmalloc h size) as [q h1] eqn:E1. destruct (churn_step h size q h1 Hno HW Hs) as (HW1 & Hb1 & _ & Hc1); [unfold room, PAGE_SIZE in *; nia|done|]. intros E.
    destruct (IH (kfree h1 q) HW1 Hs) as (HW2 & Hb2 & -> & _); [rewrite Hc1; lia|done|]. rewrite Hc1. split; [done|]. split; [intros; by rewrite Hb2|].
    unfold BIG_HEADER, SLAB_VADDR_BASE, KERNEL_HEAP_BASE in *. split; lia.
Qed.
End HeapThms.

(** ** A heap over an endless supply of pages *)

Record supply := Supply { next_frame : Z }.

#[export] Instance supply_pages : PageSource supply := {|
  ps_alloc m := (4096 + Z.abs (next_frame m), Supply (next_frame m + 4096));
  ps_map m _ _ := (true, m);
  ps_free m _ := m;
  ps_phys _ v := v;
|}.

#[export] Instance supply_runs : RunSource supply := {|
  rs_alloc m n := (4096 + Z.abs (next_frame m), Supply (next_frame m + 4096 * n));
  rs_map m _ _ _ := (true, m);
  rs_free m _ _ := m;
  rs_unmap m _ := m;
|}.

Lemma supply_never_out : never_out (M := supply).
Proof. intros m v n. split; [cbn; lia|done]. Qed.

Definition new_heap : heap supply := empty_heap (Lmem ∅ ∅) ∅ (Supply 0).
Definition used_heap : heap supply := (kmalloc new_heap 2000).2.

Lemma no_bytes_ok : bytes_ok ∅.
Proof. intros a. unfold byte_at. rewrite lookup_empty. cbn. unfold is_byte. lia. Qed.

Lemma new_heap_good : heap_good new_heap.
Proof. apply empty_heap_good, no_bytes_ok. Qed.

Lemma used_heap_step : heap_step new_heap used_heap.
Proof. apply (step_kmalloc new_heap 2000 (kmalloc new_heap 2000).1); [lia|vm_compute; reflexivity|apply surjective_pairing]. Qed.

Lemma used_heap_block : block used_heap (KERNEL_HEAP_BASE + BIG_HEADER) (1 * PAGE_SIZE - BIG_HEADER).
Proof. apply block_big. vm_compute. reflexivity. Qed.

Lemma heap_blocks_sound_witness : heap_wf used_heap.
Proof. apply (heap_blocks_sound (Lmem ∅ ∅) ∅ (Supply 0) used_heap no_bytes_ok). apply rtc_once, used_heap_step. Defined.


Lemma krealloc_correct_witness : exists r h', krealloc used_heap (KERNEL_HEAP_BASE + BIG_HEADER) 9000 = (r, h') /\ heap_wf h'.
Proof.
  destruct (heap_step_good _ _ new_heap_good used_heap_step) as [HW Hok].
  destruct (krealloc_correct used_heap _ _ 9000 HW Hok used_heap_block) as (r & h' & E & HW' & _); [lia|vm_compute; reflexivity|]. exists r, h'. exact (conj E HW').
Defined.

Lemma kcalloc_wraps_witness : let '(ptr, h') := kcalloc new_heap (2 ^ 61 + 1) 8 in exists cap, block h' ptr cap /\ cap <= 1024.
Proof.
  destruct (kcalloc new_heap (2 ^ 61 + 1) 8) as [ptr h'] eqn:E.
  destruct (kcalloc_wraps new_heap (2 ^ 61 + 1) 8 ptr h' (proj1 new_heap_good)) as (cap & Hb & Hc & _); [lia|vm_compute; reflexivity|exact E| |exists cap; exact (conj Hb Hc)].
  assert (Hp : (kcalloc new_heap (2 ^ 61 + 1) 8).1 <> 0) by (vm_compute; discriminate). rewrite E in Hp. exact Hp.
Defined.

Lemma heap_reaches_slab_region_witness : SLAB_VADDR_BASE <= (kmalloc (churn 1024 4194240 new_heap) 4194240).1.
Proof.
  destruct (kmalloc (churn 1024 4194240 new_heap) 4194240) as [ptr h'] eqn:E.
  destruct (heap_reaches_slab_region 1024 4194240 new_heap ptr h' supply_never_out (proj1 new_heap_good)) as (_ & _ & _ & H); [lia|vm_compute; reflexivity|exact E|].
  apply H. vm_compute. discriminate.
Defined.
