(* ===== verification/NetBase.v ===== *)
(** * Packets as bytes, and the Internet checksum

    (kernel/src/net/byteorder.h, kernel/src/net/checksum.h)

    A packet is the list of bytes from its first byte to the end of the array that
    holds it.  A computation on packets either returns, reads outside the array
    ([Oob]), or has not returned within the recursion depth it was given ([Deep]). *)

From S2P Require Import Prelude.

Inductive res (A : Type) := Ret (a : A) | Oob | Deep.
Arguments Ret {A}.
Arguments Oob {A}.
Arguments Deep {A}.

#[export] Instance res_ret : MRet res := fun A a => Ret a.
#[export] Instance res_bind : MBind res := fun A B f m =>
  match m with Ret a => f a | Oob => Oob | Deep => Deep end.

Definition load8 (buf : list Z) (i : Z) : res Z :=
  if 0 <=? i then match buf !! Z.to_nat i with Some b => Ret b | None => Oob end else Oob.
Definition load16 (buf : list Z) (i : Z) : res Z :=
  a ← load8 buf i; b ← load8 buf (i + 1); mret (a + 256 * b).
Definition load32 (buf : list Z) (i : Z) : res Z :=
  a ← load16 buf i; b ← load16 buf (i + 2); mret (a + 65536 * b).

(** [memcpy] of [n] bytes out of a packet. *)
Definition slice (buf : list Z) (i n : Z) : res (list Z) :=
  if (0 <=? i) && (0 <=? n) && (i + n <=? zlen buf) then Ret (take (Z.to_nat n) (drop (Z.to_nat i) buf)) else Oob.

(** Storing integers, low byte first. *)
Definition bytes16 (x : Z) : list Z := [x mod 256; x / 256 mod 256].
Definition bytes32 (x : Z) : list Z := bytes16 (x mod 65536) ++ bytes16 (x / 65536 mod 65536).

Definition htons (x : Z) : Z := x mod 256 * 256 + x / 256 mod 256.
Definition ntohs (x : Z) : Z := htons x.
Definition htonl (x : Z) : Z := htons (x mod 65536) * 65536 + htons (x / 65536 mod 65536).
Definition ntohl (x : Z) : Z := htonl x.

(** ** The checksum *)

(** The sum over 16-bit words and the last byte of an odd number. *)
Fixpoint sum_words (l : list Z) (sum : Z) : Z :=
  match l with
  | [] => sum
  | [a] => u32 (sum + a)
  | a :: b :: l => sum_words l (u32 (sum + (a + 256 * b)))
  end.

(** The folding loop, given the number of rounds it may take. *)
Fixpoint fold_sum (fuel : nat) (sum : Z) : Z :=
  match fuel with
  | O => sum
  | S n => if Z.shiftr sum 16 =? 0 then sum else fold_sum n (Z.land sum 0xFFFF + Z.shiftr sum 16)
  end.

Definition checksum_of (l : list Z) : Z := u16 (Z.lnot (fold_sum 3 (sum_words l 0))).

Definition calculate_checksum (buf : list Z) (i len : Z) : res Z := l ← slice buf i len; mret (checksum_of l).

(** ** Reading and writing *)

Definition all_bytes (l : list Z) : Prop := Forall (fun b => 0 <= b < 256) l.

Lemma bind_ret {A B} (f : A -> res B) a : (Ret a ≫= f) = f a.
Proof. done. Qed.

Lemma load8_app_l l1 l2 i : 0 <= i < zlen l1 -> load8 (l1 ++ l2) i = load8 l1 i.
Proof. intros Hi. unfold load8, zlen in *. rewrite (proj2 (Z.leb_le 0 i)) by lia. by rewrite lookup_app_l by lia. Qed.

Lemma load8_app_r l1 l2 i : zlen l1 <= i -> load8 (l1 ++ l2) i = load8 l2 (i - zlen l1).
Proof.
  intros Hi. unfold load8, zlen in *. rewrite !(proj2 (Z.leb_le 0 _)) by lia. rewrite lookup_app_r by lia.
  by replace (Z.to_nat i - length l1)%nat with (Z.to_nat (i - Z.of_nat (length l1))) by lia.
Qed.

Lemma load8_hd a l : load8 (a :: l) 0 = Ret a.
Proof. done. Qed.

Lemma load8_tl a l i : 0 < i -> load8 (a :: l) i = load8 l (i - 1).
Proof. intros Hi. apply (load8_app_r [a]). unfold zlen. cbn. lia. Qed.

Lemma slice_ok buf i n : 0 <= i -> 0 <= n -> i + n <= zlen buf -> slice buf i n = Ret (take (Z.to_nat n) (drop (Z.to_nat i) buf)).
Proof. intros. unfold slice. by rewrite !(proj2 (Z.leb_le _ _)) by done. Qed.

Lemma slice_app l1 l2 l3 : slice (l1 ++ l2 ++ l3) (zlen l1) (zlen l2) = Ret l2.
Proof.
  rewrite slice_ok; unfold zlen; [|lia|lia|rewrite !length_app; lia]. rewrite !Nat2Z.id, drop_app_length, take_app_length. done.
Qed.

Lemma htons_bytes x : 0 <= x < 65536 -> bytes16 (htons x) = [x / 256; x mod 256].
Proof.
  intros Hx. unfold bytes16, htons. pose proof (Z.div_mod x 256 ltac:(lia)). pose proof (Z.mod_pos_bound x 256 ltac:(lia)).
  assert (0 <= x / 256 < 256) by (split; [apply Z.div_pos; lia|apply Z.div_lt_upper_bound; lia]). rewrite (Z.mod_small (x / 256)) by lia.
  f_equal; [|f_equal].
  - rewrite Z.add_comm, Z.mod_add by lia. apply Z.mod_small. lia.
  - rewrite Z.div_add_l by lia. rewrite (Z.div_small (x / 256)) by lia. rewrite Z.add_0_r. apply Z.mod_mod. lia.
Qed.

Lemma htons_range x : 0 <= htons x < 65536.
Proof. unfold htons. pose proof (Z.mod_pos_bound x 256 ltac:(lia)). pose proof (Z.mod_pos_bound (x / 256) 256 ltac:(lia)). lia. Qed.

Lemma htons_invol x : 0 <= x < 65536 -> htons (htons x) = x.
Proof.
  intros Hx. pose proof (htons_bytes x Hx) as H. unfold bytes16 in H. injection H as H1 H2. unfold htons at 1. rewrite H1, H2.
  pose proof (Z.div_mod x 256 ltac:(lia)). lia.
Qed.

Lemma bytes16_value x : 0 <= x < 65536 -> x mod 256 + 256 * (x / 256 mod 256) = x.
Proof.
  intros Hx. assert (0 <= x / 256 < 256) by (split; [apply Z.div_pos; lia|apply Z.div_lt_upper_bound; lia]). rewrite (Z.mod_small (x / 256)) by lia.
  pose proof (Z.div_mod x 256 ltac:(lia)). lia.
Qed.

Lemma halves a b : 0 <= b < 65536 -> (a * 65536 + b) mod 65536 = b /\ (a * 65536 + b) / 65536 = a.
Proof. intros Hb. split; [rewrite Z.add_comm, Z.mod_add by lia; by apply Z.mod_small|rewrite Z.div_add_l, Z.div_small by lia; lia]. Qed.

Lemma htonl_invol x : 0 <= x < 2 ^ 32 -> htonl (htonl x) = x.
Proof.
  intros Hx. pose proof (htons_range (x mod 65536)). pose proof (htons_range (x / 65536 mod 65536)). pose proof (Z.mod_pos_bound x 65536 ltac:(lia)).
  assert (0 <= x / 65536 < 65536) by (split; [apply Z.div_pos; lia|apply Z.div_lt_upper_bound; lia]).
  unfold htonl at 1. unfold htonl. destruct (halves (htons (x mod 65536)) (htons (x / 65536 mod 65536)) ltac:(lia)) as [-> ->].
  rewrite (Z.mod_small (htons _)) by lia. rewrite !htons_invol by (rewrite ?(Z.mod_small (x / 65536)) by lia; lia). rewrite (Z.mod_small (x / 65536)) by lia.
  pose proof (Z.div_mod x 65536 ltac:(lia)). lia.
Qed.

Lemma htonl_range x : 0 <= htonl x < 2 ^ 32.
Proof. unfold htonl. pose proof (htons_range (x mod 65536)). pose proof (htons_range (x / 65536 mod 65536)). lia. Qed.

(** A stored integer is read back. *)
Lemma load16_bytes l1 x l2 : 0 <= x < 65536 -> load16 (l1 ++ bytes16 x ++ l2) (zlen l1) = Ret x.
Proof.
  intros Hx. unfold load16. rewrite (load8_app_r l1 _ (zlen l1)), (load8_app_r l1 _ (zlen l1 + 1)) by lia. replace (zlen l1 - zlen l1) with 0 by lia. replace (zlen l1 + 1 - zlen l1) with 1 by lia.
  unfold bytes16. cbn [app]. rewrite load8_tl, !load8_hd, !bind_ret by lia. unfold mret, res_ret. f_equal. by apply bytes16_value.
Qed.

Lemma load32_bytes l1 x l2 : 0 <= x < 2 ^ 32 -> load32 (l1 ++ bytes32 x ++ l2) (zlen l1) = Ret x.
Proof.
  intros Hx. unfold load32, bytes32. rewrite <- !app_assoc. pose proof (Z.mod_pos_bound x 65536 ltac:(lia)). pose proof (Z.mod_pos_bound (x / 65536) 65536 ltac:(lia)).
  rewrite load16_bytes by lia. rewrite bind_ret. rewrite app_assoc. replace (zlen l1 + 2) with (zlen (l1 ++ bytes16 (x mod 65536))) by (unfold zlen; rewrite length_app; cbn [bytes16 length]; lia).
  rewrite load16_bytes by lia. rewrite bind_ret. unfold mret, res_ret. f_equal. rewrite (Z.mod_small (x / 65536)) by (split; [apply Z.div_pos; lia|apply Z.div_lt_upper_bound; lia]). pose proof (Z.div_mod x 65536 ltac:(lia)). lia.
Qed.
