(* ===== verification/NetSum.v ===== *)
(** * The Internet checksum is a one's complement sum *)

From S2P Require Import Prelude NetBase.

(** The sum of the 16-bit words without any wrap. *)
Fixpoint word_sum (l : list Z) : Z :=
  match l with
  | [] => 0
  | [a] => a
  | a :: b :: l => a + 256 * b + word_sum l
  end.

(** Addition with end-around carry: the representative of a sum in 1 .. 65535, or 0. *)
Definition ones_complement (s : Z) : Z := if s =? 0 then 0 else (s - 1) mod 65535 + 1.

Lemma pair_ind {A} (P : list A -> Prop) : P [] -> (forall a, P [a]) -> (forall a b l, P l -> P (a :: b :: l)) -> forall l, P l.
Proof. intros H0 H1 H2. fix IH 1. intros [|a [|b l]]; [done|done|]. apply H2, IH. Qed.

Lemma word_sum_bound l : all_bytes l -> 0 <= word_sum l <= 65535 * ((zlen l + 1) / 2).
Proof.
  induction l as [|a|a b l IH] using pair_ind; intros Hb.
  - vm_compute. split; discriminate.
  - inversion Hb as [|? ? Ha _]; subst. change (0 <= a <= 65535). lia.
  - inversion Hb as [|? ? Ha Hb1]; subst. inversion Hb1 as [|? ? Hb' Hl]; subst. specialize (IH Hl). cbn [word_sum].
    replace (zlen (a :: b :: l) + 1) with (zlen l + 1 + 1 * 2) by (unfold zlen; cbn [length]; lia). rewrite Z.div_add by lia. lia.
Qed.

Lemma sum_words_spec l : all_bytes l -> forall sum, 0 <= sum -> sum + word_sum l < 2 ^ 32 -> sum_words l sum = sum + word_sum l.
Proof.
  induction l as [|a|a b l IH] using pair_ind; intros Hb sum Hs Hlt; cbn [sum_words word_sum] in *.
  - lia.
  - inversion Hb as [|? ? Ha _]; subst. by apply u32_small; lia.
  - inversion Hb as [|? ? Ha Hb1]; subst. inversion Hb1 as [|? ? Hb' Hl]; subst. pose proof (word_sum_bound l Hl).
    rewrite u32_small by lia. rewrite IH by (done || lia). lia.
Qed.

(** One round of the folding loop keeps the sum modulo 65535. *)
Lemma ones_complement_fold s : 65536 <= s -> let s' := s mod 65536 + s / 65536 in ones_complement s' = ones_complement s /\ 0 < s' < s.
Proof.
  intros Hs s'. pose proof (Z.div_mod s 65536 ltac:(lia)) as E. pose proof (Z.mod_pos_bound s 65536 ltac:(lia)).
  assert (1 <= s / 65536) by (apply Z.div_le_lower_bound; lia). assert (Hr : 0 < s' < s) by lia. split; [|done]. unfold ones_complement.
  rewrite !(proj2 (Z.eqb_neq _ 0)) by lia. f_equal. replace (s - 1) with (s' - 1 + s / 65536 * 65535) by lia. by rewrite Z.mod_add.
Qed.

Lemma fold_step s : 0 <= s -> Z.land s 0xFFFF + Z.shiftr s 16 = s mod 65536 + s / 65536.
Proof. intros Hs. change 0xFFFF with (Z.ones 16). by rewrite Z.land_ones, Z.shiftr_div_pow2 by lia. Qed.

Lemma fold_sum_spec n s : 0 <= s -> ones_complement (fold_sum n s) = ones_complement s /\ 0 <= fold_sum n s /\
  (s < 65536 -> fold_sum n s = s).
Proof.
  revert s. induction n as [|n IH]; intros s Hs; cbn [fold_sum]; [done|]. rewrite Z.shiftr_div_pow2 by lia. change (2 ^ 16) with 65536.
  destruct (Z.eqb_spec (s / 65536) 0) as [E|E]; [done|]. assert (Hbig : 65536 <= s) by (destruct (Z.lt_ge_cases s 65536); [rewrite Z.div_small in E by lia; lia|done]).
  pose proof (fold_step s Hs) as Hst. rewrite Z.shiftr_div_pow2 in Hst by lia. change (2 ^ 16) with 65536 in Hst. rewrite Hst.
  destruct (ones_complement_fold s Hbig) as [<- Hr]. destruct (IH (s mod 65536 + s / 65536) ltac:(lia)) as (-> & ? & _). split; [done|]. split; [done|lia].
Qed.

(** Three tests of the loop condition are enough for a 32-bit sum. *)
Lemma fold_sum_done s : 0 <= s < 2 ^ 32 -> fold_sum 3 s = ones_complement s /\ Z.shiftr (fold_sum 3 s) 16 = 0.
Proof.
  intros Hs. assert (Hsmall : fold_sum 3 s < 65536).
  { assert (Hstep : forall n t, 0 <= t -> fold_sum (S n) t = if t <? 65536 then t else fold_sum n (t mod 65536 + t / 65536)).
    { intros n t Ht. cbn [fold_sum]. rewrite fold_step, Z.shiftr_div_pow2 by lia. change (2 ^ 16) with 65536. destruct (Z.ltb_spec t 65536); [by rewrite Z.div_small by lia|].
      rewrite (proj2 (Z.eqb_neq _ 0)); [done|]. assert (1 <= t / 65536) by (apply Z.div_le_lower_bound; lia). lia. }
    assert (Hdec : forall t m, 0 <= t <= m -> t mod 65536 + t / 65536 <= 65535 + m / 65536).
    { intros t m Ht. pose proof (Z.mod_pos_bound t 65536 ltac:(lia)). pose proof (Z.div_le_mono t m 65536 ltac:(lia) ltac:(lia)). lia. }
    rewrite Hstep by lia. destruct (Z.ltb_spec s 65536) as [|H1]; [done|]. pose proof (Hdec s (2 ^ 32 - 1) ltac:(lia)) as D1. change ((2 ^ 32 - 1) / 65536) with 65535 in D1.
    destruct (ones_complement_fold s H1) as [_ R1]. cbv zeta in R1. set (t := s mod 65536 + s / 65536) in *. rewrite Hstep by lia. destruct (Z.ltb_spec t 65536) as [|H2]; [done|].
    destruct (ones_complement_fold t H2) as [_ R2]. cbv zeta in R2. rewrite Hstep by lia. assert (t / 65536 = 1) as E1 by (symmetry; apply (Z.div_unique t 65536 1 (t - 65536)); lia).
    assert (t mod 65536 = t - 65536) as E2 by (pose proof (Z.div_mod t 65536 ltac:(lia)); lia). rewrite E1, E2. destruct (Z.ltb_spec (t - 65536 + 1) 65536); [done|lia]. }
  destruct (fold_sum_spec 3 s ltac:(lia)) as (E & H0 & _). split; [|rewrite Z.shiftr_div_pow2 by lia; apply Z.div_small; lia].
  rewrite <- E. unfold ones_complement. destruct (Z.eqb_spec (fold_sum 3 s) 0); [done|]. rewrite Z.mod_small by lia. lia.
Qed.

Lemma checksum_closed l : all_bytes l -> zlen l <= 65535 -> checksum_of l = 65535 - ones_complement (word_sum l) /\ 0 <= ones_complement (word_sum l) <= 65535.
Proof.
  intros Hb Hl. pose proof (word_sum_bound l Hb) as Hw. assert ((zlen l + 1) / 2 <= 32768) by (apply Z.div_le_upper_bound; lia).
  unfold checksum_of. rewrite sum_words_spec by (done || lia). rewrite Z.add_0_l. destruct (fold_sum_done (word_sum l) ltac:(lia)) as [-> _].
  assert (Hr : 0 <= ones_complement (word_sum l) <= 65535).
  { unfold ones_complement. destruct (_ =? 0); [lia|]. pose proof (Z.mod_pos_bound (word_sum l - 1) 65535 ltac:(lia)). lia. }
  split; [|done]. unfold u16. unfold Z.lnot. symmetry. apply (Z.mod_unique _ _ (-1)); lia.
Qed.

Lemma ones_complement_mod s : 0 <= s -> ones_complement s mod 65535 = s mod 65535.
Proof.
  intros Hs. unfold ones_complement. destruct (Z.eqb_spec s 0) as [->|]; [done|]. rewrite Z.add_mod_idemp_l by lia. f_equal. lia.
Qed.

(** C31: The checksum routine computes the one's complement of the one's complement sum
    (RFC 1071): its folding loop ends, the result added to the words of the packet
    makes the sum vanish modulo 65535, and two packets have the same checksum only
    if their sums agree modulo 65535. *)
Theorem checksum_is_ones_complement l l' : all_bytes l -> zlen l <= 65535 -> all_bytes l' -> zlen l' <= 65535 ->
  Z.shiftr (fold_sum 3 (sum_words l 0)) 16 = 0 /\
  checksum_of l = 65535 - ones_complement (word_sum l) /\
  (word_sum l + checksum_of l) mod 65535 = 0 /\
  (checksum_of l = checksum_of l' -> word_sum l mod 65535 = word_sum l' mod 65535).
Proof.
  intros Hb Hl Hb' Hl'. destruct (checksum_closed l Hb Hl) as [E Hr], (checksum_closed l' Hb' Hl') as [E' Hr'].
  pose proof (word_sum_bound l Hb) as Hw. pose proof (word_sum_bound l' Hb') as Hw'. assert ((zlen l + 1) / 2 <= 32768) by (apply Z.div_le_upper_bound; lia).
  pose proof (ones_complement_mod (word_sum l) ltac:(lia)) as M. pose proof (ones_complement_mod (word_sum l') ltac:(lia)) as M'. split; [|split; [done|split]].
  - rewrite sum_words_spec by (done || lia). rewrite Z.add_0_l. by apply fold_sum_done; lia.
  - rewrite E. replace (word_sum l + (65535 - ones_complement (word_sum l))) with (word_sum l - ones_complement (word_sum l) + 1 * 65535) by lia.
    rewrite Z.mod_add by lia. rewrite Zminus_mod, M, Z.sub_diag. done.
  - intros Ec. rewrite <- M, <- M'. f_equal. lia.
Qed.

Lemma checksum_is_ones_complement_witness : checksum_of [0x45; 0; 0; 0x54] = 65535 - ones_complement (word_sum [0x45; 0; 0; 0x54]).
Proof. apply (checksum_is_ones_complement [0x45; 0; 0; 0x54] []); [|unfold zlen; cbn; lia|constructor|unfold zlen; cbn; lia]. repeat constructor; lia. Defined.
