(* ===== verification/NetState.v ===== *)
(** * The state of the network stack, and its lowest layer

    (kernel/src/net/net.c, netif.h, ethernet.c, arp.c)

    All static variables of kernel/src/net are one record.  The network card and the
    time stamp counter are used through [Device].  A ring slot keeps the bytes of
    earlier packets behind the current one, as the array in the source does.  Log
    output and memory barriers are left out. *)

From S2P Require Import Prelude NetBase.

Definition ETH_HEADER_LEN : Z := 14.
Definition ETH_FRAME_MAX : Z := 1518.
Definition ETH_DATA_MAX : Z := 1500.
Definition NET_RX_QUEUE_SIZE : Z := 32.
Definition ETHERTYPE_IPV4 : Z := 0x0800.
Definition ETHERTYPE_ARP : Z := 0x0806.
Definition ARP_TABLE_SIZE : nat := 16.
Definition ARP_OP_REQUEST : Z := 1.
Definition ARP_OP_REPLY : Z := 2.
Definition ARP_HW_ETHERNET : Z := 1.
Definition ARP_PROTO_IPV4 : Z := 0x0800.
Definition ARP_PACKET_LEN : Z := 28.
Definition ETH_BROADCAST : list Z := replicate 6 0xFF.

Definition IP4 (a b c d : Z) : Z := Z.lor (Z.lor (Z.lor (Z.shiftl a 24) (Z.shiftl b 16)) (Z.shiftl c 8)) d.

(** [nic_send] of a frame, the frames that [nic_poll] hands to [net_rx_enqueue], the
    address of the card, and [rdtsc]. *)
Class Device (N : Type) := {
  nic_send : N -> list Z -> Z * N;
  nic_poll : N -> list (list Z) * N;
  nic_get_mac : N -> option (list Z);
  rdtsc : N -> Z * N;
}.

Record net_packet := NetPacket { pkt_data : list Z; pkt_length : Z }.
Record netif := Netif { mac : list Z; ip : Z; gateway : Z; netmask : Z; up : bool }.
Record arp_entry := ArpEntry { ae_ip : Z; ae_mac : list Z; ae_valid : bool }.

(** The functions the kernel binds to UDP ports. *)
Inductive udp_recv_cb := dns_recv_cb | dhcp_recv_cb.

Record udp_socket := UdpSocket { us_port : Z; us_callback : option udp_recv_cb; us_valid : bool }.
Record dns_state := DnsState { next_dns_id : Z; dns_next_port : Z; dns_resolved : bool; dns_resolved_ip : Z }.
Record dhcp_vars := DhcpVars {
  current_xid : Z; dhcp_done : bool; offered_ip : Z; server_ip : Z; offered_router : Z; offered_netmask : Z; dhcp_state : Z }.

Inductive tcp_state :=
  | TCP_STATE_CLOSED | TCP_STATE_LISTEN | TCP_STATE_SYN_SENT | TCP_STATE_SYN_RCVD
  | TCP_STATE_ESTABLISHED | TCP_STATE_FIN_WAIT1 | TCP_STATE_FIN_WAIT2.

#[export] Instance tcp_state_eq_dec : EqDecision tcp_state.
Proof. solve_decision. Defined.

Record tcp_socket := TcpSocket {
  ts_valid : bool; ts_state : tcp_state;
  local_ip : Z; local_port : Z; remote_ip : Z; remote_port : Z;
  seq_num : Z; ack_num : Z; recv_callback : bool;
  parent_sock_id : Z; accept_queue : list Z; accept_count : Z;
}.

Record net (N : Type) := Net {
  rx_ring : list net_packet; rx_head : Z; rx_tail : Z;
  g_netif : netif; arp_table : list arp_entry;
  next_id : Z; icmp_reply_count : Z;
  udp_sockets : list udp_socket; next_ephemeral : Z; dns : dns_state; dhcp : dhcp_vars;
  tcp_sockets : list tcp_socket; pseudo_random : Z; tcp_received : list (Z * list Z);
  dev : N;
}.
Arguments Net {N}.
Arguments rx_ring {N}.
Arguments rx_head {N}.
Arguments rx_tail {N}.
Arguments g_netif {N}.
Arguments arp_table {N}.
Arguments next_id {N}.
Arguments icmp_reply_count {N}.
Arguments udp_sockets {N}.
Arguments next_ephemeral {N}.
Arguments dns {N}.
Arguments dhcp {N}.
Arguments tcp_sockets {N}.
Arguments pseudo_random {N}.
Arguments tcp_received {N}.
Arguments dev {N}.

(** Replacing an element of an array by index. *)
Definition get_at {A} (l : list A) (i : Z) : option A := if 0 <=? i then l !! Z.to_nat i else None.
Definition set_at {A} (l : list A) (i : Z) (x : A) : list A := if 0 <=? i then <[Z.to_nat i := x]> l else l.

Section NetState.
Context {N : Type} `{!Device N}.
Implicit Types s : net N.

Definition with_ring s ring head tail : net N :=
  Net ring head tail (g_netif s) (arp_table s) (next_id s) (icmp_reply_count s) (udp_sockets s) (next_ephemeral s) (dns s) (dhcp s) (tcp_sockets s) (pseudo_random s) (tcp_received s) (dev s).
Definition with_netif s nif : net N :=
  Net (rx_ring s) (rx_head s) (rx_tail s) nif (arp_table s) (next_id s) (icmp_reply_count s) (udp_sockets s) (next_ephemeral s) (dns s) (dhcp s) (tcp_sockets s) (pseudo_random s) (tcp_received s) (dev s).
Definition with_arp s arp : net N :=
  Net (rx_ring s) (rx_head s) (rx_tail s) (g_netif s) arp (next_id s) (icmp_reply_count s) (udp_sockets s) (next_ephemeral s) (dns s) (dhcp s) (tcp_sockets s) (pseudo_random s) (tcp_received s) (dev s).
Definition with_ip s id count : net N :=
  Net (rx_ring s) (rx_head s) (rx_tail s) (g_netif s) (arp_table s) id count (udp_sockets s) (next_ephemeral s) (dns s) (dhcp s) (tcp_sockets s) (pseudo_random s) (tcp_received s) (dev s).
Definition with_udp s socks port : net N :=
  Net (rx_ring s) (rx_head s) (rx_tail s) (g_netif s) (arp_table s) (next_id s) (icmp_reply_count s) socks port (dns s) (dhcp s) (tcp_sockets s) (pseudo_random s) (tcp_received s) (dev s).
Definition with_apps s d h : net N :=
  Net (rx_ring s) (rx_head s) (rx_tail s) (g_netif s) (arp_table s) (next_id s) (icmp_reply_count s) (udp_sockets s) (next_ephemeral s) d h (tcp_sockets s) (pseudo_random s) (tcp_received s) (dev s).
Definition with_tcp s socks rnd recv : net N :=
  Net (rx_ring s) (rx_head s) (rx_tail s) (g_netif s) (arp_table s) (next_id s) (icmp_reply_count s) (udp_sockets s) (next_ephemeral s) (dns s) (dhcp s) socks rnd recv (dev s).
Definition with_dev s d : net N :=
  Net (rx_ring s) (rx_head s) (rx_tail s) (g_netif s) (arp_table s) (next_id s) (icmp_reply_count s) (udp_sockets s) (next_ephemeral s) (dns s) (dhcp s) (tcp_sockets s) (pseudo_random s) (tcp_received s) d.

Definition netif_configure s (ip gateway netmask : Z) : net N := with_netif s (Netif (mac (g_netif s)) ip gateway netmask true).

(** ** The ring of received packets *)

(** [memcpy] to the front of an array. *)
Definition copy_in (data old : list Z) : list Z := data ++ drop (length data) old.

Definition net_rx_enqueue s (data : list Z) : net N :=
  let len := zlen data in
  if (len =? 0) || (len >? ETH_FRAME_MAX) then s
  else
    let next_head := (rx_head s + 1) mod NET_RX_QUEUE_SIZE in
    if next_head =? rx_tail s then s
    else
      match get_at (rx_ring s) (rx_head s) with
      | None => s
      | Some slot => with_ring s (set_at (rx_ring s) (rx_head s) (NetPacket (copy_in data (pkt_data slot)) len)) next_head (rx_tail s)
      end.

(** ** Ethernet *)

(** The frame is padded to 60 bytes. *)
Definition eth_frame (src dst : list Z) (ethertype : Z) (payload : list Z) : list Z :=
  let frame := dst ++ src ++ bytes16 (htons ethertype) ++ payload in
  frame ++ replicate (60 - length frame) 0.

Definition eth_send_frame s (dst_mac : list Z) (ethertype : Z) (payload : list Z) : Z * net N :=
  let payload_len := u16 (zlen payload) in
  if payload_len >? ETH_DATA_MAX then (-1, s)
  else
    let frame := eth_frame (mac (g_netif s)) dst_mac ethertype (take (Z.to_nat payload_len) payload) in
    let '(ret, d) := nic_send (dev s) frame in (ret, with_dev s d).

(** ** ARP *)

Definition arp_matches (ip : Z) (e : arp_entry) : bool := ae_valid e && (ae_ip e =? ip).

(** The index of the first element that satisfies [f]. *)
Fixpoint index_of {A} (f : A -> bool) (l : list A) : option nat :=
  match l with
  | [] => None
  | x :: l => if f x then Some O else match index_of f l with Some i => Some (S i) | None => None end
  end.

Definition arp_cache_update (table : list arp_entry) (ip : Z) (mac : list Z) : list arp_entry :=
  match index_of (arp_matches ip) table with
  | Some i => match table !! i with Some e => <[i := ArpEntry (ae_ip e) mac (ae_valid e)]> table | None => table end
  | None =>
      match index_of (fun e => negb (ae_valid e)) table with
      | Some i => <[i := ArpEntry ip mac true]> table
      | None => <[O := ArpEntry ip mac true]> table
      end
  end.

Definition arp_lookup s (ip : Z) : option arp_entry :=
  match index_of (arp_matches ip) (arp_table s) with Some i => arp_table s !! i | None => None end.

(** The 28 bytes of an ARP packet; [sender_ip] and [target_ip] are in network order. *)
Definition arp_bytes (operation : Z) (sender_mac : list Z) (sender_ip : Z) (target_mac : list Z) (target_ip : Z) : list Z :=
  bytes16 (htons ARP_HW_ETHERNET) ++ bytes16 (htons ARP_PROTO_IPV4) ++ [6; 4] ++ bytes16 (htons operation) ++
  sender_mac ++ bytes32 sender_ip ++ target_mac ++ bytes32 target_ip.

Definition arp_send_reply s (target_mac : list Z) (target_ip_net : Z) : net N :=
  (eth_send_frame s target_mac ETHERTYPE_ARP
     (arp_bytes ARP_OP_REPLY (mac (g_netif s)) (htonl (ip (g_netif s))) target_mac target_ip_net)).2.

Definition arp_send_request s (target_ip : Z) : Z * net N :=
  if negb (up (g_netif s)) then (-1, s)
  else eth_send_frame s ETH_BROADCAST ETHERTYPE_ARP
         (arp_bytes ARP_OP_REQUEST (mac (g_netif s)) (htonl (ip (g_netif s))) (replicate 6 0) (htonl target_ip)).

Definition arp_handle_packet s (data : list Z) (len : Z) : res (net N) :=
  if len <? ARP_PACKET_LEN then mret s
  else
    hw_type ← load16 data 0; proto_type ← load16 data 2; hw_len ← load8 data 4; proto_len ← load8 data 5;
    operation ← load16 data 6; sender_mac ← slice data 8 6; sender_ip_net ← load32 data 14; target_ip_net ← load32 data 24;
    if negb (ntohs hw_type =? ARP_HW_ETHERNET) then mret s
    else if negb (ntohs proto_type =? ARP_PROTO_IPV4) then mret s
    else if negb (hw_len =? 6) || negb (proto_len =? 4) then mret s
    else
      let sender_ip := ntohl sender_ip_net in
      let s := if negb (sender_ip =? 0) then with_arp s (arp_cache_update (arp_table s) sender_ip sender_mac) else s in
      if (ntohs operation =? ARP_OP_REQUEST) && (ntohl target_ip_net =? ip (g_netif s))
      then mret (arp_send_reply s sender_mac sender_ip_net)
      else mret s.

Definition arp_init s : net N := with_arp s (replicate ARP_TABLE_SIZE (ArpEntry 0 (replicate 6 0) false)).
End NetState.
