(* ===== verification/NetApps.v ===== *)
(** * UDP and the protocols over it

    (kernel/src/net/udp.c, dns.c, dhcp.c: ports, incoming datagrams, and the packets
    that DNS and DHCP build and read)

    Pointers into a packet are offsets from its first byte. *)

From S2P Require Import Prelude NetBase NetState.

Definition MAX_UDP_SOCKETS : nat := 16.
Definition UDP_HEADER_LEN : Z := 8.
Definition DNS_PORT : Z := 53.
Definition DNS_HEADER_LEN : Z := 12.
Definition DHCP_CLIENT_PORT : Z := 68.
Definition DHCP_SERVER_PORT : Z := 67.
Definition DHCP_OP_REQUEST : Z := 1.
Definition DHCP_OP_REPLY : Z := 2.
Definition DHCP_MSG_DISCOVER : Z := 1.
Definition DHCP_MSG_OFFER : Z := 2.
Definition DHCP_MSG_REQUEST : Z := 3.
Definition DHCP_MSG_ACK : Z := 5.
Definition DHCP_MAGIC_COOKIE : Z := 0x63825363.
Definition DHCP_FIXED : Z := 240.
Definition DHCP_OPTIONS : Z := 308.

(** Storing a byte in an array. *)
Definition put8 (buf : list Z) (i v : Z) : res (list Z) :=
  if (0 <=? i) && (i <? zlen buf) then Ret (<[Z.to_nat i := v]> buf) else Oob.

(** ** DNS *)

(** [while (p < end && *p != 0) p++] *)
Fixpoint skip_labels (fuel : nat) (payload : list Z) (end_ p : Z) : res Z :=
  if p <? end_ then
    b ← load8 payload p;
    if b =? 0 then mret p else match fuel with O => Deep | S n => skip_labels n payload end_ (p + 1) end
  else mret p.

(** The loop over [n] answers: the address of the first A record, if any. *)
Fixpoint dns_answers (n : nat) (payload : list Z) (end_ p : Z) : res (option Z) :=
  match n with
  | O => mret None
  | S n =>
      if p >=? end_ then mret None
      else
        b ← load8 payload p;
        p ← (if Z.land b 0xC0 =? 0xC0 then mret (p + 2)
             else p ← skip_labels (Z.to_nat end_) payload end_ p; mret (p + 1));
        if p + 10 >? end_ then mret None
        else
          p0 ← load8 payload p; p1 ← load8 payload (p + 1); p2 ← load8 payload (p + 2); p3 ← load8 payload (p + 3);
          p8 ← load8 payload (p + 8); p9 ← load8 payload (p + 9);
          let type := Z.lor (Z.shiftl p0 8) p1 in
          let dclass := Z.lor (Z.shiftl p2 8) p3 in
          let data_len := Z.lor (Z.shiftl p8 8) p9 in
          let p := p + 10 in
          if (type =? 1) && (dclass =? 1) && (data_len =? 4) && (p + 4 <=? end_) then
            a ← load8 payload p; b ← load8 payload (p + 1); c ← load8 payload (p + 2); d ← load8 payload (p + 3);
            mret (Some (IP4 a b c d))
          else dns_answers n payload end_ (p + data_len)
  end.

Definition dns_recv (d : dns_state) (payload : list Z) (length src_port : Z) : res dns_state :=
  if negb (src_port =? DNS_PORT) then mret d
  else if length <? DNS_HEADER_LEN then mret d
  else
    flags ← load16 payload 2; ans ← load16 payload 6;
    if Z.land (ntohs flags) 0x8000 =? 0 then mret d
    else
      let ans_count := ntohs ans in
      if ans_count =? 0 then mret d
      else
        p ← skip_labels (Z.to_nat length) payload length DNS_HEADER_LEN;
        r ← dns_answers (Z.to_nat ans_count) payload length (p + 1 + 4);
        mret (match r with Some a => DnsState (next_dns_id d) (dns_next_port d) true a | None => d end).

(** The loop over the characters of the host name: the packet, and the places of
    the current length byte and of the next character. *)
Fixpoint format_loop (host : list Z) (packet : list Z) (len_byte qname count : Z) : res (list Z) :=
  match host with
  | [] => packet ← put8 packet len_byte (u8 count); put8 packet qname 0
  | c :: host =>
      if c =? 46 then packet ← put8 packet len_byte (u8 count); format_loop host packet qname (qname + 1) 0
      else packet ← put8 packet qname c; format_loop host packet len_byte (qname + 1) (count + 1)
  end.

Definition format_dns_name (packet : list Z) (qname : Z) (host : list Z) : res (list Z) :=
  format_loop host packet qname (qname + 1) 0.

(** The query for a host name: the 256-byte array and the length to send. *)
Definition dns_query (id : Z) (domain : list Z) : res (list Z * Z) :=
  let packet := bytes16 (htons id) ++ bytes16 (htons 0x0100) ++ bytes16 (htons 1) ++ replicate 250 0 in
  packet ← format_dns_name packet DNS_HEADER_LEN domain;
  let qinfo := DNS_HEADER_LEN + zlen domain + 2 in
  packet ← put8 packet qinfo 0; packet ← put8 packet (qinfo + 1) 1;
  packet ← put8 packet (qinfo + 2) 0; packet ← put8 packet (qinfo + 3) 1;
  mret (packet, u16 (qinfo + 4)).

(** ** DHCP *)

(** Message type, server, netmask and router as read so far. *)
Record dhcp_opts := DhcpOpts { msg_type : Z; server_id : Z; opt_netmask : Z; opt_router : Z }.

Fixpoint dhcp_options (fuel : nat) (payload : list Z) (i : Z) (o : dhcp_opts) : res dhcp_opts :=
  if i <? DHCP_OPTIONS then
    opt ← load8 payload (DHCP_FIXED + i);
    if opt =? 255 then mret o
    else
      match fuel with
      | O => Deep
      | S n =>
          if opt =? 0 then dhcp_options n payload (i + 1) o
          else
            opt_len ← load8 payload (DHCP_FIXED + i + 1);
            o ← (if opt =? 53 then v ← load8 payload (DHCP_FIXED + i + 2); mret (DhcpOpts v (server_id o) (opt_netmask o) (opt_router o))
                 else if opt =? 54 then v ← load32 payload (DHCP_FIXED + i + 2); mret (DhcpOpts (msg_type o) v (opt_netmask o) (opt_router o))
                 else if opt =? 1 then v ← load32 payload (DHCP_FIXED + i + 2); mret (DhcpOpts (msg_type o) (server_id o) v (opt_router o))
                 else if opt =? 3 then v ← load32 payload (DHCP_FIXED + i + 2); mret (DhcpOpts (msg_type o) (server_id o) (opt_netmask o) v)
                 else mret o);
            dhcp_options n payload (i + 2 + opt_len) o
      end
  else mret o.

Definition dhcp_recv (h : dhcp_vars) (payload : list Z) (length : Z) : res dhcp_vars :=
  if length <? DHCP_FIXED then mret h
  else
    op ← load8 payload 0; xid ← load32 payload 4; yiaddr ← load32 payload 16; magic ← load32 payload 236;
    if negb (op =? DHCP_OP_REPLY) then mret h
    else if negb (ntohl xid =? current_xid h) then mret h
    else if negb (ntohl magic =? DHCP_MAGIC_COOKIE) then mret h
    else
      o ← dhcp_options (Z.to_nat DHCP_OPTIONS) payload 0 (DhcpOpts 0 0 0 0);
      mret (if (msg_type o =? DHCP_MSG_OFFER) && (dhcp_state h =? 1) then
              DhcpVars (current_xid h) (dhcp_done h) yiaddr (server_id o) (offered_router h) (offered_netmask h) 2
            else if (msg_type o =? DHCP_MSG_ACK) && (dhcp_state h =? 3) then
              DhcpVars (current_xid h) true (offered_ip h) (server_ip h) (opt_router o) (opt_netmask o) 4
            else h).

(** The 548 bytes of a request with the given options. *)
Definition dhcp_packet (xid : Z) (mac options : list Z) : list Z :=
  [DHCP_OP_REQUEST; 1; 6; 0] ++ bytes32 (htonl xid) ++ bytes16 0 ++ bytes16 (htons 0x8000) ++ replicate 16 0 ++
  mac ++ replicate (16 - length mac) 0 ++ replicate 192 0 ++ bytes32 (htonl DHCP_MAGIC_COOKIE) ++
  options ++ replicate (308 - length options) 0.

Definition dhcp_discover (h : dhcp_vars) (mac : list Z) : list Z :=
  dhcp_packet (current_xid h) mac [53; 1; DHCP_MSG_DISCOVER; 255].

Definition dhcp_request (h : dhcp_vars) (mac : list Z) : list Z :=
  dhcp_packet (current_xid h) mac
    ([53; 1; DHCP_MSG_REQUEST; 50; 4] ++ bytes32 (offered_ip h) ++ [54; 4] ++ bytes32 (server_ip h) ++ [55; 2; 1; 3; 255]).

(** ** UDP *)

Definition udp_matches (port : Z) (u : udp_socket) : bool := us_valid u && (us_port u =? port).
Definition udp_used (socks : list udp_socket) (port : Z) : bool :=
  match index_of (udp_matches port) socks with Some _ => true | None => false end.

(** The search for an unused port above 32768: the port, 0 if there is none, and
    the next one to try. *)
Fixpoint find_ephemeral (n : nat) (socks : list udp_socket) (next : Z) : Z * Z :=
  match n with
  | O => (0, next)
  | S n =>
      let p := next in
      let next := u16 (next + 1) in
      let next := if next =? 0 then 32768 else next in
      if udp_used socks p then find_ephemeral n socks next else (p, next)
  end.

Section Udp.
Context {N : Type} `{!Device N}.
Implicit Types s : net N.

Definition udp_init s : net N := with_udp s (replicate MAX_UDP_SOCKETS (UdpSocket 0 None false)) (next_ephemeral s).

Definition udp_bind s (port : Z) (callback : udp_recv_cb) : Z * net N :=
  let '(port, s) :=
    if port =? 0 then let '(p, next) := find_ephemeral 1024 (udp_sockets s) (next_ephemeral s) in (p, with_udp s (udp_sockets s) next)
    else (port, s) in
  if port =? 0 then (-1, s)
  else if udp_used (udp_sockets s) port then (-1, s)
  else
    match index_of (fun u => negb (us_valid u)) (udp_sockets s) with
    | None => (-1, s)
    | Some i => (port, with_udp s (<[i := UdpSocket port (Some callback) true]> (udp_sockets s)) (next_ephemeral s))
    end.

Definition udp_unbind s (port : Z) : net N :=
  match index_of (udp_matches port) (udp_sockets s) with
  | None => s
  | Some i =>
      match udp_sockets s !! i with
      | Some u => with_udp s (<[i := UdpSocket (us_port u) None false]> (udp_sockets s)) (next_ephemeral s)
      | None => s
      end
  end.

Definition udp_handle_packet s (data : list Z) (len : Z) : res (net N) :=
  if len <? UDP_HEADER_LEN then mret s
  else
    src ← load16 data 0; dst ← load16 data 2; l ← load16 data 4;
    let udp_len := ntohs l in
    if len <? udp_len then mret s
    else
      let payload := drop 8 data in
      let payload_len := u16 (udp_len - UDP_HEADER_LEN) in
      match index_of (udp_matches (ntohs dst)) (udp_sockets s) with
      | None => mret s
      | Some i =>
          match udp_sockets s !! i with
          | Some (UdpSocket _ (Some dns_recv_cb) _) =>
              d ← dns_recv (dns s) payload payload_len (ntohs src); mret (with_apps s d (dhcp s))
          | Some (UdpSocket _ (Some dhcp_recv_cb) _) =>
              h ← dhcp_recv (dhcp s) payload payload_len; mret (with_apps s (dns s) h)
          | _ => mret s
          end
      end.

(** The datagram that [udp_send_packet] hands to IP. *)
Definition udp_datagram (src_port dst_port : Z) (data : list Z) : list Z :=
  bytes16 (htons src_port) ++ bytes16 (htons dst_port) ++ bytes16 (htons (u16 (UDP_HEADER_LEN + zlen data))) ++ bytes16 0 ++ data.
End Udp.
