(* ===== verification/Tcp.v ===== *)
(** * TCP (kernel/src/net/tcp.c)

    Sockets are named by their index in the array.  Sending goes through IP, which can
    run the receive path before it returns; [send] is that function, and sockets are
    looked up again after every call of it.  Receive callbacks are recorded with the
    data they are given; wait queues are left out. *)

From S2P Require Import Prelude NetBase NetState.

Definition TCP_FLAG_FIN : Z := 0x01.
Definition TCP_FLAG_SYN : Z := 0x02.
Definition TCP_FLAG_RST : Z := 0x04.
Definition TCP_FLAG_PSH : Z := 0x08.
Definition TCP_FLAG_ACK : Z := 0x10.
Definition PROTO_TCP : Z := 6.
Definition TCP_HEADER_LEN : Z := 20.
Definition MAX_TCP_SOCKETS : nat := 32.
Definition TCP_MAX_BACKLOG : Z := 8.

Definition has (flags bit : Z) : bool := negb (Z.land flags bit =? 0).

(** [memset(sock, 0, sizeof(tcp_socket_t))] *)
Definition tcp_zero : tcp_socket := TcpSocket false TCP_STATE_CLOSED 0 0 0 0 0 0 false 0 (replicate 8 0) 0.

Definition with_state (k : tcp_socket) (st : tcp_state) : tcp_socket :=
  TcpSocket (ts_valid k) st (local_ip k) (local_port k) (remote_ip k) (remote_port k) (seq_num k) (ack_num k) (recv_callback k) (parent_sock_id k) (accept_queue k) (accept_count k).
Definition with_seq (k : tcp_socket) (seq ack : Z) : tcp_socket :=
  TcpSocket (ts_valid k) (ts_state k) (local_ip k) (local_port k) (remote_ip k) (remote_port k) seq ack (recv_callback k) (parent_sock_id k) (accept_queue k) (accept_count k).
Definition with_queue (k : tcp_socket) (queue : list Z) (count : Z) : tcp_socket :=
  TcpSocket (ts_valid k) (ts_state k) (local_ip k) (local_port k) (remote_ip k) (remote_port k) (seq_num k) (ack_num k) (recv_callback k) (parent_sock_id k) queue count.
Definition invalidate (k : tcp_socket) : tcp_socket :=
  TcpSocket false (ts_state k) (local_ip k) (local_port k) (remote_ip k) (remote_port k) (seq_num k) (ack_num k) (recv_callback k) (parent_sock_id k) (accept_queue k) (accept_count k).

Definition tcp_calculate_checksum (src_ip dst_ip : Z) (segment : list Z) : Z :=
  let sum := sum_words (bytes32 (htonl src_ip)) 0 in
  let sum := sum_words (bytes32 (htonl dst_ip)) sum in
  let sum := u32 (sum + htons PROTO_TCP) in
  let sum := u32 (sum + htons (zlen segment)) in
  u16 (Z.lnot (fold_sum 3 (sum_words segment sum))).

(** A segment with the given checksum. *)
Definition tcp_segment (k : tcp_socket) (flags checksum : Z) (data : list Z) : list Z :=
  bytes16 (htons (local_port k)) ++ bytes16 (htons (remote_port k)) ++ bytes32 (htonl (seq_num k)) ++
  bytes32 (if has flags TCP_FLAG_ACK then htonl (ack_num k) else 0) ++ [u8 (Z.shiftl (TCP_HEADER_LEN / 4) 4); flags] ++
  bytes16 (htons 8192) ++ bytes16 checksum ++ bytes16 0 ++ data.

(** Which socket a segment is for: one connected to its sender, and the last
    listening one seen before it. *)
Fixpoint tcp_demux (l : list tcp_socket) (i : Z) (dst_port src_ip src_port listen : Z) : option Z * Z :=
  match l with
  | [] => (None, listen)
  | k :: l =>
      if ts_valid k && (local_port k =? dst_port) then
        if (remote_ip k =? src_ip) && (remote_port k =? src_port) then (Some i, listen)
        else tcp_demux l (i + 1) dst_port src_ip src_port (if decide (ts_state k = TCP_STATE_LISTEN) then i else listen)
      else tcp_demux l (i + 1) dst_port src_ip src_port listen
  end.

(** [accept_queue] without its first element. *)
Fixpoint shift_queue (n : nat) (i : Z) (q : list Z) : list Z :=
  match n with
  | O => q
  | S n => shift_queue n (i + 1) (wr q (i - 1) (rd q i))
  end.

Section Tcp.
Context {N : Type} `{!Device N}.
Implicit Types s : net N.

Definition tcp_init s : net N := with_tcp s (replicate MAX_TCP_SOCKETS tcp_zero) (pseudo_random s) (tcp_received s).

Definition sock_at s (i : Z) : tcp_socket := default tcp_zero (get_at (tcp_sockets s) i).
Definition upd s (i : Z) (f : tcp_socket -> tcp_socket) : net N :=
  with_tcp s (set_at (tcp_sockets s) i (f (sock_at s i))) (pseudo_random s) (tcp_received s).

Definition tcp_generate_isn s : Z * net N :=
  let '(tsc, d) := rdtsc (dev s) in
  let r := pseudo_random s in
  let r := Z.lxor r (u32 (Z.shiftl r 13)) in
  let r := Z.lxor r (Z.shiftr r 17) in
  let r := Z.lxor r (u32 (Z.shiftl r 5)) in
  (u32 (Z.lxor tsc r), with_tcp (with_dev s d) (tcp_sockets s) r (tcp_received s)).

(** The first socket not in use. *)
Definition free_sock s : option Z := match index_of (fun k => negb (ts_valid k)) (tcp_sockets s) with Some i => Some (Z.of_nat i) | None => None end.

Definition tcp_listen s (port : Z) (on_recv : bool) : Z * net N :=
  match free_sock s with
  | None => (-1, s)
  | Some i => (i, upd s i (fun _ => TcpSocket true TCP_STATE_LISTEN (ip (g_netif s)) port 0 0 0 0 on_recv (-1) (replicate 8 0) 0))
  end.

Definition tcp_accept s (sock_id : Z) : Z * net N :=
  if (sock_id <? 0) || (sock_id >=? Z.of_nat MAX_TCP_SOCKETS) then (-1, s)
  else
    let k := sock_at s sock_id in
    if negb (ts_valid k) || negb (bool_decide (ts_state k = TCP_STATE_LISTEN)) then (-1, s)
    else if accept_count k >? 0 then
      (rd (accept_queue k) 0,
       upd s sock_id (fun k => with_queue k (shift_queue (Z.to_nat (accept_count k - 1)) 1 (accept_queue k)) (accept_count k - 1)))
    else (-1, s).

Definition tcp_get_remote_info s (sock_id : Z) : option (Z * Z) :=
  if (sock_id <? 0) || (sock_id >=? Z.of_nat MAX_TCP_SOCKETS) then None
  else let k := sock_at s sock_id in if negb (ts_valid k) then None else Some (remote_ip k, remote_port k).

(** The data of a segment: the packet, and where in it the data begins and how long
    it is. *)
Record seg_data := SegData { sd_packet : list Z; sd_offset : Z; sd_len : Z }.

(** The receive callback of socket [i]. *)
Definition notify s (i : Z) (data : list Z) : net N := with_tcp s (tcp_sockets s) (pseudo_random s) (tcp_received s ++ [(i, data)]).
Definition deliver s (i : Z) (d : seg_data) : res (net N) :=
  if recv_callback (sock_at s i) then data ← slice (sd_packet d) (sd_offset d) (sd_len d); mret (notify s i data) else mret s.

Section Send.
Context (send : net N -> Z -> Z -> list Z -> res (Z * net N)).

Definition tcp_send_segment s (k : tcp_socket) (flags : Z) (data : list Z) : res (net N) :=
  let packet := tcp_segment k flags 0 data in
  let checksum := tcp_calculate_checksum (local_ip k) (remote_ip k) packet in
  r ← send s (remote_ip k) PROTO_TCP (tcp_segment k flags checksum data);
  mret (r.2).

(** A connection request for the listening socket [l]. *)
Definition tcp_new_connection s (l src_ip src_port seq : Z) : res (option (net N)) :=
  match free_sock s with
  | None => mret None
  | Some i =>
      let listen := sock_at s l in
      if accept_count listen <? TCP_MAX_BACKLOG then
        let '(isn, s) := tcp_generate_isn s in
        let s := upd s i (fun _ => TcpSocket true TCP_STATE_SYN_RCVD (local_ip listen) (local_port listen) src_ip src_port isn (u32 (seq + 1))
                                     (recv_callback listen) l (replicate 8 0) 0) in
        s ← tcp_send_segment s (sock_at s i) (Z.lor TCP_FLAG_SYN TCP_FLAG_ACK) []; mret (Some s)
      else mret None
  end.

(** The segment in the state ESTABLISHED. *)
Definition tcp_established s (i flags seq ack : Z) (d : seg_data) : res (net N) :=
  let k := sock_at s i in
  let s := if has flags TCP_FLAG_ACK && (s32 (ack - seq_num k) >? 0) then upd s i (fun k => with_seq k ack (ack_num k)) else s in
  s ← (if sd_len d >? 0 then
         let k := sock_at s i in
         if seq =? ack_num k then
           s ← deliver s i d;
           let s := upd s i (fun k => with_seq k (seq_num k) (u32 (ack_num k + sd_len d))) in
           tcp_send_segment s (sock_at s i) TCP_FLAG_ACK []
         else if s32 (seq - ack_num k) <? 0 then tcp_send_segment s k TCP_FLAG_ACK []
         else mret s
       else mret s);
  if has flags TCP_FLAG_FIN then
    let s := upd s i (fun k => with_seq k (seq_num k) (u32 (ack_num k + 1))) in
    s ← tcp_send_segment s (sock_at s i) TCP_FLAG_ACK [];
    let s := upd s i (fun k => with_state k TCP_STATE_CLOSED) in
    mret (if recv_callback (sock_at s i) then notify s i [] else s)
  else mret s.

(** The other end closes while we do. *)
Definition tcp_fin s (i : Z) : res (net N) :=
  let s := upd s i (fun k => with_seq k (seq_num k) (u32 (ack_num k + 1))) in
  s ← tcp_send_segment s (sock_at s i) TCP_FLAG_ACK [];
  mret (upd s i (fun k => with_state k TCP_STATE_CLOSED)).

(** The third segment of the handshake. *)
Definition tcp_accepted s (i ack : Z) (d : seg_data) : res (net N) :=
  let s := upd s i (fun k => with_seq (with_state k TCP_STATE_ESTABLISHED) ack (ack_num k)) in
  let parent := parent_sock_id (sock_at s i) in
  let s := if (parent >=? 0) && (accept_count (sock_at s parent) <? TCP_MAX_BACKLOG)
           then upd s parent (fun p => with_queue p (wr (accept_queue p) (accept_count p) i) (accept_count p + 1)) else s in
  if sd_len d >? 0 then s ← deliver s i d; mret (upd s i (fun k => with_seq k (seq_num k) (u32 (ack_num k + sd_len d)))) else mret s.

(** The segment for the socket [i]. *)
Definition tcp_input s (i flags seq ack : Z) (d : seg_data) : res (net N) :=
  if has flags TCP_FLAG_RST then mret (upd s i (fun k => with_state k TCP_STATE_CLOSED))
  else
    match ts_state (sock_at s i) with
    | TCP_STATE_SYN_SENT =>
        if Z.land flags (Z.lor TCP_FLAG_SYN TCP_FLAG_ACK) =? Z.lor TCP_FLAG_SYN TCP_FLAG_ACK then
          let s := upd s i (fun k => with_state (with_seq k (u32 (seq_num k + 1)) (u32 (seq + 1))) TCP_STATE_ESTABLISHED) in
          tcp_send_segment s (sock_at s i) TCP_FLAG_ACK []
        else mret s
    | TCP_STATE_SYN_RCVD => if has flags TCP_FLAG_ACK then tcp_accepted s i ack d else mret s
    | TCP_STATE_ESTABLISHED => tcp_established s i flags seq ack d
    | TCP_STATE_FIN_WAIT1 =>
        let s := if has flags TCP_FLAG_ACK then upd s i (fun k => with_state (with_seq k ack (ack_num k)) TCP_STATE_FIN_WAIT2) else s in
        if has flags TCP_FLAG_FIN then tcp_fin s i else mret s
    | TCP_STATE_FIN_WAIT2 => if has flags TCP_FLAG_FIN then tcp_fin s i else mret s
    | TCP_STATE_CLOSED | TCP_STATE_LISTEN => mret s
    end.

Definition tcp_handle_packet s (payload : list Z) (length src_ip : Z) : res (net N) :=
  if length <? TCP_HEADER_LEN then mret s
  else
    sp ← load16 payload 0; dp ← load16 payload 2; sq ← load32 payload 4; ak ← load32 payload 8;
    off ← load8 payload 12; flags ← load8 payload 13;
    let src_port := ntohs sp in
    let seq := ntohl sq in
    let data_offset := u8 (Z.shiftr off 4 * 4) in
    if (data_offset <? TCP_HEADER_LEN) || (data_offset >? length) then mret s
    else
      let '(sock, listen) := tcp_demux (tcp_sockets s) 0 (ntohs dp) src_ip src_port (-1) in
      match sock with
      | Some i => tcp_input s i flags seq (ntohl ak) (SegData payload data_offset (length - data_offset))
      | None =>
          if (listen >=? 0) && has flags TCP_FLAG_SYN && negb (has flags TCP_FLAG_ACK) then
            r ← tcp_new_connection s listen src_ip src_port seq;
            mret (match r with Some s => s | None => s end)
          else mret s
      end.
End Send.
End Tcp.
