(* ===== verification/Ipv4.v ===== *)
(** * IP, ICMP and the receive loop

    (kernel/src/net/ipv4.c, icmp.c, ethernet.c, net.c, and the sending parts of udp.c,
    dns.c and dhcp.c)

    Sending a packet waits for an ARP reply by running the receive loop, which handles
    packets, which sends packets: the functions are mutually recursive without any
    bound in the source.  Here each handler takes the sending function as an argument,
    and [ipv4_send_packet] closes the recursion with a depth, returning [Deep] when it
    is used up.  A checksum field that is cleared for the check is restored before the
    packet is used, so the bytes themselves are not updated. *)

From S2P Require Import Prelude NetBase NetState NetApps Tcp.

Definition PROTO_ICMP : Z := 1.
Definition PROTO_UDP : Z := 17.
Definition IPV4_HEADER_LEN : Z := 20.
Definition ICMP_HEADER_LEN : Z := 8.
Definition ICMP_TYPE_ECHO_REPLY : Z := 0.
Definition ICMP_TYPE_ECHO_REQUEST : Z := 8.
Definition DEFAULT_DNS_SERVER : Z := IP4 10 0 2 3.

(** The bytes with a 16-bit field cleared. *)
Definition clear16 (buf : list Z) (i : nat) : list Z := <[S i := 0]> (<[i := 0]> buf).

(** The 20 bytes of an IP header with the given checksum field. *)
Definition ipv4_header (len id protocol checksum src_ip dst_ip : Z) : list Z :=
  [0x45; 0] ++ bytes16 (htons (u16 (IPV4_HEADER_LEN + len))) ++ bytes16 (htons id) ++ bytes16 0 ++ [64; protocol] ++
  bytes16 checksum ++ bytes32 (htonl src_ip) ++ bytes32 (htonl dst_ip).

Definition ipv4_packet (id protocol src_ip dst_ip : Z) (data : list Z) : list Z :=
  ipv4_header (zlen data) id protocol (checksum_of (ipv4_header (zlen data) id protocol 0 src_ip dst_ip)) src_ip dst_ip ++ data.

Definition icmp_header (type checksum : Z) (id_seq : list Z) : list Z := [type; 0] ++ bytes16 checksum ++ id_seq.
Definition icmp_packet (type : Z) (id_seq data : list Z) : list Z :=
  icmp_header type (checksum_of (icmp_header type 0 id_seq ++ data)) id_seq ++ data.

Section Ipv4.
Context {N : Type} `{!Device N}.
Implicit Types s : net N.

Section Handlers.
Context (send : net N -> Z -> Z -> list Z -> res (Z * net N)).

Definition icmp_handle_packet s (data : list Z) (len src_ip : Z) : res (net N) :=
  if len <? ICMP_HEADER_LEN then mret s
  else
    type ← load8 data 0; received_checksum ← load16 data 2; id_seq ← slice data 4 4;
    computed ← calculate_checksum (clear16 data 2) 0 len;
    if negb (computed =? received_checksum) then mret s
    else if type =? ICMP_TYPE_ECHO_REQUEST then
      payload ← slice data ICMP_HEADER_LEN (len - ICMP_HEADER_LEN);
      r ← send s src_ip PROTO_ICMP (icmp_packet ICMP_TYPE_ECHO_REPLY id_seq payload); mret (r.2)
    else if type =? ICMP_TYPE_ECHO_REPLY then mret (with_ip s (next_id s) (u64 (icmp_reply_count s + 1)))
    else mret s.

Definition ipv4_handle_packet s (data : list Z) (len : Z) : res (net N) :=
  if len <? IPV4_HEADER_LEN then mret s
  else
    version_ihl ← load8 data 0; length ← load16 data 2; protocol ← load8 data 9;
    received_checksum ← load16 data 10; src ← load32 data 12; dst ← load32 data 16;
    if negb (Z.shiftr version_ihl 4 =? 4) then mret s
    else
      let ihl := Z.land version_ihl 0x0F * 4 in
      if len <? ihl then mret s
      else
        computed ← calculate_checksum (clear16 data 10) 0 ihl;
        if negb (computed =? received_checksum) then mret s
        else
          let dst_ip := ntohl dst in
          if negb (dst_ip =? ip (g_netif s)) && negb (dst_ip =? 0xFFFFFFFF) && negb (dst_ip =? 0x7F000001) then mret s
          else
            let payload := drop (Z.to_nat ihl) data in
            let payload_len := u16 (ntohs length - ihl) in
            if protocol =? PROTO_ICMP then icmp_handle_packet s payload payload_len (ntohl src)
            else if protocol =? PROTO_UDP then udp_handle_packet s payload payload_len
            else if protocol =? PROTO_TCP then tcp_handle_packet send s payload payload_len (ntohl src)
            else mret s.

Definition eth_handle_frame s (data : list Z) (len : Z) : res (net N) :=
  if len <? ETH_HEADER_LEN then mret s
  else
    t ← load16 data 12;
    let payload := drop 14 data in
    let payload_len := len - ETH_HEADER_LEN in
    if ntohs t =? ETHERTYPE_ARP then arp_handle_packet s payload payload_len
    else if ntohs t =? ETHERTYPE_IPV4 then ipv4_handle_packet s payload payload_len
    else mret s.

(** Whether a packet was handled. *)
Definition net_poll s : res (bool * net N) :=
  let '(frames, d) := nic_poll (dev s) in
  let s := foldl net_rx_enqueue (with_dev s d) frames in
  if rx_tail s =? rx_head s then mret (false, s)
  else
    match get_at (rx_ring s) (rx_tail s) with
    | None => mret (false, s)
    | Some pkt =>
        s ← eth_handle_frame s (pkt_data pkt) (pkt_length pkt);
        mret (true, with_ring s (rx_ring s) (rx_head s) ((rx_tail s + 1) mod NET_RX_QUEUE_SIZE))
    end.

(** Polling until the address of [next_hop] is known, [n] times at most. *)
Fixpoint arp_wait (n : nat) s (next_hop : Z) : res (option arp_entry * net N) :=
  match n with
  | O => mret (None, s)
  | S n =>
      r ← net_poll s;
      match arp_lookup (r.2) next_hop with
      | Some entry => mret (Some entry, r.2)
      | None => arp_wait n (r.2) next_hop
      end
  end.

(** The address to send to; [None] when it cannot be found. *)
Definition resolve s (dst_ip : Z) : res (option (list Z) * net N) :=
  let nif := g_netif s in
  let next_hop :=
    if negb (dst_ip =? 0xFFFFFFFF) && negb (Z.land dst_ip (netmask nif) =? Z.land (ip nif) (netmask nif)) then gateway nif else dst_ip in
  if dst_ip =? 0xFFFFFFFF then mret (Some ETH_BROADCAST, s)
  else
    match arp_lookup s next_hop with
    | Some entry => mret (Some (ae_mac entry), s)
    | None =>
        r ← arp_wait 100 (arp_send_request s next_hop).2 next_hop;
        mret (option_map ae_mac (r.1), r.2)
    end.

Definition ipv4_send s (dst_ip protocol : Z) (data : list Z) : res (Z * net N) :=
  if negb (up (g_netif s)) then mret (-1, s)
  else if (dst_ip =? 0x7F000001) || (dst_ip =? ip (g_netif s)) then
    let packet := ipv4_packet (next_id s) protocol dst_ip dst_ip data in
    s ← ipv4_handle_packet (with_ip s (u16 (next_id s + 1)) (icmp_reply_count s)) packet (u16 (IPV4_HEADER_LEN + zlen data));
    mret (0, s)
  else
    r ← resolve s dst_ip;
    let s := r.2 in
    match r.1 with
    | None => mret (-1, s)
    | Some dst_mac =>
        let packet := ipv4_packet (next_id s) protocol (ip (g_netif s)) dst_ip data in
        mret (eth_send_frame (with_ip s (u16 (next_id s + 1)) (icmp_reply_count s)) dst_mac ETHERTYPE_IPV4 packet)
    end.
End Handlers.

Fixpoint ipv4_send_packet (depth : nat) s (dst_ip protocol : Z) (data : list Z) : res (Z * net N) :=
  match depth with
  | O => Deep
  | S n => ipv4_send (ipv4_send_packet n) s dst_ip protocol data
  end.

(** ** Senders *)

Definition icmp_send_echo (depth : nat) s (dst_ip id sequence : Z) (data : list Z) : res (Z * net N) :=
  ipv4_send_packet depth s dst_ip PROTO_ICMP (icmp_packet ICMP_TYPE_ECHO_REQUEST (bytes16 (htons id) ++ bytes16 (htons sequence)) data).

Definition udp_send_packet (depth : nat) s (dst_ip src_port dst_port : Z) (data : list Z) : res (Z * net N) :=
  ipv4_send_packet depth s dst_ip PROTO_UDP (udp_datagram src_port dst_port data).

(** Polling until [stop] holds, [n] times at most. *)
Fixpoint poll_until (depth n : nat) (stop : net N -> bool) s : res (net N) :=
  match n with
  | O => mret s
  | S n => r ← net_poll (ipv4_send_packet depth) s; if stop (r.2) then mret (r.2) else poll_until depth n stop (r.2)
  end.

Fixpoint dns_attempts (depth n : nat) s (local_port : Z) (packet : list Z) : res (net N) :=
  match n with
  | O => mret s
  | S n =>
      r ← udp_send_packet depth s DEFAULT_DNS_SERVER local_port DNS_PORT packet;
      if r.1 =? 0 then mret (r.2)
      else s ← poll_until depth 1000 (fun _ => false) (r.2); dns_attempts depth n s local_port packet
  end.

(** [None] is the result -1. *)
Definition dns_resolve_A_record (depth : nat) s (domain : list Z) : res (option Z * net N) :=
  let d := dns s in
  let local_port := dns_next_port d in
  let next := u16 (local_port + 1) in
  let s := with_apps s (DnsState (next_dns_id d) (if next >? 60000 then 50000 else next) false 0) (dhcp s) in
  let s := (udp_bind s local_port dns_recv_cb).2 in
  q ← dns_query (next_dns_id d) domain;
  let d := dns s in
  let s := with_apps s (DnsState (u16 (next_dns_id d + 1)) (dns_next_port d) (dns_resolved d) (dns_resolved_ip d)) (dhcp s) in
  packet ← slice (q.1) 0 (q.2);
  s ← dns_attempts depth 5 s local_port packet;
  s ← poll_until depth 6000 (fun s => dns_resolved (dns s)) s;
  mret (if dns_resolved (dns s) then Some (dns_resolved_ip (dns s)) else None, udp_unbind s local_port).

Definition with_dhcp_state s (st : Z) : net N :=
  let h := dhcp s in
  with_apps s (dns s) (DhcpVars (current_xid h) (dhcp_done h) (offered_ip h) (server_ip h) (offered_router h) (offered_netmask h) st).

Definition dhcp_send_discover (depth : nat) s : res (net N) :=
  r ← udp_send_packet depth s 0xFFFFFFFF DHCP_CLIENT_PORT DHCP_SERVER_PORT (dhcp_discover (dhcp s) (mac (g_netif s)));
  mret (with_dhcp_state (r.2) 1).

Definition dhcp_send_request (depth : nat) s : res (net N) :=
  r ← udp_send_packet depth s 0xFFFFFFFF DHCP_CLIENT_PORT DHCP_SERVER_PORT (dhcp_request (dhcp s) (mac (g_netif s)));
  mret (with_dhcp_state (r.2) 3).

Fixpoint discover_attempts (depth n : nat) s : res (net N) :=
  match n with
  | O => mret s
  | S n =>
      if dhcp_state (dhcp s) <? 2 then
        s ← dhcp_send_discover depth s; s ← poll_until depth (Z.to_nat 50000) (fun s => dhcp_state (dhcp s) >=? 2) s; discover_attempts depth n s
      else mret s
  end.

Fixpoint request_attempts (depth n : nat) s : res (net N) :=
  match n with
  | O => mret s
  | S n =>
      if dhcp_state (dhcp s) <? 4 then
        s ← dhcp_send_request depth s; s ← poll_until depth (Z.to_nat 50000) (fun s => dhcp_state (dhcp s) =? 4) s; request_attempts depth n s
      else mret s
  end.

Definition dhcp_init s : net N := (udp_bind s DHCP_CLIENT_PORT dhcp_recv_cb).2.

Definition dhcp_negotiate (depth : nat) s : res (bool * net N) :=
  let h := dhcp s in
  let s := with_apps s (dns s) (DhcpVars (u32 (current_xid h + 1)) false (offered_ip h) (server_ip h) (offered_router h) (offered_netmask h) 0) in
  s ← discover_attempts depth 3 s;
  s ← (if dhcp_state (dhcp s) =? 2 then request_attempts depth 3 s else mret s);
  let h := dhcp s in
  if dhcp_done h then
    mret (true, with_netif s (Netif (mac (g_netif s)) (ntohl (offered_ip h)) (ntohl (offered_router h)) (ntohl (offered_netmask h)) true))
  else mret (false, s).

Definition net_init (depth : nat) s : res (net N) :=
  let s := with_ring s (replicate (Z.to_nat NET_RX_QUEUE_SIZE) (NetPacket (replicate (Z.to_nat ETH_FRAME_MAX) 0) 0)) 0 0 in
  let nif := g_netif s in
  let s := match nic_get_mac (dev s) with
           | Some mac => with_netif s (Netif mac (ip nif) (gateway nif) (netmask nif) (up nif))
           | None => s
           end in
  let s := netif_configure s 0 0 0 in
  let s := dhcp_init (tcp_init (udp_init (arp_init s))) in
  r ← dhcp_negotiate depth s;
  mret (let (ok, s) := (r : bool * net N) in if ok then s else netif_configure s (IP4 10 0 2 15) (IP4 10 0 2 2) (IP4 255 255 255 0)).
End Ipv4.
