(* ===== verification/TcpApi.v ===== *)
(** * The blocking calls of TCP (kernel/src/net/tcp.c: tcp_connect, tcp_send, tcp_close)

    Each sends a segment and polls the network until an answer has changed the socket
    or the time is up.  [ticks] are the readings of the timer in the order they are
    taken, [yield] is what other threads do to the network when the caller yields, and
    running out of readings is [Deep].  Wait queue entries are left out. *)

From S2P Require Import Prelude NetBase NetState NetApps Tcp Ipv4.

Section TcpApi.
Context {N : Type} `{!Device N} (depth : nat) (yield : net N -> net N).
Implicit Types s : net N.

Definition in_state s (i : Z) (st : tcp_state) : bool := bool_decide (ts_state (sock_at s i) = st).

(** The loops of [tcp_connect] and [tcp_send], while [waiting] holds. *)
Fixpoint wait_loop (waiting : net N -> bool) (i flags : Z) (data : list Z) (ticks : list Z) s (start last count : Z) : res (net N) :=
  if waiting s then
    match ticks with
    | [] => Deep
    | now :: ticks =>
        r ← net_poll (ipv4_send_packet depth) s;
        let s := r.2 in
        let count := u32 (count + 1) in
        if u64 (now - start) >? 5000 then mret s
        else if (u64 (now - last) >? 1000) || (count >? 1000) then
          s ← tcp_send_segment (ipv4_send_packet depth) s (sock_at s i) flags data;
          wait_loop waiting i flags data ticks (yield s) start now 0
        else wait_loop waiting i flags data ticks (yield s) start last count
    end
  else mret s.

(** The result, the state and the next local port. *)
Definition tcp_connect (ticks : list Z) s (next_local_port ip port : Z) (on_recv : bool) : res (Z * net N * Z) :=
  match free_sock s, ticks with
  | None, _ => mret (-1, s, next_local_port)
  | Some _, [] => Deep
  | Some i, start :: ticks =>
      let local := next_local_port in
      let next := u16 (next_local_port + 1) in
      let next := if next >? 60000 then 45000 else next in
      let '(isn, s) := tcp_generate_isn s in
      let s := upd s i (fun _ => TcpSocket true TCP_STATE_SYN_SENT (NetState.ip (g_netif s)) local ip port isn 0 on_recv (-1) (replicate 8 0) 0) in
      s ← tcp_send_segment (ipv4_send_packet depth) s (sock_at s i) TCP_FLAG_SYN [];
      s ← wait_loop (fun s => in_state s i TCP_STATE_SYN_SENT && ts_valid (sock_at s i)) i TCP_FLAG_SYN [] ticks s start start 0;
      if in_state s i TCP_STATE_ESTABLISHED then mret (i, s, next)
      else mret (-1, upd s i invalidate, next)
  end.

Definition tcp_send (ticks : list Z) s (sock_id : Z) (data : list Z) : res (Z * net N) :=
  if (sock_id <? 0) || (sock_id >=? Z.of_nat MAX_TCP_SOCKETS) then mret (-1, s)
  else
    let k := sock_at s sock_id in
    if negb (ts_valid k) || negb (in_state s sock_id TCP_STATE_ESTABLISHED) then mret (-1, s)
    else
      match ticks with
      | [] => Deep
      | start :: ticks =>
          let end_seq := u32 (seq_num k + zlen data) in
          let flags := Z.lor TCP_FLAG_ACK TCP_FLAG_PSH in
          s ← tcp_send_segment (ipv4_send_packet depth) s k flags data;
          s ← wait_loop (fun s => negb (seq_num (sock_at s sock_id) =? end_seq) && in_state s sock_id TCP_STATE_ESTABLISHED && ts_valid (sock_at s sock_id))
                sock_id flags data ticks s start start 0;
          mret (if seq_num (sock_at s sock_id) =? end_seq then zlen data else -1, s)
      end.

Fixpoint close_loop (i : Z) (ticks : list Z) s (start last : Z) : res (net N) :=
  if negb (in_state s i TCP_STATE_CLOSED) && ts_valid (sock_at s i) then
    match ticks with
    | [] => Deep
    | now :: ticks =>
        r ← net_poll (ipv4_send_packet depth) s;
        let s := r.2 in
        if u64 (now - start) >? 3000 then mret s
        else if (in_state s i TCP_STATE_FIN_WAIT1 || in_state s i TCP_STATE_FIN_WAIT2) && (u64 (now - last) >? 1000) then
          s ← tcp_send_segment (ipv4_send_packet depth) s (sock_at s i) (Z.lor TCP_FLAG_FIN TCP_FLAG_ACK) [];
          close_loop i ticks (if in_state s i TCP_STATE_CLOSED then s else yield s) start now
        else close_loop i ticks (if in_state s i TCP_STATE_CLOSED then s else yield s) start last
    end
  else mret s.

Definition tcp_close (ticks : list Z) s (sock_id : Z) : res (net N) :=
  if (sock_id <? 0) || (sock_id >=? Z.of_nat MAX_TCP_SOCKETS) then mret s
  else
    let k := sock_at s sock_id in
    if negb (ts_valid k) then mret s
    else
      s ← (if in_state s sock_id TCP_STATE_ESTABLISHED then
             s ← tcp_send_segment (ipv4_send_packet depth) s k (Z.lor TCP_FLAG_FIN TCP_FLAG_ACK) [];
             let s := upd s sock_id (fun k => with_state k TCP_STATE_FIN_WAIT1) in
             match ticks with [] => Deep | start :: ticks => close_loop sock_id ticks s start start end
           else mret s);
      mret (upd s sock_id invalidate).
End TcpApi.
