(* ===== verification/NetLink.v ===== *)
(** * The ARP cache and the ring of received packets *)

From S2P Require Import Prelude NetBase NetState.

(** ** Searching arrays *)

Lemma index_of_Some {A} (f : A -> bool) l i : index_of f l = Some i -> exists x, l !! i = Some x /\ f x = true /\ forall j y, (j < i)%nat -> l !! j = Some y -> f y = false.
Proof.
  revert i. induction l as [|x l IH]; intros i; cbn [index_of]; [done|]. destruct (f x) eqn:E.
  - intros [= <-]. exists x. split; [done|]. split; [done|]. lia.
  - destruct (index_of f l) as [k|]; [|done]. intros [= <-]. destruct (IH k eq_refl) as (y & Hy & Hf & Hb). exists y. split; [done|]. split; [done|].
    intros [|j] z Hj Hz; [by injection Hz as <-|]. apply (Hb j); [lia|done].
Qed.

Lemma index_of_None {A} (f : A -> bool) l : index_of f l = None <-> forall x, x ∈ l -> f x = false.
Proof.
  induction l as [|x l IH]; cbn [index_of]; [split; [by intros _ x ?%not_elem_of_nil|done]|]. destruct (f x) eqn:E.
  - split; [done|]. intros H. rewrite H in E; [done|left].
  - destruct (index_of f l) as [k|].
    + split; [done|]. intros H. destruct IH as [_ IH]. discriminate IH. intros y Hy. apply H. by right.
    + split; [|done]. intros _ y [->|Hy]%elem_of_cons; [done|]. by apply IH.
Qed.

Lemma index_of_unique {A} (f : A -> bool) l i x : l !! i = Some x -> f x = true -> (forall j y, l !! j = Some y -> f y = true -> j = i) -> index_of f l = Some i.
Proof.
  intros Hi Hf Hu. destruct (index_of f l) as [j|] eqn:E.
  - apply index_of_Some in E as (y & Hj & Hy & _). by rewrite (Hu j y Hj Hy).
  - rewrite index_of_None in E. rewrite E in Hf; [done|]. by eapply list_elem_of_lookup_2.
Qed.

(** At most one element satisfies each of the predicates [f k]. *)
Definition unique_by {A} (f : Z -> A -> bool) (l : list A) : Prop :=
  forall k i j x y, l !! i = Some x -> l !! j = Some y -> f k x = true -> f k y = true -> i = j.

(** Replacing an element by one that satisfies only [f k], when no other does. *)
Lemma unique_by_insert {A} (f : Z -> A -> bool) l i x k : unique_by f l -> (forall k', f k' x = true -> k' = k) ->
  (forall j y, j <> i -> l !! j = Some y -> f k y = false) -> unique_by f (<[i := x]> l).
Proof.
  intros Hu Hx Hno k' a b y z Ha Hb Hfy Hfz. destruct (decide (a = i)) as [->|Hai], (decide (b = i)) as [->|Hbi]; [done| | |].
  - apply list_lookup_insert_Some in Ha as [(_ & <- & _)|[? _]]; [|done]. rewrite list_lookup_insert_ne in Hb by done. rewrite (Hx k' Hfy) in Hfz. by rewrite (Hno b z) in Hfz.
  - apply list_lookup_insert_Some in Hb as [(_ & <- & _)|[? _]]; [|done]. rewrite list_lookup_insert_ne in Ha by done. rewrite (Hx k' Hfz) in Hfy. by rewrite (Hno a y) in Hfy.
  - rewrite list_lookup_insert_ne in Ha, Hb by done. by apply (Hu k' a b y z).
Qed.

(** The entry found after a replacement. *)
Lemma find_insert {A} (f : A -> bool) l i x old : l !! i = Some old -> f old = false -> f x = false ->
  index_of f (<[i := x]> l) = index_of f l.
Proof.
  revert i. induction l as [|y l IH]; intros i Hi Ho Hx; [done|]. destruct i as [|i]; cbn [insert list_insert index_of].
  - injection Hi as ->. by rewrite Ho, Hx.
  - specialize (IH i Hi Ho Hx). destruct (f y); [done|]. by rewrite <- IH.
Qed.

(** ** The ARP cache *)

Definition arp_find (t : list arp_entry) (ip : Z) : option (list Z) :=
  match index_of (arp_matches ip) t with Some i => ae_mac <$> t !! i | None => None end.

Lemma arp_matches_ip ip e : arp_matches ip e = true -> ae_valid e = true /\ ae_ip e = ip.
Proof. unfold arp_matches. intros H. b2p. done. Qed.

Lemma arp_find_insert t i old x ip : t !! i = Some old -> arp_matches ip old = false -> arp_matches ip x = false -> arp_find (<[i := x]> t) ip = arp_find t ip.
Proof.
  intros Hi Ho Hx. unfold arp_find. rewrite (find_insert _ _ _ _ old) by done. destruct (index_of (arp_matches ip) t) as [j|] eqn:E; [|done].
  apply index_of_Some in E as (y & Hj & Hy & _). rewrite list_lookup_insert_ne; [done|]. intros ->. congruence.
Qed.

Lemma arp_find_here t i x ip : unique_by arp_matches t -> t !! i = Some x -> arp_matches ip x = true -> arp_find t ip = Some (ae_mac x).
Proof. intros Hu Hi Hx. unfold arp_find. rewrite (index_of_unique _ _ i x Hi Hx), Hi; [done|]. intros j y Hj Hy. by apply (Hu ip j i y x). Qed.

(** The ARP cache holds at most one entry per address.  Updating it makes the new
    address known, keeps every other one, and only when all sixteen entries are in
    use forgets one, that of the first slot. *)
Theorem arp_cache_correct t ip mac : unique_by arp_matches t -> length t = ARP_TABLE_SIZE ->
  let t' := arp_cache_update t ip mac in
  unique_by arp_matches t' /\ length t' = ARP_TABLE_SIZE /\ arp_find t' ip = Some mac /\
  forall ip', ip' <> ip -> arp_find t' ip' = arp_find t ip' \/
    (arp_find t ip = None /\ Forall (fun e => ae_valid e = true) t /\ (ae_ip <$> t !! 0%nat) = Some ip' /\ arp_find t' ip' = None).
Proof.
  intros Hu Hlen t'. assert (Hnew : forall e, ae_valid e = true -> ae_ip e = ip -> forall k, arp_matches k e = true -> k = ip) by (intros e _ He k [_ <-]%arp_matches_ip; done).
  assert (Hcore : forall i e x, t !! i = Some e -> ae_mac x = mac -> arp_matches ip x = true -> (forall j y, j <> i -> t !! j = Some y -> arp_matches ip y = false) ->
    unique_by arp_matches (<[i := x]> t) /\ length (<[i := x]> t) = ARP_TABLE_SIZE /\ arp_find (<[i := x]> t) ip = Some mac).
  { intros i e x He Hm Hx Hno. pose proof (arp_matches_ip _ _ Hx) as [Hxv Hxi]. assert (Hu' : unique_by arp_matches (<[i := x]> t)) by (eapply unique_by_insert; [done|by apply Hnew|done]).
    split; [done|]. split; [by rewrite length_insert|]. rewrite <- Hm. apply (arp_find_here _ i); [done| |done]. apply list_lookup_insert_eq. by eapply lookup_lt_Some. }
  assert (Hoth : forall k x, ae_ip x = ip -> k <> ip -> arp_matches k x = false) by (intros k x Hx Hk; unfold arp_matches; rewrite Hx, (proj2 (Z.eqb_neq ip k)) by done; apply andb_false_r).
  subst t'. unfold arp_cache_update. destruct (index_of (arp_matches ip) t) as [i|] eqn:E.
  - apply index_of_Some in E as (e & He & Hm & _). rewrite He. destruct (arp_matches_ip _ _ Hm) as [Hv Hi].
    destruct (Hcore i e (ArpEntry (ae_ip e) mac (ae_valid e)) He eq_refl) as (H1 & H2 & H3); [done| |].
    { intros j y Hj Hy. destruct (arp_matches ip y) eqn:Ey; [|done]. by destruct Hj; apply (Hu ip j i y e). }
    do 3 (split; [done|]). intros ip' Hne. left. apply (arp_find_insert _ _ e); [done|by apply Hoth|by apply Hoth].
  - pose proof E as Hnone. rewrite index_of_None in E. assert (Hno : forall j y, t !! j = Some y -> arp_matches ip y = false) by (intros j y Hy; apply E; by eapply list_elem_of_lookup_2).
    assert (Hx : arp_matches ip (ArpEntry ip mac true) = true) by (unfold arp_matches; cbn; apply Z.eqb_refl).
    destruct (index_of (fun e => negb (ae_valid e)) t) as [i|] eqn:Ef.
    + apply index_of_Some in Ef as (e & He & Hv & _). destruct (Hcore i e (ArpEntry ip mac true) He eq_refl Hx) as (H1 & H2 & H3); [intros j y _; apply Hno|].
      do 3 (split; [done|]). intros ip' Hne. left. apply (arp_find_insert _ _ e); [done| |by apply Hoth]. unfold arp_matches. apply negb_true_iff in Hv. by rewrite Hv.
    + rewrite index_of_None in Ef. destruct (t !! 0%nat) as [e|] eqn:He; [|apply lookup_ge_None in He; unfold ARP_TABLE_SIZE in Hlen; lia].
      destruct (Hcore 0%nat e (ArpEntry ip mac true) He eq_refl Hx) as (H1 & H2 & H3); [intros j y _; apply Hno|]. do 3 (split; [done|]). intros ip' Hne.
      assert (Hall : forall x, x ∈ t -> ae_valid x = true) by (intros x Hxt; specialize (Ef x Hxt); cbn in Ef; by apply negb_false_iff in Ef).
      destruct (decide (ae_ip e = ip')) as [<-|Hd].
      * right. split; [unfold arp_find; by rewrite Hnone|]. split; [by apply Forall_forall|]. split; [done|]. unfold arp_find.
        rewrite (proj2 (index_of_None _ _)); [done|]. intros x (j & Hj)%list_elem_of_lookup. destruct (arp_matches (ae_ip e) x) eqn:Em; [|done]. exfalso.
        destruct j as [|j]; [rewrite list_lookup_insert_eq in Hj by (by eapply lookup_lt_Some); injection Hj as <-; by rewrite Hoth in Em|]. rewrite list_lookup_insert_ne in Hj by done.
        assert (S j = 0%nat); [|done]. apply (Hu (ae_ip e) (S j) 0%nat x e); [done|done|done|]. unfold arp_matches. rewrite Z.eqb_refl, Hall; [done|]. by eapply list_elem_of_lookup_2.
      * left. apply (arp_find_insert _ _ e); [done| |by apply Hoth]. unfold arp_matches. rewrite (proj2 (Z.eqb_neq _ _) Hd). apply andb_false_r.
Qed.

Definition demo_arp : list arp_entry := ArpEntry 0x0A000202 [2; 2; 2; 2; 2; 2] true :: replicate 15 (ArpEntry 0 (replicate 6 0) false).

Lemma demo_arp_unique : unique_by arp_matches demo_arp.
Proof.
  intros k i j x y Hi Hj [Hx _]%arp_matches_ip [Hy _]%arp_matches_ip. unfold demo_arp in *. destruct i as [|i], j as [|j]; [done| | |].
  - apply lookup_replicate in Hj as [-> _]. done.
  - apply lookup_replicate in Hi as [-> _]. done.
  - apply lookup_replicate in Hi as [-> _]. done.
Qed.

Lemma arp_cache_correct_witness : arp_find (arp_cache_update demo_arp 0x0A000203 [3; 3; 3; 3; 3; 3]) 0x0A000203 = Some [3; 3; 3; 3; 3; 3].
Proof. apply (arp_cache_correct demo_arp 0x0A000203 [3; 3; 3; 3; 3; 3] demo_arp_unique). reflexivity. Defined.

Definition packet_of (p : net_packet) : list Z := take (Z.to_nat (pkt_length p)) (pkt_data p).

Section Ring.
Context {N : Type} `{!Device N}.
Implicit Types s : net N.

Definition slot_at s (j : Z) : option net_packet := get_at (rx_ring s) ((rx_tail s + j) mod NET_RX_QUEUE_SIZE).
Definition queued s : Z := (rx_head s - rx_tail s) mod NET_RX_QUEUE_SIZE.

(** The packets waiting, oldest first. *)
Definition queue s : list (list Z) :=
  (fun j => match slot_at s j with Some p => packet_of p | None => [] end) <$> seqZ 0 (queued s).

Record ring_ok s : Prop := {
  ro_len : zlen (rx_ring s) = NET_RX_QUEUE_SIZE;
  ro_head : 0 <= rx_head s < NET_RX_QUEUE_SIZE;
  ro_tail : 0 <= rx_tail s < NET_RX_QUEUE_SIZE;
  ro_slots : forall i p, rx_ring s !! i = Some p -> zlen (pkt_data p) = ETH_FRAME_MAX;
  ro_packets : forall j p, 0 <= j < queued s -> slot_at s j = Some p -> 0 < pkt_length p <= ETH_FRAME_MAX;
}.

Lemma queue_length s : ring_ok s -> zlen (queue s) = queued s.
Proof. intros H. unfold queue, zlen. rewrite length_fmap, length_seqZ. unfold queued, NET_RX_QUEUE_SIZE. pose proof (Z.mod_pos_bound (rx_head s - rx_tail s) 32 ltac:(lia)). lia. Qed.

Lemma mod32 a : exists q, a = 32 * q + a mod 32 /\ 0 <= a mod 32 < 32.
Proof. exists (a / 32). split; [apply Z.div_mod; lia|apply Z.mod_pos_bound; lia]. Qed.

Lemma get_at_Some {A} (l : list A) i : 0 <= i < zlen l -> exists x, get_at l i = Some x.
Proof. intros Hi. unfold get_at, zlen in *. rewrite (proj2 (Z.leb_le 0 i)) by lia. apply lookup_lt_is_Some. lia. Qed.

Lemma get_set_at {A} (l : list A) i j x : 0 <= i < zlen l -> 0 <= j -> get_at (set_at l i x) j = if i =? j then Some x else get_at l j.
Proof.
  intros Hi Hj. unfold get_at, set_at, zlen in *. rewrite !(proj2 (Z.leb_le 0 _)) by lia. destruct (Z.eqb_spec i j) as [->|].
  - apply list_lookup_insert_eq. lia.
  - apply list_lookup_insert_ne. lia.
Qed.

Lemma zlen_set_at {A} (l : list A) i x : zlen (set_at l i x) = zlen l.
Proof. unfold set_at, zlen. destruct (0 <=? i); [by rewrite length_insert|done]. Qed.

Lemma copy_in_len data old : zlen data <= zlen old -> zlen (copy_in data old) = zlen old.
Proof. intros H. unfold copy_in, zlen in *. rewrite length_app, length_drop. lia. Qed.

Lemma packet_of_copy data old : packet_of (NetPacket (copy_in data old) (zlen data)) = data.
Proof. unfold packet_of, copy_in, zlen. cbn [pkt_length pkt_data]. rewrite Nat2Z.id. apply take_app_length. Qed.

(** The ring after a packet has been stored. *)
Lemma enqueue_state s data : ring_ok s -> 0 < zlen data <= ETH_FRAME_MAX -> queued s < 31 ->
  exists slot, get_at (rx_ring s) (rx_head s) = Some slot /\
    net_rx_enqueue s data = with_ring s (set_at (rx_ring s) (rx_head s) (NetPacket (copy_in data (pkt_data slot)) (zlen data))) ((rx_head s + 1) mod 32) (rx_tail s).
Proof.
  intros [Hl Hh Ht Hs Hp] Hd Hq. unfold NET_RX_QUEUE_SIZE in *. destruct (get_at_Some (rx_ring s) (rx_head s) ltac:(lia)) as (slot & Eslot). exists slot. split; [done|].
  unfold net_rx_enqueue. rewrite (proj2 (Z.eqb_neq (zlen data) 0)) by lia. destruct (Z.gtb_spec (zlen data) ETH_FRAME_MAX); [lia|]. cbn [orb].
  unfold NET_RX_QUEUE_SIZE. rewrite (proj2 (Z.eqb_neq _ (rx_tail s))); [by rewrite Eslot|]. unfold queued, NET_RX_QUEUE_SIZE in Hq.
  destruct (mod32 (rx_head s + 1)) as (q1 & E1 & R1), (mod32 (rx_head s - rx_tail s)) as (q2 & E2 & R2). lia.
Qed.

Lemma queued_next s ring : ring_ok s -> queued s < 31 -> queued (with_ring s ring ((rx_head s + 1) mod 32) (rx_tail s)) = queued s + 1.
Proof.
  intros [_ Hh Ht _ _] Hq. unfold queued, NET_RX_QUEUE_SIZE in *. cbn [rx_head rx_tail with_ring].
  destruct (mod32 (rx_head s + 1)) as (q1 & E1 & R1), (mod32 (rx_head s - rx_tail s)) as (q2 & E2 & R2), (mod32 ((rx_head s + 1) mod 32 - rx_tail s)) as (q3 & E3 & R3). lia.
Qed.

(** Where the slots of the queue are. *)
Lemma ring_place s j : ring_ok s -> 0 <= j <= queued s -> (rx_tail s + j) mod 32 = rx_head s <-> j = queued s.
Proof.
  intros [_ Hh Ht _ _] Hj. unfold queued, NET_RX_QUEUE_SIZE in *. destruct (mod32 (rx_tail s + j)) as (q1 & E1 & R1), (mod32 (rx_head s - rx_tail s)) as (q2 & E2 & R2). lia.
Qed.

Lemma enqueue_fifo s data : ring_ok s ->
  ring_ok (net_rx_enqueue s data) /\
  queue (net_rx_enqueue s data) = queue s ++ (if (0 <? zlen data) && (zlen data <=? ETH_FRAME_MAX) && (queued s <? 31) then [data] else []).
Proof.
  intros Hok. destruct (Z.ltb_spec 0 (zlen data)) as [H0|H0], (Z.leb_spec (zlen data) ETH_FRAME_MAX) as [H1|H1], (Z.ltb_spec (queued s) 31) as [H2|H2]; cbn [andb].
  { destruct (enqueue_state s data Hok ltac:(lia) H2) as (slot & Eslot & ->). pose proof Hok as [Hl Hh Ht Hs Hp]. pose proof (ring_place s) as Hpl. pose proof (Z.mod_pos_bound (rx_head s - rx_tail s) 32 ltac:(lia)) as Hqr. unfold NET_RX_QUEUE_SIZE in *.
    set (ring := set_at _ _ _). assert (Hqn := queued_next s ring Hok H2). set (s' := with_ring s ring _ _) in *.
    assert (Hslot : forall j, 0 <= j <= queued s -> slot_at s' j = if j =? queued s then Some (NetPacket (copy_in data (pkt_data slot)) (zlen data)) else slot_at s j).
    { intros j Hj. unfold slot_at. cbn [s' rx_ring rx_tail with_ring]. unfold ring, NET_RX_QUEUE_SIZE. pose proof (Z.mod_pos_bound (rx_tail s + j) 32 ltac:(lia)). rewrite get_set_at by lia.
      destruct (Z.eqb_spec j (queued s)) as [->|Hne]; [rewrite (proj2 (Z.eqb_eq _ _)); [done|symmetry; by apply Hpl]|rewrite (proj2 (Z.eqb_neq _ _)); [done|]]. intros E. apply Hne. apply Hpl; [done|lia|done]. }
    assert (Hold : zlen (pkt_data slot) = ETH_FRAME_MAX). { unfold get_at in Eslot. destruct (0 <=? rx_head s); [|done]. by eapply Hs. }
    split.
    - split; cbn [s' rx_ring rx_head rx_tail with_ring].
      + unfold ring. by rewrite zlen_set_at.
      + apply Z.mod_pos_bound. unfold NET_RX_QUEUE_SIZE. lia.
      + done.
      + intros i p. unfold ring, set_at. destruct (0 <=? rx_head s); [|by apply Hs]. intros [(_ & <- & _)|[_ Hi]]%list_lookup_insert_Some; [|by eapply Hs]. cbn [pkt_data]. rewrite copy_in_len; [done|lia].
      + intros j p Hj. rewrite Hqn in Hj. rewrite Hslot by lia. destruct (Z.eqb_spec j (queued s)); [intros [= <-]; cbn; lia|]. apply Hp. lia.
    - unfold queue. rewrite Hqn. unfold queued, NET_RX_QUEUE_SIZE in *. rewrite seqZ_app by lia. rewrite fmap_app. f_equal.
      + apply list_fmap_ext. intros i j [-> Hj]%lookup_seqZ. rewrite Hslot by lia. rewrite (proj2 (Z.eqb_neq _ _)) by lia. done.
      + cbn [seqZ]. change (seqZ (0 + (rx_head s - rx_tail s) mod 32) 1) with [0 + (rx_head s - rx_tail s) mod 32]. cbn [fmap list_fmap]. rewrite Z.add_0_l, Hslot by lia. rewrite Z.eqb_refl. by rewrite packet_of_copy. }
  all: rewrite app_nil_r; unfold net_rx_enqueue; cbv zeta.
  all: try (rewrite (proj2 (Z.eqb_eq (zlen data) 0)) by (unfold zlen in *; lia); done).
  all: destruct ((zlen data =? 0) || (zlen data >? ETH_FRAME_MAX)) eqn:E; [done|]; b2p; try lia.
  rewrite (proj2 (Z.eqb_eq _ (rx_tail s))); [done|]. destruct Hok as [_ Hh Ht _ _]. unfold queued, NET_RX_QUEUE_SIZE in *.
  destruct (mod32 (rx_head s + 1)) as (q1 & E1 & R1), (mod32 (rx_head s - rx_tail s)) as (q2 & E2 & R2). lia.
Qed.

(** Advancing the tail. *)
Definition dequeue s : net N := with_ring s (rx_ring s) (rx_head s) ((rx_tail s + 1) mod NET_RX_QUEUE_SIZE).

Lemma dequeue_fifo s : ring_ok s -> rx_tail s <> rx_head s ->
  exists pkt, get_at (rx_ring s) (rx_tail s) = Some pkt /\ queue s = packet_of pkt :: queue (dequeue s) /\ ring_ok (dequeue s) /\
    zlen (pkt_data pkt) = ETH_FRAME_MAX /\ 0 < pkt_length pkt <= ETH_FRAME_MAX.
Proof.
  intros Hok Hne. pose proof Hok as [Hl Hh Ht Hs Hp]. unfold NET_RX_QUEUE_SIZE in *. destruct (get_at_Some (rx_ring s) (rx_tail s) ltac:(lia)) as (pkt & Epkt). exists pkt. split; [done|].
  assert (Hq : queued (dequeue s) = queued s - 1 /\ 0 < queued s).
  { unfold queued, dequeue, NET_RX_QUEUE_SIZE. cbn [rx_head rx_tail with_ring]. destruct (mod32 (rx_tail s + 1)) as (q1 & E1 & R1), (mod32 (rx_head s - rx_tail s)) as (q2 & E2 & R2), (mod32 (rx_head s - (rx_tail s + 1) mod 32)) as (q3 & E3 & R3). lia. }
  destruct Hq as [Hq Hq0].
  assert (Hslot : forall j, slot_at (dequeue s) j = slot_at s (j + 1)).
  { intros j. unfold slot_at, dequeue, NET_RX_QUEUE_SIZE. cbn [rx_ring rx_tail with_ring]. rewrite Z.add_mod_idemp_l by lia. do 2 f_equal. lia. }
  assert (H0 : slot_at s 0 = Some pkt) by (unfold slot_at, NET_RX_QUEUE_SIZE; by rewrite Z.add_0_r, Z.mod_small by lia).
  split; [|split; [|split]].
  - unfold queue. rewrite Hq. rewrite seqZ_cons by lia. cbn [fmap list_fmap]. rewrite H0. f_equal. change (Z.succ 0) with 1. rewrite <- (Z.add_0_r 1), <- fmap_add_seqZ, <- list_fmap_compose.
    replace (Z.pred (queued s)) with (queued s - 1) by lia. apply list_fmap_ext. intros i j _. cbn. rewrite Hslot. by rewrite Z.add_comm.
  - split; cbn [dequeue rx_ring rx_head rx_tail with_ring]; try done.
    + apply Z.mod_pos_bound. unfold NET_RX_QUEUE_SIZE. lia.
    + intros j p Hj. rewrite Hslot. apply Hp. rewrite Hq in Hj. lia.
  - unfold get_at in Epkt. destruct (0 <=? rx_tail s); [|done]. by eapply Hs.
  - apply (Hp 0); [lia|done].
Qed.

End Ring.
