(* ===== verification/NetIp.v ===== *)
(** * Packets from the ring to the protocols and back *)

From S2P Require Import Prelude NetBase NetState NetApps Tcp Ipv4 NetLink.

(** ** Headers *)

Lemma checksum_of_range l : 0 <= checksum_of l < 65536.
Proof. apply u16_range. Qed.

Section Headers.
Context (n id proto c src dst : Z) (rest : list Z).

Lemma hdr_first : load8 (ipv4_header n id proto c src dst ++ rest) 0 = Ret 0x45.
Proof. done. Qed.

Lemma hdr_length : load16 (ipv4_header n id proto c src dst ++ rest) 2 = Ret (htons (u16 (IPV4_HEADER_LEN + n))).
Proof. apply (load16_bytes [0x45; 0] (htons (u16 (IPV4_HEADER_LEN + n))) (_ :: _)), htons_range. Qed.

Lemma hdr_protocol : load8 (ipv4_header n id proto c src dst ++ rest) 9 = Ret proto.
Proof. done. Qed.

Lemma hdr_checksum : 0 <= c < 65536 -> load16 (ipv4_header n id proto c src dst ++ rest) 10 = Ret c.
Proof. apply (load16_bytes ([0x45; 0] ++ bytes16 (htons (u16 (IPV4_HEADER_LEN + n))) ++ bytes16 (htons id) ++ bytes16 0 ++ [64; proto]) c (_ :: _)). Qed.

Lemma hdr_src : load32 (ipv4_header n id proto c src dst ++ rest) 12 = Ret (htonl src).
Proof. apply (load32_bytes ([0x45; 0] ++ bytes16 (htons (u16 (IPV4_HEADER_LEN + n))) ++ bytes16 (htons id) ++ bytes16 0 ++ [64; proto] ++ bytes16 c) (htonl src) (_ :: _)), htonl_range. Qed.

Lemma hdr_dst : load32 (ipv4_header n id proto c src dst ++ rest) 16 = Ret (htonl dst).
Proof.
  apply (load32_bytes ([0x45; 0] ++ bytes16 (htons (u16 (IPV4_HEADER_LEN + n))) ++ bytes16 (htons id) ++ bytes16 0 ++ [64; proto] ++ bytes16 c ++ bytes32 (htonl src)) (htonl dst) rest), htonl_range.
Qed.

Lemma hdr_clear : clear16 (ipv4_header n id proto c src dst ++ rest) 10 = ipv4_header n id proto 0 src dst ++ rest.
Proof. done. Qed.

Lemma hdr_drop : drop 20 (ipv4_header n id proto c src dst ++ rest) = rest.
Proof. done. Qed.
End Headers.

Section Packets.
Context {N : Type} `{!Device N}.
Implicit Types s : net N.
Context (send : net N -> Z -> Z -> list Z -> res (Z * net N)).

(** What IP does with the [n] bytes at the front of [data]. *)
Definition ipv4_dispatch s (proto src n : Z) (data : list Z) : res (net N) :=
  if proto =? PROTO_ICMP then icmp_handle_packet send s data n src
  else if proto =? PROTO_UDP then udp_handle_packet s data n
  else if proto =? PROTO_TCP then tcp_handle_packet send s data n src
  else mret s.

(** Whether a packet for [dst] is taken. *)
Definition for_us s (dst : Z) : bool := (dst =? ip (g_netif s)) || (dst =? 0xFFFFFFFF) || (dst =? 0x7F000001).

(** A packet with a correct header checksum that claims [n] bytes of payload. *)
Lemma ipv4_handle_header s n id proto src dst data len : 0 <= n <= 65515 -> 0 <= src < 2 ^ 32 -> 0 <= dst < 2 ^ 32 -> 20 <= len ->
  ipv4_handle_packet send s (ipv4_header n id proto (checksum_of (ipv4_header n id proto 0 src dst)) src dst ++ data) len =
  if for_us s dst then ipv4_dispatch s proto src n data else mret s.
Proof.
  intros Hn Hs Hd Hl. unfold ipv4_handle_packet, IPV4_HEADER_LEN. destruct (Z.ltb_spec len 20); [lia|].
  rewrite hdr_first, hdr_length, hdr_protocol, hdr_src, hdr_dst, hdr_checksum by apply checksum_of_range. rewrite !bind_ret. change (Z.shiftr 0x45 4 =? 4) with true. change (Z.land 0x45 0x0F * 4) with 20. cbn [negb].
  destruct (Z.ltb_spec len 20); [lia|]. rewrite hdr_clear. unfold calculate_checksum.
  pose proof (slice_app [] (ipv4_header n id proto 0 src dst) data) as Hsl. change (slice (ipv4_header n id proto 0 src dst ++ data) 0 20 = Ret (ipv4_header n id proto 0 src dst)) in Hsl. rewrite Hsl, !bind_ret.
  rewrite Z.eqb_refl. cbn [negb]. unfold ntohl. rewrite !htonl_invol by done.
  assert (Ef : negb (dst =? ip (g_netif s)) && negb (dst =? 0xFFFFFFFF) && negb (dst =? 0x7F000001) = negb (for_us s dst)) by (unfold for_us; by rewrite !negb_orb). rewrite Ef. destruct (for_us s dst); [|done]. cbn [negb].
  change (Z.to_nat 20) with 20%nat. rewrite hdr_drop. assert (En : u16 (ntohs (htons (u16 (IPV4_HEADER_LEN + n))) - 20) = n).
  { unfold IPV4_HEADER_LEN, ntohs. rewrite (u16_small (20 + n)) by lia. rewrite htons_invol by lia. replace (20 + n - 20) with n by lia. apply u16_small. lia. }
  rewrite En. done.
Qed.

(** What is sent over IP arrives: a packet built for [dst] is taken by a host with
    that address, which hands exactly the payload, its protocol and the sender's
    address to the protocol, whatever follows the packet in the buffer. *)
Theorem ipv4_roundtrip s id proto src dst data rest len : zlen data <= 65515 -> 0 <= src < 2 ^ 32 -> 0 <= dst < 2 ^ 32 -> 20 <= len ->
  ipv4_handle_packet send s (ipv4_packet id proto src dst data ++ rest) len =
  if for_us s dst then ipv4_dispatch s proto src (zlen data) (data ++ rest) else mret s.
Proof. intros Hn Hs Hd Hl. unfold ipv4_packet. rewrite <- app_assoc. apply ipv4_handle_header; [unfold zlen in *; lia|done..]. Qed.

(** The length of the payload is taken from the packet, not from what arrived: an
    ICMP packet whose header claims more bytes than there are makes the checksum
    routine read beyond the end of the buffer. *)
Theorem ipv4_trusts_length s n id src data : 8 <= zlen data < n -> n <= 65515 -> 0 <= src < 2 ^ 32 ->
  ipv4_handle_packet send s (ipv4_header n id PROTO_ICMP (checksum_of (ipv4_header n id PROTO_ICMP 0 src 0x7F000001)) src 0x7F000001 ++ data) (20 + zlen data) = Oob.
Proof.
  intros Hd Hn Hs. rewrite ipv4_handle_header by lia. unfold for_us. rewrite Z.eqb_refl, orb_true_r. unfold ipv4_dispatch. rewrite Z.eqb_refl. unfold icmp_handle_packet, ICMP_HEADER_LEN.
  destruct (Z.ltb_spec n 8); [lia|]. do 8 (destruct data as [|? data]; [unfold zlen in Hd; cbn in Hd; lia|]). unfold zlen in Hd. cbn [length] in Hd.
  rewrite (slice_ok _ 4 4) by (unfold zlen; cbn [length]; lia). unfold calculate_checksum, slice. rewrite (proj2 (Z.leb_gt (0 + n) _)), andb_false_r; [done|]. unfold clear16, zlen. rewrite !length_insert. cbn [length]. lia.
Qed.

(** ** Echo requests *)

Lemma icmp_clear type c id_seq data : clear16 (icmp_header type c id_seq ++ data) 2 = icmp_header type 0 id_seq ++ data.
Proof. done. Qed.

Lemma icmp_echo s id_seq data rest src : length id_seq = 4%nat ->
  icmp_handle_packet send s (icmp_packet ICMP_TYPE_ECHO_REQUEST id_seq data ++ rest) (8 + zlen data) src =
  (r ← send s src PROTO_ICMP (icmp_packet ICMP_TYPE_ECHO_REPLY id_seq data); mret (r.2)).
Proof.
  intros Hid. assert (Hz : 0 <= zlen data) by (unfold zlen; lia). unfold icmp_handle_packet, ICMP_HEADER_LEN. destruct (Z.ltb_spec (8 + zlen data) 8); [lia|].
  do 4 (destruct id_seq as [|? id_seq]; [done|]). destruct id_seq; [|done]. unfold icmp_packet. set (c := checksum_of _). pose proof (checksum_of_range (icmp_header ICMP_TYPE_ECHO_REQUEST 0 [z; z0; z1; z2] ++ data)) as Hc. fold c in Hc.
  rewrite <- app_assoc. change (load8 (icmp_header ICMP_TYPE_ECHO_REQUEST c [z; z0; z1; z2] ++ data ++ rest) 0) with (Ret ICMP_TYPE_ECHO_REQUEST). rewrite bind_ret.
  assert (E2 : load16 (icmp_header ICMP_TYPE_ECHO_REQUEST c [z; z0; z1; z2] ++ data ++ rest) 2 = Ret c) by (apply (load16_bytes [ICMP_TYPE_ECHO_REQUEST; 0] c (_ :: _)); lia). rewrite E2, bind_ret.
  assert (E3 : slice (icmp_header ICMP_TYPE_ECHO_REQUEST c [z; z0; z1; z2] ++ data ++ rest) 4 4 = Ret [z; z0; z1; z2]) by (apply (slice_app ([ICMP_TYPE_ECHO_REQUEST; 0] ++ bytes16 c) [z; z0; z1; z2] (data ++ rest))).
  rewrite E3, bind_ret, icmp_clear. unfold calculate_checksum.
  assert (E4 : slice (icmp_header ICMP_TYPE_ECHO_REQUEST 0 [z; z0; z1; z2] ++ data ++ rest) 0 (8 + zlen data) = Ret (icmp_header ICMP_TYPE_ECHO_REQUEST 0 [z; z0; z1; z2] ++ data)).
  { pose proof (slice_app [] (icmp_header ICMP_TYPE_ECHO_REQUEST 0 [z; z0; z1; z2] ++ data) rest) as Hs. rewrite app_nil_l, <- app_assoc in Hs. replace (8 + zlen data) with (zlen (icmp_header ICMP_TYPE_ECHO_REQUEST 0 [z; z0; z1; z2] ++ data)); [done|]. unfold zlen. rewrite length_app. cbn [icmp_header bytes16 app length]. lia. }
  rewrite E4, bind_ret. fold c. unfold mret at 1, res_ret. rewrite bind_ret, Z.eqb_refl. cbn [negb]. change (ICMP_TYPE_ECHO_REQUEST =? ICMP_TYPE_ECHO_REQUEST) with true. cbv iota.
  replace (8 + zlen data - 8) with (zlen data) by lia. pose proof (slice_app (icmp_header ICMP_TYPE_ECHO_REQUEST c [z; z0; z1; z2]) data rest) as E5.
  change (zlen (icmp_header ICMP_TYPE_ECHO_REQUEST c [z; z0; z1; z2])) with 8 in E5. rewrite E5, bind_ret. done.
Qed.

(** The oldest packet waiting is an echo request for us from [src]. *)
Definition echo_waiting s (src : Z) (id_seq data : list Z) : Prop :=
  exists from to id q, length from = 6%nat /\ length to = 6%nat /\
    queue s = eth_frame from to ETHERTYPE_IPV4 (ipv4_packet id PROTO_ICMP src (ip (g_netif s)) (icmp_packet ICMP_TYPE_ECHO_REQUEST id_seq data)) :: q.

Lemma eth_handle_ip s from to payload rest len : length from = 6%nat -> length to = 6%nat -> 14 <= len ->
  eth_handle_frame send s (eth_frame from to ETHERTYPE_IPV4 payload ++ rest) len =
  ipv4_handle_packet send s (payload ++ replicate (60 - (14 + length payload)) 0 ++ rest) (len - 14).
Proof.
  intros Hf Ht Hl. unfold eth_handle_frame, ETH_HEADER_LEN. destruct (Z.ltb_spec len 14); [lia|].
  assert (E : eth_frame from to ETHERTYPE_IPV4 payload ++ rest = (to ++ from) ++ bytes16 (htons ETHERTYPE_IPV4) ++ payload ++ replicate (60 - (14 + length payload)) 0 ++ rest).
  { unfold eth_frame. rewrite !length_app, Hf, Ht. cbn [bytes16 length]. by rewrite <- !app_assoc. }
  rewrite E. assert (Hz : zlen (to ++ from) = 12) by (unfold zlen; rewrite length_app; lia). rewrite <- Hz at 1. rewrite load16_bytes by apply htons_range. rewrite bind_ret.
  change (ntohs (htons ETHERTYPE_IPV4) =? ETHERTYPE_ARP) with false. change (ntohs (htons ETHERTYPE_IPV4) =? ETHERTYPE_IPV4) with true. cbv iota.
  rewrite app_assoc, (drop_app_length' _ _ 14); [done|]. rewrite !length_app, Hf, Ht. done.
Qed.

Lemma poll_echo s src id_seq data : ring_ok s -> echo_waiting s src id_seq data -> (nic_poll (dev s)).1 = [] ->
  length id_seq = 4%nat -> 0 <= src < 2 ^ 32 -> 0 <= ip (g_netif s) < 2 ^ 32 -> zlen data <= 1400 ->
  net_poll send s = (r ← send (with_dev s (nic_poll (dev s)).2) src PROTO_ICMP (icmp_packet ICMP_TYPE_ECHO_REPLY id_seq data); mret (true, dequeue (r.2))).
Proof.
  intros Hok (from & to & id & q & Hf & Ht & Hq) Hn Hid Hs Hip Hd. unfold net_poll. destruct (nic_poll (dev s)) as [fr d]. cbn [fst snd] in *. subst fr. cbn [foldl].
  destruct (decide (rx_tail s = rx_head s)) as [E|Hne]; [unfold queue, queued in Hq; by rewrite E, Z.sub_diag in Hq|].
  cbn [rx_tail rx_head rx_ring with_dev]. rewrite (proj2 (Z.eqb_neq _ _) Hne). destruct (dequeue_fifo s Hok Hne) as (pkt & -> & Eq & _ & Hl & Hp).
  rewrite Hq in Eq. injection Eq as Ep _. unfold packet_of in Ep. rewrite <- (take_drop (Z.to_nat (pkt_length pkt)) (pkt_data pkt)), <- Ep.
  assert (Hlen : pkt_length pkt = zlen (take (Z.to_nat (pkt_length pkt)) (pkt_data pkt))) by (unfold zlen in *; rewrite length_take; lia). rewrite <- Ep in Hlen.
  assert (60 <= pkt_length pkt) by (rewrite Hlen; unfold eth_frame, zlen; rewrite length_app, length_replicate; lia).
  rewrite eth_handle_ip by (done || lia). rewrite ipv4_roundtrip; [|unfold icmp_packet, zlen in *; rewrite length_app; cbn [icmp_header bytes16 app length]; rewrite Hid; lia|done|done|lia].
  change (for_us (with_dev s d) (ip (g_netif s))) with ((ip (g_netif s) =? ip (g_netif s)) || (ip (g_netif s) =? 0xFFFFFFFF) || (ip (g_netif s) =? 0x7F000001)). rewrite Z.eqb_refl. cbn [orb].
  unfold ipv4_dispatch. rewrite Z.eqb_refl. replace (zlen (icmp_packet ICMP_TYPE_ECHO_REQUEST id_seq data)) with (8 + zlen data) by (unfold icmp_packet, zlen; rewrite length_app; cbn [icmp_header bytes16 app length]; rewrite Hid; lia).
  rewrite icmp_echo by done. by destruct (send _ _ _ _).
Qed.
End Packets.
