(* ===== verification/NetThms.v ===== *)
(** * The properties of the receive loop *)

From S2P Require Import Prelude NetBase NetState NetApps Tcp Ipv4 NetLink NetIp.

Section NetThms.
Context {N : Type} `{!Device N}.
Implicit Types s : net N.

Definition next_hop s (dst : Z) : Z :=
  let nif := g_netif s in
  if negb (dst =? 0xFFFFFFFF) && negb (Z.land dst (netmask nif) =? Z.land (ip nif) (netmask nif)) then gateway nif else dst.

(** An address outside this host, not the broadcast address. *)
Definition remote s (dst : Z) : Prop := 0 <= dst < 2 ^ 32 /\ dst <> 0x7F000001 /\ dst <> ip (g_netif s) /\ dst <> 0xFFFFFFFF.

Lemma ring_ok_same s s' : rx_ring s' = rx_ring s -> rx_head s' = rx_head s -> rx_tail s' = rx_tail s -> ring_ok s -> ring_ok s'.
Proof. intros E1 E2 E3 [H1 H2 H3 H4 H5]. unfold queued, slot_at in *. split; unfold queued, slot_at; rewrite ?E1, ?E2, ?E3; done. Qed.

(** A payload that fits is sent whole. *)
Lemma eth_send_fits s dst_mac t payload : zlen payload <= ETH_DATA_MAX ->
  eth_send_frame s dst_mac t payload = let r := nic_send (dev s) (eth_frame (mac (g_netif s)) dst_mac t payload) in (r.1, with_dev s r.2).
Proof.
  intros H. unfold eth_send_frame, ETH_DATA_MAX in *. pose proof (zlen_nonneg payload). unfold u16. rewrite Z.mod_small by lia. rewrite Z.gtb_ltb, (proj2 (Z.ltb_ge _ _)) by lia.
  unfold zlen. rewrite Nat2Z.id, firstn_all. cbv zeta. by destruct (nic_send _ _).
Qed.

Lemma ipv4_packet_length id proto src dst data : zlen (ipv4_packet id proto src dst data) = 20 + zlen data.
Proof. unfold ipv4_packet, zlen. rewrite length_app. cbn [ipv4_header bytes32 bytes16 app length]. lia. Qed.

(** Sending to an address whose next hop is known: one frame, no polling. *)
Lemma send_resolved depth s dst proto data e : up (g_netif s) = true -> remote s dst -> arp_lookup s (next_hop s dst) = Some e ->
  ipv4_send_packet (S depth) s dst proto data =
  Ret (eth_send_frame (with_ip s (u16 (next_id s + 1)) (icmp_reply_count s)) (ae_mac e) ETHERTYPE_IPV4 (ipv4_packet (next_id s) proto (ip (g_netif s)) dst data)).
Proof.
  intros Hup (_ & H1 & H2 & H3) He. cbn [ipv4_send_packet]. unfold ipv4_send. rewrite Hup, (proj2 (Z.eqb_neq dst 0x7F000001)), (proj2 (Z.eqb_neq dst (ip (g_netif s)))) by done. cbn [negb orb].
  unfold resolve. fold (next_hop s dst). rewrite (proj2 (Z.eqb_neq dst 0xFFFFFFFF)) by done. rewrite He. done.
Qed.

(** C28: An echo request for this host that waits in the ring is answered, when its data
    are at most 1400 bytes, its header has no options and its fixed fields are those this
    host writes itself, and the next hop to its sender is in the ARP cache: the packet is
    taken from the ring, and exactly one frame is sent, to the link address of that hop, an
    echo reply with the identifier, sequence number and data of the request and correct
    checksums.  The packet counter advances, and the rest of the state is as before. *)
Theorem echo_reply_correct depth s src id_seq data e : ring_ok s -> echo_waiting s src id_seq data -> (nic_poll (dev s)).1 = [] ->
  length id_seq = 4%nat -> zlen data <= 1400 -> 0 <= ip (g_netif s) < 2 ^ 32 -> up (g_netif s) = true -> remote s src ->
  arp_lookup s (next_hop s src) = Some e ->
  exists s', net_poll (ipv4_send_packet (S depth)) s = Ret (true, s') /\ ring_ok s' /\ queue s' = tail (queue s) /\
    dev s' = (nic_send (nic_poll (dev s)).2 (eth_frame (mac (g_netif s)) (ae_mac e) ETHERTYPE_IPV4
                (ipv4_packet (next_id s) PROTO_ICMP (ip (g_netif s)) src (icmp_packet ICMP_TYPE_ECHO_REPLY id_seq data)))).2 /\
    s' = with_dev (with_ip (dequeue s) (u16 (next_id s + 1)) (icmp_reply_count s)) (dev s').
Proof.
  intros Hok Hw Hn Hid Hd Hip Hup Hr He. rewrite (poll_echo _ s src id_seq data) by (done || apply Hr). set (s1 := with_dev s (nic_poll (dev s)).2).
  rewrite (send_resolved depth s1 src PROTO_ICMP _ e) by done. rewrite eth_send_fits, bind_ret; [cbv zeta; cbn [snd]|].
  2: { rewrite ipv4_packet_length. unfold icmp_packet, zlen, ETH_DATA_MAX in *. rewrite !length_app. cbn [icmp_header bytes16 app length]. rewrite ?length_app, Hid. lia. }
  eexists. split; [done|]. destruct Hw as (from & to & id & q & Hf & Ht & Hq).
  assert (Hne : rx_tail s <> rx_head s) by (intros E; unfold queue, queued in Hq; by rewrite E, Z.sub_diag in Hq).
  destruct (dequeue_fifo s Hok Hne) as (pkt & _ & Eq & Hok' & _). split; [by apply (ring_ok_same (dequeue s))|]. split; [by rewrite Eq|]. split; reflexivity.
Qed.

(** C29: The receive loop recurses without end on an echo request whose sender is not in
    the ARP cache.  The packet stays at the tail of the ring while it is handled;
    sending the reply has to wait for an ARP answer and calls the receive loop, which
    finds the same packet again.  No recursion depth is enough, as long as the card
    delivers nothing new. *)
Theorem net_poll_recurses depth s src id_seq data : ring_ok s -> echo_waiting s src id_seq data -> (forall d : N, (nic_poll d).1 = []) ->
  length id_seq = 4%nat -> zlen data <= 1400 -> 0 <= ip (g_netif s) < 2 ^ 32 -> up (g_netif s) = true -> remote s src ->
  arp_lookup s (next_hop s src) = None -> net_poll (ipv4_send_packet depth) s = Deep.
Proof.
  revert s. induction depth as [|n IH]; intros s Hok Hw Hn Hid Hd Hip Hup Hr He; rewrite (poll_echo _ s src id_seq data) by (done || apply Hr); set (s1 := with_dev s (nic_poll (dev s)).2); [done|].
  cbn [ipv4_send_packet]. unfold ipv4_send. change (up (g_netif s1)) with (up (g_netif s)). change (ip (g_netif s1)) with (ip (g_netif s)).
  destruct Hr as (H0 & H1 & H2 & H3). rewrite Hup, (proj2 (Z.eqb_neq src 0x7F000001)), (proj2 (Z.eqb_neq src (ip (g_netif s)))) by done. cbn [negb orb].
  unfold resolve. fold (next_hop s1 src). rewrite (proj2 (Z.eqb_neq src 0xFFFFFFFF)) by done. change (arp_lookup s1 (next_hop s1 src)) with (arp_lookup s (next_hop s src)). rewrite He.
  unfold arp_send_request. change (up (g_netif s1)) with (up (g_netif s)). rewrite Hup. cbn [negb]. unfold eth_send_frame.
  cbv zeta. destruct (Z.gtb_spec (u16 (zlen (arp_bytes ARP_OP_REQUEST (mac (g_netif s1)) (htonl (ip (g_netif s1))) (replicate 6 0) (htonl (next_hop s1 src))))) ETH_DATA_MAX) as [_|_].
  - cbn [snd]. change 100%nat with (S 99). cbn [arp_wait]. rewrite IH; try done. by apply (ring_ok_same s).
  - destruct (nic_send _ _) as [r d]. cbn [snd]. change 100%nat with (S 99). cbn [arp_wait]. rewrite IH; try done. by apply (ring_ok_same s).
Qed.
End NetThms.

(** ** A small host *)

(** A card that keeps what is sent and receives nothing by itself. *)
Record card := Card { sent : list (list Z) }.

#[export] Instance card_device : Device card := {|
  nic_send d f := (0, Card (sent d ++ [f]));
  nic_poll d := ([], d);
  nic_get_mac _ := Some [2; 0; 0; 0; 0; 1];
  rdtsc d := (0, d);
|}.

Definition blank_slot : net_packet := NetPacket (replicate (Z.to_nat ETH_FRAME_MAX) 0) 0.

Definition host : net card :=
  Net (replicate 32 blank_slot) 0 0 (Netif [2; 0; 0; 0; 0; 1] 0x0A00020F 0x0A000202 0xFFFFFF00 true) demo_arp 1 0
    (replicate 16 (UdpSocket 0 None false)) 32768 (DnsState 0x1000 50000 false 0) (DhcpVars 0xAA55CC33 false 0 0 0 0 0)
    (replicate 32 tcp_zero) 0x98765432 [] (Card []).

Definition ping (src : Z) : list Z :=
  eth_frame [2; 2; 2; 2; 2; 2] [2; 0; 0; 0; 0; 1] ETHERTYPE_IPV4 (ipv4_packet 7 PROTO_ICMP src 0x0A00020F (icmp_packet ICMP_TYPE_ECHO_REQUEST [1; 2; 3; 4] [5; 6])).

Definition pinged (src : Z) : net card := net_rx_enqueue host (ping src).

Lemma host_ring : ring_ok host.
Proof.
  split; cbn [host rx_ring rx_head rx_tail]; [done|unfold NET_RX_QUEUE_SIZE; lia|unfold NET_RX_QUEUE_SIZE; lia| |].
  - intros i p [-> _]%lookup_replicate. unfold blank_slot, zlen. cbn [pkt_data]. by rewrite length_replicate.
  - unfold queued. cbn [host rx_head rx_tail]. rewrite Zmod_0_l. lia.
Qed.

Lemma ping_length src : zlen (ping src) = 60.
Proof. reflexivity. Qed.

Lemma pinged_ring src : ring_ok (pinged src) /\ echo_waiting (pinged src) src [1; 2; 3; 4] [5; 6].
Proof.
  destruct (enqueue_fifo host (ping src) host_ring) as [Hok Hq]. split; [exact Hok|]. exists [2; 2; 2; 2; 2; 2], [2; 0; 0; 0; 0; 1], 7, []. do 2 (split; [reflexivity|]).
  rewrite ping_length in Hq. exact Hq.
Qed.

Lemma pinged_remote src : 0 <= src < 0x0A00020F -> remote (pinged src) src.
Proof. intros H. split; [lia|]. split; [lia|]. split; [change (ip (g_netif (pinged src))) with 0x0A00020F; lia|lia]. Qed.

Lemma echo_reply_correct_witness : exists s', net_poll (ipv4_send_packet 1) (pinged 0x0A000202) = Ret (true, s') /\ ring_ok s'.
Proof.
  destruct (pinged_ring 0x0A000202) as [Hok Hw].
  destruct (echo_reply_correct 0 (pinged 0x0A000202) 0x0A000202 [1; 2; 3; 4] [5; 6] (ArpEntry 0x0A000202 [2; 2; 2; 2; 2; 2] true) Hok Hw) as (s' & E & Hr & _);
    [reflexivity|reflexivity|discriminate|split; [discriminate|reflexivity]|reflexivity|apply pinged_remote; lia|reflexivity|]. exists s'. exact (conj E Hr).
Defined.

Lemma net_poll_recurses_witness : net_poll (ipv4_send_packet 1000) (pinged 0x0A000205) = Deep.
Proof.
  destruct (pinged_ring 0x0A000205) as [Hok Hw].
  apply (net_poll_recurses 1000 (pinged 0x0A000205) 0x0A000205 [1; 2; 3; 4] [5; 6] Hok Hw);
    [reflexivity|reflexivity|discriminate|split; [discriminate|reflexivity]|reflexivity|apply pinged_remote; lia|].
  reflexivity.
Defined.

Lemma ipv4_roundtrip_witness : ipv4_handle_packet (ipv4_send_packet 1) host (ipv4_packet 1 PROTO_UDP 0x0A000202 0x0A00020F [1; 2; 3] ++ []) 23 =
  ipv4_dispatch (ipv4_send_packet 1) host PROTO_UDP 0x0A000202 3 ([1; 2; 3] ++ []).
Proof. apply (ipv4_roundtrip (ipv4_send_packet 1) host 1 PROTO_UDP 0x0A000202 0x0A00020F [1; 2; 3] [] 23); [discriminate|lia|lia|lia]. Defined.

Lemma ipv4_trusts_length_witness :
  ipv4_handle_packet (ipv4_send_packet 1) host (ipv4_header 1000 0 PROTO_ICMP (checksum_of (ipv4_header 1000 0 PROTO_ICMP 0 1 0x7F000001)) 1 0x7F000001 ++ replicate 8 0) (20 + zlen (replicate 8 0)) = Oob.
Proof. apply (ipv4_trusts_length (ipv4_send_packet 1) host 1000 0 1 (replicate 8 0)); [unfold zlen; cbn; lia|lia|lia]. Defined.

