(* ===== verification/NetAppThms.v ===== *)
(** * The properties of UDP ports, DNS and DHCP

    Ports are unique, a DNS answer is read within its bounds, and how far the query
    and the DHCP reply are written and read. *)

From S2P Require Import Prelude NetBase NetState NetApps Ipv4 NetLink NetThms.

(** ** Ports *)

Definition udp_find (socks : list udp_socket) (port : Z) : option (option udp_recv_cb) :=
  match index_of (udp_matches port) socks with Some i => us_callback <$> socks !! i | None => None end.

Lemma udp_matches_port port u : udp_matches port u = true -> us_valid u = true /\ us_port u = port.
Proof. unfold udp_matches. intros H. b2p. done. Qed.

Lemma udp_find_used socks port : udp_used socks port = bool_decide (udp_find socks port <> None).
Proof.
  unfold udp_used, udp_find. destruct (index_of (udp_matches port) socks) as [i|] eqn:E; [|by rewrite bool_decide_false by (intros H; by apply H)].
  apply index_of_Some in E as (u & -> & _). by rewrite bool_decide_true.
Qed.

Lemma udp_find_insert socks i old x port : socks !! i = Some old -> udp_matches port old = false -> udp_matches port x = false -> udp_find (<[i := x]> socks) port = udp_find socks port.
Proof.
  intros Hi Ho Hx. unfold udp_find. rewrite (find_insert _ _ _ _ old) by done. destruct (index_of (udp_matches port) socks) as [j|] eqn:E; [|done].
  apply index_of_Some in E as (y & Hj & Hy & _). rewrite list_lookup_insert_ne; [done|]. intros ->. congruence.
Qed.

Lemma udp_find_here socks i u port : unique_by udp_matches socks -> socks !! i = Some u -> udp_matches port u = true -> udp_find socks port = Some (us_callback u).
Proof. intros Hu Hi Hx. unfold udp_find. rewrite (index_of_unique _ _ i u Hi Hx), Hi; [done|]. intros j y Hj Hy. by apply (Hu port j i y u). Qed.

Lemma find_ephemeral_free n socks next : 32768 <= next < 65536 -> let '(p, next') := find_ephemeral n socks next in
  (p = 0 \/ 32768 <= p < 65536 /\ udp_used socks p = false) /\ 32768 <= next' < 65536.
Proof.
  revert next. induction n as [|n IH]; intros next Hn; cbn [find_ephemeral]; [split; [by left|done]|].
  assert (Hx : 32768 <= (if u16 (next + 1) =? 0 then 32768 else u16 (next + 1)) < 65536).
  { destruct (decide (next = 65535)) as [->|]; [vm_compute; split; [discriminate|reflexivity]|]. rewrite u16_small by lia. destruct (Z.eqb_spec (next + 1) 0); lia. }
  destruct (udp_used socks next) eqn:E; [by apply IH|]. split; [right; split; [lia|done]|done].
Qed.

Section UdpThms.
Context {N : Type} `{!Device N}.
Implicit Types s : net N.

Definition udp_ok s : Prop := unique_by udp_matches (udp_sockets s) /\ 32768 <= next_ephemeral s < 65536.

Lemma udp_bind_fixed s port cb : udp_ok s -> port <> 0 ->
  let '(r, s') := if udp_used (udp_sockets s) port then (-1, s)
                  else match index_of (fun u => negb (us_valid u)) (udp_sockets s) with
                       | None => (-1, s)
                       | Some i => (port, with_udp s (<[i := UdpSocket port (Some cb) true]> (udp_sockets s)) (next_ephemeral s))
                       end in
  udp_ok s' /\ (r = -1 /\ (forall q, udp_find (udp_sockets s') q = udp_find (udp_sockets s) q) \/
    r = port /\ udp_find (udp_sockets s) r = None /\ forall q, udp_find (udp_sockets s') q = if decide (q = r) then Some (Some cb) else udp_find (udp_sockets s) q).
Proof.
  intros [Hu Hn] Hp. rewrite udp_find_used. case_bool_decide as Hd; [split; [done|by left]|].
  destruct (index_of (fun u => negb (us_valid u)) (udp_sockets s)) as [i|] eqn:E; [|split; [done|by left]]. apply index_of_Some in E as (u & Hi & Hv & _). apply negb_true_iff in Hv.
  assert (Hx : forall q, udp_matches q (UdpSocket port (Some cb) true) = bool_decide (q = port)) by (intros q; unfold udp_matches; cbn; destruct (Z.eqb_spec port q), (bool_decide_reflect (q = port)); congruence).
  assert (Hold : forall q, udp_matches q u = false) by (intros q; unfold udp_matches; by rewrite Hv).
  assert (Hno : forall j y, udp_sockets s !! j = Some y -> udp_matches port y = false).
  { intros j y Hj. destruct (udp_matches port y) eqn:Ey; [|done]. by rewrite (udp_find_here _ j y) in Hd. }
  assert (Hu' : unique_by udp_matches (<[i := UdpSocket port (Some cb) true]> (udp_sockets s))).
  { eapply (unique_by_insert _ _ _ _ port); [done| |intros j y _; apply Hno]. intros k. rewrite Hx. by intros ?%bool_decide_eq_true. }
  split; [done|]. right. split; [done|]. split; [done|]. cbn [udp_sockets with_udp]. intros q. destruct (decide (q = port)) as [->|Hq].
  - apply (udp_find_here _ i (UdpSocket port (Some cb) true)); [done|apply list_lookup_insert_eq; by eapply lookup_lt_Some|]. rewrite Hx. by apply bool_decide_eq_true.
  - apply (udp_find_insert _ _ u); [done|done|]. rewrite Hx. by apply bool_decide_eq_false.
Qed.

(** No two sockets are bound to one port.  Binding either fails and changes no
    binding, or binds a port that was free: the requested one, or one above 32767
    when none is requested.  Unbinding frees the port.  No other port is affected. *)
Theorem udp_ports_correct s port cb : udp_ok s -> 0 <= port < 65536 ->
  (let '(r, s') := udp_bind s port cb in
   udp_ok s' /\ (r = -1 /\ (forall q, udp_find (udp_sockets s') q = udp_find (udp_sockets s) q) \/
     (if port =? 0 then 32768 <= r < 65536 else r = port) /\ udp_find (udp_sockets s) r = None /\
     forall q, udp_find (udp_sockets s') q = if decide (q = r) then Some (Some cb) else udp_find (udp_sockets s) q)) /\
  (let s' := udp_unbind s port in
   udp_ok s' /\ forall q, udp_find (udp_sockets s') q = if decide (q = port) then None else udp_find (udp_sockets s) q).
Proof.
  intros Hok Hp. pose proof Hok as [Hu Hn]. split.
  - unfold udp_bind. destruct (Z.eqb_spec port 0) as [->|Hp0].
    + pose proof (find_ephemeral_free 1024 (udp_sockets s) (next_ephemeral s) Hn) as Hf. destruct (find_ephemeral 1024 (udp_sockets s) (next_ephemeral s)) as [p next]. destruct Hf as [Hf Hnx].
      destruct (Z.eqb_spec p 0) as [->|Hpn]; [split; [done|by left]|]. destruct Hf as [?|[Hr _]]; [done|]. assert (Hok' : udp_ok (with_udp s (udp_sockets s) next)) by done.
      pose proof (udp_bind_fixed _ p cb Hok' Hpn) as H. destruct (if udp_used _ p then _ else _) as [r s']. destruct H as [H1 [H2|(-> & H2)]]; split; try done; [by left|by right].
    + rewrite (proj2 (Z.eqb_neq port 0)) by done. pose proof (udp_bind_fixed s port cb Hok Hp0) as H. destruct (if udp_used _ port then _ else _) as [r s']. done.
  - unfold udp_unbind. destruct (index_of (udp_matches port) (udp_sockets s)) as [i|] eqn:E.
    + apply index_of_Some in E as (u & Hi & Hm & _). rewrite Hi. destruct (udp_matches_port _ _ Hm) as [Hv Hup]. assert (Hx : forall q, udp_matches q (UdpSocket (us_port u) None false) = false) by done.
      split; [split; [|done]; cbn [udp_sockets with_udp]; eapply (unique_by_insert _ _ _ _ port); [done|done|]|].
      * intros j y Hj Hy. destruct (udp_matches port y) eqn:Ey; [|done]. by destruct Hj; apply (Hu port j i y u).
      * cbn [udp_sockets with_udp]. intros q. destruct (decide (q = port)) as [->|Hq].
        -- unfold udp_find. rewrite (proj2 (index_of_None _ _)); [done|]. intros y (j & Hj)%list_elem_of_lookup. destruct (decide (j = i)) as [->|Hji].
           ++ rewrite list_lookup_insert_eq in Hj by (by eapply lookup_lt_Some). by injection Hj as <-.
           ++ rewrite list_lookup_insert_ne in Hj by done. destruct (udp_matches port y) eqn:Ey; [|done]. by destruct Hji; apply (Hu port j i y u).
        -- apply (udp_find_insert _ _ u); [done| |done]. unfold udp_matches. rewrite Hup, (proj2 (Z.eqb_neq port q)) by done. apply andb_false_r.
    + split; [done|]. intros q. case_decide; [subst|done]. unfold udp_find. by rewrite E.
Qed.
End UdpThms.

Lemma udp_ports_correct_witness : let '(r, s') := udp_bind host 7 dns_recv_cb in udp_find (udp_sockets s') 7 = if decide (7 = r) then Some (Some dns_recv_cb) else None.
Proof.
  assert (Hok : udp_ok host) by (split; [|split; [discriminate|reflexivity]]; intros k i j x y Hx _ Hm _; exfalso; apply list_elem_of_lookup_2, elem_of_replicate in Hx as [-> _]; discriminate Hm).
  pose proof (proj1 (udp_ports_correct host 7 dns_recv_cb Hok ltac:(lia))) as H. revert H. vm_compute. intros [_ [[H _]|(_ & _ & H)]]; [discriminate H|apply (H 7)].
Defined.

(** ** DNS *)

Lemma load8_ok buf i : 0 <= i < zlen buf -> exists b, load8 buf i = Ret b /\ b ∈ buf.
Proof.
  intros Hi. unfold load8, zlen in *. rewrite (proj2 (Z.leb_le 0 i)) by lia. destruct (lookup_lt_is_Some_2 buf (Z.to_nat i) ltac:(lia)) as [b Hb].
  rewrite Hb. exists b. split; [done|]. by eapply list_elem_of_lookup_2.
Qed.

Lemma load8_byte buf i : all_bytes buf -> 0 <= i < zlen buf -> exists b, load8 buf i = Ret b /\ 0 <= b < 256.
Proof. intros Hb Hi. destruct (load8_ok buf i Hi) as (b & E & Hin). exists b. split; [done|]. unfold all_bytes in Hb. rewrite Forall_forall in Hb. by apply Hb. Qed.

(** Performs the loads that are within the array. *)
Ltac load_bytes Hb :=
  repeat match goal with |- context [load8 ?buf ?i] =>
    let b := fresh "b" in let E := fresh "E" in let R := fresh "R" in
    destruct (load8_byte buf i Hb ltac:(lia)) as (b & E & R); rewrite E, bind_ret; clear E end.

Lemma load16_ok buf i : all_bytes buf -> 0 <= i -> i + 2 <= zlen buf -> exists x, load16 buf i = Ret x /\ 0 <= x < 65536.
Proof. intros Hb H0 H1. unfold load16. load_bytes Hb. eexists. split; [done|lia]. Qed.

Lemma load32_ok buf i : all_bytes buf -> 0 <= i -> i + 4 <= zlen buf -> exists x, load32 buf i = Ret x /\ 0 <= x < 2 ^ 32.
Proof.
  intros Hb H0 H1. unfold load32. destruct (load16_ok buf i Hb ltac:(lia) ltac:(lia)) as (x & -> & Hx), (load16_ok buf (i + 2) Hb ltac:(lia) ltac:(lia)) as (y & -> & Hy).
  rewrite !bind_ret. eexists. split; [done|lia].
Qed.

Lemma skip_labels_ok fuel buf p : all_bytes buf -> 0 <= p -> zlen buf - p <= Z.of_nat fuel -> exists p', skip_labels fuel buf (zlen buf) p = Ret p' /\ p <= p'.
Proof.
  intros Hb. revert p. induction fuel as [|fuel IH]; intros p Hp Hf; cbn [skip_labels].
  - rewrite (proj2 (Z.ltb_ge _ _)) by lia. exists p. split; [done|lia].
  - destruct (Z.ltb_spec p (zlen buf)); [|exists p; split; [done|lia]]. load_bytes Hb. destruct (_ =? 0); [exists p; split; [done|lia]|].
    destruct (IH (p + 1) ltac:(lia) ltac:(lia)) as (p' & -> & Hp'). exists p'. split; [done|lia].
Qed.

Lemma dns_answers_ok n buf p : all_bytes buf -> 0 <= p -> exists r, dns_answers n buf (zlen buf) p = Ret r.
Proof.
  intros Hb. revert p. induction n as [|n IH]; intros p Hp; cbn [dns_answers]; [by eexists|]. rewrite Z.geb_leb. destruct (Z.leb_spec (zlen buf) p); [by eexists|].
  destruct (load8_byte buf p Hb ltac:(lia)) as (b & -> & _). rewrite bind_ret.
  assert (Hq : exists q, (if Z.land b 0xC0 =? 0xC0 then mret (p + 2) else p ← skip_labels (Z.to_nat (zlen buf)) buf (zlen buf) p; mret (p + 1)) = Ret q /\ 0 <= q).
  { destruct (Z.land b 0xC0 =? 0xC0); [exists (p + 2); split; [done|lia]|]. destruct (skip_labels_ok (Z.to_nat (zlen buf)) buf p Hb Hp ltac:(lia)) as (q & -> & Hq). exists (q + 1). split; [done|lia]. }
  destruct Hq as (q & -> & Hq). rewrite bind_ret, Z.gtb_ltb. destruct (Z.ltb_spec (zlen buf) (q + 10)); [by eexists|]. load_bytes Hb.
  assert (Hl : 0 <= Z.lor (Z.shiftl b4 8) b5) by (apply Z.lor_nonneg; split; [apply Z.shiftl_nonneg|]; lia).
  destruct (_ && (_ <=? _)) eqn:E; [|apply IH; lia]. b2p. load_bytes Hb. by eexists.
Qed.

(** Reading a DNS answer stays within the datagram and ends, whatever its bytes:
    every label, count and length in it is untrusted. *)
Theorem dns_recv_in_bounds d payload port : all_bytes payload ->
  exists d', dns_recv d payload (zlen payload) port = Ret d' /\ next_dns_id d' = next_dns_id d /\ dns_next_port d' = dns_next_port d.
Proof.
  intros Hb. unfold dns_recv. destruct (negb (port =? DNS_PORT)); [by exists d|]. destruct (Z.ltb_spec (zlen payload) DNS_HEADER_LEN); [by exists d|]. unfold DNS_HEADER_LEN in *.
  destruct (load16_ok payload 2 Hb ltac:(lia) ltac:(lia)) as (f & -> & _), (load16_ok payload 6 Hb ltac:(lia) ltac:(lia)) as (c & -> & _). rewrite !bind_ret.
  destruct (_ =? 0); [by exists d|]. destruct (_ =? 0); [by exists d|].
  destruct (skip_labels_ok (Z.to_nat (zlen payload)) payload 12 Hb ltac:(lia) ltac:(lia)) as (p & -> & Hp). rewrite bind_ret.
  destruct (dns_answers_ok (Z.to_nat (ntohs c)) payload (p + 1 + 4) Hb ltac:(lia)) as (r & ->). rewrite bind_ret. destruct r; eexists; split; done.
Qed.

Definition dns_reply : list Z := [0; 1; 0x81; 0x80; 0; 1; 0; 1; 0; 0; 0; 0; 1; 97; 0; 0; 1; 0; 1; 0xC0; 12; 0; 1; 0; 1; 0; 0; 0; 9; 0; 4; 10; 0; 0; 7].

Lemma dns_recv_in_bounds_witness : exists d', dns_recv (DnsState 1 40000 false 0) dns_reply (zlen dns_reply) DNS_PORT = Ret d' /\ dns_resolved_ip d' = 0x0A000007.
Proof.
  assert (Hb : all_bytes dns_reply) by (unfold all_bytes, dns_reply; repeat (apply Forall_cons_2; [lia|]); apply Forall_nil_2). destruct (dns_recv_in_bounds (DnsState 1 40000 false 0) dns_reply DNS_PORT Hb) as (d' & E & _).
  exists d'. split; [exact E|]. revert E. vm_compute. intros E. injection E as <-. reflexivity.
Defined.

(** ** The name in a query *)

(** The encoding of a host name after the characters [label] of its current label:
    each label preceded by its length, and a zero. *)
Fixpoint encode_name (label host : list Z) : list Z :=
  match host with
  | [] => u8 (zlen label) :: label ++ [0]
  | c :: host => if c =? 46 then u8 (zlen label) :: label ++ encode_name [] host else encode_name (label ++ [c]) host
  end.

Lemma encode_name_length label host : length (encode_name label host) = (length label + length host + 2)%nat.
Proof.
  revert label. induction host as [|c host IH]; intros label; cbn [encode_name length]; [rewrite length_app; cbn; lia|].
  destruct (c =? 46); cbn [length]; rewrite ?length_app, IH, ?length_app; cbn; lia.
Qed.

Lemma put8_at l1 x l2 v : put8 (l1 ++ x :: l2) (zlen l1) v = Ret (l1 ++ v :: l2).
Proof.
  unfold put8, zlen. rewrite (proj2 (Z.leb_le _ _)), (proj2 (Z.ltb_lt _ _)) by (rewrite ?length_app; cbn; lia). cbn. f_equal. rewrite Nat2Z.id.
  rewrite insert_app_r_alt by lia. by rewrite Nat.sub_diag.
Qed.

Lemma put8_length buf i v buf' : put8 buf i v = Ret buf' -> zlen buf' = zlen buf.
Proof. unfold put8. case_match; [|done]. intros [= <-]. unfold zlen. by rewrite length_insert. Qed.

Lemma put8_past buf i v : zlen buf <= i -> put8 buf i v = Oob.
Proof. intros Hi. unfold put8. rewrite (proj2 (Z.ltb_ge _ _)) by lia. by rewrite andb_false_r. Qed.

Lemma put8_not_deep buf i v : put8 buf i v <> Deep.
Proof. unfold put8. by case_match. Qed.

Lemma zlen_snoc (l : list Z) x : zlen (l ++ [x]) = zlen l + 1.
Proof. unfold zlen. rewrite length_app. cbn. lia. Qed.

Lemma format_loop_ok host pre x label rest : (length host < length rest)%nat ->
  format_loop host (pre ++ x :: label ++ rest) (zlen pre) (zlen pre + 1 + zlen label) (zlen label) =
  Ret (pre ++ encode_name label host ++ drop (length host + 1) rest).
Proof.
  revert pre x label rest. induction host as [|c host IH]; intros pre x label rest Hl; (destruct rest as [|b rest]; [cbn in Hl; lia|]); cbn [format_loop encode_name length] in *.
  - rewrite put8_at, bind_ret. replace (pre ++ _ :: label ++ b :: rest) with ((pre ++ u8 (zlen label) :: label) ++ b :: rest) by (by rewrite <- app_assoc).
    replace (zlen pre + 1 + zlen label) with (zlen (pre ++ u8 (zlen label) :: label)) by (unfold zlen; rewrite length_app; cbn; lia). rewrite put8_at. cbn [app drop Nat.add]. by rewrite <- !app_assoc.
  - destruct (c =? 46).
    + rewrite put8_at, bind_ret. replace (pre ++ _ :: label ++ b :: rest) with ((pre ++ u8 (zlen label) :: label) ++ b :: [] ++ rest) by (by rewrite <- app_assoc).
      replace (zlen pre + 1 + zlen label) with (zlen (pre ++ u8 (zlen label) :: label)) by (unfold zlen; rewrite length_app; cbn; lia).
      pose proof (IH (pre ++ u8 (zlen label) :: label) b [] rest ltac:(lia)) as H. change (zlen (@nil Z)) with 0 in H. rewrite Z.add_0_r in H. rewrite H. cbn [app drop Nat.add]. by rewrite <- !app_assoc.
    + replace (pre ++ x :: label ++ b :: rest) with ((pre ++ x :: label) ++ b :: rest) by (by rewrite <- app_assoc).
      replace (zlen pre + 1 + zlen label) with (zlen (pre ++ x :: label)) by (unfold zlen; rewrite length_app; cbn; lia). rewrite put8_at, bind_ret.
      replace ((pre ++ x :: label) ++ c :: rest) with (pre ++ x :: (label ++ [c]) ++ rest) by (by rewrite <- !app_assoc).
      replace (zlen (pre ++ x :: label) + 1) with (zlen pre + 1 + zlen (label ++ [c])) by (unfold zlen; rewrite !length_app; cbn; lia).
      rewrite <- (zlen_snoc label c). rewrite IH by lia. done.
Qed.

Lemma format_loop_past host buf lb q n : zlen buf <= q + zlen host -> format_loop host buf lb q n = Oob.
Proof.
  revert buf lb q n. induction host as [|c host IH]; intros buf lb q n Hq; cbn [format_loop]; unfold zlen in Hq at 2; cbn [length] in Hq.
  - destruct (put8 buf lb (u8 n)) as [buf'| |] eqn:E; [|done|by destruct (put8_not_deep _ _ _ E)]. apply put8_length in E. rewrite bind_ret. apply put8_past. lia.
  - destruct (c =? 46).
    + destruct (put8 buf lb (u8 n)) as [buf'| |] eqn:E; [|done|by destruct (put8_not_deep _ _ _ E)]. apply put8_length in E. rewrite bind_ret. apply IH. unfold zlen in *. lia.
    + destruct (put8 buf q c) as [buf'| |] eqn:E; [|done|by destruct (put8_not_deep _ _ _ E)]. apply put8_length in E. rewrite bind_ret. apply IH. unfold zlen in *. lia.
Qed.

(** The header of the query with the given identifier. *)
Definition query_header (id : Z) : list Z := bytes16 (htons id) ++ bytes16 (htons 0x0100) ++ bytes16 (htons 1) ++ replicate 6 0.

Lemma put8_4 {A} (f : list Z -> res A) l a b c d rest w x y z :
  (p ← put8 (l ++ a :: b :: c :: d :: rest) (zlen l) w; p ← put8 p (zlen l + 1) x; p ← put8 p (zlen l + 2) y; p ← put8 p (zlen l + 3) z; f p) = f (l ++ w :: x :: y :: z :: rest).
Proof.
  rewrite put8_at, bind_ret. replace (l ++ w :: _) with ((l ++ [w]) ++ b :: c :: d :: rest) by (by rewrite <- app_assoc). rewrite <- zlen_snoc with (x := w), put8_at, bind_ret.
  replace (((l ++ [w]) ++ x :: _)) with ((l ++ [w; x]) ++ c :: d :: rest) by (by rewrite <- !app_assoc). replace (zlen l + 2) with (zlen (l ++ [w; x])) by (unfold zlen; rewrite length_app; cbn; lia). rewrite put8_at, bind_ret.
  replace (((l ++ [w; x]) ++ y :: _)) with ((l ++ [w; x; y]) ++ d :: rest) by (by rewrite <- !app_assoc). replace (zlen l + 3) with (zlen (l ++ [w; x; y])) by (unfold zlen; rewrite length_app; cbn; lia). rewrite put8_at, bind_ret. by rewrite <- app_assoc.
Qed.

(** The query for a host name of at most 238 characters is its header, the name
    with each label preceded by its length, and the type and class of an address
    record, inside the 256-byte array; a longer name is written past the array's end. *)
Theorem dns_query_bounds id domain :
  (zlen domain <= 238 -> exists packet, dns_query id domain = Ret (packet, 18 + zlen domain) /\ zlen packet = 256 /\
     take (Z.to_nat (18 + zlen domain)) packet = query_header id ++ encode_name [] domain ++ [0; 1; 0; 1]) /\
  (238 < zlen domain -> dns_query id domain = Oob).
Proof.
  assert (Hh : bytes16 (htons id) ++ bytes16 (htons 0x0100) ++ bytes16 (htons 1) ++ replicate 250 0 = query_header id ++ 0 :: [] ++ replicate 243 0) by done.
  assert (Hz : zlen (query_header id) = DNS_HEADER_LEN) by done. unfold dns_query, format_dns_name. rewrite Hh, <- Hz. set (hd := query_header id) in *. unfold DNS_HEADER_LEN in Hz.
  assert (Hfit : (length domain < 243)%nat -> format_loop domain (hd ++ 0 :: [] ++ replicate 243 0) (zlen hd) (zlen hd + 1) 0 = Ret ((hd ++ encode_name [] domain) ++ replicate (242 - length domain) 0)).
  { intros Hd. pose proof (format_loop_ok domain hd 0 [] (replicate 243 0) ltac:(rewrite length_replicate; lia)) as H. change (zlen (@nil Z)) with 0 in H. rewrite Z.add_0_r in H. rewrite H, drop_replicate, app_assoc. do 3 f_equal. lia. }
  assert (Hq : zlen hd + zlen domain + 2 = zlen (hd ++ encode_name [] domain)) by (unfold zlen; rewrite length_app, encode_name_length; cbn [length]; lia). split.
  - intros Hd. unfold zlen in Hd. rewrite Hfit by lia. rewrite bind_ret, Hq. destruct (242 - length domain)%nat as [|[|[|[|n]]]] eqn:En; try lia. cbn [replicate].
    rewrite put8_4. eexists. split; [unfold mret, res_ret; do 2 f_equal; rewrite <- Hq, Hz; unfold zlen; rewrite u16_small by lia; lia|split].
    + unfold zlen in *. rewrite length_app. cbn [length]. rewrite length_replicate. lia.
    + replace (Z.to_nat (18 + zlen domain)) with (length (hd ++ encode_name [] domain ++ [0; 1; 0; 1])) by (rewrite app_assoc, length_app; unfold zlen in *; cbn [length]; lia).
      rewrite app_assoc. replace ((hd ++ encode_name [] domain) ++ 0 :: 1 :: 0 :: 1 :: replicate n 0) with (((hd ++ encode_name [] domain) ++ [0; 1; 0; 1]) ++ replicate n 0) by (by rewrite <- app_assoc). apply take_app_length.
  - intros Hd. destruct (decide (length domain < 243)%nat) as [Hs|Hs].
    + rewrite Hfit by done. rewrite bind_ret, Hq. set (q := zlen (hd ++ encode_name [] domain)) in *. set (b := _ ++ replicate _ 0). assert (Hb : zlen b <= q + 3) by (subst b q; unfold zlen in *; rewrite length_app, length_replicate; lia). clearbody b.
      do 3 (destruct (put8 b _ _) as [b'| |] eqn:E; [apply put8_length in E; rewrite bind_ret; rewrite <- E in Hb; clear E; clear b; rename b' into b|done|by destruct (put8_not_deep _ _ _ E)]). by rewrite put8_past.
    + rewrite format_loop_past; [done|]. unfold zlen in *. cbn [app]. rewrite length_app. cbn [length]. rewrite length_replicate. lia.
Qed.

Lemma dns_query_bounds_witness : (exists packet, dns_query 1 [97; 46; 98] = Ret (packet, 21)) /\ dns_query 1 (replicate 239 97) = Oob.
Proof.
  split; [|apply (proj2 (dns_query_bounds 1 (replicate 239 97))); reflexivity].
  destruct (proj1 (dns_query_bounds 1 [97; 46; 98]) ltac:(discriminate)) as (packet & E & _). exists packet. exact E.
Defined.

(** ** The options of a DHCP reply *)

Lemma dhcp_options_ok fuel payload i o : all_bytes payload -> DHCP_FIXED + DHCP_OPTIONS + 5 <= zlen payload -> 0 <= i -> DHCP_OPTIONS - i <= Z.of_nat fuel ->
  exists o', dhcp_options fuel payload i o = Ret o'.
Proof.
  intros Hb Hl. unfold DHCP_FIXED, DHCP_OPTIONS in *. revert i o. induction fuel as [|fuel IH]; intros i o Hi Hf; cbn [dhcp_options]; unfold DHCP_FIXED, DHCP_OPTIONS; (destruct (Z.ltb_spec i 308); [|by eexists]); [lia|].
  load_bytes Hb. destruct (load32_ok payload (240 + i + 2) Hb ltac:(lia) ltac:(lia)) as (v & -> & _).
  repeat case_match; rewrite ?bind_ret; first [by eexists | apply IH; lia].
Qed.

Lemma dhcp_options_cut fuel payload i o opt : load8 payload (DHCP_FIXED + i) = Ret opt -> opt <> 255 -> opt <> 0 -> i <? DHCP_OPTIONS = true ->
  load8 payload (DHCP_FIXED + i + 1) = Oob -> dhcp_options (S fuel) payload i o = Oob.
Proof. intros E H1 H2 Hi E'. cbn [dhcp_options]. rewrite Hi, E, bind_ret, (proj2 (Z.eqb_neq opt 255)), (proj2 (Z.eqb_neq opt 0)), E' by done. reflexivity. Qed.

(** The bytes of a reply before its options, and the options. *)
Definition dhcp_reply (xid yiaddr : Z) (options : list Z) : list Z :=
  [DHCP_OP_REPLY; 1; 6; 0] ++ bytes32 (htonl xid) ++ replicate 8 0 ++ bytes32 yiaddr ++ replicate 216 0 ++ bytes32 (htonl DHCP_MAGIC_COOKIE) ++ options.

Lemma load32_at l1 x l2 i : 0 <= x < 2 ^ 32 -> i = zlen l1 -> load32 (l1 ++ bytes32 x ++ l2) i = Ret x.
Proof. intros Hx ->. by apply load32_bytes. Qed.

Lemma dhcp_reply_fields xid yiaddr options : 0 <= xid < 2 ^ 32 -> 0 <= yiaddr < 2 ^ 32 ->
  let payload := dhcp_reply xid yiaddr options in
  load8 payload 0 = Ret DHCP_OP_REPLY /\ load32 payload 4 = Ret (htonl xid) /\ load32 payload 16 = Ret yiaddr /\ load32 payload 236 = Ret (htonl DHCP_MAGIC_COOKIE).
Proof.
  intros Hx Hy payload. split; [done|]. split; [by apply (load32_at [DHCP_OP_REPLY; 1; 6; 0] (htonl xid)); [apply htonl_range|]|]. split.
  - apply (load32_at ([DHCP_OP_REPLY; 1; 6; 0] ++ bytes32 (htonl xid) ++ replicate 8 0) yiaddr); done.
  - apply (load32_at ([DHCP_OP_REPLY; 1; 6; 0] ++ bytes32 (htonl xid) ++ replicate 8 0 ++ bytes32 yiaddr ++ replicate 216 0)); [apply htonl_range|done].
Qed.

Lemma dhcp_recv_reply h yiaddr options n : 0 <= current_xid h < 2 ^ 32 -> 0 <= yiaddr < 2 ^ 32 -> DHCP_FIXED <= n ->
  dhcp_recv h (dhcp_reply (current_xid h) yiaddr options) n =
  (o ← dhcp_options (Z.to_nat DHCP_OPTIONS) (dhcp_reply (current_xid h) yiaddr options) 0 (DhcpOpts 0 0 0 0);
   mret (if (msg_type o =? DHCP_MSG_OFFER) && (dhcp_state h =? 1) then
           DhcpVars (current_xid h) (dhcp_done h) yiaddr (server_id o) (offered_router h) (offered_netmask h) 2
         else if (msg_type o =? DHCP_MSG_ACK) && (dhcp_state h =? 3) then
           DhcpVars (current_xid h) true (offered_ip h) (server_ip h) (opt_router o) (opt_netmask o) 4
         else h)).
Proof.
  intros Hx Hy Hn. destruct (dhcp_reply_fields (current_xid h) yiaddr options Hx Hy) as (E1 & E2 & E3 & E4). unfold dhcp_recv. rewrite (proj2 (Z.ltb_ge _ _)) by done.
  rewrite E1, E2, E3, E4, !bind_ret. unfold ntohl. rewrite !htonl_invol by (unfold DHCP_MAGIC_COOKIE; lia). rewrite !Z.eqb_refl. cbn [negb]. reflexivity.
Qed.

(** The options of a DHCP reply are read to the end of the 308-byte options array
    of a full reply and five bytes beyond, never to the end of the datagram: a datagram
    that holds these 553 bytes is handled, one that ends after its first option byte
    is read past its end. *)
Theorem dhcp_recv_bounds h payload yiaddr opt : 0 <= current_xid h < 2 ^ 32 -> 0 <= yiaddr < 2 ^ 32 -> opt <> 255 -> opt <> 0 ->
  (all_bytes payload -> DHCP_FIXED + DHCP_OPTIONS + 5 <= zlen payload -> exists h', dhcp_recv h payload (zlen payload) = Ret h') /\
  dhcp_recv h (dhcp_reply (current_xid h) yiaddr [opt]) (DHCP_FIXED + 1) = Oob.
Proof.
  intros Hx Hy H255 H0. split.
  - intros Hb Hl. unfold dhcp_recv. destruct (Z.ltb_spec (zlen payload) DHCP_FIXED); [by eexists|]. unfold DHCP_FIXED, DHCP_OPTIONS in *.
    destruct (load8_byte payload 0 Hb ltac:(lia)) as (op & -> & _), (load32_ok payload 4 Hb ltac:(lia) ltac:(lia)) as (a & -> & _), (load32_ok payload 16 Hb ltac:(lia) ltac:(lia)) as (b & -> & _), (load32_ok payload 236 Hb ltac:(lia) ltac:(lia)) as (c & -> & _).
    rewrite !bind_ret. do 3 (case_match; [by eexists|]). destruct (dhcp_options_ok 308 payload 0 (DhcpOpts 0 0 0 0) Hb Hl ltac:(lia) ltac:(unfold DHCP_OPTIONS; lia)) as (o & E). change (Z.to_nat 308) with 308%nat. rewrite E, bind_ret. by eexists.
  - rewrite dhcp_recv_reply by (done || (unfold DHCP_FIXED; lia)). change (Z.to_nat DHCP_OPTIONS) with (S 307).
    rewrite (dhcp_options_cut 307 _ 0 _ opt); [reflexivity|reflexivity|done|done|reflexivity|reflexivity].
Qed.

Lemma dhcp_recv_bounds_witness : dhcp_recv (DhcpVars 77 false 0 0 0 0 1) (dhcp_reply 77 9 [53]) 241 = Oob.
Proof. apply (dhcp_recv_bounds (DhcpVars 77 false 0 0 0 0 1) [] 9 53); cbn; lia. Defined.
