(* ===== verification/TcpThms.v ===== *)
(** * TCP: what a connection delivers *)

From S2P Require Import Prelude NetBase NetState NetApps Tcp Ipv4 NetLink NetIp NetThms.

(** ** Which socket a segment is for *)

Definition conn_matches (dst_port src_ip src_port : Z) (k : tcp_socket) : bool :=
  ts_valid k && (local_port k =? dst_port) && (remote_ip k =? src_ip) && (remote_port k =? src_port).

Lemma conn_matches_true dp sip sp k : conn_matches dp sip sp k = true <-> ts_valid k = true /\ local_port k = dp /\ remote_ip k = sip /\ remote_port k = sp.
Proof. unfold conn_matches. rewrite !andb_true_iff, !Z.eqb_eq. tauto. Qed.

Lemma tcp_demux_index l i dp sip sp listen : (tcp_demux l i dp sip sp listen).1 = option_map (fun j => i + Z.of_nat j) (index_of (conn_matches dp sip sp) l).
Proof.
  revert i listen. induction l as [|k l IH]; intros i listen; cbn [tcp_demux index_of]; [done|]. unfold conn_matches at 1.
  destruct (ts_valid k && (local_port k =? dp)); cbn [andb].
  - destruct ((remote_ip k =? sip) && (remote_port k =? sp)) eqn:E; cbn [option_map fst]; [f_equal; lia|].
    rewrite IH. destruct (index_of _ l); cbn; [f_equal; lia|done].
  - rewrite IH. destruct (index_of _ l); cbn; [f_equal; lia|done].
Qed.

Lemma tcp_demux_listen l i dp sip sp listen : let r := (tcp_demux l i dp sip sp listen).2 in
  r = listen \/ exists j k, l !! j = Some k /\ r = i + Z.of_nat j /\ local_port k = dp.
Proof.
  revert i listen. induction l as [|k l IH]; intros i listen; cbn [tcp_demux]; [by left|].
  assert (Hstep : forall li, (li = listen \/ li = i /\ local_port k = dp) -> let r := (tcp_demux l (i + 1) dp sip sp li).2 in
    r = listen \/ exists j k', (k :: l) !! j = Some k' /\ r = i + Z.of_nat j /\ local_port k' = dp).
  { intros li Hli. destruct (IH (i + 1) li) as [->|(j & k' & Hj & -> & Hk)].
    - destruct Hli as [->|[-> Hk]]; [by left|right]. exists 0%nat, k. split; [done|]. split; [lia|done].
    - right. exists (S j), k'. split; [done|]. split; [lia|done]. }
  destruct (ts_valid k && (local_port k =? dp)) eqn:E; [|apply Hstep; by left]. b2p. destruct (_ && _); [by left|]. apply Hstep. case_decide; [by right|by left].
Qed.

Lemma bind_Ret {A B} (m : res A) (f : A -> res B) b : (m ≫= f) = Ret b -> exists a, m = Ret a /\ f a = Ret b.
Proof. destruct m; [by eexists|done|done]. Qed.

Section TcpThms.
Context {N : Type} `{!Device N}.
Implicit Types s : net N.

(** ** Reading and updating sockets *)

Lemma sock_at_upd s a b f : sock_at (upd s a f) b = if decide (a = b /\ 0 <= a < zlen (tcp_sockets s)) then f (sock_at s b) else sock_at s b.
Proof.
  unfold sock_at at 1, upd, get_at, set_at. cbn [tcp_sockets with_tcp]. unfold zlen. case_decide as Hd.
  - destruct Hd as [-> Hr]. rewrite (proj2 (Z.leb_le 0 b)) by lia. rewrite list_lookup_insert_eq by lia. done.
  - destruct (Z.leb_spec 0 a), (Z.leb_spec 0 b); unfold sock_at, get_at; rewrite ?(proj2 (Z.leb_le 0 b)), ?(proj2 (Z.leb_gt 0 b)) by lia; try done.
    destruct (decide (a = b)) as [->|Hne]; [rewrite list_insert_ge by lia; done|]. by rewrite list_lookup_insert_ne by lia.
Qed.

Lemma index_of_upd (g : tcp_socket -> bool) s a f : (forall k, g (f k) = g k) -> index_of g (tcp_sockets (upd s a f)) = index_of g (tcp_sockets s).
Proof.
  intros Hg. unfold upd, set_at. cbn [tcp_sockets with_tcp]. destruct (Z.leb_spec 0 a); [|done]. unfold sock_at, get_at. rewrite (proj2 (Z.leb_le 0 a)) by lia.
  generalize (Z.to_nat a) as n. induction (tcp_sockets s) as [|k l IH]; intros [|n]; cbn; try done; [by rewrite Hg|]. destruct (g k); [done|]. by rewrite IH.
Qed.

(** The parts of the state a connection's data depend on. *)
Definition tcp_view s := (tcp_sockets s, tcp_received s, g_netif s, arp_table s).

(** An address whose next hop is known. *)
Definition reach s (dst : Z) : Prop := up (g_netif s) = true /\ remote s dst /\ is_Some (arp_lookup s (next_hop s dst)).

Lemma reach_view s s' dst : g_netif s' = g_netif s -> arp_table s' = arp_table s -> reach s dst -> reach s' dst.
Proof. unfold reach, remote, next_hop, arp_lookup. by intros -> ->. Qed.

Lemma eth_send_view s m t d : tcp_view (eth_send_frame s m t d).2 = tcp_view s.
Proof. unfold eth_send_frame. case_match; [done|]. by destruct (nic_send _ _). Qed.

Lemma send_view depth s k flags data : reach s (remote_ip k) ->
  exists s', tcp_send_segment (ipv4_send_packet (S depth)) s k flags data = Ret s' /\ tcp_view s' = tcp_view s.
Proof.
  intros (Hup & Hr & e & He). unfold tcp_send_segment. rewrite (send_resolved depth s (remote_ip k) _ _ e) by done. rewrite bind_ret. eexists. split; [done|]. by rewrite eth_send_view.
Qed.

(** ** A connection

    Socket [i] is the first connected to port [rport] of [rip] on port [lp], the
    stream is what that end sends, and [isn] the sequence number of its first byte. *)
Section Connection.
Context (depth : nat) (s0 : net N) (i lp rip rport isn : Z) (stream : list Z).

Abbreviation send := (ipv4_send_packet (S depth)).

(** The data the socket's callback was given. *)
Definition received s : list Z := concat (map snd (filter (fun p => p.1 = i) (tcp_received s))).

Record conn_ok s : Prop := {
  conn_index : 0 <= i /\ index_of (conn_matches lp rip rport) (tcp_sockets s) = Some (Z.to_nat i);
  conn_callback : recv_callback (sock_at s i) = true;
  conn_prefix : received s `prefix_of` stream;
  conn_netif : g_netif s = g_netif s0;
  conn_arp : arp_table s = arp_table s0;
}.

(** Closed, or expecting the byte after those delivered. *)
Definition conn_live s : Prop :=
  ts_state (sock_at s i) = TCP_STATE_CLOSED \/ ts_state (sock_at s i) = TCP_STATE_ESTABLISHED /\ ack_num (sock_at s i) = u32 (isn + zlen (received s)).

Lemma conn_view s s' : tcp_view s' = tcp_view s -> (conn_ok s -> conn_ok s') /\ (conn_live s -> conn_live s') /\ (forall j, sock_at s' j = sock_at s j).
Proof.
  unfold tcp_view. intros [= E1 E2 E3 E4]. assert (Hs : forall j, sock_at s' j = sock_at s j) by (intros j; unfold sock_at; by rewrite E1).
  assert (Hr : received s' = received s) by (unfold received; by rewrite E2). split; [|split; [|done]].
  - intros [H1 H2 H3 H4 H5]. split; rewrite ?E1, ?Hs, ?Hr, ?E3, ?E4; done.
  - unfold conn_live. by rewrite Hs, Hr.
Qed.

(** Changes of a socket that keep its connection and callback. *)
Definition keeps_conn (f : tcp_socket -> tcp_socket) : Prop :=
  forall k, ts_valid (f k) = ts_valid k /\ local_port (f k) = local_port k /\ remote_ip (f k) = remote_ip k /\ remote_port (f k) = remote_port k /\ recv_callback (f k) = recv_callback k.

Lemma conn_ok_upd s j f : keeps_conn f -> conn_ok s -> conn_ok (upd s j f).
Proof.
  intros Hf [[Hi H1] H2 H3 H4 H5]. split; try done.
  - split; [done|]. rewrite index_of_upd; [done|]. intros k. unfold conn_matches. destruct (Hf k) as (-> & -> & -> & -> & _). done.
  - rewrite sock_at_upd. case_decide; [|done]. destruct (Hf (sock_at s i)) as (_ & _ & _ & _ & ->). done.
Qed.

Lemma conn_live_upd s j f : (j = i -> forall k, ts_state (f k) = ts_state k /\ ack_num (f k) = ack_num k) -> conn_live s -> conn_live (upd s j f).
Proof.
  intros Hf. unfold conn_live. rewrite sock_at_upd. case_decide as Hd; [|done]. destruct Hd as [<- _]. destruct (Hf eq_refl (sock_at s j)) as [-> ->]. done.
Qed.

Lemma remote_upd s j a f : keeps_conn f -> remote_ip (sock_at (upd s j f) a) = remote_ip (sock_at s a).
Proof. intros Hf. rewrite sock_at_upd. case_decide; [|done]. destruct (Hf (sock_at s a)) as (_ & _ & -> & _). done. Qed.

Lemma received_notify s j data : received (notify s j data) = received s ++ if decide (j = i) then data else [].
Proof.
  unfold received, notify. cbn [tcp_received with_tcp]. rewrite filter_app, map_app, concat_app. f_equal. cbn [filter]. unfold filter, list_filter. cbn. case_decide; cbn; [by rewrite app_nil_r|done].
Qed.

Lemma conn_notify s j data : j <> i \/ data = [] -> (conn_ok s -> conn_ok (notify s j data)) /\ (conn_live s -> conn_live (notify s j data)).
Proof.
  intros Hj. assert (E : received (notify s j data) = received s) by (rewrite received_notify; case_decide; [destruct Hj as [?| ->]; [done|]|]; apply app_nil_r). split.
  - intros [H1 H2 H3 H4 H5]. split; try done. by rewrite E.
  - unfold conn_live. by rewrite E.
Qed.

(** Sending to the socket's peer, when the peer can be reached. *)
Lemma conn_send s k flags data : conn_ok s -> reach s0 (remote_ip k) -> exists s', tcp_send_segment send s k flags data = Ret s' /\ tcp_view s' = tcp_view s.
Proof. intros [_ _ _ H4 H5] Hr. apply send_view. by apply (reach_view s0). Qed.

(** ** Segments for other sockets *)

Definition other s (j src : Z) : Prop := conn_ok s /\ conn_live s /\ remote_ip (sock_at s j) = src.

Lemma other_upd s j a src f : keeps_conn f -> (a = i -> forall k, ts_state (f k) = ts_state k /\ ack_num (f k) = ack_num k) -> other s j src -> other (upd s a f) j src.
Proof. intros Hf Ha (H1 & H2 & H3). split; [by apply conn_ok_upd|]. split; [by apply conn_live_upd|]. by rewrite remote_upd. Qed.

Lemma other_send s j src flags data s' : reach s0 src -> other s j src -> tcp_send_segment send s (sock_at s j) flags data = Ret s' -> other s' j src.
Proof.
  intros Hr (H1 & H2 & H3) E. destruct (conn_send s (sock_at s j) flags data H1) as (t & Et & Hv); [by rewrite H3|]. rewrite E in Et. injection Et as <-.
  destruct (conn_view s s' Hv) as (V1 & V2 & V3). split; [auto|]. split; [auto|]. by rewrite V3.
Qed.

Lemma other_notify s j src data : j <> i -> other s j src -> other (notify s j data) j src.
Proof. intros Hj (H1 & H2 & H3). destruct (conn_notify s j data (or_introl Hj)) as [? ?]. split; [auto|]. split; [auto|done]. Qed.

Lemma other_deliver s j src d s' : j <> i -> other s j src -> deliver s j d = Ret s' -> other s' j src.
Proof.
  intros Hj Ho. unfold deliver. case_match; [|intros [= <-]; done]. intros (data & _ & E)%bind_Ret. injection E as <-. by apply other_notify.
Qed.

Lemma other_accepted s j src ack d s' : j <> i -> other s j src -> tcp_accepted s j ack d = Ret s' -> other s' j src.
Proof.
  intros Hj Ho. unfold tcp_accepted. set (s1 := upd s j _). assert (H1 : other s1 j src) by (apply other_upd; done). clearbody s1.
  set (s2 := if _ && _ then _ else s1). assert (H2 : other s2 j src) by (subst s2; case_match; [apply other_upd; done|done]). clearbody s2.
  case_match; [|intros [= <-]; done]. intros (s3 & E & E')%bind_Ret. injection E' as <-. apply other_upd; [done|done|]. by eapply other_deliver.
Qed.

Lemma other_fin s j src s' : j <> i -> reach s0 src -> other s j src -> tcp_fin send s j = Ret s' -> other s' j src.
Proof.
  intros Hj Hr Ho. unfold tcp_fin. intros (s1 & E & E')%bind_Ret. injection E' as <-. apply other_upd; [done|done|]. eapply (other_send _ _ _ _ _ _ Hr); [|exact E]. by apply other_upd.
Qed.

Lemma other_established s j src flags seq ack d s' : j <> i -> reach s0 src -> other s j src -> tcp_established send s j flags seq ack d = Ret s' -> other s' j src.
Proof.
  intros Hj Hr Ho. unfold tcp_established. set (s1 := if _ && _ then _ else s). assert (H1 : other s1 j src) by (subst s1; case_match; [apply other_upd; done|done]). clearbody s1.
  intros (s2 & E & E')%bind_Ret. assert (H2 : other s2 j src).
  { clear E'. revert E. case_match; [|intros [= <-]; done]. case_match; [|case_match; [apply (other_send _ _ _ _ _ _ Hr H1)|intros [= <-]; done]].
    intros (s3 & E3 & E4)%bind_Ret. eapply (other_send _ _ _ _ _ _ Hr); [|exact E4]. apply other_upd; [done|done|]. by eapply other_deliver. }
  clear E. revert E'. case_match; [|intros [= <-]; done]. intros (s3 & E3 & E4)%bind_Ret. injection E4 as <-. assert (H3 : other s3 j src) by (eapply (other_send _ _ _ _ _ _ Hr); [|exact E3]; by apply other_upd).
  case_match; [apply other_notify; [done|]|]; by apply other_upd.
Qed.

Lemma other_input s j src flags seq ack d s' : j <> i -> reach s0 src -> other s j src -> tcp_input send s j flags seq ack d = Ret s' -> other s' j src.
Proof.
  intros Hj Hr Ho. unfold tcp_input. case_match; [intros [= <-]; by apply other_upd|]. destruct (ts_state (sock_at s j)); try (intros [= <-]; done).
  - case_match; [|intros [= <-]; done]. apply (other_send _ _ _ _ _ _ Hr). by apply other_upd.
  - case_match; [|intros [= <-]; done]. by apply other_accepted.
  - by apply other_established.
  - set (s1 := if has flags TCP_FLAG_ACK then _ else s). assert (H1 : other s1 j src) by (subst s1; case_match; [apply other_upd; done|done]). clearbody s1. case_match; [by apply other_fin|intros [= <-]; done].
  - case_match; [by apply other_fin|intros [= <-]; done].
Qed.

(** ** Segments for the connection *)

(** The data of a segment are those of the stream at its sequence number. *)
Definition honest (seq : Z) (d : seg_data) : Prop := forall data, 0 < sd_len d -> slice (sd_packet d) (sd_offset d) (sd_len d) = Ret data ->
  exists p, seq = u32 (isn + Z.of_nat p) /\ data = take (length data) (drop p stream) /\ (p + length data <= length stream)%nat.

Lemma conn_socket s : conn_ok s -> 0 <= i < zlen (tcp_sockets s) /\ remote_ip (sock_at s i) = rip.
Proof.
  intros [[Hi Hx] _ _ _ _]. apply index_of_Some in Hx as (k & Hk & Hm & _). apply conn_matches_true in Hm as (_ & _ & <- & _). unfold sock_at, get_at, zlen.
  rewrite (proj2 (Z.leb_le 0 i)), Hk by done. apply lookup_lt_Some in Hk. split; [lia|done].
Qed.

Lemma prefix_extends (r data : list Z) p : r `prefix_of` stream -> zlen stream < 2 ^ 32 -> u32 (isn + Z.of_nat p) = u32 (isn + zlen r) ->
  data = take (length data) (drop p stream) -> (p + length data <= length stream)%nat -> (r ++ data) `prefix_of` stream.
Proof.
  intros Hr Hs He Hd Hp. pose proof (prefix_length _ _ Hr) as Hl. assert (p = length r) as ->.
  { unfold zlen in *. unfold u32 in He. rewrite (Z.add_comm isn), (Z.add_comm isn (Z.of_nat (length r))) in He. apply (f_equal (fun x => (x - isn) mod 2 ^ 32)) in He.
    rewrite !Zminus_mod_idemp_l in He. replace (Z.of_nat p + isn - isn) with (Z.of_nat p) in He by lia. replace (Z.of_nat (length r) + isn - isn) with (Z.of_nat (length r)) in He by lia. rewrite !Z.mod_small in He by lia. lia. }
  destruct Hr as [t ->]. rewrite drop_app_length in Hd. rewrite Hd. exists (drop (length data) t). rewrite <- app_assoc. f_equal. by rewrite take_drop.
Qed.

Lemma slice_zlen buf a n data : slice buf a n = Ret data -> zlen data = n.
Proof. unfold slice. case_match eqn:E; [|done]. b2p. intros [= <-]. unfold zlen in *. rewrite length_take, length_drop. lia. Qed.

Lemma own_deliver s d s' : zlen stream < 2 ^ 32 -> conn_ok s -> 0 < sd_len d -> honest (ack_num (sock_at s i)) d -> ack_num (sock_at s i) = u32 (isn + zlen (received s)) ->
  deliver s i d = Ret s' -> conn_ok s' /\ zlen (received s') = zlen (received s) + sd_len d /\ tcp_sockets s' = tcp_sockets s.
Proof.
  intros Hs Hok Hl Hh Ha. unfold deliver. rewrite (conn_callback s Hok). intros (data & E & E')%bind_Ret. injection E' as <-. destruct (Hh data Hl E) as (p & Ep & Ed & Hp).
  pose proof (slice_zlen _ _ _ _ E) as Hz. assert (Er : received (notify s i data) = received s ++ data) by (rewrite received_notify; by case_decide).
  split; [|split; [rewrite Er; unfold zlen in *; rewrite length_app; lia|done]]. destruct Hok as [H1 H2 H3 H4 H5]. split; try done. rewrite Er. apply (prefix_extends _ _ p); try done. congruence.
Qed.

Lemma own_send s flags data s' : reach s0 rip -> conn_ok s -> tcp_send_segment send s (sock_at s i) flags data = Ret s' -> conn_ok s' /\ tcp_view s' = tcp_view s.
Proof.
  intros Hr Hok E. destruct (conn_send s (sock_at s i) flags data Hok) as (t & Et & Hv); [by rewrite (proj2 (conn_socket s Hok))|]. rewrite E in Et. injection Et as <-. split; [|done]. by apply (conn_view s).
Qed.

(** The two halves of a segment in the state ESTABLISHED. *)
Lemma own_data s seq d s' : zlen stream < 2 ^ 32 -> reach s0 rip -> conn_ok s -> ts_state (sock_at s i) = TCP_STATE_ESTABLISHED -> ack_num (sock_at s i) = u32 (isn + zlen (received s)) -> honest seq d ->
  (if sd_len d >? 0 then
     if seq =? ack_num (sock_at s i) then
       s1 ← deliver s i d;
       tcp_send_segment send (upd s1 i (fun k => with_seq k (seq_num k) (u32 (ack_num k + sd_len d)))) (sock_at (upd s1 i (fun k => with_seq k (seq_num k) (u32 (ack_num k + sd_len d)))) i) TCP_FLAG_ACK []
     else if s32 (seq - ack_num (sock_at s i)) <? 0 then tcp_send_segment send s (sock_at s i) TCP_FLAG_ACK [] else mret s
   else mret s) = Ret s' -> conn_ok s' /\ conn_live s'.
Proof.
  intros Hs Hr Hok Hst Ha Hh. assert (Hlive : conn_live s) by (by right). destruct (Z.gtb_spec (sd_len d) 0) as [Hl|]; [|intros [= <-]; done].
  destruct (Z.eqb_spec seq (ack_num (sock_at s i))) as [->|_]; [|case_match; [|intros [= <-]; done]].
  - intros (s1 & E & E')%bind_Ret. destruct (own_deliver s d s1 Hs Hok ltac:(lia) Hh Ha E) as (Hok1 & Hz & Hk). pose proof (conn_socket s1 Hok1) as [Hi _].
    apply own_send in E' as [Hok' Hv]; [|done|by apply conn_ok_upd]. split; [done|]. apply (conn_view _ _ Hv). right. rewrite sock_at_upd, decide_True by done.
    assert (sock_at s1 i = sock_at s i) as -> by (unfold sock_at; by rewrite Hk). split; [done|]. cbn [ack_num with_seq]. change (received (upd s1 i _)) with (received s1). rewrite Hz, Ha. unfold u32. rewrite Zplus_mod_idemp_l. f_equal. lia.
  - intros [Hok' Hv]%own_send; [|done|done]. split; [done|]. by apply (conn_view _ _ Hv).
Qed.

Lemma own_input s flags seq ack d s' : zlen stream < 2 ^ 32 -> reach s0 rip -> conn_ok s -> conn_live s -> honest seq d -> tcp_input send s i flags seq ack d = Ret s' -> conn_ok s' /\ conn_live s'.
Proof.
  intros Hs Hr Hok Hlive Hh. assert (Hclose : forall t, conn_ok t -> conn_ok (upd t i (fun k => with_state k TCP_STATE_CLOSED)) /\ conn_live (upd t i (fun k => with_state k TCP_STATE_CLOSED))).
  { intros t Ht. split; [by apply conn_ok_upd|]. left. rewrite sock_at_upd, decide_True; [done|]. split; [done|]. by apply conn_socket. }
  unfold tcp_input. case_match; [intros [= <-]; by apply Hclose|]. destruct Hlive as [Hst|[Hst Ha]]; rewrite Hst; [intros [= <-]; split; [done|by left]|].
  unfold tcp_established. set (s1 := if _ && _ then _ else s). assert (H1 : conn_ok s1 /\ conn_live s1) by (subst s1; case_match; [split; [by apply conn_ok_upd|apply conn_live_upd; [done|by right]]|split; [done|by right]]).
  assert (Hst1 : ts_state (sock_at s1 i) = TCP_STATE_ESTABLISHED) by (subst s1; case_match; [rewrite sock_at_upd; by case_decide|done]). clearbody s1. destruct H1 as [Hok1 [Hbad|[_ Ha1]]]; [congruence|].
  intros (s2 & E & E')%bind_Ret. apply own_data in E as [Hok2 Hlive2]; try done. revert E'. case_match; [|intros [= <-]; done].
  intros (s3 & E3 & E4)%bind_Ret. injection E4 as <-. apply own_send in E3 as [Hok3 _]; [|done|by apply conn_ok_upd]. destruct (Hclose s3 Hok3) as [Hok4 Hlive4].
  case_match; [|done]. destruct (conn_notify (upd s3 i (fun k => with_state k TCP_STATE_CLOSED)) i [] (or_intror eq_refl)). auto.
Qed.

(** ** Any arrival *)

(** The segment is from the other end of the connection: its data are the stream's. *)
Definition from_peer (payload : list Z) (src : Z) : Prop :=
  src = rip /\ exists sp dp, load16 payload 0 = Ret sp /\ load16 payload 2 = Ret dp /\ ntohs sp = rport /\ ntohs dp = lp.

Definition peer_honest (payload : list Z) (len src : Z) : Prop := from_peer payload src ->
  forall sq off, load32 payload 4 = Ret sq -> load8 payload 12 = Ret off ->
  honest (ntohl sq) (SegData payload (u8 (Z.shiftr off 4 * 4)) (len - u8 (Z.shiftr off 4 * 4))).

(** A segment arrives, from any address that can be reached. *)
Definition arrives s s' : Prop := exists payload len src, reach s0 src /\ peer_honest payload len src /\ tcp_handle_packet send s payload len src = Ret s'.

Lemma new_connection_other s l src sp seq s' : conn_ok s -> conn_live s -> reach s0 src -> (local_port (sock_at s l), src, sp) <> (lp, rip, rport) ->
  tcp_new_connection send s l src sp seq = Ret (Some s') -> conn_ok s' /\ conn_live s'.
Proof.
  intros Hok Hlive Hr Hne. unfold tcp_new_connection, free_sock. destruct (index_of (fun k => negb (ts_valid k)) (tcp_sockets s)) as [a|] eqn:Ea; [|done].
  case_match; [|done]. destruct (tcp_generate_isn s) as [n s1] eqn:En. assert (Hv : tcp_view s1 = tcp_view s) by (revert En; unfold tcp_generate_isn; destruct (rdtsc (dev s)); by intros [= <- <-]).
  destruct (conn_view s s1 Hv) as (V1 & V2 & V3). assert (Hks : tcp_sockets s1 = tcp_sockets s) by (by injection Hv). set (k := TcpSocket _ _ _ _ _ _ _ _ _ _ _ _). intros (s2 & E & E')%bind_Ret. injection E' as <-.
  apply index_of_Some in Ea as (old & Hold & Hinv & _). apply negb_true_iff in Hinv. pose proof (lookup_lt_Some _ _ _ Hold) as Hlt.
  assert (Hai : Z.of_nat a <> i).
  { intros Hai. destruct Hok as [[_ Hx] _ _ _ _]. apply index_of_Some in Hx as (k' & Hk' & Hm & _). rewrite <- Hai, Nat2Z.id in Hk'. apply conn_matches_true in Hm as [? _]. congruence. }
  set (t := upd s1 (Z.of_nat a) (fun _ => k)) in *. assert (Hk : sock_at t (Z.of_nat a) = k) by (subst t; rewrite sock_at_upd, decide_True; [done|]; rewrite Hks; unfold zlen; lia).
  assert (Hi : sock_at t i = sock_at s1 i) by (subst t; rewrite sock_at_upd, decide_False; [done|]; by intros [? _]). assert (Hokt : conn_ok t).
  { destruct (V1 Hok) as [[H0 H1] H2 H3 H4 H5]. split; try done; [|by rewrite Hi]. split; [done|]. subst t. unfold upd, set_at. cbn [tcp_sockets with_tcp]. rewrite (proj2 (Z.leb_le 0 _)) by lia. rewrite Nat2Z.id, (find_insert _ _ _ _ old); [done|by rewrite Hks| |].
    - unfold conn_matches. by rewrite Hinv.
    - destruct (conn_matches lp rip rport k) eqn:Em; [|done]. apply conn_matches_true in Em as (_ & E1 & E2 & E3). destruct Hne. cbn in E1, E2, E3. congruence. }
  rewrite Hk in E. destruct (conn_send t k (Z.lor TCP_FLAG_SYN TCP_FLAG_ACK) [] Hokt) as (s3 & E3 & Hv3); [exact Hr|]. rewrite E3 in E. injection E as <-. destruct (conn_view t s3 Hv3) as (W1 & W2 & _). split; [auto|]. apply W2. unfold conn_live. rewrite Hi. by apply V2.
Qed.

Lemma arrives_ok s s' : zlen stream < 2 ^ 32 -> reach s0 rip -> arrives s s' -> conn_ok s -> conn_live s -> conn_ok s' /\ conn_live s'.
Proof.
  intros Hs Hrip (payload & len & src & Hr & Hh & E) Hok Hlive. revert E. unfold tcp_handle_packet. case_match; [intros [= <-]; done|].
  intros (sp & Esp & E)%bind_Ret. apply bind_Ret in E as (dp & Edp & E). apply bind_Ret in E as (sq & Esq & E). apply bind_Ret in E as (ak & _ & E). apply bind_Ret in E as (off & Eoff & E). apply bind_Ret in E as (flags & _ & E).
  revert E. case_match; [intros [= <-]; done|].
  pose proof (tcp_demux_index (tcp_sockets s) 0 (ntohs dp) src (ntohs sp) (-1)) as Hd. pose proof (tcp_demux_listen (tcp_sockets s) 0 (ntohs dp) src (ntohs sp) (-1)) as Hl. destruct (tcp_demux _ _ _ _ _ _) as [sock l]. cbn [fst snd] in Hd, Hl.
  destruct (index_of (conn_matches (ntohs dp) src (ntohs sp)) (tcp_sockets s)) as [j|] eqn:Ej; cbn [option_map] in Hd; subst sock.
  - apply index_of_Some in Ej as (k & Hk & Hm & _). apply conn_matches_true in Hm as (Hv & Hp1 & Hp2 & Hp3). assert (Hsj : sock_at s (0 + Z.of_nat j) = k) by (unfold sock_at, get_at; rewrite (proj2 (Z.leb_le 0 _)) by lia; rewrite Z.add_0_l, Nat2Z.id; by rewrite Hk).
    destruct (decide (0 + Z.of_nat j = i)) as [Hji|Hji].
    + rewrite Hji in *. apply own_input; try done. apply Hh; [|done|done]. pose proof (conn_index s Hok) as [Hi0 Hx]. apply index_of_Some in Hx as (k' & Hk' & Hm & _).
      apply conn_matches_true in Hm as (_ & Hq1 & Hq2 & Hq3). replace (Z.to_nat i) with j in Hk' by lia. rewrite Hk in Hk'. injection Hk' as <-. split; [congruence|]. exists sp, dp. repeat split; congruence.
    + intros E. eapply (other_input s _ src) in E as (? & ? & _); [done|done|done|]. split; [done|]. split; [done|]. by rewrite Hsj.
  - case_match eqn:Eg; [|intros [= <-]; done]. intros (r & E & E')%bind_Ret. destruct r as [t|]; injection E' as <-; [|done]. eapply new_connection_other; [done|done|done| |exact E].
    destruct Hl as [->|(j & k & Hk & -> & Hp)]; [done|]. intros [= H1 -> H3]. rewrite Z.add_0_l in H1. unfold sock_at, get_at in H1. rewrite (proj2 (Z.leb_le 0 _)), Nat2Z.id, Hk in H1 by lia. cbn in H1.
    destruct Hok as [[_ Hx] _ _ _ _]. rewrite <- H1, Hp, <- H3 in Hx. congruence.
Qed.

Lemma arrivals_ok s s' : zlen stream < 2 ^ 32 -> reach s0 rip -> rtc arrives s s' -> conn_ok s -> conn_live s -> conn_ok s' /\ conn_live s'.
Proof. intros Hs Hr Hst. induction Hst as [s|a b c Hab _ IH]; [done|]. intros Ha Hla. destruct (arrives_ok a b Hs Hr Hab Ha Hla) as [Hb Hlb]. by apply IH. Qed.
End Connection.

(** C26: What an established connection delivers to its callback is always a prefix of
    the stream the other end sends, whatever segments arrive: the peer's, in any order,
    repeated or overlapping in sequence number space, with any flags, and arbitrary
    ones from other hosts, for other sockets or opening new connections. *)
Theorem tcp_delivers_prefix depth s s' i lp rip rport isn stream : zlen stream < 2 ^ 32 -> reach s rip ->
  0 <= i -> index_of (conn_matches lp rip rport) (tcp_sockets s) = Some (Z.to_nat i) -> recv_callback (sock_at s i) = true ->
  ts_state (sock_at s i) = TCP_STATE_ESTABLISHED -> ack_num (sock_at s i) = u32 isn -> received i s = [] ->
  rtc (arrives depth s lp rip rport isn stream) s s' -> received i s' `prefix_of` stream.
Proof.
  intros Hs Hr Hi Hx Hc Hst Ha Hrc Hstep. assert (H0 : conn_ok s i lp rip rport stream s /\ conn_live i isn s).
  { split; [split; try done; rewrite Hrc; apply prefix_nil|]. right. split; [done|]. rewrite Ha, Hrc. f_equal. unfold zlen. cbn. lia. }
  by destruct (arrivals_ok depth s i lp rip rport isn stream s s' Hs Hr Hstep (proj1 H0) (proj2 H0)) as [[_ _ ? _ _] _].
Qed.
End TcpThms.
