(* ===== verification/TcpData.v ===== *)
(** * TCP: segments in and out of order *)

From S2P Require Import Prelude NetBase NetState NetApps Tcp Ipv4 NetLink NetIp NetThms TcpThms.

(** ** The fields of a segment *)

(** Ports and numbers within their fields. *)
Definition sock_fields (k : tcp_socket) : Prop :=
  0 <= local_port k < 65536 /\ 0 <= remote_port k < 65536 /\ 0 <= seq_num k < 2 ^ 32 /\ 0 <= ack_num k < 2 ^ 32.

Lemma load16_at l1 x l2 i : 0 <= x < 65536 -> i = zlen l1 -> load16 (l1 ++ bytes16 x ++ l2) i = Ret x.
Proof. intros Hx ->. by apply load16_bytes. Qed.

Lemma load32_segment l1 x l2 i : 0 <= x < 2 ^ 32 -> i = zlen l1 -> load32 (l1 ++ bytes32 x ++ l2) i = Ret x.
Proof. intros Hx ->. by apply load32_bytes. Qed.

Lemma segment_fields k flags cks data : let p := tcp_segment k flags cks data in
  load16 p 0 = Ret (htons (local_port k)) /\ load16 p 2 = Ret (htons (remote_port k)) /\ load32 p 4 = Ret (htonl (seq_num k)) /\
  load32 p 8 = Ret (if has flags TCP_FLAG_ACK then htonl (ack_num k) else 0) /\ load8 p 12 = Ret 80 /\ load8 p 13 = Ret flags /\ slice p 20 (zlen data) = Ret data.
Proof.
  intros p. split; [by apply (load16_at []); [apply htons_range|]|]. split; [by apply (load16_at (bytes16 (htons (local_port k)))); [apply htons_range|]|].
  split; [by apply (load32_segment (bytes16 (htons (local_port k)) ++ bytes16 (htons (remote_port k)))); [apply htonl_range|]|].
  split; [apply (load32_segment (bytes16 (htons (local_port k)) ++ bytes16 (htons (remote_port k)) ++ bytes32 (htonl (seq_num k)))); [destruct (has _ _); [apply htonl_range|lia]|done]|].
  split; [done|]. split; [done|]. pose proof (slice_app (take 20 p) data []) as H. rewrite app_nil_r in H. exact H.
Qed.

Lemma segment_handled {N} `{!Device N} send (s : net N) k flags cks data src j : sock_fields k -> zlen data <= 1460 ->
  index_of (conn_matches (remote_port k) src (local_port k)) (tcp_sockets s) = Some j ->
  tcp_handle_packet send s (tcp_segment k flags cks data) (20 + zlen data) src =
  tcp_input send s (Z.of_nat j) flags (seq_num k) (if has flags TCP_FLAG_ACK then ack_num k else 0) (SegData (tcp_segment k flags cks data) 20 (zlen data)).
Proof.
  intros (H1 & H2 & H3 & H4) Hd Hj. destruct (segment_fields k flags cks data) as (E1 & E2 & E3 & E4 & E5 & E6 & _). unfold tcp_handle_packet. pose proof (zlen_nonneg data).
  rewrite (proj2 (Z.ltb_ge _ _)) by (unfold TCP_HEADER_LEN; lia). rewrite E1, E2, E3, E4, E5, E6, !bind_ret. change (u8 (Z.shiftr 80 4 * 4)) with 20. rewrite (proj2 (Z.ltb_ge _ _)) by (unfold TCP_HEADER_LEN; lia). rewrite Z.gtb_ltb, (proj2 (Z.ltb_ge _ _)) by lia. cbn [orb].
  unfold ntohs, ntohl. rewrite !htons_invol, htonl_invol by done. pose proof (tcp_demux_index (tcp_sockets s) 0 (remote_port k) src (local_port k) (-1)) as Hx. rewrite Hj in Hx. destruct (tcp_demux _ _ _ _ _ _) as [sock l]. cbn [fst option_map] in Hx. subst sock.
  replace (20 + zlen data - 20) with (zlen data) by lia. rewrite Z.add_0_l. destruct (has flags TCP_FLAG_ACK); [by rewrite htonl_invol|]. done.
Qed.

Section TcpData.
Context {N : Type} `{!Device N}.
Implicit Types s : net N.

Lemma sock_at_index s j k f : tcp_sockets s !! j = Some k -> sock_at s (Z.of_nat j) = k /\ sock_at (upd s (Z.of_nat j) f) (Z.of_nat j) = f k.
Proof.
  intros Hj. assert (E : sock_at s (Z.of_nat j) = k) by (unfold sock_at, get_at; rewrite (proj2 (Z.leb_le 0 _)) by lia; by rewrite Nat2Z.id, Hj).
  split; [done|]. rewrite sock_at_upd, decide_True, E; [done|]. apply lookup_lt_Some in Hj. unfold zlen. lia.
Qed.

Lemma upd_sockets s j f : (j < length (tcp_sockets s))%nat -> tcp_sockets (upd s (Z.of_nat j) f) = <[j := f (sock_at s (Z.of_nat j))]> (tcp_sockets s).
Proof. intros Hj. unfold upd, set_at. cbn [tcp_sockets with_tcp]. rewrite (proj2 (Z.leb_le 0 _)) by lia. by rewrite Nat2Z.id. Qed.

(** The socket after the acknowledgement in a segment. *)
Definition acked (k : tcp_socket) (flags ack : Z) : tcp_socket :=
  if has flags TCP_FLAG_ACK && (s32 (ack - seq_num k) >? 0) then with_seq k ack (ack_num k) else k.

Lemma acked_again k flags ack n : has flags TCP_FLAG_ACK && (s32 (ack - seq_num (with_seq (acked k flags ack) (seq_num (acked k flags ack)) n)) >? 0) = false.
Proof. unfold acked. cbn [seq_num with_seq]. destruct (has flags TCP_FLAG_ACK && (s32 (ack - seq_num k) >? 0)) eqn:E; cbn [seq_num with_seq]; [|done]. rewrite Z.sub_diag. apply andb_false_r. Qed.

Lemma acked_fields k flags ack : ts_state (acked k flags ack) = ts_state k /\ recv_callback (acked k flags ack) = recv_callback k /\ ack_num (acked k flags ack) = ack_num k /\ remote_ip (acked k flags ack) = remote_ip k.
Proof. unfold acked. by case_match. Qed.

(** Data that were just acknowledged are old. *)
Lemma old_data x n : 0 <= x < 2 ^ 32 -> 0 < n <= 1460 -> s32 (x - u32 (x + n)) < 0 /\ x <> u32 (x + n).
Proof.
  intros Hx Hn. assert (Hu : exists q, u32 (x + n) = x + n - 2 ^ 32 * q) by (exists ((x + n) / 2 ^ 32); unfold u32; pose proof (Z.div_mod (x + n) (2 ^ 32) ltac:(lia)); lia). pose proof (u32_range (x + n)) as Hr. destruct Hu as [q Hq].
  assert (Hm : u32 (x - u32 (x + n)) = 2 ^ 32 - n) by (symmetry; apply (Z.mod_unique _ _ (q - 1)); lia). unfold s32. rewrite Hm, (proj2 (Z.ltb_ge _ _)) by lia. lia.
Qed.

(** The frame of an acknowledgement to a host whose next hop has address [m]. *)
Definition ack_frame s (k : tcp_socket) (m : list Z) : list Z :=
  let cks := tcp_calculate_checksum (local_ip k) (remote_ip k) (tcp_segment k TCP_FLAG_ACK 0 []) in
  eth_frame (mac (g_netif s)) m ETHERTYPE_IPV4 (ipv4_packet (next_id s) PROTO_TCP (ip (g_netif s)) (remote_ip k) (tcp_segment k TCP_FLAG_ACK cks [])).

Lemma send_ack depth s k e : up (g_netif s) = true -> remote s (remote_ip k) -> arp_lookup s (next_hop s (remote_ip k)) = Some e ->
  exists s', tcp_send_segment (ipv4_send_packet (S depth)) s k TCP_FLAG_ACK [] = Ret s' /\ tcp_view s' = tcp_view s /\ dev s' = (nic_send (dev s) (ack_frame s k (ae_mac e))).2.
Proof.
  intros Hup Hr He. unfold tcp_send_segment. rewrite (send_resolved depth s (remote_ip k) _ _ e) by done. rewrite eth_send_fits by (rewrite ipv4_packet_length; cbv; discriminate). rewrite bind_ret. eexists. done.
Qed.

(** The in-order segment, and the same again. *)
Lemma established_in_order depth s j k flags ack d data e : tcp_sockets s !! j = Some k -> recv_callback k = true -> 0 < sd_len d ->
  slice (sd_packet d) (sd_offset d) (sd_len d) = Ret data -> has flags TCP_FLAG_FIN = false ->
  up (g_netif s) = true -> remote s (remote_ip k) -> arp_lookup s (next_hop s (remote_ip k)) = Some e ->
  let k' := with_seq (acked k flags ack) (seq_num (acked k flags ack)) (u32 (ack_num k + sd_len d)) in
  exists s', tcp_established (ipv4_send_packet (S depth)) s (Z.of_nat j) flags (ack_num k) ack d = Ret s' /\ dev s' = (nic_send (dev s) (ack_frame s k' (ae_mac e))).2 /\
    tcp_received s' = tcp_received s ++ [(Z.of_nat j, data)] /\ tcp_sockets s' = <[j := k']> (tcp_sockets s) /\ g_netif s' = g_netif s /\ arp_table s' = arp_table s.
Proof.
  intros Hk Hcb Hl Esl Hfin Hup Hr He k'. pose proof (lookup_lt_Some _ _ _ Hk) as Hlt. destruct (sock_at_index s j k (fun k => with_seq k ack (ack_num k)) Hk) as [Hs Hs'].
  unfold tcp_established. rewrite Hs. set (s1 := if _ && _ then _ else s). assert (H1 : sock_at s1 (Z.of_nat j) = acked k flags ack) by (subst s1; unfold acked; by case_match).
  assert (Hk1 : tcp_sockets s1 = <[j := acked k flags ack]> (tcp_sockets s)) by (subst s1; unfold acked; case_match; [by rewrite upd_sockets, Hs|by rewrite list_insert_id]).
  assert (Hv : tcp_received s1 = tcp_received s /\ dev s1 = dev s /\ next_id s1 = next_id s /\ g_netif s1 = g_netif s /\ arp_table s1 = arp_table s) by (subst s1; by case_match). clearbody s1. destruct Hv as (V1 & V2 & V3 & V4 & V5).
  destruct (acked_fields k flags ack) as (_ & A2 & A3 & A4). rewrite Z.gtb_ltb, (proj2 (Z.ltb_lt 0 _)), H1, A3, Z.eqb_refl by lia. unfold deliver. rewrite H1, A2, Hcb, Esl, !bind_ret, Hfin.
  assert (Hlt1 : (j < length (tcp_sockets s1))%nat) by (by rewrite Hk1, length_insert). set (n := notify s1 (Z.of_nat j) data). assert (Hn : tcp_sockets n !! j = Some (acked k flags ack)) by (cbn; rewrite Hk1; by apply list_lookup_insert_eq).
  destruct (sock_at_index n j _ (fun k => with_seq k (seq_num k) (u32 (ack_num k + sd_len d))) Hn) as [Hn1 ->]. set (t := upd n _ _). cbv beta. rewrite A3. fold k'.
  assert (Ht : tcp_sockets t = <[j := k']> (tcp_sockets s)) by (subst t; rewrite upd_sockets, Hn1 by done; cbv beta; rewrite A3; cbn [n notify tcp_sockets with_tcp]; by rewrite Hk1, list_insert_insert_eq).
  assert (Ek : remote_ip k' = remote_ip k) by (cbn [k' remote_ip with_seq]; done). assert (Hg : g_netif t = g_netif s /\ arp_table t = arp_table s /\ dev t = dev s /\ next_id t = next_id s /\ tcp_received t = tcp_received s ++ [(Z.of_nat j, data)]) by (repeat split; [done..|cbn; by rewrite V1]). destruct Hg as (G1 & G2 & G3 & G4 & G5).
  destruct (send_ack depth t k' e) as (s' & -> & Ev & Ed); [by rewrite G1|unfold remote in *; by rewrite Ek, G1|unfold next_hop, arp_lookup in *; by rewrite Ek, G1, G2|]. exists s'. rewrite bind_ret.
  injection Ev as W1 W2 W3 W4. split; [done|]. split; [rewrite Ed; unfold ack_frame; by rewrite G1, G3, G4|]. split; [by rewrite W2|]. split; [by rewrite W1|]. split; [by rewrite W3|by rewrite W4].
Qed.

Lemma established_old depth s j k flags seq ack d e : tcp_sockets s !! j = Some k -> 0 < sd_len d -> has flags TCP_FLAG_FIN = false ->
  has flags TCP_FLAG_ACK && (s32 (ack - seq_num k) >? 0) = false -> s32 (seq - ack_num k) < 0 /\ seq <> ack_num k ->
  up (g_netif s) = true -> remote s (remote_ip k) -> arp_lookup s (next_hop s (remote_ip k)) = Some e ->
  exists s', tcp_established (ipv4_send_packet (S depth)) s (Z.of_nat j) flags seq ack d = Ret s' /\ tcp_view s' = tcp_view s /\ dev s' = (nic_send (dev s) (ack_frame s k (ae_mac e))).2.
Proof.
  intros Hk Hl Hfin Hack [Hold Hne] Hup Hr He. destruct (sock_at_index s j k (fun k => k) Hk) as [Hs _]. unfold tcp_established. rewrite Hs, Hack, Hs, Z.gtb_ltb, (proj2 (Z.ltb_lt 0 _)) by done.
  rewrite (proj2 (Z.eqb_neq _ _)), (proj2 (Z.ltb_lt _ 0)) by done. destruct (send_ack depth s k e Hup Hr He) as (s' & -> & Hv). exists s'. rewrite bind_ret, Hfin. done.
Qed.

(** C27: A segment with the next bytes of an established connection is delivered, when the
    next hop to its sender is in the ARP cache: the callback is given exactly its data,
    the expected number advances by their length modulo 2^32, and one frame that
    acknowledges them is given to the card.  The same segment once more delivers nothing
    and changes no socket, and one frame that acknowledges the same bytes is sent. *)
Theorem tcp_in_order_delivered depth s j k peer flags cks data e : sock_fields peer -> 0 < zlen data <= 1460 ->
  has flags TCP_FLAG_RST = false -> has flags TCP_FLAG_FIN = false ->
  index_of (conn_matches (remote_port peer) (local_ip peer) (local_port peer)) (tcp_sockets s) = Some j -> tcp_sockets s !! j = Some k ->
  ts_state k = TCP_STATE_ESTABLISHED -> recv_callback k = true -> ack_num k = seq_num peer -> remote_ip k = local_ip peer ->
  up (g_netif s) = true -> remote s (local_ip peer) -> arp_lookup s (next_hop s (local_ip peer)) = Some e ->
  let k1 := acked k flags (ack_num peer) in
  let k' := with_seq k1 (seq_num k1) (u32 (ack_num k + zlen data)) in
  let handle t := tcp_handle_packet (ipv4_send_packet (S depth)) t (tcp_segment peer flags cks data) (20 + zlen data) (local_ip peer) in
  exists s' s'', handle s = Ret s' /\ tcp_received s' = tcp_received s ++ [(Z.of_nat j, data)] /\ tcp_sockets s' = <[j := k']> (tcp_sockets s) /\
    dev s' = (nic_send (dev s) (ack_frame s k' (ae_mac e))).2 /\
    handle s' = Ret s'' /\ tcp_received s'' = tcp_received s' /\ tcp_sockets s'' = tcp_sockets s' /\ dev s'' = (nic_send (dev s') (ack_frame s' k' (ae_mac e))).2.
Proof.
  intros Hp Hd Hrst Hfin Hx Hk Hst Hcb Hseq Hrem Hup Hr He k1 k' handle. pose proof (lookup_lt_Some _ _ _ Hk) as Hlt. destruct (sock_at_index s j k (fun k => k) Hk) as [Hs _].
  destruct (acked_fields k flags (ack_num peer)) as (A1 & A2 & A3 & A4). fold k1 in A1, A2, A3, A4. destruct (segment_fields peer flags cks data) as (_ & _ & _ & _ & _ & _ & Esl).
  assert (Hin : forall t, index_of (conn_matches (remote_port peer) (local_ip peer) (local_port peer)) (tcp_sockets t) = Some j -> handle t = tcp_input (ipv4_send_packet (S depth)) t (Z.of_nat j) flags (seq_num peer) (if has flags TCP_FLAG_ACK then ack_num peer else 0) (SegData (tcp_segment peer flags cks data) 20 (zlen data))).
  { intros t Ht. by apply segment_handled; [|lia|]. }
  set (a := if has flags TCP_FLAG_ACK then ack_num peer else 0) in *. assert (Ea : acked k flags a = k1) by (subst a k1; unfold acked; by destruct (has flags TCP_FLAG_ACK)).
  set (d := SegData (tcp_segment peer flags cks data) 20 (zlen data)) in *.
  destruct (established_in_order depth s j k flags a d data e) as (s' & E & E1 & E4 & E5 & E6 & E7); try done; [cbn; lia|by rewrite Hrem|by rewrite Hrem|]. rewrite Ea in E1, E5. fold k' in E1, E5.
  assert (Hk' : tcp_sockets s' !! j = Some k') by (rewrite E5; by apply list_lookup_insert_eq). assert (Ek : remote_ip k' = local_ip peer) by (cbn [k' remote_ip with_seq]; by rewrite A4).
  pose proof (acked_again k flags a (u32 (ack_num k + zlen data))) as Hag. rewrite Ea in Hag. fold k' in Hag.
  destruct (established_old depth s' j k' flags (seq_num peer) a d e) as (s'' & F & F1 & F2); try done; [cbn; lia| |by rewrite E6|unfold remote in *; by rewrite Ek, E6|unfold next_hop, arp_lookup in *; by rewrite Ek, E6, E7|].
  { cbn [k' ack_num with_seq]. rewrite Hseq. apply old_data; [apply Hp|done]. }
  exists s', s''. split; [rewrite Hin by done; unfold tcp_input; by rewrite Hrst, Hs, Hst, <- Hseq|]. do 3 (split; [done|]). injection F1 as F3 F4 _ _. split; [|done].
  destruct (sock_at_index s' j k' (fun k => k) Hk') as [Hs' _]. rewrite Hin; [unfold tcp_input; rewrite Hrst, Hs'; cbn [k' ts_state with_seq]; by rewrite A1, Hst|].
  rewrite E5. replace (<[j := k']> (tcp_sockets s)) with (tcp_sockets (upd s (Z.of_nat j) (fun k => with_seq k (seq_num k1) (u32 (ack_num k + zlen data))))); [by rewrite index_of_upd|].
  rewrite upd_sockets, Hs by done. f_equal. subst k' k1. unfold acked. by case_match.
Qed.
End TcpData.

(** A half-open connection is established by any acknowledgement: the number it
    acknowledges is not compared with the one this host chose, and becomes the
    socket's own sequence number. *)
Theorem tcp_handshake_any_ack {N} `{!Device N} send (s : net N) j k peer flags cks : sock_fields peer -> parent_sock_id k <> Z.of_nat j ->
  has flags TCP_FLAG_RST = false -> has flags TCP_FLAG_ACK = true -> tcp_sockets s !! j = Some k -> ts_state k = TCP_STATE_SYN_RCVD ->
  index_of (conn_matches (remote_port peer) (local_ip peer) (local_port peer)) (tcp_sockets s) = Some j ->
  exists s', tcp_handle_packet send s (tcp_segment peer flags cks []) 20 (local_ip peer) = Ret s' /\
    sock_at s' (Z.of_nat j) = with_seq (with_state k TCP_STATE_ESTABLISHED) (ack_num peer) (ack_num k).
Proof.
  intros Hp Hpar Hrst Hack Hk Hst Hx. destruct (sock_at_index s j k (fun k => with_seq (with_state k TCP_STATE_ESTABLISHED) (ack_num peer) (ack_num k)) Hk) as [Hs Hs'].
  pose proof (segment_handled send s peer flags cks [] (local_ip peer) j Hp ltac:(discriminate) Hx) as E. change (20 + zlen (@nil Z)) with 20 in E.
  rewrite E. clear E. unfold tcp_input. rewrite Hrst, Hs, Hst, Hack. unfold tcp_accepted. rewrite Hs'. cbn [parent_sock_id with_seq with_state sd_len Z.gtb Z.compare]. eexists. split; [reflexivity|].
  case_match; [|exact Hs']. rewrite sock_at_upd, decide_False; [exact Hs'|]. by intros [? _].
Qed.

(** ** A small connection *)

Definition demo_sock (st : tcp_state) : tcp_socket := TcpSocket true st 0x0A00020F 80 0x0A000202 40000 500 1000 true 1 (replicate 8 0) 0.
Definition demo_peer : tcp_socket := TcpSocket true TCP_STATE_ESTABLISHED 0x0A000202 40000 0x0A00020F 80 1000 777 true (-1) (replicate 8 0) 0.
Definition connected (st : tcp_state) : net card := with_tcp host (demo_sock st :: TcpSocket true TCP_STATE_LISTEN 0x0A00020F 80 0 0 0 0 true (-1) (replicate 8 0) 0 :: replicate 30 tcp_zero) 0x98765432 [].

Lemma demo_peer_fields : sock_fields demo_peer.
Proof. repeat split; cbn; lia. Qed.

Lemma connected_reach st : reach (connected st) 0x0A000202.
Proof. split; [reflexivity|]. split; [repeat split; try lia; discriminate|]. eexists. reflexivity. Qed.

Lemma tcp_in_order_delivered_witness : exists s', tcp_handle_packet (ipv4_send_packet 1) (connected TCP_STATE_ESTABLISHED) (tcp_segment demo_peer 24 0 [1; 2; 3]) 23 0x0A000202 = Ret s' /\ tcp_received s' = [(0, [1; 2; 3])].
Proof.
  destruct (tcp_in_order_delivered 0 (connected TCP_STATE_ESTABLISHED) 0 (demo_sock TCP_STATE_ESTABLISHED) demo_peer 24 0 [1; 2; 3] (ArpEntry 0x0A000202 [2; 2; 2; 2; 2; 2] true)) as (s' & s'' & E & E' & _);
    [exact demo_peer_fields|unfold zlen; cbn; lia|reflexivity|reflexivity|reflexivity|reflexivity|reflexivity|reflexivity|reflexivity|reflexivity|reflexivity|exact (proj1 (proj2 (connected_reach TCP_STATE_ESTABLISHED)))|reflexivity|].
  exists s'. split; [exact E|exact E'].
Defined.

Lemma tcp_handshake_any_ack_witness : exists s', tcp_handle_packet (ipv4_send_packet 1) (connected TCP_STATE_SYN_RCVD) (tcp_segment demo_peer TCP_FLAG_ACK 0 []) 20 0x0A000202 = Ret s' /\
  sock_at s' 0 = TcpSocket true TCP_STATE_ESTABLISHED 0x0A00020F 80 0x0A000202 40000 777 1000 true 1 (replicate 8 0) 0.
Proof.
  destruct (tcp_handshake_any_ack (ipv4_send_packet 1) (connected TCP_STATE_SYN_RCVD) 0 (demo_sock TCP_STATE_SYN_RCVD) demo_peer TCP_FLAG_ACK 0 demo_peer_fields ltac:(discriminate) eq_refl eq_refl eq_refl eq_refl eq_refl) as (s' & E & E').
  exists s'. split; [exact E|]. exact E'.
Defined.

Lemma demo_honest : peer_honest 80 0x0A000202 40000 1000 [1; 2; 3; 4] (tcp_segment demo_peer 24 0 [1; 2; 3]) 23 0x0A000202.
Proof.
  destruct (segment_fields demo_peer 24 0 [1; 2; 3]) as (_ & _ & E3 & _ & E5 & _ & E7). intros _ sq off Hsq Hoff. rewrite E3 in Hsq. rewrite E5 in Hoff. injection Hsq as <-. injection Hoff as <-.
  change (u8 (Z.shiftr 80 4 * 4)) with 20. intros data _ Hd. cbn [sd_packet sd_offset sd_len] in Hd. change (23 - 20) with (zlen [1; 2; 3]) in Hd. rewrite E7 in Hd. injection Hd as <-. exists 0%nat. split; [reflexivity|]. split; [reflexivity|]. cbn. lia.
Qed.

Lemma tcp_delivers_prefix_witness : exists s', rtc (arrives 0 (connected TCP_STATE_ESTABLISHED) 80 0x0A000202 40000 1000 [1; 2; 3; 4]) (connected TCP_STATE_ESTABLISHED) s' /\
  received 0 s' = [1; 2; 3] /\ received 0 s' `prefix_of` [1; 2; 3; 4].
Proof.
  destruct (segment_fields demo_peer 24 0 [1; 2; 3]) as (_ & _ & _ & _ & _ & _ & E7).
  destruct (established_in_order 0 (connected TCP_STATE_ESTABLISHED) 0 (demo_sock TCP_STATE_ESTABLISHED) 24 777 (SegData (tcp_segment demo_peer 24 0 [1; 2; 3]) 20 3) [1; 2; 3] (ArpEntry 0x0A000202 [2; 2; 2; 2; 2; 2] true)) as (s' & E & _ & E' & _);
    [reflexivity|reflexivity|cbn; lia|exact E7|reflexivity|reflexivity|exact (proj1 (proj2 (connected_reach TCP_STATE_ESTABLISHED)))|reflexivity|].
  exists s'. assert (Hst : rtc (arrives 0 (connected TCP_STATE_ESTABLISHED) 80 0x0A000202 40000 1000 [1; 2; 3; 4]) (connected TCP_STATE_ESTABLISHED) s').
  { apply rtc_once. exists (tcp_segment demo_peer 24 0 [1; 2; 3]), 23, 0x0A000202. split; [exact (connected_reach _)|]. split; [exact demo_honest|].
    etrans; [exact (segment_handled (ipv4_send_packet 1) (connected TCP_STATE_ESTABLISHED) demo_peer 24 0 [1; 2; 3] 0x0A000202 0 demo_peer_fields ltac:(discriminate) eq_refl)|]. exact E. }
  split; [exact Hst|]. split; [unfold received; rewrite E'; reflexivity|].
  apply (tcp_delivers_prefix 0 (connected TCP_STATE_ESTABLISHED) s' 0 80 0x0A000202 40000 1000 [1; 2; 3; 4]); [reflexivity|exact (connected_reach _)|lia|reflexivity|reflexivity|reflexivity|reflexivity|reflexivity|exact Hst].
Defined.
