(* ===== verification/TcpTimeout.v ===== *)
(** * The blocking calls of TCP return when the network is silent *)

From S2P Require Import Prelude NetBase NetState NetApps Tcp Ipv4 TcpApi NetLink NetIp NetThms TcpThms TcpData.

Section TcpTimeout.
Context {N : Type} `{!Device N} (depth : nat).
Implicit Types s : net N.

(** Nothing waits in the ring. *)
Definition quiet s : Prop := rx_tail s = rx_head s.

Definition silent : Prop := forall d : N, (nic_poll d).1 = [].

Lemma eth_send_quiet s m t d : quiet s -> quiet (eth_send_frame s m t d).2.
Proof. intros Hq. unfold eth_send_frame. case_match; [done|]. by destruct (nic_send _ _). Qed.

Lemma send_quiet s k flags data : quiet s -> reach s (remote_ip k) ->
  exists s', tcp_send_segment (ipv4_send_packet (S depth)) s k flags data = Ret s' /\ tcp_view s' = tcp_view s /\ quiet s'.
Proof.
  intros Hq (Hup & Hr & e & He). unfold tcp_send_segment. rewrite (send_resolved depth s (remote_ip k) _ _ e) by done. rewrite bind_ret. eexists. split; [done|]. split; [by rewrite eth_send_view|by apply eth_send_quiet].
Qed.

Lemma poll_quiet send s : silent -> quiet s -> exists s', net_poll send s = Ret (false, s') /\ tcp_view s' = tcp_view s /\ quiet s'.
Proof.
  intros Hs Hq. unfold net_poll. pose proof (Hs (dev s)) as Hn. destruct (nic_poll (dev s)) as [frames d]. cbn in Hn. subst frames. cbn [foldl].
  assert (E : (rx_tail (with_dev s d) =? rx_head (with_dev s d)) = true) by (by apply Z.eqb_eq). rewrite E. by eexists.
Qed.

Lemma view_sock s s' j : tcp_view s' = tcp_view s -> sock_at s' j = sock_at s j.
Proof. intros E. apply (f_equal (fun v => v.1.1.1)) in E. cbn in E. unfold sock_at. by rewrite E. Qed.

Lemma view_reach s s' dst : tcp_view s' = tcp_view s -> reach s dst -> reach s' dst.
Proof. intros E. apply reach_view; [exact (f_equal (fun v => v.1.2) E)|exact (f_equal snd E)]. Qed.

Lemma wait_loop_returns waiting i flags data ticks s start last count : silent -> quiet s -> reach s (remote_ip (sock_at s i)) ->
  (forall t, tcp_view t = tcp_view s -> waiting t = true) -> Exists (fun now => 5000 < u64 (now - start)) ticks ->
  exists s', wait_loop (S depth) (fun t => t) waiting i flags data ticks s start last count = Ret s' /\ tcp_view s' = tcp_view s /\ quiet s'.
Proof.
  intros Hs Hq Hr Hw Ht. revert s last count Hq Hr Hw. induction ticks as [|now ticks IH]; intros s last count Hq Hr Hw; [by apply Exists_nil in Ht|]. cbn [wait_loop]. rewrite Hw by done.
  destruct (poll_quiet (ipv4_send_packet (S depth)) s Hs Hq) as (s1 & -> & V1 & Q1). rewrite bind_ret. cbn [snd]. destruct (Z.gtb_spec (u64 (now - start)) 5000) as [|Hle]; [by exists s1|].
  apply Exists_cons in Ht as [Ht|Ht]; [lia|]. assert (Hr1 : reach s1 (remote_ip (sock_at s1 i))) by (rewrite (view_sock s s1 i V1); by apply (view_reach s)).
  destruct (_ || _).
  - destruct (send_quiet s1 (sock_at s1 i) flags data Q1 Hr1) as (s2 & -> & V2 & Q2). rewrite bind_ret. destruct (IH Ht s2 now 0 Q2) as (s' & E & V & Q); [rewrite (view_sock s1 s2 i V2); by apply (view_reach s1)|intros t Hv; apply Hw; congruence|].
    exists s'. split; [exact E|]. split; [congruence|done].
  - destruct (IH Ht s1 last (u32 (count + 1)) Q1 Hr1) as (s' & E & V & Q); [intros t Hv; apply Hw; congruence|]. exists s'. split; [exact E|]. split; [congruence|done].
Qed.

Lemma close_loop_returns i ticks s start last : silent -> quiet s -> reach s (remote_ip (sock_at s i)) -> Exists (fun now => 3000 < u64 (now - start)) ticks ->
  exists s', close_loop (S depth) (fun t => t) i ticks s start last = Ret s' /\ tcp_view s' = tcp_view s.
Proof.
  intros Hs Hq Hr Ht. revert s last Hq Hr. induction ticks as [|now ticks IH]; intros s last Hq Hr; [by apply Exists_nil in Ht|]. cbn [close_loop]. destruct (_ && _); [|by exists s].
  destruct (poll_quiet (ipv4_send_packet (S depth)) s Hs Hq) as (s1 & -> & V1 & Q1). rewrite bind_ret. cbn [snd]. destruct (Z.gtb_spec (u64 (now - start)) 3000) as [|Hle]; [by exists s1|].
  apply Exists_cons in Ht as [Ht|Ht]; [lia|]. assert (Hr1 : reach s1 (remote_ip (sock_at s1 i))) by (rewrite (view_sock s s1 i V1); by apply (view_reach s)).
  destruct (_ && _).
  - destruct (send_quiet s1 (sock_at s1 i) (Z.lor TCP_FLAG_FIN TCP_FLAG_ACK) [] Q1 Hr1) as (s2 & -> & V2 & Q2). rewrite bind_ret. replace (if in_state s2 i TCP_STATE_CLOSED then s2 else s2) with s2 by (by destruct (in_state _ _ _)).
    destruct (IH Ht s2 now Q2) as (s' & E & V); [rewrite (view_sock s1 s2 i V2); by apply (view_reach s1)|]. exists s'. split; [exact E|congruence].
  - replace (if in_state s1 i TCP_STATE_CLOSED then s1 else s1) with s1 by (by destruct (in_state _ _ _)). destruct (IH Ht s1 last Q1 Hr1) as (s' & E & V). exists s'. split; [exact E|congruence].
Qed.

Lemma free_sock_index s i : free_sock s = Some i -> exists k, 0 <= i < zlen (tcp_sockets s) /\ tcp_sockets s !! Z.to_nat i = Some k /\ sock_at s i = k /\ ts_valid k = false.
Proof.
  unfold free_sock. destruct (index_of _ _) as [j|] eqn:E; [|done]. intros [= <-]. apply index_of_Some in E as (k & Hk & Hv & _). apply negb_true_iff in Hv. exists k. pose proof (lookup_lt_Some _ _ _ Hk).
  rewrite Nat2Z.id. split; [unfold zlen; lia|]. split; [done|]. split; [by apply (sock_at_index s j k (fun k => k))|done].
Qed.

Lemma connect_times_out s start ticks next addr port cb i : silent -> quiet s -> free_sock s = Some i -> reach s addr -> Exists (fun now => 5000 < u64 (now - start)) ticks ->
  exists s' next', tcp_connect (S depth) (fun t => t) (start :: ticks) s next addr port cb = Ret (-1, s', next') /\
    ts_valid (sock_at s' i) = false /\ (forall a, a <> i -> sock_at s' a = sock_at s a) /\ tcp_received s' = tcp_received s.
Proof.
  intros Hs Hq Hf Hr Ht. destruct (free_sock_index s i Hf) as (k & Hi & _ & _ & _). unfold tcp_connect. rewrite Hf. destruct (tcp_generate_isn s) as [isn s1] eqn:En.
  assert (H1 : tcp_view s1 = tcp_view s /\ quiet s1) by (revert En; unfold tcp_generate_isn; destruct (rdtsc (dev s)); by intros [= <- <-]). destruct H1 as [V1 Q1].
  set (sk := TcpSocket _ _ _ _ _ _ _ _ _ _ _ _). set (s2 := upd s1 i _). assert (Hi1 : 0 <= i < zlen (tcp_sockets s1)) by (pose proof (f_equal (fun v => v.1.1.1) V1) as E; cbn in E; by rewrite E).
  assert (Hsk : sock_at s2 i = sk) by (subst s2; by rewrite sock_at_upd, decide_True). rewrite Hsk. assert (Hr2 : reach s2 (remote_ip sk)) by (apply (reach_view s1); [done|done|]; by apply (view_reach s)).
  destruct (send_quiet s2 sk TCP_FLAG_SYN [] Q1 Hr2) as (s3 & -> & V3 & Q3). rewrite bind_ret.
  destruct (wait_loop_returns (fun s => in_state s i TCP_STATE_SYN_SENT && ts_valid (sock_at s i)) i TCP_FLAG_SYN [] ticks s3 start start 0 Hs Q3) as (s4 & -> & V4 & _); [| |done|].
  { rewrite (view_sock s2 s3 i V3), Hsk. by apply (view_reach s2). }
  { intros t Hv. unfold in_state. rewrite (view_sock s3 t i Hv), (view_sock s2 s3 i V3), Hsk. by rewrite bool_decide_true. }
  rewrite bind_ret. assert (H4 : sock_at s4 i = sk) by (by rewrite (view_sock s3 s4 i V4), (view_sock s2 s3 i V3)). assert (Hz : zlen (tcp_sockets s4) = zlen (tcp_sockets s1)).
  { pose proof (f_equal (fun v => v.1.1.1) V4) as E4. pose proof (f_equal (fun v => v.1.1.1) V3) as E3. cbn in E3, E4. rewrite E4, E3. unfold set_at, zlen. case_match; [by rewrite length_insert|done]. }
  unfold in_state. rewrite H4, bool_decide_false by done. eexists _, _. split; [done|]. split; [|split].
  - by rewrite sock_at_upd, decide_True by (rewrite Hz; done).
  - intros a Ha. rewrite sock_at_upd, decide_False by (by intros [? _]). rewrite (view_sock s3 s4 a V4), (view_sock s2 s3 a V3). subst s2. rewrite sock_at_upd, decide_False by (by intros [? _]). by apply view_sock.
  - change (tcp_received s4 = tcp_received s). etrans; [exact (f_equal (fun v => v.1.1.2) V4)|]. etrans; [exact (f_equal (fun v => v.1.1.2) V3)|]. exact (f_equal (fun v => v.1.1.2) V1).
Qed.

Lemma close_times_out s start ticks j : silent -> quiet s -> 0 <= j < Z.of_nat MAX_TCP_SOCKETS -> j < zlen (tcp_sockets s) -> ts_valid (sock_at s j) = true ->
  ts_state (sock_at s j) = TCP_STATE_ESTABLISHED -> reach s (remote_ip (sock_at s j)) -> Exists (fun now => 3000 < u64 (now - start)) ticks ->
  exists s', tcp_close (S depth) (fun t => t) (start :: ticks) s j = Ret s' /\
    ts_valid (sock_at s' j) = false /\ (forall a, a <> j -> sock_at s' a = sock_at s a) /\ tcp_received s' = tcp_received s.
Proof.
  intros Hs Hq Hj Hz Hv Hst Hr Ht. unfold tcp_close. rewrite (proj2 (Z.ltb_ge j 0)) by lia. rewrite Z.geb_leb, (proj2 (Z.leb_gt _ _)) by lia. cbn [orb]. rewrite Hv. cbn [negb]. unfold in_state at 1. rewrite bool_decide_true by done.
  destruct (send_quiet s (sock_at s j) (Z.lor TCP_FLAG_FIN TCP_FLAG_ACK) [] Hq Hr) as (s1 & -> & V1 & Q1). rewrite bind_ret. set (s2 := upd s1 j _). assert (E1 : zlen (tcp_sockets s1) = zlen (tcp_sockets s)) by (pose proof (f_equal (fun v => v.1.1.1) V1) as E; cbn in E; by rewrite E).
  destruct (close_loop_returns j ticks s2 start start Hs Q1) as (s3 & -> & V3); [subst s2; rewrite remote_upd by done; apply (reach_view s1); [done|done|]; rewrite (view_sock s s1 j V1); by apply (view_reach s)|done|]. rewrite bind_ret.
  assert (Hz3 : zlen (tcp_sockets s3) = zlen (tcp_sockets s1)) by (pose proof (f_equal (fun v => v.1.1.1) V3) as E; cbn in E; rewrite E; unfold set_at, zlen; case_match; [by rewrite length_insert|done]).
  eexists. split; [done|]. split; [|split].
  - rewrite sock_at_upd, decide_True by (split; [done|lia]). done.
  - intros a Ha. rewrite sock_at_upd, decide_False by (by intros [? _]). rewrite (view_sock s2 s3 a V3). subst s2. rewrite sock_at_upd, decide_False by (by intros [? _]). by apply view_sock.
  - change (tcp_received s3 = tcp_received s). etrans; [exact (f_equal (fun v => v.1.1.2) V3)|]. exact (f_equal (fun v => v.1.1.2) V1).
Qed.

End TcpTimeout.

