(* ===== verification/Sched.v ===== *)
(** * Threads, run queues and wait queues

    (kernel/src/sched/sched.c: run queues and the choice of the next thread, the list
    of all threads and the hierarchy; kernel/src/sched/wait.c)

    Threads live at addresses; [threads] holds the fields of each that this code uses,
    [entries] those of the wait queue entries.  A null pointer is 0, and following a
    pointer to no thread has no result.  Walks over the circular run queues take the
    number of threads as fuel.  Switching stacks and address spaces is left out, and
    the locks make each operation one step. *)

From S2P Require Import Prelude.

Inductive thread_state :=
  | THREAD_RUNNING | THREAD_READY | THREAD_BLOCKED | THREAD_SLEEPING | THREAD_DEAD | THREAD_ZOMBIE.

#[export] Instance thread_state_eq_dec : EqDecision thread_state.
Proof. solve_decision. Defined.

Record thread := Thread {
  t_tid : Z; t_state : thread_state; wakeup_ticks : Z; t_is_idle : bool;
  t_parent : Z; t_children : Z; sibling_next : Z; global_next : Z; t_next : Z }.

(** A processor: the running thread and its run queue, 0 for none. *)
Record cpu := Cpu { current_thread : Z; runqueue : Z; cpu_online : bool }.

Record wait_queue_entry := WaitEntry { wq_thread : Z; wq_next : Z }.

Record sched := Sched {
  threads : gmap Z thread; entries : gmap Z wait_queue_entry; cpus : list cpu;
  global_thread_list : Z; next_tid : Z; next_cpu : Z }.

Definition with_threads s (ts : gmap Z thread) : sched := Sched ts (entries s) (cpus s) (global_thread_list s) (next_tid s) (next_cpu s).
Definition with_entries s (es : gmap Z wait_queue_entry) : sched := Sched (threads s) es (cpus s) (global_thread_list s) (next_tid s) (next_cpu s).
Definition with_cpus s (cs : list cpu) : sched := Sched (threads s) (entries s) cs (global_thread_list s) (next_tid s) (next_cpu s).

Definition set_state (st : thread_state) (t : thread) : thread :=
  Thread (t_tid t) st (wakeup_ticks t) (t_is_idle t) (t_parent t) (t_children t) (sibling_next t) (global_next t) (t_next t).
Definition set_next (n : Z) (t : thread) : thread :=
  Thread (t_tid t) (t_state t) (wakeup_ticks t) (t_is_idle t) (t_parent t) (t_children t) (sibling_next t) (global_next t) n.
(** [state = THREAD_READY; wakeup_ticks = 0] *)
Definition make_ready (t : thread) : thread :=
  Thread (t_tid t) THREAD_READY 0 (t_is_idle t) (t_parent t) (t_children t) (sibling_next t) (global_next t) (t_next t).

Definition fuel_of (ts : gmap Z thread) : nat := size ts.

(** ** Yielding *)

Definition expired (now : Z) (t : thread) : bool :=
  (bool_decide (t_state t = THREAD_SLEEPING) || bool_decide (t_state t = THREAD_BLOCKED)) && negb (wakeup_ticks t =? 0) && (now >=? wakeup_ticks t).

(** The loop that wakes threads whose time has come. *)
Fixpoint wake_scan (fuel : nat) (ts : gmap Z thread) (now scan next_t current : Z) : option (gmap Z thread) :=
  match fuel with
  | O => None
  | S n =>
      t ← ts !! scan;
      let ts := if expired now t then <[scan := make_ready t]> ts else ts in
      let scan := t_next t in
      if (scan =? next_t) || (scan =? current) then Some ts else wake_scan n ts now scan next_t current
  end.

Definition runnable (t : thread) : bool := bool_decide (t_state t = THREAD_READY) || bool_decide (t_state t = THREAD_RUNNING).

(** The loop that looks for a thread to switch to. *)
Fixpoint find_ready (fuel : nat) (ts : gmap Z thread) (next_t start_t current : Z) : option Z :=
  if next_t =? current then Some next_t
  else
    t ← ts !! next_t;
    if runnable t then Some next_t
    else
      let next_t := t_next t in
      if next_t =? start_t then Some next_t
      else match fuel with O => None | S n => find_ready n ts next_t start_t current end.

(** [sched_yield] on processor [c] at time [now]. *)
Definition sched_yield s (c : nat) (now : Z) : option sched :=
  cpu ← cpus s !! c;
  let prev := current_thread cpu in
  if prev =? 0 then Some s
  else
    p ← threads s !! prev;
    let next_t := t_next p in
    ts ← wake_scan (fuel_of (threads s)) (threads s) now next_t next_t prev;
    next_t ← find_ready (fuel_of ts) ts next_t next_t prev;
    n ← ts !! next_t;
    if negb (next_t =? prev) && runnable n then
      p ← ts !! prev;
      let ts := if bool_decide (t_state p = THREAD_RUNNING) then <[prev := set_state THREAD_READY p]> ts else ts in
      Some (with_cpus (with_threads s (<[next_t := set_state THREAD_RUNNING n]> ts)) (<[c := Cpu next_t (runqueue cpu) (cpu_online cpu)]> (cpus s)))
    else Some (with_threads s ts).

(** ** Run queues *)

(** The last thread of the circular queue that begins at [head]. *)
Fixpoint find_tail (fuel : nat) (ts : gmap Z thread) (tail head : Z) : option Z :=
  t ← ts !! tail;
  if t_next t =? head then Some tail else match fuel with O => None | S n => find_tail n ts (t_next t) head end.

(** The processor a thread is given to: the one named, or the next in turn, or the
    first one ([cpu_get_bsp]) when that is not there. *)
Definition target_cpu s (explicit : option nat) : nat * Z :=
  match explicit with
  | Some c => (c, next_cpu s)
  | None => (Z.to_nat (next_cpu s), (next_cpu s + 1) mod zlen (cpus s))
  end.

Definition sched_enqueue_thread s (t : Z) (explicit : option nat) : option sched :=
  let '(c, next) := target_cpu s explicit in
  let c := match cpus s !! c with Some cpu => if cpu_online cpu then c else 0%nat | None => 0%nat end in
  let s := Sched (threads s) (entries s) (cpus s) (global_thread_list s) (next_tid s) next in
  cpu ← cpus s !! c;
  th ← threads s !! t;
  if runqueue cpu =? 0 then
    Some (with_cpus (with_threads s (<[t := set_next t th]> (threads s))) (<[c := Cpu (current_thread cpu) t (cpu_online cpu)]> (cpus s)))
  else
    tail ← find_tail (fuel_of (threads s)) (threads s) (runqueue cpu) (runqueue cpu);
    last ← threads s !! tail;
    let ts := <[tail := set_next t last]> (threads s) in
    th ← ts !! t;
    Some (with_threads s (<[t := set_next (runqueue cpu) th]> ts)).

(** Whether a thread is in the circular queue. *)
Fixpoint in_queue (fuel : nat) (ts : gmap Z thread) (curr first t : Z) : option bool :=
  if curr =? t then Some true
  else
    th ← ts !! curr;
    if t_next th =? first then Some false else match fuel with O => None | S n => in_queue n ts (t_next th) first t end.

(** The thread before [t]. *)
Fixpoint find_prev (fuel : nat) (ts : gmap Z thread) (prev t : Z) : option Z :=
  th ← ts !! prev;
  if t_next th =? t then Some prev else match fuel with O => None | S n => find_prev n ts (t_next th) t end.

(** Taking [t] out of the queue of processor [c], if it is there. *)
Definition unqueue s (c : nat) (cpu : cpu) (t : Z) : option (bool * sched) :=
  if negb (cpu_online cpu) || (runqueue cpu =? 0) then Some (false, s)
  else
    found ← in_queue (fuel_of (threads s)) (threads s) (runqueue cpu) (runqueue cpu) t;
    if negb found then Some (false, s)
    else
      th ← threads s !! t;
      if t_next th =? t then Some (true, with_cpus s (<[c := Cpu (current_thread cpu) 0 (cpu_online cpu)]> (cpus s)))
      else
        prev ← find_prev (fuel_of (threads s)) (threads s) (runqueue cpu) t;
        p ← threads s !! prev;
        let s := with_threads s (<[prev := set_next (t_next th) p]> (threads s)) in
        Some (true, with_cpus s (<[c := Cpu (current_thread cpu) (if runqueue cpu =? t then t_next th else runqueue cpu) (cpu_online cpu)]> (cpus s))).

(** The loop over the processors, the first of which is [c]. *)
Fixpoint runqueue_loop (l : list cpu) (c : nat) s (t : Z) : option sched :=
  match l with
  | [] => Some s
  | cpu :: l => r ← unqueue s c cpu t; if (r : bool * sched).1 then Some (r.2) else runqueue_loop l (S c) s t
  end.

Definition remove_from_runqueue s (t : Z) : option sched := runqueue_loop (cpus s) 0 s t.

(** ** Wait queues *)

(** The queue is the address of its first entry. *)
Definition wait_queue_add s (wq entry : Z) : option (Z * sched) :=
  if entry =? 0 then Some (wq, s)
  else e ← entries s !! entry; Some (entry, with_entries s (<[entry := WaitEntry (wq_thread e) wq]> (entries s))).

(** [while (curr && curr->next != entry)]: the entry before, or 0. *)
Fixpoint entry_before (fuel : nat) (es : gmap Z wait_queue_entry) (curr entry : Z) : option Z :=
  if curr =? 0 then Some 0
  else
    e ← es !! curr;
    if wq_next e =? entry then Some curr else match fuel with O => None | S n => entry_before n es (wq_next e) entry end.

Definition wait_queue_remove s (wq entry : Z) : option (Z * sched) :=
  if entry =? 0 then Some (wq, s)
  else
    e ← entries s !! entry;
    if wq =? entry then Some (wq_next e, with_entries s (<[entry := WaitEntry (wq_thread e) 0]> (entries s)))
    else
      curr ← entry_before (size (entries s)) (entries s) wq entry;
      es ← (if curr =? 0 then Some (entries s) else p ← entries s !! curr; Some (<[curr := WaitEntry (wq_thread p) (wq_next e)]> (entries s)));
      Some (wq, with_entries s (<[entry := WaitEntry (wq_thread e) 0]> es)).

(** Wakes the thread of an entry, and says whether it did. *)
Definition wake_entry (ts : gmap Z thread) (t : Z) : option (bool * gmap Z thread) :=
  if t =? 0 then Some (false, ts)
  else th ← ts !! t; Some (if bool_decide (t_state th = THREAD_BLOCKED) then (true, <[t := make_ready th]> ts) else (false, ts)).

(** The loop over the entries; [one] stops it after the first thread woken. *)
Fixpoint wake_loop (fuel : nat) (one : bool) (es : gmap Z wait_queue_entry) (ts : gmap Z thread) (curr : Z) : option (gmap Z thread) :=
  if curr =? 0 then Some ts
  else
    e ← es !! curr;
    r ← wake_entry ts (wq_thread e);
    let '(woken, ts) := (r : bool * gmap Z thread) in
    if woken && one then Some ts
    else match fuel with O => None | S n => wake_loop n one es ts (wq_next e) end.

Definition wait_queue_wake_all s (wq : Z) : option sched :=
  ts ← wake_loop (size (entries s)) false (entries s) (threads s) wq; Some (with_threads s ts).
Definition wait_queue_wake_one s (wq : Z) : option sched :=
  ts ← wake_loop (size (entries s)) true (entries s) (threads s) wq; Some (with_threads s ts).

(** ** The list of all threads and the hierarchy *)

Definition set_global (n : Z) (t : thread) : thread :=
  Thread (t_tid t) (t_state t) (wakeup_ticks t) (t_is_idle t) (t_parent t) (t_children t) (sibling_next t) n (t_next t).
Definition set_family (parent children sibling : Z) (t : thread) : thread :=
  Thread (t_tid t) (t_state t) (wakeup_ticks t) (t_is_idle t) parent children sibling (global_next t) (t_next t).

(** The loop over the threads of one queue. *)
Fixpoint terminate_loop (fuel : nat) (ts : gmap Z thread) (curr first tid : Z) : option (option (gmap Z thread)) :=
  t ← ts !! curr;
  if (t_tid t =? tid) && negb (t_is_idle t) then Some (Some (<[curr := set_state THREAD_DEAD t]> ts))
  else if t_next t =? first then Some None
  else match fuel with O => None | S n => terminate_loop n ts (t_next t) first tid end.

Fixpoint terminate_cpus (l : list cpu) s (tid : Z) : option (bool * sched) :=
  match l with
  | [] => Some (false, s)
  | cpu :: l =>
      if negb (cpu_online cpu) || (runqueue cpu =? 0) then terminate_cpus l s tid
      else
        r ← terminate_loop (fuel_of (threads s)) (threads s) (runqueue cpu) (runqueue cpu) tid;
        match r with Some ts => Some (true, with_threads s ts) | None => terminate_cpus l s tid end
  end.
Definition sched_terminate_thread s (tid : Z) : option (bool * sched) := terminate_cpus (cpus s) s tid.

(** The first thread of the list with the given number, or 0. *)
Fixpoint by_tid (fuel : nat) (ts : gmap Z thread) (curr tid : Z) : option Z :=
  if curr =? 0 then Some 0
  else
    t ← ts !! curr;
    if t_tid t =? tid then Some curr else match fuel with O => None | S n => by_tid n ts (global_next t) tid end.
Definition sched_get_thread_by_tid s (tid : Z) : option Z := by_tid (fuel_of (threads s)) (threads s) (global_thread_list s) tid.

(** [while (prev && prev->global_next != t)]: the thread before, or 0. *)
Fixpoint global_before (fuel : nat) (ts : gmap Z thread) (prev t : Z) : option Z :=
  if prev =? 0 then Some 0
  else
    p ← ts !! prev;
    if global_next p =? t then Some prev else match fuel with O => None | S n => global_before n ts (global_next p) t end.

Definition remove_from_global_list s (t : Z) : option sched :=
  if global_thread_list s =? 0 then Some s
  else if global_thread_list s =? t then
    th ← threads s !! t;
    Some (Sched (threads s) (entries s) (cpus s) (global_next th) (next_tid s) (next_cpu s))
  else
    prev ← global_before (fuel_of (threads s)) (threads s) (global_thread_list s) t;
    if prev =? 0 then Some s
    else
      th ← threads s !! t;
      p ← threads s !! prev;
      Some (with_threads s (<[prev := set_global (global_next th) p]> (threads s))).

(** The loop over the children of an exiting thread. *)
Fixpoint reparent_loop (fuel : nat) s (child : Z) : option sched :=
  if child =? 0 then Some s
  else
    match fuel with
    | O => None
    | S n =>
        c ← threads s !! child;
        init ← sched_get_thread_by_tid s 1;
        if init =? 0 then reparent_loop n (with_threads s (<[child := set_family 0 (t_children c) 0 c]> (threads s))) (sibling_next c)
        else
          i ← threads s !! init;
          let ts := <[child := set_family init (t_children c) (t_children i) c]> (threads s) in
          i ← ts !! init;
          reparent_loop n (with_threads s (<[init := set_family (t_parent i) child (sibling_next i) i]> ts)) (sibling_next c)
    end.

Definition sched_reparent_children s (parent : Z) : option sched :=
  if parent =? 0 then Some s
  else
    p ← threads s !! parent;
    s ← reparent_loop (fuel_of (threads s)) s (t_children p);
    p ← threads s !! parent;
    Some (with_threads s (<[parent := set_family (t_parent p) 0 (sibling_next p) p]> (threads s))).

(** A new thread at the address [t]: its number, the list of all threads, and its
    place under the thread that creates it. *)
Definition link_thread s (t current : Z) : option sched :=
  th ← threads s !! t;
  let ts := <[t := Thread (next_tid s) (t_state th) (wakeup_ticks th) (t_is_idle th) (t_parent th) (t_children th) (sibling_next th) (global_thread_list s) (t_next th)]> (threads s) in
  let s := Sched ts (entries s) (cpus s) t (u32 (next_tid s + 1)) (next_cpu s) in
  th ← threads s !! t;
  if current =? 0 then Some (with_threads s (<[t := set_family 0 (t_children th) (sibling_next th) th]> (threads s)))
  else
    c ← threads s !! current;
    let ts := <[t := set_family current (t_children th) (t_children c) th]> (threads s) in
    c ← ts !! current;
    Some (with_threads s (<[current := set_family (t_parent c) t (sibling_next c) c]> ts)).

(** What [memset] makes of a new thread. *)
Definition zero_thread : thread := Thread 0 THREAD_RUNNING 0 false 0 0 0 0 0.

(** [mem] and [stack] are what [kmalloc] returns for the thread and for its stack; the
    result is the thread, or 0.  Without a stack the thread is freed as it is, linked. *)
Definition sched_create_kernel_thread s (current : Z) (mem stack : option Z) (explicit : option nat) (enqueue : bool) : option (Z * sched) :=
  match mem with
  | None => Some (0, s)
  | Some t =>
      s ← link_thread (with_threads s (<[t := zero_thread]> (threads s))) t current;
      th ← threads s !! t;
      let s := with_threads s (<[t := set_state THREAD_READY th]> (threads s)) in
      match stack with
      | None => Some (0, with_threads s (delete t (threads s)))
      | Some _ => if enqueue then s ← sched_enqueue_thread s t explicit; Some (t, s) else Some (t, s)
      end
  end.
