(* ===== verification/SchedThms.v ===== *)
(** * The properties of the scheduler and of wait queues

    A turn of [sched_yield] and that every ready thread gets one; run queues are disjoint
    rings; wait queues are lists. *)

From S2P Require Import Prelude Sched.

(** ** Walking along the queue *)

(** From the pointer [x] the threads [l] follow one another, up to the pointer [y]. *)
Fixpoint chain (ts : gmap Z thread) (x : Z) (l : list Z) (y : Z) : Prop :=
  match l with
  | [] => x = y
  | a :: l => x = a /\ exists t, ts !! a = Some t /\ chain ts (t_next t) l y
  end.

(** The queue behind the thread [cur]: all others, in the order of their turns. *)
Record behind (ts : gmap Z thread) (cur : Z) (l : list Z) : Prop := {
  beh_nodup : NoDup (cur :: l);
  beh_chain : exists p, ts !! cur = Some p /\ chain ts (t_next p) l cur;
}.

Lemma chain_app ts x l1 l2 y : chain ts x (l1 ++ l2) y <-> exists z, chain ts x l1 z /\ chain ts z l2 y.
Proof.
  revert x. induction l1 as [|a l1 IH]; intros x; cbn [chain app]; [naive_solver|].
  split; [intros (-> & t & Ht & (z & H1 & H2)%IH); eauto 6|intros (z & (-> & t & Ht & H1) & H2)]. split; [done|]. exists t. split; [done|]. apply IH. eauto.
Qed.

(** Only the fields [next] matter. *)
Lemma chain_same ts ts' x l y : (forall a, a ∈ l -> t_next <$> ts' !! a = t_next <$> ts !! a) -> chain ts x l y -> chain ts' x l y.
Proof.
  revert x. induction l as [|a l IH]; intros x Hs; cbn [chain]; [done|]. intros (-> & t & Ht & Hc). split; [done|]. pose proof (Hs a ltac:(left)) as Ha. rewrite Ht in Ha.
  destruct (ts' !! a) as [t'|]; [|done]. injection Ha as Ha. exists t'. split; [done|]. rewrite Ha. apply IH; [|done]. intros b Hb. apply Hs. by right.
Qed.

Lemma chain_dom ts x l y a : chain ts x l y -> a ∈ l -> is_Some (ts !! a).
Proof.
  revert x. induction l as [|b l IH]; intros x; cbn [chain]; [by intros _ ?%not_elem_of_nil|]. intros (-> & t & Ht & Hc) [->|Ha]%elem_of_cons; [by exists t|]. by eapply IH.
Qed.

Lemma chain_size ts x l y : NoDup l -> chain ts x l y -> (length l <= size ts)%nat.
Proof.
  intros Hn Hc. rewrite <- (size_dom (D := gset Z)), <- (size_list_to_set (C := gset Z) l) by done. apply subseteq_size. intros a Ha%elem_of_list_to_set. apply elem_of_dom. by eapply chain_dom.
Qed.

Lemma behind_size ts cur l : behind ts cur l -> (length l < size ts)%nat.
Proof. intros [Hn (p & Hp & Hc)]. apply (chain_size ts cur (cur :: l) cur); [done|]. split; [done|]. eauto. Qed.

Lemma behind_same ts ts' cur l : (forall a, t_next <$> ts' !! a = t_next <$> ts !! a) -> behind ts cur l -> behind ts' cur l.
Proof.
  intros Hs [Hn (p & Hp & Hc)]. split; [done|]. pose proof (Hs cur) as H. rewrite Hp in H. destruct (ts' !! cur) as [p'|]; [|done]. injection H as H. exists p'. split; [done|]. rewrite H. by apply (chain_same ts).
Qed.

(** Turning to a thread of the queue. *)
Lemma behind_turn ts cur l1 x l2 : behind ts cur (l1 ++ x :: l2) -> behind ts x (l2 ++ cur :: l1).
Proof.
  intros [Hn (p & Hp & Hc)]. apply chain_app in Hc as (z & H1 & -> & t & Ht & H2). split.
  - assert (HP : cur :: l1 ++ x :: l2 ≡ₚ x :: l2 ++ cur :: l1) by (rewrite <- !Permutation_middle, (Permutation_app_comm l2); apply perm_swap). by rewrite <- HP.
  - exists t. split; [done|]. apply chain_app. exists cur. split; [done|]. split; [done|]. eauto.
Qed.

(** ** Waking and choosing *)

Definition wake (now : Z) (t : thread) : thread := if expired now t then make_ready t else t.

(** The threads after those in [l] whose time has come were woken. *)
Definition woken (now : Z) (l : list Z) (ts : gmap Z thread) : gmap Z thread :=
  map_imap (fun x t => Some (if decide (x ∈ l) then wake now t else t)) ts.

Lemma lookup_woken now l ts x : woken now l ts !! x = (fun t => if decide (x ∈ l) then wake now t else t) <$> ts !! x.
Proof. unfold woken. rewrite map_lookup_imap. by destruct (ts !! x). Qed.

Lemma woken_next now l ts x : t_next <$> woken now l ts !! x = t_next <$> ts !! x.
Proof. rewrite lookup_woken. destruct (ts !! x) as [t|]; [|done]. cbn. f_equal. case_decide; [|done]. unfold wake. by destruct (expired now t). Qed.

Lemma woken_size now l ts : size (woken now l ts) = size ts.
Proof.
  rewrite <- !(size_dom (D := gset Z)). f_equal. apply set_eq. intros x. rewrite !elem_of_dom, lookup_woken. by rewrite fmap_is_Some.
Qed.

Lemma woken_cons now x t l ts : ts !! x = Some t -> x ∉ l -> woken now l (if expired now t then <[x := make_ready t]> ts else ts) = woken now (x :: l) ts.
Proof.
  intros Hx Hl. apply map_eq. intros y. rewrite !lookup_woken. destruct (decide (y = x)) as [->|Hne].
  - rewrite Hx. cbn. rewrite (decide_True (P := x ∈ x :: l)) by left. unfold wake. destruct (expired now t); [rewrite lookup_insert_eq|rewrite Hx]; cbn; by rewrite decide_False.
  - destruct (expired now t); rewrite ?lookup_insert_ne by done; (destruct (ts !! y); [cbn; f_equal|done]); destruct (decide (y ∈ l)), (decide (y ∈ x :: l)) as [?|?]; set_solver.
Qed.

Lemma wake_scan_ok fuel ts now x l next_t cur : l <> [] -> NoDup l -> chain ts x l cur -> cur ∉ l -> next_t ∉ tail l -> (length l <= fuel)%nat ->
  wake_scan fuel ts now x next_t cur = Some (woken now l ts).
Proof.
  revert ts x fuel. induction l as [|a l IH]; intros ts x fuel Hne Hn Hc Hcur Hnx Hf; [done|]. destruct fuel as [|fuel]; [cbn in Hf; lia|]. destruct Hc as (-> & t & Ht & Hc). apply NoDup_cons in Hn as [Ha Hn].
  cbn [wake_scan]. rewrite Ht. cbn [mbind option_bind]. cbv zeta. destruct l as [|b l].
  - cbn [chain] in Hc. rewrite Hc, Z.eqb_refl, orb_true_r. rewrite <- (woken_cons now a t [] ts) by (done || apply not_elem_of_nil). f_equal. apply map_eq. intros y. rewrite lookup_woken. destruct (_ !! y); [|done]. by cbn.
  - assert (Hb : t_next t = b) by apply Hc. cbn [tail] in Hnx. rewrite (proj2 (Z.eqb_neq _ _)), (proj2 (Z.eqb_neq _ _)) by (rewrite Hb; set_solver). cbn [orb].
    rewrite (IH _ _ fuel); [by rewrite woken_cons|done|done| |set_solver|set_solver|cbn in Hf |- *; lia].
    apply (chain_same ts); [|done]. intros c Hcl. destruct (expired now t); [|done]. rewrite lookup_insert_ne; [done|]. set_solver.
Qed.

Definition runs (ts : gmap Z thread) (x : Z) : Prop := match ts !! x with Some t => runnable t = true | None => False end.
#[export] Instance runs_dec ts x : Decision (runs ts x).
Proof. unfold runs. destruct (ts !! x); apply _. Defined.

Lemma find_ready_ok fuel ts x l start cur : chain ts x l cur -> NoDup (cur :: l) -> start ∉ tail l -> start <> cur -> (length l <= fuel)%nat ->
  find_ready fuel ts x start cur = Some (match list_find (runs ts) l with Some (_, y) => y | None => cur end).
Proof.
  revert x fuel. induction l as [|a l IH]; intros x fuel Hc Hn Hs Hsc Hf; cbn [chain] in Hc.
  - subst x. destruct fuel; cbn [find_ready]; by rewrite Z.eqb_refl.
  - destruct Hc as (-> & t & Ht & Hc). apply NoDup_cons in Hn as [Hcur Hn]. assert (Hac : a <> cur) by set_solver. apply NoDup_cons in Hn as [Ha Hn]. destruct fuel as [|fuel]; [cbn in Hf; lia|]. cbn [find_ready list_find].
    rewrite (proj2 (Z.eqb_neq a cur)) by done. rewrite Ht. cbn [mbind option_bind]. destruct (runnable t) eqn:Er.
    + rewrite decide_True; [done|]. unfold runs. by rewrite Ht.
    + rewrite decide_False by (unfold runs; rewrite Ht, Er; done). assert (Hst : t_next t <> start) by (destruct l as [|b l]; [cbn [chain] in Hc; congruence|destruct Hc as [-> _]; set_solver]).
      rewrite (proj2 (Z.eqb_neq _ _)) by done. rewrite IH; [|done|apply NoDup_cons; split; [set_solver|done]|destruct l; [done|set_solver]|done|cbn in Hf; lia]. by destruct (list_find _ l) as [[]|].
Qed.

(** ** Yielding *)

(** The threads whose time the loop checks: all but the running one, unless it is alone. *)
Definition checked (cur : Z) (l : list Z) : list Z := match l with [] => [cur] | _ => l end.

Definition demote (t : thread) : thread := if decide (t_state t = THREAD_RUNNING) then set_state THREAD_READY t else t.

(** The state after the switch from [cur] to [x]. *)
Definition switch s (c : nat) (p : cpu) (ts : gmap Z thread) (x : Z) : sched :=
  with_cpus (with_threads s (alter (set_state THREAD_RUNNING) x (alter demote (current_thread p) ts))) (<[c := Cpu x (runqueue p) (cpu_online p)]> (cpus s)).

Lemma list_find_runs ts l i x : list_find (runs ts) l = Some (i, x) -> l !! i = Some x /\ exists t, ts !! x = Some t /\ runnable t = true.
Proof. intros (Hl & Hr & _)%list_find_Some. split; [done|]. unfold runs in Hr. destruct (ts !! x) as [t|]; [by exists t|done]. Qed.

Lemma switch_threads (ts : gmap Z thread) x tx cur tc : ts !! x = Some tx -> ts !! cur = Some tc -> x <> cur ->
  <[x := set_state THREAD_RUNNING tx]> (if bool_decide (t_state tc = THREAD_RUNNING) then <[cur := set_state THREAD_READY tc]> ts else ts) =
  alter (set_state THREAD_RUNNING) x (alter demote cur ts).
Proof.
  intros Hx Hc Hne. apply map_eq. intros y. destruct (decide (y = x)) as [->|Hy].
  - by rewrite lookup_insert_eq, lookup_alter_eq, lookup_alter_ne, Hx.
  - rewrite lookup_insert_ne, lookup_alter_ne by done. destruct (decide (y = cur)) as [->|Hyc].
    + rewrite lookup_alter_eq, Hc. cbn. unfold demote. case_bool_decide; [by rewrite lookup_insert_eq, decide_True|by rewrite Hc, decide_False].
    + rewrite lookup_alter_ne by done. case_bool_decide; [by rewrite lookup_insert_ne|done].
Qed.

Lemma sched_yield_spec s c now p l : cpus s !! c = Some p -> current_thread p <> 0 -> behind (threads s) (current_thread p) l ->
  let ts := woken now (checked (current_thread p) l) (threads s) in
  sched_yield s c now = Some (match list_find (runs ts) l with Some (_, x) => switch s c p ts x | None => with_threads s ts end).
Proof.
  intros Hp Hnz Hb ts. pose proof (behind_size _ _ _ Hb) as Hsz. pose proof Hb as [Hn (t & Ht & Hc)]. unfold sched_yield. rewrite Hp. cbn [mbind option_bind]. rewrite (proj2 (Z.eqb_neq _ 0)), Ht by done. cbn [mbind option_bind]. cbv zeta.
  assert (Ecur : exists tc, ts !! current_thread p = Some tc) by (subst ts; rewrite lookup_woken, Ht; by eexists). destruct Ecur as [tc Etc]. unfold fuel_of. destruct l as [|a l].
  - cbn [chain] in Hc. rewrite Hc. destruct (size (threads s)) as [|n] eqn:En; [cbn in Hsz; lia|]. cbn [wake_scan]. rewrite Ht. cbn [mbind option_bind]. cbv zeta. rewrite Hc, Z.eqb_refl. cbn [orb].
    assert (E : (if expired now t then <[current_thread p := make_ready t]> (threads s) else threads s) = ts) by (subst ts; cbn [checked]; rewrite <- (woken_cons now _ t [] (threads s)) by (done || apply not_elem_of_nil); apply map_eq; intros y; rewrite lookup_woken; destruct (_ !! y); [by cbn|done]).
    rewrite E. cbn [mbind option_bind]. destruct (size ts); cbn [find_ready]; rewrite Z.eqb_refl; cbn [mbind option_bind]; rewrite Etc; cbn [mbind option_bind]; by rewrite Z.eqb_refl.
  - assert (Ea : t_next t = a) by apply Hc. apply NoDup_cons in Hn as [Hcur Hn]. rewrite (wake_scan_ok _ _ _ _ (a :: l)); [|done|done|done|done|rewrite Ea; apply NoDup_cons in Hn; apply Hn|lia]. cbn [mbind option_bind]. change (woken now (a :: l) (threads s)) with ts.
    rewrite (find_ready_ok _ _ _ (a :: l)); [|apply (chain_same (threads s)); [intros; apply woken_next|done]|by apply NoDup_cons|rewrite Ea; apply NoDup_cons in Hn; apply Hn|rewrite Ea; set_solver|subst ts; rewrite woken_size; lia]. cbn [mbind option_bind].
    destruct (list_find (runs ts) (a :: l)) as [[i x]|] eqn:Ef.
    + apply list_find_runs in Ef as (Hx & tx & Etx & Hr). apply list_elem_of_lookup_2 in Hx. assert (Hne : x <> current_thread p) by set_solver. rewrite Etx. cbn [mbind option_bind]. rewrite (proj2 (Z.eqb_neq _ _)), Hr, Etc by done. cbn [negb andb mbind option_bind].
      unfold switch. do 3 f_equal. by apply switch_threads.
    + rewrite Etc. cbn [mbind option_bind]. by rewrite Z.eqb_refl.
Qed.

Lemma alter_next (f : thread -> thread) (x : Z) (ts : gmap Z thread) (y : Z) : (forall t, t_next (f t) = t_next t) -> t_next <$> alter f x ts !! y = t_next <$> ts !! y.
Proof. intros Hf. destruct (decide (y = x)) as [->|Hne]; [|by rewrite lookup_alter_ne]. rewrite lookup_alter_eq. destruct (ts !! x); [|done]. cbn. by rewrite Hf. Qed.

Lemma demote_next t : t_next (demote t) = t_next t.
Proof. unfold demote. by case_decide. Qed.

Lemma switch_next s c p (ts : gmap Z thread) x y : t_next <$> threads (switch s c p ts x) !! y = t_next <$> ts !! y.
Proof. cbn [threads switch with_cpus with_threads]. rewrite alter_next by done. apply alter_next, demote_next. Qed.

(** The queue after the turn has passed to the thread at place [i]. *)
Definition turned (l : list Z) (i : nat) (cur : Z) : list Z := drop (S i) l ++ cur :: take i l.

Lemma behind_turned ts cur l i x : behind ts cur l -> l !! i = Some x -> behind ts x (turned l i cur).
Proof. intros Hb Hx. apply behind_turn. by rewrite take_drop_middle. Qed.

(** Yielding wakes the threads whose time has come, and gives the processor to the
    first thread behind the running one that can run; the running thread becomes ready
    if it was not blocked, and the turn passes in the order of the queue.  When no other
    thread can run, it keeps the processor.  Nothing else changes. *)
Theorem sched_yield_correct s c now p l : cpus s !! c = Some p -> current_thread p <> 0 -> behind (threads s) (current_thread p) l ->
  let cur := current_thread p in
  let ts := woken now (checked cur l) (threads s) in
  exists s', sched_yield s c now = Some s' /\ entries s' = entries s /\ global_thread_list s' = global_thread_list s /\
    match list_find (runs ts) l with
    | Some (i, x) =>
        cpus s' = <[c := Cpu x (runqueue p) (cpu_online p)]> (cpus s) /\ behind (threads s') x (turned l i cur) /\
        threads s' !! x = set_state THREAD_RUNNING <$> ts !! x /\ threads s' !! cur = demote <$> ts !! cur /\
        forall y, y <> x -> y <> cur -> threads s' !! y = ts !! y
    | None => cpus s' = cpus s /\ threads s' = ts /\ behind (threads s') cur l
    end.
Proof.
  intros Hp Hnz Hb cur ts. pose proof (sched_yield_spec s c now p l Hp Hnz Hb) as E. cbv zeta in E. fold cur in E. fold ts in E. eexists. split; [exact E|].
  assert (Hbt : behind ts cur l) by (apply (behind_same (threads s)); [intros; apply woken_next|done]). destruct (list_find (runs ts) l) as [[i x]|] eqn:Ef.
  - apply list_find_runs in Ef as (Hx & _). assert (Hne : x <> cur) by (destruct Hbt as [[Hcur _]%NoDup_cons _]; apply list_elem_of_lookup_2 in Hx; set_solver). do 3 (split; [done|]).
    split; [apply behind_turned; [|done]; apply (behind_same ts); [intros; apply switch_next|done]|]. cbn [threads switch with_cpus with_threads]. fold cur.
    split; [by rewrite lookup_alter_eq, lookup_alter_ne|]. split; [by rewrite lookup_alter_ne, lookup_alter_eq|]. intros y H1 H2. by rewrite !lookup_alter_ne.
  - done.
Qed.

(** ** Rings *)

Definition first_of (q : list Z) : Z := default 0 (head q).

(** The threads of [q] form a ring: each points to the next, the last to the first. *)
Definition ring (ts : gmap Z thread) (q : list Z) : Prop := chain ts (first_of q) q (first_of q).

Lemma ring_behind ts q cur : NoDup q -> ring ts q -> cur ∈ q -> exists l, behind ts cur l /\ forall x, x ∈ l -> x ∈ q.
Proof.
  intros Hn Hr (q1 & q2 & ->)%list_elem_of_split. exists (q2 ++ q1). split; [|set_solver]. unfold ring in Hr. set (h := first_of (q1 ++ cur :: q2)) in *. apply chain_app in Hr as (z & H1 & -> & t & Ht & H2). split.
  - by rewrite (Permutation_app_comm q2), Permutation_middle.
  - exists t. split; [done|]. apply chain_app. exists h. split; [done|]. subst h. destruct q1; [done|exact H1].
Qed.

(** The same ring in another store of threads. *)
Lemma ring_same ts ts' q : (forall a, a ∈ q -> t_next <$> ts' !! a = t_next <$> ts !! a) -> ring ts q -> ring ts' q.
Proof. apply chain_same. Qed.

Lemma chain_lookup ts x l y a : chain ts x l y -> a ∈ l -> exists t, ts !! a = Some t.
Proof. intros Hc Ha. destruct (chain_dom _ _ _ _ _ Hc Ha) as [t Ht]. by exists t. Qed.

(** The last thread of a queue. *)
Lemma find_tail_ok fuel ts x l z h : chain ts x (l ++ [z]) h -> h ∉ tail (l ++ [z]) -> (length l <= fuel)%nat -> find_tail fuel ts x h = Some z.
Proof.
  revert x fuel. induction l as [|a l IH]; intros x fuel Hc Hh Hf; cbn [app chain] in Hc; destruct Hc as (-> & t & Ht & Hc).
  - destruct fuel; cbn [find_tail]; rewrite Ht; cbn [mbind option_bind]; cbn [chain] in Hc; by rewrite Hc, Z.eqb_refl.
  - destruct fuel as [|fuel]; [cbn in Hf; lia|]. cbn [find_tail]. rewrite Ht. cbn [mbind option_bind]. cbn [app tail] in Hh. rewrite (proj2 (Z.eqb_neq _ _)) by (destruct l; cbn [app chain] in Hc; destruct Hc as [-> _]; set_solver).
    apply IH; [done| |cbn in Hf; lia]. intros Hin. apply Hh. by destruct l; [set_solver|right].
Qed.

(** Looking for a thread in a queue. *)
Lemma in_queue_ok fuel ts x l h t : chain ts x l h -> l <> [] -> h ∉ tail l -> (length l <= fuel)%nat -> in_queue fuel ts x h t = Some (bool_decide (t ∈ l)).
Proof.
  revert x fuel. induction l as [|a l IH]; intros x fuel Hc Hne Hh Hf; [done|]. destruct Hc as (-> & u & Hu & Hc). destruct fuel as [|fuel]; [cbn in Hf; lia|]. cbn [in_queue].
  destruct (Z.eqb_spec a t) as [->|Hat]; [by rewrite bool_decide_true by left|]. rewrite Hu. cbn [mbind option_bind]. destruct l as [|b l].
  - cbn [chain] in Hc. rewrite Hc, Z.eqb_refl. f_equal. symmetry. apply bool_decide_false. set_solver.
  - cbn [tail] in Hh. rewrite (proj2 (Z.eqb_neq _ _)) by (destruct Hc as [-> _]; set_solver). rewrite IH; [|done|done|cbn [tail]; set_solver|cbn in Hf |- *; lia]. f_equal. apply bool_decide_ext. set_solver.
Qed.

(** The thread before another. *)
Lemma find_prev_ok fuel ts x l1 z t l2 h : chain ts x (l1 ++ z :: t :: l2) h -> NoDup (l1 ++ z :: t :: l2) -> (length l1 <= fuel)%nat -> find_prev fuel ts x t = Some z.
Proof.
  revert x fuel. induction l1 as [|a l1 IH]; intros x fuel Hc Hn Hf; cbn [app chain] in Hc; destruct Hc as (-> & u & Hu & Hc).
  - destruct Hc as [Hc _]. destruct fuel; cbn [find_prev]; rewrite Hu; cbn [mbind option_bind]; by rewrite Hc, Z.eqb_refl.
  - destruct fuel as [|fuel]; [cbn in Hf; lia|]. cbn [find_prev]. rewrite Hu. cbn [mbind option_bind]. apply NoDup_cons in Hn as [Ha Hn]. assert (Hne : t_next u <> t).
    { destruct l1 as [|b l1]; cbn [app chain] in Hc; destruct Hc as [-> _]; cbn [app] in Hn; apply NoDup_cons in Hn as [Hb _]; set_solver. }
    rewrite (proj2 (Z.eqb_neq _ _)) by done. apply IH; [done|done|cbn in Hf; lia].
Qed.

(** ** Run queues *)

(** [qs] are the run queues of the processors: disjoint rings, each with the running
    thread of its processor. *)
Record queues_ok s (qs : list (list Z)) : Prop := {
  q_len : length qs = length (cpus s);
  q_cpu : forall c p q, cpus s !! c = Some p -> qs !! c = Some q ->
    runqueue p = first_of q /\ ring (threads s) q /\ (current_thread p = 0 \/ current_thread p ∈ q) /\ (cpu_online p = false -> q = []);
  q_nodup : forall c q, qs !! c = Some q -> NoDup q /\ 0 ∉ q;
  q_disj : forall c d q q' x, qs !! c = Some q -> qs !! d = Some q' -> x ∈ q -> x ∈ q' -> c = d;
}.

Lemma q_lookup s qs c p : queues_ok s qs -> cpus s !! c = Some p -> exists q, qs !! c = Some q.
Proof. intros H Hp. apply lookup_lt_Some in Hp. rewrite <- (q_len _ _ H) in Hp. destruct (lookup_lt_is_Some_2 qs c Hp) as [q Hq]. by exists q. Qed.

Lemma first_of_nz q : 0 ∉ q -> first_of q = 0 -> q = [].
Proof. destruct q as [|a q]; [done|]. cbn. set_solver. Qed.

Lemma ring_size ts q : NoDup q -> ring ts q -> (length q <= size ts)%nat.
Proof. intros Hn Hr. by eapply chain_size. Qed.

(** Replacing one queue. *)
Lemma queues_update s qs c p q s' p' q' : queues_ok s qs -> cpus s !! c = Some p -> qs !! c = Some q -> cpus s' = <[c := p']> (cpus s) ->
  (forall a, a ∉ q -> a ∉ q' -> t_next <$> threads s' !! a = t_next <$> threads s !! a) -> ring (threads s') q' -> runqueue p' = first_of q' ->
  (current_thread p' = 0 \/ current_thread p' ∈ q') -> (cpu_online p' = false -> q' = []) -> NoDup q' -> 0 ∉ q' ->
  (forall x, x ∈ q' -> x ∉ q -> forall d r, qs !! d = Some r -> x ∉ r) -> queues_ok s' (<[c := q']> qs).
Proof.
  intros H Hp Hq Ec Ea Hr Hf Hcur Ho Hn H0 Hnew. assert (Hout : forall d r x, d <> c -> qs !! d = Some r -> x ∈ r -> (x ∉ q) /\ (x ∉ q')).
  { intros d r x Hd Hrr Hx. assert (Hxq : x ∉ q) by (intros Hxq; apply Hd; by eapply (q_disj _ _ H)). split; [done|]. intros Hx'. by apply (Hnew x Hx' Hxq d r). }
  split.
  - rewrite length_insert, Ec, length_insert. apply H.
  - intros d p0 r. rewrite Ec. intros Hp0 [(-> & <- & Hlt)|[Hd Hrr]]%list_lookup_insert_Some.
    + rewrite list_lookup_insert_eq in Hp0 by (by rewrite <- (q_len _ _ H)). by injection Hp0 as <-.
    + rewrite list_lookup_insert_ne in Hp0 by done. destruct (q_cpu _ _ H d p0 r Hp0 Hrr) as (F1 & F2 & F3 & F4). split; [done|]. split; [|done]. apply (ring_same (threads s)); [|done]. intros a Ha. by apply Ea; apply (Hout d r).
  - intros d r [(-> & <- & _)|[_ Hrr]]%list_lookup_insert_Some; [done|by apply (q_nodup _ _ H d)].
  - intros d e r r' x [(-> & <- & _)|[Hd Hrr]]%list_lookup_insert_Some [(-> & <- & _)|[He Hrr']]%list_lookup_insert_Some Hx Hx'; [done| | |by apply (q_disj _ _ H d e r r' x)].
    + by destruct (Hout e r' x ltac:(done) Hrr' Hx').
    + by destruct (Hout d r x ltac:(done) Hrr Hx).
Qed.

Lemma yield_queues s qs c now : queues_ok s qs -> (c < length (cpus s))%nat -> exists s', sched_yield s c now = Some s' /\ queues_ok s' qs.
Proof.
  intros H [p Hp]%lookup_lt_is_Some_2. destruct (q_lookup _ _ _ _ H Hp) as [q Hq]. destruct (q_cpu _ _ H c p q Hp Hq) as (Hf & Hr & Hc & Ho). destruct (q_nodup _ _ H c q Hq) as [Hn H0].
  destruct (decide (current_thread p = 0)) as [E0|E0]; [exists s; split; [unfold sched_yield; rewrite Hp; cbn [mbind option_bind]; by rewrite E0|done]|]. destruct Hc as [?|Hc]; [done|].
  destruct (ring_behind _ _ _ Hn Hr Hc) as (l & Hb & Hl). pose proof (sched_yield_spec s c now p l Hp E0 Hb) as E. cbv zeta in E. set (ts := woken now _ _) in E. eexists. split; [exact E|].
  assert (Hts : forall a, t_next <$> ts !! a = t_next <$> threads s !! a) by (intros; apply woken_next). destruct (list_find (runs ts) l) as [[i x]|] eqn:Ef.
  - apply list_find_runs in Ef as (Hx & _). apply list_elem_of_lookup_2 in Hx. split; [cbn; rewrite length_insert; apply H| |apply H|apply H].
    intros d p' q' Hp' Hq'. cbn in Hp'. assert (Hr' : forall q0, ring (threads s) q0 -> ring (threads (switch s c p ts x)) q0) by (intros q0; apply ring_same; intros; rewrite switch_next; apply Hts).
    apply list_lookup_insert_Some in Hp' as [(-> & <- & _)|[_ Hp']]; [rewrite Hq in Hq'; injection Hq' as <-; cbn [runqueue current_thread cpu_online]; split; [done|]; split; [by apply Hr'|]; split; [right; by apply Hl|done]|].
    destruct (q_cpu _ _ H d p' q' Hp' Hq') as (? & ? & ? & ?). split; [done|]. split; [by apply Hr'|done].
  - split; [apply H| |apply H|apply H]. intros d p' q' Hp' Hq'. destruct (q_cpu _ _ H d p' q' Hp' Hq') as (? & ? & ? & ?). split; [done|]. split; [|done]. by apply (ring_same (threads s)).
Qed.

(** Linking a thread behind the last one. *)
Lemma ring_append ts l z t last th : NoDup (l ++ [z]) -> t ∉ l ++ [z] -> ring ts (l ++ [z]) -> ts !! z = Some last -> ts !! t = Some th ->
  ring (<[t := set_next (first_of (l ++ [z])) th]> (<[z := set_next t last]> ts)) ((l ++ [z]) ++ [t]).
Proof.
  intros Hn Ht Hr Hz Hth. assert (Ef : first_of ((l ++ [z]) ++ [t]) = first_of (l ++ [z])) by (by destruct l). unfold ring in *. rewrite Ef. set (h := first_of (l ++ [z])) in *.
  assert (Hzl : z ∉ l) by (apply NoDup_app in Hn as (_ & Hd & _); intros Hin; apply (Hd z Hin); left). apply chain_app in Hr as (y & H1 & H2). destruct H2 as (-> & u & Hu & _). apply chain_app. exists t. split.
  - apply chain_app. exists z. split; [apply (chain_same ts); [|done]; intros a Ha; rewrite !lookup_insert_ne by set_solver; done|]. split; [done|]. exists (set_next t last). rewrite lookup_insert_ne, lookup_insert_eq by set_solver. done.
  - split; [done|]. exists (set_next h th). by rewrite lookup_insert_eq.
Qed.

Lemma enqueue_queues s qs t explicit : queues_ok s qs -> (0 < length (cpus s))%nat -> (forall p, cpus s !! 0%nat = Some p -> cpu_online p = true) ->
  is_Some (threads s !! t) -> t <> 0 -> (forall c q, qs !! c = Some q -> t ∉ q) ->
  exists s' c q, sched_enqueue_thread s t explicit = Some s' /\ qs !! c = Some q /\ queues_ok s' (<[c := q ++ [t]]> qs).
Proof.
  intros H Hlen Hbsp [th Hth] Ht0 Hout. unfold sched_enqueue_thread. destruct (target_cpu s explicit) as [c0 next].
  set (c := match cpus s !! c0 with Some cpu => if cpu_online cpu then c0 else 0%nat | None => 0%nat end).
  assert (Hc : exists p, cpus s !! c = Some p /\ cpu_online p = true).
  { subst c. destruct (lookup_lt_is_Some_2 _ _ Hlen) as [b Hb]. destruct (cpus s !! c0) as [p0|] eqn:E0; [destruct (cpu_online p0) eqn:Eo; [by exists p0|]|]; exists b; auto. }
  destruct Hc as (p & Hp & Ho). destruct (q_lookup _ _ _ _ H Hp) as [q Hq]. destruct (q_cpu _ _ H c p q Hp Hq) as (Hf & Hr & Hcur & _). destruct (q_nodup _ _ H c q Hq) as [Hn H0]. pose proof (Hout c q Hq) as Htq.
  cbn [cpus threads entries global_thread_list next_tid next_cpu]. rewrite Hp. cbn [mbind option_bind]. rewrite Hth. cbn [mbind option_bind].
  assert (Hfresh : forall x, x ∈ q ++ [t] -> x ∉ q -> forall d r, qs !! d = Some r -> x ∉ r) by (intros x [?| ->%list_elem_of_singleton]%elem_of_app; [done|by intros _]).
  assert (Hnew : NoDup (q ++ [t]) /\ 0 ∉ q ++ [t]) by (split; [apply NoDup_app; split; [done|]; split; [set_solver|apply NoDup_singleton]|set_solver]). destruct Hnew as [Hn' H0'].
  destruct (Z.eqb_spec (runqueue p) 0) as [E0|E0].
  - rewrite Hf in E0. apply first_of_nz in E0 as ->; [|done]. eexists _, c, []. split; [done|]. split; [done|]. eapply (queues_update s qs c p []); [done|done|done|done| | |done|set_solver|cbn; congruence|done|done|done].
    + intros a _ Ha. cbn. rewrite lookup_insert_ne; [done|]. set_solver.
    + cbn. split; [done|]. exists (set_next t th). by rewrite lookup_insert_eq.
  - destruct (exists_last (l := q)) as (l & z & ->); [intros ->; by rewrite Hf in E0|]. pose proof (ring_size _ _ Hn Hr) as Hsz. rewrite length_app in Hsz. cbn in Hsz.
    assert (Htail : first_of (l ++ [z]) ∉ tail (l ++ [z])) by (destruct l; cbn in Hn |- *; [set_solver|by apply NoDup_cons in Hn as [? _]]).
    rewrite Hf. unfold fuel_of. rewrite (find_tail_ok _ _ _ l z); [|exact Hr|done|lia]. cbn [mbind option_bind]. destruct (chain_lookup _ _ _ _ z Hr ltac:(set_solver)) as [last Hlast]. rewrite Hlast. cbn [mbind option_bind].
    rewrite lookup_insert_ne by set_solver. rewrite Hth. cbn [mbind option_bind]. eexists _, c, (l ++ [z]). split; [done|]. split; [done|].
    eapply (queues_update s qs c p (l ++ [z])); [done|done|done|symmetry; by apply list_insert_id| |by apply ring_append|rewrite Hf; by destruct l|set_solver|congruence|done|done|done].
    intros a Ha Ha'. cbn. rewrite !lookup_insert_ne; [done|set_solver|set_solver].
Qed.

(** A queue without a thread. *)
Definition without (t : Z) (q : list Z) : list Z := filter (fun x => x <> t) q.

Lemma without_out t q : t ∉ q -> without t q = q.
Proof. unfold without. induction q as [|a q IH]; intros Ht; [done|]. rewrite filter_cons_True by set_solver. f_equal. apply IH. set_solver. Qed.

Lemma without_split t l1 l2 : NoDup (l1 ++ t :: l2) -> without t (l1 ++ t :: l2) = l1 ++ l2.
Proof.
  intros (_ & Hd & [Ht _]%NoDup_cons)%NoDup_app. unfold without. rewrite filter_app, filter_cons_False by naive_solver. f_equal; [|by apply without_out].
  apply without_out. intros Hin. apply (Hd t Hin). left.
Qed.

Lemma find_prev_tail fuel ts x t : find_prev fuel ts x t = find_tail fuel ts x t.
Proof. revert x. induction fuel as [|n IH]; intros x; cbn [find_prev find_tail]; (destruct (ts !! x); [|done]); cbn [mbind option_bind]; case_match; done. Qed.

(** The thread before [t] in a ring of several, and the ring without [t]. *)
Lemma ring_remove ts q t th : NoDup q -> ring ts q -> t ∈ q -> ts !! t = Some th -> t_next th <> t ->
  exists z last, find_prev (size ts) ts (first_of q) t = Some z /\ ts !! z = Some last /\ z ∈ without t q /\
    (if first_of q =? t then t_next th else first_of q) = first_of (without t q) /\ ring (<[z := set_next (t_next th) last]> ts) (without t q).
Proof.
  intros Hn Hr Ht Hth Hnx. pose proof (ring_size _ _ Hn Hr) as Hsz. apply list_elem_of_split in Ht as (l1 & l2 & ->). rewrite (without_split _ _ _ Hn). rewrite length_app in Hsz. cbn [length] in Hsz. destruct l1 as [|a l1].
  - (* the first of the queue *) destruct l2 as [|b l2]; [destruct Hr as (_ & u & Hu & Hc); cbn in Hc; congruence|]. destruct (exists_last (l := b :: l2)) as (l & z & El); [done|]. rewrite El in *. cbn [app first_of head default] in *.
    assert (Hr' := Hr). destruct Hr as (_ & u & Hu & Hc). cbn [first_of head default app] in Hc. rewrite Hth in Hu. injection Hu as <-. destruct (chain_lookup _ _ _ _ z Hc ltac:(set_solver)) as [last Hlast]. exists z, last.
    apply NoDup_cons in Hn as [Htl Hn]. rewrite find_prev_tail. split; [apply (find_tail_ok _ _ _ (t :: l)); [exact Hr'|exact Htl|rewrite length_app in Hsz; cbn in Hsz |- *; lia]|]. split; [done|]. split; [set_solver|]. rewrite Z.eqb_refl.
    assert (Ef : t_next th = first_of (l ++ [z])) by (rewrite <- El in Hc |- *; apply Hc). split; [done|]. unfold ring. rewrite <- Ef. apply chain_app in Hc as (y & H1 & -> & w & Hw & _). apply chain_app. exists z.
    split; [apply (chain_same ts); [|done]|split; [done|]; exists (set_next (t_next th) last); by rewrite lookup_insert_eq]. intros c Hc. rewrite lookup_insert_ne; [done|]. intros ->. apply NoDup_app in Hn as (_ & Hd & _). apply (Hd c Hc). left.
  - destruct (exists_last (l := a :: l1)) as (l & z & El); [done|]. rewrite El in *. assert (Hh : first_of ((l ++ [z]) ++ t :: l2) = first_of ((l ++ [z]) ++ l2)) by (by destruct l).
    assert (Hft : first_of ((l ++ [z]) ++ t :: l2) <> t) by (destruct l as [|y l]; cbn [app first_of head default] in *; apply NoDup_cons in Hn as [Hy _]; set_solver).
    unfold ring in *. rewrite <- Hh. set (h := first_of ((l ++ [z]) ++ t :: l2)) in *. rewrite <- app_assoc in Hn, Hr |- *. cbn [app] in Hn, Hr |- *. destruct (chain_lookup _ _ _ _ z Hr ltac:(set_solver)) as [last Hlast]. exists z, last.
    rewrite length_app in Hsz. cbn [length] in Hsz. split; [apply (find_prev_ok _ _ _ l z t l2 h Hr Hn); lia|]. split; [done|]. split; [set_solver|]. split; [by rewrite (proj2 (Z.eqb_neq _ _))|].
    apply chain_app in Hr as (y & H1 & -> & w & Hw & _ & u & Hu & H2). rewrite Hth in Hu. injection Hu as <-. apply NoDup_app in Hn as (_ & Hd & [Hz Hn2]%NoDup_cons).
    apply chain_app. exists z. split; [apply (chain_same ts); [|done]; intros c Hc; rewrite lookup_insert_ne; [done|]; intros ->; apply (Hd c Hc); left|].
    split; [done|]. exists (set_next (t_next th) last). rewrite lookup_insert_eq. split; [done|]. apply (chain_same ts); [|done]. intros c Hc. rewrite lookup_insert_ne; [done|]. set_solver.
Qed.

Lemma unqueue_queues s qs c p q t : queues_ok s qs -> cpus s !! c = Some p -> qs !! c = Some q -> current_thread p <> t ->
  if decide (t ∈ q) then exists s', unqueue s c p t = Some (true, s') /\ queues_ok s' (<[c := without t q]> qs) else unqueue s c p t = Some (false, s).
Proof.
  intros H Hp Hq Hct. destruct (q_cpu _ _ H c p q Hp Hq) as (Hf & Hr & Hcur & Ho). destruct (q_nodup _ _ H c q Hq) as [Hn H0]. unfold unqueue. destruct (decide (q = [])) as [->|Hne].
  { rewrite Hf. cbn. rewrite orb_true_r. done. }
  assert (Hon : cpu_online p = true) by (destruct (cpu_online p); [done|by destruct Hne; apply Ho]). rewrite Hon. cbn [negb orb]. rewrite (proj2 (Z.eqb_neq _ 0)) by (rewrite Hf; intros E; by apply Hne, first_of_nz).
  pose proof (ring_size _ _ Hn Hr) as Hsz. rewrite Hf. unfold fuel_of. rewrite (in_queue_ok _ _ _ q); [|exact Hr|done|destruct q; [done|by apply NoDup_cons in Hn as [? _]]|done]. cbn [mbind option_bind].
  destruct (decide (t ∈ q)) as [Ht|Ht]; [|by rewrite bool_decide_false]. rewrite bool_decide_true by done. cbn [negb]. destruct (chain_lookup _ _ _ _ t Hr Ht) as [th Hth]. rewrite Hth. cbn [mbind option_bind].
  assert (Hsub : forall x, x ∈ without t q -> x ∈ q) by (intros x; unfold without; rewrite list_elem_of_filter; by intros [_ ?]).
  assert (Hcur' : current_thread p = 0 \/ current_thread p ∈ without t q) by (destruct Hcur as [?|?]; [by left|right; unfold without; by apply list_elem_of_filter]).
  destruct (Z.eqb_spec (t_next th) t) as [Et|Et].
  - eexists. split; [done|]. assert (q = [t]) as ->.
    { apply list_elem_of_split in Ht as (l1 & l2 & ->). unfold ring in Hr. apply chain_app in Hr as (y & H1 & -> & u & Hu & H2). rewrite Hth in Hu. injection Hu as <-. rewrite Et in H2. destruct l2 as [|b l2].
      - cbn [chain] in H2. destruct l1 as [|a l1]; [done|]. cbn in H2. subst a. cbn in Hn. apply NoDup_cons in Hn as [Ha _]. set_solver.
      - destruct H2 as [<- _]. apply NoDup_app in Hn as (_ & _ & [Ha _]%NoDup_cons). set_solver. }
    assert (Ew : without t [t] = []) by (unfold without; by rewrite filter_cons_False by naive_solver). rewrite Ew in *. eapply (queues_update s qs c p [t]); try done; [apply NoDup_nil_2|set_solver|set_solver].
  - destruct (ring_remove _ _ _ _ Hn Hr Ht Hth Et) as (z & last & -> & Hz & Hzq & Eh & Hring). cbn [mbind option_bind]. rewrite Hz. cbn [mbind option_bind]. eexists. split; [done|].
    eapply (queues_update s qs c p q); [done|done|done|done| |exact Hring|exact Eh|exact Hcur'|cbn; congruence|by apply NoDup_filter|set_solver|set_solver].
    intros a Ha _. cbn. rewrite lookup_insert_ne; [done|]. intros ->. by apply Ha, Hsub.
Qed.

Lemma remove_loop_queues l pre s qs t : queues_ok s qs -> cpus s = pre ++ l -> (forall c p, cpus s !! c = Some p -> current_thread p <> t) ->
  (forall c q, (c < length pre)%nat -> qs !! c = Some q -> t ∉ q) ->
  exists s', runqueue_loop l (length pre) s t = Some s' /\ queues_ok s' (without t <$> qs).
Proof.
  revert pre. induction l as [|p l IH]; intros pre H Hl Hcur Hpre; cbn [runqueue_loop].
  - exists s. split; [done|]. assert (Eq : without t <$> qs = qs); [|by rewrite Eq]. apply list_eq. intros c. rewrite list_lookup_fmap. destruct (qs !! c) as [q|] eqn:Eq; [|done]. cbn. f_equal. apply without_out, (Hpre c q); [|done].
    apply lookup_lt_Some in Eq. rewrite (q_len _ _ H), Hl, app_nil_r in Eq. done.
  - assert (Hp : cpus s !! length pre = Some p) by (rewrite Hl; by apply list_lookup_middle). destruct (q_lookup _ _ _ _ H Hp) as [q Hq]. pose proof (unqueue_queues s qs (length pre) p q t H Hp Hq (Hcur _ _ Hp)) as Hu. destruct (decide (t ∈ q)) as [Ht|Ht].
    + destruct Hu as (s' & -> & H'). cbn [mbind option_bind fst snd]. exists s'. split; [done|]. assert (Eq : without t <$> qs = <[length pre := without t q]> qs); [|by rewrite Eq]. apply list_eq. intros c. rewrite list_lookup_fmap. destruct (decide (c = length pre)) as [->|Hc].
      * rewrite list_lookup_insert_eq by (by eapply lookup_lt_Some). by rewrite Hq.
      * rewrite list_lookup_insert_ne by done. destruct (qs !! c) as [r|] eqn:Er; [|done]. cbn. f_equal. apply without_out. intros Hr. apply Hc. by apply (q_disj _ _ H c _ r q t).
    + rewrite Hu. cbn [mbind option_bind fst snd]. replace (S (length pre)) with (length (pre ++ [p])) by (rewrite length_app; cbn; lia). apply IH; [done|by rewrite <- app_assoc|done|].
      intros c r Hc Hr. rewrite length_app in Hc. cbn in Hc. destruct (decide (c = length pre)) as [->|Hne]; [congruence|]. apply (Hpre c); [lia|done].
Qed.

(** C21: The run queues of the processors are disjoint rings, each of which holds the
    running thread of its processor, and stay so: yielding always succeeds and moves no
    thread between queues, a new thread is put at the end of one queue, and a thread
    that is not running is taken out of the queue it is in. *)
Theorem runqueues_sound s qs t : queues_ok s qs -> (0 < length (cpus s))%nat -> (forall p, cpus s !! 0%nat = Some p -> cpu_online p = true) ->
  (forall c now, (c < length (cpus s))%nat -> exists s', sched_yield s c now = Some s' /\ queues_ok s' qs) /\
  (forall explicit, is_Some (threads s !! t) -> t <> 0 -> (forall c q, qs !! c = Some q -> t ∉ q) ->
   exists s' c q, sched_enqueue_thread s t explicit = Some s' /\ qs !! c = Some q /\ queues_ok s' (<[c := q ++ [t]]> qs)) /\
  ((forall c p, cpus s !! c = Some p -> current_thread p <> t) -> exists s', remove_from_runqueue s t = Some s' /\ queues_ok s' (without t <$> qs)).
Proof.
  intros H Hlen Hbsp. split; [intros c now Hc; by apply yield_queues|]. split; [intros explicit; by apply enqueue_queues|].
  intros Hcur. apply (remove_loop_queues (cpus s) []); [done|done|done|]. intros c q Hc. cbn in Hc. lia.
Qed.

(** ** Waiting for a turn *)

(** Nothing of the queues changes; threads that are in no queue may appear. *)
Definition queues_kept s m : Prop :=
  cpus m = cpus s /\ forall x, is_Some (threads s !! x) -> t_next <$> threads m !! x = t_next <$> threads s !! x.

(** What happens between two calls of [sched_yield] on processor [c] while thread [t]
    waits: threads are changed in all but their place in the queues, others yield on
    other processors, [n] new threads are put in queues, and threads other than [t] that
    are not running are removed. *)
Inductive others (c : nat) (t : Z) : nat -> sched -> sched -> Prop :=
  | others_none s : others c t 0 s s
  | others_change n s m m' : others c t n s m -> queues_kept m m' -> others c t n s m'
  | others_yield n s m d now m' : others c t n s m -> d <> c -> sched_yield m d now = Some m' -> others c t n s m'
  | others_create n s m u explicit m' : others c t n s m -> (forall p, cpus m !! 0%nat = Some p -> cpu_online p = true) -> u <> 0 -> is_Some (threads m !! u) ->
      (forall qs d q, queues_ok m qs -> qs !! d = Some q -> u ∉ q) -> sched_enqueue_thread m u explicit = Some m' -> others c t (S n) s m'
  | others_remove n s m u m' : others c t n s m -> u <> t -> (forall d p, cpus m !! d = Some p -> current_thread p <> u) ->
      remove_from_runqueue m u = Some m' -> others c t n s m'.

(** Thread [t], able to run at each of the calls, gets processor [c] within [n] calls of
    [sched_yield], at whatever times and whatever happens in between, if not more than
    [k] threads are created. *)
Fixpoint runs_within (c : nat) (t : Z) (n k : nat) s : Prop :=
  current_thread <$> cpus s !! c = Some t \/
  match n with
  | O => False
  | S n => forall j m now, others c t j s m -> (j <= k)%nat -> runs (threads m) t -> exists s', sched_yield m c now = Some s' /\ runs_within c t n (k - j) s'
  end.

(** Thread [t] is the [i]-th behind the running one, for an [i] up to [d]. *)
Definition waits (c : nat) (t : Z) (d : nat) s : Prop :=
  exists qs p q1 q2 i, queues_ok s qs /\ cpus s !! c = Some p /\ current_thread p <> 0 /\ qs !! c = Some (q1 ++ current_thread p :: q2) /\
    (q2 ++ q1) !! i = Some t /\ (i <= d)%nat.

(** The order of turns is that of the ring. *)
Lemma ring_split_behind ts q1 cur q2 : NoDup (q1 ++ cur :: q2) -> ring ts (q1 ++ cur :: q2) -> behind ts cur (q2 ++ q1).
Proof.
  intros Hn Hr. unfold ring in Hr. set (h := first_of (q1 ++ cur :: q2)) in *. apply chain_app in Hr as (z & H1 & -> & t & Ht & H2). split.
  - assert (HP : q1 ++ cur :: q2 ≡ₚ cur :: q2 ++ q1) by (rewrite <- Permutation_middle; by rewrite (Permutation_app_comm q1)). by rewrite <- HP.
  - exists t. split; [done|]. apply chain_app. exists h. split; [done|]. exact H1.
Qed.

Lemma chain_unique ts x l l' y : chain ts x l y -> chain ts x l' y -> y ∉ l -> y ∉ l' -> l = l'.
Proof.
  revert x l'. induction l as [|a l IH]; intros x [|b l']; cbn [chain]; [done|intros -> (-> & _) _ Hy; set_solver|intros (-> & _) -> Hy; set_solver|].
  intros (-> & t & Ht & H1) (-> & t' & Ht' & H2) Hy Hy'. rewrite Ht in Ht'. injection Ht' as <-. f_equal. apply (IH (t_next t)); [done|done|set_solver|set_solver].
Qed.

Lemma behind_unique ts cur l l' : behind ts cur l -> behind ts cur l' -> l = l'.
Proof.
  intros [[Hc _]%NoDup_cons (p & Hp & H1)] [[Hc' _]%NoDup_cons (p' & Hp' & H2)]. rewrite Hp in Hp'. injection Hp' as <-. by apply (chain_unique ts (t_next p) _ _ cur).
Qed.

Lemma enqueue_current s u explicit s' c : sched_enqueue_thread s u explicit = Some s' -> current_thread <$> cpus s' !! c = current_thread <$> cpus s !! c.
Proof.
  unfold sched_enqueue_thread. destruct (target_cpu s explicit) as [c0 next]. set (d := match cpus s !! c0 with Some cpu => if cpu_online cpu then c0 else 0%nat | None => 0%nat end). cbn [cpus threads]. destruct (cpus s !! d) as [p|] eqn:Hp; [|done]. cbn [mbind option_bind].
  destruct (threads s !! u) as [th|]; [|done]. cbn [mbind option_bind]. destruct (runqueue p =? 0).
  - intros [= <-]. cbn. destruct (decide (c = d)) as [->|Hne]; [rewrite list_lookup_insert_eq, Hp by (by eapply lookup_lt_Some); done|by rewrite list_lookup_insert_ne].
  - destruct (find_tail _ _ _ _) as [z|]; [|done]. cbn [mbind option_bind]. destruct (threads s !! z); [|done]. cbn [mbind option_bind]. destruct (_ !! u); [|done]. by intros [= <-].
Qed.

Lemma unqueue_current s d p u b s' c : cpus s !! d = Some p -> unqueue s d p u = Some (b, s') -> current_thread <$> cpus s' !! c = current_thread <$> cpus s !! c.
Proof.
  intros Hp. assert (Hins : forall r o, current_thread <$> <[d := Cpu (current_thread p) r o]> (cpus s) !! c = current_thread <$> cpus s !! c).
  { intros r o. destruct (decide (c = d)) as [->|Hne]; [rewrite list_lookup_insert_eq, Hp by (by eapply lookup_lt_Some); done|by rewrite list_lookup_insert_ne]. }
  unfold unqueue. destruct (_ || _); [by intros [= _ <-]|]. destruct (in_queue _ _ _ _ _) as [[|]|]; [|by intros [= _ <-]|done]. cbn [mbind option_bind negb]. destruct (threads s !! u); [|done]. cbn [mbind option_bind].
  destruct (_ =? u); [intros [= _ <-]; apply Hins|]. destruct (find_prev _ _ _ _); [|done]. cbn [mbind option_bind]. destruct (threads s !! _); [|done]. cbn [mbind option_bind]. intros [= _ <-]. apply Hins.
Qed.

Lemma remove_current s u s' c : remove_from_runqueue s u = Some s' -> current_thread <$> cpus s' !! c = current_thread <$> cpus s !! c.
Proof.
  unfold remove_from_runqueue. assert (H : forall l d, (forall i p, l !! i = Some p -> cpus s !! (d + i)%nat = Some p) -> runqueue_loop l d s u = Some s' -> current_thread <$> cpus s' !! c = current_thread <$> cpus s !! c).
  { induction l as [|p l IH]; intros d Hl; cbn [runqueue_loop]; [by intros [= <-]|]. destruct (unqueue s d p u) as [[b s1]|] eqn:E; [|done]. cbn [mbind option_bind fst snd].
    pose proof (Hl 0%nat p eq_refl) as Hp. rewrite Nat.add_0_r in Hp. destruct b; [intros [= <-]; by eapply unqueue_current|]. apply IH. intros i q Hi. rewrite Nat.add_succ_comm. by apply Hl. }
  apply H. by intros i p.
Qed.

Lemma yield_other s d now s' c : sched_yield s d now = Some s' -> d <> c -> cpus s' !! c = cpus s !! c.
Proof.
  unfold sched_yield. intros E Hd. destruct (cpus s !! d) as [p|]; [|done]. cbn [mbind option_bind] in E. destruct (_ =? 0); [by injection E as <-|].
  repeat (match type of E with context [mbind _ ?x] => destruct x; [|discriminate E]; cbn [mbind option_bind] in E end). destruct (_ && _); [|by injection E as <-].
  repeat (match type of E with context [mbind _ ?x] => destruct x; [|discriminate E]; cbn [mbind option_bind] in E end). injection E as <-. cbn. by rewrite list_lookup_insert_ne.
Qed.

Lemma filter_lookup_le (P : Z -> Prop) `{!forall x, Decision (P x)} (l : list Z) i x : l !! i = Some x -> P x -> exists j, (j <= i)%nat /\ filter P l !! j = Some x.
Proof.
  revert i. induction l as [|a l IH]; intros [|i]; [done|done| |].
  - intros [= ->] Hx. exists 0%nat. split; [done|]. by rewrite filter_cons_True.
  - intros Hl Hx. destruct (IH i Hl Hx) as (j & Hj & Hf). destruct (decide (P a)); [exists (S j); rewrite filter_cons_True by done|exists j; rewrite filter_cons_False by done]; (split; [lia|done]).
Qed.

Lemma lookup_middle {A} (l1 l2 : list A) u i x : (l1 ++ l2) !! i = Some x -> exists j, (j <= S i)%nat /\ ((l1 ++ [u]) ++ l2) !! j = Some x.
Proof.
  intros H. rewrite <- app_assoc. cbn [app]. destruct (decide (i < length l1)%nat) as [Hi|Hi].
  - exists i. split; [lia|]. by rewrite lookup_app_l in H |- * by done.
  - exists (S i). split; [done|]. rewrite lookup_app_r in H |- * by lia. replace (S i - length l1)%nat with (S (i - length l1)) by lia. done.
Qed.

(** The processor of a waiting thread, seen by what others do to it. *)
Lemma waits_step c t d s s' qs' p q1 q2 i : queues_ok s' qs' -> cpus s !! c = Some p -> current_thread <$> cpus s' !! c = current_thread <$> cpus s !! c -> current_thread p <> 0 ->
  qs' !! c = Some (q1 ++ current_thread p :: q2) -> (q2 ++ q1) !! i = Some t -> (i <= d)%nat -> waits c t d s'.
Proof.
  intros Hq Hp Hc Hnz Hqs Hi Hd. rewrite Hp in Hc. destruct (cpus s' !! c) as [p'|] eqn:Hp'; [|done]. injection Hc as Hc. exists qs', p', q1, q2, i. by rewrite Hc.
Qed.

Lemma others_waits c t n s m d : others c t n s m -> waits c t d s -> waits c t (d + n) m.
Proof.
  intros Ho. induction Ho as [s|n s m m' _ IH [Hc Hk]|n s m e now m' _ IH He E|n s m u explicit m' _ IH Hbsp Hu Hth Hout E|n s m u m' _ IH Hu Hcur E]; intros Hw; [by rewrite Nat.add_0_r|..]; destruct (IH Hw) as (qs & p & q1 & q2 & i & H & Hp & Hnz & Hqs & Hi & Hd).
  - eapply (waits_step c t _ m m' qs); [|exact Hp|by rewrite Hc|done|exact Hqs|exact Hi|done]. split; [rewrite Hc; apply H| |apply H|apply H]. intros e p' q' Hp' Hq'. rewrite Hc in Hp'. destruct (q_cpu _ _ H e p' q' Hp' Hq') as (? & Hr & ? & ?). split; [done|]. split; [|done].
    apply (ring_same (threads m)); [|done]. intros a Ha. apply Hk. by eapply chain_dom.
  - assert (Hlt : (e < length (cpus m))%nat) by (destruct (decide (e < length (cpus m))%nat); [done|]; unfold sched_yield in E; rewrite lookup_ge_None_2 in E by lia; done).
    destruct (yield_queues m qs e now H Hlt) as (s' & E' & H'). rewrite E in E'. injection E' as <-. eapply (waits_step c t _ m m' qs); [done|exact Hp|by rewrite (yield_other _ _ _ _ _ E He)|done|exact Hqs|exact Hi|done].
  - assert (Hlen : (0 < length (cpus m))%nat) by (apply lookup_lt_Some in Hp; lia). destruct (enqueue_queues m qs u explicit H Hlen Hbsp Hth Hu (fun e q => Hout qs e q H)) as (s' & e & q & E' & Hq & H'). rewrite E in E'. injection E' as <-.
    destruct (decide (e = c)) as [->|Hne].
    + rewrite Hqs in Hq. injection Hq as <-. destruct (lookup_middle q2 q1 u i t Hi) as (j & Hj & Hl). eapply (waits_step c t _ m m' _ p q1 (q2 ++ [u]) j); [exact H'|exact Hp|by eapply enqueue_current|done| |exact Hl|lia].
      rewrite list_lookup_insert_eq by (by eapply lookup_lt_Some). by rewrite <- app_assoc.
    + eapply (waits_step c t _ m m' _ p q1 q2 i); [exact H'|exact Hp|by eapply enqueue_current|done|by rewrite list_lookup_insert_ne|exact Hi|lia].
  - destruct (remove_loop_queues (cpus m) [] m qs u H eq_refl Hcur ltac:(intros e q He; cbn in He; lia)) as (s' & E' & H'). unfold remove_from_runqueue in E. cbn [length] in E'. rewrite E in E'. injection E' as <-.
    destruct (filter_lookup_le (fun x => x <> u) (q2 ++ q1) i t Hi ltac:(done)) as (j & Hj & Hl). rewrite filter_app in Hl. pose proof (Hcur c p Hp) as Hcu.
    eapply (waits_step c t _ m m' _ p (without u q1) (without u q2) j); [exact H'|exact Hp|by eapply remove_current|done| |exact Hl|lia].
    rewrite list_lookup_fmap, Hqs. cbn. unfold without. by rewrite filter_app, filter_cons_True.
Qed.

Lemma yield_waits c t d s now : waits c t d s -> runs (threads s) t ->
  exists s', sched_yield s c now = Some s' /\ (current_thread <$> cpus s' !! c = Some t \/ exists d', d = S d' /\ waits c t d' s').
Proof.
  intros (qs & p & q1 & q2 & k & H & Hp & Hnz & Hqs & Hk & Hd) Hr. set (l := q2 ++ q1) in *. set (cur := current_thread p) in *.
  destruct (q_cpu _ _ H c p _ Hp Hqs) as (_ & Hring & _ & _). destruct (q_nodup _ _ H c _ Hqs) as [Hn H0]. pose proof (ring_split_behind _ _ _ _ Hn Hring) as Hb. fold l in Hb.
  destruct (yield_queues s qs c now H ltac:(by eapply lookup_lt_Some)) as (s' & E & H'). exists s'. split; [done|]. pose proof (sched_yield_spec s c now p l Hp Hnz Hb) as E'. cbv zeta in E'. set (ts := woken now _ _) in E'. rewrite E in E'. injection E' as ->.
  assert (Ht : runs ts t) by (unfold runs in *; subst ts; rewrite lookup_woken; destruct (threads s !! t) as [u|]; [|done]; cbn; case_decide; [|done]; unfold wake; by destruct (expired now u)).
  assert (Hbt : behind ts cur l) by (apply (behind_same (threads s)); [intros; apply woken_next|done]).
  destruct (list_find (runs ts) l) as [[i x]|] eqn:Ef; [|apply list_find_None in Ef; rewrite Forall_forall in Ef; by destruct (Ef t (list_elem_of_lookup_2 _ _ _ Hk))].
  pose proof Ef as (Hx & _ & Hbef)%list_find_Some. assert (Hcx : cpus (switch s c p ts x) !! c = Some (Cpu x (runqueue p) (cpu_online p))) by (cbn; apply list_lookup_insert_eq; by eapply lookup_lt_Some).
  destruct (decide (i = k)) as [->|Hik]; [left; rewrite Hcx; cbn; congruence|right]. assert (Hlt : (i < k)%nat) by (destruct (decide (i < k)%nat); [done|]; by destruct (Hbef k t Hk ltac:(lia))).
  assert (Hxq : x ∈ q1 ++ cur :: q2) by (apply list_elem_of_lookup_2 in Hx; subst l; set_solver). apply list_elem_of_split in Hxq as (r1 & r2 & Eq).
  assert (El : r2 ++ r1 = turned l i cur).
  { apply (behind_unique (threads (switch s c p ts x)) x); [|apply behind_turned; [|done]; apply (behind_same ts); [intros; apply switch_next|done]]. apply ring_split_behind; [by rewrite <- Eq|]. rewrite <- Eq. destruct (q_cpu _ _ H' c _ _ Hcx Hqs) as (_ & ? & _). done. }
  exists (d - 1)%nat. split; [lia|]. exists qs, (Cpu x (runqueue p) (cpu_online p)), r1, r2, (k - i - 1)%nat. cbn [current_thread]. split; [done|]. split; [done|]. split; [intros ->; apply H0; rewrite Eq; set_solver|]. split; [by rewrite <- Eq|]. split; [|lia].
  rewrite El. unfold turned. rewrite lookup_app_l by (rewrite length_drop; apply lookup_lt_Some in Hk; lia). rewrite lookup_drop. rewrite <- Hk. f_equal. lia.
Qed.

(** C20: A thread that can run is not starved by those in the queue.  When it is the
    [d]-th behind the running thread, it gets the processor after at most [d] calls of
    [sched_yield] and as many more as threads are created in the meantime, as long as it
    can run at these calls; and whatever else threads do: they change their states, run on
    other processors, or are removed. *)
Theorem sched_no_starvation s qs c p q1 q2 d t k : queues_ok s qs -> cpus s !! c = Some p -> current_thread p <> 0 -> qs !! c = Some (q1 ++ current_thread p :: q2) ->
  (q2 ++ q1) !! d = Some t -> runs_within c t (S d + k) k s.
Proof.
  intros H Hp Hnz Hqs Hd. assert (Hw : waits c t d s) by (by exists qs, p, q1, q2, d). clear -Hw. remember (d + k)%nat as n eqn:En. change (runs_within c t (S (d + k)) k s). rewrite <- En. revert d k s En Hw.
  induction n as [|n IH]; intros d k s En Hw; right; intros j m now Ho Hj Hr; pose proof (others_waits _ _ _ _ _ _ Ho Hw) as Hm; destruct (yield_waits _ _ _ _ now Hm Hr) as (s' & E & Hcase); exists s'; (split; [done|]).
  - destruct Hcase as [?|(d' & Hd' & _)]; [by left|lia].
  - destruct Hcase as [?|(d' & Hd' & Hw')]; [by left|]. apply (IH d' (k - j)%nat); [lia|done].
Qed.

(** ** Wait queues *)

(** The entries of a queue, from its first to the null pointer. *)
Fixpoint wq_list (es : gmap Z wait_queue_entry) (h : Z) (l : list Z) : Prop :=
  match l with
  | [] => h = 0
  | a :: l => h = a /\ a <> 0 /\ exists e, es !! a = Some e /\ wq_list es (wq_next e) l
  end.

Lemma wq_list_same es es' h l : (forall a, a ∈ l -> es' !! a = es !! a) -> wq_list es h l -> wq_list es' h l.
Proof.
  revert h. induction l as [|a l IH]; intros h Hs; cbn [wq_list]; [done|]. intros (-> & Ha & e & He & Hl). split; [done|]. split; [done|]. exists e. rewrite Hs by left. split; [done|]. apply IH; [|done]. intros b Hb. apply Hs. by right.
Qed.

Lemma wq_list_lookup es h l a : wq_list es h l -> a ∈ l -> a <> 0 /\ is_Some (es !! a).
Proof.
  revert h. induction l as [|b l IH]; intros h; cbn [wq_list]; [by intros _ ?%not_elem_of_nil|]. intros (-> & Hb & e & He & Hl) [->|Ha]%elem_of_cons; [split; [done|by exists e]|by eapply IH].
Qed.

Lemma wq_list_size es h l : NoDup l -> wq_list es h l -> (length l <= size es)%nat.
Proof.
  intros Hn Hl. rewrite <- (size_dom (D := gset Z)), <- (size_list_to_set (C := gset Z) l) by done. apply subseteq_size. intros a Ha%elem_of_list_to_set. apply elem_of_dom. by eapply wq_list_lookup.
Qed.

(** A blocked thread is made ready. *)
Definition unblock (t : thread) : thread := if decide (t_state t = THREAD_BLOCKED) then make_ready t else t.

Definition wq_threads (es : gmap Z wait_queue_entry) (l : list Z) : list Z := omap (fun a => wq_thread <$> es !! a) l.

(** The threads after those in [l] were unblocked. *)
Definition unblocked (l : list Z) (ts : gmap Z thread) : gmap Z thread :=
  map_imap (fun x t => Some (if decide (x ∈ l) then unblock t else t)) ts.

Lemma lookup_unblocked l ts x : unblocked l ts !! x = (fun t => if decide (x ∈ l) then unblock t else t) <$> ts !! x.
Proof. unfold unblocked. rewrite map_lookup_imap. by destruct (ts !! x). Qed.

Lemma unblocked_nil ts : unblocked [] ts = ts.
Proof. apply map_eq. intros x. rewrite lookup_unblocked. by destruct (ts !! x). Qed.

Definition blocked (ts : gmap Z thread) (x : Z) : Prop := t_state <$> ts !! x = Some THREAD_BLOCKED.
#[export] Instance blocked_dec ts x : Decision (blocked ts x).
Proof. unfold blocked. apply _. Defined.

Lemma unblock_idem t : unblock (unblock t) = unblock t.
Proof. unfold unblock. destruct (decide (t_state t = THREAD_BLOCKED)) as [E|E]; by rewrite decide_False. Qed.

(** The threads of the entries are there. *)
Definition wq_threads_ok (es : gmap Z wait_queue_entry) (ts : gmap Z thread) (l : list Z) : Prop :=
  ts !! 0 = None /\ forall t, t ∈ wq_threads es l -> t <> 0 -> is_Some (ts !! t).

Lemma wake_entry_ok ts t : ts !! 0 = None -> (t <> 0 -> is_Some (ts !! t)) ->
  wake_entry ts t = Some (bool_decide (blocked ts t), unblocked [t] ts).
Proof.
  intros Hz Hs. unfold wake_entry. destruct (Z.eqb_spec t 0) as [->|Ht].
  - rewrite bool_decide_false by (unfold blocked; by rewrite Hz). do 2 f_equal. apply map_eq. intros x. rewrite lookup_unblocked. destruct (ts !! x) as [u|] eqn:E; [|done]. cbn. rewrite decide_False; [done|]. intros ->%list_elem_of_singleton. congruence.
  - destruct (Hs Ht) as [th Hth]. rewrite Hth. cbn [mbind option_bind]. destruct (bool_decide_reflect (t_state th = THREAD_BLOCKED)) as [Hb|Hb].
    + rewrite bool_decide_true by (unfold blocked; rewrite Hth; cbn; congruence). do 2 f_equal. apply map_eq. intros x. rewrite lookup_unblocked. destruct (decide (x = t)) as [->|Hx]; [rewrite lookup_insert_eq, Hth; cbn; rewrite decide_True by left; unfold unblock; by rewrite decide_True|].
      rewrite lookup_insert_ne by done. destruct (ts !! x); [|done]. cbn. by rewrite decide_False by set_solver.
    + rewrite bool_decide_false by (unfold blocked; rewrite Hth; cbn; congruence). do 2 f_equal. apply map_eq. intros x. rewrite lookup_unblocked. destruct (ts !! x) as [u|] eqn:E; [|done]. cbn. case_decide as Hd; [|done]. apply list_elem_of_singleton in Hd as ->. unfold unblock. rewrite decide_False; [done|congruence].
Qed.

Lemma unblocked_cons t l ts : unblocked l (unblocked [t] ts) = unblocked (t :: l) ts.
Proof.
  apply map_eq. intros x. rewrite !lookup_unblocked. destruct (ts !! x); [|done]. cbn. f_equal. destruct (decide (x ∈ l)), (decide (x ∈ [t])), (decide (x ∈ t :: l)); try done; try set_solver. apply unblock_idem.
Qed.

Lemma unblocked_id ts t : ~ blocked ts t -> unblocked [t] ts = ts.
Proof.
  intros Hb. apply map_eq. intros x. rewrite lookup_unblocked. destruct (ts !! x) as [u|] eqn:E; [|done]. cbn. case_decide as Hd; [|done]. apply list_elem_of_singleton in Hd as ->. unfold unblock. rewrite decide_False; [done|]. intros Hs. apply Hb. unfold blocked. rewrite E. cbn. by rewrite Hs.
Qed.

Lemma wake_loop_ok fuel es ts h l : wq_list es h l -> wq_threads_ok es ts l -> (length l <= fuel)%nat ->
  wake_loop fuel false es ts h = Some (unblocked (wq_threads es l) ts) /\
  wake_loop fuel true es ts h = Some (match list_find (blocked ts) (wq_threads es l) with Some (_, t) => unblocked [t] ts | None => ts end).
Proof.
  revert h fuel ts. induction l as [|a l IH]; intros h fuel ts Hl [Hz Hts] Hf.
  - cbn [wq_list] in Hl. subst h. destruct fuel; cbn [wake_loop wq_threads omap list_omap list_find]; cbn; by rewrite unblocked_nil.
  - destruct Hl as (-> & Ha & e & He & Hl). destruct fuel as [|fuel]; [cbn in Hf; lia|]. assert (Ew : wq_threads es (a :: l) = wq_thread e :: wq_threads es l) by (unfold wq_threads; cbn; by rewrite He).
    rewrite Ew in Hts |- *. cbn [wake_loop]. rewrite (proj2 (Z.eqb_neq a 0)), He by done. cbn [mbind option_bind]. rewrite wake_entry_ok by (done || (apply Hts; left)). cbn [mbind option_bind]. cbv zeta.
    assert (Hok : wq_threads_ok es (unblocked [wq_thread e] ts) l) by (split; [rewrite lookup_unblocked, Hz; done|intros t Ht Hne; rewrite lookup_unblocked, fmap_is_Some; apply Hts; [by right|done]]).
    destruct (IH (wq_next e) fuel (unblocked [wq_thread e] ts) Hl Hok ltac:(cbn in Hf; lia)) as [IH1 IH2]. rewrite andb_false_r, andb_true_r. cbn [list_find]. split; [by rewrite IH1, unblocked_cons|].
    destruct (decide (blocked ts (wq_thread e))) as [Hb|Hb]; [by rewrite bool_decide_true|]. rewrite bool_decide_false by done. rewrite (unblocked_id _ _ Hb) in IH2. rewrite (unblocked_id _ _ Hb), IH2. by destruct (list_find _ _) as [[]|].
Qed.

Lemma entry_before_ok fuel es h l1 z e l2 : wq_list es h (l1 ++ z :: e :: l2) -> e ∉ l1 -> e <> z -> (length l1 <= fuel)%nat -> entry_before fuel es h e = Some z.
Proof.
  revert h fuel. induction l1 as [|a l1 IH]; intros h fuel Hl He Hz Hf; cbn [app wq_list] in Hl; destruct Hl as (-> & Ha & u & Hu & Hl).
  - destruct Hl as [Hl _]. destruct fuel; cbn [entry_before]; rewrite (proj2 (Z.eqb_neq z 0)), Hu by done; cbn [mbind option_bind]; by rewrite Hl, Z.eqb_refl.
  - destruct fuel as [|fuel]; [cbn in Hf; lia|]. cbn [entry_before]. rewrite (proj2 (Z.eqb_neq a 0)), Hu by done. cbn [mbind option_bind]. rewrite (proj2 (Z.eqb_neq _ _)); [apply IH; [done|set_solver|done|cbn in Hf; lia]|].
    destruct l1 as [|b l1]; cbn [app wq_list] in Hl; destruct Hl as [-> _]; set_solver.
Qed.

Lemma entry_before_none fuel es h l e : wq_list es h l -> e ∉ tail l -> e <> 0 -> (length l <= fuel)%nat -> entry_before fuel es h e = Some 0.
Proof.
  revert h fuel. induction l as [|a l IH]; intros h fuel Hl He He0 Hf; cbn [wq_list] in Hl; [subst h; by destruct fuel|]. destruct Hl as (-> & Ha & u & Hu & Hl). destruct fuel as [|fuel]; [cbn in Hf; lia|]. cbn [entry_before].
  rewrite (proj2 (Z.eqb_neq a 0)), Hu by done. cbn [mbind option_bind]. rewrite (proj2 (Z.eqb_neq _ _)); [apply IH; [done|by destruct l; [|cbn [tail] in *; set_solver]|done|cbn in Hf; lia]|]. destruct l as [|b l]; cbn [wq_list] in Hl; [congruence|]. destruct Hl as [-> _]. cbn [tail] in He. set_solver.
Qed.

Lemma wq_list_unlink es h l1 z zn e en l2 : es !! z = Some zn -> es !! e = Some en -> e ∉ l1 -> z ∉ l1 -> NoDup (l1 ++ z :: e :: l2) -> wq_list es h (l1 ++ z :: e :: l2) ->
  wq_list (<[e := WaitEntry (wq_thread en) 0]> (<[z := WaitEntry (wq_thread zn) (wq_next en)]> es)) h (l1 ++ z :: l2).
Proof.
  intros Hzn Hen. revert h. induction l1 as [|a l1 IH]; intros h He1 Hz1 Hn Hl; cbn [app wq_list] in Hl |- *; destruct Hl as (-> & Ha & u & Hu & Hl).
  - cbn [app] in Hn. apply NoDup_cons in Hn as [Hz Hn]. apply NoDup_cons in Hn as [He _]. split; [done|]. split; [done|]. exists (WaitEntry (wq_thread zn) (wq_next en)). rewrite lookup_insert_ne, lookup_insert_eq by set_solver. split; [done|]. cbn [wq_next].
    destruct Hl as (_ & _ & u' & Hu' & Hl). rewrite Hen in Hu'. injection Hu' as <-. apply (wq_list_same es); [|done]. intros b Hb. rewrite !lookup_insert_ne; [done|set_solver|set_solver].
  - split; [done|]. split; [done|]. exists u. rewrite !lookup_insert_ne by set_solver. split; [done|]. apply NoDup_cons in Hn as [_ Hn]. apply IH; [set_solver|set_solver|done|done].
Qed.

Lemma wait_remove_ok s h l e en : NoDup l -> wq_list (entries s) h l -> e <> 0 -> entries s !! e = Some en ->
  exists h' s', wait_queue_remove s h e = Some (h', s') /\ wq_list (entries s') h' (without e l) /\ threads s' = threads s /\
    entries s' !! e = Some (WaitEntry (wq_thread en) 0) /\ (forall a, a ∉ l -> a <> e -> entries s' !! a = entries s !! a) /\
    forall a, wq_thread <$> entries s' !! a = wq_thread <$> entries s !! a.
Proof.
  intros Hn Hl He0 Hen. pose proof (wq_list_size _ _ _ Hn Hl) as Hsz. unfold wait_queue_remove. rewrite (proj2 (Z.eqb_neq e 0)), Hen by done. cbn [mbind option_bind].
  assert (Hthr : forall (es' : gmap Z wait_queue_entry) a x, (forall b, wq_thread <$> es' !! b = wq_thread <$> entries s !! b) -> x = wq_thread en -> wq_thread <$> <[e := WaitEntry x 0]> es' !! a = wq_thread <$> entries s !! a).
  { intros es' a x Hs ->. destruct (decide (a = e)) as [->|Hae]; [by rewrite lookup_insert_eq, Hen|rewrite lookup_insert_ne by done; apply Hs]. }
  destruct (Z.eqb_spec h e) as [->|Hhe].
  - destruct l as [|a l]; [cbn in Hl; congruence|]. destruct Hl as (<- & _ & u & Hu & Hl). rewrite Hen in Hu. injection Hu as <-. apply NoDup_cons in Hn as [Ha Hn]. eexists _, _. split; [done|]. cbn [entries with_entries threads].
    pose proof (without_split e [] l) as Ew. cbn [app] in Ew. rewrite Ew by (by apply NoDup_cons). split; [apply (wq_list_same (entries s)); [|done]; intros b Hb; rewrite lookup_insert_ne; [done|set_solver]|]. split; [done|]. split; [by rewrite lookup_insert_eq|]. split; [intros b _ Hb; by rewrite lookup_insert_ne|]. intros a. by apply Hthr.
  - destruct (decide (e ∈ l)) as [(l1 & l2 & ->)%list_elem_of_split|Hel].
    + destruct l1 as [|b l1]; [destruct Hl as [? _]; congruence|]. destruct (exists_last (l := b :: l1)) as (l & z & El); [done|]. rewrite El in *. rewrite (without_split _ _ _ Hn). rewrite <- app_assoc in Hl, Hn |- *. cbn [app] in Hl, Hn |- *.
      pose proof Hn as (_ & Hd & [Hz _]%NoDup_cons)%NoDup_app. assert (Hez : e <> z) by set_solver. assert (Hel : e ∉ l) by (intros Hin; apply (Hd e Hin); set_solver).
      rewrite (entry_before_ok _ _ _ l z e l2) by (done || (rewrite !length_app in Hsz; cbn in Hsz; lia)). cbn [mbind option_bind]. destruct (wq_list_lookup _ _ _ z Hl ltac:(set_solver)) as [Hz0 [zn Hzn]]. rewrite (proj2 (Z.eqb_neq z 0)), Hzn by done. cbn [mbind option_bind].
      eexists _, _. split; [done|]. cbn [entries with_entries threads]. split; [|split; [done|split; [by rewrite lookup_insert_eq|split]]].
      * apply wq_list_unlink; [done|done|done| |done|done]. intros Hin. apply (Hd z Hin). left.
      * intros a Ha Hae. rewrite !lookup_insert_ne; [done|set_solver|done].
      * intros a. apply Hthr; [|done]. intros b'. destruct (decide (b' = z)) as [->|Hbz]; [by rewrite lookup_insert_eq, Hzn|by rewrite lookup_insert_ne].
    + rewrite (entry_before_none _ _ _ l e) by (done || (destruct l; [done|set_solver])). cbn [mbind option_bind Z.eqb]. eexists _, _. split; [done|]. cbn [entries with_entries threads]. rewrite without_out by done.
      split; [apply (wq_list_same (entries s)); [|done]; intros b Hb; rewrite lookup_insert_ne; [done|set_solver]|]. split; [done|]. split; [by rewrite lookup_insert_eq|]. split; [intros a _ Hae; by rewrite lookup_insert_ne|]. intros a. by apply Hthr.
Qed.

(** C23: A wait queue is a list of entries, the latest first.  Adding puts an entry in
    front, removing takes it out wherever it is and leaves the others in order, waking
    all makes every blocked thread of the queue ready with its timeout cleared and
    waking one does so for the first blocked one; no other thread is touched. *)
Theorem wait_queue_correct s h l e en : NoDup l -> wq_list (entries s) h l -> wq_threads_ok (entries s) (threads s) l -> e <> 0 -> entries s !! e = Some en ->
  (e ∉ l -> exists s', wait_queue_add s h e = Some (e, s') /\ wq_list (entries s') e (e :: l) /\ threads s' = threads s) /\
  (exists h' s', wait_queue_remove s h e = Some (h', s') /\ wq_list (entries s') h' (without e l) /\ threads s' = threads s) /\
  (exists s', wait_queue_wake_all s h = Some s' /\ entries s' = entries s /\ threads s' = unblocked (wq_threads (entries s) l) (threads s)) /\
  (exists s', wait_queue_wake_one s h = Some s' /\ entries s' = entries s /\
     threads s' = match list_find (blocked (threads s)) (wq_threads (entries s) l) with Some (_, t) => unblocked [t] (threads s) | None => threads s end).
Proof.
  intros Hn Hl Ht He0 Hen. destruct (wake_loop_ok (size (entries s)) (entries s) (threads s) h l Hl Ht (wq_list_size _ _ _ Hn Hl)) as [W1 W2]. split; [|split; [|split]].
  - intros Hel. unfold wait_queue_add. rewrite (proj2 (Z.eqb_neq e 0)), Hen by done. cbn [mbind option_bind]. eexists. split; [done|]. cbn [entries with_entries threads]. split; [|done]. split; [done|]. split; [done|].
    exists (WaitEntry (wq_thread en) h). rewrite lookup_insert_eq. split; [done|]. apply (wq_list_same (entries s)); [|done]. intros a Ha. rewrite lookup_insert_ne; [done|set_solver].
  - destruct (wait_remove_ok s h l e en Hn Hl He0 Hen) as (h' & s' & E & H1 & H2 & _). by exists h', s'.
  - unfold wait_queue_wake_all. rewrite W1. cbn [mbind option_bind]. by eexists.
  - unfold wait_queue_wake_one. rewrite W2. cbn [mbind option_bind]. by eexists.
Qed.

(** ** A small scheduler *)

(** Three threads on one processor: the first runs, the second sleeps until time 50,
    the third is ready; the second and third have entries in a wait queue. *)
Definition demo_sched : sched :=
  Sched {[ 8 := Thread 1 THREAD_RUNNING 0 true 0 0 0 0 16; 16 := Thread 2 THREAD_BLOCKED 50 false 0 0 0 8 24; 24 := Thread 3 THREAD_READY 0 false 0 0 0 16 8 ]}
    {[ 100 := WaitEntry 16 200; 200 := WaitEntry 24 0; 300 := WaitEntry 8 0 ]} [Cpu 8 8 true] 24 4 0.

Lemma demo_behind : behind (threads demo_sched) 8 [16; 24].
Proof. split; [apply (bool_decide_unpack _); vm_compute; exact I|]. eexists. split; [reflexivity|]. split; [reflexivity|]. eexists. split; [reflexivity|]. split; [reflexivity|]. eexists. split; reflexivity. Qed.

Lemma demo_queues : queues_ok demo_sched [[8; 16; 24]].
Proof.
  split; [reflexivity| | |].
  - intros [|c] p q Hp Hq; [|discriminate Hp]. injection Hp as <-. injection Hq as <-. split; [reflexivity|]. split; [|split; [right; left|discriminate]].
    split; [reflexivity|]. exists (Thread 1 THREAD_RUNNING 0 true 0 0 0 0 16). split; [reflexivity|]. destruct demo_behind as [_ (p & Hp & Hc)]. injection Hp as <-. exact Hc.
  - intros [|c] q Hq; [|discriminate Hq]. injection Hq as <-. split; [apply (bool_decide_unpack _); vm_compute; exact I|apply (bool_decide_unpack _); vm_compute; exact I].
  - intros [|c] [|d] q q' x Hq Hq' _ _; try discriminate Hq; try discriminate Hq'; reflexivity.
Qed.

Lemma sched_yield_correct_witness : exists s', sched_yield demo_sched 0 60 = Some s' /\ cpus s' = [Cpu 16 8 true].
Proof.
  destruct (sched_yield_correct demo_sched 0 60 (Cpu 8 8 true) [16; 24] eq_refl ltac:(discriminate) demo_behind) as (s' & E & _ & _ & H). exists s'. split; [exact E|].
  revert H. vm_compute list_find. intros (H & _). exact H.
Defined.

Lemma sched_no_starvation_witness : runs_within 0 24 5 3 demo_sched.
Proof. apply (sched_no_starvation demo_sched [[8; 16; 24]] 0 (Cpu 8 8 true) [] [16; 24] 1 24 3); [exact demo_queues|reflexivity|discriminate|reflexivity|reflexivity]. Defined.

Lemma runqueues_sound_witness : exists s', sched_yield demo_sched 0 10 = Some s' /\ queues_ok s' [[8; 16; 24]].
Proof. apply (runqueues_sound demo_sched [[8; 16; 24]] 0 demo_queues); [cbn; lia|intros p Hp; injection Hp as <-; reflexivity|cbn; lia]. Defined.

Lemma wait_queue_correct_witness : exists s', wait_queue_wake_all demo_sched 100 = Some s' /\ t_state <$> threads s' !! 16 = Some THREAD_READY.
Proof.
  assert (Hn : NoDup [100; 200]) by (apply (bool_decide_unpack _); vm_compute; exact I).
  assert (Hl : wq_list (entries demo_sched) 100 [100; 200]) by (split; [reflexivity|]; split; [discriminate|]; eexists; split; [reflexivity|]; split; [reflexivity|]; split; [discriminate|]; eexists; split; reflexivity).
  assert (Ht : wq_threads_ok (entries demo_sched) (threads demo_sched) [100; 200]).
  { split; [reflexivity|]. change (wq_threads (entries demo_sched) [100; 200]) with [16; 24]. intros t [->|[->|[]%not_elem_of_nil]%elem_of_cons]%elem_of_cons _; eexists; reflexivity. }
  destruct (proj1 (proj2 (proj2 (wait_queue_correct demo_sched 100 [100; 200] 300 (WaitEntry 8 0) Hn Hl Ht ltac:(discriminate) eq_refl)))) as (s' & E & _ & Et). exists s'. split; [exact E|]. rewrite Et. vm_compute. reflexivity.
Defined.
