(* ===== verification/ThreadTree.v ===== *)
(** * The list of all threads and the hierarchy of processes *)

From S2P Require Import Prelude Sched SchedThms.

(** ** Lists of threads *)

(** From the pointer [x] the threads [l] follow one another by the field [next], up to
    the null pointer. *)
Fixpoint linked (next : thread -> Z) (ts : gmap Z thread) (x : Z) (l : list Z) : Prop :=
  match l with
  | [] => x = 0
  | a :: l => x = a /\ a <> 0 /\ exists t, ts !! a = Some t /\ linked next ts (next t) l
  end.

Lemma linked_same next (ts ts' : gmap Z thread) x l : (forall a, a ∈ l -> next <$> ts' !! a = next <$> ts !! a) -> linked next ts x l -> linked next ts' x l.
Proof.
  revert x. induction l as [|a l IH]; intros x Hsame; cbn; [done|]. intros (-> & Ha & t & Ht & Hl). split; [done|]. split; [done|].
  pose proof (Hsame a ltac:(left)) as E. rewrite Ht in E. destruct (ts' !! a) as [t'|]; [|done]. injection E as E. exists t'. split; [done|]. rewrite E. apply IH; [set_solver|done].
Qed.

Lemma linked_lookup next (ts : gmap Z thread) x l a : linked next ts x l -> a ∈ l -> a <> 0 /\ is_Some (ts !! a).
Proof. revert x. induction l as [|b l IH]; intros x; cbn; [set_solver|]. intros (-> & Hb & t & Ht & Hl) [->|Ha]%elem_of_cons; [by eauto|by eapply IH]. Qed.

Lemma linked_size next (ts : gmap Z thread) x l : NoDup l -> linked next ts x l -> (length l <= size ts)%nat.
Proof.
  intros Hn Hl. rewrite <- size_dom, <- (size_list_to_set (C := gset Z)) by done. apply subseteq_size. intros a Ha%elem_of_list_to_set. apply elem_of_dom. by eapply linked_lookup.
Qed.

Lemma linked_head next (ts : gmap Z thread) x l1 l2 : linked next ts x (l1 ++ l2) -> l1 <> [] -> x ∈ l1 /\ x <> 0.
Proof. destruct l1 as [|a l1]; [done|]. intros (-> & Ha & _) _. split; [left|done]. Qed.

(** Taking out the thread [b], which follows [a]. *)
Lemma linked_unlink (ts : gmap Z thread) x l1 a ta b tb l2 : NoDup (l1 ++ a :: b :: l2) -> ts !! a = Some ta -> ts !! b = Some tb -> linked global_next ts x (l1 ++ a :: b :: l2) ->
  linked global_next (<[a := set_global (global_next tb) ta]> ts) x (l1 ++ a :: l2).
Proof.
  revert x. induction l1 as [|c l1 IH]; intros x Hn Ha Hb; cbn.
  - cbn in Hn. apply NoDup_cons in Hn as [Hna Hn]. apply NoDup_cons in Hn as [Hnb Hn]. intros (-> & Hz & t & Ht & E & Hz' & t' & Ht' & Hl). split; [done|]. split; [done|]. exists (set_global (global_next tb) ta). rewrite lookup_insert_eq. split; [done|]. cbn.
    rewrite Hb in Ht'. injection Ht' as <-. eapply linked_same, Hl. intros c Hc. rewrite lookup_insert_ne; [done|]. set_solver.
  - cbn in Hn. apply NoDup_cons in Hn as [Hnc Hn]. intros (-> & Hz & t & Ht & Hl). split; [done|]. split; [done|]. exists t. rewrite lookup_insert_ne by set_solver. split; [done|]. by apply IH.
Qed.

(** ** Numbers *)

Definition has_tid (ts : gmap Z thread) (tid a : Z) : Prop := t_tid <$> ts !! a = Some tid.
#[export] Instance has_tid_dec ts tid a : Decision (has_tid ts tid a).
Proof. unfold has_tid. apply _. Defined.

Lemma by_tid_ok fuel (ts : gmap Z thread) x l tid : linked global_next ts x l -> (length l <= fuel)%nat -> by_tid fuel ts x tid = Some (default 0 (head (filter (has_tid ts tid) l))).
Proof.
  revert fuel x. induction l as [|a l IH]; intros fuel x; cbn [linked]; [intros -> _; by destruct fuel|]. intros (-> & Ha & t & Ht & Hl) Hf. cbn [length] in Hf. destruct fuel as [|n]; [lia|]. cbn [by_tid]. rewrite (proj2 (Z.eqb_neq a 0)), Ht by done. cbn [mbind option_bind].
  destruct (Z.eqb_spec (t_tid t) tid) as [E|E]; [rewrite filter_cons_True; [done|unfold has_tid; rewrite Ht; cbn; congruence]|]. rewrite filter_cons_False; [apply IH; [done|lia]|]. unfold has_tid. rewrite Ht. cbn. congruence.
Qed.

(** The list holds different threads, with different numbers below the next one. *)
Record threads_ok s (l : list Z) : Prop := {
  to_list : linked global_next (threads s) (global_thread_list s) l;
  to_nodup : NoDup l;
  to_inj : forall a b tid, a ∈ l -> b ∈ l -> has_tid (threads s) tid a -> has_tid (threads s) tid b -> a = b;
  to_below : forall a tid, a ∈ l -> has_tid (threads s) tid a -> 0 < tid < next_tid s;
}.

Lemma get_by_tid_ok s l tid : threads_ok s l -> exists a, sched_get_thread_by_tid s tid = Some a /\ (a = 0 /\ (forall b, b ∈ l -> ~ has_tid (threads s) tid b) \/ a ∈ l /\ has_tid (threads s) tid a).
Proof.
  intros [H1 H2 _ _]. unfold sched_get_thread_by_tid. rewrite (by_tid_ok _ _ _ _ _ H1) by (by eapply linked_size). eexists. split; [done|]. destruct (filter (has_tid (threads s) tid) l) as [|a r] eqn:E; cbn.
  - left. split; [done|]. intros b Hb Ht. assert (Hin : b ∈ filter (has_tid (threads s) tid) l) by (by apply list_elem_of_filter). rewrite E in Hin. by apply not_elem_of_nil in Hin.
  - right. assert (Hin : a ∈ filter (has_tid (threads s) tid) l) by (rewrite E; left). apply list_elem_of_filter in Hin as [? ?]. done.
Qed.

Definition same_on (f : thread -> Z) (l : list Z) (ts ts' : gmap Z thread) : Prop := forall a, a ∈ l -> f <$> ts' !! a = f <$> ts !! a.

Lemma has_tid_same l ts ts' a tid : same_on t_tid l ts ts' -> a ∈ l -> has_tid ts' tid a <-> has_tid ts tid a.
Proof. intros Hs Ha. unfold has_tid. by rewrite (Hs a Ha). Qed.

(** What [link_thread] does to the fields of the list. *)
Lemma link_fields s t th current : threads s !! t = Some th -> current <> t -> (current <> 0 -> is_Some (threads s !! current)) ->
  exists s', link_thread s t current = Some s' /\ global_thread_list s' = t /\ next_tid s' = u32 (next_tid s + 1) /\
    (exists th', threads s' !! t = Some th' /\ t_tid th' = next_tid s /\ global_next th' = global_thread_list s /\ t_parent th' = current) /\
    (forall a, a <> t -> t_tid <$> threads s' !! a = t_tid <$> threads s !! a) /\ (forall a, a <> t -> global_next <$> threads s' !! a = global_next <$> threads s !! a).
Proof.
  intros Ht Hc Hin. unfold link_thread. rewrite Ht. cbn [mbind option_bind threads]. rewrite lookup_insert_eq. cbn [mbind option_bind]. destruct (Z.eqb_spec current 0) as [->|Hz].
  - eexists. split; [done|]. split; [done|]. split; [done|]. cbn. split; [eexists; rewrite lookup_insert_eq; done|]. split; intros a Ha; by rewrite !lookup_insert_ne.
  - destruct (Hin Hz) as [c Hcur]. rewrite lookup_insert_ne, Hcur by done. cbn [mbind option_bind]. rewrite !lookup_insert_ne, Hcur by done. cbn [mbind option_bind].
    eexists. split; [done|]. split; [done|]. split; [done|]. cbn. split; [eexists; rewrite lookup_insert_ne, lookup_insert_eq by done; done|].
    split; intros a Ha; (destruct (decide (a = current)) as [->|Hne]; [rewrite lookup_insert_eq, Hcur; done|by rewrite !lookup_insert_ne]).
Qed.

Lemma link_ok s l t current : threads_ok s l -> 0 < next_tid s < 2 ^ 32 - 1 -> t ∉ l -> t <> 0 -> is_Some (threads s !! t) -> current <> t -> (current <> 0 -> is_Some (threads s !! current)) ->
  exists s', link_thread s t current = Some s' /\ threads_ok s' (t :: l) /\ has_tid (threads s') (next_tid s) t.
Proof.
  intros [H1 H2 H3 H4] Hn Hl Hz [th Ht] Hc Hin. destruct (link_fields s t th current Ht Hc Hin) as (s' & E & Eg & En & (th' & Ht' & Etid & Enext & _) & Htid & Hnext). exists s'. split; [done|].
  rewrite u32_small in En by lia. assert (Hsame : same_on t_tid l (threads s) (threads s')) by (intros a Ha; apply Htid; set_solver).
  assert (Hme : forall tid, has_tid (threads s') tid t -> tid = next_tid s) by (intros tid; unfold has_tid; rewrite Ht'; cbn; congruence).
  assert (Hold : forall a tid, a ∈ l -> has_tid (threads s') tid a -> 0 < tid < next_tid s) by (intros a tid Ha Hat; apply (H4 a); [done|by apply (has_tid_same l _ (threads s'))]).
  split; [|unfold has_tid; rewrite Ht'; cbn; congruence]. split.
  - rewrite Eg. cbn. split; [done|]. split; [done|]. exists th'. split; [done|]. rewrite Enext. eapply linked_same, H1. intros a Ha. apply Hnext. set_solver.
  - by apply NoDup_cons.
  - intros a b tid [->|Ha]%elem_of_cons [->|Hb]%elem_of_cons Hat Hbt; [done| | |].
    + apply Hme in Hat. apply Hold in Hbt; [lia|done].
    + apply Hme in Hbt. apply Hold in Hat; [lia|done].
    + apply (H3 a b tid); [done|done| |]; by apply (has_tid_same l _ (threads s')).
  - intros a tid [->|Ha]%elem_of_cons Hat; [apply Hme in Hat; lia|]. pose proof (Hold a tid Ha Hat). lia.
Qed.

(** ** Leaving the list *)

Lemma global_before_ok fuel (ts : gmap Z thread) x l1 a b l2 : NoDup (l1 ++ a :: b :: l2) -> linked global_next ts x (l1 ++ a :: b :: l2) -> (length l1 <= fuel)%nat -> global_before fuel ts x b = Some a.
Proof.
  revert fuel x. induction l1 as [|c l1 IH]; intros fuel x; cbn [app linked].
  - intros _ (-> & Ha & t & Ht & E & Hb & _) _. destruct fuel; cbn [global_before]; rewrite (proj2 (Z.eqb_neq a 0)), Ht by done; cbn [mbind option_bind]; by rewrite E, Z.eqb_refl.
  - intros [Hc Hn]%NoDup_cons (-> & Hz & t & Ht & Hl) Hf. cbn [length] in Hf. destruct fuel as [|n]; [lia|]. cbn [global_before]. rewrite (proj2 (Z.eqb_neq c 0)), Ht by done. cbn [mbind option_bind].
    rewrite (proj2 (Z.eqb_neq (global_next t) b)); [apply IH; [done|done|lia]|]. intros E. destruct l1 as [|d l1]; cbn in Hl; destruct Hl as (Ed & _); cbn in Hn; apply NoDup_cons in Hn as [Hn _]; [apply Hn; rewrite <- Ed, E; left|]. set_solver.
Qed.

Lemma remove_global_ok s l t : threads_ok s l -> t ∈ l -> exists s', remove_from_global_list s t = Some s' /\ threads_ok s' (without t l).
Proof.
  intros [H1 H2 H3 H4] (l1 & l2 & ->)%list_elem_of_split. rewrite without_split by done.
  assert (Hkeep : forall s', linked global_next (threads s') (global_thread_list s') (l1 ++ l2) -> next_tid s' = next_tid s -> (forall a, t_tid <$> threads s' !! a = t_tid <$> threads s !! a) -> threads_ok s' (l1 ++ l2)).
  { intros s' Hl Hn Ht. assert (Hsub : forall a, a ∈ l1 ++ l2 -> a ∈ l1 ++ t :: l2) by set_solver. split; [done|by eapply sublist_NoDup, sublist_app, sublist_cons; [exact H2|done|done]| |].
    - intros a b tid Ha Hb. unfold has_tid. rewrite !Ht. apply H3; by apply Hsub.
    - intros a tid Ha. unfold has_tid. rewrite Ht, Hn. apply H4. by apply Hsub. }
  unfold remove_from_global_list. destruct l1 as [|a l0 _] using rev_ind.
  - cbn in H1. destruct H1 as (Eg & Hz & th & Ht & Hl). rewrite Eg, (proj2 (Z.eqb_neq t 0)), Z.eqb_refl, Ht by done. cbn [mbind option_bind]. eexists. split; [done|]. by apply Hkeep.
  - destruct (linked_head _ _ _ _ _ H1 ltac:(by destruct l0)) as [Hh Hz]. assert (Ht : t ∉ l0 ++ [a]) by (apply NoDup_app in H2 as (_ & H2 & _); intros Hin; by apply (H2 t Hin); left).
    rewrite (proj2 (Z.eqb_neq _ 0)), (proj2 (Z.eqb_neq _ t)) by (done || by intros E; rewrite E in Hh). rewrite <- app_assoc in H1, H2. cbn [app] in H1, H2.
    pose proof (linked_size _ _ _ _ H2 H1) as Hs. rewrite length_app in Hs. rewrite (global_before_ok _ _ _ l0 a t l2 H2 H1) by (unfold fuel_of; lia). cbn [mbind option_bind].
    destruct (linked_lookup _ _ _ _ a H1 ltac:(set_solver)) as [Ha [ta Hta]]. destruct (linked_lookup _ _ _ _ t H1 ltac:(set_solver)) as [_ [tt Htt]]. rewrite (proj2 (Z.eqb_neq a 0)), Htt, Hta by done. cbn [mbind option_bind]. eexists. split; [done|]. apply Hkeep; [|done|].
    + rewrite <- app_assoc. cbn. by eapply linked_unlink.
    + intros b. cbn. destruct (decide (b = a)) as [->|Hne]; [by rewrite lookup_insert_eq, Hta|by rewrite lookup_insert_ne].
Qed.


(** ** Creation *)

Lemma threads_ok_fields s s' l : global_thread_list s' = global_thread_list s -> next_tid s' = next_tid s -> same_on t_tid l (threads s) (threads s') -> same_on global_next l (threads s) (threads s') -> threads_ok s l -> threads_ok s' l.
Proof.
  intros Eg En Ht Hg [H1 H2 H3 H4]. split; [rewrite Eg; by eapply linked_same|done| |].
  - intros a b tid Ha Hb Hat Hbt. apply (H3 a b tid); [done|done| |]; by apply (has_tid_same l _ (threads s')).
  - intros a tid Ha Hat. rewrite En. apply (H4 a); [done|]. by apply (has_tid_same l _ (threads s')).
Qed.

(** A new thread that gets its memory and its stack is ready and the first of the list,
    with a number of its own.  When there is no memory for the stack, the thread is freed
    but stays linked: the list of all threads begins with a pointer to freed memory, and
    no search of the list has a result any more. *)
Theorem create_thread_listed s l t current stack explicit : threads_ok s l -> 0 < next_tid s < 2 ^ 32 - 1 -> t ∉ l -> t <> 0 -> current <> t -> (current <> 0 -> is_Some (threads s !! current)) ->
  (exists s', sched_create_kernel_thread s current (Some t) (Some stack) explicit false = Some (t, s') /\ threads_ok s' (t :: l) /\ has_tid (threads s') (next_tid s) t /\ t_state <$> threads s' !! t = Some THREAD_READY) /\
  (exists s', sched_create_kernel_thread s current (Some t) None explicit true = Some (0, s') /\ global_thread_list s' = t /\ forall tid, sched_get_thread_by_tid s' tid = None).
Proof.
  intros Hok Hn Ht Hz Hc Hin. set (s0 := with_threads s (<[t := zero_thread]> (threads s))).
  assert (Hok0 : threads_ok s0 l) by (apply (threads_ok_fields s); [done|done| | |done]; intros a Ha; cbn; rewrite lookup_insert_ne; [done|set_solver..|done|set_solver]).
  assert (Hin0 : current <> 0 -> is_Some (threads s0 !! current)) by (intros Hx; cbn; rewrite lookup_insert_ne by done; by apply Hin).
  assert (Ht0 : threads s0 !! t = Some zero_thread) by (apply lookup_insert_eq).
  destruct (link_ok s0 l t current Hok0 Hn Ht Hz ltac:(by eexists) Hc Hin0) as (s1 & E1 & Hok1 & Htid). destruct (link_fields s0 t _ current Ht0 Hc Hin0) as (s1' & E1' & Eg & _ & (th & Hth & _) & _). rewrite E1 in E1'. injection E1' as <-.
  unfold sched_create_kernel_thread. fold s0. rewrite E1. cbn [mbind option_bind]. rewrite Hth. cbn [mbind option_bind]. split.
  - eexists. split; [done|]. assert (Hf : forall {B} (f : thread -> B), (forall x, f (set_state THREAD_READY x) = f x) -> forall a, f <$> <[t := set_state THREAD_READY th]> (threads s1) !! a = f <$> threads s1 !! a).
    { intros B f Hf a. destruct (decide (a = t)) as [->|]; [rewrite lookup_insert_eq, Hth; cbn; by rewrite Hf|by rewrite lookup_insert_ne]. }
    split; [apply (threads_ok_fields s1); try done; intros a _; cbn; by apply Hf|]. split; [unfold has_tid in *; cbn; by rewrite Hf|]. cbn. by rewrite lookup_insert_eq.
  - eexists. split; [done|]. split; [done|]. intros tid. unfold sched_get_thread_by_tid. cbn [global_thread_list threads with_threads]. rewrite Eg. set (ts := delete _ _). destruct (fuel_of ts); cbn [by_tid]; rewrite (proj2 (Z.eqb_neq t 0)) by done; subst ts; by rewrite lookup_delete_eq.
Qed.

(** ** Orphans *)

Lemma by_tid_same fuel (ts ts' : gmap Z thread) x tid : (forall a, t_tid <$> ts' !! a = t_tid <$> ts !! a) -> (forall a, global_next <$> ts' !! a = global_next <$> ts !! a) -> by_tid fuel ts' x tid = by_tid fuel ts x tid.
Proof.
  intros Ht Hg. revert x. induction fuel as [|n IH]; intros x; cbn [by_tid]; (destruct (x =? 0); [done|]); pose proof (Ht x) as E1; pose proof (Hg x) as E2; (destruct (ts' !! x) as [t'|], (ts !! x) as [t|]; try done); injection E1 as E1; injection E2 as E2; cbn [mbind option_bind]; rewrite E1, ?E2; [done|]. by rewrite IH.
Qed.

(** One child is moved to the thread at [i]. *)
Definition adopt (ts : gmap Z thread) (i : Z) (I : thread) (c : Z) (C : thread) : gmap Z thread :=
  <[i := set_family (t_parent I) c (sibling_next I) I]> (<[c := set_family i (t_children C) (t_children I) C]> ts).

Lemma adopt_field {A} (f : thread -> A) (ts : gmap Z thread) i I c C a : ts !! i = Some I -> ts !! c = Some C -> c <> i -> (forall p x y t, f (set_family p x y t) = f t) -> f <$> adopt ts i I c C !! a = f <$> ts !! a.
Proof.
  intros Hi Hc Hne Hf. unfold adopt. destruct (decide (a = i)) as [->|Hai]; [rewrite lookup_insert_eq, Hi; cbn; by rewrite Hf|]. rewrite lookup_insert_ne by done. destruct (decide (a = c)) as [->|Hac]; [rewrite lookup_insert_eq, Hc; cbn; by rewrite Hf|by rewrite lookup_insert_ne].
Qed.

Lemma adopt_sibling (ts : gmap Z thread) i I c C a : ts !! i = Some I -> a <> c -> sibling_next <$> adopt ts i I c C !! a = sibling_next <$> ts !! a.
Proof. intros Hi Ha. unfold adopt. destruct (decide (a = i)) as [->|Hai]; [by rewrite lookup_insert_eq, Hi|by rewrite !lookup_insert_ne]. Qed.

Lemma adopt_parent (ts : gmap Z thread) i I c C a : ts !! i = Some I -> c <> i -> t_parent <$> adopt ts i I c C !! a = if decide (a = c) then Some i else t_parent <$> ts !! a.
Proof.
  intros Hi Hne. unfold adopt. destruct (decide (a = c)) as [->|Hac]; [rewrite lookup_insert_ne, lookup_insert_eq by done; done|]. destruct (decide (a = i)) as [->|Hai]; [by rewrite lookup_insert_eq, Hi|by rewrite !lookup_insert_ne].
Qed.

Lemma adopt_children (ts : gmap Z thread) i I c C a : ts !! c = Some C -> a <> i -> t_children <$> adopt ts i I c C !! a = t_children <$> ts !! a.
Proof. intros Hc Hai. unfold adopt. rewrite lookup_insert_ne by done. destruct (decide (a = c)) as [->|Hac]; [by rewrite lookup_insert_eq, Hc|by rewrite lookup_insert_ne]. Qed.

Lemma adopt_size (ts : gmap Z thread) i I c C : ts !! i = Some I -> ts !! c = Some C -> c <> i -> size (adopt ts i I c C) = size ts.
Proof. intros Hi Hc Hne. unfold adopt. rewrite !map_size_insert_Some; [done|eauto|]. rewrite lookup_insert_ne; eauto. Qed.

(** The threads [l] are adopted by [i], whose children were [li]. *)
Record adopted (s s' : sched) (i : Z) (l li : list Z) : Prop := {
  ad_children : exists I, threads s' !! i = Some I /\ linked sibling_next (threads s') (t_children I) (reverse l ++ li);
  ad_parent : forall a, t_parent <$> threads s' !! a = if decide (a ∈ l) then Some i else t_parent <$> threads s !! a;
  ad_others : forall a, a <> i -> t_children <$> threads s' !! a = t_children <$> threads s !! a;
  ad_list : global_thread_list s' = global_thread_list s /\ cpus s' = cpus s;
}.

Lemma reparent_loop_ok fuel s x l i I li : sched_get_thread_by_tid s 1 = Some i -> i <> 0 -> linked sibling_next (threads s) x l -> NoDup l -> i ∉ l -> (forall c, c ∈ l -> c ∉ li) ->
  threads s !! i = Some I -> linked sibling_next (threads s) (t_children I) li -> (length l <= fuel)%nat -> exists s', reparent_loop fuel s x = Some s' /\ adopted s s' i l li.
Proof.
  revert fuel s x I li. induction l as [|c l IH]; intros fuel s x I li Hg Hz Hl Hn Hi Hd HI Hli Hf.
  - cbn in Hl. subst x. exists s. split; [by destruct fuel|]. split; [by exists I|intros a; by rewrite decide_False by set_solver|done|done].
  - cbn [linked] in Hl. destruct Hl as (-> & Hc & C & HC & Hl). apply NoDup_cons in Hn as [Hcl Hn]. cbn [length] in Hf. destruct fuel as [|n]; [lia|]. assert (Hci : c <> i) by set_solver.
    cbn [reparent_loop]. rewrite (proj2 (Z.eqb_neq c 0)), HC, Hg by done. cbn [mbind option_bind]. rewrite (proj2 (Z.eqb_neq i 0)), HI by done. cbn [mbind option_bind]. rewrite lookup_insert_ne, HI by done. cbn [mbind option_bind]. fold (adopt (threads s) i I c C).
    set (s1 := with_threads s (adopt (threads s) i I c C)).
    destruct (IH n s1 (sibling_next C) (set_family (t_parent I) c (sibling_next I) I) (c :: li)) as (s' & E & [A1 A2 A3 A4]); [| |..|lia|].
    + unfold sched_get_thread_by_tid, fuel_of in *. cbn. rewrite adopt_size by done. rewrite <- Hg. apply by_tid_same; intros a; by apply adopt_field.
    + done.
    + eapply linked_same, Hl. intros a Ha. apply adopt_sibling; [done|set_solver].
    + done.
    + set_solver.
    + set_solver.
    + cbn. unfold adopt. by rewrite lookup_insert_eq.
    + cbn [t_children set_family linked]. split; [done|]. split; [done|]. exists (set_family i (t_children C) (t_children I) C). cbn. unfold adopt at 1. rewrite lookup_insert_ne, lookup_insert_eq by done. split; [done|]. eapply linked_same, Hli. intros a Ha. apply adopt_sibling; [done|]. intros ->. by apply (Hd c); [left|].
    + exists s'. split; [done|]. split; [by rewrite reverse_cons, <- app_assoc| | |done].
      * intros a. rewrite A2. cbn [threads with_threads s1]. rewrite adopt_parent by done. destruct (decide (a = c)) as [->|Hac]; [rewrite decide_False, (decide_True (P := c ∈ c :: l)) by set_solver; done|]. destruct (decide (a ∈ l)); [by rewrite decide_True by set_solver|by rewrite decide_False by set_solver].
      * intros a Ha. rewrite A3 by done. by apply adopt_children.
Qed.

(** C24: When a thread ends, its children become children of thread 1: each has it as its
    parent and is in its list of children, before those that were there; the parent of
    no other thread changes, and the thread that ends has no children left. *)
Theorem reparent_correct s gl i I p P l li : threads_ok s gl -> i ∈ gl -> has_tid (threads s) 1 i -> threads s !! i = Some I -> threads s !! p = Some P -> p <> 0 -> p <> i ->
  linked sibling_next (threads s) (t_children P) l -> linked sibling_next (threads s) (t_children I) li -> NoDup l -> i ∉ l -> (forall c, c ∈ l -> c ∉ li) ->
  exists s' I', sched_reparent_children s p = Some s' /\ t_children <$> threads s' !! p = Some 0 /\
    threads s' !! i = Some I' /\ linked sibling_next (threads s') (t_children I') (reverse l ++ li) /\
    (forall a, t_parent <$> threads s' !! a = if decide (a ∈ l) then Some i else t_parent <$> threads s !! a).
Proof.
  intros Hok Hi Ht HI HP Hp Hpi Hl Hli Hn Hil Hd. destruct (get_by_tid_ok s gl 1 Hok) as (i' & Eg & [[_ Hno]|[Hi' Ht']]); [by destruct (Hno i)|]. pose proof (to_inj _ _ Hok i i' 1 Hi Hi' Ht Ht') as <-.
  destruct (linked_lookup _ _ _ _ i (to_list _ _ Hok) Hi) as [Hz _]. unfold sched_reparent_children. rewrite (proj2 (Z.eqb_neq p 0)), HP by done. cbn [mbind option_bind].
  destruct (reparent_loop_ok (fuel_of (threads s)) s (t_children P) l i I li Eg Hz Hl Hn Hil Hd HI Hli ltac:(by eapply linked_size)) as (s' & -> & [(I' & HI' & A1) A2 A3 _]). cbn [mbind option_bind].
  pose proof (A3 p Hpi) as Ep. rewrite HP in Ep. destruct (threads s' !! p) as [P'|] eqn:EP'; [|done]. cbn [mbind option_bind]. eexists _, I'. split; [done|]. cbn. rewrite lookup_insert_eq, lookup_insert_ne by done. split; [done|]. split; [done|]. split.
  - eapply linked_same, A1. intros a _. destruct (decide (a = p)) as [->|Ha]; [by rewrite lookup_insert_eq, EP'|by rewrite lookup_insert_ne].
  - intros a. rewrite <- A2. destruct (decide (a = p)) as [->|Ha]; [by rewrite lookup_insert_eq, EP'|by rewrite lookup_insert_ne].
Qed.

(** ** Three threads, the second a parent of the third *)

Definition demo_family : sched :=
  Sched {[ 8 := Thread 1 THREAD_RUNNING 0 true 0 16 0 0 8; 16 := Thread 2 THREAD_READY 0 false 8 24 0 8 16; 24 := Thread 3 THREAD_READY 0 false 16 0 0 16 24;
           32 := Thread 0 THREAD_READY 0 false 0 0 0 0 0 ]} ∅ [Cpu 8 8 true] 24 4 0.

Ltac demo_tid := match goal with H : has_tid _ _ _ |- _ => vm_compute in H; injection H as <- end.

Lemma demo_family_ok : threads_ok demo_family [24; 16; 8].
Proof.
  split.
  - cbn. repeat (split; [reflexivity|]; split; [discriminate|]; eexists; split; [vm_compute; reflexivity|]; cbn). reflexivity.
  - apply (bool_decide_unpack _). vm_compute. exact I.
  - intros a b tid Ha Hb Hat Hbt. repeat (apply elem_of_cons in Ha as [->|Ha]; [|]); try (by apply not_elem_of_nil in Ha); repeat (apply elem_of_cons in Hb as [->|Hb]; [|]); try (by apply not_elem_of_nil in Hb); try reflexivity; vm_compute in Hat, Hbt; congruence.
  - intros a tid Ha Hat. repeat (apply elem_of_cons in Ha as [->|Ha]; [demo_tid; cbn; lia|]). by apply not_elem_of_nil in Ha.
Qed.


Lemma create_thread_listed_witness : exists s', sched_create_kernel_thread demo_family 8 (Some 32) None None true = Some (0, s') /\ sched_get_thread_by_tid s' 1 = None.
Proof.
  destruct (create_thread_listed demo_family [24; 16; 8] 32 8 0 None demo_family_ok) as (_ & s' & E & _ & H); [cbn; lia|set_solver|discriminate|discriminate|intros _; eexists; reflexivity|]. exists s'. split; [exact E|exact (H 1)].
Defined.

Lemma reparent_correct_witness : exists s' I', sched_reparent_children demo_family 16 = Some s' /\ threads s' !! 8 = Some I' /\ linked sibling_next (threads s') (t_children I') [24; 16].
Proof.
  destruct (reparent_correct demo_family [24; 16; 8] 8 (Thread 1 THREAD_RUNNING 0 true 0 16 0 0 8) 16 (Thread 2 THREAD_READY 0 false 8 24 0 8 16) [24] [16]) as (s' & I' & E & _ & HI & Hl & _).
  - exact demo_family_ok.
  - right. right. left.
  - reflexivity.
  - reflexivity.
  - reflexivity.
  - discriminate.
  - discriminate.
  - cbn. repeat (split; [reflexivity|]; split; [discriminate|]; eexists; split; [vm_compute; reflexivity|]; cbn). reflexivity.
  - cbn. repeat (split; [reflexivity|]; split; [discriminate|]; eexists; split; [vm_compute; reflexivity|]; cbn). reflexivity.
  - apply NoDup_singleton.
  - apply (bool_decide_unpack _). vm_compute. exact I.
  - intros c Hc. apply list_elem_of_singleton in Hc as ->. apply (bool_decide_unpack _). vm_compute. exact I.
  - exists s', I'. split; [exact E|split; [exact HI|exact Hl]].
Defined.
