(* ===== verification/Futex.v ===== *)
(** * Futexes (kernel/src/syscalls/sys_futex.c)

    A waiting thread is a node of the bucket its futex word hashes to.  The nodes live
    on the stacks of the waiting threads, one for each, so a node is named by its thread
    here and a bucket is the list of its nodes.  [futex_wait] is in three parts, around
    the load of the user's word and around the call of [sched_yield].  A word is known by
    its physical address, which the page tables of the calling thread give. *)

From S2P Require Import Prelude Pmm Vma UserRange Paging PagingThms Sched SchedThms.

Definition FUTEX_WAIT : Z := 0.
Definition FUTEX_WAKE : Z := 1.
Definition FUTEX_CMD_MASK : Z := 127.
Definition FUTEX_HASH_SIZE : Z := 64.

(** An error as a result, [(uint64_t)(-(int64_t)e)]: here EAGAIN is 11, EFAULT 14 and
    EINVAL 22. *)
Definition neg_errno (e : Z) : Z := u64 (- e).

Record futex_waiter := FutexWaiter { fw_phys : Z; fw_thread : Z }.

#[export] Instance futex_waiter_eq_dec : EqDecision futex_waiter.
Proof. solve_decision. Defined.

(** The threads, the buckets of waiting ones, and whether the table was initialised. *)
Record futexes := Futexes { f_threads : gmap Z thread; futex_hash : gmap Z (list futex_waiter); futex_initialized : bool }.

Definition bucket (f : futexes) (b : Z) : list futex_waiter := default [] (futex_hash f !! b).
Definition with_bucket (f : futexes) (b : Z) (l : list futex_waiter) : futexes := Futexes (f_threads f) (<[b := l]> (futex_hash f)) (futex_initialized f).

(** The first call empties all buckets. *)
Definition futex_init_once (f : futexes) : futexes :=
  if futex_initialized f then f else Futexes (f_threads f) ∅ true.

Definition futex_hash_key (phys_addr : Z) : Z :=
  let h := Z.shiftr phys_addr 2 in
  let h := Z.lxor h (Z.shiftr h 16) in
  u32 (Z.land h (FUTEX_HASH_SIZE - 1)).

(** The current thread is given by its [cr3] and its regions. *)
Definition futex_get_phys {P} (s : pg P) (current : option (Z * vma_list)) (uaddr : Z) : Z :=
  match current with
  | None => 0
  | Some (cr3, vmas) =>
      if cr3 =? 0 then 0
      else match vmm_is_user_addr_range_valid (Some vmas) uaddr 4 with
           | Some true => vmm_virt_to_phys s cr3 uaddr
           | _ => 0
           end
  end.

(** ** Waiting *)

(** The ticks at which a wait ends, if it does. *)
Definition futex_deadline (timeout : option (Z * Z)) (ticks : Z) : option Z :=
  match timeout with
  | None => None
  | Some (sec, nsec) =>
      let timeout_ms := u64 (u64 (sec * 1000) + nsec / 1000000) in
      let timeout_ms := if (timeout_ms =? 0) && (nsec >? 0) then 1 else timeout_ms in
      if timeout_ms >? 0 then Some (u64 (ticks + timeout_ms)) else None
  end.

Definition set_wakeup (ticks : Z) (t : thread) : thread :=
  Thread (t_tid t) (t_state t) ticks (t_is_idle t) (t_parent t) (t_children t) (sibling_next t) (global_next t) (t_next t).

(** The rest of the critical section once the word has the expected value: the thread
    becomes the first of its bucket and is blocked. *)
Definition futex_enqueue (f : futexes) (t phys : Z) (deadline : option Z) : option futexes :=
  th ← f_threads f !! t;
  let b := futex_hash_key phys in
  let th := set_state THREAD_BLOCKED th in
  let th := match deadline with Some d => set_wakeup d th | None => th end in
  Some (Futexes (<[t := th]> (f_threads f)) (<[b := FutexWaiter phys t :: bucket f b]> (futex_hash f)) (futex_initialized f)).

(** The loop that takes the thread's own node out of the bucket. *)
Fixpoint unlink_waiter (l : list futex_waiter) (t : Z) : list futex_waiter :=
  match l with
  | [] => []
  | w :: l => if fw_thread w =? t then l else w :: unlink_waiter l t
  end.

(** What follows the call of [sched_yield]. *)
Definition futex_leave (f : futexes) (t phys : Z) : futexes :=
  let b := futex_hash_key phys in with_bucket f b (unlink_waiter (bucket f b) t).

(** ** Waking *)

(** The loop over a bucket: its rest, the number of threads woken, and the threads. *)
Fixpoint wake_waiters (l : list futex_waiter) (phys val woken : Z) (ts : gmap Z thread) : list futex_waiter * Z * gmap Z thread :=
  match l with
  | [] => ([], woken, ts)
  | w :: l =>
      if woken <? val then
        if fw_phys w =? phys then
          match ts !! fw_thread w with
          | Some th =>
              if bool_decide (t_state th = THREAD_BLOCKED) then wake_waiters l phys val (u32 (woken + 1)) (<[fw_thread w := make_ready th]> ts)
              else wake_waiters l phys val woken ts
          | None => wake_waiters l phys val woken ts
          end
        else let '(l, woken, ts) := wake_waiters l phys val woken ts in (w :: l, woken, ts)
      else (w :: l, woken, ts)
  end.

Definition futex_wake (f : futexes) (phys val : Z) : Z * futexes :=
  let f := futex_init_once f in
  if phys =? 0 then (neg_errno 14, f)
  else
    let b := futex_hash_key phys in
    let '(l, woken, ts) := wake_waiters (bucket f b) phys val 0 (f_threads f) in
    (woken, Futexes ts (<[b := l]> (futex_hash f)) (futex_initialized f)).

(** ** The system call, for a word at [phys] that holds [word], up to the point where
    it returns or gives up the processor ([None]). *)
Definition futex_wait (f : futexes) (t phys val word : Z) (timeout : option (Z * Z)) (ticks : Z) : option (option Z * futexes) :=
  let f := futex_init_once f in
  if phys =? 0 then Some (Some (neg_errno 14), f)
  else if negb (word =? val) then Some (Some (neg_errno 11), f)
  else f ← futex_enqueue f t phys (futex_deadline timeout ticks); Some (None, f).

Definition sys_futex {P} (s : pg P) (current : option (Z * vma_list)) (load : Z -> Z) (f : futexes) (t uaddr op_val val_arg : Z) (timeout : option (Z * Z)) (ticks : Z) : option (option Z * futexes) :=
  let op := Z.land op_val FUTEX_CMD_MASK in
  let val := u32 val_arg in
  let phys := futex_get_phys s current uaddr in
  if op =? FUTEX_WAIT then futex_wait f t phys val (load phys) timeout ticks
  else if op =? FUTEX_WAKE then let '(r, f) := futex_wake f phys val in Some (Some r, f)
  else Some (Some (neg_errno 22), f).

(** ** Threads that use futexes at the same time *)

(** Where a thread is: outside the call, in [futex_init_once] with some buckets done, at
    the point after it, in the critical section before or after the load, or waiting to
    run again after it was put to sleep. *)
Inductive futex_pc :=
  | Outside
  | Init (done : nat)
  | Entered
  | Locked (phys val : Z)
  | Loaded (phys val : Z)
  | Waiting (phys val : Z).

(** The state, the user's words by physical address, which thread holds the lock of a
    bucket, where the threads are, and, for the specification, the words that were
    written and for which not all waiters were woken since. *)
Record machine := Machine {
  m_futexes : futexes; m_words : gmap Z Z; m_lock : gmap Z Z; m_pc : gmap Z futex_pc; m_owed : gset Z }.

Definition pc_of (m : machine) (t : Z) : futex_pc := default Outside (m_pc m !! t).
Definition futex_word (m : machine) (p : Z) : Z := default 0 (m_words m !! p).
Definition thread_blocked (m : machine) (t : Z) : Prop := blocked (f_threads (m_futexes m)) t.

(** The waiters of a word. *)
Definition waiters (f : futexes) (p : Z) : list futex_waiter := filter (fun w => fw_phys w = p) (bucket f (futex_hash_key p)).

(** One step of a thread or of the timer.  A thread takes a step only while it is not
    blocked, and waits for the lock of the bucket, but [futex_init_once] takes no lock
    and frees those of the buckets. *)
Inductive futex_step : machine -> machine -> Prop :=
  | step_store f ws lk pc owed t p x : default Outside (pc !! t) = Outside ->
      futex_step (Machine f ws lk pc owed) (Machine f (<[p := x]> ws) lk pc (owed ∪ {[p]}))
  | step_enter f ws lk pc owed t : default Outside (pc !! t) = Outside -> is_Some (f_threads f !! t) -> ~ blocked (f_threads f) t ->
      futex_step (Machine f ws lk pc owed) (Machine f ws lk (<[t := if futex_initialized f then Entered else Init 0]> pc) owed)
  | step_init_bucket f ws lk pc owed t i : pc !! t = Some (Init i) -> Z.of_nat i < FUTEX_HASH_SIZE ->
      futex_step (Machine f ws lk pc owed) (Machine (with_bucket f (Z.of_nat i) []) ws (delete (Z.of_nat i) lk) (<[t := Init (S i)]> pc) owed)
  | step_init_done f ws lk pc owed t i : pc !! t = Some (Init i) -> Z.of_nat i = FUTEX_HASH_SIZE ->
      futex_step (Machine f ws lk pc owed) (Machine (Futexes (f_threads f) (futex_hash f) true) ws lk (<[t := Entered]> pc) owed)
  | step_lock f ws lk pc owed t p v : pc !! t = Some Entered -> p <> 0 -> lk !! futex_hash_key p = None ->
      futex_step (Machine f ws lk pc owed) (Machine f ws (<[futex_hash_key p := t]> lk) (<[t := Locked p v]> pc) owed)
  | step_differs f ws lk pc owed t p v : pc !! t = Some (Locked p v) -> default 0 (ws !! p) <> v ->
      futex_step (Machine f ws lk pc owed) (Machine f ws (delete (futex_hash_key p) lk) (<[t := Outside]> pc) owed)
  | step_load f ws lk pc owed t p v : pc !! t = Some (Locked p v) -> default 0 (ws !! p) = v ->
      futex_step (Machine f ws lk pc owed) (Machine f ws lk (<[t := Loaded p v]> pc) owed)
  | step_sleep f f' ws lk pc owed t p v deadline : pc !! t = Some (Loaded p v) -> futex_enqueue f t p deadline = Some f' ->
      futex_step (Machine f ws lk pc owed) (Machine f' ws (delete (futex_hash_key p) lk) (<[t := Waiting p v]> pc) owed)
  | step_timer f ws lk pc owed t th : f_threads f !! t = Some th -> t_state th = THREAD_BLOCKED ->
      futex_step (Machine f ws lk pc owed) (Machine (Futexes (<[t := make_ready th]> (f_threads f)) (futex_hash f) (futex_initialized f)) ws lk pc owed)
  | step_leave f ws lk pc owed t p v : pc !! t = Some (Waiting p v) -> ~ blocked (f_threads f) t -> lk !! futex_hash_key p = None ->
      futex_step (Machine f ws lk pc owed) (Machine (futex_leave f t p) ws lk (<[t := Outside]> pc) owed)
  | step_wake f ws lk pc owed t p n : pc !! t = Some Entered -> p <> 0 -> 0 <= n < 2 ^ 32 -> lk !! futex_hash_key p = None ->
      futex_step (Machine f ws lk pc owed)
        (Machine (futex_wake f p n).2 ws lk (<[t := Outside]> pc) (if decide (zlen (waiters f p) <= n) then owed ∖ {[p]} else owed)).

(** ** Waking some waiters *)

Lemma blocked_insert_ready ts t th x : blocked (<[t := make_ready th]> ts) x -> blocked ts x /\ x <> t.
Proof. unfold blocked. destruct (decide (x = t)) as [->|Hx]; [by rewrite lookup_insert_eq|by rewrite lookup_insert_ne]. Qed.

(** What is left of a bucket, and who still sleeps. *)
Lemma wake_waiters_ok l p val w ts l' w' ts' : wake_waiters l p val w ts = (l', w', ts') -> 0 <= w <= val -> val < 2 ^ 32 ->
  l' `sublist_of` l /\ (forall x, x ∈ l -> x ∉ l' -> ~ blocked ts' (fw_thread x)) /\ (forall t, blocked ts' t -> blocked ts t) /\
  (w + zlen (filter (fun x => fw_phys x = p) l) <= val -> forall x, x ∈ l' -> fw_phys x <> p) /\ w <= w' <= val.
Proof.
  revert w ts l'. induction l as [|x l IH]; intros w ts l' E Hw Hv; cbn [wake_waiters] in E.
  - injection E as <- <- <-. split; [done|]. split; [set_solver|]. split; [done|]. split; [set_solver|lia].
  - destruct (Z.ltb_spec w val) as [Hlt|Hge].
    2: { injection E as <- <- <-. split; [done|]. split; [done|]. split; [done|]. split; [|lia]. intros Hz y Hy Hp. assert (Hin : y ∈ filter (fun x => fw_phys x = p) (x :: l)) by (by apply list_elem_of_filter).
         destruct (filter _ (x :: l)) as [|c q]; [by apply not_elem_of_nil in Hin|]. unfold zlen in Hz. cbn [length] in Hz. lia. }
    destruct (Z.eqb_spec (fw_phys x) p) as [Hp|Hp].
    + rewrite filter_cons_True by done. assert (Hcase : exists w1 ts1, wake_waiters l p val w1 ts1 = (l', w', ts') /\ (w1 = w \/ w1 = w + 1) /\ ~ blocked ts1 (fw_thread x) /\ forall t, blocked ts1 t -> blocked ts t).
      { destruct (ts !! fw_thread x) as [th|] eqn:Eth; [destruct (bool_decide_reflect (t_state th = THREAD_BLOCKED)) as [Hb|Hb]|].
        - rewrite u32_small in E by lia. exists (w + 1), (<[fw_thread x := make_ready th]> ts). split; [done|]. split; [by right|]. split; [by intros [_ ?]%blocked_insert_ready|by intros t [? _]%blocked_insert_ready].
        - exists w, ts. split; [done|]. split; [by left|]. split; [|done]. unfold blocked. rewrite Eth. cbn. congruence.
        - exists w, ts. split; [done|]. split; [by left|]. split; [|done]. unfold blocked. by rewrite Eth. }
      destruct Hcase as (w1 & ts1 & E1 & Hw1 & Hx & Hsub). destruct (IH w1 ts1 l' E1 ltac:(lia) Hv) as (H1 & H2 & H3 & H4 & H5). split; [by apply sublist_cons|].
      split; [intros y [->|Hy]%elem_of_cons Hny; [|by apply H2]; intros Hb; by apply Hx, H3|]. split; [intros t Ht; by apply Hsub, H3|]. split; [|lia]. intros Hz. apply H4. unfold zlen in *. cbn [length] in Hz. lia.
    + rewrite filter_cons_False by done. destruct (wake_waiters l p val w ts) as [[l1 w1] ts1] eqn:E1. injection E as <- <- <-. destruct (IH w ts l1 E1 Hw Hv) as (H1 & H2 & H3 & H4 & H5). split; [by apply sublist_skip|].
      split; [intros y [->|Hy]%elem_of_cons Hny; [by destruct Hny; left|]; apply H2; set_solver|]. split; [done|]. split; [|done]. intros Hz y [->|Hy]%elem_of_cons; [done|by apply H4].
Qed.

(** ** Nobody sleeps through a change *)

Record futex_inv (m : machine) : Prop := {
  fi_node : forall b w, w ∈ bucket (m_futexes m) b -> futex_hash_key (fw_phys w) = b /\ exists v, m_pc m !! fw_thread w = Some (Waiting (fw_phys w) v);
  fi_nodup : forall b, NoDup (fw_thread <$> bucket (m_futexes m) b);
  fi_sleep : forall t p v, m_pc m !! t = Some (Waiting p v) -> thread_blocked m t ->
    FutexWaiter p t ∈ bucket (m_futexes m) (futex_hash_key p) /\ (futex_word m p = v \/ p ∈ m_owed m);
  fi_loaded : forall t p v, m_pc m !! t = Some (Loaded p v) -> futex_word m p = v \/ p ∈ m_owed m;
  fi_lock : forall t p v, m_pc m !! t = Some (Locked p v) \/ m_pc m !! t = Some (Loaded p v) -> m_lock m !! futex_hash_key p = Some t;
  fi_ready : futex_initialized (m_futexes m) = true /\ forall t i, m_pc m !! t <> Some (Init i);
}.

Lemma bucket_insert f b b' l ts i : bucket (Futexes ts (<[b := l]> (futex_hash f)) i) b' = if decide (b' = b) then l else bucket f b'.
Proof. unfold bucket. cbn. case_decide as Hd; [subst; by rewrite lookup_insert_eq|by rewrite lookup_insert_ne]. Qed.

Lemma pc_insert (pc : gmap Z futex_pc) t x u y : <[t := x]> pc !! u = Some y -> u = t /\ y = x \/ u <> t /\ pc !! u = Some y.
Proof. intros [[-> ->]|[? ?]]%lookup_insert_Some; [by left|right; auto]. Qed.

Lemma store_inv f ws lk pc owed p x : futex_inv (Machine f ws lk pc owed) -> futex_inv (Machine f (<[p := x]> ws) lk pc (owed ∪ {[p]})).
Proof.
  intros [H1 H2 H3 H4 H5 H6]. assert (Hw : forall q v, default 0 (ws !! q) = v \/ q ∈ owed -> default 0 (<[p := x]> ws !! q) = v \/ q ∈ owed ∪ {[p]}).
  { intros q v Hq. destruct (decide (q = p)) as [->|Hne]; [right; set_solver|]. rewrite lookup_insert_ne by done. set_solver. }
  split; [exact H1|exact H2| |intros t q v Ht; apply Hw, (H4 t q v Ht)|exact H5|exact H6]. intros t q v Ht Hb. destruct (H3 t q v Ht Hb) as [? ?]. split; [done|by apply Hw].
Qed.

(** The thread [t] moves, without a node and to a place without one. *)
Lemma move_inv f ws lk lk' pc owed t x : futex_inv (Machine f ws lk pc owed) -> (forall p v, pc !! t <> Some (Waiting p v)) -> (forall p v, x <> Waiting p v) -> (forall i, x <> Init i) ->
  (forall p v, x = Loaded p v -> default 0 (ws !! p) = v \/ p ∈ owed) -> (forall p v, x = Locked p v \/ x = Loaded p v -> lk' !! futex_hash_key p = Some t) ->
  (forall u b, u <> t -> lk !! b = Some u -> lk' !! b = Some u) -> futex_inv (Machine f ws lk' (<[t := x]> pc) owed).
Proof.
  intros [H1 H2 H3 H4 H5 H6] Hpc Hx Hxi Hl Hk Hk'. cbn [m_futexes m_pc m_owed m_lock] in *. split; cbn [m_futexes m_pc m_owed m_lock].
  - intros b w Hw. destruct (H1 b w Hw) as [Hb [v Hv]]. split; [done|]. exists v. rewrite lookup_insert_ne; [done|]. intros ->. by apply (Hpc (fw_phys w) v).
  - exact H2.
  - intros u p v [[-> E]|[Hu Ht]]%pc_insert Hb; [by destruct (Hx p v)|by apply H3].
  - intros u p v [[-> E]|[Hu Ht]]%pc_insert; [by apply Hl|by apply (H4 u)].
  - intros u p v [[[-> E]|[Hu Ht]]%pc_insert|[[-> E]|[Hu Ht]]%pc_insert]; [apply (Hk p v); by left|apply Hk'; [done|]; eapply H5; by left|apply (Hk p v); by right|apply Hk'; [done|]; eapply H5; by right].
  - destruct H6 as [H6 H7]. split; [done|]. intros u i [[-> E]|[Hu Ht]]%pc_insert; [by destruct (Hxi i)|by destruct (H7 u i)].
Qed.

Lemma sleep_inv f f' ws lk pc owed t p v d : futex_inv (Machine f ws lk pc owed) -> pc !! t = Some (Loaded p v) -> futex_enqueue f t p d = Some f' ->
  futex_inv (Machine f' ws (delete (futex_hash_key p) lk) (<[t := Waiting p v]> pc) owed).
Proof.
  intros [H1 H2 H3 H4 H5 H6] Hpc E. cbn [m_futexes m_pc m_owed m_lock] in *. pose proof (H5 t p v (or_intror Hpc)) as Hlk. unfold futex_enqueue in E. destruct (f_threads f !! t) as [th|] eqn:Eth; [|done]. cbn [mbind option_bind] in E. injection E as <-.
  assert (Hno : forall b w, w ∈ bucket f b -> fw_thread w <> t) by (intros b w Hw <-; destruct (H1 b w Hw) as [_ [u Hu]]; congruence).
  split; cbn [m_futexes m_pc m_owed m_lock].
  - intros b w. rewrite bucket_insert. intros Hw. assert (Hcase : w = FutexWaiter p t /\ b = futex_hash_key p \/ w ∈ bucket f b) by (case_decide as Hd; [subst b; apply elem_of_cons in Hw as [->|Hw]; [by left|by right]|by right]).
    destruct Hcase as [[-> ->]|Hw']; [split; [done|]; exists v; by rewrite lookup_insert_eq|]. destruct (H1 b w Hw') as [Hb [u Hu]]. split; [done|]. exists u. rewrite lookup_insert_ne; [done|]. apply not_eq_sym. by apply (Hno b).
  - intros b. rewrite bucket_insert. case_decide as Hd; [|apply H2]. subst b. cbn. apply NoDup_cons. split; [|apply H2]. intros (w & Ht & Hw)%list_elem_of_fmap. by apply (Hno _ w Hw).
  - intros u q x [[-> [= -> ->]]|[Hu Hq]]%pc_insert Hb.
    + split; [rewrite bucket_insert, decide_True by done; left|]. by apply (H4 t).
    + assert (Hb' : blocked (f_threads f) u) by (unfold thread_blocked, blocked in *; cbn in Hb; by rewrite lookup_insert_ne in Hb). destruct (H3 u q x Hq Hb') as [Hin Hw]. split; [|done]. rewrite bucket_insert. case_decide as Hd; [|done]. right. by rewrite <- Hd.
  - intros u q x [[-> ?]|[Hu Hq]]%pc_insert; [done|by apply (H4 u)].
  - intros u q x Hq. assert (Hq' : u <> t /\ (pc !! u = Some (Locked q x) \/ pc !! u = Some (Loaded q x))) by (destruct Hq as [[[-> ?]|[? ?]]%pc_insert|[[-> ?]|[? ?]]%pc_insert]; naive_solver). destruct Hq' as [Hu Hq']. pose proof (H5 u q x Hq') as Hl. rewrite lookup_delete_ne; [done|]. congruence.
  - destruct H6 as [H6 H7]. split; [done|]. intros u i [[-> ?]|[Hu Ht]]%pc_insert; [done|by destruct (H7 u i)].
Qed.

Lemma unlink_elem l t w : NoDup (fw_thread <$> l) -> w ∈ unlink_waiter l t <-> w ∈ l /\ fw_thread w <> t.
Proof.
  induction l as [|x l IH]; intros Hn; cbn [unlink_waiter]; [set_solver|]. cbn in Hn. apply NoDup_cons in Hn as [Hx Hn]. destruct (Z.eqb_spec (fw_thread x) t) as [Ht|Ht].
  - split; [intros Hw; split; [by right|]; intros Hwt; apply Hx; apply list_elem_of_fmap; exists w; split; [congruence|done]|intros [[->|Hw]%elem_of_cons ?]; [done|done]].
  - rewrite !elem_of_cons, IH by done. naive_solver.
Qed.

Lemma unlink_sublist l t : unlink_waiter l t `sublist_of` l.
Proof. induction l as [|x l IH]; cbn [unlink_waiter]; [done|]. case_match; [by apply sublist_cons|by apply sublist_skip]. Qed.

Lemma timer_inv f ws lk pc owed t th : futex_inv (Machine f ws lk pc owed) -> futex_inv (Machine (Futexes (<[t := make_ready th]> (f_threads f)) (futex_hash f) (futex_initialized f)) ws lk pc owed).
Proof. intros [H1 H2 H3 H4 H5 H6]. split; [exact H1|exact H2| |exact H4|exact H5|exact H6]. intros u p v Hu [Hb _]%blocked_insert_ready. by apply H3. Qed.

Lemma leave_inv f ws lk pc owed t p v : futex_inv (Machine f ws lk pc owed) -> pc !! t = Some (Waiting p v) -> futex_inv (Machine (futex_leave f t p) ws lk (<[t := Outside]> pc) owed).
Proof.
  intros [H1 H2 H3 H4 H5 H6] Hpc. cbn [m_futexes m_pc m_owed m_lock] in *. unfold futex_leave, with_bucket.
  assert (Hin : forall b w, w ∈ bucket (Futexes (f_threads f) (<[futex_hash_key p := unlink_waiter (bucket f (futex_hash_key p)) t]> (futex_hash f)) (futex_initialized f)) b <-> w ∈ bucket f b /\ fw_thread w <> t).
  { intros b w. rewrite bucket_insert. case_decide as Hd; [subst b; by apply unlink_elem|]. split; [|by intros [? _]]. intros Hw. split; [done|]. intros <-. destruct (H1 b w Hw) as [Hb [u Hu]]. rewrite Hpc in Hu. injection Hu as Hu _. apply Hd. by rewrite <- Hb, Hu. }
  split; cbn [m_futexes m_pc m_owed m_lock].
  - intros b w [Hw Ht]%Hin. destruct (H1 b w Hw) as [Hb [u Hu]]. split; [done|]. exists u. by rewrite lookup_insert_ne.
  - intros b. rewrite bucket_insert. case_decide; [|apply H2]. eapply sublist_NoDup; [apply H2|]. apply fmap_sublist, unlink_sublist.
  - intros u q x [[-> ?]|[Hu Hq]]%pc_insert Hb; [done|]. destruct (H3 u q x Hq Hb) as [Hw Hv]. split; [|done]. by apply Hin.
  - intros u q x [[-> ?]|[Hu Hq]]%pc_insert; [done|by apply (H4 u)].
  - intros u q x [[[-> ?]|[Hu Hq]]%pc_insert|[[-> ?]|[Hu Hq]]%pc_insert]; try done; eapply H5; [by left|by right].
  - destruct H6 as [H6 H7]. split; [done|]. intros u i [[-> ?]|[Hu Ht]]%pc_insert; [done|by destruct (H7 u i)].
Qed.

Lemma wake_inv f ws lk pc owed p n : futex_inv (Machine f ws lk pc owed) -> p <> 0 -> 0 <= n < 2 ^ 32 -> lk !! futex_hash_key p = None ->
  futex_inv (Machine (futex_wake f p n).2 ws lk pc (if decide (zlen (waiters f p) <= n) then owed ∖ {[p]} else owed)).
Proof.
  intros [H1 H2 H3 H4 H5 H6] Hp Hn Hlk. cbn [m_futexes m_pc m_owed m_lock] in *. unfold futex_wake, futex_init_once. rewrite (proj1 H6), (proj2 (Z.eqb_neq p 0)) by done.
  destruct (wake_waiters (bucket f (futex_hash_key p)) p n 0 (f_threads f)) as [[l' w'] ts'] eqn:E. destruct (wake_waiters_ok _ _ _ _ _ _ _ _ E ltac:(lia) ltac:(lia)) as (W1 & W2 & W3 & W4 & _). cbn [snd].
  assert (Hsub : forall b w, w ∈ bucket (Futexes ts' (<[futex_hash_key p := l']> (futex_hash f)) (futex_initialized f)) b -> w ∈ bucket f b) by (intros b w; rewrite bucket_insert; case_decide as Hd; [subst b; intros Hw; by eapply elem_of_sublist|done]).
  assert (Howed : forall q x, default 0 (ws !! q) = x \/ q ∈ owed -> q <> p \/ ~ zlen (waiters f p) <= n -> default 0 (ws !! q) = x \/ q ∈ (if decide (zlen (waiters f p) <= n) then owed ∖ {[p]} else owed)) by (intros q x [?|?] Hq; [by left|right]; case_decide; set_solver).
  split; cbn [m_futexes m_pc m_owed m_lock].
  - intros b w Hw. by apply H1, Hsub.
  - intros b. rewrite bucket_insert. destruct (decide (b = futex_hash_key p)); [|apply H2]. eapply sublist_NoDup; [apply H2|]. by apply fmap_sublist.
  - intros t q v Ht Hb. change (blocked ts' t) in Hb. pose proof (W3 t Hb) as Hb0. destruct (H3 t q v Ht Hb0) as [Hin Hw].
    assert (Hin' : FutexWaiter q t ∈ bucket (Futexes ts' (<[futex_hash_key p := l']> (futex_hash f)) (futex_initialized f)) (futex_hash_key q)).
    { rewrite bucket_insert. destruct (decide (futex_hash_key q = futex_hash_key p)) as [Hd|Hd]; [|done]. rewrite Hd in Hin. destruct (decide (FutexWaiter q t ∈ l')) as [|Hout]; [done|]. by destruct (W2 _ Hin Hout). }
    split; [done|]. apply Howed; [done|]. destruct (decide (q = p)) as [->|]; [right|by left]. intros Hle. rewrite bucket_insert, decide_True in Hin' by done. by apply (W4 Hle _ Hin').
  - intros t q v Ht. apply Howed; [by apply (H4 t)|]. left. intros ->. pose proof (H5 t p v (or_intror Ht)). congruence.
  - exact H5.
  - exact H6.
Qed.

Lemma futex_step_inv m m' : futex_step m m' -> futex_inv m -> futex_inv m'.
Proof.
  intros Hs H. destruct Hs as [f ws lk pc owed t p x Hpc|f ws lk pc owed t Hpc Hth Hb|f ws lk pc owed t i Hpc Hi|f ws lk pc owed t i Hpc Hi|f ws lk pc owed t p v Hpc Hp Hlk|f ws lk pc owed t p v Hpc Hne|f ws lk pc owed t p v Hpc Hw|f f' ws lk pc owed t p v d Hpc E|f ws lk pc owed t th Hth Hst|f ws lk pc owed t p v Hpc Hb Hlk|f ws lk pc owed t p n Hpc Hp Hn Hlk].
  - by apply store_inv.
  - rewrite (proj1 (fi_ready _ H) : futex_initialized f = true). apply (move_inv f ws lk); [done|intros q x Hq; by rewrite Hq in Hpc|done|done|done|by intros q x [?|?]|done].
  - by destruct (proj2 (fi_ready _ H) t i).
  - by destruct (proj2 (fi_ready _ H) t i).
  - apply (move_inv f ws lk); [done|intros q x Hq; congruence|done|done|done| |].
    + intros q x [[= -> ->]|?]; [by rewrite lookup_insert_eq|done].
    + intros u b Hu Hl. rewrite lookup_insert_ne; [done|]. intros <-. congruence.
  - pose proof (fi_lock _ H t p v (or_introl Hpc)) as Hl. cbn in Hl. apply (move_inv f ws lk); [done|intros q x Hq; congruence|done|done|done|by intros q x [?|?]|]. intros u b Hu Hlu. rewrite lookup_delete_ne; [done|]. intros <-. congruence.
  - pose proof (fi_lock _ H t p v (or_introl Hpc)) as Hl. cbn in Hl. apply (move_inv f ws lk); [done|intros q x Hq; congruence|done|done| | |done].
    + intros q x [= -> ->]. by left.
    + intros q x [?|[= -> ->]]; done.
  - by eapply sleep_inv.
  - by apply timer_inv.
  - by eapply leave_inv.
  - apply (move_inv _ ws lk); [by apply wake_inv|intros q x Hq; congruence|done|done|done|by intros q x [?|?]|done].
Qed.

(** The table has been initialised; no thread is in the call, no lock is held and nobody
    waits. *)
Definition futex_start (m : machine) : Prop :=
  futex_initialized (m_futexes m) = true /\ m_lock m = ∅ /\ m_pc m = ∅ /\ futex_hash (m_futexes m) = ∅.

Lemma futex_start_inv m : futex_start m -> futex_inv m.
Proof.
  intros (Ei & El & Ep & Eb). assert (Hb : forall b, bucket (m_futexes m) b = []) by (intros b; unfold bucket; by rewrite Eb, lookup_empty). split.
  - intros b w. rewrite Hb. by intros ?%not_elem_of_nil.
  - intros b. rewrite Hb. apply NoDup_nil_2.
  - intros t p v. by rewrite Ep, lookup_empty.
  - intros t p v. by rewrite Ep, lookup_empty.
  - intros t p v. by rewrite Ep, !lookup_empty; intros [?|?].
  - split; [done|]. intros t i. by rewrite Ep, lookup_empty.
Qed.


(** ** The first calls *)

Lemma init_run n : forall i f ws lk pc owed t, (i + n = 64)%nat -> pc !! t = Some (Init i) ->
  exists f' lk', rtc futex_step (Machine f ws lk pc owed) (Machine f' ws lk' (<[t := Init 64]> pc) owed) /\ f_threads f' = f_threads f /\
    (forall b, bucket f' b = if decide (Z.of_nat i <= b < 64) then [] else bucket f b) /\ (forall b, lk' !! b = if decide (Z.of_nat i <= b < 64) then None else lk !! b).
Proof.
  induction n as [|n IH]; intros i f ws lk pc owed t Hi Hpc.
  - assert (i = 64%nat) as -> by lia. exists f, lk. rewrite insert_id by done. split; [done|]. split; [done|]. split; intros b; by rewrite decide_False by lia.
  - destruct (IH (S i) (with_bucket f (Z.of_nat i) []) ws (delete (Z.of_nat i) lk) (<[t := Init (S i)]> pc) owed t) as (f' & lk' & Hr & Ht & Hb & Hl); [lia|apply lookup_insert_eq|].
    exists f', lk'. rewrite insert_insert_eq in Hr. split; [eapply rtc_l, Hr; apply step_init_bucket; [done|unfold FUTEX_HASH_SIZE; lia]|]. split; [done|]. split; intros b.
    + rewrite Hb. unfold with_bucket. rewrite bucket_insert. destruct (decide (b = Z.of_nat i)) as [->|Hne]; [rewrite decide_False, decide_True by lia; done|]. destruct (decide (Z.of_nat (S i) <= b < 64)); [by rewrite decide_True by lia|by rewrite decide_False by lia].
    + rewrite Hl. destruct (decide (b = Z.of_nat i)) as [->|Hne]; [rewrite decide_False, decide_True by lia; by rewrite lookup_delete_eq|]. rewrite lookup_delete_ne by done. destruct (decide (Z.of_nat (S i) <= b < 64)); [by rewrite decide_True by lia|by rewrite decide_False by lia].
Qed.

(** A thread in [futex_init_once] runs to its end. *)
Lemma init_all f ws lk pc owed t : pc !! t = Some (Init 0) ->
  exists f' lk', rtc futex_step (Machine f ws lk pc owed) (Machine f' ws lk' (<[t := Entered]> pc) owed) /\ f_threads f' = f_threads f /\ futex_initialized f' = true /\
    forall b, 0 <= b < 64 -> bucket f' b = [] /\ lk' !! b = None.
Proof.
  intros Hpc. destruct (init_run 64 0 f ws lk pc owed t eq_refl Hpc) as (f' & lk' & Hr & Ht & Hb & Hl). exists (Futexes (f_threads f') (futex_hash f') true), lk'. split.
  - eapply rtc_r; [exact Hr|]. rewrite <- (insert_insert_eq pc t Entered (Init 64)). apply (step_init_done f' ws lk' (<[t := Init 64]> pc) owed t 64); [apply lookup_insert_eq|done].
  - split; [done|]. split; [done|]. intros b Hr'. change (bucket (Futexes (f_threads f') (futex_hash f') true) b) with (bucket f' b). rewrite Hb, Hl. by rewrite !decide_True by lia.
Qed.

(** The states of the run below. *)
Definition race_threads : gmap Z thread :=
  {[ 16 := Thread 2 THREAD_RUNNING 0 false 0 0 0 0 16; 32 := Thread 3 THREAD_RUNNING 0 false 0 0 0 0 32; 48 := Thread 4 THREAD_RUNNING 0 false 0 0 0 0 48 ]}.
Definition race_machine : machine := Machine (Futexes race_threads ∅ false) {[ 4096 := 7 ]} ∅ ∅ ∅.

(** The condition that the table is initialised is needed: [futex_init_once] takes no
    lock.  Of two first calls at the same time, one can put its thread to sleep before
    the other empties the buckets: the word is written and woken, and the thread sleeps
    on, in no bucket. *)
Theorem futex_init_race : exists m, rtc futex_step race_machine m /\ m_pc m !! 32 = Some (Waiting 4096 7) /\ thread_blocked m 32 /\
  4096 ∉ m_owed m /\ futex_word m 4096 = 8 /\ FutexWaiter 4096 32 ∉ bucket (m_futexes m) (futex_hash_key 4096).
Proof.
  set (k := futex_hash_key 4096). assert (Hk : 0 <= k < 64) by (vm_compute; split; [discriminate|reflexivity]).
  set (pc0 := <[32 := Init 0]> (<[16 := Init 0]> (∅ : gmap Z futex_pc))).
  destruct (init_all (Futexes race_threads ∅ false) {[ 4096 := 7 ]} ∅ pc0 ∅ 32 eq_refl) as (f1 & lk1 & Hr1 & Ht1 & Hi1 & Hb1).
  assert (H32 : f_threads f1 !! 32 = Some (Thread 3 THREAD_RUNNING 0 false 0 0 0 0 32)) by (rewrite Ht1; reflexivity).
  set (f2 := Futexes (<[32 := set_state THREAD_BLOCKED (Thread 3 THREAD_RUNNING 0 false 0 0 0 0 32)]> (f_threads f1)) (<[k := FutexWaiter 4096 32 :: bucket f1 k]> (futex_hash f1)) (futex_initialized f1)).
  set (pc1 := <[32 := Entered]> pc0). set (pc2 := <[32 := Waiting 4096 7]> (<[32 := Loaded 4096 7]> (<[32 := Locked 4096 7]> pc1))).
  destruct (init_all f2 {[ 4096 := 7 ]} (delete k (<[k := 32]> lk1)) pc2 ∅ 16 eq_refl) as (f3 & lk3 & Hr3 & Ht3 & Hi3 & Hb3). set (pc3 := <[16 := Entered]> pc2) in *.
  assert (Hb32 : blocked (f_threads f3) 32) by (rewrite Ht3; unfold blocked; cbn [f_threads f2]; by rewrite lookup_insert_eq).
  exists (Machine (futex_wake f3 4096 1).2 (<[4096 := 8]> {[ 4096 := 7 ]}) lk3 (<[48 := Outside]> (<[48 := Entered]> pc3)) ((∅ ∪ {[4096]}) ∖ {[4096]})).
  assert (Ew : futex_wake f3 4096 1 = (0, Futexes (f_threads f3) (<[k := []]> (futex_hash f3)) (futex_initialized f3))).
  { unfold futex_wake, futex_init_once. rewrite Hi3. change (4096 =? 0) with false. cbv zeta. fold k. rewrite (proj1 (Hb3 k Hk)). cbn [wake_waiters]. by rewrite Hi3. }
  split; [|rewrite Ew; split; [reflexivity|]; split; [exact Hb32|]; split; [set_solver|]; split; [reflexivity|]; cbn [m_futexes snd]; fold k; rewrite bucket_insert, decide_True by done; apply not_elem_of_nil].
  eapply rtc_l; [apply (step_enter _ _ _ _ _ 16); [reflexivity|eexists; reflexivity|discriminate]|]. eapply rtc_l; [apply (step_enter _ _ _ _ _ 32); [reflexivity|eexists; reflexivity|discriminate]|].
  etrans; [exact Hr1|]. eapply rtc_l; [apply (step_lock _ _ _ _ _ 32 4096 7); [reflexivity|done|by apply Hb1]|]. eapply rtc_l; [apply (step_load _ _ _ _ _ 32 4096 7); reflexivity|].
  eapply rtc_l; [apply (step_sleep f1 f2 _ _ _ _ 32 4096 7 None); [reflexivity|unfold futex_enqueue; rewrite H32; reflexivity]|]. etrans; [exact Hr3|].
  eapply rtc_l; [apply (step_store _ _ _ _ _ 48 4096 8); reflexivity|]. eapply rtc_l; [apply (step_enter _ _ _ _ _ 48); [reflexivity|rewrite Ht3; cbn [f_threads f2]; rewrite Ht1; eexists; reflexivity|rewrite Ht3; cbn [f_threads f2]; rewrite Ht1; discriminate]|].
  rewrite Hi3. apply rtc_once. replace ((∅ ∪ {[4096]}) ∖ {[4096]} : gset Z) with (if decide (zlen (waiters f3 4096) <= 1) then (∅ ∪ {[4096]}) ∖ {[4096]} else (∅ ∪ {[4096]} : gset Z)) by (rewrite decide_True; [done|unfold waiters; fold k; rewrite (proj1 (Hb3 k Hk)); done]).
  apply (step_wake f3 _ _ _ _ 48 4096 1); [reflexivity|done|lia|by apply Hb3].
Qed.

(** ** What a wake does *)

Lemma insert_ready_unblocked ts t th : ts !! t = Some th -> t_state th = THREAD_BLOCKED -> <[t := make_ready th]> ts = unblocked [t] ts.
Proof.
  intros Ht Hb. apply map_eq. intros x. rewrite lookup_unblocked. destruct (decide (x = t)) as [->|Hx]; [rewrite lookup_insert_eq, Ht; cbn; rewrite decide_True by left; unfold unblock; by rewrite decide_True|].
  rewrite lookup_insert_ne by done. destruct (ts !! x); [|done]. cbn. by rewrite decide_False by set_solver.
Qed.

Lemma blocked_unblocked ts l x : x ∉ l -> blocked (unblocked l ts) x <-> blocked ts x.
Proof. intros Hx. unfold blocked. rewrite lookup_unblocked. destruct (ts !! x); [|done]. cbn. by rewrite decide_False. Qed.

Lemma filter_blocked_out (ts : gmap Z thread) x (l : list Z) : x ∉ l -> filter (blocked (unblocked [x] ts)) l = filter (blocked ts) l.
Proof.
  induction l as [|y l IH]; intros Hx; [done|]. pose proof (blocked_unblocked ts [x] y ltac:(set_solver)) as Hy.
  destruct (decide (blocked ts y)); [rewrite !filter_cons_True by tauto|rewrite !filter_cons_False by tauto]; rewrite IH by set_solver; done.
Qed.

Definition of_word (p : Z) (l : list futex_waiter) : list Z := fw_thread <$> filter (fun w => fw_phys w = p) l.

Lemma wake_waiters_spec l p val w ts : NoDup (fw_thread <$> l) -> 0 <= w <= val -> val < 2 ^ 32 ->
  exists l1 l2 n, l = l1 ++ l2 /\ wake_waiters l p val w ts = (filter (fun x => fw_phys x <> p) l1 ++ l2, w + n, unblocked (of_word p l1) ts) /\
    n = zlen (filter (blocked ts) (of_word p l1)) /\ (l2 = [] \/ w + n = val) /\ w + n <= val.
Proof.
  revert w ts. induction l as [|x l IH]; intros w ts Hn Hw Hv; cbn [wake_waiters].
  - exists [], [], 0. split; [done|]. unfold of_word. cbn. rewrite unblocked_nil, Z.add_0_r. split; [done|]. split; [done|]. split; [by left|lia].
  - cbn in Hn. apply NoDup_cons in Hn as [Hx Hn]. destruct (Z.ltb_spec w val) as [Hlt|Hge].
    2: { exists [], (x :: l), 0. split; [done|]. unfold of_word. cbn. rewrite unblocked_nil, Z.add_0_r. split; [done|]. split; [done|]. split; [right; lia|lia]. }
    assert (Hout : forall l1 l2, l = l1 ++ l2 -> fw_thread x ∉ of_word p l1) by (intros l1 l2 -> Hin; apply Hx; rewrite fmap_app; apply elem_of_app; left; unfold of_word in Hin; apply list_elem_of_fmap in Hin as (y & -> & [_ Hy]%list_elem_of_filter); by apply list_elem_of_fmap_2).
    destruct (Z.eqb_spec (fw_phys x) p) as [Hp|Hp].
    + assert (Eo : forall l1, of_word p (x :: l1) = fw_thread x :: of_word p l1) by (intros l1; unfold of_word; by rewrite filter_cons_True). assert (Ef : forall l1, filter (fun y => fw_phys y <> p) (x :: l1) = filter (fun y => fw_phys y <> p) l1) by (intros l1; by rewrite filter_cons_False by naive_solver).
      destruct (decide (blocked ts (fw_thread x))) as [Hb|Hb].
      * pose proof Hb as Hb'. unfold blocked in Hb'. destruct (ts !! fw_thread x) as [th|] eqn:Eth; [|done]. injection Hb' as Hst. rewrite bool_decide_true by done. rewrite u32_small by lia. rewrite (insert_ready_unblocked _ _ _ Eth Hst).
        destruct (IH (w + 1) (unblocked [fw_thread x] ts) Hn ltac:(lia) Hv) as (l1 & l2 & n & -> & -> & En & Hend & Hle). exists (x :: l1), l2, (n + 1). split; [done|]. rewrite Eo, Ef, unblocked_cons. rewrite filter_cons_True by done.
        split; [do 2 f_equal; lia|]. assert (Efl : filter (blocked (unblocked [fw_thread x] ts)) (of_word p l1) = filter (blocked ts) (of_word p l1)) by (apply filter_blocked_out; by apply (Hout l1 l2)).
        rewrite Efl in En. split; [rewrite En; unfold zlen; cbn [length]; lia|]. split; [destruct Hend; [by left|right; lia]|lia].
      * assert (E1 : match ts !! fw_thread x with Some th => if bool_decide (t_state th = THREAD_BLOCKED) then wake_waiters l p val (u32 (w + 1)) (<[fw_thread x:=make_ready th]> ts) else wake_waiters l p val w ts | None => wake_waiters l p val w ts end = wake_waiters l p val w ts).
        { destruct (ts !! fw_thread x) as [th|] eqn:Eth; [|done]. rewrite bool_decide_false; [done|]. intros Hst. apply Hb. unfold blocked. rewrite Eth. cbn. by rewrite Hst. }
        rewrite E1. destruct (IH w ts Hn Hw Hv) as (l1 & l2 & n & -> & -> & En & Hend & Hle). exists (x :: l1), l2, n. split; [done|]. rewrite Eo, Ef. rewrite filter_cons_False by done. rewrite <- unblocked_cons, (unblocked_id _ _ Hb). done.
    + destruct (IH w ts Hn Hw Hv) as (l1 & l2 & n & -> & -> & En & Hend & Hle). exists (x :: l1), l2, n. split; [done|]. unfold of_word in *. rewrite (filter_cons_False (fun w => fw_phys w = p)) by done. rewrite (filter_cons_True (fun y => fw_phys y <> p)) by done. done.
Qed.

(** C22: Waking a word goes through its bucket from the latest waiter on.  It takes out
    the waiters of the word and of no other, makes those of them ready that still sleep,
    and stops when the number asked for has been woken; the result is that number, or
    that of all that slept. *)
Theorem futex_wake_correct {P} (s : pg P) current load f t uaddr op_val val_arg timeout ticks p : p = futex_get_phys s current uaddr -> p <> 0 ->
  Z.land op_val FUTEX_CMD_MASK = FUTEX_WAKE -> NoDup (fw_thread <$> bucket (futex_init_once f) (futex_hash_key p)) ->
  exists l1 l2 f', let n := zlen (filter (blocked (f_threads f)) (of_word p l1)) in
    sys_futex s current load f t uaddr op_val val_arg timeout ticks = Some (Some n, f') /\
    bucket (futex_init_once f) (futex_hash_key p) = l1 ++ l2 /\ n <= u32 val_arg /\ (l2 = [] \/ n = u32 val_arg) /\
    bucket f' (futex_hash_key p) = filter (fun w => fw_phys w <> p) l1 ++ l2 /\ (forall b, b <> futex_hash_key p -> bucket f' b = bucket (futex_init_once f) b) /\
    f_threads f' = unblocked (of_word p l1) (f_threads f).
Proof.
  intros Ep Hp Hop Hd. assert (Et : f_threads (futex_init_once f) = f_threads f) by (unfold futex_init_once; by destruct (futex_initialized f)). pose proof (u32_range val_arg) as Hn.
  destruct (wake_waiters_spec _ p (u32 val_arg) 0 (f_threads f) Hd ltac:(lia) ltac:(lia)) as (l1 & l2 & r & El & E & Er & Hend & Hle). exists l1, l2.
  eexists. unfold sys_futex, futex_wake. rewrite Hop, <- Ep, Et, (proj2 (Z.eqb_neq p 0)), E by done. rewrite Z.add_0_l in *. cbn zeta. rewrite <- Er. split; [reflexivity|]. split; [done|]. split; [done|]. split; [done|].
  split; [by rewrite bucket_insert, decide_True|]. split; [|done]. intros b Hb. by rewrite bucket_insert, decide_False.
Qed.

(** ** A thread goes to sleep *)

Definition demo_futexes : futexes := Futexes {[ 16 := Thread 2 THREAD_RUNNING 0 false 0 0 0 0 16 ]} ∅ true.
Definition demo_asleep : futexes :=
  Futexes {[ 16 := Thread 2 THREAD_BLOCKED 0 false 0 0 0 0 16 ]} {[ futex_hash_key 4096 := [FutexWaiter 4096 16] ]} true.
Definition demo_machine : machine := Machine demo_futexes {[ 4096 := 7 ]} ∅ ∅ ∅.
Definition demo_machine' : machine :=
  Machine demo_asleep {[ 4096 := 7 ]} (delete (futex_hash_key 4096) (<[futex_hash_key 4096 := 16]> ∅)) (<[16 := Waiting 4096 7]> (<[16 := Loaded 4096 7]> (<[16 := Locked 4096 7]> (<[16 := Entered]> ∅)))) ∅.

Lemma demo_sleep_steps : rtc futex_step demo_machine demo_machine'.
Proof.
  eapply rtc_l; [apply (step_enter demo_futexes _ _ _ _ 16); [reflexivity|eexists; reflexivity|discriminate]|].
  eapply rtc_l; [apply (step_lock demo_futexes _ _ _ _ 16 4096 7); [reflexivity|discriminate|reflexivity]|].
  eapply rtc_l; [apply (step_load _ _ _ _ _ 16 4096 7); reflexivity|]. eapply rtc_l; [apply (step_sleep demo_futexes demo_asleep _ _ _ _ 16 4096 7 None); reflexivity|]. apply rtc_refl.
Qed.


(** The page at [demo_va] is mapped, and lies in a region of the thread. *)
Definition demo_word : Z := 0x10b010.
Definition demo_current : option (Z * vma_list) :=
  Some (demo_root, VmaList (Node 16 (VmaData demo_va (demo_va + 0x1000) 3 0x22 (-1) 0) (demo_va + 0x1000) 1 Leaf Leaf) 1).
Definition demo_two : futexes :=
  Futexes {[ 16 := Thread 2 THREAD_BLOCKED 0 false 0 0 0 0 16; 32 := Thread 3 THREAD_BLOCKED 0 false 0 0 0 0 32 ]}
    {[ futex_hash_key demo_word := [FutexWaiter demo_word 32; FutexWaiter demo_word 16] ]} true.

Lemma futex_wake_correct_witness : exists l1 (l2 : list futex_waiter) f', let n := zlen (filter (blocked (f_threads demo_two)) (of_word demo_word l1)) in
  sys_futex demo_mapped demo_current (fun _ => 0) demo_two 48 (demo_va + 16) 129 1 None 0 = Some (Some n, f') /\ n <= 1 /\ (l2 = [] \/ n = 1).
Proof.
  destruct (futex_wake_correct demo_mapped demo_current (fun _ => 0) demo_two 48 (demo_va + 16) 129 1 None 0 demo_word) as (l1 & l2 & f' & E & _ & H1 & H2 & _);
    [vm_compute; reflexivity|discriminate|reflexivity|apply (bool_decide_unpack _); vm_compute; exact I|]. exists l1, l2, f'. split; [exact E|split; [exact H1|exact H2]].
Defined.
